(* ===== verification/_CoqProject ===== *)
-Q . S2P
Prelude.v
Schema.v
External.v
Memory.v
Frame.v
RateLimit.v
Rpc.v
Regex.v
Scanner.v
Text.v
Rx.v
Hex.v
Utf8.v
Links.v
Markdown.v
Helpers.v
Sms.v
Telegram.v
Unsubscribe.v
Channels.v
Template.v
UnsubscribeApi.v
TemplateStore.v
Sanitizer.v
Mjml.v
Domains.v
Queue.v
Routing.v
Enclave.v
Bot.v
Webhook.v
WebhookApi.v
Billing.v
Dispatcher.v
Digest.v
Worker.v
Bounce.v
Inbound.v
Sandbox.v
Subscriptions.v
Classifier.v
Notify.v
Campaigns.v
NotifyApi.v
Playground.v
Auth.v
Receipt.v
Scheduler.v
Portal.v
RequestLog.v
Analytics.v
Config.v
Mail.v
Http.v
Chain.v
Checkout.v
Prompt.v
Validation.v
Bodies.v
Gateway.v
Endpoints.v
Journey.v
Modules.v
Startup.v
