(* ===== verification/Prelude.v ===== *)
(** * Herald notification gateway: verification library

    Herald's gateway (src/, NestJS) accepts notifications from protocols over
    HTTP, authenticates and rate-limits them, scans their content, queues them
    with BullMQ, and delivers them by email, Telegram and SMS to the contacts
    a wallet has registered; around that it runs digests, schedules, webhooks,
    bounces and unsubscriptions, on-chain receipts, billing, and a sandbox.
    This library models that core and proves what makes it correct.

    ** How the program is modelled

    An [async] method is a function of type [M W A]: from the state of the
    outside world [W] to a settled promise ([result A]: a value, or what it
    rejects with) and a new state.  [try/catch] is [catch], [.catch(() => d)]
    is [swallow], [Promise.allSettled] is [all_settled], loops are [for_each]
    and [fold_each]; all methods are total functions, so every theorem stated
    with [wp] is one of total correctness.

    PostgreSQL behind Prisma, Redis, BullMQ and the delivery networks are not
    code of the repository.  They are classes of operations over an abstract
    state, with laws that state their documented behaviour ([External]): an
    operation does what it says or rejects without effect, whenever it likes
    (a message may have left before its send rejects).  Theorems quantify over
    every implementation of the laws, so over every schedule of failures.
    [Memory] is an executable implementation that satisfies all laws, on which
    the witnesses and examples run.

    ** Files

    - [Prelude]: results, the monad, weakest preconditions, generic lemmas.
    - [Schema]: the rows of prisma/schema.prisma that are used, the job data
      and the types of src/common/types.
    - [External], [Memory], [Frame]: the services, an implementation, and the
      tactics [keeps], [rows] and [returns] for what a method may touch, down to
      the rows it may change and how, and return.
    - [RateLimit]: modules/auth/rate-limit.*.ts and the interceptor.
    - [Rpc]: solana/rpc-manager.service.ts, a state machine.
    - [Regex], [Scanner]: regular expressions by derivatives, and
      modules/notify/content-scanner.service.ts on top of them.
    - [Text], [Rx], [Hex], [Utf8]: strings as code units, ECMAScript's matcher
      with captures, hexadecimal, and the bytes of a text.
    - [Links], [Markdown]: common/utils/link-parser.ts, and the Markdown of
      Telegram texts; [Helpers]: the Handlebars helpers.
    - [Sms], [Telegram]: the providers of modules/channel/providers.
    - [Template], [TemplateStore], [Sanitizer], [Mjml]: modules/template, the
      rendering, the stored templates and their versions, the sanitizers, and
      the compiler with its cache.
    - [Channels]: modules/channel/channel-dispatch.service.ts.
    - [Unsubscribe], [UnsubscribeApi]: the tokens of
      modules/notify/unsubscribe.service.ts, and the pages that redeem them.
    - [Enclave]: modules/routing/enclave.service.ts and modules/enclave;
      [Domains]: modules/domain; [Bot]: modules/telegram.
    - [Queue], [Routing], [Billing], [Bounce], [Sandbox], [Subscriptions],
      [Classifier], [Notify], [Auth], [Receipt], [Scheduler]: the services (and
      workers) of those names.
    - [Webhook], [WebhookApi]: modules/webhook, the dispatch and the worker;
      the endpoints with common/crypto/webhook-crypto.ts.
    - [Dispatcher], [Digest], [Worker]: the workers of modules/queue/workers.
      They are proved against the classes [Routing], [Dispatcher] and
      [Webhooks], which the files of the services instantiate.
    - [Inbound]: modules/sqs and the webhook of Resend, which feed [Bounce].
    - [Campaigns], [NotifyApi], [Playground], [Portal]: modules/admin and
      modules/campaign, the batch and the preview of
      modules/notify/notify.controller.ts, modules/sandbox/sandbox.controller.ts,
      and the controllers of the portal with modules/protocol.
    - [RequestLog], [Analytics]: the interceptor that logs requests and the
      inspector that reads them back; modules/analytics.
    - [Config]: config/, and the connections of modules/redis, app.module.ts
      and database/prisma.service.ts.
    - [Mail]: modules/mail, the three providers.
    - [Http]: the exception filter, the global interceptors, the pipes and
      pages of common/, and the two status pages.
    - [Chain]: solana/solana.service.ts on the state of [Rpc], the clients of
      modules/receipt, modules/billing/onchain and the devnet, and storage/.
    - [Checkout]: the checkout links, tiers and payment history of
      modules/billing; [Prompt]: the prompt and the answer of the classifier.
    - [Validation], [Bodies]: the global ValidationPipe of main.ts on the
      classes of modules/notify/dto, and on those of the other endpoints.
    - [Gateway], [Endpoints], [Journey]: the controllers, composed of guards,
      rate limiter, validation and services in the order Nest runs them; and a
      request followed through the queue to the end of its delivery.
    - [Modules], [Startup]: the graph of Nest's modules (the *.module.ts files)
      with what each class injects, and the two processes that main.ts and
      worker-main.ts start from it.

    A section variable or the field of a configuration record stands for what
    a component gets from outside: settings, random values, cryptography, the
    Solana programs, the language model, Handlebars, MJML and DOMPurify, the
    Bot API's queries, DNS, JSON and date parsing.  Where it stands for another
    component of src/ (Markdown and templates in [Channels], [Sms] and
    [Telegram], the enclave in [Routing]), that component has a file of its
    own.  An identifier that the source draws at random is an argument of the
    method.

    ** What is proved

    - Accepting ([Notify], [NotifyApi], [Campaigns], [Playground]): what a
      production, sandbox, broadcast, batch or campaign request creates and
      queues for each status it answers; idempotency keys; campaigns launched
      or cancelled once.
    - Delivering ([Channels], [Worker], [Digest], [Scheduler]): the channels a
      notification may use; one outcome per channel whatever fails; the final
      state and the count of a run; digests by wallet; schedules.
    - The whole way ([Gateway], [Journey]): a request is refused with nothing
      but Redis touched (and, for want of a subscription, a checkout asked for
      at Helio), or it had an accountable principal, the scope, a
      subscription in good standing and a valid body, and did what its answer
      says; what was answered as queued is settled when its job is run.
    - Access ([Auth], [Billing], [RateLimit], [Sandbox], [Unsubscribe],
      [UnsubscribeApi], [Portal], [Endpoints]): whom the guards let through
      and for how long; subscriptions in good standing; windows and quotas;
      tokens, issued and forged; preferences and histories that belong to one
      wallet; scopes that nobody has.
    - The edges ([Config], [Http], [Validation], [Bodies], [Mail], [Chain],
      [Checkout], [Prompt]): settings of their types and where they come from;
      one answer and one log line for each request, in time; what an accepted
      body is, nested ones included; one payload for each mail; which RPC is
      asked and who signs; what the model sees.
    - The processes ([Modules], [Startup]): every class that is constructed
      finds what it injects; when the server listens and when the worker
      runs; which scheduled job runs how often, and so how many digests a
      wallet gets.
    - Secrets ([Enclave], [WebhookApi], [RequestLog]): channels, recipients'
      keys and webhook secrets round trip; a request to the enclave settles,
      once, and is answered however its response is cut between characters;
      deliveries are signed with the secret their webhook holds, and no new
      one can be stored; what the request log redacts, exactly.
    - Text ([Scanner], [Sms], [Telegram], [Links], [Markdown]): the scanner in
      closed form against the language of its expressions; limits of the
      message formats; the link parser against the one reading of a text.
    - Templates ([Template], [TemplateStore], [Sanitizer], [Mjml]): rendering
      with a cache refines rendering without; the footer; one default per
      category; versions kept; what the sanitizers leave, and the URL
      validator against a reference.
    - Accounting ([Billing], [Analytics]): metering and activation all or
      nothing; each payment event queued once; what the daily reset leaves;
      reports that add up.
    - Feedback ([Bounce], [Inbound], [Webhook], [Receipt], [Subscriptions],
      [Classifier], [Bot]): the step each mail event takes, from the queue it
      arrives by; webhook attempts and the disabling of failing ones; the
      receipt scan; audience and moderation; who can link a group, mute
      buttons, the migration to a protocol's own bot.
    - Infrastructure ([Rpc], [Routing], [Domains]): the circuit breaker's
      invariant; what the identity cache keeps; keys, DNS checks and BIMI.

    Where the code does not do what it means to, a theorem or an example says
    what it does: the interceptor that reads the wrong principal, the cached
    identity that loses its key, the suppression cleared before a dispatch,
    the bounces taken for duplicates, the recurring schedule that sends once,
    and others, each next to the model of its component.

    ** Conventions and simplifications

    A method runs at one instant [now] (milliseconds since the epoch), and
    date arithmetic is in UTC.  Promises started together run in the order
    they are started; one that is not awaited runs where it is started, and
    its rejection is dropped.  [createMany] and [$transaction] are all or
    nothing; where prisma/schema.prisma limits or cascades a write that the
    code makes, the operation does ([WebhookApi]).  A relation that a query
    includes is read with the query.  Log
    lines and the texts of error messages that nothing reads are left out.  A
    string of the data model holds code units below 256 (a literal beyond
    Latin-1 stands for its UTF-8 bytes); where lengths matter ([Text]) a text
    is a list of UTF-16 code units.  Numbers are [Z]: the counters and amounts
    are BigInt columns or stay far below 2^53, and the floats,
    rates and percentages, are binary64 numbers, rounded as JavaScript does.

    ** Fuel

    The cut of an overlong line ([Telegram.hard_cut]), the rewriting of links
    ([Channels.wrap_links]), repetition and global search
    ([Rx.repeat_match], [Rx.segments_from], [Rx.search_from]), the lines of a key
    ([Domains.chunks64]) and the batches of a migration ([Bot.batches]) recurse
    on the length of what they consume; each step consumes at least one unit,
    so it is never exhausted.  The loops over [SCAN] ([Bot.clear_loop],
    [Bot.clear_pattern]) end with the server's iteration, whose length the laws
    of [External] bound: the fuel is an argument, and enough of it gives the
    answer.  [Modules.reach] walks the imports of a process in 400 steps, which
    are enough ([Modules.processes_closed]).  [Regex.re_match] needs none.

    ** Not modelled

    The construction of receipts' proofs and transactions and of the
    instructions for renewals, which is the Herald SDK's; the bodies that are
    empty or only log (the listener and the synchronisation of the chain, the
    confirmation mail of a subscription); the classes of responses, which
    nothing validates; the metrics page and the documentation pages; the
    columns of the schema that no modelled code reads.  What a step of the
    start does inside Nest, Express and the libraries is theirs.  Scripts and
    tests are not part of the gateway. *)

From Stdlib Require Export ZArith Lia Sorted.
From coqutil Require Export Datatypes.RecordSettersUsingExistingGetters.
From stdpp Require Export gmap strings list fin_maps option.

#[export] Set Default Goal Selector "!".
#[global] Arguments RecordSettersUsingExistingGetters.const {E} newValue _ /.
Open Scope Z_scope.

(** ** JavaScript values the components share *)

(** What an [async] method rejects with: a plain [Error] (or a driver error,
    which carries a [code]) or one of Nest's [HttpException] subclasses, with
    its status and the [error] field of its body. *)
Inductive exn : Type :=
| JsError (message : string) (code : option string)
| HttpError (status : Z) (error : string).

#[export] Instance exn_eq_dec : EqDecision exn.
Proof. solve_decision. Defined.

Definition err_message (e : exn) : string :=
  match e with JsError m _ => m | HttpError _ m => m end.

(** A settled promise. *)
Inductive result (A : Type) : Type :=
| Ok (a : A)
| Err (e : exn).
Arguments Ok {A} a.
Arguments Err {A} e.

#[export] Instance result_eq_dec {A} `{!EqDecision A} : EqDecision (result A).
Proof. solve_decision. Defined.

Definition is_ok {A} (r : result A) : bool :=
  match r with Ok _ => true | Err _ => false end.

(** [if (s)] on a [string | undefined | null]: the empty string is falsy. *)
Definition truthy (s : option string) : bool :=
  match s with
  | Some EmptyString | None => false
  | Some _ => true
  end.

(** [o?.f] for a nullable field, and [!!o?.f] for a boolean one. *)
Definition chain {A B} (f : A → option B) (o : option A) : option B :=
  match o with Some a => f a | None => None end.
Definition chain_bool {A} (f : A → bool) (o : option A) : bool :=
  match o with Some a => f a | None => false end.

(** [Math.ceil(a / b)] for integers and [b > 0]. *)
Definition ceil_div (a b : Z) : Z := - ((- a) / b).

(** Strings in the order the source writes its template literals. *)
Notation "a +:+ b" := (String.append a b) (at level 60, right associativity).

(** [x ?? d] is stdpp's [default d x]. *)

(** ** A state and exception monad *)

(** An [async] method run to completion: a settled promise and the state of
    the outside world. *)
Definition M (W A : Type) : Type := W → result A * W.

#[export] Instance M_ret W : MRet (M W) := λ A a w, (Ok a, w).
#[export] Instance M_bind W : MBind (M W) := λ A B k m w,
  match m w with
  | (Ok a, w') => k a w'
  | (Err e, w') => (Err e, w')
  end.

#[global] Arguments M_ret : simpl never.
#[global] Arguments M_bind : simpl never.

Definition raise {W A} (e : exn) : M W A := λ w, (Err e, w).

(** A synchronous computation that may throw. *)
Definition lift {W A} (r : result A) : M W A := λ w, (r, w).

(** [try { m } catch (e) { h(e) }] *)
Definition catch {W A} (m : M W A) (h : exn → M W A) : M W A := λ w,
  match m w with
  | (Ok a, w') => (Ok a, w')
  | (Err e, w') => h e w'
  end.

(** [promise.catch(() => d)] *)
Definition swallow {W A} (d : A) (m : M W A) : M W A := catch m (λ _, mret d).

(** [Promise.allSettled]: the promises are run in the order they are created. *)
Fixpoint all_settled {W A} (ms : list (M W A)) : M W (list (result A)) :=
  match ms with
  | [] => mret []
  | m :: ms' => λ w,
      let '(r, w1) := m w in
      match all_settled ms' w1 with
      | (Ok rs, w2) => (Ok (r :: rs), w2)
      | (Err e, w2) => (Err e, w2)
      end
  end.

(** [for (const x of xs) await f(x)] *)
Fixpoint for_each {W X} (f : X → M W ()) (xs : list X) : M W () :=
  match xs with
  | [] => mret ()
  | x :: xs' => _ ← f x; for_each f xs'
  end.

(** The same loop with an accumulator the body updates. *)
Fixpoint fold_each {W X S} (f : S → X → M W S) (s : S) (xs : list X) : M W S :=
  match xs with
  | [] => mret s
  | x :: xs' => s' ← f s x; fold_each f s' xs'
  end.

(** ** Weakest preconditions *)

(** [wp m Q w]: run from [w], the method settles in a result and a world
    that satisfy [Q].  Methods are total functions, so this is total
    correctness. *)
Definition wp {W A} (m : M W A) (Q : result A → W → Prop) (w : W) : Prop :=
  let '(r, w') := m w in Q r w'.
#[global] Arguments wp : simpl never.

Section wp_rules.
Context {W : Type}.

Lemma wp_ret {A} (a : A) (Q : result A → W → Prop) w :
  Q (Ok a) w → wp (mret a) Q w.
Proof. done. Qed.

Lemma wp_raise {A} e (Q : result A → W → Prop) w :
  Q (Err e) w → wp (raise e) Q w.
Proof. done. Qed.

Lemma wp_lift {A} (x : result A) (Q : result A → W → Prop) w : Q x w → wp (lift x) Q w.
Proof. done. Qed.

Lemma wp_bind {A B} (m : M W A) (k : A → M W B) Q w :
  wp m (λ r w', match r with
                | Ok a => wp (k a) Q w'
                | Err e => Q (Err e) w'
                end) w →
  wp (m ≫= k) Q w.
Proof.
  unfold wp, mbind, M_bind. destruct (m w) as [[a | e] w']; done.
Qed.

Lemma wp_catch {A} (m : M W A) h Q w :
  wp m (λ r w', match r with
                | Ok a => Q (Ok a) w'
                | Err e => wp (h e) Q w'
                end) w →
  wp (catch m h) Q w.
Proof. unfold wp, catch. destruct (m w) as [[a | e] w']; done. Qed.

Lemma catch_wp {A} (m : M W A) h Q w :
  wp (catch m h) Q w →
  wp m (λ r w', match r with
                | Ok a => Q (Ok a) w'
                | Err e => wp (h e) Q w'
                end) w.
Proof. unfold wp, catch. destruct (m w) as [[a | e] w']; done. Qed.

Lemma wp_swallow {A} (d : A) (m : M W A) Q w :
  wp m (λ r w', Q (Ok (match r with Ok a => a | Err _ => d end)) w') w →
  wp (swallow d m) Q w.
Proof.
  intros H. apply wp_catch. revert H. unfold wp.
  destruct (m w) as [[a | e] w']; done.
Qed.

Lemma wp_mono {A} (m : M W A) (Q Q' : result A → W → Prop) w :
  wp m Q w → (∀ r w', Q r w' → Q' r w') → wp m Q' w.
Proof. unfold wp. destruct (m w). eauto. Qed.

Lemma wp_and {A} (m : M W A) (Q Q' : result A → W → Prop) w :
  wp m Q w → wp m Q' w → wp m (λ r w', Q r w' ∧ Q' r w') w.
Proof. unfold wp. destruct (m w). done. Qed.

(** A [wp] statement read on the run itself. *)
Lemma wp_run {A} (m : M W A) Q w r w' : wp m Q w → m w = (r, w') → Q r w'.
Proof. unfold wp. intros H Hm. by rewrite Hm in H. Qed.

Lemma wp_at {A} (m : M W A) Q w r : wp m Q w → (m w).1 = r → Q r (m w).2.
Proof. unfold wp. destruct (m w). by intros H <-. Qed.

Lemma wp_intro {A} (m : M W A) (Q : result A → W → Prop) w :
  (∀ r w', m w = (r, w') → Q r w') → wp m Q w.
Proof. unfold wp. destruct (m w). eauto. Qed.

(** A step that is known not to reject. *)
Lemma wp_is_ok {A} (m : M W A) (Q : result A → W → Prop) w :
  is_ok (m w).1 = true → wp m (λ r w', is_ok r = true → Q r w') w → wp m Q w.
Proof. unfold wp. destruct (m w). auto. Qed.

(** The loop rule: an invariant indexed by what is left to do. *)
Lemma wp_for_each {X} (f : X → M W ()) (I : list X → W → Prop)
    (Q : result () → W → Prop) xs w :
  I xs w →
  (∀ x xs' w', I (x :: xs') w' →
     wp (f x) (λ r w'', match r with
                        | Ok _ => I xs' w''
                        | Err e => Q (Err e) w''
                        end) w') →
  (∀ w', I [] w' → Q (Ok ()) w') →
  wp (for_each f xs) Q w.
Proof.
  intros HI Hstep Hend. revert w HI.
  induction xs as [|x xs IH]; intros w HI; [by apply wp_ret, Hend |].
  apply wp_bind. eapply wp_mono; [by apply Hstep |].
  intros [[] | e] w'; eauto.
Qed.

Lemma wp_fold_each {X S} (f : S → X → M W S) (I : S → list X → W → Prop)
    (Q : result S → W → Prop) s xs w :
  I s xs w →
  (∀ s' x xs' w', I s' (x :: xs') w' →
     wp (f s' x) (λ r w'', match r with
                        | Ok s'' => I s'' xs' w''
                        | Err e => Q (Err e) w''
                        end) w') →
  (∀ s' w', I s' [] w' → Q (Ok s') w') →
  wp (fold_each f s xs) Q w.
Proof.
  intros HI Hstep Hend. revert s w HI.
  induction xs as [|x xs IH]; intros s w HI; [by apply wp_ret, Hend |].
  apply wp_bind. eapply wp_mono; [by apply Hstep |].
  intros [s' | e] w'; eauto.
Qed.

Lemma all_settled_ok {A} (ms : list (M W A)) w :
  ∃ rs w', all_settled ms w = (Ok rs, w') ∧ length rs = length ms.
Proof.
  revert w. induction ms as [|m ms IH]; intros w; [by exists [], w |].
  cbn. destruct (m w) as [r w1]. destruct (IH w1) as (rs & w2 & -> & Hlen).
  exists (r :: rs), w2. cbn. by rewrite Hlen.
Qed.

Lemma wp_all_settled {A} (ms : list (M W A)) (I : list (result A) → list (M W A) → W → Prop)
    (Q : result (list (result A)) → W → Prop) w :
  I [] ms w →
  (∀ rs m ms' w', I rs (m :: ms') w' →
     wp m (λ r w'', I (rs ++ [r]) ms' w'') w') →
  (∀ rs w', I rs [] w' → Q (Ok rs) w') →
  wp (all_settled ms) Q w.
Proof.
  intros HI Hstep Hend.
  assert (∀ acc w0, I acc ms w0 →
    wp (all_settled ms) (λ r w', match r with
       | Ok rs => I (acc ++ rs) [] w' | Err _ => False end) w0) as Hgen.
  { clear HI Hend Q w. induction ms as [|m ms IH]; intros acc w0 HI.
    - apply wp_ret. by rewrite app_nil_r.
    - pose proof (Hstep _ _ _ _ HI) as H. unfold wp in *. cbn.
      destruct (m w0) as [r w1]. specialize (IH (acc ++ [r]) w1 H).
      destruct (all_settled ms w1) as [[rs | e] w2]; [| done].
      by rewrite <- app_assoc in IH. }
  eapply wp_mono; [by apply Hgen |].
  intros [rs | e] w'; [cbn; apply Hend | done].
Qed.
End wp_rules.

(** One step of symbolic execution of a method.  The rules of the external
    services are added to the [wp] hint database by [External]. *)
Create HintDb wp discriminated.

Ltac wp_pure :=
  first
    [ apply wp_bind
    | apply wp_ret
    | apply wp_raise
    | apply wp_lift
    | apply wp_swallow
    | apply wp_catch ].

Ltac wp_case :=
  match goal with
  | |- wp (match ?x with _ => _ end) _ _ => destruct x eqn:?
  | |- wp (if ?x then _ else _) _ _ => destruct x eqn:?
  end.

(** ** Generic lemmas *)

Lemma Some_agree {A} {o : option A} {x y : A} : o = Some x → o = Some y → x = y.
Proof. intros ->. by intros [= <-]. Qed.

Lemma truthy_Some o : truthy o = true ↔ ∃ s, o = Some s ∧ s ≠ ""%string.
Proof.
  destruct o as [[|c s]|]; cbn; split.
  - discriminate.
  - intros (? & [= <-] & ?). done.
  - intros _. by exists (String c s).
  - done.
  - discriminate.
  - intros (? & ? & ?). discriminate.
Qed.

Lemma ceil_div_bounds a b : 0 < b → b * (ceil_div a b - 1) < a ≤ b * ceil_div a b.
Proof.
  intros Hb. unfold ceil_div.
  pose proof (Z.div_mod (- a) b). pose proof (Z.mod_pos_bound (- a) b). nia.
Qed.

Lemma ceil_div_nonneg a b : 0 < b → 0 ≤ a → 0 ≤ ceil_div a b.
Proof. intros. pose proof (ceil_div_bounds a b). nia. Qed.

Lemma bool_decide_eqb_refl {A} `{!EqDecision A} (x : A) : bool_decide (x = x) = true.
Proof. by apply bool_decide_eq_true. Qed.

Lemma length_filter_le {A} (P : A → Prop) `{∀ x, Decision (P x)} (l : list A) :
  (length (filter P l) ≤ length l)%nat.
Proof.
  induction l as [|x l IH]; [done |].
  rewrite filter_cons. case_decide; cbn; lia.
Qed.

Lemma length_filter_eq {A} (P : A → Prop) `{∀ x, Decision (P x)} (l : list A) :
  length (filter P l) = length l ↔ Forall P l.
Proof.
  induction l as [|x l IH]; [by split; [constructor |] |].
  rewrite filter_cons, list.Forall_cons, <- IH. case_decide; cbn.
  - split; [intros Hl; split; [done | lia] | intros [_ ->]; done].
  - pose proof (length_filter_le P l). split; [lia | intros []; done].
Qed.

Lemma Sorted_filter_strongly {A} (R : A → A → Prop) (P : A → Prop)
    `{∀ x, Decision (P x)} (l : list A) :
  StronglySorted R l → StronglySorted R (filter P l).
Proof.
  induction 1 as [|x l Hs IH Hf]; [constructor |].
  rewrite filter_cons. case_decide; [|done]. constructor; [done |].
  apply list.Forall_forall. intros y [_ Hy]%list_elem_of_filter.
  rewrite list.Forall_forall in Hf. auto.
Qed.

#[export] Hint Resolve ceil_div_nonneg : core.
