(* ===== verification/Schema.v ===== *)
(** * The data the gateway exchanges: Prisma rows, queue payloads, principals

    The row types are those of [prisma/schema.prisma], restricted to the
    columns some modelled operation reads or writes; the queue payloads and
    [AuthenticatedProtocol] are the interfaces of [src/common/types].  A
    [DateTime] is its number of milliseconds since the epoch, a [BigInt] or
    [Int] column a [Z], and a string union of TypeScript an inductive type. *)

From stdpp Require Import pretty.
From S2P Require Import Prelude.

(** ** String unions *)

(** [NotificationStatus], with the status ['blocked'] that
    [NotifyService.queueSandboxNotification] also stores. *)
Inductive NotificationStatus :=
| Queued | Processing | Delivered | Partial | Failed
| OptedOut | Duplicate | Digested | Blocked.

#[export] Instance NotificationStatus_eq_dec : EqDecision NotificationStatus.
Proof. solve_decision. Defined.

Inductive channel := Email | Telegram | Sms.

#[export] Instance channel_eq_dec : EqDecision channel.
Proof. solve_decision. Defined.

Inductive priority := Normal | Important | Critical.

#[export] Instance priority_eq_dec : EqDecision priority.
Proof. solve_decision. Defined.

Inductive environment := Production | Sandbox.

#[export] Instance environment_eq_dec : EqDecision environment.
Proof. solve_decision. Defined.

Inductive verdict := Pass | Review | Block.

#[export] Instance verdict_eq_dec : EqDecision verdict.
Proof. solve_decision. Defined.

Inductive VerificationStatus := UNVERIFIED | VPENDING | VERIFIED | VREJECTED | FLAGGED.

#[export] Instance VerificationStatus_eq_dec : EqDecision VerificationStatus.
Proof. solve_decision. Defined.

Inductive TemplateStatus := DRAFT | APPROVED | PENDING_REVIEW | TREJECTED.

#[export] Instance TemplateStatus_eq_dec : EqDecision TemplateStatus.
Proof. solve_decision. Defined.

Inductive ScheduledJobStatus := PENDING | RUNNING | COMPLETED | CANCELLED | FAILED.

#[export] Instance ScheduledJobStatus_eq_dec : EqDecision ScheduledJobStatus.
Proof. solve_decision. Defined.

Inductive ScheduleType := ONE_TIME | RECURRING.

#[export] Instance ScheduleType_eq_dec : EqDecision ScheduleType.
Proof. solve_decision. Defined.

Inductive BounceType := Hard | Soft | Complaint.

#[export] Instance BounceType_eq_dec : EqDecision BounceType.
Proof. solve_decision. Defined.

(** ** Principals *)

(** [AuthenticatedProtocol] *)
Record AuthenticatedProtocol := {
  ap_protocolId : string;
  ap_protocolPubkey : string;
  ap_apiKeyId : string;
  ap_tier : Z;
  ap_scopes : list string;
  ap_environment : environment;
  ap_isActive : bool;
  ap_sendsThisPeriod : option Z;
  ap_name : option string;
  ap_overageEnabled : option bool;
  ap_isTestKey : option bool;
  ap_testKeyType : option string;
  ap_verificationStatus : option VerificationStatus;
}.

(** ** Prisma models *)

Record Notification := {
  n_id : string;
  n_protocolId : string;
  n_walletHash : string;
  n_status : NotificationStatus;
  n_category : string;
  n_subjectHash : string;
  n_idempotencyKey : option string;
  n_writeReceipt : bool;
  n_queuedAt : Z;
  n_processingAt : option Z;
  n_deliveredAt : option Z;
  n_receiptTx : option string;
  n_receiptFailureReason : option string;
  n_lastReceiptAttemptAt : option Z;
  n_sesMessageId : option string;
  n_emailProvider : option string;
  n_bounce : bool;
  n_bounceType : option BounceType;
  n_errorCode : option string;
  n_retryCount : Z;
  n_arweaveId : option string;
  n_ciphertext : option string;
  n_nonce : option string;
  n_riskScore : option Z;
  n_scanVerdict : option verdict;
  n_trackingEnabled : bool;
}.

(** The row [prisma.notification.create] writes when only the required
    columns are given: every other column takes the schema's default. *)
Definition new_notification (id protocolId walletHash subjectHash category : string)
    (status : NotificationStatus) (idempotencyKey : option string)
    (writeReceipt : bool) (now : Z) : Notification := {|
  n_id := id; n_protocolId := protocolId; n_walletHash := walletHash;
  n_status := status; n_category := category; n_subjectHash := subjectHash;
  n_idempotencyKey := idempotencyKey; n_writeReceipt := writeReceipt;
  n_queuedAt := now; n_processingAt := None; n_deliveredAt := None;
  n_receiptTx := None; n_receiptFailureReason := None;
  n_lastReceiptAttemptAt := None; n_sesMessageId := None;
  n_emailProvider := None; n_bounce := false; n_bounceType := None;
  n_errorCode := None; n_retryCount := 0; n_arweaveId := None;
  n_ciphertext := None; n_nonce := None; n_riskScore := Some 0;
  n_scanVerdict := None; n_trackingEnabled := false |}.

Record ApiKey := {
  k_id : string;
  k_protocolId : string;
  k_keyHash : string;
  k_keyPrefix : string;
  k_environment : environment;
  k_scopes : list string;
  k_isRevoked : bool;
  k_expiresAt : option Z;
  k_isTestKey : bool;
  k_testDailyLimit : Z;
  k_testKeyType : option string;
  k_testKeyIpHash : option string;
}.

Record Protocol := {
  p_id : string;
  p_protocolPubkey : string;
  p_nameEncrypted : string;
  p_tier : Z;
  p_isActive : bool;
  p_isSuspended : bool;
  p_verificationStatus : VerificationStatus;
  p_sendsThisPeriod : Z;
  p_overageEnabled : bool;
  p_periodResetAt : Z;
  p_updatedAt : Z;
}.

Record ProtocolSettings := {
  ps_protocolId : string;
  ps_websiteUrl : option string;
  ps_customFromName : option string;
  ps_testEmail : option string;
  ps_testTelegramId : option string;
  ps_testPhone : option string;
  ps_telegramBotTokenEncrypted : option string;
  ps_telegramBotUsername : option string;
  ps_telegramGroupChatId : option string;
  ps_telegramThreadIds : option (gmap string string);
  ps_telegramAutoPinEnabled : bool;
  ps_trackEngagement : bool;
  ps_telegramWelcomeMessage : option string;
  ps_telegramGroupMemberCount : option Z;
  ps_telegramMemberCountAt : option Z;
  ps_telegramMigrationSentAt : option Z;
  ps_logoUrl : option string;
  ps_notificationCategories : list string;
  ps_retryMaxAttempts : Z;
  ps_retryWindowHours : Z;
  ps_retryBackoff : string;
  ps_criticalCategories : list string;
}.

Inductive SubscriptionStatus := SubInactive | SubActive | SubExpired.

#[export] Instance SubscriptionStatus_eq_dec : EqDecision SubscriptionStatus.
Proof. solve_decision. Defined.

Record Subscription := {
  s_id : string;
  s_protocolId : string;
  s_tier : Z;
  s_status : SubscriptionStatus;
  s_helioSubscriptionId : option string;
  s_currentPeriodStart : option Z;
  s_currentPeriodEnd : option Z;
  s_sendsThisPeriod : Z;
  s_periodResetAt : Z;
  s_cancelAtPeriodEnd : bool;
}.

Record Payment := {
  pay_id : string;
  pay_protocolId : string;
  pay_amountUsdc : Z;
  pay_helioTransactionId : option string;
  pay_solanaTxSignature : option string;
  pay_periodsPaid : Z;
  pay_periodStart : Z;
  pay_periodEnd : Z;
  pay_status : string;
  pay_createdAt : Z;
}.

Record HelioWebhookEvent := {
  he_id : string;
  he_helioEventId : string;
  he_eventType : string;
  he_protocolId : option string;
  he_payloadHash : string;
  he_processed : bool;
  he_processedAt : option Z;
}.

Record DigestEntry := {
  d_id : string;
  d_walletHash : string;
  d_protocolId : string;
  d_subject : string;
  d_category : string;
  d_queuedAt : Z;
  d_scheduledFor : Z;
  d_sentAt : option Z;
}.

Record ScheduledNotification := {
  sn_id : string;
  sn_protocolId : string;
  sn_wallet : option string;
  sn_subject : string;
  sn_body : string;
  sn_category : string;
  sn_channels : list string;
  sn_scheduleType : ScheduleType;
  sn_cronExpr : option string;
  sn_timezone : string;
  sn_nextRunAt : Z;
  sn_lastRunAt : option Z;
  sn_status : ScheduledJobStatus;
  sn_templateId : option string;
}.

Record Webhook := {
  wh_id : string;
  wh_protocolId : string;
  wh_url : string;
  wh_events : list string;
  wh_secretHash : string;
  wh_secretPrefix : option string;
  wh_isActive : bool;
  wh_failureCount : Z;
  wh_lastSuccessAt : option Z;
  wh_lastFailureAt : option Z;
  wh_createdAt : Z;
}.

Record WebhookDelivery := {
  wd_id : string;
  wd_webhookId : string;
  wd_notificationId : option string;
  wd_event : string;
  wd_httpStatus : option Z;
  wd_latencyMs : option Z;
  wd_attempt : Z;
  wd_success : bool;
  wd_error : option string;
}.

Record EmailBounce := {
  eb_id : string;
  eb_notificationId : option string;
  eb_walletHash : option string;
  eb_bounceType : BounceType;
  eb_sesMessageId : option string;
  eb_diagnosticCode : option string;
  eb_bouncedAt : Z;
}.

Inductive SuppressionReason := hard_bounce | soft_bounce | complaint.

#[export] Instance SuppressionReason_eq_dec : EqDecision SuppressionReason.
Proof. solve_decision. Defined.

Record EmailSuppression := {
  es_walletHash : string;
  es_reason : SuppressionReason;
  es_suppressedAt : Z;
  es_notificationId : option string;
}.

Record EmailDelivery := {
  ed_id : string;
  ed_notificationId : string;
  ed_sesMessageId : option string;
  ed_smtpResponse : option string;
  ed_processingTime : option Z;
  ed_deliveredAt : Z;
}.

Record SandboxReceipt := {
  sr_id : string;
  sr_apiKeyId : string;
  sr_notificationId : option string;
  sr_walletHash : string;
  sr_subject : option string;
  sr_status : string;
  sr_devnetTx : option string;
  sr_channel : option string;
  sr_deliveredAt : option Z;
  sr_createdAt : Z;
}.

Record ChannelDelivery := {
  cd_id : string;
  cd_notificationId : string;
  cd_channel : option channel;     (** [None] is ['unknown'] *)
  cd_success : bool;
  cd_messageId : option string;
  cd_provider : option string;
  cd_error : option string;
  cd_deliveredAt : option Z;
  cd_createdAt : Z;
}.

(** The sources of a template are texts, in code units. *)
Record NotificationTemplate := {
  nt_id : string;
  nt_protocolId : string;
  nt_name : string;
  nt_category : string;
  nt_subjectTemplate : option (list N);
  nt_htmlSource : option (list N);
  nt_textSource : option (list N);
  nt_previewText : option (list N);
  nt_heraldFooter : string;
  nt_status : TemplateStatus;
  nt_isActive : bool;
  nt_isDefault : bool;
  nt_version : Z;
  nt_createdAt : Z;
  nt_updatedAt : Z;
}.

Record NotificationTemplateVersion := {
  ntv_id : string;
  ntv_templateId : string;
  ntv_version : Z;
  ntv_htmlSource : list N;
  ntv_subjectTemplate : option (list N);
}.

Record TelegramPendingConnection := {
  tpc_id : string;
  tpc_walletPubkey : string;
  tpc_chatId : string;
  tpc_telegramUsername : option string;
  tpc_claimed : bool;
  tpc_expiresAt : Z;
}.

Record NotificationEngagement := {
  ne_id : string;
  ne_notificationId : string;
  ne_protocolId : string;
  ne_eventType : string;
  ne_linkUrl : option string;
  ne_userAgentHash : option string;
  ne_createdAt : Z;
}.

Record PortalUser := {
  pu_walletHash : string;
  pu_emailHash : option string;
  pu_optInAll : bool;
  pu_optInDefi : bool;
  pu_optInGovernance : bool;
  pu_optInMarketing : bool;
  pu_updatedAt : Z;
}.

Inductive MembershipStatus := Active | Unsubscribed.

#[export] Instance MembershipStatus_eq_dec : EqDecision MembershipStatus.
Proof. solve_decision. Defined.

Record ProtocolSubscription := {
  sub_id : string;
  sub_walletPubkey : option string;
  sub_walletHash : string;
  sub_protocolId : string;
  sub_channels : list string;
  sub_status : MembershipStatus;
  sub_source : string;
  sub_subscribedAt : Z;
  sub_updatedAt : Z;
}.

Record ProtocolAsset := {
  pa_id : string;
  pa_protocolId : string;
  pa_assetType : string;
  pa_url : string;
  pa_isActive : bool;
}.

Record DkimKey := {
  dk_id : string;
  dk_protocolId : option string;
  dk_domain : string;
  dk_selector : string;
  dk_publicKey : list N;
  dk_kmsKeyId : string;
  dk_dnsVerified : bool;
  dk_isActive : bool;
  dk_sesVerified : bool;
  dk_sesCnameRecords : option (list (string * string));   (** names, values *)
  dk_resendDomainId : option string;
  dk_resendDnsRecords : option string;                    (** Json *)
  dk_createdAt : Z;
}.

Record BimiRecord := {
  bm_id : string;
  bm_protocol_id : string;
  bm_domain : string;
  bm_selector : string;
  bm_logo_url : list N;
  bm_vmc_url : option (list N);
  bm_is_verified : bool;
  bm_dmarc_verified : bool;
  bm_dns_record_published : bool;
}.

Record BimiLog := {
  bl_id : string;
  bl_protocol_id : string;
  bl_domain : string;
  bl_checkType : string;
  bl_status : string;
}.

Record Audience := {
  au_id : string;
  au_protocolId : string;
  au_wallets : list string;
  au_walletCount : Z;
}.

Inductive CampaignStatus :=
  CaDraft | CaScheduled | CaRunning | CaCompleted | CaFailed | CaCancelled.

#[export] Instance CampaignStatus_eq_dec : EqDecision CampaignStatus.
Proof. solve_decision. Defined.

Record Campaign := {
  ca_id : string;
  ca_protocolId : string;
  ca_audienceId : string;
  ca_subject : string;
  ca_body : string;
  ca_category : string;
  ca_channels : list string;
  ca_status : CampaignStatus;
  ca_startedAt : option Z;
  ca_totalTargets : Z;
  ca_totalSent : Z;
  ca_createdAt : Z;
}.

(** What a portal user chose for one protocol; [None] inherits. *)
Record UserProtocolPreference := {
  upp_id : string;
  upp_walletHash : string;
  upp_protocolId : string;
  upp_optInDefi : option bool;
  upp_optInGovernance : option bool;
  upp_optInMarketing : option bool;
  upp_optInSystem : option bool;
  upp_channels : list string;
}.

(** A JSON value, its numbers integers; the fields of an object are in order,
    and their keys distinct. *)
Inductive json :=
| JNull
| JBool (b : bool)
| JNumber (n : Z)
| JString (s : string)
| JArray (l : list json)
| JObject (l : list (string * json)).

Record ApiRequestLog := {
  arl_id : string;
  arl_protocolId : string;
  arl_apiKeyId : option string;
  arl_isTestKey : bool;
  arl_method : string;
  arl_endpoint : string;
  arl_requestBody : option json;
  arl_responseBody : option json;
  arl_statusCode : Z;
  arl_latencyMs : Z;
  arl_correlationId : option string;
  arl_ipHash : option string;
  arl_createdAt : Z;
}.

Inductive Severity := SevHigh | SevMedium | SevLow.

Record ModerationItem := {
  mq_id : string;
  mq_protocolId : string;
  mq_severity : Severity;
  mq_rulesTriggers : list string;
}.

Record PortalSession := {
  pss_id : string;
  pss_walletHash : string;
  pss_jwtJti : string;
  pss_expiresAt : Z;
  pss_revoked : bool;
}.

Record TelegramTemplate := {
  tt_id : string;
  tt_protocolId : string;
  tt_category : string;
  tt_textTemplate : string;
  tt_buttons : list (string * string);     (** label, urlTemplate *)
  tt_isActive : bool;
}.

Record UnsubscribeToken := {
  ut_tokenHash : string;
  ut_walletHash : string;
  ut_category : option string;
  ut_expiresAt : Z;
  ut_usedAt : option Z;
}.

(** The models of [prisma/schema.prisma] the modelled operations use. *)
Inductive model :=
| MNotification | MApiKey | MProtocol | MProtocolSettings | MSubscription
| MPayment | MHelioWebhookEvent | MDigestQueue | MScheduledNotification
| MWebhook | MWebhookDelivery | MEmailBounce | MEmailSuppression
| MEmailDelivery | MSandboxReceipt | MChannelDelivery | MNotificationTemplate
| MPortalUser | MProtocolSubscription | MProtocolAsset | MDkimKey
| MModerationQueue | MPortalSession | MTelegramTemplate | MUnsubscribeToken
| MNotificationTemplateVersion | MTelegramPendingConnection | MNotificationEngagement
| MBimiRecord | MBimiLog | MAudience | MCampaign
| MUserProtocolPreference | MApiRequestLog.

#[export] Instance model_eq_dec : EqDecision model.
Proof. solve_decision. Defined.

Definition row (m : model) : Type :=
  match m with
  | MNotification => Notification
  | MApiKey => ApiKey
  | MProtocol => Protocol
  | MProtocolSettings => ProtocolSettings
  | MSubscription => Subscription
  | MPayment => Payment
  | MHelioWebhookEvent => HelioWebhookEvent
  | MDigestQueue => DigestEntry
  | MScheduledNotification => ScheduledNotification
  | MWebhook => Webhook
  | MWebhookDelivery => WebhookDelivery
  | MEmailBounce => EmailBounce
  | MEmailSuppression => EmailSuppression
  | MEmailDelivery => EmailDelivery
  | MSandboxReceipt => SandboxReceipt
  | MChannelDelivery => ChannelDelivery
  | MNotificationTemplate => NotificationTemplate
  | MPortalUser => PortalUser
  | MProtocolSubscription => ProtocolSubscription
  | MProtocolAsset => ProtocolAsset
  | MDkimKey => DkimKey
  | MModerationQueue => ModerationItem
  | MPortalSession => PortalSession
  | MTelegramTemplate => TelegramTemplate
  | MUnsubscribeToken => UnsubscribeToken
  | MNotificationTemplateVersion => NotificationTemplateVersion
  | MTelegramPendingConnection => TelegramPendingConnection
  | MNotificationEngagement => NotificationEngagement
  | MBimiRecord => BimiRecord
  | MBimiLog => BimiLog
  | MAudience => Audience
  | MCampaign => Campaign
  | MUserProtocolPreference => UserProtocolPreference
  | MApiRequestLog => ApiRequestLog
  end.

(** The [@id] column. *)
Definition row_key (m : model) : row m → string :=
  match m with
  | MNotification => n_id
  | MApiKey => k_id
  | MProtocol => p_id
  | MProtocolSettings => ps_protocolId
  | MSubscription => s_id
  | MPayment => pay_id
  | MHelioWebhookEvent => he_id
  | MDigestQueue => d_id
  | MScheduledNotification => sn_id
  | MWebhook => wh_id
  | MWebhookDelivery => wd_id
  | MEmailBounce => eb_id
  | MEmailSuppression => es_walletHash
  | MEmailDelivery => ed_id
  | MSandboxReceipt => sr_id
  | MChannelDelivery => cd_id
  | MNotificationTemplate => nt_id
  | MPortalUser => pu_walletHash
  | MProtocolSubscription => sub_id
  | MProtocolAsset => pa_id
  | MDkimKey => dk_id
  | MModerationQueue => mq_id
  | MPortalSession => pss_id
  | MTelegramTemplate => tt_id
  | MUnsubscribeToken => ut_tokenHash
  | MNotificationTemplateVersion => ntv_id
  | MTelegramPendingConnection => tpc_id
  | MNotificationEngagement => ne_id
  | MBimiRecord => bm_id
  | MBimiLog => bl_id
  | MAudience => au_id
  | MCampaign => ca_id
  | MUserProtocolPreference => upp_id
  | MApiRequestLog => arl_id
  end.

(** The values of the columns under a [@unique] constraint other than the
    id, each tagged with its column; a null is never in conflict. *)
Definition row_uniques (m : model) : row m → list (string * list string) :=
  let tag (col : string) (v : option string) :=
    match v with Some x => [(col, [x])] | None => [] end in
  match m with
  | MNotification => λ r : Notification, tag "idempotencyKey" (n_idempotencyKey r)
  | MApiKey => λ r : ApiKey, [("keyHash", [k_keyHash r])]
  | MProtocol => λ r : Protocol, [("protocolPubkey", [p_protocolPubkey r])]
  | MSubscription => λ r : Subscription,
      ("protocolId", [s_protocolId r]) :: tag "helioSubscriptionId" (s_helioSubscriptionId r)
  | MPayment => λ r : Payment, tag "helioTransactionId" (pay_helioTransactionId r)
  | MHelioWebhookEvent => λ r : HelioWebhookEvent, [("helioEventId", [he_helioEventId r])]
  | MProtocolSubscription => λ r : ProtocolSubscription,
      [("walletHash_protocolId", [sub_walletHash r; sub_protocolId r])]
  | MProtocolAsset => λ r : ProtocolAsset,
      [("protocolId_assetType", [pa_protocolId r; pa_assetType r])]
  | MDkimKey => λ r : DkimKey, [("domain_selector", [dk_domain r; dk_selector r])]
  | MUserProtocolPreference => λ r : UserProtocolPreference,
      [("walletHash_protocolId", [upp_walletHash r; upp_protocolId r])]
  | MBimiRecord => λ r : BimiRecord,
      [("protocol_id_domain", [bm_protocol_id r; bm_domain r])]
  | MPortalSession => λ r : PortalSession, [("jwtJti", [pss_jwtJti r])]
  | MNotificationTemplateVersion => λ r : NotificationTemplateVersion,
      [("templateId_version", [ntv_templateId r; pretty.pretty (ntv_version r)])]
  | _ => λ _, []
  end%string.

(** ** Queue payloads *)

Record TestContact := {
  tc_email : option string;
  tc_telegramChatId : option string;
  tc_phone : option string;
}.

(** [DecryptedChannels] *)
Abbreviation DecryptedChannels := TestContact.

(** [NotificationJobData] *)
Record NotificationJobData := {
  j_notificationId : string;
  j_protocolId : string;
  j_protocolPubkey : string;
  j_protocolName : string;
  j_wallet : string;
  j_walletHash : option string;
  j_subject : string;
  j_body : string;
  j_category : string;
  j_writeReceipt : bool;
  j_digestMode : bool;
  j_priority : option priority;
  j_channels : option (list channel);
  j_excludedChannels : option (list channel);
  j_preferredChannel : option channel;
  j_isSandbox : bool;
  j_testContact : option TestContact;
  j_tier : option Z;
  j_templateId : option string;
  j_telegramTemplateId : option string;
  j_templateVariables : gmap string string;
}.

(** [ChannelDeliveryOutcome]; the channel [None] is ['unknown']. *)
Record ChannelDeliveryOutcome := {
  o_channel : option channel;
  o_success : bool;
  o_messageId : option string;
  o_provider : option string;
  o_error : option string;
}.

(** [ChannelDispatchResult] *)
Record ChannelDispatchResult := {
  dr_outcomes : list ChannelDeliveryOutcome;
  dr_totalChannels : nat;
  dr_successCount : nat;
  dr_allDelivered : bool;
}.

(** [WebhookPayload], with the fields of [data] the gateway fills in. *)
Record WebhookPayload := {
  wp_eventId : string;
  wp_eventType : string;
  wp_timestamp : Z;
  wp_notificationId : option string;
  wp_status : option NotificationStatus;
  wp_outcomes : list ChannelDeliveryOutcome;
  wp_error : option string;
  wp_wallet : option string;
  wp_deliveredAt : option Z;
  wp_message : option string;
  wp_webhookId : option string;
}.

(** The job data of [WebhookWorker]. *)
Record WebhookJobData := {
  wj_webhookId : string;
  wj_url : string;
  wj_secret : string;
  wj_payload : WebhookPayload;
}.

(** The entries of a ['flush-digest'] job. *)
Record DigestJobEntry := {
  de_id : string;
  de_protocolId : string;
  de_subject : string;
  de_category : string;
  de_queuedAt : Z;
}.

Record DigestJobData := {
  dj_walletHash : string;
  dj_entries : list DigestJobEntry;
}.

(** [ReceiptNotification] *)
Record ReceiptNotification := {
  rn_id : string;
  rn_protocolId : string;
  rn_walletHash : string;
  rn_category : string;
}.

(** [HelioWebhookPayload] *)
Record HelioWebhookPayload := {
  hp_event : string;
  hp_transactionId : string;
  hp_protocolPubkey : string;
  hp_tier : option Z;
  hp_months : option Z;
  hp_amountUsdc : option Z;
  hp_solanaTxSignature : option string;
}.

(** The SES notification in a ['ses-bounce'] job: the fields the gateway
    reads. *)
Record SesMessage := {
  ses_notificationType : string;
  ses_messageId : option string;          (** [mail.messageId] *)
  ses_bounceType : option string;         (** [bounce.bounceType] *)
  ses_diagnosticCode : option string;
  ses_smtpResponse : option string;
  ses_processingTimeMillis : option Z;
}.

(** The BullMQ queues: those of [QueueNames] the modelled code adds to, and
    ['billing-webhooks']. *)
Inductive queue := QNotification | QReceiptBatch | QWebhook | QDigest | QBounce | QBilling.

#[export] Instance queue_eq_dec : EqDecision queue.
Proof. solve_decision. Defined.

Definition job_data (q : queue) : Type :=
  match q with
  | QNotification => NotificationJobData
  | QReceiptBatch => list ReceiptNotification
  | QWebhook => WebhookJobData
  | QDigest => DigestJobData
  | QBounce => SesMessage
  | QBilling => string * HelioWebhookPayload
  end.

(** A job with the options of [queue.add] that are used. *)
Record job (q : queue) := mkJob {
  job_name : string;
  job_payload : job_data q;
  job_jobId : option string;
  job_attempts : Z;
  job_backoff : option Z;
}.
Arguments mkJob {q} _ _ _ _ _.
Arguments job_name {q} _.
Arguments job_payload {q} _.
Arguments job_jobId {q} _.
Arguments job_attempts {q} _.
Arguments job_backoff {q} _.

(** A [Uint8Array], or what [JSON.parse] makes of a stringified one: a plain
    object without a [length]. *)
Inductive js_bytes :=
| Bytes (b : list N)
| PlainObject (b : list N).

(** [IdentityAccount], the on-chain account of a wallet. *)
Record IdentityAccount := {
  ia_owner : string;
  ia_encryptedEmail : list N;
  ia_emailHash : list N;
  ia_nonce : list N;
  ia_registeredAt : Z;
  ia_optInAll : bool;
  ia_optInDefi : bool;
  ia_optInGovernance : bool;
  ia_optInMarketing : bool;
  ia_digestMode : bool;
  ia_channelEmail : bool;
  ia_channelTelegram : bool;
  ia_channelSms : bool;
  ia_encryptedTelegramId : list N;
  ia_telegramIdHash : list N;
  ia_nonceTelegram : list N;
  ia_encryptedPhone : list N;
  ia_phoneHash : list N;
  ia_nonceSms : list N;
  ia_senderX25519Pubkey : option js_bytes;
}.

(** The JSON of an identity in the cache: the byte arrays that
    [RoutingService.serializeForCache] encodes are base64 texts, kept here as
    the bytes they stand for. *)
Record CachedIdentity := { ci_identity : IdentityAccount }.

(** The JSON under a [tg:group_nonce:] key, which the dashboard writes. *)
Record GroupNonce := {
  gn_protocolId : string;
  gn_botType : option string;
  gn_status : option string;
  gn_chatId : option string;
}.

(** What the Redis keys hold.  A value the source writes with
    [JSON.stringify] and reads back with [JSON.parse] is kept as the value
    itself; a counter is the integer [INCR] maintains. *)
Inductive rvalue :=
| RText (s : string)
| RInt (z : Z)
| RNotificationId (id : string)
| RAuth (p : AuthenticatedProtocol)
| RSubscription (s : Subscription)
| RIdentity (i : CachedIdentity)
| RGroupNonce (g : GroupNonce).
