(* ===== verification/External.v ===== *)
(** * The services the gateway talks to, as interfaces with laws

    PostgreSQL behind Prisma, Redis, BullMQ and the delivery networks are not
    code of the repository.  Each is a class of operations over an abstract
    state ([Prisma], [RedisClient], [BullMQ], [Network]) and a class of the
    documented laws the gateway relies on; every operation may also reject,
    and then has no effect (a send may have left before it rejects).  The
    gateway's methods run in the monad [M World], and each operation comes
    with a weakest-precondition rule over the observable [view] of the world.

    [Memory.v] has an implementation with scheduled failures that discharges
    the laws; the witnesses run on it. *)

From Stdlib Require Import Ascii String.
From S2P Require Import Prelude Schema.

Open Scope list_scope.
Open Scope Z_scope.

(** ** Tables *)

Definition Tables : Type := ∀ m : model, gmap string (row m).

Definition upd (m : model) (f : gmap string (row m) → gmap string (row m))
    (t : Tables) : Tables := λ m',
  match decide (m = m') with
  | left e =>
      match e in _ = m'' return gmap string (row m'') with
      | eq_refl => f (t m)
      end
  | right _ => t m'
  end.

Lemma upd_eq m f t : upd m f t m = f (t m).
Proof.
  unfold upd. destruct (decide (m = m)) as [e |]; [| done].
  by rewrite (proof_irrel e eq_refl).
Qed.

Lemma upd_ne m m' f t : m ≠ m' → upd m f t m' = t m'.
Proof. unfold upd. by destruct (decide (m = m')). Qed.

(** A query selects on the key and the row, orders by a numeric column
    (ascending; a descending order is on the negated column). *)
Abbreviation where_ m := (string → row m → bool).
Abbreviation order_by m := (option (row m → Z)).

Definition by_id (m : model) (id : string) : where_ m := λ k _, bool_decide (k = id).

(** [update ... where]: every selected row is rewritten. *)
Definition update_where {m} (p : where_ m) (f : row m → row m)
    (t : gmap string (row m)) : gmap string (row m) :=
  map_imap (λ k r, Some (if p k r then f r else r)) t.

Definition delete_where {m} (p : where_ m) (t : gmap string (row m)) :
    gmap string (row m) :=
  map_imap (λ k r, if p k r then None else Some r) t.

Lemma lookup_update_where {m} (p : where_ m) f t k :
  update_where p f t !! k = (λ r, if p k r then f r else r) <$> t !! k.
Proof.
  unfold update_where. rewrite map_lookup_imap. by destruct (t !! k).
Qed.

Lemma lookup_delete_where {m} (p : where_ m) t k :
  delete_where p t !! k = t !! k ≫= λ r, if p k r then None else Some r.
Proof. unfold delete_where. by rewrite map_lookup_imap. Qed.

Lemma update_where_keeps {m} (p : where_ m) f t k :
  (∀ r, t !! k = Some r → p k r = false) → update_where p f t !! k = t !! k.
Proof.
  intros Hp. rewrite lookup_update_where. destruct (t !! k) as [r|]; [| done]. cbn. by rewrite Hp.
Qed.

Lemma delete_where_keeps {m} (p : where_ m) t k :
  (∀ r, t !! k = Some r → p k r = false) → delete_where p t !! k = t !! k.
Proof.
  intros Hp. rewrite lookup_delete_where. destruct (t !! k) as [r|]; [| done]. cbn. by rewrite Hp.
Qed.

(** ** Prisma *)

Class Prisma := {
  DB : Type;
  tables : DB → Tables;
  (** [create]; the row is given as a function of the id the engine
      generates for a [@default(uuid())] column. *)
  p_create : ∀ m, (string → row m) → DB → result (row m) * DB;
  (** [update]: the one selected row, or a rejection. *)
  p_update : ∀ m, where_ m → (row m → row m) → DB → result (row m) * DB;
  p_update_many : ∀ m, where_ m → (row m → row m) → DB → result () * DB;
  p_delete_many : ∀ m, where_ m → DB → result () * DB;
  p_find_many : ∀ m, where_ m → order_by m → DB → result (list (row m)) * DB;
  (** [$transaction] *)
  p_transaction : ∀ A, (DB → result A * DB) → DB → result A * DB;
}.

(** No other row holds one of the unique values of [r]. *)
Definition unique_ok (m : model) (t : gmap string (row m)) (r : row m) : Prop :=
  ∀ k r', t !! k = Some r' → row_uniques m r' ## row_uniques m r.

Definition ordered {m} (o : order_by m) (l : list (row m)) : Prop :=
  match o with
  | None => True
  | Some key => StronglySorted (λ a b, key a ≤ key b) l
  end.

Class PrismaLaws (P : Prisma) : Prop := {
  create_law m mk d :
    match p_create m mk d with
    | (Ok r, d') => (∃ i, r = mk i) ∧ tables d m !! row_key m r = None ∧
        unique_ok m (tables d m) r ∧
        tables d' = upd m <[row_key m r := r]> (tables d)
    | (Err _, d') => tables d' = tables d
    end;
  update_law m p f d :
    match p_update m p f d with
    | (Ok r', d') => ∃ k r, tables d m !! k = Some r ∧ p k r = true ∧ r' = f r ∧
        tables d' = upd m <[k := f r]> (tables d)
    | (Err _, d') => tables d' = tables d
    end;
  update_many_law m p f d :
    match p_update_many m p f d with
    | (Ok _, d') => tables d' = upd m (update_where p f) (tables d)
    | (Err _, d') => tables d' = tables d
    end;
  delete_many_law m p d :
    match p_delete_many m p d with
    | (Ok _, d') => tables d' = upd m (delete_where p) (tables d)
    | (Err _, d') => tables d' = tables d
    end;
  find_many_law m p o d :
    match p_find_many m p o d with
    | (Ok l, d') => tables d' = tables d ∧ ordered o l ∧
        (∃ ks, NoDup ks ∧
           Forall2 (λ k r, tables d m !! k = Some r ∧ p k r = true) ks l) ∧
        (∀ k r, tables d m !! k = Some r → p k r = true → r ∈ l)
    | (Err _, d') => tables d' = tables d
    end;
  transaction_law A (body : DB → result A * DB) d :
    match p_transaction A body d with
    | (Ok a, d') => ∃ d0 d1, tables d0 = tables d ∧ body d0 = (Ok a, d1) ∧
        tables d' = tables d1
    | (Err _, d') => tables d' = tables d
    end;
}.

(** ** Redis *)

Record RedisView := {
  re_strings : gmap string (rvalue * option Z);   (** value, expiry in ms *)
  re_hashes : gmap (string * string) string;
}.

Definition live (now : Z) (e : option (rvalue * option Z)) : option rvalue :=
  match e with
  | Some (v, Some t) => if now <? t then Some v else None
  | Some (v, None) => Some v
  | None => None
  end.

Definition STAR : ascii := Ascii.ascii_of_nat 42.

Class RedisClient := {
  RD : Type;
  redis_view : RD → RedisView;
  r_get : string → Z → RD → result (option rvalue) * RD;
  (** [SET k v EX s NX] *)
  r_set_nx : string → rvalue → Z → Z → RD → result bool * RD;
  r_setex : string → Z → rvalue → Z → RD → result () * RD;
  r_del : string → RD → result () * RD;
  r_incr : string → Z → RD → result Z * RD;
  (** [EXPIRE] and [PEXPIRE], in ms *)
  r_pexpire : string → Z → Z → RD → result () * RD;
  r_pttl : string → Z → RD → result Z * RD;
  r_hset : string → string → string → RD → result () * RD;
  (** [SCAN cursor MATCH pattern COUNT n]: the next cursor, and some keys *)
  r_scan : string → string → Z → RD → result (string * list string) * RD;
  (** [DEL] of several keys: how many there were *)
  r_del_many : list string → Z → RD → result Z * RD;
  (** What an iteration from a cursor has yet to visit, and in how many
      further calls at most. *)
  scan_todo : string → RD → gset string;
  scan_left : string → RD → nat;
}.

(** The glob patterns of [MATCH] that are made of literal characters and
    [*]. *)
Fixpoint glob_match (p : list ascii) : list ascii → bool :=
  match p with
  | [] => λ s, match s with [] => true | _ => false end
  | c :: p' =>
      if Ascii.eqb c STAR then
        fix any (s : list ascii) : bool :=
          glob_match p' s || match s with [] => false | _ :: s' => any s' end
      else λ s, match s with x :: s' => Ascii.eqb c x && glob_match p' s' | [] => false end
  end.

Definition key_matches (pattern k : string) : bool :=
  glob_match (list_ascii_of_string pattern) (list_ascii_of_string k).

Definition del_keys (ks : list string) (m : gmap string (rvalue * option Z)) :
    gmap string (rvalue * option Z) := foldr delete m ks.

Definition redis_incr (now : Z) (k : string) (m : gmap string (rvalue * option Z)) :
    option (Z * gmap string (rvalue * option Z)) :=
  match live now (m !! k) with
  | None => Some (1, <[k := (RInt 1, None)]> m)
  | Some (RInt z) => Some (z + 1, <[k := (RInt (z + 1), m !! k ≫= snd)]> m)
  | Some _ => None
  end.

Definition redis_pexpire (now ms : Z) (k : string) (m : gmap string (rvalue * option Z)) :
    gmap string (rvalue * option Z) :=
  match live now (m !! k) with
  | Some v => <[k := (v, Some (now + ms))]> m
  | None => m
  end.

Definition redis_pttl (now : Z) (e : option (rvalue * option Z)) : Z :=
  match live now e with
  | None => -2
  | Some _ => match e ≫= snd with Some t => t - now | None => -1 end
  end.

Class RedisLaws (R : RedisClient) : Prop := {
  get_law k now d :
    match r_get k now d with
    | (Ok v, d') => v = live now (re_strings (redis_view d) !! k) ∧ redis_view d' = redis_view d
    | (Err _, d') => redis_view d' = redis_view d
    end;
  set_nx_law k v ttl now d :
    match r_set_nx k v ttl now d with
    | (Ok b, d') =>
        match live now (re_strings (redis_view d) !! k) with
        | None => b = true ∧ redis_view d' =
            (redis_view d) <| re_strings ::= insert k (v, Some (now + ttl * 1000)) |>
        | Some _ => b = false ∧ redis_view d' = redis_view d
        end
    | (Err _, d') => redis_view d' = redis_view d
    end;
  setex_law k ttl v now d :
    match r_setex k ttl v now d with
    | (Ok _, d') => redis_view d' =
        (redis_view d) <| re_strings ::= insert k (v, Some (now + ttl * 1000)) |>
    | (Err _, d') => redis_view d' = redis_view d
    end;
  del_law k d :
    match r_del k d with
    | (Ok _, d') => redis_view d' = (redis_view d) <| re_strings ::= delete k |>
    | (Err _, d') => redis_view d' = redis_view d
    end;
  incr_law k now d :
    match r_incr k now d with
    | (Ok n, d') => ∃ m', redis_incr now k (re_strings (redis_view d)) = Some (n, m') ∧
        redis_view d' = (redis_view d) <| re_strings := m' |>
    | (Err _, d') => redis_view d' = redis_view d
    end;
  pexpire_law k ms now d :
    match r_pexpire k ms now d with
    | (Ok _, d') => redis_view d' = (redis_view d) <| re_strings ::= redis_pexpire now ms k |>
    | (Err _, d') => redis_view d' = redis_view d
    end;
  pttl_law k now d :
    match r_pttl k now d with
    | (Ok t, d') => t = redis_pttl now (re_strings (redis_view d) !! k) ∧
        redis_view d' = redis_view d
    | (Err _, d') => redis_view d' = redis_view d
    end;
  hset_law k f v d :
    match r_hset k f v d with
    | (Ok _, d') => redis_view d' = (redis_view d) <| re_hashes ::= insert (k, f) v |>
    | (Err _, d') => redis_view d' = redis_view d
    end;
  (** A full iteration, from cursor ["0"] to cursor ["0"], visits every key
      that is there all along, and ends when no keys are added. *)
  scan_law c p n d :
    match r_scan c p n d with
    | (Ok (c', ks), d') => redis_view d' = redis_view d ∧
        (∀ k, k ∈ ks → key_matches p k = true) ∧
        (∀ k, k ∈ scan_todo c d → key_matches p k = true →
           k ∈ ks ∨ (c' ≠ "0"%string ∧ k ∈ scan_todo c' d')) ∧
        (c' ≠ "0"%string → (scan_left c' d' < scan_left c d)%nat)
    | (Err _, d') => redis_view d' = redis_view d
    end;
  scan_start d k : is_Some (re_strings (redis_view d) !! k) → k ∈ scan_todo "0" d;
  del_many_law ks now d :
    let '(r, d') := r_del_many ks now d in
    match r with
    | Ok n => redis_view d' = (redis_view d) <| re_strings ::= del_keys ks |> ∧ 0 ≤ n
    | Err _ => redis_view d' = redis_view d
    end ∧
    ∀ c, scan_left c d' = scan_left c d ∧
      ∀ k, k ∈ scan_todo c d → is_Some (re_strings (redis_view d') !! k) → k ∈ scan_todo c d';
}.

(** ** BullMQ *)

Definition Jobs : Type := ∀ q : queue, list (job q).

Definition upd_jobs (q : queue) (f : list (job q) → list (job q)) (js : Jobs) : Jobs := λ q',
  match decide (q = q') with
  | left e =>
      match e in _ = q'' return list (job q'') with
      | eq_refl => f (js q)
      end
  | right _ => js q'
  end.

Lemma upd_jobs_eq q f js : upd_jobs q f js q = f (js q).
Proof.
  unfold upd_jobs. destruct (decide (q = q)) as [e |]; [| done].
  by rewrite (proof_irrel e eq_refl).
Qed.

Lemma upd_jobs_ne q q' f js : q ≠ q' → upd_jobs q f js q' = js q'.
Proof. unfold upd_jobs. by destruct (decide (q = q')). Qed.

(** BullMQ ignores a job whose custom id is already in the queue. *)
Definition same_id {q} (i : string) (j : job q) : bool :=
  bool_decide (job_jobId j = Some i).

Definition add_job {q} (j : job q) (js : list (job q)) : list (job q) :=
  match job_jobId j with
  | Some i => if existsb (same_id i) js then js else js ++ [j]
  | None => js ++ [j]
  end.

Class BullMQ := {
  QU : Type;
  jobs : QU → Jobs;
  q_add : ∀ q, job q → QU → result () * QU;
  (** The promise of [add] is still pending when the caller's timer fires. *)
  q_stalled : ∀ q, job q → QU → bool;
}.

Class BullMQLaws (B : BullMQ) : Prop := {
  add_law q j d :
    match q_add q j d with
    | (Ok _, d') => jobs d' = upd_jobs q (add_job j) (jobs d)
    | (Err _, d') => jobs d' = jobs d
    end;
}.

(** ** Delivery networks *)

(** [InlineKeyboardButton] *)
Record TgButton := {
  tb_text : list N;
  tb_url : option (list N);
  tb_callback : option string;
}.

(** A mail as a provider's SDK is given it. *)
Record MailPayload := {
  mp_provider : string;
  mp_to : string;
  mp_from : string;
  mp_replyTo : option string;
  mp_subject : string;
  mp_html : list N;
  mp_text : list N;
  mp_headers : gmap string string;
}.

(** What is handed to a network; texts whose length matters are in code units. *)
Inductive envelope :=
| MailEnvelope (to from subject : string) (html text : list N) (unsubscribeUrl notificationId : string)
| VerifyIdentityEnvelope (email : string)
| TelegramEnvelope (chatId : string) (botToken threadId media : option string)
    (body : list N) (keyboard : list TgButton) (silent : bool)
| PinEnvelope (chatId messageId : string) (botToken : option string)
| MigrationPromptEnvelope (chatId protocolId botUsername protocolName : string)
| SmsEnvelope (phone : string) (message : list N)
| HttpEnvelope (url body signature : string) (timestamp : Z)
| ArweaveEnvelope (protocolId recipientHash : string) (ch : channel) (subject body : string)
| OnChainEnvelope (instruction protocolPubkey : string)
| HelioCancelEnvelope (helioSubscriptionId : string)
(** The tier's name, the wallet that pays, [metadata.protocol_id] and the
    months; the template and the return URLs are the configuration's. *)
| HelioCheckoutEnvelope (tier walletAddress : string) (protocolId : option string) (months : Z)
| BotMessageEnvelope (botToken chatId body : string)
| BotAnswerEnvelope (botToken queryId : string) (answer : option string)
| BotLeaveEnvelope (botToken chatId : string)
| ReceiptEnvelope (notificationId recipientHash protocolPubkey : string) (category : Z)
| ProviderEnvelope (p : MailPayload).

Record receipt := {
  rc_messageId : string;      (** message, Arweave or transaction id, or the link *)
  rc_provider : string;
  rc_status : Z;              (** HTTP status, for a POST *)
}.

Class Network := {
  NET : Type;
  sent : NET → list envelope;
  n_send : envelope → NET → result receipt * NET;
}.

Class NetworkLaws (N : Network) : Prop := {
  send_law e d :
    match n_send e d with
    | (Ok _, d') => sent d' = sent d ++ [e]
    | (Err _, d') => sent d' = sent d ∨ sent d' = sent d ++ [e]
    end;
}.

(** [createHash('sha256').update(s).digest('hex')] *)
Class Hashing := { sha256 : string → string }.

Class Backend := {
  be_prisma :: Prisma;
  be_redis :: RedisClient;
  be_queue :: BullMQ;
  be_net :: Network;
}.

Class BackendLaws (B : Backend) : Prop := {
  bl_prisma :: PrismaLaws be_prisma;
  bl_redis :: RedisLaws be_redis;
  bl_queue :: BullMQLaws be_queue;
  bl_net :: NetworkLaws be_net;
}.

(** ** The world and its observable content *)

Record World `{B : Backend} := {
  w_db : DB;
  w_redis : RD;
  w_queue : QU;
  w_net : NET;
}.

Record View := {
  v_tables : Tables;
  v_redis : RedisView;
  v_jobs : Jobs;
  v_sent : list envelope;
}.

Definition view `{B : Backend} (w : World) : View := {|
  v_tables := tables (w_db w);
  v_redis := redis_view (w_redis w);
  v_jobs := jobs (w_queue w);
  v_sent := sent (w_net w) |}.

Section lifting.
Context `{B : Backend}.

Definition on_db {A} (op : DB → result A * DB) : M World A := λ w,
  let '(r, d) := op (w_db w) in (r, w <| w_db := d |>).
Definition on_redis {A} (op : RD → result A * RD) : M World A := λ w,
  let '(r, d) := op (w_redis w) in (r, w <| w_redis := d |>).
Definition on_queue {A} (op : QU → result A * QU) : M World A := λ w,
  let '(r, d) := op (w_queue w) in (r, w <| w_queue := d |>).
Definition on_net {A} (op : NET → result A * NET) : M World A := λ w,
  let '(r, d) := op (w_net w) in (r, w <| w_net := d |>).

Definition create m (mk : string → row m) : M World (row m) := on_db (p_create m mk).
Definition update m p f : M World (row m) := on_db (p_update m p f).
Definition update_many m p f : M World () := on_db (p_update_many m p f).
Definition delete_many m p : M World () := on_db (p_delete_many m p).
Definition find_many m p o : M World (list (row m)) := on_db (p_find_many m p o).
(** [findFirst] and [findUnique] *)
Definition find_first m p o : M World (option (row m)) :=
  l ← find_many m p o; mret (head l).
Definition find_unique m p : M World (option (row m)) := find_first m p None.
Definition count m p : M World Z :=
  l ← find_many m p None; mret (Z.of_nat (length l)).
(** [upsert]: update the selected row, or create it. *)
Definition upsert m (p : where_ m) (mk : string → row m) (f : row m → row m) :
    M World (row m) :=
  o ← find_unique m p;
  match o with
  | Some _ => update m p f
  | None => create m mk
  end.
(** The same inside a transaction. *)
Definition db_upsert m (p : where_ m) (mk : string → row m) (f : row m → row m) :
    M DB (row m) :=
  l ← p_find_many m p None : M DB _;
  match head l with
  | Some _ => p_update m p f
  | None => p_create m mk
  end.
Definition transaction {A} (body : DB → result A * DB) : M World A :=
  on_db (p_transaction A body).

(** The related row that a query [include]s. *)
Definition included m (k : string) : M World (option (row m)) := λ w,
  (Ok (tables (w_db w) m !! k), w).

Definition redis_get k now : M World (option rvalue) := on_redis (r_get k now).
Definition redis_set_nx k v ttl now : M World bool := on_redis (r_set_nx k v ttl now).
Definition redis_setex k ttl v now : M World () := on_redis (r_setex k ttl v now).
Definition redis_del k : M World () := on_redis (r_del k).
Definition redis_incr_ k now : M World Z := on_redis (r_incr k now).
Definition redis_pexpire_ k ms now : M World () := on_redis (r_pexpire k ms now).
Definition redis_pttl_ k now : M World Z := on_redis (r_pttl k now).
Definition redis_hset k f v : M World () := on_redis (r_hset k f v).

Definition redis_scan c p n : M World (string * list string) := on_redis (r_scan c p n).
Definition redis_del_many ks now : M World Z := on_redis (r_del_many ks now).

Definition queue_add q (j : job q) : M World () := on_queue (q_add q j).
Definition send e : M World receipt := on_net (n_send e).
End lifting.

(** ** Rules *)

Section rules.
Context `{B : Backend} `{BL : !BackendLaws B}.
Implicit Types (w : World).

Lemma wp_create m mk Q w :
  (∀ i r w', r = mk i → v_tables (view w) m !! row_key m r = None →
     unique_ok m (v_tables (view w) m) r →
     view w' = (view w) <| v_tables ::= upd m <[row_key m r := r]> |> → Q (Ok r) w') →
  (∀ e w', view w' = view w → Q (Err e) w') →
  wp (create m mk) Q w.
Proof.
  intros Hok Herr. unfold wp, create, on_db.
  pose proof (create_law m mk (w_db w)) as HL.
  destruct (p_create m mk (w_db w)) as [[r | e] d].
  - destruct HL as ((i & Hi) & ? & ? & Ht). eapply Hok; [done..|].
    unfold view; cbn. by rewrite Ht.
  - apply Herr. unfold view; cbn. by rewrite HL.
Qed.

Lemma wp_update m p f Q w :
  (∀ k r w', v_tables (view w) m !! k = Some r → p k r = true →
     view w' = (view w) <| v_tables ::= upd m <[k := f r]> |> → Q (Ok (f r)) w') →
  (∀ e w', view w' = view w → Q (Err e) w') →
  wp (update m p f) Q w.
Proof.
  intros Hok Herr. unfold wp, update, on_db.
  pose proof (update_law m p f (w_db w)) as HL.
  destruct (p_update m p f (w_db w)) as [[r | e] d].
  - destruct HL as (k & r0 & ? & ? & -> & Ht). eapply Hok; [done..|].
    unfold view; cbn. by rewrite Ht.
  - apply Herr. unfold view; cbn. by rewrite HL.
Qed.

Lemma wp_update_many m p f Q w :
  (∀ w', view w' = (view w) <| v_tables ::= upd m (update_where p f) |> → Q (Ok ()) w') →
  (∀ e w', view w' = view w → Q (Err e) w') →
  wp (update_many m p f) Q w.
Proof.
  intros Hok Herr. unfold wp, update_many, on_db.
  pose proof (update_many_law m p f (w_db w)) as HL.
  destruct (p_update_many m p f (w_db w)) as [[[] | e] d].
  - apply Hok. unfold view; cbn. by rewrite HL.
  - apply Herr. unfold view; cbn. by rewrite HL.
Qed.

Lemma wp_delete_many m p Q w :
  (∀ w', view w' = (view w) <| v_tables ::= upd m (delete_where p) |> → Q (Ok ()) w') →
  (∀ e w', view w' = view w → Q (Err e) w') →
  wp (delete_many m p) Q w.
Proof.
  intros Hok Herr. unfold wp, delete_many, on_db.
  pose proof (delete_many_law m p (w_db w)) as HL.
  destruct (p_delete_many m p (w_db w)) as [[[] | e] d].
  - apply Hok. unfold view; cbn. by rewrite HL.
  - apply Herr. unfold view; cbn. by rewrite HL.
Qed.

(** What a query returns. *)
Definition selects m (p : where_ m) (o : order_by m) (t : gmap string (row m))
    (l : list (row m)) : Prop :=
  ordered o l ∧
  (∃ ks, NoDup ks ∧ Forall2 (λ k r, t !! k = Some r ∧ p k r = true) ks l) ∧
  (∀ k r, t !! k = Some r → p k r = true → r ∈ l).

Lemma wp_find_many m p o Q w :
  (∀ l w', selects m p o (v_tables (view w) m) l → view w' = view w → Q (Ok l) w') →
  (∀ e w', view w' = view w → Q (Err e) w') →
  wp (find_many m p o) Q w.
Proof.
  intros Hok Herr. unfold wp, find_many, on_db.
  pose proof (find_many_law m p o (w_db w)) as HL.
  destruct (p_find_many m p o (w_db w)) as [[l | e] d].
  - destruct HL as (Ht & ? & ? & ?). apply Hok; [by split_and!|].
    unfold view; cbn. by rewrite Ht.
  - apply Herr. unfold view; cbn. by rewrite HL.
Qed.

(** Rows are stored under their id. *)
Definition by_key (m : model) (t : gmap string (row m)) : Prop :=
  ∀ k r, t !! k = Some r → row_key m r = k.

Lemma by_key_check m (t : gmap string (row m)) :
  forallb (λ kr, bool_decide (row_key m kr.2 = kr.1)) (map_to_list t) = true → by_key m t.
Proof.
  rewrite forallb_forall. intros H k r Hk.
  apply elem_of_map_to_list, list_elem_of_In, H, bool_decide_eq_true in Hk. exact Hk.
Qed.

Lemma selects_keys m p o t l :
  by_key m t → selects m p o t l →
  NoDup (row_key m <$> l) ∧
  ∀ k, k ∈ row_key m <$> l ↔ ∃ r, t !! k = Some r ∧ p k r = true.
Proof.
  intros Ht (_ & (ks & Hnd & Hks) & Hall).
  assert (row_key m <$> l = ks) as ->.
  { clear Hnd Hall. induction Hks as [|k r ks l [Hk _] _ IH]; [done |]. cbn. by rewrite IH, (Ht k r). }
  split; [done |]. intros k. split.
  - intros Hk. apply list_elem_of_lookup in Hk as [i Hi].
    destruct (Forall2_lookup_l _ _ _ _ _ Hks Hi) as (r & _ & Hr). eauto.
  - intros (r & Hk & Hp). pose proof (Hall k r Hk Hp) as Hin.
    apply list_elem_of_lookup in Hin as [i Hi].
    destruct (Forall2_lookup_r _ _ _ _ _ Hks Hi) as (k' & Hk' & Hr & _).
    apply list_elem_of_lookup. exists i. rewrite <- (Ht k r Hk), (Ht k' r Hr). done.
Qed.

(** *** Pages *)

(** Prisma's [take]: a negative number takes from the end. *)
Definition take_rows {A} (n : Z) (l : list A) : list A :=
  if 0 <=? n then firstn (Z.to_nat n) l else drop (length l - Z.to_nat (- n)) l.

Lemma sorted_segment {A} (R S : A → A → Prop) l1 l l2 : (∀ a b, R a b → S a b) →
  StronglySorted R (l1 ++ l ++ l2) → StronglySorted S l.
Proof.
  intros HRS. induction l1 as [|x l1 IH]; cbn; [| by intros [? _]%StronglySorted_inv; auto].
  induction l as [|x l IHl]; cbn; [constructor |]. intros [Hs Hf]%StronglySorted_inv.
  apply list.Forall_app in Hf as [Hf _]. constructor; [auto | by eapply list.Forall_impl; eauto].
Qed.

Lemma take_rows_segment {A} n b (rows : list A) :
  ∃ l1 l2, rows = l1 ++ take_rows n (drop b rows) ++ l2.
Proof.
  exists (take b rows ++ (if 0 <=? n then [] else take (length (drop b rows) - Z.to_nat (- n)) (drop b rows))),
    (if 0 <=? n then drop (Z.to_nat n) (drop b rows) else []).
  unfold take_rows. destruct (0 <=? n).
  - by rewrite app_nil_r, !take_drop.
  - by rewrite app_nil_r, <- app_assoc, !take_drop.
Qed.

Lemma length_take_rows {A} n (l : list A) : 0 ≤ n → Z.of_nat (length (take_rows n l)) ≤ n.
Proof. intros Hn. unfold take_rows. rewrite (proj2 (Z.leb_le _ _) Hn), length_take. lia. Qed.

(** A page of what a query selects: rows of the table that it selects, each
    once, in the order of the query. *)
Lemma selects_page m p o t l b n : by_key m t → selects m p o t l →
  let page := take_rows n (drop b l) in
  (∀ x, x ∈ page → ∃ k, t !! k = Some x ∧ p k x = true) ∧ NoDup (row_key m <$> page) ∧ ordered o page.
Proof.
  intros Hkey Hl page. pose proof (selects_keys _ _ _ _ _ Hkey Hl) as [Hnd _].
  destruct (take_rows_segment n b l) as (l1 & l2 & Hrow). fold page in Hrow.
  destruct Hl as (Hs & (ks & _ & Hks) & _). split_and!.
  - intros x Hx. assert (x ∈ l) as [i Hi]%list_elem_of_lookup by (rewrite Hrow; set_solver).
    destruct (Forall2_lookup_r _ _ _ _ _ Hks Hi) as (k & _ & Hk & Hp). eauto.
  - rewrite Hrow, !fmap_app in Hnd. by apply list.NoDup_app in Hnd as (_ & _ & (? & _)%list.NoDup_app).
  - destruct o as [key |]; [| done]. cbn in *. rewrite Hrow in Hs. by eapply sorted_segment, Hs.
Qed.

Lemma selects_length m p o o' t l l' :
  by_key m t → selects m p o t l → selects m p o' t l' → length l = length l'.
Proof.
  intros Ht [Hl Hk]%selects_keys [Hl' Hk']%selects_keys; [| done..].
  rewrite <- (length_fmap (row_key m) l), <- (length_fmap (row_key m) l').
  apply Permutation_length, NoDup_Permutation; [done..|]. intros k. by rewrite Hk, Hk'.
Qed.

(** The rows that a filter selects, with their keys. *)
Definition picked {m} (p : where_ m) (t : gmap string (row m)) : list (string * row m) :=
  List.filter (λ kr, p kr.1 kr.2) (map_to_list t).

Lemma elem_of_picked {m} (p : where_ m) t k r :
  (k, r) ∈ picked p t ↔ t !! k = Some r ∧ p k r = true.
Proof.
  unfold picked. rewrite list_elem_of_In, filter_In, <- list_elem_of_In.
  by rewrite elem_of_map_to_list.
Qed.

Lemma NoDup_picked {m} (p : where_ m) t : NoDup (picked p t).*1.
Proof.
  unfold picked. pose proof (NoDup_fst_map_to_list t) as Hnd.
  induction (map_to_list t) as [|[k r] l IH]; cbn; [constructor |].
  cbn in Hnd. apply list.NoDup_cons in Hnd as [Hk Hnd].
  destruct (p k r); cbn; [| by apply IH].
  apply list.NoDup_cons. split; [| by apply IH].
  intros ([k' r'] & -> & Hin)%list_elem_of_fmap. apply Hk.
  apply list_elem_of_fmap. exists (k', r'). split; [done |].
  apply list_elem_of_In, filter_In in Hin as [Hin _]. by apply list_elem_of_In.
Qed.

(** How many they are. *)
Definition count_of m (p : where_ m) (t : gmap string (row m)) : nat := length (picked p t).

Lemma selects_count m p o t l : by_key m t → selects m p o t l → length l = count_of m p t.
Proof.
  intros Ht [Hl Hk]%selects_keys; [| done]. unfold count_of.
  rewrite <- (length_fmap (row_key m) l), <- (length_fmap fst (picked p t)).
  apply Permutation_length, NoDup_Permutation; [done | apply NoDup_picked |].
  intros k. rewrite Hk, list_elem_of_fmap. split.
  - intros (r & Hr). exists (k, r). by rewrite elem_of_picked.
  - intros ([k' r] & -> & Hr%elem_of_picked). eauto.
Qed.

Lemma count_of_le m (p q : where_ m) t :
  (∀ k r, p k r = true → q k r = true) → (count_of m p t ≤ count_of m q t)%nat.
Proof.
  intros H. unfold count_of, picked. induction (map_to_list t) as [|[k r] l IH]; cbn; [lia |].
  specialize (H k r). destruct (p k r), (q k r); cbn; try lia; by specialize (H eq_refl).
Qed.

(** Disjoint filters select disjoint rows. *)
Lemma count_of_disjoint m (p q r : where_ m) t :
  (∀ k x, p k x = true → q k x = false) →
  (∀ k x, p k x || q k x = true → r k x = true) →
  (count_of m p t + count_of m q t ≤ count_of m r t)%nat.
Proof.
  intros Hd Hr. unfold count_of, picked. induction (map_to_list t) as [|[k x] l IH]; cbn; [lia |].
  specialize (Hd k x). specialize (Hr k x).
  destruct (p k x), (q k x), (r k x); cbn in *; try lia;
    first [by specialize (Hd eq_refl) | by specialize (Hr eq_refl)].
Qed.

(** What [findFirst] and [findUnique] return. *)
Definition found m (p : where_ m) (t : gmap string (row m)) (o : option (row m)) : Prop :=
  match o with
  | Some r => ∃ k, t !! k = Some r ∧ p k r = true
  | None => ∀ k r, t !! k = Some r → p k r = false
  end.

Lemma selects_found m p o t l : selects m p o t l → found m p t (head l).
Proof.
  intros (_ & (ks & _ & Hks) & Hall). destruct l as [|r l]; cbn.
  - intros k r Hk. destruct (p k r) eqn:Hp; [| done].
    exfalso. eapply not_elem_of_nil, Hall; done.
  - inversion Hks; subst. eauto.
Qed.

Lemma wp_find_first m p o Q w :
  (∀ x w', found m p (v_tables (view w) m) x → view w' = view w → Q (Ok x) w') →
  (∀ e w', view w' = view w → Q (Err e) w') →
  wp (find_first m p o) Q w.
Proof.
  intros Hok Herr. apply wp_bind, wp_find_many; [| done].
  intros l w' Hl Hw. apply wp_ret. eauto using selects_found.
Qed.

Lemma wp_find_unique m p Q w :
  (∀ x w', found m p (v_tables (view w) m) x → view w' = view w → Q (Ok x) w') →
  (∀ e w', view w' = view w → Q (Err e) w') →
  wp (find_unique m p) Q w.
Proof. apply wp_find_first. Qed.

Lemma wp_count m p (Q : result Z → World → Prop) w :
  by_key m (v_tables (view w) m) →
  (∀ w', view w' = view w → Q (Ok (Z.of_nat (count_of m p (v_tables (view w) m)))) w') →
  (∀ e w', view w' = view w → Q (Err e) w') →
  wp (count m p) Q w.
Proof.
  intros Hkey Hok Herr. apply wp_bind, wp_find_many; [| done].
  intros l w' Hl Hw. apply wp_ret. rewrite (selects_count _ _ _ _ _ Hkey Hl). by apply Hok.
Qed.

Lemma found_by_id m id t o : found m (by_id m id) t o → o = t !! id.
Proof.
  destruct o as [r|]; cbn; unfold by_id.
  - intros (k & Hk & ->%bool_decide_eq_true). done.
  - intros H. destruct (t !! id) as [r|] eqn:Hid; [| done].
    apply H in Hid. by rewrite bool_decide_eqb_refl in Hid.
Qed.

Lemma wp_upsert m p mk f Q w :
  (∀ k r w', v_tables (view w) m !! k = Some r → p k r = true →
     view w' = (view w) <| v_tables ::= upd m <[k := f r]> |> → Q (Ok (f r)) w') →
  (∀ i r w', r = mk i → v_tables (view w) m !! row_key m r = None →
     unique_ok m (v_tables (view w) m) r →
     view w' = (view w) <| v_tables ::= upd m <[row_key m r := r]> |> → Q (Ok r) w') →
  (∀ e w', view w' = view w → Q (Err e) w') →
  wp (upsert m p mk f) Q w.
Proof.
  intros Hu Hc He. apply wp_bind, wp_find_unique; [| done].
  intros [r|] w1 _ Hw1.
  - apply wp_update; rewrite Hw1; [eauto |]. intros ???. by apply He.
  - apply wp_create; rewrite Hw1; [eauto |]. intros ???. by apply He.
Qed.

Lemma wp_included m k Q w :
  Q (Ok (v_tables (view w) m !! k)) w → wp (included m k) Q w.
Proof. done. Qed.

Lemma wp_redis_get k now Q w :
  (∀ w', view w' = view w → Q (Ok (live now (re_strings (v_redis (view w)) !! k))) w') →
  (∀ e w', view w' = view w → Q (Err e) w') →
  wp (redis_get k now) Q w.
Proof.
  intros Hok Herr. unfold wp, redis_get, on_redis.
  pose proof (get_law k now (w_redis w)) as HL.
  destruct (r_get k now (w_redis w)) as [[v | e] d].
  - destruct HL as (-> & Hv). apply Hok. unfold view; cbn. by rewrite Hv.
  - apply Herr. unfold view; cbn. by rewrite HL.
Qed.

Lemma wp_redis_set_nx k v ttl now Q w :
  (∀ w', live now (re_strings (v_redis (view w)) !! k) = None →
     view w' = (view w) <| v_redis ::= set re_strings (insert k (v, Some (now + ttl * 1000))) |> →
     Q (Ok true) w') →
  (∀ x w', live now (re_strings (v_redis (view w)) !! k) = Some x →
     view w' = view w → Q (Ok false) w') →
  (∀ e w', view w' = view w → Q (Err e) w') →
  wp (redis_set_nx k v ttl now) Q w.
Proof.
  intros Hok Hno Herr. unfold wp, redis_set_nx, on_redis.
  pose proof (set_nx_law k v ttl now (w_redis w)) as HL.
  destruct (r_set_nx k v ttl now (w_redis w)) as [[b | e] d].
  - destruct (live now _) as [x|] eqn:Hl; destruct HL as [-> Hv].
    + apply (Hno x); unfold view; cbn; [done | by rewrite Hv].
    + apply Hok; unfold view; cbn; [done | by rewrite Hv].
  - apply Herr. unfold view; cbn. by rewrite HL.
Qed.

Lemma wp_redis_setex k ttl v now Q w :
  (∀ w', view w' = (view w) <| v_redis ::= set re_strings (insert k (v, Some (now + ttl * 1000))) |> →
     Q (Ok ()) w') →
  (∀ e w', view w' = view w → Q (Err e) w') →
  wp (redis_setex k ttl v now) Q w.
Proof.
  intros Hok Herr. unfold wp, redis_setex, on_redis.
  pose proof (setex_law k ttl v now (w_redis w)) as HL.
  destruct (r_setex k ttl v now (w_redis w)) as [[[] | e] d].
  - apply Hok. unfold view; cbn. by rewrite HL.
  - apply Herr. unfold view; cbn. by rewrite HL.
Qed.

Lemma wp_redis_del k Q w :
  (∀ w', view w' = (view w) <| v_redis ::= set re_strings (delete k) |> → Q (Ok ()) w') →
  (∀ e w', view w' = view w → Q (Err e) w') →
  wp (redis_del k) Q w.
Proof.
  intros Hok Herr. unfold wp, redis_del, on_redis.
  pose proof (del_law k (w_redis w)) as HL.
  destruct (r_del k (w_redis w)) as [[[] | e] d].
  - apply Hok. unfold view; cbn. by rewrite HL.
  - apply Herr. unfold view; cbn. by rewrite HL.
Qed.

Lemma wp_redis_incr k now Q w :
  (∀ n m' w', redis_incr now k (re_strings (v_redis (view w))) = Some (n, m') →
     view w' = (view w) <| v_redis ::= set re_strings (const m') |> → Q (Ok n) w') →
  (∀ e w', view w' = view w → Q (Err e) w') →
  wp (redis_incr_ k now) Q w.
Proof.
  intros Hok Herr. unfold wp, redis_incr_, on_redis.
  pose proof (incr_law k now (w_redis w)) as HL.
  destruct (r_incr k now (w_redis w)) as [[n | e] d].
  - destruct HL as (m' & ? & Hv). eapply Hok; [done |].
    unfold view; cbn. by rewrite Hv.
  - apply Herr. unfold view; cbn. by rewrite HL.
Qed.

Lemma wp_redis_pexpire k ms now Q w :
  (∀ w', view w' = (view w) <| v_redis ::= set re_strings (redis_pexpire now ms k) |> →
     Q (Ok ()) w') →
  (∀ e w', view w' = view w → Q (Err e) w') →
  wp (redis_pexpire_ k ms now) Q w.
Proof.
  intros Hok Herr. unfold wp, redis_pexpire_, on_redis.
  pose proof (pexpire_law k ms now (w_redis w)) as HL.
  destruct (r_pexpire k ms now (w_redis w)) as [[[] | e] d].
  - apply Hok. unfold view; cbn. by rewrite HL.
  - apply Herr. unfold view; cbn. by rewrite HL.
Qed.

Lemma wp_redis_pttl k now Q w :
  (∀ w', view w' = view w →
     Q (Ok (redis_pttl now (re_strings (v_redis (view w)) !! k))) w') →
  (∀ e w', view w' = view w → Q (Err e) w') →
  wp (redis_pttl_ k now) Q w.
Proof.
  intros Hok Herr. unfold wp, redis_pttl_, on_redis.
  pose proof (pttl_law k now (w_redis w)) as HL.
  destruct (r_pttl k now (w_redis w)) as [[v | e] d].
  - destruct HL as (-> & Hv). apply Hok. unfold view; cbn. by rewrite Hv.
  - apply Herr. unfold view; cbn. by rewrite HL.
Qed.

Lemma wp_redis_hset k f v Q w :
  (∀ w', view w' = (view w) <| v_redis ::= set re_hashes (insert (k, f) v) |> →
     Q (Ok ()) w') →
  (∀ e w', view w' = view w → Q (Err e) w') →
  wp (redis_hset k f v) Q w.
Proof.
  intros Hok Herr. unfold wp, redis_hset, on_redis.
  pose proof (hset_law k f v (w_redis w)) as HL.
  destruct (r_hset k f v (w_redis w)) as [[[] | e] d].
  - apply Hok. unfold view; cbn. by rewrite HL.
  - apply Herr. unfold view; cbn. by rewrite HL.
Qed.

(** [SCAN] and [DEL k ...] leave the view of everything else. *)
Lemma wp_redis_scan c p n Q w :
  (∀ c' ks w', view w' = view w → (∀ k, k ∈ ks → key_matches p k = true) →
     (∀ k, k ∈ scan_todo c (w_redis w) → key_matches p k = true →
        k ∈ ks ∨ (c' ≠ "0"%string ∧ k ∈ scan_todo c' (w_redis w'))) →
     (c' ≠ "0"%string → (scan_left c' (w_redis w') < scan_left c (w_redis w))%nat) →
     Q (Ok (c', ks)) w') →
  (∀ e w', view w' = view w → Q (Err e) w') →
  wp (redis_scan c p n) Q w.
Proof.
  intros Hok Herr. unfold wp, redis_scan, on_redis.
  pose proof (scan_law c p n (w_redis w)) as HL.
  destruct (r_scan c p n (w_redis w)) as [[[c' ks] | e] d].
  - destruct HL as (Hv & ? & ? & ?). apply Hok; [| done..].
    unfold view; cbn. by rewrite Hv.
  - apply Herr. unfold view; cbn. by rewrite HL.
Qed.

Lemma wp_redis_del_many ks now Q w :
  (∀ r w',
     match r with
     | Ok n => view w' = (view w) <| v_redis ::= set re_strings (del_keys ks) |> ∧ 0 ≤ n
     | Err _ => view w' = view w
     end →
     (∀ c, scan_left c (w_redis w') = scan_left c (w_redis w)) →
     (∀ c k, k ∈ scan_todo c (w_redis w) → is_Some (re_strings (v_redis (view w')) !! k) →
        k ∈ scan_todo c (w_redis w')) →
     Q r w') →
  wp (redis_del_many ks now) Q w.
Proof.
  intros HQ. unfold wp, redis_del_many, on_redis.
  pose proof (del_many_law ks now (w_redis w)) as HL.
  destruct (r_del_many ks now (w_redis w)) as [r d]. destruct HL as [HL Hs].
  apply HQ.
  - destruct r; unfold view; cbn; [destruct HL as [-> ?]; done | by rewrite HL].
  - intros c. apply Hs.
  - intros c k. cbn. apply Hs.
Qed.

Lemma lookup_del_keys ks m k :
  del_keys ks m !! k = if bool_decide (k ∈ ks) then None else m !! k.
Proof.
  induction ks as [|x ks IH]; [done |].
  change (del_keys (x :: ks) m) with (delete x (del_keys ks m)).
  destruct (decide (k = x)) as [-> | Hne].
  - rewrite lookup_delete_eq, bool_decide_eq_true_2 by left. done.
  - rewrite lookup_delete_ne, IH by done.
    erewrite (bool_decide_ext (k ∈ x :: ks)); [done |]. set_solver.
Qed.

Lemma wp_queue_add q j Q w :
  (∀ w', view w' = (view w) <| v_jobs ::= upd_jobs q (add_job j) |> → Q (Ok ()) w') →
  (∀ e w', view w' = view w → Q (Err e) w') →
  wp (queue_add q j) Q w.
Proof.
  intros Hok Herr. unfold wp, queue_add, on_queue.
  pose proof (add_law q j (w_queue w)) as HL.
  destruct (q_add q j (w_queue w)) as [[[] | e] d].
  - apply Hok. unfold view; cbn. by rewrite HL.
  - apply Herr. unfold view; cbn. by rewrite HL.
Qed.

Lemma wp_send e Q w :
  (∀ r w', view w' = (view w) <| v_sent ::= λ l, l ++ [e] |> → Q (Ok r) w') →
  (∀ x w', view w' = view w ∨ view w' = (view w) <| v_sent ::= λ l, l ++ [e] |> →
     Q (Err x) w') →
  wp (send e) Q w.
Proof.
  intros Hok Herr. unfold wp, send, on_net.
  pose proof (send_law e (w_net w)) as HL.
  destruct (n_send e (w_net w)) as [[r | x] d].
  - apply Hok. unfold view; cbn. by rewrite HL.
  - apply Herr. unfold view; cbn. destruct HL as [-> | ->]; auto.
Qed.

(** The operation [m] is one that fails with [e] where the view is [v]: what
    it takes for a failure to be put down to it. *)
Definition rejects {A} (m : M World A) (v : View) (e : exn) : Prop :=
  ∃ w, view w = v ∧ (m w).1 = Err e.

Lemma wp_rejects {A} (m : M World A) (Q : result A → World → Prop) w :
  wp m (λ r w', (∀ e, r = Err e → rejects m (view w) e) → Q r w') w → wp m Q w.
Proof.
  unfold wp. destruct (m w) as [r w'] eqn:Hm. intros HQ. apply HQ. intros e ->.
  exists w. by rewrite Hm.
Qed.

(** Inside [$transaction]: a run on the database alone. *)
Lemma wp_db_create m mk (Q : result (row m) → DB → Prop) d :
  (∀ i r d', r = mk i → tables d m !! row_key m r = None →
     tables d' = upd m <[row_key m r := r]> (tables d) → Q (Ok r) d') →
  (∀ e d', tables d' = tables d → Q (Err e) d') →
  wp (p_create m mk) Q d.
Proof.
  intros Hok Herr. unfold wp. pose proof (create_law m mk d) as HL.
  destruct (p_create m mk d) as [[r | e] d'].
  - destruct HL as ((i & Hi) & ? & _ & Ht). by eapply Hok.
  - by apply Herr.
Qed.

Lemma wp_db_update m p f (Q : result (row m) → DB → Prop) d :
  (∀ k r d', tables d m !! k = Some r → p k r = true →
     tables d' = upd m <[k := f r]> (tables d) → Q (Ok (f r)) d') →
  (∀ e d', tables d' = tables d → Q (Err e) d') →
  wp (p_update m p f) Q d.
Proof.
  intros Hok Herr. unfold wp. pose proof (update_law m p f d) as HL.
  destruct (p_update m p f d) as [[r | e] d'].
  - destruct HL as (k & r0 & ? & ? & -> & Ht). by eapply Hok.
  - by apply Herr.
Qed.

Lemma wp_db_update_many m p f (Q : result () → DB → Prop) d :
  (∀ d', tables d' = upd m (update_where p f) (tables d) → Q (Ok ()) d') →
  (∀ e d', tables d' = tables d → Q (Err e) d') →
  wp (p_update_many m p f) Q d.
Proof.
  intros Hok Herr. unfold wp. pose proof (update_many_law m p f d) as HL.
  destruct (p_update_many m p f d) as [[[] | e] d']; [by apply Hok | by apply Herr].
Qed.

Lemma wp_db_delete_many m p (Q : result () → DB → Prop) d :
  (∀ d', tables d' = upd m (delete_where p) (tables d) → Q (Ok ()) d') →
  (∀ e d', tables d' = tables d → Q (Err e) d') →
  wp (p_delete_many m p) Q d.
Proof.
  intros Hok Herr. unfold wp. pose proof (delete_many_law m p d) as HL.
  destruct (p_delete_many m p d) as [[[] | e] d']; [by apply Hok | by apply Herr].
Qed.

Lemma wp_db_find_many m p o (Q : result (list (row m)) → DB → Prop) d :
  (∀ l d', selects m p o (tables d m) l → tables d' = tables d → Q (Ok l) d') →
  (∀ e d', tables d' = tables d → Q (Err e) d') →
  wp (p_find_many m p o) Q d.
Proof.
  intros Hok Herr. unfold wp. pose proof (find_many_law m p o d) as HL.
  destruct (p_find_many m p o d) as [[l | e] d']; [| by apply Herr].
  destruct HL as (? & ? & ? & ?). by apply Hok.
Qed.

Lemma wp_db_upsert m p mk f (Q : result (row m) → DB → Prop) d :
  (∀ k r d', tables d m !! k = Some r → p k r = true →
     tables d' = upd m <[k := f r]> (tables d) → Q (Ok (f r)) d') →
  (∀ i r d', r = mk i → tables d m !! row_key m r = None →
     tables d' = upd m <[row_key m r := r]> (tables d) → Q (Ok r) d') →
  (∀ e d', tables d' = tables d → Q (Err e) d') →
  wp (db_upsert m p mk f) Q d.
Proof.
  intros Hu Hc He. apply wp_bind. unfold wp at 1.
  pose proof (find_many_law m p None d) as HL.
  destruct (p_find_many m p None d) as [[l | e] d1]; [destruct HL as [Ht _] | by apply He].
  destruct (head l); [apply wp_db_update | apply wp_db_create]; rewrite Ht; auto;
    intros; apply He; congruence.
Qed.

(** All or nothing: the body's effect if it and the commit succeed. *)
Lemma wp_transaction {A} (body : M DB A) Q w :
  (∀ d, tables d = v_tables (view w) →
     wp body (λ r d', ∀ a w', r = Ok a → view w' = (view w) <| v_tables := tables d' |> →
       Q (Ok a) w') d) →
  (∀ e w', view w' = view w → Q (Err e) w') →
  wp (transaction body) Q w.
Proof.
  intros Hok Herr. unfold wp, transaction, on_db.
  pose proof (transaction_law A body (w_db w)) as HL.
  destruct (p_transaction A body (w_db w)) as [[a | e] d].
  - destruct HL as (d0 & d1 & Hd0 & Hb & Hd). specialize (Hok d0 Hd0).
    unfold wp in Hok. rewrite Hb in Hok. apply (Hok a); [done |].
    unfold view; cbn. by rewrite Hd.
  - apply Herr. unfold view; cbn. by rewrite HL.
Qed.
End rules.

#[global] Arguments view : simpl never.

(** One external call of symbolic execution: a goal per way it settles. *)
Ltac wp_ext :=
  first
    [ lazymatch goal with |- wp (create ?m _) _ _ => apply (wp_create m) end; [intros ?i ?r ?w ?Hr ?Hfresh ?Huniq ?Hv | intros ?e ?w ?Hv]
    | lazymatch goal with |- wp (update ?m _ _) _ _ => apply (wp_update m) end; [intros ?k ?r ?w ?Hk ?Hp ?Hv | intros ?e ?w ?Hv]
    | apply wp_update_many; [intros ?w ?Hv | intros ?e ?w ?Hv]
    | apply wp_delete_many; [intros ?w ?Hv | intros ?e ?w ?Hv]
    | lazymatch goal with |- wp (find_unique ?m _) _ _ => apply (wp_find_unique m) end; [intros ?o ?w ?Hf ?Hv | intros ?e ?w ?Hv]
    | lazymatch goal with |- wp (find_first ?m _ _) _ _ => apply (wp_find_first m) end; [intros ?o ?w ?Hf ?Hv | intros ?e ?w ?Hv]
    | lazymatch goal with |- wp (find_many ?m _ _) _ _ => apply (wp_find_many m) end; [intros ?l ?w ?Hs ?Hv | intros ?e ?w ?Hv]
    | lazymatch goal with |- wp (upsert ?m _ _ _) _ _ => apply (wp_upsert m) end;
        [intros ?k ?r ?w ?Hk ?Hp ?Hv | intros ?i ?r ?w ?Hr ?Hfresh ?Huniq ?Hv | intros ?e ?w ?Hv]
    | apply wp_redis_get; [intros ?w ?Hv | intros ?e ?w ?Hv]
    | apply wp_redis_set_nx;
        [intros ?w ?Hl ?Hv | intros ?x ?w ?Hl ?Hv | intros ?e ?w ?Hv]
    | apply wp_redis_setex; [intros ?w ?Hv | intros ?e ?w ?Hv]
    | apply wp_redis_del; [intros ?w ?Hv | intros ?e ?w ?Hv]
    | apply wp_redis_incr; [intros ?n ?m ?w ?Hi ?Hv | intros ?e ?w ?Hv]
    | apply wp_redis_pexpire; [intros ?w ?Hv | intros ?e ?w ?Hv]
    | apply wp_redis_pttl; [intros ?w ?Hv | intros ?e ?w ?Hv]
    | apply wp_redis_hset; [intros ?w ?Hv | intros ?e ?w ?Hv]
    | lazymatch goal with |- wp (queue_add ?m _) _ _ => apply (wp_queue_add m) end; [intros ?w ?Hv | intros ?e ?w ?Hv]
    | apply wp_send; [intros ?rc ?w ?Hv | intros ?e ?w ?Hv] ].

(** Execute as far as the method goes without a case distinction of its own. *)
Ltac wp_go := repeat (first [wp_pure | wp_ext]; cbn beta iota).
Ltac wp_auto := repeat (first [wp_pure | wp_ext | wp_case]; cbn beta iota).

(** Express every view in terms of the initial one. *)
Ltac views :=
  repeat match goal with
  | H : view ?w = _ |- context [view ?w] => rewrite H
  | H : view ?w = _, H' : context [view ?w] |- _ =>
      lazymatch H' with H => fail | _ => rewrite H in H' end
  end; cbn in *.
