(* ===== verification/Memory.v ===== *)
(** * An in-memory back end with scheduled failures

    An executable implementation of the classes of [External]: tables,
    Redis keys, queues and the log of what was sent are kept as they are, and
    a schedule of booleans says which of the next operations reject.  It
    satisfies every law, so no theorem proved from the laws is vacuous, and
    the witnesses evaluate the gateway's methods on it. *)

From Stdlib Require Import String.
From stdpp Require Import sorting pretty.
From S2P Require Import Prelude Schema External.

Open Scope list_scope.
Open Scope Z_scope.

(** ** Tables *)

Record MemDB := {
  m_tables : Tables;
  m_faults : list bool;
  m_next : nat;            (** the next generated id *)
}.

Definition fault_error : exn := JsError "connection lost" (Some "P1001")%string.
Definition unique_error : exn := JsError "Unique constraint failed" (Some "P2002")%string.
Definition missing_error : exn := JsError "Record to update not found" (Some "P2025")%string.

(** Run [op] unless the schedule says that this operation rejects. *)
Definition faulting {A} (op : MemDB → result A * MemDB) (d : MemDB) : result A * MemDB :=
  match m_faults d with
  | true :: fs => (Err fault_error, d <| m_faults := fs |>)
  | false :: fs => op (d <| m_faults := fs |>)
  | [] => op d
  end.

Definition shares_unique {m} (r r' : row m) : bool :=
  existsb (λ u, bool_decide (u ∈ row_uniques m r)) (row_uniques m r').

Definition conflicting {m} (r : row m) (t : gmap string (row m)) : bool :=
  bool_decide (is_Some (t !! row_key m r)) ||
  existsb (λ kr, shares_unique r kr.2) (map_to_list t).

Definition mem_create m (mk : string → row m) (d : MemDB) : result (row m) * MemDB :=
  let r := mk ("id-" +:+ pretty (m_next d))%string in
  if conflicting r (m_tables d m) then (Err unique_error, d)
  else (Ok r, d <| m_next ::= S |> <| m_tables ::= upd m <[row_key m r := r]> |>).

Definition mem_update m (p : where_ m) (f : row m → row m) (d : MemDB) :
    result (row m) * MemDB :=
  match picked p (m_tables d m) with
  | (k, r) :: _ => (Ok (f r), d <| m_tables ::= upd m <[k := f r]> |>)
  | [] => (Err missing_error, d)
  end.

Definition mem_update_many m (p : where_ m) f (d : MemDB) : result () * MemDB :=
  (Ok (), d <| m_tables ::= upd m (update_where p f) |>).

Definition mem_delete_many m (p : where_ m) (d : MemDB) : result () * MemDB :=
  (Ok (), d <| m_tables ::= upd m (delete_where p) |>).

Definition key_le {m} (key : row m → Z) (a b : string * row m) : Prop := key a.2 ≤ key b.2.

#[export] Instance key_le_dec {m} (key : row m → Z) a b : Decision (key_le key a b) :=
  decide (key a.2 ≤ key b.2).

Definition in_order {m} (o : order_by m) (l : list (string * row m)) : list (string * row m) :=
  match o with
  | None => l
  | Some key => merge_sort (key_le key) l
  end.

Definition mem_find_many m (p : where_ m) (o : order_by m) (d : MemDB) :
    result (list (row m)) * MemDB :=
  (Ok (snd <$> in_order o (picked p (m_tables d m))), d).

Definition mem_transaction A (body : MemDB → result A * MemDB) (d : MemDB) :
    result A * MemDB :=
  match body d with
  | (Ok a, d') => (Ok a, d')
  | (Err e, d') => (Err e, d' <| m_tables := m_tables d |>)
  end.

#[local] Instance mem_prisma : Prisma := {
  DB := MemDB;
  tables := m_tables;
  p_create m mk := faulting (mem_create m mk);
  p_update m p f := faulting (mem_update m p f);
  p_update_many m p f := faulting (mem_update_many m p f);
  p_delete_many m p := faulting (mem_delete_many m p);
  p_find_many m p o := faulting (mem_find_many m p o);
  p_transaction := mem_transaction;
}.

Lemma faulting_law {A} (op : MemDB → result A * MemDB) (P : Tables → result A → Tables → Prop) :
  (∀ t e, P t (Err e) t) →
  (∀ d, let '(r, d') := op d in P (m_tables d) r (m_tables d')) →
  ∀ d, let '(r, d') := faulting op d in P (m_tables d) r (m_tables d').
Proof.
  intros Herr Hop d. unfold faulting. destruct (m_faults d) as [|[] fs].
  - apply Hop.
  - apply Herr.
  - exact (Hop (d <| m_faults := fs |>)).
Qed.

Lemma conflicting_false {m} (r : row m) t :
  conflicting r t = false → t !! row_key m r = None ∧ unique_ok m t r.
Proof.
  intros [Hk Hu]%orb_false_iff. split.
  - apply bool_decide_eq_false in Hk. by apply eq_None_not_Some.
  - intros k r' Hr' u Hu' Hur.
    assert (existsb (λ kr, shares_unique r kr.2) (map_to_list t) = true) as Ht; [| congruence].
    apply existsb_exists. exists (k, r'). split.
    + by apply list_elem_of_In, elem_of_map_to_list.
    + apply existsb_exists. exists u. split; [by apply list_elem_of_In |].
      by apply bool_decide_eq_true.
Qed.

Lemma in_order_perm {m} (o : order_by m) l : in_order o l ≡ₚ l.
Proof. destruct o; cbn; [apply merge_sort_Permutation | done]. Qed.

#[local] Instance key_le_total {m} (key : row m → Z) : Total (key_le key).
Proof. intros a b. unfold key_le. lia. Qed.
#[local] Instance key_le_trans {m} (key : row m → Z) : Transitive (key_le key).
Proof. intros a b c. unfold key_le. lia. Qed.

Lemma in_order_ordered {m} (o : order_by m) l : ordered o (snd <$> in_order o l).
Proof.
  destruct o as [key|]; [cbn | done].
  pose proof (StronglySorted_merge_sort (key_le key) l) as Hs.
  induction Hs as [|a l' _ IH Hall]; cbn; constructor; [done |].
  by apply Forall_fmap.
Qed.

Lemma mem_find_many_selects {m} (p : where_ m) o (t : gmap string (row m)) :
  let l := snd <$> in_order o (picked p t) in
  ordered o l ∧
  (∃ ks, NoDup ks ∧ Forall2 (λ k r, t !! k = Some r ∧ p k r = true) ks l) ∧
  (∀ k r, t !! k = Some r → p k r = true → r ∈ l).
Proof.
  cbn. split_and!.
  - apply in_order_ordered.
  - exists (in_order o (picked p t)).*1. split.
    + eapply NoDup_Permutation_proper; [| apply (NoDup_picked p t)].
      by rewrite in_order_perm.
    + assert (Forall (λ kr, t !! kr.1 = Some kr.2 ∧ p kr.1 kr.2 = true)
        (in_order o (picked p t))) as Hall.
      { apply list.Forall_forall. intros [k r]. rewrite in_order_perm.
        apply elem_of_picked. }
      induction Hall; cbn; constructor; done.
  - intros k r Hk Hp. apply list_elem_of_fmap. exists (k, r). split; [done |].
    by rewrite in_order_perm, elem_of_picked.
Qed.

#[local] Instance mem_prisma_laws : PrismaLaws mem_prisma.
Proof.
  split; cbn.
  - intros m mk. apply (faulting_law (mem_create m mk) (λ t r t', match r with
      | Ok r => (∃ i, r = mk i) ∧ t m !! row_key m r = None ∧ unique_ok m (t m) r ∧
          t' = upd m <[row_key m r := r]> t
      | Err _ => t' = t end)); [done |].
    intros d. unfold mem_create. destruct (conflicting _ _) eqn:Hc; [done |].
    apply conflicting_false in Hc as []. split_and!; eauto.
  - intros m p f. apply (faulting_law (mem_update m p f) (λ t r t', match r with
      | Ok r' => ∃ k r, t m !! k = Some r ∧ p k r = true ∧ r' = f r ∧
          t' = upd m <[k := f r]> t
      | Err _ => t' = t end)); [done |].
    intros d. unfold mem_update. destruct (picked p _) as [|[k r] l] eqn:Hp; [done |].
    assert ((k, r) ∈ picked p (m_tables d m)) as Hin by (rewrite Hp; constructor).
    apply elem_of_picked in Hin as [Hk Hpk]. by exists k, r.
  - intros m p f. apply (faulting_law (mem_update_many m p f) (λ t r t', match r with
      | Ok _ => t' = upd m (update_where p f) t | Err _ => t' = t end)); done.
  - intros m p. apply (faulting_law (mem_delete_many m p) (λ t r t', match r with
      | Ok _ => t' = upd m (delete_where p) t | Err _ => t' = t end)); done.
  - intros m p o. apply (faulting_law (mem_find_many m p o) (λ t r t', match r with
      | Ok l => t' = t ∧ ordered o l ∧
          (∃ ks, NoDup ks ∧ Forall2 (λ k r, t m !! k = Some r ∧ p k r = true) ks l) ∧
          (∀ k r, t m !! k = Some r → p k r = true → r ∈ l)
      | Err _ => t' = t end)); [done |].
    intros d. split; [done | apply mem_find_many_selects].
  - intros A body d. unfold mem_transaction.
    destruct (body d) as [[a | e] d'] eqn:Hb; [| done].
    exists d, d'. done.
Qed.

(** ** Redis *)

Record MemRedis := { m_redis : RedisView; m_rfaults : list bool }.

Definition redis_error : exn := JsError "Connection is closed." None.

Definition rfaulting {A} (op : RedisView → result A * RedisView) (d : MemRedis) :
    result A * MemRedis :=
  let run fs := let '(r, v) := op (m_redis d) in (r, {| m_redis := v; m_rfaults := fs |}) in
  match m_rfaults d with
  | true :: fs => (Err redis_error, d <| m_rfaults := fs |>)
  | false :: fs => run fs
  | [] => run []
  end.

(** An iteration takes two calls: the keys of even length, then the others. *)
Definition first_half (c : string) : bool := (c =? "0")%string.

Definition in_half (c k : string) : Prop := Nat.even (String.length k) = first_half c.

#[local] Instance in_half_dec c k : Decision (in_half c k) :=
  decide (Nat.even (String.length k) = first_half c).

#[local] Instance mem_redis : RedisClient := {
  RD := MemRedis;
  redis_view := m_redis;
  r_get k now := rfaulting (λ v, (Ok (live now (re_strings v !! k)), v));
  r_set_nx k x ttl now := rfaulting (λ v,
    match live now (re_strings v !! k) with
    | Some _ => (Ok false, v)
    | None => (Ok true, v <| re_strings ::= insert k (x, Some (now + ttl * 1000)) |>)
    end);
  r_setex k ttl x now := rfaulting (λ v,
    (Ok (), v <| re_strings ::= insert k (x, Some (now + ttl * 1000)) |>));
  r_del k := rfaulting (λ v, (Ok (), v <| re_strings ::= delete k |>));
  r_incr k now := rfaulting (λ v,
    match redis_incr now k (re_strings v) with
    | Some (n, m') => (Ok n, v <| re_strings := m' |>)
    | None => (Err (JsError "WRONGTYPE" None), v)
    end);
  r_pexpire k ms now := rfaulting (λ v,
    (Ok (), v <| re_strings ::= redis_pexpire now ms k |>));
  r_pttl k now := rfaulting (λ v, (Ok (redis_pttl now (re_strings v !! k)), v));
  r_hset k f x := rfaulting (λ v, (Ok (), v <| re_hashes ::= insert (k, f) x |>));
  r_scan c p _ := rfaulting (λ v,
    (Ok (if first_half c then "1" else "0",
         List.filter (λ k, key_matches p k && bool_decide (in_half c k)) (map_to_list (re_strings v)).*1)%string,
     v));
  r_del_many ks now := rfaulting (λ v,
    (Ok (Z.of_nat (length (List.filter (λ k, bool_decide (is_Some (live now (re_strings v !! k))))
           (remove_dups ks)))), v <| re_strings ::= del_keys ks |>));
  scan_todo c d :=
    if first_half c then dom (re_strings (m_redis d))
    else filter (in_half c) (dom (re_strings (m_redis d)));
  scan_left c _ := if first_half c then 1%nat else 0%nat;
}.

Lemma rfaulting_law {A} (op : RedisView → result A * RedisView)
    (P : RedisView → result A → RedisView → Prop) :
  (∀ v e, P v (Err e) v) →
  (∀ v, let '(r, v') := op v in P v r v') →
  ∀ d, let '(r, d') := rfaulting op d in P (m_redis d) r (m_redis d').
Proof.
  intros Herr Hop d. unfold rfaulting. specialize (Hop (m_redis d)).
  destruct (m_rfaults d) as [|[] fs], (op (m_redis d)) as [r v]; try done; apply Herr.
Qed.

Lemma scan_halves c p (v : RedisView) :
  let ks := List.filter (λ k, key_matches p k && bool_decide (in_half c k))
              (map_to_list (re_strings v)).*1 in
  let c' := (if first_half c then "1" else "0")%string in
  v = v ∧ (∀ k, k ∈ ks → key_matches p k = true) ∧
  (∀ k, k ∈ (if first_half c then dom (re_strings v) else filter (in_half c) (dom (re_strings v))) →
     key_matches p k = true →
     k ∈ ks ∨ (c' ≠ "0"%string ∧
       k ∈ (if first_half c' then dom (re_strings v)
            else filter (in_half c') (dom (re_strings v))))) ∧
  (c' ≠ "0"%string → ((if first_half c' then 1 else 0) < (if first_half c then 1 else 0))%nat).
Proof.
  cbn zeta. split_and!; [done | | |].
  - intros k. rewrite list_elem_of_In, filter_In, andb_true_iff. tauto.
  - intros k Hk Hp. rewrite list_elem_of_In, filter_In, andb_true_iff, <- list_elem_of_In.
    rewrite bool_decide_eq_true.
    assert (k ∈ (map_to_list (re_strings v)).*1 ↔ k ∈ dom (re_strings v)) as ->.
    { rewrite elem_of_dom, list_elem_of_fmap. split.
      - intros ([k' x] & -> & Hin%elem_of_map_to_list). cbn. eauto.
      - intros [x Hx%elem_of_map_to_list]. by exists (k, x). }
    destruct (first_half c) eqn:Hc; unfold in_half in *.
    + destruct (Nat.even (String.length k)) eqn:Hk'; [left; by rewrite Hc | right].
      split; [done |]. cbn. by apply elem_of_filter.
    + apply elem_of_filter in Hk as [Hk ?]. left. by rewrite Hk, Hc.
  - destruct (first_half c); [cbn; lia | done].
Qed.

#[local] Instance mem_redis_laws : RedisLaws mem_redis.
Proof.
  split; cbn.
  - intros k now. by apply (rfaulting_law _ (λ v r v', match r with
      | Ok x => x = live now (re_strings v !! k) ∧ v' = v | Err _ => v' = v end)).
  - intros k x ttl now. apply (rfaulting_law _ (λ v r v', match r with
      | Ok b => match live now (re_strings v !! k) with
          | None => b = true ∧ v' = v <| re_strings ::= insert k (x, Some (now + ttl * 1000)) |>
          | Some _ => b = false ∧ v' = v end
      | Err _ => v' = v end)); [done |].
    intros v. by destruct (live now (re_strings v !! k)).
  - intros k ttl x now. by apply (rfaulting_law _ (λ v r v', match r with
      | Ok _ => v' = v <| re_strings ::= insert k (x, Some (now + ttl * 1000)) |>
      | Err _ => v' = v end)).
  - intros k. by apply (rfaulting_law _ (λ v r v', match r with
      | Ok _ => v' = v <| re_strings ::= delete k |> | Err _ => v' = v end)).
  - intros k now. apply (rfaulting_law _ (λ v r v', match r with
      | Ok n => ∃ m', redis_incr now k (re_strings v) = Some (n, m') ∧
          v' = v <| re_strings := m' |>
      | Err _ => v' = v end)); [done |].
    intros v. destruct (redis_incr now k (re_strings v)) as [[n m']|]; [eauto | done].
  - intros k ms now. by apply (rfaulting_law _ (λ v r v', match r with
      | Ok _ => v' = v <| re_strings ::= redis_pexpire now ms k |> | Err _ => v' = v end)).
  - intros k now. by apply (rfaulting_law _ (λ v r v', match r with
      | Ok t => t = redis_pttl now (re_strings v !! k) ∧ v' = v | Err _ => v' = v end)).
  - intros k f x. by apply (rfaulting_law _ (λ v r v', match r with
      | Ok _ => v' = v <| re_hashes ::= insert (k, f) x |> | Err _ => v' = v end)).
  - intros c p n d. unfold rfaulting.
    destruct (m_rfaults d) as [|[] fs]; cbn; [| done |]; apply scan_halves.
  - intros d k Hk. by apply elem_of_dom.
  - intros ks now d. unfold rfaulting.
    destruct (m_rfaults d) as [|[] fs]; cbn; (split; [try (split; [done | lia]); try done |]);
      intros c; (split; [done |]); intros k; destruct (first_half c);
      rewrite ?elem_of_filter, !elem_of_dom; tauto.
Qed.

(** ** Queues *)

Record MemQueue := { m_jobs : Jobs; m_qfaults : list bool; m_stalls : bool }.

#[local] Instance mem_queue : BullMQ := {
  QU := MemQueue;
  jobs := m_jobs;
  q_add q j d :=
    match m_qfaults d with
    | true :: fs => (Err redis_error, d <| m_qfaults := fs |>)
    | fs => (Ok (), d <| m_qfaults := tail fs |> <| m_jobs ::= upd_jobs q (add_job j) |>)
    end;
  q_stalled _ _ d := m_stalls d;
}.

#[local] Instance mem_queue_laws : BullMQLaws mem_queue.
Proof. split. intros q j d. cbn. by destruct (m_qfaults d) as [|[] fs]. Qed.

(** ** Networks *)

(** [m_outcomes] schedules the outcomes of the next sends: a receipt, or a
    rejection with a message. *)
Record MemNet := { m_sent : list envelope; m_outcomes : list (string + receipt) }.

Definition default_receipt : receipt :=
  {| rc_messageId := "msg"; rc_provider := "memory"; rc_status := 200 |}.

#[local] Instance mem_net : Network := {
  NET := MemNet;
  sent := m_sent;
  n_send e d :=
    match m_outcomes d with
    | inl msg :: os => (Err (JsError msg None), d <| m_outcomes := os |>)
    | inr rc :: os => (Ok rc, d <| m_outcomes := os |> <| m_sent ::= λ l, l ++ [e] |>)
    | [] => (Ok default_receipt, d <| m_sent ::= λ l, l ++ [e] |>)
    end;
}.

#[local] Instance mem_net_laws : NetworkLaws mem_net.
Proof. split. intros e d. cbn. destruct (m_outcomes d) as [|[] os]; cbn; auto. Qed.

#[export] Instance memory : Backend := {
  be_prisma := mem_prisma;
  be_redis := mem_redis;
  be_queue := mem_queue;
  be_net := mem_net;
}.

#[export] Instance memory_laws : BackendLaws memory.
Proof. split; apply _. Qed.

(** ** Building worlds for the witnesses *)

Definition no_tables : Tables := λ _, ∅.
Definition no_jobs : Jobs := λ _, [].

Definition mem_world (t : Tables) (r : gmap string (rvalue * option Z)) : World (B:=memory) := {|
  w_db := {| m_tables := t; m_faults := []; m_next := 0 |};
  w_redis := {| m_redis := {| re_strings := r; re_hashes := ∅ |}; m_rfaults := [] |};
  w_queue := {| m_jobs := no_jobs; m_qfaults := []; m_stalls := false |};
  w_net := {| m_sent := []; m_outcomes := [] |} |}.

(** The table of a model with the given rows. *)
Definition with_rows (m : model) (rs : list (row m)) (t : Tables) : Tables :=
  upd m (λ _, list_to_map ((λ r, (row_key m r, r)) <$> rs)) t.
