(* ===== verification/Frame.v ===== *)
(** * What a method may change, and what it may return

    Three properties of methods that are established by going through their
    code once: [Keeps F m], everything [m] does stays within the frame [F]
    (the tables, queues and Redis keys it may touch, the messages it may
    send), whatever fails; [KeepsRows F m], the same of the rows, where [F] says
    of each key of a table whether its row may be added, removed or rewritten,
    and how; and [Returns P m], a value [m] returns satisfies [P].  The tactics
    [keeps], [rows] and [returns] apply their rules. *)

From S2P Require Import Prelude Schema External.

Record Frame := {
  fr_table : model → Prop;
  fr_job : queue → Prop;
  fr_key : string → Prop;
  fr_send : envelope → Prop;
}.

Record within (F : Frame) (v v' : View) : Prop := {
  within_tables m : ¬ fr_table F m → v_tables v' m = v_tables v m;
  within_jobs q : ¬ fr_job F q → v_jobs v' q = v_jobs v q;
  within_keys k : ¬ fr_key F k →
    re_strings (v_redis v') !! k = re_strings (v_redis v) !! k;
  within_sent : ∃ l, v_sent v' = v_sent v ++ l ∧ Forall (fr_send F) l;
}.

#[export] Instance within_preorder F : PreOrder (within F).
Proof.
  split.
  - intros v. split; try done. exists []. by rewrite app_nil_r.
  - intros v1 v2 v3 [Ht1 Hj1 Hk1 (l1 & Hs1 & Hl1)] [Ht2 Hj2 Hk2 (l2 & Hs2 & Hl2)]. split.
    + intros m Hm. by rewrite Ht2, Ht1.
    + intros q Hq. by rewrite Hj2, Hj1.
    + intros k Hk. by rewrite Hk2, Hk1.
    + exists (l1 ++ l2). rewrite Hs2, Hs1, app_assoc. split; [done |]. by apply Forall_app_2.
Qed.

(** Frames by inclusion. *)
Record frame_le (F F' : Frame) : Prop := {
  le_table m : fr_table F m → fr_table F' m;
  le_job q : fr_job F q → fr_job F' q;
  le_key k : fr_key F k → fr_key F' k;
  le_send e : fr_send F e → fr_send F' e;
}.

Lemma within_le F F' v v' : frame_le F F' → within F v v' → within F' v v'.
Proof.
  intros [Ht Hj Hk He] [Wt Wj Wk (l & Hs & Hl)]. split; [naive_solver..|].
  exists l. split; [done |]. eapply list.Forall_impl; eauto.
Qed.

Section frame.
Context `{B : Backend} `{BL : !BackendLaws B}.

Definition Keeps (F : Frame) {A} (m : M World A) : Prop :=
  ∀ w, wp m (λ _ w', within F (view w) (view w')) w.

Definition Returns {A} (P : A → Prop) (m : M World A) : Prop :=
  ∀ w, wp m (λ r _, match r with Ok a => P a | Err _ => True end) w.

(** Using a frame inside a proof that tracks more. *)
Lemma wp_keeps {A} F (m : M World A) (Q : result A → World → Prop) w :
  Keeps F m → (∀ r w', within F (view w) (view w') → Q r w') → wp m Q w.
Proof. intros Hm HQ. eapply wp_mono; [apply Hm | done]. Qed.

Lemma Keeps_le {A} F F' (m : M World A) : frame_le F F' → Keeps F m → Keeps F' m.
Proof. intros Hle Hm w. eapply wp_mono; [apply Hm |]. intros. by eapply within_le. Qed.

Section rules.
Context (F : Frame).

Lemma keeps_ret {A} (a : A) : Keeps F (mret a).
Proof. intros w. by apply wp_ret. Qed.

Lemma keeps_raise {A} e : Keeps F (raise e : M World A).
Proof. intros w. by apply wp_raise. Qed.

Lemma keeps_lift {A} (x : result A) : Keeps F (lift x : M World A).
Proof. intros w. by apply wp_lift. Qed.

Lemma keeps_bind {A C} (m : M World A) (k : A → M World C) :
  Keeps F m → (∀ a, Keeps F (k a)) → Keeps F (m ≫= k).
Proof.
  intros Hm Hk w. apply wp_bind. eapply wp_mono; [apply Hm |].
  intros [a | e] w' Hw; [| done].
  eapply wp_mono; [apply Hk |]. intros r w'' Hw'. by etrans.
Qed.

Lemma keeps_catch {A} (m : M World A) h :
  Keeps F m → (∀ e, Keeps F (h e)) → Keeps F (catch m h).
Proof.
  intros Hm Hk w. apply wp_catch. eapply wp_mono; [apply Hm |].
  intros [a | e] w' Hw; [done |].
  eapply wp_mono; [apply Hk |]. intros r w'' Hw'. by etrans.
Qed.

Lemma keeps_swallow {A} (d : A) m : Keeps F m → Keeps F (swallow d m).
Proof. intros. apply keeps_catch; [done |]. intros. apply keeps_ret. Qed.

Lemma keeps_read {A} (f : World → result A) : Keeps F (λ w, (f w, w)).
Proof. intros w. unfold wp. done. Qed.

Lemma keeps_for_each {X} (f : X → M World ()) xs :
  (∀ x, x ∈ xs → Keeps F (f x)) → Keeps F (for_each f xs).
Proof.
  intros Hf. induction xs as [|x xs IH]; [apply keeps_ret |]. cbn. apply keeps_bind.
  - apply Hf. left.
  - intros _. apply IH. intros y Hy. apply Hf. by right.
Qed.

Lemma keeps_fold_each {X St} (f : St → X → M World St) s xs :
  (∀ s x, x ∈ xs → Keeps F (f s x)) → Keeps F (fold_each f s xs).
Proof.
  revert s. induction xs as [|x xs IH]; intros s Hf; [apply keeps_ret |]. cbn.
  apply keeps_bind; [apply Hf; left |].
  intros s'. apply IH. intros s0 y Hy. apply Hf. by right.
Qed.

Lemma keeps_all_settled {A} (ms : list (M World A)) :
  Forall (Keeps F) ms → Keeps F (all_settled ms).
Proof.
  intros Hms w. apply (wp_all_settled _ (λ _ ms' w', Forall (Keeps F) ms' ∧
    within F (view w) (view w'))).
  - done.
  - intros rs m ms' w' [Hf Hw]. apply list.Forall_cons in Hf as [Hm Hf].
    eapply wp_mono; [apply Hm |]. intros r w'' Hw''. split; [done | by etrans].
  - intros rs w' [_ Hw]. done.
Qed.

Lemma within_table m v f :
  fr_table F m → within F v (v <| v_tables ::= upd m f |>).
Proof.
  intros Hm. split; cbn; [| done.. | exists []; by rewrite app_nil_r].
  intros m' Hm'. apply upd_ne. congruence.
Qed.

Lemma within_key v k f :
  fr_key F k → (∀ r k', k' ≠ k → f r !! k' = r !! k') →
  within F v (v <| v_redis ::= set re_strings f |>).
Proof.
  intros Hk Hf. split; cbn; [done.. | | exists []; by rewrite app_nil_r].
  intros k' Hk'. apply Hf. congruence.
Qed.

Lemma within_job q v f :
  fr_job F q → within F v (v <| v_jobs ::= upd_jobs q f |>).
Proof.
  intros Hq. split; cbn; [done | | done | exists []; by rewrite app_nil_r].
  intros q' Hq'. apply upd_jobs_ne. congruence.
Qed.

Lemma keeps_create m mk : fr_table F m → Keeps F (create m mk).
Proof.
  intros Hm w. apply wp_create; intros.
  - rewrite H2. by apply within_table.
  - by rewrite H.
Qed.

Lemma keeps_update m p f : fr_table F m → Keeps F (update m p f).
Proof.
  intros Hm w. apply wp_update; intros.
  - rewrite H1. by apply within_table.
  - by rewrite H.
Qed.

Lemma keeps_update_many m p f : fr_table F m → Keeps F (update_many m p f).
Proof.
  intros Hm w. apply wp_update_many; intros; rewrite H; [by apply within_table | done].
Qed.

Lemma keeps_delete_many m p : fr_table F m → Keeps F (delete_many m p).
Proof.
  intros Hm w. apply wp_delete_many; intros; rewrite H; [by apply within_table | done].
Qed.

Lemma keeps_find_many m p o : Keeps F (find_many m p o).
Proof. intros w. apply (wp_find_many m); intros; views; reflexivity. Qed.

Lemma keeps_find_first m p o : Keeps F (find_first m p o).
Proof. intros w. apply (wp_find_first m); intros; views; reflexivity. Qed.

Lemma keeps_find_unique m p : Keeps F (find_unique m p).
Proof. apply keeps_find_first. Qed.

Lemma keeps_count m p : Keeps F (count m p).
Proof. apply keeps_bind; [apply keeps_find_many | intros; apply keeps_ret]. Qed.

Lemma keeps_upsert m p mk f : fr_table F m → Keeps F (upsert m p mk f).
Proof.
  intros Hm. apply keeps_bind; [apply keeps_find_unique |].
  intros [r|]; [by apply keeps_update | by apply keeps_create].
Qed.

Lemma keeps_included m k : Keeps F (included m k).
Proof. intros w. by apply wp_included. Qed.

Lemma keeps_redis_get k now : Keeps F (redis_get k now).
Proof. intros w. apply wp_redis_get; intros; views; reflexivity. Qed.

Lemma keeps_redis_pttl k now : Keeps F (redis_pttl_ k now).
Proof. intros w. apply wp_redis_pttl; intros; views; reflexivity. Qed.

Lemma keeps_redis_setex k ttl v now : fr_key F k → Keeps F (redis_setex k ttl v now).
Proof.
  intros Hk w. apply wp_redis_setex; intros; rewrite H; [| done].
  apply within_key with k; [done |]. intros. by rewrite lookup_insert_ne.
Qed.

Lemma keeps_redis_set_nx k v ttl now : fr_key F k → Keeps F (redis_set_nx k v ttl now).
Proof.
  intros Hk w. apply wp_redis_set_nx; intros.
  - rewrite H0. apply within_key with k; [done |]. intros. by rewrite lookup_insert_ne.
  - by rewrite H0.
  - by rewrite H.
Qed.

Lemma keeps_redis_del k : fr_key F k → Keeps F (redis_del k).
Proof.
  intros Hk w. apply wp_redis_del; intros; rewrite H; [| done].
  apply within_key with k; [done |]. intros. by rewrite lookup_delete_ne.
Qed.

Lemma keeps_redis_scan c p n : Keeps F (redis_scan c p n).
Proof. intros w. apply wp_redis_scan; intros; views; reflexivity. Qed.

Lemma keeps_redis_del_many ks now :
  (∀ k, k ∈ ks → fr_key F k) → Keeps F (redis_del_many ks now).
Proof.
  intros Hk w. apply wp_redis_del_many. intros [n | e] w' Hv _ _; [| by rewrite Hv].
  destruct Hv as [-> _]. split; cbn; [done.. | | exists []; by rewrite app_nil_r].
  intros k' Hk'. rewrite lookup_del_keys, bool_decide_eq_false_2; [done |]. naive_solver.
Qed.

Lemma keeps_redis_incr k now : fr_key F k → Keeps F (redis_incr_ k now).
Proof.
  intros Hk w. apply wp_redis_incr; intros; [| by rewrite H].
  rewrite H0. split; cbn; [done.. | | exists []; by rewrite app_nil_r].
  intros k' Hk'. unfold redis_incr in H.
  destruct (live _ _) as [[]|]; simplify_eq; rewrite lookup_insert_ne; congruence.
Qed.

Lemma keeps_redis_pexpire k ms now : fr_key F k → Keeps F (redis_pexpire_ k ms now).
Proof.
  intros Hk w. apply wp_redis_pexpire; intros; rewrite H; [| done].
  apply within_key with k; [done |]. intros. unfold redis_pexpire.
  destruct (live _ _); [by rewrite lookup_insert_ne | done].
Qed.

Lemma keeps_redis_hset k f v : Keeps F (redis_hset k f v).
Proof.
  intros w. apply wp_redis_hset; intros; rewrite H; [| done].
  split; cbn; [done.. |]. exists []. by rewrite app_nil_r.
Qed.

Lemma keeps_queue_add q j : fr_job F q → Keeps F (queue_add q j).
Proof.
  intros Hq w. apply wp_queue_add; intros; rewrite H; [| done]. by apply within_job.
Qed.

Lemma keeps_send e : fr_send F e → Keeps F (send e).
Proof.
  intros He w.
  assert (∀ v, within F v (v <| v_sent ::= λ l, l ++ [e] |>)) as Hs.
  { intros v. split; cbn; [done..|]. exists [e]. split; [done | by constructor]. }
  apply wp_send; intros.
  - rewrite H. apply Hs.
  - destruct H as [-> | ->]; [done | apply Hs].
Qed.
End rules.

Lemma returns_ret {A} (P : A → Prop) a : P a → Returns P (mret a).
Proof. intros Ha w. by apply wp_ret. Qed.

Lemma returns_raise {A} (P : A → Prop) e : Returns P (raise e).
Proof. intros w. by apply wp_raise. Qed.

Lemma returns_bind {A C} (P : C → Prop) (m : M World A) k :
  (∀ a, Returns P (k a)) → Returns P (m ≫= k).
Proof.
  intros Hk w. apply wp_bind, wp_intro. intros [a | e] w' _; [apply Hk | done].
Qed.

Lemma returns_catch {A} (P : A → Prop) (m : M World A) h :
  Returns P m → (∀ e, Returns P (h e)) → Returns P (catch m h).
Proof.
  intros Hm Hh w. apply wp_catch. eapply wp_mono; [apply Hm |].
  intros [a | e] w' Hw; [done | apply Hh].
Qed.

Lemma returns_swallow {A} (P : A → Prop) d (m : M World A) :
  P d → Returns P m → Returns P (swallow d m).
Proof. intros Hd Hm. apply returns_catch; [done |]. intros. by apply returns_ret. Qed.

(** [catch] with a handler that returns always settles in a value. *)
Lemma total_catch {A} (m : M World A) (h : exn → A) w :
  wp (catch m (λ e, mret (h e))) (λ r _, is_ok r = true) w.
Proof.
  apply wp_catch, wp_intro. intros [a | e] w' _; [done | by apply wp_ret].
Qed.
End frame.

(** Go through the code of a method; the obligations left are that the tables,
    keys and messages it touches are in the frame. *)
Ltac keeps_step :=
  cbn beta iota zeta;
  lazymatch goal with
  | |- Keeps _ (mret _) => apply keeps_ret
  | |- Keeps _ (raise _) => apply keeps_raise
  | |- Keeps _ (lift _) => apply keeps_lift
  | |- Keeps _ (_ ≫= _) => apply keeps_bind; [| intros ?]
  | |- Keeps _ (catch _ _) => apply keeps_catch; [| intros ?]
  | |- Keeps _ (swallow _ _) => apply keeps_swallow
  | |- Keeps _ (create ?m _) => apply (keeps_create _ m)
  | |- Keeps _ (update ?m _ _) => apply (keeps_update _ m)
  | |- Keeps _ (update_many ?m _ _) => apply (keeps_update_many _ m)
  | |- Keeps _ (delete_many ?m _) => apply (keeps_delete_many _ m)
  | |- Keeps _ (find_many ?m _ _) => apply (keeps_find_many _ m)
  | |- Keeps _ (find_first ?m _ _) => apply (keeps_find_first _ m)
  | |- Keeps _ (find_unique ?m _) => apply (keeps_find_unique _ m)
  | |- Keeps _ (included ?m _) => apply (keeps_included _ m)
  | |- Keeps _ (count ?m _) => apply (keeps_count _ m)
  | |- Keeps _ (upsert ?m _ _ _) => apply (keeps_upsert _ m)
  | |- Keeps _ (redis_get _ _) => apply keeps_redis_get
  | |- Keeps _ (redis_pttl_ _ _) => apply keeps_redis_pttl
  | |- Keeps _ (redis_setex _ _ _ _) => apply keeps_redis_setex
  | |- Keeps _ (redis_set_nx _ _ _ _) => apply keeps_redis_set_nx
  | |- Keeps _ (redis_del _) => apply keeps_redis_del
  | |- Keeps _ (redis_incr_ _ _) => apply keeps_redis_incr
  | |- Keeps _ (redis_pexpire_ _ _ _) => apply keeps_redis_pexpire
  | |- Keeps _ (redis_hset _ _ _) => apply keeps_redis_hset
  | |- Keeps _ (redis_scan _ _ _) => apply keeps_redis_scan
  | |- Keeps _ (redis_del_many _ _) => apply keeps_redis_del_many; intros ? ?
  | |- Keeps _ (queue_add ?q _) => apply (keeps_queue_add _ q)
  | |- Keeps _ (send _) => apply keeps_send
  | |- Keeps _ (for_each _ _) => apply keeps_for_each; intros ? _
  | |- Keeps _ (fold_each _ _ _) => apply keeps_fold_each; intros ? ? _
  | |- Keeps _ (if ?b then _ else _) => destruct b eqn:?
  | |- Keeps _ (match ?x with _ => _ end) => destruct x eqn:?
  end.

Ltac keeps := repeat keeps_step; try done.

Ltac returns_step :=
  cbn beta iota zeta;
  lazymatch goal with
  | |- Returns _ (mret _) => apply returns_ret
  | |- Returns _ (raise _) => apply returns_raise
  | |- Returns _ (_ ≫= _) => apply returns_bind; intros ?
  | |- Returns _ (catch _ _) => apply returns_catch; [| intros ?]
  | |- Returns _ (swallow _ _) => apply returns_swallow
  | |- Returns _ (if ?b then _ else _) => destruct b eqn:?
  | |- Returns _ (match ?x with _ => _ end) => destruct x eqn:?
  end.

Ltac returns := repeat returns_step; try done.

(** ** Rows

    Where a frame names tables, a [RowFrame] says what may become of each of
    their rows: a relation, for every table and key, between the row before
    and the row after ([None] where there is none). *)

Definition RowFrame : Type := ∀ m : model, string → option (row m) → option (row m) → Prop.

Definition rows_within (RF : RowFrame) (v v' : View) : Prop :=
  ∀ m k, RF m k (v_tables v m !! k) (v_tables v' m !! k).

Class RowOrder (RF : RowFrame) : Prop := { row_order m k : PreOrder (RF m k) }.

#[export] Instance rows_within_preorder RF : RowOrder RF → PreOrder (rows_within RF).
Proof.
  intros HR. split.
  - intros v m k. by apply row_order.
  - intros v1 v2 v3 H12 H23 m k. destruct (row_order (RF := RF) m k) as [_ Ht]. by eapply Ht.
Qed.

Section row_relations.
Context {A : Type}.
Implicit Types a b : option A.

(** A row may be added that satisfies [P]; it may be removed; it may be
    rewritten by [f]; it may become any other. *)
Definition may_add (P : A → Prop) a b : Prop := a = b ∨ a = None ∧ ∃ r, b = Some r ∧ P r.
Definition may_remove a b : Prop := a = b ∨ b = None.
Definition may_apply (f : A → A) a b : Prop := a = b ∨ b = f <$> a.
Definition may_rewrite a b : Prop := is_Some a ↔ is_Some b.
(** The relation [R] at the keys that satisfy [P]; nothing changes elsewhere. *)
Definition at_keys (P : string → Prop) (R : option A → option A → Prop) (k : string) a b : Prop :=
  R a b ∧ (P k ∨ a = b).

#[export] Instance may_add_order P : PreOrder (may_add P).
Proof. split; [by left |]. intros a b c [-> | (-> & r & -> & Hr)] [<- | (? & s & -> & Hs)]; unfold may_add; naive_solver. Qed.
#[export] Instance may_remove_order : PreOrder may_remove.
Proof. split; [by left |]. intros a b c [-> | ->] [<- | ->]; unfold may_remove; naive_solver. Qed.
#[export] Instance may_rewrite_order : PreOrder may_rewrite.
Proof. split; [done |]. intros a b c Hab Hbc. unfold may_rewrite in *. tauto. Qed.
#[export] Instance at_keys_order P R k : PreOrder R → PreOrder (at_keys P R k).
Proof.
  intros HR. split; [split; [reflexivity | by right] |].
  intros a b c [H1 [? | ->]] [H2 [? | ->]]; (split; [by etrans |]); auto.
Qed.

Lemma may_apply_order f : (∀ x, f (f x) = f x) → PreOrder (may_apply f).
Proof.
  intros Hf. split; [by left |]. intros a b c [-> | ->] [<- | ->]; unfold may_apply; auto.
  right. destruct a; cbn; by rewrite ?Hf.
Qed.

Lemma at_keys_ne P R k a b : ¬ P k → at_keys P R k a b → b = a.
Proof. by intros HP [_ [? | ->]]. Qed.
End row_relations.

Section row_frames.
Context `{B : Backend} `{BL : !BackendLaws B}.
Context (RF : RowFrame) `{HR : !RowOrder RF}.

Definition KeepsRows {A} (m : M World A) : Prop :=
  ∀ w, wp m (λ _ w', rows_within RF (view w) (view w')) w.

Lemma rows_same v v' : v_tables v' = v_tables v → rows_within RF v v'.
Proof. intros Ht m k. rewrite Ht. destruct (row_order (RF := RF) m k) as [Hr _]. apply Hr. Qed.

Lemma rows_upd v m f : (∀ k, RF m k (v_tables v m !! k) (f (v_tables v m) !! k)) →
  rows_within RF v (v <| v_tables ::= upd m f |>).
Proof.
  intros Hf m' k. cbn. destruct (decide (m = m')) as [<- | Hne]; [rewrite upd_eq; apply Hf |].
  rewrite upd_ne by done. destruct (row_order (RF := RF) m' k) as [Hr _]. apply Hr.
Qed.

Lemma rows_insert v m k r : RF m k (v_tables v m !! k) (Some r) →
  rows_within RF v (v <| v_tables ::= upd m <[k := r]> |>).
Proof.
  intros Hr. apply rows_upd. intros k'. destruct (decide (k = k')) as [<- | Hne].
  - by rewrite lookup_insert_eq.
  - rewrite lookup_insert_ne by done. destruct (row_order (RF := RF) m k') as [Hx _]. apply Hx.
Qed.

(** Whatever writes to no table. *)
Lemma rows_keeps {A} F (m : M World A) : (∀ m, ¬ fr_table F m) → Keeps F m → KeepsRows m.
Proof.
  intros HF Hm w. eapply wp_mono; [apply Hm |]. intros r w' Hw m' k.
  rewrite (within_tables _ _ _ Hw) by apply HF. destruct (row_order (RF := RF) m' k) as [Hr _]. apply Hr.
Qed.

Lemma rows_ret {A} (a : A) : KeepsRows (mret a).
Proof. intros w. by apply wp_ret. Qed.

Lemma rows_bind {A C} (m : M World A) (k : A → M World C) :
  KeepsRows m → (∀ a, KeepsRows (k a)) → KeepsRows (m ≫= k).
Proof.
  intros Hm Hk w. apply wp_bind. eapply wp_mono; [apply Hm |]. intros [a | e] w' Hw; [| done].
  eapply wp_mono; [apply Hk |]. intros r w'' Hw'. by etrans.
Qed.

Lemma rows_catch {A} (m : M World A) h : KeepsRows m → (∀ e, KeepsRows (h e)) → KeepsRows (catch m h).
Proof.
  intros Hm Hk w. apply wp_catch. eapply wp_mono; [apply Hm |]. intros [a | e] w' Hw; [done |].
  eapply wp_mono; [apply Hk |]. intros r w'' Hw'. by etrans.
Qed.

Lemma rows_swallow {A} (d : A) m : KeepsRows m → KeepsRows (swallow d m).
Proof. intros. apply rows_catch; [done |]. intros. apply rows_ret. Qed.

Lemma rows_all_settled {A} (ms : list (M World A)) : Forall KeepsRows ms → KeepsRows (all_settled ms).
Proof.
  intros Hms w. apply (wp_all_settled _ (λ _ ms' w', Forall KeepsRows ms' ∧
    rows_within RF (view w) (view w'))); [done | | by intros rs w' [_ Hw]].
  intros rs m ms' w' [Hf Hw]. apply list.Forall_cons in Hf as [Hm Hf].
  eapply wp_mono; [apply Hm |]. intros r w'' Hw''. split; [done | by etrans].
Qed.

Lemma rows_create m mk : (∀ i, RF m (row_key m (mk i)) None (Some (mk i))) → KeepsRows (create m mk).
Proof.
  intros Hm w. apply wp_create; [| by intros e w' ->]. intros i r w' -> Hk _ ->.
  apply rows_insert. rewrite Hk. apply Hm.
Qed.

Lemma rows_update m p f : (∀ k r, p k r = true → RF m k (Some r) (Some (f r))) → KeepsRows (update m p f).
Proof.
  intros Hm w. apply wp_update; [| by intros e w' ->]. intros k r w' Hk Hp ->.
  apply rows_insert. rewrite Hk. by apply Hm.
Qed.

Lemma rows_delete_many m p : (∀ k r, p k r = true → RF m k (Some r) None) → KeepsRows (delete_many m p).
Proof.
  intros Hm w. apply wp_delete_many; [| by intros e w' ->]. intros w' ->. apply rows_upd. intros k.
  rewrite lookup_delete_where. destruct (row_order (RF := RF) m k) as [Hr _].
  destruct (v_tables (view w) m !! k) as [r|]; cbn; [| apply Hr]. destruct (p k r) eqn:Hp; [by apply Hm | apply Hr].
Qed.
End row_frames.

(** A frame without tables, for what only reads them. *)
Definition reading : Frame := {|
  fr_table _ := False; fr_job _ := True; fr_key _ := True; fr_send _ := True |}.

(** The structure of a method; the obligations left are what it does to the
    rows, and what only reads tables is done. *)
Ltac rows_step :=
  cbn beta iota zeta;
  lazymatch goal with
  | |- KeepsRows ?RF (_ ≫= _) => apply (rows_bind RF); [| intros ?]
  | |- KeepsRows ?RF (catch _ _) => apply (rows_catch RF); [| intros ?]
  | |- KeepsRows ?RF (swallow _ _) => apply (rows_swallow RF)
  | |- KeepsRows ?RF (create ?m _) => apply (rows_create RF m); intros ?
  | |- KeepsRows ?RF (update ?m _ _) => apply (rows_update RF m); intros ? ? ?
  | |- KeepsRows ?RF (delete_many ?m _) => apply (rows_delete_many RF m); intros ? ? ?
  | |- KeepsRows _ (if ?b then _ else _) => destruct b eqn:?
  | |- KeepsRows _ (match ?x with _ => _ end) => destruct x eqn:?
  | |- KeepsRows ?RF _ => apply (rows_keeps RF reading); [by intros ? [] | by keeps_step; keeps]
  end.

Ltac rows := repeat rows_step; try done.
