(* ===== verification/RateLimit.v ===== *)
(** * Tiered rate limiting

    [src/modules/auth/rate-limit.constants.ts] (the tiers),
    [src/modules/auth/rate-limit.service.ts] ([RateLimitService], with its Lua
    script run step by step on Redis) and
    [src/common/interceptors/rate-limit.interceptor.ts].  The texts of the
    error messages are left out; error codes, statuses and headers are kept. *)

From stdpp Require Import pretty.
From Stdlib Require Import SpecFloat.
From S2P Require Import Prelude Schema External Memory.

Open Scope string_scope.
Open Scope Z_scope.

(** ** Tier constants *)

Record TierLimits := {
  tl_name : string;
  tl_sendsPerMonth : Z;
  tl_reqPerSecond : Z;
  tl_burstLimit : Z;
  tl_maxBatchSize : Z;
  tl_maxBodyBytes : Z;
  tl_maxSubjectChars : Z;
  tl_webhooks : Z;
  tl_apiKeys : Z;
  tl_teamMembers : Z;
  tl_customTemplates : Z;
  tl_customDkim : bool;
  tl_analyticsRetentionDays : Z;
  tl_sandboxDailyLimit : Z;
}.

Definition developer : TierLimits := {|
  tl_name := "Developer"; tl_sendsPerMonth := 1000; tl_reqPerSecond := 2;
  tl_burstLimit := 10; tl_maxBatchSize := 10; tl_maxBodyBytes := 10000;
  tl_maxSubjectChars := 150; tl_webhooks := 1; tl_apiKeys := 2;
  tl_teamMembers := 1; tl_customTemplates := 0; tl_customDkim := false;
  tl_analyticsRetentionDays := 7; tl_sandboxDailyLimit := 10 |}.

Definition growth : TierLimits := {|
  tl_name := "Growth"; tl_sendsPerMonth := 50000; tl_reqPerSecond := 20;
  tl_burstLimit := 100; tl_maxBatchSize := 100; tl_maxBodyBytes := 50000;
  tl_maxSubjectChars := 200; tl_webhooks := 5; tl_apiKeys := 5;
  tl_teamMembers := 3; tl_customTemplates := 3; tl_customDkim := false;
  tl_analyticsRetentionDays := 30; tl_sandboxDailyLimit := 30 |}.

Definition scale : TierLimits := {|
  tl_name := "Scale"; tl_sendsPerMonth := 250000; tl_reqPerSecond := 100;
  tl_burstLimit := 500; tl_maxBatchSize := 100; tl_maxBodyBytes := 100000;
  tl_maxSubjectChars := 250; tl_webhooks := 20; tl_apiKeys := 20;
  tl_teamMembers := 10; tl_customTemplates := 20; tl_customDkim := true;
  tl_analyticsRetentionDays := 90; tl_sandboxDailyLimit := 60 |}.

Definition enterprise : TierLimits := {|
  tl_name := "Enterprise"; tl_sendsPerMonth := 1000000; tl_reqPerSecond := 500;
  tl_burstLimit := 2000; tl_maxBatchSize := 1000; tl_maxBodyBytes := 256000;
  tl_maxSubjectChars := 500; tl_webhooks := 100; tl_apiKeys := 100;
  tl_teamMembers := 999; tl_customTemplates := 999; tl_customDkim := true;
  tl_analyticsRetentionDays := 365; tl_sandboxDailyLimit := 90 |}.

Definition TIER_LIMITS (tier : Z) : option TierLimits :=
  match tier with
  | 0 => Some developer
  | 1 => Some growth
  | 2 => Some scale
  | 3 => Some enterprise
  | _ => None
  end.

(** USDC micro-units per notification. *)
Definition OVERAGE_PRICE_PER_NOTIFICATION (tier : Z) : option Z :=
  match tier with
  | 0 => Some 500
  | 1 => Some 400
  | 2 => Some 300
  | 3 => Some 200
  | _ => None
  end.

(** [TIER_LIMITS[tier] ?? TIER_LIMITS[0]]; the tier is [None] when the
    property is undefined. *)
Definition getTierLimits (tier : option Z) : TierLimits :=
  default developer (tier ≫= TIER_LIMITS).

(** ** JavaScript number arithmetic: IEEE binary64, rounded to nearest *)

Definition js_number (z : Z) : spec_float := binary_normalize 53 1024 z 0 false.
Definition js_div : spec_float → spec_float → spec_float := SFdiv 53 1024.
Definition js_mul : spec_float → spec_float → spec_float := SFmul 53 1024.

(** [Math.round]: the nearest integer, ties upwards ([0] for the values that
    are not finite, which no caller produces). *)
Definition js_round (x : spec_float) : Z :=
  match x with
  | S754_finite s m e =>
      let n := if s then Z.neg m else Z.pos m in
      if 0 <=? e then n * 2 ^ e else (2 * n + 2 ^ (- e)) / (2 * 2 ^ (- e))
  | _ => 0
  end.

(** [Math.round((used / limit) * 100)] *)
Definition usage_percent (used limit : Z) : Z :=
  js_round (js_mul (js_div (js_number used) (js_number limit)) (js_number 100)).

(** ** [RateLimitCheckResult] *)

Abbreviation headers := (gmap string string).

Record RateLimitCheckResult := {
  rl_allowed : bool;
  rl_error : option string;
  rl_httpStatus : option Z;
  rl_isOverage : option bool;
  rl_overageCount : option Z;
  rl_overagePrice : option Z;
  rl_headers : headers;
  rl_retryAfter : option Z;
}.

Definition allow (hs : headers) : RateLimitCheckResult := {|
  rl_allowed := true; rl_error := None; rl_httpStatus := None;
  rl_isOverage := None; rl_overageCount := None; rl_overagePrice := None;
  rl_headers := hs; rl_retryAfter := None |}.

Definition deny (error : string) (status : Z) (hs : headers) : RateLimitCheckResult := {|
  rl_allowed := false; rl_error := Some error; rl_httpStatus := Some status;
  rl_isOverage := None; rl_overageCount := None; rl_overagePrice := None;
  rl_headers := hs; rl_retryAfter := None |}.

(** What the service reads off the object it is given as the protocol; a
    property that object does not have is undefined. *)
Record ProtocolArg := {
  arg_protocolId : option string;
  arg_tier : option Z;
  arg_environment : option environment;
  arg_sendsThisPeriod : option Z;
  arg_overageEnabled : option bool;
}.

Definition arg_of_auth (p : AuthenticatedProtocol) : ProtocolArg := {|
  arg_protocolId := Some (ap_protocolId p);
  arg_tier := Some (ap_tier p);
  arg_environment := Some (ap_environment p);
  arg_sendsThisPeriod := ap_sendsThisPeriod p;
  arg_overageEnabled := ap_overageEnabled p |}.

(** A JavaScript string has none of the properties. *)
Definition arg_of_string : ProtocolArg := {|
  arg_protocolId := None; arg_tier := None; arg_environment := None;
  arg_sendsThisPeriod := None; arg_overageEnabled := None |}.

(** An undefined property in a template literal. *)
Definition js_template (o : option string) : string := default "undefined" o.

(** ** Monthly quota *)

(** [RateLimitService.checkMonthlyQuota] *)
Definition checkMonthlyQuota (p : ProtocolArg) (count : Z) (limits : TierLimits)
    (existing : headers) : RateLimitCheckResult :=
  let used := default 0 (arg_sendsThisPeriod p) in
  let limit := tl_sendsPerMonth limits in
  let remaining := Z.max 0 (limit - used) in
  let quotaHeaders :=
    <["X-Herald-Quota-Remaining" := pretty remaining]>
    (<["X-Herald-Quota-Limit" := pretty limit]>
    (<["X-Herald-Quota-Used" := pretty used]> existing)) in
  let quotaHeaders :=
    if 80 <=? usage_percent used limit then
      <["X-Herald-Upgrade-Url" := "https://app.useherald.xyz/billing/upgrade"]>
      (<["X-Herald-Quota-Warning" := "true"]> quotaHeaders)
    else quotaHeaders in
  if limit <? used + count then
    if default false (arg_overageEnabled p) then
      let overageCount := used + count - limit in
      let pricePerNotif :=
        default 500 (arg_tier p ≫= OVERAGE_PRICE_PER_NOTIFICATION) in
      let totalOveragePrice := count * pricePerNotif in
      {| rl_allowed := true; rl_error := None; rl_httpStatus := None;
         rl_isOverage := Some true; rl_overageCount := Some overageCount;
         rl_overagePrice := Some totalOveragePrice;
         rl_headers :=
           <["X-Herald-Overage-Price" := pretty totalOveragePrice]>
           (<["X-Herald-Overage" := "true"]> quotaHeaders);
         rl_retryAfter := None |}
    else deny "QUOTA_EXCEEDED" 429 (<["X-Herald-Quota-Remaining" := "0"]> quotaHeaders)
  else allow quotaHeaders.

(** [checkMonthlyQuotaSimple] *)
Definition checkMonthlyQuotaSimple (tier sendsThisPeriod : Z) : bool :=
  sendsThisPeriod <? tl_sendsPerMonth (getTierLimits (Some tier)).

Section service.
Context `{B : Backend}.

(** ** Per-second window *)

(** [RATE_LIMIT_LUA]: returns the count and the time to live. *)
Definition RATE_LIMIT_LUA (key : string) (window_ms max_requests now : Z) :
    M World (Z * Z) :=
  current ← redis_incr_ key now;
  _ ← (if current =? 1 then redis_pexpire_ key window_ms now else mret ());
  ttl ← redis_pttl_ key now;
  mret (current, ttl).

Definition rate_key (protocolId : option string) (now : Z) : string :=
  "rl:" +:+ js_template protocolId +:+ ":" +:+ pretty (now / 1000).

(** [RateLimitService.checkPerSecondLimit] *)
Definition checkPerSecondLimit (protocolId : option string) (burstLimit : Z)
    (isSandbox : bool) (now : Z) : M World RateLimitCheckResult :=
  catch
    ('(current, ttlMs) ← RATE_LIMIT_LUA (rate_key protocolId now) 1000 burstLimit now;
     let resetAt := ceil_div (now + Z.max ttlMs 0) 1000 in
     let hs : headers :=
       <["X-Herald-Environment" := if isSandbox then "sandbox" else "production"]>
       (<["X-RateLimit-Reset" := pretty resetAt]>
       (<["X-RateLimit-Remaining" := pretty (Z.max 0 (burstLimit - current))]>
       {["X-RateLimit-Limit" := pretty burstLimit]})) in
     if burstLimit <? current then
       mret ((deny "RATE_LIMIT_EXCEEDED" 429
               (<["Retry-After" := "1"]> (<["X-RateLimit-Remaining" := "0"]> hs)))
             <| rl_retryAfter := Some 1 |>)
     else mret (allow hs))
    (λ _, mret (deny "RATE_LIMIT_UNAVAILABLE" 503
       (<["X-RateLimit-Reset" := "0"]>
       (<["X-RateLimit-Remaining" := "0"]>
       {["X-RateLimit-Limit" := "0"]})))).

(** [RateLimitService.checkAllLimits] *)
Definition checkAllLimits (p : ProtocolArg) (isBatch : bool) (batchCount now : Z) :
    M World RateLimitCheckResult :=
  let limits := getTierLimits (arg_tier p) in
  let isSandbox := bool_decide (arg_environment p = Some Sandbox) in
  let effectiveBurst := if isSandbox then 10 else tl_burstLimit limits in
  perSec ← checkPerSecondLimit (arg_protocolId p) effectiveBurst isSandbox now;
  if negb (rl_allowed perSec) then mret perSec else
  if isBatch && (tl_maxBatchSize limits <? batchCount) then
    mret (deny "BATCH_SIZE_EXCEEDED" 422 (rl_headers perSec))
  else if negb isSandbox then
    mret (checkMonthlyQuota p batchCount limits (rl_headers perSec))
  else
    mret (allow (<["X-Herald-Environment" := "sandbox"]> (rl_headers perSec))).

(** [RateLimitService.getCurrentUsage] *)
Definition getCurrentUsage (protocolId : string) : M World string :=
  catch
    (o ← find_unique MProtocol (by_id MProtocol protocolId);
     mret (pretty (default 0 (p_sendsThisPeriod <$> (o : option Protocol)))))
    (λ _, mret "0").

(** ** The interceptor *)

(** What the interceptor reads of the Express request.  [req_protocol] is
    Express's own [request.protocol], the URL scheme, a string;
    [req_authProtocol] is what [AuthGuard] attaches. *)
Record RateLimitedRequest := {
  req_protocol : string;
  req_authProtocol : option AuthenticatedProtocol;
  req_isBatch : bool;                      (** the URL contains ['/batch'] *)
  req_notifications : option Z;            (** [body.notifications.length] *)
}.

(** [RateLimitInterceptor.intercept], up to the call of the handler: the
    result to attach to the response ([None] when the request is let
    through unchecked), or the exception. *)
Definition intercept (req : RateLimitedRequest) (now : Z) :
    M World (option RateLimitCheckResult) :=
  let protocol := req_protocol req in
  if bool_decide (protocol = "") then mret None else
  let batchCount := if req_isBatch req then default 1 (req_notifications req) else 1 in
  result ← checkAllLimits arg_of_string (req_isBatch req) batchCount now;
  if negb (rl_allowed result) then
    raise (HttpError (default 429 (rl_httpStatus result)) (default "" (rl_error result)))
  else mret (Some result).
End service.

(** ** Lemmas *)

(** A property of the four tiers holds of whatever [getTierLimits] returns. *)
Lemma getTierLimits_elim (P : TierLimits → Prop) tier :
  P developer → P growth → P scale → P enterprise → P (getTierLimits tier).
Proof.
  intros. unfold getTierLimits. destruct tier as [t|]; [cbn | done].
  destruct (TIER_LIMITS t) eqn:Ht; [| done].
  unfold TIER_LIMITS in Ht. repeat case_match; by simplify_eq/=.
Qed.

Lemma sendsPerMonth_pos tier : 0 < tl_sendsPerMonth (getTierLimits tier).
Proof. apply getTierLimits_elim; done. Qed.

Lemma checkMonthlyQuota_within p count limits hs :
  default 0 (arg_sendsThisPeriod p) + count ≤ tl_sendsPerMonth limits →
  rl_allowed (checkMonthlyQuota p count limits hs) = true.
Proof. intros. unfold checkMonthlyQuota. by rewrite (proj2 (Z.ltb_ge _ _)). Qed.

Lemma rate_key_window pid now W : now / 1000 = W → rate_key pid now = rate_key pid (W * 1000).
Proof. intros <-. unfold rate_key. by rewrite Z.div_mul. Qed.

Section window.
Context `{B : Backend} `{BL : !BackendLaws B}.

(** The window's counter after some requests: absent, or at [c] with an
    expiry (if any) past the end of the window [W]. *)
Definition window_at (key : string) (W c : Z) (v : View) : Prop :=
  match re_strings (v_redis v) !! key with
  | None => c = 0
  | Some (RInt n, None) => n = c
  | Some (RInt n, Some t) => n = c ∧ (W + 1) * 1000 ≤ t
  | Some _ => False
  end.

Lemma window_incr key W c v now n m' :
  now / 1000 = W → window_at key W c v →
  redis_incr now key (re_strings (v_redis v)) = Some (n, m') →
  n = c + 1 ∧ ∃ e, m' = <[key := (RInt (c + 1), e)]> (re_strings (v_redis v)) ∧
    match e with None => True | Some t => (W + 1) * 1000 ≤ t end.
Proof.
  intros HW Hat. unfold window_at, redis_incr, live in *.
  assert (now < (W + 1) * 1000) as Hlt.
  { subst. pose proof (Z.div_mod now 1000). pose proof (Z.mod_pos_bound now 1000). lia. }
  destruct (re_strings _ !! key) as [[[| z | | | | |] [t|]]|]; try done.
  - destruct Hat as [-> Ht]. destruct (Z.ltb_spec now t); [| lia].
    intros [= <- <-]. split; [done |]. by exists (Some t).
  - subst z. intros [= <- <-]. split; [done |]. by exists None.
  - subst c. intros [= <- <-]. split; [done |]. by exists None.
Qed.

Lemma window_insert key W n e r :
  match e with None => True | Some t => (W + 1) * 1000 ≤ t end →
  ∀ v, re_strings (v_redis v) = <[key := (RInt n, e)]> r → window_at key W n v.
Proof.
  intros He v Hv. unfold window_at. rewrite Hv, lookup_insert_eq. by destruct e.
Qed.

Lemma window_pexpire key W n e r now :
  now / 1000 = W → match e with None => True | Some t => (W + 1) * 1000 ≤ t end →
  ∀ v, re_strings (v_redis v) = redis_pexpire now 1000 key (<[key := (RInt n, e)]> r) →
  window_at key W n v.
Proof.
  intros HW He v Hv.
  assert ((W + 1) * 1000 ≤ now + 1000) as Hge.
  { subst. pose proof (Z.div_mod now 1000). pose proof (Z.mod_pos_bound now 1000). lia. }
  unfold window_at. rewrite Hv. unfold redis_pexpire, live. rewrite lookup_insert_eq.
  destruct e as [t|]; [destruct (now <? t) |]; rewrite lookup_insert_eq; done.
Qed.

(** The script counts a request once, whatever fails after [INCR]. *)
Lemma lua_window key W c burst now w :
  now / 1000 = W → window_at key W c (view w) →
  wp (RATE_LIMIT_LUA key 1000 burst now) (λ r w',
    ∃ c', window_at key W c' (view w') ∧
      match r with
      | Ok (n, _) => n = c + 1 ∧ c' = c + 1
      | Err _ => c ≤ c' ≤ c + 1
      end) w.
Proof.
  intros HW Hat. unfold RATE_LIMIT_LUA. apply wp_bind, wp_redis_incr.
  2:{ intros e w1 ->. exists c. split; [done | lia]. }
  intros n m w1 Hi Hv1.
  destruct (window_incr _ _ _ _ _ _ _ HW Hat Hi) as (-> & e & -> & He).
  assert (window_at key W (c + 1) (view w1)) as Hat1.
  { apply (window_insert key W _ e _ He _ (f_equal (re_strings ∘ v_redis) Hv1)). }
  apply wp_bind, (wp_mono _ (λ r w', window_at key W (c + 1) (view w'))).
  { destruct (c + 1 =? 1); [| by apply wp_ret].
    apply wp_redis_pexpire; intros; [| congruence].
    eapply (window_pexpire key W _ e _ now HW He).
    rewrite H, Hv1. reflexivity. }
  intros [[] | x] w2 Hat2; [| exists (c + 1); split; [done | lia]].
  apply wp_bind, wp_redis_pttl; intros; (exists (c + 1)); rewrite H;
    split; done || lia.
Qed.

(** One request in the window: the counter goes up by at most one, and an
    allowed request found it below the limit. *)
Lemma checkPerSecondLimit_step pid burst sb now W c w :
  now / 1000 = W → window_at (rate_key pid (W * 1000)) W c (view w) →
  wp (checkPerSecondLimit pid burst sb now) (λ r w',
    ∃ res c', r = Ok res ∧ window_at (rate_key pid (W * 1000)) W c' (view w') ∧
      c ≤ c' ≤ c + 1 ∧ (rl_allowed res = true → c' = c + 1 ∧ c' ≤ burst) ∧
      (rl_allowed res = false → rl_error res = Some "RATE_LIMIT_EXCEEDED" ∨
         rl_error res = Some "RATE_LIMIT_UNAVAILABLE")) w.
Proof.
  intros HW Hat. unfold checkPerSecondLimit. rewrite (rate_key_window pid now W HW).
  apply wp_catch, wp_bind. eapply wp_mono; [by apply lua_window |].
  intros [[n ttl] | e] w' (c' & Hat' & Hc').
  - destruct Hc' as [-> ->].
    destruct (Z.ltb_spec burst (c + 1)); apply wp_ret; eexists _, (c + 1);
      (split_and!; [done | done | lia.. | cbn | cbn]); try done; auto; lia.
  - apply wp_ret. eexists _, c'. split_and!; [done | done | lia.. | done | auto].
Qed.
End window.

(** ** Properties *)

Section properties.
Context `{B : Backend} `{BL : !BackendLaws B}.

(** How many of a sequence of requests, made at the times [ts], are let
    through. *)
Definition count_allowed (check : Z → M World bool) (ts : list Z) : M World Z :=
  fold_each (λ n t, ok ← check t; mret (if (ok : bool) then n + 1 else n)) 0 ts.

(** Requests of one window that each move its counter by at most one, and
    pass only below [limit], pass at most [limit] times. *)
Lemma count_allowed_bound (check : Z → M World bool) key W limit ts w :
  Forall (λ t, t / 1000 = W) ts → 0 ≤ limit →
  re_strings (v_redis (view w)) !! key = None →
  (∀ t c w', t / 1000 = W → window_at key W c (view w') → 0 ≤ c →
     wp (check t) (λ r w'', ∃ ok c', r = Ok ok ∧ window_at key W c' (view w'') ∧
       c ≤ c' ≤ c + 1 ∧ (ok = true → c' = c + 1 ∧ c' ≤ limit)) w') →
  wp (count_allowed check ts) (λ r _, ∃ n, r = Ok n ∧ n ≤ limit) w.
Proof.
  intros Hts Hlim Hnone Hcheck.
  apply (wp_fold_each _ (λ n ts' w', Forall (λ t, t / 1000 = W) ts' ∧
    ∃ c, window_at key W c (view w') ∧ 0 ≤ n ≤ c ∧ n ≤ limit)).
  - split; [done |]. exists 0. unfold window_at. rewrite Hnone. lia.
  - intros n t ts' w' [Ht (c & Hc & Hn & Hn')]. apply list.Forall_cons in Ht as [Ht Hts'].
    apply wp_bind. eapply wp_mono; [apply (Hcheck t c w'); [done..| lia] |].
    intros r w'' (ok & c' & -> & Hc' & Hle & Hok). apply wp_ret. split; [done |].
    exists c'. destruct ok; split_and!; try done; [| | lia..]; destruct Hok; lia || done.
  - intros n w' [_ (c & _ & _ & Hn)]. eauto.
Qed.

(** C18.  Per-second limit: of any sequence of requests of one protocol that
    fall in the same second of the clock (the window is fixed, not a sliding
    one), starting with an unused window, at most [burstLimit] are allowed,
    whatever Redis failures happen: a failure denies the request, where the
    service's unit test expects it to be let through. *)
Theorem per_second_window_bound protocolId burst sandbox W ts w :
  Forall (λ t, t / 1000 = W) ts → 0 ≤ burst →
  re_strings (v_redis (view w)) !! rate_key protocolId (W * 1000) = None →
  wp (count_allowed (λ t,
        r ← checkPerSecondLimit protocolId burst sandbox t;
        mret (rl_allowed r)) ts)
     (λ r _, ∃ n, r = Ok n ∧ n ≤ burst) w.
Proof.
  intros. eapply count_allowed_bound; [done..|].
  intros t c w' Ht Hc _. apply wp_bind.
  eapply wp_mono; [by eapply checkPerSecondLimit_step |].
  intros r w'' (res & c' & -> & ? & ? & ? & _). apply wp_ret.
  exists (rl_allowed res), c'. done.
Qed.

(** One run of the interceptor. *)
Lemma intercept_step req now W c w :
  now / 1000 = W → req_protocol req ≠ "" →
  window_at (rate_key None (W * 1000)) W c (view w) →
  wp (intercept req now) (λ r w',
    ∃ c', window_at (rate_key None (W * 1000)) W c' (view w') ∧
      c ≤ c' ≤ c + 1 ∧ (is_ok r = true → c' = c + 1 ∧ c' ≤ 10) ∧
      r ≠ Err (HttpError 429 "QUOTA_EXCEEDED") ∧
      (is_ok r = true → req_isBatch req = true →
         default 1 (req_notifications req) ≤ 10)) w.
Proof.
  intros HW Hp Hc. unfold intercept. rewrite bool_decide_false by done.
  apply wp_bind. unfold checkAllLimits. cbn. apply wp_bind.
  eapply wp_mono; [by eapply checkPerSecondLimit_step |].
  intros r w' (res & c' & -> & Hc' & Hle & Hok & Hno).
  destruct (rl_allowed res) eqn:Hres; cbn.
  2:{ apply wp_ret. rewrite Hres. apply wp_raise. exists c'.
      split_and!; try done; [lia.. |]. by destruct Hno as [-> | ->]. }
  specialize (Hok eq_refl). set (n := default 1 (req_notifications req)).
  destruct (req_isBatch req) eqn:Hbatch; cbn; [destruct (Z.ltb_spec 10 n); cbn |].
  - apply wp_ret. cbn. apply wp_raise. exists c'. by split_and!; try lia.
  - apply wp_ret. rewrite checkMonthlyQuota_within by (cbn; lia).
    apply wp_ret. exists c'. by split_and!; try lia.
  - apply wp_ret. rewrite checkMonthlyQuota_within by (cbn; lia).
    apply wp_ret. exists c'. by split_and!; try lia.
Qed.

(** The interceptor hands [RateLimitService] Express's own
    [request.protocol] (the URL scheme) and not [request.authProtocol].
    So all protocols together share one window of 10 requests per second,
    whatever their tiers; a batch of more than 10 is refused to every tier;
    and the monthly quota never refuses a request. *)
Theorem intercept_ignores_principal (reqs : Z → RateLimitedRequest) W ts w :
  (∀ t, req_protocol (reqs t) ≠ "") →
  Forall (λ t, t / 1000 = W) ts →
  re_strings (v_redis (view w)) !! rate_key None (W * 1000) = None →
  wp (count_allowed (λ t, catch (_ ← intercept (reqs t) t; mret true) (λ _, mret false)) ts)
     (λ r _, ∃ n, r = Ok n ∧ n ≤ 10) w ∧
  ∀ t, t / 1000 = W →
    wp (intercept (reqs t) t) (λ r _,
      r ≠ Err (HttpError 429 "QUOTA_EXCEEDED") ∧
      (is_ok r = true → req_isBatch (reqs t) = true →
         default 1 (req_notifications (reqs t)) ≤ 10)) w.
Proof.
  intros Hp Hts Hnone. split.
  - eapply count_allowed_bound; [done | lia | done |].
    intros t c w' Ht Hc _. apply wp_catch, wp_bind.
    eapply wp_mono; [by eapply intercept_step |].
    intros [o | e] w'' (c' & ? & ? & Hok & _); apply wp_ret; eexists _, c';
      (split_and!; [done | done | lia.. |]); [naive_solver | done].
  - intros t Ht. eapply wp_mono; [eapply (intercept_step _ _ W 0); [done..|] |].
    + unfold window_at. by rewrite Hnone.
    + naive_solver.
Qed.
End properties.

Lemma monthly_quota_decision p count limits hs :
  let res := checkMonthlyQuota p count limits hs in
  (rl_allowed res = true ↔
     default 0 (arg_sendsThisPeriod p) + count ≤ tl_sendsPerMonth limits ∨
     default false (arg_overageEnabled p) = true) ∧
  (rl_allowed res = false →
     rl_error res = Some "QUOTA_EXCEEDED" ∧ rl_httpStatus res = Some 429).
Proof.
  cbn. unfold checkMonthlyQuota.
  destruct (Z.ltb_spec (tl_sendsPerMonth limits)
    (default 0 (arg_sendsThisPeriod p) + count));
  destruct (default false (arg_overageEnabled p)); destruct (80 <=? usage_percent _ _); cbn;
  (split; [split; [intros; (lia || naive_solver lia) | intros; naive_solver lia] | done]).
Qed.

(** [checkMonthlyQuota] on every branch: what is allowed, when a send is
    an overage and at which price, the refusal, and the warning header. *)
Theorem checkMonthlyQuota_spec p count limits hs :
  let res := checkMonthlyQuota p count limits hs in
  let used := default 0 (arg_sendsThisPeriod p) in
  let limit := tl_sendsPerMonth limits in
  let overage := default false (arg_overageEnabled p) in
  let price := default 500 (arg_tier p ≫= OVERAGE_PRICE_PER_NOTIFICATION) in
  (rl_allowed res = true ↔ used + count ≤ limit ∨ overage = true) ∧
  (rl_isOverage res = Some true ↔ limit < used + count ∧ overage = true) ∧
  (rl_isOverage res = Some true →
     rl_overageCount res = Some (used + count - limit) ∧
     rl_overagePrice res = Some (count * price)) ∧
  (rl_allowed res = false →
     rl_error res = Some "QUOTA_EXCEEDED" ∧ rl_httpStatus res = Some 429 ∧
     rl_headers res !! "X-Herald-Quota-Remaining" = Some "0") ∧
  rl_headers res !! "X-Herald-Quota-Used" = Some (pretty used) ∧
  rl_headers res !! "X-Herald-Quota-Limit" = Some (pretty limit) ∧
  (hs !! "X-Herald-Quota-Warning" = None →
     rl_headers res !! "X-Herald-Quota-Warning" =
       if 80 <=? usage_percent used limit then Some "true" else None).
Proof.
  cbn. unfold checkMonthlyQuota.
  destruct (Z.ltb_spec (tl_sendsPerMonth limits)
    (default 0 (arg_sendsThisPeriod p) + count)) as [Hlt | Hle];
  destruct (default false (arg_overageEnabled p)) eqn:Hov;
  destruct (80 <=? usage_percent _ _) eqn:Hw; cbn;
  split_and!; try done; try (intros; split_and?; simplify_map_eq; done);
  try (split; [intros; (lia || naive_solver lia) | intros; naive_solver lia]).
Qed.

Section layers.
Context `{B : Backend} `{BL : !BackendLaws B}.

(** The three layers of [checkAllLimits]: it always settles; what it
    allows is a batch within the tier's size and, in production, a send
    within the monthly quota unless overages are enabled; a refusal carries
    the layer's status; the sandbox never meets the quota. *)
Theorem checkAllLimits_layers p isBatch n now w :
  let limits := getTierLimits (Some (ap_tier p)) in
  let used := default 0 (ap_sendsThisPeriod p) in
  wp (checkAllLimits (arg_of_auth p) isBatch n now) (λ r _, ∃ res, r = Ok res ∧
    (rl_allowed res = true →
       (isBatch = true → n ≤ tl_maxBatchSize limits) ∧
       (ap_environment p = Production →
          used + n ≤ tl_sendsPerMonth limits ∨ ap_overageEnabled p = Some true)) ∧
    (rl_allowed res = false →
       (rl_error res, rl_httpStatus res) ∈
         [(Some "RATE_LIMIT_EXCEEDED", Some 429); (Some "RATE_LIMIT_UNAVAILABLE", Some 503);
          (Some "BATCH_SIZE_EXCEEDED", Some 422); (Some "QUOTA_EXCEEDED", Some 429)] ∧
       (ap_environment p = Sandbox → rl_error res ≠ Some "QUOTA_EXCEEDED"))) w.
Proof.
  intros limits used. unfold checkAllLimits. cbn [arg_of_auth arg_tier arg_environment arg_protocolId].
  apply wp_bind. unfold checkPerSecondLimit. apply wp_catch, wp_bind.
  eapply (wp_mono _ (λ _ _, True)); [by apply wp_intro |].
  intros [[cur ttl] | e] w' _; cycle 1.
  { apply wp_ret. cbn. apply wp_ret. eexists. split; [done |]. split; [done |].
    intros _. split; [set_solver | done]. }
  match goal with |- context [if ?b <? cur then _ else _] => destruct (b <? cur) end.
  { apply wp_ret. cbn. apply wp_ret. eexists. split; [done |]. split; [done |].
    intros _. split; [set_solver | done]. }
  apply wp_ret. cbn [rl_allowed allow negb].
  destruct isBatch; [destruct (Z.ltb_spec (tl_maxBatchSize limits) n) as [Hgt | Hle] |]; cbn [andb].
  { fold limits. rewrite (proj2 (Z.ltb_lt _ _)) by done. cbn. apply wp_ret. eexists.
    split; [done |]. split; [done |]. intros _. split; [set_solver | done]. }
  all: try (fold limits; rewrite (proj2 (Z.ltb_ge _ _)) by done; cbn [andb]).
  all: destruct (ap_environment p) eqn:Henv; cbn [negb bool_decide].
  all: rewrite ?bool_decide_true, ?bool_decide_false by done; cbn [negb]; apply wp_ret.
  all: eexists; split; [done |].
  all: try (split; [intros _; split; done | done]).
  all: match goal with |- context [checkMonthlyQuota ?p ?n ?l ?h] =>
         pose proof (monthly_quota_decision p n l h) as [Hall Hdeny] end.
  all: cbn [arg_of_auth arg_sendsThisPeriod arg_overageEnabled] in Hall; split.
  all: try (intros Hno; destruct (Hdeny Hno) as [-> ->];
    split; [set_solver | discriminate]).
  all: intros Hyes; split; [by intros |]; intros _; apply Hall in Hyes as [? | Hov];
    [by left | right; by destruct (ap_overageEnabled p) as [[]|]].
Qed.
End layers.

(** ** Witnesses *)

Definition sample_protocol : AuthenticatedProtocol := {|
  ap_protocolId := "p1"; ap_protocolPubkey := "pk1"; ap_apiKeyId := "k1"; ap_tier := 1;
  ap_scopes := ["notify:write"; "notify:read"]; ap_environment := Production; ap_isActive := true;
  ap_sendsThisPeriod := Some 49990; ap_name := Some "Proto"; ap_overageEnabled := Some false;
  ap_isTestKey := Some false; ap_testKeyType := None;
  ap_verificationStatus := Some UNVERIFIED |}.

Definition sample_request : RateLimitedRequest := {|
  req_protocol := "https"; req_authProtocol := Some sample_protocol;
  req_isBatch := true; req_notifications := Some 11 |}.

Lemma per_second_window_bound_witness :
  let w := mem_world no_tables ∅ in
  let prog := count_allowed (λ t, r ← checkPerSecondLimit (Some "p1") 2 false t;
                                  mret (rl_allowed r)) [5000; 5001; 5999] in
  (prog w).1 = Ok 2 ∧ wp prog (λ r _, ∃ n, r = Ok n ∧ n ≤ 2) w.
Proof.
  split; [vm_compute; reflexivity |].
  apply (per_second_window_bound (Some "p1") 2 false 5); [repeat constructor | lia | reflexivity].
Defined.

Lemma intercept_ignores_principal_witness :
  let w := mem_world no_tables ∅ in
  (intercept sample_request 5000 w).1 = Err (HttpError 422 "BATCH_SIZE_EXCEEDED") ∧
  wp (intercept sample_request 5000) (λ r _, r ≠ Err (HttpError 429 "QUOTA_EXCEEDED") ∧
    (is_ok r = true → true = true → 11 ≤ 10)) w.
Proof.
  split; [vm_compute; reflexivity |].
  apply (intercept_ignores_principal (λ _, sample_request) 5 [5000]);
    [discriminate | repeat constructor | reflexivity | reflexivity].
Defined.

Lemma checkAllLimits_layers_witness :
  let w := mem_world no_tables ∅ in
  let prog := checkAllLimits (arg_of_auth sample_protocol) true 11 5000 in
  (match (prog w).1 with Ok res => rl_error res | Err _ => None end) = Some "QUOTA_EXCEEDED" ∧
  wp prog (λ r _, ∃ res, r = Ok res ∧
      (rl_allowed res = true →
         (true = true → 11 ≤ 100) ∧
         (Production = Production → 49990 + 11 ≤ 50000 ∨ Some false = Some true)) ∧
      (rl_allowed res = false →
         (rl_error res, rl_httpStatus res) ∈
           [(Some "RATE_LIMIT_EXCEEDED", Some 429); (Some "RATE_LIMIT_UNAVAILABLE", Some 503);
            (Some "BATCH_SIZE_EXCEEDED", Some 422); (Some "QUOTA_EXCEEDED", Some 429)] ∧
         (Production = Sandbox → rl_error res ≠ Some "QUOTA_EXCEEDED"))) w.
Proof.
  split; [vm_compute; reflexivity |].
  exact (checkAllLimits_layers sample_protocol true 11 5000 (mem_world no_tables ∅)).
Defined.

(** The warning header appears at 79.5% of each tier's quota, to the send. *)
Example usage_percent_border :
  (λ l, (usage_percent (l * 795 / 1000 - 1) l, usage_percent (l * 795 / 1000) l))
    <$> [1000; 50000; 250000; 1000000] = [(79, 80); (79, 80); (79, 80); (79, 80)].
Proof. vm_compute. reflexivity. Qed.
