(* ===== verification/Rpc.v ===== *)
(** * The RPC circuit breaker

    [RpcManagerService] of [src/solana/rpc-manager.service.ts]: the state of
    the service is a record, each method a function on it, and a run of the
    service a sequence of calls ([step], [reachable]).  A connection is
    identified by its URL. *)

From S2P Require Import Prelude.

(** The configuration read by the constructor. *)
Record RpcConfig := {
  primaryUrl : string;
  fallbackUrl : option string;
}.

Record RpcManager := {
  activeConnection : string;
  circuitBreakerOpen : bool;
  failureCount : Z;
  lastFailureAt : option Z;
}.

Section rpc.
Context (cfg : RpcConfig).

Definition rpc_init : RpcManager := {|
  activeConnection := primaryUrl cfg; circuitBreakerOpen := false;
  failureCount := 0; lastFailureAt := None |}.

(** [getConnection]: the connection returned and the new state. *)
Definition getConnection (now : Z) (s : RpcManager) : string * RpcManager :=
  if negb (circuitBreakerOpen s) then (activeConnection s, s) else
  let s' :=
    match lastFailureAt s with
    | Some t =>
        if 30000 <? now - t then
          s <| circuitBreakerOpen := false |> <| failureCount := 0 |>
            <| activeConnection := primaryUrl cfg |>
        else s
    | None => s
    end in
  (activeConnection s', s').

Definition recordFailure (now : Z) (s : RpcManager) : RpcManager :=
  let s := s <| failureCount ::= Z.succ |> <| lastFailureAt := Some now |> in
  if (5 <? failureCount s) && truthy (fallbackUrl cfg) then
    s <| circuitBreakerOpen := true |>
      <| activeConnection := default "" (fallbackUrl cfg) |>
      <| failureCount := 0 |>
  else s.

Definition recordSuccess (s : RpcManager) : RpcManager :=
  if 0 <? failureCount s then s <| failureCount ::= Z.pred |> else s.

(** ** Runs *)

Inductive rpc_call := GetConnection (now : Z) | Failure (now : Z) | Success.

Definition rpc_run1 (s : RpcManager) (c : rpc_call) : RpcManager :=
  match c with
  | GetConnection now => (getConnection now s).2
  | Failure now => recordFailure now s
  | Success => recordSuccess s
  end.

Inductive step : RpcManager → RpcManager → Prop :=
| step_get s now : step s (getConnection now s).2
| step_failure s now : step s (recordFailure now s)
| step_success s : step s (recordSuccess s).

Definition reachable : RpcManager → Prop := rtc step rpc_init.

(** The breaker is open exactly on the fallback connection; it only opens
    when a fallback is configured, and then no more than five failures are
    pending. *)
Record rpc_inv (s : RpcManager) : Prop := {
  inv_closed : circuitBreakerOpen s = false → activeConnection s = primaryUrl cfg;
  inv_open : circuitBreakerOpen s = true →
    truthy (fallbackUrl cfg) = true ∧ fallbackUrl cfg = Some (activeConnection s) ∧
    is_Some (lastFailureAt s);
  inv_count : 0 ≤ failureCount s;
  inv_bound : truthy (fallbackUrl cfg) = true → failureCount s ≤ 5;
}.

Lemma rpc_inv_init : rpc_inv rpc_init.
Proof. by split; cbn; intros. Qed.

Lemma rpc_inv_get now s : rpc_inv s → rpc_inv (getConnection now s).2.
Proof.
  intros Hi. unfold getConnection. destruct (circuitBreakerOpen s) eqn:Ho; cbn; [| done].
  destruct (lastFailureAt s) as [t|]; [| done].
  destruct (30000 <? now - t); [| done]. by split; cbn; intros.
Qed.

Lemma truthy_default o : truthy o = true → o = Some (default "" o)%string.
Proof. by intros (s & -> & _)%truthy_Some. Qed.

Lemma rpc_inv_failure now s : rpc_inv s → rpc_inv (recordFailure now s).
Proof.
  intros [Hc Ho Hn Hb]. unfold recordFailure. cbn.
  destruct (truthy (fallbackUrl cfg)) eqn:Ht.
  - destruct (Z.ltb_spec 5 (Z.succ (failureCount s))); cbn; split; cbn.
    + done.
    + intros _. split_and!; [done | by apply truthy_default | done].
    + lia.
    + lia.
    + done.
    + intros Hopen. by destruct (Ho Hopen) as (? & ? & ?).
    + lia.
    + lia.
  - rewrite andb_false_r. split; cbn; [done | | lia | congruence].
    intros Hopen. destruct (Ho Hopen) as [? _]. congruence.
Qed.

Lemma rpc_inv_success s : rpc_inv s → rpc_inv (recordSuccess s).
Proof.
  intros Hi. unfold recordSuccess. destruct (Z.ltb_spec 0 (failureCount s)); [| done].
  destruct Hi as [Hc Ho Hn Hb]. split; cbn; [done | done | lia |].
  intros Ht. specialize (Hb Ht). lia.
Qed.

Lemma rpc_inv_step s s' : step s s' → rpc_inv s → rpc_inv s'.
Proof. destruct 1; auto using rpc_inv_get, rpc_inv_failure, rpc_inv_success. Qed.

Lemma reachable_inv s : reachable s → rpc_inv s.
Proof.
  unfold reachable. generalize rpc_inv_init. intros Hi Hr. revert Hi.
  induction Hr; eauto using rpc_inv_step.
Qed.

(** [n] failures in a row, at the given times. *)
Definition failures (ts : list Z) (s : RpcManager) : RpcManager :=
  foldl (λ s t, recordFailure t s) s ts.

Lemma failures_below ts s :
  failureCount s + Z.of_nat (length ts) ≤ 5 →
  failureCount (failures ts s) = failureCount s + Z.of_nat (length ts) ∧
  circuitBreakerOpen (failures ts s) = circuitBreakerOpen s ∧
  activeConnection (failures ts s) = activeConnection s.
Proof.
  revert s. induction ts as [|t ts IH]; intros s Hle.
  { cbn. split_and!; [lia | done..]. }
  cbn [length] in *. change (failures (t :: ts) s) with (failures ts (recordFailure t s)).
  unfold recordFailure. cbn.
  destruct (Z.ltb_spec 5 (Z.succ (failureCount s))); [lia |]. cbn.
  destruct (IH (s <| failureCount ::= Z.succ |> <| lastFailureAt := Some t |>))
    as (Hc & Ho & Ha); [cbn; lia |].
  cbn in Hc. split_and!; [rewrite Hc; lia | done..].
Qed.

End rpc.

(** C40.  In every reachable state the active connection is the primary when
    the breaker is closed and the configured fallback when it is open, the
    breaker never opens without a fallback, and where a fallback is configured
    fewer than six failures are pending (without one they only add up); so a
    caller always gets one of the two configured URLs. *)
Theorem rpc_breaker_invariant cfg s :
  reachable cfg s →
  rpc_inv cfg s ∧
  ∀ now, (getConnection cfg now s).1 = primaryUrl cfg ∨
         Some (getConnection cfg now s).1 = fallbackUrl cfg.
Proof.
  intros Hr. pose proof (reachable_inv _ _ Hr) as Hi. split; [done |]. intros now.
  pose proof (rpc_inv_get cfg now s Hi) as Hi'.
  replace ((getConnection cfg now s).1) with (activeConnection (getConnection cfg now s).2).
  - destruct (circuitBreakerOpen (getConnection cfg now s).2) eqn:Ho.
    + right. by destruct (inv_open _ _ Hi' Ho) as (_ & -> & _).
    + left. by apply inv_closed.
  - unfold getConnection. by case_match.
Qed.

(** The breaker trips on the sixth consecutive failure and not before
    (the comment says "5+"), then serves the fallback until more than 30
    seconds have passed since the last failure, when [getConnection] goes
    back to the primary with an empty count. *)
Theorem rpc_breaker_trips cfg fb ts t6 :
  fallbackUrl cfg = Some fb → fb ≠ ""%string → length ts = 5%nat →
  let five := failures cfg ts (rpc_init cfg) in
  let six := recordFailure cfg t6 five in
  circuitBreakerOpen five = false ∧ activeConnection five = primaryUrl cfg ∧
  circuitBreakerOpen six = true ∧ failureCount six = 0 ∧
  (∀ now, now ≤ t6 + 30000 → (getConnection cfg now six).1 = fb) ∧
  (∀ now, t6 + 30000 < now →
     (getConnection cfg now six).1 = primaryUrl cfg ∧
     circuitBreakerOpen (getConnection cfg now six).2 = false ∧
     failureCount (getConnection cfg now six).2 = 0).
Proof.
  intros Hfb Hne Hlen five six.
  destruct (failures_below cfg ts (rpc_init cfg)) as (Hc & Ho & Ha); [cbn; lia |].
  fold five in Hc, Ho, Ha. cbn in Hc, Ho, Ha.
  assert (truthy (fallbackUrl cfg) = true) as Ht by (apply truthy_Some; eauto).
  assert (six = {| activeConnection := fb; circuitBreakerOpen := true;
                   failureCount := 0; lastFailureAt := Some t6 |}) as ->.
  { unfold six, recordFailure. cbn. rewrite Ht, Hc, Hlen, Hfb. done. }
  split_and!; try done; intros now Hnow; unfold getConnection; cbn.
  - by rewrite (proj2 (Z.ltb_ge _ _)) by lia.
  - by rewrite (proj2 (Z.ltb_lt _ _)) by lia.
Qed.

(** ** Witnesses *)

Definition rpc_cfg : RpcConfig := {| primaryUrl := "https://a"; fallbackUrl := Some "https://b" |}.

Lemma rpc_breaker_invariant_witness :
  let s := recordFailure rpc_cfg 7 (rpc_init rpc_cfg) in
  rpc_inv rpc_cfg s ∧
  ∀ now, (getConnection rpc_cfg now s).1 = "https://a" ∨
         Some (getConnection rpc_cfg now s).1 = Some "https://b"%string.
Proof.
  apply (rpc_breaker_invariant rpc_cfg (recordFailure rpc_cfg 7 (rpc_init rpc_cfg))).
  eapply rtc_l; [apply step_failure | apply rtc_refl].
Defined.

Lemma rpc_breaker_trips_witness :
  let five := failures rpc_cfg [1; 2; 3; 4; 5] (rpc_init rpc_cfg) in
  let six := recordFailure rpc_cfg 6 five in
  circuitBreakerOpen five = false ∧ activeConnection five = "https://a"%string ∧
  circuitBreakerOpen six = true ∧ failureCount six = 0 ∧
  (∀ now, now ≤ 30006 → (getConnection rpc_cfg now six).1 = "https://b"%string) ∧
  (∀ now, 30006 < now →
     (getConnection rpc_cfg now six).1 = "https://a"%string ∧
     circuitBreakerOpen (getConnection rpc_cfg now six).2 = false ∧
     failureCount (getConnection rpc_cfg now six).2 = 0).
Proof.
  exact (rpc_breaker_trips rpc_cfg "https://b" [1; 2; 3; 4; 5] 6 eq_refl
    (λ H, ltac:(discriminate H)) eq_refl).
Defined.
