(* ===== verification/Regex.v ===== *)
(** * The regular expressions of the source

    The source tests texts against literal JavaScript regular expressions,
    without back-references, look-around or captures.  [re] is their syntax,
    [matches] the language an expression denotes, and [re_test] an executable
    [RegExp.prototype.test] by derivatives, proved to say whether some
    substring is in the language.  A text is a sequence of code units below
    256. *)

From Stdlib Require Import Ascii String.
From S2P Require Import Prelude.

Open Scope string_scope.

Inductive re :=
| Void
| Eps
| Chr (p : ascii → bool)
| Seq (r1 r2 : re)
| Alt (r1 r2 : re)
| Star (r : re).

(** ** Denotation *)

Inductive matches : re → list ascii → Prop :=
| m_eps : matches Eps []
| m_chr p c : p c = true → matches (Chr p) [c]
| m_seq r1 r2 s1 s2 : matches r1 s1 → matches r2 s2 → matches (Seq r1 r2) (s1 ++ s2)
| m_alt_l r1 r2 s : matches r1 s → matches (Alt r1 r2) s
| m_alt_r r1 r2 s : matches r2 s → matches (Alt r1 r2) s
| m_star_nil r : matches (Star r) []
| m_star_cons r s1 s2 : matches r s1 → matches (Star r) s2 → matches (Star r) (s1 ++ s2).

(** ** Matching by derivatives *)

Fixpoint nullable (r : re) : bool :=
  match r with
  | Void | Chr _ => false
  | Eps | Star _ => true
  | Seq r1 r2 => nullable r1 && nullable r2
  | Alt r1 r2 => nullable r1 || nullable r2
  end.

(** Constructors that drop what cannot match. *)
Definition seq (r1 r2 : re) : re :=
  match r1, r2 with
  | Void, _ => Void
  | Eps, _ => r2
  | _, Void => Void
  | _, _ => Seq r1 r2
  end.

Definition alt (r1 r2 : re) : re :=
  match r1, r2 with
  | Void, _ => r2
  | _, Void => r1
  | _, _ => Alt r1 r2
  end.

Fixpoint deriv (c : ascii) (r : re) : re :=
  match r with
  | Void | Eps => Void
  | Chr p => if p c then Eps else Void
  | Seq r1 r2 =>
      let d := seq (deriv c r1) r2 in
      if nullable r1 then alt d (deriv c r2) else d
  | Alt r1 r2 => alt (deriv c r1) (deriv c r2)
  | Star r1 => seq (deriv c r1) (Star r1)
  end.

Definition re_match (r : re) (s : list ascii) : bool :=
  nullable (foldl (λ r c, deriv c r) r s).

Definition any : re := Star (Chr (λ _, true)).

(** [r.test(s)] *)
Definition re_test (r : re) (s : string) : bool :=
  re_match (Seq any (Seq r any)) (list_ascii_of_string s).

(** ** Correctness *)

Lemma matches_void s : ¬ matches Void s.
Proof. by inversion 1. Qed.

Lemma matches_seq r1 r2 s :
  matches (Seq r1 r2) s ↔ ∃ s1 s2, s = (s1 ++ s2)%list ∧ matches r1 s1 ∧ matches r2 s2.
Proof.
  split; [inversion 1; subst; eauto 6 |].
  intros (s1 & s2 & -> & ? & ?). by constructor.
Qed.

Lemma matches_alt r1 r2 s : matches (Alt r1 r2) s ↔ matches r1 s ∨ matches r2 s.
Proof. split; [inversion 1; auto | intros []; by constructor]. Qed.

Lemma seq_matches r1 r2 s : matches (seq r1 r2) s ↔ matches (Seq r1 r2) s.
Proof.
  assert (∀ r, matches (Seq r Void) s ↔ False) as Hv.
  { intros r. rewrite matches_seq. split; [| done]. intros (? & ? & _ & _ & []%matches_void). }
  assert (matches (Seq Void r2) s ↔ False) as Hv1.
  { rewrite matches_seq. split; [| done]. intros (? & ? & _ & []%matches_void & _). }
  assert (matches (Seq Eps r2) s ↔ matches r2 s) as He.
  { rewrite matches_seq. split.
    - intros (s1 & s2 & -> & H & ?). by inversion H.
    - intros. exists [], s. split_and!; [done | constructor | done]. }
  assert (matches Void s ↔ False) as Hn by (split; [apply matches_void | done]).
  unfold seq. destruct r1; rewrite ?Hv1, ?He, ?Hn; try done;
    destruct r2; rewrite ?Hv, ?Hn; done.
Qed.

Lemma alt_matches r1 r2 s : matches (alt r1 r2) s ↔ matches (Alt r1 r2) s.
Proof.
  assert (∀ r, matches (Alt r Void) s ↔ matches r s) as Hr.
  { intros r. rewrite matches_alt. pose proof (matches_void s). tauto. }
  assert (∀ r, matches (Alt Void r) s ↔ matches r s) as Hl.
  { intros r. rewrite matches_alt. pose proof (matches_void s). tauto. }
  destruct r1; cbn; rewrite ?Hl; try done; destruct r2; rewrite ?Hr; done.
Qed.

Lemma nullable_matches r : nullable r = true ↔ matches r [].
Proof.
  induction r as [| | p | r1 IH1 r2 IH2 | r1 IH1 r2 IH2 | r IH]; cbn.
  - split; [done | by intros ?%matches_void].
  - split; [constructor | done].
  - split; [done | by inversion 1].
  - rewrite andb_true_iff, matches_seq, IH1, IH2. split.
    + intros []. by exists [], [].
    + intros (s1 & s2 & Hs & ? & ?). symmetry in Hs. by apply app_nil in Hs as [-> ->].
  - by rewrite orb_true_iff, matches_alt, IH1, IH2.
  - split; [constructor | done].
Qed.

Lemma star_cons_inv r c s :
  matches (Star r) (c :: s) →
  ∃ s1 s2, s = (s1 ++ s2)%list ∧ matches r (c :: s1) ∧ matches (Star r) s2.
Proof.
  intros H. remember (Star r) as r' eqn:Hr. remember (c :: s) as s' eqn:Hs.
  revert Hs. induction H as [| | | | | |r0 s1 s2 H1 IH1 H2 IH2]; try done; intros Hs.
  injection Hr as ->. destruct s1 as [|c' s1]; cbn in Hs; [by apply IH2 |].
  injection Hs as -> <-. eauto.
Qed.

Lemma deriv_matches c r s : matches (deriv c r) s ↔ matches r (c :: s).
Proof.
  revert s. induction r as [| | p | r1 IH1 r2 IH2 | r1 IH1 r2 IH2 | r IH]; intros s; cbn.
  - split; by intros ?%matches_void.
  - split; [by intros ?%matches_void | by inversion 1].
  - destruct (p c) eqn:Hp; split.
    + inversion 1; subst. by constructor.
    + inversion 1; subst. constructor.
    + by intros ?%matches_void.
    + inversion 1; congruence.
  - assert (matches (seq (deriv c r1) r2) s ↔
      ∃ s1 s2, s = (s1 ++ s2)%list ∧ matches r1 (c :: s1) ∧ matches r2 s2) as Hd.
    { rewrite seq_matches, matches_seq. by setoid_rewrite IH1. }
    assert (matches (Seq r1 r2) (c :: s) ↔
      (∃ s1 s2, s = (s1 ++ s2)%list ∧ matches r1 (c :: s1) ∧ matches r2 s2) ∨
      (matches r1 [] ∧ matches r2 (c :: s))) as Hseq.
    { rewrite matches_seq. split.
      - intros ([|c' s1] & s2 & Hs & ? & ?); cbn in Hs; [subst; by right |].
        injection Hs as <- ->. left. eauto.
      - intros [(s1 & s2 & -> & ? & ?) | [? ?]]; [by exists (c :: s1), s2 | by exists [], (c :: s)]. }
    destruct (nullable r1) eqn:Hn.
    + rewrite alt_matches, matches_alt, Hd, IH2, Hseq. apply nullable_matches in Hn. tauto.
    + rewrite Hd, Hseq, <- nullable_matches, Hn. naive_solver.
  - by rewrite alt_matches, !matches_alt, IH1, IH2.
  - rewrite seq_matches, matches_seq. split.
    + intros (s1 & s2 & -> & ?%IH & ?). by apply (m_star_cons r (c :: s1) s2).
    + intros (s1 & s2 & -> & ? & ?)%star_cons_inv. exists s1, s2. by rewrite IH.
Qed.

Lemma re_match_correct r s : re_match r s = true ↔ matches r s.
Proof.
  unfold re_match. revert r. induction s as [|c s IH]; intros r; cbn.
  - apply nullable_matches.
  - by rewrite IH, deriv_matches.
Qed.

Lemma matches_any s : matches any s.
Proof.
  induction s as [|c s IH]; [constructor |].
  by apply (m_star_cons _ [c] s); [constructor |].
Qed.

(** [test] finds a match anywhere in the text. *)
Lemma re_test_correct r s :
  re_test r s = true ↔
  ∃ pre mid post, list_ascii_of_string s = (pre ++ mid ++ post)%list ∧ matches r mid.
Proof.
  unfold re_test. rewrite re_match_correct, matches_seq. split.
  - intros (pre & s' & Hs & _ & (mid & post & -> & ? & _)%matches_seq). eauto.
  - intros (pre & mid & post & Hs & Hm). exists pre, (mid ++ post)%list.
    split_and!; [done | apply matches_any |]. apply matches_seq.
    exists mid, post. split_and!; [done.. | apply matches_any].
Qed.

(** ** Building expressions *)

Definition between (lo hi : N) (c : ascii) : bool :=
  let n := N_of_ascii c in (lo <=? n)%N && (n <=? hi)%N.

(** The lower case of an ASCII letter. *)
Definition lower (c : ascii) : ascii :=
  if between 65 90 c then ascii_of_N (N_of_ascii c + 32) else c.

(** A character under the [i] flag. *)
Definition chr_i (c : ascii) : re := Chr (λ x, (lower x =? lower c)%char).

(** [\s], [\d] and [.] *)
Definition is_space (c : ascii) : bool :=
  between 9 13 c || (N_of_ascii c =? 32)%N || (N_of_ascii c =? 160)%N.
Definition is_digit (c : ascii) : bool := between 48 57 c.
Definition is_dot (c : ascii) : bool :=
  negb ((N_of_ascii c =? 10)%N || (N_of_ascii c =? 13)%N).

(** A literal under the [i] flag. *)
Fixpoint lit (s : string) : re :=
  match s with
  | EmptyString => Eps
  | String c EmptyString => chr_i c
  | String c s' => Seq (chr_i c) (lit s')
  end.

Definition plus (r : re) : re := Seq r (Star r).
Definition opt (r : re) : re := Alt Eps r.
Definition sp : re := plus (Chr is_space).        (** [\s+] *)
Definition sp0 : re := Star (Chr is_space).       (** [\s*] *)
Definition digits : re := plus (Chr is_digit).    (** [\d+] *)
Definition oneof (rs : list re) : re := foldr Alt Void rs.
Definition words (ss : list string) : re := oneof (lit <$> ss).

(** [r{0,n}] *)
Fixpoint upto (n : nat) (r : re) : re :=
  match n with
  | O => Eps
  | S n' => opt (Seq r (upto n' r))
  end.

Declare Scope re_scope.
Delimit Scope re_scope with re.
Notation "a · b" := (Seq a b) (at level 55, right associativity) : re_scope.
