(* ===== verification/Scanner.v ===== *)
(** * The content scanner

    [ContentScannerService] of [src/modules/notify/content-scanner.service.ts]:
    the two tables of patterns, expression by expression, and [scan]. *)

From Stdlib Require Import Ascii String.
From S2P Require Import Prelude Schema Regex.

Open Scope string_scope.
Open Scope Z_scope.

Record SuspiciousPattern := {
  sp_pattern : re;
  sp_weight : Z;
  sp_label : string;
}.

Definition rule (pattern : re) (weight : Z) (label : string) : SuspiciousPattern :=
  {| sp_pattern := pattern; sp_weight := weight; sp_label := label |}.

Definition SUSPICIOUS_PATTERNS : list SuspiciousPattern := [
  rule (lit "claim" · sp · opt (lit "your" · sp) · lit "airdrop" · sp · lit "now")%re
    35 "fake_airdrop_urgency";
  rule (lit "connect" · sp · opt (lit "your" · sp) · lit "wallet" · sp · lit "to" · sp ·
        lit "verify")%re
    40 "wallet_drainer_pattern";
  rule (lit "verify" · sp · opt (lit "your" · sp) · lit "wallet" · sp ·
        opt (lit "to" · sp) · words ["claim"; "receive"])%re
    35 "verify_to_claim";
  rule (words ["click"; "tap"] · sp · words ["here"; "below"] · sp · lit "to" · sp ·
        words ["claim"; "collect"; "receive"] · sp · words ["free"; "bonus"])%re
    30 "click_to_claim_free";
  rule (words ["bit.ly"; "tinyurl.com"; "t.co"; "goo.gl"; "ow.ly"; "is.gd"; "buff.ly"] ·
        words ["\"; "/"; "?"])%re
    25 "url_shortener";
  rule (lit "urgent" · upto 20 (Chr is_dot) · lit "action" · upto 20 (Chr is_dot) ·
        lit "required")%re
    20 "phishing_urgency";
  rule (lit "your" · sp · words ["account"; "wallet"; "funds"] · sp ·
        opt (lit "has" · sp · lit "been" · sp) · words ["compromised"; "hacked"; "flagged"])%re
    40 "account_compromise_scare";
  rule (words ["send"; "transfer"] · sp · digits · sp0 ·
        words ["eth"; "sol"; "bnb"; "usdc"; "usdt"] · sp · lit "to" · sp ·
        opt (lit "this" · sp) · words ["address"; "wallet"])%re
    50 "transfer_to_address";
  rule (words ["metamask"; "phantom"; "trustwallet"; "ledger"] · sp ·
        words ["support"; "team"; "official"] · sp · words ["here"; "is"])%re
    45 "wallet_impersonation";
  rule (oneof [lit "double" · opt (lit "d"); lit "multiplie" · opt (lit "d");
               lit "guarantee" · opt (lit "d")] · sp · opt (lit "your" · sp) ·
        words ["profit"; "return"; "investment"])%re
    30 "pump_dump_language";
  rule (oneof [lit "limited" · sp · lit "time"; lit "exclusive";
               lit "only" · sp · digits · sp · lit "spot" · opt (lit "s")] · sp · lit "offer")%re
    15 "scarcity_manipulation";
  rule (oneof [lit "seed" · sp · lit "phrase"; lit "private" · sp · lit "key";
               lit "recovery" · sp · lit "phrase"; lit "mnemonic"])%re
    60 "seed_phrase_request";
  rule (words ["enter"; "provide"; "confirm"; "share"] · sp · opt (lit "your" · sp) ·
        words ["password"; "credentials"; "login"])%re
    30 "credential_phishing"
].

Definition ALLOW_TERMS : list re := [
  oneof [lit "liquidation" · sp · lit "threshold"; lit "health" · sp · lit "factor";
         lit "collateral" · sp · lit "ratio"];
  oneof [lit "staking" · sp · lit "reward" · opt (lit "s"); lit "validator" · sp · lit "epoch";
         lit "governance" · sp · lit "proposal"];
  oneof [lit "price" · sp · lit "alert"; lit "market" · sp · lit "order";
         lit "limit" · sp · lit "order"; lit "slippage"];
  lit "transaction" · sp · words ["confirmed"; "failed"; "pending"];
  oneof [lit "your" · sp · lit "position"; lit "open" · sp · lit "position";
         lit "close" · sp · lit "position"]
]%re.

Record ScanResult := {
  riskScore : Z;
  sc_verdict : verdict;
  triggeredRules : list string;
}.

Definition verdict_of (score : Z) : verdict :=
  if 70 <=? score then Block else if 40 <=? score then Review else Pass.

(** [`${subject}\n${body}`] *)
Definition scan_text (subject body : string) : string :=
  subject +:+ String "010" body.

(** The body of the first loop of [scan], and of the second. *)
Definition suspect_step (text : string) (st : Z * list string) (p : SuspiciousPattern) :
    Z * list string :=
  if re_test (sp_pattern p) text
  then (st.1 + sp_weight p, st.2 ++ [sp_label p])%list
  else st.

Definition allow_step (text : string) (score : Z) (safe : re) : Z :=
  if re_test safe text then Z.max 0 (score - 10) else score.

(** [ContentScannerService.scan] *)
Definition scan (subject body : string) : ScanResult :=
  let text := scan_text subject body in
  let '(score, triggered) := foldl (suspect_step text) (0, []) SUSPICIOUS_PATTERNS in
  let score := foldl (allow_step text) score ALLOW_TERMS in
  let score := Z.min 100 score in
  {| riskScore := score; sc_verdict := verdict_of score; triggeredRules := triggered |}.

(** ** Lemmas *)

Lemma weights_range : Forall (λ p, 15 ≤ sp_weight p ≤ 60) SUSPICIOUS_PATTERNS.
Proof. repeat (constructor; [cbn; lia |]). constructor. Qed.

(** The rules a text triggers, and how many safe terms it has. *)
Definition hits (text : string) : list SuspiciousPattern :=
  List.filter (λ p, re_test (sp_pattern p) text) SUSPICIOUS_PATTERNS.
Definition safe_terms (text : string) : Z :=
  Z.of_nat (length (List.filter (λ r, re_test r text) ALLOW_TERMS)).
Definition total_weight (ps : list SuspiciousPattern) : Z :=
  foldr (λ p n, sp_weight p + n) 0 ps.

#[local] Opaque SUSPICIOUS_PATTERNS ALLOW_TERMS.

Lemma suspect_fold text ps st :
  let hit := List.filter (λ p, re_test (sp_pattern p) text) ps in
  foldl (suspect_step text) st ps =
    (st.1 + total_weight hit, st.2 ++ (sp_label <$> hit))%list.
Proof.
  revert st. induction ps as [|p ps IH]; intros [n l]; cbn.
  { by rewrite Z.add_0_r, app_nil_r. }
  rewrite IH. unfold suspect_step. destruct (re_test _ _); cbn; [| done].
  by rewrite <- app_assoc, Z.add_assoc.
Qed.

Lemma allow_fold text rs n :
  0 ≤ n →
  foldl (allow_step text) n rs =
    Z.max 0 (n - 10 * Z.of_nat (length (List.filter (λ r, re_test r text) rs))).
Proof.
  revert n. induction rs as [|r rs IH]; intros n Hn; cbn [foldl List.filter length].
  { cbn. lia. }
  unfold allow_step at 2. destruct (re_test r text); rewrite IH by lia; cbn [length]; lia.
Qed.

Lemma hits_weights text : Forall (λ p, 15 ≤ sp_weight p ≤ 60) (hits text).
Proof.
  pose proof weights_range as H. unfold hits. rewrite list.Forall_forall in *.
  intros p Hp. apply H. apply list_elem_of_In, filter_In in Hp as [Hp _].
  by apply list_elem_of_In.
Qed.

Lemma total_weight_bounds ps :
  Forall (λ p, 15 ≤ sp_weight p ≤ 60) ps →
  15 * Z.of_nat (length ps) ≤ total_weight ps ≤ 60 * Z.of_nat (length ps).
Proof. induction 1; cbn [total_weight foldr length] in *; [lia |]. fold (total_weight l) in *. lia. Qed.

Lemma scan_score subject body :
  let text := scan_text subject body in
  riskScore (scan subject body) =
    Z.min 100 (Z.max 0 (total_weight (hits text) - 10 * safe_terms text)).
Proof.
  intros text. unfold scan. fold text. rewrite suspect_fold. fold (hits text).
  cbn [fst snd riskScore].
  pose proof (total_weight_bounds _ (hits_weights text)) as Hw.
  rewrite allow_fold by lia. done.
Qed.

Lemma scan_rules subject body :
  sc_verdict (scan subject body) = verdict_of (riskScore (scan subject body)) ∧
  triggeredRules (scan subject body) = sp_label <$> hits (scan_text subject body).
Proof. unfold scan. rewrite suspect_fold. split; reflexivity. Qed.

(** ** Properties *)

(** C8.  [scan] in closed form: the rules reported are exactly those with a
    match somewhere in the text, in the order of the table; the score is the
    sum of their weights less ten per safe term, kept within 0 and 100; and
    the verdict is read off the score. *)
Theorem scan_spec subject body :
  let text := scan_text subject body in
  let res := scan subject body in
  riskScore res = Z.min 100 (Z.max 0 (total_weight (hits text) - 10 * safe_terms text)) ∧
  0 ≤ riskScore res ≤ 100 ∧
  sc_verdict res = verdict_of (riskScore res) ∧
  triggeredRules res = sp_label <$> hits text ∧
  (∀ p, p ∈ hits text ↔ p ∈ SUSPICIOUS_PATTERNS ∧
     ∃ pre mid post, list_ascii_of_string text = (pre ++ mid ++ post)%list ∧
       matches (sp_pattern p) mid).
Proof.
  intros text res. destruct (scan_rules subject body) as [Hv Ht].
  pose proof (scan_score subject body) as Hs. cbn zeta in Hs. fold text res in Hs.
  split_and!; [done | lia | lia | done | done |].
  intros p. rewrite <- re_test_correct. unfold hits.
  by rewrite !list_elem_of_In, filter_In.
Qed.

(** No single rule blocks a notification: a blocked text triggers at
    least two of them; and a text that triggers none passes with score 0. *)
Theorem scan_block_needs_two subject body :
  let res := scan subject body in
  (sc_verdict res = Block → (2 ≤ length (triggeredRules res))%nat) ∧
  (triggeredRules res = [] → sc_verdict res = Pass ∧ riskScore res = 0).
Proof.
  cbn zeta. destruct (scan_rules subject body) as [-> ->].
  pose proof (total_weight_bounds _ (hits_weights (scan_text subject body))) as Hw.
  assert (0 ≤ safe_terms (scan_text subject body)) by (unfold safe_terms; lia).
  rewrite scan_score, length_fmap. unfold verdict_of. split.
  - destruct (Z.leb_spec 70 (Z.min 100 (Z.max 0
      (total_weight (hits (scan_text subject body)) - 10 * safe_terms (scan_text subject body)))));
      [intros _; lia |].
    by destruct (40 <=? _).
  - intros ->%fmap_nil_inv. cbn. rewrite Z.max_l by lia. done.
Qed.

#[local] Transparent SUSPICIOUS_PATTERNS ALLOW_TERMS.

Example scan_phishing :
  scan "Urgent: action required" "Connect your  wallet to VERIFY, share your Seed Phrase" =
  {| riskScore := 100; sc_verdict := Block;
     triggeredRules := ["wallet_drainer_pattern"; "phishing_urgency"; "seed_phrase_request"] |}.
Proof. vm_compute. reflexivity. Qed.

Example scan_alert :
  scan "Liquidation" "Your position: health factor 1.02, never share your private key" =
  {| riskScore := 40; sc_verdict := Review; triggeredRules := ["seed_phrase_request"] |}.
Proof. vm_compute. reflexivity. Qed.
