(* ===== verification/Text.v ===== *)
(** * Texts as sequences of UTF-16 code units

    The length-sensitive code of the gateway (SMS bodies, Telegram parts)
    works on JavaScript strings, that is on lists of code units.  [units] views
    a [string] of the data model as such a list; the functions below are the
    methods of [String.prototype] the source calls. *)

From Stdlib Require Import Ascii String.
From stdpp Require Import pretty.
From S2P Require Import Prelude.

Abbreviation text := (list N).

Definition units (s : string) : text := N_of_ascii <$> list_ascii_of_string s.

(** ['\n'], [' '] and the ellipsis character. *)
Definition NL : N := 10.
Definition SPACE : N := 32.
Definition ELLIPSIS : N := 8230.

(** [s.length] *)
Definition len (s : text) : Z := Z.of_nat (length s).

(** [s.slice(0, n)] for [n ≥ 0] *)
Definition slice0 (n : Z) (s : text) : text := take (Z.to_nat n) s.

(** [s.lastIndexOf(c)] *)
Fixpoint lastIndexOf (c : N) (s : text) : Z :=
  match s with
  | [] => -1
  | x :: s' =>
      let i := lastIndexOf c s' in
      if 0 <=? i then i + 1 else if N.eqb x c then 0 else -1
  end.

(** [s.split('\n')] *)
Fixpoint split_lines (s : text) : list text :=
  match s with
  | [] => [[]]
  | x :: s' =>
      if N.eqb x NL then [] :: split_lines s'
      else match split_lines s' with
           | l :: ls => (x :: l) :: ls
           | [] => [[x]]
           end
  end.

(** [s.split('\n\n')] *)
Fixpoint split_paragraphs (s : text) : list text :=
  match s with
  | x :: ((y :: s'') as s') =>
      if N.eqb x NL && N.eqb y NL then [] :: split_paragraphs s''
      else match split_paragraphs s' with
           | l :: ls => (x :: l) :: ls
           | [] => [[x]]
           end
  | s => [s]
  end.

(** The decimal digits of a number. *)
Definition show (n : Z) : text := units (pretty.pretty n).

(** ** Lemmas *)

Lemma len_nonneg s : 0 ≤ len s.
Proof. unfold len. lia. Qed.

Lemma len_app s1 s2 : len (s1 ++ s2) = len s1 + len s2.
Proof. unfold len. rewrite length_app. lia. Qed.

Lemma len_nil s : len s = 0 → s = [].
Proof. unfold len. destruct s; [done | cbn; lia]. Qed.

Lemma len_slice0 n s : 0 ≤ n → len (slice0 n s) = Z.min n (len s).
Proof. intros. unfold len, slice0. rewrite length_take. lia. Qed.

Lemma slice0_prefix n s : slice0 n s `prefix_of` s.
Proof. unfold slice0. exists (drop (Z.to_nat n) s). by rewrite take_drop. Qed.

Lemma slice0_slice0 n m s : n ≤ m → slice0 n (slice0 m s) = slice0 n s.
Proof. intros. unfold slice0. rewrite take_take. f_equal. lia. Qed.

Lemma lastIndexOf_lt c s : lastIndexOf c s < len s ∨ lastIndexOf c s = -1.
Proof.
  unfold len. induction s as [|x s IH]; cbn [lastIndexOf length]; [by right |].
  destruct (Z.leb_spec 0 (lastIndexOf c s)); [lia |]. case_match; lia.
Qed.

Lemma lastIndexOf_not_in c s : c ∉ s → lastIndexOf c s = -1.
Proof.
  induction s as [|x s IH]; [done |]. intros Hn. cbn.
  rewrite IH by set_solver. cbn. destruct (N.eqb_spec x c); set_solver.
Qed.

(** Splitting loses newlines only. *)
Definition visible (s : text) : text := List.filter (λ c, negb (N.eqb c NL)) s.

#[global] Arguments visible : simpl never.

Lemma visible_app s1 s2 : visible (s1 ++ s2) = visible s1 ++ visible s2.
Proof. apply filter_app. Qed.

Lemma visible_nl : visible [NL] = [].
Proof. done. Qed.

Lemma visible_cons x s : visible (x :: s) = visible [x] ++ visible s.
Proof. unfold visible. cbn. by destruct (negb _). Qed.

Lemma split_lines_visible s : visible (concat (split_lines s)) = visible s.
Proof.
  induction s as [|x s IH]; [done |]. cbn [split_lines].
  destruct (N.eqb_spec x NL) as [-> |]; [exact IH |].
  destruct (split_lines s) as [|l ls]; rewrite (visible_cons x s), <- IH; [by cbn; rewrite app_nil_r |].
  apply visible_cons.
Qed.

Lemma split_paragraphs_eq x y s :
  split_paragraphs (x :: y :: s) =
    if N.eqb x NL && N.eqb y NL then [] :: split_paragraphs s
    else match split_paragraphs (y :: s) with
         | l :: ls => (x :: l) :: ls
         | [] => [[x]]
         end.
Proof. done. Qed.

Lemma split_paragraphs_visible s : visible (concat (split_paragraphs s)) = visible s.
Proof.
  assert (∀ n s, (length s ≤ n)%nat → visible (concat (split_paragraphs s)) = visible s)
    as H; [| by apply (H (length s))].
  clear s. induction n as [|n IH]; intros s Hn.
  { by destruct s; [| cbn in Hn; lia]. }
  destruct s as [|x [|y s]]; [done | by cbn |].
  rewrite split_paragraphs_eq. cbn in Hn.
  destruct (N.eqb x NL && N.eqb y NL) eqn:Hxy.
  - apply andb_true_iff in Hxy as [->%N.eqb_eq ->%N.eqb_eq].
    cbn [concat app]. by rewrite IH by lia.
  - rewrite (visible_cons x (y :: s)), <- (IH (y :: s)) by (cbn; lia).
    destruct (split_paragraphs (y :: s)); [by cbn; rewrite app_nil_r | apply visible_cons].
Qed.
