(* ===== verification/Rx.v ===== *)
(** * Regular expressions with captures, as ECMAScript runs them

    [Regex] decides whether a text matches somewhere.  Where the source uses
    what was matched ([exec], [match], [replace] with groups), the result
    depends on the order in which JavaScript's backtracking matcher explores
    an expression.  [rmatch] is that matcher, in the continuation-passing
    form of the ECMAScript specification: greedy and lazy repetition, groups,
    back-references, negative look-ahead, anchors.  [segments] cuts a text
    into what a global expression matches and what is between; [replace] and
    the loops over [exec] are folds over it. *)

From S2P Require Import Prelude Text.

(** Where the matcher stands: the units before (the last one first) and after. *)
Record cursor := { before : text; after : text }.

Abbreviation captures := (list (nat * text)).

Inductive rx :=
| REps
| RChar (p : N → bool)
| RSeq (r1 r2 : rx)
| RAlt (r1 r2 : rx)
| RStar (greedy : bool) (r : rx)     (** [r*] and [r*?] *)
| RGroup (i : nat) (r : rx)
| RBack (i : nat)                    (** [\i] *)
| RNot (r : rx)                      (** [(?!r)] *)
| RBol | REol                        (** [^] and [$] under the [m] flag *)
| RStart | REnd.                     (** the same without it *)

Definition capture (i : nat) (cs : captures) : option text :=
  snd <$> List.find (λ p, Nat.eqb p.1 i) cs.

Definition step (c : cursor) : option (N * cursor) :=
  match after c with
  | [] => None
  | x :: s => Some (x, {| before := x :: before c; after := s |})
  end.

(** The units between two cursors of one text. *)
Definition between_cursors (c c' : cursor) : text :=
  take (length (after c) - length (after c')) (after c).

(** Move over a given text. *)
Fixpoint step_over (t : text) (c : cursor) : option cursor :=
  match t with
  | [] => Some c
  | x :: t' =>
      match step c with
      | Some (y, c') => if N.eqb x y then step_over t' c' else None
      | None => None
      end
  end.

Definition is_eol (x : N) : bool := (N.eqb x 10 || N.eqb x 13 || N.eqb x 8232 || N.eqb x 8233)%N.

Section matcher.
Context {X : Type}.

Definition first (a b : option X) : option X := match a with Some x => Some x | None => b end.

(** A repetition; every turn but the last consumes something, so the length
    of what follows is enough fuel. *)
Fixpoint repeat_match (m : (cursor → captures → option X) → cursor → captures → option X)
    (greedy : bool) (k : cursor → captures → option X) (fuel : nat) (c : cursor)
    (cs : captures) : option X :=
  match fuel with
  | O => k c cs
  | S fuel' =>
      let again := m (λ c' cs',
        if Nat.eqb (length (after c')) (length (after c)) then None
        else repeat_match m greedy k fuel' c' cs') c cs in
      if greedy then first again (k c cs) else first (k c cs) again
  end.

Definition guard_match (b : bool) (k : cursor → captures → option X) (c : cursor) (cs : captures) :
    option X := if b then k c cs else None.
End matcher.

Fixpoint rmatch {X : Type} (r : rx) (k : cursor → captures → option X) (c : cursor) (cs : captures) :
    option X :=
  match r with
  | REps => k c cs
  | RChar p =>
      match step c with
      | Some (x, c') => if p x then k c' cs else None
      | None => None
      end
  | RSeq r1 r2 => rmatch r1 (rmatch r2 k) c cs
  | RAlt r1 r2 => first (rmatch r1 k c cs) (rmatch r2 k c cs)
  | RStar g r1 => repeat_match (rmatch r1) g k (length (after c)) c cs
  | RGroup i r1 => rmatch r1 (λ c' cs', k c' ((i, between_cursors c c') :: cs')) c cs
  | RBack i =>
      match step_over (default [] (capture i cs)) c with
      | Some c' => k c' cs
      | None => None
      end
  | RNot r1 =>
      match rmatch r1 (λ _ _, Some tt) c cs with
      | Some _ => None
      | None => k c cs
      end
  | RBol => guard_match (match before c with [] => true | x :: _ => is_eol x end) k c cs
  | REol => guard_match (match after c with [] => true | x :: _ => is_eol x end) k c cs
  | RStart => guard_match (match before c with [] => true | _ => false end) k c cs
  | REnd => guard_match (match after c with [] => true | _ => false end) k c cs
  end.

(** ** Building expressions *)

Definition this (x : N) : N → bool := N.eqb x.
Definition none_of (l : list N) (x : N) : bool := negb (existsb (N.eqb x) l).
Definition one_of (l : list N) (x : N) : bool := existsb (N.eqb x) l.
Definition in_range (lo hi x : N) : bool := ((lo <=? x) && (x <=? hi))%N.
Definition not_eol (x : N) : bool := negb (is_eol x).             (** [.] *)
Definition any_unit (_ : N) : bool := true.                       (** [[\s\S]] *)
Definition word_unit (x : N) : bool :=                            (** [\w] *)
  in_range 48 57 x || in_range 65 90 x || in_range 97 122 x || N.eqb x 95.
Definition space_unit (x : N) : bool :=                           (** [\s] *)
  in_range 9 13 x || in_range 8192 8202 x || one_of [32; 160; 5760; 8232; 8233; 8239; 8287; 12288; 65279]%N x.

(** The lower case of an ASCII letter, for the [i] flag and [toLowerCase]. *)
Definition lower_unit (x : N) : N := if in_range 65 90 x then (x + 32)%N else x.
Definition is_i (x y : N) : bool := N.eqb (lower_unit x) (lower_unit y).

Definition rplus (g : bool) (r : rx) : rx := RSeq r (RStar g r).
Definition ropt (r : rx) : rx := RAlt r REps.
Definition rseq (rs : list rx) : rx := foldr RSeq REps rs.
Definition ralt (r : rx) (rs : list rx) : rx := foldl RAlt r rs.
Definition rlit (s : string) : rx := rseq ((λ x, RChar (this x)) <$> units s).
Definition rlit_i (s : string) : rx := rseq ((λ x, RChar (is_i x)) <$> units s).

(** [r{n,}] and [r{n,m}] *)
Definition rtimes (n : nat) (r : rx) : rx := rseq (replicate n r).
Fixpoint rupto (m : nat) (r : rx) : rx :=
  match m with O => REps | S m' => RAlt (RSeq r (rupto m' r)) REps end.
Definition rbetween (n m : nat) (r : rx) : rx := RSeq (rtimes n r) (rupto (m - n) r).
Definition ratleast (n : nat) (r : rx) : rx := RSeq (rtimes n r) (RStar true r).

(** ** Running an expression *)

Definition rx_at (r : rx) (c : cursor) : option (cursor * captures) :=
  rmatch r (λ c' cs, Some (c', cs)) c [].

(** [replace] and [exec] under the [g] flag: what is matched, with the
    captures, and what is between.  An empty match is followed by one unit. *)
Inductive segment :=
| Plain (t : text)
| Hit (t : text) (cs : captures).

Definition segment_text (s : segment) : text := match s with Plain t => t | Hit t _ => t end.

Definition advance (c : cursor) : cursor := match step c with Some (_, c') => c' | None => c end.

Fixpoint segments_from (fuel : nat) (r : rx) (c : cursor) : list segment :=
  match fuel with
  | O => [Plain (after c)]
  | S fuel' =>
      match rx_at r c with
      | Some (c', cs) =>
          let hit := Hit (between_cursors c c') cs in
          if Nat.eqb (length (after c')) (length (after c)) then
            match after c with
            | [] => [hit]
            | x :: _ => hit :: Plain [x] :: segments_from fuel' r (advance c)
            end
          else hit :: segments_from fuel' r c'
      | None =>
          match after c with
          | [] => []
          | x :: _ => Plain [x] :: segments_from fuel' r (advance c)
          end
      end
  end.

Definition at_start (s : text) : cursor := {| before := []; after := s |}.

(** Every turn consumes a unit. *)
Definition segments (r : rx) (s : text) : list segment :=
  segments_from (S (length s)) r (at_start s).

(** [s.replace(re, f)], [f] of the match and its captures. *)
Definition replace_with (f : text → captures → text) (g : segment) : text :=
  match g with Plain t => t | Hit t cs => f t cs end.
Definition replace (r : rx) (f : text → captures → text) (s : text) : text :=
  segments r s ≫= replace_with f.

(** [s.replace(re, '$1')] *)
Definition group1 (_ : text) (cs : captures) : text := default [] (capture 1 cs).

(** [s.match(re)] and [re.test(s)] without the [g] flag: the first match. *)
Fixpoint search_from (fuel : nat) (r : rx) (c : cursor) : option (text * captures) :=
  match rx_at r c with
  | Some (c', cs) => Some (between_cursors c c', cs)
  | None =>
      match fuel, after c with
      | S fuel', _ :: _ => search_from fuel' r (advance c)
      | _, _ => None
      end
  end.
Definition search (r : rx) (s : text) : option (text * captures) :=
  search_from (length s) r (at_start s).
Definition test (r : rx) (s : text) : bool := bool_decide (is_Some (search r s)).

(** ** The matcher only moves forward *)

(** [c'] is [c] after the units of [t]. *)
Definition moved (t : text) (c c' : cursor) : Prop :=
  after c = t ++ after c' ∧ before c' = rev t ++ before c.

Lemma moved_refl c : moved [] c c.
Proof. done. Qed.

Lemma moved_trans t1 t2 c1 c2 c3 : moved t1 c1 c2 → moved t2 c2 c3 → moved (t1 ++ t2) c1 c3.
Proof.
  intros [Ha1 Hb1] [Ha2 Hb2]. split.
  - by rewrite Ha1, Ha2, app_assoc.
  - by rewrite Hb2, Hb1, rev_app_distr, app_assoc.
Qed.

Lemma moved_between t c c' : moved t c c' → between_cursors c c' = t.
Proof.
  intros [Ha _]. unfold between_cursors. rewrite Ha, length_app.
  replace (length t + length (after c') - length (after c'))%nat with (length t) by lia.
  apply take_app_length.
Qed.

Lemma moved_length t c c' : moved t c c' → length (after c) = (length t + length (after c'))%nat.
Proof. intros [-> _]. apply length_app. Qed.

Lemma step_moved c x c' : step c = Some (x, c') → moved [x] c c'.
Proof. unfold step. destruct (after c) as [|y s] eqn:H; [done |]. intros [= <- <-]. by split. Qed.

Lemma step_over_moved t c c' : step_over t c = Some c' → moved t c c'.
Proof.
  revert c. induction t as [|x t IH]; intros c; cbn; [by intros [= ->] |].
  destruct (step c) as [[y c1]|] eqn:Hs; [| done].
  destruct (N.eqb_spec x y) as [-> |]; [| done]. intros H%IH.
  apply (moved_trans [y] t c c1 c'); [by apply step_moved | done].
Qed.

Lemma first_Some {X} (a b : option X) x : first a b = Some x → a = Some x ∨ b = Some x.
Proof. destruct a; cbn; auto. Qed.

Section forward.
Context {X : Type}.

(** A result comes from the continuation, further on. *)
Definition forward (m : (cursor → captures → option X) → cursor → captures → option X) : Prop :=
  ∀ k c cs x, m k c cs = Some x → ∃ t c' cs', moved t c c' ∧ k c' cs' = Some x.

Lemma repeat_forward m g : forward m → ∀ fuel, forward (λ k c cs, repeat_match m g k fuel c cs).
Proof.
  intros Hm fuel. induction fuel as [|fuel IH]; intros k c cs x; cbn.
  { intros Hk. exists [], c, cs. split; [apply moved_refl | done]. }
  assert (∀ y, m (λ c' cs', if Nat.eqb (length (after c')) (length (after c)) then None
        else repeat_match m g k fuel c' cs') c cs = Some y →
      ∃ t c' cs', moved t c c' ∧ k c' cs' = Some y) as Hagain.
  { intros y (t & c1 & cs1 & Hmv & Hr)%Hm. destruct (Nat.eqb _ _); [done |].
    apply IH in Hr as (t2 & c2 & cs2 & Hmv2 & Hk). exists (t ++ t2), c2, cs2.
    split; [by eapply moved_trans | done]. }
  assert (∀ y, k c cs = Some y → ∃ t c' cs', moved t c c' ∧ k c' cs' = Some y) as Hnow.
  { intros y Hk. exists [], c, cs. split; [apply moved_refl | done]. }
  destruct g; intros [H | H]%first_Some; auto.
Qed.
End forward.

Lemma rmatch_forward r {X : Type} : forward (X := X) (rmatch r).
Proof.
  revert X. induction r as [| p | r1 IH1 r2 IH2 | r1 IH1 r2 IH2 | g r IH | i r IH | i | r _ | | | |];
    intros X k c cs x; cbn [rmatch]; unfold guard_match.
  2:{ destruct (step c) as [[y c1]|] eqn:Hs; [| done]. destruct (p y); [| done].
      intros Hk. exists [y], c1, cs. split; [by apply step_moved | done]. }
  2:{ intros (t1 & c1 & cs1 & Hm1 & (t2 & c2 & cs2 & Hm2 & Hk)%IH2)%IH1.
      exists (t1 ++ t2), c2, cs2. split; [by eapply moved_trans | done]. }
  2:{ intros [H%IH1 | H%IH2]%first_Some; done. }
  2:{ by apply (repeat_forward (rmatch r) g (IH X) (length (after c))). }
  2:{ intros (t & c' & cs' & Hm & Hk)%IH. eauto. }
  2:{ destruct (step_over _ c) as [c1|] eqn:Hs; [| done]. intros Hk.
      eexists _, c1, cs. split; [by eapply step_over_moved | done]. }
  all: repeat case_match; try done; intros Hk; exists [], c, cs; (split; [apply moved_refl | done]).
Qed.

Lemma rx_at_moved r c c' cs : rx_at r c = Some (c', cs) → moved (between_cursors c c') c c'.
Proof.
  unfold rx_at. intros (t & c1 & cs1 & Hm & [= -> ->])%rmatch_forward.
  by rewrite (moved_between _ _ _ Hm).
Qed.

Lemma advance_moved c x s : after c = x :: s → moved [x] c (advance c).
Proof. unfold advance, step. intros Hc. rewrite Hc. by split. Qed.

(** The segments are the text, cut. *)
Lemma segments_from_text fuel r c : segments_from fuel r c ≫= segment_text = after c.
Proof.
  revert c. induction fuel as [|fuel IH]; intros c; cbn; [by rewrite app_nil_r |].
  destruct (rx_at r c) as [[c' cs]|] eqn:Hr.
  - apply rx_at_moved in Hr as Hm. destruct (Nat.eqb_spec (length (after c')) (length (after c))) as [He | He].
    + pose proof (moved_length _ _ _ Hm). assert (between_cursors c c' = []) as Hb
        by (apply nil_length_inv; lia). cbn. destruct (after c) as [|y s] eqn:Hs; cbn; rewrite Hb; [done |].
      rewrite IH. destruct (advance_moved c y s Hs) as [Ha _]. by rewrite <- Hs, Ha.
    + cbn. rewrite IH. symmetry. apply Hm.
  - destruct (after c) as [|y s] eqn:Hs; [done |]. cbn. rewrite IH.
    destruct (advance_moved c y s Hs) as [Ha _]. by rewrite <- Hs, Ha.
Qed.

Lemma segments_text r s : segments r s ≫= segment_text = s.
Proof. apply segments_from_text. Qed.

(** A replacement that puts back what was matched changes nothing. *)
Lemma replace_id r s : replace r (λ t _, t) s = s.
Proof.
  rewrite <- (segments_text r s) at 2. unfold replace.
  induction (segments r s) as [|[] l IH]; cbn in *; congruence.
Qed.

(** ** Runs of a class of units *)

Fixpoint while (p : N → bool) (s : text) : text :=
  match s with
  | [] => []
  | x :: s' => if p x then x :: while p s' else []
  end.

Fixpoint skip (t : text) (c : cursor) : cursor :=
  match t with [] => c | _ :: t' => skip t' (advance c) end.

Lemma skip_moved t s c : after c = t ++ s → moved t c (skip t c).
Proof.
  revert c. induction t as [|x t IH]; intros c Hc; [apply moved_refl |]. cbn.
  pose proof (advance_moved c x (t ++ s) Hc) as Hm. apply (moved_trans [x] t _ _ _ Hm), IH.
  destruct Hm as [Ha _]. rewrite Hc in Ha. by injection Ha.
Qed.

Lemma while_prefix p s : ∃ s', s = while p s ++ s' ∧ ∀ x t, s' = x :: t → p x = false.
Proof.
  induction s as [|y s (s' & Hs & Hx)]; [by exists [] |]. cbn. destruct (p y) eqn:Hp.
  - exists s'. cbn. by rewrite <- Hs.
  - exists (y :: s). split; [done |]. by intros ? ? [= <- <-].
Qed.

(** A continuation that cannot start on a unit of the class sees the longest
    run: backtracking into a greedy repetition of the class is pointless. *)
Lemma star_class {X : Type} p (k : cursor → captures → option X) fuel c cs :
  (length (after c) ≤ fuel)%nat →
  (∀ c' cs' x s, after c' = x :: s → p x = true → k c' cs' = None) →
  repeat_match (rmatch (RChar p)) true k fuel c cs = k (skip (while p (after c)) c) cs.
Proof.
  intros Hf Hk. revert c Hf. induction fuel as [|fuel IH]; intros c Hf.
  - cbn. destruct (after c); [done | cbn in Hf; lia].
  - cbn. unfold step. destruct (after c) as [|x s] eqn:Hc; [done |]. cbn.
    destruct (p x) eqn:Hp; [| done]. cbn.
    replace (length s =? S (length s))%nat with false by (symmetry; apply Nat.eqb_neq; lia).
    rewrite IH by (cbn in *; lia). cbn.
    replace (advance c) with {| before := x :: before c; after := s |}
      by (unfold advance, step; by rewrite Hc).
    rewrite (Hk c cs x s Hc Hp). by destruct (k _ cs).
Qed.

(** So does a continuation that never fails. *)
Lemma star_greedy {X : Type} p (k : cursor → captures → option X) fuel c cs :
  (length (after c) ≤ fuel)%nat → (∀ c' cs', is_Some (k c' cs')) →
  repeat_match (rmatch (RChar p)) true k fuel c cs = k (skip (while p (after c)) c) cs.
Proof.
  intros Hf Hk. revert c Hf. induction fuel as [|fuel IH]; intros c Hf.
  - cbn. destruct (after c); [done | cbn in Hf; lia].
  - cbn. unfold step. destruct (after c) as [|x s] eqn:Hc; [done |]. cbn.
    destruct (p x) eqn:Hp; [| done]. cbn.
    replace (length s =? S (length s))%nat with false by (symmetry; apply Nat.eqb_neq; lia).
    rewrite IH by (cbn in *; lia). cbn.
    replace (advance c) with {| before := x :: before c; after := s |}
      by (unfold advance, step; by rewrite Hc).
    by destruct (Hk (skip (while p s) {| before := x :: before c; after := s |}) cs) as [y ->].
Qed.

(** ** Expressions that do not look behind them *)

Fixpoint looks_back (r : rx) : bool :=
  match r with
  | RBol | RStart => true
  | REps | RChar _ | RBack _ | REol | REnd => false
  | RSeq r1 r2 | RAlt r1 r2 => looks_back r1 || looks_back r2
  | RStar _ r1 | RGroup _ r1 | RNot r1 => looks_back r1
  end.

(** Continuations that agree wherever the same text follows. *)
Definition agree {X : Type} (k1 k2 : cursor → captures → option X) : Prop :=
  ∀ c1 c2 cs, after c1 = after c2 → k1 c1 cs = k2 c2 cs.

Lemma agree_step c1 c2 : after c1 = after c2 →
  match step c1, step c2 with
  | Some (x, c1'), Some (y, c2') => x = y ∧ after c1' = after c2'
  | None, None => True
  | _, _ => False
  end.
Proof. unfold step. intros ->. by destruct (after c2). Qed.

Lemma agree_step_over t c1 c2 : after c1 = after c2 →
  match step_over t c1, step_over t c2 with
  | Some c1', Some c2' => after c1' = after c2'
  | None, None => True
  | _, _ => False
  end.
Proof.
  revert c1 c2. induction t as [|x t IH]; intros c1 c2 H; cbn; [done |].
  apply agree_step in H. destruct (step c1) as [[y c1']|], (step c2) as [[z c2']|]; try done.
  destruct H as [-> H]. destruct (N.eqb x z); [by apply IH | done].
Qed.

Lemma agree_repeat {X : Type} m g (k1 k2 : cursor → captures → option X) fuel :
  (∀ k1 k2, agree k1 k2 → agree (m k1) (m k2)) → agree k1 k2 →
  agree (repeat_match m g k1 fuel) (repeat_match m g k2 fuel).
Proof.
  intros Hm Hk. induction fuel as [|fuel IH]; intros c1 c2 cs Hc; cbn; [by apply Hk |].
  assert (agree
    (λ c' cs', if Nat.eqb (length (after c')) (length (after c1)) then None
       else repeat_match m g k1 fuel c' cs')
    (λ c' cs', if Nat.eqb (length (after c')) (length (after c2)) then None
       else repeat_match m g k2 fuel c' cs')) as Ha.
  { intros a b cs' Hab. cbn beta. by rewrite Hab, Hc, (IH a b cs' Hab). }
  by rewrite (Hk c1 c2 cs Hc), (Hm _ _ Ha c1 c2 cs Hc).
Qed.

Lemma rmatch_agree r : looks_back r = false → ∀ (X : Type) (k1 k2 : cursor → captures → option X),
  agree k1 k2 → agree (rmatch r k1) (rmatch r k2).
Proof.
  induction r as [| p | r1 IH1 r2 IH2 | r1 IH1 r2 IH2 | g r IH | i r IH | i | r IH | | | |]; cbn [looks_back];
    intros Hl X k1 k2 Hk c1 c2 cs Hc; cbn [rmatch]; try done.
  - by apply Hk.
  - pose proof (agree_step _ _ Hc) as Hs.
    destruct (step c1) as [[x c1']|], (step c2) as [[y c2']|]; try done.
    destruct Hs as [-> Hs]. by rewrite (Hk _ _ cs Hs).
  - apply orb_false_iff in Hl as [Hl1 Hl2]. apply IH1; [done | by apply IH2 | done].
  - apply orb_false_iff in Hl as [Hl1 Hl2].
    by rewrite (IH1 Hl1 X k1 k2 Hk c1 c2 cs Hc), (IH2 Hl2 X k1 k2 Hk c1 c2 cs Hc).
  - rewrite Hc. by apply agree_repeat; [apply (IH Hl X) | |].
  - apply IH; [done | | done]. intros a b cs' Hab. unfold between_cursors. rewrite Hab, Hc. by apply Hk.
  - pose proof (agree_step_over (default [] (capture i cs)) _ _ Hc) as Hs.
    destruct (step_over _ c1), (step_over _ c2); try done. by apply Hk.
  - rewrite (IH Hl unit _ (λ _ _, Some tt) ltac:(done) c1 c2 cs Hc). by rewrite (Hk c1 c2 cs Hc).
  - rewrite Hc. unfold guard_match. by rewrite (Hk c1 c2 cs Hc).
  - rewrite Hc. unfold guard_match. by rewrite (Hk c1 c2 cs Hc).
Qed.

(** What is after the match decides everything that is computed from it. *)
Lemma first_map {X Y : Type} (f : X → Y) a b : f <$> first a b = first (f <$> a) (f <$> b).
Proof. by destruct a. Qed.

Lemma repeat_map {X Y : Type} (f : X → Y) m1 m2 g k fuel c cs :
  (∀ k c cs, f <$> m1 k c cs = m2 (λ c' cs', f <$> k c' cs') c cs) →
  (∀ k k' c cs, (∀ c cs, k c cs = k' c cs) → m2 k c cs = m2 k' c cs) →
  f <$> repeat_match m1 g k fuel c cs = repeat_match m2 g (λ c' cs', f <$> k c' cs') fuel c cs.
Proof.
  intros Hm He. revert c cs. induction fuel as [|fuel IH]; intros c cs; cbn; [done |].
  assert (f <$> m1 (λ c' cs', if Nat.eqb (length (after c')) (length (after c)) then None
      else repeat_match m1 g k fuel c' cs') c cs =
    m2 (λ c' cs', if Nat.eqb (length (after c')) (length (after c)) then None
      else repeat_match m2 g (λ c' cs', f <$> k c' cs') fuel c' cs') c cs) as Ha.
  { rewrite Hm. apply He. intros c' cs'. destruct (Nat.eqb _ _); [done | apply IH]. }
  destruct g; by rewrite first_map, Ha.
Qed.

Lemma repeat_ext {X : Type} (m : (cursor → captures → option X) → cursor → captures → option X) g k k' fuel c cs :
  (∀ k k' c cs, (∀ c cs, k c cs = k' c cs) → m k c cs = m k' c cs) →
  (∀ c cs, k c cs = k' c cs) → repeat_match m g k fuel c cs = repeat_match m g k' fuel c cs.
Proof.
  intros Hm Hk. revert c cs. induction fuel as [|fuel IH]; intros c cs; cbn; [done |].
  rewrite Hk. rewrite (Hm _ (λ c' cs', if Nat.eqb (length (after c')) (length (after c)) then None
    else repeat_match m g k' fuel c' cs')); [done |].
  intros c' cs'. destruct (Nat.eqb _ _); [done | apply IH].
Qed.

Lemma rmatch_ext r : ∀ {X : Type} (k k' : cursor → captures → option X) c cs,
  (∀ c cs, k c cs = k' c cs) → rmatch r k c cs = rmatch r k' c cs.
Proof.
  induction r as [| p | r1 IH1 r2 IH2 | r1 IH1 r2 IH2 | g r IH | i r IH | i | r _ | | | |];
    intros X k k' c cs Hk; cbn [rmatch]; unfold guard_match; rewrite ?Hk; try done.
  - destruct (step c) as [[x c']|]; [by rewrite Hk | done].
  - apply IH1. intros. by apply IH2.
  - by rewrite (IH1 X k k' c cs Hk), (IH2 X k k' c cs Hk).
  - apply repeat_ext; [intros; by apply IH | done].
  - apply IH. intros. apply Hk.
  - destruct (step_over _ c); [apply Hk | done].
Qed.

Lemma rmatch_map r : ∀ {X Y : Type} (f : X → Y) k c cs,
  f <$> rmatch r k c cs = rmatch r (λ c' cs', f <$> k c' cs') c cs.
Proof.
  induction r as [| p | r1 IH1 r2 IH2 | r1 IH1 r2 IH2 | g r IH | i r IH | i | r _ | | | |];
    intros X Y f k c cs; cbn [rmatch]; unfold guard_match; try done.
  - destruct (step c) as [[x c']|]; [by destruct (p x) | done].
  - rewrite IH1. apply rmatch_ext. intros. apply IH2.
  - by rewrite first_map, IH1, IH2.
  - apply repeat_map; [intros; apply IH | intros; by apply rmatch_ext].
  - by destruct (step_over _ c).
  - by destruct (rmatch r _ c cs).
  - by destruct (match before c with [] => true | x :: _ => is_eol x end).
  - by destruct (match after c with [] => true | x :: _ => is_eol x end).
  - by destruct (before c).
  - by destruct (after c).
Qed.

Lemma rx_at_local r c1 c2 : looks_back r = false → after c1 = after c2 →
  prod_map after id <$> rx_at r c1 = prod_map after id <$> rx_at r c2.
Proof.
  intros Hl Hc. unfold rx_at. rewrite !rmatch_map. apply rmatch_agree; [done | | done].
  intros a b cs Hab. cbn. by rewrite Hab.
Qed.

Lemma segments_local r fuel1 fuel2 c1 c2 : looks_back r = false → after c1 = after c2 →
  (length (after c1) < fuel1)%nat → (length (after c1) < fuel2)%nat →
  segments_from fuel1 r c1 = segments_from fuel2 r c2.
Proof.
  intros Hl. revert fuel2 c1 c2. induction fuel1 as [|fuel1 IH]; [lia |].
  intros [|fuel2] c1 c2 Hc H1 H2; [lia |]. cbn.
  pose proof (rx_at_local r c1 c2 Hl Hc) as Hr. unfold between_cursors.
  assert (∀ x s, after c1 = x :: s →
    segments_from fuel1 r (advance c1) = segments_from fuel2 r (advance c2)) as Hadv.
  { intros x s Hs. destruct (advance_moved c1 x s Hs) as [Ha1 _].
    destruct (advance_moved c2 x s ltac:(by rewrite <- Hc)) as [Ha2 _].
    assert (after (advance c1) = after (advance c2)) as Ha
      by (rewrite <- Hc, Ha1 in Ha2; by injection Ha2).
    apply IH; [done | rewrite Ha1 in H1, H2; cbn in *; lia..]. }
  destruct (rx_at r c1) as [[c1' cs1]|] eqn:Hm1, (rx_at r c2) as [[c2' cs2]|] eqn:Hm2; try done.
  - injection Hr as Ha ->. rewrite <- Hc, <- Ha.
    destruct (Nat.eqb_spec (length (after c1')) (length (after c1))).
    + destruct (after c1) as [|x s] eqn:Hs; [done |]. by erewrite Hadv.
    + apply rx_at_moved, moved_length in Hm1. f_equal. apply IH; [done | lia..].
  - rewrite <- Hc. destruct (after c1) as [|x s] eqn:Hs; [done |]. by erewrite Hadv.
Qed.

(** The equations of [segments], for an expression that does not look behind. *)
Lemma segments_miss r x s : looks_back r = false →
  rx_at r (at_start (x :: s)) = None → segments r (x :: s) = Plain [x] :: segments r s.
Proof.
  intros Hl Hr. unfold segments. change (length (x :: s)) with (S (length s)).
  remember (S (length s)) as n eqn:Hn. cbn [segments_from]. rewrite Hr. cbn [after at_start].
  f_equal. apply segments_local; [done | done | cbn; lia..].
Qed.

Lemma segments_hit r s c' cs : looks_back r = false →
  rx_at r (at_start s) = Some (c', cs) → length (after c') ≠ length s →
  segments r s = Hit (between_cursors (at_start s) c') cs :: segments r (after c').
Proof.
  intros Hl Hr Hlen. unfold segments. remember (segments_from _ r (at_start (after c'))) as rest.
  cbn [segments_from]. rewrite Hr. cbn [after at_start]. subst rest.
  apply rx_at_moved, moved_length in Hr as Hm. cbn in Hm.
  rewrite (proj2 (Nat.eqb_neq _ _) Hlen). f_equal. apply segments_local; [done | done | cbn; lia..].
Qed.

Lemma segments_nil r : rx_at r (at_start []) = None → segments r [] = [].
Proof. intros Hr. unfold segments. cbn. by rewrite Hr. Qed.

(** ** Literals *)

Definition lits (p : text) : rx := rseq ((λ x, RChar (this x)) <$> p).

Lemma lits_looks p : looks_back (lits p) = false.
Proof. by induction p. Qed.

Lemma rmatch_lits {X : Type} p (k : cursor → captures → option X) c cs :
  rmatch (lits p) k c cs = match step_over p c with Some c' => k c' cs | None => None end.
Proof.
  revert c. induction p as [|x p IH]; intros c; [done |]. cbn [lits rseq foldr fmap list_fmap rmatch].
  cbn [step_over]. destruct (step c) as [[y c']|]; [| done]. unfold this.
  destruct (N.eqb x y); [apply IH | done].
Qed.

Lemma step_over_prefix p s : after <$> step_over p (at_start (p ++ s)) = Some s.
Proof.
  unfold at_start. generalize (@nil N) as b. induction p as [|x p IH]; intros b; [done |].
  cbn. rewrite N.eqb_refl. apply IH.
Qed.

(** [s.replace(p, q)] for all occurrences of a text. *)
Definition replace_lit (p q : text) (s : text) : text := replace (lits p) (λ _ _, q) s.

Lemma replace_lit_hit p q s : p ≠ [] → replace_lit p q (p ++ s) = q ++ replace_lit p q s.
Proof.
  intros Hp. unfold replace_lit, replace. pose proof (step_over_prefix p s) as Hs.
  destruct (step_over p (at_start (p ++ s))) as [c'|] eqn:Hc; [| done]. injection Hs as Hs.
  rewrite (segments_hit _ _ c' []); [| apply lits_looks | |].
  - cbn. by rewrite Hs.
  - unfold rx_at. by rewrite rmatch_lits, Hc.
  - rewrite Hs, length_app. destruct p; [done | cbn; lia].
Qed.

Lemma replace_lit_miss p q x s :
  ¬ p `prefix_of` (x :: s) → replace_lit p q (x :: s) = x :: replace_lit p q s.
Proof.
  intros Hp. unfold replace_lit, replace. rewrite segments_miss; [done | apply lits_looks |].
  unfold rx_at. rewrite rmatch_lits. destruct (step_over p _) as [c'|] eqn:Hc; [| done].
  exfalso. apply Hp. apply step_over_moved in Hc as [Ha _]. by exists (after c').
Qed.

Lemma replace_lit_nil p q : p ≠ [] → replace_lit p q [] = [].
Proof. intros Hp. unfold replace_lit, replace. rewrite segments_nil; [done |]. by destruct p. Qed.

#[global] Arguments replace_lit : simpl never.
#[global] Arguments replace : simpl never.
#[global] Arguments segments : simpl never.
#[global] Arguments search : simpl never.
#[global] Arguments test : simpl never.

(** ** Expressions that need a unit *)

(** Every match contains one of the units of [us]. *)
Definition needs (us : list N) (r : rx) : Prop :=
  ∀ X (k : cursor → captures → option X) c cs,
    (∀ x, x ∈ us → x ∉ after c) → rmatch r k c cs = None.

Lemma needs_seq_l us r1 r2 : needs us r1 → needs us (RSeq r1 r2).
Proof. intros H X k c cs Hc. by apply H. Qed.

Lemma needs_seq_r us r1 r2 : needs us r2 → needs us (RSeq r1 r2).
Proof.
  intros H X k c cs Hc. cbn. destruct (rmatch r1 _ c cs) eqn:Hr; [| done].
  apply rmatch_forward in Hr as (t & c' & cs' & [Ha _] & Hr).
  rewrite H in Hr; [done |]. intros y Hy Hin. apply (Hc y Hy). rewrite Ha. set_solver.
Qed.

Lemma needs_alt us r1 r2 : needs us r1 → needs us r2 → needs us (RAlt r1 r2).
Proof. intros H1 H2 X k c cs Hc. cbn. by rewrite H1, H2. Qed.

Lemma needs_this us u : u ∈ us → needs us (RChar (this u)).
Proof.
  intros Hu X k c cs Hc. cbn. unfold step. destruct (after c) as [|y s] eqn:Hs; [done |].
  unfold this. destruct (N.eqb_spec u y) as [-> |]; [| done]. exfalso. apply (Hc y Hu). left.
Qed.

Lemma needs_one_of us l : l ⊆ us → needs us (RChar (one_of l)).
Proof.
  intros Hl X k c cs Hc. cbn. unfold step. destruct (after c) as [|y s] eqn:Hs; [done |].
  destruct (one_of l y) eqn:Hy; [| done]. unfold one_of in Hy. apply existsb_exists in Hy as (z & Hz & ->%N.eqb_eq).
  exfalso. apply (Hc z); [by apply Hl, list_elem_of_In | left].
Qed.

Lemma replace_absent us r f s : needs us r → (∀ x, x ∈ us → x ∉ s) → replace r f s = s.
Proof.
  intros Hr Hs. unfold replace, segments. 
  assert (∀ fuel c, (∀ x, x ∈ us → x ∉ after c) →
    segments_from fuel r c ≫= replace_with f = after c) as Hgen; [| by apply Hgen].
  clear s Hs. intros fuel. induction fuel as [|fuel IH]; intros c Hc; cbn; [by rewrite app_nil_r |].
  assert (rx_at r c = None) as -> by (by apply Hr). destruct (after c) as [|x s] eqn:Hs; [done |].
  cbn. destruct (advance_moved c x s Hs) as [Ha _]. rewrite Hs in Ha. injection Ha as Ha.
  rewrite IH; [by rewrite <- Ha |]. intros y Hy. rewrite <- Ha. specialize (Hc y Hy). set_solver.
Qed.
