(* ===== verification/Hex.v ===== *)
(** * Bytes and their hexadecimal form

    [Buffer.from(b).toString('hex')] and [Buffer.from(s, 'hex')] of Node: what
    the keys, nonces and ciphertexts of the gateway are stored and sent as. *)

From Stdlib Require Import Ascii String.
From S2P Require Import Prelude Rx.

Open Scope string_scope.
Open Scope list_scope.
Open Scope Z_scope.

Abbreviation bytes := (list N).

Definition hex_digit (n : N) : ascii := ascii_of_N (if n <? 10 then 48 + n else 87 + n)%N.

(** [Buffer.from(b).toString('hex')] *)
Fixpoint to_hex (b : bytes) : string :=
  match b with
  | [] => ""
  | x :: b' => String (hex_digit (x / 16)) (String (hex_digit (x mod 16)) (to_hex b'))
  end%N.

Definition hex_value (c : ascii) : option N :=
  let x := N_of_ascii c in
  if in_range 48 57 x then Some (x - 48)%N
  else if in_range 97 102 x then Some (x - 87)%N
  else if in_range 65 70 x then Some (x - 55)%N
  else None.

(** [Buffer.from(s, 'hex')] stops at the first pair that is none. *)
Fixpoint from_hex (s : string) : bytes :=
  match s with
  | String c (String d s') =>
      match hex_value c, hex_value d with
      | Some x, Some y => (16 * x + y)%N :: from_hex s'
      | _, _ => []
      end
  | _ => []
  end.

(** ** Lemmas *)

Lemma hex_value_digit n : (n < 16)%N → hex_value (hex_digit n) = Some n.
Proof.
  intros Hn.
  assert (Forall (λ n, hex_value (hex_digit n) = Some n) (N.of_nat <$> seq 0 16)) as H.
  { refine (bool_decide_unpack _ _). vm_compute. exact I. }
  apply (proj1 (list.Forall_forall _ _) H), list_elem_of_fmap. exists (N.to_nat n).
  split; [lia | apply list_elem_of_In, in_seq; lia].
Qed.

Lemma from_to_hex b : Forall (λ x, (x < 256)%N) b → from_hex (to_hex b) = b.
Proof.
  induction 1 as [|x b Hx _ IH]; [done |]. cbn [to_hex from_hex].
  rewrite !hex_value_digit by (apply N.mod_lt || apply N.Div0.div_lt_upper_bound; lia).
  rewrite IH. f_equal. pose proof (N.div_mod' x 16). lia.
Qed.

Lemma to_hex_length b : String.length (to_hex b) = (2 * length b)%nat.
Proof. induction b as [|x b IH]; [done |]. cbn [to_hex String.length length]. rewrite IH. lia. Qed.
