(* ===== verification/Utf8.v ===== *)
(** * UTF-8

    [Buffer.from(s)] and [buffer.toString()] of Node, between the texts of the
    language and the bytes that go over a socket.  Bytes that are no UTF-8
    decode to replacement characters, one for each longest start of a
    character that is not continued. *)

From Stdlib Require Import Ascii String.
From S2P Require Import Prelude Text Rx Hex.

Open Scope string_scope.
Open Scope list_scope.
Open Scope N_scope.

(** ** Surrogates *)

Definition high_surrogate (x : N) : bool := in_range 55296 56319 x.
Definition low_surrogate (x : N) : bool := in_range 56320 57343 x.

(** A text of whole characters: no half of a surrogate pair on its own. *)
Fixpoint whole (t : text) : bool :=
  match t with
  | [] => true
  | x :: t' =>
      if high_surrogate x then match t' with y :: t'' => low_surrogate y && whole t'' | [] => false end
      else negb (low_surrogate x) && (x <? 65536) && whole t'
  end.

(** ** Encoding *)

(** The code point of a pair, and the pair of a code point. *)
Definition pair_point (x y : N) : N := 65536 + (x - 55296) * 1024 + (y - 56320).
Definition point_units (p : N) : text :=
  if p <? 65536 then [p] else [55296 + (p - 65536) / 1024; 56320 + (p - 65536) mod 1024].

(** U+FFFD, as a unit and in UTF-8. *)
Definition replacement : N := 65533.
Definition replacement_bytes : bytes := [239; 191; 189].

(** [Buffer.from(s)] *)
Fixpoint utf8_encode (t : text) : bytes :=
  match t with
  | [] => []
  | x :: t' =>
      if x <? 128 then x :: utf8_encode t'
      else if x <? 2048 then 192 + x / 64 :: 128 + x mod 64 :: utf8_encode t'
      else if high_surrogate x then
        match t' with
        | y :: t'' =>
            if low_surrogate y then
              let p := pair_point x y in
              240 + p / 262144 :: 128 + p / 4096 mod 64 :: 128 + p / 64 mod 64 :: 128 + p mod 64 ::
                utf8_encode t''
            else replacement_bytes ++ utf8_encode t'
        | [] => replacement_bytes
        end
      else if low_surrogate x then replacement_bytes ++ utf8_encode t'
      else 224 + x / 4096 :: 128 + x / 64 mod 64 :: 128 + x mod 64 :: utf8_encode t'
  end.

(** ** Decoding *)

Definition trail (b : N) : bool := in_range 128 191 b.

(** The second byte after the first one: what a shorter form could hold, a
    surrogate and what is beyond the last code point are excluded here. *)
Definition second (b1 b2 : N) : bool :=
  if b1 =? 224 then in_range 160 191 b2
  else if b1 =? 237 then in_range 128 159 b2
  else if b1 =? 240 then in_range 144 191 b2
  else if b1 =? 244 then in_range 128 143 b2
  else trail b2.

(** [buffer.toString()] *)
Fixpoint utf8_decode (b : bytes) : text :=
  match b with
  | [] => []
  | b1 :: r1 =>
      if b1 <? 128 then b1 :: utf8_decode r1
      else if in_range 194 244 b1 then
        match r1 with
        | [] => [replacement]
        | b2 :: r2 =>
            if negb (second b1 b2) then replacement :: utf8_decode r1
            else if b1 <? 224 then (b1 - 192) * 64 + (b2 - 128) :: utf8_decode r2
            else
              match r2 with
              | [] => [replacement]
              | b3 :: r3 =>
                  if negb (trail b3) then replacement :: utf8_decode r2
                  else if b1 <? 240 then
                    (b1 - 224) * 4096 + (b2 - 128) * 64 + (b3 - 128) :: utf8_decode r3
                  else
                    match r3 with
                    | [] => [replacement]
                    | b4 :: r4 =>
                        if negb (trail b4) then replacement :: utf8_decode r3
                        else point_units ((b1 - 240) * 262144 + (b2 - 128) * 4096 + (b3 - 128) * 64 +
                                          (b4 - 128)) ++ utf8_decode r4
                    end
              end
        end
      else replacement :: utf8_decode r1
  end.

(** ** Lemmas *)

Lemma in_range_true lo hi x : in_range lo hi x = true ↔ lo <= x <= hi.
Proof. unfold in_range. rewrite andb_true_iff, !N.leb_le. done. Qed.

Lemma in_range_false lo hi x : in_range lo hi x = false ↔ x < lo ∨ hi < x.
Proof. unfold in_range. rewrite andb_false_iff, !N.leb_gt. done. Qed.

(** Inequalities over the quotients and remainders of a code point. *)
Ltac digits := intros; zify; Z.to_euclidean_division_equations; lia.

Ltac in_range_decide :=
  repeat match goal with
  | |- context [in_range ?lo ?hi ?x] =>
      first [ rewrite (proj2 (in_range_true lo hi x)) by digits
            | rewrite (proj2 (in_range_false lo hi x)) by digits ]
  | |- context [?x <? ?y] =>
      first [ rewrite (proj2 (N.ltb_lt x y)) by digits | rewrite (proj2 (N.ltb_ge x y)) by digits ]
  end.

Lemma second_of b1 b2 : 128 <= b2 <= 191 →
  (b1 = 224 → 160 <= b2) → (b1 = 237 → b2 <= 159) → (b1 = 240 → 144 <= b2) → (b1 = 244 → b2 <= 143) →
  second b1 b2 = true.
Proof.
  intros Hb H1 H2 H3 H4. unfold second, trail.
  repeat case_match; rewrite ?N.eqb_eq in *; apply in_range_true; auto with lia.
Qed.

(** One character of each length. *)
Lemma decode_two x b : 128 <= x < 2048 →
  utf8_decode (192 + x / 64 :: 128 + x mod 64 :: b) = x :: utf8_decode b.
Proof.
  intros Hx. cbn [utf8_decode]. rewrite (second_of (192 + x / 64)) by digits. cbn [negb]. in_range_decide.
  f_equal. digits.
Qed.

Lemma decode_three x b : 2048 <= x < 65536 → x < 55296 ∨ 57343 < x →
  utf8_decode (224 + x / 4096 :: 128 + x / 64 mod 64 :: 128 + x mod 64 :: b) = x :: utf8_decode b.
Proof.
  intros Hx Hs. cbn [utf8_decode]. unfold trail.
  rewrite (second_of (224 + x / 4096)) by digits. cbn [negb]. in_range_decide. cbn [negb]. f_equal. digits.
Qed.

Lemma decode_four p b : 65536 <= p < 1114112 →
  utf8_decode (240 + p / 262144 :: 128 + p / 4096 mod 64 :: 128 + p / 64 mod 64 :: 128 + p mod 64 :: b) =
  point_units p ++ utf8_decode b.
Proof.
  intros Hp. cbn [utf8_decode]. unfold trail.
  rewrite (second_of (240 + p / 262144)) by digits. cbn [negb]. in_range_decide. cbn [negb]. do 2 f_equal. digits.
Qed.

Lemma pair_units x y : high_surrogate x = true → low_surrogate y = true →
  65536 <= pair_point x y < 1114112 ∧ point_units (pair_point x y) = [x; y].
Proof.
  unfold high_surrogate, low_surrogate. rewrite !in_range_true. intros Hx Hy. unfold pair_point, point_units.
  split; [lia |]. in_range_decide. repeat f_equal; digits.
Qed.

(** Whole characters come back, whatever follows them. *)
Lemma decode_encode_app t b : whole t = true → utf8_decode (utf8_encode t ++ b) = t ++ utf8_decode b.
Proof.
  induction t as [t IH] using (induction_ltof1 _ length). destruct t as [|x t]; [done |].
  unfold ltof in IH. cbn [whole utf8_encode]. destruct (high_surrogate x) eqn:Hx.
  - destruct t as [|y t]; [done |]. intros [Hy Ht]%andb_true_iff. rewrite Hy.
    pose proof Hx as Hr. unfold high_surrogate in Hr. rewrite in_range_true in Hr.
    destruct (pair_units x y Hx Hy) as [Hp Hu]. in_range_decide. cbn zeta. rewrite <- !app_comm_cons.
    rewrite decode_four, Hu, IH; [done | cbn; lia | done | done].
  - rewrite !andb_true_iff, negb_true_iff, N.ltb_lt. intros [[Hl Hx'] Ht]. rewrite Hl.
    apply in_range_false in Hx. apply in_range_false in Hl.
    destruct (N.ltb_spec x 128); [| destruct (N.ltb_spec x 2048)]; rewrite <- !app_comm_cons.
    + cbn [utf8_decode]. in_range_decide. rewrite IH; [done | cbn; lia | done].
    + rewrite decode_two, IH; [done | cbn; lia | done | lia].
    + rewrite decode_three, IH; [done | cbn; lia | done | lia | lia].
Qed.

Lemma decode_encode t : whole t = true → utf8_decode (utf8_encode t) = t.
Proof. intros Ht. by rewrite <- (app_nil_r (utf8_encode t)), decode_encode_app, app_nil_r. Qed.

Lemma encode_nil t : utf8_encode t = [] → t = [].
Proof. destruct t as [|x t]; [done |]. cbn. repeat case_match; done. Qed.

(** The bytes of whole texts one after the other. *)
Lemma encode_app t u : whole t = true → utf8_encode (t ++ u) = utf8_encode t ++ utf8_encode u.
Proof.
  induction t as [t IH] using (induction_ltof1 _ length). destruct t as [|x t]; [done |].
  unfold ltof in IH. cbn [whole utf8_encode app]. destruct (high_surrogate x) eqn:Hx.
  - destruct t as [|y t]; [done |]. intros [Hy Ht]%andb_true_iff. cbn [app]. rewrite Hy.
    rewrite (IH t) by (cbn; (lia || done)).
    apply in_range_true in Hx. in_range_decide. done.
  - rewrite !andb_true_iff, negb_true_iff. intros [[Hl _] Ht]. rewrite Hl, (IH t) by (cbn; (lia || done)).
    repeat case_match; done.
Qed.
