(* ===== verification/Links.v ===== *)
(** * Links and markup in the text of a notification

    [src/common/utils/link-parser.ts]: markdown links and their conversion to
    HTML, the escaping of HTML, the plain text of an SMS, and the
    substitution of template variables.  Each regular expression of the
    source is an [rx], run by the matcher of [Rx]. *)

From S2P Require Import Prelude Text Rx.

Open Scope string_scope.
Open Scope list_scope.
Open Scope Z_scope.

(** ** Links *)

Inductive LinkType := LImage | LVideo | LUrl.

Record ParsedLink := {
  pl_label : text;
  pl_url : text;
  pl_startIndex : nat;
  pl_endIndex : nat;
  pl_linkType : LinkType;
}.

(** [/\[([^\]]+)\]\(([^)]+)\)/g] *)
Definition MARKDOWN_LINK_REGEX : rx := rseq [
  RChar (this 91%N); RGroup 1 (rplus true (RChar (none_of [93%N]))); RChar (this 93%N);
  RChar (this 40%N); RGroup 2 (rplus true (RChar (none_of [41%N]))); RChar (this 41%N)].

Definition rwords_i (w : string) (ws : list string) : rx := ralt (rlit_i w) (rlit_i <$> ws).

(** [(?:[?#]|$)] *)
Definition url_tail : rx := RAlt (RChar (one_of [63; 35]%N)) REnd.
Definition IMAGE_EXTENSIONS : rx := rseq [
  rlit_i "."; rwords_i "jpg" ["jpeg"; "png"; "gif"; "webp"; "svg"; "ico"; "bmp"]; url_tail].
Definition VIDEO_EXTENSIONS : rx := rseq [
  rlit_i "."; rwords_i "mp4" ["webm"; "mov"; "avi"; "mkv"; "flv"]; url_tail].

(** [^(https?:\/\/)?(sub\.)?host]; the anchor belongs to the first
    alternative only. *)
Definition anchored_host (sub host : string) : rx := rseq [
  RStart; ropt (rseq [rlit_i "http"; ropt (rlit_i "s"); rlit_i "://"]); ropt (rlit_i sub);
  rlit_i host].
Definition IMAGE_DOMAINS : rx := ralt (anchored_host "i." "imgur.com")
  [rlit_i "cdn.dialect.so"; rlit_i "images.unsplash.com"; rlit_i "media.giphy.com"].
Definition VIDEO_DOMAINS : rx := ralt (anchored_host "player." "youtube.com")
  [rlit_i "cdn.dialect.so"; rlit_i "v.imeo.com"; rlit_i "media.giphy.com"].

(** [toLowerCase]: the ASCII letters, and the two other units whose lower
    case has an ASCII letter, which is all the expressions look at. *)
Definition lower_case (x : N) : text :=
  if N.eqb x 8490 then [107%N] else if N.eqb x 304 then [105; 775]%N else [lower_unit x].
Definition toLowerCase (s : text) : text := s ≫= lower_case.

Definition detectLinkType (url : text) : LinkType :=
  let lowerUrl := toLowerCase url in
  if test IMAGE_EXTENSIONS lowerUrl || test IMAGE_DOMAINS lowerUrl then LImage
  else if test VIDEO_EXTENSIONS lowerUrl || test VIDEO_DOMAINS lowerUrl then LVideo
  else LUrl.

Definition link_of (i : nat) (t : text) (cs : captures) : ParsedLink :=
  let url := default [] (capture 2 cs) in {|
  pl_label := default [] (capture 1 cs); pl_url := url; pl_startIndex := i;
  pl_endIndex := i + length t; pl_linkType := detectLinkType url |}.

(** The loop over [regex.exec(text)], from index [i] on. *)
Fixpoint links_from (i : nat) (gs : list segment) : list ParsedLink :=
  match gs with
  | [] => []
  | Plain t :: gs' => links_from (i + length t) gs'
  | Hit t cs :: gs' => link_of i t cs :: links_from (i + length t) gs'
  end.

Record ParseMarkdownLinksResult := { pm_cleanText : text; pm_links : list ParsedLink }.

Definition parseMarkdownLinks (s : text) : ParseMarkdownLinksResult := {|
  pm_cleanText := replace MARKDOWN_LINK_REGEX group1 s;
  pm_links := links_from 0 (segments MARKDOWN_LINK_REGEX s) |}.

(** ** Escaping *)

Definition AMP : N := 38.

(** The replacements of [escapeHtml], in order; of each, what it replaces and
    by what.  [&] goes first, so no replacement meets another's result. *)
Definition ENTITIES : list (N * text) := [
  (AMP, units "&amp;"); (60%N, units "&lt;"); (62%N, units "&gt;");
  (34%N, units "&quot;"); (39%N, units "&#039;")].

Definition escapeHtml (s : text) : text :=
  foldl (λ s e, replace_lit [e.1] e.2 s) s ENTITIES.
Definition unescapeHtml (s : text) : text :=
  foldl (λ s e, replace_lit e.2 [e.1] s) s ENTITIES.

(** ** HTML *)

Definition Q : text := [34%N].

Definition renderHtmlElement (link : ParsedLink) : text :=
  let safeUrl := escapeHtml (pl_url link) in
  let safeLabel := escapeHtml (pl_label link) in
  let anchor inner := units "<a href=" ++ Q ++ safeUrl ++ Q ++ units ">" ++ inner ++ units "</a>" in
  match pl_linkType link with
  | LImage => anchor (units "<img src=" ++ Q ++ safeUrl ++ Q ++ units " alt=" ++ Q ++ safeLabel ++
      Q ++ units " style=" ++ Q ++ units "max-width:100%;height:auto;" ++ Q ++ units " />")
  | LVideo | LUrl => anchor safeLabel
  end.

(** [sort((a, b) => b.startIndex - a.startIndex)], which is stable. *)
Fixpoint insert_desc (l : ParsedLink) (ls : list ParsedLink) : list ParsedLink :=
  match ls with
  | [] => [l]
  | l' :: ls' =>
      if (pl_startIndex l' <=? pl_startIndex l)%nat then l :: ls else l' :: insert_desc l ls'
  end.
Definition sort_desc (ls : list ParsedLink) : list ParsedLink := foldr insert_desc [] ls.

(** One turn of the loop: [before + htmlElement + after]. *)
Definition splice (s : text) (link : ParsedLink) : text :=
  take (pl_startIndex link) s ++ renderHtmlElement link ++ drop (pl_endIndex link) s.

Definition convertLinksToHtml (s : text) (links : list ParsedLink) : text :=
  match links with
  | [] => s
  | _ => foldl splice s (sort_desc links)
  end.

Record MediaLinks := { ml_images : list text; ml_videos : list text; ml_normalLinks : list ParsedLink }.

Definition extract_step (m : MediaLinks) (l : ParsedLink) : MediaLinks :=
  match pl_linkType l with
  | LImage => m <| ml_images ::= λ x, x ++ [pl_url l] |>
  | LVideo => m <| ml_videos ::= λ x, x ++ [pl_url l] |>
  | LUrl => m <| ml_normalLinks ::= λ x, x ++ [l] |>
  end.
Definition extractMediaLinks (links : list ParsedLink) : MediaLinks :=
  foldl extract_step {| ml_images := []; ml_videos := []; ml_normalLinks := [] |} links.

(** ** Escaping and back *)

(** What a table of replacements makes of one unit. *)
Definition entity (tbl : list (N * text)) (x : N) : text :=
  default [x] (snd <$> List.find (λ e, N.eqb e.1 x) tbl).

#[global] Arguments entity : simpl never.

(** The text of an entity: an ampersand, a name, a semicolon. *)
Definition entity_text (t : text) : Prop :=
  ∃ b, t = AMP :: b ++ [59%N] ∧ AMP ∉ b ∧ 59%N ∉ b.

Lemma entity_prefix t1 t2 s : entity_text t1 → entity_text t2 → t1 `prefix_of` t2 ++ s → t1 = t2.
Proof.
  intros (b1 & -> & Ha1 & Hs1) (b2 & -> & Ha2 & Hs2) [r Hr]. f_equal. f_equal.
  cbn in Hr. injection Hr as Hr. rewrite <- !app_assoc in Hr. cbn in Hr.
  revert b2 Ha2 Hs2 Hr. induction b1 as [|x b1 IH]; intros [|y b2] Ha2 Hs2 Hr; cbn in Hr; simplify_eq.
  - done.
  - exfalso. apply Hs2. left.
  - exfalso. apply Hs1. left.
  - f_equal. by apply IH; [set_solver.. | ].
Qed.

Lemma entity_cases tbl x : Forall (λ e, entity_text e.2) tbl →
  entity tbl x = [x] ∨ (entity_text (entity tbl x) ∧ entity tbl x ∈ tbl.*2).
Proof.
  intros Htbl. unfold entity. destruct (List.find _ tbl) as [[y t]|] eqn:Hf; cbn; [right | by left].
  apply List.find_some in Hf as [Hin _]. apply list_elem_of_In in Hin. split.
  - by apply (proj1 (list.Forall_forall _ _) Htbl) in Hin.
  - apply list_elem_of_fmap. by exists (y, t).
Qed.

Lemma entity_cons_ne u t tbl x : u ≠ x → entity ((u, t) :: tbl) x = entity tbl x.
Proof. intros Hx. unfold entity. cbn. by apply N.eqb_neq in Hx as ->. Qed.

Lemma entity_cons_eq u t tbl : entity ((u, t) :: tbl) u = t.
Proof. unfold entity. cbn. by rewrite N.eqb_refl. Qed.

Lemma entity_not_in tbl x : x ∉ tbl.*1 → entity tbl x = [x].
Proof.
  intros Hx. unfold entity. destruct (List.find _ tbl) as [[y t]|] eqn:Hf; [| done].
  apply List.find_some in Hf as [Hin Hy]. cbn in Hy. apply N.eqb_eq in Hy as ->.
  apply list_elem_of_In in Hin. exfalso. apply Hx, list_elem_of_fmap. by exists (x, t).
Qed.

(** What a table writes starts with an ampersand: a text without one can only
    occur where it was. *)
Lemma body_prefix tbl b s : Forall (λ e, entity_text e.2) tbl → AMP ∉ b →
  b `prefix_of` (s ≫= entity tbl) → b `prefix_of` s.
Proof.
  intros Htbl. revert s. induction b as [|x b IH]; intros s Hb Hp; [apply prefix_nil |].
  destruct s as [|y s]; [by apply prefix_nil_not in Hp |]. cbn in Hp.
  destruct (entity_cases tbl y Htbl) as [He | [(b' & He & _) _]]; rewrite He in Hp; cbn in Hp.
  - apply prefix_cons_inv_1 in Hp as Hxy. subst y. apply prefix_cons, IH; [set_solver |].
    by apply prefix_cons_inv_2 in Hp.
  - apply prefix_cons_inv_1 in Hp as ->. set_solver.
Qed.

Section stage.
Context (u : N) (ent : text) (tbl : list (N * text)).
Context (Hent : entity_text ent) (Htbl : Forall (λ e, entity_text e.2) tbl).
Context (Hdiff : ent ∉ tbl.*2) (Hu : u ∉ tbl.*1).

Lemma skip_block t s q : AMP ∉ t → replace_lit ent q (t ++ s) = t ++ replace_lit ent q s.
Proof.
  destruct Hent as (b & -> & _ & _). induction t as [|x t IH]; intros Ht; [done |]. cbn [app].
  rewrite replace_lit_miss; [f_equal; apply IH; set_solver |].
  intros Hp%prefix_cons_inv_1. set_solver.
Qed.

(** No occurrence of the entity in the text itself. *)
Definition free (s : text) : Prop := ∀ s1 s2, s ≠ s1 ++ ent ++ s2.

(** One replacement of [unescapeHtml] undoes one of [escapeHtml]. *)
Lemma unescape_stage s : u = AMP ∨ (AMP ∉ tbl.*1 ∧ free s) →
  replace_lit ent [u] (s ≫= entity ((u, ent) :: tbl)) = s ≫= entity tbl.
Proof.
  assert (ent ≠ []) as Hne by (by destruct Hent as (? & -> & _)).
  induction s as [|x s IH]; intros Hs; [by apply replace_lit_nil |]. cbn.
  assert (u = AMP ∨ (AMP ∉ tbl.*1 ∧ free s)) as Hs'.
  { destruct Hs as [| [Ha Hf]]; [by left | right]. split; [done |].
    intros s1 s2 ->. by apply (Hf (x :: s1) s2). }
  specialize (IH Hs'). destruct (N.eq_dec u x) as [<- | Hx].
  { by rewrite entity_cons_eq, (entity_not_in tbl u Hu), replace_lit_hit, IH. }
  rewrite entity_cons_ne by done.
  destruct (entity_cases tbl x Htbl) as [He | [Hb Hin]]; cycle 1.
  - destruct Hb as (b & Hb & Hba & Hbs). rewrite Hb. cbn.
    rewrite replace_lit_miss; [f_equal; rewrite skip_block, IH; set_solver |].
    intros Hp. apply Hdiff. replace ent with (entity tbl x); [done |]. symmetry.
    eapply entity_prefix; [done | by exists b | rewrite Hb; exact Hp].
  - rewrite He. cbn. rewrite replace_lit_miss, IH; [done |]. intros Hp.
    pose proof Hent as (b & Hb & Hba & _). rewrite Hb in Hp.
    apply prefix_cons_inv_1 in Hp as Hxa. subst x. destruct Hs as [-> | [Ha Hf]]; [done |].
    apply prefix_cons_inv_2, body_prefix in Hp as [r ->].
    + apply (Hf [] r). by rewrite Hb.
    + constructor; [cbn; by rewrite <- Hb | done].
    + intros [? | Hx59%list_elem_of_singleton]%elem_of_app; done.
Qed.
End stage.

Lemma entities_ok : Forall (λ e, entity_text e.2) ENTITIES.
Proof.
  repeat constructor; cbn;
    [exists (units "amp") | exists (units "lt") | exists (units "gt") | exists (units "quot")
    | exists (units "#039")]; (split_and!; [done | vm_compute; set_solver..]).
Qed.

Lemma entity_snoc_ne tbl u ent x : u ≠ x → entity (tbl ++ [(u, ent)]) x = entity tbl x.
Proof.
  intros Hx. induction tbl as [|[y t] tbl IH]; cbn [app]; [by rewrite entity_cons_ne |].
  destruct (N.eq_dec y x) as [-> | Hy]; [by rewrite !entity_cons_eq | by rewrite !entity_cons_ne].
Qed.

Lemma entity_snoc_eq tbl u ent : u ∉ tbl.*1 → entity (tbl ++ [(u, ent)]) u = ent.
Proof.
  induction tbl as [|[y t] tbl IH]; cbn [app fmap list_fmap fst]; intros Hu.
  - apply entity_cons_eq.
  - rewrite entity_cons_ne by set_solver. apply IH. set_solver.
Qed.

Lemma entity_free tbl u x : Forall (λ e, u ∉ e.2) tbl → x ≠ u → u ∉ entity tbl x.
Proof.
  intros Hw Hx. unfold entity. destruct (List.find _ tbl) as [[y t]|] eqn:Hf; cbn; [| set_solver].
  apply List.find_some in Hf as [Hin _]. apply list_elem_of_In in Hin.
  by apply (proj1 (list.Forall_forall _ _) Hw) in Hin.
Qed.

Lemma replace_unit_skip u q t s : u ∉ t → replace_lit [u] q (t ++ s) = t ++ replace_lit [u] q s.
Proof.
  induction t as [|x t IH]; intros Hu; [done |]. cbn [app].
  rewrite replace_lit_miss; [f_equal; apply IH; set_solver |].
  intros Hp%prefix_cons_inv_1. set_solver.
Qed.

(** One replacement of [escapeHtml] extends the table by a unit that no
    earlier replacement writes. *)
Lemma escape_stage u ent tbl s : Forall (λ e, u ∉ e.2) tbl → u ∉ tbl.*1 →
  replace_lit [u] ent (s ≫= entity tbl) = s ≫= entity (tbl ++ [(u, ent)]).
Proof.
  intros Hw Hu. induction s as [|x s IH]; [by apply replace_lit_nil |]. cbn.
  destruct (N.eq_dec u x) as [<- | Hx].
  - rewrite entity_snoc_eq, (entity_not_in tbl u Hu) by done. by rewrite (replace_lit_hit [u]), IH.
  - rewrite entity_snoc_ne by done. rewrite replace_unit_skip, IH; [done |].
    by apply entity_free.
Qed.

(** [escapeHtml] unit by unit. *)
Lemma escapeHtml_units s : escapeHtml s = s ≫= entity ENTITIES.
Proof.
  unfold escapeHtml, ENTITIES. cbn [foldl fst snd].
  assert (s = s ≫= entity []) as Hs.
  { induction s as [|x s IH]; [done |]. cbn. by rewrite <- IH. }
  rewrite Hs at 1.
  rewrite !escape_stage; [done | ..]; vm_compute; repeat constructor; set_solver.
Qed.

Definition entity_names : list text := tail (ENTITIES.*2).

Lemma unescape_fold tbl s :
  Forall (λ e, entity_text e.2) tbl → NoDup tbl.*1 → NoDup tbl.*2 → AMP ∉ tbl.*1 →
  (∀ e, e ∈ tbl.*2 → free e s) →
  foldl (λ s e, replace_lit e.2 [e.1] s) (s ≫= entity tbl) tbl = s.
Proof.
  induction tbl as [|[u t] tbl IH]; intros Hok H1 H2 Ha Hf; cbn [foldl].
  - clear. induction s as [|x s IH]; [done |]. cbn. by rewrite IH.
  - cbn in *. apply list.Forall_cons in Hok as [Ht Hok].
    apply list.NoDup_cons in H1 as [Hu H1], H2 as [Ht2 H2].
    rewrite unescape_stage; [| done..|]; [| right; split; [set_solver |]; apply Hf; left].
    apply IH; [done..| set_solver |]. intros e He. apply Hf. by right.
Qed.

(** Escaping and unescaping HTML round-trip, unless the text already
    contains one of the entities of [< > double-quote quote] literally: such an
    entity comes back as the unit it names, because [unescapeHtml] undoes
    [&amp;] first and then meets it. *)
Theorem escape_roundtrip s :
  ((∀ e, e ∈ entity_names → free e s) → unescapeHtml (escapeHtml s) = s) ∧
  (∀ e, e ∈ entity_names → unescapeHtml (escapeHtml e) ≠ e).
Proof.
  split.
  - intros Hfree. rewrite escapeHtml_units. unfold unescapeHtml, ENTITIES. cbn [foldl fst snd].
    pose proof entities_ok as Hok. apply list.Forall_cons in Hok as [Hamp Hok].
    rewrite unescape_stage; [| done | done | vm_compute; set_solver | vm_compute; set_solver | by left].
    apply (unescape_fold (tail ENTITIES)); [done | | | vm_compute; set_solver | done];
      by apply (bool_decide_unpack _); vm_compute.
  - assert (forallb (λ e, negb (bool_decide (unescapeHtml (escapeHtml e) = e))) entity_names = true)
      as Hall by by vm_compute.
    rewrite forallb_forall in Hall. intros e He%list_elem_of_In He'%(bool_decide_eq_true_2 _).
    apply Hall in He. by rewrite He' in He.
Qed.

(** Whether a text occurs in another. *)
Definition occurs (e s : text) : bool :=
  existsb (λ i, bool_decide (e `prefix_of` drop i s)) (seq 0 (S (length s))).

Lemma occurs_free e s : occurs e s = false → free e s.
Proof.
  intros Ho s1 s2 ->. apply not_true_iff_false in Ho. apply Ho, existsb_exists.
  exists (length s1). split.
  - apply in_seq. rewrite length_app. lia.
  - apply bool_decide_eq_true. rewrite drop_app_length. by exists s2.
Qed.

Lemma escape_roundtrip_witness :
  unescapeHtml (escapeHtml (units "a < b & 'c'")) = units "a < b & 'c'".
Proof.
  apply (proj1 (escape_roundtrip (units "a < b & 'c'"))). intros e He. apply occurs_free.
  assert (forallb (λ e, negb (occurs e (units "a < b & 'c'"))) entity_names = true) as Hn
    by (vm_compute; reflexivity).
  rewrite forallb_forall in Hn. by apply negb_true_iff, Hn, list_elem_of_In.
Defined.

(** What [escapeHtml] writes has no markup: none of [< > double-quote quote],
    and an ampersand only at the start of an entity. *)
Definition MARKUP : list N := [60; 62; 34; 39]%N.

Lemma escapeHtml_neutral s x : x ∈ escapeHtml s → x ∉ MARKUP.
Proof.
  rewrite escapeHtml_units. intros (y & Hx & _)%list_elem_of_bind Hm.
  assert (forallb (λ x, forallb (λ e, negb (bool_decide (x ∈ e.2))) ENTITIES &&
    bool_decide (x ∈ ENTITIES.*1)) MARKUP = true) as Hall by (vm_compute; reflexivity).
  rewrite forallb_forall in Hall. specialize (Hall x (proj1 (list_elem_of_In _ _) Hm)).
  apply andb_true_iff in Hall as [Hw Hd%bool_decide_eq_true]. rewrite forallb_forall in Hw.
  destruct (decide (x = y)) as [-> | Hne].
  - unfold entity in Hx. destruct (List.find _ ENTITIES) as [[z t]|] eqn:Hf; cbn in Hx.
    + apply List.find_some in Hf as [Hin _]. specialize (Hw _ Hin). cbn in Hw.
      by rewrite (bool_decide_eq_true_2 _ Hx) in Hw.
    + apply list_elem_of_fmap in Hd as ([z t] & -> & Hin%list_elem_of_In).
      apply (List.find_none _ _ Hf) in Hin. cbn in Hin. by rewrite N.eqb_refl in Hin.
  - revert Hx. apply entity_free; [| done]. apply list.Forall_forall. intros e He%list_elem_of_In.
    specialize (Hw e He). by apply negb_true_iff, bool_decide_eq_false in Hw.
Qed.

(** ** What is a link *)

(** [label] and [url] at the start of a text that goes on with [rest]. *)
Definition link_text (label url rest : text) : text :=
  [91%N] ++ label ++ [93; 40]%N ++ url ++ [41%N] ++ rest.

#[global] Arguments link_text : simpl never.

Definition proper (c : N) (s : text) : Prop := s ≠ [] ∧ c ∉ s.

(** A non-empty run of a class, in a group, that what follows must leave. *)
Lemma group_run {X : Type} i p (k : cursor → captures → option X) c cs x :
  rmatch (RGroup i (rplus true (RChar p))) k c cs = Some x →
  (∀ c' cs' y s, after c' = y :: s → p y = true → k c' cs' = None) →
  ∃ t c', t ≠ [] ∧ t = while p (after c) ∧ moved t c c' ∧ k c' ((i, t) :: cs) = Some x.
Proof.
  intros Hr Hk. cbn in Hr. destruct (step c) as [[y c1]|] eqn:Hs; [| done].
  destruct (p y) eqn:Hy; [| done]. apply step_moved in Hs as Hm1.
  change (rmatch (RChar p)) with (rmatch (X := X) (RChar p)) in Hr.
  pose proof (star_class p (λ c' cs', k c' ((i, between_cursors c c') :: cs')) (length (after c1)) c1 cs
    ltac:(done)) as Hst.
  cbn [rmatch] in Hst. rewrite Hst in Hr; [| intros c' cs' z s Ha Hz; by eapply Hk].
  destruct (while_prefix p (after c1)) as (s' & Hs' & _).
  apply skip_moved in Hs' as Hm2. pose proof (moved_trans _ _ _ _ _ Hm1 Hm2) as Hm.
  exists (y :: while p (after c1)), (skip (while p (after c1)) c1). split_and!; [done | | exact Hm |].
  - destruct Hm1 as [-> _]. cbn. by rewrite Hy.
  - by rewrite (moved_between _ _ _ Hm) in Hr.
Qed.

Lemma while_none c s : proper c (while (none_of [c]) s) ∨ while (none_of [c]) s = [].
Proof.
  destruct (while _ s) as [|x t] eqn:Hw; [by right | left]. split; [done |].
  rewrite <- Hw. clear. induction s as [|x s IH]; cbn [while]; [set_solver |].
  destruct (none_of [c] x) eqn:Hx; [| set_solver].
  assert (x ≠ c) by (intros ->; unfold none_of in Hx; cbn in Hx; by rewrite N.eqb_refl in Hx).
  set_solver.
Qed.

Lemma none_of_other c x : none_of [c] x = true → x ≠ c.
Proof. intros Hx ->. unfold none_of in Hx. cbn in Hx. by rewrite N.eqb_refl in Hx. Qed.

(** A unit that must follow. *)
Lemma rmatch_this {X : Type} u r (k : cursor → captures → option X) c cs x :
  rmatch (RSeq (RChar (this u)) r) k c cs = Some x →
  ∃ c', moved [u] c c' ∧ rmatch r k c' cs = Some x.
Proof.
  cbn. destruct (step c) as [[y c']|] eqn:Hs; [| done]. unfold this.
  destruct (N.eqb_spec u y) as [-> |]; [| done]. intros Hr. exists c'. split; [| done].
  by apply step_moved.
Qed.

(** [exec] finds a proper link. *)
Lemma link_found c c' cs : rx_at MARKDOWN_LINK_REGEX c = Some (c', cs) →
  ∃ label url, after c = link_text label url (after c') ∧ proper 93 label ∧ proper 41 url ∧
    capture 1 cs = Some label ∧ capture 2 cs = Some url.
Proof.
  unfold rx_at, MARKDOWN_LINK_REGEX. cbn [rseq foldr]. intros Hr.
  apply rmatch_this in Hr as (c1 & Hm1 & Hr).
  change (rmatch (RSeq ?a ?b) ?k c1 []) with (rmatch a (rmatch b k) c1 []) in Hr.
  apply group_run in Hr as (label & c2 & Hne & Hl & Hm2 & Hr).
  2:{ intros d ds y s Hd Hy%none_of_other. destruct (rmatch _ _ d ds) eqn:Hk; [| done].
      apply rmatch_this in Hk as (d' & [Ha _] & _). rewrite Ha in Hd. by injection Hd as <- _. }
  apply rmatch_this in Hr as (c3 & Hm3 & Hr). apply rmatch_this in Hr as (c4 & Hm4 & Hr).
  change (rmatch (RSeq ?a ?b) ?k c4 ?cs0) with (rmatch a (rmatch b k) c4 cs0) in Hr.
  apply group_run in Hr as (url & c5 & Hne2 & Hu & Hm5 & Hr).
  2:{ intros d ds y s Hd Hy%none_of_other. destruct (rmatch _ _ d ds) eqn:Hk; [| done].
      apply rmatch_this in Hk as (d' & [Ha _] & _). rewrite Ha in Hd. by injection Hd as <- _. }
  apply rmatch_this in Hr as (c6 & Hm6 & [= -> <-]).
  exists label, url. split_and!; try done.
  - unfold link_text. destruct Hm1 as [-> _], Hm2 as [-> _], Hm3 as [-> _], Hm4 as [-> _],
      Hm5 as [-> _], Hm6 as [-> _]. done.
  - destruct (while_none 93 (after c1)) as [[_ H] | H]; rewrite <- Hl in H; [by split | done].
  - destruct (while_none 41 (after c4)) as [[_ H] | H]; rewrite <- Hu in H; [by split | done].
Qed.

Lemma while_all p t x s : Forall (λ y, p y = true) t → p x = false → while p (t ++ x :: s) = t.
Proof. intros Ht Hx. induction Ht as [|y t Hy _ IH]; cbn; [by rewrite Hx | by rewrite Hy, IH]. Qed.

Lemma group_run_eq {X : Type} i p (k : cursor → captures → option X) c cs t x s :
  after c = t ++ x :: s → t ≠ [] → Forall (λ y, p y = true) t → p x = false →
  (∀ c' cs' y s, after c' = y :: s → p y = true → k c' cs' = None) →
  rmatch (RGroup i (rplus true (RChar p))) k c cs = k (skip t c) ((i, t) :: cs).
Proof.
  intros Hc Hne Ht Hx Hk. destruct t as [|y t]; [done |]. apply list.Forall_cons in Ht as [Hy Ht].
  cbn. pose proof (advance_moved c y (t ++ x :: s) Hc) as Hm1.
  unfold advance in *. destruct (step c) as [[z c1]|] eqn:Hs; [| unfold step in Hs; by rewrite Hc in Hs].
  assert (z = y) as -> by (unfold step in Hs; rewrite Hc in Hs; by injection Hs). rewrite Hy.
  destruct Hm1 as [Ha Hb]. rewrite Hc in Ha. injection Ha as Ha.
  pose proof (star_class p (λ c' cs', k c' ((i, between_cursors c c') :: cs')) (length (after c1)) c1 cs
    ltac:(done)) as Hst.
  cbn [rmatch] in Hst. rewrite Hst; [| intros c' cs' w s' Hw Hpw; by eapply Hk].
  rewrite <- Ha, while_all by done. f_equal. f_equal. f_equal.
  apply moved_between. apply (moved_trans [y] t c c1); [| by apply (skip_moved t (x :: s))].
  split; [by rewrite Hc, <- Ha | done].
Qed.

Lemma run_stops {X : Type} u r (k : cursor → captures → option X) :
  ∀ c cs y s, after c = y :: s → none_of [u] y = true → rmatch (RSeq (RChar (this u)) r) k c cs = None.
Proof.
  intros c cs y s Hc Hy%none_of_other. destruct (rmatch _ _ c cs) eqn:Hk; [| done].
  apply rmatch_this in Hk as (c' & [Ha _] & _). rewrite Ha in Hc. by injection Hc as <- _.
Qed.

Lemma rmatch_this_eq {X : Type} u r (k : cursor → captures → option X) c cs s : after c = u :: s →
  rmatch (RSeq (RChar (this u)) r) k c cs = rmatch r k (advance c) cs.
Proof.
  intros Hc. cbn. unfold advance, step. rewrite Hc. unfold this. by rewrite N.eqb_refl.
Qed.

Lemma none_of_all c t : c ∉ t → Forall (λ y, none_of [c] y = true) t.
Proof.
  intros Ht. apply list.Forall_forall. intros y Hy. unfold none_of. cbn.
  destruct (N.eqb_spec y c) as [-> |]; done.
Qed.

Lemma after_advance c x s : after c = x :: s → after (advance c) = s.
Proof. intros Hc. destruct (advance_moved c x s Hc) as [Ha _]. rewrite Hc in Ha. by injection Ha. Qed.

Lemma after_skip c t s : after c = t ++ s → after (skip t c) = s.
Proof. intros Hc. destruct (skip_moved t s c Hc) as [Ha _]. rewrite Hc in Ha. by apply app_inv_head in Ha. Qed.

(** [exec] finds every proper link that starts where it looks. *)
Lemma link_complete c label url rest :
  after c = link_text label url rest → proper 93 label → proper 41 url →
  ∃ c', rx_at MARKDOWN_LINK_REGEX c = Some (c', [(2%nat, url); (1%nat, label)]) ∧ after c' = rest.
Proof.
  unfold link_text. cbn [app]. intros Hc [Hl1 Hl2] [Hu1 Hu2]. unfold rx_at, MARKDOWN_LINK_REGEX.
  cbn [rseq foldr]. erewrite rmatch_this_eq by done. apply after_advance in Hc.
  change (rmatch (RSeq ?a ?b) ?k (advance c) []) with (rmatch a (rmatch b k) (advance c) []).
  erewrite group_run_eq; [| done | done | by apply none_of_all | done | by apply run_stops].
  apply after_skip in Hc. erewrite rmatch_this_eq by done. apply after_advance in Hc.
  erewrite rmatch_this_eq by done. apply after_advance in Hc.
  match goal with |- context [rmatch (RSeq ?a ?b) ?k ?c ?cs] =>
    change (rmatch (RSeq a b) k c cs) with (rmatch a (rmatch b k) c cs) end.
  erewrite group_run_eq; [| done | done | by apply none_of_all | done | by apply run_stops].
  apply after_skip in Hc. erewrite rmatch_this_eq by done. apply after_advance in Hc.
  cbn [rmatch]. eauto.
Qed.

(** ** What the functions compute *)

(** A reading of a text: a link wherever one starts and no earlier one covers
    it, single units elsewhere. *)
Inductive piece := PUnit (x : N) | PLink (label url : text).

Definition starts_link (s : text) : Prop :=
  ∃ label url rest, s = link_text label url rest ∧ proper 93 label ∧ proper 41 url.

Inductive reading : text → list piece → Prop :=
| reading_nil : reading [] []
| reading_unit x s ps : ¬ starts_link (x :: s) → reading s ps → reading (x :: s) (PUnit x :: ps)
| reading_link label url rest ps : proper 93 label → proper 41 url → reading rest ps →
    reading (link_text label url rest) (PLink label url :: ps).

Definition the_link (i : nat) (label url : text) : ParsedLink := {|
  pl_label := label; pl_url := url; pl_startIndex := i;
  pl_endIndex := i + length (link_text label url []); pl_linkType := detectLinkType url |}.

Definition piece_text (p : piece) : text :=
  match p with PUnit x => [x] | PLink label url => link_text label url [] end.
Definition piece_clean (p : piece) : text :=
  match p with PUnit x => [x] | PLink label _ => label end.
Definition piece_html (p : piece) : text :=
  match p with PUnit x => [x] | PLink label url => renderHtmlElement (the_link 0 label url) end.
Fixpoint piece_links (i : nat) (ps : list piece) : list ParsedLink :=
  match ps with
  | [] => []
  | PUnit _ :: ps' => piece_links (S i) ps'
  | PLink label url :: ps' =>
      the_link i label url :: piece_links (i + length (link_text label url [])) ps'
  end.

Lemma link_text_app label url rest : link_text label url rest = link_text label url [] ++ rest.
Proof. unfold link_text. cbn. rewrite <- !app_assoc. cbn. by rewrite <- app_assoc. Qed.

Lemma link_text_pos label url rest : (0 < length (link_text label url rest))%nat.
Proof. unfold link_text. cbn. lia. Qed.

Lemma proper_inj (c : N) (a b s t : text) : c ∉ a → c ∉ b → a ++ c :: s = b ++ c :: t → a = b ∧ s = t.
Proof.
  revert b. induction a as [|x a IH]; intros [|y b] Ha Hb Heq; cbn in Heq; simplify_eq; try done.
  - exfalso. apply Hb. left.
  - exfalso. apply Ha. left.
  - destruct (IH b) as [-> ->]; [set_solver.. | done | done].
Qed.

Lemma link_text_inj l1 u1 r1 l2 u2 r2 : proper 93 l1 → proper 41 u1 → proper 93 l2 → proper 41 u2 →
  link_text l1 u1 r1 = link_text l2 u2 r2 → l1 = l2 ∧ u1 = u2 ∧ r1 = r2.
Proof.
  intros [_ H1] [_ H2] [_ H3] [_ H4]. unfold link_text. cbn [app]. intros [= Heq].
  apply proper_inj in Heq as [-> Heq]; [| done..]. injection Heq as Heq.
  by apply proper_inj in Heq as [-> ->].
Qed.

Lemma reading_unique s ps ps' : reading s ps → reading s ps' → ps' = ps.
Proof.
  intros H. revert ps'. induction H as [| x s ps Hn H IH | l u r ps Hl Hu H IH]; intros ps' H'.
  - by inversion H'.
  - remember (x :: s) as s0 eqn:Hs. destruct H' as [| x' s' ps1 Hn' H1 | l' u' r' ps1 Hl' Hu' H1]; [done | |].
    + injection Hs as -> ->. f_equal. by apply IH.
    + exfalso. apply Hn. by exists l', u', r'.
  - remember (link_text l u r) as s0 eqn:Hs.
    destruct H' as [| x' s' ps1 Hn' H1 | l' u' r' ps1 Hl' Hu' H1]; [done | |].
    + exfalso. apply Hn'. by exists l, u, r.
    + apply link_text_inj in Hs as (-> & -> & ->); [| done..]. f_equal. by apply IH.
Qed.

Definition piece_segment (p : piece) (g : segment) : Prop :=
  match p, g with
  | PUnit x, Plain t => t = [x]
  | PLink label url, Hit t cs =>
      t = link_text label url [] ∧ capture 1 cs = Some label ∧ capture 2 cs = Some url
  | _, _ => False
  end.

Lemma segments_reading s : ∃ ps, reading s ps ∧ Forall2 piece_segment ps (segments MARKDOWN_LINK_REGEX s).
Proof.
  remember (length s) as n eqn:Hn. revert s Hn. induction (lt_wf n) as [n _ IH]. intros s ->.
  assert (looks_back MARKDOWN_LINK_REGEX = false) as Hl by done.
  destruct (rx_at MARKDOWN_LINK_REGEX (at_start s)) as [[c' cs]|] eqn:Hr.
  - pose proof (rx_at_moved _ _ _ _ Hr) as Hm.
    apply link_found in Hr as Hf. destruct Hf as (label & url & Hs & Hpl & Hpu & H1 & H2). cbn in Hs.
    assert (between_cursors (at_start s) c' = link_text label url []) as Hb.
    { destruct Hm as [Ha _]. cbn in Ha. rewrite Ha, link_text_app in Hs. by apply app_inv_tail in Hs. }
    assert (length (after c') < length s)%nat as Hlt.
    { apply (f_equal length) in Hs as Hlen. rewrite link_text_app, length_app in Hlen.
      unfold link_text in Hlen. cbn in Hlen. lia. }
    destruct (IH _ Hlt (after c') eq_refl) as (ps & Hps & Hsg).
    exists (PLink label url :: ps). split; [rewrite Hs; by constructor |].
    rewrite (segments_hit _ _ _ _ Hl Hr) by lia. constructor; [by rewrite Hb | done].
  - destruct s as [|x s]; [exists []; split; [constructor | by rewrite segments_nil; [constructor |]] |].
    destruct (IH (length s) ltac:(cbn; lia) s eq_refl) as (ps & Hps & Hsg).
    exists (PUnit x :: ps). split.
    + constructor; [| done]. intros (label & url & rest & Hs & Hpl & Hpu).
      destruct (link_complete (at_start (x :: s)) label url rest Hs Hpl Hpu) as (c' & Hc' & _).
      by rewrite Hr in Hc'.
    + rewrite segments_miss by done. by constructor.
Qed.

Lemma piece_segment_links ps gs i : Forall2 piece_segment ps gs →
  links_from i gs = piece_links i ps ∧ gs ≫= segment_text = ps ≫= piece_text.
Proof.
  intros H. revert i. induction H as [|p g ps gs Hp H IH]; intros i; [done |].
  destruct p as [x | label url], g as [t | t cs]; cbn in Hp; try done.
  - subst t. cbn. destruct (IH (S i)) as [<- <-]. split; [f_equal; lia | done].
  - destruct Hp as (-> & H1 & H2). cbn [links_from piece_links]. unfold link_of. rewrite H1, H2. cbn [default from_option id].
    destruct (IH (i + length (link_text label url []))%nat) as [-> He]. split; [done |].
    cbn [mbind list_bind segment_text piece_text]. cbn [mbind] in He. by rewrite He.
Qed.

Lemma piece_segment_replace ps gs f h : Forall2 piece_segment ps gs →
  (∀ x, h (PUnit x) = [x]) →
  (∀ label url t cs, capture 1 cs = Some label → capture 2 cs = Some url →
     f t cs = h (PLink label url)) →
  gs ≫= replace_with f = ps ≫= h.
Proof.
  intros H Hu Hl. induction H as [|p g ps gs Hp H IH]; [done |]. cbn. rewrite IH. f_equal.
  destruct p as [x | label url], g as [t | t cs]; cbn in Hp; try done.
  - by rewrite Hu.
  - destruct Hp as (_ & H1 & H2). by apply Hl.
Qed.

(** The links of a reading come in order, from [i] on. *)
Lemma piece_links_from i ps l : l ∈ piece_links i ps → (i ≤ pl_startIndex l)%nat.
Proof.
  revert i. induction ps as [|[x | label url] ps IH]; intros i; cbn; [set_solver | |].
  - intros Hl%IH. lia.
  - intros [-> | Hl%IH]%elem_of_cons; cbn; lia.
Qed.

Lemma insert_desc_last l ls : (∀ l', l' ∈ ls → (pl_startIndex l < pl_startIndex l')%nat) →
  insert_desc l ls = ls ++ [l].
Proof.
  induction ls as [|l' ls IH]; intros Hl; [done |]. cbn.
  rewrite (proj2 (Nat.leb_gt _ _)) by (apply Hl; left). f_equal. apply IH. intros. apply Hl. by right.
Qed.

Lemma sort_desc_links i ps : sort_desc (piece_links i ps) = rev (piece_links i ps).
Proof.
  revert i. induction ps as [|[x | label url] ps IH]; intros i; cbn [piece_links]; [done | apply IH |].
  cbn [sort_desc foldr rev]. unfold sort_desc in IH. rewrite IH. apply insert_desc_last.
  intros l' Hl'. rewrite list_elem_of_In, <- in_rev in Hl'.
  apply list_elem_of_In, piece_links_from in Hl'. pose proof (link_text_pos label url []). cbn in *. lia.
Qed.

(** Splicing from the back leaves the earlier indices valid. *)
Lemma splice_all pre ps :
  foldl splice (pre ++ ps ≫= piece_text) (rev (piece_links (length pre) ps)) = pre ++ ps ≫= piece_html.
Proof.
  revert pre. induction ps as [|[x | label url] ps IH]; intros pre; cbn [piece_links]; [done | |].
  - specialize (IH (pre ++ [x])). rewrite length_app in IH. cbn [length] in IH.
    replace (length pre + 1)%nat with (S (length pre)) in IH by lia.
    rewrite <- !app_assoc in IH. exact IH.
  - cbn [rev]. rewrite foldl_app.
    specialize (IH (pre ++ link_text label url [])). rewrite length_app, <- !app_assoc in IH.
    cbn [mbind list_bind piece_text] in *. rewrite IH. cbn [foldl piece_html]. unfold splice. cbn.
    assert (∀ (a b c : text), drop (length a + length b) (a ++ b ++ c) = c) as Hdrop
      by (intros; by rewrite app_assoc, <- length_app, drop_app_length).
    by rewrite take_app_length, Hdrop.
Qed.

(** C15.  Markdown links.  A text has exactly one reading as links and other
    units; [parseMarkdownLinks] returns its links, with their positions, and
    the text with each link replaced by its label; and splicing the links'
    HTML in from the last to the first, as [convertLinksToHtml] does, is
    writing the reading out with each link replaced by its element. *)
Theorem links_refine_reading s :
  ∃ ps, reading s ps ∧ (∀ ps', reading s ps' → ps' = ps) ∧ ps ≫= piece_text = s ∧
    pm_cleanText (parseMarkdownLinks s) = ps ≫= piece_clean ∧
    pm_links (parseMarkdownLinks s) = piece_links 0 ps ∧
    convertLinksToHtml s (pm_links (parseMarkdownLinks s)) = ps ≫= piece_html.
Proof.
  destruct (segments_reading s) as (ps & Hps & Hsg). exists ps.
  destruct (piece_segment_links ps _ 0 Hsg) as [Hlinks Htext]. rewrite segments_text in Htext.
  cbn [parseMarkdownLinks pm_cleanText pm_links]. rewrite Hlinks.
  split_and!; [done | intros ps' H'; by eapply reading_unique | done | | done |].
  - apply (piece_segment_replace ps _ group1 piece_clean Hsg); [done |].
    intros label url t cs H1 _. unfold group1. by rewrite H1.
  - rewrite Htext at 1. transitivity (foldl splice (ps ≫= piece_text) (sort_desc (piece_links 0 ps))).
    { by destruct (piece_links 0 ps). }
    rewrite sort_desc_links. apply (splice_all [] ps).
Qed.
