(* ===== verification/Markdown.v ===== *)
(** * Markdown

    [stripMarkdown] and [injectVariables] of [src/common/utils/link-parser.ts],
    and [parseMarkdownToTelegramHtml] of
    [src/modules/channel/providers/telegram.provider.ts]: sequences of global
    replacements, each with its expression of the source. *)

From S2P Require Import Prelude Text Rx Links.

Open Scope string_scope.
Open Scope list_scope.
Open Scope Z_scope.

(** ** Strings *)

Fixpoint trim_start (s : text) : text :=
  match s with
  | [] => []
  | x :: s' => if space_unit x then trim_start s' else s
  end.

(** [s.trim()] *)
Definition trim (s : text) : text := rev (trim_start (rev (trim_start s))).

(** [s.split(c)] *)
Fixpoint split_on (c : N) (s : text) : list text :=
  match s with
  | [] => [[]]
  | x :: s' =>
      if N.eqb x c then [] :: split_on c s'
      else match split_on c s' with l :: ls => (x :: l) :: ls | [] => [[x]] end
  end.

(** [cells.join(sep)] *)
Fixpoint join (sep : text) (ls : list text) : text :=
  match ls with
  | [] => []
  | [l] => l
  | l :: ls => l ++ sep ++ join sep ls
  end.

Definition nonempty (s : text) : bool := match s with [] => false | _ => true end.

(** ** The expressions both functions share *)

Definition unit_of (s : string) : rx := RChar (one_of (units s)).
Definition fence : rx := rtimes 3 (RChar (this 96%N)).
Definition blanks : rx := RStar true (RChar (one_of [32; 9]%N)).               (** [[ \t]*] *)

(** [/`([^`]+)`/g] *)
Definition INLINE_CODE : rx :=
  rseq [RChar (this 96%N); RGroup 1 (rplus true (RChar (none_of [96%N]))); RChar (this 96%N)].
(** [/^\|[-:| ]+\|[ \t]*$/gm] and [/^\|(.+)\|[ \t]*$/gm] *)
Definition TABLE_SEPARATOR : rx :=
  rseq [RBol; rlit "|"; rplus true (unit_of "-:| "); rlit "|"; blanks; REol].
Definition TABLE_ROW : rx :=
  rseq [RBol; rlit "|"; RGroup 1 (rplus true (RChar not_eol)); rlit "|"; blanks; REol].
(** The cells of a row. *)
Definition table_row (sep : text) (_ : text) (cs : captures) : text :=
  join sep (List.filter nonempty (trim <$> split_on 124%N (default [] (capture 1 cs)))).
(** [mark([^c\n]+)mark] *)
Definition marked (mark c : string) : rx :=
  rseq [rlit mark; RGroup 1 (rplus true (RChar (none_of (units c ++ [NL])))); rlit mark].

(** [^(\*{3,}|-{3,}|_{3,})[ \t]*$], whatever the order of the three. *)
Definition rule_of (c : string) : rx := ratleast 3 (unit_of c).
Definition horizontal_rule (a b c : string) : rx :=
  rseq [RBol; ralt (rule_of a) [rule_of b; rule_of c]; blanks; REol].

Definition erase (_ : text) (_ : captures) : text := [].

(** ** [stripMarkdown] *)

Definition FENCED_BLOCK : rx := rseq [fence; RStar false (RChar any_unit); fence].
Definition HEADER_MARK : rx := rseq [RBol; rbetween 1 6 (rlit "#"); rplus true (RChar space_unit)].
Definition QUOTE_MARK : rx := rseq [RBol; rlit ">"; RStar true (RChar space_unit)].
Definition BLANK_LINES : rx := ratleast 3 (RChar (this NL)).

Definition stripMarkdown (s : text) : text :=
  let result := replace FENCED_BLOCK (λ _ _, units "[code]") s in
  let result := replace INLINE_CODE group1 result in
  let result := replace MARKDOWN_LINK_REGEX group1 result in
  let result := replace TABLE_SEPARATOR erase result in
  let result := replace TABLE_ROW (table_row (units " | ")) result in
  let result := replace (marked "**" "*") group1 result in
  let result := replace (marked "__" "_") group1 result in
  let result := replace (marked "*" "*") group1 result in
  let result := replace (marked "_" "_") group1 result in
  let result := replace (marked "~~" "~") group1 result in
  let result := replace HEADER_MARK erase result in
  let result := replace (horizontal_rule "*" "-" "_") erase result in
  let result := replace QUOTE_MARK erase result in
  let result := replace BLANK_LINES (λ _ _, [NL; NL]) result in
  trim result.

(** ** [parseMarkdownToTelegramHtml] *)

Definition escapeHtmlForTelegram (s : text) : text :=
  foldl (λ s e, replace_lit [e.1] e.2 s) s (take 4 ENTITIES).

Definition tagged (open close : string) (_ : text) (cs : captures) : text :=
  units open ++ escapeHtmlForTelegram (default [] (capture 1 cs)) ++ units close.

(** [/```(\w+)?\n([\s\S]*?)```/g], with the code in group 1. *)
Definition LANG_BLOCK : rx :=
  rseq [fence; ropt (RGroup 2 (rplus true (RChar word_unit))); RChar (this NL);
        RGroup 1 (RStar false (RChar any_unit)); fence].
Definition code_block (t : text) (cs : captures) : text :=
  tagged "<pre>" "</pre>" t [(1%nat, trim (default [] (capture 1 cs)))].
(** [/\*\*\*([^*]+)\*\*\*/g] *)
Definition BOLD_ITALIC : rx :=
  rseq [rlit "***"; RGroup 1 (rplus true (RChar (none_of (units "*")))); rlit "***"].
Definition HEADER : rx :=
  rseq [RBol; rbetween 1 6 (rlit "#"); rplus true (RChar space_unit);
        RGroup 1 (rplus true (RChar not_eol)); REol].

Definition parseMarkdownToTelegramHtml (s : text) : text :=
  let result := replace LANG_BLOCK code_block s in
  let result := replace INLINE_CODE (tagged "<code>" "</code>") result in
  let result := replace TABLE_SEPARATOR erase result in
  let result := replace TABLE_ROW (table_row [32; 9474; 32]%N) result in
  let result := replace (horizontal_rule "-" "*" "_") (λ _ _, replicate 10 9472%N) result in
  let result := replace BOLD_ITALIC (tagged "<b><i>" "</i></b>") result in
  let result := replace (marked "**" "*") (tagged "<b>" "</b>") result in
  let result := replace (marked "*" "*") (tagged "<i>" "</i>") result in
  let result := replace (marked "__" "_") (tagged "<u>" "</u>") result in
  let result := replace (marked "~~" "~") (tagged "<s>" "</s>") result in
  replace HEADER (tagged "<b>" "</b>") result.

(** ** [injectVariables] *)

(** [GetSubstitution] for an expression without groups: what the [$] of a
    replacement text stands for. *)
Fixpoint expand_dollar (pre hit post : text) (v : text) : text :=
  match v with
  | 36%N :: ((y :: v'') as v') =>
      if N.eqb y 36 then 36%N :: expand_dollar pre hit post v''
      else if N.eqb y 38 then hit ++ expand_dollar pre hit post v''
      else if N.eqb y 96 then pre ++ expand_dollar pre hit post v''
      else if N.eqb y 39 then post ++ expand_dollar pre hit post v''
      else 36%N :: expand_dollar pre hit post v'
  | x :: v' => x :: expand_dollar pre hit post v'
  | [] => []
  end.

(** [s.replace(re, v)]: [pre] is what precedes the segments. *)
Fixpoint substitute_from (pre : text) (v : text) (gs : list segment) : text :=
  match gs with
  | [] => []
  | Plain t :: gs' => t ++ substitute_from (pre ++ t) v gs'
  | Hit t _ :: gs' =>
      expand_dollar pre t (gs' ≫= segment_text) v ++ substitute_from (pre ++ t) v gs'
  end.

(** A key whose expression is its own text: word units, not only digits
    (a run of digits between braces is a repetition count). *)
Definition plain_key (k : text) : bool :=
  forallb word_unit k && negb (forallb (in_range 48 57) k).

Definition placeholder (k : text) : text := units "{{" ++ k ++ units "}}".

(** The expression of any other key is a parameter. *)
Definition injectVariables (compile : text → option rx) (template : text)
    (variables : list (text * text)) : result text :=
  foldl (λ acc kv,
    match acc with
    | Err e => Err e
    | Ok s =>
        match (if plain_key kv.1 then Some (rseq ((λ x, RChar (this x)) <$> placeholder kv.1))
               else compile (placeholder kv.1)) with
        | Some r => Ok (substitute_from [] kv.2 (segments r s))
        | None => Err (JsError "Invalid regular expression" None)
        end
    end) (Ok template) variables.

(** ** Text without markup *)

(** The units that start something in [parseMarkdownToTelegramHtml]. *)
Definition TELEGRAM_MARKUP : list N := units "`|-*_~#".

(** Goes down an expression to a unit that every match of it needs. *)
Ltac needs_step :=
  lazymatch goal with |- needs ?us ?r => let r' := eval hnf in r in change (needs us r') end;
  lazymatch goal with
  | |- needs _ (RSeq RBol _) => apply needs_seq_r
  | |- needs _ (RSeq _ _) => apply needs_seq_l
  | |- needs _ (RAlt _ _) => apply needs_alt
  | |- needs _ (RChar (this _)) => apply needs_this
  | |- needs _ (RChar (one_of _)) => apply needs_one_of
  end.
Ltac needs := repeat needs_step; vm_compute; set_solver.

(** Text without markup is passed on as it is by
    [parseMarkdownToTelegramHtml]: what is between the marks is escaped, but
    the text around them is not, so a body with a [<], or with an ampersand,
    reaches Telegram's HTML parser unescaped. *)
Theorem telegram_plain_unescaped s :
  (∀ x, x ∈ TELEGRAM_MARKUP → x ∉ s) → parseMarkdownToTelegramHtml s = s.
Proof.
  intros Hs. assert (∀ r f, needs TELEGRAM_MARKUP r → replace r f s = s) as Hr
    by (intros; by eapply replace_absent).
  unfold parseMarkdownToTelegramHtml. by rewrite !Hr by needs.
Qed.
