(* ===== verification/Helpers.v ===== *)
(** * The helpers of the templates

    What templates call: [registerHelpers] of
    [src/modules/template/template.service.ts], and of
    [mjml-compiler.service.ts], which registers the same helpers and the
    logical ones.  Handlebars calls a helper with the arguments of the
    expression and, last, an object of options, which takes the place of an
    argument that is left out. *)

From S2P Require Import Prelude Text Rx Links Markdown.

Open Scope string_scope.
Open Scope list_scope.
Open Scope Z_scope.

Inductive arg :=
| AText (s : text)
| ANum (n : Z)
| ABool (b : bool)
| ANull
| AUndefined.

#[export] Instance arg_eq_dec : EqDecision arg.
Proof. solve_decision. Defined.

(** ** Texts *)

(** [s.slice(i)] and [s.slice(0, i)] *)
Definition slice_end (i : Z) (s : text) : text :=
  drop (Z.to_nat (if i <? 0 then len s + i else i)) s.
Definition slice_start (i : Z) (s : text) : text :=
  take (Z.to_nat (if i <? 0 then len s + i else i)) s.

Definition ELLIPSIS_DOTS : text := units "...".

(** The helper [truncate]. *)
Definition truncate_text (str : text) (n : Z) : text :=
  if n <? len str then slice_start n str ++ ELLIPSIS_DOTS else str.

(** The helper [truncateAddress].  [None] for the options: they are no number,
    no comparison with them holds, and slicing takes them for 0. *)
Definition truncateAddress (address : arg) (chars : option Z) : text :=
  match address with
  | AText (x :: a) =>
      let address := x :: a in
      match chars with
      | Some chars =>
          if len address <=? chars * 2 + 3 then address
          else slice_start (chars + 2) address ++ ELLIPSIS_DOTS ++ slice_end (- chars) address
      | None => slice_start 0 address ++ ELLIPSIS_DOTS ++ slice_end 0 address
      end
  | _ => []
  end.

(** The helper [convertLinks]. *)
Definition convertLinks (body : text) : text :=
  if bool_decide (body = []) then []
  else convertLinksToHtml body (pm_links (Links.parseMarkdownLinks body)).

(** ** Amounts and dates

    How a number or a date is shown is up to the locale. *)

Definition arg_text (a : arg) : text :=
  match a with
  | AText s => s
  | ANum n => show n
  | ABool b => units (if b then "true" else "false")
  | ANull => units "null"
  | AUndefined => units "undefined"
  end.

(** The helper [money]: the symbol, where the template names one. *)
Definition money (locale : Z → text) (amount : arg) (symbol : option text) : text :=
  match amount with ANum n => locale n | a => arg_text a end ++ [SPACE] ++
  default (units "[object Object]") symbol.

(** The helper [timeAgo]: [now] in seconds; [date] is [toLocaleDateString]. *)
Definition timeAgo (date : Z → text) (now timestamp : Z) : text :=
  if timestamp =? 0 then [] else
  let seconds := now - timestamp in
  if seconds <? 60 then units "just now"
  else if seconds <? 3600 then show (seconds / 60) ++ units "m ago"
  else if seconds <? 86400 then show (seconds / 3600) ++ units "h ago"
  else if seconds <? 604800 then show (seconds / 86400) ++ units "d ago"
  else if seconds <? 2592000 then show (seconds / 604800) ++ units "w ago"
  else date (timestamp * 1000).

(** The days JavaScript has a date for. *)
Definition valid_date (ms : Z) : bool := Z.abs ms <=? 8640000000000000.

(** The helper [formatDate]: a text is parsed ([Date.parse]), a number is in
    seconds up to 10^10 and in milliseconds from there on. *)
Definition formatDate (parse : text → option Z) (date : Z → text) (ts : option (text + Z)) : text :=
  match ts with
  | None | Some (inl []) => []
  | Some (inl s) =>
      match parse s with
      | Some ms => if valid_date ms then date ms else s
      | None => s
      end
  | Some (inr n) =>
      let ms := if n <? 10 ^ 10 then n * 1000 else n in
      if valid_date ms then date ms else show n
  end.

(** ** Categories *)

Definition table_or (table : list (string * text)) (d : text) (category : string) : text :=
  default d (snd <$> List.find (λ e, String.eqb e.1 category) table).

Definition categoryColor : string → text := table_or
  [("defi", units "#EF4444");
   ("governance", units "#8B5CF6");
   ("system", units "#F59E0B");
   ("marketing", units "#10B981");
   ("security", units "#EF4444");
   ("yield", units "#06B6D4");
   ("staking", units "#3B82F6")]
  (units "#00C896").

Definition categoryLabel : string → text := table_or
  [("defi", units "DeFi Alert");
   ("governance", units "Governance");
   ("system", units "System");
   ("marketing", units "Update");
   ("security", units "Security");
   ("yield", units "Yield");
   ("staking", units "Staking")]
  (units "Notification").

(** The emojis, as UTF-16. *)
Definition categoryEmoji : string → text := table_or
  [("defi", [55357; 56628]%N);
   ("governance", [55356; 57307]%N);
   ("system", [9881; 65039]%N);
   ("marketing", [55357; 56546]%N);
   ("security", [55357; 56594]%N);
   ("yield", [55357; 56496]%N);
   ("staking", [55357; 56592]%N)]
  [55357; 56596]%N.

(** ** Logic *)

(** [Boolean(value)] *)
Definition truthy_arg (a : arg) : bool :=
  match a with
  | AText s => negb (bool_decide (s = []))
  | ANum n => negb (n =? 0)
  | ABool b => b
  | ANull | AUndefined => false
  end.

(** [eq] and [ne]: [===] of two values that are no objects. *)
Definition eq_helper (a b : arg) : bool := bool_decide (a = b).
Definition ne_helper (a b : arg) : bool := negb (eq_helper a b).

(** [and] and [or], of the arguments without the options. *)
Definition and_helper (args : list arg) : bool := forallb truthy_arg args.
Definition or_helper (args : list arg) : bool := existsb truthy_arg args.
Definition not_helper (value : arg) : bool := negb (truthy_arg value).
Definition default_helper (value defaultValue : arg) : arg :=
  match value with ANull | AUndefined => defaultValue | _ => value end.

(** ** Properties *)

(** [truncateAddress] keeps [chars + 2] units in front and [chars] behind, and
    lengthens an address by one unit at most.  Without a number of characters it does, since
    it gets the options of Handlebars for it: nothing is cut. *)
Theorem truncateAddress_spec x a n : 0 < n →
  let address := x :: a in
  truncateAddress (AText address) None = ELLIPSIS_DOTS ++ address ∧
  (len address ≤ n * 2 + 3 → truncateAddress (AText address) (Some n) = address) ∧
  (n * 2 + 3 < len address → ∃ front back middle,
     address = front ++ middle ++ back ∧ len front = n + 2 ∧ len back = n ∧
     truncateAddress (AText address) (Some n) = front ++ ELLIPSIS_DOTS ++ back ∧
     len (truncateAddress (AText address) (Some n)) ≤ len address + 1).
Proof.
  intros Hn. cbn zeta. split_and!; [done | |].
  - intros Hl. unfold truncateAddress. by destruct (Z.leb_spec (len (x :: a)) (n * 2 + 3)); [| lia].
  - intros Hl. unfold truncateAddress.
    destruct (Z.leb_spec (len (x :: a)) (n * 2 + 3)); [lia |].
    set (s := x :: a) in *. unfold slice_start, slice_end.
    destruct (Z.ltb_spec (n + 2) 0); [lia |]. destruct (Z.ltb_spec (- n) 0); [| lia].
    exists (take (Z.to_nat (n + 2)) s), (drop (Z.to_nat (len s + - n)) s),
      (drop (Z.to_nat (n + 2)) (take (Z.to_nat (len s + - n)) s)).
    assert (len (take (Z.to_nat (n + 2)) s) = n + 2) as Hf
      by (unfold len in *; rewrite length_take; lia).
    assert (len (drop (Z.to_nat (len s + - n)) s) = n) as Hb
      by (unfold len in *; rewrite length_drop; lia).
    split_and!; [| done | done | done |].
    + rewrite <- (take_drop (Z.to_nat (len s + - n)) s) at 1.
      rewrite <- (take_drop (Z.to_nat (n + 2)) (take (Z.to_nat (len s + - n)) s)) at 1.
      rewrite take_take, Nat.min_l by (unfold len in *; lia). by rewrite app_assoc.
    + rewrite !len_app, Hf, Hb. change (len ELLIPSIS_DOTS) with 3. lia.
Qed.

Ltac shown k :=
  eexists _, k, _; split; [reflexivity |];
  match goal with Hk : ∀ k, _ |- _ => destruct (Hk k); [lia.. |] end;
  split_and!; [lia.. | set_solver].

(** The number [timeAgo] shows is that of the whole units gone by. *)
Theorem timeAgo_spec date now timestamp : timestamp ≠ 0 → 60 ≤ now - timestamp < 2592000 →
  ∃ n unit suffix, timeAgo date now timestamp = show n ++ suffix ∧ 1 ≤ n ∧
    n * unit ≤ now - timestamp < (n + 1) * unit ∧
    (unit, suffix) ∈ [(60, units "m ago"); (3600, units "h ago"); (86400, units "d ago");
                      (604800, units "w ago")].
Proof.
  intros Ht Hs. unfold timeAgo. destruct (Z.eqb_spec timestamp 0); [done |].
  assert (∀ k, 0 < k → k ≤ now - timestamp → 1 ≤ (now - timestamp) / k ∧
    (now - timestamp) / k * k ≤ now - timestamp < ((now - timestamp) / k + 1) * k) as Hk.
  { intros k H0 Hk. split; [by apply Z.div_le_lower_bound; lia |].
    pose proof (Z.div_mod (now - timestamp) k ltac:(lia)) as Hd.
    pose proof (Z.mod_pos_bound (now - timestamp) k H0). nia. }
  repeat (match goal with |- context [?x <? ?y] => destruct (Z.ltb_spec x y); [try lia |] end); try lia.
  - shown 60.
  - shown 3600.
  - shown 86400.
  - shown 604800.
Qed.

(** A moment is shown as the same date in seconds and in milliseconds, from
    the end of April 1970 on. *)
Theorem formatDate_agrees parse date t : 10 ^ 7 ≤ t < 10 ^ 10 →
  formatDate parse date (Some (inr t)) = formatDate parse date (Some (inr (t * 1000))).
Proof.
  intros Ht. unfold formatDate. destruct (Z.ltb_spec t (10 ^ 10)); [| lia].
  destruct (Z.ltb_spec (t * 1000) (10 ^ 10)); [lia |].
  unfold valid_date. by destruct (Z.leb_spec (Z.abs (t * 1000)) 8640000000000000); [| lia].
Qed.

(** Up to there, a number of milliseconds is taken for seconds. *)
Example formatDate_early parse date :
  formatDate parse date (Some (inr 86400000)) = date 86400000000.
Proof. reflexivity. Qed.

(** The logical helpers obey De Morgan. *)
Lemma and_or args : and_helper args = negb (existsb not_helper args).
Proof.
  unfold and_helper, not_helper. induction args as [|a args IH]; [done |]. cbn. rewrite IH.
  by destruct (truthy_arg a).
Qed.
