(* ===== verification/Sms.v ===== *)
(** * SMS bodies

    [SnsService] of [src/modules/channel/providers/sns.provider.ts].  Texts are
    sequences of UTF-16 code units.  [stripMarkdown] of
    [src/common/utils/link-parser.ts] is a parameter ([Markdown] models it):
    nothing below depends on what it removes. *)

From S2P Require Import Prelude Schema External Memory Text.

Record SmsMessageParams := {
  sm_protocolName : text;
  sm_subject : text;
  sm_body : text;
}.

Inductive SmsEncoding := GSM7 | UCS2.

#[export] Instance SmsEncoding_eq_dec : EqDecision SmsEncoding.
Proof. solve_decision. Defined.

Record SmsMessageResult := {
  sr_body : text;
  sr_segments : Z;
  sr_encoding : SmsEncoding;
}.

Definition GSM_7_MAX_LENGTH : Z := 160.
Definition GSM_7_MULTI_MAX_LENGTH : Z := 153.
Definition UCS_2_MAX_LENGTH : Z := 70.
Definition UCS_2_MULTI_MAX_LENGTH : Z := 67.

(** [GSM_7_REGEX.test]: one or more units, all below 0x80. *)
Definition isGsm7Encoding (t : text) : bool :=
  match t with
  | [] => false
  | _ => forallb (λ c, (c <=? 127)%N) t
  end.

Definition truncateToCharLimit (t : text) (maxLength : Z) : text :=
  if len t <=? maxLength then t
  else slice0 (Z.max 0 (maxLength - 1)) t ++ [ELLIPSIS].

(** [x > maxLength * 0.5] is compared without the fraction. *)
Definition truncateToWordBoundary (t : text) (maxLength : Z) : text :=
  if len t <=? maxLength then t else
  let truncated := slice0 maxLength t in
  let lastSpace := lastIndexOf SPACE truncated in
  if maxLength <? 2 * lastSpace then slice0 lastSpace truncated else
  let lastPunctuation :=
    Z.max (lastIndexOf 46 truncated)
      (Z.max (lastIndexOf 33 truncated) (lastIndexOf 63 truncated)) in
  if maxLength <? 2 * lastPunctuation then slice0 (lastPunctuation + 1) truncated
  else truncateToCharLimit t maxLength.

Definition calculateSegments (message : text) (isGsm7 : bool) : Z :=
  let maxPerSegment := if isGsm7 then GSM_7_MULTI_MAX_LENGTH else UCS_2_MULTI_MAX_LENGTH in
  ceil_div (len message) maxPerSegment.

Section sms.
Context (stripMarkdown : text → text).

(** The three parts of the message around the body. *)
Definition sms_prefix (p : SmsMessageParams) : text :=
  units "[" ++ sm_protocolName p ++ units "] ".
Definition sms_subjectLine (p : SmsMessageParams) : text := sm_subject p ++ units ": ".
Definition sms_suffix : text := units " (via Herald)".
Definition sms_overhead (p : SmsMessageParams) : Z :=
  len (sms_prefix p) + len (sms_subjectLine p) + len sms_suffix.

Definition buildSmsBody (p : SmsMessageParams) : SmsMessageResult :=
  let cleanText := stripMarkdown (sm_body p) in
  let isGsm7 := isGsm7Encoding cleanText in
  let maxSingle := if isGsm7 then GSM_7_MAX_LENGTH else UCS_2_MAX_LENGTH in
  let bodyBudget := Z.max 0 (maxSingle - sms_overhead p) in
  let truncatedBody := truncateToWordBoundary cleanText bodyBudget in
  let truncatedBody :=
    if len truncatedBody =? 0 then truncateToCharLimit cleanText bodyBudget
    else truncatedBody in
  let body := sms_prefix p ++ sms_subjectLine p ++ truncatedBody ++ sms_suffix in
  {| sr_body := body; sr_segments := calculateSegments body isGsm7;
     sr_encoding := if isGsm7 then GSM7 else UCS2 |}.

(** [formatSms]: the budget it is given is not looked at. *)
Definition formatSms (p : SmsMessageParams) (maxChars : Z) : text := sr_body (buildSmsBody p).

(** [sendSms]; [enabled] is set when the SNS client could be built. *)
Definition sendSms `{B : Backend} (enabled : bool) (phone : string) (p : SmsMessageParams) :
    M World string :=
  if negb enabled then raise (JsError "AWS SNS not initialized" None) else
  r ← send (SmsEnvelope phone (sr_body (buildSmsBody p)));
  if bool_decide (rc_messageId r = ""%string)
  then raise (JsError "SNS returned no MessageId" None)
  else mret (rc_messageId r).

(** ** Lemmas *)

(** What a truncation leaves: the text, or a proper part of it that fits. *)
Definition shortened (t : text) (n : Z) (t' : text) : Prop :=
  if len t <=? n then t' = t
  else len t' ≤ Z.max 1 n ∧ (t' `prefix_of` t ∨ ∃ u, t' = u ++ [ELLIPSIS] ∧ u `prefix_of` t).

Lemma shortened_char_limit t n : 0 ≤ n → shortened t n (truncateToCharLimit t n).
Proof.
  intros Hn. unfold shortened, truncateToCharLimit. destruct (Z.leb_spec (len t) n); [done |].
  split.
  - rewrite len_app, len_slice0 by lia. change (len [ELLIPSIS]) with 1. lia.
  - right. eexists. split; [done | apply slice0_prefix].
Qed.

Lemma shortened_word_boundary t n : 0 ≤ n → shortened t n (truncateToWordBoundary t n).
Proof.
  intros Hn. unfold truncateToWordBoundary.
  destruct (len t <=? n) eqn:Hlt; [unfold shortened; by rewrite Hlt |].
  assert (∀ m, 0 ≤ m → m ≤ n → shortened t n (slice0 m (slice0 n t))) as Hs.
  { intros m Hm Hmn. unfold shortened. rewrite Hlt. split.
    - rewrite !len_slice0 by lia. lia.
    - left. rewrite slice0_slice0 by done. apply slice0_prefix. }
  assert (∀ c, lastIndexOf c (slice0 n t) < Z.max 1 n) as Hl.
  { intros c. destruct (lastIndexOf_lt c (slice0 n t)) as [H | H]; [| lia].
    rewrite len_slice0 in H by lia. lia. }
  destruct (Z.ltb_spec n (2 * lastIndexOf SPACE (slice0 n t))).
  { apply Hs; [lia |]. pose proof (Hl SPACE). lia. }
  destruct (Z.ltb_spec n (2 * Z.max (lastIndexOf 46 (slice0 n t))
    (Z.max (lastIndexOf 33 (slice0 n t)) (lastIndexOf 63 (slice0 n t))))) as [Hp |].
  - pose proof (Hl 46%N). pose proof (Hl 33%N). pose proof (Hl 63%N).
    apply Hs; lia.
  - by apply shortened_char_limit.
Qed.

Lemma shortened_len t n t' : 0 ≤ n → shortened t n t' → len t' ≤ Z.max 1 n.
Proof.
  intros Hn. unfold shortened. destruct (Z.leb_spec (len t) n); [intros ->; lia | by intros []].
Qed.

Lemma buildSmsBody_shape p :
  let t := stripMarkdown (sm_body p) in
  let maxSingle := if isGsm7Encoding t then GSM_7_MAX_LENGTH else UCS_2_MAX_LENGTH in
  ∃ t', shortened t (Z.max 0 (maxSingle - sms_overhead p)) t' ∧
    sr_body (buildSmsBody p) = sms_prefix p ++ sms_subjectLine p ++ t' ++ sms_suffix.
Proof.
  intros t maxSingle. unfold buildSmsBody. fold t maxSingle. cbn [sr_body].
  set (n := Z.max 0 (maxSingle - sms_overhead p)).
  eexists. split; [| done].
  destruct (_ =? 0); [apply shortened_char_limit | apply shortened_word_boundary]; lia.
Qed.

(** ** Properties *)

(** The SMS is the protocol name, the subject, the body or a shortened
    body, and the signature.  It fits the limit of one message of its encoding
    whenever name and subject leave room for it, and is at most one unit
    longer than them otherwise; a body that fits is sent whole. *)
Theorem sms_body_fits p :
  let t := stripMarkdown (sm_body p) in
  let maxSingle := if isGsm7Encoding t then 160 else 70 in
  let r := buildSmsBody p in
  len (sr_body r) ≤ Z.max maxSingle (sms_overhead p + 1) ∧
  (len t + sms_overhead p ≤ maxSingle →
     sr_body r = sms_prefix p ++ sms_subjectLine p ++ t ++ sms_suffix) ∧
  ∃ t', sr_body r = sms_prefix p ++ sms_subjectLine p ++ t' ++ sms_suffix ∧
    (t' `prefix_of` t ∨ ∃ u, t' = u ++ [ELLIPSIS] ∧ u `prefix_of` t).
Proof.
  intros t maxSingle r. destruct (buildSmsBody_shape p) as (t' & Hsh & Hb).
  cbn zeta in Hsh. fold t in Hsh.
  change (if isGsm7Encoding t then GSM_7_MAX_LENGTH else UCS_2_MAX_LENGTH)
    with maxSingle in Hsh.
  fold r in Hb. rewrite Hb. split_and!.
  - apply shortened_len in Hsh; [| lia]. unfold sms_overhead in *. rewrite !len_app. lia.
  - intros Hfit. unfold shortened in Hsh. rewrite (proj2 (Z.leb_le _ _)) in Hsh by lia.
    by subst.
  - exists t'. split; [done |]. unfold shortened in Hsh.
    destruct (len t <=? _); [subst; by left | tauto].
Qed.

End sms.

(** What is reported of a shortened body can be wrong: with a long body
    of ASCII text without a space, full stop, ['!'] or ['?'], the message
    contains an ellipsis, which is not GSM-7, and is still reported as GSM-7;
    and a message of 154 to 160 units, which is sent as one, is counted as
    two segments. *)
Theorem sms_gsm_misreported strip p :
  let t := strip (sm_body p) in
  isGsm7Encoding t = true → sms_overhead p < 160 → 160 < len t + sms_overhead p →
  SPACE ∉ t → (46 : N) ∉ t → (33 : N) ∉ t → (63 : N) ∉ t →
  let r := buildSmsBody strip p in
  sr_encoding r = GSM7 ∧ isGsm7Encoding (sr_body r) = false ∧
  len (sr_body r) = 160 ∧ sr_segments r = 2.
Proof.
  intros t Hg Hov Hlong Hsp Hdot Hex Hq r. unfold r, buildSmsBody. fold t. rewrite Hg.
  cbn [sr_body sr_segments sr_encoding].
  unfold GSM_7_MAX_LENGTH. set (n := Z.max 0 (160 - sms_overhead p)).
  assert (∀ c, c ∉ t → lastIndexOf c (slice0 n t) = -1) as Hidx.
  { intros c Hc. apply lastIndexOf_not_in. intros Hin. apply Hc.
    unfold slice0 in Hin. by eapply elem_of_take in Hin as (i & ? & _); eauto using list_elem_of_lookup_2. }
  assert (truncateToWordBoundary t n = slice0 (n - 1) t ++ [ELLIPSIS]) as ->.
  { unfold truncateToWordBoundary. rewrite !Hidx by done.
    rewrite (proj2 (Z.leb_gt _ _)) by lia. rewrite !(proj2 (Z.ltb_ge _ _)) by lia.
    unfold truncateToCharLimit. rewrite (proj2 (Z.leb_gt _ _)) by lia.
    by rewrite Z.max_r by lia. }
  assert (len (slice0 (n - 1) t ++ [ELLIPSIS]) = n) as Hlen.
  { rewrite len_app, len_slice0 by lia. change (len [ELLIPSIS]) with 1. lia. }
  rewrite Hlen, (proj2 (Z.eqb_neq _ _)) by lia.
  assert (len (sms_prefix p ++ sms_subjectLine p ++ (slice0 (n - 1) t ++ [ELLIPSIS]) ++ sms_suffix)
    = 160) as Hall.
  { rewrite !len_app, <- len_app, Hlen. unfold sms_overhead in *. lia. }
  split_and!; [done | | done |].
  - unfold isGsm7Encoding. case_match; [done |]. rewrite <- H.
    rewrite !forallb_app. cbn. by rewrite !andb_false_r, ?andb_false_l, ?andb_false_r.
  - unfold calculateSegments. by rewrite Hall.
Qed.

(** ** Witnesses *)

Definition long_word : SmsMessageParams := {|
  sm_protocolName := units "Herald"; sm_subject := units "Alert";
  sm_body := replicate 200 97%N |}.

Lemma sms_body_fits_witness :
  len (sr_body (buildSmsBody id long_word)) ≤ Z.max 160 (sms_overhead long_word + 1).
Proof. apply (sms_body_fits id long_word). Defined.

Lemma sms_gsm_misreported_witness :
  let r := buildSmsBody id long_word in
  sr_encoding r = GSM7 ∧ isGsm7Encoding (sr_body r) = false ∧
  len (sr_body r) = 160 ∧ sr_segments r = 2.
Proof.
  apply (sms_gsm_misreported id long_word); try (vm_compute; reflexivity);
    apply (bool_decide_unpack _); vm_compute; exact I.
Defined.
