(* ===== verification/Telegram.v ===== *)
(** * Telegram messages

    [TelegramService] of [src/modules/channel/providers/telegram.provider.ts]:
    the inline keyboard, the text of a message, its split into parts, and
    [sendNotification].  The markdown and template substitutions of
    [src/common/utils/link-parser.ts] ([Markdown]) and the encodings of Node's
    [Buffer] are parameters ([Formatting]); the Bot API is the [Network] of [External]. *)

From Stdlib Require Import Ascii String.
From stdpp Require Import pretty.
From S2P Require Import Prelude Schema External Memory Regex Text.

Open Scope string_scope.
Open Scope list_scope.
Open Scope Z_scope.

Record Formatting := {
  (** the text with its links replaced by their labels, and the links *)
  parseMarkdownLinks : text → text * list (text * text);
  parseMarkdownToTelegramHtml : text → text;
  injectVariables : text → gmap string text → text;
  base64url : text → text;
  encodeURIComponent : string → text;
}.

Definition TELEGRAM_MAX_MESSAGE_LENGTH : Z := 4096.
Definition TELEGRAM_MAX_CAPTION_LENGTH : Z := 1024.
Definition DEFAULT_MAX_BUTTONS : Z := 10.

(** ** Splitting a long message *)

Definition addChunk (chunks : list text) (s : text) : list text :=
  match s with [] => chunks | _ => chunks ++ [s] end.

(** The separator before what is added to [current]. *)
Definition sep_after (current sep : text) : text :=
  match current with [] => [] | _ => sep end.

(** The hard cut of one line: [fuel] bounds the number of slices, and the
    length of the line is enough. *)
Fixpoint hard_cut (fuel : nat) (max : nat) (chunks : list text) (line : text) :
    list text * text :=
  match fuel with
  | O => (chunks, line)
  | S fuel' =>
      if (max <? length line)%nat
      then hard_cut fuel' max (addChunk chunks (take max line)) (drop max line)
      else (chunks, line)
  end.

Definition split_line (max : nat) (st : list text * text) (line : text) : list text * text :=
  let '(chunks, current) := st in
  let joined := (current ++ sep_after current [NL] ++ line)%list in
  if (length joined <=? max)%nat then (chunks, joined) else
  let chunks := addChunk chunks current in
  if (length line <=? max)%nat then (chunks, line)
  else hard_cut (length line) max chunks line.

Definition split_paragraph (max : nat) (st : list text * text) (para : text) :
    list text * text :=
  let '(chunks, current) := st in
  let joined := (current ++ sep_after current [NL; NL] ++ para)%list in
  if (length joined <=? max)%nat then (chunks, joined) else
  let chunks := addChunk chunks current in
  if (length para <=? max)%nat then (chunks, para)
  else foldl (split_line max) (chunks, []) (split_lines para).

Definition splitIntoChunks (t : text) (maxLength : Z) : list text :=
  let effectiveMax := Z.to_nat (maxLength - 15) in
  if (length t <=? effectiveMax)%nat then [t] else
  let '(chunks, current) := foldl (split_paragraph effectiveMax) ([], []) (split_paragraphs t) in
  addChunk chunks current.

(** The text of part [i] (from 0) of [n]. *)
Definition part_text (chunk : text) (i n : nat) : text :=
  if (1 <? n)%nat
  then (chunk ++ [NL; NL] ++ units "<i>(" ++ show (Z.of_nat i + 1) ++ units "/" ++
        show (Z.of_nat n) ++ units ")</i>")%list
  else chunk.

(** ** Text and keyboard *)

(** The four replacements of [escapeHtml], whose results meet no later
    pattern. *)
Definition escape_unit (c : N) : text :=
  if N.eqb c 38 then units "&amp;"
  else if N.eqb c 60 then units "&lt;"
  else if N.eqb c 62 then units "&gt;"
  else if N.eqb c 34 then units "&quot;"
  else [c].

Definition escapeHtml (t : text) : text := t ≫= escape_unit.

Definition getCategoryEmoji (category : string) : text :=
  if (category =? "defi")%string then [55357; 56496]%N
  else if (category =? "governance")%string then [55357; 56819; 65039]%N
  else if (category =? "system")%string then [9881; 65039]%N
  else if (category =? "marketing")%string then [55357; 56546]%N
  else [55357; 56596]%N.

(** [toUpperCase] of one unit below 256. *)
Definition upper_unit (c : N) : text :=
  if ((97 <=? c) && (c <=? 122) || (224 <=? c) && (c <=? 254) && negb (c =? 247))%N
  then [c - 32]%N
  else if N.eqb c 255 then [376]%N
  else if N.eqb c 181 then [924]%N
  else if N.eqb c 223 then [83; 83]%N
  else [c].

(** [category.charAt(0).toUpperCase() + category.slice(1)] *)
Definition capitalized (category : string) : text :=
  match units category with
  | [] => []
  | c :: t => (upper_unit c ++ t)%list
  end.

Definition join_lines (ls : list text) : text :=
  match ls with
  | [] => []
  | l :: ls => foldl (λ acc l, (acc ++ [NL] ++ l)%list) l ls
  end.

(** [s.length > max ? s.slice(0, max - 1) + '…' : s] *)
Definition clamp (max : Z) (t : text) : text :=
  if max <? len t then (slice0 (max - 1) t ++ [ELLIPSIS])%list else t.

Definition via_herald (category : string) : text :=
  (units "<i>via Herald " ++ [8226%N] ++ units " " ++ capitalized category ++ units "</i>")%list.

(** [TelegramMessageParams] and the other fields of [sendNotification]'s
    argument. *)
Record TgParams := {
  tp_chatId : string;
  tp_protocolName : string;
  tp_protocolId : option string;
  tp_subject : string;
  tp_body : string;
  tp_category : string;
  tp_notificationId : string;
  tp_tier : option Z;
  tp_templateId : option string;
  tp_templateVariables : gmap string string;
  tp_bannerUrl : option string;
  tp_videoUrl : option string;
  tp_customBotToken : option string;
  tp_messageThreadId : option string;
  tp_priority : option priority;
  tp_trackEngagement : bool;
  tp_trackingBaseUrl : string;
}.

(** [buildMedia]: a video rather than the banner. *)
Definition buildMedia (bannerUrl videoUrl : option string) : option string :=
  if truthy videoUrl then videoUrl
  else if truthy bannerUrl then bannerUrl
  else None.

Definition mute_text : text :=
  ([55357; 56583]%N ++ units " Mute this protocol")%list.

(** The first loop of [buildInlineKeyboard] and the second are the same on
    their [text]/[url] pairs: rows are added while there is room. *)
Definition buildInlineKeyboard (maxButtons : Z) (bodyLinks customButtons : list (text * text))
    (notificationId : string) : list TgButton :=
  let room := Z.to_nat maxButtons in
  let body := take room bodyLinks in
  let custom := take (room - length body)%nat customButtons in
  let used := (length body + length custom)%nat in
  ((λ b, {| tb_text := b.1; tb_url := Some b.2; tb_callback := None |}) <$> (body ++ custom)%list) ++
  (if truthy (Some notificationId) && (Z.of_nat used <? maxButtons)
   then [{| tb_text := mute_text; tb_url := None;
            tb_callback := Some ("mute_" +:+ notificationId) |}]
   else []).

Section telegram.
Context `{B : Backend}.
Context (F : Formatting).
(** The configuration: the token of Herald's bot, and [TELEGRAM_MAX_BUTTONS]. *)
Context (heraldToken : option string) (maxButtons : Z).

Definition formatText (protocolName subject category : string) (tier : option Z) (body : text)
    (emoji : text) : text :=
  let bodyText := clamp TELEGRAM_MAX_CAPTION_LENGTH (parseMarkdownToTelegramHtml F body) in
  let lines :=
    ([ emoji ++ units " <b>" ++ escapeHtml (units protocolName) ++ units "</b>"; [];
       units "<b>" ++ escapeHtml (units subject) ++ units "</b>"; []; bodyText ] ++
     (if Z.ltb (default 0 tier) 3 then [ []; via_herald category ] else []))%list in
  clamp TELEGRAM_MAX_MESSAGE_LENGTH (join_lines (filter (λ l, l ≠ []) lines)).

Definition formatCustomMessage (template : text) (vars : gmap string text)
    (category : string) (tier : option Z) : text :=
  let result := injectVariables F template vars in
  let result :=
    if Z.ltb (default 0 tier) 3 then (result ++ [NL; NL] ++ via_herald category)%list
    else result in
  clamp TELEGRAM_MAX_MESSAGE_LENGTH result.

(** [{ ...a, ...b }]: the entries of [b] win. *)
Definition own_vars (p : TgParams) (cleanText : text) : gmap string text :=
  <["protocolName" := units (tp_protocolName p)]>
  (<["subject" := units (tp_subject p)]>
  (<["body" := cleanText]>
  (<["category" := units (tp_category p)]> ∅))).
Definition template_vars (p : TgParams) : gmap string text :=
  units <$> tp_templateVariables p.

Definition loadCustomTemplate (protocolId category : string) (templateId : option string) :
    M World (option TelegramTemplate) :=
  if truthy templateId then
    find_first MTelegramTemplate (λ k r, bool_decide (Some k = templateId) &&
      bool_decide (tt_protocolId r = protocolId) && tt_isActive r) None
  else
    find_first MTelegramTemplate (λ k r, bool_decide (tt_protocolId r = protocolId) &&
      bool_decide (tt_category r = category) && tt_isActive r) None.

(** [rateLimit]: it only counts and waits, and never rejects. *)
Definition rateLimit (chatId : string) (now : Z) : M World () :=
  let key := "tg:rate:" +:+ chatId +:+ ":" +:+ pretty (now / 1000) in
  swallow () (
    n ← redis_incr_ key now;
    if Z.eqb n 1 then redis_pexpire_ key 2000 now else mret ()).

(** The test of the [catch] block; Telegraf's message contains the
    description. *)
Definition isForbidden (e : exn) : bool :=
  match e with
  | JsError m code => bool_decide (code = Some "403") || re_test (lit "forbidden") m
  | HttpError _ m => re_test (lit "forbidden") m
  end.

(** [if (v)] on the text a Redis key holds. *)
Definition truthy_value (v : option rvalue) : bool :=
  match v with
  | None => false
  | Some (RText s) => truthy (Some s)
  | Some _ => true
  end.

Definition blockedKey (chatId : string) : string := "tg:blocked:" +:+ chatId.

(** The message: its text, media and keyboard. *)
Record TgMessage := {
  tm_text : text;
  tm_media : option string;
  tm_keyboard : list TgButton;
  tm_silent : bool;
}.

Definition tracked_link (p : TgParams) (link : text * text) : text * text :=
  if tp_trackEngagement p && truthy (Some (tp_trackingBaseUrl p)) &&
     truthy (Some (tp_notificationId p))
  then (link.1, (units (tp_trackingBaseUrl p) ++ units "/v1/tg/c/" ++
    encodeURIComponent F (tp_notificationId p) ++ units "?url=" ++ base64url F link.2)%list)
  else link.

Definition compose (p : TgParams) : M World TgMessage :=
  let emoji := getCategoryEmoji (tp_category p) in
  let '(cleanText, links) := parseMarkdownLinks F (units (tp_body p)) in
  let media := buildMedia (tp_bannerUrl p) (tp_videoUrl p) in
  let tier := default 0 (tp_tier p) in
  template ← (if Z.leb 2 tier && truthy (tp_protocolId p) then
                loadCustomTemplate (default "" (tp_protocolId p)) (tp_category p) (tp_templateId p)
              else mret None);
  let messageText :=
    match template with
    | Some t => formatCustomMessage (units (tt_textTemplate t))
        (template_vars p ∪ own_vars p cleanText) (tp_category p) (tp_tier p)
    | None => []
    end in
  let customButtons :=
    match template with
    | Some t => (λ b, let vars := own_vars p cleanText ∪ template_vars p in
        (injectVariables F (units b.1) vars, injectVariables F (units b.2) vars)) <$> tt_buttons t
    | None => []
    end in
  let messageText :=
    match messageText with
    | [] => formatText (tp_protocolName p) (tp_subject p) (tp_category p) (tp_tier p) cleanText emoji
    | t => t
    end in
  mret {| tm_text := messageText; tm_media := media;
          tm_keyboard := buildInlineKeyboard maxButtons (tracked_link p <$> links)
            customButtons (tp_notificationId p);
          tm_silent := bool_decide (tp_category p = "marketing") ||
            bool_decide (tp_priority p = Some Normal) |}.

(** The loop over the parts, from part [i] of [n]; [first] is [firstMessageId]. *)
Fixpoint send_parts (p : TgParams) (m : TgMessage) (now : Z) (i n : nat) (first : string)
    (chunks : list text) : M World string :=
  match chunks with
  | [] => mret first
  | c :: cs =>
      _ ← rateLimit (tp_chatId p) now;
      r ← send (TelegramEnvelope (tp_chatId p) (tp_customBotToken p) (tp_messageThreadId p) None
                  (part_text c i n)
                  (if Nat.eqb (S i) n then tm_keyboard m else []) (tm_silent m));
      send_parts p m now (S i) n (if Nat.eqb i 0 then rc_messageId r else first) cs
  end.

Definition send_message (p : TgParams) (m : TgMessage) (now : Z) : M World string :=
  _ ← rateLimit (tp_chatId p) now;
  match tm_media m with
  | Some url =>
      r ← send (TelegramEnvelope (tp_chatId p) (tp_customBotToken p) (tp_messageThreadId p)
                  (Some url) (clamp TELEGRAM_MAX_CAPTION_LENGTH (tm_text m))
                  (tm_keyboard m) (tm_silent m));
      mret (rc_messageId r)
  | None =>
      let chunks := splitIntoChunks (tm_text m) TELEGRAM_MAX_MESSAGE_LENGTH in
      send_parts p m now 0 (length chunks) "" chunks
  end.

Definition BOT_BLOCKED : exn := JsError "BOT_BLOCKED" None.

(** [sendNotification] *)
Definition sendNotification (p : TgParams) (now : Z) : M World string :=
  isBlocked ← swallow None (redis_get (blockedKey (tp_chatId p)) now);
  if truthy_value isBlocked then raise BOT_BLOCKED else
  if negb (truthy (tp_customBotToken p)) && negb (truthy heraldToken)
  then raise (JsError "Telegram service not initialized" None) else
  m ← compose p;
  catch (send_message p m now) (λ e,
    if isForbidden e then
      _ ← swallow () (redis_setex (blockedKey (tp_chatId p)) (7 * 24 * 60 * 60) (RText "1") now);
      raise BOT_BLOCKED
    else raise e).

(** [pinGroupMessage] *)
Definition pinGroupMessage (chatId messageId : string) (customBotToken : option string) :
    M World () :=
  if negb (truthy customBotToken) && negb (truthy heraldToken) then mret () else
  _ ← send (PinEnvelope chatId messageId customBotToken); mret ().

(** [isEnabled], after [onModuleInit]. *)
Definition telegramEnabled : bool := truthy heraldToken.

(** The column [maxTelegramButtons] of a protocol is a parameter: nothing
    else reads it. *)
Definition getMaxButtons (maxTelegramButtons : Protocol → option Z) (protocolId : option string) : M World Z :=
  if negb (truthy protocolId) then mret maxButtons else
  protocol ← find_unique MProtocol (by_id MProtocol (default "" protocolId));
  mret (default maxButtons (protocol ≫= maxTelegramButtons)).
End telegram.

(** ** Lemmas: splitting *)

Lemma concat_addChunk cs s : concat (addChunk cs s) = (concat cs ++ s)%list.
Proof.
  destruct s; cbn; [by rewrite app_nil_r |]. rewrite concat_app. cbn. by rewrite app_nil_r.
Qed.

Lemma Forall_addChunk (P : text → Prop) cs s : Forall P cs → P s → Forall P (addChunk cs s).
Proof. intros. destruct s; [done |]. by apply Forall_app_2; [| constructor]. Qed.

(** What is left to say: the parts so far and the current one fit, and hold
    the text [s] read so far. *)
Definition split_inv (max : nat) (s : text) (st : list text * text) : Prop :=
  Forall (λ c, (length c ≤ max)%nat) st.1 ∧ (length st.2 ≤ max)%nat ∧
  visible (concat st.1 ++ st.2)%list = visible s.

Lemma hard_cut_inv max s chunks line fuel :
  (0 < max)%nat → (length line ≤ fuel)%nat →
  Forall (λ c, (length c ≤ max)%nat) chunks →
  visible (concat chunks ++ line)%list = visible s →
  split_inv max s (hard_cut fuel max chunks line).
Proof.
  intros Hmax. revert chunks line. induction fuel as [|fuel IH]; intros chunks line Hf Hc Hv; cbn [hard_cut].
  { split_and!; [done | cbn; lia | done]. }
  destruct (Nat.ltb_spec max (length line)); [| unfold split_inv; cbn; by split_and!].
  apply IH.
  - rewrite length_drop. lia.
  - apply Forall_addChunk; [done |]. rewrite length_take. lia.
  - by rewrite concat_addChunk, <- app_assoc, take_drop.
Qed.

Lemma visible_sep current seps (s : text) :
  visible seps = [] →
  visible (current ++ sep_after current seps ++ s)%list = visible (current ++ s)%list.
Proof.
  intros Hs. assert (visible (sep_after current seps) = []) as H by by destruct current.
  by rewrite !visible_app, H.
Qed.

Lemma split_line_inv max s st line :
  (0 < max)%nat → split_inv max s st → split_inv max (s ++ line)%list (split_line max st line).
Proof.
  intros Hmax (Hc & Hl & Hv). destruct st as [chunks current]. unfold split_line. cbn in *.
  assert (visible (concat chunks ++ current ++ line)%list = visible (s ++ line)%list) as Hv'.
  { rewrite app_assoc, visible_app, Hv. by rewrite visible_app. }
  destruct (Nat.leb_spec (length (current ++ sep_after current [NL] ++ line)%list) max).
  { split_and!; [done.. |]. cbn. by rewrite visible_app, visible_sep, <- visible_app. }
  destruct (Nat.leb_spec (length line) max).
  - split_and!; cbn; [by apply Forall_addChunk | done |].
    by rewrite concat_addChunk, <- app_assoc.
  - apply hard_cut_inv; [done.. | by apply Forall_addChunk |].
    by rewrite concat_addChunk, <- app_assoc.
Qed.

Lemma split_lines_inv max s st lines :
  (0 < max)%nat → split_inv max s st →
  split_inv max (s ++ concat lines)%list (foldl (split_line max) st lines).
Proof.
  intros Hmax. revert s st. induction lines as [|l ls IH]; intros s st Hi; cbn.
  { by rewrite app_nil_r. }
  rewrite app_assoc. by apply IH, split_line_inv.
Qed.

Lemma split_inv_visible max s s' st :
  visible s = visible s' → split_inv max s st → split_inv max s' st.
Proof. unfold split_inv. by intros ->. Qed.

Lemma split_paragraph_inv max s st para :
  (0 < max)%nat → split_inv max s st →
  split_inv max (s ++ para)%list (split_paragraph max st para).
Proof.
  intros Hmax (Hc & Hl & Hv). destruct st as [chunks current]. unfold split_paragraph. cbn in *.
  assert (visible (concat chunks ++ current ++ para)%list = visible (s ++ para)%list) as Hv'.
  { rewrite app_assoc, visible_app, Hv. by rewrite visible_app. }
  destruct (Nat.leb_spec (length (current ++ sep_after current [NL; NL] ++ para)%list) max).
  { split_and!; [done.. |]. cbn. by rewrite visible_app, visible_sep, <- visible_app. }
  destruct (Nat.leb_spec (length para) max).
  - split_and!; cbn; [by apply Forall_addChunk | done |].
    by rewrite concat_addChunk, <- app_assoc.
  - apply (split_inv_visible _ (s ++ concat (split_lines para))%list).
    { by rewrite !visible_app, split_lines_visible. }
    apply split_lines_inv; [done |].
    split_and!; cbn; [by apply Forall_addChunk | lia |].
    by rewrite concat_addChunk, app_nil_r.
Qed.

Lemma split_paragraphs_inv max s st paras :
  (0 < max)%nat → split_inv max s st →
  split_inv max (s ++ concat paras)%list (foldl (split_paragraph max) st paras).
Proof.
  intros Hmax. revert s st. induction paras as [|l ls IH]; intros s st Hi; cbn.
  { by rewrite app_nil_r. }
  rewrite app_assoc. by apply IH, split_paragraph_inv.
Qed.

Lemma splitIntoChunks_inv t maxLength :
  15 < maxLength →
  Forall (λ c, len c ≤ maxLength - 15) (splitIntoChunks t maxLength) ∧
  visible (concat (splitIntoChunks t maxLength)) = visible t.
Proof.
  intros Hmax. unfold splitIntoChunks. set (max := Z.to_nat (maxLength - 15)).
  destruct (Nat.leb_spec (length t) max).
  { cbn. rewrite app_nil_r. split; [| done]. constructor; [unfold len; lia | done]. }
  pose proof (split_paragraphs_inv max [] ([], []) (split_paragraphs t)) as Hi.
  destruct (foldl _ _ _) as [chunks current].
  destruct Hi as (Hc & Hl & Hv); [lia | split_and!; cbn; [done | lia | done] |]. cbn in *.
  rewrite concat_addChunk, Hv, split_paragraphs_visible. split; [| done].
  apply Forall_addChunk; [| unfold len; lia].
  apply (list.Forall_impl _ _ _ Hc). intros c ?. unfold len. lia.
Qed.

(** A part number of one digit. *)
Lemma len_show_digit n : 0 ≤ n < 10 → len (show n) = 1.
Proof.
  intros. assert (n = 0 ∨ n = 1 ∨ n = 2 ∨ n = 3 ∨ n = 4 ∨ n = 5 ∨ n = 6 ∨ n = 7 ∨ n = 8 ∨ n = 9)
    as Hn by lia.
  repeat (destruct Hn as [-> | Hn]; [reflexivity |]). subst. reflexivity.
Qed.

Lemma len_part_text c i n : (i < n < 10)%nat → len (part_text c i n) ≤ len c + 15.
Proof.
  intros. unfold part_text. destruct (1 <? n)%nat; [| lia].
  rewrite !len_app, !len_show_digit by lia.
  change (len [NL; NL]) with 2. change (len (units "<i>(")) with 4.
  change (len (units "/")) with 1. change (len (units ")</i>")) with 5. lia.
Qed.

Lemma len_clamp max t : 0 < max → len (clamp max t) ≤ max.
Proof.
  intros. unfold clamp. destruct (Z.ltb_spec max (len t)); [| done].
  rewrite len_app, len_slice0 by lia. change (len [ELLIPSIS]) with 1. lia.
Qed.

Lemma buildInlineKeyboard_rows maxButtons links custom nid :
  (length (buildInlineKeyboard maxButtons links custom nid) ≤ Z.to_nat maxButtons)%nat.
Proof.
  unfold buildInlineKeyboard. rewrite length_app, length_fmap, length_app.
  pose proof (length_take links (Z.to_nat maxButtons)).
  pose proof (length_take custom (Z.to_nat maxButtons - length (take (Z.to_nat maxButtons) links))).
  destruct (truthy _ && _) eqn:Hb; cbn [length]; [| lia].
  apply andb_true_iff in Hb as [_ Hb%Z.ltb_lt]. lia.
Qed.

(** ** Lemmas: sending *)

Section sending.
Context `{B : Backend} `{BL : !BackendLaws B}.
Context (F : Formatting) (heraldToken : option string) (maxButtons : Z).

Lemma wp_rateLimit chatId now Q w :
  (∀ w', v_sent (view w') = v_sent (view w) → Q (Ok ()) w') →
  wp (rateLimit chatId now) Q w.
Proof.
  intros HQ. unfold rateLimit. apply wp_swallow. wp_auto; apply HQ; by views.
Qed.

(** The envelope of part [i] of [n]. *)
Definition part_envelope (p : TgParams) (m : TgMessage) (n i : nat) (c : text) : envelope :=
  TelegramEnvelope (tp_chatId p) (tp_customBotToken p) (tp_messageThreadId p) None
    (part_text c i n) (if Nat.eqb (S i) n then tm_keyboard m else []) (tm_silent m).

Definition media_envelope (p : TgParams) (m : TgMessage) (url : string) : envelope :=
  TelegramEnvelope (tp_chatId p) (tp_customBotToken p) (tp_messageThreadId p) (Some url)
    (clamp TELEGRAM_MAX_CAPTION_LENGTH (tm_text m)) (tm_keyboard m) (tm_silent m).

(** What [send_message] hands to Telegram. *)
Definition message_envelopes (p : TgParams) (m : TgMessage) : list envelope :=
  match tm_media m with
  | Some url => [media_envelope p m url]
  | None =>
      let chunks := splitIntoChunks (tm_text m) TELEGRAM_MAX_MESSAGE_LENGTH in
      imap (part_envelope p m (length chunks)) chunks
  end.

(** Everything was sent, or some initial part of it before a rejection. *)
Definition sent_upto (l : list envelope) (w : World) {A} (r : result A) (w' : World) : Prop :=
  match r with
  | Ok _ => v_sent (view w') = v_sent (view w) ++ l
  | Err _ => ∃ l', l' `prefix_of` l ∧ v_sent (view w') = v_sent (view w) ++ l'
  end.

Lemma send_parts_sent p m now i n first cs w :
  wp (send_parts p m now i n first cs)
     (sent_upto (imap (λ j, part_envelope p m n (i + j)) cs) w) w.
Proof.
  revert i first w. induction cs as [|c cs IH]; intros i first w; cbn [send_parts imap].
  { apply wp_ret. cbn. by rewrite app_nil_r. }
  rewrite (imap_ext _ (λ j, part_envelope p m n (S i + j)) cs)
    by (intros j x _; cbn; by rewrite Nat.add_succ_r).
  apply wp_bind, wp_rateLimit. intros w1 H1. apply wp_bind, wp_send.
  - intros r w2 H2. eapply wp_mono; [apply IH |].
    rewrite Nat.add_0_r. fold (part_envelope p m n i c) in H2.
    intros [id | e] w'; cbn [sent_upto].
    + intros ->. rewrite H2. cbn. rewrite H1. by rewrite <- app_assoc.
    + intros (l' & Hl' & ->). rewrite H2. cbn. rewrite H1.
      eexists (_ :: l'). split; [by apply prefix_cons |]. by rewrite <- app_assoc.
  - intros x w2 Hx. cbn. rewrite Nat.add_0_r. destruct Hx as [-> | ->]; cbn; rewrite H1.
    + exists []. split; [apply prefix_nil | by rewrite app_nil_r].
    + eexists [_]. split; [apply prefix_cons, prefix_nil | done].
Qed.

Lemma send_message_sent p m now w :
  wp (send_message p m now) (sent_upto (message_envelopes p m) w) w.
Proof.
  unfold send_message, message_envelopes.
  apply wp_bind, wp_rateLimit. intros w1 H1. destruct (tm_media m) as [url|].
  - apply wp_bind, wp_send.
    + intros r w2 H2. apply wp_ret. cbn [sent_upto]. rewrite H2. cbn. by rewrite H1.
    + intros x w2 Hx. cbn [sent_upto]. destruct Hx as [-> | ->]; cbn; rewrite H1.
      * exists []. split; [apply prefix_nil | by rewrite app_nil_r].
      * by eexists [_].
  - eapply wp_mono; [apply send_parts_sent |]. unfold sent_upto. rewrite <- H1.
    intros [] w'; done.
Qed.

Lemma compose_sent p w :
  wp (compose F maxButtons p) (λ r w', v_sent (view w') = v_sent (view w) ∧
    ∀ m, r = Ok m → len (tm_text m) ≤ TELEGRAM_MAX_MESSAGE_LENGTH ∧
      tm_media m = buildMedia (tp_bannerUrl p) (tp_videoUrl p) ∧
      (length (tm_keyboard m) ≤ Z.to_nat maxButtons)%nat) w.
Proof.
  unfold compose. destruct (parseMarkdownLinks F (units (tp_body p))) as [cleanText links].
  apply wp_bind.
  apply (wp_mono _ (λ r w', v_sent (view w') = v_sent (view w))).
  { destruct (_ && _); [| by apply wp_ret]. unfold loadCustomTemplate.
    destruct (truthy _); apply (wp_find_first MTelegramTemplate); intros; by views. }
  intros [t | e] w' Hw; [| by split].
  apply wp_ret. split; [done |]. intros m [= <-]. cbn. split_and!.
  - match goal with |- context [match ?x with [] => _ | _ => _ end] => destruct x eqn:Hx end.
    + apply len_clamp. done.
    + rewrite <- Hx. destruct t; [apply len_clamp; done | done].
  - done.
  - apply buildInlineKeyboard_rows.
Qed.
End sending.

(** ** Properties *)

(** C10.  Splitting a message: every part leaves room for its number, only
    line breaks are lost, a short message is not split, and with at most nine
    parts each part fits Telegram's limit with its "(i/n)" mark. *)
Theorem split_fits t maxLength :
  15 < maxLength →
  let chunks := splitIntoChunks t maxLength in
  Forall (λ c, len c ≤ maxLength - 15) chunks ∧
  visible (concat chunks) = visible t ∧
  (len t ≤ maxLength - 15 → chunks = [t]) ∧
  ((length chunks < 10)%nat → ∀ i c, chunks !! i = Some c →
     len (part_text c i (length chunks)) ≤ maxLength).
Proof.
  intros Hmax chunks. destruct (splitIntoChunks_inv t maxLength Hmax) as [Hlen Hvis].
  split_and!; [done | done | |].
  - intros Hfit. unfold chunks, splitIntoChunks. by rewrite (proj2 (Nat.leb_le _ _))
      by (unfold len in Hfit; lia).
  - intros Hn i c Hi. pose proof (lookup_lt_Some _ _ _ Hi).
    pose proof (len_part_text c i (length chunks)).
    rewrite list.Forall_forall in Hlen.
    assert (len c ≤ maxLength - 15) by (eapply Hlen, list_elem_of_lookup_2; done). lia.
Qed.

Section properties.
Context `{B : Backend} `{BL : !BackendLaws B}.

(** C9.  [sendNotification] sends one composed message: its media with a
    caption of at most 1024 units, or all parts of a text of at most 4096, in
    order, to the chat of the request, the keyboard (at most [maxButtons]
    rows) on the last part only; when it rejects, an initial segment of those
    parts was sent; and a chat marked as blocked is sent nothing. *)
Theorem telegram_sends_one_message F token maxButtons p now w :
  wp (sendNotification F token maxButtons p now) (λ r w',
    (∃ m, len (tm_text m) ≤ 4096 ∧ (length (tm_keyboard m) ≤ Z.to_nat maxButtons)%nat ∧
       tm_media m = buildMedia (tp_bannerUrl p) (tp_videoUrl p) ∧
       sent_upto (message_envelopes p m) w r w') ∨
    (∃ e, r = Err e ∧ v_sent (view w') = v_sent (view w))) w ∧
  (is_ok (redis_get (blockedKey (tp_chatId p)) now w).1 = true →
   truthy_value (live now (re_strings (v_redis (view w)) !! blockedKey (tp_chatId p))) = true →
   wp (sendNotification F token maxButtons p now) (λ r w',
     r = Err BOT_BLOCKED ∧ v_sent (view w') = v_sent (view w)) w).
Proof.
  split.
  - unfold sendNotification. apply wp_bind, wp_swallow.
    apply wp_intro. intros rv w1 Hrun.
    assert (v_sent (view w1) = v_sent (view w)) as Hw1.
    { revert Hrun. apply (wp_run _ (λ _ w', v_sent (view w') = v_sent (view w))).
      apply wp_redis_get; intros; by views. }
    destruct (truthy_value _); [apply wp_raise; right; eauto |].
    destruct (_ && _); [apply wp_raise; right; eauto |].
    apply wp_bind. eapply wp_mono; [apply compose_sent |].
    intros [m | e] w2 [Hw2 Hm]; [| right; exists e; split; [done | congruence]].
    destruct (Hm m eq_refl) as (? & ? & ?). apply wp_catch.
    eapply wp_mono; [apply send_message_sent |].
    intros [id | e] w3 Hs; cbn in Hs.
    + left. exists m. split_and!; try done. cbn. congruence.
    + destruct Hs as (l' & Hl' & Hs).
      assert (∀ e' w4, v_sent (view w4) = v_sent (view w3) →
        ∃ m0, len (tm_text m0) ≤ 4096 ∧ (length (tm_keyboard m0) ≤ Z.to_nat maxButtons)%nat ∧
          tm_media m0 = buildMedia (tp_bannerUrl p) (tp_videoUrl p) ∧
          sent_upto (message_envelopes p m0) w (Err e' : result string) w4) as Hfin.
      { intros e' w4 Hw4. exists m. split_and!; try done. exists l'. split; [done | congruence]. }
      destruct (isForbidden e); [| apply wp_raise; left; by apply Hfin].
      apply wp_bind, wp_swallow, wp_redis_setex; intros; apply wp_raise; left; apply Hfin;
        by views.
  - intros Hok Hlive. unfold sendNotification. apply wp_bind, wp_swallow.
    apply wp_is_ok; [done |]. apply wp_redis_get; [| done]. intros w' Hw' _. rewrite Hlive.
    apply wp_raise. split; [done | by rewrite Hw'].
Qed.
End properties.

(** ** Witnesses *)

Lemma split_fits_witness :
  let t := replicate 12 97%N ++ [NL; NL] ++ replicate 30 98%N in
  splitIntoChunks t 27 = [replicate 12 97%N; replicate 12 98%N; replicate 12 98%N; replicate 6 98%N] ∧
  Forall (λ c, len c ≤ 27 - 15) (splitIntoChunks t 27).
Proof.
  split; [vm_compute; reflexivity |].
  apply (split_fits (replicate 12 97%N ++ [NL; NL] ++ replicate 30 98%N) 27). lia.
Defined.

Definition plain_format : Formatting := {|
  parseMarkdownLinks := λ t, (t, []); parseMarkdownToTelegramHtml := id;
  injectVariables := λ t _, t; base64url := id; encodeURIComponent := units |}.

Definition tg_params : TgParams := {|
  tp_chatId := "42"; tp_protocolName := "Proto"; tp_protocolId := Some "p1";
  tp_subject := "Alert"; tp_body := "Health factor low"; tp_category := "defi";
  tp_notificationId := "n1"; tp_tier := Some 1; tp_templateId := None;
  tp_templateVariables := ∅; tp_bannerUrl := None; tp_videoUrl := None;
  tp_customBotToken := None; tp_messageThreadId := None; tp_priority := None;
  tp_trackEngagement := false; tp_trackingBaseUrl := "https://api" |}.

Definition blocked_world : World :=
  mem_world no_tables {[ blockedKey "42" := (RText "1", Some 600000000) ]}.

Lemma telegram_sends_one_message_witness :
  wp (sendNotification plain_format (Some "bot") 10 tg_params 1000)
    (λ r w', r = Err BOT_BLOCKED ∧ v_sent (view w') = v_sent (view blocked_world)) blocked_world.
Proof.
  apply (telegram_sends_one_message plain_format (Some "bot") 10 tg_params 1000 blocked_world);
    vm_compute; reflexivity.
Defined.

Example telegram_one_part :
  let '(r, w') := sendNotification plain_format (Some "bot") 10 tg_params 1000
                    (mem_world no_tables ∅) in
  r = Ok "msg" ∧ length (v_sent (view w')) = 1%nat.
Proof. vm_compute. done. Qed.
