(* ===== verification/Unsubscribe.v ===== *)
(** * Unsubscribe tokens

    [UnsubscribeService] of [src/modules/notify/unsubscribe.service.ts], and
    the URL that [ChannelDispatchService.generateSignedUnsubscribeUrl] puts in
    an email.  A token is [payload.signature], the payload JSON in base64url
    and the signature its HMAC.  Node's [crypto], [Buffer] and the JSON of a
    payload are parameters ([Signing]) with their documented laws. *)

From Stdlib Require Import Ascii String.
From stdpp Require Import pretty.
From S2P Require Import Prelude Schema External Memory.

Open Scope string_scope.
Open Scope list_scope.
Open Scope Z_scope.

Record UnsubscribePayload := {
  up_walletHash : string;
  up_category : option string;
  up_protocolId : option string;
  up_expiresAt : Z;                 (** seconds *)
}.

Class Signing := {
  (** [createHmac('sha256', key).update(data).digest('base64url')] and [('hex')] *)
  hmac_b64 : string → string → string;
  hmac_hex : string → string → string;
  (** [Buffer.from(JSON.stringify(p)).toString('base64url')], and the
      [JSON.parse] of the decoded text. *)
  encode_payload : UnsubscribePayload → string;
  decode_payload : string → option UnsubscribePayload;
  (** [Buffer.from(s, 'base64url')] *)
  b64_bytes : string → list N;
}.

Definition has_dot (s : string) : bool := existsb (Ascii.eqb ".") (list_ascii_of_string s).

Class SigningLaws (S : Signing) : Prop := {
  decode_encode p : decode_payload (encode_payload p) = Some p;
  (** The base64url alphabet has no full stop. *)
  encode_no_dot p : has_dot (encode_payload p) = false;
  hmac_no_dot k d : has_dot (hmac_b64 k d) = false;
}.

(** [s.split('.')] *)
Fixpoint split_dot (s : string) : list string :=
  match s with
  | EmptyString => [""]
  | String c s' =>
      if Ascii.eqb "." c then "" :: split_dot s'
      else match split_dot s' with
           | t :: ts => String c t :: ts
           | [] => [String c ""]
           end
  end.

Record UnsubscribeResult := {
  ur_success : bool;
  ur_payload : option UnsubscribePayload;
  ur_error : option string;
}.

Definition refused (error : string) : UnsubscribeResult :=
  {| ur_success := false; ur_payload := None; ur_error := Some error |}.

Definition tokenTtlSeconds : Z := 7 * 24 * 60 * 60.

Section unsubscribe.
Context `{B : Backend} `{S : Signing}.
(** [UNSUBSCRIBE_JWT_SECRET] and [UNSUBSCRIBE_BASE_URL] *)
Context (secret baseUrl : string).

Definition sign (data : string) : string := hmac_b64 secret data.

Definition token_of (payload : UnsubscribePayload) : string :=
  let payloadStr := encode_payload payload in
  payloadStr +:+ "." +:+ sign payloadStr.

Definition token_hash (token : string) : string := hmac_hex "token-hash" token.

Definition generateToken (walletHash : string) (category protocolId : option string) (now : Z) :
    M World string :=
  let expiresAt := now / 1000 + tokenTtlSeconds in
  let payload := {| up_walletHash := walletHash; up_category := category;
                    up_protocolId := protocolId; up_expiresAt := expiresAt |} in
  let token := token_of payload in
  _ ← swallow () (
    _ ← create MUnsubscribeToken (λ _,
      {| ut_tokenHash := token_hash token; ut_walletHash := walletHash; ut_category := category;
         ut_expiresAt := expiresAt * 1000; ut_usedAt := None |});
    mret ());
  mret token.

Definition generateUnsubscribeUrl (walletHash : string) (category protocolId : option string)
    (now : Z) : M World string :=
  token ← generateToken walletHash category protocolId now;
  mret (baseUrl +:+ "/unsubscribe/" +:+ token).

(** [ChannelDispatchService.generateSignedUnsubscribeUrl]: its own token,
    which is not stored. *)
Definition signed_payload (walletHash category : string) (now : Z) : UnsubscribePayload :=
  {| up_walletHash := walletHash;
     up_category := if truthy (Some category) then Some category else None;
     up_protocolId := None; up_expiresAt := now / 1000 + 7 * 24 * 60 * 60 |}.

Definition generateSignedUnsubscribeUrl (walletHash category : string) (now : Z) : string :=
  baseUrl +:+ "/unsubscribe/" +:+ token_of (signed_payload walletHash category now).

(** The signature check shared by [validateAndExecute] and [decodeToken]. *)
Definition signature_ok (payloadStr signature : string) : bool :=
  bool_decide (b64_bytes signature = b64_bytes (sign payloadStr)).

Definition decodeToken (token : string) (now : Z) : option UnsubscribePayload :=
  match split_dot token with
  | [payloadStr; signature] =>
      if negb (signature_ok payloadStr signature) then None else
      match decode_payload payloadStr with
      | Some payload => if up_expiresAt payload <? now / 1000 then None else Some payload
      | None => None
      end
  | _ => None
  end.

(** The column [executeUnsubscribe] clears for a category. *)
Definition opt_out (category : option string) (now : Z) (u : PortalUser) : option PortalUser :=
  match category with
  | None | Some "" | Some "all" => Some (u <| pu_optInAll := false |> <| pu_updatedAt := now |>)
  | Some "defi" => Some (u <| pu_optInDefi := false |> <| pu_updatedAt := now |>)
  | Some "governance" => Some (u <| pu_optInGovernance := false |> <| pu_updatedAt := now |>)
  | Some "marketing" => Some (u <| pu_optInMarketing := false |> <| pu_updatedAt := now |>)
  | Some _ => None
  end.

Definition executeUnsubscribe (payload : UnsubscribePayload) (now : Z) : M World () :=
  let user_id := by_id MPortalUser (up_walletHash payload) in
  user ← find_unique MPortalUser user_id;
  match user with
  | None => mret ()
  | Some u =>
      match opt_out (up_category payload) now u with
      | None => mret ()        (* unknown category *)
      | Some _ =>
          _ ← update MPortalUser user_id (λ r, default r (opt_out (up_category payload) now r));
          mret ()
      end
  end.

Definition validateAndExecute (token : string) (now : Z) : M World UnsubscribeResult :=
  match split_dot token with
  | [payloadStr; signature] =>
      if negb (signature_ok payloadStr signature) then mret (refused "Invalid signature") else
      match decode_payload payloadStr with
      | None => mret (refused "Invalid payload")
      | Some payload =>
          if up_expiresAt payload <? now / 1000 then mret (refused "Token expired") else
          let tokenHash := token_hash token in
          existingToken ← find_unique MUnsubscribeToken (by_id MUnsubscribeToken tokenHash);
          if bool_decide (is_Some (existingToken ≫= ut_usedAt))
          then mret (refused "Token already used") else
          _ ← executeUnsubscribe payload now;
          _ ← match existingToken with
              | Some _ =>
                  _ ← update MUnsubscribeToken (by_id MUnsubscribeToken tokenHash)
                        (λ r, r <| ut_usedAt := Some now |>);
                  mret ()
              | None => mret ()
              end;
          mret {| ur_success := true; ur_payload := Some payload; ur_error := None |}
      end
  | _ => mret (refused "Invalid token format")
  end.

(** ** Lemmas *)

Lemma split_dot_no_dot s : has_dot s = false → split_dot s = [s].
Proof.
  unfold has_dot. induction s as [|c s IH]; [done |]. cbn.
  intros [Hc Hs]%orb_false_iff. rewrite Hc. by rewrite IH.
Qed.

Lemma split_dot_token p s :
  has_dot p = false → has_dot s = false → split_dot (p +:+ "." +:+ s) = [p; s].
Proof.
  intros Hp Hs. induction p as [|c p IH].
  - change (split_dot (String "." s) = [""; s]). cbn. by rewrite split_dot_no_dot.
  - change (split_dot (String c (p +:+ "." +:+ s)) = [String c p; s]).
    apply orb_false_iff in Hp as [Hc Hp]. cbn [split_dot]. rewrite Hc. by rewrite IH.
Qed.

Context `{BL : !BackendLaws B} `{SL : !SigningLaws S}.

Lemma split_token payload :
  split_dot (token_of payload) = [encode_payload payload; sign (encode_payload payload)].
Proof. apply split_dot_token; [apply encode_no_dot | apply hmac_no_dot]. Qed.

(** The categories there are: everything, for none or ['all'], or one of three. *)
Definition everything (category : option string) : bool :=
  match category with None => true | Some c => bool_decide (c = "" ∨ c = "all") end.
Definition known (category : option string) : bool :=
  everything category || bool_decide (category ∈ Some <$> ["defi"; "governance"; "marketing"]).

(** A user without a category: each flag stays unless it is that of the
    category. *)
Definition without (category : option string) (now : Z) (u : PortalUser) : PortalUser :=
  let keeps flag c := flag u && negb (bool_decide (category = Some c)) in
  u <| pu_optInAll := pu_optInAll u && negb (everything category) |>
    <| pu_optInDefi := keeps pu_optInDefi "defi" |>
    <| pu_optInGovernance := keeps pu_optInGovernance "governance" |>
    <| pu_optInMarketing := keeps pu_optInMarketing "marketing" |>
    <| pu_updatedAt := now |>.

Lemma opt_out_without category now u :
  opt_out category now u = if known category then Some (without category now u) else None.
Proof.
  assert (∀ c, opt_out (Some c) now u = None ∨ c ∈ [""; "all"; "defi"; "governance"; "marketing"]) as Hcases.
  { intros c. unfold opt_out. repeat case_match; try (by left); right; subst; rewrite !elem_of_cons; tauto. }
  destruct category as [c|].
  2:{ unfold without. destruct u, pu_optInDefi, pu_optInGovernance, pu_optInMarketing, pu_optInAll; reflexivity. }
  destruct (decide (c ∈ [""; "all"; "defi"; "governance"; "marketing"])) as [Hin | Hout].
  - unfold without. rewrite !elem_of_cons, elem_of_nil in Hin. 
    destruct Hin as [-> | [-> | [-> | [-> | [-> | []]]]]];
      destruct u, pu_optInDefi, pu_optInGovernance, pu_optInMarketing, pu_optInAll; reflexivity.
  - destruct (Hcases c) as [-> | ?]; [| done]. rewrite !not_elem_of_cons in Hout.
    unfold known, everything. rewrite !bool_decide_eq_false_2; [done | |]; [set_solver | naive_solver].
Qed.

(** Redeeming [payload]: the one flag of the one user it names, where there is
    that user and the category is one of those known. *)
Definition executed (payload : UnsubscribePayload) (now : Z) (v : View) : View :=
  match v_tables v MPortalUser !! up_walletHash payload with
  | Some u =>
      if known (up_category payload)
      then v <| v_tables ::= upd MPortalUser <[up_walletHash payload := without (up_category payload) now u]> |>
      else v
  | None => v
  end.

(** Marking a token as used, where its row was stored. *)
Definition marked (token : string) (now : Z) (v : View) : View :=
  match v_tables v MUnsubscribeToken !! token_hash token with
  | Some t => v <| v_tables ::= upd MUnsubscribeToken <[token_hash token := t <| ut_usedAt := Some now |>]> |>
  | None => v
  end.

Definition used (token : string) (v : View) : Prop :=
  is_Some (v_tables v MUnsubscribeToken !! token_hash token ≫= ut_usedAt).

(** A redemption of a token that is valid: refused if it was used, and
    otherwise the flag and the mark; when it rejects, neither, or, of a token
    that was not used, the flag alone. *)
Definition redeemed (token : string) (payload : UnsubscribePayload) (now : Z) (v : View)
    (r : result UnsubscribeResult) (v' : View) : Prop :=
  match r with
  | Ok res =>
      (used token v ∧ res = refused "Token already used" ∧ v' = v) ∨
      (¬ used token v ∧ v' = marked token now (executed payload now v) ∧
       res = {| ur_success := true; ur_payload := Some payload; ur_error := None |})
  | Err _ => v' = v ∨ (¬ used token v ∧ v' = executed payload now v)
  end.

Lemma executed_tokens payload now v :
  v_tables (executed payload now v) MUnsubscribeToken = v_tables v MUnsubscribeToken.
Proof. unfold executed. destruct (_ !! _); [| done]. destruct (known _); [| done]. cbn. by rewrite upd_ne. Qed.

Lemma mark_spec token now o (Q : result () → World → Prop) w :
  (∀ w', view w' = marked token now (view w) → Q (Ok ()) w') →
  (∀ e w', view w' = view w → Q (Err e) w') →
  v_tables (view w) MUnsubscribeToken !! token_hash token = o →
  wp (match o with
      | Some _ =>
          _ ← update MUnsubscribeToken (by_id MUnsubscribeToken (token_hash token))
                (λ r, r <| ut_usedAt := Some now |>);
          mret ()
      | None => mret ()
      end) Q w.
Proof.
  unfold marked. intros Hok Herr Ho. destruct o as [t|].
  - apply wp_bind, (wp_update MUnsubscribeToken); [| done]. intros k r w' Hk Hp Hv.
    unfold by_id in Hp. apply bool_decide_eq_true in Hp as ->. apply wp_ret, Hok.
    cbn [row] in *. by rewrite Hk.
  - apply wp_ret, Hok. cbn [row] in *. by rewrite Ho.
Qed.

Lemma executeUnsubscribe_spec payload now w :
  wp (executeUnsubscribe payload now) (λ r w',
    match r with Ok _ => view w' = executed payload now (view w) | Err _ => view w' = view w end) w.
Proof.
  unfold executeUnsubscribe, executed. apply wp_bind, (wp_find_unique MPortalUser); [| done].
  intros o w1 Ho Hv1. apply found_by_id in Ho as ->.
  destruct (v_tables (view w) MPortalUser !! up_walletHash payload) as [u|] eqn:Hu;
    [| by apply wp_ret].
  rewrite opt_out_without. destruct (known (up_category payload)) eqn:Hknown; [| by apply wp_ret].
  apply wp_bind, wp_update; [| by intros; congruence].
  intros k r w2 Hk Hp Hv2. unfold by_id in Hp. apply bool_decide_eq_true in Hp as ->.
  rewrite Hv1 in Hk, Hv2. rewrite Hk in Hu. injection Hu as ->.
  apply wp_ret. by rewrite Hv2, opt_out_without, Hknown.
Qed.

(** ** Properties *)

(** C7.  A token is redeemed as it was issued.  Until it expires it decodes to
    its payload, and redeeming it is refused as used exactly if its row was
    marked as used, and then nothing changes.  Otherwise it opts the wallet out
    of the payload's category (of everything for none or ['all'], of nothing
    for a category that is not known), marks the token's row, where there is
    one, as used, reports the payload, and changes nothing else: no other flag,
    no other user, no other table.  When it rejects on a database error,
    nothing changed, or the flag alone was cleared before the mark failed.
    After expiry it is refused, and nothing changes. *)
Theorem token_roundtrip payload now w :
  (now / 1000 ≤ up_expiresAt payload →
   decodeToken (token_of payload) now = Some payload ∧
   wp (validateAndExecute (token_of payload) now) (λ r w',
     redeemed (token_of payload) payload now (view w) r (view w')) w) ∧
  (up_expiresAt payload < now / 1000 →
   decodeToken (token_of payload) now = None ∧
   wp (validateAndExecute (token_of payload) now) (λ r w',
     r = Ok (refused "Token expired") ∧ view w' = view w) w).
Proof.
  unfold decodeToken, validateAndExecute, signature_ok.
  rewrite split_token, bool_decide_true by done. cbn [negb]. rewrite decode_encode. split; intros Hexp.
  2:{ rewrite (proj2 (Z.ltb_lt _ _)) by done. split; [done | by apply wp_ret]. }
  rewrite (proj2 (Z.ltb_ge _ _)) by done. split; [done |].
  apply wp_bind, (wp_find_unique MUnsubscribeToken); [| by intros; left].
  intros o w1 Ho%found_by_id Hv1. subst o. case_bool_decide as Hused; [by apply wp_ret; left |].
  apply wp_bind. eapply wp_mono; [apply executeUnsubscribe_spec |].
  rewrite Hv1. intros [[] | e] w2 H2; [| by left].
  apply wp_bind. apply mark_spec.
  - intros w3 H3. apply wp_ret. right. split_and!; [done | by rewrite H3, H2 | done].
  - intros e w3 H3. right. split; [done | congruence].
  - by rewrite H2, executed_tokens.
Qed.

(** C39.  Nothing but a correctly signed token has an effect: when the signature of a token does not match its payload, or it is not of the
    form [payload.signature], redeeming it changes nothing and is refused. *)
Theorem forged_token_refused token now w :
  (∀ p s, split_dot token = [p; s] → b64_bytes s ≠ b64_bytes (sign p)) →
  decodeToken token now = None ∧
  wp (validateAndExecute token now) (λ r w',
    (r = Ok (refused "Invalid signature") ∨ r = Ok (refused "Invalid token format")) ∧
    view w' = view w) w.
Proof.
  intros Hforged. unfold decodeToken, validateAndExecute, signature_ok.
  destruct (split_dot token) as [|p [|s [|? ?]]];
    try (split; [done | apply wp_ret; split; [by right | done]]).
  rewrite bool_decide_false by (by apply Hforged). split; [done |].
  apply wp_ret. split; [by left | done].
Qed.
End unsubscribe.

(** ** Witnesses

    A signing back end that meets the laws: a payload as the bits of its
    number, and a keyed text without full stops. *)

#[export] Instance UnsubscribePayload_eq_dec : EqDecision UnsubscribePayload.
Proof. solve_decision. Defined.

#[export] Instance UnsubscribePayload_countable : Countable UnsubscribePayload.
Proof.
  refine (inj_countable'
    (λ p, (up_walletHash p, up_category p, up_protocolId p, up_expiresAt p))
    (λ '(a, b, c, d), {| up_walletHash := a; up_category := b;
                         up_protocolId := c; up_expiresAt := d |}) _).
  by intros [].
Defined.

Fixpoint bits (p : positive) : string :=
  match p with
  | xH => "1"
  | xO p => String "0" (bits p)
  | xI p => String "1" (bits p)
  end.

Fixpoint unbits (s : string) : option positive :=
  match s with
  | String "1" EmptyString => Some xH
  | String "0" s => xO <$> unbits s
  | String "1" s => xI <$> unbits s
  | _ => None
  end.

Fixpoint undot (s : string) : string :=
  match s with
  | EmptyString => ""
  | String c s => String (if Ascii.eqb "." c then "," else c)%char (undot s)
  end.

#[export] Instance toy_signing : Signing := {
  hmac_b64 k d := undot (k +:+ d);
  hmac_hex k d := k +:+ d;
  encode_payload p := bits (encode p);
  decode_payload s := unbits s ≫= decode;
  b64_bytes s := N_of_ascii <$> list_ascii_of_string s;
}.

Lemma unbits_bits p : unbits (bits p) = Some p.
Proof. induction p as [p IH | p IH |]; cbn; [| by rewrite IH | done]. rewrite IH. by destruct p. Qed.

#[export] Instance toy_signing_laws : SigningLaws toy_signing.
Proof.
  split; cbn.
  - intros p. rewrite unbits_bits. apply countable.decode_encode.
  - intros p. induction (encode p); done.
  - intros k d. induction (k +:+ d) as [|c s IH]; [done |].
    cbn [undot]. unfold has_dot in *. cbn [list_ascii_of_string existsb]. rewrite IH, orb_false_r.
    destruct (Ascii.eqb_spec "." c) as [<- | Hc]; [done |]. by apply Ascii.eqb_neq.
Qed.

Definition sample_user : PortalUser := {|
  pu_walletHash := "abc"; pu_emailHash := None; pu_optInAll := true; pu_optInDefi := true;
  pu_optInGovernance := true; pu_optInMarketing := true; pu_updatedAt := 0 |}.

Definition sample_payload : UnsubscribePayload := {|
  up_walletHash := "abc"; up_category := Some "governance"; up_protocolId := None;
  up_expiresAt := 604800 |}.

Definition user_world : World :=
  mem_world (with_rows MPortalUser [sample_user] no_tables) ∅.

(** The row [generateToken] stores, of a token not yet used. *)
Definition token_world : World :=
  mem_world (with_rows MUnsubscribeToken [{| ut_tokenHash := token_hash (token_of "key" sample_payload);
      ut_walletHash := "abc"; ut_category := Some "governance"; ut_expiresAt := 604800000;
      ut_usedAt := None |}]
    (v_tables (view user_world))) ∅.

(** The first redemption opts out and marks the row; the second is refused. *)
Lemma token_roundtrip_witness :
  let run := validateAndExecute "key" (token_of "key" sample_payload) 1000 in
  let w1 := (run token_world).2 in
  (from_option ur_success false match (run token_world).1 with Ok res => Some res | Err _ => None end = true ∧
   pu_optInGovernance <$> v_tables (view w1) MPortalUser !! "abc" = Some false ∧
   (run w1).1 = Ok (refused "Token already used")) ∧
  wp run (λ r w', redeemed (token_of "key" sample_payload) sample_payload 1000 (view token_world) r (view w'))
    token_world ∧
  wp run (λ r w', redeemed (token_of "key" sample_payload) sample_payload 1000 (view w1) r (view w')) w1.
Proof.
  intros run w1. split; [split; [| split]; vm_compute; reflexivity |]. split.
  - apply (proj1 (token_roundtrip "key" sample_payload 1000 token_world)). vm_compute. discriminate.
  - apply (proj1 (token_roundtrip "key" sample_payload 1000 w1)). vm_compute. discriminate.
Defined.

Lemma forged_token_refused_witness :
  decodeToken "key" "01.xyz" 1000 = None.
Proof.
  apply (forged_token_refused "key" "01.xyz" 1000 user_world).
  cbn. intros p s [= <- <-]. vm_compute. discriminate.
Defined.
