(* ===== verification/Channels.v ===== *)
(** * Delivery over the channels

    [ChannelDispatchService] of [src/modules/channel/channel-dispatch.service.ts]
    with what it calls of [SesIdentityService] and [TelegramMigrationService].
    [TemplateService.render], the decryption of a bot token, markdown
    stripping and the encodings are parameters ([ChannelConfig]); [Template]
    and [Markdown] model the first and the third.  The
    deliveries of one dispatch, which the source starts together, are run in
    the order they are started; a promise that is not awaited runs where it
    is created, and its rejection is dropped. *)

From Stdlib Require Import Ascii String.
From stdpp Require Import sorting.
From S2P Require Import Prelude Schema External Memory Frame Text Sms Telegram Unsubscribe.

Open Scope string_scope.
Open Scope list_scope.
Open Scope Z_scope.

(** [RenderParams] *)
Record RenderParams := {
  rp_template : string;
  rp_templateId : option string;
  rp_tier : Z;
  rp_protocolId : string;
  rp_variables : gmap string (option string);
}.

Record ChannelConfig `{B : Backend} := {
  cc_format : Formatting;
  cc_stripMarkdown : text → text;
  (** reads templates, and gives the HTML and the plain text *)
  cc_render : RenderParams → World → result (text * text);
  (** [decryptAes256Gcm(encrypted, key)] *)
  cc_decrypt : string → string → result string;
  cc_heraldToken : option string;           (** [TELEGRAM_BOT_TOKEN] *)
  cc_maxButtons : Z;
  cc_snsEnabled : bool;
  cc_sesAutoVerify : bool;
  cc_encryptionKey : option string;         (** [ENCRYPTION_KEY_ID] *)
  cc_trackingBaseUrl : string;
  cc_unsubscribeSecret : string;
  cc_unsubscribeBaseUrl : string;
}.

(** ** Which channels *)

Definition channel_index (c : channel) : Z :=
  match c with Email => 0 | Telegram => 1 | Sms => 2 end.

Definition channel_le (a b : channel) : Prop := channel_index a ≤ channel_index b.

#[export] Instance channel_le_dec a b : Decision (channel_le a b) :=
  decide (channel_index a ≤ channel_index b).

Definition mem (c : channel) (l : list channel) : bool := bool_decide (c ∈ l).

(** The channels with a contact that the tier may use. *)
Definition registered_channels (channels : DecryptedChannels) (tier : Z) : list channel :=
  (if truthy (tc_email channels) then [Email] else []) ++
  (if truthy (tc_telegramChatId channels) && (1 <=? tier) then [Telegram] else []) ++
  (if truthy (tc_phone channels) && (1 <=? tier) then [Sms] else []).

Definition explicit_channels (job : NotificationJobData) : option (list channel) :=
  match j_preferredChannel job, j_channels job with
  | Some c, _ => Some [c]
  | None, Some (c :: cs) => Some (c :: cs)
  | None, _ => None
  end.

Definition urgent (job : NotificationJobData) : bool :=
  bool_decide (j_priority job = Some Important) || bool_decide (j_priority job = Some Critical).

Definition resolveAllowedChannels (channels : DecryptedChannels) (job : NotificationJobData) :
    list channel :=
  let tier := default 0 (j_tier job) in
  let registered := registered_channels channels tier in
  match registered with
  | [] => []
  | _ =>
      let excluded := default [] (j_excludedChannels job) in
      let allowed :=
        match explicit_channels job with
        | Some explicit =>
            List.filter (λ c, mem c registered && negb (mem c excluded)) explicit
        | None => List.filter (λ c, negb (mem c excluded)) registered
        end in
      let allowed :=
        if (1 <=? tier) && urgent job && truthy (tc_phone channels) &&
           negb (mem Sms excluded) && negb (mem Sms allowed)
        then allowed ++ [Sms] else allowed in
      merge_sort channel_le allowed
  end.

(** ** Engagement tracking in an HTML mail *)

Definition starts_with (p s : text) : bool := bool_decide (p = take (length p) s).

Fixpoint take_until (c : N) (s : text) : option (text * text) :=
  match s with
  | [] => None
  | x :: s' =>
      if N.eqb x c then Some ([], s')
      else '(a, b) ← take_until c s'; Some (x :: a, b)
  end.

Definition http_prefix (s : text) : option text :=
  if starts_with (units "https://") s then Some (drop 8 s)
  else if starts_with (units "http://") s then Some (drop 7 s)
  else None.

Definition QUOTE : N := 34.

(** A match of the source's expression at the start of [s], an [href]
    attribute with an http or https URL that does not go to
    notify.useherald.xyz: the URL, and what follows the match. *)
Definition href_match (s : text) : option (text * text) :=
  if negb (starts_with (units "href=" ++ [QUOTE]) s) then None else
  let s := drop 6 s in
  rest ← http_prefix s;
  if starts_with (units "notify.useherald.xyz") rest then None else
  '(tail, after) ← take_until QUOTE rest;
  match tail with
  | [] => None
  | _ => Some (take (length s - length rest) s ++ tail, after)
  end.

(** [html.replace(re, f)]; the length of the text is enough fuel. *)
Fixpoint wrap_links (fuel : nat) (f : text → text) (s : text) : text :=
  match fuel, s with
  | O, _ => s
  | _, [] => []
  | S fuel', x :: s' =>
      match href_match s with
      | Some (url, after) =>
          units "href=" ++ [QUOTE] ++ f url ++ [QUOTE] ++ wrap_links fuel' f after
      | None => x :: wrap_links fuel' f s'
      end
  end.

(** [html.replace('</body>', pixel + '</body>')] where there is one. *)
Fixpoint before_first (p ins : text) (s : text) : option text :=
  if starts_with p s then Some (ins ++ s) else
  match s with
  | [] => None
  | x :: s' => cons x <$> before_first p ins s'
  end.

Section channels.
Context `{B : Backend} `{S : Signing}.
Context (cfg : ChannelConfig).

Definition track_html (job : NotificationJobData) (html : text) : text :=
  let pid := encodeURIComponent (cc_format cfg) (j_protocolId job) in
  let nid := encodeURIComponent (cc_format cfg) (j_notificationId job) in
  let base := units (cc_trackingBaseUrl cfg) in
  let html := wrap_links (length html) (λ url,
    base ++ units "/v1/track/click/" ++ nid ++ units "?p=" ++ pid ++ units "&url=" ++
    base64url (cc_format cfg) url) html in
  let q := [QUOTE] in
  let pixel :=
    units "<img src=" ++ q ++ base ++ units "/v1/track/open/" ++ nid ++ units "?p=" ++ pid ++ q ++
    units " width=" ++ q ++ units "1" ++ q ++ units " height=" ++ q ++ units "1" ++ q ++
    units " style=" ++ q ++ units "display:none;border:0;" ++ q ++ units " alt=" ++ q ++ q ++
    units " />" in
  default (html ++ pixel) (before_first (units "</body>") pixel html).

(** ** Helpers *)

Definition getTemplateName (category : string) : string :=
  if (category =? "governance")%string then "governance"
  else if (category =? "system")%string then "system"
  else if (category =? "marketing")%string then "marketing"
  else "defi-alert".

Definition fetchProtocolAssets (protocolId : string) : M World (list ProtocolAsset) :=
  swallow [] (find_many MProtocolAsset
    (λ _ r, bool_decide (pa_protocolId r = protocolId) && pa_isActive r) None).

(** [assets.find(a => a.assetType === t)?.url] *)
Definition asset_url (t : string) (assets : list ProtocolAsset) : option string :=
  pa_url <$> List.find (λ a, (pa_assetType a =? t)%string) assets.

(** [SesIdentityService.ensureVerified]; an error's [name] is kept as its code. *)
Definition ensureVerified (email : string) (now : Z) : M World () :=
  if negb (cc_sesAutoVerify cfg) then mret () else
  let verified := "ses:verified:" +:+ email in
  let backoff := "ses:verify:backoff:" +:+ email in
  catch (
    v ← redis_get verified now;
    if truthy_value v then mret () else
    b ← redis_get backoff now;
    if truthy_value b then mret () else
    _ ← send (VerifyIdentityEnvelope email);
    redis_setex verified 3600 (RText "1") now)
  (λ e,
    let code := match e with JsError _ c => c | HttpError _ _ => None end in
    if bool_decide (code = Some "AlreadyExistsException")
    then redis_setex verified 3600 (RText "1") now
    else if bool_decide (code = Some "LimitExceededException") ||
            bool_decide (code = Some "Throttling")
    then redis_setex backoff 300 (RText "1") now
    else mret ()).

(** [TelegramMigrationService.isMigrated] and [sendSinglePrompt] *)
Definition isMigrated (chatId protocolId : string) (now : Z) : M World bool :=
  v ← swallow None (redis_get ("tg:migrated:" +:+ chatId +:+ ":" +:+ protocolId) now);
  mret (bool_decide (is_Some v)).

Definition PROMPTED_TTL : Z := 3 * 24 * 60 * 60.

Definition sendSinglePrompt (chatId protocolId botUsername protocolName : string) (now : Z) :
    M World () :=
  let key := "tg:migrate_prompt:" +:+ chatId +:+ ":" +:+ protocolId in
  v ← swallow None (redis_get key now);
  if bool_decide (is_Some v) then mret () else
  if negb (truthy (cc_heraldToken cfg)) then mret () else
  swallow () (
    _ ← send (MigrationPromptEnvelope chatId protocolId botUsername protocolName);
    swallow () (redis_setex key PROMPTED_TTL (RText "1") now)).

(** ** The three deliveries *)

Definition failed_outcome (c : channel) (error : string) : ChannelDeliveryOutcome :=
  {| o_channel := Some c; o_success := false; o_messageId := None; o_provider := None;
     o_error := Some error |}.

Definition delivered_outcome (c : channel) (messageId provider : string) :
    ChannelDeliveryOutcome :=
  {| o_channel := Some c; o_success := true; o_messageId := Some messageId;
     o_provider := Some provider; o_error := None |}.

Definition reason_name (r : SuppressionReason) : string :=
  match r with
  | hard_bounce => "hard_bounce" | soft_bounce => "soft_bounce" | complaint => "complaint"
  end.

Definition email_variables (job : NotificationJobData) (unsubscribeUrl : string)
    (logoUrl websiteUrl bannerUrl : option string) : gmap string (option string) :=
  <["protocolName" := Some (j_protocolName job)]>
  (<["subject" := Some (j_subject job)]>
  (<["body" := Some (j_body job)]>
  (<["category" := Some (j_category job)]>
  (<["walletAddress" := Some (j_wallet job)]>
  (<["unsubscribeUrl" := Some unsubscribeUrl]>
  (<["logoUrl" := logoUrl]>
  (<["websiteUrl" := websiteUrl]>
  (<["bannerUrl" := bannerUrl]> (Some <$> j_templateVariables job))))))))).

Definition unsubscribe_url (job : NotificationJobData) (now : Z) : string :=
  generateSignedUnsubscribeUrl (cc_unsubscribeSecret cfg) (cc_unsubscribeBaseUrl cfg)
    (default "" (j_walletHash job)) (j_category job) now.

(** The body of [deliverEmail]'s [try]. *)
Definition send_email (email : string) (job : NotificationJobData) (assets : list ProtocolAsset)
    (now : Z) : M World ChannelDeliveryOutcome :=
  customDomain ← find_first MDkimKey (λ _ r,
    bool_decide (dk_protocolId r = Some (j_protocolId job)) && dk_isActive r && dk_dnsVerified r)
    (Some dk_createdAt);
  let senderDomain := from_option dk_domain "useherald.xyz" customDomain in
  settings ← find_unique MProtocolSettings (by_id MProtocolSettings (j_protocolId job));
  rendered ← (λ w, (cc_render cfg {|
    rp_template := getTemplateName (j_category job); rp_templateId := j_templateId job;
    rp_tier := default 0 (j_tier job); rp_protocolId := j_protocolId job;
    rp_variables := email_variables job (unsubscribe_url job now) (asset_url "logo" assets)
      (chain ps_websiteUrl settings) (asset_url "banner" assets) |} w, w));
  let '(html, plain) := rendered in
  html ← (if chain_bool ps_trackEngagement settings && negb (bool_decide (html = [])) then
            _ ← swallow () (
              _ ← update MNotification (by_id MNotification (j_notificationId job))
                    (λ n, n <| n_trackingEnabled := true |>);
              mret ());
            mret (track_html job html)
          else mret html);
  _ ← swallow () (ensureVerified email now);
  sendResult ← send (MailEnvelope email
    (j_protocolName job +:+ " via Herald <noreply@" +:+ senderDomain +:+ ">")
    ("[" +:+ j_protocolName job +:+ "] " +:+ j_subject job) html plain
    (unsubscribe_url job now) (j_notificationId job));
  mret (delivered_outcome Email (rc_messageId sendResult) (rc_provider sendResult)).

Definition deliverEmail (email : string) (job : NotificationJobData) (assets : list ProtocolAsset)
    (now : Z) : M World ChannelDeliveryOutcome :=
  suppressed ← (if truthy (j_walletHash job)
                then find_unique MEmailSuppression
                       (by_id MEmailSuppression (default "" (j_walletHash job)))
                else mret None);
  match suppressed with
  | Some s => mret (failed_outcome Email ("Email suppressed: " +:+ reason_name (es_reason s)))
  | None =>
      catch (send_email email job assets now) (λ e, mret (failed_outcome Email (err_message e)))
  end.

(** What [deliverTelegram] reads from the protocol's settings. *)
Record TelegramSetup := {
  ts_customBotToken : option string;
  ts_botUsername : option string;
  ts_groupChatId : option string;
  ts_threadId : option string;
  ts_trackEngagement : bool;
  ts_autoPin : bool;
}.

Definition no_setup : TelegramSetup := {|
  ts_customBotToken := None; ts_botUsername := None; ts_groupChatId := None;
  ts_threadId := None; ts_trackEngagement := false; ts_autoPin := false |}.

Definition telegram_setup (job : NotificationJobData) : M World TelegramSetup :=
  if negb (truthy (Some (j_protocolId job))) then mret no_setup else
  settings ← find_unique MProtocolSettings (by_id MProtocolSettings (j_protocolId job));
  let track := chain_bool ps_trackEngagement settings in
  let pin := chain_bool ps_telegramAutoPinEnabled settings in
  let username := chain ps_telegramBotUsername settings in
  if default 0 (j_tier job) <? 1 then
    mret {| ts_customBotToken := None; ts_botUsername := username; ts_groupChatId := None;
            ts_threadId := None; ts_trackEngagement := track; ts_autoPin := pin |}
  else
    token ← match chain ps_telegramBotTokenEncrypted settings with
            | Some enc =>
                if truthy (cc_encryptionKey cfg) then
                  t ← lift (cc_decrypt cfg enc (default "" (cc_encryptionKey cfg)));
                  mret (Some t)
                else mret None
            | None => mret None
            end;
    mret {| ts_customBotToken := token; ts_botUsername := username;
            ts_groupChatId := chain ps_telegramGroupChatId settings;
            ts_threadId :=
              if truthy (Some (j_category job))
              then chain (lookup (j_category job)) (chain ps_telegramThreadIds settings) else None;
            ts_trackEngagement := track; ts_autoPin := pin |}.

Definition telegram_params (job : NotificationJobData) (s : TelegramSetup)
    (assets : list ProtocolAsset) (chatId : string) (botToken : option string) : TgParams := {|
  tp_chatId := chatId; tp_protocolName := j_protocolName job;
  tp_protocolId := Some (j_protocolId job); tp_subject := j_subject job; tp_body := j_body job;
  tp_category := j_category job; tp_notificationId := j_notificationId job; tp_tier := j_tier job;
  tp_templateId := j_telegramTemplateId job; tp_templateVariables := j_templateVariables job;
  tp_bannerUrl := asset_url "banner" assets; tp_videoUrl := asset_url "video" assets;
  tp_customBotToken := botToken; tp_messageThreadId := ts_threadId s;
  tp_priority := j_priority job; tp_trackEngagement := ts_trackEngagement s;
  tp_trackingBaseUrl := cc_trackingBaseUrl cfg |}.

Definition tg_send (p : TgParams) (now : Z) : M World string :=
  sendNotification (cc_format cfg) (cc_heraldToken cfg) (cc_maxButtons cfg) p now.

(** Delivery to the group, once per notification. *)
Definition deliver_group (job : NotificationJobData) (s : TelegramSetup)
    (assets : list ProtocolAsset) (groupChatId : string) (now : Z) : M World () :=
  let groupSentKey := "tg:group_sent:" +:+ j_notificationId job +:+ ":" +:+ groupChatId in
  alreadySent ← swallow None (redis_get groupSentKey now);
  if truthy_value alreadySent then mret () else
  groupResult ← swallow None (
    id ← tg_send (telegram_params job s assets groupChatId (ts_customBotToken s)) now;
    mret (Some id));
  match groupResult with
  | None => mret ()
  | Some messageId =>
      _ ← redis_setex groupSentKey 86400 (RText "1") now;
      _ ← swallow () (redis_setex ("tg:gmsg:" +:+ groupChatId +:+ ":" +:+ messageId)
                        (7 * 86400) (RText (j_notificationId job)) now);
      if ts_autoPin s && ((j_category job =? "security")%string || urgent job)
      then swallow () (pinGroupMessage (cc_heraldToken cfg) groupChatId messageId
                         (ts_customBotToken s))
      else mret ()
  end.

(** The body of [deliverTelegram]'s [try]. *)
Definition send_telegram (chatId : string) (job : NotificationJobData)
    (assets : list ProtocolAsset) (now : Z) : M World ChannelDeliveryOutcome :=
  s ← telegram_setup job;
  protocolMuted ← swallow None
    (redis_get ("tg:mute:" +:+ chatId +:+ ":" +:+ j_protocolId job) now);
  if truthy_value protocolMuted then mret (failed_outcome Telegram "muted_by_user") else
  categoryMuted ← swallow None
    (redis_get ("tg:mute_cat:" +:+ chatId +:+ ":" +:+ j_category job) now);
  if truthy_value categoryMuted
  then mret (failed_outcome Telegram ("muted_category:" +:+ j_category job)) else
  let herald := telegram_params job s assets chatId None in
  messageId ←
    (if truthy (ts_customBotToken s) && truthy (ts_botUsername s) then
       migrated ← isMigrated chatId (j_protocolId job) now;
       if (migrated : bool) then
         tg_send (telegram_params job s assets chatId (ts_customBotToken s)) now
       else
         id ← tg_send herald now;
         _ ← swallow () (sendSinglePrompt chatId (j_protocolId job)
               (default "" (ts_botUsername s)) (j_protocolName job) now);
         mret id
     else tg_send herald now);
  _ ← (if truthy (ts_groupChatId s)
       then deliver_group job s assets (default "" (ts_groupChatId s)) now
       else mret ());
  mret (delivered_outcome Telegram messageId "telegram_bot_api").

Definition deliverTelegram (chatId : string) (job : NotificationJobData)
    (assets : list ProtocolAsset) (now : Z) : M World ChannelDeliveryOutcome :=
  catch (send_telegram chatId job assets now) (λ e,
    mret (failed_outcome Telegram
      (if (err_message e =? "BOT_BLOCKED")%string then "bot_blocked_by_user" else err_message e))).

Definition deliverSms (phone : string) (job : NotificationJobData) :
    M World ChannelDeliveryOutcome :=
  catch (
    messageId ← sendSms (cc_stripMarkdown cfg) (cc_snsEnabled cfg) phone
      {| sm_protocolName := units (j_protocolName job); sm_subject := units (j_subject job);
         sm_body := units (j_body job) |};
    mret (delivered_outcome Sms messageId "aws_sns"))
  (λ e, mret (failed_outcome Sms (err_message e))).

(** ** Dispatch *)

Definition delivery_row (notificationId : string) (now : Z) (o : ChannelDeliveryOutcome)
    (id : string) : ChannelDelivery := {|
  cd_id := id; cd_notificationId := notificationId; cd_channel := o_channel o;
  cd_success := o_success o; cd_messageId := o_messageId o; cd_provider := o_provider o;
  cd_error := o_error o; cd_deliveredAt := (if o_success o then Some now else None);
  cd_createdAt := now |}.

Definition persistChannelDeliveries (notificationId : string)
    (outcomes : list ChannelDeliveryOutcome) (now : Z) : M World () :=
  swallow () (transaction (for_each (W := DB) (λ o,
    _ ← p_create MChannelDelivery (delivery_row notificationId now o) : M DB _; mret ()) outcomes)).

(** The outcome of a delivery, also of one that rejected. *)
Definition outcome_of (r : result ChannelDeliveryOutcome) : ChannelDeliveryOutcome :=
  match r with
  | Ok o => o
  | Err e => {| o_channel := None; o_success := false; o_messageId := None; o_provider := None;
                o_error := Some (err_message e) |}
  end.

(** The deliveries [dispatch] starts. *)
Definition deliveries (channels : DecryptedChannels) (job : NotificationJobData)
    (assets : list ProtocolAsset) (now : Z) : list (M World ChannelDeliveryOutcome) :=
  let allowed := resolveAllowedChannels channels job in
  (if mem Email allowed && truthy (tc_email channels)
   then [deliverEmail (default "" (tc_email channels)) job assets now] else []) ++
  (if mem Telegram allowed && truthy (tc_telegramChatId channels)
   then [deliverTelegram (default "" (tc_telegramChatId channels)) job assets now] else []) ++
  (if mem Sms allowed && truthy (tc_phone channels)
   then [deliverSms (default "" (tc_phone channels)) job] else []).

Definition successes (outcomes : list ChannelDeliveryOutcome) : nat :=
  length (List.filter o_success outcomes).

Definition dispatch_result (outcomes : list ChannelDeliveryOutcome) : ChannelDispatchResult := {|
  dr_outcomes := outcomes; dr_totalChannels := length outcomes;
  dr_successCount := successes outcomes;
  dr_allDelivered := Nat.eqb (successes outcomes) (length outcomes) |}.

Definition dispatch (channels : DecryptedChannels) (job : NotificationJobData) (now : Z) :
    M World ChannelDispatchResult :=
  assets ← fetchProtocolAssets (j_protocolId job);
  match deliveries channels job assets now with
  | [] => mret {| dr_outcomes := []; dr_totalChannels := 0; dr_successCount := 0;
                  dr_allDelivered := false |}
  | promises =>
      settled ← all_settled promises;
      let outcomes := outcome_of <$> settled in
      _ ← persistChannelDeliveries (j_notificationId job) outcomes now;
      mret (dispatch_result outcomes)
  end.
End channels.

(** ** Lemmas: the allowed channels *)

Definition contact (channels : DecryptedChannels) (c : channel) : option string :=
  match c with
  | Email => tc_email channels
  | Telegram => tc_telegramChatId channels
  | Sms => tc_phone channels
  end.

(** A channel the recipient can be reached on at this tier. *)
Definition usable (channels : DecryptedChannels) (tier : Z) (c : channel) : Prop :=
  truthy (contact channels c) = true ∧ (c = Email ∨ 1 ≤ tier).

Lemma mem_spec c l : mem c l = true ↔ c ∈ l.
Proof. apply bool_decide_eq_true. Qed.

Lemma registered_spec channels tier c :
  c ∈ registered_channels channels tier ↔ usable channels tier c.
Proof.
  unfold registered_channels, usable.
  rewrite !elem_of_app.
  destruct (Z.leb_spec 1 tier);
    destruct (truthy (tc_email channels)) eqn:He;
    destruct (truthy (tc_telegramChatId channels)) eqn:Ht;
    destruct (truthy (tc_phone channels)) eqn:Hp; cbn;
    destruct c; cbn; rewrite ?He, ?Ht, ?Hp, ?list_elem_of_singleton, ?elem_of_nil;
    naive_solver (congruence || lia).
Qed.

Lemma elem_of_filter_bool {A} (f : A → bool) (l : list A) x :
  x ∈ List.filter f l ↔ x ∈ l ∧ f x = true.
Proof. by rewrite !list_elem_of_In, filter_In. Qed.

#[local] Instance channel_le_total : Total channel_le.
Proof. intros a b. unfold channel_le. lia. Qed.
#[local] Instance channel_le_trans : Transitive channel_le.
Proof. intros a b c. unfold channel_le. lia. Qed.

(** What was selected before exclusions and registration. *)
Definition selected (job : NotificationJobData) (c : channel) : Prop :=
  match explicit_channels job with Some l => c ∈ l | None => True end.

Lemma resolve_elem channels job c :
  let tier := default 0 (j_tier job) in
  c ∈ resolveAllowedChannels channels job ↔
    usable channels tier c ∧ c ∉ default [] (j_excludedChannels job) ∧
    (selected job c ∨ (c = Sms ∧ urgent job = true)).
Proof.
  cbn zeta. unfold resolveAllowedChannels, selected.
  set (tier := default 0 (j_tier job)). set (ex := default [] (j_excludedChannels job)).
  destruct (registered_channels channels tier) as [|r rs] eqn:Hreg.
  { split; [by intros ?%elem_of_nil |]. intros [Hu%registered_spec _].
    rewrite Hreg in Hu. by apply elem_of_nil in Hu. }
  rewrite <- Hreg, merge_sort_Permutation.
  set (allowed := match explicit_channels job with Some _ => _ | None => _ end).
  assert (∀ d, d ∈ allowed ↔ usable channels tier d ∧ d ∉ ex ∧
    match explicit_channels job with Some l => d ∈ l | None => True end) as Ha.
  { intros d. unfold allowed. destruct (explicit_channels job); rewrite elem_of_filter_bool,
      ?andb_true_iff, ?mem_spec, registered_spec, negb_true_iff, <- not_true_iff_false, mem_spec;
    tauto. }
  assert ((1 <=? tier) && truthy (tc_phone channels) = true ↔ usable channels tier Sms) as Hs.
  { unfold usable. rewrite andb_true_iff, Z.leb_le. cbn. naive_solver. }
  destruct ((1 <=? tier) && urgent job && truthy (tc_phone channels) &&
    negb (mem Sms ex) && negb (mem Sms allowed)) eqn:Hesc.
  - rewrite !andb_true_iff, !negb_true_iff in Hesc. destruct Hesc as [[[[? ?] ?] Hex] _].
    assert (usable channels tier Sms) by (apply Hs; by apply andb_true_iff).
    rewrite <- not_true_iff_false, mem_spec in Hex.
    rewrite elem_of_app, list_elem_of_singleton, Ha. naive_solver.
  - rewrite Ha. split; [naive_solver |]. intros (Hu & Hx & [? | [-> Hurg]]); [done |].
    apply Hs, andb_true_iff in Hu as [H1 H2].
    rewrite H1, H2, Hurg, (proj2 (negb_true_iff _)) in Hesc
      by (rewrite <- not_true_iff_false, mem_spec; done).
    cbn in Hesc. apply negb_false_iff, mem_spec, Ha in Hesc. tauto.
Qed.

Lemma resolve_sorted channels job :
  StronglySorted channel_le (resolveAllowedChannels channels job).
Proof.
  unfold resolveAllowedChannels. destruct (registered_channels _ _); [constructor |].
  apply (StronglySorted_merge_sort channel_le).
Qed.

(** ** Lemmas: the deliveries *)

(** The channel an envelope goes out on. *)
Definition envelope_channel (e : envelope) : option channel :=
  match e with
  | MailEnvelope _ _ _ _ _ _ _ | VerifyIdentityEnvelope _ => Some Email
  | TelegramEnvelope _ _ _ _ _ _ _ | PinEnvelope _ _ _ | MigrationPromptEnvelope _ _ _ _ =>
      Some Telegram
  | SmsEnvelope _ _ => Some Sms
  | _ => None
  end.

(** A delivery writes to Redis and, by email, to the notification, and sends on
    its channel only. *)
Definition channel_frame (c : channel) : Frame := {|
  fr_table m := m = MNotification ∧ c = Email; fr_job _ := False; fr_key _ := True;
  fr_send e := envelope_channel e = Some c |}.

(** The rows: the notification [nid] may be marked as tracked, deliveries of it
    may be added. *)
Definition dispatch_rows (nid : string) : RowFrame := λ m,
  match m return string → option (row m) → option (row m) → Prop with
  | MNotification => at_keys (λ k, k = nid) (may_apply (λ n : Notification, n <| n_trackingEnabled := true |>))
  | MChannelDelivery => λ _, may_add (λ r : ChannelDelivery, cd_notificationId r = nid)
  | _ => λ _, eq
  end.

#[export] Instance dispatch_rows_order nid : RowOrder (dispatch_rows nid).
Proof. constructor. intros m k. destruct m; cbn; try apply _. apply at_keys_order. by apply may_apply_order. Qed.

Definition is_outcome_of (c : channel) (o : ChannelDeliveryOutcome) : Prop :=
  o_channel o = Some c.

Section lemmas.
Context `{B : Backend} `{BL : !BackendLaws B} `{S : Signing}.
Context (cfg : ChannelConfig).

Lemma deliverEmail_keeps email job assets now :
  Keeps (channel_frame Email) (deliverEmail cfg email job assets now).
Proof.
  unfold deliverEmail, send_email, ensureVerified. keeps.
  all: apply keeps_read.
Qed.

Lemma rateLimit_keeps F chatId now : (∀ k, fr_key F k) → Keeps F (rateLimit chatId now).
Proof. intros HF. unfold rateLimit. keeps. Qed.

Lemma send_parts_keeps p m now i n first chunks :
  Keeps (channel_frame Telegram) (send_parts p m now i n first chunks).
Proof.
  revert i first. induction chunks as [|c cs IH]; intros i first; cbn [send_parts]; keeps;
    first [by apply rateLimit_keeps | apply IH].
Qed.

Lemma tg_send_keeps p now : Keeps (channel_frame Telegram) (tg_send cfg p now).
Proof.
  unfold tg_send, sendNotification, send_message, compose, loadCustomTemplate.
  keeps; first [by apply rateLimit_keeps | apply send_parts_keeps].
Qed.

Lemma deliverTelegram_keeps chatId job assets now :
  Keeps (channel_frame Telegram) (deliverTelegram cfg chatId job assets now).
Proof.
  unfold deliverTelegram, send_telegram, telegram_setup, deliver_group, isMigrated,
    sendSinglePrompt, pinGroupMessage.
  keeps; apply tg_send_keeps.
Qed.

Lemma deliverSms_keeps phone job : Keeps (channel_frame Sms) (deliverSms cfg phone job).
Proof. unfold deliverSms, sendSms. keeps. Qed.

Lemma deliverEmail_rows email job assets now :
  KeepsRows (dispatch_rows (j_notificationId job)) (deliverEmail cfg email job assets now).
Proof.
  unfold deliverEmail, send_email, ensureVerified. rows.
  - apply (rows_keeps _ reading); [by intros ? [] | apply keeps_read].
  - cbn. split; [by right | left; by apply bool_decide_eq_true in H].
Qed.

Lemma deliverEmail_channel email job assets now :
  Returns (is_outcome_of Email) (deliverEmail cfg email job assets now).
Proof. unfold deliverEmail, send_email. returns. Qed.

Lemma deliverTelegram_channel chatId job assets now :
  Returns (is_outcome_of Telegram) (deliverTelegram cfg chatId job assets now).
Proof. unfold deliverTelegram, send_telegram. returns. Qed.

Lemma deliverSms_channel phone job : Returns (is_outcome_of Sms) (deliverSms cfg phone job).
Proof. unfold deliverSms, sendSms. returns. Qed.
(** The rows of a list of outcomes were added, one each under a new id, and
    nothing else in the table has changed. *)
Definition recorded (nid : string) (now : Z) (os : list ChannelDeliveryOutcome)
    (t t' : gmap string ChannelDelivery) : Prop :=
  ∃ ks, NoDup ks ∧
    Forall2 (λ k o, t !! k = None ∧ t' !! k = Some (delivery_row nid now o k)) ks os ∧
    ∀ k, k ∉ ks → t' !! k = t !! k.

Lemma recorded_snoc nid now os o i (t t' : gmap string ChannelDelivery) :
  t' !! i = None → recorded nid now os t t' →
  recorded nid now (os ++ [o]) t (<[i := delivery_row nid now o i]> t').
Proof.
  intros Hi (ks & Hnd & Hall & Hother). assert (i ∉ ks) as Hn.
  { intros [j Hj]%list_elem_of_lookup. destruct (Forall2_lookup_l _ _ _ _ _ Hall Hj) as (x & _ & _ & Hx). congruence. }
  exists (ks ++ [i]). split_and!.
  - apply list.NoDup_app. split_and!; [done | | apply NoDup_singleton]. by intros k Hk ->%list_elem_of_singleton.
  - apply Forall2_app; [| constructor; [| constructor]].
    + apply Forall2_same_length_lookup in Hall as [Hlen Hall]. apply Forall2_same_length_lookup. split; [done |].
      intros j k x Hk Hx. destruct (Hall j k x Hk Hx) as [Ht Ht']. split; [done |].
      rewrite lookup_insert_ne; [done |]. intros <-. by apply Hn, list_elem_of_lookup_2 with j.
    + rewrite <- (Hother i Hn). by rewrite lookup_insert_eq.
  - intros k [Hk Hki]%not_elem_of_app. rewrite not_elem_of_cons in Hki. destruct Hki as [Hki _].
    rewrite lookup_insert_ne by done. by apply Hother.
Qed.

Lemma recorded_may_add nid now os t t' k : recorded nid now os t t' →
  may_add (λ r, cd_notificationId r = nid) (t !! k) (t' !! k).
Proof.
  intros (ks & _ & Hall & Hother). destruct (decide (k ∈ ks)) as [[i Hi]%list_elem_of_lookup | Hk].
  - right. destruct (Forall2_lookup_l _ _ _ _ _ Hall Hi) as (o & _ & Ht & Ht'). split; [done |]. by eexists.
  - left. by rewrite Hother.
Qed.

Lemma persist_spec nid os now w :
  wp (persistChannelDeliveries nid os now) (λ r w', r = Ok () ∧
    (view w' = view w ∨
     ∃ t, view w' = (view w) <| v_tables := t |> ∧
       (∀ m, m ≠ MChannelDelivery → t m = v_tables (view w) m) ∧
       recorded nid now os (v_tables (view w) MChannelDelivery) (t MChannelDelivery))) w.
Proof.
  unfold persistChannelDeliveries. apply wp_swallow, wp_transaction; [| by auto].
  intros d Hd. eapply (wp_for_each _ (λ rest d', ∃ done_, os = done_ ++ rest ∧
    (∀ m, m ≠ MChannelDelivery → tables d' m = v_tables (view w) m) ∧
    recorded nid now done_ (v_tables (view w) MChannelDelivery) (tables d' MChannelDelivery))).
  - exists []. rewrite Hd. split_and!; [done | done |]. exists []. split_and!; [constructor | constructor | done].
  - intros o rest d' (done_ & -> & Hother & Hrec). apply wp_bind, wp_db_create; [| done].
    intros i r d'' -> Hfresh Ht. apply wp_ret. exists (done_ ++ [o]).
    rewrite <- app_assoc. split; [done |]. rewrite Ht. split.
    + intros m Hm. rewrite upd_ne by done. by apply Hother.
    + rewrite upd_eq. by apply recorded_snoc.
  - intros d' (done_ & Hos & Hadd). rewrite app_nil_r in Hos. subst.
    intros [] w' _ Hw'. split; [done |]. right. eauto.
Qed.

(** Which deliveries are started, in order. *)
Definition started (channels : DecryptedChannels) (job : NotificationJobData) : list channel :=
  List.filter (λ c, mem c (resolveAllowedChannels channels job)) [Email; Telegram; Sms].

Lemma allowed_contact channels job c :
  mem c (resolveAllowedChannels channels job) = true → truthy (contact channels c) = true.
Proof. intros H%mem_spec%resolve_elem. apply H. Qed.

(** A delivery stays in its channel's frame and reports on its channel. *)
Definition delivers (nid : string) (c : channel) (m : M World ChannelDeliveryOutcome) : Prop :=
  Keeps (channel_frame c) m ∧ Returns (is_outcome_of c) m ∧ KeepsRows (dispatch_rows nid) m.

(** Only an email touches a table. *)
Lemma delivers_other nid c m : c ≠ Email → Keeps (channel_frame c) m → Returns (is_outcome_of c) m →
  delivers nid c m.
Proof. intros Hc Hk Hr. split_and!; [done.. |]. by apply (rows_keeps _ (channel_frame c)); [intros ? [_ ?] |]. Qed.

Lemma deliveries_started channels job assets now :
  Forall2 (delivers (j_notificationId job)) (started channels job) (deliveries cfg channels job assets now).
Proof.
  pose proof (allowed_contact channels job) as Hc.
  unfold deliveries, started. set (allowed := resolveAllowedChannels channels job) in *.
  cbn [List.filter].
  destruct (mem Email allowed) eqn:He; [apply Hc in He; cbn in He; rewrite He |];
  (destruct (mem Telegram allowed) eqn:Ht; [apply Hc in Ht; cbn in Ht; rewrite Ht |]);
  (destruct (mem Sms allowed) eqn:Hs; [apply Hc in Hs; cbn in Hs; rewrite Hs |]); cbn;
  repeat first [apply List.Forall2_nil | apply List.Forall2_cons];
  first [by apply delivers_other; auto using deliverTelegram_keeps, deliverSms_keeps,
    deliverTelegram_channel, deliverSms_channel
  | split_and!; auto using deliverEmail_keeps, deliverEmail_channel, deliverEmail_rows].
Qed.

(** The deliveries over the channels [cs], and the whole dispatch. *)
Definition deliveries_frame (cs : list channel) : Frame := {|
  fr_table m := m = MNotification ∧ Email ∈ cs; fr_job _ := False; fr_key _ := True;
  fr_send e := ∃ c, envelope_channel e = Some c ∧ c ∈ cs |}.

Definition dispatch_frame (cs : list channel) : Frame := {|
  fr_table m := (m = MNotification ∧ Email ∈ cs) ∨ m = MChannelDelivery; fr_job _ := False; fr_key _ := True;
  fr_send e := ∃ c, envelope_channel e = Some c ∧ c ∈ cs |}.

Lemma channel_frame_le c cs : c ∈ cs → frame_le (channel_frame c) (deliveries_frame cs).
Proof. intros Hc. split; cbn; eauto. by intros m [-> ->]. Qed.

(** An outcome of a channel, or the report of a delivery that rejected. *)
Definition reports (c : channel) (o : ChannelDeliveryOutcome) : Prop :=
  o_channel o = Some c ∨ (o_channel o = None ∧ o_success o = false).

Lemma settle_deliveries nid cs ms w :
  Forall2 (delivers nid) cs ms →
  wp (all_settled ms) (λ r w', ∃ rs, r = Ok rs ∧ Forall2 reports cs (outcome_of <$> rs) ∧
    within (deliveries_frame cs) (view w) (view w') ∧
    rows_within (dispatch_rows nid) (view w) (view w')) w.
Proof.
  intros Hms. apply (wp_all_settled _ (λ rs ms' w', ∃ cs1 cs2, cs = cs1 ++ cs2 ∧
    Forall2 reports cs1 (outcome_of <$> rs) ∧ Forall2 (delivers nid) cs2 ms' ∧
    within (deliveries_frame cs) (view w) (view w') ∧ rows_within (dispatch_rows nid) (view w) (view w'))).
  - exists [], cs. split_and!; [done | constructor | done | done | done].
  - intros rs m ms' w' (cs1 & cs2 & -> & Hr & Hd & Hw & Hrows).
    destruct cs2 as [|c cs2]; [inversion Hd |]. apply list.Forall2_cons in Hd as [(Hk & Hret & Hkr) Hd].
    eapply wp_mono; [apply wp_and; [apply wp_and; [apply Hk | apply Hret] | apply Hkr] |].
    intros r w'' [[Hw'' Ho] Hrows']. exists (cs1 ++ [c]), cs2. split_and!; [by rewrite <- app_assoc | | done | |].
    + rewrite fmap_app. apply Forall2_app; [done |]. constructor; [| constructor].
      destruct r; [by left | by right].
    + etrans; [exact Hw |]. eapply within_le; [apply channel_frame_le | exact Hw''].
      apply elem_of_app. right. left.
    + by etrans.
  - intros rs w' (cs1 & cs2 & -> & Hr & Hd & Hw & Hrows). inversion Hd; subst.
    rewrite app_nil_r in *. eauto.
Qed.

Lemma successes_all os : Nat.eqb (successes os) (length os) = forallb o_success os.
Proof.
  unfold successes. induction os as [|o os IH]; [done |]. cbn.
  assert (length (List.filter o_success os) ≤ length os)%nat.
  { clear IH. induction os as [|x os IH]; cbn; [done |]. destruct (o_success x); cbn; lia. }
  destruct (o_success o); cbn; [done |]. apply Nat.eqb_neq. lia.
Qed.
End lemmas.

(** ** Properties *)

(** C6.  Which channels a notification may go out on: exactly those the
    recipient can be reached on at the protocol's tier (Telegram and SMS need
    tier 1) that the request does not exclude, and that it selects (by its
    preferred channel, else its list of channels, else all); an important or
    critical notification also goes out by SMS whatever was selected.  They
    are in the order email, Telegram, SMS. *)
Theorem allowed_channels channels job c :
  let tier := default 0 (j_tier job) in
  (c ∈ resolveAllowedChannels channels job ↔
    truthy (contact channels c) = true ∧ (c = Email ∨ 1 ≤ tier) ∧
    c ∉ default [] (j_excludedChannels job) ∧
    (match j_preferredChannel job, j_channels job with
     | Some p, _ => c = p
     | None, Some (d :: ds) => c ∈ d :: ds
     | None, _ => True
     end ∨ (c = Sms ∧ urgent job = true))) ∧
  StronglySorted channel_le (resolveAllowedChannels channels job).
Proof.
  cbn zeta. split; [| apply resolve_sorted].
  rewrite resolve_elem. unfold usable, selected, explicit_channels.
  destruct (j_preferredChannel job) as [p|]; [by rewrite list_elem_of_singleton; tauto |].
  destruct (j_channels job) as [[|d ds]|]; tauto.
Qed.

Section properties.
Context `{B : Backend} `{BL : !BackendLaws B} `{S : Signing}.

(** What a dispatch does; the property below, for the workers. *)
Lemma dispatched_spec cfg channels job now w :
  wp (dispatch cfg channels job now) (λ r w', ∃ res, r = Ok res ∧
    Forall2 reports (started channels job) (dr_outcomes res) ∧
    dr_totalChannels res = length (dr_outcomes res) ∧
    dr_successCount res = successes (dr_outcomes res) ∧
    (dr_allDelivered res = true ↔
       dr_outcomes res ≠ [] ∧ forallb o_success (dr_outcomes res) = true) ∧
    within (dispatch_frame (started channels job)) (view w) (view w') ∧
    rows_within (dispatch_rows (j_notificationId job)) (view w) (view w') ∧
    (v_tables (view w') MChannelDelivery = v_tables (view w) MChannelDelivery ∨
     recorded (j_notificationId job) now (dr_outcomes res)
       (v_tables (view w) MChannelDelivery) (v_tables (view w') MChannelDelivery))) w.
Proof.
  unfold dispatch. apply wp_bind.
  eapply wp_mono; [apply (wp_and _ (λ r _, is_ok r = true) (λ _ w', view w' = view w)) |].
  { apply total_catch. }
  { apply wp_swallow, (wp_find_many MProtocolAsset); auto. }
  intros [assets | e] w1 [Hok Hv1]; [| done].
  pose proof (deliveries_started cfg channels job assets now) as Hds.
  destruct (deliveries cfg channels job assets now) as [|m ms].
  { inversion Hds as [Hs |]. apply wp_ret. eexists. split; [done |]. rewrite Hv1. cbn.
    split_and!; [constructor | done | done | naive_solver | done | done | by left]. }
  apply wp_bind. eapply wp_mono; [by apply settle_deliveries |].
  intros r w2 (rs & -> & Hrep & Hw2 & Hr2). rewrite Hv1 in Hw2, Hr2.
  assert (outcome_of <$> rs ≠ []) as Hne by (intros Hnil; rewrite Hnil in Hrep;
    inversion Hrep as [Hs |]; rewrite <- Hs in Hds; inversion Hds).
  assert (v_tables (view w2) MChannelDelivery = v_tables (view w) MChannelDelivery) as Hcd by (by apply Hw2; intros [? _]).
  apply wp_bind. eapply wp_mono; [apply persist_spec |].
  intros r w3 [-> Hw3]. rewrite Hcd in Hw3. apply wp_ret. eexists. split; [done |].
  cbn [dispatch_result dr_outcomes dr_totalChannels dr_successCount dr_allDelivered].
  split_and!; [done | done | done | rewrite successes_all; tauto | | |].
  - apply (within_le _ (dispatch_frame (started channels job))) in Hw2;
      [| split; cbn; auto]. etrans; [exact Hw2 |]. destruct Hw3 as [-> | (t & -> & Ht & _)]; [done |].
    split; cbn; [| done.. | exists []; by rewrite app_nil_r]. intros m' Hm'. apply Ht. tauto.
  - etrans; [exact Hr2 |]. destruct Hw3 as [-> | (t & -> & Ht & Hrec)]; [done |]. intros m' k. cbn.
    destruct (decide (m' = MChannelDelivery)) as [-> | Hne']; [| rewrite (Ht _ Hne'); apply row_order].
    rewrite Hcd. by eapply recorded_may_add.
  - destruct Hw3 as [-> | (t & -> & _ & Hrec)]; [by left; rewrite Hcd | by right].
Qed.

(** C2.  A dispatch always settles: there is one outcome per allowed channel,
    in order, and a failed outcome for a delivery that rejected; the counts
    are those of the outcomes, and all are delivered only if there is at least
    one; nothing is sent on a channel that is not allowed; no row of any table
    changes, but that the notification itself may be marked as tracked (when
    an email is among the deliveries), and that either nothing or exactly one
    new channel delivery per outcome is recorded. *)
Theorem dispatch_delivers cfg channels job now w :
  wp (dispatch cfg channels job now) (λ r w', ∃ res, r = Ok res ∧
    Forall2 reports (started channels job) (dr_outcomes res) ∧
    dr_totalChannels res = length (dr_outcomes res) ∧
    dr_successCount res = successes (dr_outcomes res) ∧
    (dr_allDelivered res = true ↔
       dr_outcomes res ≠ [] ∧ forallb o_success (dr_outcomes res) = true) ∧
    within (dispatch_frame (started channels job)) (view w) (view w') ∧
    rows_within (dispatch_rows (j_notificationId job)) (view w) (view w') ∧
    (v_tables (view w') MChannelDelivery = v_tables (view w) MChannelDelivery ∨
     recorded (j_notificationId job) now (dr_outcomes res)
       (v_tables (view w) MChannelDelivery) (v_tables (view w') MChannelDelivery))) w.
Proof. apply dispatched_spec. Qed.

(** A wallet on the suppression list is sent no email: its delivery
    changes nothing, and either reports the suppression or rejects. *)
Theorem suppressed_not_mailed cfg email job assets now h sup w :
  j_walletHash job = Some h → h ≠ "" →
  v_tables (view w) MEmailSuppression !! h = Some sup →
  wp (deliverEmail cfg email job assets now) (λ r w', view w' = view w ∧
    ∀ o, r = Ok o →
      o = failed_outcome Email ("Email suppressed: " +:+ reason_name (es_reason sup))) w.
Proof.
  intros Hh Hne Hsup. unfold deliverEmail. rewrite Hh.
  rewrite (proj2 (truthy_Some _)) by eauto. apply wp_bind, (wp_find_unique MEmailSuppression).
  - intros o w1 Ho Hv1. apply found_by_id in Ho.
    assert (o = Some sup) as -> by (rewrite Ho; exact Hsup).
    apply wp_ret. split; [done | by intros ? [= <-]].
  - intros e w1 Hv1. split; [done | discriminate].
Qed.
End properties.

(** ** Witnesses *)

Definition channel_config : ChannelConfig := {|
  cc_format := plain_format; cc_stripMarkdown := id;
  cc_render := λ _ _, Ok (units "<body></body>", units "text");
  cc_decrypt := λ enc _, Ok enc; cc_heraldToken := Some "bot"; cc_maxButtons := 10;
  cc_snsEnabled := true; cc_sesAutoVerify := false; cc_encryptionKey := Some "key";
  cc_trackingBaseUrl := "https://api"; cc_unsubscribeSecret := "secret";
  cc_unsubscribeBaseUrl := "https://notify" |}.

Definition sample_job : NotificationJobData := {|
  j_notificationId := "n1"; j_protocolId := "p1"; j_protocolPubkey := "pk1";
  j_protocolName := "Proto"; j_wallet := "w"; j_walletHash := Some "h"; j_subject := "Alert";
  j_body := "Body"; j_category := "defi"; j_writeReceipt := false; j_digestMode := false;
  j_priority := Some Critical; j_channels := Some [Email; Telegram]; j_excludedChannels := None;
  j_preferredChannel := None; j_isSandbox := false; j_testContact := None; j_tier := Some 1;
  j_templateId := None; j_telegramTemplateId := None; j_templateVariables := ∅ |}.

Definition all_contacts : DecryptedChannels := {|
  tc_email := Some "a@b"; tc_telegramChatId := Some "42"; tc_phone := Some "+1" |}.

Definition suppressed_world : World :=
  mem_world (with_rows MEmailSuppression [{| es_walletHash := "h"; es_reason := hard_bounce;
    es_suppressedAt := 0; es_notificationId := None |}] no_tables) ∅.

Lemma suppressed_not_mailed_witness :
  wp (deliverEmail channel_config "a@b" sample_job [] 0) (λ r w', view w' = view suppressed_world ∧
    ∀ o, r = Ok o → o = failed_outcome Email ("Email suppressed: " +:+ "hard_bounce"))
    suppressed_world.
Proof.
  apply (suppressed_not_mailed channel_config "a@b" sample_job [] 0 "h"
    {| es_walletHash := "h"; es_reason := hard_bounce; es_suppressedAt := 0;
       es_notificationId := None |}); [reflexivity | discriminate | reflexivity].
Defined.

Lemma dispatch_delivers_witness :
  let w := mem_world no_tables ∅ in
  let run := dispatch channel_config all_contacts sample_job 0 w in
  ∃ res, run.1 = Ok res ∧ dr_allDelivered res = true ∧ length (v_sent (view run.2)) = 3%nat ∧
    Forall2 reports [Email; Telegram; Sms] (dr_outcomes res) ∧
    within (dispatch_frame [Email; Telegram; Sms]) (view w) (view run.2).
Proof.
  intros w run.
  destruct (wp_at _ _ w _ (dispatch_delivers channel_config all_contacts sample_job 0 w) eq_refl)
    as (res & Hr & Hreports & _ & _ & _ & Hframe & _ & _).
  exists res. split_and!; [exact Hr | | vm_compute; reflexivity | exact Hreports | exact Hframe].
  assert (match run.1 with Ok x => dr_allDelivered x = true | Err _ => False end) as Hall
    by (vm_compute; reflexivity).
  subst run. rewrite Hr in Hall. exact Hall.
Defined.

(** A critical notification to all three contacts, SMS not selected. *)
Example dispatch_escalates :
  match (dispatch channel_config all_contacts sample_job 0 (mem_world no_tables ∅)).1 with
  | Ok res => dr_allDelivered res = true ∧ o_channel <$> dr_outcomes res = [Some Email; Some Telegram; Some Sms]
  | Err _ => False
  end.
Proof. vm_compute. done. Qed.

(** A Redis failure after a group message went out makes [deliverTelegram]
    report a failure, although the subscriber and the group have both been
    sent the notification: the write of the group's marker is not caught. *)
Definition group_settings : ProtocolSettings := {|
  ps_protocolId := "p1"; ps_websiteUrl := None; ps_customFromName := None; ps_testEmail := None;
  ps_testTelegramId := None; ps_testPhone := None; ps_telegramBotTokenEncrypted := None;
  ps_telegramBotUsername := None; ps_telegramGroupChatId := Some "-100";
  ps_telegramThreadIds := None; ps_telegramAutoPinEnabled := false; ps_trackEngagement := false;
  ps_telegramWelcomeMessage := None; ps_telegramGroupMemberCount := None;
  ps_telegramMemberCountAt := None; ps_telegramMigrationSentAt := None;
  ps_logoUrl := None; ps_notificationCategories := ["defi"; "governance"; "system"];
  ps_retryMaxAttempts := 3; ps_retryWindowHours := 6; ps_retryBackoff := "exponential";
  ps_criticalCategories := [] |}.

Definition marker_fails : World :=
  (mem_world (with_rows MProtocolSettings [group_settings] no_tables) ∅)
    <| w_redis ::= set m_rfaults (λ _, replicate 11 false ++ [true]) |>.

Lemma group_marker_failure :
  let '(r, w') := deliverTelegram channel_config "42" sample_job [] 0 marker_fails in
  r = Ok (failed_outcome Telegram "Connection is closed.") ∧
  length (v_sent (view w')) = 2%nat.
Proof. vm_compute. done. Qed.
