(* ===== verification/Template.v ===== *)
(** * Email templates

    [TemplateService] of [src/modules/template/template.service.ts]: the choice
    of a template, its rendering with the cache of compiled templates, the
    preheader and Herald's footer; and the cache of [MjmlCompilerService].

    Handlebars, juice, MJML and DOMPurify are parameters ([Engine]), and so are
    the files of the system templates.  A variable is a text, or [None] where
    it is null or undefined.  In an HTML literal a backquote stands for a
    double quote. *)

From S2P Require Import Prelude Schema External Memory Frame RateLimit Text Rx Links Markdown Sms Telegram Unsubscribe Channels.

Open Scope string_scope.
Open Scope list_scope.
Open Scope Z_scope.

(** ** Strings *)

Definition html (s : string) : text := (λ c, if N.eqb c 96 then 34%N else c) <$> units s.

(** [s.includes(p)] *)
Fixpoint includes (p s : text) : bool :=
  bool_decide (p `prefix_of` s) || match s with [] => false | _ :: s' => includes p s' end.

(** [s.replace(p, v)] for texts: the first [p], with the [$] of [v]. *)
Fixpoint replace_string (pre : text) (p v s : text) : text :=
  if bool_decide (p `prefix_of` s) then
    let post := drop (length p) s in
    expand_dollar pre p post v ++ post
  else match s with [] => [] | x :: s' => x :: replace_string (pre ++ [x]) p v s' end.

(** [s.replace(re, f)] without the [g] flag: the first match. *)
Fixpoint replace_hit (f : text → text) (gs : list segment) : text :=
  match gs with
  | [] => []
  | Plain t :: gs' => t ++ replace_hit f gs'
  | Hit t _ :: gs' => f t ++ (gs' ≫= segment_text)
  end.
Definition replace_first (r : rx) (f : text → text) (s : text) : text :=
  replace_hit f (segments r s).

(** ** Hashes of sources *)

(** [x | 0] *)
Definition int32 (x : Z) : Z := (x + 2 ^ 31) mod 2 ^ 32 - 2 ^ 31.

Definition digit36 (d : Z) : N := Z.to_N (if d <? 10 then 48 + d else 87 + d).

(** [n.toString(36)]; 32 bits have at most seven digits. *)
Fixpoint digits36 (fuel : nat) (n : Z) (acc : text) : text :=
  match fuel with
  | O => acc
  | S fuel' =>
      let acc := digit36 (n mod 36) :: acc in
      if n <? 36 then acc else digits36 fuel' (n / 36) acc
  end.
Definition show36 (n : Z) : text :=
  if n <? 0 then 45%N :: digits36 7 (- n) [] else digits36 7 n [].

(** [sha]: [h = (Math.imul(31, h) + c) | 0] for each unit. *)
Definition sha_step (h : Z) (c : N) : Z := int32 (int32 (31 * h) + Z.of_N c).
Definition sha_value (s : text) : Z := foldl sha_step 0 s.
Definition sha (s : text) : text := show36 (sha_value s).

(** [MjmlCompilerService.hashSource] *)
Definition hash_step (h : Z) (c : N) : Z := int32 (int32 (h * 32) - h + Z.of_N c).
Definition hashSource (s : text) : text := show36 (Z.abs (foldl hash_step 0 s)).

(** ** The libraries *)

Abbreviation Vars := (gmap string (option text)).

(** A compiled template. *)
Definition Delegate : Type := Vars → result text.

(** The options of DOMPurify that depend on the service; the others ask for a
    whole document, as a text. *)
Record PurifyOptions := {
  po_ALLOWED_TAGS : list string;
  po_ALLOWED_ATTR : list string;
  po_ALLOW_DATA_ATTR : bool;
  po_FORBID_TAGS : list string;
  po_FORBID_ATTR : list string;
}.

Record Engine := {
  en_compile : text → result Delegate;         (** [Handlebars.compile] *)
  en_juice : text → result text;
  en_purify : PurifyOptions → text → text;     (** [DOMPurify.sanitize] *)
  (** [index.hbs] of a system template, where it can be read *)
  en_readTemplate : string → option text;
}.

(** ** The cache of compiled templates *)

Definition TemplateCache : Type := gmap text Delegate.

Section cache.
Context (en : Engine).

Definition getCompiledTemplate (source : text) (cache : TemplateCache) :
    result Delegate * TemplateCache :=
  let key := sha source in
  match cache !! key with
  | Some d => (Ok d, cache)
  | None =>
      match en_compile en source with
      | Ok d => (Ok d, <[key := d]> cache)
      | Err e => (Err e, cache)
      end
  end.
End cache.

(** ** Variables *)

(** [vars.k || d] *)
Definition var_or (vars : Vars) (k : string) (d : text) : text :=
  match vars !! k with
  | Some (Some (x :: t)) => x :: t
  | _ => d
  end.

(** [`${vars.k}`] *)
Definition var_text (vars : Vars) (k : string) : text :=
  match vars !! k with Some (Some t) => t | _ => units "undefined" end.

Definition processBodyLinks (vars : Vars) : Vars :=
  match vars !! "body" with
  | Some (Some (x :: t)) =>
      let body := x :: t in
      <["body" := Some (convertLinksToHtml body (pm_links (Links.parseMarkdownLinks body)))]> vars
  | _ => vars
  end.

Definition EM_DASH : N := 8212.

Definition renderPlainTextFallback (vars : Vars) : text :=
  join [NL] [
    var_or vars "protocolName" (units "Herald") ++ [32; EM_DASH; 32]%N ++
      var_or vars "subject" (units "Notification");
    []; replicate 40 9472%N; [];
    var_or vars "body" [];
    []; replicate 40 9472%N; [];
    units "Unsubscribe: " ++ var_text vars "unsubscribeUrl";
    units "Delivered by Herald | https://useherald.xyz"].

(** ** The preheader *)

Definition escape_preview (s : text) : text :=
  replace (rlit ">") (λ _ _, units "&gt;")
    (replace (rlit "<") (λ _ _, units "&lt;") (replace (rlit "&") (λ _ _, units "&amp;") s)).

(** [/<body[^>]*>/] *)
Definition BODY_TAG : rx :=
  rseq [rlit "<body"; RStar true (RChar (none_of [62%N])); rlit ">"].

Definition injectPreheader (h previewText : text) : text :=
  if bool_decide (previewText = []) || includes (html "class=`preheader`") h then h else
  let span :=
    html "<span class=`preheader` style=`display:none;visibility:hidden;opacity:0;" ++
    html "height:0;max-height:0;overflow:hidden;font-size:1px;line-height:1px;" ++
    html "color:transparent;mso-hide:all;`>" ++ escape_preview previewText ++ html "</span>" in
  if includes (html "<body") h then replace_first BODY_TAG (λ tag, tag ++ span) h
  else span ++ h.

(** ** The footer *)

Definition HERALD_LOGO_URL : text :=
  units "https://herald-storage-bucket.s3.eu-north-1.amazonaws.com/herald-logo.svg".

Definition HRL_SENTINEL : text := html "data-hrl-footer=`1`".

Inductive FooterKey := FFull | FSmall | FMinimal | FEnterprise | FNone.

Definition tierToFooterKey (tier : Z) : FooterKey :=
  if tier =? 0 then FFull
  else if tier =? 1 then FSmall
  else if tier =? 2 then FMinimal
  else if tier =? 3 then FEnterprise
  else FNone.

Definition HERALD_FOOTER_STYLES : text := units "<style>
  /* Herald Protocol footer " ++ [EM_DASH] ++ units " do not modify. Classes are scoped with hrl- prefix. */
  @import url('https://fonts.googleapis.com/css2?family=Syne:wght@700&family=Plus+Jakarta+Sans:wght@400;600&family=JetBrains+Mono:wght@400;500&display=swap');
  .hrl-footer        { padding:28px 8px 8px !important; font-family:'Plus Jakarta Sans',-apple-system,BlinkMacSystemFont,'Segoe UI',Helvetica,Arial,sans-serif !important; }
  .hrl-meta          { font-size:12.5px !important; line-height:1.65 !important; color:#64748B !important; margin:0 !important; }
  .hrl-delivered-lbl { display:block !important; font-size:11px !important; text-transform:uppercase !important; letter-spacing:0.12em !important; font-weight:600 !important; color:#64748B !important; margin-bottom:6px !important; }
  .hrl-wallet        { font-family:'JetBrains Mono',ui-monospace,'SF Mono',Menlo,monospace !important; font-size:12px !important; color:#475569 !important; word-break:break-all !important; }
  .hrl-divider       { height:1px !important; background:#E2E8F0 !important; margin:20px 0 18px !important; border:0 !important; }
  .hrl-brand-tbl     { font-size:12px !important; color:#64748B !important; border-collapse:collapse !important; }
  .hrl-brand-tbl td  { vertical-align:middle !important; }
  .hrl-logo-td       { padding-right:6px !important; line-height:0 !important; }
  .hrl-logo-td img   { display:block !important; border-radius:5px !important; }
  .hrl-name-td       { font-family:'Syne',sans-serif !important; font-weight:700 !important; font-size:12px !important; color:#475569 !important; letter-spacing:-0.01em !important; padding-right:2px !important; }
  .hrl-pipe-td       { color:#CBD5E1 !important; padding:0 4px !important; }
  .hrl-link-td a     { color:#64748B !important; text-decoration:none !important; }
</style>".

Definition fontStack : text :=
  units "'Plus Jakarta Sans',-apple-system,BlinkMacSystemFont,'Segoe UI',Helvetica,Arial,sans-serif".
Definition monoStack : text := units "'JetBrains Mono',ui-monospace,'SF Mono',Menlo,monospace".

Definition deliveredTo (walletAddress : text) : text :=
  if bool_decide (walletAddress = []) then [] else
  html "<p class=`hrl-meta` style=`font-size:12.5px;line-height:1.65;color:#64748B;margin:0;`>" ++
  html "<span class=`hrl-delivered-lbl` style=`display:block;font-size:11px;text-transform:uppercase;letter-spacing:0.12em;font-weight:600;color:#64748B;margin-bottom:6px;`>Delivered to</span>" ++
  html "<span class=`hrl-wallet` style=`font-family:" ++ monoStack ++
  html ";font-size:12px;color:#475569;word-break:break-all;`>" ++ walletAddress ++ html "</span>" ++
  html "</p>".

Definition protocolRef (websiteUrl protocolName : text) : text :=
  if bool_decide (websiteUrl = []) then
    html "<strong style=`color:#475569;font-weight:600;`>" ++
    (if bool_decide (protocolName = []) then units "The sending protocol" else protocolName) ++
    html "</strong>"
  else
    html "<a href=`" ++ websiteUrl ++
    html "` style=`color:#475569;font-weight:600;text-decoration:none;`>" ++ protocolName ++
    html "</a>".

Definition privacyNote (walletAddress websiteUrl protocolName : text) : text :=
  html "<p class=`hrl-meta` style=`font-size:12.5px;line-height:1.65;color:#64748B;margin:" ++
  (if bool_decide (walletAddress = []) then units "0" else units "14px") ++ html " 0 0;`>" ++
  html "Delivered securely by Herald Protocol. " ++ protocolRef websiteUrl protocolName ++
  html " does not have access to your email address." ++ html "</p>".

Definition divider : text :=
  html "<hr class=`hrl-divider` style=`height:1px;background:#E2E8F0;margin:20px 0 18px;border:0;`>".

Definition logoTd : text :=
  html "<td class=`hrl-logo-td` style=`vertical-align:middle;padding-right:6px;line-height:0;` valign=`middle`>" ++
  html "<img src=`" ++ HERALD_LOGO_URL ++
  html "` width=`20` height=`20` alt=`` style=`display:block;border-radius:5px;`>" ++ html "</td>".
Definition nameTd : text :=
  html "<td class=`hrl-name-td` style=`vertical-align:middle;font-family:'Syne',sans-serif;font-weight:700;font-size:12px;color:#475569;letter-spacing:-0.01em;padding-right:2px;` valign=`middle`>Herald</td>".
Definition pipeTd : text :=
  html "<td class=`hrl-pipe-td` style=`vertical-align:middle;color:#CBD5E1;padding:0 4px;` valign=`middle`>|</td>".
(** The link of [unsubTd], and what surrounds it. *)
Definition unsub_anchor (unsub : text) : text := html "<a href=`" ++ unsub ++ html "`".
Definition unsubTd (unsub : text) : text :=
  html "<td class=`hrl-link-td` style=`vertical-align:middle;` valign=`middle`>" ++
  unsub_anchor unsub ++ html " style=`color:#64748B;text-decoration:none;`>Unsubscribe</a>" ++
  html "</td>".
Definition siteTd : text :=
  html "<td class=`hrl-link-td` style=`vertical-align:middle;` valign=`middle`>" ++
  html "<a href=`https://useherald.xyz` style=`color:#64748B;text-decoration:none;`>useherald.xyz</a>" ++
  html "</td>".

Definition mkTable (cells : text) : text :=
  html "<table class=`hrl-brand-tbl` cellpadding=`0` cellspacing=`0` style=`font-size:12px;color:#64748B;`>" ++
  html "<tr>" ++ cells ++ html "</tr>" ++ html "</table>".

Definition fullBrandRow (unsub : text) : text :=
  mkTable (logoTd ++ nameTd ++ pipeTd ++ unsubTd unsub ++ pipeTd ++ siteTd).
Definition shortBrandRow (unsub : text) : text :=
  mkTable (logoTd ++ nameTd ++ pipeTd ++ unsubTd unsub).

Definition wrap (inner extraStyle : text) : text :=
  html "<div class=`hrl-footer` " ++ HRL_SENTINEL ++ html " style=`padding:28px 8px 8px;font-family:" ++
  fontStack ++ html ";" ++ extraStyle ++ html "`>" ++ inner ++ html "</div>".

Definition footer_html (key : FooterKey) (vars : Vars) : text :=
  let unsub := var_or vars "unsubscribeUrl" (units "#") in
  let protocolName := var_or vars "protocolName" [] in
  let walletAddress := var_or vars "walletAddress" [] in
  let websiteUrl := var_or vars "websiteUrl" [] in
  match key with
  | FFull => wrap (deliveredTo walletAddress ++ privacyNote walletAddress websiteUrl protocolName ++
      divider ++ fullBrandRow unsub) []
  | FSmall => wrap (deliveredTo walletAddress ++ divider ++ fullBrandRow unsub) []
  | FMinimal | FEnterprise => wrap (deliveredTo walletAddress ++ divider ++ shortBrandRow unsub) []
  | FNone => wrap (unsub_anchor unsub ++
      html " style=`font-size:12px;color:#64748B;text-decoration:none;`>Unsubscribe</a>")
      (html "text-align:center;padding:12px 8px 8px;")
  end.

Definition contained_footer (footerHtml : text) : text :=
  html "<div style=`width:100%;background:#F8FAFC;`>" ++
  html "<div style=`max-width:600px;margin:0 auto;padding:0 16px 32px;box-sizing:border-box;`>" ++
  footerHtml ++ html "</div>" ++ html "</div>".

Definition with_styles (h : text) : text :=
  if includes (units "data-hrl-footer") h then h
  else if includes (units "</head>") h then
    replace_string [] (units "</head>") (HERALD_FOOTER_STYLES ++ [NL] ++ units "</head>") h
  else HERALD_FOOTER_STYLES ++ h.

Definition with_footer (footer h : text) : text :=
  if includes (units "</body>") h then
    replace_string [] (units "</body>") (footer ++ [NL] ++ units "</body>") h
  else h ++ footer.

Definition injectHeraldFooter (h : text) (vars : Vars) (footerKey : option FooterKey) : text :=
  match footerKey with
  | None => h
  | Some key =>
      if includes (html "class=`footer-brand`") h then h
      else if includes HRL_SENTINEL h then h
      else with_footer (contained_footer (footer_html key vars)) (with_styles h)
  end.

(** ** Loading *)

Record CustomTemplateRecord := {
  ct_htmlSource : text;
  ct_textSource : option text;
  ct_previewText : option text;
}.

Definition custom_record (t : option NotificationTemplate) : option CustomTemplateRecord :=
  t ← t;
  h ← nt_htmlSource t;
  if bool_decide (h = []) then None
  else Some {| ct_htmlSource := h; ct_textSource := nt_textSource t;
               ct_previewText := nt_previewText t |}.

Definition is_custom (templateId protocolId : string) : where_ MNotificationTemplate := λ k t,
  bool_decide (k = templateId) && bool_decide (nt_protocolId t = protocolId) && nt_isActive t.

Definition is_default_for (protocolId category : string) : where_ MNotificationTemplate := λ _ t,
  bool_decide (nt_protocolId t = protocolId) && bool_decide (nt_category t = category) &&
  nt_isDefault t && nt_isActive t.

Definition getMinimalFallbackTemplate : text := html "
      <html><body style=`font-family:Arial,sans-serif;background:#040C18;color:#F0F6FF;padding:32px;`>
        <h2 style=`color:#00C896;`>{{protocolName}}</h2>
        <h3>{{subject}}</h3>
        <p>{{body}}</p>
      </body></html>".

(** [/<Unsubscribe\s*\/?>/gi] and the anchor it stands for *)
Definition UNSUBSCRIBE_TAG : rx :=
  rseq [rlit_i "<Unsubscribe"; RStar true (RChar space_unit); ropt (rlit "/"); rlit ">"].
Definition unsubscribe_link : text :=
  html "<a href=`{{unsubscribeUrl}}` style=`color:#64748B;text-decoration:none;`>Unsubscribe</a>".
Definition expand_unsubscribe (source : text) : text :=
  replace UNSUBSCRIBE_TAG (λ _ _, unsubscribe_link) source.

Definition TEMPLATE_ALLOWED_TAGS : list string :=
  ["html"; "head"; "body"; "title"; "style"; "meta"; "link"; "div"; "span"; "section";
  "article"; "header"; "footer"; "main"; "nav"; "aside"; "figure"; "figcaption"; "center";
  "table"; "thead"; "tbody"; "tfoot"; "tr"; "th"; "td"; "colgroup"; "col"; "caption"; "p";
  "br"; "hr"; "pre"; "code"; "blockquote"; "h1"; "h2"; "h3"; "h4"; "h5"; "h6"; "strong";
  "b"; "em"; "i"; "u"; "s"; "del"; "ins"; "mark"; "small"; "big"; "sub"; "sup"; "abbr";
  "cite"; "q"; "dfn"; "ul"; "ol"; "li"; "dl"; "dt"; "dd"; "a"; "img"; "font"].

Definition TEMPLATE_ALLOWED_ATTRS : list string :=
  ["style"; "class"; "id"; "dir"; "lang"; "title"; "width"; "height"; "align"; "valign";
  "bgcolor"; "border"; "cellpadding"; "cellspacing"; "colspan"; "rowspan"; "scope";
  "summary"; "span"; "color"; "face"; "size"; "href"; "src"; "alt"; "target"; "rel";
  "charset"; "http-equiv"; "content"; "name"; "media"; "role"; "aria-label"; "aria-hidden";
  "aria-describedby"].

Definition purify_options : PurifyOptions := {|
  po_ALLOWED_TAGS := TEMPLATE_ALLOWED_TAGS;
  po_ALLOWED_ATTR := TEMPLATE_ALLOWED_ATTRS;
  po_ALLOW_DATA_ATTR := true;
  po_FORBID_TAGS := ["script"; "noscript"; "object"; "embed"; "applet"; "form"; "input"; "button"; "select";
    "textarea"; "iframe"];
  po_FORBID_ATTR := ["onerror"; "onload"; "onclick"; "onmouseover"; "onfocus"; "onblur"; "onchange";
    "onsubmit"; "onkeydown"; "onkeyup"; "onkeypress"] |}.

Record RenderedEmail := { re_html : text; re_text : text; re_subject : text }.

Record TemplateValidationResult := {
  tv_valid : bool;
  tv_compiledHtml : option text;
  tv_error : option string;
}.

Section service.
Context `{B : Backend} (en : Engine).

Definition loadCustomTemplate (templateId protocolId : string) :
    M World (option CustomTemplateRecord) :=
  swallow None (
    t ← find_first MNotificationTemplate (is_custom templateId protocolId) None;
    mret (custom_record t)).

Definition loadProtocolDefaultTemplate (protocolId category : string) :
    M World (option CustomTemplateRecord) :=
  swallow None (
    t ← find_first MNotificationTemplate (is_default_for protocolId category) None;
    mret (custom_record t)).

Definition loadSystemTemplate (name : string) : text :=
  match en_readTemplate en name with
  | Some t => t
  | None => default getMinimalFallbackTemplate (en_readTemplate en "defi-alert")
  end.

(** The waterfall of [render]: the custom template, if one is used. *)
Definition choose_template (p : RenderParams) : M World (option CustomTemplateRecord) :=
  let withProtocol := truthy (Some (rp_protocolId p)) in
  custom ← (if truthy (rp_templateId p) && withProtocol
            then loadCustomTemplate (default "" (rp_templateId p)) (rp_protocolId p)
            else mret None);
  match custom with
  | Some c => mret (Some c)
  | None =>
      if withProtocol then loadProtocolDefaultTemplate (rp_protocolId p) (rp_template p)
      else mret None
  end.

Definition var_units (vs : gmap string (option string)) : Vars := fmap (M := option) units <$> vs.

(** What [render] makes of the chosen source, given its compiled form. *)
Definition finish_render (p : RenderParams) (custom : option CustomTemplateRecord)
    (compiled : Delegate) : result RenderedEmail :=
  let vars := var_units (rp_variables p) in
  let processedVars := processBodyLinks vars in
  match compiled processedVars with
  | Err e => Err e
  | Ok htmlWithVars =>
  match en_juice en htmlWithVars with
  | Err e => Err e
  | Ok inlinedHtml =>
      let stored := default [] (custom ≫= ct_previewText) in
      let previewTextValue := if bool_decide (stored = []) then var_or vars "previewText" [] else stored in
      let h := injectPreheader inlinedHtml previewTextValue in
      let h := injectHeraldFooter h vars
                 (match custom with Some _ => Some (tierToFooterKey (rp_tier p)) | None => None end) in
      let plainText :=
        match custom ≫= ct_textSource with
        | Some (x :: t) =>
            match en_compile en (x :: t) with Ok d => d processedVars | Err e => Err e end
        | _ => Ok (renderPlainTextFallback vars)
        end in
      match plainText with
      | Err e => Err e
      | Ok txt => Ok {| re_html := h; re_text := txt;
                        re_subject := var_or vars "subject" (units "Notification from Herald") |}
      end
  end
  end.

Definition template_source (p : RenderParams) (custom : option CustomTemplateRecord) : text :=
  expand_unsubscribe (match custom with
    | Some c => ct_htmlSource c
    | None => loadSystemTemplate (rp_template p)
    end).

(** [render], with the cache the service holds. *)
Definition render (p : RenderParams) (cache : TemplateCache) :
    M World (result RenderedEmail * TemplateCache) :=
  custom ← choose_template p;
  let '(compiled, cache') := getCompiledTemplate en (template_source p custom) cache in
  mret (match compiled with Ok d => finish_render p custom d | Err e => Err e end, cache').

Definition preview_default (vars : gmap string (option string)) (k d : string) : option string :=
  match vars !! k with Some (Some v) => Some v | _ => Some d end.

(** [renderPreview]; a default beyond Latin-1 is its UTF-8 bytes here. *)
Definition preview_params (templateId protocolId protocolName : string) (tier : Z)
    (variables : gmap string (option string)) : RenderParams :=
  let previewVars : gmap string (option string) :=
    variables ∪
    (<["protocolName" := Some protocolName]>
    (<["subject" := preview_default variables "subject" (protocolName +:+ " Notification")]>
    (<["body" := preview_default variables "body" "_Preview body — replace with real content._"]>
    (<["category" := preview_default variables "category" "defi"]>
    (<["walletAddress" := preview_default variables "walletAddress" "0x0000…0000"]>
    (<["unsubscribeUrl" := Some "https://notify.useherald.xyz/unsubscribe/preview"]>
    (<["logoUrl" := default None (variables !! "logoUrl")]>
    (<["websiteUrl" := default None (variables !! "websiteUrl")]>
    (<["bannerUrl" := default None (variables !! "bannerUrl")]> ∅)))))))) ) in
  let category := match previewVars !! "category" with Some (Some c) => c | _ => "defi" end in
  {| rp_template := if (category =? "defi")%string then "defi-alert" else category;
     rp_templateId := Some templateId; rp_tier := tier; rp_protocolId := protocolId;
     rp_variables := previewVars |}.

Definition renderPreview (templateId protocolId protocolName : string) (tier : Z)
    (variables : gmap string (option string)) (cache : TemplateCache) :
    M World (result RenderedEmail * TemplateCache) :=
  render (preview_params templateId protocolId protocolName tier variables) cache.

(** [/\s*on\w+\s*=\s*(['`])[^'`]*\1/gi], with double quotes for backquotes *)
Definition EVENT_HANDLER : rx := rseq [
  RStar true (RChar space_unit); rlit_i "on"; rplus true (RChar word_unit);
  RStar true (RChar space_unit); rlit "="; RStar true (RChar space_unit);
  RGroup 1 (RChar (one_of [39; 34]%N)); RStar true (RChar (none_of [39; 34]%N)); RBack 1].

Definition sanitizeHtml (h : text) : text :=
  en_purify en purify_options (replace EVENT_HANDLER erase h).

Definition validateCustomTemplate (source : text) (tier : Z) : TemplateValidationResult :=
  if tl_customTemplates (getTierLimits (Some tier)) =? 0 then
    {| tv_valid := false; tv_compiledHtml := None;
       tv_error := Some "Custom templates require the Growth plan or higher." |}
  else
    let source := expand_unsubscribe source in
    match en_compile en source with
    | Err e => {| tv_valid := false; tv_compiledHtml := None;
                  tv_error := Some ("Template syntax error: " +:+ err_message e) |}
    | Ok _ => {| tv_valid := true; tv_compiledHtml := Some (sanitizeHtml source); tv_error := None |}
    end.
End service.

(** ** Lemmas: texts *)

Lemma includes_spec p s : includes p s = true ↔ ∃ a b, s = a ++ p ++ b.
Proof.
  induction s as [|x s IH]; cbn [includes].
  - rewrite orb_false_r, bool_decide_eq_true. split.
    + intros [b ->]. by exists [], b.
    + intros (a & b & Hs). symmetry in Hs. apply app_nil in Hs as [_ Hs]. by exists b.
  - rewrite orb_true_iff, bool_decide_eq_true, IH. split.
    + intros [[b ->] | (a & b & ->)]; [by exists [], b | by exists (x :: a), b].
    + intros ([|y a] & b & Hs); [left; by exists b |]. injection Hs as -> ->. right. eauto.
Qed.

Lemma includes_mid p a b : includes p (a ++ p ++ b) = true.
Proof. apply includes_spec. eauto. Qed.

Lemma includes_prefix p b : includes p (p ++ b) = true.
Proof. apply (includes_mid p []). Qed.

Lemma includes_app_l p a s : includes p s = true → includes p (a ++ s) = true.
Proof. rewrite !includes_spec. intros (a' & b & ->). exists (a ++ a'), b. by rewrite app_assoc. Qed.

Lemma includes_app_r p s b : includes p s = true → includes p (s ++ b) = true.
Proof.
  rewrite !includes_spec. intros (a & b' & ->). exists a, (b' ++ b). by rewrite <- !app_assoc.
Qed.

Lemma replace_string_spec pre p v s :
  includes p s = true →
  ∃ a b, s = a ++ p ++ b ∧ replace_string pre p v s = a ++ expand_dollar (pre ++ a) p b v ++ b.
Proof.
  revert pre. induction s as [|x s IH]; intros pre; cbn [includes replace_string].
  all: case_bool_decide as Hp; cbn [orb].
  - intros _. exists [], (drop (length p) []). rewrite (app_nil_r pre). split; [| reflexivity].
    destruct Hp as [b Hb]. cbn [app]. rewrite Hb at 2. rewrite drop_app_length. exact Hb.
  - done.
  - intros _. exists [], (drop (length p) (x :: s)). rewrite (app_nil_r pre). split; [| reflexivity].
    destruct Hp as [b Hb]. cbn [app]. rewrite Hb at 2. rewrite drop_app_length. exact Hb.
  - intros (a & b & -> & ->)%(IH (pre ++ [x])). exists (x :: a), b. by rewrite <- app_assoc.
Qed.

(** The units that mean something after a [$]. *)
Definition after_dollar (v : text) : Prop :=
  match v with [] => True | y :: _ => N.eqb y 36 || N.eqb y 38 || N.eqb y 96 || N.eqb y 39 = true end.

Lemma expand_dollar_cons pre hit post x v :
  x ≠ 36%N → expand_dollar pre hit post (x :: v) = x :: expand_dollar pre hit post v.
Proof. intros Hx. cbn. repeat case_match; congruence. Qed.

Lemma expand_dollar_two pre hit post y v :
  expand_dollar pre hit post (36%N :: y :: v) =
    if N.eqb y 36 then 36%N :: expand_dollar pre hit post v
    else if N.eqb y 38 then hit ++ expand_dollar pre hit post v
    else if N.eqb y 96 then pre ++ expand_dollar pre hit post v
    else if N.eqb y 39 then post ++ expand_dollar pre hit post v
    else 36%N :: expand_dollar pre hit post (y :: v).
Proof. done. Qed.

Lemma expand_dollar_app pre hit post u v :
  ¬ after_dollar v → expand_dollar pre hit post (u ++ v) =
    expand_dollar pre hit post u ++ expand_dollar pre hit post v.
Proof.
  intros Hv. remember (length u) as n eqn:Hn. revert u Hn.
  induction n as [n IH] using lt_wf_ind. intros u Hn. destruct u as [|x u]; [done |].
  destruct (decide (x = 36%N)) as [-> | Hx].
  2: { cbn [app]. rewrite !expand_dollar_cons by done. cbn [app]. f_equal.
       apply (IH (length u)); [cbn in Hn; lia | done]. }
  destruct u as [|y u].
  - destruct v as [|y v]; [done |]. cbn in Hv. rewrite !orb_true_iff in Hv. cbn.
    destruct (N.eqb y 36), (N.eqb y 38), (N.eqb y 96), (N.eqb y 39); naive_solver.
  - cbn [app]. cbn in Hn. rewrite !expand_dollar_two.
    assert (expand_dollar pre hit post (u ++ v) =
      expand_dollar pre hit post u ++ expand_dollar pre hit post v) as Hu.
    { apply (IH (length u)); [lia | done]. }
    assert (expand_dollar pre hit post (y :: u ++ v) =
      expand_dollar pre hit post (y :: u) ++ expand_dollar pre hit post v) as Hyu.
    { apply (IH (S (length u)) ltac:(lia) (y :: u)). done. }
    destruct (N.eqb y 36), (N.eqb y 38), (N.eqb y 96), (N.eqb y 39); cbn [app];
      rewrite ?Hu, ?Hyu, <- ?app_assoc; done.
Qed.

Lemma expand_dollar_plain pre hit post v : 36%N ∉ v → expand_dollar pre hit post v = v.
Proof.
  induction v as [|x v IH]; [done |]. intros Hv.
  rewrite expand_dollar_cons by set_solver. f_equal. apply IH. set_solver.
Qed.

(** A piece without [$] survives, whatever is around it. *)
Lemma expand_dollar_keeps pre hit post p v :
  36%N ∉ p → ¬ after_dollar p → includes p v = true →
  includes p (expand_dollar pre hit post v) = true.
Proof.
  intros Hp Hd (a & b & ->)%includes_spec.
  destruct p as [|x p]; [by apply includes_spec; exists [], (expand_dollar pre hit post (a ++ b)) |].
  rewrite expand_dollar_app by done. apply includes_app_l.
  assert (∀ q, 36%N ∉ q → expand_dollar pre hit post (q ++ b) = q ++ expand_dollar pre hit post b)
    as Hq.
  2: { rewrite Hq by done. apply includes_prefix. }
  intros q. induction q as [|y q IH]; [done |]. intros Hq. cbn [app].
  rewrite expand_dollar_cons by set_solver. f_equal. apply IH. set_solver.
Qed.

(** ** Lemmas: the footer *)

Lemma includes_footer key vars :
  includes HRL_SENTINEL (contained_footer (footer_html key vars)) = true ∧
  includes (unsub_anchor (var_or vars "unsubscribeUrl" (units "#")))
    (contained_footer (footer_html key vars)) = true.
Proof.
  set (u := var_or vars "unsubscribeUrl" (units "#")).
  assert (∀ inner extra, includes HRL_SENTINEL (contained_footer (wrap inner extra)) = true ∧
    ∀ t, includes t inner = true → includes t (contained_footer (wrap inner extra)) = true) as Hwrap.
  { intros inner extra. unfold contained_footer, wrap. split.
    - do 2 apply includes_app_l. apply includes_app_r, includes_app_l.
      apply includes_prefix.
    - intros t Ht. do 2 apply includes_app_l. apply includes_app_r.
      do 7 apply includes_app_l. by apply includes_app_r. }
  assert (∀ c, includes (unsub_anchor u) c = true → includes (unsub_anchor u) (mkTable c) = true) as Htab.
  { intros c Hc. unfold mkTable. do 2 apply includes_app_l. by apply includes_app_r. }
  assert (includes (unsub_anchor u) (unsubTd u) = true) as Htd.
  { unfold unsubTd. apply includes_app_l, includes_prefix. }
  assert (includes (unsub_anchor u) (fullBrandRow u) = true) as Hfull.
  { apply Htab. do 3 apply includes_app_l. by apply includes_app_r. }
  assert (includes (unsub_anchor u) (shortBrandRow u) = true) as Hshort.
  { apply Htab. by do 3 apply includes_app_l. }
  unfold footer_html. fold u. destruct key; (split; [apply (proj1 (Hwrap _ _)) | apply (proj2 (Hwrap _ _))]).
  - by do 3 apply includes_app_l.
  - by do 2 apply includes_app_l.
  - by do 2 apply includes_app_l.
  - by do 2 apply includes_app_l.
  - apply includes_prefix.
Qed.

Lemma with_footer_keeps footer h p :
  36%N ∉ p → ¬ after_dollar p → includes p footer = true → includes p (with_footer footer h) = true.
Proof.
  intros Hp Hd Hf. unfold with_footer. destruct (includes _ h) eqn:Hb; [| by apply includes_app_l].
  apply (replace_string_spec [] _ (footer ++ [NL] ++ units "</body>")) in Hb as (a & b & -> & ->).
  apply includes_app_l, includes_app_r, expand_dollar_keeps; [done | done |]. by apply includes_app_r.
Qed.

(** The two marks by which the service recognises a footer. *)
Definition footer_marked (h : text) : bool :=
  includes (html "class=`footer-brand`") h || includes HRL_SENTINEL h.

Lemma inject_spec h vars key :
  36%N ∉ var_or vars "unsubscribeUrl" (units "#") →
  let out := injectHeraldFooter h vars (Some key) in
  (if footer_marked h then out = h
   else includes HRL_SENTINEL out = true ∧
     includes (unsub_anchor (var_or vars "unsubscribeUrl" (units "#"))) out = true) ∧
  ∀ vars' key', injectHeraldFooter out vars' (Some key') = out.
Proof.
  intros Hu. cbn zeta. unfold injectHeraldFooter at 1 2 3 5 6, footer_marked.
  destruct (includes (html _) h) eqn:Hb; cbn [orb].
  { split; [done |]. intros vars' key'. unfold injectHeraldFooter. by rewrite Hb. }
  destruct (includes HRL_SENTINEL h) eqn:Hs.
  { split; [done |]. intros vars' key'. unfold injectHeraldFooter. by rewrite Hb, Hs. }
  destruct (includes_footer key vars) as [Hsen Hunsub].
  assert (includes HRL_SENTINEL (with_footer (contained_footer (footer_html key vars))
    (with_styles h)) = true) as Hout.
  { apply with_footer_keeps; [| by vm_compute | done].
    refine (bool_decide_unpack _ _). vm_compute. exact I. }
  split; [split; [done |] |].
  - apply with_footer_keeps; [| by vm_compute | done]. unfold unsub_anchor.
    assert (36%N ∉ html "<a href=`") by (refine (bool_decide_unpack _ _); vm_compute; exact I).
    assert (36%N ∉ html "`") by (refine (bool_decide_unpack _ _); vm_compute; exact I).
    rewrite !elem_of_app. tauto.
  - intros vars' key'. unfold injectHeraldFooter. rewrite Hout.
    set (out := with_footer _ _). destruct (includes _ out); reflexivity.
Qed.

(** A protocol's template that already carries a mark gets no footer. *)
Example footer_spoofed :
  let h := html "<p data-hrl-footer=`1`>hi</p>" in
  injectHeraldFooter h ∅ (Some FFull) = h.
Proof. vm_compute. reflexivity. Qed.

(** ** Lemmas: the hashes *)

Lemma int32_shift x : ∃ k, int32 x = x + k * 2 ^ 32.
Proof.
  exists (- ((x + 2 ^ 31) / 2 ^ 32)). unfold int32.
  pose proof (Z.div_mod (x + 2 ^ 31) (2 ^ 32) ltac:(lia)). lia.
Qed.

Lemma int32_cong x y k : x = y + k * 2 ^ 32 → int32 x = int32 y.
Proof.
  intros ->. unfold int32. f_equal. rewrite <- (Z_mod_plus_full (y + 2 ^ 31) k). f_equal. lia.
Qed.

Lemma int32_bounds x : - 2 ^ 31 ≤ int32 x < 2 ^ 31.
Proof. unfold int32. pose proof (Z.mod_pos_bound (x + 2 ^ 31) (2 ^ 32)). lia. Qed.

Lemma hash_step_sha h c : hash_step h c = sha_step h c.
Proof.
  destruct (int32_shift (h * 32)) as [k Hk], (int32_shift (31 * h)) as [k' Hk'].
  apply (int32_cong _ _ (k - k')). lia.
Qed.

(** The two services hash their sources alike, but for the sign that
    [hashSource] drops; a hash is one of 2^32 values. *)
Theorem hashes_agree s :
  hashSource s = show36 (Z.abs (sha_value s)) ∧ - 2 ^ 31 ≤ sha_value s < 2 ^ 31.
Proof.
  split.
  - unfold hashSource, sha_value. do 2 f_equal. generalize 0.
    induction s as [|c s IH]; intros h; [done |]. cbn [foldl]. by rewrite hash_step_sha.
  - unfold sha_value. induction s as [|c s _] using rev_ind; [by cbn; lia |].
    rewrite foldl_snoc. apply int32_bounds.
Qed.

(** Two different templates with one key: whichever is rendered first is what
    both render. *)
Example hash_collision :
  sha (units "<p>Aa</p>") = sha (units "<p>BB</p>") ∧
  let en := {| en_compile := λ s, Ok (λ _, Ok s); en_juice := Ok; en_purify := λ _ h, h;
               en_readTemplate := λ _, None |} in
  let '(_, cache) := getCompiledTemplate en (units "<p>Aa</p>") ∅ in
  match (getCompiledTemplate en (units "<p>BB</p>") cache).1 with
  | Ok d => d ∅ = Ok (units "<p>Aa</p>")
  | Err _ => False
  end.
Proof. vm_compute. done. Qed.

(** ** Properties *)

(** The cache holds compiled sources of [S], under their hashes. *)
Definition cache_of (en : Engine) (S : text → Prop) (cache : TemplateCache) : Prop :=
  ∀ k d, cache !! k = Some d → ∃ s, S s ∧ sha s = k ∧ en_compile en s = Ok d.

Lemma getCompiledTemplate_spec en (S : text → Prop) source cache :
  cache_of en S cache →
  (∀ s, S s → sha s = sha source → s = source) →
  let '(r, cache') := getCompiledTemplate en source cache in
  r = en_compile en source ∧ cache_of en (λ s, S s ∨ s = source) cache'.
Proof.
  intros Hc Hinj. unfold getCompiledTemplate.
  assert (cache_of en (λ s, S s ∨ s = source) cache) as Hc'.
  { intros k d Hk. destruct (Hc k d Hk) as (s & ? & ? & ?). exists s. tauto. }
  destruct (cache !! sha source) as [d|] eqn:Hk.
  - destruct (Hc _ _ Hk) as (s & Hs & Hsha & Hd). split; [| done].
    by rewrite <- (Hinj s Hs Hsha), Hd.
  - destruct (en_compile en source) as [d | e] eqn:He; [| done]. split; [done |].
    intros k d' [[<- <-] | [Hne Hk']]%lookup_insert_Some; [| by apply Hc'].
    exists source. tauto.
Qed.

Section properties.
Context `{B : Backend} `{BL : !BackendLaws B} (en : Engine).

(** Rendering without a cache. *)
Definition render_uncached (p : RenderParams) : M World (result RenderedEmail) :=
  custom ← choose_template p;
  mret (match en_compile en (template_source en p custom) with
        | Ok d => finish_render en p custom d
        | Err e => Err e
        end).

(** C14.  The cache of compiled templates is transparent, as far as its keys
    are: when no cached source has the hash of the one to render, [render]
    returns what rendering without a cache would, and leaves a cache of the
    sources it held and this one. *)
Theorem render_refines (S : text → Prop) p cache w :
  cache_of en S cache →
  (∀ custom, (choose_template p w).1 = Ok custom → ∀ s, S s →
     sha s = sha (template_source en p custom) → s = template_source en p custom) →
  match render en p cache w, render_uncached p w with
  | (Ok (r, cache'), w'), (Ok r', w'') => r = r' ∧ w' = w'' ∧
      ∃ custom, (choose_template p w).1 = Ok custom ∧
        cache_of en (λ s, S s ∨ s = template_source en p custom) cache'
  | (Err e, w'), (Err e', w'') => e = e' ∧ w' = w''
  | _, _ => False
  end.
Proof.
  intros Hc Hinj. unfold render, render_uncached, mbind, M_bind.
  destruct (choose_template p w) as [[custom | e] w1]; [| done].
  pose proof (getCompiledTemplate_spec en S (template_source en p custom) cache Hc
    (Hinj custom eq_refl)) as Hg.
  destruct (getCompiledTemplate _ _ _) as [r cache']. destruct Hg as [-> Hg]. cbn.
  split_and!; [done.. |]. exists custom. done.
Qed.

(** The HTML of an email before the footer: the compiled template with the
    variables in it, its styles inlined and its preheader. *)
Definition unfooted (p : RenderParams) (custom : option CustomTemplateRecord) (compiled : Delegate) :
    result text :=
  let vars := var_units (rp_variables p) in
  match compiled (processBodyLinks vars) with
  | Err e => Err e
  | Ok h =>
      match en_juice en h with
      | Err e => Err e
      | Ok h =>
          let stored := default [] (custom ≫= ct_previewText) in
          Ok (injectPreheader h (if bool_decide (stored = []) then var_or vars "previewText" [] else stored))
      end
  end.

Lemma finish_html p custom compiled m : finish_render en p custom compiled = Ok m →
  ∃ h, unfooted p custom compiled = Ok h ∧
    re_html m = injectHeraldFooter h (var_units (rp_variables p))
      (match custom with Some _ => Some (tierToFooterKey (rp_tier p)) | None => None end).
Proof.
  unfold finish_render, unfooted. cbn zeta.
  destruct (compiled _) as [h|e]; [| done]. destruct (en_juice en h) as [h'|e]; [| done].
  lazymatch goal with |- match ?x with _ => _ end = _ → _ => destruct x; [| done] end.
  intros [= <-]. cbn [re_html]. eauto.
Qed.

(** C27.  Herald's footer is in every email rendered from a protocol's own
    template, whatever its HTML is, unless that already carries one of the two
    marks by which the service recognises a footer, in which case it is left as
    it is: the email has the mark and the link to unsubscribe, and a second
    injection would change nothing.  The email of a system template is left to
    its own footer.  The link to unsubscribe is taken to hold no dollar sign,
    which [String.replace] could read as a pattern; the gateway's own are a base
    URL and a token in base64url. *)
Theorem footer_injected p cache w :
  let vars := var_units (rp_variables p) in
  36%N ∉ var_or vars "unsubscribeUrl" (units "#") →
  wp (render en p cache) (λ r w', ∀ custom m cache',
    (choose_template p w).1 = Ok custom → r = Ok (Ok m, cache') →
    ∃ compiled h, (getCompiledTemplate en (template_source en p custom) cache).1 = Ok compiled ∧
      unfooted p custom compiled = Ok h ∧
      match custom with
      | None => re_html m = h
      | Some _ =>
          (if footer_marked h then re_html m = h
           else includes HRL_SENTINEL (re_html m) = true ∧
             includes (unsub_anchor (var_or vars "unsubscribeUrl" (units "#"))) (re_html m) = true) ∧
          ∀ vars' key, injectHeraldFooter (re_html m) vars' (Some key) = re_html m
      end) w.
Proof.
  intros vars Hu. unfold render. apply wp_bind, wp_intro. intros r w1 Hrun.
  rewrite Hrun. cbn [fst]. destruct r as [custom|e]; [| by intros ? ? ? [=]].
  destruct (getCompiledTemplate _ _ _) as [compiled cache1] eqn:Hcomp. apply wp_ret.
  intros custom' m cache' [= <-] [= Hm <-]. rewrite Hcomp. cbn [fst].
  destruct compiled as [d|e]; [| done]. destruct (finish_html _ _ _ _ Hm) as (h & Hh & Hre).
  exists d, h. split_and!; [done | done |]. rewrite Hre.
  destruct custom as [c|]; [by apply inject_spec | done].
Qed.

(** Where a custom template of an email comes from. *)
Definition template_of (p : RenderParams) (v : View) (c : CustomTemplateRecord) : Prop :=
  ∃ k t, v_tables v MNotificationTemplate !! k = Some t ∧
    nt_protocolId t = rp_protocolId p ∧ nt_isActive t = true ∧
    custom_record (Some t) = Some c ∧
    (rp_templateId p = Some k ∨ (nt_isDefault t = true ∧ nt_category t = rp_template p)).

Lemma load_spec (sel : where_ MNotificationTemplate) w :
  wp (swallow None (t ← find_first MNotificationTemplate sel None; mret (custom_record t)))
    (λ r w', view w' = view w ∧ ∃ c, r = Ok c ∧ (∀ rec, c = Some rec → ∃ k t,
       v_tables (view w) MNotificationTemplate !! k = Some t ∧ sel k t = true ∧
       custom_record (Some t) = Some rec)) w.
Proof.
  apply wp_swallow, wp_bind, (wp_find_first MNotificationTemplate).
  2: { intros e w1 Hv1. split; [done |]. by exists None. }
  intros o w1 Ho Hv1. apply wp_ret. split; [done |]. eexists. split; [done |]. intros rec Hrec.
  destruct o as [t|]; [| done]. destruct Ho as (k & Hk & Hs). eauto.
Qed.

(** Choosing the template of an email never fails, and takes a custom
    one only from the protocol's own active templates: the one the request
    names, or a default of the protocol whose category is the name of the
    system template. *)
Theorem template_is_own p w :
  wp (choose_template p) (λ r w', view w' = view w ∧ ∃ c, r = Ok c ∧
    ∀ rec, c = Some rec → template_of p (view w) rec) w.
Proof.
  unfold choose_template. apply wp_bind.
  assert (∀ w1, view w1 = view w → wp (if truthy (Some (rp_protocolId p))
    then loadProtocolDefaultTemplate (rp_protocolId p) (rp_template p) else mret None)
    (λ r w', view w' = view w ∧ ∃ c, r = Ok c ∧ ∀ rec, c = Some rec → template_of p (view w) rec)
    w1) as Hdefault.
  { intros w1 Hv1. destruct (truthy _); [| apply wp_ret; split; [done | by exists None]].
    eapply wp_mono; [apply load_spec |]. rewrite Hv1. intros r w2 (Hv2 & c & -> & Hc).
    split; [done |]. exists c. split; [done |]. intros rec Hrec.
    destruct (Hc rec Hrec) as (k & t & Hk & Hs & Ht). unfold is_default_for in Hs.
    rewrite !andb_true_iff, !bool_decide_eq_true in Hs. exists k, t. naive_solver. }
  destruct (truthy (rp_templateId p) && _) eqn:Hid; [| by apply wp_ret, Hdefault].
  eapply wp_mono; [apply load_spec |]. intros r w1 (Hv1 & c & -> & Hc).
  destruct c as [rec|]; [| by apply Hdefault]. apply wp_ret. split; [done |].
  eexists. split; [done |]. intros rec' [= <-].
  destruct (Hc rec eq_refl) as (k & t & Hk & Hs & Ht). unfold is_custom in Hs.
  rewrite !andb_true_iff, !bool_decide_eq_true in Hs. destruct Hs as [[-> Hp] Ha].
  exists (default "" (rp_templateId p)), t. split_and!; [done.. | left].
  destruct (rp_templateId p); [done | by cbn in Hid].
Qed.
End properties.

(** The default of the category [defi] is never used: an email of that
    category is rendered with the name ["defi-alert"], which is looked up as a
    category. *)
Lemma defi_default_unused protocolId k t :
  nt_category t = "defi" → is_default_for protocolId (getTemplateName "defi") k t = false.
Proof.
  intros Ht. unfold is_default_for. rewrite Ht. cbn. by rewrite andb_false_r.
Qed.

(** ** Witnesses *)

Definition plain_engine : Engine := {|
  en_compile := λ s, Ok (λ vars, Ok (s ++ var_or vars "body" [])); en_juice := Ok; en_purify := λ _ h, h;
  en_readTemplate := λ n, Some (units n) |}.

Definition own_mail_template : NotificationTemplate := {|
  nt_id := "t1"; nt_protocolId := "p1"; nt_name := "mine"; nt_category := "governance";
  nt_subjectTemplate := None; nt_htmlSource := Some (units "<body>hi <unsubscribe/></body>");
  nt_textSource := None; nt_previewText := None; nt_heraldFooter := "full"; nt_status := APPROVED;
  nt_isActive := true; nt_isDefault := true; nt_version := 1; nt_createdAt := 0; nt_updatedAt := 0 |}.

Definition template_world : World :=
  mem_world (with_rows MNotificationTemplate [own_mail_template] no_tables) ∅.

Definition governance_mail : RenderParams := {|
  rp_template := "governance"; rp_templateId := None; rp_tier := 1; rp_protocolId := "p1";
  rp_variables := <["unsubscribeUrl" := Some "https://u/1"]> ∅ |}.

Lemma footer_injected_witness :
  let u := unsub_anchor (units "https://u/1") in
  match (render plain_engine governance_mail ∅ template_world).1 with
  | Ok (Ok m, _) => ∃ h, footer_marked h = false ∧
      includes HRL_SENTINEL (re_html m) = true ∧ includes u (re_html m) = true ∧
      ∀ vars' key, injectHeraldFooter (re_html m) vars' (Some key) = re_html m
  | _ => False
  end.
Proof.
  cbn zeta. assert (36%N ∉ var_or (var_units (rp_variables governance_mail)) "unsubscribeUrl" (units "#")) as Hu
    by (refine (bool_decide_unpack _ _); vm_compute; exact I).
  pose proof (wp_at _ _ template_world _ (footer_injected plain_engine governance_mail ∅ template_world Hu) eq_refl) as H.
  assert ((choose_template governance_mail template_world).1 = Ok (custom_record (Some own_mail_template))) as Hc
    by (vm_compute; reflexivity).
  assert (match (render plain_engine governance_mail ∅ template_world).1 with Ok (Ok _, _) => True | _ => False end) as Hr
    by (vm_compute; exact I).
  destruct (render plain_engine governance_mail ∅ template_world).1 as [[[m|e] cache']|e];
    [| destruct Hr | destruct Hr].
  destruct (H _ m cache' Hc eq_refl) as (d & h & Hd & Hh & Hm).
  assert (unfooted plain_engine governance_mail (custom_record (Some own_mail_template)) d = Ok h →
    footer_marked h = false) as Hf.
  { injection Hd as <-. vm_compute. intros [= <-]. reflexivity. }
  specialize (Hf Hh). exists h. change (custom_record (Some own_mail_template)) with
    (Some {| ct_htmlSource := units "<body>hi <unsubscribe/></body>"; ct_textSource := None; ct_previewText := None |}) in Hm.
  cbn beta iota in Hm. rewrite Hf in Hm. destruct Hm as [[Hs Hl] Hi].
  split; [exact Hf |]. split; [exact Hs |]. split; [exact Hl | exact Hi].
Defined.

Lemma render_refines_witness :
  let cache : TemplateCache := ∅ in
  match render plain_engine governance_mail cache template_world,
        render_uncached plain_engine governance_mail template_world with
  | (Ok (r, cache'), w'), (Ok r', w'') => r = r' ∧ w' = w'' ∧
      ∃ custom, (choose_template governance_mail template_world).1 = Ok custom ∧
        cache_of plain_engine (λ s, False ∨ s = template_source plain_engine governance_mail custom) cache'
  | (Err e, w'), (Err e', w'') => e = e' ∧ w' = w''
  | _, _ => False
  end.
Proof.
  cbn zeta. apply (render_refines plain_engine (λ _, False) governance_mail ∅ template_world).
  - intros k d Hk. by apply (lookup_empty_Some k d) in Hk.
  - by intros custom _ s [].
Defined.

Lemma template_is_own_witness :
  (match (choose_template governance_mail template_world).1 with
   | Ok (Some c) => ct_htmlSource c = units "<body>hi <unsubscribe/></body>" | _ => False end) ∧
  wp (choose_template governance_mail) (λ r w', view w' = view template_world ∧ ∃ c, r = Ok c ∧
    ∀ rec, c = Some rec → template_of governance_mail (view template_world) rec) template_world.
Proof. split; [vm_compute; reflexivity |]. apply (template_is_own governance_mail template_world). Defined.

(** The whole rendering: the placeholder of the template and the footer both
    link to the same page. *)
Example rendered_mail :
  match (render plain_engine governance_mail ∅ template_world).1 with
  | Ok (Ok m, _) => includes (unsub_anchor (units "https://u/1")) (re_html m) = true ∧
      includes (units "{{unsubscribeUrl}}") (re_html m) = true ∧
      re_subject m = units "Notification from Herald"
  | _ => False
  end.
Proof. vm_compute. done. Qed.
