(* ===== verification/UnsubscribeApi.v ===== *)
(** * The unsubscribe links

    [UnsubscribeController] of [src/modules/notify/unsubscribe.controller.ts],
    whose pages a link in an email leads to, and [PortalUnsubscribeController]
    of portal-unsubscribe.controller.ts, the same in JSON.  The pages are
    sequences of UTF-16 units; in a literal a backquote stands for a double
    quote. *)

From Stdlib Require Import Ascii String.
From S2P Require Import Prelude Schema External Memory Text Rx Links Template Unsubscribe.

Open Scope string_scope.
Open Scope list_scope.
Open Scope Z_scope.

(** ** The pages *)

Definition confirm_part0 : text :=
  html "<!DOCTYPE html>
<html lang=`en`>
<head>
  <meta charset=`utf-8`>
  <meta name=`viewport` content=`width=device-width, initial-scale=1`>
  <title>Unsubscribe " ++
  [8212%N] ++
  html " Herald</title>
  <style>
    * { margin: 0; padding: 0; box-sizing: border-box; }
    body { font-family: -apple-system, BlinkMacSystemFont, 'Segoe UI', sans-serif; background: #040C18; color: #F0F6FF; display: flex; align-items: center; justify-content: center; min-height: 100vh; }
    .card { background: #0A1628; border: 1px solid #1A2D3D; border-radius: 12px; padding: 40px; max-width: 460px; text-align: center; }
    h1 { font-size: 24px; margin-bottom: 8px; color: #00C896; }
    p { color: #8BA3B9; margin: 16px 0; line-height: 1.6; }
    .category { color: #F0F6FF; font-weight: 600; }
    form { margin-top: 24px; }
    button { background: #DC2626; color: white; border: none; padding: 12px 32px; border-radius: 8px; font-size: 16px; cursor: pointer; transition: background 0.2s; }
    button:hover { background: #B91C1C; }
    .note { font-size: 12px; color: #4A6375; margin-top: 16px; }
    .logo { font-size: 14px; color: #2D4A5E; margin-top: 24px; }
    .logo span { color: #00C896; }
  </style>
</head>
<body>
  <div class=`card`>
    <h1>" ++
  [9672%N] ++
  html " Unsubscribe</h1>
    <p>You're about to unsubscribe from <span class=`category`>".

Definition confirm_part1 : text :=
  html "</span>.</p>
    <p>You can re-enable notifications anytime at <a href=`https://app.useherald.xyz` style=`color:#00C896;`>app.useherald.xyz</a></p>
    <form method=`POST` action=`/unsubscribe/".

Definition confirm_part2 : text :=
  html "`>
      <button type=`submit`>Confirm Unsubscribe</button>
    </form>
    <p class=`note`>This link expires in 7 days.</p>
    <p class=`logo`><span>" ++
  [9672%N] ++
  html "</span> Herald " ++
  [8212%N] ++
  html " Privacy-preserving notifications for Solana</p>
  </div>
</body>
</html>".

Definition success_part0 : text :=
  html "<!DOCTYPE html>
<html lang=`en`>
<head>
  <meta charset=`utf-8`>
  <meta name=`viewport` content=`width=device-width, initial-scale=1`>
  <title>Unsubscribed " ++
  [8212%N] ++
  html " Herald</title>
  <style>
    * { margin: 0; padding: 0; box-sizing: border-box; }
    body { font-family: -apple-system, BlinkMacSystemFont, 'Segoe UI', sans-serif; background: #040C18; color: #F0F6FF; display: flex; align-items: center; justify-content: center; min-height: 100vh; }
    .card { background: #0A1628; border: 1px solid #1A2D3D; border-radius: 12px; padding: 40px; max-width: 460px; text-align: center; }
    h1 { font-size: 24px; margin-bottom: 8px; color: #00C896; }
    p { color: #8BA3B9; margin: 16px 0; line-height: 1.6; }
    .check { font-size: 48px; margin-bottom: 16px; }
    .logo { font-size: 14px; color: #2D4A5E; margin-top: 24px; }
    .logo span { color: #00C896; }
  </style>
</head>
<body>
  <div class=`card`>
    <div class=`check`>" ++
  [10003%N] ++
  html "</div>
    <h1>Unsubscribed</h1>
    <p>You've been unsubscribed from <strong>".

Definition success_part1 : text :=
  html "</strong>.</p>
    <p>Changed your mind? Visit <a href=`https://app.useherald.xyz` style=`color:#00C896;`>app.useherald.xyz</a> to manage preferences.</p>
    <p class=`logo`><span>" ++
  [9672%N] ++
  html "</span> Herald</p>
  </div>
</body>
</html>".

Definition error_part0 : text :=
  html "<!DOCTYPE html>
<html lang=`en`>
<head>
  <meta charset=`utf-8`>
  <meta name=`viewport` content=`width=device-width, initial-scale=1`>
  <title>Error " ++
  [8212%N] ++
  html " Herald</title>
  <style>
    * { margin: 0; padding: 0; box-sizing: border-box; }
    body { font-family: -apple-system, BlinkMacSystemFont, 'Segoe UI', sans-serif; background: #040C18; color: #F0F6FF; display: flex; align-items: center; justify-content: center; min-height: 100vh; }
    .card { background: #0A1628; border: 1px solid #1A2D3D; border-radius: 12px; padding: 40px; max-width: 460px; text-align: center; }
    h1 { font-size: 24px; margin-bottom: 8px; color: #EF4444; }
    p { color: #8BA3B9; margin: 16px 0; line-height: 1.6; }
    .logo { font-size: 14px; color: #2D4A5E; margin-top: 24px; }
    .logo span { color: #00C896; }
  </style>
</head>
<body>
  <div class=`card`>
    <h1>" ++
  [9888%N] ++
  html " Error</h1>
    <p>".

Definition error_part1 : text :=
  html "</p>
    <p>Visit <a href=`https://app.useherald.xyz` style=`color:#00C896;`>app.useherald.xyz</a> to manage your notification preferences directly.</p>
    <p class=`logo`><span>" ++
  [9672%N] ++
  html "</span> Herald</p>
  </div>
</body>
</html>".

Definition renderConfirmationPage (token categoryLabel : text) : text :=
  confirm_part0 ++ categoryLabel ++ confirm_part1 ++ token ++ confirm_part2.

Definition renderSuccessPage (categoryLabel : text) : text :=
  success_part0 ++ categoryLabel ++ success_part1.

Definition renderErrorPage (error : option string) : text :=
  let message := match error with
    | Some (String _ _ as e) => e
    | _ => "This unsubscribe link is invalid or has expired."
    end in
  error_part0 ++ units message ++ error_part1.

(** What the payload's category is shown as. *)
Definition categoryLabel (category : option string) : text :=
  match category with
  | None | Some "" | Some "all" => units "all notifications"
  | Some c => escapeHtml (units c) ++ units " notifications"
  end.

(** ** The endpoints *)

(** The status and the page of a response. *)
Abbreviation Page := (Z * text)%type.

Section controller.
Context `{B : Backend} `{S : Signing}.
Context (secret : string).

Definition showConfirmation (token : string) (now : Z) : Page :=
  match decodeToken secret token now with
  | None => (400, renderErrorPage None)
  | Some payload => (200, renderConfirmationPage (units token) (categoryLabel (up_category payload)))
  end.

Definition executeUnsubscribe_page (token : string) (now : Z) : M World Page :=
  result ← validateAndExecute secret token now;
  if negb (ur_success result) then mret (400, renderErrorPage (ur_error result))
  else mret (200, renderSuccessPage (categoryLabel (ur_payload result ≫= up_category))).

(** The portal: the category of a valid token, and the success. *)
Definition getPreview (token : string) (now : Z) : result (option string) :=
  match decodeToken secret token now with
  | None => Err (HttpError 404 "Invalid or expired unsubscribe link.")
  | Some payload => Ok (up_category payload)
  end.

Definition portal_unsubscribe (token : string) (now : Z) : M World () :=
  result ← validateAndExecute secret token now;
  if ur_success result then mret ()
  else raise (HttpError 400 (match ur_error result with
    | Some (String _ _ as e) => e
    | _ => "Failed to process unsubscribe request."
    end)).

(** ** Lemmas *)

Lemma label_neutral category x : x ∈ categoryLabel category → x ∉ MARKUP.
Proof.
  assert (∀ s, forallb (λ x, negb (bool_decide (x ∈ MARKUP))) s = true → ∀ x, x ∈ s → x ∉ MARKUP) as Hs.
  { intros s Hs y Hy%list_elem_of_In. rewrite forallb_forall in Hs. apply Hs in Hy.
    by apply negb_true_iff, bool_decide_eq_false in Hy. }
  assert (∀ c, x ∈ escapeHtml (units c) ++ units " notifications" → x ∉ MARKUP) as Hc.
  { intros c [Hx | Hx]%elem_of_app; [by eapply escapeHtml_neutral | by eapply Hs; [| exact Hx]]. }
  unfold categoryLabel. repeat case_match; first [by apply Hs | by apply Hc].
Qed.

Context `{BL : !BackendLaws B}.

Lemma refused_unchanged token now w :
  wp (validateAndExecute secret token now) (λ r w', ∀ res, r = Ok res →
    (ur_success res = true ∧ is_Some (decodeToken secret token now) ∧
     ur_payload res = decodeToken secret token now) ∨
    (ur_success res = false ∧ view w' = view w)) w.
Proof.
  unfold validateAndExecute, decodeToken.
  destruct (split_dot token) as [|payloadStr [|signature [|? ?]]];
    try (apply wp_ret; intros ? [= <-]; by right).
  destruct (negb (signature_ok secret payloadStr signature)); [apply wp_ret; intros ? [= <-]; by right |].
  destruct (decode_payload payloadStr) as [payload|]; [| apply wp_ret; intros ? [= <-]; by right].
  destruct (up_expiresAt payload <? now / 1000); [apply wp_ret; intros ? [= <-]; by right |].
  cbn zeta. apply wp_bind, (wp_find_unique MUnsubscribeToken); [| done].
  intros o w1 _ Hv1. case_bool_decide; [apply wp_ret; intros ? [= <-]; by right |].
  apply wp_bind, wp_intro. intros [[]|e] w2 _; [| done]. apply wp_bind, wp_intro.
  intros [[]|e] w3 _; [| done]. apply wp_ret. intros ? [= <-]. left. by split_and!; [| eexists |].
Qed.

(** ** Properties *)

(** The unsubscribe pages.  A link is shown the page that asks for a
    confirmation exactly if its token decodes, and that alone changes nothing;
    the page is the fixed one with the token and the label of its category,
    and no unit of a label is one of the markup of HTML, whatever the category.
    Confirming answers 200 only for a token that decodes, with the page of its
    category, and where it answers 400 nothing has changed. *)
Theorem unsubscribe_pages token now w :
  ((showConfirmation token now).1 = 200 ↔ is_Some (decodeToken secret token now)) ∧
  (∀ payload, decodeToken secret token now = Some payload →
     (showConfirmation token now).2 =
       renderConfirmationPage (units token) (categoryLabel (up_category payload))) ∧
  (∀ category x, x ∈ categoryLabel category → x ∉ MARKUP) ∧
  wp (executeUnsubscribe_page token now) (λ r w', ∀ status page, r = Ok (status, page) →
    (status = 200 ∧ ∃ payload, decodeToken secret token now = Some payload ∧
       page = renderSuccessPage (categoryLabel (up_category payload))) ∨
    (status = 400 ∧ view w' = view w)) w.
Proof.
  unfold showConfirmation. split_and!.
  - destruct (decodeToken _ _ _); cbn; split; [eauto | done | done | by intros [? [=]]].
  - by intros payload ->.
  - intros category x. apply label_neutral.
  - apply wp_bind. eapply wp_mono; [apply refused_unchanged |]. intros [res|e] w1 H1; [| done].
    destruct (H1 _ eq_refl) as [(Hs & [payload Hp] & Hres) | [Hs Hv]]; rewrite Hs; cbn [negb]; apply wp_ret.
    + intros ? ? [= <- <-]. left. split; [done |]. exists payload. split; [done |]. by rewrite Hres, Hp.
    + intros ? ? [= <- <-]. by right.
Qed.

(** The portal refuses a token exactly where the pages do, and changes nothing
    then. *)
Theorem portal_agrees token now w :
  (getPreview token now = Err (HttpError 404 "Invalid or expired unsubscribe link.") ↔
     (showConfirmation token now).1 = 400) ∧
  wp (portal_unsubscribe token now) (λ r w', r = Ok () → is_Some (decodeToken secret token now)) w.
Proof.
  unfold getPreview, showConfirmation. split; [by destruct (decodeToken _ _ _) |].
  apply wp_bind. eapply wp_mono; [apply refused_unchanged |]. intros [res|e] w1 H1; [| done].
  destruct (H1 _ eq_refl) as [(Hs & Hd & _) | [Hs _]]; rewrite Hs; [by apply wp_ret | by apply wp_raise].
Qed.
End controller.

Example label_escaped :
  categoryLabel (Some "<b a='1'>") = units "&lt;b a=&#039;1&#039;&gt; notifications".
Proof. vm_compute. reflexivity. Qed.
