(* ===== verification/TemplateStore.v ===== *)
(** * The templates a protocol stores

    [TemplateController] of [src/modules/template/template.controller.ts]: the
    custom email templates of a protocol, their defaults per category and
    their version history.  A request body is the part of it the handler
    reads; the random ids ([uuidv4]) are arguments. *)

From S2P Require Import Prelude Schema External Memory Frame RateLimit Text Rx Links Markdown Sms Telegram Unsubscribe Channels Template.

Open Scope string_scope.
Open Scope list_scope.
Open Scope Z_scope.

Record CreateTemplateBody := {
  cb_name : string;
  cb_category : string;
  cb_subjectTemplate : option text;
  cb_htmlSource : option text;
  cb_textSource : option text;
  cb_previewText : option text;
  cb_isDefault : option bool;
}.

Record UpdateTemplateBody := {
  ub_name : option string;
  ub_subjectTemplate : option text;
  ub_previewText : option text;
  ub_htmlSource : option text;
  ub_isDefault : option bool;
}.

Definition MAX_VERSIONS : Z := 10.

Definition tier_required : exn :=
  HttpError 403 "Custom email templates require Growth tier or higher".
Definition template_missing : exn := HttpError 404 "Template not found".

(** [where: { protocolId, category }] *)
Definition in_category (protocolId category : string) : where_ MNotificationTemplate := λ _ t,
  bool_decide (nt_protocolId t = protocolId) && bool_decide (nt_category t = category).

Definition version_of (templateId : string) : where_ MNotificationTemplateVersion := λ _ v,
  bool_decide (ntv_templateId v = templateId).

Section store.
Context `{B : Backend} (en : Engine).

Definition clear_defaults (protocolId category : string) : M World () :=
  update_many MNotificationTemplate (in_category protocolId category)
    (λ t, t <| nt_isDefault := false |>).

Definition created_template (protocol : AuthenticatedProtocol) (body : CreateTemplateBody)
    (compiledHtml : option text) (uuid : string) (now : Z) : NotificationTemplate := {|
  nt_id := uuid; nt_protocolId := ap_protocolId protocol; nt_name := cb_name body;
  nt_category := cb_category body; nt_subjectTemplate := cb_subjectTemplate body;
  nt_htmlSource := compiledHtml; nt_textSource := cb_textSource body;
  nt_previewText := cb_previewText body; nt_heraldFooter := "full"; nt_status := DRAFT;
  nt_isActive := true; nt_isDefault := default false (cb_isDefault body); nt_version := 1;
  nt_createdAt := now; nt_updatedAt := now |}.

Definition createEmailTemplate (protocol : AuthenticatedProtocol) (body : CreateTemplateBody)
    (uuid : string) (now : Z) : M World string :=
  if ap_tier protocol <? 1 then raise tier_required else
  let validation := validateCustomTemplate en (default [] (cb_htmlSource body)) (ap_tier protocol) in
  if negb (tv_valid validation) then
    raise (HttpError 400 (default "Invalid template" (tv_error validation)))
  else
    _ ← (if default false (cb_isDefault body)
         then clear_defaults (ap_protocolId protocol) (cb_category body) else mret ());
    t ← create MNotificationTemplate
          (λ _, created_template protocol body (tv_compiledHtml validation) uuid now);
    mret (nt_id t).

Definition listEmailTemplates (protocol : AuthenticatedProtocol) :
    M World (list NotificationTemplate) :=
  find_many MNotificationTemplate
    (λ _ t, bool_decide (nt_protocolId t = ap_protocolId protocol) && nt_isActive t)
    (Some (λ t, - nt_createdAt t)).

Definition getEmailTemplate (protocol : AuthenticatedProtocol) (id : string) :
    M World NotificationTemplate :=
  template ← find_first MNotificationTemplate (is_custom id (ap_protocolId protocol)) None;
  match template with
  | Some t => mret t
  | None => raise template_missing
  end.

(** The history: the new version is added, and all but the last ten go. *)
Definition add_version (existing : NotificationTemplate) (sanitizedHtml : text)
    (subjectTemplate : option text) (uuid : string) : M World () :=
  _ ← create MNotificationTemplateVersion (λ _, {|
        ntv_id := uuid; ntv_templateId := nt_id existing; ntv_version := nt_version existing + 1;
        ntv_htmlSource := sanitizedHtml;
        ntv_subjectTemplate :=
          match subjectTemplate with Some s => Some s | None => nt_subjectTemplate existing end |});
  versionCount ← count MNotificationTemplateVersion (version_of (nt_id existing));
  if MAX_VERSIONS <? versionCount then
    all ← find_many MNotificationTemplateVersion (version_of (nt_id existing)) (Some ntv_version);
    let oldest := take (Z.to_nat (versionCount - MAX_VERSIONS)) all in
    delete_many MNotificationTemplateVersion (λ k _, bool_decide (k ∈ ntv_id <$> oldest))
  else mret ().

(** What the update writes: [None] where the body leaves a field. *)
Definition updated_template (body : UpdateTemplateBody) (htmlSource : option (text * Z)) (now : Z)
    (t : NotificationTemplate) : NotificationTemplate :=
  t <| nt_updatedAt := now |>
    <| nt_name ::= λ x, default x (ub_name body) |>
    <| nt_subjectTemplate ::= λ x,
         match ub_subjectTemplate body with Some s => Some s | None => x end |>
    <| nt_previewText ::= λ x, match ub_previewText body with Some s => Some s | None => x end |>
    <| nt_isDefault ::= λ x, default x (ub_isDefault body) |>
    <| nt_htmlSource ::= λ x, match htmlSource with Some (h, _) => Some h | None => x end |>
    <| nt_version ::= λ x, match htmlSource with Some (_, v) => v | None => x end |>.

Definition updateEmailTemplate (protocol : AuthenticatedProtocol) (id : string)
    (body : UpdateTemplateBody) (uuid : string) (now : Z) : M World () :=
  if ap_tier protocol <? 1 then raise tier_required else
  existing ← getEmailTemplate protocol id;
  _ ← (if default false (ub_isDefault body)
       then clear_defaults (ap_protocolId protocol) (nt_category existing) else mret ());
  newHtml ←
    match ub_htmlSource body with
    | Some (x :: h) =>
        let validation := validateCustomTemplate en (x :: h) (ap_tier protocol) in
        if negb (tv_valid validation) then
          raise (HttpError 400 (default "Invalid template HTML" (tv_error validation)))
        else
          let sanitizedHtml := default [] (tv_compiledHtml validation) in
          _ ← add_version existing sanitizedHtml (ub_subjectTemplate body) uuid;
          mret (Some (sanitizedHtml, nt_version existing + 1))
    | _ => mret None
    end;
  _ ← update MNotificationTemplate (by_id MNotificationTemplate id)
        (updated_template body newHtml now);
  mret ().

Definition previewTemplate (protocol : AuthenticatedProtocol) (templateId : string)
    (variables : gmap string (option string)) (cache : TemplateCache) :
    M World (text * text * TemplateCache) :=
  _ ← getEmailTemplate protocol templateId;
  '(r, cache') ← renderPreview en templateId (ap_protocolId protocol)
    (default "Protocol" (ap_name protocol)) (ap_tier protocol) variables cache;
  m ← lift r;
  mret (re_html m, re_text m, cache').

Definition deleteEmailTemplate (protocol : AuthenticatedProtocol) (id : string) : M World () :=
  _ ← getEmailTemplate protocol id;
  _ ← update MNotificationTemplate (by_id MNotificationTemplate id)
        (λ t, t <| nt_isActive := false |>);
  mret ().
End store.

(** ** Lemmas: one default per category *)

Definition one_default (t : gmap string (row MNotificationTemplate)) : Prop :=
  ∀ k1 k2 t1 t2, t !! k1 = Some t1 → t !! k2 = Some t2 →
    nt_isDefault t1 = true → nt_isDefault t2 = true →
    nt_protocolId t1 = nt_protocolId t2 → nt_category t1 = nt_category t2 → k1 = k2.

(** No template of the category is the default. *)
Definition no_default (protocolId category : string) (t : gmap string (row MNotificationTemplate)) : Prop :=
  ∀ k r, t !! k = Some r → nt_protocolId r = protocolId → nt_category r = category →
    nt_isDefault r = false.

Lemma one_default_insert t k r :
  one_default t →
  (nt_isDefault r = true → no_default (nt_protocolId r) (nt_category r) (delete k t)) →
  one_default (<[k := r]> t).
Proof.
  intros Ht Hr k1 k2 t1 t2 H1 H2 D1 D2 Hp Hc.
  assert (∀ j s, j ≠ k → t !! j = Some s → nt_isDefault s = true → nt_isDefault r = true →
    nt_protocolId s = nt_protocolId r → nt_category s = nt_category r → False) as Hno.
  { intros j s Hj Hs Ds Dr Hsp Hsc. specialize (Hr Dr j s).
    rewrite lookup_delete_ne in Hr by done. by rewrite Hr in Ds. }
  apply lookup_insert_Some in H1 as [[<- <-] | [Hk1 H1]];
    apply lookup_insert_Some in H2 as [[<- <-] | [Hk2 H2]]; [done | | |].
  - exfalso. by eapply (Hno k2 t2).
  - exfalso. by eapply (Hno k1 t1).
  - by eapply Ht.
Qed.

Lemma cleared_lookup protocolId category (t : gmap string (row MNotificationTemplate)) k r :
  update_where (in_category protocolId category)
    (λ t, t <| nt_isDefault := false |>) t !! k = Some r →
  ∃ r0, t !! k = Some r0 ∧ nt_protocolId r = nt_protocolId r0 ∧ nt_category r = nt_category r0 ∧
    (nt_isDefault r = true → nt_isDefault r0 = true ∧ in_category protocolId category k r0 = false).
Proof.
  intros H. pose proof (lookup_update_where (m := MNotificationTemplate)
    (in_category protocolId category) (λ t, t <| nt_isDefault := false |>) t k) as HL.
  pose proof (eq_trans (eq_sym HL) H) as (r0 & Hr0 & Hr)%fmap_Some.
  exists r0. split; [exact Hr0 |]. rewrite Hr.
  destruct (in_category _ _ _ r0); cbn; by split_and!.
Qed.

Lemma cleared_defaults protocolId category (t : gmap string (row MNotificationTemplate)) :
  let t' := update_where (in_category protocolId category)
              (λ t, t <| nt_isDefault := false |>) t in
  no_default protocolId category t' ∧ (one_default t → one_default t').
Proof.
  cbn zeta. split.
  - intros k r Hr Hp Hc. destruct (cleared_lookup _ _ _ _ _ Hr) as (r0 & _ & Hp0 & Hc0 & Hd).
    destruct (nt_isDefault r); [| done]. destruct (Hd eq_refl) as [_ Hin].
    unfold in_category in Hin. rewrite <- Hp0, <- Hc0, Hp, Hc, !bool_decide_eqb_refl in Hin. done.
  - intros Ht k1 k2 t1 t2 H1 H2 D1 D2 Hp Hc.
    destruct (cleared_lookup _ _ _ _ _ H1) as (s1 & Hs1 & Hp1 & Hc1 & Hd1).
    destruct (cleared_lookup _ _ _ _ _ H2) as (s2 & Hs2 & Hp2 & Hc2 & Hd2).
    destruct (Hd1 D1), (Hd2 D2). eapply Ht; [exact Hs1 | exact Hs2 | done | done | congruence..].
Qed.

Lemma get_template_spec `{B : Backend} `{BL : !BackendLaws B} protocol id w :
  wp (getEmailTemplate protocol id) (λ r w', view w' = view w ∧ ∀ t, r = Ok t →
    v_tables (view w) MNotificationTemplate !! id = Some t ∧
    nt_protocolId t = ap_protocolId protocol ∧ nt_isActive t = true) w.
Proof.
  unfold getEmailTemplate. apply wp_bind, (wp_find_first MNotificationTemplate); [| done].
  intros o w1 Ho Hv1. destruct o as [t|]; [| by apply wp_raise]. apply wp_ret. split; [done |].
  intros ? [= <-]. destruct Ho as (k & Hk & Hs). unfold is_custom in Hs.
  rewrite !andb_true_iff, !bool_decide_eq_true in Hs. by destruct Hs as [[-> ?] ?].
Qed.

Section defaults.
Context `{B : Backend} `{BL : !BackendLaws B} (en : Engine).

(** The templates after an optional [clear_defaults]. *)
Lemma clear_spec (isDefault : bool) protocolId category w :
  wp (if isDefault then clear_defaults protocolId category else mret ()) (λ r w',
    (one_default (v_tables (view w) MNotificationTemplate) →
     one_default (v_tables (view w') MNotificationTemplate)) ∧
    (r = Ok () → isDefault = true →
     no_default protocolId category (v_tables (view w') MNotificationTemplate)) ∧
    ∀ k t, v_tables (view w) MNotificationTemplate !! k = Some t →
      ∃ t', v_tables (view w') MNotificationTemplate !! k = Some t' ∧
        nt_protocolId t' = nt_protocolId t ∧ nt_category t' = nt_category t) w.
Proof.
  destruct isDefault; [| apply wp_ret; naive_solver].
  apply (wp_update_many MNotificationTemplate); [| intros e w' ->; naive_solver].
  intros w' ->. cbn. rewrite upd_eq.
  destruct (cleared_defaults protocolId category (v_tables (view w) MNotificationTemplate)) as [Hn Ho].
  split_and!; [exact Ho | intros _ _; exact Hn |]. intros k t Hk.
  pose proof (lookup_update_where (m := MNotificationTemplate)
    (in_category protocolId category) (λ t, t <| nt_isDefault := false |>)
    (v_tables (view w) MNotificationTemplate) k) as HL.
  eexists. split; [exact (eq_trans HL (f_equal (fmap (M := option) _) Hk)) |].
  cbn. by destruct (in_category _ _ _ _).
Qed.

Lemma delete_found (t : gmap string (row MNotificationTemplate)) k j (r : NotificationTemplate) :
  delete k t !! j = Some r → k ≠ j ∧ t !! j = Some r.
Proof. intros H. by apply (lookup_delete_Some (M := gmap string) (A := row MNotificationTemplate)) in H. Qed.

Lemma no_default_delete protocolId category k (t : gmap string (row MNotificationTemplate)) :
  no_default protocolId category t → no_default protocolId category (delete k t).
Proof. intros Hn j r H. destruct (delete_found _ _ _ _ H) as [_ Hj]. exact (Hn j r Hj). Qed.

(** C26.  At most one template is the default of a protocol for a category:
    every creation, update and deletion of a template keeps it so, wherever
    it fails. *)
Theorem one_default_kept protocol w :
  one_default (v_tables (view w) MNotificationTemplate) →
  (∀ body uuid now, wp (createEmailTemplate en protocol body uuid now)
    (λ _ w', one_default (v_tables (view w') MNotificationTemplate)) w) ∧
  (∀ id body uuid now, wp (updateEmailTemplate en protocol id body uuid now)
    (λ _ w', one_default (v_tables (view w') MNotificationTemplate)) w) ∧
  (∀ id, wp (deleteEmailTemplate protocol id)
    (λ _ w', one_default (v_tables (view w') MNotificationTemplate)) w).
Proof.
  intros Hone. split_and!.
  - intros body uuid now. unfold createEmailTemplate.
    destruct (_ <? _); [by apply wp_raise |]. destruct (negb _); [by apply wp_raise |].
    apply wp_bind. eapply wp_mono; [apply clear_spec |]. intros r w1 (Ho & Hn & _).
    destruct r as [[] | e]; [| by apply Ho].
    apply wp_bind, (wp_create MNotificationTemplate); [| intros e w2 ->; by apply Ho].
    intros i t w2 -> _ _ Hv2. apply wp_ret. rewrite Hv2. cbn. rewrite upd_eq.
    apply one_default_insert; [by apply Ho |]. intros Hd. by apply no_default_delete, Hn.
  - intros id body uuid now. unfold updateEmailTemplate. destruct (_ <? _); [by apply wp_raise |].
    apply wp_bind. eapply wp_mono; [apply get_template_spec |]. intros r w1 [Hv1 Hget].
    destruct r as [existing | e]; [| by rewrite Hv1].
    destruct (Hget existing eq_refl) as (Hk & Hp & _). clear Hget.
    apply wp_bind. eapply wp_mono; [apply clear_spec |]. rewrite Hv1. intros r w2 (Ho & Hn & Hrows).
    destruct r as [[] | e]; [| by apply Ho]. specialize (Ho Hone).
    apply wp_bind, (wp_keeps {| fr_table m := m = MNotificationTemplateVersion; fr_job _ := False;
      fr_key _ := False; fr_send _ := False |}).
    { unfold add_version. keeps. }
    intros r w3 [Ht _ _ _]. specialize (Ht MNotificationTemplate ltac:(done)).
    destruct r as [newHtml | e]; [| by rewrite Ht].
    apply wp_bind, (wp_update MNotificationTemplate); [| intros e w4 Hv4; by rewrite Hv4, Ht].
    intros k t w4 Hkt ->%bool_decide_eq_true Hv4. apply wp_ret. rewrite Hv4. cbn. rewrite upd_eq, Ht.
    rewrite Ht in Hkt. apply one_default_insert; [done |].
    destruct (Hrows _ _ Hk) as (t' & Ht' & Hp' & Hc').
    assert (t = t') as -> by (eapply Some_agree; [exact Hkt | exact Ht']).
    unfold updated_template. cbn. intros Hd. rewrite Hp', Hc', Hp.
    destruct (ub_isDefault body) as [[]|] eqn:Hb; cbn in *; [by apply no_default_delete, Hn | done |].
    intros j s H Hsp Hsc. destruct (delete_found _ _ _ _ H) as [Hne Hs]. destruct (nt_isDefault s) eqn:Hds; [| done].
    exfalso. apply Hne. eapply Ho; [exact Hkt | exact Hs | done..| |]; congruence.
  - intros id. unfold deleteEmailTemplate.
    apply wp_bind. eapply wp_mono; [apply get_template_spec |]. intros r w1 [Hv1 _].
    destruct r as [existing | e]; [| by rewrite Hv1].
    apply wp_bind, (wp_update MNotificationTemplate); [| intros e w2 ->; by rewrite Hv1].
    intros k t w2 Hkt _ Hv2. apply wp_ret. rewrite Hv2. cbn. rewrite upd_eq. rewrite Hv1 in *.
    apply one_default_insert; [done |]. cbn. intros Hd j s H Hsp Hsc. destruct (delete_found _ _ _ _ H) as [Hne Hs].
    destruct (nt_isDefault s) eqn:Hds; [| done]. exfalso. apply Hne.
    eapply Hone; [exact Hkt | exact Hs | done..].
Qed.
End defaults.

(** ** Lemmas: the history *)

Lemma sorted_split {A} (R : A → A → Prop) l1 l2 x y :
  StronglySorted R (l1 ++ l2) → x ∈ l1 → y ∈ l2 → R x y.
Proof.
  induction l1 as [|z l1 IH]; [by intros _ ?%elem_of_nil |]. cbn. inversion 1 as [|? ? Hs Hz]; subst.
  intros [-> | Hx]%elem_of_cons Hy; [| by apply IH].
  rewrite list.Forall_forall in Hz. apply Hz, elem_of_app. by right.
Qed.

Section history.
Context `{B : Backend} `{BL : !BackendLaws B} (en : Engine).

Abbreviation versions w := (v_tables (view w) MNotificationTemplateVersion).

(** At most ten versions of the template, and none older than one that went. *)
Definition trimmed_history (id : string) (w w' : World) : Prop :=
  (∀ l, selects MNotificationTemplateVersion (version_of id) None (versions w') l →
     Z.of_nat (length l) ≤ MAX_VERSIONS) ∧
  ∀ k u k' v, versions w !! k = Some u → version_of id k u = true → versions w' !! k = None →
    versions w' !! k' = Some v → version_of id k' v = true → ntv_version u ≤ ntv_version v.

Abbreviation kept ids t :=
  (delete_where (m := MNotificationTemplateVersion) (λ k _, bool_decide (k ∈ ids)) t).

Lemma lookup_kept (ids : list string) (t : gmap string (row MNotificationTemplateVersion)) k :
  kept ids t !! k = if bool_decide (k ∈ ids) then None else t !! k.
Proof.
  pose proof (lookup_delete_where (m := MNotificationTemplateVersion)
    (λ k _, bool_decide (k ∈ ids)) t k) as HL.
  etrans; [exact HL |]. destruct (t !! k); cbn; by case_bool_decide.
Qed.

Lemma kept_found (ids : list string) (t : gmap string (row MNotificationTemplateVersion)) k v :
  kept ids t !! k = Some v → k ∉ ids ∧ t !! k = Some v.
Proof.
  intros H. pose proof (eq_trans (eq_sym (lookup_kept ids t k)) H) as H'.
  by case_bool_decide.
Qed.

Lemma kept_gone (ids : list string) (t : gmap string (row MNotificationTemplateVersion)) k u :
  t !! k = Some u → kept ids t !! k = None → k ∈ ids.
Proof.
  intros Hk H. pose proof (eq_trans (eq_sym (lookup_kept ids t k)) H) as H'.
  case_bool_decide; [done |]. pose proof (eq_trans (eq_sym Hk) H'). discriminate.
Qed.

Lemma add_version_spec existing sanitizedHtml subjectTemplate uuid w :
  by_key MNotificationTemplateVersion (versions w) →
  wp (add_version existing sanitizedHtml subjectTemplate uuid)
    (λ r w', r = Ok () → trimmed_history (nt_id existing) w w') w.
Proof.
  intros Hkey. unfold add_version. set (id := nt_id existing).
  apply wp_bind, (wp_create MNotificationTemplateVersion); [| done]. intros i r w1 Hr Hfresh _ Hv1.
  assert (versions w1 = <[row_key MNotificationTemplateVersion r := r]> (versions w)) as Ht1
    by (rewrite Hv1; apply upd_eq). clear Hv1.
  assert (by_key MNotificationTemplateVersion (versions w1)) as Hkey1.
  { rewrite Ht1. intros k x [[<- <-] | [_ Hx]]%lookup_insert_Some; [done | by apply Hkey]. }
  assert (∀ k u, versions w !! k = Some u → versions w1 !! k = Some u) as Hold.
  { intros k u Hk. rewrite Ht1. apply lookup_insert_Some. right. split; [| done].
    intros <-. rewrite Hfresh in Hk. discriminate Hk. }
  apply wp_bind. unfold count. apply wp_bind, (wp_find_many MNotificationTemplateVersion);
    [| done]. intros l1 w2 Hs1 Hv2. apply wp_ret.
  destruct (Z.ltb_spec MAX_VERSIONS (Z.of_nat (length l1))) as [Hmany | Hfew].
  2: { apply wp_ret. intros _. unfold trimmed_history. rewrite Hv2. split.
       - intros l Hl. by rewrite (selects_length _ _ _ _ _ _ _ Hkey1 Hl Hs1).
       - intros k u k' v Hk _ Hnone. apply Hold in Hk. rewrite Hk in Hnone. discriminate Hnone. }
  apply wp_bind, (wp_find_many MNotificationTemplateVersion); [| done]. intros l2 w3 Hs2 Hv3.
  rewrite Hv2 in Hs2. set (n := Z.to_nat _). set (ids := ntv_id <$> take n l2).
  apply wp_delete_many; [| done]. intros w4 Hv4 _.
  assert (versions w4 = delete_where (m := MNotificationTemplateVersion)
    (λ k _, bool_decide (k ∈ ids)) (versions w1)) as Ht4.
  { rewrite Hv4, Hv3, Hv2. apply upd_eq. }
  destruct (selects_keys _ _ _ _ _ Hkey1 Hs2) as [Hnd2 Hk2].
  assert (ntv_id <$> l2 = ids ++ (ntv_id <$> drop n l2)) as Hsplit.
  { unfold ids. by rewrite <- fmap_app, take_drop. }
  split.
  - intros l Hl. rewrite Ht4 in Hl.
    assert (by_key MNotificationTemplateVersion (versions w4)) as Hkey4.
    { rewrite Ht4. intros k x Hx. destruct (kept_found _ _ _ _ Hx). by apply Hkey1. }
    rewrite Ht4 in Hkey4. destruct (selects_keys _ _ _ _ _ Hkey4 Hl) as [Hnd Hk].
    assert (length (ids ++ (row_key MNotificationTemplateVersion <$> l)) ≤ length l2)%nat as Hlen.
    { rewrite <- (length_fmap (row_key MNotificationTemplateVersion) l2).
      apply submseteq_length, NoDup_submseteq.
      - apply list.NoDup_app. split_and!; [| | done].
        + cbn in Hnd2. rewrite Hsplit in Hnd2. by apply list.NoDup_app in Hnd2 as [? _].
        + intros k Hin Hin'. apply Hk in Hin' as (v & Hv & _). by destruct (kept_found _ _ _ _ Hv).
      - intros k [Hin | Hin]%elem_of_app.
        + cbn. rewrite Hsplit. apply elem_of_app. by left.
        + apply Hk in Hin as (v & Hv & Hp). apply Hk2.
          exists v. by destruct (kept_found _ _ _ _ Hv). }
    rewrite length_app, length_fmap in Hlen. unfold ids in Hlen.
    rewrite length_fmap, length_take in Hlen.
    pose proof (selects_length _ _ _ _ _ _ _ Hkey1 Hs1 Hs2) as Heq.
    unfold MAX_VERSIONS in *. subst n. cbn [row] in *. lia.
  - intros k u k' v Hk Hpu Hnone Hkv Hpv. apply Hold in Hk. rewrite Ht4 in Hnone, Hkv.
    pose proof (kept_gone _ _ _ _ Hk Hnone) as Hin. destruct (kept_found _ _ _ _ Hkv) as [Hin' Hkv'].
    destruct Hs2 as (Hsort & _ & Hall).
    assert (∀ j x, versions w1 !! j = Some x → version_of id j x = true → x ∈ l2 ∧ ntv_id x = j)
      as Hrow by (intros j x Hx Hp; split; [by eapply Hall | exact (Hkey1 _ _ Hx)]).
    destruct (Hrow _ _ Hk Hpu) as [Hu Hidu], (Hrow _ _ Hkv' Hpv) as [Hv Hidv].
    cbn in Hnd2. rewrite Hsplit in Hnd2. apply list.NoDup_app in Hnd2 as (_ & Hdisj & _).
    rewrite <- (take_drop n l2) in Hu, Hv, Hsort.
    eapply (sorted_split (λ a b, ntv_version a ≤ ntv_version b)); [exact Hsort | |].
    + apply elem_of_app in Hu as [? | Hu]; [done |]. exfalso.
      apply (Hdisj k Hin). rewrite <- Hidu. by apply list_elem_of_fmap_2.
    + apply elem_of_app in Hv as [Hv | ?]; [| done]. exfalso. apply Hin'. rewrite <- Hidv.
      unfold ids. by apply list_elem_of_fmap_2.
Qed.

(** The version history is bounded: a successful update of a
    template's HTML leaves at most ten versions of it, and no version that is
    older than one it removed. *)
Theorem versions_bounded protocol id body uuid now x h w :
  by_key MNotificationTemplateVersion (versions w) →
  by_key MNotificationTemplate (v_tables (view w) MNotificationTemplate) →
  ub_htmlSource body = Some (x :: h) →
  wp (updateEmailTemplate en protocol id body uuid now)
    (λ r w', r = Ok () → trimmed_history id w w') w.
Proof.
  intros Hkey Hkeyt Hh. unfold updateEmailTemplate. destruct (_ <? _); [by apply wp_raise |].
  apply wp_bind. eapply wp_mono; [apply get_template_spec |]. intros r w1 [Hv1 Hget].
  destruct r as [existing | e]; [| done]. destruct (Hget existing eq_refl) as (Hk & _ & _).
  assert (nt_id existing = id) as Hid by apply (Hkeyt _ _ Hk).
  apply wp_bind, (wp_keeps {| fr_table m := m = MNotificationTemplate; fr_job _ := False;
    fr_key _ := False; fr_send _ := False |}); [unfold clear_defaults; keeps |].
  intros r w2 [Ht2 _ _ _]. specialize (Ht2 MNotificationTemplateVersion ltac:(done)).
  destruct r as [[] | e]; [| done]. rewrite Hh. apply wp_bind. destruct (negb _); [by apply wp_raise |].
  apply wp_bind. eapply wp_mono; [apply add_version_spec; by rewrite Ht2, Hv1 |].
  intros r w3 Htrim. destruct r as [[] | e]; [| done]. specialize (Htrim eq_refl).
  rewrite Hid in Htrim. apply wp_ret, wp_bind, (wp_update MNotificationTemplate); [| done].
  intros k t w4 _ _ Hv4. apply wp_ret. intros _.
  assert (versions w4 = versions w3) as Ht4 by (rewrite Hv4; by apply upd_ne).
  unfold trimmed_history in *. by rewrite Ht4, <- Hv1, <- Ht2.
Qed.
End history.

(** ** Witnesses *)

Definition growth_protocol : AuthenticatedProtocol := {|
  ap_protocolId := "p1"; ap_protocolPubkey := "pk1"; ap_apiKeyId := "k1"; ap_tier := 1;
  ap_scopes := ["notify:write"]; ap_environment := Production; ap_isActive := true;
  ap_sendsThisPeriod := None; ap_name := Some "Proto"; ap_overageEnabled := None;
  ap_isTestKey := None; ap_testKeyType := None; ap_verificationStatus := None |}.

Definition governance_default : CreateTemplateBody := {|
  cb_name := "second"; cb_category := "governance"; cb_subjectTemplate := None;
  cb_htmlSource := Some (units "<p>v</p>"); cb_textSource := None; cb_previewText := None;
  cb_isDefault := Some true |}.

Lemma one_default_kept_witness :
  let run := createEmailTemplate plain_engine growth_protocol governance_default "t2" 5 template_world in
  (nt_isDefault <$> v_tables (view run.2) MNotificationTemplate !! "t1") = Some false ∧
  (nt_isDefault <$> v_tables (view run.2) MNotificationTemplate !! "t2") = Some true ∧
  wp (createEmailTemplate plain_engine growth_protocol governance_default "t2" 5)
    (λ _ w', one_default (v_tables (view w') MNotificationTemplate)) template_world.
Proof.
  cbn zeta. split; [vm_compute; reflexivity |]. split; [vm_compute; reflexivity |].
  refine (proj1 (one_default_kept plain_engine growth_protocol template_world _)
    governance_default "t2" 5).
  intros k1 k2 t1 t2 H1 H2 _ _ _ _. change (v_tables (view template_world) MNotificationTemplate)
    with ({[ "t1" := own_mail_template ]} : gmap string NotificationTemplate) in *.
  apply lookup_singleton_Some in H1 as [<- _]. apply lookup_singleton_Some in H2 as [<- _]. done.
Defined.

(** A template with ten versions. *)
Definition old_version (n : Z) : NotificationTemplateVersion := {|
  ntv_id := "v" +:+ pretty.pretty n; ntv_templateId := "t1"; ntv_version := n;
  ntv_htmlSource := units "<p></p>"; ntv_subjectTemplate := None |}.

Definition history_world : World := mem_world
  (with_rows MNotificationTemplateVersion (old_version <$> [1; 2; 3; 4; 5; 6; 7; 8; 9; 10])
  (with_rows MNotificationTemplate [own_mail_template <| nt_version := 10 |>] no_tables)) ∅.

Definition html_update : UpdateTemplateBody := {|
  ub_name := None; ub_subjectTemplate := None; ub_previewText := None;
  ub_htmlSource := Some (units "<p>new</p>"); ub_isDefault := None |}.

Lemma versions_bounded_witness :
  let run := updateEmailTemplate plain_engine growth_protocol "t1" html_update "v11" 5 history_world in
  run.1 = Ok () ∧ size (v_tables (view run.2) MNotificationTemplateVersion) = 10%nat ∧
  v_tables (view run.2) MNotificationTemplateVersion !! "v1" = None ∧
  wp (updateEmailTemplate plain_engine growth_protocol "t1" html_update "v11" 5)
    (λ r w', r = Ok () → trimmed_history "t1" history_world w') history_world.
Proof.
  cbn zeta. split; [vm_compute; reflexivity |]. split; [vm_compute; reflexivity |].
  split; [vm_compute; reflexivity |].
  refine (versions_bounded plain_engine growth_protocol "t1" html_update "v11" 5 60%N
    (units "p>new</p>") history_world _ _ eq_refl).
  - apply by_key_check. vm_compute. reflexivity.
  - apply by_key_check. vm_compute. reflexivity.
Defined.
