(* ===== verification/Sanitizer.v ===== *)
(** * Sanitizing templates

    [UrlValidator] and [XssSanitizer] of [src/modules/template/utils/].
    DOMPurify, the DOM of JSDOM and the URL parser are parameters: the model
    passes them the service's configuration and the functions it applies to
    attributes. *)

From S2P Require Import Prelude Text Rx Links Markdown Template.

Open Scope string_scope.
Open Scope list_scope.
Open Scope Z_scope.

(** ** URLs *)

Definition BLOCKED_PROTOCOLS : list string :=
  ["javascript:"; "vbscript:"; "data:"; "mailto:"; "tel:"; "blob:"; "filesystem:"].

Definition ALLOWED_HOSTS : list string :=
  ["useherald.xyz"; "notify.useherald.xyz"; "cdn.useherald.xyz"; "fonts.googleapis.com";
   "fonts.gstatic.com"; "ucshdejvxzanuxlxrano.supabase.co"].

Inductive UrlValidationResult :=
| UrlOk (url : text)
| UrlRefused (error : text).

Record UrlValidationOptions := {
  uo_allowMailto : bool;
  uo_allowTel : bool;
  uo_allowDataImages : bool;
  uo_allowedHosts : option (list string);
}.

Definition no_options : UrlValidationOptions := {|
  uo_allowMailto := false; uo_allowTel := false; uo_allowDataImages := false;
  uo_allowedHosts := None |}.

Definition starts (p : string) (s : text) : bool := bool_decide (units p `prefix_of` s).
Definition ends (p s : text) : bool := bool_decide (p `suffix_of` s).

(** [/^\/\//] *)
Definition LEADING_SLASHES : rx := RSeq RStart (rlit "//").

Definition blocked_protocols (o : UrlValidationOptions) : list string :=
  BLOCKED_PROTOCOLS ++ (if uo_allowMailto o then [] else ["mailto:"]) ++
  (if uo_allowTel o then [] else ["tel:"]).

Definition allowed_host (hosts : list string) (hostname : text) : bool :=
  existsb (λ h, bool_decide (hostname = units h) || ends (units ("." +:+ h)) hostname) hosts.

Section urls.
(** [new URL(s).hostname]; [None] where it throws. *)
Context (hostname : text → option text).

(** [validate]; [None] is an exception. *)
Definition validate (url : text) (o : UrlValidationOptions) : option UrlValidationResult :=
  if bool_decide (url = []) then Some (UrlRefused (units "URL is required")) else
  let trimmedUrl := toLowerCase (trim url) in
  match List.find (λ p, starts p trimmedUrl) (blocked_protocols o) with
  | Some p => Some (UrlRefused (units "Protocol '" ++ units p ++ units "' is blocked"))
  | None =>
      if starts "data:" trimmedUrl && negb (uo_allowDataImages o) then
        Some (UrlRefused (units "Data URLs are not allowed"))
      else if starts "data:" trimmedUrl && negb (starts "data:image/" trimmedUrl) then
        Some (UrlRefused (units "Only image data URLs are allowed"))
      else if starts "http:" trimmedUrl || starts "https://" trimmedUrl then
        host ← hostname (if starts "http:" trimmedUrl then trimmedUrl
                         else units "https://" ++ replace_first LEADING_SLASHES (λ _, []) trimmedUrl);
        if allowed_host (default ALLOWED_HOSTS (uo_allowedHosts o)) host then Some (UrlOk url)
        else Some (UrlRefused (units "Host '" ++ host ++ units "' is not in the allowed list"))
      else Some (UrlOk url)
  end.

Definition isAllowed (url : text) (o : UrlValidationOptions) : bool :=
  match validate url o with Some (UrlOk _) => true | _ => false end.

Definition quote_mark : rx := RChar (one_of [34; 39]%N).
Definition not_quote : rx := RChar (none_of [34; 39]%N).

(** The [src] and [href] attributes, in either kind of quotes. *)
Definition URL_ATTRIBUTE : rx := rseq [
  RAlt (rlit_i "src") (rlit_i "href"); rlit "="; quote_mark; RGroup 1 (rplus true not_quote); quote_mark].
(** The [src] of an [img]. *)
Definition IMAGE_ATTRIBUTE : rx := rseq [
  rlit_i "<img"; rplus true (RChar (none_of [62%N])); rlit_i "src"; rlit "="; quote_mark;
  RGroup 1 (rplus true not_quote); quote_mark].

(** The first group of every match. *)
Definition all_matches (r : rx) (s : text) : list text :=
  segments r s ≫= λ g, match g with Plain _ => [] | Hit _ cs => [default [] (capture 1 cs)] end.

Definition url_errors (h : text) : list text :=
  all_matches URL_ATTRIBUTE h ≫= λ url,
    if isAllowed url no_options then [] else [units "Blocked URL: " ++ url].
Definition validateAllUrls (h : text) : bool * list text :=
  let errors := url_errors h in (bool_decide (errors = []), errors).

Definition image_errors (h : text) : list text :=
  all_matches IMAGE_ATTRIBUTE h ≫= λ src,
    if negb (isAllowed src no_options) then [units "Blocked image URL: " ++ src]
    else if negb (starts "data:" src) && negb (starts "http" src)
    then [units "Invalid image URL: " ++ src] else [].
Definition validateImageUrls (h : text) : bool * list text :=
  let errors := image_errors h in (bool_decide (errors = []), errors).
End urls.

(** ** The configuration of DOMPurify *)

Definition ALLOWED_TAGS : list string := [
  "html"; "head"; "body"; "style"; "meta"; "title"; "link"; "img"; "table"; "tr"; "td";
  "tbody"; "thead"; "tfoot"; "th"; "center"; "font"; "a"; "p"; "br"; "hr"; "div"; "span"; "h1";
  "h2"; "h3"; "h4"; "h5"; "h6"; "strong"; "b"; "em"; "i"; "u"; "s"; "strike"; "ul"; "ol"; "li";
  "thead"; "tbody"; "pre"; "code"; "blockquote"; "small"; "sub"; "sup"; "table"; "caption";
  "col"; "colgroup"; "iframe"; "svg"; "path"; "circle"; "rect"; "line"; "polyline"; "polygon";
  "text"; "tspan"; "g"; "defs"; "clipPath"; "marker"; "linearGradient"; "radialGradient";
  "stop"; "pattern"; "filter"; "mask"; "foreignObject"].

Definition ALLOWED_ATTRS : list string := [
  "style"; "class"; "id"; "width"; "height"; "align"; "valign"; "bgcolor"; "border";
  "cellpadding"; "cellspacing"; "color"; "dir"; "lang"; "target"; "rel"; "colspan"; "rowspan";
  "headers"; "scope"; "frame"; "rules"; "summary"; "cellspacing"; "cellpadding"; "border";
  "valign"; "bgcolor"; "background"; "display"; "visibility"; "overflow"; "position"; "top";
  "left"; "right"; "bottom"; "margin"; "margin-top"; "margin-bottom"; "margin-left";
  "margin-right"; "padding"; "padding-top"; "padding-bottom"; "padding-left"; "padding-right";
  "font"; "font-family"; "font-size"; "font-weight"; "font-style"; "text-align";
  "text-decoration"; "vertical-align"; "line-height"; "letter-spacing"; "white-space";
  "word-spacing"; "text-transform"; "text-indent"; "text-overflow"; "border-radius";
  "border-color"; "border-width"; "border-style"; "border-collapse"; "box-shadow"; "opacity";
  "z-index"; "transform"; "fill"; "stroke"; "stroke-width"; "stroke-linecap";
  "stroke-linejoin"; "viewBox"; "preserveAspectRatio"; "xmlns"; "cx"; "cy"; "r"; "rx"; "ry";
  "x1"; "x2"; "y1"; "y2"; "points"; "d"; "M"; "L"; "C"; "Z"; "gradientUnits"; "offset";
  "stop-color"; "stop-opacity"; "patternUnits"; "patternContentUnits"; "filterUnits";
  "primitiveUnits"; "maskUnits"; "clip-path"; "allowtransparency"; "frameborder"; "scrolling";
  "loading"; "allow"; "allowfullscreen"; "referrerpolicy"; "sandbox"; "crossorigin"; "usemap";
  "ismap"; "alt"; "title"].

Definition ALLOWED_URL_ATTRS : list string := [
  "href"; "src"; "action"; "data"; "poster"; "xlink:href"; "cite"; "ping"].

Definition MJML_TAGS : list string := [
  "mjml"; "mj-head"; "mj-body"; "mj-section"; "mj-column"; "mj-text"; "mj-button"; "mj-image";
  "mj-divider"; "mj-spacer"; "mj-wrapper"; "mj-group"; "mj-raw"; "mj-social";
  "mj-social-element"; "mj-navbar"; "mj-navbar-link"; "mj-carousel"; "mj-carousel-image";
  "mj-accordion"; "mj-accordion-element"; "mj-accordion-title"; "mj-accordion-text";
  "mj-head-attributes"; "mj-head-style"; "mj-head-breakpoint"; "mj-head-font";
  "mj-head-preview"; "mj-html"].

(** A URL of [http], [https] or [mailto], one that starts with no letter, or a
    scheme that a scheme unit follows (or nothing). *)
Definition letter_i (x : N) : bool := in_range 97 122 (lower_unit x).
Definition scheme_unit (x : N) : bool := letter_i x || one_of [43; 45]%N x.
Definition ALLOWED_URI_REGEXP : rx := RSeq RStart (ralt
  (RSeq (RAlt (RSeq (rlit_i "http") (ropt (rlit_i "s"))) (rlit_i "mailto")) (rlit ":"))
  [RChar (λ x, negb (letter_i x));
   rseq [rplus true (RChar scheme_unit); rlit ":"; RNot (RChar (λ x, negb (scheme_unit x)))]]).

Record PurifyConfig := {
  pc_ALLOWED_URI_REGEXP : rx;
  pc_ALLOWED_TAGS : list string;
  pc_ALLOWED_ATTR : list string;
  pc_FORBID_TAGS : list string;
  pc_FORBID_ATTR : list string;
  pc_ADD_ATTR : list string;
  pc_ALLOW_DATA_ATTR : bool;
}.

Definition configurePurify : PurifyConfig := {|
  pc_ALLOWED_URI_REGEXP := ALLOWED_URI_REGEXP;
  pc_ALLOWED_TAGS := ALLOWED_TAGS ++ MJML_TAGS;
  pc_ALLOWED_ATTR := ALLOWED_ATTRS ++ ALLOWED_URL_ATTRS;
  pc_FORBID_TAGS := [
  "script"; "style"; "iframe"; "object"; "embed"; "form"; "input"; "button"; "select";
  "textarea"; "label"; "meta"; "link"; "base"; "applet"; "audio"; "video"; "source"; "track";
  "canvas"; "map"; "area"; "del"; "ins"; "samp"; "kbd"; "var"; "noscript"; "template"];
  pc_FORBID_ATTR := [
  "onerror"; "onload"; "onclick"; "onmouseover"; "onmouseout"; "onmousedown"; "onmouseup";
  "onfocus"; "onblur"; "onchange"; "onsubmit"; "onreset"; "onkeydown"; "onkeyup"; "onkeypress";
  "ontouchstart"; "ontouchend"; "ontouchmove"; "ontouchcancel"];
  pc_ADD_ATTR := ["target"; "rel"; "loading"; "decoding"; "referrerpolicy"];
  pc_ALLOW_DATA_ATTR := false |}.

(** ** Sanitizing *)

(** DOMPurify with the option [WHOLE_DOCUMENT], and what the service does
    through a DOM: parse, rewrite the [rel] of every link that opens a new
    window, or every [style], and return the [innerHTML] of the body. *)
Record Dom := {
  dom_hostname : text → option text;
  dom_purify : PurifyConfig → text → text;
  dom_map_rel : (text → text) → text → text;
  dom_map_style : (text → text) → text → text;
}.

Record SanitizedResult := { sr_html : text; sr_warnings : list text; sr_errors : list text }.

Definition MAX_LENGTH : Z := 51200.

(** A [script] element, up to the first closing tag; after a letter, a word
    boundary is a position that no word unit follows. *)
Definition SCRIPT_ELEMENT : rx := rseq [
  rlit_i "<script"; RNot (RChar word_unit); RStar true (RChar (none_of [60%N]));
  RStar true (rseq [RNot (rlit_i "</script>"); rlit "<"; RStar true (RChar (none_of [60%N]))]);
  rlit_i "</script>"].

Definition stripEventHandlers (h : text) : text := replace EVENT_HANDLER erase h.

Definition words_of (l : list text) : text := join [SPACE] (List.filter nonempty l).
(** The new [rel] of a link. *)
Definition enforced_rel (rel : text) : text :=
  if includes (units "noopener") rel then rel
  else words_of [rel; units "noopener"; units "noreferrer"].

Definition spaces : rx := RStar true (RChar space_unit).
(** [url(], an optional quote and a scheme, with spaces between. *)
Definition css_url (scheme : string) : rx := rseq [
  rlit_i "url"; spaces; rlit "("; spaces; ropt quote_mark; spaces; rlit_i scheme; rlit ":"].
Definition dangerousPatterns : list rx :=
  [css_url "javascript"; css_url "vbscript"; rseq [rlit_i "expression"; spaces; rlit "("];
   rseq [rlit_i "behavior"; spaces; rlit ":"]; rseq [rlit_i "-moz-binding"; spaces; rlit ":"];
   rseq [rlit_i "behavior"; spaces; rlit ":"]].

Definition sanitizeStyle (style : text) : text :=
  foldl (λ s p, replace p (λ _ _, units "blocked(") s) (toLowerCase style) dangerousPatterns.

Section sanitizer.
Context (dom : Dom).

Definition enforceRelAttribute (h : text) : text := dom_map_rel dom enforced_rel h.
Definition sanitizeStyleAttributes (h : text) : text := dom_map_style dom sanitizeStyle h.

(** The three last checks of [sanitize]: the HTML and the errors so far. *)
Definition drop_scripts (st : text * list text) : text * list text :=
  if includes (units "<script") st.1
  then (replace SCRIPT_ELEMENT erase st.1, st.2 ++ [units "Script tags detected and removed"])
  else st.
Definition block_javascript (st : text * list text) : text * list text :=
  if includes (units "javascript:") st.1
  then (replace (rlit_i "javascript:") (λ _ _, units "blocked:") st.1,
        st.2 ++ [units "JavaScript protocol detected and blocked"])
  else st.
Definition drop_handlers (st : text * list text) : text * list text :=
  if includes (units "onerror=") st.1 || includes (units "onload=") st.1
  then (stripEventHandlers st.1, st.2 ++ [units "Event handlers detected and removed"])
  else st.

(** [sanitize]; of the configuration only [maxLength] is read. *)
Definition sanitize (h : text) (maxLength : option Z) : SanitizedResult :=
  if bool_decide (h = []) then
    {| sr_html := []; sr_warnings := [];
       sr_errors := [units "Input is required and must be a string"] |}
  else if match maxLength with Some n => negb (n =? 0) && (n <? len h) | None => false end then
    {| sr_html := []; sr_warnings := [];
       sr_errors := [units "Template exceeds maximum length of " ++ show (default 0 maxLength) ++
                     units " bytes"] |}
  else
    let limit := default MAX_LENGTH maxLength in
    let truncated := limit <? len h in
    let h := if truncated then slice0 limit h else h in
    let sanitized := dom_purify dom configurePurify (stripEventHandlers h) in
    let warnings :=
      (if truncated then [units "Template truncated to " ++ show limit ++ units " bytes"] else []) ++
      (validateAllUrls (dom_hostname dom) sanitized).2 in
    let sanitized := sanitizeStyleAttributes (enforceRelAttribute sanitized) in
    let '(out, errors) := drop_handlers (block_javascript (drop_scripts (sanitized, []))) in
    {| sr_html := out; sr_warnings := warnings; sr_errors := errors |}.

Definition sanitizeInline (h : text) : text := sr_html (sanitize h None).
End sanitizer.

(** ** Variables *)

(** A JSON value; [VOther] is null or undefined. *)
Inductive value :=
| VString (s : text)
| VScalar (n : Z + bool)
| VArray (l : list value)
| VObject (l : list (text * value))
| VOther.

(** A letter or an underscore, then word units. *)
Definition variable_name (k : text) : bool :=
  match k with
  | x :: k' => word_unit x && negb (in_range 48 57 x) && forallb word_unit k'
  | [] => false
  end.

Record VariableValidationResult := {
  vv_valid : bool;
  vv_sanitized : list (text * value);
  vv_errors : list text;
}.

(** [result[key] = value] for the entries of an object, in order: every key
    makes a property of its own, but [__proto__], which sets the prototype. *)
Definition own_entries (l : list (text * value)) : list (text * value) :=
  List.filter (λ kv, negb (bool_decide (kv.1 = units "__proto__"))) l.

Section variables.
Context (inline : text → text).

(** An item of an array: only strings are sanitized. *)
Definition sanitize_item (v : value) : value :=
  match v with VString s => VString (inline s) | _ => v end.

(** The branches of [validateVariables] and [sanitizeObject]. *)
Fixpoint sanitize_value (v : value) : value :=
  match v with
  | VString s => VString (inline s)
  | VArray l => VArray (sanitize_item <$> l)
  | VObject l => VObject (own_entries ((λ kv, (kv.1, sanitize_value kv.2)) <$> l))
  | v => v
  end.

Definition sanitizeObject (l : list (text * value)) : list (text * value) :=
  own_entries ((λ kv, (kv.1, sanitize_value kv.2)) <$> l).

Definition validateVariables (vars : list (text * value)) : VariableValidationResult :=
  let errors := (vars ≫= λ kv, if variable_name kv.1 then []
                               else [units "Invalid variable name: " ++ kv.1]) in
  {| vv_valid := bool_decide (errors = []);
     vv_sanitized := sanitizeObject (List.filter (λ kv, variable_name kv.1) vars);
     vv_errors := errors |}.
End variables.

(** ** Properties of the URL validator *)

Lemma starts_app p s : starts p (units p ++ s) = true.
Proof. unfold starts. rewrite bool_decide_eq_true. by eexists. Qed.

Lemma find_app {A} (p : A → bool) l1 l2 :
  List.find p (l1 ++ l2) = match List.find p l1 with Some x => Some x | None => List.find p l2 end.
Proof. induction l1 as [|x l1 IH]; cbn; [done |]. by destruct (p x). Qed.

(** The options that lift a protocol only lengthen a list the protocols are
    already on. *)
Lemma find_blocked o s :
  List.find (λ p, starts p s) (blocked_protocols o) = List.find (λ p, starts p s) BLOCKED_PROTOCOLS.
Proof.
  unfold blocked_protocols. rewrite find_app.
  destruct (List.find _ BLOCKED_PROTOCOLS) eqn:Hf; [done |].
  assert (starts "mailto:" s = false ∧ starts "tel:" s = false) as [H1 H2].
  { split; refine (find_none _ _ Hf _ _); cbn; tauto. }
  rewrite find_app. destruct (uo_allowMailto o), (uo_allowTel o); cbn; by rewrite ?H1, ?H2.
Qed.

Lemma not_blocked s p : List.find (λ p, starts p s) BLOCKED_PROTOCOLS = None →
  p ∈ BLOCKED_PROTOCOLS → starts p s = false.
Proof. intros Hf Hp. refine (find_none _ _ Hf p _). by apply list_elem_of_In. Qed.

(** What [validate] decides, without the tests no URL reaches: the data URLs
    and the two kinds of links are blocked whatever the options say. *)
Definition url_verdict (hostname : text → option text) (url : text) (hosts : list string) :
    option UrlValidationResult :=
  if bool_decide (url = []) then Some (UrlRefused (units "URL is required")) else
  let u := toLowerCase (trim url) in
  match List.find (λ p, starts p u) BLOCKED_PROTOCOLS with
  | Some p => Some (UrlRefused (units "Protocol '" ++ units p ++ units "' is blocked"))
  | None =>
      if starts "http:" u || starts "https://" u then
        host ← hostname (if starts "http:" u then u
                         else units "https://" ++ replace_first LEADING_SLASHES (λ _, []) u);
        if allowed_host hosts host then Some (UrlOk url)
        else Some (UrlRefused (units "Host '" ++ host ++ units "' is not in the allowed list"))
      else Some (UrlOk url)
  end.

Lemma validate_verdict hostname url o :
  validate hostname url o = url_verdict hostname url (default ALLOWED_HOSTS (uo_allowedHosts o)).
Proof.
  unfold validate, url_verdict. rewrite find_blocked. case_bool_decide; [done |].
  set (u := toLowerCase (trim url)).
  destruct (List.find _ BLOCKED_PROTOCOLS) eqn:Hf; [done |].
  assert (starts "data:" u = false) as ->; [| done].
  apply (not_blocked u _ Hf). cbn. set_solver.
Qed.

(** C25.  The validator decides by the protocol and, for [http], by the host
    alone: of its options only the list of hosts has an effect, so that
    [allowMailto], [allowTel] and [allowDataImages] never let a URL through. *)
Theorem validate_equiv hostname url o :
  validate hostname url o = url_verdict hostname url (default ALLOWED_HOSTS (uo_allowedHosts o)).
Proof. apply validate_verdict. Qed.

Theorem accepted_safe hostname url o u : validate hostname url o = Some (UrlOk u) →
  let t := toLowerCase (trim url) in
  u = url ∧ (∀ p, p ∈ BLOCKED_PROTOCOLS → starts p t = false) ∧
  (starts "http:" t = true →
   ∃ host, hostname t = Some host ∧
     allowed_host (default ALLOWED_HOSTS (uo_allowedHosts o)) host = true).
Proof.
  rewrite validate_verdict. unfold url_verdict. destruct (bool_decide _); [done |].
  set (t := toLowerCase (trim url)). destruct (List.find _ _) eqn:Hf; [done |].
  intros H. cbn zeta. split_and!.
  - destruct (_ || _); [| by simplify_eq].
    destruct (hostname _); [| done]. cbn in H. by destruct (allowed_host _ _); simplify_eq.
  - intros p. by apply not_blocked.
  - intros Hh. rewrite Hh in H. cbn in H. destruct (hostname t) as [host|]; [| done].
    cbn in H. exists host. split; [done |]. by destruct (allowed_host _ _).
Qed.

Lemma miss_anchored fuel r c : before c ≠ [] →
  Forall (λ g, ∃ t, g = Plain t) (segments_from fuel (RSeq RStart r) c).
Proof.
  revert c. induction fuel as [|fuel IH]; intros c Hc; cbn [segments_from]; [by repeat econstructor |].
  assert (rx_at (RSeq RStart r) c = None) as ->.
  { unfold rx_at. cbn. by destruct (before c). }
  destruct (after c) as [|x s] eqn:Ha; [done |].
  constructor; [by eexists |]. apply IH.
  destruct (advance_moved c x s Ha) as [_ ->]. by destruct (before c).
Qed.

Lemma replace_hit_plain f gs : Forall (λ g, ∃ t, g = Plain t) gs → replace_hit f gs = gs ≫= segment_text.
Proof.
  induction 1 as [|g gs [t ->] _ IH]; [done |]. cbn. by rewrite IH.
Qed.

(** An expression anchored at the start, which does not match there, replaces
    nothing. *)
Lemma replace_anchored r f s : rx_at (RSeq RStart r) (at_start s) = None →
  replace_first (RSeq RStart r) f s = s.
Proof.
  intros Hs. unfold replace_first. rewrite replace_hit_plain; [apply segments_text |].
  unfold segments. cbn [segments_from]. rewrite Hs. cbn.
  destruct s as [|x s]; [done |]. constructor; [by eexists |].
  by apply miss_anchored.
Qed.

(** A URL of [https] is parsed behind a second [https://], so that its host is
    never looked at. *)
Theorem https_refused hostname url o :
  (∀ rest, hostname (units "https://https://" ++ rest) = Some (units "https")) →
  starts "https://" (toLowerCase (trim url)) = true →
  allowed_host (default ALLOWED_HOSTS (uo_allowedHosts o)) (units "https") = false →
  validate hostname url o = Some (UrlRefused (units "Host 'https' is not in the allowed list")).
Proof.
  intros Hh Hs Ha. rewrite validate_equiv. unfold url_verdict.
  destruct (bool_decide_reflect (url = [])) as [-> | _]; [done |].
  unfold starts in Hs. apply bool_decide_eq_true in Hs as [rest ->].
  change (List.find _ _) with (@None string). cbn [starts].
  change (starts "http:" (units "https://" ++ rest)) with false.
  rewrite starts_app. cbn [orb]. unfold LEADING_SLASHES.
  rewrite replace_anchored by done.
  change (units "https://" ++ units "https://" ++ rest) with (units "https://https://" ++ rest).
  rewrite Hh. unfold mbind, option_bind. by rewrite Ha.
Qed.

(** ** Properties of the sanitizer *)

(** The traces of a script the last checks look for. *)
Definition TRACES : list string := ["<script"; "javascript:"; "onerror="; "onload="].

(** The last checks only add errors. *)
Lemma block_javascript_errors st : st.2 ≠ [] → (block_javascript st).2 ≠ [].
Proof. unfold block_javascript. destruct st.2 eqn:Hst; [done |]. by destruct (includes _ _); rewrite ?Hst. Qed.

Lemma drop_handlers_errors st : st.2 ≠ [] → (drop_handlers st).2 ≠ [].
Proof. unfold drop_handlers. destruct st.2 eqn:Hst; [done |]. by destruct (_ || _); rewrite ?Hst. Qed.

Lemma checks_clean out : (drop_handlers (block_javascript (drop_scripts (out, [])))).2 = [] →
  drop_handlers (block_javascript (drop_scripts (out, []))) = (out, []) ∧
  ∀ t, t ∈ TRACES → includes (units t) out = false.
Proof.
  destruct (includes (units "<script") out) eqn:H1.
  { intros He. exfalso. revert He. apply drop_handlers_errors, block_javascript_errors.
    unfold drop_scripts. cbn [fst snd]. by rewrite H1. }
  replace (drop_scripts (out, [])) with (out, @nil text) by (unfold drop_scripts; cbn [fst]; by rewrite H1).
  destruct (includes (units "javascript:") out) eqn:H2.
  { intros He. exfalso. revert He. apply drop_handlers_errors.
    unfold block_javascript. cbn [fst snd]. by rewrite H2. }
  replace (block_javascript (out, [])) with (out, @nil text)
    by (unfold block_javascript; cbn [fst]; by rewrite H2).
  unfold drop_handlers. cbn [fst snd].
  destruct (includes (units "onerror=") out || _) eqn:H3; [done |].
  intros _. split; [done |]. apply orb_false_iff in H3 as [H3 H4].
  intros t. unfold TRACES. rewrite !elem_of_cons, elem_of_nil. naive_solver.
Qed.

Lemma sanitize_clean_facts dom h maxLength :
  sr_errors (sanitize dom h maxLength) = [] →
  let limit := default MAX_LENGTH maxLength in
  h ≠ [] ∧ (maxLength = None ∨ maxLength = Some 0 ∨ len h ≤ limit) ∧
  sr_html (sanitize dom h maxLength) =
    sanitizeStyleAttributes dom (enforceRelAttribute dom
      (dom_purify dom configurePurify (stripEventHandlers (slice0 limit h)))) ∧
  ∀ t, t ∈ TRACES → includes (units t) (sr_html (sanitize dom h maxLength)) = false.
Proof.
  unfold sanitize. case_bool_decide as Hh; [done |].
  destruct (match maxLength with Some n => _ | None => _ end) eqn:Hm; [done |].
  set (limit := default MAX_LENGTH maxLength).
  assert ((if limit <? len h then slice0 limit h else h) = slice0 limit h) as ->.
  { destruct (Z.ltb_spec limit (len h)); [done |]. unfold slice0, len in *.
    by rewrite take_ge by lia. }
  set (out := sanitizeStyleAttributes _ _). cbn zeta.
  pose proof (checks_clean out) as Hout. destruct (drop_handlers _) as [out' errors].
  cbn [sr_errors sr_html]. cbn in Hout. intros He. destruct (Hout He) as [[= ->] Ht].
  split_and!; [done | | done | done].
  destruct maxLength as [n|]; [right | by left]. cbn in limit. subst limit.
  destruct (Z.eqb_spec n 0); [left; congruence | right]. cbn in Hm. lia.
Qed.

(** C23.  When [sanitize] reports no error, the HTML it returns is the
    purified input, cut to the limit where no limit was asked for, with its
    links and styles rewritten, and it holds none of the traces of a script
    the last checks look for. *)
Theorem sanitize_clean dom h maxLength :
  sr_errors (sanitize dom h maxLength) = [] →
  let limit := default MAX_LENGTH maxLength in
  h ≠ [] ∧ (maxLength = None ∨ maxLength = Some 0 ∨ len h ≤ limit) ∧
  sr_html (sanitize dom h maxLength) =
    sanitizeStyleAttributes dom (enforceRelAttribute dom
      (dom_purify dom configurePurify (stripEventHandlers (slice0 limit h)))) ∧
  ∀ t, t ∈ TRACES → includes (units t) (sr_html (sanitize dom h maxLength)) = false.
Proof. exact (sanitize_clean_facts dom h maxLength). Qed.

(** ** Properties of variables *)

(** What sanitizing guarantees of a value: the strings of objects, of objects
    in objects and of arrays satisfy [P], but nothing is known of what an
    array nests. *)
Fixpoint clean (P : text → Prop) (v : value) : Prop :=
  match v with
  | VString s => P s
  | VArray l => ∀ s, VString s ∈ l → P s
  | VObject l => foldr (λ kv Q, clean P kv.2 ∧ Q) True l
  | _ => True
  end.

Lemma clean_object P l : clean P (VObject l) ↔ Forall (λ kv, clean P kv.2) l.
Proof.
  cbn. induction l as [|kv l IH]; cbn [foldr]; [by split |]. rewrite list.Forall_cons. tauto.
Qed.

Section sanitized.
Context (inline : text → text) (P : text → Prop) (HP : ∀ s, P (inline s)).

Lemma clean_own l : Forall (λ kv : text * value, clean P kv.2) l → Forall (λ kv, clean P kv.2) (own_entries l).
Proof. apply incl_Forall, incl_filter. Qed.

Lemma sanitize_value_clean : ∀ v, clean P (sanitize_value inline v).
Proof.
  fix IH 1. intros [s | n | l | l |]; [by apply HP | done | | | done].
  - cbn. intros s (v & Hv & _)%list_elem_of_fmap. destruct v; cbn in Hv; simplify_eq. by apply HP.
  - cbn [sanitize_value]. apply clean_object, clean_own.
    induction l as [|[k v] l IHl]; [constructor |]. constructor; [apply IH | apply IHl].
Qed.

(** The variables that come out: those with a proper name. *)
Definition kept (kv : text * value) : bool :=
  variable_name kv.1 && negb (bool_decide (kv.1 = units "__proto__")).

Lemma sanitized_entries l :
  sanitizeObject inline (List.filter (λ kv, variable_name kv.1) l) =
    (λ kv, (kv.1, sanitize_value inline kv.2)) <$> List.filter kept l.
Proof.
  unfold sanitizeObject, own_entries, kept. induction l as [|[k v] l IH]; [done |].
  cbn [List.filter fst]. destruct (variable_name k); cbn [andb]; [| exact IH].
  rewrite fmap_cons. cbn [List.filter fst]. case_bool_decide; cbn [negb]; [exact IH |].
  by rewrite fmap_cons, IH.
Qed.

Lemma variable_errors l :
  vv_errors (validateVariables inline l) =
    (λ kv, units "Invalid variable name: " ++ kv.1) <$> List.filter (λ kv, negb (variable_name kv.1)) l.
Proof.
  unfold validateVariables. cbn [vv_errors]. induction l as [|[k v] l IH]; [done |].
  rewrite bind_cons, IH. cbn [List.filter fst]. by destruct (variable_name k).
Qed.

Lemma names_once (l : list (text * value)) f : NoDup l.*1 → NoDup (List.filter f l).*1.
Proof.
  induction l as [|x l IH]; [done |]. rewrite fmap_cons. intros [Hx Hnd]%list.NoDup_cons.
  cbn [List.filter]. destruct (f x); [| by apply IH]. rewrite fmap_cons. apply list.NoDup_cons.
  split; [| by apply IH]. intros (y & Hxy & Hy)%list_elem_of_fmap. apply Hx. rewrite Hxy.
  apply list_elem_of_fmap. exists y. split; [done |]. apply list_elem_of_In. apply list_elem_of_In in Hy.
  by apply filter_In in Hy as [? _].
Qed.

(** C24.  [validateVariables] returns exactly the variables with a proper
    name, in the order given, each with its sanitized value, in which no string
    outside of what an array nests is left as it was given; names that are
    given once come out once, and there are no others.  Only [__proto__], which
    is a proper name, is lost, being no ordinary property.  It accepts exactly
    the objects all of whose names are proper, and reports each other name,
    in order. *)
Theorem variables_clean vars :
  let r := validateVariables inline vars in
  (vv_valid r = true ↔ Forall (λ kv, variable_name kv.1 = true) vars) ∧
  vv_errors r = (λ kv, units "Invalid variable name: " ++ kv.1) <$>
    List.filter (λ kv, negb (variable_name kv.1)) vars ∧
  vv_sanitized r = (λ kv, (kv.1, sanitize_value inline kv.2)) <$> List.filter kept vars ∧
  Forall (λ kv, variable_name kv.1 = true ∧ clean P kv.2) (vv_sanitized r) ∧
  (NoDup vars.*1 → NoDup (vv_sanitized r).*1) ∧
  ∀ k v, (k, v) ∈ vars → variable_name k = true → k ≠ units "__proto__" →
    (k, sanitize_value inline v) ∈ vv_sanitized r.
Proof.
  cbn zeta. rewrite variable_errors. unfold validateVariables. cbn [vv_valid vv_sanitized].
  rewrite sanitized_entries. split_and!; [| done | done | | |].
  - rewrite bool_decide_eq_true. induction vars as [|[k v] vars IH]; [by split |].
    rewrite list.Forall_cons. cbn. destruct (variable_name k); [cbn; tauto |].
    split; [done |]. by intros [? _].
  - apply Forall_fmap, List.Forall_forall. intros [k v] [_ Hk]%filter_In.
    apply andb_true_iff in Hk as [Hk _]. split; [done | apply sanitize_value_clean].
  - intros Hnd. rewrite <- list_fmap_compose. by apply names_once.
  - intros k v Hin Hk Hp. apply list_elem_of_fmap. exists (k, v). split; [done |].
    apply list_elem_of_In, filter_In. split; [by apply list_elem_of_In |].
    unfold kept. cbn. by rewrite Hk, bool_decide_eq_false_2.
Qed.
End sanitized.

(** ** Witnesses *)

(** A parser that only knows the two URLs below, and a DOM that changes
    nothing. *)
Definition test_hostname (u : text) : option text :=
  if bool_decide (u = units "http://cdn.useherald.xyz/logo.png") then Some (units "cdn.useherald.xyz")
  else if starts "https://https://" u then Some (units "https") else None.

Definition identity_dom : Dom := {|
  dom_hostname := test_hostname; dom_purify := λ _ h, h; dom_map_rel := λ _ h, h;
  dom_map_style := λ _ h, h |}.

Lemma accepted_safe_witness :
  ∃ u, validate test_hostname (units " http://CDN.useherald.xyz/logo.png") no_options = Some (UrlOk u) ∧
  let t := toLowerCase (trim (units " http://CDN.useherald.xyz/logo.png")) in
  u = units " http://CDN.useherald.xyz/logo.png" ∧
  (∀ p, p ∈ BLOCKED_PROTOCOLS → starts p t = false) ∧
  (starts "http:" t = true →
   ∃ host, test_hostname t = Some host ∧
     allowed_host (default ALLOWED_HOSTS (uo_allowedHosts no_options)) host = true).
Proof.
  exists (units " http://CDN.useherald.xyz/logo.png"). split; [vm_compute; reflexivity |].
  apply (accepted_safe test_hostname (units " http://CDN.useherald.xyz/logo.png") no_options).
  vm_compute. reflexivity.
Defined.

Lemma https_refused_witness :
  validate test_hostname (units "https://cdn.useherald.xyz/logo.png") no_options =
    Some (UrlRefused (units "Host 'https' is not in the allowed list")).
Proof.
  apply (https_refused test_hostname); [| vm_compute; reflexivity.. ].
  intros rest. unfold test_hostname. rewrite bool_decide_eq_false_2 by done.
  by rewrite starts_app.
Defined.

(** A URL that names no protocol reaches any host. *)
Example relative_accepted :
  validate test_hostname (units "//evil.example/x") no_options = Some (UrlOk (units "//evil.example/x")) ∧
  validate test_hostname (units "ftp://evil.example/x") no_options = Some (UrlOk (units "ftp://evil.example/x")).
Proof. split; vm_compute; reflexivity. Qed.

Lemma sanitize_clean_witness :
  let h := html "<a href=`//x`>hi</a><p onclick=`go()`>there</p>" in
  h ≠ [] ∧ (Some 100 = None ∨ Some 100 = Some 0 ∨ len h ≤ default MAX_LENGTH (Some 100)) ∧
  sr_html (sanitize identity_dom h (Some 100)) =
    sanitizeStyleAttributes identity_dom (enforceRelAttribute identity_dom
      (dom_purify identity_dom configurePurify (stripEventHandlers (slice0 100 h)))) ∧
  ∀ t, t ∈ TRACES → includes (units t) (sr_html (sanitize identity_dom h (Some 100))) = false.
Proof. cbn zeta. apply (sanitize_clean identity_dom _ (Some 100)). vm_compute. reflexivity. Defined.

Definition test_vars : list (text * value) :=
  [(units "name", VString (units "<b onclick='x'>Al</b>"));
   (units "2nd", VScalar (inl 2));
   (units "list", VArray [VString (units "<i onload='x'>"); VObject [(units "k", VString (units "<i onload='x'>"))]])].

Lemma variables_clean_witness :
  let inline := sanitizeInline identity_dom in
  let r := validateVariables inline test_vars in
  (vv_valid r = true ↔ Forall (λ kv, variable_name kv.1 = true) test_vars) ∧
  vv_errors r = (λ kv, units "Invalid variable name: " ++ kv.1) <$>
    List.filter (λ kv, negb (variable_name kv.1)) test_vars ∧
  vv_sanitized r = (λ kv, (kv.1, sanitize_value inline kv.2)) <$> List.filter kept test_vars ∧
  Forall (λ kv, variable_name kv.1 = true ∧ clean (λ s, ∃ t, s = inline t) kv.2) (vv_sanitized r) ∧
  (NoDup test_vars.*1 → NoDup (vv_sanitized r).*1) ∧
  ∀ k v, (k, v) ∈ test_vars → variable_name k = true → k ≠ units "__proto__" →
    (k, sanitize_value inline v) ∈ vv_sanitized r.
Proof. apply (variables_clean (sanitizeInline identity_dom)). intros s. by exists s. Defined.

(** What an array nests is returned as it was given. *)
Example nested_unsanitized :
  vv_sanitized (validateVariables (sanitizeInline identity_dom) test_vars) =
  [(units "name", VString (units "<b>Al</b>"));
   (units "list", VArray [VString (units "<i>"); VObject [(units "k", VString (units "<i onload='x'>"))]])].
Proof. vm_compute. reflexivity. Qed.
