(* ===== verification/Mjml.v ===== *)
(** * Compiling MJML and HTML templates

    [src/modules/template/mjml-compiler.service.ts].  MJML, Handlebars and
    juice are parameters.  The service keeps its compiled templates in a map
    of at most a hundred entries, a list here since the order of insertion
    decides what it drops. *)

From S2P Require Import Prelude Text Rx Links Markdown Template Sanitizer.

Open Scope string_scope.
Open Scope list_scope.
Open Scope Z_scope.

Record MjmlTemplate := {
  mt_source : text;
  mt_compiled : Delegate;
  mt_isMjml : bool;
}.

Record MjmlValidationResult := {
  mv_valid : bool;
  mv_errors : list text;
  mv_warnings : list text;
}.

Record MjmlError := { me_message : text; me_formattedMessage : text }.

Inductive TemplateFormat := FMjml | FHtml.

Inductive validation_level := Soft | Strict.

Record Compiler := {
  cp_compile : text → result Delegate;         (** [Handlebars.compile] *)
  cp_mjml : validation_level → text → result (text * list MjmlError);
  cp_juice : text → result text;
  cp_dom : Dom;
}.

Definition detectFormat (source : text) : TemplateFormat :=
  let lowerSource := toLowerCase (trim source) in
  if starts "<mjml>" lowerSource || includes (units "<mj-") lowerSource ||
     includes (units "mjml") lowerSource
  then FMjml else FHtml.

Definition is_mjml (source : text) : bool :=
  match detectFormat source with FMjml => true | FHtml => false end.

(** ** The cache *)

(** [Map]: the keys in the order of their insertion. *)
Abbreviation MjmlCache := (list (text * MjmlTemplate)).

Definition maxCacheSize : nat := 100.

Definition cache_get (key : text) (cache : MjmlCache) : option MjmlTemplate :=
  snd <$> List.find (λ e, bool_decide (e.1 = key)) cache.

Section compiler.
Context (cp : Compiler).

Definition failure (what : string) (e : exn) : exn := JsError (what +:+ ": " +:+ err_message e) None.

Definition getCompiledTemplate (source : text) (cache : MjmlCache) : result MjmlTemplate * MjmlCache :=
  let cacheKey := hashSource source in
  match cache_get cacheKey cache with
  | Some t => (Ok t, cache)
  | None =>
      match cp_compile cp source with
      | Err e => (Err (failure "Template compilation failed" e), cache)
      | Ok compiled =>
          let template := {| mt_source := source; mt_compiled := compiled; mt_isMjml := is_mjml source |} in
          let cache := if bool_decide (maxCacheSize ≤ length cache)%nat then tail cache else cache in
          (Ok template, cache ++ [(cacheKey, template)])
      end
  end.

Definition clearCache : MjmlCache := [].
Definition getCacheSize (cache : MjmlCache) : nat := length cache.

(** ** Compiling *)

Definition precompileHandlebars (source : text) (variables : Vars) (cache : MjmlCache) :
    result text * MjmlCache :=
  match getCompiledTemplate source cache with
  | (Ok template, cache) => (mt_compiled template variables, cache)
  | (Err e, cache) => (Err e, cache)
  end.

(** A failure of Handlebars leaves the source to MJML; the errors of MJML are
    only logged. *)
Definition compileMjml (mjmlSource : text) (variables : Vars) (cache : MjmlCache) :
    result text * MjmlCache :=
  let '(r, cache) := precompileHandlebars mjmlSource variables cache in
  let processedSource := match r with Ok t => t | Err _ => mjmlSource end in
  (match cp_mjml cp Soft processedSource with
   | Ok (compiled, _) => Ok compiled
   | Err e => Err (failure "MJML compilation failed" e)
   end, cache).

Definition compileHtml (htmlSource : text) (variables : Vars) (cache : MjmlCache) :
    result text * MjmlCache :=
  let '(r, cache) := precompileHandlebars htmlSource variables cache in
  (match r with
   | Err e => Err (failure "Handlebars compilation failed" e)
   | Ok processedHtml =>
       Ok (match cp_juice cp processedHtml with Ok inlinedHtml => inlinedHtml | Err _ => processedHtml end)
   end, cache).

Definition compile (source : text) (variables : Vars) (cache : MjmlCache) : result text * MjmlCache :=
  match detectFormat source with
  | FMjml => compileMjml source variables cache
  | FHtml => compileHtml source variables cache
  end.

(** ** Validating *)

Definition mjml_error (e : MjmlError) : text :=
  match me_formattedMessage e with [] => me_message e | t => t end.

Definition syntax_errors (source : text) : list text :=
  match detectFormat source with
  | FMjml =>
      match cp_mjml cp Strict source with
      | Ok (_, errors) => mjml_error <$> errors
      | Err e => [units "MJML validation failed: " ++ units (err_message e)]
      end
  | FHtml =>
      match cp_compile cp source with
      | Ok _ => []
      | Err e => [units "Handlebars syntax error: " ++ units (err_message e)]
      end
  end.

Definition validate (source : text) : MjmlValidationResult :=
  if bool_decide (source = []) then
    {| mv_valid := false; mv_errors := [units "Template source is required"]; mv_warnings := [] |}
  else
    let size_warning := if 51200 <? len source then [units "Template exceeds 50KB size limit"] else [] in
    let sanitized := sanitize (cp_dom cp) source (Some 51200) in
    let errors := syntax_errors source ++ sr_errors sanitized in
    {| mv_valid := bool_decide (errors = []); mv_errors := errors;
       mv_warnings := size_warning ++ sr_warnings sanitized |}.
End compiler.

(** ** Properties *)

Section properties.
Context (cp : Compiler).

(** An entry of the cache: a source that compiles, under its hash. *)
Definition entry_ok (e : text * MjmlTemplate) : Prop :=
  e.1 = hashSource (mt_source e.2) ∧ mt_isMjml e.2 = is_mjml (mt_source e.2) ∧
  cp_compile cp (mt_source e.2) = Ok (mt_compiled e.2).

Definition cache_ok (cache : MjmlCache) : Prop :=
  NoDup cache.*1 ∧ (length cache ≤ maxCacheSize)%nat ∧ Forall entry_ok cache.

Lemma cache_get_Some key cache t : cache_get key cache = Some t → (key, t) ∈ cache.
Proof.
  unfold cache_get. destruct (List.find _ cache) as [[k u]|] eqn:Hf; [| done].
  intros [= ->]. apply find_some in Hf as [Hin Hk]. apply bool_decide_eq_true in Hk. cbn in Hk. subst.
  by apply list_elem_of_In.
Qed.

Lemma cache_get_None key cache : cache_get key cache = None → key ∉ cache.*1.
Proof.
  unfold cache_get. destruct (List.find _ cache) as [e|] eqn:Hf; [done |].
  intros _ ([k t] & -> & Hin)%list_elem_of_fmap. apply list_elem_of_In in Hin.
  pose proof (find_none _ _ Hf _ Hin) as H. cbn in H. by apply bool_decide_eq_false in H.
Qed.

(** What becomes of the map when [source] is asked for. *)
Definition stored (source : text) (cache : MjmlCache) (r : result MjmlTemplate) (cache' : MjmlCache) : Prop :=
  match r with
  | Ok t => entry_ok (hashSource source, t) ∧
      (cache' = cache ∨ mt_source t = source ∧ (length cache < maxCacheSize)%nat ∧
                        cache' = cache ++ [(hashSource source, t)] ∨
       mt_source t = source ∧ length cache = maxCacheSize ∧
       cache' = tail cache ++ [(hashSource source, t)])
  | Err _ => cache' = cache
  end.

Lemma cache_snoc cache key t : NoDup cache.*1 → key ∉ cache.*1 → (length cache < maxCacheSize)%nat →
  Forall entry_ok cache → entry_ok (key, t) → cache_ok (cache ++ [(key, t)]).
Proof.
  intros Hnd Hk Hlen Hall Ht. split_and!.
  - rewrite fmap_app. apply list.NoDup_app. split_and!; [done | cbn; set_solver | apply NoDup_singleton].
  - rewrite length_app. cbn. lia.
  - by apply Forall_app_2; [| constructor].
Qed.

Lemma getCompiledTemplate_ok source cache : cache_ok cache →
  let r := getCompiledTemplate cp source cache in
  cache_ok r.2 ∧ stored source cache r.1 r.2.
Proof.
  intros Hok. unfold getCompiledTemplate, stored. destruct Hok as (Hnd & Hlen & Hall).
  destruct (cache_get _ cache) as [t|] eqn:Hg.
  { split; [done |]. split; [| by left]. apply cache_get_Some in Hg.
    by eapply List.Forall_forall in Hall; [| apply list_elem_of_In, Hg]. }
  apply cache_get_None in Hg.
  destruct (cp_compile cp source) as [d | e] eqn:Hc; [| done].
  set (t := {| mt_source := source; mt_compiled := d; mt_isMjml := is_mjml source |}).
  assert (entry_ok (hashSource source, t)) as Ht by done.
  case_bool_decide as Hfull.
  - destruct cache as [|e cache]; [cbn in Hfull; unfold maxCacheSize in Hfull; lia |].
    cbn [tail length] in *. split; [| split; [done |]; right; right; split_and!; [done | lia | done]].
    apply list.NoDup_cons in Hnd as [_ Hnd]. apply list.Forall_cons in Hall as [_ Hall].
    apply cache_snoc; [done | cbn in Hg; set_solver | lia | done | done].
  - split; [| split; [done |]; right; left; split_and!; [done | lia | done]].
    by apply cache_snoc; [| | lia | |].
Qed.

(** Whatever is compiled, the map of compiled templates keeps at most a
    hundred of them, one per hash, each the compilation of its source; a new
    one goes last and drops the first one of a full map.  What is returned is
    the compilation of some source with the same hash, of the given one where
    it is new. *)
Theorem cache_bounded source cache : cache_ok cache →
  let r := getCompiledTemplate cp source cache in
  cache_ok r.2 ∧ stored source cache r.1 r.2.
Proof. exact (getCompiledTemplate_ok source cache). Qed.

(** An HTML template compiles to what Handlebars and then juice make of
    it, and is refused with the error of Handlebars; a failing juice leaves
    the HTML as it is.  An MJML template is refused for an error of MJML
    only. *)
Theorem compile_spec source vars cache : cache_ok cache →
  (∀ e, e ∈ cache → hashSource (mt_source e.2) = hashSource source → mt_source e.2 = source) →
  let handlebars := match cp_compile cp source with
    | Ok d => d vars
    | Err e => Err (failure "Template compilation failed" e)
    end in
  (compile cp source vars cache).1 =
    if is_mjml source then
      match cp_mjml cp Soft (match handlebars with Ok t => t | Err _ => source end) with
      | Ok (h, _) => Ok h
      | Err e => Err (failure "MJML compilation failed" e)
      end
    else
      match handlebars with
      | Ok h => Ok (match cp_juice cp h with Ok t => t | Err _ => h end)
      | Err e => Err (failure "Handlebars compilation failed" e)
      end.
Proof.
  intros (_ & _ & Hall) Hinj. cbn zeta.
  assert ((precompileHandlebars cp source vars cache).1 =
    match cp_compile cp source with
    | Ok d => d vars
    | Err e => Err (failure "Template compilation failed" e)
    end) as Hp.
  { unfold precompileHandlebars, getCompiledTemplate.
    destruct (cache_get _ cache) as [t|] eqn:Hg; [| by destruct (cp_compile cp source)].
    apply cache_get_Some in Hg.
    destruct (proj1 (list.Forall_forall _ _) Hall _ Hg) as (Hk & _ & Hc).
    pose proof (Hinj _ Hg (eq_sym Hk)) as Hs. cbn in Hs, Hc |- *. rewrite Hs in Hc. by rewrite Hc. }
  unfold compile, is_mjml, compileMjml, compileHtml. rewrite <- Hp.
  by destruct (detectFormat source), (precompileHandlebars cp source vars cache) as [r c].
Qed.

(** Handlebars compiles a template when it is first run: its [compile] throws
    for no text, and so no syntax error is ever reported. *)
Theorem syntax_unchecked source : (∀ s, is_Some (match cp_compile cp s with Ok d => Some d | Err _ => None end)) →
  is_mjml source = false → source ≠ [] →
  mv_errors (validate cp source) = sr_errors (sanitize (cp_dom cp) source (Some 51200)).
Proof.
  intros Hc Hf Hs. unfold validate. rewrite bool_decide_eq_false_2 by done. cbn [mv_errors].
  unfold syntax_errors. unfold is_mjml in Hf. destruct (detectFormat source); [done |].
  by destruct (Hc source) as [d Hd], (cp_compile cp source).
Qed.

(** A template passes [validate] only when it is not empty, has at most
    51200 units, its format accepts it, and the sanitized source, the one
    [sanitize] returns, holds no trace of a script. *)
Theorem validate_spec source : mv_valid (validate cp source) = true →
  source ≠ [] ∧ len source ≤ 51200 ∧ syntax_errors cp source = [] ∧
  mv_warnings (validate cp source) = sr_warnings (sanitize (cp_dom cp) source (Some 51200)) ∧
  ∀ t, t ∈ TRACES → includes (units t) (sr_html (sanitize (cp_dom cp) source (Some 51200))) = false.
Proof.
  unfold validate. case_bool_decide as Hs; [done |]. cbn [mv_valid mv_warnings].
  intros [Hsyn Hsan]%bool_decide_eq_true%app_nil.
  destruct (sanitize_clean_facts (cp_dom cp) source (Some 51200) Hsan) as (_ & Hlen & _ & Ht).
  destruct Hlen as [? | [? | Hlen]]; [done.. |]. cbn in Hlen.
  split_and!; [done | done | done | | done].
  destruct (Z.ltb_spec 51200 (len source)); [lia | done].
Qed.
End properties.

(** ** Witnesses *)

Definition test_compiler : Compiler := {|
  cp_compile := λ s, Ok (λ vars, Ok (s ++ var_or vars "body" []));
  cp_mjml := λ _ s, if bool_decide (s = units "<mjml>") then Err (JsError "malformed" None)
                    else Ok (units "<html>" ++ s, []);
  cp_juice := λ s, if bool_decide (s = []) then Err (JsError "empty" None) else Ok s;
  cp_dom := identity_dom |}.

(** A full map: a hundred sources of the same letter have different hashes. *)
Definition hundred : MjmlCache :=
  snd (foldl (λ '(_, c) n, getCompiledTemplate test_compiler (replicate n 97%N) c)
    (Err (JsError "" None), clearCache) (seq 1 100)).

Lemma hundred_ok : cache_ok test_compiler hundred.
Proof.
  unfold hundred. cut (∀ l st, cache_ok test_compiler st.2 → cache_ok test_compiler
    (snd (foldl (λ '(_, c) n, getCompiledTemplate test_compiler (replicate n 97%N) c) st l))).
  { intros H. apply H. split_and!; [constructor | cbn; unfold maxCacheSize; lia | done]. }
  intros l. induction l as [|n l IH]; intros [r c] Hc; [done |]. cbn [foldl]. apply IH.
  pose proof (getCompiledTemplate_ok test_compiler (replicate n 97%N) c Hc) as H.
  destruct (getCompiledTemplate _ _ _). exact (proj1 H).
Qed.

Lemma cache_bounded_witness :
  length hundred = maxCacheSize ∧
  let r := getCompiledTemplate test_compiler (units "new") hundred in
  cache_ok test_compiler r.2 ∧ stored test_compiler (units "new") hundred r.1 r.2.
Proof.
  split; [vm_compute; reflexivity |].
  apply (cache_bounded test_compiler (units "new") hundred hundred_ok).
Defined.

Lemma compile_spec_witness :
  (compile test_compiler (units "<p>") (<["body" := Some (units "hi")]> ∅) hundred).1 =
    Ok (units "<p>hi").
Proof.
  eapply eq_trans; [apply (compile_spec test_compiler (units "<p>") _ hundred hundred_ok) |].
  - intros e He Hk. exfalso.
    assert (Forall (λ e : text * MjmlTemplate, hashSource (mt_source e.2) ≠ hashSource (units "<p>")) hundred) as Hall.
    { refine (bool_decide_unpack _ _). vm_compute. exact I. }
    by apply (proj1 (list.Forall_forall _ _) Hall e He).
  - vm_compute. reflexivity.
Defined.

Lemma syntax_unchecked_witness :
  mv_errors (validate test_compiler (units "{{#if")) =
    sr_errors (sanitize (cp_dom test_compiler) (units "{{#if") (Some 51200)).
Proof.
  apply (syntax_unchecked test_compiler); [by intros s; eexists | vm_compute; reflexivity | done].
Defined.

Lemma validate_spec_witness :
  let source := units "<mjml><mj-body></mj-body></mjml>" in
  source ≠ [] ∧ len source ≤ 51200 ∧ syntax_errors test_compiler source = [] ∧
  mv_warnings (validate test_compiler source) =
    sr_warnings (sanitize (cp_dom test_compiler) source (Some 51200)) ∧
  ∀ t, t ∈ TRACES →
    includes (units t) (sr_html (sanitize (cp_dom test_compiler) source (Some 51200))) = false.
Proof. cbn zeta. apply (validate_spec test_compiler). vm_compute. reflexivity. Defined.
