(* ===== verification/Domains.v ===== *)
(** * Sending domains

    [src/modules/domain/]: the DKIM keys of a protocol ([DkimService]), the
    checks of its DNS records ([DnsVerificationService]), its BIMI logo
    ([BimiService]) and the endpoints ([DomainController]).  KMS, SES, Resend,
    DNS and the fetch of a logo are parameters: what they answer. *)

From Stdlib Require Import Ascii String.
From S2P Require Import Prelude Schema External Memory Text Rx Hex Utf8 Links Markdown Template.

Open Scope string_scope.
Open Scope list_scope.
Open Scope Z_scope.

(** ** Base64 *)

Definition b64_char (n : N) : N :=
  let n := (n mod 64)%N in
  (if n <? 26 then 65 + n else if n <? 52 then 71 + n else if n <? 62 then n - 4
   else if n =? 62 then 43 else 47)%N.

(** [Buffer.from(b).toString('base64')] *)
Fixpoint to_base64 (b : list N) : text :=
  match b with
  | x :: y :: z :: b' =>
      [b64_char (x / 4); b64_char ((x mod 4) * 16 + y / 16);
       b64_char ((y mod 16) * 4 + z / 64); b64_char z] ++ to_base64 b'
  | [x; y] => [b64_char (x / 4); b64_char ((x mod 4) * 16 + y / 16); b64_char ((y mod 16) * 4); 61]
  | [x] => [b64_char (x / 4); b64_char ((x mod 4) * 16); 61; 61]
  | [] => []
  end%N.

(** ** The keys *)

Definition BEGIN_KEY : text := units "-----BEGIN PUBLIC KEY-----".
Definition END_KEY : text := units "-----END PUBLIC KEY-----".

(** [s.match(/.{1,64}/g)] for a text without line breaks. *)
Fixpoint chunks64 (fuel : nat) (s : text) : list text :=
  match fuel, s with
  | O, _ | _, [] => []
  | S fuel', _ => take 64 s :: chunks64 fuel' (drop 64 s)
  end.

Definition pem (base64Pub : text) : text :=
  BEGIN_KEY ++ [NL] ++
  match chunks64 (length base64Pub) base64Pub with
  | [] => units "undefined"
  | lines => join [NL] lines
  end ++ [NL] ++ END_KEY.

(** The two markers, everywhere. *)
Definition KEY_MARKERS : rx := RAlt (rlit "-----BEGIN PUBLIC KEY-----") (rlit "-----END PUBLIC KEY-----").
Definition strip_key (publicKey : text) : text :=
  replace (RChar space_unit) erase (replace KEY_MARKERS erase publicKey).

Definition dkim_record (base64Pub : text) : text := units "v=DKIM1; k=rsa; p=" ++ base64Pub.
Definition record_name (selector domain : string) : string := selector +:+ "._domainkey." +:+ domain.

(** A key of the protocol, for [findFirst]. *)
Definition key_of (id protocolId : string) : where_ MDkimKey := λ k r,
  bool_decide (k = id) && bool_decide (dk_protocolId r = Some protocolId).

Definition NotFound (what : string) : exn := HttpError 404 (what +:+ " not found").

(** What SES answers to [CreateEmailIdentity]. *)
Inductive SesCreate := SesCreated | SesAlreadyExists | SesFailed (e : exn).

(** What Resend answers to [domains.create]: the id and the records of the new
    domain, an error, or neither. *)
Inductive ResendCreate := ResendCreated (id records : string) | ResendError (message : string) | ResendNothing.

Record ProvisionedKey := {
  pk_id : string;
  pk_dnsRecordName : string;
  pk_dnsRecordValue : text;
  pk_kmsKeyId : string;
}.

Record VerifiedDomain := {
  vd_dnsRecordName : string;
  vd_dnsVerified : bool;
  vd_records : option text;
}.

(** A call with both providers: what each of them gave. *)
Record Registration := {
  rg_ses : result (list (string * string));
  rg_resend : result (string * string);
}.

Section dkim.
Context `{B : Backend}.
Context (createKey : result (option string)) (getPublicKey : string → result (option (list N))).
Context (ses_create : string → SesCreate) (ses_tokens : string → result (list string)).
Context (resend_create : string → ResendCreate)
        (resend_list : result (list (string * (string * string)))).
Context (resolve_txt : string → result (list (list text))).

Definition max_domains (tier : Z) : Z := if tier =? 0 then 1 else 20.

Definition domain_limit (tier : Z) : exn := HttpError 403 "Domain limit reached".

Definition create_dkim_key (protocolId domain selector : string) (now : Z) : M World ProvisionedKey :=
  protocol ← find_unique MProtocol (by_id MProtocol protocolId);
  match protocol with
  | None => raise (JsError "Protocol not found" None)
  | Some p =>
      currentCount ← count MDkimKey (λ _ r, bool_decide (dk_protocolId r = Some protocolId) && dk_isActive r);
      if max_domains (p_tier p) <=? currentCount then raise (domain_limit (p_tier p)) else
      keyId ← lift createKey;
      match keyId with
      | None => raise (JsError "Failed to create KMS key" None)
      | Some kmsKeyId =>
          der ← lift (getPublicKey kmsKeyId);
          match der with
          | None => raise (JsError "Failed to get KMS public key" None)
          | Some derPublicKey =>
              let base64Pub := to_base64 derPublicKey in
              key ← create MDkimKey (λ id, {|
                dk_id := id; dk_protocolId := Some protocolId; dk_domain := domain;
                dk_selector := selector; dk_publicKey := pem base64Pub; dk_kmsKeyId := kmsKeyId;
                dk_dnsVerified := false; dk_isActive := true; dk_sesVerified := false;
                dk_sesCnameRecords := None; dk_resendDomainId := None; dk_resendDnsRecords := None;
                dk_createdAt := now |});
              mret {| pk_id := dk_id key; pk_dnsRecordName := record_name selector domain;
                      pk_dnsRecordValue := dkim_record base64Pub; pk_kmsKeyId := kmsKeyId |}
          end
      end
  end.

(** Whatever fails, the caller learns only that provisioning failed. *)
Definition provisionDomainKey (protocolId domain selector : string) (now : Z) : M World ProvisionedKey :=
  catch (create_dkim_key protocolId domain selector now)
    (λ _, raise (JsError "Failed to provision DKIM key" None)).

Definition verifyDomain (id protocolId : string) : M World VerifiedDomain :=
  key ← find_first MDkimKey (key_of id protocolId) None;
  match key with
  | None => raise (JsError "DKIM key not found" None)
  | Some key =>
      let recordName := record_name (dk_selector key) (dk_domain key) in
      swallow {| vd_dnsRecordName := recordName; vd_dnsVerified := false; vd_records := None |} (
        records ← lift (resolve_txt recordName);
        let flatRecords := concat (@concat N <$> records) in
        let verified := includes (slice0 32 (strip_key (dk_publicKey key))) flatRecords in
        _ ← (if verified then
               _ ← update MDkimKey (by_id MDkimKey id) (λ k, k <| dk_dnsVerified := true |>); mret ()
             else mret ());
        mret {| vd_dnsRecordName := recordName; vd_dnsVerified := verified;
                vd_records := Some flatRecords |})
  end.

Definition registerWithSes (domain : string) : result (list (string * string)) :=
  match ses_create domain with
  | SesFailed e => Err e
  | _ =>
      match ses_tokens domain with
      | Err e => Err e
      | Ok tokens => Ok ((λ t, (t +:+ "._domainkey." +:+ domain, t +:+ ".dkim.amazonses.com")) <$> tokens)
      end
  end.

Definition registerWithResend (domain : string) : result (string * string) :=
  match resend_create domain with
  | ResendCreated id records => Ok (id, records)
  | ResendError message =>
      match resend_list with
      | Err e => Err e
      | Ok list =>
          match List.find (λ d, bool_decide (d.1 = domain)) list with
          | Some (_, d) => Ok d
          | None => Err (JsError ("Resend domain registration failed: " +:+ message) None)
          end
      end
  | ResendNothing => Err (JsError "Resend domain registration failed: unknown error" None)
  end.

(** The columns both providers fill, for what they gave. *)
Definition registered (r : Registration) (k : DkimKey) : DkimKey :=
  let k := match rg_ses r with
           | Ok records => k <| dk_sesCnameRecords := Some records |> <| dk_sesVerified := true |>
           | Err _ => k
           end in
  match rg_resend r with
  | Ok (id, records) => k <| dk_resendDomainId := Some id |> <| dk_resendDnsRecords := Some records |>
  | Err _ => k
  end.

Definition registerDomain (id protocolId : string) : M World Registration :=
  key ← find_first MDkimKey (key_of id protocolId) None;
  match key with
  | None => raise (NotFound "Domain")
  | Some key =>
      let r := {| rg_ses := registerWithSes (dk_domain key);
                  rg_resend := registerWithResend (dk_domain key) |} in
      _ ← update MDkimKey (by_id MDkimKey id) (registered r);
      mret r
  end.

Definition getDomainKeys (protocolId : string) : M World (list DkimKey) :=
  find_many MDkimKey (λ _ r, bool_decide (dk_protocolId r = Some protocolId))
    (Some (λ r, - dk_createdAt r)).

(** Resend is asked to forget the domain; whether it does has no effect. *)
Definition deleteDomainKey (id protocolId : string) : M World () :=
  _ ← find_first MDkimKey (key_of id protocolId) None;
  delete_many MDkimKey (key_of id protocolId).
End dkim.

(** The [dnsRecordValue] [DomainController.list] shows for a stored key. *)
Definition PEM_PATTERN : rx :=
  let body := RChar (λ x, in_range 65 90 x || in_range 97 122 x || in_range 48 57 x ||
                          one_of [43; 47; 61; 10]%N x) in
  rseq [rlit "-----BEGIN PUBLIC KEY-----"; RGroup 1 (rplus true body); rlit "-----END PUBLIC KEY-----"].
Definition KEY_LINES : rx := RAlt KEY_MARKERS (RChar (this NL)).

Definition listed_record (publicKey : text) : text :=
  let base64Key :=
    match search PEM_PATTERN publicKey with
    | Some (_, cs) => replace (RChar (this NL)) erase (default [] (capture 1 cs))
    | None => replace KEY_LINES erase publicKey
    end in
  if bool_decide (base64Key = []) then [] else dkim_record base64Key.

(** ** DNS *)

Record DmarcStatus := {
  dm_valid : bool;
  dm_policy : option text;
  dm_record : option text;
  dm_error : option string;
}.

Record BimiStatus := {
  bs_published : bool;
  bs_record : option text;
  bs_logoUrl : option text;
  bs_vmcUrl : option text;
  bs_matches : bool;
}.

Definition starts_with (p : string) (s : text) : bool := bool_decide (units p `prefix_of` s).

(** The value of a tag: [tag=], then all that is no semicolon. *)
Definition tag_pattern (tag : string) : rx :=
  rseq [rlit (tag +:+ "="); RGroup 1 (rplus true (RChar (none_of [59%N])))].
Definition tag_value (tag : string) (record : text) : option text :=
  m ← search (tag_pattern tag) record;
  v ← capture 1 m.2;
  Some (trim v).

Section dns.
(** [dns.resolveTxt] *)
Context (resolve_txt : string → result (list (list text))).

Definition resolveTxt (hostname : string) : list text :=
  match resolve_txt hostname with Ok records => @concat N <$> records | Err _ => [] end.

Definition strong_policies : list string := ["quarantine"; "reject"].

(** What [checkDmarcPolicy] makes of the records. *)
Definition dmarc_of (records : list text) : DmarcStatus :=
  let invalid error := {| dm_valid := false; dm_policy := None; dm_record := None; dm_error := Some error |} in
  match records with
  | [] => invalid "No DMARC record found"
  | _ =>
      match List.find (starts_with "v=DMARC1") records with
      | None => invalid "Invalid DMARC record format"
      | Some record =>
          let policy := tag_value "p" record in
          if existsb (λ s, bool_decide (policy = Some (units s))) strong_policies then
            {| dm_valid := true; dm_policy := policy; dm_record := Some record; dm_error := None |}
          else
            {| dm_valid := false;
               dm_policy := Some (match policy with Some (x :: p) => x :: p | _ => units "none" end);
               dm_record := Some record;
               dm_error := Some "DMARC policy must be quarantine or reject" |}
      end
  end.

Definition checkDmarcPolicy (domain : string) : DmarcStatus := dmarc_of (resolveTxt ("_dmarc." +:+ domain)).

(** What [checkBimiRecord] makes of the records. *)
Definition bimi_of (expectedLogoUrl : option text) (records : list text) : BimiStatus :=
  match List.find (starts_with "v=BIMI1") records with
  | None => {| bs_published := false; bs_record := None; bs_logoUrl := None; bs_vmcUrl := None;
               bs_matches := false |}
  | Some record =>
      let logoUrl := tag_value "l" record in
      {| bs_published := true; bs_record := Some record; bs_logoUrl := logoUrl;
         bs_vmcUrl := tag_value "a" record;
         bs_matches := match expectedLogoUrl with
           | Some (x :: u) => bool_decide (logoUrl = Some (x :: u))
           | _ => true
           end |}
  end.

Definition bimi_name (selector domain : string) : string := selector +:+ "._bimi." +:+ domain.

Definition checkBimiRecord (domain selector : string) (expectedLogoUrl : option text) : BimiStatus :=
  bimi_of expectedLogoUrl (resolveTxt (bimi_name selector domain)).
End dns.

(** ** BIMI *)

(** [Buffer.byteLength]: the bytes of the UTF-8 of a text. *)
Fixpoint byteLength (s : text) : Z :=
  match s with
  | [] => 0
  | x :: s' =>
      (if (x <? 128)%N then 1 else if (x <? 2048)%N then 2
       else if high_surrogate x && match s' with y :: _ => low_surrogate y | [] => false end then 1
       else 3) + byteLength s'
  end.

(** [(n / 1024).toFixed(2)] *)
Definition kilobytes (n : Z) : text :=
  let hundredths := (200 * n + 1024) / 2048 in
  show (hundredths / 100) ++ units "." ++
  (if hundredths mod 100 <? 10 then units "0" else []) ++ show (hundredths mod 100).

Definition quoted_attribute (name : string) : rx :=
  rseq [rlit name; rlit "="; RChar (this 34%N); RGroup 1 (rplus true (RChar (none_of [34%N])));
        RChar (this 34%N)].

Record LogoValidation := {
  lv_valid : bool;
  lv_errors : list text;
  lv_details : option (Z * option text);     (** the size and the profile *)
}.

Definition logo_errors (body : text) : list text :=
  let sizeBytes := byteLength body in
  (if 32 * 1024 <? sizeBytes then
     [units "Logo size is too large (" ++ kilobytes sizeBytes ++ units " KB). Max 32 KB allowed."] else []) ++
  (if negb (includes (units "<svg") (toLowerCase body)) then [units "File is not a valid SVG image."] else []) ++
  (if includes (units "<script") body || includes (units "on") body then
     [units "SVG contains scripts or event handlers, which are forbidden for BIMI."] else []) ++
  (if includes (units "<foreignObject") body then
     [units "SVG contains foreignObject tag, which is forbidden for BIMI."] else []) ++
  (if includes (units "<image") body || includes (units "xlink:href") body then
     [units "SVG contains external references or embedded bitmap images, which are forbidden for BIMI."]
   else []).

(** [validateLogo], of what fetching the logo gave. *)
Definition validateLogo (response : result text) : LogoValidation :=
  match response with
  | Err e => {| lv_valid := false;
                lv_errors := [units "Could not reach logo URL: " ++ units (err_message e)];
                lv_details := None |}
  | Ok body =>
      let errors := logo_errors body in
      {| lv_valid := bool_decide (errors = []); lv_errors := errors;
         lv_details := Some (byteLength body,
           m ← search (quoted_attribute "baseProfile") body; capture 1 m.2) |}
  end.

Definition generateDnsRecord (logoUrl : text) (vmcUrl : option text) : text :=
  units "v=BIMI1; l=" ++ logoUrl ++ units ";" ++
  match vmcUrl with
  | Some (x :: u) => units " a=" ++ (x :: u) ++ units ";"
  | _ => units " a=;"
  end.

Record Eligibility := { el_dmarc : DmarcStatus; el_eligible : bool; el_instructions : string }.

Definition UpsertBimi : Type := text * option text * string.    (** logo, VMC, selector *)

Section bimi.
Context `{B : Backend}.
Context (resolve_txt : string → result (list (list text))) (fetch_logo : text → result text).

Definition checkEligibility (domain : string) : Eligibility :=
  let dmarcStatus := checkDmarcPolicy resolve_txt domain in {|
  el_dmarc := dmarcStatus; el_eligible := dm_valid dmarcStatus;
  el_instructions :=
    if dm_valid dmarcStatus then "Domain is eligible for BIMI."
    else "DMARC policy check failed: " +:+ default "undefined" (dm_error dmarcStatus) +:+
         ". BIMI requires a policy of quarantine or reject." |}.

Definition bimi_key (protocolId domain : string) : where_ MBimiRecord := λ _ r,
  bool_decide (bm_protocol_id r = protocolId) && bool_decide (bm_domain r = domain).

Definition bimi_log (protocolId domain checkType : string) (pass : bool) (id : string) : BimiLog := {|
  bl_id := id; bl_protocol_id := protocolId; bl_domain := domain; bl_checkType := checkType;
  bl_status := if pass then "pass" else "fail" |}.

(** The columns a synchronisation writes. *)
Definition synced (dmarc : DmarcStatus) (dns : BimiStatus) (r : BimiRecord) : BimiRecord :=
  r <| bm_dmarc_verified := dm_valid dmarc |>
    <| bm_dns_record_published := bs_published dns |>
    <| bm_is_verified := dm_valid dmarc && bs_published dns && bs_matches dns |>.

(** [createMany] of the two logs is one transaction. *)
Definition log_checks (protocolId domain : string) (dmarc : DmarcStatus) (dns : BimiStatus) : M World () :=
  transaction (
    _ ← (p_create MBimiLog (bimi_log protocolId domain "dmarc" (dm_valid dmarc)) : M DB _);
    _ ← (p_create MBimiLog (bimi_log protocolId domain "dns" (bs_published dns)) : M DB _);
    mret ()).

Definition syncBimiStatus (protocolId domain : string) : M World BimiRecord :=
  bimi ← find_unique MBimiRecord (bimi_key protocolId domain);
  match bimi with
  | None => raise (HttpError 400 "BIMI record not found for this domain")
  | Some bimi =>
      let dmarcStatus := checkDmarcPolicy resolve_txt domain in
      let dnsStatus := checkBimiRecord resolve_txt domain (bm_selector bimi) (Some (bm_logo_url bimi)) in
      updated ← update MBimiRecord (by_id MBimiRecord (bm_id bimi)) (synced dmarcStatus dnsStatus);
      _ ← log_checks protocolId domain dmarcStatus dnsStatus;
      mret updated
  end.

(** ** The endpoints *)

(** [findFirst] of the domain of the request, or 404. *)
Definition domain_key (id protocolId : string) : M World DkimKey :=
  k ← find_first MDkimKey (key_of id protocolId) None;
  match k with Some k => mret k | None => raise (NotFound "Domain") end.

Definition checkBimi (id protocolId : string) : M World Eligibility :=
  k ← domain_key id protocolId;
  mret (checkEligibility (dk_domain k)).

(** The configured record and its DNS record, or the errors of the logo. *)
Definition upsertBimi (id protocolId : string) (dto : UpsertBimi) :
    M World (list text + BimiRecord * text) :=
  let '(logo_url, vmc_url, selector) := dto in
  k ← domain_key id protocolId;
  let validation := validateLogo (fetch_logo logo_url) in
  if negb (lv_valid validation) then mret (inl (lv_errors validation)) else
  bimi ← upsert MBimiRecord (bimi_key protocolId (dk_domain k))
    (λ new, {| bm_id := new; bm_protocol_id := protocolId; bm_domain := dk_domain k;
               bm_selector := selector; bm_logo_url := logo_url; bm_vmc_url := vmc_url;
               bm_is_verified := false; bm_dmarc_verified := false; bm_dns_record_published := false |})
    (λ r, let r := r <| bm_logo_url := logo_url |> <| bm_selector := selector |> in
          match vmc_url with Some _ => r <| bm_vmc_url := vmc_url |> | None => r end);
  mret (inr (bimi, generateDnsRecord (bm_logo_url bimi) (bm_vmc_url bimi))).

Definition getBimi (id protocolId : string) : M World (option (BimiRecord * text)) :=
  k ← domain_key id protocolId;
  bimi ← find_unique MBimiRecord (bimi_key protocolId (dk_domain k));
  mret ((λ b, (b, generateDnsRecord (bm_logo_url b) (bm_vmc_url b))) <$> bimi).

Definition syncBimi (id protocolId : string) : M World BimiRecord :=
  k ← domain_key id protocolId;
  syncBimiStatus protocolId (dk_domain k).
End bimi.

(** ** Lemmas *)

(** The size of a logo is that of its UTF-8. *)
Lemma byteLength_utf8 t : byteLength t = Z.of_nat (length (utf8_encode t)).
Proof.
  induction t as [t IH] using (induction_ltof1 _ length). unfold ltof in IH. destruct t as [|x t]; [done |].
  pose proof (IH t ltac:(cbn; lia)) as Ht. cbn [byteLength utf8_encode].
  destruct (x <? 128)%N; [cbn [length]; lia |]. destruct (x <? 2048)%N; [cbn [length]; lia |].
  destruct (high_surrogate x) eqn:Hx; cbn [andb].
  - destruct t as [|y t]; [done |]. pose proof (IH t ltac:(cbn; lia)) as Ht'.
    destruct (low_surrogate y) eqn:Hy; [| rewrite Ht, length_app; change (length replacement_bytes) with 3%nat; lia].
    cbn [byteLength]. rewrite Ht'. apply in_range_true in Hx. apply in_range_true in Hy.
    assert (high_surrogate y = false) as -> by (apply in_range_false; lia).
    do 2 (rewrite (proj2 (N.ltb_ge y _)) by lia). cbn [andb length]. lia.
  - destruct (low_surrogate x); rewrite ?length_app; cbn [length];
      try change (length replacement_bytes) with 3%nat; lia.
Qed.

(** *** Keys *)

Definition b64_unit (x : N) : bool :=
  in_range 65 90 x || in_range 97 122 x || in_range 48 57 x || one_of [43; 47; 61]%N x.

Lemma b64_char_unit n : b64_unit (b64_char n) = true.
Proof.
  unfold b64_char. set (m := (n mod 64)%N). assert (m < 64)%N as Hm by (by apply N.mod_lt).
  assert (Forall (λ m, b64_unit (if m <? 26 then 65 + m else if m <? 52 then 71 + m
      else if m <? 62 then m - 4 else if m =? 62 then 43 else 47)%N = true) (N.of_nat <$> seq 0 64)) as H.
  { refine (bool_decide_unpack _ _). vm_compute. exact I. }
  apply (proj1 (list.Forall_forall _ _) H), list_elem_of_fmap. exists (N.to_nat m).
  split; [lia | apply list_elem_of_In, in_seq; lia].
Qed.

Lemma to_base64_units b : Forall (λ x, b64_unit x = true) (to_base64 b).
Proof.
  assert (∀ n b, (length b ≤ n)%nat → Forall (λ x, b64_unit x = true) (to_base64 b)) as H;
    [| by apply (H (length b))].
  clear b. induction n as [|n IH]; intros b Hb.
  { by destruct b; [| cbn in Hb; lia]. }
  destruct b as [|x [|y [|z b]]]; [done | | |]; cbn [to_base64 app].
  - repeat constructor; apply b64_char_unit.
  - repeat constructor; apply b64_char_unit.
  - repeat (constructor; [apply b64_char_unit |]). apply IH. cbn in Hb. lia.
Qed.

Lemma to_base64_app3 x y z b : to_base64 ([x; y; z] ++ b) = to_base64 [x; y; z] ++ to_base64 b.
Proof. done. Qed.

Lemma b64_ne x : b64_unit x = true → x ≠ 45%N ∧ space_unit x = false ∧ is_eol x = false.
Proof.
  intros Hx.
  assert (Forall (λ x, b64_unit x = true → x ≠ 45%N ∧ space_unit x = false ∧ is_eol x = false)
    (N.of_nat <$> seq 0 128)) as H.
  { refine (bool_decide_unpack _ _). vm_compute. exact I. }
  apply (proj1 (list.Forall_forall _ _) H); [| done].
  apply list_elem_of_fmap. exists (N.to_nat x). split; [lia |].
  apply list_elem_of_In, in_seq. unfold b64_unit, in_range, one_of in Hx. cbn in Hx.
  rewrite !orb_true_iff, !andb_true_iff, !N.leb_le, !N.eqb_eq in Hx. lia.
Qed.

Lemma rlit_miss {X : Type} ch str (k : cursor → captures → option X) c x s cs :
  after c = x :: s → N_of_ascii ch ≠ x → rmatch (rlit (String ch str)) k c cs = None.
Proof.
  intros Hc Hx. change (rlit (String ch str)) with (RSeq (RChar (this (N_of_ascii ch))) (rlit str)).
  cbn [rmatch]. unfold step, this. rewrite Hc. by rewrite (proj2 (N.eqb_neq _ _) Hx).
Qed.

(** What a global replacement leaves as it is. *)
Lemma replace_skip r f t s : looks_back r = false →
  (∀ x s', x ∈ t → rx_at r (at_start (x :: s')) = None) →
  replace r f (t ++ s) = t ++ replace r f s.
Proof.
  intros Hl Hr. unfold replace. induction t as [|x t IH]; [done |]. cbn [app].
  rewrite segments_miss; [| done | apply Hr; left]. cbn. f_equal. apply IH.
  intros y s' Hy. apply Hr. by right.
Qed.

Lemma replace_hit_at r f t s cs b : looks_back r = false → t ≠ [] →
  rx_at r (at_start (t ++ s)) = Some ({| before := b; after := s |}, cs) →
  replace r f (t ++ s) = f t cs ++ replace r f s.
Proof.
  intros Hl Ht Hr. unfold replace. pose proof (rx_at_moved _ _ _ _ Hr) as Hm.
  erewrite segments_hit; [| done | exact Hr |].
  - cbn. f_equal. f_equal. destruct Hm as [Hm _]. cbn in Hm. by apply app_inv_tail in Hm.
  - cbn. rewrite length_app. destruct t; [done | cbn; lia].
Qed.

Lemma replace_end r f : rx_at r (at_start []) = None → replace r f [] = [].
Proof. intros Hr. unfold replace. by rewrite segments_nil. Qed.

(** The lines of a key, without their ends. *)
Definition line_ends (s : text) : text := List.filter (λ x, negb (N.eqb x NL)) s.

Lemma erase_class p s : replace (RChar p) erase s = List.filter (λ x, negb (p x)) s.
Proof.
  induction s as [|x s IH]; [by apply replace_end |]. cbn [List.filter].
  destruct (p x) eqn:Hp; cbn [negb].
  - rewrite <- IH. apply (replace_hit_at (RChar p) erase [x] s [] [x]); [done.. |].
    unfold rx_at. cbn. by rewrite Hp.
  - rewrite <- IH. apply (replace_skip (RChar p) erase [x] s); [done |].
    intros y s' ->%list_elem_of_singleton. unfold rx_at. cbn. by rewrite Hp.
Qed.

Lemma filter_all (p : N → bool) s : Forall (λ x, p x = true) s → List.filter p s = s.
Proof. induction 1 as [|x s Hx _ IH]; [done |]. cbn. by rewrite Hx, IH. Qed.

Lemma join_lines (p : N → bool) fuel s : p NL = false → Forall (λ x, p x = true) s →
  (length s ≤ fuel)%nat → List.filter p (join [NL] (chunks64 fuel s)) = s.
Proof.
  intros Hnl. revert s. induction fuel as [|fuel IH]; intros s Hs Hf; [by destruct s; [| cbn in Hf; lia] |].
  destruct s as [|x s]; [done |]. cbn [chunks64]. set (t := x :: s) in *.
  assert (Forall (λ x, p x = true) (take 64 t)) as Ht by (by apply Forall_take).
  assert (Forall (λ x, p x = true) (drop 64 t)) as Hd by (by apply Forall_drop).
  specialize (IH (drop 64 t) Hd ltac:(rewrite length_drop; subst t; cbn [length] in *; lia)).
  destruct (chunks64 fuel (drop 64 t)) as [|l ls] eqn:Hc.
  - cbn [join]. change (List.filter p (join [NL] [])) with (@nil N) in IH.
    rewrite filter_all by done. transitivity (take 64 t ++ drop 64 t); [by rewrite <- IH, app_nil_r | apply take_drop].
  - change (join [NL] (take 64 t :: l :: ls)) with (take 64 t ++ [NL] ++ join [NL] (l :: ls)).
    rewrite !filter_app. cbn [List.filter]. rewrite Hnl, filter_all, IH by done. exact (take_drop 64 t).
Qed.

Section key_texts.
Context (d : list N) (Hd : d ≠ []).
Let b64 := to_base64 d.
Let body := join [NL] (chunks64 (length b64) b64).

Lemma to_base64_cons : b64 ≠ [].
Proof. unfold b64. by destruct d as [|x [|y [|z ?]]]. Qed.

Lemma pem_body : pem b64 = BEGIN_KEY ++ ([NL] ++ body ++ [NL]) ++ END_KEY.
Proof.
  unfold pem. pose proof to_base64_cons as Hne. unfold body.
  destruct b64 as [|x s]; [done |]. cbn [length chunks64]. by rewrite <- !app_assoc.
Qed.

(** The body of a key has no dash and, but for the line ends, no space. *)
Lemma chunks64_in fuel s l x : l ∈ chunks64 fuel s → x ∈ l → x ∈ s.
Proof.
  revert s. induction fuel as [|fuel IH]; intros s Hl Hx; [by apply elem_of_nil in Hl |].
  destruct s as [|y s]; [by apply elem_of_nil in Hl |]. cbn [chunks64] in Hl.
  apply elem_of_cons in Hl as [-> | Hl].
  - rewrite <- (take_drop 64 (y :: s)). apply elem_of_app. by left.
  - rewrite <- (take_drop 64 (y :: s)). apply elem_of_app. right. by eapply IH.
Qed.

Lemma join_in ls x : x ∈ join [NL] ls → x = NL ∨ ∃ l, l ∈ ls ∧ x ∈ l.
Proof.
  induction ls as [|l ls IH]; [by intros Hx%elem_of_nil |].
  destruct ls as [|l' ls]; [intros Hx; right; exists l; set_solver |].
  change (join [NL] (l :: l' :: ls)) with (l ++ [NL] ++ join [NL] (l' :: ls)).
  rewrite !elem_of_app. intros [Hx | [Hx | Hx]]; [right; exists l; set_solver | set_solver |].
  destruct (IH Hx) as [-> | (l'' & Hl & Hx')]; [by left | right; exists l''; set_solver].
Qed.

Lemma body_units x : x ∈ [NL] ++ body ++ [NL] → x = NL ∨ b64_unit x = true.
Proof.
  rewrite !elem_of_app. intros [Hx | [Hx | Hx]]; [left; set_solver | | left; set_solver].
  destruct (join_in _ _ Hx) as [-> | (l & Hl & Hx')]; [by left | right].
  apply (proj1 (list.Forall_forall _ _) (to_base64_units d)). by eapply chunks64_in.
Qed.

Lemma body_lines (p : N → bool) : p NL = false → (∀ x, b64_unit x = true → p x = true) →
  List.filter p ([NL] ++ body ++ [NL]) = b64.
Proof.
  intros Hnl Hp. rewrite !filter_app. cbn [List.filter]. rewrite Hnl. cbn. rewrite app_nil_r.
  apply join_lines; [done | | done].
  exact (List.Forall_impl _ Hp (to_base64_units d)).
Qed.

Lemma strip_pem : strip_key (pem b64) = b64.
Proof.
  unfold strip_key. rewrite pem_body.
  rewrite (replace_hit_at KEY_MARKERS erase BEGIN_KEY _ [] (rev BEGIN_KEY)) by done.
  rewrite (replace_skip KEY_MARKERS); [| done |].
  - rewrite <- (app_nil_r END_KEY).
        rewrite (replace_hit_at KEY_MARKERS erase END_KEY [] [] (rev END_KEY)) by done.
    rewrite replace_end by done. cbn [erase app]. rewrite app_nil_r, erase_class.
    apply body_lines; [done |]. intros x Hx. by destruct (b64_ne x Hx) as (_ & -> & _).
  - intros x s' [-> | Hx]%body_units; [done |]. destruct (b64_ne x Hx) as (Hne & _).
    unfold rx_at, KEY_MARKERS. cbn [rmatch]. rewrite !(rlit_miss _ _ _ _ x s'); [done | done | | done |]; intros <-; by apply Hne.
Qed.
End key_texts.

Section key_listing.
Context (d : list N) (Hd : d ≠ []).
Let b64 := to_base64 d.
Let body := join [NL] (chunks64 (length b64) b64).

Definition key_unit (x : N) : bool := in_range 65 90 x || in_range 97 122 x || in_range 48 57 x ||
  one_of [43; 47; 61; 10]%N x.

Lemma key_unit_body x : x ∈ [NL] ++ body ++ [NL] → key_unit x = true.
Proof.
  intros [-> | Hx]%(body_units d Hd); [done |]. unfold b64_unit, key_unit, one_of in *. cbn in *.
  rewrite !orb_true_iff in *. tauto.
Qed.

Lemma key_search : ∃ t, search PEM_PATTERN (pem b64) = Some (t, [(1%nat, [NL] ++ body ++ [NL])]).
Proof.
  unfold b64. rewrite (pem_body d Hd). change (join [NL] (chunks64 (length (to_base64 d)) (to_base64 d))) with body.
  set (mid := [NL] ++ body ++ [NL]).
  assert (Forall (λ x, key_unit x = true) mid) as Hm.
  { apply list.Forall_forall. intros x. apply key_unit_body. }
  assert (∃ c', rx_at PEM_PATTERN (at_start (BEGIN_KEY ++ mid ++ END_KEY)) =
    Some (c', [(1%nat, mid)])) as [c' Hr].
  { set (c := {| before := rev BEGIN_KEY; after := mid ++ END_KEY |}).
    set (k := λ (c' : cursor) (cs' : captures), Some (c', cs')).
    assert (rx_at PEM_PATTERN (at_start (BEGIN_KEY ++ mid ++ END_KEY)) =
      rmatch (RGroup 1 (rplus true (RChar key_unit)))
        (rmatch (RSeq (rlit "-----END PUBLIC KEY-----") REps) k) c []) as -> by reflexivity.
    rewrite (group_run_eq 1 key_unit _ c [] mid 45%N (tail END_KEY)); [| done | | done | done |].
    - pose proof (skip_moved mid END_KEY c eq_refl) as [Ha _]. cbn [after] in Ha.
      exists {| before := rev END_KEY ++ before (skip mid c); after := [] |}.
      destruct (skip mid c) as [bf af]. cbn [after] in Ha. apply app_inv_head in Ha. subst af. reflexivity.
    - subst mid. by destruct body.
    - intros c1 cs1 x s Hc1 Hx. 
      change (rmatch (rlit "-----END PUBLIC KEY-----") (rmatch REps k) c1 cs1 = None).
      apply (rlit_miss _ _ _ _ x s); [done |]. intros <-. done. }
  eexists. unfold search.
  match goal with |- search_from ?n _ _ = _ => generalize n; intros fuel end.
  destruct fuel; cbn [search_from]; by rewrite Hr.
Qed.
End key_listing.

(** ** Properties of the keys *)

Lemma key_roundtrip_listed d : d ≠ [] → listed_record (pem (to_base64 d)) = dkim_record (to_base64 d).
Proof.
  intros Hd. unfold listed_record.
  destruct (key_search d Hd) as [t ->].
  change (default [] (capture 1 [(1%nat, ?m)])) with m. rewrite erase_class.
  rewrite (body_lines d (λ x, negb (this NL x))); [| done |].
  - rewrite bool_decide_eq_false_2; [done | by apply to_base64_cons].
  - intros x Hx. unfold this. destruct (N.eqb_spec NL x) as [<- |]; done.
Qed.

(** What is stored for a key gives it back: the text of the key without
    its markers and spaces is the base64 of the key, and the record the
    dashboard lists is the one that provisioning told to publish. *)
Theorem key_roundtrip d : d ≠ [] →
  strip_key (pem (to_base64 d)) = to_base64 d ∧
  listed_record (pem (to_base64 d)) = dkim_record (to_base64 d).
Proof. intros Hd. split; [by apply strip_pem | by apply key_roundtrip_listed]. Qed.

(** The first 24 bytes of the DER of any RSA key of 2048 bits. *)
Definition RSA_2048_HEADER : list N :=
  [48; 130; 1; 34; 48; 13; 6; 9; 42; 134; 72; 134; 247; 13; 1; 1; 1; 5; 0; 3; 130; 1; 15; 0]%N.

(** The 32 units [verifyDomain] looks for are the same for every key: a record
    of any RSA key of 2048 bits verifies the domain. *)
Theorem any_rsa_key_verifies k1 k2 :
  includes (slice0 32 (strip_key (pem (to_base64 (RSA_2048_HEADER ++ k1)))))
    (dkim_record (to_base64 (RSA_2048_HEADER ++ k2))) = true.
Proof.
  rewrite strip_pem by done.
  assert (∀ k, to_base64 (RSA_2048_HEADER ++ k) = to_base64 RSA_2048_HEADER ++ to_base64 k) as Happ by done.
  rewrite !Happ. apply includes_spec. exists (units "v=DKIM1; k=rsa; p="), (to_base64 k2).
  unfold dkim_record. by rewrite !app_assoc.
Qed.

Section dkim_properties.
Context `{B : Backend} `{BL : !BackendLaws B}.

(** C37.  A domain becomes verified only for a key of the protocol whose DNS
    record holds the first units of the stored key; nothing else is written,
    and when the lookup or the write fails the domain stays as it was. *)
Theorem domain_verified resolve_txt id protocolId w :
  wp (verifyDomain resolve_txt id protocolId) (λ r w',
    match r with
    | Err _ => view w' = view w
    | Ok v => ∃ key, v_tables (view w) MDkimKey !! id = Some key ∧ dk_protocolId key = Some protocolId ∧
        vd_dnsRecordName v = record_name (dk_selector key) (dk_domain key) ∧
        if vd_dnsVerified v then
          (∃ records, resolve_txt (vd_dnsRecordName v) = Ok records ∧
             includes (slice0 32 (strip_key (dk_publicKey key))) (concat (@concat N <$> records)) = true) ∧
          view w' = (view w) <| v_tables ::= upd MDkimKey <[id := key <| dk_dnsVerified := true |>]> |>
        else view w' = view w
    end) w.
Proof.
  unfold verifyDomain. apply wp_bind, (wp_find_first MDkimKey); [| done].
  intros [key|] w1 Hf Hv1; [| by apply wp_raise].
  destruct Hf as (k & Hk & Hp). unfold key_of in Hp.
  rewrite andb_true_iff, !bool_decide_eq_true in Hp. destruct Hp as [-> Hp].
  apply wp_swallow, wp_bind, wp_lift.
  destruct (resolve_txt _) as [records | e] eqn:Hr; [| by exists key].
  apply wp_bind. destruct (includes _ _) eqn:Hi; [| apply wp_ret, wp_ret; by exists key].
  apply wp_bind, (wp_update MDkimKey).
  - intros k' r w2 Hk' ->%bool_decide_eq_true Hv2. rewrite Hv1 in *.
    pose proof (eq_trans (eq_sym Hk) Hk') as [= <-].
    apply wp_ret, wp_ret. exists key. split_and!; try done. cbn.
    split; [by exists records | exact Hv2].
  - intros e w2 Hv2. exists key. split_and!; try done. by rewrite Hv2.
Qed.

(** A key is provisioned only for a protocol with fewer active keys than
    its plan allows, one on the free plan and twenty otherwise; it is stored
    unverified, and the record told to the user is the one the dashboard will
    list.  Any failure, of the limit too, reads the same and stores nothing. *)
Theorem provision_bounded createKey getPublicKey protocolId domain selector now w :
  wp (provisionDomainKey createKey getPublicKey protocolId domain selector now) (λ r w',
    match r with
    | Err e => e = JsError "Failed to provision DKIM key" None ∧ view w' = view w
    | Ok pk => ∃ p l key der,
        v_tables (view w) MProtocol !! protocolId = Some p ∧
        selects MDkimKey (λ _ r, bool_decide (dk_protocolId r = Some protocolId) && dk_isActive r) None
          (v_tables (view w) MDkimKey) l ∧
        Z.of_nat (length l) + 1 ≤ (if p_tier p =? 0 then 1 else 20) ∧
        v_tables (view w) MDkimKey !! dk_id key = None ∧
        dk_protocolId key = Some protocolId ∧ dk_domain key = domain ∧ dk_dnsVerified key = false ∧
        dk_publicKey key = pem (to_base64 der) ∧
        (der ≠ [] → listed_record (dk_publicKey key) = pk_dnsRecordValue pk) ∧
        view w' = (view w) <| v_tables ::= upd MDkimKey <[dk_id key := key]> |>
    end) w.
Proof.
  unfold provisionDomainKey, create_dkim_key. apply wp_catch.
  apply wp_bind, (wp_find_unique MProtocol); [| intros e w1 Hv; by apply wp_raise].
  intros o w1 Hf%(found_by_id MProtocol) Hv1. symmetry in Hf.
  destruct o as [p|]; [| by apply wp_raise, wp_raise].
  apply wp_bind, wp_bind, (wp_find_many MDkimKey);
    [| intros e w2 Hv2; apply wp_raise; split; [done | by rewrite Hv2]].
  intros l w2 Hs Hv2. rewrite Hv1 in Hv2, Hs. apply wp_ret.
  destruct (Z.leb_spec (max_domains (p_tier p)) (Z.of_nat (length l))); [by apply wp_raise, wp_raise |].
  apply wp_bind, wp_lift. destruct createKey as [[kmsKeyId|] | e]; [| by apply wp_raise, wp_raise | by apply wp_raise].
  apply wp_bind, wp_lift. destruct (getPublicKey kmsKeyId) as [[der|] | e];
    [| by apply wp_raise, wp_raise | by apply wp_raise].
  apply wp_bind, (wp_create MDkimKey); [| intros e w3 Hv3; apply wp_raise; split; [done | by rewrite Hv3]].
  intros i r w3 -> Hfresh _ Hv3. rewrite Hv2 in *. apply wp_ret.
  exists p, l. eexists _, der. split_and!; [exact Hf | exact Hs | unfold max_domains in *; lia |
    exact Hfresh | done.. | | exact Hv3].
  intros Hd. cbn. by apply key_roundtrip_listed.
Qed.
End dkim_properties.

(** ** Properties of the DNS checks *)

Lemma dmarc_sound records : dm_valid (dmarc_of records) = true →
  ∃ record policy, record ∈ records ∧ starts_with "v=DMARC1" record = true ∧
    dm_record (dmarc_of records) = Some record ∧
    policy ∈ strong_policies ∧ tag_value "p" record = Some (units policy).
Proof.
  unfold dmarc_of. destruct records as [|r0 rs]; [done |].
  destruct (List.find _ _) as [record|] eqn:Hf; [| done].
  apply find_some in Hf as [Hin Hp]. apply list_elem_of_In in Hin.
  destruct (existsb _ _) eqn:He; [| done]. intros _.
  apply existsb_exists in He as (policy & Hpol & Ht%bool_decide_eq_true).
  exists record, policy. split_and!; [done | done | done | by apply list_elem_of_In | done].
Qed.

(** The first [p=] may be the end of [sp=]: the policy for the subdomains is
    read in place of the one of the domain, in either direction. *)
Example subdomain_policy :
  dm_valid (dmarc_of [units "v=DMARC1; sp=none; p=reject"]) = false ∧
  dm_valid (dmarc_of [units "v=DMARC1; sp=reject; p=none"]) = true.
Proof. split; vm_compute; reflexivity. Qed.

(** A tag is not found where its first letter is not. *)
Lemma search_skip ch str t n b s : N_of_ascii ch ∉ t →
  search_from (length t + n) (tag_pattern (String ch str)) {| before := b; after := t ++ s |} =
  search_from n (tag_pattern (String ch str)) {| before := rev t ++ b; after := s |}.
Proof.
  revert b. induction t as [|x t IH]; intros b Hx; [done |]. cbn [length Nat.add app search_from].
  assert (rx_at (tag_pattern (String ch str)) {| before := b; after := x :: t ++ s |} = None) as ->.
  { unfold rx_at, tag_pattern. cbn [rseq foldr].
    change (rmatch (RSeq ?a ?e) ?k ?c0 ?cs) with (rmatch a (rmatch e k) c0 cs).
    apply (rlit_miss ch (str +:+ "=") _ _ x (t ++ s)); [done |]. set_solver. }
  cbn [after]. change (advance {| before := b; after := x :: t ++ s |})
    with {| before := x :: b; after := t ++ s |}.
  rewrite IH by set_solver. cbn [rev]. by rewrite <- app_assoc.
Qed.

(** A tag that starts a text: all up to the semicolon. *)
Lemma tag_found tag b v s : v ≠ [] → (59 ∉ v)%N →
  ∃ c', rx_at (tag_pattern tag) {| before := b; after := units (tag +:+ "=") ++ v ++ 59%N :: s |} =
    Some (c', [(1%nat, v)]).
Proof.
  intros Hv Hs. unfold tag_pattern. set (t := tag +:+ "=").
  set (c := {| before := rev (units t) ++ b; after := v ++ 59%N :: s |}).
  assert (∀ {X : Type} (k : cursor → captures → option X) t b s cs,
    rmatch (rlit t) k {| before := b; after := units t ++ s |} cs =
    k {| before := rev (units t) ++ b; after := s |} cs) as Hlit.
  { clear. intros X k t. induction t as [|ch t IH]; intros b s cs; [done |].
    change (units (String ch t)) with (N_of_ascii ch :: units t).
    change (rlit (String ch t)) with (RSeq (RChar (this (N_of_ascii ch))) (rlit t)).
    cbn [rmatch step after app]. unfold this. rewrite N.eqb_refl. rewrite IH. cbn [rev].
    by rewrite <- app_assoc. }
  exists (skip v c). unfold rx_at. cbn [rseq foldr].
  change (rmatch (RSeq ?a ?e) ?k ?c0 ?cs) with (rmatch a (rmatch e k) c0 cs). rewrite Hlit. fold c.
  cbn [rmatch]. change (rmatch (RGroup 1 (rplus true (RChar (none_of [59%N]))))
    (λ c' cs', Some (c', cs')) c [] = Some (skip v c, [(1%nat, v)])).
  destruct v as [|y v]; [done |].
  assert (∀ x, x ∈ y :: v → none_of [59%N] x = true) as Hall.
  { intros x Hx. unfold none_of. cbn. destruct (N.eqb_spec x 59) as [-> |]; done. }
  cbn [rmatch rplus step after c app]. rewrite Hall by left. cbn [after].
  set (c1 := {| before := y :: before c; after := v ++ 59%N :: s |}).
  change (repeat_match (rmatch (RChar (none_of [59%N]))) true
    (λ c' cs', Some (c', (1%nat, between_cursors c c') :: cs')) (length (after c1)) c1 [] =
    Some (skip (y :: v) c, [(1%nat, y :: v)])).
  rewrite star_greedy; [| done | by eexists].
  replace (while (none_of [59%N]) (after c1)) with v.
  2: { symmetry. apply (while_all (none_of [59%N]) v 59%N s); [| done].
       apply list.Forall_forall. intros x Hx. apply Hall. by right. }
  assert (skip v c1 = skip (y :: v) c) as -> by done.
  do 2 f_equal. f_equal. f_equal. apply moved_between, (skip_moved (y :: v) (59%N :: s)). done.
Qed.

(** A logo published the way the dashboard says is found again: the
    record that [generateDnsRecord] makes, alone under the name of the domain,
    is a published record of the same logo. *)
Theorem bimi_roundtrip resolve_txt domain selector logo vmc :
  resolve_txt (bimi_name selector domain) = Ok [[generateDnsRecord logo vmc]] →
  logo ≠ [] → (59 ∉ logo)%N → trim logo = logo →
  let status := checkBimiRecord resolve_txt domain selector (Some logo) in
  bs_published status = true ∧ bs_matches status = true ∧ bs_logoUrl status = Some logo ∧
  bs_record status = Some (generateDnsRecord logo vmc).
Proof.
  intros Hr Hl Hs Ht. unfold checkBimiRecord, resolveTxt. rewrite Hr. cbn zeta.
  set (rest := match vmc with Some (x :: u) => units " a=" ++ (x :: u) ++ units ";" | _ => units " a=;" end).
  assert (generateDnsRecord logo vmc = units "v=BIMI1; " ++ units "l=" ++ logo ++ 59%N :: rest) as HR by done.
  assert (tag_value "l" (generateDnsRecord logo vmc) = Some logo) as Htag.
  { unfold tag_value, search, at_start. rewrite HR. rewrite length_app.
    rewrite (search_skip "l" "" (units "v=BIMI1; ")) by (refine (bool_decide_unpack _ _); vm_compute; exact I).
    destruct (tag_found "l" (rev (units "v=BIMI1; ") ++ []) logo rest Hl Hs) as [c' Hc].
    match goal with |- context [search_from ?n _ _] => generalize n; intros fuel end.
    assert (search_from fuel (tag_pattern "l") {| before := rev (units "v=BIMI1; ") ++ [];
        after := units "l=" ++ logo ++ 59%N :: rest |} =
      Some (between_cursors {| before := rev (units "v=BIMI1; ") ++ [];
        after := units "l=" ++ logo ++ 59%N :: rest |} c', [(1%nat, logo)])) as ->.
    { change (units ("l" +:+ "=")) with (units "l=") in Hc. destruct fuel; cbn [search_from]; by rewrite Hc. }
    change (Some (trim logo) = Some logo). by rewrite Ht. }
  cbn [fmap list_fmap concat]. rewrite app_nil_r. unfold bimi_of. cbn [List.find].
  assert (starts_with "v=BIMI1" (generateDnsRecord logo vmc) = true) as ->.
  { unfold starts_with. rewrite HR. apply bool_decide_eq_true.
    exists (units "; " ++ units "l=" ++ logo ++ 59%N :: rest). done. }
  cbn [bs_published bs_matches bs_logoUrl bs_record]. rewrite Htag.
  split_and!; [done | | done | done]. destruct logo; [done |]. by rewrite bool_decide_eq_true_2.
Qed.

Section bimi_properties.
Context `{B : Backend} `{BL : !BackendLaws B}.

Lemma log_checks_spec protocolId domain dmarc dns w :
  wp (log_checks protocolId domain dmarc dns) (λ r w',
    match r with
    | Err _ => view w' = view w
    | Ok _ => ∃ i j, view w' = (view w) <| v_tables ::= λ t,
        upd MBimiLog <[j := bimi_log protocolId domain "dns" (bs_published dns) j]>
          (upd MBimiLog <[i := bimi_log protocolId domain "dmarc" (dm_valid dmarc) i]> t) |>
    end) w.
Proof.
  unfold log_checks. apply wp_transaction; [| done]. intros d Hd.
  apply wp_bind, (wp_db_create MBimiLog); [| done]. intros i r d1 -> _ Hd1.
  apply wp_bind, (wp_db_create MBimiLog); [| done]. intros j r d2 -> _ Hd2.
  apply wp_ret. intros [] w' _ Hw. exists i, j. by rewrite Hw, Hd2, Hd1, Hd.
Qed.

(** A synchronisation stores what DNS says: the BIMI record of the domain
    is verified exactly when the DMARC policy is strong, a BIMI record is
    published and its logo is the configured one; and both checks are logged,
    together. *)
Theorem bimi_synced resolve_txt protocolId domain w :
  (∀ k r, v_tables (view w) MBimiRecord !! k = Some r → bm_id r = k) →
  wp (syncBimiStatus resolve_txt protocolId domain) (λ r w',
    match r with
    | Err _ => True
    | Ok b => ∃ k b0 i j, v_tables (view w) MBimiRecord !! k = Some b0 ∧
        bm_protocol_id b0 = protocolId ∧ bm_domain b0 = domain ∧
        let dmarc := checkDmarcPolicy resolve_txt domain in
        let dns := checkBimiRecord resolve_txt domain (bm_selector b0) (Some (bm_logo_url b0)) in
        b = synced dmarc dns b0 ∧
        (bm_is_verified b = true →
           (∃ record policy, record ∈ resolveTxt resolve_txt ("_dmarc." +:+ domain) ∧
              policy ∈ strong_policies ∧ tag_value "p" record = Some (units policy)) ∧
           bs_published dns = true ∧ (bm_logo_url b0 ≠ [] → bs_logoUrl dns = Some (bm_logo_url b0))) ∧
        view w' = (view w) <| v_tables ::= λ t,
          upd MBimiLog <[j := bimi_log protocolId domain "dns" (bs_published dns) j]>
            (upd MBimiLog <[i := bimi_log protocolId domain "dmarc" (dm_valid dmarc) i]>
              (upd MBimiRecord <[k := b]> t)) |>
    end) w.
Proof.
  intros Hkeys. unfold syncBimiStatus. apply wp_bind, (wp_find_unique MBimiRecord); [| done].
  intros [b0|] w1 Hf Hv1; [| by apply wp_raise].
  destruct Hf as (k0 & Hk0 & Hp0). unfold bimi_key in Hp0.
  rewrite andb_true_iff, !bool_decide_eq_true in Hp0.
  set (dmarc := checkDmarcPolicy _ _). set (dns := checkBimiRecord _ _ _ _).
  apply wp_bind, (wp_update MBimiRecord); [| done].
  intros k r w2 Hk Hid Hv2. unfold by_id in Hid. apply bool_decide_eq_true in Hid.
  subst k. rewrite Hv1 in Hk. pose proof (Hkeys _ _ Hk0) as Hb0. rewrite Hb0 in Hk.
  pose proof (eq_trans (eq_sym Hk0) Hk) as [= <-].
  apply wp_bind. eapply wp_mono; [apply log_checks_spec |].
  intros r w3 Hlog. destruct r as [[] | e]; [| done]. destruct Hlog as (i & j & Hv3). apply wp_ret.
  exists k0, b0, i, j. split_and!; [done | tauto | tauto | done | | ].
  - cbn. rewrite !andb_true_iff. intros [[Hdm Hpub] Hm]. split_and!; [| done |].
    + destruct (dmarc_sound _ Hdm) as (record & policy & ? & _ & _ & ? & ?). by exists record, policy.
    + intros Hne. unfold dns, checkBimiRecord, bimi_of in Hm |- *.
      destruct (List.find _ _) as [record|]; [| done]. cbn in *.
      destruct (bm_logo_url b0); [done |]. by apply bool_decide_eq_true in Hm.
  - rewrite Hv3, Hv2, Hv1, Hb0. done.
Qed.

End bimi_properties.

(** ** Properties of logos *)

(** Event handlers are looked for as the letters [on], which every logo that
    declares its version has. *)
Theorem version_refused body : includes (units "version") body = true →
  lv_valid (validateLogo (Ok body)) = false.
Proof.
  intros (a & b & ->)%includes_spec.
  assert (includes (units "on") (a ++ units "version" ++ b) = true) as Hon.
  { apply includes_spec. exists (a ++ units "versi"), b. by rewrite <- app_assoc. }
  unfold validateLogo. cbn [lv_valid]. apply bool_decide_eq_false_2. unfold logo_errors.
  rewrite Hon, orb_true_r. intros [_ [_ [[=] _]%app_nil]%app_nil]%app_nil.
Qed.

(** ** Witnesses *)

Lemma key_roundtrip_witness :
  strip_key (pem (to_base64 (RSA_2048_HEADER ++ replicate 60 200%N))) =
    to_base64 (RSA_2048_HEADER ++ replicate 60 200%N) ∧
  listed_record (pem (to_base64 (RSA_2048_HEADER ++ replicate 60 200%N))) =
    dkim_record (to_base64 (RSA_2048_HEADER ++ replicate 60 200%N)).
Proof. apply (key_roundtrip (RSA_2048_HEADER ++ replicate 60 200%N)). done. Defined.

Definition free_protocol : Protocol := {|
  p_id := "p1"; p_protocolPubkey := "pk"; p_nameEncrypted := ""; p_tier := 0; p_isActive := true;
  p_isSuspended := false; p_verificationStatus := UNVERIFIED; p_sendsThisPeriod := 0;
  p_overageEnabled := false; p_periodResetAt := 0; p_updatedAt := 0 |}.

Definition a_key (id : string) : DkimKey := {|
  dk_id := id; dk_protocolId := Some "p1"; dk_domain := "mail.p1.io"; dk_selector := "herald";
  dk_publicKey := pem (to_base64 (RSA_2048_HEADER ++ [1; 2; 3]%N)); dk_kmsKeyId := "kms1";
  dk_dnsVerified := false; dk_isActive := true; dk_sesVerified := false; dk_sesCnameRecords := None;
  dk_resendDomainId := None; dk_resendDnsRecords := None; dk_createdAt := 0 |}.

Definition domain_world (keys : list DkimKey) : World :=
  mem_world (with_rows MDkimKey keys (with_rows MProtocol [free_protocol] no_tables)) ∅.

(** DNS that publishes the key of somebody else. *)
Definition other_dns (_ : string) : result (list (list text)) :=
  Ok [[dkim_record (to_base64 (RSA_2048_HEADER ++ [7; 7; 7]%N))]].

Lemma domain_verified_witness :
  (match (verifyDomain other_dns "d1" "p1" (domain_world [a_key "d1"])).1 with
   | Ok v => vd_dnsVerified v = true | Err _ => False end) ∧
  wp (verifyDomain other_dns "d1" "p1") (λ r w',
    match r with
    | Err _ => view w' = view (domain_world [a_key "d1"])
    | Ok v => ∃ key, v_tables (view (domain_world [a_key "d1"])) MDkimKey !! "d1" = Some key ∧
        dk_protocolId key = Some "p1" ∧
        vd_dnsRecordName v = record_name (dk_selector key) (dk_domain key) ∧
        if vd_dnsVerified v then
          (∃ records, other_dns (vd_dnsRecordName v) = Ok records ∧
             includes (slice0 32 (strip_key (dk_publicKey key))) (concat (@concat N <$> records)) = true) ∧
          view w' = (view (domain_world [a_key "d1"]))
            <| v_tables ::= upd MDkimKey <["d1" := key <| dk_dnsVerified := true |>]> |>
        else view w' = view (domain_world [a_key "d1"])
    end) (domain_world [a_key "d1"]).
Proof. split; [vm_compute; reflexivity |]. apply (domain_verified other_dns "d1" "p1"). Defined.

(** The second domain of a free protocol is refused, without saying why. *)
Example second_domain_refused :
  (provisionDomainKey (Ok (Some "kms2")) (λ _, Ok (Some [1%N])) "p1" "b.p1.io" "herald" 1
    (domain_world [a_key "d1"])).1 = Err (JsError "Failed to provision DKIM key" None) ∧
  is_ok (provisionDomainKey (Ok (Some "kms2")) (λ _, Ok (Some [1%N])) "p1" "b.p1.io" "herald" 1
    (domain_world [])).1 = true.
Proof. split; vm_compute; reflexivity. Qed.

Lemma bimi_roundtrip_witness :
  let dns := λ _ : string, Ok [[generateDnsRecord (units "https://p1.io/l.svg") None]] in
  let status := checkBimiRecord dns "p1.io" "default" (Some (units "https://p1.io/l.svg")) in
  bs_published status = true ∧ bs_matches status = true ∧
  bs_logoUrl status = Some (units "https://p1.io/l.svg") ∧
  bs_record status = Some (generateDnsRecord (units "https://p1.io/l.svg") None).
Proof.
  apply (bimi_roundtrip (λ _ : string, Ok [[generateDnsRecord (units "https://p1.io/l.svg") None]]));
    [reflexivity | done | | reflexivity].
  refine (bool_decide_unpack _ _). vm_compute. exact I.
Defined.

Lemma version_refused_witness :
  lv_valid (validateLogo (Ok (html "<svg version=`1.2` baseProfile=`tiny-ps`></svg>"))) = false.
Proof. apply version_refused. vm_compute. reflexivity. Defined.

Definition a_bimi : BimiRecord := {|
  bm_id := "b1"; bm_protocol_id := "p1"; bm_domain := "p1.io"; bm_selector := "default";
  bm_logo_url := units "https://p1.io/l.svg"; bm_vmc_url := None; bm_is_verified := false;
  bm_dmarc_verified := false; bm_dns_record_published := false |}.

Definition bimi_dns (host : string) : result (list (list text)) :=
  if (host =? "_dmarc.p1.io")%string then Ok [[units "v=DMARC1; p=reject"]]
  else Ok [[generateDnsRecord (units "https://p1.io/l.svg") None]].

Definition bimi_world : World := mem_world (with_rows MBimiRecord [a_bimi] no_tables) ∅.

Lemma bimi_synced_witness :
  (match (syncBimiStatus bimi_dns "p1" "p1.io" bimi_world).1 with
   | Ok b => bm_is_verified b = true | Err _ => False end) ∧
  wp (syncBimiStatus bimi_dns "p1" "p1.io") (λ r w',
    match r with
    | Err _ => True
    | Ok b => ∃ k b0 i j, v_tables (view bimi_world) MBimiRecord !! k = Some b0 ∧
        bm_protocol_id b0 = "p1" ∧ bm_domain b0 = "p1.io" ∧
        let dmarc := checkDmarcPolicy bimi_dns "p1.io" in
        let dns := checkBimiRecord bimi_dns "p1.io" (bm_selector b0) (Some (bm_logo_url b0)) in
        b = synced dmarc dns b0 ∧
        (bm_is_verified b = true →
           (∃ record policy, record ∈ resolveTxt bimi_dns ("_dmarc." +:+ "p1.io") ∧
              policy ∈ strong_policies ∧ tag_value "p" record = Some (units policy)) ∧
           bs_published dns = true ∧ (bm_logo_url b0 ≠ [] → bs_logoUrl dns = Some (bm_logo_url b0))) ∧
        view w' = (view bimi_world) <| v_tables ::= λ t,
          upd MBimiLog <[j := bimi_log "p1" "p1.io" "dns" (bs_published dns) j]>
            (upd MBimiLog <[i := bimi_log "p1" "p1.io" "dmarc" (dm_valid dmarc) i]>
              (upd MBimiRecord <[k := b]> t)) |>
    end) bimi_world.
Proof.
  split; [vm_compute; reflexivity |]. apply (bimi_synced bimi_dns "p1" "p1.io" bimi_world).
  intros k r Hk.
  change (v_tables (view bimi_world) MBimiRecord) with ({[ "b1" := a_bimi ]} : gmap string BimiRecord) in Hk.
  apply (lookup_singleton_Some (M := gmap string) (A := BimiRecord)) in Hk as [<- <-]. done.
Defined.
