(* ===== verification/Queue.v ===== *)
(** * The queue service

    [QueueService] of [src/modules/queue/queue.service.ts].  Its promises race
    against a timer; the promise that loses is not cancelled, so a job whose
    [add] is slow may be in the queue although the caller was told otherwise. *)

From S2P Require Import Prelude Schema External Memory Frame.

Open Scope string_scope.
Open Scope list_scope.
Open Scope Z_scope.

Definition ENQUEUE_TIMEOUT_MS : Z := 10000.

Definition timeout_error : exn := JsError "BullMQ enqueue timed out after 10000ms" None.

Section queue.
Context `{B : Backend}.

(** [withTimeout(queue.add(...), ms)]: when the timer fires first the caller
    gets its error, and the [add] still settles in one way or the other. *)
Definition add_with_timeout (q : queue) (j : job q) : M World () := λ w,
  if q_stalled q j (w_queue w) then (Err timeout_error, (queue_add q j w).2)
  else queue_add q j w.

Definition deliver_job (data : NotificationJobData) : job QNotification :=
  mkJob (q := QNotification) "deliver" data None 3 (Some 1000).

Definition enqueueNotification (data : NotificationJobData) : M World () :=
  add_with_timeout QNotification (deliver_job data).

Definition enqueueWebhook (data : WebhookJobData) : M World () :=
  add_with_timeout QWebhook (mkJob (q := QWebhook) "dispatch" data None 3 (Some 1000)).

Definition enqueueBounce (data : SesMessage) : M World () :=
  add_with_timeout QBounce (mkJob (q := QBounce) "process" data None 2 None).

(** ** Rules *)

Context `{BL : !BackendLaws B}.

Lemma wp_add_with_timeout q j Q w :
  (∀ w', view w' = (view w) <| v_jobs ::= upd_jobs q (add_job j) |> → Q (Ok ()) w') →
  (∀ e w', view w' = view w ∨ view w' = (view w) <| v_jobs ::= upd_jobs q (add_job j) |> →
     Q (Err e) w') →
  wp (add_with_timeout q j) Q w.
Proof.
  intros Hok Herr. unfold add_with_timeout, wp.
  assert (wp (queue_add q j) (λ r w', match r with
    | Ok _ => view w' = (view w) <| v_jobs ::= upd_jobs q (add_job j) |>
    | Err _ => view w' = view w end) w) as H by (by apply (wp_queue_add q)).
  unfold wp in H. destruct (queue_add q j w) as [[[] | e] w']; destruct (q_stalled _ _ _); cbn; auto.
Qed.

Lemma keeps_add_with_timeout F q j : fr_job F q → Keeps F (add_with_timeout q j).
Proof.
  intros Hq w. apply wp_add_with_timeout; intros.
  - rewrite H. by apply within_job.
  - destruct H as [-> | ->]; [done | by apply within_job].
Qed.

(** A job without a custom id is appended. *)
Lemma add_job_append {q} (j : job q) l : job_jobId j = None → add_job j l = l ++ [j].
Proof. unfold add_job. by intros ->. Qed.
End queue.
