(* ===== verification/Routing.v ===== *)
(** * Resolving a wallet to its identity

    [RoutingService] of [src/modules/routing/routing.service.ts]: a Redis cache
    in front of the Solana account of a wallet.  The read of the account
    ([SolanaService.fetchIdentityAccount], the Herald SDK) and the decryption of
    the channels ([EnclaveService.decryptAllChannels], of [Enclave]) are parameters.  [Routing]
    is the interface the workers use. *)

From S2P Require Import Prelude Schema External Memory Frame.

Open Scope string_scope.
Open Scope list_scope.
Open Scope Z_scope.

(** What the workers need of the routing service: it only touches Redis. *)
Definition cache_frame : Frame := {|
  fr_table _ := False; fr_job _ := False; fr_key _ := True; fr_send _ := False |}.

Class Routing `{B : Backend} := {
  resolve : string → Z → M World (option IdentityAccount);
  decrypt_channels : IdentityAccount → M World DecryptedChannels;
}.

Class RoutingLaws `{B : Backend} (R : Routing) : Prop := {
  resolve_keeps wallet now : Keeps cache_frame (resolve wallet now);
  decrypt_keeps identity : Keeps cache_frame (decrypt_channels identity);
}.

Definition PDA_CACHE_TTL_SECONDS : Z := 600.

(** What [JSON.stringify] followed by [JSON.parse] makes of a value: a
    [Uint8Array] loses its class. *)
Definition json_bytes (b : js_bytes) : js_bytes :=
  match b with Bytes l | PlainObject l => PlainObject l end.

(** [JSON.stringify(serializeForCache(identity))]: the nine arrays the method
    names survive as base64; the X25519 key is not one of them. *)
Definition serializeForCache (i : IdentityAccount) : CachedIdentity :=
  {| ci_identity := i <| ia_senderX25519Pubkey ::= option_map json_bytes |> |}.

Definition deserializeCached (c : CachedIdentity) : IdentityAccount := ci_identity c.

Definition identity_key (wallet : string) : string := "pda:identity:" +:+ wallet.

Section routing.
Context `{B : Backend}.
(** The account of a wallet at a time, and the decryption of its channels. *)
Context (fetchIdentityAccount : string → Z → result (option IdentityAccount)).
Context (decryptAllChannels : IdentityAccount → result DecryptedChannels).

(** The cache read shared by the two resolutions: [None] is a miss. *)
Definition read_identity_cache (wallet : string) (now : Z) :
    M World (option (option IdentityAccount)) :=
  swallow None (
    cached ← redis_get (identity_key wallet) now;
    mret match cached with
         | Some (RText "NOT_REGISTERED") => Some None
         | Some (RIdentity c) => Some (Some (deserializeCached c))
         | _ => None
         end).

Definition resolveIdentity (wallet : string) (now : Z) : M World (option IdentityAccount) :=
  cached ← read_identity_cache wallet now;
  match cached with
  | Some r => mret r
  | None =>
      identity ← lift (fetchIdentityAccount wallet now);
      match identity with
      | None =>
          _ ← swallow () (redis_setex (identity_key wallet) 120 (RText "NOT_REGISTERED") now);
          mret None
      | Some i =>
          _ ← swallow () (redis_setex (identity_key wallet) PDA_CACHE_TTL_SECONDS
                (RIdentity (serializeForCache i)) now);
          mret (Some i)
      end
  end.

Definition resolveIdentityFromCache (wallet : string) (now : Z) :
    M World (option IdentityAccount) :=
  cached ← read_identity_cache wallet now;
  mret (default None cached).

Definition decryptAllChannelsInEnclave (identity : IdentityAccount) :
    M World DecryptedChannels := lift (decryptAllChannels identity).

#[export] Instance routing_service : Routing := {
  resolve := resolveIdentity;
  decrypt_channels := decryptAllChannelsInEnclave;
}.

Context `{BL : !BackendLaws B}.

#[export] Instance routing_service_laws : RoutingLaws routing_service.
Proof.
  split.
  - intros wallet now. cbn. unfold resolveIdentity, read_identity_cache. keeps.
  - intros identity. cbn. unfold decryptAllChannelsInEnclave. keeps.
Qed.

(** The 32 bytes [MailWorker] encrypts a notification body to. *)
Definition encryption_key (i : IdentityAccount) : option (list N) :=
  match ia_senderX25519Pubkey i with
  | Some (Bytes b) => if Nat.eqb (length b) 32 then Some b else None
  | _ => None
  end.

(** ** Properties *)

(** The identity cache: within ten minutes of a lookup that reached
    Solana and was cached, the wallet resolves to the same account without
    another lookup, except that its notification key is no longer a byte
    array; so a notification body is never encrypted for the portal with an
    identity that came from the cache. *)
Theorem cached_identity_loses_key wallet i now now' w :
  fetchIdentityAccount wallet now = Ok (Some i) →
  live now (re_strings (v_redis (view w)) !! identity_key wallet) = None →
  now' < now + 600000 →
  wp (resolveIdentity wallet now) (λ r w', r = Ok (Some i) ∧
    (view w' = view w ∨
     (is_ok (redis_get (identity_key wallet) now' w').1 = true →
      wp (resolveIdentity wallet now') (λ r' _, ∃ i', r' = Ok (Some i') ∧
        i' = i <| ia_senderX25519Pubkey ::= option_map json_bytes |> ∧
        encryption_key i' = None) w'))) w.
Proof.
  intros Hfetch Hmiss Hnow. unfold resolveIdentity at 1, read_identity_cache.
  apply wp_bind, wp_swallow, wp_bind, wp_redis_get; intros; [rewrite Hmiss; apply wp_ret |].
  all: apply wp_bind, wp_lift; rewrite Hfetch; apply wp_bind, wp_swallow, wp_redis_setex; intros;
    apply wp_ret; (split; [done |]).
  all: try (left; by views).
  all: right; intros Hok; unfold resolveIdentity, read_identity_cache.
  all: apply wp_bind, wp_swallow, wp_bind, wp_is_ok; [done |]; apply wp_redis_get; [| done].
  all: intros w3 _ _; rewrite H0; cbn [v_redis re_strings set]; cbn.
  all: rewrite lookup_insert_eq; unfold live; rewrite (proj2 (Z.ltb_lt _ _)) by (unfold PDA_CACHE_TTL_SECONDS; lia).
  all: apply wp_ret, wp_ret; eexists; split; [done |]; split; [done |].
  all: unfold encryption_key; cbn; by destruct (ia_senderX25519Pubkey i) as [[]|].
Qed.
End routing.

(** ** Witnesses *)

Definition sample_identity : IdentityAccount := {|
  ia_owner := "w"; ia_encryptedEmail := [1]; ia_emailHash := [2]; ia_nonce := [3];
  ia_registeredAt := 0; ia_optInAll := true; ia_optInDefi := true; ia_optInGovernance := true;
  ia_optInMarketing := true; ia_digestMode := false; ia_channelEmail := true;
  ia_channelTelegram := true; ia_channelSms := false; ia_encryptedTelegramId := [];
  ia_telegramIdHash := []; ia_nonceTelegram := []; ia_encryptedPhone := []; ia_phoneHash := [];
  ia_nonceSms := []; ia_senderX25519Pubkey := Some (Bytes (replicate 32 7%N)) |}%N.

Lemma cached_identity_loses_key_witness :
  let fetch := λ (_ : string) (_ : Z), Ok (Some sample_identity) in
  let w := mem_world no_tables ∅ in
  encryption_key sample_identity = Some (replicate 32 7%N) ∧
  (resolveIdentity fetch "w" 1000 w).1 = Ok (Some sample_identity) ∧
  wp (resolveIdentity fetch "w" 1000) (λ r w', r = Ok (Some sample_identity) ∧
    (view w' = view w ∨
     (is_ok (redis_get (identity_key "w") 2000 w').1 = true →
      wp (resolveIdentity fetch "w" 2000) (λ r' _, ∃ i', r' = Ok (Some i') ∧
        i' = sample_identity <| ia_senderX25519Pubkey ::= option_map json_bytes |> ∧
        encryption_key i' = None) w'))) w.
Proof.
  cbn zeta. split_and!; [vm_compute; reflexivity.. |].
  apply (cached_identity_loses_key (λ _ _, Ok (Some sample_identity)) "w" sample_identity 1000 2000);
    [reflexivity | reflexivity | lia].
Defined.
