(* ===== verification/Enclave.v ===== *)
(** * The enclave: keys of the channels and of the portal

    [EnclaveService] of [src/modules/routing/enclave.service.ts], which decrypts
    the channels of an identity in the process or over a socket, and the
    [EnclaveService] of [src/modules/enclave/enclave.service.ts] with its
    controller, which encrypts a notification for a recipient.  NaCl, its
    [tweetnacl-util] and [JSON.parse] are parameters ([Nacl], [Codec]); the
    socket is a state machine over the events Node delivers, whose data are
    bytes that are decoded a chunk at a time ([Utf8]). *)

From Stdlib Require Import Ascii String.
From S2P Require Import Prelude Schema Text Rx Links Markdown Hex Utf8.

Open Scope string_scope.
Open Scope list_scope.
Open Scope Z_scope.

(** ** The libraries *)

(** [tweetnacl]: the public key of a secret one, [nacl.box] and
    [nacl.box.open], which throw for a key or a nonce of the wrong size. *)
Class Nacl := {
  nacl_public : bytes → bytes;
  nacl_box (message nonce theirPublic mySecret : bytes) : result bytes;
  nacl_open (box nonce theirPublic mySecret : bytes) : result (option bytes);
}.

Definition is_key (k : bytes) : Prop := length k = 32%nat.
Definition is_nonce (n : bytes) : Prop := length n = 24%nat.

Class NaclLaws (NA : Nacl) : Prop := {
  public_size s : is_key s → is_key (nacl_public s);
  box_works m n p s : is_nonce n → is_key p → is_key s → ∃ c, nacl_box m n p s = Ok c;
  open_box m n s1 s2 c : is_nonce n → is_key s1 → is_key s2 →
    nacl_box m n (nacl_public s2) s1 = Ok c → nacl_open c n (nacl_public s1) s2 = Ok (Some m);
}.

(** [decodeUTF8] and [encodeUTF8] of [tweetnacl-util]; the latter throws for
    bytes that are no UTF-8. *)
Class Codec := {
  utf8_bytes : string → bytes;
  utf8_text : bytes → result string;
}.
Class CodecLaws (CO : Codec) : Prop := { utf8_roundtrip s : utf8_text (utf8_bytes s) = Ok s }.

(** ** The types of the service *)

Record EncryptedPayload := {
  ep_ciphertext : string;
  ep_nonce : string;
  ep_gatewayPubkey : string;
}.

Record DecryptAllParams := {
  dp_ownerPubkey : string;
  dp_encryptedEmail : bytes;
  dp_nonce : bytes;
  dp_channelEmail : bool;
  dp_encryptedTelegramId : bytes;
  dp_nonceTelegram : bytes;
  dp_channelTelegram : bool;
  dp_encryptedPhone : bytes;
  dp_nonceSms : bytes;
  dp_channelSms : bool;
}.

Definition RoutingUnavailableException : exn := HttpError 503 "ROUTING_UNAVAILABLE".

(** ** Decrypting in the process *)

Section direct.
Context `{NA : Nacl} `{CO : Codec}.

Definition loadDirectKey (hex : option string) : option bytes :=
  match hex with
  | None | Some "" => None
  | Some h => let key := from_hex h in if bool_decide (length key = 32%nat) then Some key else None
  end.

Definition getPublicKeyHex (key : option bytes) : option string := to_hex ∘ nacl_public <$> key.

(** [encryptForUser]: [body] is the JSON of the body, [nonce] the random one. *)
Definition encryptForUser (key : option bytes) (userX25519PubkeyHex body : string) (nonce : bytes) :
    result (option EncryptedPayload) :=
  match key with
  | None => Ok None
  | Some secretKey =>
      let userPubkey := from_hex userX25519PubkeyHex in
      if negb (bool_decide (length userPubkey = 32%nat)) then Ok None else
      match nacl_box (utf8_bytes body) nonce userPubkey secretKey with
      | Err e => Err e
      | Ok ciphertext => Ok (Some {| ep_ciphertext := to_hex ciphertext; ep_nonce := to_hex nonce;
                                     ep_gatewayPubkey := to_hex (nacl_public secretKey) |})
      end
  end.

(** [b.slice(i, j)] and [b[i]], 0 where there is none for the shift. *)
Definition slice (i j : nat) (b : bytes) : bytes := take (j - i) (drop i b).
Definition byte_at (i : nat) (b : bytes) : N := default 0%N (b !! i).

(** The two formats of a blob: the public key and the ciphertext in it. *)
Definition is_dual (blob : bytes) : bool :=
  bool_decide (2 ≤ length blob)%nat && N.eqb (byte_at 0 blob) 170 && N.eqb (byte_at 1 blob) 187.

Definition dual_length (blob : bytes) : nat :=
  N.to_nat (N.lor (N.shiftl (byte_at 34 blob) 8) (byte_at 35 blob)).

(** [nacl.box.open], then the text: [None] where the box does not open. *)
Definition open_text (ciphertext nonce ephemeralPubkey key : bytes) : result (option string) :=
  match nacl_open ciphertext nonce ephemeralPubkey key with
  | Err e => Err e
  | Ok None => Ok None
  | Ok (Some decrypted) =>
      match utf8_text decrypted with Ok s => Ok (Some s) | Err e => Err e end
  end.

Definition or_unavailable (r : result (option string)) : result string :=
  match r with
  | Err e => Err e
  | Ok (Some s) => Ok s
  | Ok None => Err RoutingUnavailableException
  end.

Definition directNaclBoxDecrypt (key : option bytes) (blob nonce : bytes) : result string :=
  match key with
  | None => Err RoutingUnavailableException
  | Some key =>
      or_unavailable (
        if is_dual blob then
          open_text (slice 36 (36 + dual_length blob) blob) nonce (slice 2 34 blob) key
        else if bool_decide (33 ≤ length blob)%nat then
          open_text (drop 32 blob) nonce (take 32 blob) key
        else Ok None)
  end.

(** A channel of [directDecryptAll]: what fails is left out. *)
Definition direct_channel (key : option bytes) (enabled : bool) (blob nonce : bytes) : option string :=
  if enabled && negb (bool_decide (blob = [])) then
    match directNaclBoxDecrypt key blob nonce with Ok s => Some s | Err _ => None end
  else None.

Definition directDecryptAll (key : option bytes) (p : DecryptAllParams) : DecryptedChannels := {|
  tc_email := direct_channel key (dp_channelEmail p) (dp_encryptedEmail p) (dp_nonce p);
  tc_telegramChatId :=
    direct_channel key (dp_channelTelegram p) (dp_encryptedTelegramId p) (dp_nonceTelegram p);
  tc_phone := direct_channel key (dp_channelSms p) (dp_encryptedPhone p) (dp_nonceSms p) |}.

(** [decryptAllChannels] and [decrypt], given the two requests to the socket. *)
Definition decrypt_params (i : IdentityAccount) : DecryptAllParams := {|
  dp_ownerPubkey := ia_owner i; dp_encryptedEmail := ia_encryptedEmail i; dp_nonce := ia_nonce i;
  dp_channelEmail := ia_channelEmail i; dp_encryptedTelegramId := ia_encryptedTelegramId i;
  dp_nonceTelegram := ia_nonceTelegram i; dp_channelTelegram := ia_channelTelegram i;
  dp_encryptedPhone := ia_encryptedPhone i; dp_nonceSms := ia_nonceSms i;
  dp_channelSms := ia_channelSms i |}.

Definition decryptAllChannels (key : option bytes)
    (enclaveDecryptAll : DecryptAllParams → result DecryptedChannels) (identity : IdentityAccount) :
    result DecryptedChannels :=
  match key with
  | Some _ => Ok (directDecryptAll key (decrypt_params identity))
  | None => enclaveDecryptAll (decrypt_params identity)
  end.

Definition decrypt (key : option bytes) (enclaveDecrypt : bytes → bytes → string → result string)
    (encryptedEmail nonce : bytes) (ownerPubkey : string) : result string :=
  match key with
  | Some _ => directNaclBoxDecrypt key encryptedEmail nonce
  | None => enclaveDecrypt encryptedEmail nonce ownerPubkey
  end.
End direct.

(** ** Decrypting over the socket *)

(** The request: its fields in hexadecimal, for the channels that are on. *)
Record EnclaveRequest := {
  eq_owner_pubkey : string;
  eq_email : option (string * string);
  eq_telegram : option (string * string);
  eq_phone : option (string * string);
}.

Definition request_channel (enabled : bool) (blob nonce : bytes) : option (string * string) :=
  if enabled && negb (bool_decide (blob = [])) then Some (to_hex blob, to_hex nonce) else None.

Definition enclave_payload (p : DecryptAllParams) : EnclaveRequest := {|
  eq_owner_pubkey := dp_ownerPubkey p;
  eq_email := request_channel (dp_channelEmail p) (dp_encryptedEmail p) (dp_nonce p);
  eq_telegram := request_channel (dp_channelTelegram p) (dp_encryptedTelegramId p) (dp_nonceTelegram p);
  eq_phone := request_channel (dp_channelSms p) (dp_encryptedPhone p) (dp_nonceSms p) |}.

(** The response: whether there is an error, the email where it is a text, and
    the other two, where they are truthy, as texts. *)
Record EnclaveResponse := {
  er_error : bool;
  er_email : option string;
  er_telegram_chat_id : option string;
  er_phone : option string;
}.

(** An address: two parts without spaces around the only @, the second one
    with a dot inside. *)
Definition EMAIL_PATTERN : rx :=
  let part := rplus true (RChar (λ x, negb (space_unit x) && negb (N.eqb x 64))) in
  rseq [RStart; part; rlit "@"; part; rlit "."; part; REnd].
Definition isValidEmail (s : option string) : bool :=
  match s with
  | Some e => test EMAIL_PATTERN (units e) && (len (units e) <=? 254)
  | None => false
  end.

Definition parseEnclaveResponse (r : EnclaveResponse) : DecryptedChannels := {|
  tc_email := if isValidEmail (er_email r) then er_email r else None;
  tc_telegramChatId := er_telegram_chat_id r;
  tc_phone := er_phone r |}.

(** A request of the socket: the data so far, whether the socket was destroyed
    or ended, whether the timeout is pending, and how the promise settled. *)
Record Request (A : Type) := {
  rq_buffer : text;
  rq_destroyed : bool;
  rq_ended : bool;
  rq_timer : bool;
  rq_settled : option (result A);
}.
#[global] Arguments rq_buffer {A}.
#[global] Arguments rq_destroyed {A}.
#[global] Arguments rq_ended {A}.
#[global] Arguments rq_timer {A}.
#[global] Arguments rq_settled {A}.

(** The data of a socket come as buffers. *)
Inductive event := EvData (chunk : bytes) | EvEnd | EvError | EvTimeout.

(** The two requests differ in what they make of a response, when it is
    complete and when the socket ends: [None] is no answer. *)
Class Answer (A : Type) := {
  on_response : EnclaveResponse → result A;
  at_end : EnclaveResponse → option (result A);
}.

Definition answer_channels (r : EnclaveResponse) : result DecryptedChannels :=
  if er_error r then Err RoutingUnavailableException else Ok (parseEnclaveResponse r).

#[export] Instance answer_all : Answer DecryptedChannels := {
  on_response := answer_channels;
  at_end r := Some (answer_channels r);
}.

Definition answer_address (r : EnclaveResponse) : result string :=
  if er_error r then Err RoutingUnavailableException
  else if isValidEmail (er_email r) then Ok (default "" (er_email r))
  else Err (JsError "Enclave returned invalid email" None).

Definition address_at_end (r : EnclaveResponse) : option (result string) :=
  if er_error r then Some (Err RoutingUnavailableException)
  else if isValidEmail (er_email r) then Some (Ok (default "" (er_email r)))
  else None.

#[export] Instance answer_email : Answer string := {
  on_response := answer_address;
  at_end := address_at_end;
}.

Section socket.
Context {A : Type} `{An : Answer A}.
(** [JSON.parse]; [None] where it throws. *)
Context (parse : text → option EnclaveResponse).

Definition fresh : Request A := {|
  rq_buffer := []; rq_destroyed := false; rq_ended := false; rq_timer := true; rq_settled := None |}.

(** A promise settles once. *)
Definition settle (r : result A) (s : Request A) : Request A := {|
  rq_buffer := rq_buffer s; rq_destroyed := rq_destroyed s; rq_ended := rq_ended s;
  rq_timer := rq_timer s;
  rq_settled := match rq_settled s with Some r' => Some r' | None => Some r end |}.
Definition clearTimeout (s : Request A) : Request A := {|
  rq_buffer := rq_buffer s; rq_destroyed := rq_destroyed s; rq_ended := rq_ended s;
  rq_timer := false; rq_settled := rq_settled s |}.
Definition destroy (s : Request A) : Request A := {|
  rq_buffer := rq_buffer s; rq_destroyed := true; rq_ended := rq_ended s;
  rq_timer := rq_timer s; rq_settled := rq_settled s |}.
Definition end_socket (s : Request A) : Request A := {|
  rq_buffer := rq_buffer s; rq_destroyed := rq_destroyed s; rq_ended := true;
  rq_timer := rq_timer s; rq_settled := rq_settled s |}.
Definition with_buffer (b : text) (s : Request A) : Request A := {|
  rq_buffer := b; rq_destroyed := rq_destroyed s; rq_ended := rq_ended s;
  rq_timer := rq_timer s; rq_settled := rq_settled s |}.

(** What a complete message ends with: a backslash and an n, or a brace. *)
Definition looks_complete (buffer : text) : bool :=
  bool_decide ([92; 110]%N `suffix_of` buffer) || bool_decide ([125%N] `suffix_of` buffer).

(** [buffer += data.toString()] decodes each buffer on its own. *)
Definition on_data (chunk : bytes) (s : Request A) : Request A :=
  let s := with_buffer (rq_buffer s ++ utf8_decode chunk) s in
  if looks_complete (rq_buffer s) then
    match parse (rq_buffer s) with
    | Some response => settle (on_response response) (destroy (clearTimeout s))
    | None => s
    end
  else s.

Definition on_end (s : Request A) : Request A :=
  let s := clearTimeout (end_socket s) in
  match parse (rq_buffer s) ≫= at_end with
  | Some r => settle r s
  | None => if rq_destroyed s then s else settle (Err RoutingUnavailableException) s
  end.

(** The handlers, for the events that can happen: no data and no end come
    from a socket that ended or was destroyed, and an error destroys it. *)
Definition deliver (s : Request A) (e : event) : option (Request A) :=
  match e with
  | EvData chunk => if rq_destroyed s || rq_ended s then None else Some (on_data chunk s)
  | EvEnd => if rq_destroyed s || rq_ended s then None else Some (on_end s)
  | EvError =>
      if rq_destroyed s then None
      else Some (settle (Err RoutingUnavailableException) (clearTimeout (destroy s)))
  | EvTimeout =>
      if rq_timer s then
        Some (settle (Err RoutingUnavailableException) (clearTimeout (destroy s)))
      else None
  end.

Fixpoint run (s : Request A) (es : list event) : option (Request A) :=
  match es with
  | [] => Some s
  | e :: es' => s' ← deliver s e; run s' es'
  end.
End socket.

(** *** The two requests

    [enclaveDecryptAll] and [enclaveDecrypt]: what is written once the socket
    is connected, and the promise after the events of the socket. *)

Definition enclaveDecryptAll (parse : text → option EnclaveResponse) (p : DecryptAllParams) (es : list event) :
    EnclaveRequest * option (Request DecryptedChannels) :=
  (enclave_payload p, run parse fresh es).

Record AddressRequest := { aq_encrypted_email : string; aq_nonce : string; aq_owner_pubkey : string }.

Definition enclaveDecrypt (parse : text → option EnclaveResponse) (encryptedEmail nonce : bytes)
    (ownerPubkey : string) (es : list event) : AddressRequest * option (Request string) :=
  ({| aq_encrypted_email := to_hex encryptedEmail; aq_nonce := to_hex nonce; aq_owner_pubkey := ownerPubkey |},
   run parse fresh es).

(** ** Encrypting for a recipient *)

(** The fields of an identity that hold the notification key. *)
Record RecipientKeys := {
  rk_sealedX25519Pubkey : option bytes;
  rk_senderX25519Pubkey : option bytes;
  rk_notificationNonce : option bytes;
}.

Section recipient.
Context `{NA : Nacl} `{CO : Codec}.
(** The identity of a wallet, and [kms.send(new DecryptCommand(...))]. *)
Context (fetchIdentityAccount : string → result (option RecipientKeys)).
Context (kms : bytes → string → result (option bytes)).

(** [onModuleInit]: the secret key of the pair, if one is loaded. *)
Definition load_keypair (plainHex kmsKeyId encryptedHex : option string) : option bytes :=
  let given (s : option string) := match s with Some "" | None => None | s => s end in
  match given kmsKeyId, given encryptedHex with
  | Some keyId, Some h =>
      match kms (from_hex h) keyId with
      | Ok (Some plaintext) => if bool_decide (length plaintext = 32%nat) then Some plaintext else None
      | _ => None
      end
  | _, _ => loadDirectKey plainHex
  end.

Definition isReady (key : option bytes) : bool := bool_decide (is_Some key).
Definition getPublicKey (key : option bytes) : option bytes := nacl_public <$> key.

Definition unsealRecipientKey (key : option bytes) (walletPubkey : string) : result (option bytes) :=
  match key with
  | None => Ok None
  | Some secretKey =>
      match fetchIdentityAccount walletPubkey with
      | Err e => Err e
      | Ok None => Ok None
      | Ok (Some i) =>
          match rk_sealedX25519Pubkey i, rk_senderX25519Pubkey i, rk_notificationNonce i with
          | Some sealed, Some sender, Some nonce =>
              if forallb (N.eqb 0) sealed then Ok None else nacl_open sealed nonce sender secretKey
          | _, _, _ => Ok None
          end
      end
  end.

(** [encryptForRecipient]: the payload as JSON and the random nonce; the
    ciphertext and the nonce. *)
Definition encryptForRecipient (key : option bytes) (walletPubkey payload : string) (nonce : bytes) :
    result (option (bytes * bytes)) :=
  match key with
  | None => Ok None
  | Some secretKey =>
      match unsealRecipientKey key walletPubkey with
      | Err e => Err e
      | Ok None => Ok None
      | Ok (Some recipientPub) =>
          match nacl_box (utf8_bytes payload) nonce recipientPub secretKey with
          | Err e => Err e
          | Ok ciphertext => Ok (Some (ciphertext, nonce))
          end
      end
  end.

(** The two endpoints of the controller. *)
Record EncryptNotificationResponse := {
  en_ciphertext : string;
  en_nonce : string;
  en_encrypted : bool;
}.

Definition encrypt (key : option bytes) (recipientWallet payload : string) (nonce : bytes) :
    result EncryptNotificationResponse :=
  match encryptForRecipient key recipientWallet payload nonce with
  | Err e => Err e
  | Ok None => Ok {| en_ciphertext := ""; en_nonce := ""; en_encrypted := false |}
  | Ok (Some (ciphertext, nonce)) =>
      Ok {| en_ciphertext := to_hex ciphertext; en_nonce := to_hex nonce; en_encrypted := true |}
  end.

Definition status (key : option bytes) : bool * option string :=
  (isReady key, to_hex <$> getPublicKey key).
End recipient.

(** ** Lemmas: blobs *)

(** The dual format, and the length of its ciphertext in two bytes. *)
Definition dual_blob (ephemeral cipher user : bytes) : bytes :=
  let n := N.of_nat (length cipher) in
  [170; 187]%N ++ ephemeral ++ [n / 256; n mod 256]%N ++ cipher ++ user.

Lemma two_bytes n : (n < 65536)%N → N.lor (N.shiftl (n / 256) 8) (n mod 256) = n.
Proof.
  intros Hn. apply N.bits_inj. intros i.
  rewrite N.lor_spec. change 256%N with (2 ^ 8)%N.
  destruct (N.lt_ge_cases i 8) as [Hi | Hi].
  - rewrite N.shiftl_spec_low by done. by rewrite N.mod_pow2_bits_low by done.
  - rewrite N.shiftl_spec_high' by done. rewrite N.mod_pow2_bits_high by done.
    rewrite N.div_pow2_bits, N.sub_add by done. by rewrite orb_false_r.
Qed.

Lemma dual_blob_parts ephemeral cipher user : is_key ephemeral → (N.of_nat (length cipher) < 65536)%N →
  let blob := dual_blob ephemeral cipher user in
  is_dual blob = true ∧ slice 2 34 blob = ephemeral ∧
  slice 36 (36 + dual_length blob) blob = cipher.
Proof.
  intros He Hc. cbn zeta. unfold dual_blob. set (n := N.of_nat (length cipher)).
  assert (drop 34 ([170; 187]%N ++ ephemeral ++ [(n / 256)%N; (n mod 256)%N] ++ cipher ++ user) =
          [(n / 256)%N; (n mod 256)%N] ++ cipher ++ user) as Hd.
  { change 34%nat with (2 + 32)%nat. rewrite <- He. cbn [app drop Nat.add]. apply drop_app_length. }
  split_and!; [done | |].
  - unfold slice. cbn [app drop]. change (34 - 2)%nat with 32%nat. rewrite <- He. apply take_app_length.
  - assert (dual_length ([170; 187]%N ++ ephemeral ++ [(n / 256)%N; (n mod 256)%N] ++ cipher ++ user) =
      length cipher) as ->.
    { assert (∀ i blob, byte_at (34 + i) blob = byte_at i (drop 34 blob)) as Hb
        by (intros i blob; unfold byte_at; by rewrite lookup_drop).
      unfold dual_length. rewrite (Hb 0%nat), (Hb 1%nat), Hd. unfold byte_at. cbn [app lookup list_lookup default].
      unfold id. rewrite two_bytes by done. unfold n. lia. }
    unfold slice. rewrite (eq_sym (drop_drop _ 2 34) : drop 36 _ = _), Hd. cbn [app drop].
    replace (36 + length cipher - 36)%nat with (length cipher) by lia. apply take_app_length.
Qed.

(** ** Properties: decrypting in the process *)

Section properties.
Context `{NA : Nacl} `{NL : !NaclLaws NA} `{CO : Codec} `{CL : !CodecLaws CO}.

Lemma open_text_box m nonce eph key c : is_nonce nonce → is_key eph → is_key key →
  nacl_box (utf8_bytes m) nonce (nacl_public key) eph = Ok c →
  open_text c nonce (nacl_public eph) key = Ok (Some m).
Proof.
  intros Hn He Hk Hc. unfold open_text. rewrite (open_box _ _ _ _ _ Hn He Hk Hc).
  by rewrite utf8_roundtrip.
Qed.

(** C28.  What was encrypted to the public key of the gateway, in either of
    the two formats, is decrypted to the same text: a dual blob whatever its
    block for the user holds, a single one unless it starts like a dual one. *)
Theorem channel_roundtrip key eph nonce m user c blob : is_key key → is_key eph → is_nonce nonce →
  nacl_box (utf8_bytes m) nonce (nacl_public key) eph = Ok c → (N.of_nat (length c) < 65536)%N →
  blob = dual_blob (nacl_public eph) c user ∨
  blob = nacl_public eph ++ c ∧ is_dual blob = false ∧ c ≠ [] →
  directNaclBoxDecrypt (Some key) blob nonce = Ok m.
Proof.
  intros Hk He Hn Hc Hlen Hblob. pose proof (public_size eph He) as Hp.
  pose proof (open_text_box m nonce eph key c Hn He Hk Hc) as Ho.
  unfold directNaclBoxDecrypt. destruct Hblob as [-> | (-> & Hdual & Hne)].
  - destruct (dual_blob_parts (nacl_public eph) c user Hp Hlen) as (-> & -> & ->). by rewrite Ho.
  - rewrite Hdual. rewrite bool_decide_eq_true_2.
    2: { rewrite length_app, Hp. destruct c; [done | cbn; lia]. }
    rewrite <- Hp. rewrite drop_app_length, take_app_length. by rewrite Ho.
Qed.

(** A channel that fails to decrypt takes no other with it: in the process,
    the decryption of an identity always returns. *)
Theorem channels_independent key p :
  directDecryptAll key p = {|
    tc_email := match directNaclBoxDecrypt key (dp_encryptedEmail p) (dp_nonce p) with
      | Ok s => if dp_channelEmail p && negb (bool_decide (dp_encryptedEmail p = [])) then Some s else None
      | Err _ => None end;
    tc_telegramChatId := match directNaclBoxDecrypt key (dp_encryptedTelegramId p) (dp_nonceTelegram p) with
      | Ok s => if dp_channelTelegram p && negb (bool_decide (dp_encryptedTelegramId p = [])) then Some s else None
      | Err _ => None end;
    tc_phone := match directNaclBoxDecrypt key (dp_encryptedPhone p) (dp_nonceSms p) with
      | Ok s => if dp_channelSms p && negb (bool_decide (dp_encryptedPhone p = [])) then Some s else None
      | Err _ => None end |}.
Proof.
  unfold directDecryptAll, direct_channel.
  by repeat (destruct (directNaclBoxDecrypt _ _ _)); repeat (destruct (_ && _)).
Qed.

(** The notification body encrypted for a recipient can be opened by the
    owner of the key sealed in the account: when the enclave has a key and the sealed key opens, the endpoint answers with
    the hexadecimal of a box that the owner opens to the payload; without a
    key, an account or a sealed key it answers that nothing was encrypted. *)
Theorem recipient_roundtrip fetch key user n0 sealed i wallet payload nonce :
  is_key key → is_key user → is_nonce n0 → is_nonce nonce →
  fetch wallet = Ok (Some i) →
  i = {| rk_sealedX25519Pubkey := Some sealed; rk_senderX25519Pubkey := Some (nacl_public user);
         rk_notificationNonce := Some n0 |} →
  nacl_box (nacl_public user) n0 (nacl_public key) user = Ok sealed → forallb (N.eqb 0) sealed = false →
  (∃ c, encryptForRecipient fetch (Some key) wallet payload nonce = Ok (Some (c, nonce)) ∧
     nacl_open c nonce (nacl_public key) user = Ok (Some (utf8_bytes payload)) ∧
     encrypt fetch (Some key) wallet payload nonce =
       Ok {| en_ciphertext := to_hex c; en_nonce := to_hex nonce; en_encrypted := true |}) ∧
  encryptForRecipient fetch None wallet payload nonce = Ok None.
Proof.
  intros Hk Hu Hn0 Hn Hf -> Hs Hz. split; [| done].
  destruct (box_works (utf8_bytes payload) nonce (nacl_public user) key Hn (public_size _ Hu) Hk) as [c Hc].
  exists c.
  assert (encryptForRecipient fetch (Some key) wallet payload nonce = Ok (Some (c, nonce))) as He.
  { unfold encryptForRecipient, unsealRecipientKey. rewrite Hf. cbn. rewrite Hz.
    rewrite (open_box _ _ _ _ _ Hn0 Hu Hk Hs). by rewrite Hc. }
  split_and!; [done | by apply open_box | unfold encrypt; by rewrite He].
Qed.
End properties.

(** ** Properties: the socket *)

Section socket_properties.
Context {A : Type} `{An : Answer A} (parse : text → option EnclaveResponse).

(** While the promise is pending, so is the timeout. *)
Definition live_request (s : Request A) : Prop :=
  rq_settled s = None → rq_timer s = true ∧ rq_destroyed s = false ∧ rq_ended s = false.

Lemma settle_some r (s : Request A) : rq_settled (settle r s) ≠ None.
Proof. unfold settle. cbn. by destruct (rq_settled s). Qed.

Lemma settle_keeps r r' (s : Request A) : rq_settled s = Some r → rq_settled (settle r' s) = Some r.
Proof. unfold settle. cbn. by intros ->. Qed.

Lemma deliver_live s e s' : live_request s → deliver parse s e = Some s' → live_request s'.
Proof.
  intros Hs. destruct e as [chunk | | |]; unfold deliver.
  - destruct (rq_destroyed s || rq_ended s) eqn:Hd; [done |]. intros [= <-].
    unfold on_data. destruct (looks_complete _); [| exact Hs]. destruct (parse _); [| exact Hs].
    intros Hn. by apply settle_some in Hn.
  - destruct (rq_destroyed s || rq_ended s) eqn:Hd; [done |]. intros [= <-].
    unfold on_end. destruct (_ ≫= _); [intros Hn; by apply settle_some in Hn |].
    cbn. apply orb_false_iff in Hd as [-> _]. intros Hn. by apply settle_some in Hn.
  - destruct (rq_destroyed s); [done |]. intros [= <-] Hn. by apply settle_some in Hn.
  - destruct (rq_timer s); [| done]. intros [= <-] Hn. by apply settle_some in Hn.
Qed.

Lemma deliver_settled s e s' r : rq_settled s = Some r → deliver parse s e = Some s' →
  rq_settled s' = Some r.
Proof.
  intros Hs. destruct e as [chunk | | |]; unfold deliver.
  - destruct (_ || _); [done |]. intros [= <-]. unfold on_data.
    destruct (looks_complete _); [| done]. destruct (parse _); [by apply settle_keeps | done].
  - destruct (_ || _); [done |]. intros [= <-]. unfold on_end.
    destruct (_ ≫= _); [by apply settle_keeps |]. case_match; [done | by apply settle_keeps].
  - destruct (rq_destroyed s); [done |]. intros [= <-]. by apply settle_keeps.
  - destruct (rq_timer s); [| done]. intros [= <-]. by apply settle_keeps.
Qed.

Lemma run_live es s s' : live_request s → run parse s es = Some s' → live_request s'.
Proof.
  revert s. induction es as [|e es IH]; intros s Hs; cbn; [by intros [= <-] |].
  destruct (deliver parse s e) as [s1|] eqn:He; [| done]. intros Hr.
  by apply (IH s1); [eapply deliver_live |].
Qed.

Lemma run_settled es s s' r : rq_settled s = Some r → run parse s es = Some s' → rq_settled s' = Some r.
Proof.
  revert s. induction es as [|e es IH]; intros s Hs; cbn; [by intros [= <-] |].
  destruct (deliver parse s e) as [s1|] eqn:He; [| done]. intros Hr.
  by apply (IH s1); [eapply deliver_settled |].
Qed.

(** What a promise settles with is made of a response, or the failure. *)
Lemma settled_with (P : result A → Prop) es s s' :
  (∀ r, P (on_response r)) → (∀ r a, at_end r = Some a → P a) → P (Err RoutingUnavailableException) →
  (∀ a, rq_settled s = Some a → P a) → run parse s es = Some s' → ∀ a, rq_settled s' = Some a → P a.
Proof.
  intros Hresp Hend Herr. revert s. induction es as [|e es IH]; intros s Hs; cbn; [by intros [= <-] |].
  destruct (deliver parse s e) as [s1|] eqn:He; [| done]. apply IH.
  assert (∀ r (x : Request A), P r → rq_settled x = rq_settled s → ∀ a, rq_settled (settle r x) = Some a → P a) as Hset.
  { unfold settle. cbn. intros r x Hr -> a. destruct (rq_settled s); intros [= <-]; auto. }
  destruct e as [chunk | | |]; cbn in He.
  - destruct (_ || _); [done |]. injection He as <-. unfold on_data.
    destruct (looks_complete _); [| exact Hs]. destruct (parse _) as [r|]; [by apply Hset | exact Hs].
  - destruct (_ || _); [done |]. injection He as <-. unfold on_end.
    destruct (parse _ ≫= at_end) as [r|] eqn:Hr.
    + apply Hset; [| done]. destruct (parse _) as [x|]; [| done]. by apply (Hend x).
    + case_match; [exact Hs | by apply Hset].
  - destruct (rq_destroyed s); [done |]. injection He as <-. by apply Hset.
  - destruct (rq_timer s); [| done]. injection He as <-. by apply Hset.
Qed.

(** C17.  A request to the enclave always settles, and only once: as long as
    it is pending the timeout is still armed and rejects it, the end of the
    socket and an error of it settle it too, and nothing that happens later
    changes the answer. *)
Theorem request_settles es s : run parse fresh es = Some s →
  match rq_settled s with
  | None => ∀ e, e ∈ [EvTimeout; EvEnd; EvError] →
      ∃ s', deliver parse s e = Some s' ∧ rq_settled s' ≠ None ∧
            (e ≠ EvEnd → rq_settled s' = Some (Err RoutingUnavailableException))
  | Some r => ∀ es' s', run parse s es' = Some s' → rq_settled s' = Some r
  end.
Proof.
  intros Hr. destruct (rq_settled s) as [r|] eqn:Hs; [intros es' s'; by apply run_settled |].
  assert (live_request s) as (Ht & Hd & Hend); [by eapply run_live; [| exact Hr] | done |].
  intros e. rewrite !elem_of_cons, elem_of_nil. intros [-> | [-> | [-> | []]]]; cbn.
  - rewrite Ht. eexists. split; [done |]. split; [apply settle_some | intros _; unfold settle; cbn; by rewrite Hs].
  - rewrite Hd, Hend. cbn. eexists. split; [done |]. split; [| done]. unfold on_end.
    destruct (_ ≫= _); [apply settle_some |]. cbn. rewrite Hd. apply settle_some.
  - rewrite Hd. eexists. split; [done |]. split; [apply settle_some | intros _; unfold settle; cbn; by rewrite Hs].
Qed.

Lemma run_chunks chunks : ∀ (s : Request A) t r,
  rq_destroyed s = false → rq_ended s = false → rq_settled s = None →
  Forall (λ c, utf8_decode c ≠ []) chunks → rq_buffer s ++ concat (utf8_decode <$> chunks) = t → rq_buffer s ≠ t →
  [125%N] `suffix_of` t → parse t = Some r → (∀ p, p `prefix_of` t → p ≠ t → parse p = None) →
  ∃ s', run parse s (EvData <$> chunks) = Some s' ∧ rq_settled s' = Some (on_response r).
Proof.
  induction chunks as [|c chunks IH]; intros s t r Hd He Hs Hne Ht Hb Hsuf Hp Hpre.
  { cbn in Ht. by rewrite app_nil_r in Ht. }
  apply list.Forall_cons in Hne as [Hc Hne]. cbn. rewrite Hd, He. cbn.
  destruct (decide (rq_buffer s ++ utf8_decode c = t)) as [Hlast | Hmore].
  - assert (concat (utf8_decode <$> chunks) = []) as Hnil.
    { rewrite <- Hlast in Ht. cbn in Ht. rewrite app_assoc in Ht.
      rewrite <- (app_nil_r (rq_buffer s ++ utf8_decode c)) in Ht at 2. by apply app_inv_head in Ht. }
    assert (chunks = []) as ->.
    { destruct chunks as [|c' chunks]; [done |]. apply list.Forall_cons in Hne as [Hc' _].
      cbn in Hnil. by apply app_eq_nil in Hnil as [? _]. }
    cbn. eexists. split; [done |]. unfold on_data. cbn. rewrite Hlast. unfold looks_complete.
    rewrite (bool_decide_eq_true_2 ([125%N] `suffix_of` t)) by done. rewrite orb_true_r, Hp.
    unfold settle. cbn. by rewrite Hs.
  - assert (parse (rq_buffer s ++ utf8_decode c) = None) as Hnone.
    { apply Hpre; [| done]. exists (concat (utf8_decode <$> chunks)). cbn in Ht. by rewrite <- app_assoc. }
    assert (on_data parse c s = with_buffer (rq_buffer s ++ utf8_decode c) s) as ->.
    { unfold on_data. cbn. rewrite Hnone. by destruct (looks_complete _). }
    apply (IH _ t r); [done.. | | done | done | done | done].
    cbn in Ht |- *. by rewrite <- app_assoc.
Qed.

(** A chunk that starts and ends between two characters, and is not empty. *)
Definition whole_chunk (c : bytes) : Prop := ∃ p, p ≠ [] ∧ whole p = true ∧ c = utf8_encode p.

Lemma whole_chunks chunks t : Forall whole_chunk chunks → whole t = true → concat chunks = utf8_encode t →
  Forall (λ c, utf8_decode c ≠ []) chunks ∧ concat (utf8_decode <$> chunks) = t.
Proof.
  intros Hc Ht H. split.
  { eapply list.Forall_impl; [exact Hc |]. intros c (p & Hp & Hw & ->). by rewrite decode_encode. }
  rewrite <- (decode_encode t Ht), <- H. clear H Ht.
  induction Hc as [|c chunks (p & _ & Hw & ->) _ IH]; [done |].
  cbn. by rewrite decode_encode, decode_encode_app, <- IH.
Qed.

(** C29.  However the bytes of the response are cut between its characters, the
    request is answered with it as soon as its last chunk is there: a text that
    ends with a brace, parses, and no part of which from the start on does.
    (Each chunk is decoded on its own, so that a character that is cut in two
    is lost: [split_character].) *)
Theorem response_any_chunks chunks t r :
  whole t = true → concat chunks = utf8_encode t → t ≠ [] → Forall whole_chunk chunks → [125%N] `suffix_of` t →
  parse t = Some r → (∀ p, p `prefix_of` t → p ≠ t → parse p = None) →
  ∃ s, run parse fresh (EvData <$> chunks) = Some s ∧ rq_settled s = Some (on_response r).
Proof.
  intros Hw Ht Hn Hc Hsuf Hp Hpre. destruct (whole_chunks chunks t Hc Hw Ht) as [Hne Hcat].
  by apply (run_chunks chunks fresh t r).
Qed.

End socket_properties.

(** The enclave is trusted with neither of the answers: whatever comes over the
    socket and however it is cut, the promise of an address only resolves with
    a valid one, and that of the channels holds no address but a valid one. *)
Theorem addresses_valid parse es :
  (∀ e n o s a, (enclaveDecrypt parse e n o es).2 = Some s → rq_settled s = Some (Ok a) →
     isValidEmail (Some a) = true) ∧
  (∀ p s c, (enclaveDecryptAll parse p es).2 = Some s → rq_settled s = Some (Ok c) →
     ∀ a, tc_email c = Some a → isValidEmail (Some a) = true).
Proof.
  split.
  - intros e n o s a Hrun Hs.
    refine (settled_with parse (λ r, ∀ a, r = Ok a → isValidEmail (Some a) = true) es fresh s _ _ _ _ Hrun _ Hs a eq_refl);
      [| | done | done].
    + intros r b. cbn. unfold answer_address. destruct (er_error r); [done |].
      destruct (er_email r) as [x|] eqn:Hx; [| done]. destruct (isValidEmail (Some x)) eqn:Hv; [| done]. by intros [= <-].
    + intros r b. cbn. unfold address_at_end. destruct (er_error r); [by intros [= <-] |].
      destruct (er_email r) as [x|] eqn:Hx; [| done]. destruct (isValidEmail (Some x)) eqn:Hv; [| done].
      by intros [= <-] ? [= <-].
  - intros p s c Hrun Hs.
    assert (∀ r c', answer_channels r = Ok c' → ∀ a, tc_email c' = Some a → isValidEmail (Some a) = true) as Hans.
    { intros r c'. unfold answer_channels. destruct (er_error r); [done |]. intros [= <-] a. cbn.
      destruct (er_email r) as [x|]; [| done]. destruct (isValidEmail (Some x)) eqn:Hv; [| done]. by intros [= <-]. }
    refine (settled_with parse (λ r, ∀ c, r = Ok c → ∀ a, tc_email c = Some a → isValidEmail (Some a) = true)
      es fresh s _ _ _ _ Hrun _ Hs c eq_refl); [| | done | done].
    + intros r c'. exact (Hans r c').
    + intros r b. cbn. intros [= <-] c'. exact (Hans r c').
Qed.

Section socket_properties.
Context {A : Type} `{An : Answer A} (parse : text → option EnclaveResponse).

(** A response that is a line is not: the newline is looked for as a backslash
    and an n, so that unless the socket ends the request times out. *)
Theorem line_times_out t : whole t = true → ∃ s s',
  deliver parse fresh (EvData (utf8_encode (t ++ [NL]))) = Some s ∧
  rq_settled s = None ∧ deliver parse s EvTimeout = Some s' ∧
  rq_settled s' = Some (Err RoutingUnavailableException).
Proof.
  intros Ht. assert (looks_complete (t ++ [NL]) = false) as Hl.
  { unfold looks_complete. rewrite !bool_decide_eq_false_2; [done | |]; intros [u Hu].
    - by apply app_inj_2 in Hu as [_ [=]].
    - change [92; 110]%N with ([92] ++ [110])%N in Hu. rewrite app_assoc in Hu.
      by apply app_inj_2 in Hu as [_ [=]]. }
  exists (with_buffer (t ++ [NL]) fresh). unfold deliver, on_data.
  rewrite encode_app, decode_encode_app by done. cbn [rq_buffer rq_destroyed rq_ended orb with_buffer fresh app].
  change (utf8_decode (utf8_encode [NL])) with [NL]. rewrite Hl. eexists. split_and!; done.
Qed.
End socket_properties.

(** ** Witnesses *)

(** A cipher to try the definitions on: a box names the sum of the two public
    keys, which are the secret ones. *)
Definition toy_sizes (n p s : bytes) : bool :=
  Nat.eqb (length n) 24 && Nat.eqb (length p) 32 && Nat.eqb (length s) 32.
Definition toy_shared (p s : bytes) : bytes := zip_with N.add p s.

#[local] Instance toy_nacl : Nacl := {
  nacl_public s := s;
  nacl_box m n p s := if toy_sizes n p s then Ok (toy_shared p s ++ m) else Err (JsError "bad size" None);
  nacl_open c n p s :=
    if toy_sizes n p s then
      Ok (if bool_decide (toy_shared p s `prefix_of` c) then Some (drop (length (toy_shared p s)) c) else None)
    else Err (JsError "bad size" None);
}.

Lemma toy_sizes_true n p s : toy_sizes n p s = true ↔ is_nonce n ∧ is_key p ∧ is_key s.
Proof. unfold toy_sizes. rewrite !andb_true_iff, !Nat.eqb_eq. unfold is_nonce, is_key. tauto. Qed.

Lemma toy_shared_comm p s : toy_shared p s = toy_shared s p.
Proof. unfold toy_shared. revert s. induction p as [|x p IH]; intros [|y s]; cbn; [done.. |]. by rewrite IH, N.add_comm. Qed.

#[local] Instance toy_nacl_laws : NaclLaws toy_nacl.
Proof.
  split.
  - done.
  - intros m n p s Hn Hp Hs. cbn. rewrite (proj2 (toy_sizes_true n p s)) by done. by eexists.
  - intros m n s1 s2 c Hn H1 H2. cbn.
    rewrite (proj2 (toy_sizes_true n s2 s1)), (proj2 (toy_sizes_true n s1 s2)) by done.
    intros [= <-]. rewrite toy_shared_comm, bool_decide_eq_true_2 by (by eexists).
    by rewrite drop_app_length.
Qed.

#[local] Instance toy_codec : Codec := {
  utf8_bytes := units;
  utf8_text b := Ok (string_of_list_ascii (ascii_of_N <$> b)) }.

#[local] Instance toy_codec_laws : CodecLaws toy_codec.
Proof.
  split. intros s. cbn. unfold units. rewrite <- list_fmap_compose. f_equal.
  rewrite <- (string_of_list_ascii_of_string s) at 2. f_equal.
  induction (list_ascii_of_string s) as [|c l IH]; [done |]. cbn. by rewrite ascii_N_embedding, IH.
Qed.

Definition gateway_key : bytes := replicate 32 7%N.
Definition user_key : bytes := replicate 32 9%N.
Definition a_nonce : bytes := replicate 24 1%N.

Lemma channel_roundtrip_witness :
  directNaclBoxDecrypt (Some gateway_key)
    (dual_blob (nacl_public user_key) (toy_shared gateway_key user_key ++ units "a@b.co") [1; 2; 3]%N)
    a_nonce = Ok "a@b.co".
Proof.
  apply (channel_roundtrip gateway_key user_key a_nonce "a@b.co" [1; 2; 3]%N
    (toy_shared gateway_key user_key ++ units "a@b.co")); [done.. | vm_compute; reflexivity | by left].
Defined.

(** A single blob whose ephemeral key starts with 0xAA 0xBB is read as a dual
    one, and is lost. *)
Example ambiguous_blob :
  let eph := [170; 187]%N ++ replicate 30 9%N in
  match nacl_box (units "a@b.co") a_nonce gateway_key eph with
  | Ok c => directNaclBoxDecrypt (Some gateway_key) (eph ++ c) a_nonce = Err RoutingUnavailableException
  | Err _ => False
  end.
Proof. vm_compute. reflexivity. Qed.

Lemma recipient_roundtrip_witness :
  let i := {| rk_sealedX25519Pubkey := Some (toy_shared user_key gateway_key ++ user_key);
              rk_senderX25519Pubkey := Some (nacl_public user_key);
              rk_notificationNonce := Some a_nonce |} in
  let fetch := λ _ : string, Ok (Some i) in
  (∃ c, encryptForRecipient fetch (Some gateway_key) "w" "hello" a_nonce = Ok (Some (c, a_nonce)) ∧
     nacl_open c a_nonce (nacl_public gateway_key) user_key = Ok (Some (utf8_bytes "hello")) ∧
     encrypt fetch (Some gateway_key) "w" "hello" a_nonce =
       Ok {| en_ciphertext := to_hex c; en_nonce := to_hex a_nonce; en_encrypted := true |}) ∧
  encryptForRecipient fetch None "w" "hello" a_nonce = Ok None.
Proof.
  cbn zeta. eapply (recipient_roundtrip _ gateway_key user_key a_nonce); [done.. | | vm_compute; reflexivity].
  vm_compute. reflexivity.
Defined.

Definition toy_response : text := [123; 233; 125]%N.
Definition toy_parse (t : text) : option EnclaveResponse :=
  if bool_decide (t = toy_response) then
    Some {| er_error := false; er_email := Some "a@b.co"; er_telegram_chat_id := None; er_phone := None |}
  else None.

Lemma request_settles_witness :
  run (A := string) toy_parse fresh [EvData (units "{x")] = Some (with_buffer (units "{x") fresh) ∧
  ∀ e, e ∈ [EvTimeout; EvEnd; EvError] →
    ∃ s', deliver toy_parse (with_buffer (A := string) (units "{x") fresh) e = Some s' ∧ rq_settled s' ≠ None ∧
      (e ≠ EvEnd → rq_settled s' = Some (Err RoutingUnavailableException)).
Proof.
  split; [vm_compute; reflexivity |].
  apply (request_settles toy_parse [EvData (units "{x")] (with_buffer (A := string) (units "{x") fresh)).
  vm_compute. reflexivity.
Defined.

Lemma response_any_chunks_witness :
  ∃ s, run (A := string) toy_parse fresh (EvData <$> [[123]; [195; 169; 125]]%N) = Some s ∧
       rq_settled s = Some (Ok "a@b.co").
Proof.
  change (Ok "a@b.co") with (on_response (A := string) {| er_error := false; er_email := Some "a@b.co";
    er_telegram_chat_id := None; er_phone := None |}).
  apply (response_any_chunks toy_parse _ toy_response); [done | done | done | | by exists [123; 233]%N | done |].
  - repeat constructor; [by exists [123]%N | by exists [233; 125]%N].
  - intros p _ Hp. unfold toy_parse. by rewrite bool_decide_eq_false_2.
Defined.

(** The same bytes, cut within the second character: it becomes two
    replacement characters, and the response is not understood. *)
Example split_character :
  concat [[123; 195]; [169; 125]]%N = utf8_encode toy_response ∧
  run (A := string) toy_parse fresh (EvData <$> [[123; 195]; [169; 125]]%N) =
    Some (with_buffer [123; 65533; 65533; 125]%N fresh).
Proof. split; vm_compute; reflexivity. Qed.
