(* ===== verification/Bot.v ===== *)
(** * The Telegram bots

    [TelegramWebhookService] (the commands of the shared bot, mute buttons,
    pending connections, the two crons), [TelegramMigrationService] (the
    protocols' own bots, the prompts to migrate to them, the linking of
    groups) and [TelegramWebhookController], of [src/modules/telegram/]; and
    what [TelegramService] of [src/modules/channel/providers/telegram.provider.ts]
    does with groups beside messages.

    The Bot API's queries (who is an administrator, the name of a bot, the
    size of a group), the decryption of a bot token and the parsing of a URL
    are parameters.  An update is the part of Telegram's object the handlers
    read.  In a command, [toLowerCase] is that of [Links], on ASCII letters. *)

From Stdlib Require Import Ascii String.
From stdpp Require Import pretty.
From S2P Require Import Prelude Schema External Memory Frame Text Rx Links Markdown Sms Telegram Unsubscribe Channels Routing.
From S2P Require Template.

Open Scope string_scope.
Open Scope list_scope.
Open Scope Z_scope.

(** ** Texts of messages *)

Definition of_units (s : text) : string := string_of_list_ascii (ascii_of_N <$> s).

Definition nl : string := String (ascii_of_nat 10) "".

(** The private method [escapeHtml] of both services: three replacements in a
    row. *)
Definition escape_text (s : string) : string :=
  of_units (replace (rlit ">") (λ _ _, units "&gt;")
    (replace (rlit "<") (λ _ _, units "&lt;")
      (replace (rlit "&") (λ _ _, units "&amp;") (units s)))).

Definition trimmed (s : string) : string := of_units (trim (units s)).
Definition lowered (s : string) : string := of_units (toLowerCase (units s)).

(** [s.split(c)[i]] *)
Definition word (c : string) (i : nat) (s : string) : option string :=
  of_units <$> split_on (default 0%N (head (units c))) (units s) !! i.

Definition str_starts (p s : string) : bool := String.prefix p s.
(** [s.slice(n)] *)
Definition str_from (n : nat) (s : string) : string := of_units (drop n (units s)).

(** ** Updates *)

Record CallbackQuery := {
  cq_messageChatId : option string;       (** [query.message.chat.id] *)
  cq_chatId : option string;              (** [query.chat.id] *)
  cq_data : option string;
  cq_id : option string;
}.

Record ChatUser := { cu_is_bot : bool; cu_first_name : option string }.

Record BotMessage := {
  bm_chatId : option string;
  bm_chatType : option string;
  bm_fromId : option Z;
  bm_fromUsername : option string;
  bm_text : option string;
  bm_new_chat_members : option (list ChatUser);
}.

Record MyChatMember := {
  mc_newStatus : option string;
  mc_chatId : option string;
  mc_chatType : option string;
  mc_fromId : option Z;
}.

Record MessageReaction := {
  mr_chatId : option string;
  mr_messageId : option string;
  (** the emoji or custom emoji of each new reaction *)
  mr_newReaction : list (option string * option string);
}.

Record Update := {
  up_callback_query : option CallbackQuery;
  up_message : option BotMessage;
  up_my_chat_member : option MyChatMember;
  up_message_reaction : option MessageReaction;
}.

(** ** Configuration *)

Record BotConfig `{B : Backend} := {
  bc_channels : ChannelConfig;                     (** tokens, keys, decryption *)
  bc_webhookSecret : option string;                (** [TELEGRAM_WEBHOOK_SECRET] *)
  bc_internalKey : option string;                  (** [INTERNAL_API_KEY] *)
  (** [getChatMember(chat, user).status] *)
  bc_getChatMember : string → string → Z → World → result string;
  bc_getMe : string → World → result (option string);
  (** [getChatMemberCount(chat)], where it is a number *)
  bc_getChatMemberCount : string → string → World → result (option Z);
  (** [Buffer.from(s, 'base64url').toString('utf8')] *)
  bc_base64url : string → string;
  (** [new URL(s).protocol], where it does not throw *)
  bc_urlProtocol : string → option string;
}.

(** [const START_PATTERN] *)
Definition START_PATTERN : rx := rseq [
  RStart; rlit "/start"; rplus true (RChar space_unit);
  RGroup 1 (rbetween 32 44 (RChar (λ x, in_range 49 57 x || in_range 65 72 x || in_range 74 78 x ||
    in_range 80 90 x || in_range 97 107 x || in_range 109 122 x))); REnd].

Definition CATEGORY_EMOJI : list (string * string) :=
  [("defi", "💰"); ("governance", "🗳️"); ("system", "⚙️"); ("marketing", "📢")].
Definition VALID_CATEGORIES : list string := CATEGORY_EMOJI.*1.
Definition MUTE_TTL_SECONDS : Z := 30 * 24 * 60 * 60.

Definition mute_key (chatId protocolId : string) : string :=
  "tg:mute:" +:+ chatId +:+ ":" +:+ protocolId.
Definition mute_cat_key (chatId category : string) : string :=
  "tg:mute_cat:" +:+ chatId +:+ ":" +:+ category.

Definition category_emoji (cat : string) : string :=
  from_option snd "🔔" (List.find (λ e, (e.1 =? cat)%string) CATEGORY_EMOJI).

Definition is_category (cat : string) : bool := existsb (String.eqb cat) VALID_CATEGORIES.
Definition category_list : string := String.concat ", " VALID_CATEGORIES.

(** [if (s)] on a string *)
Definition nonblank (s : string) : bool := truthy (Some s).

Section bots.
Context `{B : Backend} `{R : Routing (B := B)}.
Context (cfg : BotConfig).

Definition herald_token : option string := cc_heraldToken (bc_channels cfg).

(** [tg.sendMessage(...).catch(() => undefined)] and [answerCbQuery] *)
Definition reply (token chatId body : string) : M World () :=
  swallow () (_ ← send (BotMessageEnvelope token chatId body); mret ()).
Definition answer (token queryId : string) (txt : option string) : M World () :=
  swallow () (_ ← send (BotAnswerEnvelope token queryId txt); mret ()).

(** [this.telegram?.f(...)] *)
Definition with_herald (f : string → M World ()) : M World () :=
  if truthy herald_token then f (default "" herald_token) else mret ().

(** ** [TelegramWebhookService] *)

Definition sanitized_secret (s : string) : string :=
  of_units (replace (RChar (λ x, negb (word_unit x || N.eqb x 45))) erase (units s)).

Definition verifySecret (incoming : option string) : bool :=
  let expected := default "" (bc_webhookSecret cfg) in
  if negb (nonblank expected) then true
  else bool_decide (incoming = Some (sanitized_secret expected)).

(** [if (keys.length > 0) await this.redis.del(...keys)] *)
Definition del_page (keys : list string) (now : Z) : M World Z :=
  if bool_decide (keys = []) then mret 0 else redis_del_many keys now.

(** The loop of [clearBlockedChats]; [None] is out of fuel. *)
Fixpoint clear_loop (fuel : nat) (pattern cursor : string) (removed now : Z) :
    M World (option Z) :=
  match fuel with
  | O => mret None
  | S fuel' =>
      '(next, keys) ← redis_scan cursor pattern 100;
      n ← del_page keys now;
      if bool_decide (next = "0") then mret (Some (removed + n))
      else clear_loop fuel' pattern next (removed + n) now
  end.

Definition clearBlockedChats (fuel : nat) (chatId : option string) (now : Z) :
    M World (option Z) :=
  if truthy chatId then
    n ← redis_del_many ["tg:blocked:" +:+ default "" chatId] now; mret (Some n)
  else clear_loop fuel "tg:blocked:*" "0" 0 now.

Definition by_notification (id : string) : where_ MNotification := by_id MNotification id.

Definition handleMuteCallback (chatId notifId queryId : string) (now : Z) : M World () :=
  notif ← find_unique MNotification (by_notification notifId);
  match notif with
  | None => with_herald (λ t, answer t queryId (Some "⚠️ Notification not found."))
  | Some n =>
      _ ← redis_setex (mute_key chatId (n_protocolId n)) MUTE_TTL_SECONDS (RText "1") now;
      with_herald (λ t, answer t queryId
        (Some "🔇 Muted. You won't receive Telegram notifications from this protocol."))
  end.

Definition handleCallbackQuery (query : CallbackQuery) (now : Z) : M World () :=
  let chatId := default (default "" (cq_chatId query)) (cq_messageChatId query) in
  let callbackData := default "" (cq_data query) in
  let queryId := default "" (cq_id query) in
  handled ← swallow false (
    if str_starts "mute_" callbackData then
      _ ← handleMuteCallback chatId (str_from 5 callbackData) queryId now; mret true
    else mret false);
  if (handled : bool) then mret () else
  if nonblank queryId then with_herald (λ t, answer t queryId None) else mret ().

Definition handleStartConnect (chatId walletPubkey : string) (username : option string)
    (now : Z) : M World () :=
  let expiresAt := now + 10 * 60 * 1000 in
  _ ← delete_many MTelegramPendingConnection (λ _ r,
        bool_decide (tpc_walletPubkey r = walletPubkey) && negb (tpc_claimed r));
  _ ← create MTelegramPendingConnection (λ id, {|
        tpc_id := id; tpc_walletPubkey := walletPubkey; tpc_chatId := chatId;
        tpc_telegramUsername := username; tpc_claimed := false; tpc_expiresAt := expiresAt |});
  with_herald (λ t, reply t chatId ("✅ <b>Almost there!</b>" +:+ nl +:+ nl +:+
    "Return to the Herald portal to complete the connection. This link expires in 10 minutes.")).

Definition sendWelcome (chatId : string) : M World () :=
  with_herald (λ t, reply t chatId (
    "👋 <b>Welcome to Herald!</b>" +:+ nl +:+ nl +:+
    "To connect your Telegram account, go to the Herald developer portal and click <b>Connect Telegram</b>."
    +:+ nl +:+ nl +:+ "<b>Commands:</b>" +:+ nl +:+
    "/mute &lt;category&gt; — mute a category" +:+ nl +:+
    "/unmute &lt;category&gt; — unmute a category" +:+ nl +:+
    "/categories — show all categories")).

Definition handleMuteCommand (chatId : string) (category : option string) (now : Z) : M World () :=
  with_herald (λ t,
    if negb (truthy category) then
      reply t chatId ("Usage: /mute &lt;category&gt;" +:+ nl +:+ nl +:+
        "Available categories: " +:+ category_list)
    else
      let cat := lowered (default "" category) in
      if negb (is_category cat) then
        reply t chatId ("❌ Unknown category <b>" +:+ escape_text cat +:+ "</b>." +:+ nl +:+ nl +:+
          "Valid categories: " +:+ category_list)
      else
        _ ← redis_setex (mute_cat_key chatId cat) MUTE_TTL_SECONDS (RText "1") now;
        reply t chatId ("🔇 " +:+ category_emoji cat +:+ " <b>" +:+ cat +:+
          "</b> notifications muted for 30 days." +:+ nl +:+ nl +:+
          "Use /unmute " +:+ cat +:+ " to re-enable.")).

Definition handleUnmuteCommand (chatId : string) (category : option string) : M World () :=
  with_herald (λ t,
    if negb (truthy category) then
      reply t chatId ("Usage: /unmute &lt;category&gt;" +:+ nl +:+ nl +:+
        "Available categories: " +:+ category_list)
    else
      let cat := lowered (default "" category) in
      if negb (is_category cat) then
        reply t chatId ("❌ Unknown category <b>" +:+ escape_text cat +:+ "</b>.")
      else
        _ ← redis_del (mute_cat_key chatId cat);
        reply t chatId ("🔔 " +:+ category_emoji cat +:+ " <b>" +:+ cat +:+
          "</b> notifications re-enabled.")).

(** The lines of [handleCategoriesCommand], also of the custom bot's. *)
Definition category_lines (chatId : string) (now : Z) : M World (list string) :=
  fold_each (λ lines e,
    muted ← swallow None (redis_get (mute_cat_key chatId e.1) now);
    mret (lines ++ [e.2 +:+ " <b>" +:+ e.1 +:+ "</b> — " +:+
      (if truthy_value muted then "🔇 muted" else "✅ active")]))
    ["<b>Notification categories:</b>" +:+ nl] CATEGORY_EMOJI.

Definition categories_message (lines : list string) : string :=
  String.concat nl (lines ++
    [nl +:+ "Use /mute &lt;category&gt; or /unmute &lt;category&gt; to change."]).

Definition handleCategoriesCommand (chatId : string) (now : Z) : M World () :=
  with_herald (λ t,
    lines ← category_lines chatId now;
    reply t chatId (categories_message lines)).

(** [handleUpdate], after the test of [enabled]. *)
Definition dispatch_update (update : Update) (now : Z) : M World () :=
  match up_callback_query update with
  | Some query => handleCallbackQuery query now
  | None =>
      match up_message update with
      | None => mret ()
      | Some message =>
          if negb (truthy (bm_text message)) then mret () else
          let chatId := default "undefined" (bm_chatId message) in
          let txt := trimmed (default "" (bm_text message)) in
          match search START_PATTERN (units txt) with
          | Some (_, cs) =>
              handleStartConnect chatId (of_units (default [] (capture 1 cs)))
                (bm_fromUsername message) now
          | None =>
              let command := lowered (default "" (word " " 0 txt)) in
              let arg := trimmed <$> word " " 1 txt in
              if (command =? "/start")%string then sendWelcome chatId
              else if (command =? "/mute")%string then handleMuteCommand chatId arg now
              else if (command =? "/unmute")%string then handleUnmuteCommand chatId arg
              else if (command =? "/categories")%string then handleCategoriesCommand chatId now
              else mret ()
          end
      end
  end.

(** [onModuleInit] enables the service when the bot's token is set. *)
Definition handleUpdate (update : Update) (now : Z) : M World () :=
  if negb (truthy herald_token) then mret () else dispatch_update update now.

Definition isChatMutedForProtocol (chatId protocolId : string) (now : Z) : M World bool :=
  v ← swallow None (redis_get (mute_key chatId protocolId) now);
  mret (bool_decide (is_Some v)).

Definition isCategoryMutedForChat (chatId category : string) (now : Z) : M World bool :=
  v ← swallow None (redis_get (mute_cat_key chatId category) now);
  mret (bool_decide (is_Some v)).

Definition group_sent_key (notificationId groupChatId : string) : string :=
  "tg:group_sent:" +:+ notificationId +:+ ":" +:+ groupChatId.

Definition wasGroupNotified (notificationId groupChatId : string) (now : Z) : M World bool :=
  v ← swallow None (redis_get (group_sent_key notificationId groupChatId) now);
  mret (bool_decide (is_Some v)).

Definition markGroupNotified (notificationId groupChatId : string) (now : Z) : M World () :=
  swallow () (redis_setex (group_sent_key notificationId groupChatId) 86400 (RText "1") now).

Definition recordClickAsync (notifId : string) (now : Z) : M World () :=
  swallow () (
    notif ← find_unique MNotification (by_notification notifId);
    match notif with
    | None => mret ()
    | Some n =>
        _ ← create MNotificationEngagement (λ id, {|
              ne_id := id; ne_notificationId := notifId; ne_protocolId := n_protocolId n;
              ne_eventType := "tg_click"; ne_linkUrl := None;
              ne_userAgentHash := None; ne_createdAt := now |});
        mret ()
    end).

Definition cleanExpiredPendingConnections (now : Z) : M World () :=
  delete_many MTelegramPendingConnection (λ _ r, (tpc_expiresAt r <? now) || tpc_claimed r).

(** The bot of the protocol where it has one, else Herald's. *)
Definition bot_token (customBotToken : option string) : option string :=
  if truthy customBotToken then customBotToken else herald_token.

(** [TelegramService.getGroupMemberCount] *)
Definition getGroupMemberCount (chatId : string) (customBotToken : option string) :
    M World (option Z) :=
  if negb (truthy (bot_token customBotToken)) then mret None else
  swallow None (λ w, (bc_getChatMemberCount cfg (default "" (bot_token customBotToken)) chatId w, w)).

(** [TelegramService.createForumTopic]; [create_topic] is the call of Telegram,
    with the id of the thread. *)
Definition createForumTopic (create_topic : string → string → string → World → result (option Z))
    (chatId name : string) (customBotToken : option string) : M World (option string) :=
  if negb (truthy (bot_token customBotToken)) then mret None else
  swallow None (
    id ← (λ w, (create_topic (default "" (bot_token customBotToken)) chatId name w, w));
    mret (match id with Some n => if n =? 0 then None else Some (pretty n) | None => None end)).

(** [TelegramService.sendWelcomeMessage] *)
Definition sendWelcomeMessage (chatId : string) (userId : Z) (welcomeText : string) (customBotToken : option string) :
    M World () :=
  if negb (truthy (bot_token customBotToken)) then mret () else
  reply (default "" (bot_token customBotToken)) chatId
    (of_units (Template.replace_first (rlit "{{userId}}") (λ _, units (pretty userId)) (units welcomeText))).

(** [decryptAes256Gcm(encrypted, ENCRYPTION_KEY_ID)] where it succeeds. *)
Definition decrypted_token (encrypted : option string) : option string :=
  match encrypted, cc_encryptionKey (bc_channels cfg) with
  | Some enc, Some key =>
      if nonblank key then
        match cc_decrypt (bc_channels cfg) enc key with Ok t => Some t | Err _ => None end
      else None
  | _, _ => None
  end.

Definition refresh_row (updated : Z) (row : ProtocolSettings) (now : Z) : M World Z :=
  if negb (truthy (ps_telegramGroupChatId row)) then mret updated else
  count ← getGroupMemberCount (default "" (ps_telegramGroupChatId row))
            (decrypted_token (ps_telegramBotTokenEncrypted row));
  match count with
  | None => mret updated
  | Some n =>
      _ ← swallow () (
        _ ← update MProtocolSettings (by_id MProtocolSettings (ps_protocolId row)) (λ s,
              s <| ps_telegramGroupMemberCount := Some n |> <| ps_telegramMemberCountAt := Some now |>);
        mret ());
      mret (updated + 1)
  end.

Definition refreshGroupMemberCounts (now : Z) : M World Z :=
  rows ← find_many MProtocolSettings (λ _ r, bool_decide (is_Some (ps_telegramGroupChatId r))) None;
  fold_each (λ updated row, refresh_row updated row now) 0 rows.

(** ** [TelegramMigrationService] *)

Definition MIGRATED_TTL : Z := 30 * 24 * 60 * 60.
Definition BATCH_SIZE : nat := 10.

Definition migrated_key (chatId protocolId : string) : string :=
  "tg:migrated:" +:+ chatId +:+ ":" +:+ protocolId.

Definition markMigrated (chatId protocolId : string) (now : Z) : M World () :=
  swallow () (redis_setex (migrated_key chatId protocolId) MIGRATED_TTL (RText "1") now).

Definition protocol_settings (protocolId : string) : M World (option ProtocolSettings) :=
  find_unique MProtocolSettings (by_id MProtocolSettings protocolId).

Definition resolveProtocolName (protocolId : string) : M World string :=
  swallow "Herald Protocol" (
    if negb (truthy (cc_encryptionKey (bc_channels cfg))) then mret "Herald Protocol" else
    protocol ← find_unique MProtocol (by_id MProtocol protocolId);
    if negb (truthy (p_nameEncrypted <$> protocol)) then mret "Herald Protocol" else
    lift (cc_decrypt (bc_channels cfg) (from_option p_nameEncrypted "" protocol)
            (default "" (cc_encryptionKey (bc_channels cfg))))).

Definition sendCustomBotWelcome (chatId protocolId : string) : M World () :=
  if negb (truthy (cc_encryptionKey (bc_channels cfg))) then mret () else
  settings ← protocol_settings protocolId;
  match decrypted_token (chain ps_telegramBotTokenEncrypted settings) with
  | None => mret ()
  | Some token =>
      protocolName ← resolveProtocolName protocolId;
      reply token chatId ("✅ <b>You're connected!</b>" +:+ nl +:+ nl +:+
        "<b>" +:+ escape_text protocolName +:+
        "</b> alerts will now be delivered directly via this bot." +:+ nl +:+ nl +:+
        "You'll receive notifications for DeFi positions, governance votes, security alerts, and more.")
  end.

(** What the loop over the subscribers counts. *)
Record MigrationResult := { mg_sent : Z; mg_skipped : Z }.

(** The body of the loop: [Some true] is [sent++], [Some false] [skipped++]. *)
Definition prompt_subscriber (protocolId botUsername protocolName : string)
    (walletPubkey : option string) (now : Z) : M World (option bool) :=
  if negb (truthy walletPubkey) then mret None else
  swallow (Some false) (
    identity ← resolve (default "" walletPubkey) now;
    match identity with
    | None => mret (Some false)
    | Some i =>
        if negb (ia_channelTelegram i) then mret (Some false) else
        channels ← decrypt_channels i;
        if negb (truthy (tc_telegramChatId channels)) then mret (Some false) else
        let chatId := default "" (tc_telegramChatId channels) in
        migrated ← isMigrated chatId protocolId now;
        if (migrated : bool) then mret (Some false) else
        _ ← sendSinglePrompt (bc_channels cfg) chatId protocolId botUsername protocolName now;
        mret (Some true)
    end).

Definition count_result (c : MigrationResult) (r : result (option bool)) : MigrationResult :=
  match r with
  | Ok (Some true) => c <| mg_sent ::= Z.add 1 |>
  | Ok (Some false) => c <| mg_skipped ::= Z.add 1 |>
  | _ => c
  end.

(** [subscriptions.slice(i, i + BATCH_SIZE)] for [i = 0, BATCH_SIZE, ...]; the
    length of the list is enough fuel. *)
Fixpoint batches {A} (fuel : nat) (l : list A) : list (list A) :=
  match fuel, l with
  | S fuel', _ :: _ => take BATCH_SIZE l :: batches fuel' (drop BATCH_SIZE l)
  | _, _ => []
  end.

Definition prompt_batch (protocolId botUsername protocolName : string) (now : Z)
    (c : MigrationResult) (batch : list ProtocolSubscription) : M World MigrationResult :=
  rs ← all_settled ((λ s, prompt_subscriber protocolId botUsername protocolName
                            (sub_walletPubkey s) now) <$> batch);
  mret (foldl count_result c rs).

Definition is_subscriber (protocolId : string) : where_ MProtocolSubscription := λ _ s,
  bool_decide (sub_protocolId s = protocolId) && bool_decide (sub_status s = Active) &&
  bool_decide (is_Some (sub_walletPubkey s)).

Definition sendMigrationPrompts (protocolId : string) (now : Z) : M World MigrationResult :=
  settings ← protocol_settings protocolId;
  let customBotUsername := chain ps_telegramBotUsername settings in
  if negb (truthy customBotUsername) then mret {| mg_sent := 0; mg_skipped := 0 |} else
  protocolName ← resolveProtocolName protocolId;
  subscriptions ← find_many MProtocolSubscription (is_subscriber protocolId) None;
  counts ← fold_each
    (prompt_batch protocolId (default "" customBotUsername) protocolName now)
    {| mg_sent := 0; mg_skipped := 0 |} (batches (length subscriptions) subscriptions);
  _ ← swallow () (
    _ ← update MProtocolSettings (by_id MProtocolSettings protocolId)
          (λ s, s <| ps_telegramMigrationSentAt := Some now |>);
    mret ());
  mret counts.

(** The [do] loop of [clearMigrationState]; [false] is out of fuel. *)
Fixpoint clear_pattern (fuel : nat) (pattern cursor : string) (now : Z) : M World bool :=
  match fuel with
  | O => mret false
  | S fuel' =>
      '(next, keys) ← swallow ("0", []) (redis_scan cursor pattern 100);
      _ ← swallow () (_ ← del_page keys now; mret ());
      if bool_decide (next = "0") then mret true else clear_pattern fuel' pattern next now
  end.

Definition migration_patterns (protocolId : string) : list string :=
  ["tg:migrated:*:" +:+ protocolId; "tg:migrate_prompt:*:" +:+ protocolId].

Definition clearMigrationState (fuel : nat) (protocolId : string) (now : Z) : M World bool :=
  fold_each (λ ok pattern, if (ok : bool) then clear_pattern fuel pattern "0" now else mret false)
    true (migration_patterns protocolId).

(** ** The updates of a custom bot *)

Definition getCustomBotToken (protocolId : string) : M World (option string) :=
  if negb (truthy (cc_encryptionKey (bc_channels cfg))) then mret None else
  settings ← protocol_settings protocolId;
  mret (decrypted_token (chain ps_telegramBotTokenEncrypted settings)).

Definition checkIsAdmin (token chatId : string) (userId : Z) : M World bool :=
  swallow false (λ w, (match bc_getChatMember cfg token chatId userId w with
    | Ok status => Ok (bool_decide (status ∈ ["creator"; "administrator"]))
    | Err e => Err e
    end, w)).

Definition handleCustomBotCallbackQuery (token : string) (query : CallbackQuery) (now : Z) :
    M World () :=
  let chatId := default (default "" (cq_chatId query)) (cq_messageChatId query) in
  let callbackData := default "" (cq_data query) in
  let queryId := default "" (cq_id query) in
  let ack := if nonblank queryId then answer token queryId None else mret () in
  if negb (nonblank chatId) then ack else
  handled ← swallow false (
    if str_starts "mute_" callbackData then
      notif ← find_unique MNotification (by_notification (str_from 5 callbackData));
      _ ← (if truthy (n_protocolId <$> notif) then
             _ ← redis_setex (mute_key chatId (from_option n_protocolId "" notif))
                   (30 * 24 * 60 * 60) (RText "1") now;
             answer token queryId
               (Some "🔇 Muted. You won't receive Telegram notifications from this protocol.")
           else answer token queryId (Some "⚠️ Notification not found."));
      mret true
    else mret false);
  if (handled : bool) then mret () else ack.

(** [welcome.replace(/\{\{name\}\}/g, safeName)] *)
Definition welcome_text (welcome safeName : string) : string :=
  of_units (substitute_from [] (units safeName) (segments (rlit "{{name}}") (units welcome))).

Definition handleCustomBotNewChatMembers (token protocolId chatId : string)
    (newChatMembers : list ChatUser) : M World () :=
  settings ← protocol_settings protocolId;
  let welcome := chain ps_telegramWelcomeMessage settings in
  if negb (truthy welcome) ||
     negb (bool_decide (chain ps_telegramGroupChatId settings = Some chatId)) then mret () else
  for_each (λ member,
    if cu_is_bot member then mret () else
    let safeName := escape_text (default "there" (cu_first_name member)) in
    reply token chatId (welcome_text (default "" welcome) safeName)) newChatMembers.

Definition handleCustomBotMyChatMember (token protocolId : string) (m : MyChatMember) : M World () :=
  let newStatus := default "" (mc_newStatus m) in
  let chatId := default "" (mc_chatId m) in
  match mc_fromId m with
  | None => mret ()
  | Some senderId =>
      if negb (nonblank chatId) || (senderId =? 0) then mret () else
      if bool_decide (newStatus ∈ ["left"; "kicked"]) then
        settings ← protocol_settings protocolId;
        if bool_decide (chain ps_telegramGroupChatId settings = Some chatId) then
          _ ← update MProtocolSettings (by_id MProtocolSettings protocolId) (λ s,
                s <| ps_telegramGroupChatId := None |> <| ps_telegramGroupMemberCount := None |>);
          mret ()
        else mret ()
      else if bool_decide (newStatus ∈ ["member"; "administrator"]) then
        if bool_decide (default "" (mc_chatType m) ∈ ["group"; "supergroup"]) then
          isAdmin ← checkIsAdmin token chatId senderId;
          if negb isAdmin then swallow () (_ ← send (BotLeaveEnvelope token chatId); mret ())
          else reply token chatId ("👋 <b>Herald Bot added!</b>" +:+ nl +:+ nl +:+
            "To link this group for notifications, go to your Herald Dashboard → Settings → Telegram → Link Group and follow the setup flow.")
        else mret ()
      else mret ()
  end.

Definition group_message_key (chatId messageId : string) : string :=
  "tg:gmsg:" +:+ chatId +:+ ":" +:+ messageId.

Definition handleCustomBotMessageReaction (protocolId : string) (reaction : MessageReaction)
    (now : Z) : M World () :=
  let chatId := default "" (mr_chatId reaction) in
  let messageId := default "" (mr_messageId reaction) in
  if negb (nonblank chatId) || negb (nonblank messageId) then mret () else
  match mr_newReaction reaction with
  | [] => mret ()
  | (emoji, custom) :: _ =>
      v ← swallow None (redis_get (group_message_key chatId messageId) now);
      match v with
      | Some (RText notifId) =>
          if negb (nonblank notifId) then mret () else
          notif ← find_unique MNotification (by_notification notifId);
          if negb (bool_decide (n_protocolId <$> notif = Some protocolId)) then mret () else
          swallow () (
            _ ← create MNotificationEngagement (λ id, {|
                  ne_id := id; ne_notificationId := notifId; ne_protocolId := protocolId;
                  ne_eventType := "tg_reaction";
                  ne_linkUrl := Some (default (default "unknown" custom) emoji);
                  ne_userAgentHash := None; ne_createdAt := now |});
            mret ())
      | _ => mret ()
      end
  end.

(** What a nonce of the dashboard lets a chat do: [None] where the group may be
    linked, else the reply that refuses it. *)
Definition refuse_nonce (protocolId : string) (parsed : GroupNonce) : option string :=
  if truthy (gn_botType parsed) && negb (bool_decide (gn_botType parsed = Some "custom")) then
    Some "⚠️ This setup link is for a different bot. Please use the correct bot to complete group setup."
  else if negb (bool_decide (gn_protocolId parsed = protocolId)) then
    Some "⚠️ This setup link is not valid for this bot."
  else None.

Definition nonce_key (nonce : string) : string := "tg:group_nonce:" +:+ nonce.

(** [JSON.parse]; the key only ever holds a nonce. *)
Definition parsed_nonce (v : option rvalue) : option GroupNonce :=
  match v with Some (RGroupNonce g) => Some g | _ => None end.

(** [/start setup_<nonce>] *)
Definition setup_group (token protocolId chatId : string) (userId : option Z) (nonce : string)
    (now : Z) : M World () :=
  let senderId := default 0 userId in
  if senderId =? 0 then mret () else
  isAdmin ← checkIsAdmin token chatId senderId;
  if negb isAdmin then
    reply token chatId "⚠️ Only group creators or administrators can link this bot."
  else
  data ← redis_get (nonce_key nonce) now;
  match parsed_nonce data with
  | None => reply token chatId
      "⏰ This setup link has expired. Please generate a new one from the Herald Portal."
  | Some parsed =>
      match refuse_nonce protocolId parsed with
      | Some refusal => reply token chatId refusal
      | None =>
          _ ← update MProtocolSettings (by_id MProtocolSettings (gn_protocolId parsed))
                (λ s, s <| ps_telegramGroupChatId := Some chatId |>);
          _ ← redis_setex (nonce_key nonce) 60
                (RGroupNonce (parsed <| gn_status := Some "completed" |> <| gn_chatId := Some chatId |>)) now;
          reply token chatId ("✅ <b>Group Linked Successfully!</b>" +:+ nl +:+ nl +:+
            "This group chat is now linked to your Herald protocol dashboard." +:+ nl +:+ nl +:+
            "Make sure this bot is promoted to <b>Administrator</b> with permission to post messages so alerts are delivered properly.")
      end
  end.

(** [/start] without an argument the bot knows *)
Definition greet (token chatId : string) (isGroup : bool) : M World () :=
  if isGroup then
    botUsername ← swallow None (λ w, (bc_getMe cfg token w, w));
    let cmdHint :=
      if truthy botUsername
      then "<code>/start@" +:+ default "" botUsername +:+ " setup_&lt;code&gt;</code>"
      else "<code>/start@[botname] setup_&lt;code&gt;</code>" in
    reply token chatId ("👋 <b>Herald Bot is here!</b>" +:+ nl +:+ nl +:+
      "To link this group for notifications, go to your <b>Herald Dashboard → Settings → Telegram → Link Group</b>, " +:+
      "generate a setup link, then paste the command shown there directly into this group." +:+ nl +:+ nl +:+
      "The command will look like:" +:+ nl +:+ cmdHint)
  else
    reply token chatId ("👋 <b>Welcome!</b>" +:+ nl +:+ nl +:+
      "I am the official custom notification bot for this protocol. I will deliver your real-time alerts here."
      +:+ nl +:+ nl +:+ "Use /help to see available commands.").

Definition start_command (token protocolId chatId : string) (userId : option Z) (isGroup : bool)
    (arg : option string) (now : Z) : M World () :=
  let a := default "" arg in
  if str_starts "hrld_" a then
    _ ← markMigrated chatId protocolId now;
    sendCustomBotWelcome chatId protocolId
  else if str_starts "setup_" a then
    setup_group token protocolId chatId userId (str_from 6 a) now
  else greet token chatId isGroup.

Definition status_command (token protocolId chatId : string) (isGroup : bool) : M World () :=
  if isGroup then
    settings ← protocol_settings protocolId;
    reply token chatId (
      if bool_decide (chain ps_telegramGroupChatId settings = Some chatId) then
        "📊 <b>Herald Bot Status</b>" +:+ nl +:+ nl +:+ "✅ This group (<code>" +:+ chatId +:+
        "</code>) is linked as the delivery group for this protocol."
      else
        "📊 <b>Herald Bot Status</b>" +:+ nl +:+ nl +:+
        "⚠️ This group is <b>not yet linked</b> for notifications." +:+ nl +:+ nl +:+
        "To link it, go to your Herald Dashboard → Settings → Telegram → Link Group.")
  else
    reply token chatId ("📊 <b>Herald Bot Status</b>" +:+ nl +:+ nl +:+ "✅ Chat ID: <code>" +:+
      chatId +:+ "</code>" +:+ nl +:+ "✅ Connection: Active" +:+ nl +:+ nl +:+
      "You are securely linked to receive direct alerts from this bot.").

Definition help_text : string :=
  "📖 <b>Available Commands</b>" +:+ nl +:+ nl +:+
  "/status — Check bot status and link group chat" +:+ nl +:+
  "/mute &lt;category&gt; — Mute a notification category" +:+ nl +:+
  "/unmute &lt;category&gt; — Unmute a notification category" +:+ nl +:+
  "/categories — Show all alert categories".

Definition mute_command (token chatId : string) (category : option string) (now : Z) : M World () :=
  let cat := default "" category in
  if negb (nonblank cat) then
    reply token chatId ("Usage: /mute &lt;category&gt;" +:+ nl +:+ nl +:+ "Valid categories: " +:+ category_list)
  else if negb (is_category cat) then
    reply token chatId ("❌ Unknown category <b>" +:+ escape_text cat +:+ "</b>." +:+ nl +:+ nl +:+
      "Valid categories: " +:+ category_list)
  else
    _ ← redis_setex (mute_cat_key chatId cat) (30 * 24 * 60 * 60) (RText "1") now;
    reply token chatId ("🔇 " +:+ category_emoji cat +:+ " <b>" +:+ cat +:+
      "</b> notifications muted for 30 days." +:+ nl +:+ nl +:+ "Use /unmute " +:+ cat +:+
      " to re-enable.").

Definition unmute_command (token chatId : string) (category : option string) : M World () :=
  let cat := default "" category in
  if negb (nonblank cat) then
    reply token chatId ("Usage: /unmute &lt;category&gt;" +:+ nl +:+ nl +:+ "Valid categories: " +:+ category_list)
  else if negb (is_category cat) then
    reply token chatId ("❌ Unknown category <b>" +:+ escape_text cat +:+ "</b>.")
  else
    _ ← redis_del (mute_cat_key chatId cat);
    reply token chatId ("🔔 " +:+ category_emoji cat +:+ " <b>" +:+ cat +:+
      "</b> notifications re-enabled.").

(** [verifyGroupAdmin] *)
Definition verifyGroupAdmin (token chatId : string) (userId : option Z) (isGroup : bool) :
    M World bool :=
  if negb isGroup then mret true
  else if default 0 userId =? 0 then mret false
  else checkIsAdmin token chatId (default 0 userId).

Definition handleCustomBotMessageText (token protocolId chatId : string) (userId : option Z)
    (txt : string) (chatType : option string) (now : Z) : M World () :=
  let isGroup := bool_decide (default "" chatType ∈ ["group"; "supergroup"]) in
  let rawCmd := default "" (word " " 0 txt) in
  let cleanCmd := lowered (default "" (word "@" 0 rawCmd)) in
  let arg := trimmed <$> word " " 1 txt in
  let as_admin (m : M World ()) : M World () :=
    ok ← verifyGroupAdmin token chatId userId isGroup;
    if (ok : bool) then m else mret () in
  if (cleanCmd =? "/start")%string then start_command token protocolId chatId userId isGroup arg now
  else if (cleanCmd =? "/status")%string then as_admin (status_command token protocolId chatId isGroup)
  else if (cleanCmd =? "/help")%string then as_admin (reply token chatId help_text)
  else if (cleanCmd =? "/mute")%string then as_admin (mute_command token chatId (lowered <$> arg) now)
  else if (cleanCmd =? "/unmute")%string then as_admin (unmute_command token chatId (lowered <$> arg))
  else if (cleanCmd =? "/categories")%string then
    as_admin (lines ← category_lines chatId now; reply token chatId (categories_message lines))
  else mret ().

(** The rest of [handleCustomBotUpdate] when the update has no message the
    bot reads. *)
Definition member_or_reaction (token protocolId : string) (update : Update) (now : Z) : M World () :=
  match up_my_chat_member update with
  | Some m => handleCustomBotMyChatMember token protocolId m
  | None =>
      match up_message_reaction update with
      | Some r => handleCustomBotMessageReaction protocolId r now
      | None => mret ()
      end
  end.

Definition custom_update (token protocolId : string) (update : Update) (now : Z) : M World () :=
  match up_callback_query update with
  | Some query => handleCustomBotCallbackQuery token query now
  | None =>
      match up_message update with
      | None => member_or_reaction token protocolId update now
      | Some message =>
          let chatId := default "" (bm_chatId message) in
          if negb (nonblank chatId) then mret () else
          match bm_new_chat_members message with
          | Some members => handleCustomBotNewChatMembers token protocolId chatId members
          | None =>
              if truthy (bm_text message) then
                handleCustomBotMessageText token protocolId chatId (bm_fromId message)
                  (trimmed (default "" (bm_text message))) (bm_chatType message) now
              else member_or_reaction token protocolId update now
          end
      end
  end.

Definition handleCustomBotUpdate (protocolId : string) (update : Update) (now : Z) : M World () :=
  token ← getCustomBotToken protocolId;
  if negb (truthy token) then mret ()
  else custom_update (default "" token) protocolId update now.

(** ** [TelegramWebhookController] *)

Definition Forbidden (message : string) : exn := HttpError 403 message.

Definition handleWebhook (update : Update) (secret : option string) (now : Z) : M World () :=
  if negb (verifySecret secret) then raise (Forbidden "Invalid webhook secret") else
  swallow () (handleUpdate update now).

Definition handleCustomBotWebhook (protocolId : string) (update : Update) (secret : option string)
    (now : Z) : M World () :=
  if negb (verifySecret secret) then raise (Forbidden "Invalid webhook secret") else
  swallow () (handleCustomBotUpdate protocolId update now).

Definition HOME : string := "https://useherald.xyz".

(** [trackClick]: where it redirects to. *)
Definition trackClick (notifId : string) (urlB64 : option string) (now : Z) : M World string :=
  let destination :=
    if truthy urlB64 then
      let url := bc_base64url cfg (default "" urlB64) in
      if bool_decide (bc_urlProtocol cfg url ∈ [Some "http:"; Some "https:"]) then url else HOME
    else HOME in
  _ ← swallow () (recordClickAsync notifId now);
  mret destination.

Definition clearBlocked (fuel : nat) (chatId : option string) (now : Z) : M World (option Z) :=
  let chatId := trimmed <$> chatId in
  clearBlockedChats fuel (if truthy chatId then chatId else None) now.

Definition verifyInternalSecret (secret : option string) : result () :=
  if negb (truthy (bc_internalKey cfg)) || negb (bool_decide (secret = bc_internalKey cfg))
  then Err (Forbidden "Invalid internal secret") else Ok ().

Definition triggerMigration (protocolId : string) (secret : option string) (now : Z) :
    M World MigrationResult :=
  _ ← lift (verifyInternalSecret secret);
  sendMigrationPrompts protocolId now.

Definition clearMigration (fuel : nat) (protocolId : string) (secret : option string) (now : Z) :
    M World bool :=
  _ ← lift (verifyInternalSecret secret);
  clearMigrationState fuel protocolId now.
End bots.

(** ** Lemmas: what a handler may touch *)

Definition bot_envelope (e : envelope) : Prop :=
  match e with
  | BotMessageEnvelope _ _ _ | BotAnswerEnvelope _ _ _ | BotLeaveEnvelope _ _ => True
  | _ => False
  end.

(** The handlers record engagement and connections, set Redis keys and reply. *)
Definition bot_frame : Frame := {|
  fr_table m := m = MNotificationEngagement ∨ m = MTelegramPendingConnection;
  fr_job _ := False; fr_key _ := True; fr_send := bot_envelope |}.

(** Messages only. *)
Definition reply_frame : Frame := {|
  fr_table _ := False; fr_job _ := False; fr_key _ := False; fr_send := bot_envelope |}.

Section lemmas.
Context `{B : Backend} `{BL : !BackendLaws B} `{R : Routing (B := B)}.
Context (cfg : BotConfig).

Lemma reply_keeps F token chatId body :
  (∀ e, bot_envelope e → fr_send F e) → Keeps F (reply token chatId body).
Proof. intros HF. unfold reply. keeps. by apply HF. Qed.

Lemma answer_keeps F token queryId txt :
  (∀ e, bot_envelope e → fr_send F e) → Keeps F (answer token queryId txt).
Proof. intros HF. unfold answer. keeps. by apply HF. Qed.

Lemma with_herald_keeps F f : (∀ t, Keeps F (f t)) → Keeps F (with_herald cfg f).
Proof. intros HF. unfold with_herald. keeps; apply HF. Qed.

Lemma checkIsAdmin_keeps F token chatId u : Keeps F (checkIsAdmin cfg token chatId u).
Proof. apply keeps_swallow, keeps_read. Qed.

Lemma category_lines_keeps F chatId now : Keeps F (category_lines chatId now).
Proof. unfold category_lines. keeps. Qed.

Ltac bot := keeps; repeat first
  [ apply with_herald_keeps; intros ?
  | apply reply_keeps; [done]
  | apply answer_keeps; [done]
  | apply checkIsAdmin_keeps
  | apply category_lines_keeps
  | apply keeps_read
  | keeps_step ]; cbn; auto.

Lemma dispatch_update_keeps update now : Keeps bot_frame (dispatch_update cfg update now).
Proof.
  unfold dispatch_update, handleCallbackQuery, handleMuteCallback, handleStartConnect, sendWelcome,
    handleMuteCommand, handleUnmuteCommand, handleCategoriesCommand. bot.
Qed.

Lemma handleUpdate_keeps update now : Keeps bot_frame (handleUpdate cfg update now).
Proof. unfold handleUpdate. keeps. apply dispatch_update_keeps. Qed.

Lemma custom_callback_keeps token query now :
  Keeps bot_frame (handleCustomBotCallbackQuery token query now).
Proof. unfold handleCustomBotCallbackQuery. bot. Qed.

Lemma new_members_keeps token protocolId chatId members :
  Keeps bot_frame (handleCustomBotNewChatMembers token protocolId chatId members).
Proof. unfold handleCustomBotNewChatMembers, protocol_settings. bot. Qed.

Lemma reaction_keeps protocolId reaction now :
  Keeps bot_frame (handleCustomBotMessageReaction protocolId reaction now).
Proof. unfold handleCustomBotMessageReaction. bot. Qed.

Lemma resolveProtocolName_keeps F protocolId : Keeps F (resolveProtocolName cfg protocolId).
Proof. unfold resolveProtocolName. keeps. Qed.

Lemma welcome_keeps chatId protocolId : Keeps bot_frame (sendCustomBotWelcome cfg chatId protocolId).
Proof. unfold sendCustomBotWelcome, protocol_settings. bot. apply resolveProtocolName_keeps. Qed.

(** The operations on the groups of a protocol never reject; they change no
    table and no key, and send messages of bots only. *)
Lemma group_operations_safe create_topic chatId name userId welcome token :
  (∀ w, wp (createForumTopic cfg create_topic chatId name token) (λ r w', is_ok r = true ∧ view w' = view w) w) ∧
  (∀ w, wp (sendWelcomeMessage cfg chatId userId welcome token) (λ r w', is_ok r = true ∧
    within reply_frame (view w) (view w')) w).
Proof.
  split; intros w.
  - unfold createForumTopic. destruct (negb _); [by apply wp_ret |].
    apply wp_swallow, wp_bind. unfold wp. cbn.
    by destruct (create_topic _ _ _ _) as [o|e].
  - unfold sendWelcomeMessage. destruct (negb _); [by apply wp_ret |].
    assert (Keeps reply_frame (reply (default "" (bot_token cfg token)) chatId
      (of_units (Template.replace_first (rlit "{{userId}}") (λ _, units (pretty userId)) (units welcome))))) as HK.
    { by apply reply_keeps. }
    apply wp_intro. intros r w' Hrun. split; [| exact (wp_run _ _ _ _ _ (HK w) Hrun)].
    unfold reply, swallow, catch in Hrun. case_match. by case_match; inversion Hrun.
Qed.

Lemma greet_keeps token chatId isGroup : Keeps bot_frame (greet cfg token chatId isGroup).
Proof. unfold greet. bot. Qed.
End lemmas.

(** ** Lemmas: the group of a protocol *)

(** From one table of settings to the next, the group changes at most for
    [protocolId], from one to another as [P] allows. *)
Definition group_step (protocolId : string) (P : option string → option string → Prop)
    (t t' : gmap string ProtocolSettings) : Prop :=
  ∀ k s', t' !! k = Some s' → ∃ s, t !! k = Some s ∧
    (ps_telegramGroupChatId s' = ps_telegramGroupChatId s ∨
     (k = protocolId ∧ P (ps_telegramGroupChatId s) (ps_telegramGroupChatId s'))).

Lemma group_step_refl protocolId P t : group_step protocolId P t t.
Proof. intros k s' Hs. eauto. Qed.

Lemma group_step_insert protocolId (P : option string → option string → Prop)
    (t : gmap string ProtocolSettings) s f :
  t !! protocolId = Some s →
  P (ps_telegramGroupChatId s) (ps_telegramGroupChatId (f s)) →
  group_step protocolId P t (<[protocolId := f s]> t).
Proof.
  intros Hs HP k s' Hs'. destruct (decide (k = protocolId)) as [-> | Hne].
  - rewrite lookup_insert_eq in Hs'. injection Hs' as <-. eauto.
  - rewrite lookup_insert_ne in Hs' by done. eauto.
Qed.

(** The sender of an update may link the chat [c] to the protocol: an
    administrator's command with a nonce the dashboard made for the protocol
    and a bot of its own. *)
Definition may_link `{B : Backend} (cfg : BotConfig) (token protocolId : string) (update : Update)
    (now : Z) (v : View) (c : string) : Prop :=
  ∃ message arg user nonce status w,
    up_message update = Some message ∧ default "" (bm_chatId message) = c ∧
    bm_fromId message = Some user ∧
    trimmed <$> word " " 1 (trimmed (default "" (bm_text message))) = Some arg ∧
    str_starts "setup_" arg = true ∧
    live now (re_strings (v_redis v) !! nonce_key (str_from 6 arg)) = Some (RGroupNonce nonce) ∧
    gn_protocolId nonce = protocolId ∧
    gn_botType nonce ∈ [None; Some ""; Some "custom"] ∧
    bc_getChatMember cfg token c user w = Ok status ∧ status ∈ ["creator"; "administrator"].

(** Telegram reports that the bot has left the chat [c], or was removed. *)
Definition removed_from (update : Update) (c : string) : Prop :=
  ∃ m, up_my_chat_member update = Some m ∧ default "" (mc_chatId m) = c ∧
    default "" (mc_newStatus m) ∈ ["left"; "kicked"].

(** How an update may change the group of its protocol. *)
Definition may_relink `{B : Backend} (cfg : BotConfig) (token protocolId : string) (update : Update)
    (now : Z) (v : View) (old new : option string) : Prop :=
  match new with
  | Some c => may_link cfg token protocolId update now v c
  | None => ∃ c, old = Some c ∧ removed_from update c
  end.

Section linking.
Context `{B : Backend} `{BL : !BackendLaws B} `{R : Routing (B := B)}.
Context (cfg : BotConfig).

Definition keeps_group {A} (protocolId : string) (P : View → option string → option string → Prop)
    (m : M World A) : Prop :=
  ∀ w, wp m (λ _ w', group_step protocolId (P (view w))
    (v_tables (view w) MProtocolSettings) (v_tables (view w') MProtocolSettings)) w.

Lemma keeps_group_keeps {A} protocolId P (m : M World A) :
  Keeps bot_frame m → keeps_group protocolId P m.
Proof.
  intros Hm w. apply (wp_keeps bot_frame); [done |]. intros r w' [Ht _ _ _].
  rewrite Ht; [apply group_step_refl |]. by intros [? | ?].
Qed.

Lemma isAdmin_spec token chatId u w :
  wp (checkIsAdmin cfg token chatId u) (λ r w', view w' = view w ∧ ∃ b, r = Ok b ∧
    (b = true → ∃ status, bc_getChatMember cfg token chatId u w = Ok status ∧
       status ∈ ["creator"; "administrator"])) w.
Proof.
  unfold checkIsAdmin, swallow, catch, wp.
  destruct (bc_getChatMember cfg token chatId u w) as [status | e]; cbn; split; try done.
  - eexists. split; [done |]. intros Hb%bool_decide_eq_true. eauto.
  - exists false. by split.
Qed.

Lemma refuse_nonce_None protocolId parsed :
  refuse_nonce protocolId parsed = None →
  gn_protocolId parsed = protocolId ∧ gn_botType parsed ∈ [None; Some ""; Some "custom"].
Proof.
  unfold refuse_nonce. destruct (truthy _ && _) eqn:Hb; [done |].
  destruct (bool_decide (gn_protocolId _ = _)) eqn:Hp; [intros _ | done].
  apply bool_decide_eq_true in Hp. split; [done |].
  destruct (gn_botType parsed) as [[|a s]|]; cbn in Hb; [set_solver | | set_solver].
  apply negb_false_iff, bool_decide_eq_true in Hb. rewrite Hb. set_solver.
Qed.

Lemma reply_tables token chatId body w Q :
  (∀ r w', v_tables (view w') = v_tables (view w) → Q r w') →
  wp (reply token chatId body) Q w.
Proof.
  intros HQ. unfold reply. apply wp_swallow, wp_bind, wp_send.
  - intros rc w' Hv. apply wp_ret, HQ. by rewrite Hv.
  - intros e w' [Hv | Hv]; apply HQ; by rewrite Hv.
Qed.

Lemma setup_group_spec token protocolId chatId userId arg now w :
  wp (setup_group cfg token protocolId chatId userId (str_from 6 arg) now)
    (λ _ w', group_step protocolId (λ _ c, c = Some chatId ∧ ∃ user nonce status w0, userId = Some user ∧
      live now (re_strings (v_redis (view w)) !! nonce_key (str_from 6 arg)) = Some (RGroupNonce nonce) ∧
      gn_protocolId nonce = protocolId ∧ gn_botType nonce ∈ [None; Some ""; Some "custom"] ∧
      bc_getChatMember cfg token chatId user w0 = Ok status ∧ status ∈ ["creator"; "administrator"])
      (v_tables (view w) MProtocolSettings) (v_tables (view w') MProtocolSettings)) w.
Proof.
  unfold setup_group. destruct userId as [u|]; cbn [from_option id].
  2: { by apply wp_ret, group_step_refl. }
  destruct (u =? 0); [by apply wp_ret, group_step_refl |].
  apply wp_bind. eapply wp_mono; [apply isAdmin_spec |]. intros r w1 (Hv1 & b & -> & Hadmin).
  destruct b; cbn [negb]; [| apply reply_tables; intros ? ? ->; rewrite Hv1; apply group_step_refl].
  destruct (Hadmin eq_refl) as (status & Hget & Hstatus). clear Hadmin.
  apply wp_bind, wp_redis_get; [| intros e w2 Hv2; rewrite Hv2, Hv1; apply group_step_refl].
  intros w2 Hv2. rewrite Hv1.
  destruct (parsed_nonce _) as [nonce|] eqn:Hn.
  2: { apply reply_tables; intros ? ? ->. rewrite Hv2, Hv1. apply group_step_refl. }
  assert (live now (re_strings (v_redis (view w)) !! nonce_key (str_from 6 arg)) =
    Some (RGroupNonce nonce)) as Hlive.
  { unfold parsed_nonce in Hn. destruct (live _ _) as [[]|]; congruence. }
  destruct (refuse_nonce protocolId nonce) as [refusal|] eqn:Href.
  { apply reply_tables; intros ? ? ->. rewrite Hv2, Hv1. apply group_step_refl. }
  apply refuse_nonce_None in Href as [Hp Hb]. rewrite Hp. unfold by_id.
  apply wp_bind, (wp_update MProtocolSettings).
  2: { intros e w3 Hv3. rewrite Hv3, Hv2, Hv1. apply group_step_refl. }
  intros k s w3 Hk ->%bool_decide_eq_true Hv3.
  assert (∀ w', v_tables (view w') = v_tables (view w3) →
    group_step protocolId (λ _ c, c = Some chatId ∧ ∃ user nonce0 status0 w0, Some u = Some user ∧
      live now (re_strings (v_redis (view w)) !! nonce_key (str_from 6 arg)) = Some (RGroupNonce nonce0) ∧
      gn_protocolId nonce0 = protocolId ∧ gn_botType nonce0 ∈ [None; Some ""; Some "custom"] ∧
      bc_getChatMember cfg token chatId user w0 = Ok status0 ∧ status0 ∈ ["creator"; "administrator"])
      (v_tables (view w) MProtocolSettings) (v_tables (view w') MProtocolSettings)) as Hdone.
  { intros w' ->. rewrite Hv3, Hv2, Hv1 in *. cbn. rewrite upd_eq.
    apply (group_step_insert protocolId _ _ s (λ s, s <| ps_telegramGroupChatId := Some chatId |>));
      [done |]. cbn. split; [done |]. exists u, nonce, status, w. done. }
  apply wp_bind, wp_redis_setex.
  - intros w4 Hv4. apply reply_tables. intros r w5 Hv5. apply Hdone. rewrite Hv5, Hv4. done.
  - intros e w4 Hv4. apply Hdone. by rewrite Hv4.
Qed.
End linking.

Section updates.
Context `{B : Backend} `{BL : !BackendLaws B} `{R : Routing (B := B)}.
Context (cfg : BotConfig).

Lemma my_chat_member_group token protocolId update now m : up_my_chat_member update = Some m →
  keeps_group protocolId (may_relink cfg token protocolId update now)
    (handleCustomBotMyChatMember cfg token protocolId m).
Proof.
  intros Hm w. unfold handleCustomBotMyChatMember.
  destruct (mc_fromId m) as [u|]; [| by apply wp_ret, group_step_refl].
  destruct (_ || _); [by apply wp_ret, group_step_refl |].
  destruct (bool_decide (_ ∈ _)) eqn:Hst; [| apply keeps_group_keeps;
    keeps; first [apply checkIsAdmin_keeps | by apply reply_keeps]].
  apply bool_decide_eq_true in Hst. unfold protocol_settings.
  apply wp_bind, (wp_find_unique MProtocolSettings); [| intros e w1 ->; apply group_step_refl].
  intros o w1 Ho%found_by_id Hv1.
  destruct (bool_decide _) eqn:Hg; [| apply wp_ret; rewrite Hv1; apply group_step_refl].
  apply bool_decide_eq_true in Hg. apply wp_bind, (wp_update MProtocolSettings).
  - intros k s w2 Hk ->%bool_decide_eq_true Hv2. apply wp_ret. rewrite Hv2, Hv1 in *. cbn.
    rewrite upd_eq. apply (group_step_insert _ _ _ s (λ s, s <| ps_telegramGroupChatId := None |>
      <| ps_telegramGroupMemberCount := None |>)); [done |].
    cbn. exists (default "" (mc_chatId m)). split; [| by exists m].
    subst o. cbn [row] in *. rewrite Hk in Hg. exact Hg.
  - intros e w2 Hv2. rewrite Hv2, Hv1. apply group_step_refl.
Qed.

Lemma member_or_reaction_group token protocolId update now :
  keeps_group protocolId (may_relink cfg token protocolId update now)
    (member_or_reaction cfg token protocolId update now).
Proof.
  unfold member_or_reaction. destruct (up_my_chat_member update) eqn:Hm; [by apply my_chat_member_group |].
  apply keeps_group_keeps. keeps. apply reaction_keeps.
Qed.

Lemma verifyGroupAdmin_keeps F token chatId userId isGroup :
  Keeps F (verifyGroupAdmin cfg token chatId userId isGroup).
Proof. unfold verifyGroupAdmin. keeps. apply checkIsAdmin_keeps. Qed.

Lemma custom_update_group token protocolId update now w :
  wp (custom_update cfg token protocolId update now) (λ _ w', group_step protocolId
    (may_relink cfg token protocolId update now (view w))
    (v_tables (view w) MProtocolSettings) (v_tables (view w') MProtocolSettings)) w.
Proof.
  unfold custom_update.
  destruct (up_callback_query update); [apply (keeps_group_keeps _ (may_relink cfg token protocolId update now)), custom_callback_keeps |].
  destruct (up_message update) as [msg|] eqn:Hmsg; [| apply member_or_reaction_group].
  destruct (negb (nonblank _)); [by apply wp_ret, group_step_refl |].
  destruct (bm_new_chat_members msg); [apply (keeps_group_keeps _ (may_relink cfg token protocolId update now)), new_members_keeps |].
  destruct (truthy (bm_text msg)); [| apply member_or_reaction_group].
  unfold handleCustomBotMessageText. set (txt := trimmed _). set (isGroup := bool_decide _).
  destruct (_ =? "/start")%string.
  - unfold start_command. destruct (str_starts "hrld_" _).
    { apply (keeps_group_keeps _ (may_relink cfg token protocolId update now)). unfold markMigrated. keeps. apply welcome_keeps. }
    destruct (str_starts "setup_" _) eqn:Hs;
      [| apply (keeps_group_keeps _ (may_relink cfg token protocolId update now)), greet_keeps].
    eapply wp_mono; [apply setup_group_spec |]. intros r w' Hstep k s' Hs'.
    destruct (Hstep k s' Hs') as (s & Hk & Hg). exists s. split; [done |].
    destruct Hg as [? | [-> Hg]]; [by left | right]. split; [done |].
    cbn in Hg |- *. destruct Hg as (-> & user & nonce & status & w0 & Hu & Hlive & Hp & Hb & Hget & Hstatus).
    destruct (trimmed <$> word " " 1 txt) as [arg|] eqn:Harg; [| by cbn in Hs].
    exists msg, arg, user, nonce, status, w0. done.
  - apply (keeps_group_keeps _ (may_relink cfg token protocolId update now)).
    unfold status_command, mute_command, unmute_command, protocol_settings.
    keeps; repeat first [apply verifyGroupAdmin_keeps | apply category_lines_keeps
      | by apply reply_keeps | keeps_step]; done.
Qed.

(** ** Lemmas: iterating over the keys *)

(** Keys that match [pattern] were removed, and nothing else was done. *)
Definition only_cleared (pattern : string) (v v' : View) : Prop :=
  ∃ m, v' = v <| v_redis ::= set re_strings (const m) |> ∧ m ⊆ re_strings (v_redis v) ∧
    ∀ k, key_matches pattern k = false → m !! k = re_strings (v_redis v) !! k.

Lemma only_cleared_refl pattern v : only_cleared pattern v v.
Proof. exists (re_strings (v_redis v)). by destruct v as [? [] ? ?]. Qed.

Lemma only_cleared_trans pattern v1 v2 v3 :
  only_cleared pattern v1 v2 → only_cleared pattern v2 v3 → only_cleared pattern v1 v3.
Proof.
  intros (m & -> & Hm & Hk) (m' & -> & Hm' & Hk'). cbn in *. exists m'.
  split_and!; [done | by etrans | intros k Hp; by rewrite Hk', Hk].
Qed.

Lemma only_cleared_del pattern v ks :
  (∀ k, k ∈ ks → key_matches pattern k = true) →
  only_cleared pattern v (v <| v_redis ::= set re_strings (del_keys ks) |>).
Proof.
  intros Hks. exists (del_keys ks (re_strings (v_redis v))). split_and!; [done | |].
  - apply map_subseteq_spec. intros k x. rewrite lookup_del_keys. by case_bool_decide.
  - intros k Hk. rewrite lookup_del_keys, bool_decide_eq_false_2; [done |].
    intros Hin%Hks. congruence.
Qed.

Lemma only_cleared_none pattern v v' k :
  only_cleared pattern v v' → re_strings (v_redis v) !! k = None →
  re_strings (v_redis v') !! k = None.
Proof. intros (m & -> & Hm & _) Hk. cbn. by eapply lookup_weaken_None. Qed.

Lemma wp_del_page pattern keys now (Q : result Z → World → Prop) w :
  (∀ k, k ∈ keys → key_matches pattern k = true) →
  (∀ r w', only_cleared pattern (view w) (view w') →
     (∀ c, scan_left c (w_redis w') = scan_left c (w_redis w)) →
     (∀ c k, k ∈ scan_todo c (w_redis w) → is_Some (re_strings (v_redis (view w')) !! k) →
        k ∈ scan_todo c (w_redis w')) →
     (is_ok r = true → ∀ k, k ∈ keys → re_strings (v_redis (view w')) !! k = None) → Q r w') →
  wp (del_page keys now) Q w.
Proof.
  intros Hkeys HQ. unfold del_page. case_bool_decide as Hnil.
  - apply wp_ret, HQ; [apply only_cleared_refl | done | done |].
    subst. by intros _ k ?%elem_of_nil.
  - apply wp_redis_del_many. intros r w' Hr Hl Ht. apply HQ; [| done | done |].
    + destruct r as [n | e]; [destruct Hr as [-> _]; by apply only_cleared_del |].
      rewrite Hr. apply only_cleared_refl.
    + intros Hok k Hk. destruct r as [n | e]; [| done]. destruct Hr as [-> _]. cbn.
      by rewrite lookup_del_keys, bool_decide_eq_true_2.
Qed.

(** What remains to be cleared once the iteration has come to [cursor]. *)
Definition cleared_from (pattern cursor : string) (w w' : World) : Prop :=
  ∀ k, k ∈ scan_todo cursor (w_redis w) → key_matches pattern k = true →
    re_strings (v_redis (view w')) !! k = None.

Lemma clear_loop_spec fuel pattern cursor removed now w :
  (scan_left cursor (w_redis w) < fuel)%nat →
  wp (clear_loop fuel pattern cursor removed now) (λ r w', only_cleared pattern (view w) (view w') ∧
    match r with
    | Ok o => is_Some o ∧ cleared_from pattern cursor w w'
    | Err _ => True
    end) w.
Proof.
  revert cursor removed w. induction fuel as [|fuel IH]; intros cursor removed w Hfuel; [lia |].
  cbn [clear_loop]. apply wp_bind, wp_redis_scan; [| intros e w1 ->; by split; [apply only_cleared_refl |]].
  intros next keys w1 Hv1 Hkeys Htodo Hleft.
  apply wp_bind, (wp_del_page pattern); [done |]. intros r w2 Hc2 Hl2 Ht2 Hdel. rewrite Hv1 in Hc2.
  destruct r as [n | e]; [| done]. specialize (Hdel eq_refl).
  case_bool_decide as Hnext.
  - apply wp_ret. split_and!; [done | by eexists |]. intros k Hk Hp.
    destruct (Htodo k Hk Hp) as [? | [? _]]; [by apply Hdel | done].
  - eapply wp_mono; [apply IH; rewrite Hl2; specialize (Hleft Hnext); lia |].
    intros r w3 [Hc3 Hr]. split; [by eapply only_cleared_trans |].
    destruct r as [o | e]; [| done]. destruct Hr as [Ho Hrest]. split; [done |]. intros k Hk Hp.
    destruct (re_strings (v_redis (view w2)) !! k) eqn:Hk2; [| by eapply only_cleared_none].
    destruct (Htodo k Hk Hp) as [Hin | [_ Hin]]; [by rewrite Hdel in Hk2 |].
    apply Hrest; [apply Ht2; by rewrite ?Hk2 | done].
Qed.

Lemma clear_pattern_spec fuel pattern cursor now w :
  (scan_left cursor (w_redis w) < fuel)%nat →
  wp (clear_pattern fuel pattern cursor now) (λ r w', r = Ok true ∧
    only_cleared pattern (view w) (view w')) w.
Proof.
  revert cursor w. induction fuel as [|fuel IH]; intros cursor w Hfuel; [lia |].
  cbn [clear_pattern]. apply wp_bind, wp_swallow, wp_redis_scan.
  2: { intros e w1 Hv1. apply wp_bind, wp_swallow, wp_bind, wp_ret. cbn. apply wp_ret.
       apply wp_ret. rewrite Hv1. split; [done | apply only_cleared_refl]. }
  intros next keys w1 Hv1 Hkeys _ Hleft.
  apply wp_bind, wp_swallow, wp_bind, (wp_del_page pattern); [done |].
  intros r w2 Hc2 Hl2 _ _. rewrite Hv1 in Hc2.
  assert (wp (if bool_decide (next = "0") then mret true else clear_pattern fuel pattern next now)
    (λ r0 w', r0 = Ok true ∧ only_cleared pattern (view w) (view w')) w2) as Hrest.
  { case_bool_decide as Hnext; [by apply wp_ret |].
    eapply wp_mono; [apply IH; rewrite Hl2; specialize (Hleft Hnext); lia |].
    intros r0 w3 [-> Hc3]. split; [done | by eapply only_cleared_trans]. }
  destruct r; [by apply wp_ret | done].
Qed.
End updates.

(** ** Lemmas: the prompts to migrate *)

Definition is_prompt (e : envelope) : Prop :=
  match e with MigrationPromptEnvelope _ _ _ _ => True | _ => False end.

Definition migration_frame : Frame := {|
  fr_table m := m = MProtocolSettings; fr_job _ := False; fr_key _ := True; fr_send := is_prompt |}.

Definition has_wallet (s : ProtocolSubscription) : bool := truthy (sub_walletPubkey s).

(** The counters, and the messages sent since. *)
Definition counted (n : nat) (c : MigrationResult) (v v' : View) : Prop :=
  mg_sent c + mg_skipped c = Z.of_nat n ∧
  within migration_frame v v' ∧
  Z.of_nat (length (v_sent v')) ≤ Z.of_nat (length (v_sent v)) + mg_sent c.

Section migration.
Context `{B : Backend} `{BL : !BackendLaws B} `{R : Routing (B := B)} `{RL : !RoutingLaws R}.
Context (cfg : BotConfig).

Lemma cache_quiet {A} (m : M World A) (Q : result A → World → Prop) w :
  Keeps cache_frame m →
  (∀ r w', within migration_frame (view w) (view w') → v_sent (view w') = v_sent (view w) → Q r w') →
  wp m Q w.
Proof.
  intros Hm HQ. apply (wp_keeps cache_frame); [done |]. intros r w' Hw. apply HQ.
  - eapply within_le; [| exact Hw]. by split.
  - destruct Hw as [_ _ _ (l & -> & Hl)]. destruct l; [by rewrite app_nil_r |].
    by apply list.Forall_cons in Hl as [? _].
Qed.

(** One subscriber sends at most the message it is counted for. *)
Definition prompted (w w' : World) (b : bool) : Prop :=
  within migration_frame (view w) (view w') ∧
  (length (v_sent (view w')) ≤ length (v_sent (view w)) + if b then 1 else 0)%nat.

Lemma prompted_quiet w w' :
  within migration_frame (view w) (view w') → v_sent (view w') = v_sent (view w) →
  prompted w w' false.
Proof. intros Hw Hs. split; [done |]. rewrite Hs. lia. Qed.

Lemma single_prompt_step c chatId protocolId botUsername protocolName now w :
  wp (sendSinglePrompt c chatId protocolId botUsername protocolName now)
    (λ r w', r = Ok () ∧ prompted w w' true) w.
Proof.
  assert (∀ w', view w' = view w → prompted w w' true) as Hsame.
  { intros w' Hv. unfold prompted. rewrite Hv. split; [done | lia]. }
  assert (∀ v w', v = (view w) <| v_sent ::= λ l, l ++ [MigrationPromptEnvelope chatId protocolId
    botUsername protocolName] |> → within migration_frame v (view w') →
    v_sent (view w') = v_sent v → prompted w w' true) as Hone.
  { intros v w' -> Hw Hs. unfold prompted. rewrite Hs. cbn. rewrite length_app. cbn.
    split; [| lia]. etrans; [| exact Hw]. split; cbn; [done.. |]. eexists. split; [done |].
    by constructor. }
  unfold sendSinglePrompt. apply wp_bind, wp_swallow.
  assert (∀ (v : option rvalue) w1, view w1 = view w → wp (if bool_decide (is_Some v) then mret () else
     if negb (truthy (cc_heraldToken c)) then mret () else
     swallow () (_ ← send (MigrationPromptEnvelope chatId protocolId botUsername protocolName);
       swallow () (redis_setex ("tg:migrate_prompt:" +:+ chatId +:+ ":" +:+ protocolId)
         PROMPTED_TTL (RText "1") now))) (λ r w', r = Ok () ∧ prompted w w' true) w1) as Hrest.
  { intros v w1 Hv1. destruct (bool_decide _); [apply wp_ret; auto |].
    destruct (negb _); [apply wp_ret; auto |].
    apply wp_swallow, wp_bind, wp_send; rewrite Hv1.
    - intros rc w2 Hv2. apply wp_swallow, wp_redis_setex; intros; (split; [done |]); apply (Hone (view w2)); try done;
        rewrite H; try done. by apply within_key with ("tg:migrate_prompt:" +:+ chatId +:+ ":" +:+ protocolId);
          [| intros; rewrite lookup_insert_ne].
    - intros e w2 [Hv2 | Hv2]; (split; [done |]); [by apply Hsame | by apply (Hone (view w2))]. }
  apply wp_redis_get; intros; by apply Hrest.
Qed.

Lemma prompt_step protocolId botUsername protocolName wallet now w :
  wp (prompt_subscriber cfg protocolId botUsername protocolName wallet now)
    (λ r w', ∃ o, r = Ok o ∧ bool_decide (is_Some o) = truthy wallet ∧
       prompted w w' (default false o)) w.
Proof.
  assert (∀ w', prompted w w' false → ∃ o, Ok (Some false) = Ok o ∧
    bool_decide (is_Some o) = true ∧ prompted w w' (default false o)) as Hskip by eauto.
  unfold prompt_subscriber. destruct (truthy wallet); cbn [negb].
  2: { apply wp_ret. exists None. split_and!; [done.. |]. by apply prompted_quiet. }
  apply wp_swallow, wp_bind, cache_quiet; [apply resolve_keeps |]. intros r w1 Hw1 Hs1.
  assert (prompted w w1 false) as Hp1 by by apply prompted_quiet.
  destruct r as [[i|] | e]; [| apply wp_ret; by apply Hskip | by apply Hskip].
  destruct (negb _); [apply wp_ret; by apply Hskip |].
  apply wp_bind, cache_quiet; [apply decrypt_keeps |]. intros r w2 Hw2 Hs2.
  assert (prompted w w2 false) as Hp2 by (apply prompted_quiet; [by etrans | congruence]).
  destruct r as [ch | e]; [| by apply Hskip].
  destruct (negb _); [apply wp_ret; by apply Hskip |].
  apply wp_bind, cache_quiet; [unfold isMigrated; keeps |]. intros r w3 Hw3 Hs3.
  assert (prompted w w3 false) as Hp3.
  { apply prompted_quiet; [by do 2 (etrans; [done |]) | congruence]. }
  destruct r as [[] | e]; [apply wp_ret; by apply Hskip | | by apply Hskip].
  apply wp_bind. eapply wp_mono; [apply single_prompt_step |].
  intros r w4 (-> & Hw4 & Hs4). apply wp_ret. exists (Some true). split_and!; [done.. |].
  destruct Hp3 as [Hw Hs]. split; [by etrans | cbn; lia].
Qed.

Lemma prompt_batch_step protocolId botUsername protocolName now c batch w :
  wp (prompt_batch cfg protocolId botUsername protocolName now c batch)
    (λ r w', ∃ c', r = Ok c' ∧ within migration_frame (view w) (view w') ∧
       mg_sent c' + mg_skipped c' =
         mg_sent c + mg_skipped c + Z.of_nat (length (List.filter has_wallet batch)) ∧
       Z.of_nat (length (v_sent (view w'))) - mg_sent c' ≤
         Z.of_nat (length (v_sent (view w))) - mg_sent c) w.
Proof.
  unfold prompt_batch. apply wp_bind. set (f := λ s, prompt_subscriber _ _ _ _ _ _).
  apply (wp_all_settled _ (λ rs ms w', ∃ rest, ms = f <$> rest ∧
    let c' := foldl count_result c rs in
    within migration_frame (view w) (view w') ∧
    mg_sent c' + mg_skipped c' + Z.of_nat (length (List.filter has_wallet rest)) =
      mg_sent c + mg_skipped c + Z.of_nat (length (List.filter has_wallet batch)) ∧
    Z.of_nat (length (v_sent (view w'))) - mg_sent c' ≤
      Z.of_nat (length (v_sent (view w))) - mg_sent c)).
  - exists batch. cbn. split_and!; [done.. | lia].
  - intros rs m ms w1 (rest & Hms & Hw1 & Hc & Hs). destruct rest as [|s rest]; [done |].
    injection Hms as -> ->. eapply wp_mono; [apply prompt_step |].
    intros r w2 (o & -> & Ho & Hw2 & Hl). exists rest. rewrite foldl_snoc. cbn [List.filter] in Hc.
    fold (has_wallet s) in Ho. rewrite <- Ho in Hc.
    cbn zeta. split_and!; [done | by etrans | |]; destruct o as [[]|]; cbn in *; lia.
  - intros rs w1 (rest & Hms & Hw1 & Hc & Hs). destruct rest; [| done]. apply wp_ret.
    eexists. split_and!; [done.. | cbn in Hc; lia | done].
Qed.

Lemma batches_concat {A} fuel (l : list A) :
  (length l ≤ fuel)%nat → concat (batches fuel l) = l.
Proof.
  revert l. induction fuel as [|fuel IH]; intros [|x l] Hl; cbn [batches concat length] in *;
    [done | lia | done |].
  rewrite IH; [apply take_drop |]. rewrite length_drop. cbn. lia.
Qed.
End migration.

(** ** Lemmas: patterns *)

Lemma glob_star s : glob_match [STAR] s = true.
Proof. induction s as [|x s IH]; [done | exact IH]. Qed.

(** A pattern that ends in its only [*] matches by prefix. *)
Lemma glob_prefix (p s : list ascii) :
  STAR ∉ p → glob_match (p ++ [STAR]) s = bool_decide (p `prefix_of` s).
Proof.
  revert s. induction p as [|c p IH]; intros s Hp.
  - rewrite bool_decide_eq_true_2 by apply prefix_nil. apply glob_star.
  - cbn [app glob_match]. destruct (Ascii.eqb_spec c STAR) as [-> | _]; [set_solver |].
    destruct s as [|x s].
    { rewrite bool_decide_eq_false_2; [done |]. by intros ?%prefix_nil_not. }
    rewrite IH by set_solver. destruct (Ascii.eqb_spec c x) as [-> | Hne]; cbn.
    + apply bool_decide_ext. split; [by apply prefix_cons | apply prefix_cons_inv_2].
    + symmetry. apply bool_decide_eq_false. by intros ?%prefix_cons_inv_1.
Qed.

Lemma ascii_append s t :
  list_ascii_of_string (s +:+ t) = list_ascii_of_string s ++ list_ascii_of_string t.
Proof. induction s as [|c s IH]; [done |]. cbn. by rewrite <- IH. Qed.

Lemma blocked_matches chatId : key_matches "tg:blocked:*" (blockedKey chatId) = true.
Proof.
  unfold key_matches, blockedKey. change "tg:blocked:*" with ("tg:blocked:" +:+ String STAR "").
  rewrite !ascii_append. rewrite (glob_prefix (list_ascii_of_string "tg:blocked:")).
  - apply bool_decide_eq_true. by eexists.
  - intros H%list_elem_of_In. cbn in H. intuition discriminate.
Qed.

(** ** Lemmas: muting *)

Section muting.
Context `{B : Backend} `{BL : !BackendLaws B}.

Lemma answer_redis cfg queryId txt w v :
  v_redis (view w) = v →
  wp (with_herald cfg (λ t, answer t queryId txt)) (λ r w', r = Ok () ∧ v_redis (view w') = v) w.
Proof.
  intros Hv. unfold with_herald, answer. destruct (truthy _); [| by apply wp_ret].
  apply wp_swallow, wp_bind, wp_send.
  - intros rc w' Hv'. apply wp_ret. by rewrite Hv'.
  - intros e w' [Hv' | Hv']; by rewrite Hv'.
Qed.

(** Reading the settings does not touch Redis. *)
Lemma telegram_setup_redis cfg job w :
  wp (telegram_setup cfg job) (λ r w', view w' = view w ∧ w_redis w' = w_redis w) w.
Proof.
  unfold telegram_setup. destruct (negb _); [by apply wp_ret |].
  apply wp_bind, wp_intro. intros o w1 Hrun.
  assert (view w1 = view w ∧ w_redis w1 = w_redis w) as [Hv Hr].
  { split.
    - refine (wp_run _ (λ _ w', view w' = view w) _ _ _ _ Hrun).
      by apply (wp_find_unique MProtocolSettings).
    - revert Hrun. unfold find_unique, find_first, find_many, mbind, M_bind, on_db.
      by destruct (p_find_many _ _ _ (w_db w)) as [[l | e] d]; intros [= <- <-]. }
  destruct o as [s | e]; [| done]. destruct (_ <? _); [by apply wp_ret |]. apply wp_bind.
  destruct (chain ps_telegramBotTokenEncrypted s); [| by apply wp_ret, wp_ret].
  destruct (truthy _); [| by apply wp_ret, wp_ret].
  apply wp_bind, wp_lift. destruct (cc_decrypt _ _ _); [by apply wp_ret, wp_ret | done].
Qed.

(** A delivery to a chat that muted the protocol, with Redis up. *)
Lemma muted_quiet cfg chatId job assets now w :
  let key := mute_key chatId (j_protocolId job) in
  live now (re_strings (v_redis (view w)) !! key) = Some (RText "1") →
  is_ok (r_get key now (w_redis w)).1 = true →
  wp (deliverTelegram cfg chatId job assets now) (λ r w', view w' = view w ∧
    ∃ reason, r = Ok (failed_outcome Telegram reason)) w.
Proof.
  cbn zeta. intros Hlive Hup. unfold deliverTelegram, send_telegram.
  apply wp_catch, wp_bind. eapply wp_mono; [apply telegram_setup_redis |].
  intros r w1 [Hv1 Hr1]. destruct r as [s | e]; [| apply wp_ret; eauto].
  apply wp_bind, wp_swallow, wp_is_ok.
  { revert Hup. unfold redis_get, on_redis. rewrite Hr1. unfold mute_key.
    by destruct (r_get _ _ _) as [r d]. }
  apply wp_redis_get; [| done]. intros w2 Hv2 _. rewrite Hv1. fold (mute_key chatId (j_protocolId job)).
  rewrite Hlive. cbn. apply wp_ret. rewrite Hv2, Hv1. eauto.
Qed.
End muting.

(** ** Lemmas: strings *)

Lemma of_units_units s : of_units (units s) = s.
Proof.
  unfold of_units, units. rewrite <- list_fmap_compose.
  induction s as [|c s IH]; [done |]. cbn in *. by rewrite IH, ascii_N_embedding.
Qed.

Lemma str_from_app p s : str_from (length (units p)) (p +:+ s) = s.
Proof.
  unfold str_from. assert (units (p +:+ s) = units p ++ units s) as ->.
  { unfold units. by rewrite ascii_append, fmap_app. }
  rewrite drop_app_length. apply of_units_units.
Qed.

(** ** Properties *)

Section properties.
Context `{B : Backend} `{BL : !BackendLaws B} `{R : Routing (B := B)}.
Context (cfg : BotConfig).

(** C30.  Who can point a protocol's notifications at a group: an update of
    its bot changes the linked group of no other protocol, and of this one
    only to none, when Telegram reports that the bot has left or was removed
    from that very group, or to the chat of a message whose sender Telegram reports as an administrator there and whose command
    names a live nonce that the dashboard made for this protocol and for a
    bot of its own. *)
Theorem group_linked_by_admin protocolId update now w :
  wp (handleCustomBotUpdate cfg protocolId update now) (λ _ w', ∀ k s',
    v_tables (view w') MProtocolSettings !! k = Some s' →
    ∃ s, v_tables (view w) MProtocolSettings !! k = Some s ∧
      (ps_telegramGroupChatId s' = ps_telegramGroupChatId s ∨
       k = protocolId ∧ match ps_telegramGroupChatId s' with
         | None => ∃ c, ps_telegramGroupChatId s = Some c ∧ removed_from update c
         | Some c => ∃ token, may_link cfg token protocolId update now (view w) c
         end)) w.
Proof.
  unfold handleCustomBotUpdate. apply wp_bind, wp_intro. intros r w1 Hrun.
  assert (view w1 = view w) as Hv1.
  { refine (wp_run _ (λ _ w', view w' = view w) _ _ _ _ Hrun). unfold getCustomBotToken, protocol_settings.
    destruct (negb _); [by apply wp_ret |].
    apply wp_bind, (wp_find_unique MProtocolSettings); [intros; by apply wp_ret | done]. }
  destruct r as [token | e]; [| rewrite Hv1; eauto].
  destruct (negb _); [apply wp_ret; rewrite Hv1; eauto |].
  eapply wp_mono; [apply custom_update_group |]. rewrite Hv1. intros r w2 Hstep k s' Hs'.
  destruct (Hstep k s' Hs') as (s & Hk & [? | [-> Hg]]); [eauto |]. exists s. split; [done | right].
  split; [done |]. unfold may_relink in Hg. destruct (ps_telegramGroupChatId s'); eauto.
Qed.

(** The mute button works: tapping it on a message of a notification
    either fails and changes no key, or mutes its protocol for the chat, and
    then no delivery of the protocol to that chat in the next thirty days
    sends anything, to the chat or to the protocol's group. *)
Theorem mute_button_silences query notifId n now w :
  truthy (herald_token cfg) = true →
  cq_data query = Some ("mute_" +:+ notifId) →
  v_tables (view w) MNotification !! notifId = Some n →
  let chatId := default (default "" (cq_chatId query)) (cq_messageChatId query) in
  let key := mute_key chatId (n_protocolId n) in
  wp (handleUpdate cfg {| up_callback_query := Some query; up_message := None;
        up_my_chat_member := None; up_message_reaction := None |} now)
    (λ r w1, r = Ok () ∧
      (v_redis (view w1) = v_redis (view w) ∨
       v_redis (view w1) = (v_redis (view w)) <| re_strings ::=
         insert key (RText "1", Some (now + MUTE_TTL_SECONDS * 1000)) |> ∧
       ∀ job assets now', j_protocolId job = n_protocolId n → now' < now + MUTE_TTL_SECONDS * 1000 →
         is_ok (r_get key now' (w_redis w1)).1 = true →
         wp (deliverTelegram (bc_channels cfg) chatId job assets now') (λ r2 w2,
           view w2 = view w1 ∧ ∃ reason, r2 = Ok (failed_outcome Telegram reason)) w1)) w.
Proof.
  intros Hherald Hdata Hn. cbn zeta. set (chatId := default _ _). set (key := mute_key _ _).
  unfold handleUpdate, dispatch_update. cbn [up_callback_query].
  unfold handleCallbackQuery. fold chatId.
  rewrite Hherald, Hdata. cbn [negb from_option id].
  assert (str_starts "mute_" ("mute_" +:+ notifId) = true) as -> by by destruct notifId.
  assert (str_from 5 ("mute_" +:+ notifId) = notifId) as -> by apply (str_from_app "mute_").
  apply wp_bind, wp_swallow, wp_bind. unfold handleMuteCallback.
  assert (∀ (h : bool) w1, v_redis (view w1) = v_redis (view w) →
    wp (if h then mret () else if nonblank (default "" (cq_id query))
        then with_herald cfg (λ t, answer t (default "" (cq_id query)) None) else mret ())
      (λ r w2, r = Ok () ∧ v_redis (view w2) = v_redis (view w)) w1) as Hack.
  { intros h w1 Hw1. destruct h; [by apply wp_ret |]. destruct (nonblank _); [| by apply wp_ret].
    by apply answer_redis. }
  apply wp_bind, (wp_find_unique MNotification).
  2: { intros e w1 Hv1. eapply wp_mono; [apply (Hack false); by rewrite Hv1 |]. naive_solver. }
  intros o w1 Ho%found_by_id Hv1.
  assert (o = Some n) as -> by (rewrite Ho; exact Hn).
  apply wp_bind, wp_redis_setex.
  2: { intros e w2 Hv2. eapply wp_mono; [apply (Hack false); by rewrite Hv2, Hv1 |]. naive_solver. }
  intros w2 Hv2. eapply wp_mono; [by apply answer_redis |]. intros r w3 [-> Hv3].
  apply wp_ret, wp_ret. split; [done | right]. rewrite Hv3, Hv2, Hv1. split; [done |].
  intros job assets now' Hjob Hnow' Hup. apply muted_quiet; rewrite Hjob; fold key; [| done].
  rewrite Hv3, Hv2. cbn. rewrite lookup_insert_eq. cbn.
  by rewrite (proj2 (Z.ltb_lt _ _)).
Qed.

(** C31.  [DELETE /v1/tg/blocked] ends, in a number of calls of [SCAN] that the
    server's iteration bounds; when it answers, no chat is marked as having
    blocked the bot, and in any case only keys of that form are removed. *)
Theorem blocked_markers_cleared fuel now w :
  (scan_left "0" (w_redis w) < fuel)%nat →
  wp (clearBlocked fuel None now) (λ r w', only_cleared "tg:blocked:*" (view w) (view w') ∧
    match r with
    | Ok o => is_Some o ∧ ∀ chatId, re_strings (v_redis (view w')) !! blockedKey chatId = None
    | Err _ => True
    end) w.
Proof.
  intros Hfuel. unfold clearBlocked, clearBlockedChats. cbn.
  eapply wp_mono; [by apply clear_loop_spec |]. intros r w' [Hc Hr]. split; [done |].
  destruct r as [o | e]; [| done]. destruct Hr as [Ho Hr]. split; [done |]. intros chatId.
  destruct (re_strings (v_redis (view w)) !! blockedKey chatId) eqn:Hk.
  - apply Hr; [apply scan_start; unfold view in Hk; cbn in Hk; by rewrite Hk | apply blocked_matches].
  - by eapply only_cleared_none.
Qed.

(** Removing a protocol's bot ends too; it cannot fail, and removes only keys
    of that protocol's two patterns. *)
Theorem migration_state_cleared fuel protocolId now w :
  (∀ w', scan_left "0" (w_redis w') < fuel)%nat →
  wp (clearMigrationState fuel protocolId now) (λ r w', r = Ok true ∧
    ∀ k, Forall (λ p, key_matches p k = false) (migration_patterns protocolId) →
      re_strings (v_redis (view w')) !! k = re_strings (v_redis (view w)) !! k) w.
Proof.
  intros Hfuel. unfold clearMigrationState, migration_patterns. cbn [fold_each].
  apply wp_bind. eapply wp_mono; [by apply clear_pattern_spec |]. intros r w1 [-> (m1 & Hv1 & _ & Hk1)].
  apply wp_bind. eapply wp_mono; [by apply clear_pattern_spec |]. intros r w2 [-> (m2 & Hv2 & _ & Hk2)].
  apply wp_ret. split; [done |]. intros k Hk. rewrite Hv2. cbn.
  apply list.Forall_cons in Hk as [Hp1 Hk]. apply list.Forall_cons in Hk as [Hp2 _].
  rewrite Hk2, Hv1 by done. cbn. exact (Hk1 k Hp1).
Qed.

(** The webhooks of both bots: without the secret they are refused before
    anything is read; with it, they always answer 200. *)
Theorem webhook_guarded update secret now w :
  wp (handleWebhook cfg update secret now) (λ r w',
    if verifySecret cfg secret then r = Ok ()
    else r = Err (Forbidden "Invalid webhook secret") ∧ w' = w) w.
Proof.
  unfold handleWebhook. destruct (verifySecret cfg secret); cbn [negb]; [| by apply wp_raise].
  apply wp_swallow, wp_intro. by intros [[] | e] w' _.
Qed.
End properties.

Section migration_properties.
Context `{B : Backend} `{BL : !BackendLaws B} `{R : Routing (B := B)} `{RL : !RoutingLaws R}.

(** The fan-out of the migration accounts for every subscriber, whatever
    fails for them: each active subscriber with a wallet is counted once, as
    sent or as skipped; no more prompts leave than are counted as sent; and
    nothing but Redis and the protocol's own stamp is written. *)
Theorem migration_accounts cfg protocolId now w :
  wp (sendMigrationPrompts cfg protocolId now) (λ r w', within migration_frame (view w) (view w') ∧
    match r with
    | Ok c =>
        (mg_sent c = 0 ∧ mg_skipped c = 0 ∧ view w' = view w) ∨
        ∃ subs, selects MProtocolSubscription (is_subscriber protocolId) None
            (v_tables (view w) MProtocolSubscription) subs ∧
          mg_sent c + mg_skipped c = Z.of_nat (length (List.filter has_wallet subs)) ∧
          Z.of_nat (length (v_sent (view w'))) ≤ Z.of_nat (length (v_sent (view w))) + mg_sent c
    | Err _ => view w' = view w
    end) w.
Proof.
  unfold sendMigrationPrompts. apply wp_bind, (wp_find_unique MProtocolSettings).
  2: { intros e w1 ->. done. }
  intros settings w1 _ Hv1. destruct (negb _); [apply wp_ret; rewrite Hv1; by split; [| left] |].
  apply wp_bind, wp_intro. intros r w2 Hrun.
  assert (view w2 = view w1) as Hv2.
  { refine (wp_run _ (λ _ w', view w' = view w1) _ _ _ _ Hrun). unfold resolveProtocolName.
    apply wp_swallow. destruct (negb _); [by apply wp_ret |].
    apply wp_bind, (wp_find_unique MProtocol); [| done]. intros o w3 _ Hv3.
    destruct (negb _); [by apply wp_ret | by apply wp_lift]. }
  rewrite Hv1 in Hv2. destruct r as [name | e]; [| by rewrite Hv2].
  apply wp_bind, (wp_find_many MProtocolSubscription).
  2: { intros e w3 Hv3. by rewrite Hv3, Hv2. }
  intros subs w3 Hsel Hv3. rewrite Hv2 in Hsel, Hv3.
  apply wp_bind. set (bs := batches _ _).
  assert (concat bs = subs) as Hbs by by apply batches_concat.
  apply (wp_fold_each _ (λ c rest w', within migration_frame (view w) (view w') ∧
    mg_sent c + mg_skipped c + Z.of_nat (length (List.filter has_wallet (concat rest))) =
      Z.of_nat (length (List.filter has_wallet subs)) ∧
    Z.of_nat (length (v_sent (view w'))) - mg_sent c ≤ Z.of_nat (length (v_sent (view w))))).
  - rewrite Hv3, Hbs. cbn. split_and!; [done | done | lia].
  - intros c b rest w4 (Hw4 & Hc & Hs). eapply wp_mono; [apply prompt_batch_step |].
    intros r w5 (c' & -> & Hw5 & Hc' & Hs'). cbn [concat] in Hc.
    rewrite List.filter_app, length_app in Hc. split_and!; [by etrans | lia | lia].
  - intros c w4 (Hw4 & Hc & Hs). apply wp_bind, wp_swallow, wp_bind, (wp_update MProtocolSettings).
    + intros k s w5 _ _ Hv5. apply wp_ret, wp_ret. rewrite Hv5. split.
      { etrans; [exact Hw4 |]. by apply within_table. }
      right. exists subs. cbn in *. split_and!; [done | lia | lia].
    + intros e w5 Hv5. apply wp_ret. rewrite Hv5. split; [done | right]. exists subs.
      cbn in *. split_and!; [done | lia | lia].
Qed.
End migration_properties.

(** ** Witnesses *)

Section witness.
#[local] Instance bot_routing : Routing := routing_service
  (λ _ _, Ok (Some sample_identity))
  (λ _, Ok {| tc_email := None; tc_telegramChatId := Some "42"; tc_phone := None |}).
#[local] Instance bot_routing_laws : RoutingLaws bot_routing.
Proof. unfold bot_routing. apply _. Qed.

Definition bot_config : BotConfig := {|
  bc_channels := channel_config; bc_webhookSecret := Some "s3cret!"; bc_internalKey := Some "k";
  bc_getChatMember := λ _ _ u _, Ok (if u =? 7 then "administrator" else "member");
  bc_getMe := λ _ _, Ok (Some "proto_bot"); bc_getChatMemberCount := λ _ _ _, Ok (Some 12);
  bc_base64url := id; bc_urlProtocol := λ _, Some "https:" |}.

Definition no_update : Update := {|
  up_callback_query := None; up_message := None; up_my_chat_member := None;
  up_message_reaction := None |}.

(** An administrator pastes the command of the dashboard into a group. *)
Definition setup_update (user : Z) : Update := no_update <| up_message := Some {|
  bm_chatId := Some "-100"; bm_chatType := Some "supergroup"; bm_fromId := Some user;
  bm_fromUsername := None; bm_text := Some "/start@proto_bot setup_abc ";
  bm_new_chat_members := None |} |>.

Definition custom_bot_settings : ProtocolSettings := group_settings
  <| ps_telegramGroupChatId := None |> <| ps_telegramBotTokenEncrypted := Some "tok" |>
  <| ps_telegramBotUsername := Some "proto_bot" |>.

Definition group_nonce : GroupNonce := {|
  gn_protocolId := "p1"; gn_botType := Some "custom"; gn_status := None; gn_chatId := None |}.

Definition bot_world : World := mem_world
  (with_rows MProtocolSettings [custom_bot_settings]
  (with_rows MNotification [new_notification "n1" "p1" "h" "s" "defi" Delivered None false 0] no_tables))
  (<["tg:group_nonce:abc" := (RGroupNonce group_nonce, None)]>
   (<["tg:blocked:42" := (RText "1", None)]> (<["tg:blocked:430" := (RText "1", None)]> ∅))).

Definition linked_group (w : World) : option string :=
  v_tables (view w) MProtocolSettings !! "p1" ≫= ps_telegramGroupChatId.

Lemma group_linked_by_admin_witness :
  let run u := handleCustomBotUpdate bot_config "p1" (setup_update u) 0 bot_world in
  linked_group (run 7).2 = Some "-100" ∧ linked_group (run 8).2 = None ∧
  wp (handleCustomBotUpdate bot_config "p1" (setup_update 7) 0) (λ _ w', ∀ k s',
    v_tables (view w') MProtocolSettings !! k = Some s' →
    ∃ s, v_tables (view bot_world) MProtocolSettings !! k = Some s ∧
      (ps_telegramGroupChatId s' = ps_telegramGroupChatId s ∨
       k = "p1" ∧ match ps_telegramGroupChatId s' with
         | None => ∃ c, ps_telegramGroupChatId s = Some c ∧ removed_from (setup_update 7) c
         | Some c => ∃ token, may_link bot_config token "p1" (setup_update 7) 0 (view bot_world) c
         end)) bot_world.
Proof.
  cbn zeta. split; [vm_compute; reflexivity |]. split; [vm_compute; reflexivity |].
  apply (group_linked_by_admin bot_config "p1" (setup_update 7) 0 bot_world).
Defined.

Definition mute_tap : CallbackQuery := {|
  cq_messageChatId := Some "42"; cq_chatId := None; cq_data := Some "mute_n1"; cq_id := Some "q" |}.

Lemma mute_button_silences_witness :
  let tap := no_update <| up_callback_query := Some mute_tap |> in
  (re_strings (v_redis (view (handleUpdate bot_config tap 0 bot_world).2)) !! mute_key "42" "p1" =
     Some (RText "1", Some (MUTE_TTL_SECONDS * 1000))) ∧
  wp (handleUpdate bot_config tap 0) (λ r w1, r = Ok () ∧
    (v_redis (view w1) = v_redis (view bot_world) ∨
     v_redis (view w1) = (v_redis (view bot_world)) <| re_strings ::=
       insert (mute_key "42" "p1") (RText "1", Some (0 + MUTE_TTL_SECONDS * 1000)) |> ∧
     ∀ job assets now', j_protocolId job = "p1" → now' < 0 + MUTE_TTL_SECONDS * 1000 →
       is_ok (r_get (mute_key "42" "p1") now' (w_redis w1)).1 = true →
       wp (deliverTelegram channel_config "42" job assets now') (λ r2 w2,
         view w2 = view w1 ∧ ∃ reason, r2 = Ok (failed_outcome Telegram reason)) w1)) bot_world.
Proof.
  cbn zeta. split; [vm_compute; reflexivity |].
  apply (mute_button_silences bot_config mute_tap "n1"
    (new_notification "n1" "p1" "h" "s" "defi" Delivered None false 0) 0 bot_world); reflexivity.
Defined.

Lemma blocked_markers_cleared_witness :
  let run := clearBlocked 2 None 0 bot_world in
  run.1 = Ok (Some 2) ∧ re_strings (v_redis (view run.2)) !! "tg:blocked:430" = None ∧
  wp (clearBlocked 2 None 0) (λ r w', only_cleared "tg:blocked:*" (view bot_world) (view w') ∧
    match r with
    | Ok o => is_Some o ∧ ∀ chatId, re_strings (v_redis (view w')) !! blockedKey chatId = None
    | Err _ => True
    end) bot_world.
Proof.
  cbn zeta. split; [vm_compute; reflexivity |]. split; [vm_compute; reflexivity |].
  apply (blocked_markers_cleared 2 0 bot_world). vm_compute. lia.
Defined.

Definition subscriber (id : string) (wallet : option string) : ProtocolSubscription := {|
  sub_id := id; sub_walletPubkey := wallet; sub_walletHash := id; sub_protocolId := "p1";
  sub_channels := []; sub_status := Active; sub_source := "portal"; sub_subscribedAt := 0;
  sub_updatedAt := 0 |}.

(** Two wallets that share a chat: the second is counted as sent, although the
    chat has been prompted and nothing is sent again. *)
Definition migration_world : World := mem_world
  (with_rows MProtocolSettings [custom_bot_settings]
  (with_rows MProtocolSubscription [subscriber "a" (Some "w1"); subscriber "b" (Some "w2");
     subscriber "c" None] no_tables)) ∅.

Lemma migration_accounts_witness :
  let run := sendMigrationPrompts bot_config "p1" 0 migration_world in
  run.1 = Ok {| mg_sent := 2; mg_skipped := 0 |} ∧ length (v_sent (view run.2)) = 1%nat ∧
  wp (sendMigrationPrompts bot_config "p1" 0) (λ r w',
    within migration_frame (view migration_world) (view w') ∧
    match r with
    | Ok c =>
        (mg_sent c = 0 ∧ mg_skipped c = 0 ∧ view w' = view migration_world) ∨
        ∃ subs, selects MProtocolSubscription (is_subscriber "p1") None
            (v_tables (view migration_world) MProtocolSubscription) subs ∧
          mg_sent c + mg_skipped c = Z.of_nat (length (List.filter has_wallet subs)) ∧
          Z.of_nat (length (v_sent (view w'))) ≤
            Z.of_nat (length (v_sent (view migration_world))) + mg_sent c
    | Err _ => view w' = view migration_world
    end) migration_world.
Proof.
  cbn zeta. split; [vm_compute; reflexivity |]. split; [vm_compute; reflexivity |].
  apply (migration_accounts bot_config "p1" 0 migration_world).
Defined.

(** The pattern of a wallet address. *)
Example start_pattern :
  let wallet := "7xKXtg2CW87d97TXJSDpbD5jBkheTqA83TZRuJosgAsU" in
  (capture 1 <$> (search START_PATTERN (units ("/start  " +:+ wallet)) ≫= λ m, Some m.2)) =
    Some (Some (units wallet)) ∧
  search START_PATTERN (units "/start 0OIl") = None.
Proof. vm_compute. done. Qed.
End witness.
