(* ===== verification/Webhook.v ===== *)
(** * Webhooks

    [WebhookService] and [WebhookWorker] of [src/modules/webhook/], with
    [isEncrypted] of [src/common/crypto/webhook-crypto.ts].  The serialised
    payload, the decryption of a secret ([WebhookApi] has it), the URL parser and the DNS check of an
    address are parameters ([WebhookConfig]). *)

From Stdlib Require Import Ascii String.
From stdpp Require Import pretty.
From S2P Require Import Prelude Schema External Memory Frame Unsubscribe.

Open Scope string_scope.
Open Scope list_scope.
Open Scope Z_scope.

(** What the workers need of the webhook service: it only adds jobs to the
    webhook queue. *)
Definition webhook_frame : Frame := {|
  fr_table _ := False; fr_job q := q = QWebhook; fr_key _ := False; fr_send _ := False |}.

(** The [data] of an event. *)
Record EventData := {
  ev_notificationId : string;
  ev_status : NotificationStatus;
  ev_outcomes : list ChannelDeliveryOutcome;
  ev_error : option string;
  ev_wallet : string;
  ev_deliveredAt : option Z;
}.

Class Webhooks `{B : Backend} := {
  (** protocol, event type, data, the event's random id, the time *)
  fire : string → string → EventData → string → Z → M World ();
}.

Class WebhooksLaws `{B : Backend} (H : Webhooks) : Prop := {
  fire_keeps protocolId event data uuid now : Keeps webhook_frame (fire protocolId event data uuid now);
}.

Section service.
Context `{B : Backend}.

(** The webhooks an event goes to. *)
Definition subscribed (protocolId eventType : string) : where_ MWebhook := λ _ wh,
  bool_decide (wh_protocolId wh = protocolId) && wh_isActive wh &&
  bool_decide (eventType ∈ wh_events wh).

Definition event_payload (eventType : string) (data : EventData) (uuid : string) (now : Z) :
    WebhookPayload := {|
  wp_eventId := uuid; wp_eventType := eventType; wp_timestamp := now;
  wp_notificationId := Some (ev_notificationId data); wp_status := Some (ev_status data);
  wp_outcomes := ev_outcomes data; wp_error := ev_error data;
  wp_wallet := Some (ev_wallet data); wp_deliveredAt := ev_deliveredAt data;
  wp_message := None; wp_webhookId := None |}.

Definition webhook_job (payload : WebhookPayload) (wh : Webhook) : job QWebhook :=
  mkJob (q := QWebhook) "send-webhook"
    {| wj_webhookId := wh_id wh; wj_url := wh_url wh; wj_secret := wh_secretHash wh;
       wj_payload := payload |} None 5 (Some 2000).

(** [WebhookService.dispatch] *)
Definition dispatch_payload (protocolId eventType : string) (payload : WebhookPayload) : M World () :=
  webhooks ← find_many MWebhook (subscribed protocolId eventType) None;
  match webhooks with
  | [] => mret ()
  | _ => for_each (λ wh, queue_add QWebhook (webhook_job payload wh)) webhooks
  end.

Definition dispatch_event (protocolId eventType : string) (data : EventData) (uuid : string)
    (now : Z) : M World () :=
  dispatch_payload protocolId eventType (event_payload eventType data uuid now).

#[export] Instance webhook_service : Webhooks := { fire := dispatch_event }.

Context `{BL : !BackendLaws B}.

#[export] Instance webhook_service_laws : WebhooksLaws webhook_service.
Proof. split. intros. cbn. unfold dispatch_event, dispatch_payload. keeps. Qed.

Lemma enqueue_webhooks payload whs w :
  wp (for_each (λ wh, queue_add QWebhook (webhook_job payload wh)) whs) (λ r w',
    ∃ l, l `prefix_of` whs ∧ (r = Ok () → l = whs) ∧
      v_jobs (view w') QWebhook = v_jobs (view w) QWebhook ++ (webhook_job payload <$> l)) w.
Proof.
  apply (wp_for_each _ (λ rest w', ∃ l, whs = l ++ rest ∧
    v_jobs (view w') QWebhook = v_jobs (view w) QWebhook ++ (webhook_job payload <$> l))).
  - exists []. by rewrite app_nil_r.
  - intros wh rest w' (l & -> & Hj). apply (wp_queue_add QWebhook).
    + intros w'' Hw''. exists (l ++ [wh]). rewrite <- app_assoc. split; [done |].
      rewrite Hw''. cbn. by rewrite upd_jobs_eq, Hj, fmap_app, app_assoc.
    + intros e w'' Hw''. exists l. split_and!; [by eexists | done | by rewrite Hw''].
  - intros w' (l & Hl & Hj). rewrite app_nil_r in Hl. subst. exists l. done.
Qed.

Lemma dispatch_spec protocolId eventType payload w :
  wp (dispatch_payload protocolId eventType payload) (λ r w', ∃ whs,
    v_jobs (view w') QWebhook = v_jobs (view w) QWebhook ++
      (webhook_job payload <$> whs) ∧
    (∀ wh, wh ∈ whs → wh_protocolId wh = protocolId ∧ wh_isActive wh = true ∧
      eventType ∈ wh_events wh ∧ ∃ k, v_tables (view w) MWebhook !! k = Some wh) ∧
    (r = Ok () → ∀ k wh, v_tables (view w) MWebhook !! k = Some wh →
      wh_protocolId wh = protocolId → wh_isActive wh = true → eventType ∈ wh_events wh →
      wh ∈ whs)) w.
Proof.
  unfold dispatch_payload. apply wp_bind, (wp_find_many MWebhook).
  2:{ intros e w1 Hv1. exists []. rewrite Hv1, app_nil_r. split_and!; [done | | done].
      by intros ? ?%elem_of_nil. }
  intros whs w1 (_ & (ks & _ & Hks) & Hall) Hv1.
  assert (∀ wh, wh ∈ whs → wh_protocolId wh = protocolId ∧ wh_isActive wh = true ∧
    eventType ∈ wh_events wh ∧ ∃ k, v_tables (view w) MWebhook !! k = Some wh) as Hsound.
  { intros wh [i Hi]%list_elem_of_lookup.
    destruct (Forall2_lookup_r _ _ _ _ _ Hks Hi) as (k & _ & Hk & Hp).
    unfold subscribed in Hp. rewrite !andb_true_iff, !bool_decide_eq_true in Hp.
    destruct Hp as [[? ?] ?]. eauto. }
  assert (∀ k wh, v_tables (view w) MWebhook !! k = Some wh → wh_protocolId wh = protocolId →
    wh_isActive wh = true → eventType ∈ wh_events wh → wh ∈ whs) as Hcomplete.
  { intros k wh Hk ???. apply (Hall k); [done |]. unfold subscribed.
    by rewrite !andb_true_iff, !bool_decide_eq_true. }
  assert (wp (for_each (λ wh, queue_add QWebhook
    (webhook_job payload wh)) whs) (λ r w', ∃ l,
      v_jobs (view w') QWebhook = v_jobs (view w) QWebhook ++
        (webhook_job payload <$> l) ∧
      (∀ wh, wh ∈ l → wh ∈ whs) ∧ (r = Ok () → l = whs)) w1) as Hrun.
  { eapply wp_mono; [apply enqueue_webhooks |]. intros r w' (l & [l' ->] & Hr & Hj).
    exists l. rewrite <- Hv1. split_and!; [done | | done]. set_solver. }
  assert (wp (match whs with [] => mret () | _ => for_each (λ wh, queue_add QWebhook
    (webhook_job payload wh)) whs end) (λ r w', ∃ l,
      v_jobs (view w') QWebhook = v_jobs (view w) QWebhook ++
        (webhook_job payload <$> l) ∧
      (∀ wh, wh ∈ l → wh ∈ whs) ∧ (r = Ok () → l = whs)) w1) as Hrun'.
  { destruct whs; [exact Hrun | exact Hrun]. }
  eapply wp_mono; [exact Hrun' |]. intros r w' (l & Hj & Hl & Hr).
  exists l. split_and!; [done | eauto |]. intros Hok. rewrite Hr by done. done.
Qed.

(** An event goes to the webhooks of its protocol that are active and
    subscribed to it, to each of them once and to no other: when the dispatch
    returns, exactly their jobs were added to the queue, all with the same
    payload; when it rejects, those of some of them. *)
Theorem event_reaches_subscribers protocolId eventType data uuid now w :
  wp (dispatch_event protocolId eventType data uuid now) (λ r w', ∃ whs,
    v_jobs (view w') QWebhook = v_jobs (view w) QWebhook ++
      (webhook_job (event_payload eventType data uuid now) <$> whs) ∧
    (∀ wh, wh ∈ whs → wh_protocolId wh = protocolId ∧ wh_isActive wh = true ∧
      eventType ∈ wh_events wh ∧ ∃ k, v_tables (view w) MWebhook !! k = Some wh) ∧
    (r = Ok () → ∀ k wh, v_tables (view w) MWebhook !! k = Some wh →
      wh_protocolId wh = protocolId → wh_isActive wh = true → eventType ∈ wh_events wh →
      wh ∈ whs)) w.
Proof. apply dispatch_spec. Qed.
End service.

(** ** The worker *)

Record WebhookConfig := {
  wc_autoDisableThreshold : Z;                    (** default 10 *)
  wc_stringify : WebhookPayload → string;         (** [JSON.stringify] *)
  wc_decrypt : string → result string;            (** [decryptWebhookSecret] *)
  wc_validUrl : string → bool;                    (** [new URL(url)] succeeds *)
  (** with local webhooks disallowed, the host resolves to a unicast address *)
  wc_unicast : string → bool;
}.

(** [isEncrypted]: three parts, the first of 24 characters. *)
Definition isEncrypted (value : string) : bool :=
  match split_dot value with
  | [iv; _; _] => Nat.eqb (String.length iv) 24
  | _ => false
  end.

(** How one POST went: the status of the response if there was one, the error
    message, and the error that is thrown again. *)
Record Attempt := {
  at_success : bool;
  at_httpStatus : option Z;
  at_error : option exn;
}.

Section worker.
Context `{B : Backend} `{S : Signing}.
Context (cfg : WebhookConfig).

Definition is_2xx (status : Z) : bool := (200 <=? status) && (status <? 300).

(** [error.response?.status || null] *)
Definition response_status (e : exn) : option Z :=
  match e with
  | HttpError s _ => if Z.eqb s 0 then None else Some s
  | JsError _ _ => None
  end.

Definition signed_request (url secret : string) (payload : WebhookPayload) (now : Z) : envelope :=
  let timestamp := now / 1000 in
  let body := wc_stringify cfg payload in
  HttpEnvelope url body (hmac_hex secret (pretty timestamp +:+ "." +:+ body)) timestamp.

(** The [try] and the [catch] around the POST. *)
Definition post (url secret : string) (payload : WebhookPayload) (now : Z) : M World Attempt :=
  catch (
    response ← send (signed_request url secret payload now);
    if is_2xx (rc_status response) then
      mret {| at_success := true; at_httpStatus := Some (rc_status response); at_error := None |}
    else raise (JsError ("HTTP " +:+ pretty (rc_status response)) None))
  (λ e, mret {| at_success := false; at_httpStatus := response_status e; at_error := Some e |}).

Definition delivery_attempt (job : WebhookJobData) (attemptsMade latencyMs : Z) (a : Attempt)
    (id : string) : WebhookDelivery := {|
  wd_id := id; wd_webhookId := wj_webhookId job;
  wd_notificationId := wp_notificationId (wj_payload job);
  wd_event := wp_eventType (wj_payload job); wd_httpStatus := at_httpStatus a;
  wd_latencyMs := Some latencyMs; wd_attempt := attemptsMade + 1; wd_success := at_success a;
  wd_error := err_message <$> at_error a |}.

(** The statistics the [finally] block writes. *)
Definition after_attempt (a : Attempt) (now : Z) (wh : Webhook) : Webhook :=
  if at_success a
  then wh <| wh_failureCount := 0 |> <| wh_lastSuccessAt := Some now |>
  else wh <| wh_failureCount ::= Z.succ |> <| wh_lastFailureAt := Some now |>.

(** The secret, which older rows hold in the clear. *)
Definition open_secret (secret : string) : result string :=
  if isEncrypted secret then wc_decrypt cfg secret else Ok secret.

(** [WebhookWorker.process] *)
Definition process (job : WebhookJobData) (attemptsMade latencyMs now : Z) : M World () :=
  let this := by_id MWebhook (wj_webhookId job) in
  webhook ← find_unique MWebhook this;
  match webhook with
  | None => mret ()
  | Some wh =>
      if negb (wh_isActive wh) then mret () else
      if wc_autoDisableThreshold cfg <=? wh_failureCount wh then
        _ ← update MWebhook this (λ r, r <| wh_isActive := false |>);
        mret ()
      else
        secret ← lift (open_secret (wj_secret job));
        if negb (wc_validUrl cfg (wj_url job)) then mret () else
        if negb (wc_unicast cfg (wj_url job)) then raise (JsError "SSRF_BLOCKED" None) else
        a ← post (wj_url job) secret (wj_payload job) now;
        _ ← create MWebhookDelivery (delivery_attempt job attemptsMade latencyMs a);
        _ ← update MWebhook this (after_attempt a now);
        match at_error a with
        | Some e => raise e
        | None => mret ()
        end
  end.

(** ** Properties of the worker *)

Context `{BL : !BackendLaws B}.

(** How a POST of [e] can go, from one view to another. *)
Inductive posted (e : envelope) (v : View) : Attempt → View → Prop :=
| posted_ok status : is_2xx status = true →
    posted e v {| at_success := true; at_httpStatus := Some status; at_error := None |}
      (v <| v_sent ::= λ l, l ++ [e] |>)
| posted_status status : is_2xx status = false →
    posted e v {| at_success := false; at_httpStatus := None;
                  at_error := Some (JsError ("HTTP " +:+ pretty status) None) |}
      (v <| v_sent ::= λ l, l ++ [e] |>)
| posted_failed x v' : v' = v ∨ v' = v <| v_sent ::= λ l, l ++ [e] |> →
    posted e v {| at_success := false; at_httpStatus := response_status x; at_error := Some x |} v'.

(** What a receiver who knows the secret checks of a request. *)
Definition authentic (secret : string) (e : envelope) : Prop :=
  match e with
  | HttpEnvelope _ body signature timestamp =>
      signature = hmac_hex secret (pretty timestamp +:+ "." +:+ body)
  | _ => False
  end.

(** The payload as a text to the URL, with the time in seconds, authentic. *)
Definition request_for (url secret : string) (payload : WebhookPayload) (now : Z) (e : envelope) : Prop :=
  (∃ signature, e = HttpEnvelope url (wc_stringify cfg payload) signature (now / 1000)) ∧ authentic secret e.

Lemma signed_authentic url secret payload now :
  request_for url secret payload now (signed_request url secret payload now).
Proof. split; [by eexists | done]. Qed.

Lemma wp_post url secret payload now w :
  wp (post url secret payload now) (λ r w', ∃ a, r = Ok a ∧
    posted (signed_request url secret payload now) (view w) a (view w')) w.
Proof.
  apply wp_catch, wp_bind, wp_send.
  - intros rc w1 Hv1. destruct (is_2xx (rc_status rc)) eqn:H2.
    + apply wp_ret. eexists. split; [done |]. rewrite Hv1. by apply posted_ok.
    + apply wp_raise, wp_ret. eexists. split; [done |]. rewrite Hv1. by apply posted_status.
  - intros e w1 Hv1. apply wp_ret. eexists. split; [done | by apply posted_failed].
Qed.

Section attempt.
Context (job : WebhookJobData) (attemptsMade latencyMs now : Z).

Definition this : where_ MWebhook := by_id MWebhook (wj_webhookId job).

Definition webhook_of (v : View) : option Webhook := v_tables v MWebhook !! wj_webhookId job.

Definition with_webhook (wh : Webhook) (v : View) : View :=
  v <| v_tables ::= upd MWebhook <[wj_webhookId job := wh]> |>.

Definition with_delivery (i : string) (d : WebhookDelivery) (v : View) : View :=
  v <| v_tables ::= upd MWebhookDelivery <[i := d]> |>.

(** What the row of an attempt says of it. *)
Definition logs (a : Attempt) (d : WebhookDelivery) : Prop :=
  wd_webhookId d = wj_webhookId job ∧ wd_notificationId d = wp_notificationId (wj_payload job) ∧
  wd_event d = wp_eventType (wj_payload job) ∧ wd_attempt d = attemptsMade + 1 ∧
  wd_success d = at_success a ∧ wd_httpStatus d = at_httpStatus a ∧ wd_error d = err_message <$> at_error a.

(** The webhook after an attempt: failures in a row are counted, a success
    starts over, and the time of the last of either kind is kept. *)
Definition tallied (a : Attempt) (wh : Webhook) : Webhook :=
  wh <| wh_failureCount := if at_success a then 0 else wh_failureCount wh + 1 |>
     <| wh_lastSuccessAt := if at_success a then Some now else wh_lastSuccessAt wh |>
     <| wh_lastFailureAt := if at_success a then wh_lastFailureAt wh else Some now |>.

Lemma after_tallied a wh : after_attempt a now wh = tallied a wh.
Proof. unfold after_attempt, tallied. destruct wh, (at_success a); reflexivity. Qed.

(** The [finally] block after the attempt [a]: a row for the attempt, and the
    webhook's statistics.  When either write rejects, its error takes the place
    of the attempt's. *)
Inductive accounted_for (wh : Webhook) (a : Attempt) (v : View) : result () → View → Prop :=
| af_counted i d : v_tables v MWebhookDelivery !! i = None → logs a d →
    accounted_for wh a v (match at_error a with Some e => Err e | None => Ok () end)
      (with_webhook (tallied a wh) (with_delivery i d v))
| af_unrecorded e : rejects (create MWebhookDelivery (delivery_attempt job attemptsMade latencyMs a)) v e →
    accounted_for wh a v (Err e) v
| af_uncounted i d e : v_tables v MWebhookDelivery !! i = None → logs a d →
    rejects (update MWebhook this (after_attempt a now)) (with_delivery i d v) e →
    accounted_for wh a v (Err e) (with_delivery i d v).

(** One run of a job, case by case. *)
Inductive attempted (v : View) : result () → View → Prop :=
| at_unread e : rejects (find_unique MWebhook this) v e → attempted v (Err e) v
| at_gone : (∀ wh, webhook_of v = Some wh → wh_isActive wh = false) → attempted v (Ok ()) v
| at_disabled wh : webhook_of v = Some wh → wh_isActive wh = true →
    wc_autoDisableThreshold cfg ≤ wh_failureCount wh →
    attempted v (Ok ()) (with_webhook (wh <| wh_isActive := false |>) v)
| at_still_enabled wh e : webhook_of v = Some wh → wh_isActive wh = true →
    wc_autoDisableThreshold cfg ≤ wh_failureCount wh →
    rejects (update MWebhook this (λ r, r <| wh_isActive := false |>)) v e →
    attempted v (Err e) v
| at_secret wh e : webhook_of v = Some wh → wh_isActive wh = true →
    wh_failureCount wh < wc_autoDisableThreshold cfg → open_secret (wj_secret job) = Err e →
    attempted v (Err e) v
| at_bad_url wh : webhook_of v = Some wh → wh_isActive wh = true →
    wh_failureCount wh < wc_autoDisableThreshold cfg → wc_validUrl cfg (wj_url job) = false →
    attempted v (Ok ()) v
| at_blocked wh : webhook_of v = Some wh → wh_isActive wh = true →
    wh_failureCount wh < wc_autoDisableThreshold cfg → wc_validUrl cfg (wj_url job) = true →
    wc_unicast cfg (wj_url job) = false →
    attempted v (Err (JsError "SSRF_BLOCKED" None)) v
| at_posted wh secret e a v1 r v' : webhook_of v = Some wh → wh_isActive wh = true →
    wh_failureCount wh < wc_autoDisableThreshold cfg → open_secret (wj_secret job) = Ok secret →
    wc_validUrl cfg (wj_url job) = true → wc_unicast cfg (wj_url job) = true →
    request_for (wj_url job) secret (wj_payload job) now e → posted e v a v1 →
    accounted_for wh a v1 r v' →
    attempted v r v'.

Lemma posted_tables e v a v' : posted e v a v' → v_tables v' = v_tables v.
Proof. by destruct 1 as [| | ? ? [-> | ->]]. Qed.

(** The [finally] block. *)
Lemma accounting_spec wh a w : webhook_of (view w) = Some wh →
  wp (_ ← create MWebhookDelivery (delivery_attempt job attemptsMade latencyMs a);
      _ ← update MWebhook this (after_attempt a now);
      match at_error a with Some e => raise e | None => mret () end)
    (λ r w', accounted_for wh a (view w) r (view w')) w.
Proof.
  intros Hwh. apply wp_bind, wp_rejects, (wp_create MWebhookDelivery).
  2:{ intros e w1 -> Hrej. by apply af_unrecorded, Hrej. }
  intros i r w1 -> Hfresh _ Hv1 _. cbn [row_key wd_id delivery_attempt] in *.
  apply wp_bind, wp_rejects, (wp_update MWebhook).
  - intros k r w2 Hk ->%bool_decide_eq_true Hv2 _. rewrite Hv1 in Hk, Hv2. cbn in Hk. rewrite upd_ne in Hk by done.
    pose proof (Some_agree Hk Hwh) as ->.
    rewrite after_tallied in Hv2.
    assert (view w2 = with_webhook (tallied a wh) (with_delivery i (delivery_attempt job attemptsMade latencyMs a i) (view w)))
      as Hv by done.
    destruct (at_error a) as [e|] eqn:He; [apply wp_raise | apply wp_ret]; rewrite Hv;
      (replace (Err e : result ()) with (match at_error a with Some e => Err e | None => Ok () end) by by rewrite He)
      || (replace (Ok () : result ()) with (match at_error a with Some e => Err e | None => Ok () end) by by rewrite He);
      (apply (af_counted _ _ _ i); [done | by repeat split]).
  - intros e w2 Hv2 Hrej. rewrite Hv2, Hv1. apply af_uncounted; [done | by repeat split |]. rewrite Hv1 in Hrej. by apply Hrej.
Qed.

Lemma attempt_spec w :
  wp (process job attemptsMade latencyMs now) (λ r w', attempted (view w) r (view w')) w.
Proof.
  unfold process. fold this. apply wp_bind, wp_rejects, (wp_find_unique MWebhook).
  2:{ intros e w1 -> Hrej. by apply at_unread, Hrej. }
  intros o w1 Ho%found_by_id Hv1 _. rewrite <- Hv1. assert (webhook_of (view w1) = o) as Hwh by by rewrite Hv1.
  clear Ho Hv1. destruct o as [wh|]; [| apply wp_ret, at_gone; intros wh' Hwh'; congruence].
  destruct (wh_isActive wh) eqn:Hact; cbn [negb]; [| apply wp_ret, at_gone; intros wh' Hwh'; congruence].
  destruct (Z.leb_spec (wc_autoDisableThreshold cfg) (wh_failureCount wh)).
  - apply wp_bind, wp_rejects, (wp_update MWebhook).
    + intros k r w2 Hk ->%bool_decide_eq_true Hv2 _. pose proof (Some_agree Hk Hwh) as ->.
      apply wp_ret. rewrite Hv2. by apply at_disabled.
    + intros e w2 -> Hrej. by eapply at_still_enabled, Hrej.
  - apply wp_bind, wp_lift. destruct (open_secret _) as [secret | e] eqn:Hsec; [| by eapply at_secret].
    destruct (wc_validUrl cfg _) eqn:Hurl; cbn [negb]; [| by eapply wp_ret, at_bad_url].
    destruct (wc_unicast cfg _) eqn:Hip; cbn [negb]; [| by eapply wp_raise, at_blocked].
    apply wp_bind. eapply wp_mono; [apply wp_post |]. intros ? w2 (a & -> & Hpost).
    eapply wp_mono; [apply accounting_spec |].
    + unfold webhook_of. by rewrite (posted_tables _ _ _ _ Hpost).
    + intros r w3 Hacc. eapply at_posted; [done.. | apply signed_authentic | exact Hpost | exact Hacc].
Qed.

(** What was sent is at most one request, signed with the secret. *)
Lemma attempted_sent v r v' secret : open_secret (wj_secret job) = Ok secret → attempted v r v' →
  v_sent v' = v_sent v ∨
  ∃ e, request_for (wj_url job) secret (wj_payload job) now e ∧ v_sent v' = v_sent v ++ [e].
Proof.
  intros Hsec Ha. destruct Ha as [| | | | | | | wh s e a v1 r v' ? ? ? Hs ? ? He Hpost Hacc]; try (by left).
  assert (s = secret) as -> by congruence. assert (v_sent v' = v_sent v1) as -> by by destruct Hacc.
  destruct Hpost as [| | ? ? [-> | ->]]; eauto.
Qed.

(** What follows for the webhook of the job, and for others. *)
Lemma attempted_others v r v' k : attempted v r v' → k ≠ wj_webhookId job →
  v_tables v' MWebhook !! k = v_tables v MWebhook !! k.
Proof.
  intros Ha Hk. destruct Ha as [| | | | | | | wh secret e a v1 r v' ? ? ? ? ? ? ? Hpost Hacc]; try done.
  - cbn. by rewrite upd_eq, lookup_insert_ne.
  - rewrite <- (posted_tables _ _ _ _ Hpost). destruct Hacc; cbn;
      rewrite ?upd_eq, ?lookup_insert_ne, ?upd_ne; done.
Qed.

Lemma attempted_bound v r v' wh wh' : 0 < wc_autoDisableThreshold cfg →
  attempted v r v' → webhook_of v = Some wh → webhook_of v' = Some wh' →
  wh_failureCount wh ≤ wc_autoDisableThreshold cfg → wh_failureCount wh' ≤ wc_autoDisableThreshold cfg.
Proof.
  intros Hpos Ha Hwh Hwh' Hle.
  destruct Ha as [| | wh0 H0 | | | | | wh0 secret e a v1 r v' H0 ? Hlt ? ? ? ? Hpost Hacc];
    try (by rewrite Hwh in Hwh'; injection Hwh' as <-).
  - rewrite Hwh in H0. injection H0 as <-. unfold webhook_of in Hwh'. cbn in Hwh'.
    rewrite upd_eq, lookup_insert_eq in Hwh'. by injection Hwh' as <-.
  - rewrite Hwh in H0. injection H0 as <-. pose proof (posted_tables _ _ _ _ Hpost) as Ht.
    unfold webhook_of in Hwh, Hwh'. destruct Hacc; cbn in Hwh'.
    + rewrite upd_eq, lookup_insert_eq in Hwh'. injection Hwh' as <-.
      unfold tallied. cbn. destruct (at_success a); lia.
    + rewrite Ht in Hwh'. by pose proof (Some_agree Hwh Hwh') as <-.
    + rewrite upd_ne, Ht in Hwh' by done. by pose proof (Some_agree Hwh Hwh') as <-.
Qed.
End attempt.

End worker.

(** ** Witnesses *)

Definition webhook_config : WebhookConfig := {|
  wc_autoDisableThreshold := 2; wc_stringify := λ _, "{}"; wc_decrypt := Ok;
  wc_validUrl := λ _, true; wc_unicast := λ _, true |}.

Definition sample_webhook : Webhook := {|
  wh_id := "h1"; wh_protocolId := "p1"; wh_url := "https://x"; wh_events := ["notification.failed"];
  wh_secretHash := "s"; wh_secretPrefix := None; wh_createdAt := 0; wh_isActive := true; wh_failureCount := 0; wh_lastSuccessAt := None;
  wh_lastFailureAt := None |}.

Definition sample_webhook_job : WebhookJobData := {|
  wj_webhookId := "h1"; wj_url := "https://x"; wj_secret := "s";
  wj_payload := {| wp_eventId := "e"; wp_eventType := "notification.failed"; wp_timestamp := 0;
    wp_notificationId := Some "n1"; wp_status := Some Failed; wp_outcomes := []; wp_error := None;
    wp_wallet := None; wp_deliveredAt := None;
    wp_message := None; wp_webhookId := None |} |}.

Lemma event_reaches_subscribers_witness :
  let w := mem_world (with_rows MWebhook [sample_webhook] no_tables) ∅ in
  let data := {| ev_notificationId := "n1"; ev_status := Failed; ev_outcomes := []; ev_error := None;
                 ev_wallet := "w"; ev_deliveredAt := None |} in
  let run := dispatch_event "p1" "notification.failed" data "e" 0 w in
  run.1 = Ok () ∧ length (v_jobs (view run.2) QWebhook) = 1%nat ∧
  ∃ whs, v_jobs (view run.2) QWebhook =
      webhook_job (event_payload "notification.failed" data "e" 0) <$> whs ∧
    sample_webhook ∈ whs.
Proof.
  intros w data run. assert (run.1 = Ok ()) as Hr by (vm_compute; reflexivity).
  destruct (wp_at _ _ w _ (event_reaches_subscribers "p1" "notification.failed" data "e" 0 w) Hr)
    as (whs & Hjobs & _ & Hall).
  split_and!; [exact Hr | vm_compute; reflexivity |]. exists whs. split; [exact Hjobs |].
  apply (Hall eq_refl "h1"); [reflexivity | reflexivity | reflexivity |]. left.
Defined.

(** The host fails three times and would then answer. *)
Definition failing_host : World :=
  (mem_world (with_rows MWebhook [sample_webhook] no_tables) ∅)
    <| w_net ::= set m_outcomes (λ _, [inl "ECONNREFUSED"; inl "ECONNREFUSED"; inl "ECONNREFUSED"]) |>.

