(* ===== verification/WebhookApi.v ===== *)
(** * Registering webhooks

    [WebhookController] of [src/modules/webhook/webhook.controller.ts] and
    [src/common/crypto/webhook-crypto.ts]: the endpoints of a protocol for its
    webhooks, and the AES-256-GCM form its signing secrets are stored in.  The
    cipher is a parameter ([Gcm]); the random bytes are arguments.  Of the
    schema, the limit of the column of the secret and the cascade that takes
    the deliveries of a removed webhook along are modelled. *)

From Stdlib Require Import Ascii String.
From S2P Require Import Prelude Schema External Memory Frame Hex Unsubscribe Webhook.

Open Scope string_scope.
Open Scope list_scope.
Open Scope Z_scope.

(** ** The cipher *)

(** [createCipheriv('aes-256-gcm', key, iv)] and its counterpart: the
    ciphertext and the tag of a text; the text of them, or the error of the
    authentication. *)
Class Gcm := {
  gcm_seal (key iv : bytes) (plaintext : string) : bytes * bytes;
  gcm_open (key iv ciphertext tag : bytes) : result string;
}.

Definition is_bytes (b : bytes) : Prop := Forall (λ x, (x < 256)%N) b.

Class GcmLaws (G : Gcm) : Prop := {
  gcm_opens key iv s : gcm_open key iv (gcm_seal key iv s).1 (gcm_seal key iv s).2 = Ok s;
  gcm_bytes key iv s : is_bytes (gcm_seal key iv s).1 ∧ is_bytes (gcm_seal key iv s).2;
  (** The ciphertext has the bytes of the UTF-8 of the text, the tag has 16. *)
  gcm_sizes key iv s : (String.length s ≤ length (gcm_seal key iv s).1)%nat ∧
    length (gcm_seal key iv s).2 = 16%nat;
}.

Definition ZERO_KEY : bytes := replicate 32 0%N.

(** [getKey], of [WEBHOOK_ENCRYPTION_KEY] and whether [NODE_ENV] is
    production. *)
Definition getKey (hex : option string) (production : bool) : result bytes :=
  if truthy hex then
    let key := from_hex (default "" hex) in
    if bool_decide (length key = 32%nat) then Ok key
    else Err (JsError "WEBHOOK_ENCRYPTION_KEY must be a 64-char hex string (32 bytes)" None)
  else if production then Err (JsError "WEBHOOK_ENCRYPTION_KEY must be set in production" None)
  else Ok ZERO_KEY.

Section crypto.
Context `{G : Gcm}.
Context (key : result bytes).

Definition encryptWebhookSecret (iv : bytes) (plaintext : string) : result string :=
  match key with
  | Err e => Err e
  | Ok k =>
      let sealed := gcm_seal k iv plaintext in
      Ok (to_hex iv +:+ "." +:+ to_hex sealed.1 +:+ "." +:+ to_hex sealed.2)
  end.

Definition decryptWebhookSecret (ciphertext : string) : result string :=
  match key with
  | Err e => Err e
  | Ok k =>
      match split_dot ciphertext with
      | [ivHex; encHex; tagHex] => gcm_open k (from_hex ivHex) (from_hex encHex) (from_hex tagHex)
      | _ => Err (JsError "Invalid webhook secret ciphertext format" None)
      end
  end.
End crypto.

(** ** The endpoints *)

Record CreateWebhookDto := { cw_url : string; cw_events : option (list string) }.
Record UpdateWebhookDto := {
  uw_url : option string;
  uw_events : option (list string);
  uw_isActive : option bool;
}.

Record WebhookResponse := {
  wr_id : string;
  wr_url : string;
  wr_events : list string;
  wr_secret : option string;
  wr_is_active : bool;
  wr_failure_count : option Z;
  wr_last_success_at : option Z;
  wr_created_at : Z;
}.

Definition default_events : list string := ["notification.delivered"].

Definition own_webhook (id protocolId : string) : where_ MWebhook := λ k wh,
  bool_decide (k = id) && bool_decide (wh_protocolId wh = protocolId).

Definition listed_webhook (wh : Webhook) : WebhookResponse := {|
  wr_id := wh_id wh; wr_url := wh_url wh; wr_events := wh_events wh; wr_secret := None;
  wr_is_active := wh_isActive wh; wr_failure_count := Some (wh_failureCount wh);
  wr_last_success_at := wh_lastSuccessAt wh; wr_created_at := wh_createdAt wh |}.

(** The columns a request changes; an empty URL is left out, an empty list of
    events is not. *)
Definition updated_webhook (dto : UpdateWebhookDto) (wh : Webhook) : Webhook :=
  let wh := if truthy (uw_url dto) then wh <| wh_url := default "" (uw_url dto) |> else wh in
  let wh := match uw_events dto with Some es => wh <| wh_events := es |> | None => wh end in
  match uw_isActive dto with Some b => wh <| wh_isActive := b |> | None => wh end.

(** The payload of the test event. *)
Definition ping_payload (webhookId uuid : string) (now : Z) : WebhookPayload := {|
  wp_eventId := uuid; wp_eventType := "ping"; wp_timestamp := now; wp_notificationId := None;
  wp_status := None; wp_outcomes := []; wp_error := None; wp_wallet := None; wp_deliveredAt := None;
  wp_message := Some "Hello from Herald Notification Gateway!"; wp_webhookId := Some webhookId |}.

Section endpoints.
Context `{B : Backend} `{G : Gcm}.
Context (key : result bytes).

(** [secret_hash] is a [VARCHAR(64)] (prisma/schema.prisma): the database
    refuses a longer text. *)
Definition fits_secret_hash (s : string) : bool := (String.length s <=? 64)%nat.

Definition value_too_long : exn :=
  JsError "The provided value for the column is too long for the column's type." (Some "P2000").

Definition insert_webhook (mk : string → Webhook) (secretHash : string) : M World Webhook :=
  if fits_secret_hash secretHash then create MWebhook mk else raise value_too_long.

(** [secret] is [bs58.encode(randomBytes(32))]. *)
Definition create_webhook (dto : CreateWebhookDto) (protocol : AuthenticatedProtocol)
    (secret : string) (iv : bytes) (now : Z) : M World WebhookResponse :=
  encryptedSecret ← lift (encryptWebhookSecret key iv secret);
  wh ← insert_webhook (λ id, {|
    wh_id := id; wh_protocolId := ap_protocolId protocol; wh_url := cw_url dto;
    wh_events := default default_events (cw_events dto); wh_secretHash := encryptedSecret;
    wh_secretPrefix := Some (substring 0 8 secret); wh_isActive := true; wh_failureCount := 0;
    wh_lastSuccessAt := None; wh_lastFailureAt := None; wh_createdAt := now |}) encryptedSecret;
  mret {| wr_id := wh_id wh; wr_url := wh_url wh; wr_events := wh_events wh;
          wr_secret := Some secret; wr_is_active := wh_isActive wh; wr_failure_count := None;
          wr_last_success_at := None; wr_created_at := wh_createdAt wh |}.

Definition list_webhooks (protocol : AuthenticatedProtocol) : M World (list WebhookResponse) :=
  webhooks ← find_many MWebhook (λ _ wh, bool_decide (wh_protocolId wh = ap_protocolId protocol))
    (Some (λ wh, - wh_createdAt wh));
  mret (listed_webhook <$> webhooks).

(** [updateMany] reports whether a row matched. *)
Definition update_webhook (id : string) (dto : UpdateWebhookDto) (protocol : AuthenticatedProtocol) :
    M World bool := λ w,
  let own := own_webhook id (ap_protocolId protocol) in
  let matched := match tables (w_db w) MWebhook !! id with Some wh => own id wh | None => false end in
  (_ ← update_many MWebhook own (updated_webhook dto); mret matched) w.

(** [deleteMany], and with the row, in the same statement, its deliveries:
    their foreign key is [ON DELETE CASCADE] (prisma/schema.prisma). *)
Definition remove_webhook (id : string) (protocol : AuthenticatedProtocol) : M World () :=
  transaction (
    gone ← p_find_many MWebhook (own_webhook id (ap_protocolId protocol)) None : M DB _;
    _ ← p_delete_many MWebhook (own_webhook id (ap_protocolId protocol)) : M DB _;
    match gone with
    | [] => mret ()
    | _ => p_delete_many MWebhookDelivery (λ _ d, bool_decide (wd_webhookId d = id))
    end).

(** The id and the URL of the webhook, or [None] where there is none. *)
Definition test_webhook (id : string) (protocol : AuthenticatedProtocol) (uuid : string) (now : Z) :
    M World (option (string * string)) :=
  wh ← find_first MWebhook (own_webhook id (ap_protocolId protocol)) None;
  match wh with
  | None => mret None
  | Some wh =>
      _ ← dispatch_payload (ap_protocolId protocol) "ping" (ping_payload (wh_id wh) uuid now);
      mret (Some (wh_id wh, wh_url wh))
  end.
End endpoints.

(** ** Lemmas: the stored form *)

Lemma hex_digit_no_dot n : (n < 16)%N → Ascii.eqb "." (hex_digit n) = false.
Proof.
  intros Hn. assert (Forall (λ n, Ascii.eqb "." (hex_digit n) = false) (N.of_nat <$> seq 0 16)) as H.
  { refine (bool_decide_unpack _ _). vm_compute. exact I. }
  apply (proj1 (list.Forall_forall _ _) H), list_elem_of_fmap. exists (N.to_nat n).
  split; [lia | apply list_elem_of_In, in_seq; lia].
Qed.

Lemma hex_no_dot b : is_bytes b → has_dot (to_hex b) = false.
Proof.
  unfold has_dot. induction 1 as [|x b Hx _ IH]; [done |]. cbn [to_hex list_ascii_of_string existsb].
  rewrite !hex_digit_no_dot by (apply N.mod_lt || apply N.Div0.div_lt_upper_bound; lia). exact IH.
Qed.

Lemma split_dot_cons p s : has_dot p = false → split_dot (p +:+ "." +:+ s) = p :: split_dot s.
Proof.
  intros Hp. induction p as [|c p IH]; [done |].
  change (split_dot (String c (p +:+ "." +:+ s)) = String c p :: split_dot s).
  apply orb_false_iff in Hp as [Hc Hp]. cbn [split_dot]. rewrite Hc. by rewrite IH.
Qed.

Lemma length_join s t : String.length (s +:+ t) = (String.length s + String.length t)%nat.
Proof. induction s as [|c s IH]; [done |]. change (String.length (String c (s +:+ t)) = S (String.length s) + String.length t)%nat. cbn [String.length]. by rewrite IH. Qed.

Section secrets.
Context `{G : Gcm} `{GL : !GcmLaws G}.

Definition sealed_form (k iv : bytes) (secret : string) : string :=
  to_hex iv +:+ "." +:+ to_hex (gcm_seal k iv secret).1 +:+ "." +:+ to_hex (gcm_seal k iv secret).2.

Lemma sealed_parts k iv secret : is_bytes iv →
  split_dot (sealed_form k iv secret) =
    [to_hex iv; to_hex (gcm_seal k iv secret).1; to_hex (gcm_seal k iv secret).2].
Proof.
  intros Hiv. unfold sealed_form. destruct (gcm_bytes k iv secret) as [Hc Ht].
  rewrite !split_dot_cons by (by apply hex_no_dot). by rewrite split_dot_no_dot by (by apply hex_no_dot).
Qed.

Lemma sealed_length k iv secret : length iv = 12%nat →
  (58 + 2 * String.length secret ≤ String.length (sealed_form k iv secret))%nat.
Proof.
  intros Hiv. unfold sealed_form. rewrite !length_join, !to_hex_length, Hiv.
  destruct (gcm_sizes k iv secret) as [Hc Ht]. rewrite Ht. cbn. lia.
Qed.

Lemma secret_opens k iv secret stored : length iv = 12%nat → is_bytes iv →
  encryptWebhookSecret (Ok k) iv secret = Ok stored →
  isEncrypted stored = true ∧ decryptWebhookSecret (Ok k) stored = Ok secret.
Proof.
  intros Hlen Hiv. cbn [encryptWebhookSecret]. fold (sealed_form k iv secret). intros [= <-].
  destruct (gcm_bytes k iv secret) as [Hc Ht]. split.
  - unfold isEncrypted. rewrite sealed_parts by done. by rewrite to_hex_length, Hlen.
  - unfold decryptWebhookSecret. rewrite sealed_parts by done. rewrite !from_to_hex by done.
    apply gcm_opens.
Qed.

(** The stored form of a secret.  What [encryptWebhookSecret] makes of a
    secret is recognised as encrypted and decrypts, under the same key, to the
    secret; a secret of four characters or more needs more than the 64
    characters of the column it is stored in. *)
Theorem secret_roundtrip k iv secret stored : length iv = 12%nat → is_bytes iv →
  encryptWebhookSecret (Ok k) iv secret = Ok stored →
  isEncrypted stored = true ∧ decryptWebhookSecret (Ok k) stored = Ok secret ∧
  ((4 ≤ String.length secret)%nat → (64 < String.length stored)%nat).
Proof.
  intros Hlen Hiv Henc. destruct (secret_opens _ _ _ _ Hlen Hiv Henc) as [Hise Hdec].
  split_and!; [done | done |]. intros Hs. cbn [encryptWebhookSecret] in Henc. injection Henc as <-.
  pose proof (sealed_length k iv secret Hlen) as Hl. unfold sealed_form in Hl. lia.
Qed.
End secrets.

(** ** Properties of the endpoints *)

Section properties.
Context `{B : Backend} `{BL : !BackendLaws B} `{G : Gcm} `{GL : !GcmLaws G} `{S : Signing}.

(** A text of a webhook's column that stands for [secret] under the key [k]:
    the plain secret of an older row, which has no full stop, or the sealed
    form. *)
Definition stands_for (k : bytes) (stored secret : string) : Prop :=
  (has_dot stored = false ∧ stored = secret) ∨
  ∃ iv, length iv = 12%nat ∧ is_bytes iv ∧ stored = sealed_form k iv secret.

Lemma stands_for_opens cfg k stored secret : wc_decrypt cfg = decryptWebhookSecret (Ok k) →
  stands_for k stored secret → open_secret cfg stored = Ok secret.
Proof.
  intros Hdec [[Hdot ->] | (iv & Hlen & Hiv & ->)]; unfold open_secret.
  - unfold isEncrypted. by rewrite split_dot_no_dot.
  - destruct (secret_opens k iv secret (sealed_form k iv secret) Hlen Hiv) as [-> H]; [done |]. by rewrite Hdec.
Qed.

Lemma creation_refused key dto protocol secret iv now w :
  length iv = 12%nat → (4 ≤ String.length secret)%nat →
  wp (create_webhook key dto protocol secret iv now) (λ r w', is_ok r = false ∧ view w' = view w) w.
Proof.
  intros Hlen Hsec. unfold create_webhook. apply wp_bind, wp_lift.
  destruct key as [k|e]; cbn [encryptWebhookSecret]; [| done]. fold (sealed_form k iv secret).
  apply wp_bind. unfold insert_webhook, fits_secret_hash.
  pose proof (sealed_length k iv secret Hlen). destruct (Nat.leb_spec (String.length (sealed_form k iv secret)) 64); [lia |].
  by apply wp_raise.
Qed.

(** C16.  A webhook's secret.  A webhook can not be registered: the sealed
    secret is too long for its column, so creating one with a secret of four
    characters or more (it is 32 random bytes in base58) is refused by the
    database, and changes nothing.  And every request a worker with the same
    key sends for a job of a webhook there is, whatever the event, carries the
    HMAC under the secret its column stands for: the text itself in an older
    row that holds it in the clear, and what was sealed in one that was
    sealed. *)
Theorem secret_signs_deliveries cfg k secret :
  wc_decrypt cfg = decryptWebhookSecret (Ok k) → (4 ≤ String.length secret)%nat →
  (∀ key dto protocol iv now w, length iv = 12%nat →
     wp (create_webhook key dto protocol secret iv now) (λ r w', is_ok r = false ∧ view w' = view w) w) ∧
  ∀ wh payload made latency t w, stands_for k (wh_secretHash wh) secret →
    wp (process cfg (job_payload (webhook_job payload wh)) made latency t) (λ _ w',
      v_sent (view w') = v_sent (view w) ∨
      ∃ e, request_for cfg (wh_url wh) secret payload t e ∧ v_sent (view w') = v_sent (view w) ++ [e]) w.
Proof.
  intros Hdec Hsec. split; [intros; by apply creation_refused |].
  intros wh payload made latency t w Hst. pose proof (stands_for_opens cfg k _ _ Hdec Hst) as Hopen.
  eapply wp_mono; [by apply attempt_spec |]. intros r w' Ha.
  by apply (attempted_sent cfg (job_payload (webhook_job payload wh)) made latency t (view w) r).
Qed.

(** What the endpoints of a protocol leave alone. *)
Definition others_untouched (protocol : AuthenticatedProtocol) (v v' : View) : Prop :=
  (∀ k wh, v_tables v MWebhook !! k = Some wh → wh_protocolId wh ≠ ap_protocolId protocol →
     v_tables v' MWebhook !! k = Some wh) ∧
  ∀ m, m ≠ MWebhook → v_tables v' m = v_tables v m.

(** Updating and removing. *)
Lemma own_webhook_spec id protocolId k wh :
  own_webhook id protocolId k wh = true ↔ k = id ∧ wh_protocolId wh = protocolId.
Proof. unfold own_webhook. by rewrite andb_true_iff, !bool_decide_eq_true. Qed.

(** Rewriting the table of webhooks where only own rows may change. *)
Lemma own_reach id protocol (f : gmap string Webhook → gmap string Webhook) v v' :
  v' = v <| v_tables ::= upd MWebhook f |> →
  (∀ t k, (∀ wh, t !! k = Some wh → own_webhook id (ap_protocolId protocol) k wh = false) →
     f t !! k = t !! k) →
  others_untouched protocol v v' ∧
  ∀ k, k ≠ id → v_tables v' MWebhook !! k = v_tables v MWebhook !! k.
Proof.
  intros -> Hf. unfold others_untouched. cbn. rewrite upd_eq.
  assert (∀ k wh, own_webhook id (ap_protocolId protocol) k wh = true →
    k = id ∧ wh_protocolId wh = ap_protocolId protocol) as Hown by (intros ??; apply own_webhook_spec).
  split; [split |].
  - intros k wh Hk Hne. rewrite Hf; [done |]. intros r Hr. pose proof (Some_agree Hr Hk) as ->.
    destruct (own_webhook _ _ k wh) eqn:Ho; [| done]. by destruct (Hown _ _ Ho).
  - intros m Hm. by apply upd_ne.
  - intros k Hne. apply Hf. intros wh _. destruct (own_webhook _ _ k wh) eqn:Ho; [| done]. by destruct (Hown _ _ Ho).
Qed.

(** The protocol has a webhook under the id. *)
Definition owns (id : string) (protocol : AuthenticatedProtocol) (v : View) : Prop :=
  ∃ wh, v_tables v MWebhook !! id = Some wh ∧ wh_protocolId wh = ap_protocolId protocol.

(** The webhook [id] and its deliveries are gone; no other row changed. *)
Record removed (id : string) (v v' : View) : Prop := {
  rm_webhook k : v_tables v' MWebhook !! k = if decide (k = id) then None else v_tables v MWebhook !! k;
  rm_deliveries k : v_tables v' MWebhookDelivery !! k =
    (d ← v_tables v MWebhookDelivery !! k; if bool_decide (wd_webhookId d = id) then None else Some d);
  rm_others m : m ≠ MWebhook → m ≠ MWebhookDelivery → v_tables v' m = v_tables v m;
  rm_rest : v' = v <| v_tables := v_tables v' |>;
}.

(** No row and nothing else changed. *)
Definition untouched (v v' : View) : Prop :=
  (∀ m, v_tables v' m = v_tables v m) ∧ v' = v <| v_tables := v_tables v' |>.

Lemma own_owns id protocol (t : gmap string Webhook) :
  (∃ k wh, t !! k = Some wh ∧ own_webhook id (ap_protocolId protocol) k wh = true) ↔
  ∃ wh, t !! id = Some wh ∧ wh_protocolId wh = ap_protocolId protocol.
Proof.
  split.
  - intros (k & wh & Hk & [-> Hp]%own_webhook_spec). by exists wh.
  - intros (wh & Hk & Hp). exists id, wh. split; [done |]. by apply own_webhook_spec.
Qed.

(** The row of an own webhook is the only one the statement deletes. *)
Lemma delete_own id protocol wh (t : gmap string Webhook) k :
  t !! id = Some wh → wh_protocolId wh = ap_protocolId protocol →
  delete_where (m := MWebhook) (own_webhook id (ap_protocolId protocol)) t !! k =
    if decide (k = id) then None else t !! k.
Proof.
  intros Hid Hp. rewrite (lookup_delete_where (m := MWebhook)). change (row MWebhook) with Webhook.
  case_decide as Hk; [subst k; rewrite Hid | destruct (t !! k) as [r|]; [| done]]; cbn.
  - by rewrite (proj2 (own_webhook_spec id (ap_protocolId protocol) id wh)).
  - destruct (own_webhook id (ap_protocolId protocol) k r) eqn:Ho; [| done].
    by apply own_webhook_spec in Ho as [? _].
Qed.

Lemma remove_spec id protocol w :
  wp (remove_webhook id protocol) (λ r w',
    (is_ok r = true ∧ owns id protocol (view w) ∧ removed id (view w) (view w')) ∨
    ((is_ok r = false ∨ ¬ owns id protocol (view w)) ∧ untouched (view w) (view w'))) w.
Proof.
  unfold remove_webhook. set (own := own_webhook id (ap_protocolId protocol)).
  apply wp_transaction; [| by intros e w' ->; right; split; [left | split]].
  intros d Hd. apply wp_bind, (wp_db_find_many MWebhook); [| done].
  intros gone d1 (_ & (ks & _ & Hks) & Hall) Hd1. apply wp_bind, (wp_db_delete_many MWebhook); [| done].
  intros d2 Hd2. rewrite Hd in *. rewrite Hd1 in Hd2. destruct gone as [|g gone].
  - apply wp_ret. intros [] w' _ Hv'. right.
    assert (¬ owns id protocol (view w)) as Hno.
    { intros (k & wh & Hk & Ho)%(own_owns id protocol). specialize (Hall k wh Hk Ho).
      by apply elem_of_nil in Hall. }
    split; [by right |]. rewrite Hv', Hd2. split; [| done]. intros m. cbn.
    destruct (decide (MWebhook = m)) as [<- | Hne]; [rewrite upd_eq | by rewrite upd_ne].
    apply map_eq. intros k. rewrite (lookup_delete_where (m := MWebhook)).
    destruct (v_tables (view w) MWebhook !! k) as [wh|] eqn:Hk; [| done]. cbn. fold own.
    destruct (own k wh) eqn:Ho; [| done]. by destruct Hno; apply own_owns; eauto.
  - assert (owns id protocol (view w)) as Hown.
    { apply own_owns. inversion Hks as [|k ? ks' ? [Hk Hp]]; subst. eauto. }
    apply wp_db_delete_many; [| done]. intros d3 Hd3 [] w' _ Hv'. left. split_and!; [done | done |].
    destruct Hown as (wh & Hid & Hp). rewrite Hd2 in Hd3. rewrite Hv', Hd3. split; cbn.
    + intros k. rewrite upd_ne, upd_eq by done. by apply (delete_own id protocol wh).
    + intros k. rewrite upd_eq, upd_ne by done. apply (lookup_delete_where (m := MWebhookDelivery)).
    + intros m H1 H2. by rewrite !upd_ne.
    + done.
Qed.

(** A webhook with the columns a request gives; an empty URL is none. *)
Definition given (dto : UpdateWebhookDto) (wh : Webhook) : Webhook :=
  wh <| wh_url := match uw_url dto with Some (String c s) => String c s | _ => wh_url wh end |>
     <| wh_events := default (wh_events wh) (uw_events dto) |>
     <| wh_isActive := default (wh_isActive wh) (uw_isActive dto) |>.

Lemma updated_given dto wh : updated_webhook dto wh = given dto wh.
Proof. destruct dto as [[[|c s]|] [es|] [b|]], wh; reflexivity. Qed.

(** C36.  The endpoints of a protocol reach its own webhooks only.  An update
    changes no webhook under another id or of another protocol and no other
    table; it answers whether the protocol has the webhook, and then exactly
    the columns that are given changed in it.  A removal takes away the webhook, if the
    protocol has one under that id, and with it the record of its deliveries
    and no other row; it changes nothing if the protocol has none, or if it
    rejects. *)
Theorem own_webhooks_only id dto protocol w :
  wp (update_webhook id dto protocol) (λ r w', others_untouched protocol (view w) (view w') ∧
    (∀ k, k ≠ id → v_tables (view w') MWebhook !! k = v_tables (view w) MWebhook !! k) ∧
    ∀ updated, r = Ok updated →
      v_tables (view w') MWebhook !! id =
        (λ wh, if updated then given dto wh else wh) <$> v_tables (view w) MWebhook !! id ∧
      (updated = true ↔ owns id protocol (view w))) w ∧
  wp (remove_webhook id protocol) (λ r w',
    (is_ok r = true ∧ owns id protocol (view w) ∧ removed id (view w) (view w')) ∨
    ((is_ok r = false ∨ ¬ owns id protocol (view w)) ∧ untouched (view w) (view w'))) w.
Proof.
  set (own := own_webhook id (ap_protocolId protocol)). split; [| apply remove_spec].
  assert (∀ v, others_untouched protocol v v) as Hrefl by done.
  lazymatch goal with |- wp _ ?Q w =>
    change (wp (_ ← update_many MWebhook own (updated_webhook dto);
                mret (match tables (w_db w) MWebhook !! id with Some wh => own id wh | None => false end)) Q w) end.
  apply wp_bind, (wp_update_many MWebhook); [| intros e w1 ->; by split_and!].
  intros w1 Hv1. apply wp_ret.
  destruct (own_reach id protocol _ _ _ Hv1) as [Hoth Hkeep];
    [intros t k; apply (update_where_keeps (m := MWebhook)) |].
  split_and!; [done | done |]. intros updated [= <-].
  rewrite Hv1. cbn. rewrite upd_eq, (lookup_update_where (m := MWebhook)). unfold owns.
  change (tables (w_db w)) with (v_tables (view w)). change (row MWebhook) with Webhook.
  destruct ((v_tables (view w) MWebhook : gmap string Webhook) !! id) as [wh|]; cbn.
  - rewrite updated_given. split; [done |]. split; [intros Ho; apply own_webhook_spec in Ho as [_ ?]; eauto |].
    intros (wh' & [= <-] & Hpr). by apply own_webhook_spec.
  - split; [done |]. split; [done | by intros (? & [=] & _)].
Qed.

(** Testing a webhook sends the test event to the webhooks of the protocol
    that subscribed to it, which need not be the one under test. *)
Theorem test_goes_to_subscribers id protocol uuid now w :
  wp (test_webhook id protocol uuid now) (λ r w',
    ∃ whs wid, v_jobs (view w') QWebhook = v_jobs (view w) QWebhook ++
      (webhook_job (ping_payload wid uuid now) <$> whs) ∧
    ∀ wh, wh ∈ whs → wh_protocolId wh = ap_protocolId protocol ∧ wh_isActive wh = true ∧
      "ping" ∈ wh_events wh) w.
Proof.
  unfold test_webhook. apply wp_bind, (wp_find_first MWebhook).
  2:{ intros e w1 Hv1. exists [], "". rewrite Hv1, app_nil_r. split; [done | by intros ? ?%elem_of_nil]. }
  intros [wh|] w1 _ Hv1.
  2:{ apply wp_ret. exists [], "". rewrite Hv1, app_nil_r. split; [done | by intros ? ?%elem_of_nil]. }
  apply wp_bind. eapply wp_mono; [apply dispatch_spec |]. intros r w2 (whs & Hj & Hin & _).
  assert (∃ whs wid, v_jobs (view w2) QWebhook = v_jobs (view w) QWebhook ++
      (webhook_job (ping_payload wid uuid now) <$> whs) ∧
    ∀ wh, wh ∈ whs → wh_protocolId wh = ap_protocolId protocol ∧ wh_isActive wh = true ∧
      "ping" ∈ wh_events wh) as Hend.
  { exists whs, (wh_id wh). rewrite <- Hv1. split; [done |]. intros wh0 Hwh0.
    destruct (Hin _ Hwh0) as (? & ? & ? & _). done. }
  destruct r; [by apply wp_ret | done].
Qed.
End properties.

Section witness.
#[local] Instance toy_gcm : Gcm := {
  gcm_seal k iv s := (N_of_ascii <$> list_ascii_of_string s, replicate 16 1%N);
  gcm_open k iv c t := Ok (string_of_list_ascii (ascii_of_N <$> c));
}.

Lemma small_bytes n x : (x < 256)%N → is_bytes (replicate n x).
Proof. intros Hx. induction n; by constructor. Qed.

#[local] Instance toy_gcm_laws : GcmLaws toy_gcm.
Proof.
  split.
  - intros k iv s. cbn. f_equal. induction s as [|c s IH]; [done |]. cbn.
    rewrite ascii_N_embedding. f_equal. exact IH.
  - intros k iv s. cbn [gcm_seal toy_gcm fst snd]. split; [| apply small_bytes; lia].
    unfold is_bytes. induction s as [|c s IH]; [constructor |]. cbn. constructor; [apply N_ascii_bounded | exact IH].
  - intros k iv s. cbn. split; [| done]. induction s as [|c s IH]; [done |]. cbn.
    rewrite length_fmap in *. cbn. lia.
Qed.

#[local] Instance toy_signing : Signing := {
  hmac_b64 k d := k; hmac_hex k d := k; encode_payload _ := ""; decode_payload _ := None; b64_bytes _ := [];
}.

Definition an_iv : bytes := replicate 12 7%N.
Definition a_secret : string := "4xR9mKp2nQwBvTsYjL8dHcFuEa3ZiXuWabcdefghijk".

Lemma secret_roundtrip_witness : ∃ stored,
  encryptWebhookSecret (getKey None false) an_iv a_secret = Ok stored ∧
  decryptWebhookSecret (getKey None false) stored = Ok a_secret ∧ String.length stored = 144%nat.
Proof.
  eexists. split; [vm_compute; reflexivity |]. set (stored := String _ _).
  destruct (secret_roundtrip ZERO_KEY an_iv a_secret stored) as (_ & Hdec & _);
    [reflexivity | apply small_bytes; reflexivity | vm_compute; reflexivity |].
  split; [exact Hdec | vm_compute; reflexivity].
Defined.

Definition api_sender : AuthenticatedProtocol := {|
  ap_protocolId := "p1"; ap_protocolPubkey := "pk"; ap_apiKeyId := "k1"; ap_tier := 1;
  ap_scopes := ["webhook:write"]; ap_environment := Production; ap_isActive := true;
  ap_sendsThisPeriod := None; ap_name := None; ap_overageEnabled := None; ap_isTestKey := None;
  ap_testKeyType := None; ap_verificationStatus := None |}.

Definition api_config : WebhookConfig := {|
  wc_autoDisableThreshold := 10; wc_stringify := λ _, "{}";
  wc_decrypt := decryptWebhookSecret (Ok ZERO_KEY); wc_validUrl := λ _, true; wc_unicast := λ _, true |}.

Definition a_webhook : CreateWebhookDto := {| cw_url := "https://x"; cw_events := None |}.

(** An older row, with its secret in the clear: its job is delivered with the
    HMAC under it, which the toy [Signing] lets show.  A new one is refused. *)
Definition older_webhook : Webhook := sample_webhook <| wh_secretHash := a_secret |>.

Definition older_world : World := mem_world (with_rows MWebhook [older_webhook] no_tables) ∅.

Lemma secret_signs_deliveries_witness :
  let payload := ping_payload "h1" "e" 0 in
  let run := process api_config (job_payload (webhook_job payload older_webhook)) 0 5 7000 older_world in
  let refused := create_webhook (Ok ZERO_KEY) a_webhook api_sender a_secret an_iv 0 older_world in
  (v_sent (view run.2) = [HttpEnvelope "https://x" "{}" a_secret 7] ∧
   refused.1 = Err value_too_long) ∧
  (v_sent (view run.2) = [] ∨
   ∃ e, request_for api_config "https://x" a_secret payload 7000 e ∧ v_sent (view run.2) = [e]) ∧
  is_ok refused.1 = false ∧ view refused.2 = view older_world.
Proof.
  intros payload run refused. split; [split; vm_compute; reflexivity |].
  assert (4 ≤ String.length a_secret)%nat as Hsec by (vm_compute; lia).
  destruct (secret_signs_deliveries api_config ZERO_KEY a_secret eq_refl Hsec) as [Hno Hsigned]. split.
  - refine (wp_at _ _ older_world run.1 (Hsigned older_webhook payload 0 5 7000 older_world _) eq_refl).
    left. split; vm_compute; reflexivity.
  - exact (wp_at _ _ older_world refused.1 (Hno (Ok ZERO_KEY) a_webhook api_sender an_iv 0 older_world eq_refl) eq_refl).
Defined.

Definition no_change : UpdateWebhookDto := {|
  uw_url := None; uw_events := Some ["ping"]; uw_isActive := Some false |}.

Lemma own_webhooks_only_witness :
  let w := mem_world (with_rows MWebhook [sample_webhook] no_tables) ∅ in
  let other := api_sender <| ap_protocolId := "p2" |> in
  (update_webhook "h1" no_change api_sender w).1 = Ok true ∧
  (update_webhook "h1" no_change other w).1 = Ok false ∧
  others_untouched other (view w) (view (update_webhook "h1" no_change other w).2).
Proof.
  intros w other. split_and!; [vm_compute; reflexivity | vm_compute; reflexivity |].
  exact (proj1 (wp_at _ _ w _ (proj1 (own_webhooks_only "h1" no_change other w)) eq_refl)).
Defined.

(** The webhook under test is not subscribed to the test event: nothing is
    sent, and the answer is that it was. *)
Example test_reaches_nobody :
  let run := test_webhook "h1" api_sender "e" 0
               (mem_world (with_rows MWebhook [sample_webhook] no_tables) ∅) in
  run.1 = Ok (Some ("h1", "https://x")) ∧ v_jobs (view run.2) QWebhook = [].
Proof. vm_compute. auto. Qed.
End witness.
