(* ===== verification/Billing.v ===== *)
(** * Billing and metering

    [src/modules/billing/]: [OverageMeteringService], the repositories,
    [SubscriptionService], [SubscriptionGuard], [SubscriptionScheduler],
    [BillingService] and the Helio webhook.  An on-chain instruction and the
    cancellation and the checkout at Helio are messages of [Network]; of the
    checkout's URL, which only goes into the body of a refusal, the model keeps
    that it was asked for. *)

From S2P Require Import Prelude Schema External Memory Frame RateLimit.

Open Scope string_scope.
Open Scope list_scope.
Open Scope Z_scope.

(** [TIER_SEND_LIMITS[tier] || 1000] of [billing.service.ts] *)
Definition TIER_SEND_LIMITS (tier : Z) : option Z :=
  if Z.eqb tier 0 then Some 1000
  else if Z.eqb tier 1 then Some 10000
  else if Z.eqb tier 2 then Some 100000
  else if Z.eqb tier 3 then Some 1000000
  else None.

Definition send_limit (tier : Z) : Z := default 1000 (TIER_SEND_LIMITS tier).

Definition DAY : Z := 24 * 60 * 60 * 1000.

Section billing.
Context `{B : Backend} `{H : Hashing}.

(** ** Metering *)

Definition of_protocol (protocolId : string) : where_ MSubscription := λ _ s,
  bool_decide (s_protocolId s = protocolId).

(** The transaction of [incrementSendsThisPeriod] and [resetSendsThisPeriod]. *)
Definition meter (protocolId : string) (f : Z → Z) : M World () :=
  transaction (
    _ ← p_update MProtocol (by_id MProtocol protocolId)
          (λ p, p <| p_sendsThisPeriod ::= f |>) : M DB _;
    p_update_many MSubscription (of_protocol protocolId) (λ s, s <| s_sendsThisPeriod ::= f |>)).

Definition incrementSendsThisPeriod (protocolId : string) (n : Z) : M World () :=
  swallow () (meter protocolId (λ z, z + n)).

Definition resetSendsThisPeriod (protocolId : string) : M World () :=
  swallow () (meter protocolId (λ _, 0)).

(** ** [SubscriptionRepository] *)

Definition sub_key (protocolId : string) : string := "sub:" +:+ protocolId.

Definition findByProtocolId (protocolId : string) : M World (option Subscription) :=
  find_unique MSubscription (of_protocol protocolId).

(** [update] and [resetSends]: the row, then the cache entry. *)
Definition update_subscription (protocolId : string) (f : Subscription → Subscription) :
    M World Subscription :=
  result ← update MSubscription (of_protocol protocolId) f;
  _ ← swallow () (redis_del (sub_key protocolId));
  mret result.

(** [upsert] of the repository: [data] as a new row and as a change. *)
Definition upsert_subscription (protocolId : string) (mk : string → Subscription)
    (f : Subscription → Subscription) : M World Subscription :=
  result ← upsert MSubscription (of_protocol protocolId) mk f;
  _ ← swallow () (redis_del (sub_key protocolId));
  mret result.

Definition findActive : M World (list Subscription) :=
  find_many MSubscription (λ _ s, bool_decide (s_status s = SubActive)) None.

Definition findExpired (now : Z) : M World (list Subscription) :=
  find_many MSubscription (λ _ s, bool_decide (s_status s = SubActive) &&
    match s_currentPeriodEnd s with Some e => e <? now | None => false end) None.

Definition findDueForReset (now : Z) : M World (list Subscription) :=
  find_many MSubscription (λ _ s, bool_decide (s_status s = SubActive) &&
    (s_periodResetAt s <? now)) None.

Definition resetSends (protocolId : string) (now : Z) : M World Subscription :=
  update_subscription protocolId (λ s,
    s <| s_sendsThisPeriod := 0 |> <| s_periodResetAt := now + 30 * DAY |>).

(** ** [SubscriptionService] *)

(** [Number(months || 1)] *)
Definition months_paid (payload : HelioWebhookPayload) : Z :=
  match hp_months payload with
  | Some m => if Z.eqb m 0 then 1 else m
  | None => 1
  end.

Definition activated (payload : HelioWebhookPayload) (tier now periodEnd : Z) (s : Subscription) :
    Subscription :=
  s <| s_tier := tier |> <| s_status := SubActive |>
    <| s_helioSubscriptionId := Some (hp_transactionId payload) |>
    <| s_currentPeriodStart := Some now |> <| s_currentPeriodEnd := Some periodEnd |>
    <| s_sendsThisPeriod := 0 |> <| s_periodResetAt := periodEnd |>
    <| s_cancelAtPeriodEnd := false |>.

Definition blank_subscription (protocolId id : string) : Subscription := {|
  s_id := id; s_protocolId := protocolId; s_tier := 0; s_status := SubInactive;
  s_helioSubscriptionId := None; s_currentPeriodStart := None; s_currentPeriodEnd := None;
  s_sendsThisPeriod := 0; s_periodResetAt := 0; s_cancelAtPeriodEnd := false |}.

Definition helio_payment (payload : HelioWebhookPayload) (protocolId : string)
    (now periodEnd : Z) (id : string) : Payment := {|
  pay_id := id; pay_protocolId := protocolId;
  pay_amountUsdc := default 0 (hp_amountUsdc payload);
  pay_helioTransactionId := Some (hp_transactionId payload);
  pay_solanaTxSignature := hp_solanaTxSignature payload; pay_periodsPaid := months_paid payload;
  pay_periodStart := now; pay_periodEnd := periodEnd; pay_status := "completed";
  pay_createdAt := now |}.

Definition helio_event (transactionId : string) : where_ MHelioWebhookEvent := λ _ e,
  bool_decide (he_helioEventId e = transactionId).

(** The body of the transaction; a tier that is not a number is refused by
    the first statement. *)
Definition activation (payload : HelioWebhookPayload) (protocolId : string) (now periodEnd : Z) :
    M DB () :=
  tier ← lift match hp_tier payload with
              | Some t => Ok t
              | None => Err (JsError "Argument tier is missing" None)
              end;
  _ ← db_upsert MSubscription (of_protocol protocolId)
        (λ id, activated payload tier now periodEnd (blank_subscription protocolId id))
        (activated payload tier now periodEnd);
  _ ← p_create MPayment (helio_payment payload protocolId now periodEnd) : M DB _;
  _ ← p_update MProtocol (by_id MProtocol protocolId)
        (λ p, p <| p_tier := tier |> <| p_isActive := true |> <| p_updatedAt := now |>) : M DB _;
  _ ← p_update MHelioWebhookEvent (helio_event (hp_transactionId payload))
        (λ e, e <| he_processed := true |> <| he_processedAt := Some now |>) : M DB _;
  mret ().

Definition activateFromHelioPayment (payload : HelioWebhookPayload) (now : Z) : M World () :=
  protocol ← find_unique MProtocol
    (λ _ p, bool_decide (p_protocolPubkey p = hp_protocolPubkey payload));
  match protocol with
  | None => raise (JsError ("Protocol not found for pubkey " +:+ hp_protocolPubkey payload) None)
  | Some p =>
      _ ← swallow () (_ ← send (OnChainEnvelope "renewSubscription" (hp_protocolPubkey payload));
                      mret ());
      let periodEnd := now + 30 * DAY * months_paid payload in
      transaction (activation payload (p_id p) now periodEnd)
  end.

(** [HelioService.cancelHelioSubscription]: Helio's refusal and its failure are
    logged. *)
Definition cancelHelioSubscription (helioSubscriptionId : string) : M World () :=
  swallow () (_ ← send (HelioCancelEnvelope helioSubscriptionId); mret ()).

Definition scheduleCancellation (protocolId : string) : M World () :=
  _ ← update_subscription protocolId (λ s, s <| s_cancelAtPeriodEnd := true |>);
  sub ← findByProtocolId protocolId;
  let helioId := chain s_helioSubscriptionId sub in
  if truthy helioId then cancelHelioSubscription (default "" helioId) else mret ().

(** [HelioEventRepository] and [PaymentRepository]: the writes of the activation,
    one by one. *)
Definition findByPayloadHash (payloadHash : string) : M World (option HelioWebhookEvent) :=
  find_first MHelioWebhookEvent (λ _ e, bool_decide (he_payloadHash e = payloadHash)) None.

Definition markProcessed (helioEventId : string) (now : Z) : M World () :=
  _ ← update MHelioWebhookEvent (helio_event helioEventId)
        (λ e, e <| he_processed := true |> <| he_processedAt := Some now |>);
  mret ().

Definition create_payment (data : string → Payment) : M World Payment := create MPayment data.

(** One turn of the loop of [expireStaleSubscriptions]. *)
Definition expire_one (count : Z) (sub : Subscription) : M World Z :=
  catch (
    _ ← update_subscription (s_protocolId sub) (λ s, s <| s_status := SubExpired |>);
    _ ← update MProtocol (by_id MProtocol (s_protocolId sub)) (λ p, p <| p_isActive := false |>);
    protocol ← included MProtocol (s_protocolId sub);
    _ ← swallow () (
      _ ← send (OnChainEnvelope "deactivateProtocol"
                 (from_option p_protocolPubkey "" protocol)); mret ());
    mret (count + 1))
  (λ _, mret count).

Definition expireStaleSubscriptions (now : Z) : M World Z :=
  expired ← findExpired now;
  fold_each expire_one 0 expired.

(** [SubscriptionScheduler.resetPeriodSends] *)
Definition reset_one (now : Z) (sub : Subscription) : M World () :=
  swallow () (
    protocol ← included MProtocol (s_protocolId sub);
    _ ← resetSends (s_protocolId sub) now;
    _ ← send (OnChainEnvelope "resetProtocolSends" (from_option p_protocolPubkey "" protocol));
    mret ()).

Definition resetPeriodSends (now : Z) : M World () :=
  toReset ← findDueForReset now;
  for_each (reset_one now) toReset.

(** ** [SubscriptionGuard] *)

Definition cached_subscription (protocolId : string) (now : Z) : M World (option Subscription) :=
  swallow None (
    cached ← redis_get (sub_key protocolId) now;
    mret match cached with Some (RSubscription s) => Some s | _ => None end).

Definition load_subscription (protocolId : string) (now : Z) : M World (option Subscription) :=
  cached ← cached_subscription protocolId now;
  match cached with
  | Some s => mret (Some s)
  | None =>
      subscription ← findByProtocolId protocolId;
      _ ← match subscription with
          | Some s => swallow () (redis_setex (sub_key protocolId) 30 (RSubscription s) now)
          | None => mret ()
          end;
      mret subscription
  end.

(** [HelioService.mapTierToHeraldTier] *)
Definition herald_tier (tier : Z) : result string :=
  if tier =? 1 then Ok "growth"
  else if tier =? 2 then Ok "scale"
  else if tier =? 3 then Ok "enterprise"
  else Err (HttpError 400 "Invalid tier").

(** The tier [getCheckoutUrl] asks for: the protocol's own, or the first. *)
Definition checkout_tier (p : AuthenticatedProtocol) : Z := if 0 <? ap_tier p then ap_tier p else 1.

(** [SubscriptionGuard.getCheckoutUrl] with [HelioService.createCheckoutUrl].
    The principal has a [protocolId] and no [id], so the checkout's
    [protocol_id] is undefined. *)
Definition getCheckoutUrl (p : AuthenticatedProtocol) : M World string :=
  swallow "https://app.useherald.xyz/billing" (
    heraldTier ← lift (herald_tier (checkout_tier p));
    result ← send (HelioCheckoutEnvelope heraldTier (ap_protocolPubkey p) None 1);
    mret (rc_messageId result)).

(** A [PaymentRequiredException], whose body has the URL. *)
Definition payment_required (p : AuthenticatedProtocol) (code : string) : M World bool :=
  _ ← getCheckoutUrl p;
  raise (HttpError 402 code).

(** The checks on the subscription that was found. *)
Definition check_subscription (p : AuthenticatedProtocol) (now : Z) (subscription : option Subscription) :
    M World bool :=
  match subscription with
  | Some s =>
      if negb (bool_decide (s_status s = SubActive)) then
        payment_required p "SUBSCRIPTION_INACTIVE"
      else if match s_currentPeriodEnd s with Some e => e <? now | None => false end then
        payment_required p "SUBSCRIPTION_EXPIRED"
      else if send_limit (ap_tier p) <=? s_sendsThisPeriod s then
        raise (HttpError 429 "QUOTA_EXCEEDED")
      else mret true
  | None => payment_required p "SUBSCRIPTION_INACTIVE"
  end.

Definition canActivate (protocol : option AuthenticatedProtocol) (now : Z) : M World bool :=
  match protocol with
  | None => mret true
  | Some p =>
      if Z.eqb (ap_tier p) 0 then mret true else
      subscription ← load_subscription (ap_protocolId p) now;
      check_subscription p now subscription
  end.

(** ** [BillingService.getStatus] *)

Record BillingStatus := {
  bs_tier : Z;
  bs_isActive : bool;
  bs_status : SubscriptionStatus;
  bs_expiresAt : option Z;
  bs_daysRemaining : Z;
  bs_sendsThisPeriod : Z;
  bs_sendsLimit : Z;
  bs_periodResetAt : Z;
  bs_cancelAtPeriodEnd : bool;
}.

Definition getStatus (protocolId : string) (now : Z) : M World BillingStatus :=
  protocol ← find_unique MProtocol (by_id MProtocol protocolId);
  match protocol with
  | None => raise (HttpError 404 "Protocol not found")
  | Some p =>
      subscription ← findByProtocolId protocolId;
      let periodEnd := chain s_currentPeriodEnd subscription in
      mret {|
        bs_tier := p_tier p; bs_isActive := p_isActive p;
        bs_status := from_option s_status SubInactive subscription;
        bs_expiresAt := periodEnd;
        bs_daysRemaining :=
          match periodEnd with
          | Some e => Z.max 0 (ceil_div (e - now) 86400000)
          | None => 0
          end;
        bs_sendsThisPeriod := from_option s_sendsThisPeriod (p_sendsThisPeriod p) subscription;
        bs_sendsLimit := send_limit (p_tier p);
        bs_periodResetAt := from_option s_periodResetAt (p_periodResetAt p) subscription;
        bs_cancelAtPeriodEnd := from_option s_cancelAtPeriodEnd false subscription |}
  end.

Definition sendsRemaining (s : BillingStatus) : Z :=
  Z.max 0 (bs_sendsLimit s - bs_sendsThisPeriod s).

(** ** The Helio webhook *)

(** [HelioWebhookGuard.canActivate]; [digest] is
    [createHmac('sha256', secret).update(rawBody).digest('hex')]. *)
Definition helio_guard (digest : string → string) (signature rawBody : option string) :
    result bool :=
  match signature, rawBody with
  | None, _ | Some "", _ => Err (HttpError 401 "Missing X-Helio-Signature header")
  | Some _, None => Err (HttpError 401 "Missing request raw body")
  | Some s, Some body =>
      if bool_decide (digest body = s) then Ok true
      else Err (HttpError 401 "Invalid webhook signature")
  end.

Definition helio_row (payload : HelioWebhookPayload) (protocolId : option string)
    (payloadHash id : string) : HelioWebhookEvent := {|
  he_id := id; he_helioEventId := hp_transactionId payload; he_eventType := hp_event payload;
  he_protocolId := protocolId; he_payloadHash := payloadHash; he_processed := false;
  he_processedAt := None |}.

Definition helio_job (eventRecordId : string) (payload : HelioWebhookPayload) : job QBilling :=
  mkJob (q := QBilling) "process-helio-event" (eventRecordId, payload) None 5 (Some 2000).

Definition handleWebhook (rawBody : string) (payload : HelioWebhookPayload) : M World bool :=
  let payloadHash := sha256 rawBody in
  existing ← find_first MHelioWebhookEvent
    (λ _ e, bool_decide (he_payloadHash e = payloadHash)) None;
  if chain_bool he_processed existing then mret true else
  protocol ← find_unique MProtocol
    (λ _ p, bool_decide (p_protocolPubkey p = hp_protocolPubkey payload));
  eventRecord ← create MHelioWebhookEvent (helio_row payload (p_id <$> protocol) payloadHash);
  _ ← queue_add QBilling (helio_job (he_id eventRecord) payload);
  mret true.

(** ** Lemmas *)

Context `{BL : !BackendLaws B}.

(** What a committed [meter] did. *)
Record metered (protocolId : string) (f : Z → Z) (v v' : View) : Prop := {
  me_protocol : ∃ p, v_tables v MProtocol !! protocolId = Some p ∧
    v_tables v' MProtocol = <[protocolId := p <| p_sendsThisPeriod ::= f |>]> (v_tables v MProtocol);
  me_subscriptions k : v_tables v' MSubscription !! k =
    (λ s, if bool_decide (s_protocolId s = protocolId)
          then s <| s_sendsThisPeriod ::= f |> else s) <$> v_tables v MSubscription !! k;
  me_others m : m ≠ MProtocol → m ≠ MSubscription → v_tables v' m = v_tables v m;
  me_rest : v_redis v' = v_redis v ∧ v_jobs v' = v_jobs v ∧ v_sent v' = v_sent v;
}.

Lemma meter_spec protocolId f w :
  wp (swallow () (meter protocolId f)) (λ r w', r = Ok () ∧
    (view w' = view w ∨ metered protocolId f (view w) (view w'))) w.
Proof.
  apply wp_swallow, wp_transaction; [| by auto].
  intros d Hd. apply wp_bind, (wp_db_update MProtocol); [| by intros].
  intros k p d1 Hp ->%bool_decide_eq_true Ht1.
  apply (wp_db_update_many MSubscription); [| by intros].
  intros d2 Ht2 [] w' _ Hv. split; [done |]. right.
  assert (v_tables (view w') = upd MSubscription (update_where (of_protocol protocolId)
    (λ s, s <| s_sendsThisPeriod ::= f |>)) (upd MProtocol <[protocolId := p <| p_sendsThisPeriod ::= f |>]>
      (v_tables (view w)))) as Ht.
  { rewrite Hv. cbn. by rewrite Ht2, Ht1, Hd. }
  rewrite Hd in Hp. split.
  - exists p. split; [done |]. rewrite Ht. rewrite upd_ne by done. by rewrite upd_eq.
  - intros k. rewrite Ht, upd_eq. etrans; [apply (lookup_update_where (m := MSubscription)) |].
    by rewrite upd_ne by done.
  - intros m H1 H2. rewrite Ht, !upd_ne by done. done.
  - by rewrite Hv.
Qed.

(** The rows the activation of a payment leaves. *)
Record activated_rows (payload : HelioWebhookPayload) (tier now : Z) (protocolId : string)
    (t t' : Tables) : Prop := {
  ar_subscription : ∃ k s, t' MSubscription !! k = Some s ∧ s_protocolId s = protocolId ∧
    s_status s = SubActive ∧ s_tier s = tier ∧ s_sendsThisPeriod s = 0 ∧
    s_currentPeriodEnd s = Some (now + 30 * DAY * months_paid payload);
  ar_payment : ∃ k pay, t MPayment !! k = None ∧ t' MPayment = <[k := pay]> (t MPayment) ∧
    pay_protocolId pay = protocolId ∧
    pay_helioTransactionId pay = Some (hp_transactionId payload);
  ar_protocol : ∃ p, t MProtocol !! protocolId = Some p ∧ t' MProtocol =
    <[protocolId := p <| p_tier := tier |> <| p_isActive := true |> <| p_updatedAt := now |>]>
      (t MProtocol);
  ar_event : ∃ k e, t MHelioWebhookEvent !! k = Some e ∧
    he_helioEventId e = hp_transactionId payload ∧ t' MHelioWebhookEvent =
    <[k := e <| he_processed := true |> <| he_processedAt := Some now |>]> (t MHelioWebhookEvent);
}.

Lemma activation_spec payload protocolId now d :
  wp (activation payload protocolId now (now + 30 * DAY * months_paid payload)) (λ r d',
    r = Ok () → ∃ tier, hp_tier payload = Some tier ∧
      activated_rows payload tier now protocolId (tables d) (tables d')) d.
Proof.
  unfold activation. apply wp_bind, wp_lift. destruct (hp_tier payload) as [tier|]; [| done].
  set (done_sub := λ t' : Tables, ∃ k s, t' MSubscription !! k = Some s ∧
    s_protocolId s = protocolId ∧ s_status s = SubActive ∧ s_tier s = tier ∧
    s_sendsThisPeriod s = 0 ∧ s_currentPeriodEnd s = Some (now + 30 * DAY * months_paid payload)).
  apply wp_bind, (wp_mono _ (λ r d1, match r with
    | Ok _ => done_sub (tables d1) ∧ (∀ m, m ≠ MSubscription → tables d1 m = tables d m)
    | Err _ => True end)).
  { apply (wp_db_upsert MSubscription); [| | done].
    - intros k s d1 Hk Hp%bool_decide_eq_true Ht. rewrite Ht. split; [| by intros; apply upd_ne].
      eexists k, _. rewrite upd_eq, lookup_insert_eq. by split_and!.
    - intros i s d1 -> _ Ht. rewrite Ht. split; [| by intros; apply upd_ne].
      eexists _, _. rewrite upd_eq, lookup_insert_eq. by split_and!. }
  intros [s|e] d1; [intros [Hsub H1] | done].
  apply wp_bind, (wp_db_create MPayment); [| done]. intros i pay d2 -> Hfresh H2.
  apply wp_bind, (wp_db_update MProtocol); [| done].
  intros k p d3 Hp ->%bool_decide_eq_true H3.
  apply wp_bind, (wp_db_update MHelioWebhookEvent); [| done].
  intros k e d4 He Hid%bool_decide_eq_true H4. apply wp_ret. intros _. exists tier. split; [done |].
  rewrite H2, upd_ne, H1 in Hp by done. rewrite H3, H2, !upd_ne, H1 in He by done.
  rewrite H1 in Hfresh by done. split; rewrite H4.
  - unfold done_sub in Hsub. by rewrite !upd_ne, H3, upd_ne, H2, upd_ne by done.
  - eexists _, _. split; [exact Hfresh |].
    rewrite upd_ne, H3, upd_ne, H2, upd_eq, H1 by done. by split_and!.
  - exists p. by rewrite upd_ne, H3, upd_eq, H2, upd_ne, H1 by done.
  - exists k, e. by rewrite upd_eq, H3, upd_ne, H2, upd_ne, H1 by done.
Qed.

(** ** Properties *)

(** Metering is all or nothing.  [incrementSendsThisPeriod] never
    rejects; either it changed nothing, or the counter of the protocol and
    that of each of its subscriptions grew by the same count and nothing else
    changed, so a subscription whose counter agreed with its protocol's still
    agrees. *)
Theorem metering_in_step protocolId n w :
  wp (incrementSendsThisPeriod protocolId n) (λ r w', r = Ok () ∧
    (view w' = view w ∨ metered protocolId (λ z, z + n) (view w) (view w')) ∧
    ∀ p s k, v_tables (view w) MProtocol !! protocolId = Some p →
      v_tables (view w) MSubscription !! k = Some s → s_protocolId s = protocolId →
      s_sendsThisPeriod s = p_sendsThisPeriod p →
      ∃ p' s', v_tables (view w') MProtocol !! protocolId = Some p' ∧
        v_tables (view w') MSubscription !! k = Some s' ∧
        s_sendsThisPeriod s' = p_sendsThisPeriod p') w.
Proof.
  eapply wp_mono; [apply meter_spec |]. intros r w' [Hr Hv]. split_and!; [done | done |].
  intros p s k Hp Hs Hid Heq. destruct Hv as [-> | [(p0 & Hp0 & Hp') Hs' _ _]]; [eauto |].
  pose proof (Some_agree Hp0 Hp) as ->. rewrite Hp'. eexists _, _.
  rewrite lookup_insert_eq, Hs', Hs. cbn. rewrite (bool_decide_eq_true_2 _ Hid).
  split_and!; [done.. |]. cbn. by rewrite Heq.
Qed.

(** C13.  The activation of a paid subscription is all or nothing: when it
    returns, the subscription of the payload's protocol is active on the tier
    paid for until the end of the months paid, with no sends, the payment is
    recorded, the protocol is active on that tier and the event is marked
    processed; when it rejects, no row changed.  The protocol's own send
    counter is not reset. *)
Theorem activation_atomic payload now w :
  wp (activateFromHelioPayment payload now) (λ r w',
    (r = Ok () → ∃ p tier,
      p_protocolPubkey p = hp_protocolPubkey payload ∧ hp_tier payload = Some tier ∧
      activated_rows payload tier now (p_id p) (v_tables (view w)) (v_tables (view w'))) ∧
    (r ≠ Ok () → v_tables (view w') = v_tables (view w)) ∧
    ∀ k p, v_tables (view w) MProtocol !! k = Some p → ∃ p',
      v_tables (view w') MProtocol !! k = Some p' ∧ p_sendsThisPeriod p' = p_sendsThisPeriod p) w.
Proof.
  apply wp_bind, (wp_find_unique MProtocol); [| intros e w1 ->; by split_and!; eauto].
  intros [p|] w1 Hp Hv1; [| apply wp_raise; rewrite Hv1; by split_and!; eauto].
  destruct Hp as (k0 & Hk0 & Hpk%bool_decide_eq_true). apply wp_bind.
  apply (wp_mono _ (λ r w2, r = Ok () ∧ v_tables (view w2) = v_tables (view w))).
  { apply wp_swallow, wp_bind, wp_send; intros; [apply wp_ret |]; views; [done |].
    destruct H0 as [-> | ->]; by rewrite ?Hv1. }
  intros r w2 [-> Ht2]. apply wp_transaction.
  2:{ intros e w3 ->. rewrite Ht2. split_and!; [done | done | eauto]. }
  rewrite Ht2. intros d Hd. eapply wp_mono; [apply activation_spec |].
  intros r d' Hr [] w3 -> Hv3. destruct (Hr eq_refl) as (tier & Htier & Hrows).
  rewrite Hv3. cbn [v_tables set]. rewrite Hd in Hrows. split_and!; [eauto | done |].
  intros k q Hq. destruct Hrows as [_ _ (q0 & Hq0 & Hup) _]. cbn. rewrite Hup.
  destruct (decide (k = p_id p)) as [-> | Hne].
  - eexists. rewrite lookup_insert_eq. split; [done |]. by rewrite (Some_agree Hq Hq0).
  - exists q. by rewrite lookup_insert_ne.
Qed.

(** A subscription the guard accepts at a time. *)
Definition in_good_standing (tier now : Z) (s : Subscription) : Prop :=
  s_status s = SubActive ∧ (∀ e, s_currentPeriodEnd s = Some e → now ≤ e) ∧
  s_sendsThisPeriod s < send_limit tier.

(** A request for a checkout at Helio, by a guard that refuses with 402. *)
Definition asked_checkout {A} (p : AuthenticatedProtocol) (v : View) (r : result A) (v' : View) : Prop :=
  ∃ heraldTier code, herald_tier (checkout_tier p) = Ok heraldTier ∧ r = Err (HttpError 402 code) ∧
    v' = v <| v_sent ::= λ l, l ++ [HelioCheckoutEnvelope heraldTier (ap_protocolPubkey p) None 1] |>.

Lemma payment_required_spec p code w :
  wp (payment_required p code) (λ r w', r = Err (HttpError 402 code) ∧
    (view w' = view w ∨ asked_checkout p (view w) r (view w'))) w.
Proof.
  unfold payment_required, getCheckoutUrl. apply wp_bind, wp_swallow, wp_bind, wp_lift.
  destruct (herald_tier _) as [t|e] eqn:Ht; [| apply wp_raise; auto].
  apply wp_bind, wp_send; [intros rc w' Hv; apply wp_ret | intros x w' Hv]; apply wp_raise; (split; [done |]).
  - right. by exists t, code.
  - destruct Hv as [Hv | Hv]; [by left | right]. by exists t, code.
Qed.

Lemma check_subscription_spec p now o w :
  wp (check_subscription p now o) (λ r w',
    match r with
    | Ok b => b = true ∧ view w' = view w ∧ ∃ s, o = Some s ∧ in_good_standing (ap_tier p) now s
    | Err e => (∃ code, e = HttpError 402 code ∨ e = HttpError 429 code) ∧
        (view w' = view w ∨ asked_checkout p (view w) r (view w')) ∧
        ∀ s, o = Some s → ¬ in_good_standing (ap_tier p) now s
    end) w.
Proof.
  unfold check_subscription, in_good_standing.
  assert (∀ code, (∀ s, o = Some s → ¬ in_good_standing (ap_tier p) now s) →
    wp (payment_required p code) (λ r w',
    match r with
    | Ok b => b = true ∧ view w' = view w ∧ ∃ s, o = Some s ∧ in_good_standing (ap_tier p) now s
    | Err e => (∃ code, e = HttpError 402 code ∨ e = HttpError 429 code) ∧
        (view w' = view w ∨ asked_checkout p (view w) r (view w')) ∧
        ∀ s, o = Some s → ¬ in_good_standing (ap_tier p) now s
    end) w) as Hpay.
  { intros code Hno. eapply wp_mono; [apply payment_required_spec |]. intros r w' [-> Hv]. eauto. }
  unfold in_good_standing in *. destruct o as [s|]; [| by apply Hpay].
  case_bool_decide as Hst; cbn [negb]; [| apply Hpay; naive_solver].
  destruct (s_currentPeriodEnd s) as [e|] eqn:He; [destruct (Z.ltb_spec e now) |];
    [apply Hpay; intros ? [= <-] (_ & Hend & _); specialize (Hend _ He); lia | |];
    (destruct (Z.leb_spec (send_limit (ap_tier p)) (s_sendsThisPeriod s));
      [apply wp_raise; split_and!; [eauto | by left | intros ? [= <-] (_ & _ & ?); lia]
      | apply wp_ret; split_and!; [done | done |]; exists s; naive_solver]).
Qed.

Lemma load_subscription_spec protocolId now w :
  wp (load_subscription protocolId now) (λ r w',
    v_tables (view w') = v_tables (view w) ∧
    ∀ o, r = Ok o →
      (∃ s, o = Some s ∧
        live now (re_strings (v_redis (view w)) !! sub_key protocolId) = Some (RSubscription s)) ∨
      found MSubscription (of_protocol protocolId) (v_tables (view w) MSubscription) o) w.
Proof.
  unfold load_subscription, cached_subscription, findByProtocolId.
  assert (∀ w1, view w1 = view w → wp (
    subscription ← find_unique MSubscription (of_protocol protocolId);
    _ ← match subscription with
        | Some s => swallow () (redis_setex (sub_key protocolId) 30 (RSubscription s) now)
        | None => mret ()
        end;
    mret subscription) (λ r w', v_tables (view w') = v_tables (view w) ∧
    ∀ o, r = Ok o → found MSubscription (of_protocol protocolId) (v_tables (view w) MSubscription) o) w1)
    as Hdb.
  { intros w1 Hv1. apply wp_bind, (wp_find_unique MSubscription); [| by intros e w2 ->; rewrite Hv1].
    rewrite Hv1. intros o w2 Ho Hv2. destruct o as [s|].
    - apply wp_bind, wp_swallow, wp_redis_setex; intros; apply wp_ret; rewrite H0, Hv2; naive_solver.
    - apply wp_bind, wp_ret, wp_ret. rewrite Hv2. naive_solver. }
  apply wp_bind, wp_swallow, wp_bind, wp_redis_get.
  - intros w1 Hv1. apply wp_ret.
    destruct (live now _) as [[]|] eqn:Hl; try by (eapply wp_mono; [by apply Hdb | naive_solver]).
    apply wp_ret. rewrite Hv1. naive_solver.
  - intros e w1 Hv1. eapply wp_mono; [by apply Hdb | naive_solver].
Qed.

(** The subscription guard.  It changes no row, and lets a request of a
    paid tier through only with a subscription, read from the cache or from
    the table, that is active, not past the end of its period and under the
    tier's limit; and it does let the request through if the table has a
    subscription of the protocol, one can be loaded, and each one the cache or
    the table has is in good standing. *)
Theorem guard_requires_standing p now w :
  ap_tier p ≠ 0 →
  let known s :=
    live now (re_strings (v_redis (view w)) !! sub_key (ap_protocolId p)) = Some (RSubscription s) ∨
    ∃ k, v_tables (view w) MSubscription !! k = Some s ∧ s_protocolId s = ap_protocolId p in
  wp (canActivate (Some p) now) (λ r w', v_tables (view w') = v_tables (view w) ∧
    (∀ b, r = Ok b → b = true ∧ ∃ s, known s ∧ in_good_standing (ap_tier p) now s) ∧
    (is_ok (load_subscription (ap_protocolId p) now w).1 = true →
     (∃ k s, v_tables (view w) MSubscription !! k = Some s ∧ s_protocolId s = ap_protocolId p) →
     (∀ s, known s → in_good_standing (ap_tier p) now s) → r = Ok true)) w.
Proof.
  intros Htier known. unfold canActivate. rewrite (proj2 (Z.eqb_neq _ _) Htier).
  apply wp_bind, wp_intro. intros r w1 Hrun. pose proof (wp_run _ _ _ _ _ (load_subscription_spec _ _ _) Hrun)
    as [Ht Hload]. rewrite Hrun. destruct r as [o|e]; [| split_and!; done].
  assert (match o with Some s => known s | None => ∀ k s,
    v_tables (view w) MSubscription !! k = Some s → s_protocolId s ≠ ap_protocolId p end) as Ho.
  { destruct (Hload _ eq_refl) as [(s & -> & Hs) | Hf]; [by left |]. destruct o as [s|].
    - right. destruct Hf as (k & ? & ?%bool_decide_eq_true). eauto.
    - intros k s Hk. apply Hf in Hk. by apply bool_decide_eq_false in Hk. }
  eapply wp_mono; [apply check_subscription_spec |]. intros [b|e] w2.
  - intros (-> & -> & s & -> & Hs). split_and!; [done | intros ? [= <-]; eauto | done].
  - intros (_ & Hv & Hno). split_and!; [| done |].
    + destruct Hv as [-> | (t & code & _ & _ & ->)]; done.
    + intros _ (k & s & Hk & Hid) Hall. destruct o as [s'|]; [| by destruct (Ho _ _ Hk)].
      by destruct (Hno s' eq_refl); apply Hall.
Qed.

(** The guard writes to the cache of subscriptions and nowhere else; it sends
    nothing, or refuses with 402 and asks Helio for a checkout. *)
Definition guard_frame : Frame := {|
  fr_table _ := False; fr_job _ := False; fr_key k := ∃ id, k = sub_key id; fr_send _ := False |}.

Lemma load_subscription_keeps id now : Keeps guard_frame (load_subscription id now).
Proof. unfold load_subscription, cached_subscription, findByProtocolId. keeps. by eexists. Qed.

Lemma canActivate_effect p now w : wp (canActivate (Some p) now) (λ r w',
  ∃ v, within guard_frame (view w) v ∧
    (view w' = v ∨ ap_tier p ≠ 0 ∧ asked_checkout p v r (view w'))) w.
Proof.
  unfold canActivate. destruct (Z.eqb_spec (ap_tier p) 0) as [| Htier].
  { apply wp_ret. exists (view w). split; [done | by left]. }
  apply wp_bind, (wp_keeps guard_frame); [apply load_subscription_keeps |].
  intros [o|e] w1 Hw1; [| exists (view w1); split; [done | by left]].
  eapply wp_mono; [apply check_subscription_spec |].
  intros [b|e] w2; [intros (_ & -> & _) | intros (_ & Hv & _)]; exists (view w1); (split; [done |]); [by left |].
  destruct Hv; auto.
Qed.

(** The events stored for a transaction. *)
Definition event_stored (transactionId : string) (v : View) : Prop :=
  ∃ k e, v_tables v MHelioWebhookEvent !! k = Some e ∧ he_helioEventId e = transactionId.

(** A Helio transaction is queued at most once, however often its
    webhook is delivered: a delivery adds a job only if no event of the
    transaction was stored before, and then stores one.  So when the job could
    not be added after the event was stored, no later delivery adds it: each
    rejects, or is taken for a duplicate of a processed one. *)
Theorem helio_event_queued_once rawBody payload w :
  let tid := hp_transactionId payload in
  wp (handleWebhook rawBody payload) (λ r w',
    (event_stored tid (view w) → event_stored tid (view w')) ∧
    (v_jobs (view w') QBilling = v_jobs (view w) QBilling ∨
     ∃ id, v_jobs (view w') QBilling = v_jobs (view w) QBilling ++ [helio_job id payload] ∧
       ¬ event_stored tid (view w) ∧ event_stored tid (view w')) ∧
    (event_stored tid (view w) → r = Ok true → ∃ k e,
       v_tables (view w) MHelioWebhookEvent !! k = Some e ∧ he_processed e = true ∧
       he_payloadHash e = sha256 rawBody)) w.
Proof.
  cbn zeta. unfold handleWebhook. apply wp_bind, (wp_find_first MHelioWebhookEvent).
  2:{ intros e w1 ->. split_and!; [done | by left | done]. }
  intros o w1 Ho Hv1. destruct (chain_bool he_processed o) eqn:Hproc.
  { apply wp_ret. rewrite Hv1. split_and!; [done | by left |]. intros _ _.
    destruct o as [e|]; [| done]. destruct Ho as (k & ? & ?%bool_decide_eq_true). eauto. }
  apply wp_bind, (wp_find_unique MProtocol).
  2:{ intros e w2 ->. rewrite Hv1. split_and!; [done | by left | done]. }
  intros p w2 _ Hv2. apply wp_bind, (wp_create MHelioWebhookEvent).
  2:{ intros e w3 ->. rewrite Hv2, Hv1. split_and!; [done | by left | done]. }
  intros i r w3 -> Hfresh Huniq Hv3. rewrite Hv2, Hv1 in Hfresh, Huniq, Hv3.
  assert (¬ event_stored (hp_transactionId payload) (view w)) as Hnone.
  { intros (k & e & Hk & He). apply (Huniq k e Hk ("helioEventId", [hp_transactionId payload]));
      cbn; rewrite ?He; left. }
  assert (event_stored (hp_transactionId payload) (view w3)) as Hnow.
  { eexists _, _. rewrite Hv3. cbn. rewrite upd_eq. split; [apply lookup_insert_eq | done]. }
  apply wp_bind, (wp_queue_add QBilling).
  - intros w4 Hv4. apply wp_ret.
    assert (event_stored (hp_transactionId payload) (view w4)) by by rewrite Hv4.
    split_and!; [done | | done]. right. eexists. split; [| by split].
    rewrite Hv4. cbn. by rewrite upd_jobs_eq, Hv3.
  - intros e w4 ->. split_and!; [done | left; by rewrite Hv3 | done].
Qed.

(** ** The scheduled updates *)

Definition sub_unique (t : gmap string Subscription) : Prop := ∀ k1 k2 s1 s2,
  t !! k1 = Some s1 → t !! k2 = Some s2 → s_protocolId s1 = s_protocolId s2 → k1 = k2.

(** Some of the rows that satisfy [due] were rewritten by [f]. *)
Definition rewritten (due : Subscription → Prop) (f : Subscription → Subscription)
    (t t' : gmap string Subscription) : Prop := ∀ k,
  t' !! k = t !! k ∨ ∃ s, t !! k = Some s ∧ due s ∧ t' !! k = Some (f s).

Lemma rewritten_step due f t t' k k0 r s :
  (∀ s, s_protocolId (f s) = s_protocolId s) → (∀ s, f (f s) = f s) →
  sub_unique t → rewritten due f t t' →
  t !! k0 = Some s → due s →
  t' !! k = Some r → s_protocolId r = s_protocolId s →
  rewritten due f t (<[k := f r]> t').
Proof.
  intros Hpid Hidem Hu Hrw Hs Hdue Hr Hid j.
  destruct (decide (k = j)) as [<- | Hne]; [| rewrite lookup_insert_ne by done; apply Hrw].
  rewrite lookup_insert_eq. right.
  destruct (Hrw k) as [Hk | (s' & Hk & Hd & Hk')].
  - rewrite Hr in Hk. symmetry in Hk. assert (k = k0) as -> by eauto.
    pose proof (Some_agree Hk Hs) as ->. eauto.
  - pose proof (Some_agree Hr Hk') as ->. exists s'. by rewrite Hidem.
Qed.

Lemma update_subscription_spec pid f w :
  wp (update_subscription pid f) (λ r w',
    v_jobs (view w') = v_jobs (view w) ∧ v_sent (view w') = v_sent (view w) ∧
    (v_tables (view w') = v_tables (view w) ∨
     ∃ k r, v_tables (view w) MSubscription !! k = Some r ∧ s_protocolId r = pid ∧
       v_tables (view w') = upd MSubscription <[k := f r]> (v_tables (view w)))) w.
Proof.
  unfold update_subscription. apply wp_bind, (wp_update MSubscription).
  2:{ intros e w1 ->. split_and!; auto. }
  intros k r w1 Hk Hp%bool_decide_eq_true Hv1.
  apply wp_bind, wp_swallow, wp_redis_del; intros; apply wp_ret; rewrite H0, Hv1;
    (split_and!; [done | done | right; eauto 10]).
Qed.

(** What [upsert] answers is the row of the protocol from then on, and the guard
    no longer finds an older one in its cache, unless Redis failed to delete
    it; what fails changes nothing. *)
Lemma upserted_subscription pid mk f w :
  (∀ i, s_protocolId (mk i) = pid) → (∀ s, s_protocolId (f s) = s_protocolId s) →
  wp (upsert_subscription pid mk f) (λ r w', match r with
    | Ok row => s_protocolId row = pid ∧
        (∃ k, v_tables (view w') MSubscription !! k = Some row ∧
           v_tables (view w') = upd MSubscription <[k := row]> (v_tables (view w))) ∧
        (re_strings (v_redis (view w')) !! sub_key pid = None ∨ v_redis (view w') = v_redis (view w))
    | Err _ => view w' = view w
    end) w.
Proof.
  intros Hmk Hf. unfold upsert_subscription. apply wp_bind, (wp_upsert MSubscription); [| | done].
  - intros k r w1 Hk Hp%bool_decide_eq_true Hv1.
    apply wp_bind, wp_swallow, wp_redis_del; intros; apply wp_ret; rewrite H0, Hv1; cbn;
      (split_and!; [by rewrite Hf | exists k; by rewrite upd_eq, lookup_insert_eq | try (left; apply lookup_delete_eq); by right]).
  - intros i r w1 -> Hk Hu Hv1.
    apply wp_bind, wp_swallow, wp_redis_del; intros; apply wp_ret; rewrite H0, Hv1; cbn;
      (split_and!; [by rewrite Hmk | eexists; by rewrite upd_eq, lookup_insert_eq | try (left; apply lookup_delete_eq); by right]).
Qed.

(** The row the scan of a table found is one of the table's. *)
Lemma selects_elem m (p : where_ m) o t l r :
  selects m p o t l → r ∈ l → ∃ k, t !! k = Some r ∧ p k r = true.
Proof.
  intros (_ & (ks & _ & Hks) & _) [i Hi]%list_elem_of_lookup.
  destruct (Forall2_lookup_r _ _ _ _ _ Hks Hi) as (k & _ & ?). eauto.
Qed.

(** One update inside a loop over the rows that are due. *)
Lemma rewritten_update due f w sub k0 t :
  (∀ s, s_protocolId (f s) = s_protocolId s) → (∀ s, f (f s) = f s) →
  sub_unique t → t !! k0 = Some sub → due sub →
  rewritten due f t (v_tables (view w) MSubscription) →
  wp (update_subscription (s_protocolId sub) f) (λ r w',
    rewritten due f t (v_tables (view w') MSubscription) ∧
    v_jobs (view w') = v_jobs (view w) ∧ v_sent (view w') = v_sent (view w) ∧
    ∀ m, m ≠ MSubscription → v_tables (view w') m = v_tables (view w) m) w.
Proof.
  intros Hpid Hidem Hu Hs Hdue Hrw. eapply wp_mono; [apply update_subscription_spec |].
  intros r w' (Hj & Hse & Ht). destruct Ht as [-> | (k & r0 & Hk & Hid & ->)].
  - by split_and!.
  - rewrite upd_eq. split_and!; [| done | done | intros; by apply upd_ne].
    by eapply rewritten_step.
Qed.

(** The daily reset.  [resetPeriodSends] always returns unless the scan
    fails; a subscription's row either stays as it was, or was active with its
    reset time passed, and then has no sends and is due again after 30 days.
    No other table changes: in particular the protocols' own send counters,
    on which the rate limits and the monthly quota are computed, are not
    reset. *)
Theorem period_reset_effect now w :
  sub_unique (v_tables (view w) MSubscription) →
  wp (resetPeriodSends now) (λ r w',
    rewritten (λ s, s_status s = SubActive ∧ s_periodResetAt s < now)
      (λ s, s <| s_sendsThisPeriod := 0 |> <| s_periodResetAt := now + 30 * DAY |>)
      (v_tables (view w) MSubscription) (v_tables (view w') MSubscription) ∧
    (∀ m, m ≠ MSubscription → v_tables (view w') m = v_tables (view w) m) ∧
    v_jobs (view w') = v_jobs (view w)) w.
Proof.
  intros Hu. set (due s := s_status s = SubActive ∧ s_periodResetAt s < now).
  set (f s := s <| s_sendsThisPeriod := 0 |> <| s_periodResetAt := now + 30 * DAY |>).
  set (t := v_tables (view w) MSubscription) in *.
  apply wp_bind, (wp_find_many MSubscription).
  2:{ intros e w1 ->. split_and!; [| done | done]. intros k. by left. }
  intros l w1 Hl Hv1.
  assert (∀ s, s ∈ l → ∃ k, t !! k = Some s ∧ due s) as Hdue.
  { intros s Hs. destruct (selects_elem _ _ _ _ _ _ Hl Hs) as (k & Hk & Hp).
    rewrite andb_true_iff, bool_decide_eq_true, Z.ltb_lt in Hp. by exists k. }
  set (I w' := rewritten due f t (v_tables (view w') MSubscription) ∧
    (∀ m, m ≠ MSubscription → v_tables (view w') m = v_tables (view w) m) ∧
    v_jobs (view w') = v_jobs (view w)).
  apply (wp_for_each _ (λ rest w', (∀ s, s ∈ rest → s ∈ l) ∧ I w')).
  - split; [done |]. unfold I. rewrite Hv1. split_and!; [| done | done]. intros k. by left.
  - intros s rest w2 (Hin & Hrw & Ho & Hj).
    destruct (Hdue s) as (k & Hk & Hd); [apply Hin; left |].
    assert (∀ w', I w' → (∀ s0, s0 ∈ rest → s0 ∈ l) ∧ I w') as Hnext.
    { intros w' HI. split; [| done]. intros s0 H0. apply Hin. by right. }
    unfold reset_one. apply wp_swallow, wp_bind, (wp_included MProtocol), wp_bind.
    eapply wp_mono; [by eapply (rewritten_update due f) |].
    intros r w3 (Hrw3 & Hj3 & _ & Ho3).
    assert (I w3) as HI by (split_and!; [done | intros; rewrite Ho3; auto | congruence]).
    destruct r as [r|e]; [| by apply Hnext].
    apply wp_bind, wp_send; intros; [apply wp_ret |]; apply Hnext; unfold I in *; cbn in *;
      repeat match goal with H : _ ∨ _ |- _ => destruct H as [H | H] end; by rewrite H0.
  - intros w' [_ HI]. exact HI.
Qed.
End billing.

(** ** Witnesses *)

#[local] Instance toy_sha : Hashing := { sha256 s := s }.

Definition paid_protocol : AuthenticatedProtocol := {|
  ap_protocolId := "p1"; ap_protocolPubkey := "pk"; ap_apiKeyId := "k1"; ap_tier := 1;
  ap_scopes := ["notify:write"]; ap_environment := Production; ap_isActive := true;
  ap_sendsThisPeriod := None; ap_name := None; ap_overageEnabled := None; ap_isTestKey := None;
  ap_testKeyType := None; ap_verificationStatus := None |}.

Definition paid_subscription : Subscription :=
  (blank_subscription "p1" "s1") <| s_tier := 1 |> <| s_status := SubActive |>
    <| s_currentPeriodEnd := Some 9000 |> <| s_sendsThisPeriod := 42 |> <| s_periodResetAt := 500 |>.

Definition billing_world : World :=
  mem_world (with_rows MSubscription [paid_subscription] no_tables) ∅.

Lemma guard_requires_standing_witness :
  (canActivate (Some paid_protocol) 1000 billing_world).1 = Ok true ∧
  (canActivate (Some paid_protocol) 10000 billing_world).1 =
    Err (HttpError 402 "SUBSCRIPTION_EXPIRED") ∧
  let known s :=
    live 1000 (re_strings (v_redis (view billing_world)) !! sub_key "p1") = Some (RSubscription s) ∨
    ∃ k, v_tables (view billing_world) MSubscription !! k = Some s ∧ s_protocolId s = "p1" in
  wp (canActivate (Some paid_protocol) 1000) (λ r w',
    v_tables (view w') = v_tables (view billing_world) ∧
    (∀ b, r = Ok b → b = true ∧ ∃ s, known s ∧ in_good_standing 1 1000 s) ∧
    (is_ok (load_subscription "p1" 1000 billing_world).1 = true →
     (∃ k s, v_tables (view billing_world) MSubscription !! k = Some s ∧ s_protocolId s = "p1") →
     (∀ s, known s → in_good_standing 1 1000 s) → r = Ok true)) billing_world.
Proof.
  split_and!; [vm_compute; reflexivity.. |].
  apply (guard_requires_standing paid_protocol 1000 billing_world). discriminate.
Defined.

Lemma period_reset_effect_witness :
  (λ s, (s_sendsThisPeriod s, s_periodResetAt s)) <$>
    v_tables (view (resetPeriodSends 1000 billing_world).2) MSubscription !! "s1" =
    Some (0, 1000 + 30 * DAY) ∧
  wp (resetPeriodSends 1000) (λ r w',
    rewritten (λ s, s_status s = SubActive ∧ s_periodResetAt s < 1000)
      (λ s, s <| s_sendsThisPeriod := 0 |> <| s_periodResetAt := 1000 + 30 * DAY |>)
      (v_tables (view billing_world) MSubscription) (v_tables (view w') MSubscription) ∧
    (∀ m, m ≠ MSubscription → v_tables (view w') m = v_tables (view billing_world) m) ∧
    v_jobs (view w') = v_jobs (view billing_world)) billing_world.
Proof.
  split; [vm_compute; reflexivity |]. apply (period_reset_effect 1000 billing_world).
  assert (v_tables (view billing_world) MSubscription = {["s1" := paid_subscription]}) as ->
    by reflexivity.
  intros k1 k2 s1 s2 [<- _]%lookup_singleton_Some [<- _]%lookup_singleton_Some _. reflexivity.
Defined.

Lemma metering_in_step_witness :
  let p := {| p_id := "p1"; p_protocolPubkey := "pk"; p_nameEncrypted := ""; p_tier := 1;
    p_isActive := true; p_isSuspended := false; p_verificationStatus := VERIFIED;
    p_sendsThisPeriod := 42; p_overageEnabled := false; p_periodResetAt := 0; p_updatedAt := 0 |} in
  let w := mem_world (with_rows MProtocol [p] (with_rows MSubscription [paid_subscription] no_tables)) ∅ in
  let run := incrementSendsThisPeriod "p1" 3 w in
  p_sendsThisPeriod <$> v_tables (view run.2) MProtocol !! "p1" = Some 45 ∧
  run.1 = Ok () ∧
  ∃ p' s', v_tables (view run.2) MProtocol !! "p1" = Some p' ∧
    v_tables (view run.2) MSubscription !! "s1" = Some s' ∧
    s_sendsThisPeriod s' = p_sendsThisPeriod p'.
Proof.
  intros p w run.
  destruct (wp_at _ _ w _ (metering_in_step "p1" 3 w) eq_refl) as (Hr & _ & Hstep).
  split_and!; [vm_compute; reflexivity | exact Hr |].
  apply (Hstep p paid_subscription "s1"); reflexivity.
Defined.

Definition paid_payload : HelioWebhookPayload := {|
  hp_event := "SUBSCRIPTION_PAID"; hp_transactionId := "t1"; hp_protocolPubkey := "pk";
  hp_tier := Some 2; hp_months := Some 3; hp_amountUsdc := Some 297; hp_solanaTxSignature := None |}.

Definition paying_world : World :=
  mem_world (with_rows MHelioWebhookEvent [helio_row paid_payload (Some "p1") "hash" "e1"]
    (with_rows MProtocol [{| p_id := "p1"; p_protocolPubkey := "pk"; p_nameEncrypted := "";
       p_tier := 0; p_isActive := false; p_isSuspended := false; p_verificationStatus := VERIFIED;
       p_sendsThisPeriod := 7; p_overageEnabled := false; p_periodResetAt := 0;
       p_updatedAt := 0 |}] no_tables)) ∅.

Lemma activation_atomic_witness :
  let run := activateFromHelioPayment paid_payload 0 paying_world in
  run.1 = Ok () ∧
  (λ p, (p_tier p, p_isActive p, p_sendsThisPeriod p)) <$>
    v_tables (view run.2) MProtocol !! "p1" = Some (2, true, 7) ∧
  ∃ p tier, p_protocolPubkey p = "pk" ∧ Some 2 = Some tier ∧
    activated_rows paid_payload tier 0 (p_id p) (v_tables (view paying_world))
      (v_tables (view run.2)).
Proof.
  intros run. assert (run.1 = Ok ()) as Hr by (vm_compute; reflexivity).
  destruct (wp_at _ _ paying_world _ (activation_atomic paid_payload 0 paying_world) Hr)
    as (Hok & _).
  split_and!; [exact Hr | vm_compute; reflexivity | exact (Hok eq_refl)].
Defined.

Lemma helio_event_queued_once_witness :
  let w := mem_world no_tables ∅ in
  let run := handleWebhook "body" paid_payload w in
  length (v_jobs (view run.2) QBilling) = 1%nat ∧
  ∃ id, v_jobs (view run.2) QBilling = v_jobs (view w) QBilling ++ [helio_job id paid_payload] ∧
    ¬ event_stored "t1" (view w) ∧ event_stored "t1" (view run.2).
Proof.
  intros w run.
  assert (length (v_jobs (view run.2) QBilling) = 1%nat) as Hlen by (vm_compute; reflexivity).
  destruct (wp_at _ _ w _ (helio_event_queued_once "body" paid_payload w) eq_refl)
    as (_ & [Hj | Hj] & _); fold run in Hj.
  - rewrite Hj in Hlen. discriminate Hlen.
  - split; [exact Hlen | exact Hj].
Defined.
