(* ===== verification/Dispatcher.v ===== *)
(** * The dispatcher, as the workers see it

    The interface between the workers of [src/modules/queue/workers/] and
    [ChannelDispatchService]: a dispatch writes only to its notification and to
    the channel deliveries of it, sends only on the delivery channels, adds no job,
    and reports a result whose counts agree with its outcomes. *)

From S2P Require Import Prelude Schema External Frame Unsubscribe Channels.

Open Scope string_scope.
Open Scope list_scope.
Open Scope Z_scope.

Class Dispatcher `{B : Backend} := {
  dispatch_to : DecryptedChannels → NotificationJobData → Z → M World ChannelDispatchResult;
}.

Definition dispatcher_frame : Frame := {|
  fr_table m := m = MNotification ∨ m = MChannelDelivery; fr_job _ := False; fr_key _ := True;
  fr_send e := is_Some (envelope_channel e) |}.

(** [successCount], [totalChannels] and [allDelivered] agree with the outcomes. *)
Definition coherent (res : ChannelDispatchResult) : Prop :=
  dr_totalChannels res = length (dr_outcomes res) ∧
  dr_successCount res = successes (dr_outcomes res) ∧
  (dr_allDelivered res = true ↔
    dr_outcomes res ≠ [] ∧ Forall (λ o, o_success o = true) (dr_outcomes res)).

Class DispatcherLaws `{B : Backend} (D : Dispatcher) : Prop := {
  dispatch_to_keeps channels job now : Keeps dispatcher_frame (dispatch_to channels job now);
  dispatch_to_rows channels job now :
    KeepsRows (dispatch_rows (j_notificationId job)) (dispatch_to channels job now);
  dispatch_to_coherent channels job now : Returns coherent (dispatch_to channels job now);
}.

Section instance.
Context `{B : Backend} `{S : Signing}.
Context (cfg : ChannelConfig).

#[export] Instance channel_dispatcher : Dispatcher := { dispatch_to := dispatch cfg }.

Context `{BL : !BackendLaws B}.

Lemma dispatch_frame_le cs : frame_le (dispatch_frame cs) dispatcher_frame.
Proof. split; cbn; try done; [tauto |]. intros e (c & Hc & _). eauto. Qed.

#[export] Instance channel_dispatcher_laws : DispatcherLaws channel_dispatcher.
Proof.
  split; intros channels job now w; (eapply wp_mono; [apply dispatched_spec |]);
    intros r w' (res & -> & _ & Ht & Hs & Ha & Hw & Hrows & _).
  - eapply within_le; [apply dispatch_frame_le | exact Hw].
  - exact Hrows.
  - split_and!; [done.. |]. rewrite Ha, forallb_forall, list.Forall_forall. setoid_rewrite list_elem_of_In. done.
Qed.
End instance.
