(* ===== verification/Digest.v ===== *)
(** * Digests

    [DigestService] of [src/modules/notify/digest.service.ts] and
    [DigestWorker] of [src/modules/queue/workers/digest.worker.ts], which
    delivers through the interfaces [Routing] and [Dispatcher].  The rendering
    of a time of day is a parameter. *)

From Stdlib Require Import Ascii String.
From stdpp Require Import pretty.
From S2P Require Import Prelude Schema External Memory Frame Unsubscribe Channels Routing Dispatcher.

Open Scope string_scope.
Open Scope list_scope.
Open Scope Z_scope.

(** ** Grouping with a [Map]: the keys in the order they were first set *)

Section group.
Context {X Y : Type} (key : X → string) (val : X → Y).

Fixpoint group_add (k : string) (y : Y) (groups : list (string * list Y)) :
    list (string * list Y) :=
  match groups with
  | [] => [(k, [y])]
  | (k', ys) :: groups' =>
      if (k =? k')%string then (k', ys ++ [y]) :: groups' else (k', ys) :: group_add k y groups'
  end.

Definition group_by (xs : list X) : list (string * list Y) :=
  fold_left (λ groups x, group_add (key x) (val x) groups) xs [].

(** What the entries of a key are. *)
Definition of_key (k : string) (xs : list X) : list Y :=
  val <$> List.filter (λ x, (key x =? k)%string) xs.

Definition grouped (xs : list X) (groups : list (string * list Y)) : Prop :=
  NoDup groups.*1 ∧
  (∀ k ys, (k, ys) ∈ groups → ys = of_key k xs ∧ ys ≠ []) ∧
  (∀ x, x ∈ xs → key x ∈ groups.*1).

Lemma of_key_snoc k xs x :
  of_key k (xs ++ [x]) = of_key k xs ++ (if (key x =? k)%string then [val x] else []).
Proof. unfold of_key. rewrite List.filter_app, fmap_app. cbn. by destruct (key x =? k)%string. Qed.

Lemma group_add_keys k y groups :
  (group_add k y groups).*1 = groups.*1 ++ (if bool_decide (k ∈ groups.*1) then [] else [k]).
Proof.
  induction groups as [|[k' ys] groups IH]; cbn; [done |].
  destruct (String.eqb_spec k k') as [<- | Hne]; cbn.
  - rewrite bool_decide_eq_true_2 by left. by rewrite app_nil_r.
  - rewrite IH. do 2 f_equal. case_bool_decide as H1; case_bool_decide as H2; [done | | | done].
    + destruct H2. by right.
    + inversion H2; subst; done.
Qed.

Lemma group_add_elem k y groups k' ys' :
  NoDup groups.*1 → (k', ys') ∈ group_add k y groups →
  (k' ≠ k ∧ (k', ys') ∈ groups) ∨
  (k' = k ∧ ∃ ys, ys' = ys ++ [y] ∧ ((k, ys) ∈ groups ∨ (ys = [] ∧ k ∉ groups.*1))).
Proof.
  induction groups as [|[k0 ys0] groups IH]; cbn; intros Hnd Hin.
  - apply list_elem_of_singleton in Hin as [= -> ->]. right. split; [done |].
    exists []. split; [done |]. right. split; [done |]. apply not_elem_of_nil.
  - apply list.NoDup_cons in Hnd as [Hk0 Hnd].
    destruct (String.eqb_spec k k0) as [<- | Hne].
    + apply elem_of_cons in Hin as [[= -> ->] | Hin].
      * right. split; [done |]. exists ys0. split; [done |]. left. left.
      * left. split; [| by right]. intros ->. apply Hk0.
        apply list_elem_of_fmap. by exists (k, ys').
    + apply elem_of_cons in Hin as [[= -> ->] | Hin].
      * left. split; [done | left].
      * destruct (IH Hnd Hin) as [[? ?] | (-> & ys & -> & [? | [-> ?]])].
        -- left. split; [done | by right].
        -- right. split; [done |]. exists ys. split; [done |]. left. by right.
        -- right. split; [done |]. exists []. split; [done |]. right. split; [done |].
           by apply not_elem_of_cons.
Qed.

Lemma group_by_grouped xs : grouped xs (group_by xs).
Proof.
  unfold group_by. induction xs as [|x xs IH] using rev_ind.
  { split_and!; [apply NoDup_nil_2 | by intros ? ? ?%elem_of_nil | by intros ? ?%elem_of_nil]. }
  rewrite fold_left_app. cbn. destruct IH as (Hnd & Hval & Hall).
  set (groups := fold_left _ xs []) in *. split_and!.
  - rewrite group_add_keys. case_bool_decide as Hk; [by rewrite app_nil_r |].
    apply list.NoDup_app. split_and!; [done | | apply NoDup_singleton].
    intros k Hk' ->%list_elem_of_singleton. done.
  - intros k ys Hin. rewrite of_key_snoc.
    destruct (group_add_elem _ _ _ _ _ Hnd Hin) as [[Hne Hin'] | (-> & ys0 & -> & Hys0)].
    + destruct (Hval _ _ Hin') as [-> ?].
      rewrite (proj2 (String.eqb_neq _ _)) by congruence. by rewrite app_nil_r.
    + rewrite String.eqb_refl. split; [| by destruct ys0]. f_equal.
      destruct Hys0 as [Hin' | [-> Hk]]; [by apply Hval |].
      unfold of_key. destruct (List.filter _ xs) as [|z zs] eqn:Hf; [done |].
      destruct Hk. assert (z ∈ List.filter (λ x0, (key x0 =? key x)%string) xs) as Hz
        by (rewrite Hf; left).
      apply elem_of_filter_bool in Hz as [Hz <-%String.eqb_eq]. by apply Hall.
  - intros x' [Hx' | ->%list_elem_of_singleton]%elem_of_app; rewrite group_add_keys, elem_of_app.
    + left. by apply Hall.
    + case_bool_decide; [by left | right; left].
Qed.

(** The keys are those of elements. *)
Lemma grouped_key xs groups k : grouped xs groups → k ∈ groups.*1 ↔ ∃ x, x ∈ xs ∧ key x = k.
Proof.
  intros (_ & Hval & Hall). split; [| by intros (x & Hx & <-); apply Hall].
  intros ([k' ys] & -> & Hin)%list_elem_of_fmap. destruct (Hval _ _ Hin) as [-> Hne]. cbn. unfold of_key in Hne.
  destruct (List.filter _ xs) as [|z zs] eqn:Hf; [done |].
  assert (z ∈ List.filter (λ x, (key x =? k')%string) xs) as Hz by (rewrite Hf; left).
  apply elem_of_filter_bool in Hz as [Hz <-%String.eqb_eq]. eauto.
Qed.
End group.

(** ** [DigestService] *)

(** [getNextHourlyFlush] *)
Definition getNextHourlyFlush (now : Z) : Z := (now / 3600000 + 1) * 3600000.

Definition digest_entry (e : DigestEntry) : DigestJobEntry := {|
  de_id := d_id e; de_protocolId := d_protocolId e; de_subject := d_subject e;
  de_category := d_category e; de_queuedAt := d_queuedAt e |}.

Definition digest_id (walletHash : string) (now : Z) : string :=
  "digest-" +:+ walletHash +:+ "-" +:+ pretty now.

Definition digest_job (now : Z) (g : string * list DigestJobEntry) : job QDigest :=
  mkJob (q := QDigest) "flush-digest" {| dj_walletHash := g.1; dj_entries := g.2 |}
    (Some (digest_id g.1 now)) 3 (Some 5000).

Definition due (now : Z) : where_ MDigestQueue := λ _ e,
  (d_scheduledFor e <=? now) && bool_decide (d_sentAt e = None).

Section service.
Context `{B : Backend}.

Definition bufferForDigest (walletHash protocolId subject category : string)
    (scheduledFor : option Z) (now : Z) : M World () :=
  let nextFlush := default (getNextHourlyFlush now) scheduledFor in
  _ ← create MDigestQueue (λ id, {|
    d_id := id; d_walletHash := walletHash; d_protocolId := protocolId; d_subject := subject;
    d_category := category; d_queuedAt := now; d_scheduledFor := nextFlush; d_sentAt := None |});
  mret ().

Definition flushDueDigests (now : Z) : M World () :=
  dueEntries ← find_many MDigestQueue (due now) (Some d_queuedAt);
  match dueEntries with
  | [] => mret ()
  | _ => for_each (λ g, queue_add QDigest (digest_job now g))
           (group_by d_walletHash digest_entry dueEntries)
  end.

Definition markAsSent (entryIds : list string) (now : Z) : M World () :=
  update_many MDigestQueue (λ k _, bool_decide (k ∈ entryIds)) (λ e, e <| d_sentAt := Some now |>).
End service.

(** ** [DigestWorker] *)

(** [toUpperCase] of the first character (ASCII letters). *)
Definition capitalize (s : string) : string :=
  match s with
  | EmptyString => EmptyString
  | String c s' =>
      let n := nat_of_ascii c in
      String (if ((97 <=? n) && (n <=? 122))%nat then ascii_of_nat (n - 32) else c) s'
  end.

Definition newline : string := String (ascii_of_nat 10) EmptyString.

(** [lines.join(sep)] *)
Fixpoint join (sep : string) (lines : list string) : string :=
  match lines with
  | [] => ""
  | [l] => l
  | l :: lines' => l +:+ sep +:+ join sep lines'
  end.

Definition category_icon (category : string) : string :=
  if (category =? "defi")%string then "💰"
  else if (category =? "governance")%string then "🗳️"
  else if (category =? "system")%string then "⚙️"
  else if (category =? "marketing")%string then "📢"
  else "🔔".

Section body.
Context (timeString : Z → string).

Definition entry_category (e : DigestJobEntry) : string :=
  if (de_category e =? "")%string then "general" else de_category e.

Definition category_lines (g : string * list DigestJobEntry) : list string :=
  [category_icon g.1 +:+ " **" +:+ capitalize g.1 +:+ "** (" +:+ pretty (length g.2) +:+ ")"] ++
  ((λ e, "  • " +:+ de_subject e +:+ " _(" +:+ timeString (de_queuedAt e) +:+ ")_") <$> g.2) ++
  [""].

Definition digest_lines (entries : list DigestJobEntry) : list string :=
  ["Here's a summary of your " +:+ pretty (length entries) +:+ " notification" +:+
   (if (1 <? length entries)%nat then "s" else "") +:+ " since your last digest:" +:+ newline] ++
  concat (category_lines <$> group_by entry_category (λ e, e) entries) ++
  ["---";
   "You can adjust your digest preferences at [app.useherald.xyz](https://app.useherald.xyz)"].

Definition buildDigestBody (entries : list DigestJobEntry) : string :=
  join newline (digest_lines entries).
End body.

Section worker.
Context `{B : Backend} `{R : !Routing} `{D : !Dispatcher}.
Context (timeString : Z → string).

Definition syntheticJob (walletHash : string) (first : DigestJobEntry)
    (entries : list DigestJobEntry) (protocol : option Protocol) (now : Z) : NotificationJobData := {|
  j_notificationId := "digest-" +:+ substring 0 8 walletHash +:+ "-" +:+ pretty now;
  j_protocolId := de_protocolId first;
  j_protocolPubkey := from_option p_protocolPubkey "" protocol;
  j_protocolName := "Herald Digest"; j_wallet := ""; j_walletHash := None;
  j_subject := "Your notification digest (" +:+ pretty (length entries) +:+ " updates)";
  j_body := buildDigestBody timeString entries; j_category := "system";
  j_writeReceipt := false; j_digestMode := false; j_priority := Some Normal;
  j_channels := None; j_excludedChannels := None; j_preferredChannel := None;
  j_isSandbox := false; j_testContact := None;
  j_tier := Some (from_option p_tier 0 protocol); j_templateId := None;
  j_telegramTemplateId := None; j_templateVariables := ∅ |}.

(** [DigestWorker.process] *)
Definition process (data : DigestJobData) (now : Z) : M World () :=
  let walletHash := dj_walletHash data in
  let entries := dj_entries data in
  let mark := markAsSent (de_id <$> entries) now in
  match entries with
  | [] => mret ()
  | first :: _ =>
      notification ← find_first MNotification
        (λ _ n, bool_decide (n_walletHash n = walletHash)) (Some (λ n, - n_queuedAt n));
      match notification with
      | None => mark
      | Some _ =>
          protocol ← find_unique MProtocol (by_id MProtocol (de_protocolId first));
          let job := syntheticJob walletHash first entries protocol now in
          subscription ← find_first MProtocolSubscription
            (λ _ s, bool_decide (sub_walletHash s = walletHash) &&
               bool_decide (sub_status s = Active) && bool_decide (is_Some (sub_walletPubkey s)))
            (Some (λ s, - sub_subscribedAt s));
          let walletPubkey := chain sub_walletPubkey subscription in
          if negb (truthy walletPubkey) then mark else
          identity ← resolve (default "" walletPubkey) now;
          match identity with
          | None => mark
          | Some i =>
              decryptedChannels ← decrypt_channels i;
              _ ← dispatch_to decryptedChannels job now;
              mark
          end
      end
  end.
End worker.

(** ** Lemmas *)

Lemma append_length a b : String.length (a +:+ b) = (String.length a + String.length b)%nat.
Proof. induction a as [|c a IH]; [done |]. change (String c a +:+ b) with (String c (a +:+ b)). cbn. by rewrite IH. Qed.

Lemma append_inj_l a b s : a +:+ s = b +:+ s → a = b.
Proof.
  revert b. induction a as [|c a IH]; intros [|d b] H; [done | | |].
  - exfalso. apply (f_equal String.length) in H. rewrite !append_length in H. cbn in H. lia.
  - exfalso. apply (f_equal String.length) in H. rewrite !append_length in H. cbn in H. lia.
  - change (String c (a +:+ s) = String d (b +:+ s)) in H. injection H as -> H. f_equal. auto.
Qed.

Lemma digest_id_inj now a b : digest_id a now = digest_id b now → a = b.
Proof.
  unfold digest_id. intros H. injection H as H.
  exact (append_inj_l _ _ ("-" +:+ pretty now) H).
Qed.

(** No job of the queue has the id of a flush at [now]. *)
Definition no_flush_job (now : Z) (js : list (job QDigest)) : Prop :=
  ∀ j wh, j ∈ js → job_jobId j ≠ Some (digest_id wh now).

Lemma add_digest_job now g js :
  (∀ j, j ∈ js → job_jobId j ≠ Some (digest_id g.1 now)) →
  add_job (digest_job now g) js = js ++ [digest_job now g].
Proof.
  intros Hfresh. unfold add_job. cbn. destruct (existsb _ js) eqn:He; [| done].
  apply existsb_exists in He as (j & Hj%list_elem_of_In & Hid%bool_decide_eq_true).
  by destruct (Hfresh j Hj).
Qed.

Section flush.
Context `{B : Backend} `{BL : !BackendLaws B}.

Lemma enqueue_groups now groups w :
  NoDup groups.*1 →
  (∀ j g, j ∈ v_jobs (view w) QDigest → g ∈ groups → job_jobId j ≠ Some (digest_id g.1 now)) →
  wp (for_each (λ g, queue_add QDigest (digest_job now g)) groups) (λ r w',
    ∃ l, l `prefix_of` groups ∧ (r = Ok () → l = groups) ∧
      v_tables (view w') = v_tables (view w) ∧
      v_jobs (view w') QDigest = v_jobs (view w) QDigest ++ (digest_job now <$> l)) w.
Proof.
  intros Hnd Hno. apply (wp_for_each _ (λ rest w', ∃ l, groups = l ++ rest ∧
    v_tables (view w') = v_tables (view w) ∧
    v_jobs (view w') QDigest = v_jobs (view w) QDigest ++ (digest_job now <$> l))).
  - exists []. by rewrite app_nil_r.
  - intros g rest w1 (l & Hl & Ht & Hj). apply (wp_queue_add QDigest).
    + intros w2 Hv2. exists (l ++ [g]). rewrite <- app_assoc. split_and!; [done | by rewrite Hv2 |].
      rewrite Hv2. cbn. rewrite upd_jobs_eq, Hj, add_digest_job, fmap_app, app_assoc; [done |].
      intros j [Hin | (g' & -> & Hg')%list_elem_of_fmap]%elem_of_app.
      { apply (Hno j g Hin). rewrite Hl, elem_of_app. right. left. }
      intros Heq. cbn [job_jobId digest_job] in Heq. apply (inj Some), digest_id_inj in Heq.
      rewrite Hl, fmap_app in Hnd. apply list.NoDup_app in Hnd as (_ & Hdis & _).
      apply (Hdis g'.1); [by apply list_elem_of_fmap_2 |]. rewrite Heq. left.
    + intros e w2 Hv2. exists l. split_and!; [by eexists | done | by rewrite Hv2 | by rewrite Hv2].
  - intros w1 (l & -> & Ht & Hj). exists l. rewrite app_nil_r. by split_and!.
Qed.

(** A flush, where no job of the queue has the id of one that it adds. *)
Lemma flush_groups now w :
  (∀ j k e, j ∈ v_jobs (view w) QDigest → v_tables (view w) MDigestQueue !! k = Some e →
     job_jobId j ≠ Some (digest_id (d_walletHash e) now)) →
  wp (flushDueDigests now) (λ r w', ∃ entries l,
    selects MDigestQueue (due now) (Some d_queuedAt) (v_tables (view w) MDigestQueue) entries ∧
    l `prefix_of` group_by d_walletHash digest_entry entries ∧
    (r = Ok () → l = group_by d_walletHash digest_entry entries) ∧
    v_jobs (view w') QDigest = v_jobs (view w) QDigest ++ (digest_job now <$> l) ∧
    v_tables (view w') = v_tables (view w)) w.
Proof.
  intros Hno. unfold flushDueDigests. apply wp_bind, (wp_find_many MDigestQueue).
  - intros entries w1 Hs Hv1.
    pose proof (group_by_grouped d_walletHash digest_entry entries) as (Hnd & _ & _).
    eapply (wp_mono _ (λ r w', ∃ l, l `prefix_of` group_by d_walletHash digest_entry entries ∧
      (r = Ok () → l = group_by d_walletHash digest_entry entries) ∧
      v_tables (view w') = v_tables (view w1) ∧
      v_jobs (view w') QDigest = v_jobs (view w1) QDigest ++ (digest_job now <$> l))).
    + destruct entries as [|e0 es]; [apply wp_ret; exists []; by rewrite app_nil_r |].
      apply enqueue_groups; [done |]. rewrite Hv1. intros j [k ys] Hj Hg.
      pose proof (proj1 (grouped_key _ _ _ _ k (group_by_grouped d_walletHash digest_entry (e0 :: es)))
        (list_elem_of_fmap_2 fst _ _ Hg)) as (x & Hx & <-).
      destruct Hs as (_ & (ks & _ & Hks) & _). apply list_elem_of_lookup in Hx as [i Hi].
      destruct (Forall2_lookup_r _ _ _ _ _ Hks Hi) as (k' & _ & Hk' & _). by apply (Hno j k' x).
    + intros r w' (l & Hl & Hr & Ht & Hj). rewrite Hv1 in Ht, Hj. by exists entries, l.
  - intros e w1 Hv1.
    pose proof (mem_find_many_selects (due now) (Some d_queuedAt) (v_tables (view w) MDigestQueue)) as Hs. cbn zeta in Hs.
    eexists _, []. split; [exact Hs |]. rewrite Hv1, app_nil_r. split_and!; [apply prefix_nil | done..].
Qed.

(** C38.  The hourly flush.  When [flushDueDigests] returns, it has added one
    job per wallet that has due, unsent entries and no other job; the job of a
    wallet holds each of its due entries once and nothing else, oldest first.
    When it rejects, it has added the jobs of some of the wallets.  No entry
    changes.  This is for a queue without a job of this very flush: BullMQ
    adds none under an id that is there. *)
Theorem flush_by_wallet now w :
  no_flush_job now (v_jobs (view w) QDigest) →
  wp (flushDueDigests now) (λ r w', ∃ entries groups l,
    selects MDigestQueue (due now) (Some d_queuedAt) (v_tables (view w) MDigestQueue) entries ∧
    grouped d_walletHash digest_entry entries groups ∧
    l `prefix_of` groups ∧ (r = Ok () → l = groups) ∧
    v_jobs (view w') QDigest = v_jobs (view w) QDigest ++ (digest_job now <$> l) ∧
    v_tables (view w') = v_tables (view w)) w.
Proof.
  intros Hno. eapply wp_mono; [apply flush_groups; intros j k e Hj _; by apply Hno |].
  intros r w' (entries & l & Hs & Hl & Hr & Hj & Ht).
  exists entries, (group_by d_walletHash digest_entry entries), l. split_and!; try done; apply group_by_grouped.
Qed.
End flush.

Section digest_worker.
Context `{B : Backend} `{BL : !BackendLaws B}.
Context `{R : !Routing} `{RL : !RoutingLaws R} `{D : !Dispatcher} `{DL : !DispatcherLaws D}.
Context (timeString : Z → string).

(** The rows of a job's entries, and only they, got a time of sending. *)
Definition marked (data : DigestJobData) (now : Z) (t t' : gmap string DigestEntry) : Prop :=
  ∀ k, t' !! k = (λ e, if bool_decide (k ∈ de_id <$> dj_entries data)
                       then e <| d_sentAt := Some now |> else e) <$> t !! k.

Lemma markAsSent_spec data now w :
  wp (markAsSent (de_id <$> dj_entries data) now) (λ r w',
    v_sent (view w') = v_sent (view w) ∧
    match r with
    | Ok _ => marked data now (v_tables (view w) MDigestQueue) (v_tables (view w') MDigestQueue)
    | Err _ => v_tables (view w') MDigestQueue = v_tables (view w) MDigestQueue
    end) w.
Proof.
  apply (wp_update_many MDigestQueue); [| by intros e w' ->].
  intros w' ->. split; [done |]. intros k. cbn. rewrite upd_eq.
  apply (lookup_update_where (m := MDigestQueue)).
Qed.

(** A digest job marks all of its entries as sent, whether or not a
    channel delivered it: when the worker returns, every entry of the job, and
    no other, is marked; when it rejects and BullMQ runs it again, none is, so
    entries are neither lost nor half marked.  Messages go out on the delivery
    channels only. *)
Theorem digest_marks_all data now w :
  dj_entries data ≠ [] →
  wp (process timeString data now) (λ r w',
    match r with
    | Ok _ => marked data now (v_tables (view w) MDigestQueue) (v_tables (view w') MDigestQueue)
    | Err _ => v_tables (view w') MDigestQueue = v_tables (view w) MDigestQueue
    end ∧
    ∃ l, v_sent (view w') = v_sent (view w) ++ l ∧
      Forall (λ e, is_Some (envelope_channel e)) l) w.
Proof.
  intros Hne. unfold process. set (mark := markAsSent _ now).
  set (Post := λ (r : result ()) (w' : World), match r with
    | Ok _ => marked data now (v_tables (view w) MDigestQueue) (v_tables (view w') MDigestQueue)
    | Err _ => v_tables (view w') MDigestQueue = v_tables (view w) MDigestQueue
    end ∧
    ∃ l, v_sent (view w') = v_sent (view w) ++ l ∧
      Forall (λ e, is_Some (envelope_channel e)) l).
  assert (∀ w1, within dispatcher_frame (view w) (view w1) → wp mark Post w1) as Hmark.
  { intros w1 Hw1. eapply wp_mono; [apply markAsSent_spec |]. intros r w2 [Hs Hr].
    rewrite (within_tables _ _ _ Hw1 MDigestQueue) in Hr by naive_solver.
    split; [done |]. rewrite Hs. apply Hw1. }
  assert (∀ e w1, within dispatcher_frame (view w) (view w1) → Post (Err e) w1) as Herr.
  { intros e w1 Hw1. split; [| apply Hw1]. apply Hw1. naive_solver. }
  assert (frame_le cache_frame dispatcher_frame) as Hle by (by split).
  destruct (dj_entries data) as [|first rest] eqn:Hent; [done |].
  apply wp_bind, (wp_find_first MNotification); [| intros e w1 Hv; apply Herr; by rewrite Hv].
  intros n w1 _ Hv1. destruct n; [| apply Hmark; by rewrite Hv1].
  apply wp_bind, (wp_find_unique MProtocol); [| intros e w2 Hv; apply Herr; by rewrite Hv, Hv1].
  intros p w2 _ Hv2. apply wp_bind, (wp_find_first MProtocolSubscription);
    [| intros e w3 Hv; apply Herr; by rewrite Hv, Hv2, Hv1].
  intros s w3 _ Hv3. assert (view w3 = view w) as Hv by congruence.
  destruct (negb _); [apply Hmark; by rewrite Hv |].
  apply wp_bind, (wp_keeps dispatcher_frame);
    [eapply Keeps_le; [exact Hle | apply resolve_keeps] |]. rewrite Hv.
  intros [[i|]|e] w4 Hw4; [| by apply Hmark | by apply Herr].
  apply wp_bind, (wp_keeps dispatcher_frame);
    [eapply Keeps_le; [exact Hle | apply decrypt_keeps] |].
  intros [ch|e] w5 Hw5; [| apply Herr; by etrans].
  apply wp_bind, (wp_keeps dispatcher_frame); [apply dispatch_to_keeps |].
  intros [res|e] w6 Hw6; [apply Hmark | apply Herr]; (etrans; [etrans |]; done).
Qed.
End digest_worker.

(** ** Witnesses *)

Definition sample_entry (id wallet subject : string) (at_ : Z) : DigestEntry := {|
  d_id := id; d_walletHash := wallet; d_protocolId := "p1"; d_subject := subject;
  d_category := "defi"; d_queuedAt := at_; d_scheduledFor := 3600000; d_sentAt := None |}.

Definition digest_world : World :=
  mem_world (with_rows MDigestQueue
    [sample_entry "e1" "w1" "a" 10; sample_entry "e2" "w2" "b" 20; sample_entry "e3" "w1" "c" 30]
    no_tables) ∅.

Definition queued_entries (w : World) : list (string * list string) :=
  (λ j : job QDigest, (dj_walletHash (job_payload j), de_id <$> dj_entries (job_payload j))) <$>
    v_jobs (view w) QDigest.

Lemma flush_by_wallet_witness :
  queued_entries (flushDueDigests 3600000 digest_world).2 =
    [("w1", ["e1"; "e3"]); ("w2", ["e2"])] ∧
  wp (flushDueDigests 3600000) (λ r w', ∃ entries groups l,
    selects MDigestQueue (due 3600000) (Some d_queuedAt)
      (v_tables (view digest_world) MDigestQueue) entries ∧
    grouped d_walletHash digest_entry entries groups ∧
    l `prefix_of` groups ∧ (r = Ok () → l = groups) ∧
    v_jobs (view w') QDigest = v_jobs (view digest_world) QDigest ++ (digest_job 3600000 <$> l) ∧
    v_tables (view w') = v_tables (view digest_world)) digest_world.
Proof.
  split; [vm_compute; reflexivity |]. apply (flush_by_wallet 3600000 digest_world).
  intros j wh Hj. by apply elem_of_nil in Hj.
Defined.

(** An entry whose job has not run by the next flush is queued again. *)
Lemma pending_entry_queued_twice :
  let w := (flushDueDigests 7200000 (flushDueDigests 3600000 digest_world).2).2 in
  queued_entries w =
    [("w1", ["e1"; "e3"]); ("w2", ["e2"]); ("w1", ["e1"; "e3"]); ("w2", ["e2"])].
Proof. vm_compute. reflexivity. Qed.

(** A wallet with a subscription, and a mail provider that is down. *)
Definition digest_recipient : World :=
  (mem_world (with_rows MDigestQueue [sample_entry "e1" "w1" "a" 10; sample_entry "e2" "w2" "b" 20]
    (with_rows MNotification [new_notification "n1" "p1" "w1" "s" "defi" Digested None false 10]
    (with_rows MProtocolSubscription [{| sub_id := "s1"; sub_walletPubkey := Some "wallet1";
       sub_walletHash := "w1"; sub_protocolId := "p1"; sub_channels := ["email"];
       sub_status := Active; sub_source := "api"; sub_subscribedAt := 0; sub_updatedAt := 0 |}]
     no_tables))) ∅) <| w_net ::= set m_outcomes (λ _, [inl "SES down"]) |>.

Definition digest_data : DigestJobData := {|
  dj_walletHash := "w1"; dj_entries := [digest_entry (sample_entry "e1" "w1" "a" 10)] |}.

Section witness.
#[local] Instance sample_routing : Routing := routing_service
  (λ _ _, Ok (Some sample_identity))
  (λ _, Ok {| tc_email := Some "a@b"; tc_telegramChatId := None; tc_phone := None |}).
#[local] Instance sample_routing_laws : RoutingLaws sample_routing.
Proof. unfold sample_routing. apply _. Qed.
#[local] Instance sample_dispatcher : Dispatcher := channel_dispatcher channel_config.
#[local] Instance sample_dispatcher_laws : DispatcherLaws sample_dispatcher.
Proof. unfold sample_dispatcher. apply _. Qed.

Lemma digest_marks_all_witness :
  let w' := (process (λ _, "10:00 AM") digest_data 4000000 digest_recipient).2 in
  (v_sent (view w') = [] ∧
   d_sentAt <$> v_tables (view w') MDigestQueue !! "e1" = Some (Some 4000000)) ∧
  wp (process (λ _, "10:00 AM") digest_data 4000000) (λ r w',
    match r with
    | Ok _ => marked digest_data 4000000 (v_tables (view digest_recipient) MDigestQueue)
                (v_tables (view w') MDigestQueue)
    | Err _ => v_tables (view w') MDigestQueue = v_tables (view digest_recipient) MDigestQueue
    end ∧
    ∃ l, v_sent (view w') = v_sent (view digest_recipient) ++ l ∧
      Forall (λ e, is_Some (envelope_channel e)) l) digest_recipient.
Proof.
  cbn zeta. split; [split; vm_compute; reflexivity |].
  apply (digest_marks_all (λ _, "10:00 AM") digest_data 4000000 digest_recipient). discriminate.
Defined.
End witness.
