(* ===== verification/Worker.v ===== *)
(** * The notification worker

    [MailWorker] of [src/modules/queue/workers/mail.worker.ts], over the
    interfaces [Routing], [Dispatcher] and [Webhooks], with the metering of
    [Billing] and the buffer of [Digest].  [EnclaveService.encryptForUser] is a
    parameter; a run happens at one time [now], and the id of the event it
    fires is an argument. *)

From Stdlib Require Import Ascii String.
From stdpp Require Import pretty.
From S2P Require Import Prelude Schema External Memory Frame Unsubscribe Channels Routing.
From S2P Require Import Webhook Billing Dispatcher Digest.

Open Scope string_scope.
Open Scope list_scope.
Open Scope Z_scope.

Definition this_notification (job : NotificationJobData) : where_ MNotification :=
  by_id MNotification (j_notificationId job).

Definition email_outcome (res : ChannelDispatchResult) : option ChannelDeliveryOutcome :=
  List.find (λ o, bool_decide (o_channel o = Some Email) && o_success o) (dr_outcomes res).

Definition channel_name (c : option channel) : string :=
  match c with
  | Some Email => "email" | Some Telegram => "telegram" | Some Sms => "sms"
  | None => "unknown"
  end.

(** The errors of the failed deliveries, joined. *)
Definition all_failed_message (res : ChannelDispatchResult) : string :=
  "All channels failed: " +:+ join "; "
    ((λ o, channel_name (o_channel o) +:+ ": " +:+ default "undefined" (o_error o)) <$>
       List.filter (λ o, negb (o_success o)) (dr_outcomes res)).

(** [String(err.code || err.statusCode || 'DELIVERY_FAILED')] *)
Definition error_code (e : exn) : string :=
  match e with
  | JsError _ (Some (String c s)) => String c s
  | _ => "DELIVERY_FAILED"
  end.

Section worker.
Context `{B : Backend} `{R : !Routing} `{D : !Dispatcher} `{Wh : !Webhooks}.
(** key, subject, message, action URL; a ciphertext and its nonce *)
Context (encryptForUser : list N → string → string → option string →
  result (option (string * string))).

(** [this.prisma.notification.update({ where: { id }, data })] *)
Definition update_notification (job : NotificationJobData) (f : Notification → Notification) :
    M World () :=
  _ ← update MNotification (this_notification job) f;
  mret ().

Definition opt_out (job : NotificationJobData) (code : string) : M World () :=
  update_notification job (λ n, n <| n_status := OptedOut |> <| n_errorCode := Some code |>).

Definition no_contact (c : TestContact) : bool :=
  negb (truthy (tc_email c)) && negb (truthy (tc_telegramChatId c)) && negb (truthy (tc_phone c)).

Definition processSandbox (job : NotificationJobData) (now : Z) : M World () :=
  match j_testContact job with
  | None => opt_out job "SANDBOX_NO_TEST_CONTACT"
  | Some contact =>
      if no_contact contact then opt_out job "SANDBOX_NO_TEST_CONTACT" else
      catch (
        res ← dispatch_to contact job now;
        if (0 <? dr_successCount res)%nat then
          update_notification job (λ n,
            n <| n_status := Delivered |> <| n_deliveredAt := Some now |>
              <| n_sesMessageId := chain o_messageId (email_outcome res) |>
              <| n_emailProvider := chain o_provider (email_outcome res) |>)
        else
          update_notification job (λ n,
            n <| n_status := Failed |> <| n_errorCode := Some "SANDBOX_ALL_CHANNELS_FAILED" |>))
      (λ _, update_notification job (λ n,
         n <| n_status := Failed |> <| n_errorCode := Some "SANDBOX_DELIVERY_ERROR" |>))
  end.

(** The storage of the body on Arweave; a failure gives no id. *)
Definition store_body (job : NotificationJobData) (channels : DecryptedChannels) :
    M World (option string) :=
  swallow None (
    let primary := if truthy (tc_email channels) then Email
                   else if truthy (tc_telegramChatId channels) then Telegram else Sms in
    rc ← send (ArweaveEnvelope (j_protocolId job) (default "" (j_walletHash job)) primary
                 (j_subject job) (j_body job));
    mret (Some (rc_messageId rc))).

(** The body encrypted for the portal. *)
Definition portal_body (job : NotificationJobData) (identity : IdentityAccount) :
    option (string * string) :=
  match encryption_key identity with
  | None => None
  | Some key =>
      let actionUrl := j_templateVariables job !! "action_url" in
      match encryptForUser key (j_subject job) (j_body job)
              (if truthy actionUrl then actionUrl else None) with
      | Ok encrypted => encrypted
      | Err _ => None
      end
  end.

Definition clear_suppression (job : NotificationJobData) (identity : IdentityAccount)
    (channels : DecryptedChannels) : M World () :=
  if ia_channelEmail identity && truthy (tc_email channels) && truthy (j_walletHash job) then
    swallow () (delete_many MEmailSuppression
      (by_id MEmailSuppression (default "" (j_walletHash job))))
  else mret ().

(** The status of a dispatch that delivered on some channel. *)
Definition delivered_status (res : ChannelDispatchResult) : NotificationStatus :=
  if dr_allDelivered res then Delivered else Partial.

Definition after_delivery (res : ChannelDispatchResult) (arweaveId : option string)
    (body : option (string * string)) (now : Z) (n : Notification) : Notification :=
  let n := n <| n_status := delivered_status res |> <| n_deliveredAt := Some now |>
             <| n_arweaveId := arweaveId |>
             <| n_sesMessageId := chain o_messageId (email_outcome res) |>
             <| n_emailProvider := chain o_provider (email_outcome res) |>
             <| n_ciphertext := option_map fst body |> <| n_nonce := option_map snd body |> in
  if dr_allDelivered res then n
  else n <| n_errorCode := Some ("PARTIAL_" +:+ pretty (dr_successCount res) +:+ "/" +:+
                                 pretty (dr_totalChannels res)) |>.

Definition delivery_event (job : NotificationJobData) (res : ChannelDispatchResult) (now : Z) :
    EventData := {|
  ev_notificationId := j_notificationId job; ev_status := delivered_status res;
  ev_outcomes := (λ o, o <| o_messageId := None |> <| o_error := None |>) <$> dr_outcomes res;
  ev_error := None; ev_wallet := j_wallet job; ev_deliveredAt := Some now |}.

Definition event_type (s : NotificationStatus) : string :=
  match s with
  | Delivered => "notification.delivered"
  | Partial => "notification.partial"
  | _ => "notification.failed"
  end.

(** What follows the dispatch: steps 5 and 6. *)
Definition settle (job : NotificationJobData) (identity : IdentityAccount)
    (arweaveId : option string) (res : ChannelDispatchResult) (uuid : string) (now : Z) :
    M World () :=
  let body := portal_body job identity in
  if dr_allDelivered res || (0 <? dr_successCount res)%nat then
    _ ← update_notification job (after_delivery res arweaveId body now);
    _ ← (if (0 <? dr_successCount res)%nat
         then swallow () (incrementSendsThisPeriod (j_protocolId job) 1) else mret ());
    swallow () (fire (j_protocolId job) (event_type (delivered_status res))
                  (delivery_event job res now) uuid now)
  else
    _ ← update_notification job (λ n,
      n <| n_status := Failed |> <| n_errorCode := Some "ALL_CHANNELS_FAILED" |>
        <| n_retryCount ::= Z.succ |>);
    raise (JsError (all_failed_message res) None).

(** From the resolution of the identity on. *)
Definition deliver (job : NotificationJobData) (uuid : string) (now : Z) : M World () :=
  identity ← resolve (j_wallet job) now;
  match identity with
  | None =>
      portalUser ← (if truthy (j_walletHash job)
                    then find_unique MPortalUser (by_id MPortalUser (default "" (j_walletHash job)))
                    else mret None);
      opt_out job (if truthy (chain pu_emailHash portalUser)
                   then "PORTAL_FALLBACK_CHANNELS_UNAVAILABLE"
                   else "WALLET_NOT_REGISTERED_AT_PROCESSING")
  | Some i =>
      channels ← decrypt_channels i;
      if no_contact channels then opt_out job "NO_ACTIVE_CHANNELS" else
      _ ← clear_suppression job i channels;
      arweaveId ← store_body job channels;
      res ← dispatch_to channels job now;
      settle job i arweaveId res uuid now
  end.

Definition buffer (job : NotificationJobData) (now : Z) : M World () :=
  _ ← bufferForDigest (default "" (j_walletHash job)) (j_protocolId job) (j_subject job)
        (j_category job) None now;
  update_notification job (λ n, n <| n_status := Digested |>).

(** The [catch] of [processProduction]. *)
Definition failed (job : NotificationJobData) (uuid : string) (now : Z) (e : exn) : M World () :=
  if String.prefix "All channels failed" (err_message e) then raise e else
  _ ← update_notification job (λ n,
    n <| n_status := Failed |> <| n_errorCode := Some (error_code e) |>
      <| n_retryCount ::= Z.succ |>);
  _ ← swallow () (fire (j_protocolId job) "notification.failed"
        {| ev_notificationId := j_notificationId job; ev_status := Failed; ev_outcomes := [];
           ev_error := Some (err_message e); ev_wallet := j_wallet job; ev_deliveredAt := None |} uuid now);
  raise e.

Definition processProduction (job : NotificationJobData) (uuid : string) (now : Z) : M World () :=
  catch (if j_digestMode job then buffer job now else deliver job uuid now) (failed job uuid now).

(** [MailWorker.process] *)
Definition process (job : NotificationJobData) (uuid : string) (now : Z) : M World () :=
  _ ← update_notification job (λ n,
    n <| n_status := Processing |> <| n_processingAt := Some now |>);
  if j_isSandbox job then processSandbox job now else processProduction job uuid now.

(** ** What a run does *)

(** The notification's row. *)
Definition row_of (job : NotificationJobData) (v : View) : option Notification :=
  v_tables v MNotification !! j_notificationId job.

(** The part of a run before the delivery is recorded. *)
Definition attempt_frame : Frame := {|
  fr_table m := m = MNotification ∨ m = MChannelDelivery ∨ m = MEmailSuppression ∨ m = MDigestQueue;
  fr_job _ := False; fr_key _ := True; fr_send _ := True |}.

Definition worker_frame : Frame := {|
  fr_table m := fr_table attempt_frame m ∨ m = MProtocol ∨ m = MSubscription;
  fr_job q := q = QWebhook; fr_key _ := True; fr_send _ := True |}.

(** [n] sends more on the counters. *)
Definition count_sends (n : nat) (p : Protocol) : Protocol :=
  p <| p_sendsThisPeriod ::= Z.add (Z.of_nat n) |>.
Definition count_subscribed (pid : string) (n : nat) (s : Subscription) : Subscription :=
  if bool_decide (s_protocolId s = pid) then s <| s_sendsThisPeriod ::= Z.add (Z.of_nat n) |> else s.

(** What a run may do to the rows: its own notification is rewritten, and
    deliveries of it are added; the suppression of its wallet may be removed,
    an entry of the wallet be buffered, and sends be counted for its protocol. *)
Definition worker_rows (job : NotificationJobData) : RowFrame := λ m,
  match m return string → option (row m) → option (row m) → Prop with
  | MNotification => at_keys (λ k, k = j_notificationId job) may_rewrite
  | MChannelDelivery => λ _, may_add (λ r : ChannelDelivery, cd_notificationId r = j_notificationId job)
  | MEmailSuppression => at_keys (λ k, Some k = j_walletHash job) may_remove
  | MDigestQueue => λ _, may_add (λ r : DigestEntry,
      d_walletHash r = default "" (j_walletHash job) ∧ d_protocolId r = j_protocolId job)
  | MProtocol => at_keys (λ k, k = j_protocolId job) (λ a b, ∃ n : nat, b = count_sends n <$> a)
  | MSubscription => λ _ a b, ∃ n : nat, b = count_subscribed (j_protocolId job) n <$> a
  | _ => λ _, eq
  end.

Definition reached (s : NotificationStatus) : Prop := s = Delivered ∨ s = Partial.

(** The state a run that returns leaves its notification in. *)
Definition settled (job : NotificationJobData) (v v' : View) : Prop :=
  ∃ n, row_of job v' = Some n ∧
    (reached (n_status n) ∨
     (n_status n = OptedOut ∨ (n_status n = Digested ∧ j_digestMode job = true)) ∧
     v_sent v' = v_sent v).

(** A counter [sends] of a table's rows: every row stays, and its counter too,
    unless it is one of [mine], which may be one higher if [Q]. *)
Definition counted_in {A} (sends : A → Z) (mine : string → A → Prop) (Q : Prop)
    (t t' : gmap string A) : Prop :=
  ∀ k a, t !! k = Some a → ∃ a', t' !! k = Some a' ∧
    (sends a' = sends a ∨ (mine k a ∧ sends a' = sends a + 1 ∧ Q)).

(** The counters of protocols and of their subscriptions: at most one send
    more, for [pid], and only if [Q]. *)
Definition counted (pid : string) (Q : Prop) (v v' : View) : Prop :=
  counted_in p_sendsThisPeriod (λ k _, k = pid) Q (v_tables v MProtocol) (v_tables v' MProtocol) ∧
  counted_in s_sendsThisPeriod (λ _ s, s_protocolId s = pid) Q
    (v_tables v MSubscription) (v_tables v' MSubscription).

Record run_effect (job : NotificationJobData) (v v' : View) (r : result ()) : Prop := {
  re_frame : within worker_frame v v';
  re_settled : r = Ok () → settled job v v';
  re_counted : counted (j_protocolId job)
    (r = Ok () ∧ ∃ n, row_of job v' = Some n ∧ reached (n_status n)) v v';
}.

Lemma attempt_le : frame_le attempt_frame worker_frame.
Proof. by split; cbn; auto. Qed.

Lemma counted_in_refl {A} sends mine Q (t : gmap string A) : counted_in sends mine Q t t.
Proof. intros k a Hk. eauto. Qed.

Lemma counted_same pid Q v v' : v_tables v' MProtocol = v_tables v MProtocol →
  v_tables v' MSubscription = v_tables v MSubscription → counted pid Q v v'.
Proof. intros Hp Hs. split; rewrite ?Hp, ?Hs; apply counted_in_refl. Qed.

Lemma counted_within F pid Q v v' :
  ¬ fr_table F MProtocol → ¬ fr_table F MSubscription → within F v v' → counted pid Q v v'.
Proof. intros HF HS Hw. by apply counted_same; apply Hw. Qed.

(** A run that ends without having reached the recipient. *)
Lemma effect_err job v v' e : within attempt_frame v v' → run_effect job v v' (Err e).
Proof.
  intros Hw. split; [by eapply within_le; [apply attempt_le |] | done |].
  eapply counted_within; [| | exact Hw]; cbn; intuition discriminate.
Qed.

(** Two parts of a run, the first of which only attempted. *)
Lemma effect_after job v v1 v' r :
  within attempt_frame v v1 → run_effect job v1 v' r →
  (r = Ok () → ∀ n, row_of job v' = Some n → reached (n_status n) ∨ v_sent v1 = v_sent v) →
  run_effect job v v' r.
Proof.
  intros Hw [Hf Hs Hc] Hsent. split.
  - etrans; [eapply within_le; [apply attempt_le | exact Hw] | done].
  - intros Hr. destruct (Hs Hr) as (n & Hn & Hst). exists n. split; [done |].
    destruct (Hsent Hr n Hn) as [? | <-]; [by left | done].
  - destruct Hc as [Hp Hs']. split; intros k a Hk; [apply Hp | apply Hs'];
      (rewrite (within_tables _ _ _ Hw); [done | cbn; intuition discriminate]).
Qed.

Context `{BL : !BackendLaws B} `{RL : !RoutingLaws R} `{DL : !DispatcherLaws D}
  `{WL : !WebhooksLaws Wh}.

Lemma wp_update_notification job f Q w :
  (∀ n w', row_of job (view w) = Some n → row_of job (view w') = Some (f n) →
     view w' = (view w) <| v_tables ::= upd MNotification <[j_notificationId job := f n]> |> →
     Q (Ok ()) w') →
  (∀ e w', view w' = view w → Q (Err e) w') →
  wp (update_notification job f) Q w.
Proof.
  intros Hok Herr. apply wp_bind, (wp_update MNotification); [| done].
  intros k n w' Hk ->%bool_decide_eq_true Hv. apply wp_ret, (Hok n); [done | | done].
  unfold row_of. rewrite Hv. cbn. by rewrite upd_eq, lookup_insert_eq.
Qed.

Lemma update_notification_keeps F job f :
  fr_table F MNotification → Keeps F (update_notification job f).
Proof. intros HF. unfold update_notification. keeps. Qed.

Lemma metered_within pid f v v' : metered pid f v v' → within worker_frame v v'.
Proof.
  intros [_ _ Ho (Hr & Hj & Hs)]. split.
  - intros m Hm. apply Ho; intros ->; apply Hm; cbn; auto.
  - intros q _. by rewrite Hj.
  - intros k _. by rewrite Hr.
  - exists []. by rewrite app_nil_r.
Qed.

Lemma metered_counted pid (Q : Prop) v v' : Q → metered pid (λ z, z + 1) v v' → counted pid Q v v'.
Proof.
  intros HQ [(p & Hp & Ht) Hs _ _]. split.
  - intros k q Hq. rewrite Ht. destruct (decide (k = pid)) as [-> | Hne].
    + eexists. rewrite lookup_insert_eq. split; [done |]. right.
      by rewrite (Some_agree Hq Hp).
    + exists q. rewrite lookup_insert_ne by done. auto.
  - intros k s Hk. eexists. split; [etrans; [apply Hs | exact (f_equal (fmap _) Hk)] |].
    case_bool_decide; [right | by left]. by destruct s.
Qed.

Lemma counting_order {A} (f : nat → A → A) : (∀ x, f 0%nat x = x) →
  (∀ n m x, f n (f m x) = f (n + m)%nat x) → PreOrder (λ a b : option A, ∃ n, b = f n <$> a).
Proof.
  intros H0 Hadd. split.
  - intros a. exists 0%nat. destruct a; cbn; by rewrite ?H0.
  - intros a b c [n ->] [n' ->]. exists (n' + n)%nat. destruct a; cbn; by rewrite ?Hadd.
Qed.

Lemma count_sends_add n m p : count_sends n (count_sends m p) = count_sends (n + m) p.
Proof. destruct p. unfold count_sends. cbv [RecordSettersUsingExistingGetters.set]. cbn -[Z.add Z.of_nat]. f_equal. lia. Qed.

Lemma count_subscribed_add pid n m s :
  count_subscribed pid n (count_subscribed pid m s) = count_subscribed pid (n + m) s.
Proof.
  unfold count_subscribed. destruct s. cbv [RecordSettersUsingExistingGetters.set]. cbn -[Z.add Z.of_nat].
  repeat (case_bool_decide; cbn -[Z.add Z.of_nat]); try done; f_equal; lia.
Qed.

#[local] Instance worker_rows_order job : RowOrder (worker_rows job).
Proof.
  constructor. intros m k. destruct m; cbn; try apply _.
  - apply at_keys_order, counting_order; [by intros [] | apply count_sends_add].
  - apply counting_order; [| apply count_subscribed_add].
    intros []. unfold count_subscribed. by case_bool_decide.
Qed.

Lemma dispatch_rows_le job v v' :
  rows_within (dispatch_rows (j_notificationId job)) v v' → rows_within (worker_rows job) v v'.
Proof.
  intros H m k. specialize (H m k).
  destruct m; try exact H; try (cbn [dispatch_rows] in H; rewrite <- H; apply row_order).
  destruct H as [[<- | ->] Hk]; (split; [| done]); [done |]. unfold may_rewrite. by rewrite fmap_is_Some.
Qed.

Lemma count_one p : count_sends 1 p = p <| p_sendsThisPeriod ::= λ z, z + 1 |>.
Proof.
  destruct p. unfold count_sends. cbv [RecordSettersUsingExistingGetters.set].
  cbn -[Z.add Z.of_nat]. f_equal. lia.
Qed.

Lemma count_subscribed_one pid s : count_subscribed pid 1 s =
  if bool_decide (s_protocolId s = pid) then s <| s_sendsThisPeriod ::= λ z, z + 1 |> else s.
Proof.
  unfold count_subscribed. case_bool_decide; [| done]. destruct s.
  cbv [RecordSettersUsingExistingGetters.set]. cbn -[Z.add Z.of_nat]. f_equal. lia.
Qed.

Lemma metered_rows job v v' : metered (j_protocolId job) (λ z, z + 1) v v' → rows_within (worker_rows job) v v'.
Proof.
  intros [(p & Hp & Hpt) Hs Ho _] m k.
  destruct (decide (m = MProtocol)) as [-> | Hm1]; [| destruct (decide (m = MSubscription)) as [-> | Hm2]].
  - enough (∀ a b : option Protocol, a = v_tables v MProtocol !! k → b = v_tables v' MProtocol !! k →
      worker_rows job MProtocol k a b) by auto.
    intros a b -> ->. rewrite Hpt. destruct (decide (k = j_protocolId job)) as [-> | Hne].
    + rewrite Hp, lookup_insert_eq. split; [| by left]. exists 1%nat. cbn [fmap option_fmap option_map].
      by rewrite count_one.
    + rewrite lookup_insert_ne by done. apply (row_order (RF := worker_rows job) MProtocol k).
  - enough (∀ a b : option Subscription, a = v_tables v MSubscription !! k →
      b = v_tables v' MSubscription !! k → worker_rows job MSubscription k a b) by auto.
    intros a b -> ->. rewrite Hs. exists 1%nat.
    destruct (v_tables v MSubscription !! k) as [s|]; [| done]. cbn [fmap option_fmap option_map].
    by rewrite count_subscribed_one.
  - rewrite Ho by done. apply row_order.
Qed.

Lemma update_rows job f : KeepsRows (worker_rows job) (update_notification job f).
Proof.
  unfold update_notification. rows. cbn. split; [by split; eexists |]. left. by apply bool_decide_eq_true in H.
Qed.

Lemma fire_rows job eventType data uuid now :
  KeepsRows (worker_rows job) (fire (j_protocolId job) eventType data uuid now).
Proof. by apply (rows_keeps _ webhook_frame); [intros ? [] | apply fire_keeps]. Qed.

Lemma settle_rows job identity arweaveId res uuid now :
  KeepsRows (worker_rows job) (settle job identity arweaveId res uuid now).
Proof.
  unfold settle. rows; try apply update_rows; try apply fire_rows.
  intros w. eapply wp_mono; [apply meter_spec |]. intros r w' [_ [-> | Hm]]; [done | by apply metered_rows].
Qed.

Lemma suppression_rows job i ch : KeepsRows (worker_rows job) (clear_suppression job i ch).
Proof.
  unfold clear_suppression. destruct (j_walletHash job) as [h|] eqn:Hh; rewrite ?andb_false_r; rows.
  split; [by right |]. left. rewrite Hh. by apply bool_decide_eq_true in H as ->.
Qed.

Lemma deliver_rows job uuid now : KeepsRows (worker_rows job) (deliver job uuid now).
Proof.
  assert (∀ m : model, ¬ fr_table cache_frame m) as Hno by (by intros ? []).
  unfold deliver, opt_out, store_body.
  rows; try apply update_rows; try apply settle_rows; try apply suppression_rows.
  - by apply (rows_keeps _ cache_frame); [| apply resolve_keeps].
  - by apply (rows_keeps _ cache_frame); [| apply decrypt_keeps].
  - intros w. eapply wp_mono; [apply dispatch_to_rows |]. intros. by apply dispatch_rows_le.
Qed.

(** The whole run, digest mode and failures included. *)
Lemma production_rows job uuid now : KeepsRows (worker_rows job) (processProduction job uuid now).
Proof.
  unfold processProduction, buffer, bufferForDigest, failed.
  rows; try apply update_rows; try apply deliver_rows; try apply fire_rows.
  right. split; [done |]. by eexists.
Qed.

Lemma process_rows job uuid now :
  j_isSandbox job = false → KeepsRows (worker_rows job) (process job uuid now).
Proof. intros Hsb. unfold process. rewrite Hsb. rows; [apply update_rows | apply production_rows]. Qed.

Lemma webhook_le : frame_le webhook_frame worker_frame.
Proof. by split. Qed.

(** The event, after the status was set and the send was metered. *)
Lemma fire_settled job n eventType data uuid now w0 w1 w2 :
  reached (n_status n) → row_of job (view w1) = Some n →
  within attempt_frame (view w0) (view w1) →
  view w2 = view w1 ∨ metered (j_protocolId job) (λ z, z + 1) (view w1) (view w2) →
  wp (swallow () (fire (j_protocolId job) eventType data uuid now)) (λ r w',
    run_effect job (view w0) (view w') r ∧
    (r = Ok () → ∃ n, row_of job (view w') = Some n ∧ reached (n_status n))) w2.
Proof.
  intros Hn Hrow Hw1 Hm. apply wp_swallow, (wp_keeps webhook_frame); [apply fire_keeps |].
  intros r w3 Hw3. set (r' := Ok _).
  assert (∀ m, v_tables (view w3) m = v_tables (view w2) m) as Ht3.
  { intros m. apply Hw3. by intros []. }
  assert (row_of job (view w3) = Some n) as Hrow3.
  { unfold row_of. rewrite Ht3. destruct Hm as [-> | Hm]; [done |].
    by rewrite (me_others _ _ _ _ Hm) by done. }
  assert (within worker_frame (view w1) (view w3)) as Hw13.
  { etrans; [| eapply within_le; [apply webhook_le | exact Hw3]].
    destruct Hm as [-> | Hm]; [done | by eapply metered_within]. }
  split; [| eauto]. apply effect_after with (view w1); [done | | intros _ n'; rewrite Hrow3; by intros [= <-]; left].
  split; [done | intros _; exists n; auto |].
  assert (counted (j_protocolId job) (r' = Ok () ∧ ∃ n, row_of job (view w3) = Some n ∧ reached (n_status n))
    (view w1) (view w2)) as Hc.
  { destruct Hm as [-> | Hm]; [by apply counted_same |].
    eapply metered_counted; [| exact Hm]. split; [subst r'; by destruct r as [[]|] | eauto]. }
  unfold counted. rewrite !Ht3. exact Hc.
Qed.

Lemma settle_spec job identity arweaveId res uuid now w :
  wp (settle job identity arweaveId res uuid now)
    (λ r w', run_effect job (view w) (view w') r ∧
       (r = Ok () → ∃ n, row_of job (view w') = Some n ∧ reached (n_status n))) w.
Proof.
  unfold settle. cbn zeta. set (body := portal_body job identity).
  assert (∀ n, reached (n_status (after_delivery res arweaveId body now n))) as Hreach.
  { intros n. unfold after_delivery, delivered_status, reached. destruct (dr_allDelivered res); auto. }
  assert (∀ f w', view w' = (view w) <| v_tables ::= upd MNotification f |> →
    within attempt_frame (view w) (view w')) as Hw.
  { intros f w' ->. apply (within_table attempt_frame MNotification). by left. }
  destruct (dr_allDelivered res || _); apply wp_bind, wp_update_notification.
  - intros n w1 _ Hn Hv1. apply wp_bind. destruct (0 <? dr_successCount res)%nat.
    + eapply wp_swallow, wp_mono; [apply meter_spec |]. intros r w2 [-> Hm].
      by eapply fire_settled; eauto.
    + apply wp_ret. eapply fire_settled; eauto.
  - intros e w1 ->. split; [by apply effect_err | done].
  - intros n w1 _ _ Hv1. apply wp_raise. split; [by eapply effect_err, Hw | done].
  - intros e w1 ->. split; [by apply effect_err | done].
Qed.

Lemma cache_le : frame_le cache_frame attempt_frame.
Proof. by split. Qed.

Lemma dispatcher_le : frame_le dispatcher_frame attempt_frame.
Proof. split; cbn; try done. intuition. Qed.

Lemma quiet_sent F v v' : (∀ e, ¬ fr_send F e) → within F v v' → v_sent v' = v_sent v.
Proof.
  intros HF Hw. destruct (within_sent _ _ _ Hw) as ([|e l] & -> & Hl); [by rewrite app_nil_r |].
  apply list.Forall_cons in Hl as [He _]. by destruct (HF e).
Qed.

(** A status written after a part of the run that sent nothing. *)
Lemma set_status_spec job f v w :
  (∀ n, n_status (f n) = OptedOut ∨ (n_status (f n) = Digested ∧ j_digestMode job = true)) →
  within attempt_frame v (view w) → v_sent (view w) = v_sent v →
  wp (update_notification job f) (λ r w', run_effect job v (view w') r) w.
Proof.
  intros Hf Hw Hs. apply wp_update_notification.
  2:{ intros e w' ->. by apply effect_err. }
  intros n w' _ Hn Hv. assert (within attempt_frame v (view w')) as Hw'.
  { etrans; [exact Hw |]. rewrite Hv. apply (within_table attempt_frame MNotification). by left. }
  split.
  - eapply within_le; [apply attempt_le | done].
  - intros _. eexists. split; [exact Hn |]. right. split; [apply Hf |]. by rewrite Hv.
  - eapply counted_within; [| | exact Hw']; cbn; intuition discriminate.
Qed.

Lemma deliver_spec job uuid now w :
  wp (deliver job uuid now) (λ r w', run_effect job (view w) (view w') r) w.
Proof.
  unfold deliver. apply wp_bind, (wp_keeps cache_frame); [apply resolve_keeps |].
  intros r w1 Hc1. pose proof (within_le _ _ _ _ cache_le Hc1) as Hw1.
  assert (v_sent (view w1) = v_sent (view w)) as Hs1 by (by eapply quiet_sent; [| exact Hc1]; intros ? []).
  assert (∀ code w2, view w2 = view w1 →
    wp (opt_out job code) (λ r w', run_effect job (view w) (view w') r) w2) as Hopt.
  { intros code w2 Hv. apply set_status_spec; rewrite ?Hv; auto. }
  destruct r as [[i|]|e]; [| | by apply effect_err].
  - apply wp_bind, (wp_keeps cache_frame); [apply decrypt_keeps |].
    intros r w2 Hc2. pose proof (within_le _ _ _ _ cache_le Hc2) as Hw2.
    assert (v_sent (view w2) = v_sent (view w)) as Hs2.
    { rewrite <- Hs1. by eapply quiet_sent; [| exact Hc2]; intros ? []. }
    destruct r as [ch|e]; [| apply effect_err; by etrans].
    destruct (no_contact ch); [apply set_status_spec; [auto | by etrans | done] |].
    assert (Keeps attempt_frame (clear_suppression job i ch)) as Hk1.
    { unfold clear_suppression. keeps. cbn. auto. }
    assert (Keeps attempt_frame (store_body job ch)) as Hk2 by (unfold store_body; keeps).
    apply wp_bind, (wp_keeps attempt_frame); [done |]. intros r w3 Hw3.
    destruct r as [[]|e]; [| apply effect_err; by do 2 (etrans; [done |])].
    apply wp_bind, (wp_keeps attempt_frame); [done |]. intros r w4 Hw4.
    destruct r as [aid|e]; [| apply effect_err; by do 3 (etrans; [done |])].
    apply wp_bind, (wp_keeps dispatcher_frame); [apply dispatch_to_keeps |]. intros r w5 Hd5.
    pose proof (within_le _ _ _ _ dispatcher_le Hd5) as Hw5.
    assert (within attempt_frame (view w) (view w5)) as Hw by (by do 4 (etrans; [done |])).
    destruct r as [res|e]; [| by apply effect_err].
    eapply wp_mono; [apply settle_spec |]. intros r w6 [Heff Hreach].
    eapply effect_after; [exact Hw | exact Heff |]. intros Hr n Hn. left.
    destruct (Hreach Hr) as (n' & Hn' & ?). rewrite Hn in Hn'. by injection Hn' as ->.
  - apply wp_bind. destruct (truthy (j_walletHash job)); [| by apply wp_ret, Hopt].
    apply (wp_find_unique MPortalUser); [intros; by apply Hopt |].
    intros e w2 ->. by apply effect_err.
Qed.

Lemma failed_spec job uuid now e w :
  wp (failed job uuid now e) (λ r w', (∃ e', r = Err e') ∧
    within worker_frame (view w) (view w') ∧
    v_tables (view w') MProtocol = v_tables (view w) MProtocol ∧
    v_tables (view w') MSubscription = v_tables (view w) MSubscription) w.
Proof.
  set (F := {| fr_table m := m = MNotification; fr_job q := q = QWebhook;
    fr_key _ := False; fr_send _ := False |} : Frame).
  assert (Keeps F (failed job uuid now e)) as HF.
  { unfold failed. destruct (String.prefix _ _); [keeps |].
    apply keeps_bind; [by apply update_notification_keeps | intros _].
    apply keeps_bind; [| intros _; keeps]. apply keeps_swallow.
    eapply Keeps_le; [| apply fire_keeps]. by split. }
  assert (wp (failed job uuid now e) (λ r w', ∃ e', r = Err e') w) as Herr.
  { unfold failed. destruct (String.prefix _ _); [by apply wp_raise; eauto |].
    apply wp_bind, wp_intro. intros [[]|e'] w1 _; [| eauto].
    apply wp_bind, wp_intro. intros [[]|e'] w2 _; [by apply wp_raise; eauto | eauto]. }
  eapply wp_mono; [apply wp_and; [exact Herr | apply HF] |].
  intros r w' [Hr Hw]. split_and!; [done | | by apply Hw..].
  eapply within_le; [| exact Hw]. split; cbn; try done. intros ? ->. auto.
Qed.

Lemma production_spec job uuid now w :
  wp (processProduction job uuid now)
    (λ r w', run_effect job (view w) (view w') r) w.
Proof.
  unfold processProduction. apply wp_catch.
  apply wp_mono with (λ r w', run_effect job (view w) (view w') r).
  - destruct (j_digestMode job) eqn:Hd; [| apply deliver_spec].
    unfold buffer. apply wp_bind, wp_bind, (wp_create MDigestQueue).
    + intros i r w1 _ _ _ Hv1. apply wp_ret, set_status_spec; [auto | | by rewrite Hv1].
      rewrite Hv1. apply (within_table attempt_frame MDigestQueue). cbn. auto.
    + intros e w1 ->. by apply effect_err.
  - intros [[]|e] w1 Heff; [done |]. eapply wp_mono; [apply failed_spec |].
    intros r w2 ([e' ->] & Hw & Htp & Hts). destruct Heff as [Hf _ [Hp Hs]].
    split; [by etrans | done |]. split; rewrite ?Htp, ?Hts; intros k a Hk.
    + destruct (Hp k a Hk) as (a' & Ha' & [? | (_ & _ & ? & _)]); [eauto | done].
    + destruct (Hs k a Hk) as (a' & Ha' & [? | (_ & _ & ? & _)]); [eauto | done].
Qed.

Lemma run_spec job uuid now w :
  j_isSandbox job = false →
  wp (process job uuid now) (λ r w', run_effect job (view w) (view w') r) w.
Proof.
  intros Hsb. unfold process. rewrite Hsb. apply wp_bind, wp_update_notification.
  - intros n w1 _ _ Hv1. eapply wp_mono; [apply production_spec |]. intros r w2 Heff.
    eapply effect_after; [| exact Heff |].
    + rewrite Hv1. apply (within_table attempt_frame MNotification). by left.
    + intros _ n' _. right. by rewrite Hv1.
  - intros e w1 ->. by apply effect_err.
Qed.

(** C3.  A production run of the worker.  Of the rows of the database it
    rewrites only the one of its own notification, adds channel deliveries
    only of that notification and buffered entries only of the job's wallet
    and protocol, removes at most the suppression of that wallet, and counts
    sends only for its protocol; of the queues it adds only to the one of
    webhooks.  When it returns, the notification is delivered or partly
    delivered, or it is opted out (or digested, in digest mode) and nothing
    was sent.  And the run counts at most one send, on the protocol and on its
    subscriptions, and only if it returns and the notification was delivered
    in full or in part. *)
Theorem worker_run job uuid now w :
  j_isSandbox job = false →
  wp (process job uuid now) (λ r w', run_effect job (view w) (view w') r ∧
    rows_within (worker_rows job) (view w) (view w')) w.
Proof. intros Hsb. apply wp_and; [by apply run_spec | by apply process_rows]. Qed.

(** A sandbox run needs no identity, counts no send and fires no event:
    it changes only the notification and the channel deliveries, and sends
    only over the delivery channels.  When it returns, the notification is
    delivered, failed, or opted out; without a test contact it is opted out
    and nothing was sent. *)
Theorem sandbox_run job uuid now w :
  j_isSandbox job = true →
  wp (process job uuid now) (λ r w',
    within dispatcher_frame (view w) (view w') ∧
    (r = Ok () → ∃ n, row_of job (view w') = Some n ∧
      (n_status n = Delivered ∨ n_status n = Failed ∨ n_status n = OptedOut)) ∧
    (from_option no_contact true (j_testContact job) = true →
      v_sent (view w') = v_sent (view w))) w.
Proof.
  intros Hsb. unfold process. rewrite Hsb.
  set (Post := λ (r : result ()) (w' : World), within dispatcher_frame (view w) (view w') ∧
    (r = Ok () → ∃ n, row_of job (view w') = Some n ∧
      (n_status n = Delivered ∨ n_status n = Failed ∨ n_status n = OptedOut)) ∧
    (from_option no_contact true (j_testContact job) = true → v_sent (view w') = v_sent (view w))).
  assert (∀ f (w1 : World), within dispatcher_frame (view w) (view w1) →
    (from_option no_contact true (j_testContact job) = true → v_sent (view w1) = v_sent (view w)) →
    (∀ n, n_status (f n) = Delivered ∨ n_status (f n) = Failed ∨ n_status (f n) = OptedOut) →
    ∀ Q : result () → World → Prop, (∀ r w', Post r w' → Q r w') →
    wp (update_notification job f) Q w1) as Hupd.
  { intros f w1 Hw Hs Hf Q HQ. apply wp_update_notification; intros; apply HQ.
    - split_and!; rewrite ?H1; [| intros _; rewrite <- H1; eauto | done].
      etrans; [exact Hw |]. apply (within_table dispatcher_frame MNotification). by left.
    - split_and!; rewrite ?H; done. }
  apply wp_bind, wp_update_notification; [| intros e w1 Hv; split_and!; rewrite ?Hv; done].
  intros n w1 _ _ Hv1. assert (within dispatcher_frame (view w) (view w1)) as Hw1.
  { rewrite Hv1. apply (within_table dispatcher_frame MNotification). by left. }
  unfold processSandbox. destruct (j_testContact job) as [c|] eqn:Hc; cbn [from_option] in *.
  2:{ eapply Hupd; [done | by rewrite Hv1 | cbn; auto | done]. }
  destruct (no_contact c) eqn:Hno.
  { eapply Hupd; [done | by rewrite Hv1 | cbn; auto | done]. }
  assert (∀ (e : exn) (w2 : World), within dispatcher_frame (view w) (view w2) → wp
    (update_notification job (λ n,
      n <| n_status := Failed |> <| n_errorCode := Some "SANDBOX_DELIVERY_ERROR" |>)) Post w2) as Hh.
  { intros _ w2 Hw2. eapply Hupd; [done | done | cbn; auto | done]. }
  apply wp_catch, wp_bind, (wp_keeps dispatcher_frame); [apply dispatch_to_keeps |].
  intros [res|e] w2 Hw2; [| apply Hh; [exact e | by etrans]].
  destruct (0 <? dr_successCount res)%nat; (eapply Hupd; [by etrans | done | cbn; auto |]);
    intros [[]|e] w3 HP; [exact HP | apply Hh; [exact e | apply HP] | exact HP
      | apply Hh; [exact e | apply HP]].
Qed.
End worker.

(** ** Witnesses *)

Section witness.
#[local] Instance worker_routing : Routing := routing_service
  (λ _ _, Ok (Some sample_identity))
  (λ _, Ok {| tc_email := Some "a@b"; tc_telegramChatId := None; tc_phone := None |}).
#[local] Instance worker_routing_laws : RoutingLaws worker_routing.
Proof. unfold worker_routing. apply _. Qed.
#[local] Instance worker_dispatcher : Dispatcher := channel_dispatcher channel_config.
#[local] Instance worker_dispatcher_laws : DispatcherLaws worker_dispatcher.
Proof. unfold worker_dispatcher. apply _. Qed.

Definition toy_encrypt : list N → string → string → option string →
    result (option (string * string)) := λ _ subject message _, Ok (Some (message, subject)).

(** A queued notification of a paying protocol to a wallet whose address hard
    bounced before. *)
Definition worker_world : World :=
  mem_world (with_rows MNotification [new_notification "n1" "p1" "h" "s" "defi" Queued None false 0]
    (with_rows MProtocol [{| p_id := "p1"; p_protocolPubkey := "pk1"; p_nameEncrypted := "";
       p_tier := 1; p_isActive := true; p_isSuspended := false; p_verificationStatus := VERIFIED;
       p_sendsThisPeriod := 7; p_overageEnabled := false; p_periodResetAt := 0; p_updatedAt := 0 |}]
    (v_tables (view suppressed_world)))) ∅.

Lemma worker_run_witness :
  let w' := (process toy_encrypt sample_job "u" 1000 worker_world).2 in
  (n_status <$> v_tables (view w') MNotification !! "n1" = Some Delivered ∧
   p_sendsThisPeriod <$> v_tables (view w') MProtocol !! "p1" = Some 8) ∧
  wp (process toy_encrypt sample_job "u" 1000) (λ r w',
    run_effect sample_job (view worker_world) (view w') r ∧
    rows_within (worker_rows sample_job) (view worker_world) (view w')) worker_world.
Proof.
  cbn zeta. split; [split; vm_compute; reflexivity |].
  apply (worker_run toy_encrypt sample_job "u" 1000 worker_world). reflexivity.
Defined.

(** The worker clears the suppression of the address just before it
    dispatches, so the check in [deliverEmail] finds none and the address that
    bounced is mailed. *)
Lemma suppressed_address_mailed :
  let w' := (process toy_encrypt sample_job "u" 1000 worker_world).2 in
  is_Some (v_tables (view worker_world) MEmailSuppression !! "h") ∧
  v_tables (view w') MEmailSuppression !! "h" = None ∧
  existsb (λ e, match e with MailEnvelope to _ _ _ _ _ _ => (to =? "a@b")%string | _ => false end)
    (v_sent (view w')) = true.
Proof. cbn zeta. split_and!; [by eexists | vm_compute; reflexivity..]. Qed.

Definition sandbox_job : NotificationJobData :=
  sample_job <| j_isSandbox := true |> <| j_testContact := Some all_contacts |>.

Lemma sandbox_run_witness :
  n_status <$> v_tables (view (process toy_encrypt sandbox_job "u" 1000 worker_world).2)
    MNotification !! "n1" = Some Delivered ∧
  wp (process toy_encrypt sandbox_job "u" 1000) (λ r w',
    within dispatcher_frame (view worker_world) (view w') ∧
    (r = Ok () → ∃ n, row_of sandbox_job (view w') = Some n ∧
      (n_status n = Delivered ∨ n_status n = Failed ∨ n_status n = OptedOut)) ∧
    (no_contact all_contacts = true → v_sent (view w') = v_sent (view worker_world))) worker_world.
Proof.
  split; [vm_compute; reflexivity |].
  apply (sandbox_run toy_encrypt sandbox_job "u" 1000 worker_world). reflexivity.
Defined.
End witness.
