(* ===== verification/Bounce.v ===== *)
(** * Bounces, complaints and deliveries

    [BounceService] of [src/modules/bounce/bounce.service.ts] and the
    dispatch of [BounceWorker] (bounce.worker.ts).  An event of Resend or SES
    is recorded against the notification its message id belongs to, and
    suppresses the wallet's address. *)

From S2P Require Import Prelude Schema External Memory Frame.

Open Scope string_scope.
Open Scope list_scope.
Open Scope Z_scope.

Section bounce.
Context `{B : Backend}.

Definition of_message (id : string) : where_ MNotification := λ _ n,
  bool_decide (n_sesMessageId n = Some id).

Definition bounce_of (id : string) : where_ MEmailBounce := λ _ b,
  bool_decide (eb_sesMessageId b = Some id).

Definition complaint_of (id : string) : where_ MEmailBounce := λ k b,
  bounce_of id k b && bool_decide (eb_bounceType b = Complaint).

Definition bounce_row (n : Notification) (t : BounceType) (messageId : string)
    (diagnostic : option string) (now : Z) (id : string) : EmailBounce := {|
  eb_id := id; eb_notificationId := Some (n_id n); eb_walletHash := Some (n_walletHash n);
  eb_bounceType := t; eb_sesMessageId := Some messageId; eb_diagnosticCode := diagnostic;
  eb_bouncedAt := now |}.

(** [emailSuppression.upsert] *)
Definition suppress (n : Notification) (reason : SuppressionReason) (now : Z) : M World () :=
  _ ← upsert MEmailSuppression (by_id MEmailSuppression (n_walletHash n))
    (λ _, {| es_walletHash := n_walletHash n; es_reason := reason; es_suppressedAt := now;
             es_notificationId := Some (n_id n) |})
    (λ s, s <| es_reason := reason |> <| es_suppressedAt := now |>);
  mret ().

Definition record_bounce (n : Notification) (t : BounceType) (messageId : string)
    (diagnostic : option string) (now : Z) : M World () :=
  _ ← create MEmailBounce (bounce_row n t messageId diagnostic now);
  _ ← update MNotification (by_id MNotification (n_id n))
        (λ r, r <| n_bounce := true |> <| n_bounceType := Some t |>);
  mret ().

(** A complaint, recorded once per message. *)
Definition complain (n : Notification) (messageId : string) (now : Z) : M World () :=
  existing ← find_first MEmailBounce (complaint_of messageId) None;
  _ ← match existing with
      | Some _ => mret ()
      | None => _ ← create MEmailBounce (bounce_row n Complaint messageId None now); mret ()
      end;
  suppress n complaint now.

Definition delivery_record (n : Notification) (messageId : string) (smtpResponse : option string)
    (processingTime : option Z) (now : Z) : M World () :=
  _ ← create MEmailDelivery (λ id, {|
    ed_id := id; ed_notificationId := n_id n; ed_sesMessageId := Some messageId;
    ed_smtpResponse := smtpResponse; ed_processingTime := processingTime; ed_deliveredAt := now |});
  mret ().

(** [processResendEvent]; [emailId] is [data.email_id ?? data.id]. *)
Definition processResendEvent (eventType : string) (emailId : option string) (now : Z) :
    M World () :=
  if negb (truthy emailId) then mret () else
  let id := default "" emailId in
  notification ← find_first MNotification (of_message id) None;
  match notification with
  | None => mret ()
  | Some n =>
      if (eventType =? "email.bounced")%string then
        existingBounce ← find_first MEmailBounce (bounce_of id) None;
        match existingBounce with
        | Some _ => mret ()
        | None =>
            _ ← record_bounce n Hard id None now;
            suppress n hard_bounce now
        end
      else if (eventType =? "email.complained")%string then complain n id now
      else if (eventType =? "email.delivered")%string then delivery_record n id None None now
      else mret ()
  end.

(** ** Soft bounces in a row *)

Definition hard_of (walletHash : string) : where_ MEmailBounce := λ _ b,
  bool_decide (eb_walletHash b = Some walletHash) &&
  (bool_decide (eb_bounceType b = Hard) || bool_decide (eb_bounceType b = Complaint)).

(** The relation filter [notification: { walletHash }]. *)
Definition delivery_to (ns : gmap string Notification) (walletHash : string) :
    where_ MEmailDelivery := λ _ d,
  chain_bool (λ n, bool_decide (n_walletHash n = walletHash)) (ns !! ed_notificationId d).

Definition soft_since (walletHash : string) (cutoff : Z) : where_ MEmailBounce := λ _ b,
  bool_decide (eb_walletHash b = Some walletHash) && bool_decide (eb_bounceType b = Soft) &&
  (cutoff <? eb_bouncedAt b).

(** [resetTimes.reduce(max)], or the epoch. *)
Definition cutoff_of (hard : option EmailBounce) (delivery : option EmailDelivery) : Z :=
  match hard, delivery with
  | Some b, Some d => Z.max (eb_bouncedAt b) (ed_deliveredAt d)
  | Some b, None => eb_bouncedAt b
  | None, Some d => ed_deliveredAt d
  | None, None => 0
  end.

Definition find_latest_delivery (walletHash : string) : M World (option EmailDelivery) := λ w,
  find_first MEmailDelivery (delivery_to (tables (w_db w) MNotification) walletHash)
    (Some (λ d, - ed_deliveredAt d)) w.

Definition after_soft (n : Notification) (now : Z) : M World () :=
  let walletHash := n_walletHash n in
  latestHardBounce ← find_first MEmailBounce (hard_of walletHash) (Some (λ b, - eb_bouncedAt b));
  latestDelivery ← find_latest_delivery walletHash;
  let cutoff := cutoff_of latestHardBounce latestDelivery in
  consecutiveSofts ← count MEmailBounce (soft_since walletHash cutoff);
  if 3 <=? consecutiveSofts then suppress n soft_bounce now else mret ().

(** [processSesBounce] *)
Definition processSesBounce (message : SesMessage) (now : Z) : M World () :=
  if negb (truthy (ses_messageId message)) then mret () else
  let id := default "" (ses_messageId message) in
  notification ← find_first MNotification (of_message id) None;
  match notification with
  | None => mret ()
  | Some n =>
      if (ses_notificationType message =? "Bounce")%string then
        let hard := bool_decide (ses_bounceType message = Some "Permanent") in
        existing ← find_first MEmailBounce (bounce_of id) None;
        match existing with
        | Some _ => mret ()
        | None =>
            _ ← record_bounce n (if hard then Hard else Soft) id (ses_diagnosticCode message) now;
            if negb hard then after_soft n now else suppress n hard_bounce now
        end
      else if (ses_notificationType message =? "Complaint")%string then complain n id now
      else if (ses_notificationType message =? "Delivery")%string then
        delivery_record n id (ses_smtpResponse message) (ses_processingTimeMillis message) now
      else mret ()
  end.

(** [BounceWorker.process] handles jobs named ['ses-bounce'] only. *)
Definition process (j : job QBounce) (now : Z) : M World () :=
  if (job_name j =? "ses-bounce")%string then processSesBounce (job_payload j) now else mret ().

(** [BounceController.handleSesNotification]; [message] is the parsed body. *)
Definition handleSesNotification (notificationType : option string)
    (message : result SesMessage) : M World string :=
  if bool_decide (notificationType = Some "SubscriptionConfirmation") then mret "confirmed" else
  m ← lift message;
  _ ← queue_add QBounce (mkJob (q := QBounce) "ses-bounce" m None 3 (Some 2000));
  mret "queued".

(** ** The effect of an SES event *)

(** The wallet's address is suppressed for a reason since [now]. *)
Definition suppressed (n : Notification) (reason : SuppressionReason) (now : Z) (v : View) : Prop :=
  ∃ s, v_tables v MEmailSuppression !! n_walletHash n = Some s ∧ es_reason s = reason ∧
    es_suppressedAt s = now.

(** One bounce was recorded for a message. *)
Definition recorded (n : Notification) (t : BounceType) (messageId : string)
    (diagnostic : option string) (now : Z) (v v' : View) : Prop :=
  ∃ k, v_tables v MEmailBounce !! k = None ∧ v_tables v' MEmailBounce =
    <[k := bounce_row n t messageId diagnostic now k]> (v_tables v MEmailBounce).

(** The time of the wallet's last hard bounce, complaint or delivery. *)
Definition is_cutoff (t : Tables) (walletHash : string) (c : Z) : Prop :=
  (∀ k b, t MEmailBounce !! k = Some b → hard_of walletHash k b = true → eb_bouncedAt b ≤ c) ∧
  (∀ k d, t MEmailDelivery !! k = Some d →
     delivery_to (t MNotification) walletHash k d = true → ed_deliveredAt d ≤ c) ∧
  ((∃ k b, t MEmailBounce !! k = Some b ∧ hard_of walletHash k b = true ∧ eb_bouncedAt b = c) ∨
   (∃ k d, t MEmailDelivery !! k = Some d ∧
      delivery_to (t MNotification) walletHash k d = true ∧ ed_deliveredAt d = c) ∨
   c = 0).

Definition unsuppressed (v v' : View) : Prop :=
  v_tables v' MEmailSuppression = v_tables v MEmailSuppression.

(** A notification the message belongs to. *)
Definition belongs (id : string) (v : View) (n : Notification) : Prop :=
  ∃ k, v_tables v MNotification !! k = Some n ∧ n_sesMessageId n = Some id.

Definition seen (p : where_ MEmailBounce) (v : View) : Prop :=
  ∃ k b, v_tables v MEmailBounce !! k = Some b ∧ p k b = true.

Inductive ses_step (message : SesMessage) (now : Z) (v v' : View) : Prop :=
| ses_unknown :
    (∀ id n, ses_messageId message = Some id → id ≠ "" → ¬ belongs id v n) → v' = v →
    ses_step message now v v'
| ses_other id n : ses_messageId message = Some id → belongs id v n →
    ses_notificationType message ∉ ["Bounce"; "Complaint"; "Delivery"] → v' = v →
    ses_step message now v v'
| ses_duplicate id n : ses_messageId message = Some id → belongs id v n →
    ses_notificationType message = "Bounce" → seen (bounce_of id) v → v' = v →
    ses_step message now v v'
| ses_hard id n : ses_messageId message = Some id → belongs id v n →
    ses_notificationType message = "Bounce" → ses_bounceType message = Some "Permanent" →
    ¬ seen (bounce_of id) v → recorded n Hard id (ses_diagnosticCode message) now v v' →
    suppressed n hard_bounce now v' → ses_step message now v v'
| ses_soft id n cutoff softs : ses_messageId message = Some id → belongs id v n →
    ses_notificationType message = "Bounce" → ses_bounceType message ≠ Some "Permanent" →
    ¬ seen (bounce_of id) v → recorded n Soft id (ses_diagnosticCode message) now v v' →
    is_cutoff (v_tables v') (n_walletHash n) cutoff →
    selects MEmailBounce (soft_since (n_walletHash n) cutoff) None (v_tables v' MEmailBounce) softs →
    (if (3 <=? length softs)%nat then suppressed n soft_bounce now v' else unsuppressed v v') →
    ses_step message now v v'
| ses_complaint id n : ses_messageId message = Some id → belongs id v n →
    ses_notificationType message = "Complaint" → seen (complaint_of id) v' →
    (seen (complaint_of id) v → v_tables v' MEmailBounce = v_tables v MEmailBounce) →
    suppressed n complaint now v' → ses_step message now v v'
| ses_delivery id n k d : ses_messageId message = Some id → belongs id v n →
    ses_notificationType message = "Delivery" →
    v_tables v MEmailDelivery !! k = None →
    v_tables v' MEmailDelivery = <[k := d]> (v_tables v MEmailDelivery) →
    ed_notificationId d = n_id n → ed_deliveredAt d = now → unsuppressed v v' →
    ses_step message now v v'.

(** ** Lemmas *)

Context `{BL : !BackendLaws B}.

(** [findFirst] ordered by a descending time returns the latest row. *)
Lemma wp_find_latest m (p : where_ m) (time : row m → Z) Q w :
  (∀ o w', found m p (v_tables (view w) m) o →
     (∀ r, o = Some r → ∀ k r', v_tables (view w) m !! k = Some r' → p k r' = true → time r' ≤ time r) →
     view w' = view w → Q (Ok o) w') →
  (∀ e w', view w' = view w → Q (Err e) w') →
  wp (find_first m p (Some (λ r, - time r))) Q w.
Proof.
  intros Hok Herr. apply wp_bind, (wp_find_many m); [| done].
  intros l w' Hl Hv. apply wp_ret, Hok; [by eapply selects_found | | done].
  intros r Hr k r' Hk Hp. destruct l as [|r0 l]; [done |]. injection Hr as ->.
  destruct Hl as (Hs & _ & Hall). specialize (Hall _ _ Hk Hp). cbn in Hs.
  apply elem_of_cons in Hall as [-> | Hin]; [done |].
  inversion Hs as [|? ? _ Hf]; subst. rewrite list.Forall_forall in Hf.
  specialize (Hf _ Hin). cbn in Hf. lia.
Qed.

Lemma suppress_spec n reason now w :
  wp (suppress n reason now) (λ r w', (r = Ok () → suppressed n reason now (view w')) ∧
    ∀ m, m ≠ MEmailSuppression → v_tables (view w') m = v_tables (view w) m) w.
Proof.
  apply wp_bind, (wp_upsert MEmailSuppression); [| | by intros e w' ->].
  - intros k s w' Hk ->%bool_decide_eq_true Hv. apply wp_ret. rewrite Hv.
    split; [| intros; by apply upd_ne]. intros _. eexists. cbn.
    rewrite upd_eq, lookup_insert_eq. by split_and!.
  - intros i s w' -> _ _ Hv. apply wp_ret. rewrite Hv.
    split; [| intros; by apply upd_ne]. intros _. eexists. cbn.
    rewrite upd_eq, lookup_insert_eq. by split_and!.
Qed.

Lemma record_bounce_spec n t messageId diagnostic now w :
  wp (record_bounce n t messageId diagnostic now) (λ r w',
    (r = Ok () → recorded n t messageId diagnostic now (view w) (view w')) ∧
    ∀ m, m ≠ MEmailBounce → m ≠ MNotification → v_tables (view w') m = v_tables (view w) m) w.
Proof.
  apply wp_bind, (wp_create MEmailBounce); [| by intros e w' ->].
  intros i r w1 -> Hfresh _ Hv1. apply wp_bind, (wp_update MNotification).
  - intros k r w2 _ _ Hv2. apply wp_ret. rewrite Hv2, Hv1. cbn. split.
    + intros _. exists i. split; [done |]. cbn. rewrite upd_ne by done. by rewrite upd_eq.
    + intros m H1 H2. rewrite !upd_ne by done. done.
  - intros e w2 ->. rewrite Hv1. split; [done |]. intros m H1 _. by apply upd_ne.
Qed.

Lemma after_soft_spec n now w :
  wp (after_soft n now) (λ r w', r = Ok () → ∃ cutoff softs,
    is_cutoff (v_tables (view w')) (n_walletHash n) cutoff ∧
    selects MEmailBounce (soft_since (n_walletHash n) cutoff) None
      (v_tables (view w') MEmailBounce) softs ∧
    v_tables (view w') MEmailBounce = v_tables (view w) MEmailBounce ∧
    (if (3 <=? length softs)%nat then suppressed n soft_bounce now (view w')
     else unsuppressed (view w) (view w'))) w.
Proof.
  unfold after_soft. apply wp_bind, (wp_find_latest MEmailBounce); [| done].
  intros hard w1 Hh Hhmax Hv1. apply wp_bind. unfold find_latest_delivery.
  apply (wp_find_latest MEmailDelivery); [| done].
  intros dlv w2 Hd Hdmax Hv2. rewrite Hv1 in Hv2, Hd, Hdmax.
  change (tables (w_db w1)) with (v_tables (view w1)) in Hd, Hdmax. rewrite Hv1 in Hd, Hdmax.
  apply wp_bind, wp_bind, (wp_find_many MEmailBounce); [| done].
  intros softs w3 Hs Hv3. apply wp_ret. rewrite Hv2 in Hs, Hv3.
  set (cutoff := cutoff_of hard dlv) in *.
  assert (is_cutoff (v_tables (view w)) (n_walletHash n) cutoff) as Hc.
  { unfold cutoff, cutoff_of. split_and!.
    - intros k b Hk Hp. destruct hard as [b0|]; [| by rewrite (Hh k b Hk) in Hp].
      specialize (Hhmax _ eq_refl _ _ Hk Hp). destruct dlv; lia.
    - intros k d Hk Hp. destruct dlv as [d0|]; [| by rewrite (Hd k d Hk) in Hp].
      specialize (Hdmax _ eq_refl _ _ Hk Hp). destruct hard; lia.
    - destruct hard as [b0|], dlv as [d0|]; cbn in Hh, Hd;
        [| left; by destruct Hh as (k & ? & ?); exists k, b0
         | right; left; by destruct Hd as (k & ? & ?); exists k, d0 | auto].
      destruct (Z.max_spec (eb_bouncedAt b0) (ed_deliveredAt d0)) as [[_ ->] | [_ ->]].
      + right; left; by destruct Hd as (k & ? & ?); exists k, d0.
      + left; by destruct Hh as (k & ? & ?); exists k, b0. }
  assert ((3 <=? Z.of_nat (length softs)) = (3 <=? length softs)%nat) as ->.
  { apply eq_bool_prop_intro. rewrite !Is_true_true, Z.leb_le, Nat.leb_le. lia. }
  destruct (3 <=? length softs)%nat eqn:Hlen.
  - eapply wp_mono; [apply suppress_spec |]. intros r w4 [Hsup Ho] Hr.
    exists cutoff, softs. rewrite Hlen. unfold is_cutoff. rewrite !Ho, Hv3 by done. auto.
  - apply wp_ret. intros _. exists cutoff, softs. rewrite Hlen. unfold unsuppressed. by rewrite Hv3.
Qed.

Lemma found_seen p v o : found MEmailBounce p (v_tables v MEmailBounce) o →
  match o with Some _ => seen p v | None => ¬ seen p v end.
Proof.
  destruct o as [b|]; [intros (k & ? & ?); by exists k, b |].
  intros H (k & b & Hk & Hp). by rewrite (H k b Hk) in Hp.
Qed.

Lemma bounce_event_step message now id n w :
  ses_messageId message = Some id → belongs id (view w) n →
  ses_notificationType message = "Bounce" → ¬ seen (bounce_of id) (view w) →
  let hard := bool_decide (ses_bounceType message = Some "Permanent") in
  wp (_ ← record_bounce n (if hard then Hard else Soft) id (ses_diagnosticCode message) now;
      if negb hard then after_soft n now else suppress n hard_bounce now)
    (λ r w', r = Ok () → ses_step message now (view w) (view w')) w.
Proof.
  intros Hid Hb Ht Hnew hard. apply wp_bind. eapply wp_mono; [apply record_bounce_spec |].
  intros [[]|e] w1 [Hrec Hother]; [specialize (Hrec eq_refl) | done].
  subst hard. case_bool_decide as Hperm; cbn [negb].
  - eapply wp_mono; [apply suppress_spec |]. intros r w2 [Hsup Ho] Hr.
    eapply ses_hard; eauto. unfold recorded. by rewrite Ho.
  - eapply wp_mono; [apply after_soft_spec |].
    intros r w2 Hsoft Hr. destruct (Hsoft Hr) as (cutoff & softs & Hc & Hs & Hbt & Hif).
    eapply ses_soft; eauto; [unfold recorded; by rewrite Hbt |].
    destruct (3 <=? length softs)%nat; [done |]. unfold unsuppressed in *. by rewrite Hif, Hother.
Qed.

Lemma complaint_event_step message now id n w :
  ses_messageId message = Some id → belongs id (view w) n →
  ses_notificationType message = "Complaint" →
  wp (complain n id now) (λ r w', r = Ok () → ses_step message now (view w) (view w')) w.
Proof.
  intros Hid Hb Ht. unfold complain. apply wp_bind, (wp_find_first MEmailBounce); [| done].
  intros o w1 Ho%found_seen Hv1. apply wp_bind. destruct o as [b|].
  - apply wp_ret. eapply wp_mono; [apply suppress_spec |]. intros r w2 [Hsup Hoth] Hr.
    rewrite Hv1 in Hoth. eapply ses_complaint; eauto; unfold seen in *; rewrite Hoth by done; done.
  - apply wp_bind, (wp_create MEmailBounce); [| done]. intros i r w2 -> Hfresh _ Hv2.
    apply wp_ret. eapply wp_mono; [apply suppress_spec |]. intros r w3 [Hsup Hoth] Hr.
    assert (v_tables (view w3) MEmailBounce =
      <[i := bounce_row n Complaint id None now i]> (v_tables (view w1) MEmailBounce)) as Hbt.
    { rewrite Hoth by done. rewrite Hv2. cbn. by rewrite upd_eq. }
    eapply ses_complaint; eauto; [| by intros ?%Ho].
    exists i, (bounce_row n Complaint id None now i). rewrite Hbt. split; [apply lookup_insert_eq |].
    unfold complaint_of, bounce_of. cbn. by rewrite !bool_decide_eqb_refl.
Qed.

(** C11.  The effect of an SES event.  When [processSesBounce] returns, it has
    taken exactly one step of [ses_step]: an event of an unknown message, of
    another type, or of a message whose bounce is recorded changes nothing; a
    hard bounce or a complaint is recorded and suppresses the wallet's
    address; a soft bounce is recorded, and suppresses it exactly if it is at
    least the third soft one since the wallet's last hard bounce, complaint or
    delivery; a delivery is recorded and suppresses nothing. *)
Theorem ses_event_effect message now w :
  wp (processSesBounce message now) (λ r w',
    r = Ok () → ses_step message now (view w) (view w')) w.
Proof.
  unfold processSesBounce.
  assert (∀ w', view w' = view w → truthy (ses_messageId message) = false →
    ses_step message now (view w) (view w')) as Hno.
  { intros w' Hv Hf. apply ses_unknown; [| done]. intros id n Hid Hne _. rewrite Hid in Hf.
    by destruct id. }
  destruct (truthy (ses_messageId message)) eqn:Hid; cbn [negb]; [clear Hno | by apply wp_ret; auto].
  apply truthy_Some in Hid as (id & Hid & Hne). rewrite Hid. cbn [default from_option].
  apply wp_bind, (wp_find_first MNotification); [| done]. intros [n|] w1 Hn Hv1.
  2:{ apply wp_ret. intros _. apply ses_unknown; [| done]. intros id' n Hid' _ (k & Hk & Hm).
      rewrite Hid in Hid'. injection Hid' as <-. specialize (Hn k n Hk).
      by apply bool_decide_eq_false in Hn. }
  assert (belongs id (view w) n) as Hb.
  { destruct Hn as (k & Hk & Hp%bool_decide_eq_true). by exists k. }
  rewrite <- Hv1 in Hb |- *.
  destruct (String.eqb_spec (ses_notificationType message) "Bounce") as [Ht | Hnb].
  { apply wp_bind, (wp_find_first MEmailBounce); [| done]. intros o w2 Ho%found_seen Hv2.
    rewrite <- Hv2 in Hb, Ho |- *. destruct o as [b|].
    - apply wp_ret. intros _. by eapply ses_duplicate.
    - by apply bounce_event_step. }
  destruct (String.eqb_spec (ses_notificationType message) "Complaint") as [Ht | Hnc];
    [by apply complaint_event_step |].
  destruct (String.eqb_spec (ses_notificationType message) "Delivery") as [Ht | Hnd].
  - apply wp_bind, (wp_create MEmailDelivery); [| done]. intros i r w2 -> Hfresh _ Hv2.
    apply wp_ret. intros _. eapply (ses_delivery _ _ _ _ id n i);
      [done | done | done | exact Hfresh | | | | unfold unsuppressed]; rewrite ?Hv2; cbn;
      [by rewrite upd_eq | done | done | by rewrite upd_ne].
  - apply wp_ret. intros _. eapply ses_other; eauto.
    rewrite !not_elem_of_cons. split_and!; [done..|]. apply not_elem_of_nil.
Qed.
End bounce.

(** ** Examples *)

Definition bounce_event (t : string) (kind : option string) : SesMessage := {|
  ses_notificationType := t; ses_messageId := Some "m1"; ses_bounceType := kind;
  ses_diagnosticCode := None; ses_smtpResponse := None; ses_processingTimeMillis := None |}.

Definition mailed : World :=
  mem_world (with_rows MNotification
    [(new_notification "n1" "p1" "h" "s" "defi" Delivered None false 0) <| n_sesMessageId := Some "m1" |>]
    no_tables) ∅.

Lemma ses_event_effect_witness :
  let run := processSesBounce (bounce_event "Bounce" (Some "Permanent")) 1 mailed in
  run.1 = Ok () ∧ es_reason <$> v_tables (view run.2) MEmailSuppression !! "h" = Some hard_bounce ∧
  ses_step (bounce_event "Bounce" (Some "Permanent")) 1 (view mailed) (view run.2).
Proof.
  intros run. assert (run.1 = Ok ()) as Hr by (vm_compute; reflexivity).
  split_and!; [exact Hr | vm_compute; reflexivity |].
  exact (wp_at _ _ mailed _
    (ses_event_effect (bounce_event "Bounce" (Some "Permanent")) 1 mailed) Hr eq_refl).
Defined.

(** A permanent bounce that follows a transient one of the same message is
    taken for a duplicate, and the address stays in use. *)
Lemma hard_after_soft_ignored :
  let w1 := (processSesBounce (bounce_event "Bounce" (Some "Transient")) 1 mailed).2 in
  let '(r, w2) := processSesBounce (bounce_event "Bounce" (Some "Permanent")) 2 w1 in
  r = Ok () ∧ v_tables (view w2) MEmailSuppression !! "h" = None.
Proof. vm_compute. done. Qed.

(** When the suppression cannot be written, the retry of the job takes the
    bounce for a duplicate: the address is never suppressed. *)
Lemma interrupted_bounce_not_retried :
  let w0 := mailed <| w_db ::= set m_faults (λ _, [false; false; false; true]) |> in
  let '(r1, w1) := processSesBounce (bounce_event "Bounce" (Some "Permanent")) 1 w0 in
  let '(r2, w2) := processSesBounce (bounce_event "Bounce" (Some "Permanent")) 2 w1 in
  is_ok r1 = false ∧ r2 = Ok () ∧ v_tables (view w2) MEmailSuppression !! "h" = None.
Proof. vm_compute. done. Qed.

(** A job added by [QueueService.enqueueBounce] has a name the worker ignores. *)
Lemma enqueued_bounce_ignored data now w :
  process (mkJob (q := QBounce) "process" data None 2 None) now w = (Ok (), w).
Proof. reflexivity. Qed.
