(* ===== verification/Inbound.v ===== *)
(** * Events from the mail providers

    [SqsConsumerService] of [src/modules/sqs/sqs.consumer.service.ts], which
    moves the notifications of SES from an SQS queue to the bounce queue, and
    [ResendWebhookController] of
    [src/modules/bounce/resend-webhook.controller.ts].  A message that is not
    deleted from SQS is delivered again; which ones a round asks to delete is
    its result. *)

From Stdlib Require Import Ascii String.
From S2P Require Import Prelude Schema External Memory Frame Bounce.

Open Scope string_scope.
Open Scope list_scope.
Open Scope Z_scope.

(** The field [Message] of a body: a text, parsed, or an object, or none, for
    which the body itself stands. *)
Inductive sns_message := SnsText (parsed : result SesMessage) | SnsObject (m : SesMessage).

Record SnsBody := {
  sb_type : option string;              (** [notificationType ?? Type] *)
  sb_message : sns_message;
}.

(** The body of a message, parsed: [Ok None] where it is no JSON, an error
    where its fields cannot be read. *)
Record SqsMessage := {
  sq_messageId : option string;
  sq_receiptHandle : option string;
  sq_body : result (option SnsBody);
}.

Definition message_data (b : SnsBody) : result SesMessage :=
  match sb_message b with SnsText parsed => parsed | SnsObject m => Ok m end.

Definition bounce_job (m : SesMessage) : job QBounce :=
  mkJob (q := QBounce) "ses-bounce" m None 3 (Some 2000).

Section sqs.
Context `{B : Backend}.

Definition processMessage (msg : SqsMessage) : M World () :=
  body ← lift (sq_body msg);
  match body with
  | None => mret ()
  | Some b =>
      if bool_decide (sb_type b = Some "SubscriptionConfirmation") then mret () else
      messageData ← lift (message_data b);
      queue_add QBounce (bounce_job messageData)
  end.

(** The entry for [DeleteMessageBatch]. *)
Definition delete_entry (msg : SqsMessage) : list (string * string) :=
  match sq_receiptHandle msg, sq_messageId msg with
  | Some h, Some i => if truthy (Some h) && truthy (Some i) then [(i, h)] else []
  | _, _ => []
  end.

Definition handle_message (entries : list (string * string)) (msg : SqsMessage) :
    M World (list (string * string)) :=
  catch (_ ← processMessage msg; mret (entries ++ delete_entry msg)) (λ _, mret entries).

(** One round of [poll], of what SQS gave. *)
Definition poll (received : result (list SqsMessage)) : M World (list (string * string)) :=
  swallow [] (messages ← lift received; fold_each handle_message [] messages).

(** ** The webhook of Resend *)

(** [verify] is [new Webhook(secret).verify] on the body serialised anew;
    the id of the email is [None] where the data has none. *)
Definition handleResendEvent (secret : option string) (verify : string → bool)
    (eventType : option string) (eventData : option (option string)) (now : Z) : M World string :=
  if truthy secret && negb (verify (default "" secret)) then
    raise (HttpError 401 "Invalid webhook signature")
  else if truthy eventType then
    match eventData with
    | None => mret "ignored"
    | Some emailId =>
        _ ← processResendEvent (default "" eventType) emailId now;
        mret "processed"
    end
  else mret "ignored".

(** ** Properties *)

Context `{BL : !BackendLaws B}.

(** What became of a message. *)
Inductive fate := Moved (m : SesMessage) | Dropped | Left.

Definition dropped (msg : SqsMessage) : Prop :=
  sq_body msg = Ok None ∨
  ∃ b, sq_body msg = Ok (Some b) ∧ sb_type b = Some "SubscriptionConfirmation".

Definition fate_ok (msg : SqsMessage) (f : fate) : Prop :=
  match f with
  | Moved m => ∃ b, sq_body msg = Ok (Some b) ∧ message_data b = Ok m ∧
                 sb_type b ≠ Some "SubscriptionConfirmation"
  | Dropped => dropped msg
  | Left => ¬ dropped msg
  end.

Definition moved_job (f : fate) : option (job QBounce) :=
  match f with Moved m => Some (bounce_job m) | _ => None end.

Definition deleted (msg : SqsMessage) (f : fate) : list (string * string) :=
  match f with Left => [] | _ => delete_entry msg end.

Lemma handle_message_spec entries msg w :
  wp (handle_message entries msg) (λ r w', ∃ f, fate_ok msg f ∧ r = Ok (entries ++ deleted msg f) ∧
    v_jobs (view w') QBounce = v_jobs (view w) QBounce ++ option_list (moved_job f) ∧
    v_tables (view w') = v_tables (view w)) w.
Proof.
  apply wp_catch, wp_bind, wp_bind, wp_lift.
  assert (∀ w', view w' = view w → ¬ dropped msg → wp (mret entries) (λ r w', ∃ f, fate_ok msg f ∧
    r = Ok (entries ++ deleted msg f) ∧
    v_jobs (view w') QBounce = v_jobs (view w) QBounce ++ option_list (moved_job f) ∧
    v_tables (view w') = v_tables (view w)) w') as Hleft.
  { intros w' Hv Hd. apply wp_ret. exists Left. cbn. rewrite !app_nil_r, Hv. by split_and!. }
  destruct (sq_body msg) as [[b|]|e] eqn:Hb.
  - case_bool_decide as Ht.
    { apply wp_ret, wp_ret. exists Dropped. cbn. rewrite app_nil_r. split_and!; try done. right. eauto. }
    assert (¬ dropped msg) as Hd.
    { intros [? | (b' & Hb' & ?)]; [congruence |]. rewrite Hb in Hb'. by injection Hb' as <-. }
    apply wp_bind, wp_lift. destruct (message_data b) as [m|e] eqn:Hm; [| by apply Hleft].
    apply (wp_queue_add QBounce); [| intros e w1 Hv1; by apply Hleft].
    intros w1 Hv1. apply wp_ret. exists (Moved m). rewrite Hv1. cbn. rewrite upd_jobs_eq.
    split_and!; [by exists b | done | done | done].
  - apply wp_ret, wp_ret. exists Dropped. cbn. rewrite app_nil_r. split_and!; try done. by left.
  - apply Hleft; [done |]. intros [? | (? & ? & _)]; congruence.
Qed.

(** C34.  A round of the SQS consumer.  It never rejects; each message it
    received is moved, its data as one job of the bounce queue, dropped, being
    no JSON or the confirmation of a subscription, or left; the jobs added are
    those of the messages moved, in their order, and the messages asked to be
    deleted are exactly those not left that have an id and a receipt handle,
    so that what was neither moved nor dropped is delivered again. *)
Theorem sqs_round messages w :
  wp (poll (Ok messages)) (λ r w', ∃ fates, Forall2 fate_ok messages fates ∧
    r = Ok (concat (zip_with deleted messages fates)) ∧
    v_jobs (view w') QBounce = v_jobs (view w) QBounce ++ omap moved_job fates ∧
    v_tables (view w') = v_tables (view w)) w.
Proof.
  apply wp_swallow, wp_bind, wp_lift. cbn beta iota.
  assert (∀ ms w0 done_ fates entries, messages = done_ ++ ms → Forall2 fate_ok done_ fates →
    entries = concat (zip_with deleted done_ fates) →
    v_jobs (view w0) QBounce = v_jobs (view w) QBounce ++ omap moved_job fates →
    v_tables (view w0) = v_tables (view w) →
    wp (fold_each handle_message entries ms) (λ r w', ∃ entries' fates', r = Ok entries' ∧
      Forall2 fate_ok messages fates' ∧ entries' = concat (zip_with deleted messages fates') ∧
      v_jobs (view w') QBounce = v_jobs (view w) QBounce ++ omap moved_job fates' ∧
      v_tables (view w') = v_tables (view w)) w0) as Hrun.
  { induction ms as [|msg ms IH]; intros w0 done_ fates entries Hm Hf -> Hj Ht.
    - rewrite app_nil_r in Hm. subst done_. apply wp_ret. by exists (concat (zip_with deleted messages fates)), fates.
    - cbn. apply wp_bind. eapply wp_mono; [apply handle_message_spec |].
      intros r w1 (f & Hfm & -> & Hj1 & Ht1). pose proof (Forall2_length Hf) as Hlen.
      apply (IH _ (done_ ++ [msg]) (fates ++ [f])).
      + by rewrite <- app_assoc.
      + by apply Forall2_app; [| constructor].
      + rewrite zip_with_app by done. rewrite concat_app. cbn. by rewrite app_nil_r.
      + rewrite Hj1, Hj, omap_app, <- app_assoc. do 2 f_equal.
      + congruence. }
  eapply wp_mono; [by apply (Hrun messages w [] [] []); rewrite ?app_nil_r |].
  intros r w' (entries & fates & -> & Hf & -> & Hj & Ht). by exists fates.
Qed.

(** An event of Resend that is refused or ignored changes nothing. *)
Theorem resend_unverified secret verify eventType eventData now w :
  secret ≠ None → secret ≠ Some "" → verify (default "" secret) = false →
  wp (handleResendEvent secret verify eventType eventData now) (λ r w',
    r = Err (HttpError 401 "Invalid webhook signature") ∧ w' = w) w.
Proof.
  intros Hs He Hv. unfold handleResendEvent. rewrite Hv.
  destruct secret as [[|c s]|]; [done | | done]. by apply wp_raise.
Qed.
End sqs.

(** ** Witnesses *)

Definition ses_event : SesMessage := {|
  ses_notificationType := "Bounce"; ses_messageId := Some "m1"; ses_bounceType := Some "Permanent";
  ses_diagnosticCode := None; ses_smtpResponse := None; ses_processingTimeMillis := None |}.

Definition sqs_message (id : string) (body : result (option SnsBody)) : SqsMessage := {|
  sq_messageId := Some id; sq_receiptHandle := Some ("h" +:+ id); sq_body := body |}.

Definition sqs_batch : list SqsMessage := [
  sqs_message "1" (Ok (Some {| sb_type := Some "Notification"; sb_message := SnsText (Ok ses_event) |}));
  sqs_message "2" (Ok None);
  sqs_message "3" (Ok (Some {| sb_type := Some "Notification";
    sb_message := SnsText (Err (JsError "Unexpected token" None)) |}))].

Lemma sqs_round_witness :
  let run := poll (Ok sqs_batch) (mem_world no_tables ∅) in
  run.1 = Ok [("1", "h1"); ("2", "h2")] ∧ v_jobs (view run.2) QBounce = [bounce_job ses_event] ∧
  ∃ fates, Forall2 fate_ok sqs_batch fates ∧ length fates = 3%nat.
Proof.
  intros run. split_and!; [vm_compute; reflexivity | vm_compute; reflexivity |].
  destruct (wp_at _ _ (mem_world no_tables ∅) _ (sqs_round sqs_batch (mem_world no_tables ∅)) eq_refl)
    as (fates & Hf & _). exists fates. split; [exact Hf |]. by rewrite <- (Forall2_length Hf).
Defined.

Lemma resend_unverified_witness :
  (handleResendEvent (Some "s") (λ _, false) (Some "email.bounced") (Some (Some "m1")) 0
    (mem_world no_tables ∅)).1 = Err (HttpError 401 "Invalid webhook signature").
Proof.
  exact (proj1 (wp_at _ _ (mem_world no_tables ∅) _
    (resend_unverified (Some "s") (λ _, false) (Some "email.bounced") (Some (Some "m1")) 0
      (mem_world no_tables ∅) ltac:(discriminate) ltac:(discriminate) eq_refl) eq_refl)).
Defined.
