(* ===== verification/Sandbox.v ===== *)
(** * The sandbox

    [SandboxService] of [src/modules/sandbox/sandbox.service.ts] (test keys and
    their daily quota, receipts, the playground) and the devnet resolution of
    [SandboxRoutingService] ([src/modules/routing/sandbox-routing.service.ts]).
    The devnet client and the decryption of channels are parameters; the random
    suffix of a key is an argument. *)

From Stdlib Require Import Ascii String.
From S2P Require Import Prelude Schema External Memory Frame RateLimit.

Open Scope string_scope.
Open Scope list_scope.
Open Scope Z_scope.

Definition EXPIRATION_DAYS : Z := 14.
Definition IP_KEY_LIMIT_PER_DAY : Z := 5.
Definition PLAYGROUND_DAILY_LIMIT : Z := 25.
Definition DAY_MS : Z := 86400000.

(** [isTestKey] *)
Definition isTestKey (plainTextKey : string) : bool := String.prefix "hrld_test_" plainTextKey.

(** [midnight.setHours(24, 0, 0, 0)] *)
Definition next_midnight (now : Z) : Z := (now / DAY_MS + 1) * DAY_MS.

(** The seconds until then. *)
Definition ttl_to_midnight (now : Z) : Z := ceil_div (next_midnight now - now) 1000.

(** [SandboxConfig] and [SandboxValidationResult] *)
Record SandboxConfig := {
  sbc_testKeyType : string;
  sbc_dailyLimit : Z;
  sbc_remainingToday : Z;
  sbc_expiresAt : option Z;
  sbc_isExpired : bool;
}.

Record SandboxValidationResult := {
  sv_allowed : bool;
  sv_isSandbox : bool;
  sv_dailyLimit : Z;
  sv_remainingToday : Z;
  sv_errorCode : option string;
}.

Definition refused (isSandbox : bool) (code : string) : SandboxValidationResult := {|
  sv_allowed := false; sv_isSandbox := isSandbox; sv_dailyLimit := 0; sv_remainingToday := 0;
  sv_errorCode := Some code |}.

Definition daily_key (apiKeyId : string) : string := "sandbox:daily:" +:+ apiKeyId.
Definition ip_key (ipHash : string) : string := "sandbox:ip_daily:" +:+ ipHash.
Definition playground_key (apiKeyId : string) : string := "sandbox:playground:" +:+ apiKeyId.

Section sandbox.
Context `{B : Backend} `{Hsh : Hashing}.

(** [count ? parseInt(count, 10) : 0]; these keys only hold counters. *)
Definition counter_value (k : string) (now : Z) : M World Z :=
  v ← redis_get k now;
  mret match v with Some (RInt z) => z | _ => 0 end.

Definition getTodayCount (apiKeyId : string) (now : Z) : M World Z :=
  counter_value (daily_key apiKeyId) now.

Definition getSandboxConfig (apiKeyId : string) (now : Z) : M World (option SandboxConfig) :=
  apiKey ← find_unique MApiKey (by_id MApiKey apiKeyId);
  match apiKey with
  | Some k =>
      if negb (k_isTestKey k) then mret None else
      today ← getTodayCount apiKeyId now;
      mret (Some {|
        sbc_testKeyType := if truthy (k_testKeyType k) then default "" (k_testKeyType k)
                           else "integration";
        sbc_dailyLimit := k_testDailyLimit k;
        sbc_remainingToday := Z.max 0 (k_testDailyLimit k - today);
        sbc_expiresAt := k_expiresAt k;
        sbc_isExpired := match k_expiresAt k with Some e => e <? now | None => false end |})
  | None => mret None
  end.

Definition validateSandboxKey (apiKeyId : string) (now : Z) : M World SandboxValidationResult :=
  apiKey ← find_unique MApiKey (by_id MApiKey apiKeyId);
  match apiKey with
  | None => mret (refused false "AUTH_INVALID_KEY")
  | Some k =>
      if k_isRevoked k then mret (refused true "AUTH_KEY_REVOKED") else
      if match k_expiresAt k with Some e => e <? now | None => false end then
        mret (refused true "SANDBOX_KEY_EXPIRED")
      else
        today ← getTodayCount apiKeyId now;
        let remaining := Z.max 0 (k_testDailyLimit k - today) in
        mret (if remaining <=? 0 then {|
          sv_allowed := false; sv_isSandbox := true; sv_dailyLimit := k_testDailyLimit k;
          sv_remainingToday := 0; sv_errorCode := Some "SANDBOX_LIMIT_EXCEEDED" |}
        else {|
          sv_allowed := true; sv_isSandbox := true; sv_dailyLimit := k_testDailyLimit k;
          sv_remainingToday := remaining; sv_errorCode := None |})
  end.

(** The counter of a day: one more, until midnight. *)
Definition count_today (k : string) (now : Z) : M World () :=
  _ ← redis_incr_ k now;
  redis_pexpire_ k (ttl_to_midnight now * 1000) now.

Definition incrementUsage (apiKeyId : string) (now : Z) : M World () :=
  apiKey ← find_unique MApiKey (by_id MApiKey apiKeyId);
  if chain_bool k_isTestKey apiKey then count_today (daily_key apiKeyId) now else mret ().

(** [plainText.substring(0, 16)] *)
Definition key_prefix (plainText : string) : string := substring 0 16 plainText.

Definition createTestKey (protocolId testKeyType : string) (ipHash : option string)
    (suffix : string) (now : Z) : M World (string * Z) :=
  _ ← (if truthy ipHash then
         let ipKey := ip_key (default "" ipHash) in
         ipCount ← counter_value ipKey now;
         if IP_KEY_LIMIT_PER_DAY <=? ipCount then raise (HttpError 400 "SANDBOX_IP_LIMIT_EXCEEDED")
         else
           _ ← redis_incr_ ipKey now;
           redis_pexpire_ ipKey (86400 * 1000) now
       else mret ());
  protocol ← find_unique MProtocol (by_id MProtocol protocolId);
  match protocol with
  | None => raise (JsError "No Protocol found" (Some "P2025"))
  | Some p =>
      let plainText := "hrld_test_" +:+ suffix in
      let expiresAt := now + EXPIRATION_DAYS * DAY_MS in
      apiKey ← create MApiKey (λ id, {|
        k_id := id; k_protocolId := protocolId; k_keyHash := sha256 plainText;
        k_keyPrefix := key_prefix plainText; k_environment := Sandbox;
        k_scopes := ["notify:write"; "notify:read"]; k_isRevoked := false;
        k_expiresAt := Some expiresAt; k_isTestKey := true;
        k_testDailyLimit := tl_sandboxDailyLimit (getTierLimits (Some (p_tier p)));
        k_testKeyType := Some testKeyType;
        k_testKeyIpHash := if truthy ipHash then ipHash else None |});
      mret (k_id apiKey, expiresAt)
  end.

(** ** Receipts *)

Definition recordSandboxReceipt (apiKeyId walletHash : string)
    (notificationId subject status devnetTx ch : option string) (now : Z) : M World () :=
  _ ← create MSandboxReceipt (λ id, {|
    sr_id := id; sr_apiKeyId := apiKeyId; sr_notificationId := notificationId;
    sr_walletHash := walletHash; sr_subject := subject;
    sr_status := if truthy status then default "" status else "delivered";
    sr_devnetTx := devnetTx; sr_channel := ch; sr_deliveredAt := Some now; sr_createdAt := now |});
  mret ().

Definition HOUR_MS : Z := 3600000.

Definition getSandboxReceipts (apiKeyId : string) (limit : nat) (now : Z) :
    M World (list SandboxReceipt) :=
  l ← find_many MSandboxReceipt (λ _ r,
    bool_decide (sr_apiKeyId r = apiKeyId) && (now - 24 * HOUR_MS <=? sr_createdAt r))
    (Some (λ r, - sr_createdAt r));
  mret (firstn limit l).

Definition stale_receipt (now : Z) : where_ MSandboxReceipt := λ _ r,
  sr_createdAt r <? now - 25 * HOUR_MS.

Definition cleanupOldReceipts (now : Z) : M World () :=
  delete_many MSandboxReceipt (stale_receipt now).

Definition recordDevnetTransaction (apiKeyId walletHash txSignature : string)
    (ch : option string) (now : Z) : M World () :=
  recordSandboxReceipt apiKeyId walletHash None None (Some "delivered") (Some txSignature)
    (Some (default "devnet" ch)) now.

(** ** The playground *)

Definition checkPlaygroundLimit (apiKeyId : string) (now : Z) : M World (bool * Z) :=
  today ← counter_value (playground_key apiKeyId) now;
  let remaining := Z.max 0 (PLAYGROUND_DAILY_LIMIT - today) in
  mret (0 <? remaining, remaining).

Definition incrementPlaygroundUsage (apiKeyId : string) (now : Z) : M World () :=
  count_today (playground_key apiKeyId) now.
End sandbox.

(** ** Devnet resolution *)

Record DevnetResolutionResult := {
  dv_resolved : bool;
  dv_channels : DecryptedChannels;
  dv_identity : option IdentityAccount;
}.

Definition no_channels : DecryptedChannels :=
  {| tc_email := None; tc_telegramChatId := None; tc_phone := None |}.

Definition unresolved : DevnetResolutionResult :=
  {| dv_resolved := false; dv_channels := no_channels; dv_identity := None |}.

Record DevnetConfig := {
  (** the devnet client, where there is one *)
  dn_fetch : option (string → result (option IdentityAccount));
  dn_decrypt : IdentityAccount → result DecryptedChannels;
}.

Definition resolveDevnetWallet (cfg : DevnetConfig) (walletPubkey : string) :
    DevnetResolutionResult :=
  match dn_fetch cfg with
  | None => unresolved
  | Some fetch =>
      match fetch walletPubkey with
      | Ok (Some identity) =>
          match dn_decrypt cfg identity with
          | Ok channels =>
              {| dv_resolved := truthy (tc_email channels) || truthy (tc_telegramChatId channels) ||
                   truthy (tc_phone channels);
                 dv_channels := channels; dv_identity := Some identity |}
          | Err _ => unresolved
          end
      | _ => unresolved
      end
  end.

Definition addTestPrefix (subject : string) : string := "[HERALD TEST] " +:+ subject.

(** ** The daily quota *)

Section quota.
Context `{B : Backend} `{BL : !BackendLaws B}.

(** A sandbox send, as [NotifyService.queueSandboxNotification] makes it: the
    quota is checked, and the usage is counted after the send. [n] is the
    number of sends accepted so far. *)
Definition sandbox_send (apiKeyId : string) (n : nat) (now : Z) : M World nat :=
  res ← validateSandboxKey apiKeyId now;
  if sv_allowed res then
    _ ← incrementUsage apiKeyId now;
    mret (S n)
  else mret n.

(** The counter of a key stands at [c] for the rest of the day [d]. *)
Definition counter_at (d : Z) (k : string) (c : Z) (v : View) : Prop :=
  match re_strings (v_redis v) !! k with
  | None => c = 0
  | Some (RInt z, None) => z = c
  | Some (RInt z, Some t) => z = c ∧ (d + 1) * DAY_MS ≤ t
  | Some _ => False
  end.

Lemma counter_live d k c v now :
  counter_at d k c v → now / DAY_MS = d →
  live now (re_strings (v_redis v) !! k) = None ∧ c = 0 ∨
  live now (re_strings (v_redis v) !! k) = Some (RInt c).
Proof.
  unfold counter_at, live, DAY_MS. intros Hc Hd.
  destruct (re_strings (v_redis v) !! k) as [[[| z | | | | |] [t|]]|]; try done; [| naive_solver | auto].
  destruct Hc as [-> Ht]. right. pose proof (Z.mod_pos_bound now 86400000). pose proof (Z.div_mod now 86400000).
  rewrite (proj2 (Z.ltb_lt _ _)); [done | lia].
Qed.

Lemma ttl_reaches_midnight now : (now / DAY_MS + 1) * DAY_MS ≤ now + ttl_to_midnight now * 1000.
Proof.
  unfold ttl_to_midnight, next_midnight.
  pose proof (ceil_div_bounds ((now / DAY_MS + 1) * DAY_MS - now) 1000). lia.
Qed.

Lemma count_today_spec d k c now w :
  counter_at d k c (view w) → now / DAY_MS = d →
  wp (count_today k now) (λ r w',
    (r = Ok () → counter_at d k (c + 1) (view w')) ∧
    v_tables (view w') = v_tables (view w) ∧ v_jobs (view w') = v_jobs (view w)) w.
Proof.
  intros Hc Hd. pose proof (counter_live _ _ _ _ _ Hc Hd) as Hl.
  apply wp_bind, wp_redis_incr; [| by intros e w' ->].
  intros n m w1 Hi Hv1. apply wp_redis_pexpire; [| by intros e w2 ->; rewrite Hv1].
  intros w2 Hv2. rewrite Hv2, Hv1. split; [intros _ | done].
  assert (live now (m !! k) = Some (RInt (c + 1))) as Hm.
  { unfold redis_incr in Hi. destruct Hl as [[Hl ->] | Hl]; rewrite Hl in Hi; simplify_eq;
      rewrite lookup_insert_eq; [done |]. unfold counter_at, live in Hc, Hl |- *.
    destruct (re_strings (v_redis (view w)) !! k) as [[v [t|]]|]; cbn; [| done | done].
    by destruct (now <? t). }
  unfold counter_at. cbn. unfold redis_pexpire. rewrite Hm, lookup_insert_eq.
  split; [done |]. subst d. apply ttl_reaches_midnight.
Qed.

Lemma validateSandboxKey_spec apiKeyId now w key c :
  v_tables (view w) MApiKey !! apiKeyId = Some key →
  counter_at (now / DAY_MS) (daily_key apiKeyId) c (view w) →
  wp (validateSandboxKey apiKeyId now) (λ r w', view w' = view w ∧
    ∀ res, r = Ok res → (sv_allowed res = true ↔
      k_isRevoked key = false ∧ (∀ e, k_expiresAt key = Some e → now ≤ e) ∧
      c < k_testDailyLimit key)) w.
Proof.
  intros Hk Hc. unfold validateSandboxKey. apply wp_bind, (wp_find_unique MApiKey); [| by intros e w1 ->].
  intros o w1 Ho Hv1. apply found_by_id in Ho.
  assert (o = Some key) as -> by (rewrite Ho; exact Hk).
  destruct (k_isRevoked key); [apply wp_ret; split; [done |]; intros ? [= <-]; cbn; naive_solver |].
  destruct (match k_expiresAt key with Some e => _ | None => _ end) eqn:Hexp.
  { apply wp_ret. split; [done |]. intros ? [= <-]. split; [done |]. intros (_ & He & _).
    destruct (k_expiresAt key) as [e|]; [| done]. specialize (He _ eq_refl). lia. }
  apply wp_bind, wp_bind, wp_redis_get; [| by intros e w2 ->].
  intros w2 Hv2. apply wp_ret, wp_ret. split; [congruence |]. rewrite Hv1.
  assert (match live now (re_strings (v_redis (view w)) !! daily_key apiKeyId) with
    Some (RInt z) => z | _ => 0 end = c) as ->.
  { destruct (counter_live _ _ _ _ now Hc eq_refl) as [[-> ->] | ->]; done. }
  assert (∀ e, k_expiresAt key = Some e → now ≤ e) as He.
  { intros e He. rewrite He in Hexp. lia. }
  intros ? [= <-]. destruct (Z.leb_spec (Z.max 0 (k_testDailyLimit key - c)) 0); cbn;
    (split; [intros; split_and!; done || lia | ]); [intros (_ & _ & ?); lia | done].
Qed.

(** The sandbox quota.  However many sends a test key makes one after
    the other during a day (UTC), if none rejects then those accepted, with
    those already counted, stay within the key's daily limit. *)
Theorem sandbox_daily_quota apiKeyId key d c times w :
  v_tables (view w) MApiKey !! apiKeyId = Some key → k_isTestKey key = true →
  counter_at d (daily_key apiKeyId) c (view w) →
  Forall (λ t, t / DAY_MS = d) times →
  wp (fold_each (sandbox_send apiKeyId) O times) (λ r w', ∀ n, r = Ok n →
    Z.of_nat n ≤ Z.max 0 (k_testDailyLimit key - c) ∧
    counter_at d (daily_key apiKeyId) (c + Z.of_nat n) (view w')) w.
Proof.
  intros Hk Htest Hc Htimes.
  eapply (wp_fold_each _ (λ n ts w', Forall (λ t, t / DAY_MS = d) ts ∧
    v_tables (view w') MApiKey !! apiKeyId = Some key ∧
    counter_at d (daily_key apiKeyId) (c + Z.of_nat n) (view w') ∧
    Z.of_nat n ≤ Z.max 0 (k_testDailyLimit key - c))).
  - split_and!; [done | done | by rewrite Z.add_0_r | lia].
  - intros n t ts w1 ([Ht Hts]%list.Forall_cons & Hk1 & Hc1 & Hn).
    rewrite <- Ht in Hc1. unfold sandbox_send. apply wp_bind.
    eapply wp_mono; [by eapply validateSandboxKey_spec |]. intros [res|e] w2 [Hv2 Hres]; [| done].
    specialize (Hres _ eq_refl). destruct (sv_allowed res).
    2:{ apply wp_ret. rewrite Hv2. rewrite Ht in Hc1. by split_and!. }
    destruct Hres as [Hlim _]. specialize (Hlim eq_refl) as (_ & _ & Hlim).
    apply wp_bind, wp_bind, (wp_find_unique MApiKey); [| done]. intros o w3 Ho Hv3.
    apply found_by_id in Ho. rewrite Hv2 in Ho. assert (o = Some key) as -> by (rewrite Ho; exact Hk1).
    cbn [chain_bool]. rewrite Htest. eapply wp_mono.
    { eapply count_today_spec; [| reflexivity]. rewrite Hv3, Hv2. exact Hc1. }
    intros [[]|e] w4 (Hc4 & Ht4 & _); [| done]. apply wp_ret. rewrite Ht4, Hv3, Hv2.
    split_and!; [done | done | | lia].
    rewrite <- Ht. replace (c + Z.of_nat (S n)) with (c + Z.of_nat n + 1) by lia. auto.
  - intros n w' (_ & _ & Hc' & Hn) n' [= <-]. done.
Qed.
End quota.

(** ** Witnesses *)

Definition sample_test_key : ApiKey := {|
  k_id := "k1"; k_protocolId := "p1"; k_keyHash := "h"; k_keyPrefix := "hrld_test_abcdef";
  k_environment := Sandbox; k_scopes := ["notify:write"]; k_isRevoked := false;
  k_expiresAt := None; k_isTestKey := true; k_testDailyLimit := 2;
  k_testKeyType := Some "integration"; k_testKeyIpHash := None |}.

Definition sandbox_world : World := mem_world (with_rows MApiKey [sample_test_key] no_tables) ∅.

Lemma sandbox_daily_quota_witness :
  (fold_each (sandbox_send "k1") O [1000; 2000; 3000; 4000] sandbox_world).1 = Ok 2%nat ∧
  wp (fold_each (sandbox_send "k1") O [1000; 2000; 3000; 4000]) (λ r w', ∀ n, r = Ok n →
    Z.of_nat n ≤ Z.max 0 (2 - 0) ∧
    counter_at 0 (daily_key "k1") (0 + Z.of_nat n) (view w')) sandbox_world.
Proof.
  split; [vm_compute; reflexivity |].
  apply (sandbox_daily_quota "k1" sample_test_key 0 0 [1000; 2000; 3000; 4000] sandbox_world);
    [reflexivity | reflexivity | reflexivity |].
  repeat constructor.
Defined.
