(* ===== verification/Subscriptions.v ===== *)
(** * Subscriptions of wallets to protocols

    [SubscriptionsService] and [SubscriptionsController] of
    [src/modules/subscriptions/].  The day of a
    [DateTime] in ISO form is a parameter of the audience statistics. *)

From Stdlib Require Import Ascii String.
From stdpp Require Import sorting.
From S2P Require Import Prelude Schema External Memory Frame.

Open Scope string_scope.
Open Scope list_scope.
Open Scope Z_scope.

Definition of_pair (walletHash protocolId : string) : where_ MProtocolSubscription := λ _ s,
  bool_decide (sub_walletHash s = walletHash) && bool_decide (sub_protocolId s = protocolId).

Definition active_of (protocolId : string) : where_ MProtocolSubscription := λ _ s,
  bool_decide (sub_protocolId s = protocolId) && bool_decide (sub_status s = Active).

Definition targeted (protocolId : string) : where_ MProtocolSubscription := λ k s,
  active_of protocolId k s && bool_decide (is_Some (sub_walletPubkey s)).

Record SubscriptionState := {
  st_isSubscribed : bool;
  st_channels : list string;
  st_subscribedAt : option Z;
}.

Record BroadcastTarget := {
  bt_walletPubkey : string;
  bt_walletHash : string;
  bt_channels : list string;
}.

Record AudienceStats := {
  as_totalSubscribers : Z;
  as_broadcastableSubscribers : Z;
  as_bySource : gmap string Z;
  as_byChannel : gmap string Z;
  as_recentSubscriptions : list (string * Z);
}.

(** The bodies of the endpoints. *)
Record SubscribeDto := { sb_walletAddress : string; sb_channels : option (list string) }.

Record InternalSubscribeDto := {
  is_walletPubkey : string;
  is_protocolId : string;
  is_channels : option (list string);
  is_source : option string;
}.

(** [m[k] = (m[k] ?? 0) + 1] *)
Definition tally (m : gmap string Z) (k : string) : gmap string Z :=
  <[k := default 0 (m !! k) + 1]> m.

Definition day_le (a b : string * Z) : Prop := String.leb a.1 b.1 = true.

#[export] Instance day_le_dec a b : Decision (day_le a b) := decide (String.leb a.1 b.1 = true).

Section subscriptions.
Context `{B : Backend} `{Hsh : Hashing}.

Definition subscribe (walletPubkey protocolId : string) (channels : list string)
    (source : string) (now : Z) : M World ProtocolSubscription :=
  let walletHash := sha256 walletPubkey in
  upsert MProtocolSubscription (of_pair walletHash protocolId)
    (λ id, {| sub_id := id; sub_walletPubkey := Some walletPubkey; sub_walletHash := walletHash;
              sub_protocolId := protocolId; sub_channels := channels; sub_status := Active;
              sub_source := source; sub_subscribedAt := now; sub_updatedAt := now |})
    (λ s, s <| sub_status := Active |> <| sub_channels := channels |>
            <| sub_walletPubkey := Some walletPubkey |> <| sub_updatedAt := now |>).

(** [updatedAt] is an [@updatedAt] column. *)
Definition unsubscribe (walletHash protocolId : string) (now : Z) : M World () :=
  update_many MProtocolSubscription (of_pair walletHash protocolId)
    (λ s, s <| sub_status := Unsubscribed |> <| sub_updatedAt := now |>).

Definition resubscribe (walletHash protocolId : string) (now : Z) : M World () :=
  update_many MProtocolSubscription (of_pair walletHash protocolId)
    (λ s, s <| sub_status := Active |> <| sub_updatedAt := now |>).

Definition checkSubscription (walletHash protocolId : string) : M World SubscriptionState :=
  sub ← find_unique MProtocolSubscription (of_pair walletHash protocolId);
  mret {| st_isSubscribed := chain_bool (λ s, bool_decide (sub_status s = Active)) sub;
          st_channels := from_option sub_channels [] sub;
          st_subscribedAt := option_map sub_subscribedAt sub |}.

Definition getSubscriberCount (protocolId : string) : M World Z :=
  count MProtocolSubscription (active_of protocolId).

Definition target_of (s : ProtocolSubscription) : option BroadcastTarget :=
  match sub_walletPubkey s with
  | Some w => Some {| bt_walletPubkey := w; bt_walletHash := sub_walletHash s;
                      bt_channels := sub_channels s |}
  | None => None
  end.

Definition getBroadcastTargets (protocolId : string) : M World (list BroadcastTarget) :=
  rows ← find_many MProtocolSubscription (targeted protocolId) None;
  mret (omap target_of rows).

Definition getAudienceStats (isoDay : Z → string) (protocolId : string) (now : Z) :
    M World AudienceStats :=
  let thirtyDaysAgo := now - 30 * 24 * 60 * 60 * 1000 in
  total ← count MProtocolSubscription (active_of protocolId);
  broadcastable ← count MProtocolSubscription (targeted protocolId);
  allActive ← find_many MProtocolSubscription (active_of protocolId) None;
  let recent := List.filter (λ s, thirtyDaysAgo <=? sub_subscribedAt s) allActive in
  mret {|
    as_totalSubscribers := total; as_broadcastableSubscribers := broadcastable;
    as_bySource := fold_left tally (sub_source <$> allActive) ∅;
    as_byChannel := fold_left tally (concat (sub_channels <$> allActive)) ∅;
    as_recentSubscriptions := merge_sort day_le
      (map_to_list (fold_left tally ((λ s, isoDay (sub_subscribedAt s)) <$> recent) ∅)) |}.

(** [getUserSubscriptions]: the rows, latest first, with the name and the
    website of their protocols. *)
Definition getUserSubscriptions (walletHash : string) :
    M World (list (ProtocolSubscription * option string * option string)) := λ w,
  (rows ← find_many MProtocolSubscription (λ _ s, bool_decide (sub_walletHash s = walletHash))
            (Some (λ s, - sub_subscribedAt s));
   mret ((λ s : ProtocolSubscription,
     let settings := tables (w_db w) MProtocolSettings !! sub_protocolId s in
     (s, chain ps_customFromName settings, chain ps_websiteUrl settings)) <$> rows)) w.

(** ** The endpoints: [SubscriptionsController], [InternalSubscriptionsController] *)

Definition subscribe_api (dto : SubscribeDto) (protocol : AuthenticatedProtocol) (now : Z) :
    M World ProtocolSubscription :=
  subscribe (sb_walletAddress dto) (ap_protocolId protocol) (default ["email"] (sb_channels dto)) "api" now.

Definition unsubscribe_api (walletAddress : string) (protocol : AuthenticatedProtocol) (now : Z) :
    M World () :=
  unsubscribe (sha256 walletAddress) (ap_protocolId protocol) now.

Definition check_api (walletAddress : string) (protocol : AuthenticatedProtocol) :
    M World SubscriptionState :=
  if (walletAddress =? "")%string then raise (HttpError 400 "walletAddress is required")
  else checkSubscription (sha256 walletAddress) (ap_protocolId protocol).

Definition count_api (isoDay : Z → string) (protocol : AuthenticatedProtocol) (now : Z) :
    M World (Z * gmap string Z) :=
  stats ← getAudienceStats isoDay (ap_protocolId protocol) now;
  mret (as_totalSubscribers stats, as_byChannel stats).

(** [subscribeInternal], of the join flow. *)
Definition subscribe_internal (dto : InternalSubscribeDto) (now : Z) : M World ProtocolSubscription :=
  subscribe (is_walletPubkey dto) (is_protocolId dto) (default ["email"] (is_channels dto))
    (default "join_link" (is_source dto)) now.

(** ** Properties *)

Context `{BL : !BackendLaws B}.

(** One row for a wallet and a protocol, the state of which is known. *)
Definition membership (walletHash protocolId : string) (v : View)
    (P : ProtocolSubscription → Prop) : Prop :=
  ∀ k s, v_tables v MProtocolSubscription !! k = Some s →
    sub_walletHash s = walletHash → sub_protocolId s = protocolId → P s.

(** At most one row for each wallet and protocol ([@@unique]). *)
Definition one_row (t : gmap string ProtocolSubscription) : Prop := ∀ k1 k2 s1 s2,
  t !! k1 = Some s1 → t !! k2 = Some s2 → sub_walletHash s1 = sub_walletHash s2 →
  sub_protocolId s1 = sub_protocolId s2 → k1 = k2.

Lemma of_pair_spec walletHash protocolId k s :
  of_pair walletHash protocolId k s = true ↔
    sub_walletHash s = walletHash ∧ sub_protocolId s = protocolId.
Proof. unfold of_pair. by rewrite andb_true_iff, !bool_decide_eq_true. Qed.

Lemma check_spec walletHash protocolId (Q : SubscriptionState → Prop) w :
  (∃ k s, v_tables (view w) MProtocolSubscription !! k = Some s ∧
     sub_walletHash s = walletHash ∧ sub_protocolId s = protocolId) →
  membership walletHash protocolId (view w) (λ s,
    Q {| st_isSubscribed := bool_decide (sub_status s = Active); st_channels := sub_channels s;
         st_subscribedAt := Some (sub_subscribedAt s) |}) →
  wp (checkSubscription walletHash protocolId) (λ r _, ∀ x, r = Ok x → Q x) w.
Proof.
  intros (k & s & Hk & Hw & Hp) HQ. apply wp_bind, (wp_find_unique MProtocolSubscription); [| done].
  intros o w' Ho _. apply wp_ret. intros x [= <-]. destruct o as [s'|].
  - destruct Ho as (k' & Hk' & [? ?]%of_pair_spec). by eapply HQ.
  - specialize (Ho k s Hk). rewrite (proj2 (of_pair_spec _ _ k s)) in Ho by done. done.
Qed.

(** The rows of other wallets and protocols are as they were. *)
Definition others_kept (walletHash protocolId : string) (v v' : View) : Prop :=
  ∀ k s, v_tables v MProtocolSubscription !! k = Some s →
    ¬ (sub_walletHash s = walletHash ∧ sub_protocolId s = protocolId) →
    v_tables v' MProtocolSubscription !! k = Some s.

(** A row of the pair was written. *)
Lemma write_pair (t : gmap string ProtocolSubscription) k0 s0 :
  one_row t →
  (∀ k s, t !! k = Some s → sub_walletHash s = sub_walletHash s0 →
     sub_protocolId s = sub_protocolId s0 → k = k0) →
  one_row (<[k0 := s0]> t) ∧
  (∀ k s, <[k0 := s0]> t !! k = Some s → sub_walletHash s = sub_walletHash s0 →
     sub_protocolId s = sub_protocolId s0 → s = s0).
Proof.
  intros H1 Honly. split.
  - intros k1 k2 s1 s2. rewrite !lookup_insert_Some.
    intros [[<- <-] | [? H3]] [[<- <-] | [? H4]] Hw Hp; [done | | | by eapply H1].
    + symmetry. by eapply Honly.
    + by eapply Honly.
  - intros k s. rewrite lookup_insert_Some. intros [[<- <-] | [Hne Hk]] Hw Hp; [done |].
    by destruct Hne; symmetry; eapply Honly.
Qed.

(** The row a subscribe leaves: the pair's only one, active. *)
Definition subscribed (walletHash protocolId : string) (channels : list string)
    (v : View) : Prop :=
  ∃ k s0, v_tables v MProtocolSubscription !! k = Some s0 ∧
    sub_walletHash s0 = walletHash ∧ sub_protocolId s0 = protocolId ∧
    sub_status s0 = Active ∧ sub_channels s0 = channels ∧
    membership walletHash protocolId v (λ s, s = s0).

(** Writing the pair's row under the only key that may hold it. *)
Lemma write_subscribed walletHash protocolId channels k0 s0 v v' :
  one_row (v_tables v MProtocolSubscription) →
  v_tables v' MProtocolSubscription = <[k0 := s0]> (v_tables v MProtocolSubscription) →
  sub_walletHash s0 = walletHash → sub_protocolId s0 = protocolId →
  sub_status s0 = Active → sub_channels s0 = channels →
  (∀ k s, v_tables v MProtocolSubscription !! k = Some s →
     sub_walletHash s = walletHash → sub_protocolId s = protocolId → k = k0) →
  (∀ s, v_tables v MProtocolSubscription !! k0 = Some s →
     sub_walletHash s = walletHash ∧ sub_protocolId s = protocolId) →
  one_row (v_tables v' MProtocolSubscription) ∧ others_kept walletHash protocolId v v' ∧
  subscribed walletHash protocolId channels v'.
Proof.
  intros H1 Ht Hw Hp Hst Hch Honly Hold. rewrite <- Hw, <- Hp in Honly.
  destruct (write_pair _ k0 s0 H1 Honly) as [Hone Hmem]. rewrite Ht. split_and!; [done | |].
  - intros k s Hk Hne. rewrite Ht, lookup_insert_ne; [done |]. intros <-. by apply Hne, Hold.
  - exists k0, s0. rewrite Ht. split_and!; [apply lookup_insert_eq | done.. |].
    intros k s. rewrite Ht, <- Hw, <- Hp. apply Hmem.
Qed.

Lemma subscribe_spec walletPubkey protocolId channels source now w :
  one_row (v_tables (view w) MProtocolSubscription) →
  let walletHash := sha256 walletPubkey in
  wp (subscribe walletPubkey protocolId channels source now) (λ r w1,
    one_row (v_tables (view w1) MProtocolSubscription) ∧
    others_kept walletHash protocolId (view w) (view w1) ∧
    (is_ok r = true → subscribed walletHash protocolId channels (view w1))) w.
Proof.
  intros H1 walletHash. apply (wp_upsert MProtocolSubscription).
  - intros k s w1 Hk [Hw Hp]%of_pair_spec Hv1.
    destruct (write_subscribed walletHash protocolId channels k
        (s <| sub_status := Active |> <| sub_channels := channels |>
            <| sub_walletPubkey := Some walletPubkey |> <| sub_updatedAt := now |>) (view w) (view w1))
      as (Ha & Hb & Hc); try done.
    + rewrite Hv1. cbn. by rewrite upd_eq.
    + intros k' s' Hk' Hw' Hp'. eapply H1; [exact Hk' | exact Hk | by rewrite Hw', Hw | by rewrite Hp', Hp].
    + intros s' Hs'. pose proof (Some_agree Hk Hs') as <-. done.
  - intros i s0 w1 -> Hfresh Huniq Hv1.
    match type of Hfresh with _ !! row_key _ ?r = _ =>
      destruct (write_subscribed walletHash protocolId channels i r (view w) (view w1))
        as (Ha & Hb & Hc) end; try done.
    + rewrite Hv1. cbn. by rewrite upd_eq.
    + intros k s Hk Hw Hp. exfalso.
      apply (Huniq k s Hk ("walletHash_protocolId", [walletHash; protocolId])); cbn;
        [rewrite Hw, Hp |]; left.
    + intros s Hs. exfalso. pose proof (eq_trans (eq_sym Hs) Hfresh) as [=].
  - intros e w1 ->. split_and!; [done | by intros k s | done].
Qed.

Lemma unsubscribe_spec walletHash protocolId now w :
  wp (unsubscribe walletHash protocolId now) (λ r w1,
    others_kept walletHash protocolId (view w) (view w1) ∧
    (r = Ok () → membership walletHash protocolId (view w1) (λ s, sub_status s = Unsubscribed))) w.
Proof.
  apply (wp_update_many MProtocolSubscription); [| intros e w1 ->; split; [by intros k s | done]].
  intros w1 ->. unfold others_kept, membership. cbn. rewrite upd_eq.
  pose proof (lookup_update_where (m := MProtocolSubscription) (of_pair walletHash protocolId)
    (λ s, s <| sub_status := Unsubscribed |> <| sub_updatedAt := now |>)) as Hl.
  cbn in Hl. split.
  - intros k s Hk Hne. rewrite Hl, Hk. cbn. destruct (of_pair _ _ k s) eqn:Hp; [| done].
    by apply of_pair_spec in Hp.
  - intros _ k s Hk. rewrite Hl in Hk.
    apply fmap_Some in Hk as (s0 & _ & ->). destruct (of_pair _ _ k s0) eqn:Hp; [done |].
    intros Hw Hpr. exfalso. rewrite (proj2 (of_pair_spec walletHash protocolId k s0)) in Hp; done.
Qed.

Lemma targets_spec protocolId (P : BroadcastTarget → Prop) w :
  (∀ k s t, v_tables (view w) MProtocolSubscription !! k = Some s →
     sub_protocolId s = protocolId → sub_status s = Active → target_of s = Some t → P t) →
  wp (getBroadcastTargets protocolId) (λ r _, ∀ l, r = Ok l → Forall P l) w.
Proof.
  intros HP. apply wp_bind, (wp_find_many MProtocolSubscription); [| done].
  intros rows w' (_ & (ks & _ & Hks) & _) _. apply wp_ret. intros l [= <-].
  apply list.Forall_forall. intros t (s & Hs & Ht)%list_elem_of_omap.
  apply list_elem_of_lookup in Hs as [i Hi].
  destruct (Forall2_lookup_r _ _ _ _ _ Hks Hi) as (k & _ & Hk & Hp).
  unfold targeted, active_of in Hp. rewrite !andb_true_iff, !bool_decide_eq_true in Hp.
  destruct Hp as [[? ?] _]. by eapply HP.
Qed.

(** Subscribing and unsubscribing.  After [subscribe] returns, the wallet
    is subscribed to the protocol with the channels given, in one row; after
    [unsubscribe] returns, no broadcast of the protocol targets the wallet;
    neither changes a row of another wallet or protocol. *)
Theorem subscribe_unsubscribe walletPubkey protocolId channels source now w :
  one_row (v_tables (view w) MProtocolSubscription) →
  let walletHash := sha256 walletPubkey in
  wp (subscribe walletPubkey protocolId channels source now) (λ r w1,
    one_row (v_tables (view w1) MProtocolSubscription) ∧
    others_kept walletHash protocolId (view w) (view w1) ∧
    (is_ok r = true → wp (checkSubscription walletHash protocolId) (λ r' _, ∀ x, r' = Ok x →
      st_isSubscribed x = true ∧ st_channels x = channels) w1)) w ∧
  wp (unsubscribe walletHash protocolId now) (λ r w1,
    others_kept walletHash protocolId (view w) (view w1) ∧
    (r = Ok () → wp (getBroadcastTargets protocolId) (λ r' _, ∀ l, r' = Ok l →
      Forall (λ t, bt_walletHash t ≠ walletHash) l) w1)) w.
Proof.
  intros H1 walletHash. split.
  - eapply wp_mono; [by apply subscribe_spec |]. intros r w1 (Hone & Hoth & Hok).
    split_and!; [done | done |]. intros Hr. destruct (Hok Hr) as (k & s0 & Hk & Hw & Hp & Hst & Hch & Hm).
    apply check_spec; [by exists k, s0 |]. intros k' s Hk' Hw' Hp'.
    rewrite (Hm k' s Hk' Hw' Hp'). cbn. by rewrite (bool_decide_eq_true_2 _ Hst).
  - eapply wp_mono; [apply unsubscribe_spec |]. intros r w1 [Hoth Hok]. split; [done |].
    intros Hr. apply targets_spec. intros k s t Hk Hp Hst Ht Hw.
    unfold target_of in Ht. destruct (sub_walletPubkey s); [| done]. injection Ht as <-.
    specialize (Hok Hr k s Hk Hw Hp). congruence.
Qed.

(** What the API reports after it has subscribed a wallet; a join of another
    wallet does not change it. *)
Theorem subscription_seen dto protocol now w :
  one_row (v_tables (view w) MProtocolSubscription) → sb_walletAddress dto ≠ "" →
  wp (_ ← subscribe_api dto protocol now; check_api (sb_walletAddress dto) protocol) (λ r _,
    ∀ x, r = Ok x → st_isSubscribed x = true ∧ st_channels x = default ["email"] (sb_channels dto)) w.
Proof.
  intros H1 Hne. apply wp_bind. eapply wp_mono; [by apply subscribe_spec |].
  intros [s | e] w1 (_ & _ & Hok); [| done].
  unfold check_api. rewrite (proj2 (String.eqb_neq _ _) Hne).
  destruct (Hok eq_refl) as (k & s0 & Hk & Hw & Hp & Hst & Hch & Hm).
  apply check_spec; [by exists k, s0 |]. intros k' s' Hk' Hw' Hp'.
  rewrite (Hm k' s' Hk' Hw' Hp'). cbn. by rewrite (bool_decide_eq_true_2 _ Hst).
Qed.
End subscriptions.

(** ** Witnesses *)

Definition sample_subscription (id wallet protocol : string) : ProtocolSubscription := {|
  sub_id := id; sub_walletPubkey := Some wallet; sub_walletHash := wallet;
  sub_protocolId := protocol; sub_channels := ["email"]; sub_status := Active;
  sub_source := "sdk"; sub_subscribedAt := 0; sub_updatedAt := 0 |}.

Section witness.
#[local] Instance identity_sha : Hashing := { sha256 s := s }.

Definition audience : World :=
  mem_world (with_rows MProtocolSubscription [sample_subscription "s1" "w1" "p1"] no_tables) ∅.

Lemma subscribe_unsubscribe_witness :
  (match (getBroadcastTargets "p1" (unsubscribe "w1" "p1" 5 audience).2).1 with
   | Ok l => l = [] | Err _ => False end) ∧
  wp (subscribe "w1" "p1" ["sms"] "sdk" 5) (λ r w1,
    one_row (v_tables (view w1) MProtocolSubscription) ∧
    others_kept (sha256 "w1") "p1" (view audience) (view w1) ∧
    (is_ok r = true → wp (checkSubscription (sha256 "w1") "p1") (λ r' _, ∀ x, r' = Ok x →
      st_isSubscribed x = true ∧ st_channels x = ["sms"]) w1)) audience ∧
  wp (unsubscribe (sha256 "w1") "p1" 5) (λ r w1,
    others_kept (sha256 "w1") "p1" (view audience) (view w1) ∧
    (r = Ok () → wp (getBroadcastTargets "p1") (λ r' _, ∀ l, r' = Ok l →
      Forall (λ t, bt_walletHash t ≠ sha256 "w1") l) w1)) audience.
Proof.
  split; [vm_compute; reflexivity |].
  apply (subscribe_unsubscribe "w1" "p1" ["sms"] "sdk" 5 audience).
  assert (v_tables (view audience) MProtocolSubscription =
    {["s1" := sample_subscription "s1" "w1" "p1"]}) as -> by reflexivity.
  intros k1 k2 s1 s2 [<- _]%lookup_singleton_Some [<- _]%lookup_singleton_Some _ _. reflexivity.
Defined.
End witness.
