(* ===== verification/Classifier.v ===== *)
(** * The second opinion on suspicious content

    [AiClassifierService.classifyAndFlag] of
    [src/modules/notify/ai-classifier.service.ts].  The language model (with
    the prompt and the parsing of its answer, [classify]) is a parameter; a
    confidence is the rational number of its decimal notation. *)

From Stdlib Require Import QArith.
From S2P Require Import Prelude Schema External Memory Frame.

Open Scope string_scope.
Open Scope list_scope.
Open Scope Z_scope.

Inductive ai_verdict := AiAllow | AiFlag | AiBlock.

#[export] Instance ai_verdict_eq_dec : EqDecision ai_verdict.
Proof. solve_decision. Defined.

(** [AiVerdict]; the answer may lack a confidence. *)
Record AiVerdict := {
  av_verdict : ai_verdict;
  av_confidence : option Q;
}.

(** The [params] of [classifyAndFlag]. *)
Record ClassifyParams := {
  cp_protocolId : string;
  cp_protocolName : string;
  cp_verificationStatus : option VerificationStatus;
  cp_tier : Z;
  cp_environment : environment;
  cp_subject : string;
  cp_body : string;
  cp_riskScore : Z;
  cp_triggeredRules : list string;
}.

Definition severity_of (v : AiVerdict) (riskScore : Z) : Severity :=
  if bool_decide (av_verdict v = AiBlock) || (70 <=? riskScore) then SevHigh
  else if match av_confidence v with Some c => Qle_bool (4 # 5) c | None => false end
  then SevMedium else SevLow.

(** [verificationStatus: { notIn: ['VERIFIED', 'FLAGGED'] }] *)
Definition flaggable (s : VerificationStatus) : bool :=
  negb (bool_decide (s = VERIFIED)) && negb (bool_decide (s = FLAGGED)).

Section classifier.
Context `{B : Backend}.
(** [None] when no provider is configured. *)
Context (classify : option (ClassifyParams → result AiVerdict)).

(** The writes: the text of [flagReason] is not kept, but a missing confidence
    makes it throw. *)
Definition flag (params : ClassifyParams) (v : AiVerdict) : M World () :=
  _ ← lift match av_confidence v with
           | Some _ => Ok ()
           | None => Err (JsError "Cannot read properties of undefined" None)
           end;
  _ ← create MModerationQueue (λ id, {|
    mq_id := id; mq_protocolId := cp_protocolId params;
    mq_severity := severity_of v (cp_riskScore params);
    mq_rulesTriggers := cp_triggeredRules params |});
  update_many MProtocol
    (λ k p, bool_decide (k = cp_protocolId params) && flaggable (p_verificationStatus p))
    (λ p, p <| p_verificationStatus := FLAGGED |>).

Definition classifyAndFlag (params : ClassifyParams) : M World () :=
  match classify with
  | None => mret ()
  | Some model =>
      match model params with
      | Err _ => mret ()
      | Ok v =>
          if bool_decide (av_verdict v = AiAllow) && (cp_riskScore params <? 60) then mret ()
          else swallow () (flag params v)
      end
  end.

(** ** Properties *)

Context `{BL : !BackendLaws B}.

Definition classifier_frame : Frame := {|
  fr_table m := m = MModerationQueue ∨ m = MProtocol; fr_job _ := False; fr_key _ := False;
  fr_send _ := False |}.

Lemma classifyAndFlag_keeps params : Keeps classifier_frame (classifyAndFlag params).
Proof. unfold classifyAndFlag, flag. keeps; cbn; auto. Qed.

(** A protocol whose status changed was flagged, and there is an item for it
    in the moderation queue. *)
Definition flagged_with_item (params : ClassifyParams) (v : AiVerdict) (v0 v1 : View) : Prop :=
  v_tables v1 MProtocol = v_tables v0 MProtocol ∨
  (∃ k item, v_tables v1 MModerationQueue !! k = Some item ∧
    mq_protocolId item = cp_protocolId params ∧
    mq_severity item = severity_of v (cp_riskScore params)) ∧
  ∀ k p, v_tables v0 MProtocol !! k = Some p → v_tables v1 MProtocol !! k =
    Some (if bool_decide (k = cp_protocolId params) && flaggable (p_verificationStatus p)
          then p <| p_verificationStatus := FLAGGED |> else p).

(** The classification of a suspicious notification never rejects, and
    changes the protocol's status only to [FLAGGED], only if the model gave a
    verdict that is not ['allow'] (or any verdict, for a score of at least 60),
    never for a protocol that is verified, and only with an item in the
    moderation queue. *)
Theorem classify_flags params w :
  wp (classifyAndFlag params) (λ r w', r = Ok () ∧
    (v_tables (view w') MProtocol = v_tables (view w) MProtocol ∨
     ∃ model v, classify = Some model ∧ model params = Ok v ∧
       (av_verdict v ≠ AiAllow ∨ 60 ≤ cp_riskScore params) ∧
       flagged_with_item params v (view w) (view w'))) w.
Proof.
  unfold classifyAndFlag. destruct classify as [model|]; [| by apply wp_ret; auto].
  destruct (model params) as [v|e] eqn:Hm; [| by apply wp_ret; auto].
  destruct (bool_decide (av_verdict v = AiAllow) && _) eqn:Hallow; [by apply wp_ret; auto |].
  assert (av_verdict v ≠ AiAllow ∨ 60 ≤ cp_riskScore params) as Hv.
  { apply andb_false_iff in Hallow as [?%bool_decide_eq_false | ?%Z.ltb_ge]; auto. }
  apply wp_swallow. unfold flag. apply wp_bind, wp_lift.
  destruct (av_confidence v); [| by split; [| left]].
  apply wp_bind, (wp_create MModerationQueue); [| by intros e w1 ->; split; [| left]].
  intros i item w1 -> _ _ Hv1. apply (wp_update_many MProtocol).
  - intros w2 Hv2. split; [done |]. right. exists model, v. split_and!; [done.. |]. right.
    rewrite Hv2, Hv1. cbn. split.
    + eexists i, _. rewrite upd_ne, upd_eq, lookup_insert_eq by done. by split_and!.
    + intros k p Hk. rewrite upd_eq, upd_ne by done.
      etrans; [apply (lookup_update_where (m := MProtocol)) |].
      change (row MProtocol) with Protocol. by rewrite Hk.
  - intros e w2 ->. rewrite Hv1. split; [done |]. left. cbn. by rewrite upd_ne.
Qed.
End classifier.

(** ** Witness *)

Definition suspicious : ClassifyParams := {|
  cp_protocolId := "p1"; cp_protocolName := "Proto"; cp_verificationStatus := Some UNVERIFIED;
  cp_tier := 0; cp_environment := Production; cp_subject := "s"; cp_body := "b";
  cp_riskScore := 45; cp_triggeredRules := ["url_shortener"] |}.

Definition flagging_model : option (ClassifyParams → result AiVerdict) :=
  Some (λ _, Ok {| av_verdict := AiFlag; av_confidence := Some 1%Q |}).

Definition unverified_protocol : Protocol := {|
  p_id := "p1"; p_protocolPubkey := "pk"; p_nameEncrypted := ""; p_tier := 1; p_isActive := true;
  p_isSuspended := false; p_verificationStatus := UNVERIFIED; p_sendsThisPeriod := 0;
  p_overageEnabled := false; p_periodResetAt := 0; p_updatedAt := 0 |}.

Lemma classify_flags_witness :
  let w := mem_world (with_rows MProtocol [unverified_protocol] no_tables) ∅ in
  let run := classifyAndFlag flagging_model suspicious w in
  run.1 = Ok () ∧
  p_verificationStatus <$> v_tables (view run.2) MProtocol !! "p1" = Some FLAGGED ∧
  (v_tables (view run.2) MProtocol = v_tables (view w) MProtocol ∨
   ∃ model v, flagging_model = Some model ∧ model suspicious = Ok v ∧
     (av_verdict v ≠ AiAllow ∨ 60 ≤ cp_riskScore suspicious) ∧
     flagged_with_item suspicious v (view w) (view run.2)).
Proof.
  intros w run.
  destruct (wp_at _ _ w _ (classify_flags flagging_model suspicious w) eq_refl) as [Hr Hflag].
  split_and!; [exact Hr | vm_compute; reflexivity | exact Hflag].
Defined.
