(* ===== verification/Notify.v ===== *)
(** * Accepting notifications

    [NotifyService] of [src/modules/notify/notify.service.ts]: the production
    and the sandbox path of a notification, broadcasts, and the status of
    notifications.  The ids a call generates are arguments; the classification
    that is not awaited runs where it is started. *)

From Stdlib Require Import Ascii String.
From stdpp Require Import pretty.
From S2P Require Import Prelude Schema External Memory Frame Scanner Queue Classifier.
From S2P Require Import Subscriptions Sandbox.

Open Scope string_scope.
Open Scope list_scope.
Open Scope Z_scope.

(** [NotifyDto] *)
Record NotifyDto := {
  nd_wallet : string;
  nd_subject : string;
  nd_body : string;
  nd_category : option string;
  nd_idempotencyKey : option string;
  nd_receipt : option bool;
  nd_priority : option priority;
  nd_preferred_channel : option channel;
  nd_batchChannels : option (list channel);
  nd_batchExcludeChannels : option (list channel);
  nd_templateId : option string;
  nd_telegramTemplateId : option string;
  nd_variables : gmap string string;
}.

(** The masked test contact of a response. *)
Record MaskedContact := {
  mc_email : option string;
  mc_telegram : option string;
  mc_sms : option string;
}.

(** [NotifyResponseDto] *)
Record NotifyResponse := {
  nr_notification_id : string;
  nr_status : NotificationStatus;
  nr_error_code : option string;
  nr_recipient_registered : option bool;
  nr_estimated_delivery_ms : Z;
  nr_environment : environment;
  nr_test_contact : option MaskedContact;
  nr_sandbox_notes : list string;
}.

Definition response (env : environment) (id : string) (status : NotificationStatus)
    (code : option string) (registered : option bool) (ms : Z) (notes : list string) :
    NotifyResponse := {|
  nr_notification_id := id; nr_status := status; nr_error_code := code;
  nr_recipient_registered := registered; nr_estimated_delivery_ms := ms; nr_environment := env;
  nr_test_contact := None; nr_sandbox_notes := notes |}.

Definition idempotency_key (key : string) : string := "idempotency:notify:" +:+ key.

Definition category_of (dto : NotifyDto) : string := default "defi" (nd_category dto).

(** [s.slice(-4)] *)
Definition last4 (s : string) : string := substring (String.length s - 4) 4 s.

Fixpoint split_at (s : string) : list string :=
  match s with
  | EmptyString => [""]
  | String c s' =>
      if Ascii.eqb "@" c then "" :: split_at s'
      else match split_at s' with
           | t :: ts => String c t :: ts
           | [] => [String c ""]
           end
  end.

Definition maskEmail (email : string) : string :=
  match split_at email with
  | local :: domain :: _ => substring 0 2 local +:+ "***@" +:+ domain
  | local :: _ => substring 0 2 local +:+ "***@undefined"
  | [] => ""
  end.

Definition maskPhone (phone : string) : string := substring 0 4 phone +:+ "***" +:+ last4 phone.

Definition mask (f : string → string) (o : option string) : option string :=
  if truthy o then option_map f o else None.

Definition masked (c : DecryptedChannels) : MaskedContact := {|
  mc_email := mask maskEmail (tc_email c);
  mc_telegram := mask (λ _, "configured") (tc_telegramChatId c);
  mc_sms := mask maskPhone (tc_phone c) |}.

Definition checkOptIn (identity : IdentityAccount) (category : string) : bool :=
  if negb (ia_optInAll identity) then false
  else if (category =? "defi")%string then ia_optInDefi identity
  else if (category =? "governance")%string then ia_optInGovernance identity
  else if (category =? "marketing")%string then ia_optInMarketing identity
  else (category =? "system")%string.

(** The same for a user of the portal, an object with the names of the columns
    as its properties: [None] is [undefined]. *)
Definition checkOptInFromPortalUser (user : string → option bool) (category : string) : option bool :=
  if negb (default false (user "opt_in_all")) then Some false
  else if (category =? "defi")%string then user "opt_in_defi"
  else if (category =? "governance")%string then user "opt_in_governance"
  else if (category =? "marketing")%string then user "opt_in_marketing"
  else Some (category =? "system")%string.

Section notify.
Context `{B : Backend} `{Hsh : Hashing}.
Context (classify : option (ClassifyParams → result AiVerdict)).

(** The row both paths start from. *)
Definition notification_row (dto : NotifyDto) (protocol : AuthenticatedProtocol) (id : string)
    (status : NotificationStatus) (writeReceipt : bool) (now : Z) : Notification :=
  new_notification id (ap_protocolId protocol) (sha256 (nd_wallet dto)) (sha256 (nd_subject dto))
    (category_of dto) status (nd_idempotencyKey dto) writeReceipt now.

Definition create_row (n : Notification) : M World () :=
  _ ← create MNotification (λ _, n);
  mret ().

Definition job_of (dto : NotifyDto) (protocol : AuthenticatedProtocol) (id subject : string)
    (writeReceipt isSandbox : bool) (testContact : option TestContact) : NotificationJobData := {|
  j_notificationId := id; j_protocolId := ap_protocolId protocol;
  j_protocolPubkey := ap_protocolPubkey protocol;
  j_protocolName := default "Unknown Protocol" (ap_name protocol);
  j_wallet := nd_wallet dto; j_walletHash := Some (sha256 (nd_wallet dto));
  j_subject := subject; j_body := nd_body dto; j_category := category_of dto;
  j_writeReceipt := writeReceipt; j_digestMode := false;
  j_priority := Some (default Normal (nd_priority dto)); j_channels := nd_batchChannels dto;
  j_excludedChannels := nd_batchExcludeChannels dto;
  j_preferredChannel := nd_preferred_channel dto; j_isSandbox := isSandbox;
  j_testContact := testContact; j_tier := Some (ap_tier protocol);
  j_templateId := nd_templateId dto; j_telegramTemplateId := nd_telegramTemplateId dto;
  j_templateVariables := nd_variables dto |}.

(** The [catch] around [enqueueNotification]: the row is marked, the key of
    the request freed. *)
Definition enqueue_failed (dto : NotifyDto) (id : string) : M World () :=
  _ ← swallow () (
    _ ← update MNotification (by_id MNotification id)
          (λ n, n <| n_status := Failed |> <| n_errorCode := Some "ENQUEUE_FAILED" |>);
    mret ());
  if truthy (nd_idempotencyKey dto)
  then swallow () (redis_del (idempotency_key (default "" (nd_idempotencyKey dto))))
  else mret ().

(** ** Production *)

(** The claim of the idempotency key: the id of the earlier request, if there
    is one. *)
Definition claim_key (dto : NotifyDto) (id : string) (now : Z) : M World (option string) :=
  if truthy (nd_idempotencyKey dto) then
    let key := idempotency_key (default "" (nd_idempotencyKey dto)) in
    stored ← redis_set_nx key (RNotificationId id) 86400 now;
    if (stored : bool) then mret None else
    existing ← redis_get key now;
    mret (Some match existing with Some (RNotificationId d) => d | _ => id end)
  else mret None.

Definition template_blocked (p : where_ MNotificationTemplate) : M World bool :=
  tmpl ← find_first MNotificationTemplate p None;
  mret (chain_bool (λ t, negb (bool_decide (nt_status t = APPROVED))) tmpl).

Definition own_template (id protocolId : string) : where_ MNotificationTemplate := λ k t,
  bool_decide (k = id) && bool_decide (nt_protocolId t = protocolId).

Definition production_response := response Production.

(** From the content scan on. *)
Definition accept_production (dto : NotifyDto) (protocol : AuthenticatedProtocol) (id : string)
    (now : Z) : M World NotifyResponse :=
  let res := scan (nd_subject dto) (nd_body dto) in
  let receipt := default true (nd_receipt dto) in
  if bool_decide (sc_verdict res = Block) then
    mret (production_response id Blocked (Some "CONTENT_BLOCKED") None 0 [])
  else
    _ ← create_row ((notification_row dto protocol id Queued receipt now)
          <| n_riskScore := Some (riskScore res) |> <| n_scanVerdict := Some (sc_verdict res) |>);
    _ ← (if bool_decide (sc_verdict res = Review) then
           swallow () (classifyAndFlag classify {|
             cp_protocolId := ap_protocolId protocol;
             cp_protocolName := default "Unknown Protocol" (ap_name protocol);
             cp_verificationStatus := ap_verificationStatus protocol; cp_tier := ap_tier protocol;
             cp_environment := ap_environment protocol; cp_subject := nd_subject dto;
             cp_body := nd_body dto; cp_riskScore := riskScore res;
             cp_triggeredRules := triggeredRules res |})
         else mret ());
    catch (
      _ ← enqueueNotification (job_of dto protocol id (nd_subject dto) receipt false None);
      mret (production_response id Queued None None 2500 []))
    (λ _,
      _ ← enqueue_failed dto id;
      mret (production_response id Failed (Some "ENQUEUE_FAILED") None 0 [])).

Definition queueProductionNotification (dto : NotifyDto) (protocol : AuthenticatedProtocol)
    (id : string) (now : Z) : M World NotifyResponse :=
  duplicate ← claim_key dto id now;
  match duplicate with
  | Some d => mret (production_response d Duplicate None None 0 [])
  | None =>
      blocked ← (if truthy (nd_templateId dto)
                 then template_blocked (own_template (default "" (nd_templateId dto))
                        (ap_protocolId protocol))
                 else mret false);
      if (blocked : bool) then
        mret (production_response id Blocked (Some "TEMPLATE_PENDING_REVIEW") None 0 [])
      else accept_production dto protocol id now
  end.

(** ** Sandbox *)

Context (devnet : option DevnetConfig).   (** ENABLE_DEVNET_SANDBOX_RESOLUTION *)

Definition sandbox_response := response Sandbox.

(** A row that records the end of the request, and the response. *)
Definition record_and_answer (dto : NotifyDto) (protocol : AuthenticatedProtocol) (id : string)
    (status : NotificationStatus) (code : option string) (registered : bool)
    (extra : Notification → Notification) (notes : list string) (now : Z) :
    M World NotifyResponse :=
  _ ← create_row (extra ((notification_row dto protocol id status false now)
        <| n_errorCode := code |>));
  mret (sandbox_response id status code (Some registered) 0 notes).

Definition devnet_result (dto : NotifyDto) : DevnetResolutionResult :=
  match devnet with
  | Some cfg => resolveDevnetWallet cfg (nd_wallet dto)
  | None => unresolved
  end.

(** Where a sandbox notification goes, with the note for the response, or the
    response that ends the request. *)
Inductive delivery_target :=
| DeliverTo (contact : TestContact) (registered : bool) (note : string)
| Answered (r : NotifyResponse).

Definition settings_contact (s : ProtocolSettings) : TestContact :=
  {| tc_email := ps_testEmail s; tc_telegramChatId := ps_testTelegramId s;
     tc_phone := ps_testPhone s |}.

Definition no_test_contact (c : TestContact) : bool :=
  negb (truthy (tc_email c)) && negb (truthy (tc_telegramChatId c)) && negb (truthy (tc_phone c)).

Definition delivery_contact (dto : NotifyDto) (protocol : AuthenticatedProtocol) (id : string)
    (now : Z) : M World delivery_target :=
  let res := devnet_result dto in
  if dv_resolved res then
    if chain_bool (λ i, negb (checkOptIn i (category_of dto))) (dv_identity res) then
      r ← record_and_answer dto protocol id OptedOut None true (λ n, n)
            ["Wallet opted out of this category on devnet."; "Delivery skipped."] now;
      mret (Answered r)
    else mret (DeliverTo (dv_channels res) true
      "Delivering to devnet-registered channels (decrypted via ENCLAVE_TEST_KEY).")
  else
    settings ← find_unique MProtocolSettings (by_id MProtocolSettings (ap_protocolId protocol));
    let contact := from_option settings_contact no_channels settings in
    let on_devnet := bool_decide (is_Some devnet) in
    if no_test_contact contact then
      r ← record_and_answer dto protocol id Failed (Some "SANDBOX_NO_TEST_CONTACT") false (λ n, n)
            [if on_devnet && bool_decide (dv_identity res = None)
             then "Wallet not registered on devnet. Register at app.useherald.xyz to test with real channels."
             else "No test contact configured. Set one in your protocol settings.";
             "This notification was NOT delivered."] now;
      mret (Answered r)
    else mret (DeliverTo contact false
      (if on_devnet && negb (bool_decide (dv_identity res = None))
       then "Delivering to static test contacts (channels could not be decrypted via ENCLAVE_TEST_KEY)."
       else "Delivering to static test contacts.")).

(** Steps 7 and 8, and the response. *)
Definition enqueue_sandbox (dto : NotifyDto) (protocol : AuthenticatedProtocol) (id : string)
    (quota : SandboxValidationResult) (contact : TestContact) (registered : bool) (note : string)
    (now : Z) : M World NotifyResponse :=
  _ ← create_row (notification_row dto protocol id Queued false now);
  enqueued ← catch (
      _ ← enqueueNotification (job_of dto protocol id (addTestPrefix (nd_subject dto)) false true
            (Some contact));
      mret true)
    (λ _, _ ← enqueue_failed dto id; mret false);
  if negb (enqueued : bool) then
    mret (sandbox_response id Failed (Some "ENQUEUE_FAILED") (Some registered) 0
      ["Failed to enqueue notification for delivery.";
       "Service temporarily unavailable — retry later."])
  else
    _ ← incrementUsage (ap_apiKeyId protocol) now;
    let res := devnet_result dto in
    shown ← (if dv_resolved res then mret (dv_channels res) else
      settings ← find_unique MProtocolSettings (by_id MProtocolSettings (ap_protocolId protocol));
      mret (from_option settings_contact no_channels settings));
    mret ((sandbox_response id Queued None (Some registered) 2500
      [note; "This notification will NOT count against your production monthly quota.";
       "Sandbox daily usage: " +:+ pretty (sv_remainingToday quota - 1) +:+ " of " +:+
         pretty (sv_dailyLimit quota) +:+ " remaining after this send.";
       "ZK receipt disabled in sandbox mode."]) <| nr_test_contact := Some (masked shown) |>).

(** The row of an earlier request with the same key, within an hour. *)
Definition recent_duplicate (key : string) (now : Z) : where_ MNotification := λ _ n,
  bool_decide (n_idempotencyKey n = Some key) && (now - 3600000 <=? n_queuedAt n).

Definition join_rules (rules : list string) : string :=
  match rules with
  | [] => ""
  | r :: rs => fold_left (λ s x, s +:+ ", " +:+ x) rs r
  end.

(** From the template gate on. *)
Definition accept_sandbox (dto : NotifyDto) (protocol : AuthenticatedProtocol) (id : string)
    (quota : SandboxValidationResult) (now : Z) : M World NotifyResponse :=
  blocked ← (if truthy (nd_templateId dto)
             then template_blocked (by_id MNotificationTemplate (default "" (nd_templateId dto)))
             else mret false);
  if (blocked : bool) then
    record_and_answer dto protocol id Blocked (Some "TEMPLATE_PENDING_REVIEW") false (λ n, n)
      ["Template is not APPROVED."] now
  else
    let res := scan (nd_subject dto) (nd_body dto) in
    if bool_decide (sc_verdict res = Block) then
      record_and_answer dto protocol id Blocked (Some "CONTENT_BLOCKED") false
        (λ n, n <| n_riskScore := Some (riskScore res) |> <| n_scanVerdict := Some (sc_verdict res) |>)
        ["Content scan blocked — triggered rules: " +:+ join_rules (triggeredRules res)] now
    else
      target ← delivery_contact dto protocol id now;
      match target with
      | Answered r => mret r
      | DeliverTo contact registered note =>
          enqueue_sandbox dto protocol id quota contact registered note now
      end.

Definition queueSandboxNotification (dto : NotifyDto) (protocol : AuthenticatedProtocol)
    (id : string) (now : Z) : M World NotifyResponse :=
  quota ← validateSandboxKey (ap_apiKeyId protocol) now;
  if negb (sv_allowed quota) then
    raise (HttpError 429 (default "SANDBOX_LIMIT_EXCEEDED" (sv_errorCode quota)))
  else
    existing ← (if truthy (nd_idempotencyKey dto)
                then find_first MNotification
                       (recent_duplicate (default "" (nd_idempotencyKey dto)) now) None
                else mret None);
    match existing with
    | Some n => mret (sandbox_response (n_id n) Duplicate None (Some true) 0
                        ["Sandbox duplicate — idempotency window is 1 hour"])
    | None => accept_sandbox dto protocol id quota now
    end.

Definition queueNotification (dto : NotifyDto) (protocol : AuthenticatedProtocol) (id : string)
    (now : Z) : M World NotifyResponse :=
  if bool_decide (ap_environment protocol = Sandbox)
  then queueSandboxNotification dto protocol id now
  else queueProductionNotification dto protocol id now.

(** ** Broadcasts *)

Record BroadcastDto := {
  bd_subject : string;
  bd_body : string;
  bd_category : option string;
  bd_receipt : option bool;
  bd_templateId : option string;
}.

Record BroadcastResponse := {
  br_broadcast_id : string;
  br_queued_count : Z;
  br_total_subscribers : Z;
  br_skipped_count : Z;
  br_estimated_delivery_s : Z;
}.

Definition broadcast_row (dto : BroadcastDto) (protocol : AuthenticatedProtocol) (now : Z)
    (id : string) (t : BroadcastTarget) : Notification :=
  new_notification id (ap_protocolId protocol) (bt_walletHash t) (sha256 (bd_subject dto))
    (default "system" (bd_category dto)) Queued None (default false (bd_receipt dto)) now.

Definition broadcast_job (dto : BroadcastDto) (protocol : AuthenticatedProtocol) (id : string)
    (t : BroadcastTarget) : NotificationJobData := {|
  j_notificationId := id; j_protocolId := ap_protocolId protocol;
  j_protocolPubkey := ap_protocolPubkey protocol;
  j_protocolName := default "Unknown Protocol" (ap_name protocol);
  j_wallet := bt_walletPubkey t; j_walletHash := Some (bt_walletHash t);
  j_subject := bd_subject dto; j_body := bd_body dto;
  j_category := default "system" (bd_category dto);
  j_writeReceipt := default false (bd_receipt dto); j_digestMode := false;
  j_priority := Some Normal; j_channels := None; j_excludedChannels := None;
  j_preferredChannel := None; j_isSandbox := false; j_testContact := None;
  j_tier := Some (ap_tier protocol); j_templateId := bd_templateId dto;
  j_telegramTemplateId := None; j_templateVariables := ∅ |}.

(** [createMany] is one statement. *)
Definition create_many (rows : list Notification) : M World () :=
  transaction (for_each (W := DB) (λ n, _ ← p_create MNotification (λ _, n) : M DB _; mret ()) rows).

Definition count_ok {A} (rs : list (result A)) : nat := length (List.filter is_ok rs).

(** [ids i] is the id of the row of the [i]-th target. *)
Definition queueBroadcast (dto : BroadcastDto) (protocol : AuthenticatedProtocol)
    (broadcastId : string) (ids : nat → string) (now : Z) : M World BroadcastResponse :=
  targets ← getBroadcastTargets (ap_protocolId protocol);
  totalSubscribers ← getSubscriberCount (ap_protocolId protocol);
  let skippedCount := totalSubscribers - Z.of_nat (length targets) in
  match targets with
  | [] => mret {| br_broadcast_id := broadcastId; br_queued_count := 0;
                  br_total_subscribers := totalSubscribers; br_skipped_count := skippedCount;
                  br_estimated_delivery_s := 0 |}
  | _ =>
      _ ← create_many (imap (λ i t, broadcast_row dto protocol now (ids i) t) targets);
      enqueueResults ← all_settled (imap (λ i t,
        enqueueNotification (broadcast_job dto protocol (ids i) t)) targets);
      let queued := Z.of_nat (count_ok enqueueResults) in
      mret {| br_broadcast_id := broadcastId; br_queued_count := queued;
              br_total_subscribers := totalSubscribers; br_skipped_count := skippedCount;
              br_estimated_delivery_s := ceil_div queued 10 |}
  end.

(** ** Status of notifications *)

Inductive receipt_state := ReceiptPending | ReceiptConfirmed | ReceiptFailed | ReceiptDisabled.

Definition receipt_status (n : Notification) : receipt_state :=
  if negb (n_writeReceipt n) then ReceiptDisabled
  else if truthy (n_receiptTx n) then ReceiptConfirmed
  else if truthy (n_receiptFailureReason n) then ReceiptFailed
  else ReceiptPending.

Record StatusResponse := {
  sr_notification : Notification;
  sr_receipt_status : receipt_state;
  sr_delivery_channel : option (option channel);
}.

Definition own_notification (id protocolId : string) : where_ MNotification := λ k n,
  bool_decide (k = id) && bool_decide (n_protocolId n = protocolId).

(** The first successful delivery is [include]d. *)
Definition getNotificationStatus (id protocolId : string) : M World StatusResponse :=
  notification ← find_first MNotification (own_notification id protocolId) None;
  match notification with
  | None => raise (HttpError 404 "NOTIFICATION_NOT_FOUND")
  | Some n =>
      channelDeliveries ← find_many MChannelDelivery
        (λ _ d, bool_decide (cd_notificationId d = n_id n) && cd_success d) (Some cd_createdAt);
      mret {| sr_notification := n; sr_receipt_status := receipt_status n;
              sr_delivery_channel := option_map cd_channel (head channelDeliveries) |}
  end.

(** Prisma refuses a negative [skip]. *)
Definition listNotifications (protocolId : string) (page : Z) (limit : nat) :
    M World (list (Notification * receipt_state) * Z * Z) :=
  let own : where_ MNotification := λ _ n, bool_decide (n_protocolId n = protocolId) in
  let skip := (page - 1) * Z.of_nat limit in
  if skip <? 0 then raise (JsError "Invalid value for skip argument" None) else
  notifications ← find_many MNotification own (Some (λ n, - n_queuedAt n));
  total ← count MNotification own;
  mret ((λ n, (n, receipt_status n)) <$> firstn limit (drop (Z.to_nat skip) notifications),
        total, ceil_div total (Z.of_nat limit)).

(** ** Lemmas *)

Context `{BL : !BackendLaws B}.

Definition key_of (dto : NotifyDto) : string :=
  idempotency_key (default "" (nd_idempotencyKey dto)).

(** For a user whose properties have the names of the columns it is the same
    test; a row as Prisma returns it has others, and then nobody is opted in to
    anything. *)
Lemma portal_opt_in identity user category :
  user "opt_in_all" = Some (ia_optInAll identity) → user "opt_in_defi" = Some (ia_optInDefi identity) →
  user "opt_in_governance" = Some (ia_optInGovernance identity) →
  user "opt_in_marketing" = Some (ia_optInMarketing identity) →
  checkOptInFromPortalUser user category = Some (checkOptIn identity category).
Proof.
  unfold checkOptInFromPortalUser, checkOptIn. intros -> -> -> ->. cbn. by repeat case_match.
Qed.

Lemma portal_row_opted_out (user : string → option bool) category : user "opt_in_all" = None →
  checkOptInFromPortalUser user category = Some false.
Proof. unfold checkOptInFromPortalUser. by intros ->. Qed.

Lemma claim_key_spec dto id now Q w :
  (truthy (nd_idempotencyKey dto) = false → Q (Ok None) w) →
  (∀ w', truthy (nd_idempotencyKey dto) = true →
     live now (re_strings (v_redis (view w)) !! key_of dto) = None →
     view w' = (view w) <| v_redis ::= set re_strings
       (insert (key_of dto) (RNotificationId id, Some (now + 86400 * 1000))) |> → Q (Ok None) w') →
  (∀ w' x, truthy (nd_idempotencyKey dto) = true →
     live now (re_strings (v_redis (view w)) !! key_of dto) = Some x → view w' = view w →
     Q (Ok (Some match x with RNotificationId d => d | _ => id end)) w') →
  (∀ e w', view w' = view w → Q (Err e) w') →
  wp (claim_key dto id now) Q w.
Proof.
  intros Hno Hnew Hdup Herr. unfold claim_key.
  destruct (truthy (nd_idempotencyKey dto)); [| by apply wp_ret, Hno].
  fold (key_of dto). apply wp_bind, wp_redis_set_nx; [| | done].
  - intros w' Hl Hv. by apply wp_ret, Hnew.
  - intros x w1 Hl Hv1. apply wp_bind, wp_redis_get; [| intros e w2 Hv2; apply Herr; congruence].
    intros w2 Hv2. apply wp_ret. rewrite Hv1, Hl. apply Hdup; [done | done | congruence].
Qed.

(** The row after a failed [enqueueNotification]. *)
Definition marked_failed (n n' : Notification) : Prop :=
  n' = n ∨ n' = n <| n_status := Failed |> <| n_errorCode := Some "ENQUEUE_FAILED" |>.

(** The table after a row was created with a fresh id. *)
Definition row_created (id : string) (n : Notification) (v v' : View) : Prop :=
  v_tables v MNotification !! id = None ∧
  v_tables v' MNotification = <[id := n]> (v_tables v MNotification).

Definition unchanged (v v' : View) : Prop :=
  v_tables v' MNotification = v_tables v MNotification ∧
  v_jobs v' QNotification = v_jobs v QNotification.

Lemma wp_create_row n Q w :
  (∀ w', row_created (n_id n) n (view w) (view w') → v_jobs (view w') = v_jobs (view w) →
     v_redis (view w') = v_redis (view w) → Q (Ok ()) w') →
  (∀ e w', view w' = view w → Q (Err e) w') →
  wp (create_row n) Q w.
Proof.
  intros Hok Herr. apply wp_bind, (wp_create MNotification); [| done].
  intros i r w' -> Hfresh _ Hv. apply wp_ret, Hok; rewrite Hv; [| done | done].
  split; [exact Hfresh |]. cbn. by rewrite upd_eq.
Qed.

Definition job_added (j : NotificationJobData) (v v' : View) : Prop :=
  v_jobs v' QNotification = v_jobs v QNotification ++ [deliver_job j].

(** What the [catch] around [enqueueNotification] does, for a row created
    just before. *)
Lemma wp_enqueue {A} (a b : A) dto id n j Q w :
  v_tables (view w) MNotification !! id = Some n →
  (∀ w', v_tables (view w') = v_tables (view w) → v_redis (view w') = v_redis (view w) →
     job_added j (view w) (view w') → Q (Ok a) w') →
  (∀ w' n', marked_failed n n' →
     v_tables (view w') MNotification = <[id := n']> (v_tables (view w) MNotification) →
     (v_jobs (view w') QNotification = v_jobs (view w) QNotification ∨
      job_added j (view w) (view w')) → Q (Ok b) w') →
  wp (catch (_ ← enqueueNotification j; mret a) (λ _, _ ← enqueue_failed dto id; mret b)) Q w.
Proof.
  intros Hn Hok Hfail.
  assert (∀ w', view w' = (view w) <| v_jobs ::= upd_jobs QNotification (add_job (deliver_job j)) |> →
    job_added j (view w) (view w')) as Hadd.
  { intros w' ->. unfold job_added. cbn. rewrite upd_jobs_eq. by apply add_job_append. }
  apply wp_catch, wp_bind, (wp_add_with_timeout QNotification).
  - intros w1 Hv1. apply wp_ret, Hok; [by rewrite Hv1 | by rewrite Hv1 | by apply Hadd].
  - intros e w1 Hv1. apply wp_bind, wp_bind, wp_swallow, wp_bind.
    assert (v_tables (view w1) = v_tables (view w)) as Ht1 by (by destruct Hv1 as [-> | ->]).
    assert (v_jobs (view w1) QNotification = v_jobs (view w) QNotification ∨
      job_added j (view w) (view w1)) as Hj1 by (destruct Hv1 as [-> | ?]; auto).
    assert (∀ w2 n', marked_failed n n' → v_jobs (view w2) = v_jobs (view w1) →
      v_tables (view w2) MNotification = <[id := n']> (v_tables (view w) MNotification) →
      wp (if truthy (nd_idempotencyKey dto) then swallow () (redis_del (key_of dto)) else mret ())
        (λ r w', match r with Ok _ => wp (mret b) Q w' | Err e => Q (Err e) w' end) w2) as Hkey.
    { intros w2 n' Hn' Hj2 Ht2. destruct (truthy _).
      - apply wp_swallow, wp_redis_del; intros; apply wp_ret, (Hfail _ n'); try done;
          unfold job_added in *; rewrite ?H, ?H0; cbn; rewrite ?Hj2; done.
      - apply wp_ret, wp_ret, (Hfail _ n'); [done | done | unfold job_added in *; by rewrite Hj2]. }
    apply (wp_update MNotification).
    + intros k r w2 Hk ->%bool_decide_eq_true Hv2. rewrite Ht1 in Hk.
      pose proof (Some_agree Hk Hn) as ->. apply wp_ret. eapply Hkey; [by right | by rewrite Hv2 |].
      rewrite Hv2. cbn. by rewrite upd_eq, Ht1.
    + intros e' w2 Hv2. eapply Hkey; [by left | by rewrite Hv2 |]. rewrite Hv2, Ht1.
      symmetry. by apply insert_id.
Qed.

(** What a production request did, by the status of its response. *)
Inductive production_effect (dto : NotifyDto) (protocol : AuthenticatedProtocol) (id : string)
    (v v' : View) (resp : NotifyResponse) : Prop :=
| pe_duplicate : nr_status resp = Duplicate → unchanged v v' →
    (∃ k, nd_idempotencyKey dto = Some k ∧ k ≠ "") → production_effect dto protocol id v v' resp
| pe_blocked : nr_status resp = Blocked → nr_notification_id resp = id → unchanged v v' →
    ((∃ t, v_tables v MNotificationTemplate !! default "" (nd_templateId dto) = Some t ∧
       nt_protocolId t = ap_protocolId protocol ∧ nt_status t ≠ APPROVED) ∨
     sc_verdict (scan (nd_subject dto) (nd_body dto)) = Block) →
    production_effect dto protocol id v v' resp
| pe_queued n : nr_status resp = Queued → nr_notification_id resp = id →
    sc_verdict (scan (nd_subject dto) (nd_body dto)) ≠ Block →
    row_created id n v v' → n_status n = Queued → n_protocolId n = ap_protocolId protocol →
    job_added (job_of dto protocol id (nd_subject dto) (default true (nd_receipt dto)) false None) v v' →
    production_effect dto protocol id v v' resp
| pe_failed n : nr_status resp = Failed → nr_notification_id resp = id →
    row_created id n v v' → n_status n = Queued ∨ n_status n = Failed →
    v_jobs v' QNotification = v_jobs v QNotification ∨
      job_added (job_of dto protocol id (nd_subject dto) (default true (nd_receipt dto)) false None) v v' →
    production_effect dto protocol id v v' resp.

Lemma accept_production_spec dto protocol id now w :
  wp (accept_production dto protocol id now) (λ r w', ∀ resp, r = Ok resp →
    production_effect dto protocol id (view w) (view w') resp ∧
    nr_status resp ≠ Duplicate ∧
    (nr_status resp ≠ Failed → re_strings (v_redis (view w')) = re_strings (v_redis (view w)))) w.
Proof.
  unfold accept_production. cbn zeta. set (res := scan _ _).
  case_bool_decide as Hblock.
  { apply wp_ret. intros ? [= <-]. split_and!; [| done | done].
    apply pe_blocked; [done | done | done | by right]. }
  apply wp_bind, wp_create_row; [| done]. intros w1 [Hfresh Ht1] Hj1 Hr1.
  set (n := notification_row _ _ _ _ _ _) in *. set (n1 := set n_scanVerdict _ _) in *.
  apply wp_bind. set (cls := if bool_decide _ then _ else _).
  assert (Keeps classifier_frame cls) as Hcls.
  { unfold cls. case_bool_decide; [| apply keeps_ret].
    apply keeps_swallow. exact (classifyAndFlag_keeps _ _). }
  apply (wp_keeps classifier_frame); [exact Hcls |].
  intros [[]|e] w2 [Ht2 Hj2 Hk2 _]; [| done].
  assert (v_tables (view w2) MNotification = <[id := n1]> (v_tables (view w) MNotification)) as Htn.
  { rewrite (Ht2 MNotification) by (cbn; intuition discriminate). exact Ht1. }
  assert (v_jobs (view w2) QNotification = v_jobs (view w) QNotification) as Hjn.
  { rewrite Hj2 by (intros []). by rewrite Hj1. }
  assert (re_strings (v_redis (view w2)) = re_strings (v_redis (view w))) as Hrn.
  { apply map_eq. intros k. rewrite Hk2 by (intros []). by rewrite Hr1. }
  apply (wp_enqueue _ _ _ _ n1).
  - rewrite Htn. apply lookup_insert_eq.
  - intros w3 Ht3 Hr3 Hj3. intros ? [= <-]. split_and!; [| done | intros _; by rewrite Hr3].
    eapply (pe_queued _ _ _ _ _ _ n1); [done | done | done | | done | done |].
    + split; [exact Hfresh | by rewrite Ht3].
    + unfold job_added in *. by rewrite Hj3, Hjn.
  - intros w3 n' Hn' Ht3 Hj3. intros ? [= <-]. split_and!; [| done | done].
    eapply (pe_failed _ _ _ _ _ _ n'); [done | done | | |].
    + split; [exact Hfresh |]. rewrite Ht3, Htn. apply insert_insert_eq.
    + destruct Hn' as [-> | ->]; [by left | by right].
    + unfold job_added in *. by rewrite <- Hjn.
Qed.

Lemma template_blocked_spec p Q w :
  (∀ b w', (b = true → ∃ k t, v_tables (view w) MNotificationTemplate !! k = Some t ∧
     p k t = true ∧ nt_status t ≠ APPROVED) → view w' = view w → Q (Ok b) w') →
  (∀ e w', view w' = view w → Q (Err e) w') →
  wp (template_blocked p) Q w.
Proof.
  intros Hok Herr. apply wp_bind, (wp_find_first MNotificationTemplate); [| done].
  intros o w' Ho Hv. apply wp_ret, Hok; [| done]. destruct o as [t|]; [| done].
  intros Hb%negb_true_iff%bool_decide_eq_false. destruct Ho as (k & ? & ?). by exists k, t.
Qed.

Lemma effect_view dto protocol id v1 v v' resp :
  v_tables v1 = v_tables v → v_jobs v1 = v_jobs v →
  production_effect dto protocol id v1 v' resp → production_effect dto protocol id v v' resp.
Proof.
  intros Ht Hj. unfold unchanged, row_created, job_added.
  destruct 1; unfold unchanged, row_created, job_added in *; rewrite Ht, Hj in *.
  - by apply pe_duplicate.
  - by apply pe_blocked.
  - by eapply pe_queued.
  - by eapply pe_failed.
Qed.

(** The template gate and what follows it. *)
Lemma after_claim_spec dto protocol id now w :
  wp (blocked ← (if truthy (nd_templateId dto)
                 then template_blocked (own_template (default "" (nd_templateId dto))
                        (ap_protocolId protocol))
                 else mret false);
      if (blocked : bool) then
        mret (production_response id Blocked (Some "TEMPLATE_PENDING_REVIEW") None 0 [])
      else accept_production dto protocol id now)
    (λ r w', ∀ resp, r = Ok resp →
      production_effect dto protocol id (view w) (view w') resp ∧ nr_status resp ≠ Duplicate ∧
      (nr_status resp ≠ Failed → re_strings (v_redis (view w')) = re_strings (v_redis (view w)))) w.
Proof.
  apply wp_bind. destruct (truthy (nd_templateId dto)) eqn:Ht; [| apply wp_ret, accept_production_spec].
  apply template_blocked_spec; [| done]. intros b w1 Hb Hv1. destruct b.
  - apply wp_ret. intros ? [= <-]. rewrite Hv1. split_and!; [| done | done].
    apply pe_blocked; [done | done | done |]. left.
    destruct (Hb eq_refl) as (k & t & Hk & Hp & Hst).
    unfold own_template in Hp. rewrite andb_true_iff, !bool_decide_eq_true in Hp.
    destruct Hp as [-> Hp]. by exists t.
  - rewrite <- Hv1. apply accept_production_spec.
Qed.

(** ** Properties *)

Lemma queue_production_spec dto protocol id now w :
  wp (queueProductionNotification dto protocol id now) (λ r w', ∀ resp, r = Ok resp →
    production_effect dto protocol id (view w) (view w') resp) w.
Proof.
  unfold queueProductionNotification. apply wp_bind, claim_key_spec; [| | | done].
  - intros _. eapply wp_mono; [apply after_claim_spec |]. intros r w' H resp Hr. by apply H.
  - intros w1 _ _ Hv1. eapply wp_mono; [apply after_claim_spec |]. intros r w' H resp Hr.
    eapply effect_view; [| | by apply H]; by rewrite Hv1.
  - intros w1 x Htr _ Hv1. apply wp_ret. intros ? [= <-]. rewrite Hv1.
    apply pe_duplicate; [done | done |]. by apply truthy_Some.
Qed.

(** C1.  A production request.  By the status of the response: a duplicate (a
    request with an idempotency key) and a blocked one (content that the scan
    blocks, or a template of the protocol that is not approved) change no
    notification and queue nothing; a queued one has created one row under a
    fresh id, in the state ['queued'], and added exactly its job; a failed one
    has created its row, and no other job than its own was added.  There is no
    other answer: a production request looks no wallet up, so that none is
    answered as opted out, as the documents and the service's unit test have
    it. *)
Theorem production_request dto protocol id now w :
  wp (queueProductionNotification dto protocol id now) (λ r w', ∀ resp, r = Ok resp →
    production_effect dto protocol id (view w) (view w') resp) w.
Proof. apply queue_production_spec. Qed.

(** The claim of a key, by the request [id], until a time. *)
Definition claimed (key id : string) (until : Z) (v : View) : Prop :=
  re_strings (v_redis v) !! idempotency_key key = Some (RNotificationId id, Some until).

(** What touches no claim of [key]. *)
Definition other_frame (key : string) : Frame := {|
  fr_table _ := True; fr_job _ := True; fr_key k := k ≠ idempotency_key key; fr_send _ := True |}.

Lemma other_key key key' : key' ≠ key → idempotency_key key' ≠ idempotency_key key.
Proof. intros Hne Heq. apply Hne. unfold idempotency_key in Heq. by injection Heq. Qed.

Lemma request_keeps_claims dto protocol id now key :
  key ≠ "" → nd_idempotencyKey dto ≠ Some key →
  Keeps (other_frame key) (queueNotification dto protocol id now).
Proof.
  intros Hne Hkey. assert (frame_le classifier_frame (other_frame key)) as Hle by (split; cbn; intuition).
  assert (truthy (nd_idempotencyKey dto) = true →
    idempotency_key (default "" (nd_idempotencyKey dto)) ≠ idempotency_key key) as Hown.
  { intros (k & Hk & _)%truthy_Some. rewrite Hk. cbn. apply other_key. intros ->. by apply Hkey. }
  unfold queueNotification, queueSandboxNotification, queueProductionNotification, accept_sandbox,
    accept_production, enqueue_sandbox, delivery_contact, record_and_answer, enqueue_failed, create_row,
    claim_key, template_blocked, validateSandboxKey, getTodayCount, counter_value, incrementUsage,
    count_today, enqueueNotification.
  repeat first [ keeps_step | apply keeps_add_with_timeout
               | eapply Keeps_le; [exact Hle | apply classifyAndFlag_keeps] ]; cbn; auto.
Qed.

(** C20.  Idempotency of production requests.  One with an idempotency key that
    was answered as queued or blocked holds the claim of the key, for 24 hours.
    While a claim is held, whatever else has happened, every production request
    with its key, of whatever protocol, is a duplicate: it changes nothing, so
    that it creates no row and queues nothing, and is answered with the id of
    the first.  And no request with another key, or none, of either
    environment, takes the claim away.  Sandbox requests do not look at the
    claim: they look for a row with the key in the last hour, and one that can
    not be queued frees the key. *)
Theorem idempotent_request dto protocol id now key w :
  nd_idempotencyKey dto = Some key → key ≠ "" →
  wp (queueProductionNotification dto protocol id now) (λ r w1, ∀ resp, r = Ok resp →
    nr_status resp ≠ Duplicate → nr_status resp ≠ Failed →
    claimed key id (now + 86400000) (view w1)) w ∧
  ∀ dto' protocol' id' now' w', claimed key id (now + 86400000) (view w') → now' < now + 86400000 →
    (nd_idempotencyKey dto' = Some key →
     wp (queueProductionNotification dto' protocol' id' now') (λ r' w'',
       view w'' = view w' ∧ ∀ resp', r' = Ok resp' →
         nr_status resp' = Duplicate ∧ nr_notification_id resp' = id) w') ∧
    (nd_idempotencyKey dto' ≠ Some key →
     wp (queueNotification dto' protocol' id' now') (λ _ w'',
       claimed key id (now + 86400000) (view w'')) w').
Proof.
  intros Hkey Hne. assert (truthy (Some key) = true) as Htr by (apply truthy_Some; eauto). split.
  - unfold queueProductionNotification. apply wp_bind, claim_key_spec; rewrite ?Hkey; [congruence | | |].
    + intros w1 _ _ Hv1. eapply wp_mono; [apply after_claim_spec |].
      intros r w2 H resp Hr Hd Hf. destruct (H resp Hr) as (_ & _ & Hredis). specialize (Hredis Hf).
      unfold claimed. rewrite Hredis, Hv1. unfold key_of. rewrite Hkey. cbn. by rewrite lookup_insert_eq.
    + intros w1 x _ _ _. apply wp_ret. intros ? [= <-] Hd. by destruct Hd.
    + done.
  - intros dto' protocol' id' now' w' Hc Hnow. split; intros Hkey'.
    + assert (live now' (re_strings (v_redis (view w')) !! key_of dto') = Some (RNotificationId id)) as Hl.
      { unfold key_of. rewrite Hkey'. cbn. rewrite Hc. unfold live. by rewrite (proj2 (Z.ltb_lt _ _)). }
      unfold queueProductionNotification. apply wp_bind, claim_key_spec; rewrite ?Hkey'; [congruence | | |].
      * intros w3 _ Hnone. congruence.
      * intros w3 x _ Hx Hv3. apply wp_ret. split; [done |]. intros ? [= <-].
        split; [done |]. rewrite Hl in Hx. by injection Hx as <-.
      * intros e w3 Hv3. by split.
    + eapply wp_mono; [by apply (request_keeps_claims dto' protocol' id' now' key) |].
      intros r w'' [_ _ Hk _]. unfold claimed. rewrite Hk; [done |]. cbn. tauto.
Qed.

(** ** Lemmas: broadcasts *)

Definition rows_created (rows : list Notification) (t t' : gmap string Notification) : Prop :=
  (∀ n, n ∈ rows → t !! n_id n = None ∧ t' !! n_id n = Some n) ∧
  (∀ k, (∀ n, n ∈ rows → n_id n ≠ k) → t' !! k = t !! k).

Lemma rows_created_old rows t t' k n : rows_created rows t t' → t !! k = Some n → t' !! k = Some n.
Proof.
  intros [Hin Hold] Hk. rewrite Hold; [done |]. intros n' Hn' <-. destruct (Hin _ Hn') as [? _]. congruence.
Qed.

Lemma count_all {A} (rs : list (result A)) : count_ok rs = length rs → Forall (λ r, is_ok r = true) rs.
Proof.
  unfold count_ok. induction rs as [|r rs IH]; [constructor |]. cbn.
  pose proof (filter_length_le is_ok rs). destruct (is_ok r) eqn:Hr; cbn; [| lia].
  intros [= Hl]. constructor; auto.
Qed.

Lemma rows_created_snoc rows n t t' :
  rows_created rows t t' → t' !! n_id n = None → rows_created (rows ++ [n]) t (<[n_id n := n]> t').
Proof.
  intros Hc Hfresh. pose proof (λ k n, rows_created_old rows t t' k n Hc) as Hold. destruct Hc as [Hin Hkeep].
  assert (∀ k n', t' !! k = Some n' → n_id n ≠ k) as Hne by (intros k n' Hk <-; congruence).
  split.
  - intros n' [Hn' | ->%list_elem_of_singleton]%elem_of_app.
    + destruct (Hin _ Hn') as [H0 H1]. split; [done |]. rewrite lookup_insert_ne; eauto.
    + split; [| apply lookup_insert_eq]. destruct (t !! n_id n) as [n0|] eqn:H0; [| done].
      apply Hold in H0. by destruct (Hne _ _ H0).
  - intros k Hk. rewrite lookup_insert_ne by (apply Hk, elem_of_app; right; by left).
    apply Hkeep. intros n' Hn'. apply Hk, elem_of_app. by left.
Qed.

Lemma create_many_spec rows w :
  wp (create_many rows) (λ r w', v_jobs (view w') = v_jobs (view w) ∧
    (∀ m, m ≠ MNotification → v_tables (view w') m = v_tables (view w) m) ∧
    (r = Ok () → rows_created rows (v_tables (view w) MNotification)
                   (v_tables (view w') MNotification))) w.
Proof.
  apply wp_transaction; [| by intros e w' ->]. intros d Hd.
  apply (wp_for_each _ (λ rest d', ∃ done_, rows = done_ ++ rest ∧
    (∀ m, m ≠ MNotification → tables d' m = v_tables (view w) m) ∧
    rows_created done_ (v_tables (view w) MNotification) (tables d' MNotification))).
  - exists []. rewrite Hd. split_and!; [done | done |]. split; [by intros n ?%elem_of_nil | done].
  - intros n rest d' (done_ & -> & Hm & Hc). apply wp_bind, (wp_db_create MNotification).
    2:{ intros e d'' _ a w' [=]. }
    intros i r d'' -> Hfresh Ht. apply wp_ret. exists (done_ ++ [n]). rewrite <- app_assoc.
    split_and!; [done | | rewrite Ht, upd_eq; by apply rows_created_snoc].
    intros m Hne. rewrite Ht, upd_ne by done. by apply Hm.
  - intros d' (done_ & Hd' & Hm & Hc). rewrite app_nil_r in Hd'. subst done_.
    intros [] w' _ Hv. rewrite Hv. by split_and!.
Qed.

(** The jobs, one after another, with how each was answered: it was added, or
    adding it rejected, or timed out, after which it may be there all the
    same. *)
Inductive enqueued_all : list NotificationJobData → list (result ()) → View → View → Prop :=
| ea_none v : enqueued_all [] [] v v
| ea_more js rs j r v v1 v2 : enqueued_all js rs v v1 →
    v2 = v1 <| v_jobs ::= upd_jobs QNotification (add_job (deliver_job j)) |> ∨ (v2 = v1 ∧ is_ok r = false) →
    (∀ e, r = Err e → rejects (enqueueNotification j) v1 e) →
    enqueued_all (js ++ [j]) (rs ++ [r]) v v2.

Lemma enqueue_all_spec js0 w :
  wp (all_settled (enqueueNotification <$> js0)) (λ r w', ∃ rs, r = Ok rs ∧
    enqueued_all js0 rs (view w) (view w')) w.
Proof.
  apply (wp_all_settled _ (λ rs ms w', ∃ done_ rest, js0 = done_ ++ rest ∧
    ms = enqueueNotification <$> rest ∧ enqueued_all done_ rs (view w) (view w'))).
  - exists [], js0. split_and!; [done | done | constructor].
  - intros rs m ms w1 (done_ & [|j rest] & -> & Hms & Hea); [done |]. injection Hms as -> ->.
    apply wp_rejects, (wp_add_with_timeout QNotification).
    + intros w2 Hv2 Hrej. exists (done_ ++ [j]), rest. rewrite <- app_assoc. split_and!; [done | done |].
      by eapply ea_more; [| left |].
    + intros e w2 Hv2 Hrej. exists (done_ ++ [j]), rest. rewrite <- app_assoc. split_and!; [done | done |].
      eapply ea_more; [done | destruct Hv2; [by right | by left] | done].
  - intros rs w1 (done_ & [|j rest] & -> & Hms & Hea); [| done]. exists rs. by rewrite app_nil_r.
Qed.

Lemma enqueued_all_jobs js0 rs v v' : enqueued_all js0 rs v v' →
  length rs = length js0 ∧ v_tables v' = v_tables v ∧ ∃ js, js `sublist_of` js0 ∧
    (count_ok rs ≤ length js)%nat ∧ v_jobs v' QNotification = v_jobs v QNotification ++ (deliver_job <$> js) ∧
    (Forall (λ r, is_ok r = true) rs → js = js0).
Proof.
  induction 1 as [v | js0 rs j r v v1 v2 _ (Hlen & Ht & js & Hsub & Hc & Hj & Hall) Hv2 _].
  - split_and!; [done | done |]. exists []. cbn. by rewrite app_nil_r.
  - rewrite !length_app, Hlen. split_and!; [done | destruct Hv2 as [-> | [-> _]]; done |].
    unfold count_ok in *. rewrite List.filter_app, length_app. destruct Hv2 as [-> | [-> Hr]].
    + exists (js ++ [j]). rewrite length_app. cbn. rewrite upd_jobs_eq, add_job_append by done.
      rewrite Hj, fmap_app, app_assoc.
      split_and!; [by apply sublist_app | destruct (is_ok r); cbn; lia | done |].
      intros [Hrs _]%list.Forall_app. by rewrite (Hall Hrs).
    + exists js. cbn. rewrite Hr. split_and!; [by apply sublist_inserts_r | cbn; lia | done |].
      intros [_ Hrs]%list.Forall_app. apply list.Forall_cons in Hrs as [Hrs _]. congruence.
Qed.

(** The targets of a broadcast: all the active subscribers of a protocol whose
    wallet is known, each once. *)
Definition broadcast_targets (protocolId : string) (t : gmap string ProtocolSubscription)
    (targets : list BroadcastTarget) : Prop :=
  ∃ rows, selects MProtocolSubscription (targeted protocolId) None t rows ∧ targets = omap target_of rows.

(** Every one of them is there, and none else. *)
Lemma broadcast_targets_iff protocolId t targets x : broadcast_targets protocolId t targets →
  x ∈ targets ↔ ∃ k s, t !! k = Some s ∧ sub_protocolId s = protocolId ∧ sub_status s = Active ∧
    target_of s = Some x.
Proof.
  intros (rows & (_ & (ks & _ & Hks) & Hall) & ->). rewrite list_elem_of_omap. split.
  - intros (s & Hin & Ht). apply list_elem_of_lookup in Hin as [i Hi].
    destruct (Forall2_lookup_r _ _ _ _ _ Hks Hi) as (k & _ & Hk & Hp).
    unfold targeted, active_of in Hp. rewrite !andb_true_iff, !bool_decide_eq_true in Hp.
    destruct Hp as [[? ?] _]. eauto 6.
  - intros (k & s & Hk & Hp & Hst & Ht). exists s. split; [| done]. apply (Hall k); [done |].
    unfold targeted, active_of. rewrite !andb_true_iff, !bool_decide_eq_true. split_and!; [done | done |].
    unfold target_of in Ht. destruct (sub_walletPubkey s); [by eexists | done].
Qed.

(** What a broadcast that returns has done. *)
Record broadcast_effect (dto : BroadcastDto) (protocol : AuthenticatedProtocol) (ids : nat → string) (now : Z)
    (v v' : View) (resp : BroadcastResponse) (targets : list BroadcastTarget) : Prop := {
  be_targets : broadcast_targets (ap_protocolId protocol) (v_tables v MProtocolSubscription) targets;
  be_rows : rows_created (imap (λ i t, broadcast_row dto protocol now (ids i) t) targets)
    (v_tables v MNotification) (v_tables v' MNotification);
  be_tables m : m ≠ MNotification → v_tables v' m = v_tables v m;
  be_jobs : ∃ v1 rs, v_jobs v1 = v_jobs v ∧ v_tables v1 = v_tables v' ∧
    enqueued_all (imap (λ i t, broadcast_job dto protocol (ids i) t) targets) rs v1 v' ∧
    br_queued_count resp = Z.of_nat (count_ok rs);
  be_counts : ∃ subscribers,
    selects MProtocolSubscription (active_of (ap_protocolId protocol)) None
      (v_tables v MProtocolSubscription) subscribers ∧
    br_total_subscribers resp = Z.of_nat (length subscribers) ∧
    br_skipped_count resp = br_total_subscribers resp - Z.of_nat (length targets);
}.

(** C21.  A broadcast.  The targets are all the active subscribers of the
    protocol whose wallet is known, each once and no other, whatever the
    protocol's tier and however much of its quota it has used.  When
    [queueBroadcast] returns, exactly one row was created for each of them,
    under a fresh id, and no other row changed; and the job of each was added
    in turn, where only a job whose own addition rejected or timed out is not
    counted as queued.  So when all are counted as queued, the queue has grown
    by exactly the jobs of all targets, in their order; in any case by no other
    job, and by no fewer than are counted.  The total is the number of active
    subscribers, and those skipped are the ones that are no targets. *)
Theorem broadcast_reaches_targets dto protocol broadcastId ids now w :
  wp (queueBroadcast dto protocol broadcastId ids now) (λ r w', ∀ resp, r = Ok resp →
    ∃ targets, broadcast_effect dto protocol ids now (view w) (view w') resp targets ∧
    (∀ t, t ∈ targets ↔ ∃ k s, v_tables (view w) MProtocolSubscription !! k = Some s ∧
       sub_protocolId s = ap_protocolId protocol ∧ sub_status s = Active ∧ target_of s = Some t) ∧
    ∃ js, js `sublist_of` imap (λ i t, broadcast_job dto protocol (ids i) t) targets ∧
      v_jobs (view w') QNotification = v_jobs (view w) QNotification ++ (deliver_job <$> js) ∧
      0 ≤ br_queued_count resp ≤ Z.of_nat (length js) ∧
      (br_queued_count resp = Z.of_nat (length targets) →
       js = imap (λ i t, broadcast_job dto protocol (ids i) t) targets)) w.
Proof.
  eapply (wp_mono _ (λ r w', ∀ resp, r = Ok resp →
    ∃ targets, broadcast_effect dto protocol ids now (view w) (view w') resp targets)).
  2:{ intros r w' H resp Hr. destruct (H resp Hr) as (targets & Heff). exists targets. split; [done |].
      destruct Heff as [Htg _ _ (v1 & rs & Hj1 & _ & Hea & Hq) _].
      split; [intros t; by apply broadcast_targets_iff |].
      destruct (enqueued_all_jobs _ _ _ _ Hea) as (Hlen & _ & js & Hsub & Hc & Hj & Hall).
      exists js. rewrite Hj, Hj1, Hq. split_and!; [done | done | lia | lia |]. intros Hcount. apply Hall.
      rewrite length_imap in Hlen. apply count_all. lia. }
  unfold queueBroadcast, getBroadcastTargets. apply wp_bind, wp_bind, (wp_find_many MProtocolSubscription); [| done].
  intros rows w1 Hs Hv1. apply wp_ret. set (targets := omap target_of rows).
  assert (broadcast_targets (ap_protocolId protocol) (v_tables (view w) MProtocolSubscription) targets) as Htg
    by (by exists rows).
  unfold getSubscriberCount, count. apply wp_bind, wp_bind, (wp_find_many MProtocolSubscription); [| done].
  intros subs w2 Hsubs Hv2. apply wp_ret. rewrite Hv1 in Hsubs, Hv2. rewrite <- Hv2 in *. clear Hv1 Hv2 Hs.
  destruct targets as [|t0 ts] eqn:Hts.
  - apply wp_ret. intros ? [= <-]. exists []. split; [done | | done | | ].
    + split; [by intros n ?%elem_of_nil | done].
    + exists (view w2), []. split_and!; [done | done | constructor | done].
    + by exists subs.
  - rewrite <- Hts in *. clear Hts. apply wp_bind. eapply wp_mono; [apply create_many_spec |].
    intros [[]|e] w3 (Hj3 & Hm & Hrows); [| done]. specialize (Hrows eq_refl). apply wp_bind.
    replace (imap (λ i t, enqueueNotification (broadcast_job dto protocol (ids i) t)) targets)
      with (enqueueNotification <$> imap (λ i t, broadcast_job dto protocol (ids i) t) targets)
      by apply fmap_imap.
    eapply wp_mono; [apply enqueue_all_spec |].
    intros r w4 (rs & -> & Hea). apply wp_ret. intros ? [= <-]. exists targets.
    destruct (enqueued_all_jobs _ _ _ _ Hea) as (_ & Ht & _). split; [done | by rewrite Ht | | | ].
    + intros m Hne. rewrite Ht. by apply Hm.
    + by exists (view w3), rs.
    + by exists subs.
Qed.

(** ** Lemmas: the sandbox path *)

Definition counter_frame : Frame := {|
  fr_table _ := False; fr_job _ := False; fr_key _ := True; fr_send _ := False |}.

Lemma validate_keeps k now : Keeps counter_frame (validateSandboxKey k now).
Proof. unfold validateSandboxKey, getTodayCount, counter_value. keeps. Qed.

Lemma increment_keeps k now : Keeps counter_frame (incrementUsage k now).
Proof. unfold incrementUsage, count_today. keeps. Qed.

(** What a sandbox request did, by the status of its response. *)
Inductive sandbox_effect (dto : NotifyDto) (protocol : AuthenticatedProtocol) (id : string)
    (v v' : View) (resp : NotifyResponse) : Prop :=
| se_duplicate : nr_status resp = Duplicate → unchanged v v' →
    sandbox_effect dto protocol id v v' resp
| se_recorded n : nr_status resp ∈ [Blocked; OptedOut; Failed] → row_created id n v v' →
    n_status n = nr_status resp → n_writeReceipt n = false →
    v_jobs v' QNotification = v_jobs v QNotification → sandbox_effect dto protocol id v v' resp
| se_queued n contact : nr_status resp = Queued → row_created id n v v' → n_status n = Queued →
    n_writeReceipt n = false → no_test_contact contact = false →
    job_added (job_of dto protocol id (addTestPrefix (nd_subject dto)) false true (Some contact)) v v' →
    sandbox_effect dto protocol id v v' resp
| se_failed n contact : nr_status resp = Failed → row_created id n v v' →
    n_status n = Queued ∨ n_status n = Failed →
    v_jobs v' QNotification = v_jobs v QNotification ∨
      job_added (job_of dto protocol id (addTestPrefix (nd_subject dto)) false true (Some contact)) v v' →
    sandbox_effect dto protocol id v v' resp.

(** The tables and jobs of two views agree where the effect looks. *)
Definition agree (v v' : View) : Prop :=
  v_tables v' MNotification = v_tables v MNotification ∧
  v_jobs v' QNotification = v_jobs v QNotification.

Lemma sandbox_effect_agree dto protocol id v0 v v' v1 resp :
  agree v0 v → agree v' v1 →
  sandbox_effect dto protocol id v v' resp → sandbox_effect dto protocol id v0 v1 resp.
Proof.
  intros [Ht0 Hj0] [Ht1 Hj1].
  destruct 1; unfold unchanged, row_created, job_added in *; rewrite ?Ht0, ?Hj0, <- ?Ht1, <- ?Hj1 in *.
  - by apply se_duplicate.
  - by eapply se_recorded.
  - by eapply se_queued.
  - by eapply se_failed.
Qed.

Lemma counter_agree v v' : within counter_frame v v' → agree v v'.
Proof. intros [Ht Hj _ _]. split; [apply Ht | apply Hj]; by intros []. Qed.

Lemma record_and_answer_spec dto protocol id status code registered extra notes now w :
  status ∈ [Blocked; OptedOut; Failed] →
  (∀ n, n_id (extra n) = n_id n ∧ n_status (extra n) = n_status n ∧
        n_writeReceipt (extra n) = n_writeReceipt n) →
  wp (record_and_answer dto protocol id status code registered extra notes now)
    (λ r w', ∀ resp, r = Ok resp → sandbox_effect dto protocol id (view w) (view w') resp) w.
Proof.
  intros Hst Hex. unfold record_and_answer. set (n := set n_errorCode _ _).
  destruct (Hex n) as (Hid & Hs & Hr). apply wp_bind, wp_create_row; [| done].
  intros w' Hrow Hj _. apply wp_ret. intros ? [= <-]. rewrite Hid in Hrow.
  by eapply (se_recorded _ _ _ _ _ _ (extra n)); [| exact Hrow | rewrite Hs | rewrite Hr | rewrite Hj].
Qed.

Lemma resolved_contact dto :
  dv_resolved (devnet_result dto) = true → no_test_contact (dv_channels (devnet_result dto)) = false.
Proof.
  unfold devnet_result, resolveDevnetWallet, no_test_contact. destruct devnet as [cfg|]; [| done].
  destruct (dn_fetch cfg) as [f|]; [| done]. destruct (f _) as [[i|]|]; [| done | done].
  destruct (dn_decrypt cfg i) as [c|]; [cbn | done].
  by destruct (truthy (tc_email c)), (truthy (tc_telegramChatId c)), (truthy (tc_phone c)).
Qed.

Lemma delivery_contact_spec dto protocol id now w :
  wp (delivery_contact dto protocol id now) (λ r w', ∀ x, r = Ok x → match x with
    | DeliverTo contact _ _ => view w' = view w ∧ no_test_contact contact = false
    | Answered resp => sandbox_effect dto protocol id (view w) (view w') resp end) w.
Proof.
  unfold delivery_contact. cbn zeta.
  destruct (dv_resolved (devnet_result dto)) eqn:Hres.
  - destruct (chain_bool _ _); [| apply wp_ret; intros ? [= <-]; by auto using resolved_contact].
    apply wp_bind. eapply wp_mono; [apply record_and_answer_spec; [set_solver | done] |].
    intros [resp|e] w1 H; [apply wp_ret; intros ? [= <-]; by apply H | done].
  - apply wp_bind, (wp_find_unique MProtocolSettings); [| done]. intros s w1 _ Hv1.
    destruct (no_test_contact _) eqn:Hno; [| apply wp_ret; by intros ? [= <-]].
    apply wp_bind. rewrite <- Hv1.
    eapply wp_mono; [apply record_and_answer_spec; [set_solver | done] |].
    intros [resp|e] w2 H; [apply wp_ret; intros ? [= <-]; by apply H | done].
Qed.

Lemma enqueue_sandbox_spec dto protocol id quota contact registered note now w :
  no_test_contact contact = false →
  wp (enqueue_sandbox dto protocol id quota contact registered note now)
    (λ r w', ∀ resp, r = Ok resp → sandbox_effect dto protocol id (view w) (view w') resp) w.
Proof.
  intros Hc. unfold enqueue_sandbox. cbn zeta. set (n := notification_row _ _ _ _ _ _).
  apply wp_bind, wp_create_row; [| done]. intros w1 [Hfresh Ht1] Hj1 _. apply wp_bind.
  apply (wp_enqueue true false dto id n).
  - rewrite Ht1. apply lookup_insert_eq.
  - intros w2 Ht2 _ Hj2. cbn [negb].
    assert (∀ w3 resp, agree (view w2) (view w3) → nr_status resp = Queued →
      sandbox_effect dto protocol id (view w) (view w3) resp) as Hdone.
    { intros w3 resp Ha Hq. eapply (sandbox_effect_agree _ _ _ _ _ (view w2)); [by split | exact Ha |].
      eapply (se_queued _ _ _ _ _ _ n contact); [done | | done | done | done |].
      - split; [done | by rewrite Ht2].
      - unfold job_added in *. by rewrite Hj2, Hj1. }
    apply wp_bind, (wp_keeps counter_frame); [apply increment_keeps |].
    intros [[]|e] w3 Hw3%counter_agree; [| done]. apply wp_bind.
    destruct (dv_resolved _); [apply wp_ret, wp_ret; intros ? [= <-]; by apply Hdone |].
    apply wp_bind, (wp_find_unique MProtocolSettings); [| done].
    intros s w4 _ Hv4. apply wp_ret, wp_ret. intros ? [= <-]. apply Hdone; [by rewrite Hv4 | done].
  - intros w2 n' Hn' Ht2 Hj2. cbn [negb]. apply wp_ret. intros ? [= <-].
    eapply (se_failed _ _ _ _ _ _ n' contact); [done | | |].
    + split; [done |]. rewrite Ht2, Ht1. apply insert_insert_eq.
    + destruct Hn' as [-> | ->]; [by left | by right].
    + unfold job_added in *. by rewrite <- Hj1.
Qed.

Lemma accept_sandbox_spec dto protocol id quota now w :
  wp (accept_sandbox dto protocol id quota now)
    (λ r w', ∀ resp, r = Ok resp → sandbox_effect dto protocol id (view w) (view w') resp) w.
Proof.
  unfold accept_sandbox. apply wp_bind.
  assert (∀ w1, view w1 = view w → wp (
    let res := scan (nd_subject dto) (nd_body dto) in
    if bool_decide (sc_verdict res = Block) then
      record_and_answer dto protocol id Blocked (Some "CONTENT_BLOCKED") false
        (λ n, n <| n_riskScore := Some (riskScore res) |> <| n_scanVerdict := Some (sc_verdict res) |>)
        ["Content scan blocked — triggered rules: " +:+ join_rules (triggeredRules res)] now
    else
      target ← delivery_contact dto protocol id now;
      match target with
      | Answered r => mret r
      | DeliverTo contact registered note =>
          enqueue_sandbox dto protocol id quota contact registered note now
      end) (λ r w', ∀ resp, r = Ok resp → sandbox_effect dto protocol id (view w) (view w') resp) w1)
    as Hrest.
  { intros w1 Hv1. cbn zeta. rewrite <- Hv1. case_bool_decide.
    - apply record_and_answer_spec; [set_solver | done].
    - apply wp_bind. eapply wp_mono; [apply delivery_contact_spec |].
      intros [[contact registered note|resp0]|e] w2 H2; [| | done]; specialize (H2 _ eq_refl).
      + destruct H2 as [Hv2 Hc]. rewrite <- Hv2. by apply enqueue_sandbox_spec.
      + apply wp_ret. intros ? [= <-]. exact H2. }
  destruct (truthy (nd_templateId dto)); [| by apply wp_ret, Hrest].
  apply template_blocked_spec; [| done]. intros [] w1 _ Hv1; [| by apply Hrest].
  rewrite <- Hv1. apply record_and_answer_spec; [set_solver | done].
Qed.

Lemma sandbox_spec dto protocol id now w :
  wp (queueSandboxNotification dto protocol id now) (λ r w', ∀ resp, r = Ok resp →
    sandbox_effect dto protocol id (view w) (view w') resp) w.
Proof.
  unfold queueSandboxNotification. apply wp_bind, (wp_keeps counter_frame); [apply validate_keeps |].
  intros [quota|e] w1 Hw1%counter_agree; [| done].
  destruct (negb (sv_allowed quota)); [by apply wp_raise |].
  assert (∀ w2, view w2 = view w1 → wp (accept_sandbox dto protocol id quota now)
    (λ r w', ∀ resp, r = Ok resp → sandbox_effect dto protocol id (view w) (view w') resp) w2) as Hrest.
  { intros w2 Hv2. eapply wp_mono; [apply accept_sandbox_spec |]. intros r w3 H resp Hr.
    eapply sandbox_effect_agree; [| | by apply H]; [by rewrite Hv2 | done]. }
  apply wp_bind. destruct (truthy (nd_idempotencyKey dto)); [| by apply wp_ret, Hrest].
  apply (wp_find_first MNotification); [| done]. intros [n|] w2 _ Hv2; [| by apply Hrest].
  apply wp_ret. intros ? [= <-]. rewrite Hv2. by apply se_duplicate.
Qed.

(** A sandbox request.  Whatever the response, it never creates a
    notification with a receipt, and any job it adds is the sandbox job of its
    own row, under a prefixed subject, to a test contact: a queued request
    added exactly that job, a blocked or opted out one or one without a
    contact is recorded and added none, and a duplicate changed nothing. *)
Theorem sandbox_request dto protocol id now w :
  wp (queueSandboxNotification dto protocol id now) (λ r w', ∀ resp, r = Ok resp →
    sandbox_effect dto protocol id (view w) (view w') resp) w.
Proof. apply sandbox_spec. Qed.
End notify.

(** ** Witnesses *)

Definition sample_dto (key : option string) : NotifyDto := {|
  nd_wallet := "w"; nd_subject := "Price alert"; nd_body := "SOL is up 5% today";
  nd_category := None; nd_idempotencyKey := key; nd_receipt := None; nd_priority := None;
  nd_preferred_channel := None; nd_batchChannels := None; nd_batchExcludeChannels := None;
  nd_templateId := None; nd_telegramTemplateId := None; nd_variables := ∅ |}.

Definition sample_sender (id : string) : AuthenticatedProtocol := {|
  ap_protocolId := id; ap_protocolPubkey := "pk"; ap_apiKeyId := "k1"; ap_tier := 0;
  ap_scopes := ["notify:write"]; ap_environment := Production; ap_isActive := true;
  ap_sendsThisPeriod := None; ap_name := Some "Proto"; ap_overageEnabled := None;
  ap_isTestKey := None; ap_testKeyType := None; ap_verificationStatus := None |}.

Section witness.
#[local] Instance notify_sha : Hashing := { sha256 s := s }.

Definition send_as (protocol id : string) (now : Z) : M World NotifyResponse :=
  queueProductionNotification None (sample_dto (Some "key")) (sample_sender protocol) id now.

Lemma production_request_witness :
  let w := mem_world no_tables ∅ in
  let run := queueProductionNotification None (sample_dto None) (sample_sender "p1") "n1" 0 w in
  ∃ resp, run.1 = Ok resp ∧ nr_status resp = Queued ∧ length (v_jobs (view run.2) QNotification) = 1%nat ∧
    production_effect (sample_dto None) (sample_sender "p1") "n1" (view w) (view run.2) resp.
Proof.
  intros w run.
  assert (run.1 = Ok (production_response "n1" Queued None None 2500 [])) as Hr
    by (vm_compute; reflexivity).
  pose proof (wp_at _ _ w _
    (production_request None (sample_dto None) (sample_sender "p1") "n1" 0 w) eq_refl) as Heff.
  fold run in Heff. rewrite Hr in Heff. exists (production_response "n1" Queued None None 2500 []).
  split_and!; [exact Hr | reflexivity | vm_compute; reflexivity | exact (Heff _ eq_refl)].
Defined.

(** The key of a request of p1 also answers p2, after a request of p3 without
    a key. *)
Lemma idempotent_request_witness :
  let w := mem_world no_tables ∅ in
  let between := queueNotification None None (sample_dto None) (sample_sender "p3") "n3" 500 in
  let w1 := (send_as "p1" "n1" 0 w).2 in
  let w2 := (between w1).2 in
  (let '(r', w3) := send_as "p2" "n2" 1000 w2 in
   match (send_as "p1" "n1" 0 w).1, r' with
   | Ok x, Ok x' => nr_status x = Queued ∧ nr_status x' = Duplicate ∧
       nr_notification_id x' = "n1" ∧ length (v_jobs (view w3) QNotification) = 2%nat
   | _, _ => False
   end) ∧
  claimed "key" "n1" 86400000 (view w1) ∧ claimed "key" "n1" 86400000 (view w2) ∧
  wp (send_as "p2" "n2" 1000) (λ r' w3, view w3 = view w2 ∧ ∀ resp', r' = Ok resp' →
    nr_status resp' = Duplicate ∧ nr_notification_id resp' = "n1") w2.
Proof.
  intros w between w1 w2. split; [vm_compute; auto |].
  destruct (idempotent_request None None (sample_dto (Some "key")) (sample_sender "p1") "n1" 0 "key" w eq_refl)
    as [Hfirst Hlater]; [discriminate |].
  assert (claimed "key" "n1" 86400000 (view w1)) as H1.
  { refine (wp_at _ _ w (send_as "p1" "n1" 0 w).1 Hfirst eq_refl (production_response "n1" Queued None None 2500 []) _ _ _);
      [vm_compute; reflexivity | discriminate | discriminate]. }
  destruct (Hlater (sample_dto None) (sample_sender "p3") "n3" 500 w1 H1 eq_refl) as [_ Hother].
  assert (claimed "key" "n1" 86400000 (view w2)) as H2.
  { refine (wp_at _ _ w1 (between w1).1 (Hother _) eq_refl). discriminate. }
  split; [exact H1 |]. split; [exact H2 |].
  exact (proj1 (Hlater (sample_dto (Some "key")) (sample_sender "p2") "n2" 1000 w2 H2 eq_refl) eq_refl).
Defined.

(** A request whose job could not be queued is answered as failed and its key
    is freed; but its row keeps the key, which is unique, so the retry rejects;
    and the retry has claimed the key again, so the next one is answered as a
    duplicate of a notification that does not exist. *)
Lemma failed_request_not_retried :
  let w0 := (mem_world no_tables ∅) <| w_queue ::= set m_qfaults (λ _, [true]) |> in
  let '(r1, w1) := send_as "p1" "n1" 0 w0 in
  let '(r2, w2) := send_as "p1" "n2" 1000 w1 in
  let '(r3, w3) := send_as "p1" "n3" 2000 w2 in
  option_map nr_status (match r1 with Ok x => Some x | Err _ => None end) = Some Failed ∧
  r2 = Err unique_error ∧
  match r3 with
  | Ok x => nr_status x = Duplicate ∧ nr_notification_id x = "n2"
  | Err _ => False
  end ∧
  v_tables (view w3) MNotification !! "n2" = None.
Proof. vm_compute. auto. Qed.

Definition test_key : ApiKey := {|
  k_id := "k1"; k_protocolId := "p1"; k_keyHash := ""; k_keyPrefix := ""; k_environment := Sandbox;
  k_scopes := ["notify:write"]; k_isRevoked := false; k_expiresAt := None; k_isTestKey := true;
  k_testDailyLimit := 10; k_testKeyType := None; k_testKeyIpHash := None |}.

Definition test_settings : ProtocolSettings := {|
  ps_protocolId := "p1"; ps_websiteUrl := None; ps_customFromName := None;
  ps_testEmail := Some "dev@proto.xyz"; ps_testTelegramId := None; ps_testPhone := None;
  ps_telegramBotTokenEncrypted := None; ps_telegramBotUsername := None;
  ps_telegramGroupChatId := None; ps_telegramThreadIds := None;
  ps_telegramAutoPinEnabled := false; ps_trackEngagement := false;
  ps_telegramWelcomeMessage := None; ps_telegramGroupMemberCount := None;
  ps_telegramMemberCountAt := None; ps_telegramMigrationSentAt := None;
  ps_logoUrl := None; ps_notificationCategories := ["defi"; "governance"; "system"];
  ps_retryMaxAttempts := 3; ps_retryWindowHours := 6; ps_retryBackoff := "exponential";
  ps_criticalCategories := [] |}.

Lemma sandbox_request_witness :
  let w := mem_world (with_rows MApiKey [test_key]
             (with_rows MProtocolSettings [test_settings] no_tables)) ∅ in
  let run := queueSandboxNotification None (sample_dto None) (sample_sender "p1") "n1" 0 w in
  ∃ resp, run.1 = Ok resp ∧ nr_status resp = Queued ∧
    nr_test_contact resp = Some {| mc_email := Some "de***@proto.xyz"; mc_telegram := None; mc_sms := None |} ∧
    sandbox_effect (sample_dto None) (sample_sender "p1") "n1" (view w) (view run.2) resp.
Proof.
  intros w run.
  assert (match run.1 with
          | Ok resp => nr_status resp = Queued ∧ nr_test_contact resp =
              Some {| mc_email := Some "de***@proto.xyz"; mc_telegram := None; mc_sms := None |}
          | Err _ => False end) as Hresp by (vm_compute; split; reflexivity).
  pose proof (wp_at _ _ w _
    (sandbox_request None (sample_dto None) (sample_sender "p1") "n1" 0 w) eq_refl) as Heff.
  fold run in Heff. destruct run.1 as [resp|e]; [| destruct Hresp].
  exists resp. destruct Hresp as [Hst Hmask].
  split_and!; [reflexivity | exact Hst | exact Hmask | exact (Heff resp eq_refl)].
Defined.

Definition announcement : BroadcastDto := {|
  bd_subject := "News"; bd_body := "Body"; bd_category := None; bd_receipt := None;
  bd_templateId := None |}.

Definition follower : ProtocolSubscription := {|
  sub_id := "s1"; sub_walletPubkey := Some "W"; sub_walletHash := "h"; sub_protocolId := "p1";
  sub_channels := ["email"]; sub_status := Active; sub_source := "sdk"; sub_subscribedAt := 0;
  sub_updatedAt := 0 |}.

Lemma broadcast_reaches_targets_witness :
  let w := mem_world (with_rows MProtocolSubscription [follower] no_tables) ∅ in
  let ids := λ _ : nat, "n1" in
  let run := queueBroadcast announcement (sample_sender "p1") "b1" ids 0 w in
  let job := broadcast_job announcement (sample_sender "p1") "n1"
    {| bt_walletPubkey := "W"; bt_walletHash := "h"; bt_channels := ["email"] |} in
  (v_jobs (view run.2) QNotification = [deliver_job job] ∧
   dom (v_tables (view run.2) MNotification) = {["n1"]}) ∧
  ∃ resp targets, run.1 = Ok resp ∧ br_queued_count resp = 1 ∧
    broadcast_effect announcement (sample_sender "p1") ids 0 (view w) (view run.2) resp targets.
Proof.
  intros w ids run job. split; [split; vm_compute; reflexivity |].
  assert (match run.1 with Ok resp => br_queued_count resp = 1 | Err _ => False end) as Hcount
    by (vm_compute; reflexivity).
  pose proof (wp_at _ _ w _
    (broadcast_reaches_targets announcement (sample_sender "p1") "b1" ids 0 w) eq_refl) as Heff.
  fold run in Heff. destruct run.1 as [resp|e]; [| destruct Hcount].
  destruct (Heff resp eq_refl) as (targets & Hbe & _).
  exists resp, targets. split; [reflexivity |]. split; [exact Hcount | exact Hbe].
Defined.
End witness.
