(* ===== verification/Campaigns.v ===== *)
(** * Campaigns and broadcasts of the operator

    [AdminService] of [src/modules/admin/], with [CampaignController] of
    [src/modules/campaign/]: a message to the wallets of an audience, or to
    every registered wallet.  [pLimit] bounds how many of the tasks run at a
    time; they run one after the other here, each with the id the service
    draws for it. *)

From Stdlib Require Import Ascii String.
From S2P Require Import Prelude Schema External Memory Frame RateLimit Queue Subscriptions Classifier Sandbox Scanner Notify.

Open Scope string_scope.
Open Scope list_scope.
Open Scope Z_scope.

Definition campaign_missing : exn := HttpError 404 "CAMPAIGN_NOT_FOUND".
Definition campaign_not_found : exn := HttpError 404 "Campaign not found".

Definition status_text (s : CampaignStatus) : string :=
  match s with
  | CaDraft => "DRAFT" | CaScheduled => "SCHEDULED" | CaRunning => "RUNNING"
  | CaCompleted => "COMPLETED" | CaFailed => "FAILED" | CaCancelled => "CANCELLED"
  end.

(** A text between double quotes. *)
Definition quoted (s : string) : string := String "034"%char (s +:+ String "034"%char "").

(** A campaign that can still be launched or cancelled. *)
Definition pending (s : CampaignStatus) : bool := bool_decide (s = CaDraft) || bool_decide (s = CaScheduled).

Record CampaignSummary := {
  cs_id : string;
  cs_name : string;
  cs_status : CampaignStatus;
  cs_audienceSize : Z;
  cs_sent : Z;
  cs_createdAt : Z;
}.

Section campaigns.
Context `{B : Backend} `{H : Hashing}.

Definition campaign_row (c : Campaign) (now : Z) (id wallet : string) : Notification :=
  new_notification id (ca_protocolId c) (sha256 wallet) (sha256 (ca_subject c)) (ca_category c)
    Queued None false now.

(** The job has neither the name of the protocol nor its key, and not the
    channels of the campaign. *)
Definition campaign_job (c : Campaign) (id wallet : string) : NotificationJobData := {|
  j_notificationId := id; j_protocolId := ca_protocolId c; j_protocolPubkey := ""; j_protocolName := "";
  j_wallet := wallet; j_walletHash := Some (sha256 wallet); j_subject := ca_subject c;
  j_body := ca_body c; j_category := ca_category c; j_writeReceipt := false; j_digestMode := false;
  j_priority := None; j_channels := None; j_excludedChannels := None; j_preferredChannel := None;
  j_isSandbox := false; j_testContact := None; j_tier := None; j_templateId := None;
  j_telegramTemplateId := None; j_templateVariables := ∅ |}.

Definition enqueue_wallet (c : Campaign) (now : Z) (iw : string * string) : M World () :=
  _ ← create MNotification (λ _, campaign_row c now iw.1 iw.2);
  enqueueNotification (campaign_job c iw.1 iw.2).

(** The wallets of an audience, each with the id drawn for it. *)
Definition numbered (ids : nat → string) (wallets : list string) : list (string * string) :=
  imap (λ i wallet, (ids i, wallet)) wallets.

Definition enqueueCampaign (campaignId : string) (ids : nat → string) (now : Z) : M World Z :=
  campaign ← find_unique MCampaign (by_id MCampaign campaignId);
  match campaign with
  | None => raise campaign_missing
  | Some c =>
      audience ← included MAudience (ca_audienceId c);
      match audience with
      | None => raise (JsError "Cannot read properties of null" None)
      | Some a =>
          results ← all_settled (enqueue_wallet c now <$> numbered ids (au_wallets a));
          _ ← update MCampaign (by_id MCampaign campaignId)
                (λ c, c <| ca_status := CaRunning |> <| ca_startedAt := Some now |>
                        <| ca_totalTargets := Z.of_nat (length (au_wallets a)) |>);
          mret (Z.of_nat (count_ok results))
      end
  end.

(** [broadcast]: the request for a wallet, and how many were settled each way. *)
Record SystemMessage := { sm_subject : string; sm_body : string; sm_category : string }.

Definition system_request (dto : SystemMessage) (wallet : string) : NotifyDto := {|
  nd_wallet := wallet; nd_subject := sm_subject dto; nd_body := sm_body dto;
  nd_category := Some (sm_category dto); nd_idempotencyKey := None; nd_receipt := None;
  nd_priority := None; nd_preferred_channel := None; nd_batchChannels := None;
  nd_batchExcludeChannels := None; nd_templateId := None; nd_telegramTemplateId := None;
  nd_variables := ∅ |}.

Record BroadcastSummary := {
  bc_total_users : Z;
  bc_enqueued_success : Z;
  bc_enqueued_failed : Z;
}.

Definition broadcast (queueNotification : NotifyDto → AuthenticatedProtocol → string → M World NotifyResponse)
    (fetchAllIdentities : result (list string)) (dto : SystemMessage) (protocol : AuthenticatedProtocol)
    (ids : nat → string) : M World BroadcastSummary :=
  wallets ← lift fetchAllIdentities;
  results ← all_settled (imap (λ i wallet,
    queueNotification (system_request dto wallet) protocol (ids i)) wallets);
  mret {| bc_total_users := Z.of_nat (length wallets);
          bc_enqueued_success := Z.of_nat (count_ok results);
          bc_enqueued_failed := Z.of_nat (length results - count_ok results) |}.

(** ** The endpoints *)

Definition own_campaign (id protocolId : string) : where_ MCampaign := λ k c,
  bool_decide (k = id) && bool_decide (ca_protocolId c = protocolId).

Definition summary (c : Campaign) (audience : option Audience) : CampaignSummary := {|
  cs_id := ca_id c; cs_name := ca_subject c; cs_status := ca_status c;
  cs_audienceSize := from_option au_walletCount 0 audience; cs_sent := ca_totalSent c;
  cs_createdAt := ca_createdAt c |}.

Definition listCampaigns (protocol : AuthenticatedProtocol) : M World (list CampaignSummary) :=
  campaigns ← find_many MCampaign (λ _ c, bool_decide (ca_protocolId c = ap_protocolId protocol))
    (Some (λ c, - ca_createdAt c));
  fold_each (λ acc c,
    audience ← included MAudience (ca_audienceId c);
    mret (acc ++ [summary c audience])) [] campaigns.

(** The checks [launchCampaign] and [cancelCampaign] share. *)
Definition pending_campaign (verb : string) (id : string) (protocol : AuthenticatedProtocol) : M World Campaign :=
  campaign ← find_first MCampaign (own_campaign id (ap_protocolId protocol)) None;
  match campaign with
  | None => raise campaign_not_found
  | Some c =>
      if pending (ca_status c) then mret c
      else raise (HttpError 400 ("Cannot " +:+ verb +:+ " a campaign with status " +:+
                                 quoted (status_text (ca_status c))))
  end.

Definition launchCampaign (id : string) (protocol : AuthenticatedProtocol) (ids : nat → string) (now : Z) :
    M World Z :=
  _ ← pending_campaign "launch" id protocol;
  enqueueCampaign id ids now.

Definition cancelCampaign (id : string) (protocol : AuthenticatedProtocol) : M World () :=
  _ ← pending_campaign "cancel" id protocol;
  _ ← update MCampaign (by_id MCampaign id) (λ c, c <| ca_status := CaCancelled |>);
  mret ().

(** ** Lemmas *)

Context `{BL : !BackendLaws B}.

Definition wallet_row (c : Campaign) (now : Z) (iw : string * string) : Notification :=
  campaign_row c now iw.1 iw.2.

Definition wallet_job (c : Campaign) (iw : string * string) : job QNotification :=
  deliver_job (campaign_job c iw.1 iw.2).

(** What went through for the wallets [done]: the rows of [created] are there,
    the jobs of [js] are queued, and nothing else changed. *)
Record enqueued_for (c : Campaign) (now : Z) (v v' : View) (done : list (string * string))
    (ok : nat) (created js : list (string * string)) : Prop := {
  ef_created : created `sublist_of` done;
  ef_jobs_created : js `sublist_of` created;
  ef_ok : (ok ≤ length js)%nat;
  ef_rows : rows_created (wallet_row c now <$> created) (v_tables v MNotification) (v_tables v' MNotification);
  ef_jobs : v_jobs v' QNotification = v_jobs v QNotification ++ (wallet_job c <$> js);
  ef_tables m : m ≠ MNotification → v_tables v' m = v_tables v m;
}.

Lemma count_ok_snoc {A} (rs : list (result A)) r :
  count_ok (rs ++ [r]) = (count_ok rs + if is_ok r then 1 else 0)%nat.
Proof. unfold count_ok. rewrite List.filter_app, length_app. by destruct r. Qed.

(** One wallet: nothing, its row without its job, or both. *)
Lemma enqueue_wallet_step c now iw v done ok created js w :
  enqueued_for c now v (view w) done ok created js →
  wp (enqueue_wallet c now iw) (λ r w', ∃ created' js',
    enqueued_for c now v (view w') (done ++ [iw]) (ok + if is_ok r then 1 else 0) created' js') w.
Proof.
  intros [Hc Hjc Hok Hrows Hjobs Ht].
  apply wp_bind, (wp_create MNotification).
  2:{ intros e w1 Hv1. exists created, js. rewrite Hv1. cbn.
      split; [by apply sublist_inserts_r | done | lia | done | done | done]. }
  intros i n w1 -> Hfresh _ Hv1.
  assert (rows_created (wallet_row c now <$> created ++ [iw]) (v_tables v MNotification)
            (v_tables (view w1) MNotification)) as Hrows1.
  { rewrite Hv1, fmap_app. cbn. rewrite upd_eq. apply (rows_created_snoc _ (wallet_row c now iw)); done. }
  assert (∀ m, m ≠ MNotification → v_tables (view w1) m = v_tables v m) as Ht1.
  { intros m Hm. rewrite Hv1. cbn. rewrite upd_ne by done. by apply Ht. }
  assert (∀ w2 (r : result ()), r ≠ Ok () → view w2 = view w1 → ∃ created' js',
    enqueued_for c now v (view w2) (done ++ [iw]) (ok + if is_ok r then 1 else 0) created' js') as Hskip.
  { intros w2 r Hr Hv2. exists (created ++ [iw]), js. rewrite Hv2. split; [.. | done | |  done].
    - by apply sublist_app.
    - by apply sublist_inserts_r.
    - destruct r as [[]|]; [done | cbn; lia].
    - by rewrite Hv1. }
  assert (∀ w2 (r : result ()), view w2 = (view w1) <| v_jobs ::= upd_jobs QNotification (add_job (wallet_job c iw)) |> →
    ∃ created' js',
    enqueued_for c now v (view w2) (done ++ [iw]) (ok + if is_ok r then 1 else 0) created' js') as Hadd.
  { intros w2 r Hv2. exists (created ++ [iw]), (js ++ [iw]). rewrite Hv2. split; [.. | done | | done].
    - by apply sublist_app.
    - by apply sublist_app.
    - rewrite length_app. cbn. destruct (is_ok r); lia.
    - cbn. rewrite upd_jobs_eq, add_job_append by done. rewrite Hv1. cbn. by rewrite fmap_app, app_assoc, Hjobs. }
  apply (wp_add_with_timeout QNotification); [intros w2; by apply Hadd |].
  intros e w2 [Hv2 | Hv2]; [apply (Hskip _ (Err e)) | apply (Hadd _ (Err e))]; done.
Qed.

Lemma enqueue_wallets_spec c now iws w :
  wp (all_settled (enqueue_wallet c now <$> iws)) (λ r w', ∃ rs created js, r = Ok rs ∧
    enqueued_for c now (view w) (view w') iws (count_ok rs) created js) w.
Proof.
  apply (wp_all_settled _ (λ rs ms w', ∃ done rest created js, iws = done ++ rest ∧
    ms = enqueue_wallet c now <$> rest ∧
    enqueued_for c now (view w) (view w') done (count_ok rs) created js)).
  - exists [], iws, [], []. split_and!; [done | done |].
    split; [done | done | done | | by rewrite app_nil_r | done].
    split; [by intros n ?%elem_of_nil | done].
  - intros rs m ms w1 (done_ & [|iw rest] & created & js & -> & Hms & Hinv); [done |].
    injection Hms as -> ->. eapply wp_mono; [eapply enqueue_wallet_step, Hinv |].
    intros r w2 (created' & js' & Hinv'). exists (done_ ++ [iw]), rest, created', js'.
    rewrite count_ok_snoc. by rewrite <- app_assoc.
  - intros rs w1 (done_ & [|iw rest] & created & js & -> & Hms & Hinv); [| done].
    exists rs, created, js. by rewrite app_nil_r.
Qed.

(** ** Properties *)

Definition running (a : Audience) (now : Z) (c : Campaign) : Campaign :=
  c <| ca_status := CaRunning |> <| ca_startedAt := Some now |>
    <| ca_totalTargets := Z.of_nat (length (au_wallets a)) |>.

(** What [enqueueCampaign] does. *)
Definition campaign_run_post (campaignId : string) (ids : nat → string) (now : Z) (v : View)
    (r : result Z) (v' : View) : Prop :=
  match r with
  | Ok enqueued => ∃ c a created js,
      v_tables v MCampaign !! campaignId = Some c ∧
      v_tables v MAudience !! ca_audienceId c = Some a ∧
      created `sublist_of` numbered ids (au_wallets a) ∧ js `sublist_of` created ∧
      0 ≤ enqueued ≤ Z.of_nat (length js) ∧
      rows_created (wallet_row c now <$> created)
        (v_tables v MNotification) (v_tables v' MNotification) ∧
      v_jobs v' QNotification = v_jobs v QNotification ++ (wallet_job c <$> js) ∧
      v_tables v' MCampaign = <[campaignId := running a now c]> (v_tables v MCampaign) ∧
      ∀ m, m ≠ MNotification → m ≠ MCampaign → v_tables v' m = v_tables v m
  | Err e => v_tables v' MCampaign = v_tables v MCampaign
  end.

Lemma campaign_run campaignId ids now w :
  wp (enqueueCampaign campaignId ids now)
    (λ r w', campaign_run_post campaignId ids now (view w) r (view w')) w.
Proof.
  unfold enqueueCampaign. apply wp_bind, (wp_find_first MCampaign); [| by intros e w1 ->].
  intros [c|] w1 Hc Hv1; [| by apply wp_raise; rewrite Hv1].
  destruct Hc as (k & Hk & ->%bool_decide_eq_true).
  apply wp_bind, (wp_included MAudience).
  rewrite Hv1. destruct (v_tables (view w) MAudience !! ca_audienceId c) as [a|] eqn:Ha; [| by apply wp_raise; rewrite Hv1].
  apply wp_bind. eapply wp_mono; [apply enqueue_wallets_spec |].
  intros r w2 (rs & created & js & -> & [Hcr Hjs Hok Hrows Hjobs Ht]). rewrite Hv1 in *.
  apply wp_bind, (wp_update MCampaign).
  2:{ intros e w3 Hv3. rewrite Hv3. by apply Ht. }
  intros k r w3 Hk' ->%bool_decide_eq_true Hv3. apply wp_ret.
  rewrite (Ht MCampaign) in Hk' by done. pose proof (Some_agree Hk' Hk) as ->.
  exists c, a, created, js. rewrite Hv3. cbn. split_and!; try done; try lia.
  - by rewrite upd_eq, (Ht MCampaign).
  - intros m Hn Hm. rewrite upd_ne by done. by apply Ht.
Qed.

(** Launching a campaign.  When [enqueueCampaign] returns, the campaign
    exists, with its audience; rows were created under fresh ids for some of
    the wallets of the audience and no other, in their order; jobs were added
    for some of these rows and nothing else, at least as many as the response
    counts; of the other tables only the campaign changed, which now runs, with
    the size of its audience as its number of targets.  It throws without
    changing the campaign. *)
Theorem campaign_enqueued campaignId ids now w :
  wp (enqueueCampaign campaignId ids now)
    (λ r w', campaign_run_post campaignId ids now (view w) r (view w')) w.
Proof. apply campaign_run. Qed.

(** ** The states of a campaign *)

Inductive campaign_action :=
| Launch (ids : nat → string) (now : Z)
| Cancel.

Definition perform (act : campaign_action) (id : string) (protocol : AuthenticatedProtocol) : M World () :=
  match act with
  | Launch ids now => _ ← launchCampaign id protocol ids now; mret ()
  | Cancel => cancelCampaign id protocol
  end.

Definition target (act : campaign_action) : CampaignStatus :=
  match act with Launch _ _ => CaRunning | Cancel => CaCancelled end.

Definition has_status (v : View) (id : string) (s : CampaignStatus) : Prop :=
  ∃ c, v_tables v MCampaign !! id = Some c ∧ ca_status c = s.

Lemma pending_campaign_spec verb id protocol Q w :
  (∀ c w', v_tables (view w) MCampaign !! id = Some c → ca_protocolId c = ap_protocolId protocol →
     pending (ca_status c) = true → view w' = view w → Q (Ok c) w') →
  (∀ e w', view w' = view w → Q (Err e) w') →
  wp (pending_campaign verb id protocol) Q w.
Proof.
  intros Hok Herr. apply wp_bind, (wp_find_first MCampaign); [| done].
  intros [c|] w1 Hc Hv1; [| by apply wp_raise, Herr].
  destruct Hc as (k & Hk & Hp). unfold own_campaign in Hp.
  rewrite andb_true_iff, !bool_decide_eq_true in Hp. destruct Hp as [-> Hp].
  destruct (pending (ca_status c)) eqn:Hs; [apply wp_ret; eauto | by apply wp_raise, Herr].
Qed.

(** What an action does to the table of the campaigns, and how it leaves the
    campaign when it succeeds. *)
Lemma perform_spec act id protocol w :
  wp (perform act id protocol) (λ r w',
    (r ≠ Ok () ∧ v_tables (view w') MCampaign = v_tables (view w) MCampaign) ∨
    (∃ c c', v_tables (view w) MCampaign !! id = Some c ∧
       ca_protocolId c = ap_protocolId protocol ∧ pending (ca_status c) = true ∧
       ca_status c' = target act ∧
       v_tables (view w') MCampaign = <[id := c']> (v_tables (view w) MCampaign))) w.
Proof.
  destruct act as [ids now|]; cbn [perform target];
    [apply wp_bind | unfold cancelCampaign]; unfold launchCampaign;
    (apply wp_bind, pending_campaign_spec; [| intros e w1 Hv1; left; by rewrite Hv1]);
    intros c w1 Hc Hp Hs Hv1.
  - eapply wp_mono; [apply campaign_run |]. intros [n|e] w2; [| intros Ht; left; by rewrite Ht, Hv1].
    intros (c0 & a & created & js & _ & _ & _ & _ & _ & _ & _ & Ht & _). apply wp_ret. right.
    exists c, (running a now c0). rewrite Ht, Hv1. by split_and!.
  - apply wp_bind, (wp_update MCampaign); [| intros e w2 Hv2; left; by rewrite Hv2, Hv1].
    intros k r w2 Hk ->%bool_decide_eq_true Hv2. apply wp_ret. right. rewrite Hv1 in Hk, Hv2. pose proof (Some_agree Hk Hc) as ->.
    exists c, (c <| ca_status := CaCancelled |>). rewrite Hv2. cbn. rewrite upd_eq. by split_and!.
Qed.

(** C33.  The states of a campaign.  Launching and cancelling touch no campaign
    of another protocol and none that is not a draft or scheduled; the one they
    change becomes running or cancelled; and once either has succeeded, both
    are refused, for whatever protocol, and change nothing at all. *)
Theorem campaign_settled_once act id protocol w :
  wp (perform act id protocol) (λ r w',
    (∀ k c, v_tables (view w) MCampaign !! k = Some c →
       v_tables (view w') MCampaign !! k = Some c ∨
       (k = id ∧ ca_protocolId c = ap_protocolId protocol ∧ pending (ca_status c) = true ∧
        has_status (view w') k (target act))) ∧
    (is_ok r = true → has_status (view w') id (target act) ∧
       ∀ act' protocol', wp (perform act' id protocol') (λ r' w'',
         is_ok r' = false ∧ view w'' = view w') w')) w.
Proof.
  eapply wp_mono; [apply perform_spec |].
  intros r w' [[Hr Ht] | (c & c' & Hc & Hp & Hs & Hs' & Ht)].
  { split; [intros k c Hk; left; by rewrite Ht | by destruct r as [[]|]]. }
  assert (has_status (view w') id (target act)) as Hst.
  { exists c'. rewrite Ht. split; [apply lookup_insert_eq | done]. }
  split.
  - intros k c1 Hk. destruct (decide (k = id)) as [-> | Hne].
    + right. pose proof (Some_agree Hk Hc) as ->. done.
    + left. by rewrite Ht, lookup_insert_ne.
  - intros _. split; [exact Hst |]. destruct Hst as (c1 & Hc1 & Hs1). intros act' protocol'.
    assert (∀ {A} verb (k : Campaign → M World A), wp (pending_campaign verb id protocol' ≫= k)
      (λ r' w'', is_ok r' = false ∧ view w'' = view w') w') as Href.
    { intros A verb k. apply wp_bind, pending_campaign_spec; [| done].
      intros c2 w2 Hc2 _ Hs2. pose proof (Some_agree Hc2 Hc1) as ->. rewrite Hs1 in Hs2. by destruct act. }
    destruct act' as [ids' now'|]; [apply wp_bind | apply Href].
    eapply wp_mono; [apply Href |]. intros r'' w''. destruct r'' as [a|e]; intros [H1 H2]; [discriminate H1 | by split].
Qed.

(** A broadcast accounts for every wallet. *)
Theorem broadcast_accounts queueNotification fetched dto protocol ids w resp :
  (broadcast queueNotification fetched dto protocol ids w).1 = Ok resp →
  ∃ wallets, fetched = Ok wallets ∧ bc_total_users resp = Z.of_nat (length wallets) ∧
    bc_enqueued_success resp + bc_enqueued_failed resp = bc_total_users resp ∧
    0 ≤ bc_enqueued_success resp ∧ 0 ≤ bc_enqueued_failed resp.
Proof.
  unfold broadcast. destruct fetched as [wallets|e]; [| done].
  unfold mbind at 1, M_bind, lift.
  set (ms := imap _ wallets). unfold mbind, M_bind.
  destruct (all_settled_ok ms w) as (rs & w' & -> & Hlen). intros [= <-]. exists wallets. cbn.
  assert (count_ok rs ≤ length rs)%nat by apply List.filter_length_le.
  unfold ms in Hlen. rewrite length_imap in Hlen. split_and!; [done | done | lia..].
Qed.
End campaigns.

Section witness.
#[local] Instance campaign_sha : Hashing := { sha256 s := s }.

Definition draft (status : CampaignStatus) : Campaign := {|
  ca_id := "c1"; ca_protocolId := "p1"; ca_audienceId := "a1"; ca_subject := "News"; ca_body := "Body";
  ca_category := "marketing"; ca_channels := ["sms"]; ca_status := status; ca_startedAt := None;
  ca_totalTargets := 0; ca_totalSent := 0; ca_createdAt := 0 |}.

Definition two_wallets : Audience := {|
  au_id := "a1"; au_protocolId := "p1"; au_wallets := ["W1"; "W2"]; au_walletCount := 2 |}.

Definition campaign_world (status : CampaignStatus) : World :=
  mem_world (with_rows MCampaign [draft status] (with_rows MAudience [two_wallets] no_tables)) ∅.

Definition two_ids (i : nat) : string := if (i =? 0)%nat then "n1" else "n2".

Lemma campaign_enqueued_witness :
  let w := campaign_world CaDraft in
  let run := enqueueCampaign "c1" two_ids 5 w in
  run.1 = Ok 2 ∧
  v_jobs (view run.2) QNotification =
    wallet_job (draft CaDraft) <$> [("n1", "W1"); ("n2", "W2")] ∧
  campaign_run_post "c1" two_ids 5 (view w) run.1 (view run.2).
Proof.
  split_and!; [vm_compute; reflexivity | vm_compute; reflexivity |].
  exact (wp_at _ _ (campaign_world CaDraft) _ (campaign_enqueued "c1" two_ids 5 (campaign_world CaDraft)) eq_refl).
Defined.

(** The endpoint of the operator has no check of the status: a cancelled
    campaign is sent, and runs again. *)
Example cancelled_campaign_enqueued :
  let run := enqueueCampaign "c1" two_ids 5 (campaign_world CaCancelled) in
  run.1 = Ok 2 ∧ ca_status <$> (v_tables (view run.2) MCampaign !! "c1") = Some CaRunning.
Proof. vm_compute. auto. Qed.

Lemma campaign_settled_once_witness :
  let w := campaign_world CaScheduled in
  let run := perform Cancel "c1" (sample_sender "p1") w in
  run.1 = Ok () ∧ has_status (view run.2) "c1" CaCancelled ∧
  let run' := launchCampaign "c1" (sample_sender "p1") two_ids 5 run.2 in
  run'.1 = Err (HttpError 400 ("Cannot launch a campaign with status " +:+ quoted "CANCELLED")).
Proof.
  pose proof (wp_at _ _ (campaign_world CaScheduled) _
    (campaign_settled_once Cancel "c1" (sample_sender "p1") (campaign_world CaScheduled)) eq_refl) as H.
  intros w run. split_and!; [vm_compute; reflexivity | | vm_compute; reflexivity].
  apply (proj2 H). vm_compute. reflexivity.
Defined.

(** A request that was answered as blocked counts as enqueued. *)
Example blocked_counts_as_enqueued :
  let dto := {| sm_subject := "Urgent: action required"; sm_body := "share your seed phrase";
                sm_category := "system" |} in
  let run := broadcast (λ d p i, queueProductionNotification None d p i 0) (Ok ["W1"]) dto
               (sample_sender "p1") two_ids (campaign_world CaDraft) in
  run.1 = Ok {| bc_total_users := 1; bc_enqueued_success := 1; bc_enqueued_failed := 0 |} ∧
  v_jobs (view run.2) QNotification = [].
Proof. vm_compute. auto. Qed.

Lemma broadcast_accounts_witness :
  let run := broadcast (λ d p i, queueProductionNotification None d p i 0) (Ok ["W1"; "W2"])
               {| sm_subject := "News"; sm_body := "Body"; sm_category := "system" |}
               (sample_sender "p1") two_ids (campaign_world CaDraft) in
  ∃ resp, run.1 = Ok resp ∧ bc_enqueued_success resp + bc_enqueued_failed resp = 2.
Proof.
  intros run. eexists. split; [vm_compute; reflexivity |].
  set (resp := {| bc_total_users := _ |}).
  destruct (broadcast_accounts (λ d p i, queueProductionNotification None d p i 0) (Ok ["W1"; "W2"])
    {| sm_subject := "News"; sm_body := "Body"; sm_category := "system" |}
    (sample_sender "p1") two_ids (campaign_world CaDraft) resp) as (ws & Hws & Ht & Hsum & _).
  - vm_compute. reflexivity.
  - injection Hws as <-. rewrite Hsum, Ht. reflexivity.
Defined.
End witness.
