(* ===== verification/NotifyApi.v ===== *)
(** * The endpoints of notifications

    [NotifyController] of [src/modules/notify/notify.controller.ts]: a single
    request, a batch of them, and the preview of a notification.  The requests
    of a batch run one after the other here; each has the id drawn for it. *)

From Stdlib Require Import Ascii String.
From S2P Require Import Prelude Schema External Memory Frame Text Rx Helpers Telegram Channels Template.
From S2P Require Import Scanner Queue Classifier Subscriptions Sandbox Notify.

Open Scope string_scope.
Open Scope list_scope.
Open Scope Z_scope.

(** ** Batches *)

(** A list of channels in the body of a batch: [None] where it is left out,
    [Some None] for [null]. *)
Abbreviation channel_list := (option (option (list channel))).

Record NotifyBatchDto := {
  nb_notifications : list NotifyDto;
  nb_channels : channel_list;
  nb_exclude_channels : channel_list;
}.

(** An element of the response: the answer to the request, or the literal
    with an empty id and the status ['failed'] for one that rejected. *)
Inductive batch_item := BatchAnswer (r : NotifyResponse) | BatchFailed.

Definition item_status (i : batch_item) : NotificationStatus :=
  match i with BatchAnswer r => nr_status r | BatchFailed => Failed end.
Definition item_id (i : batch_item) : string :=
  match i with BatchAnswer r => nr_notification_id r | BatchFailed => "" end.

Definition batch_item_of (r : result NotifyResponse) : batch_item :=
  match r with Ok x => BatchAnswer x | Err _ => BatchFailed end.

Definition invalid_batch : exn := HttpError 400 "INVALID_BATCH_CHANNELS".

(** A request with the channels of its batch.  A [null] replaces the channels
    the request asks for as a list does: only a list left out keeps them. *)
Definition merged_dto (dto : NotifyBatchDto) (n : NotifyDto) : NotifyDto :=
  let n := match nb_channels dto with Some cs => n <| nd_batchChannels := cs |> | None => n end in
  match nb_exclude_channels dto with
  | Some cs => n <| nd_batchExcludeChannels := cs |>
  | None => n
  end.

(** [dto.channels && dto.exclude_channels]: an empty list is a list. *)
Definition both_lists (dto : NotifyBatchDto) : bool :=
  match nb_channels dto, nb_exclude_channels dto with
  | Some (Some _), Some (Some _) => true
  | _, _ => false
  end.

Section batch.
Context `{B : Backend} `{Hsh : Hashing}.
Context (classify : option (ClassifyParams → result AiVerdict)) (devnet : option DevnetConfig).

Definition batch_requests (dto : NotifyBatchDto) (ids : nat → string) : list (NotifyDto * string) :=
  imap (λ i n, (merged_dto dto n, ids i)) (nb_notifications dto).

Definition notifyBatch (dto : NotifyBatchDto) (protocol : AuthenticatedProtocol)
    (ids : nat → string) (now : Z) : M World (list batch_item) :=
  if both_lists dto then raise invalid_batch
  else
    results ← all_settled ((λ x, queueNotification classify devnet x.1 protocol x.2 now) <$>
                           batch_requests dto ids);
    mret (batch_item_of <$> results).

(** ** Lemmas *)

Context `{BL : !BackendLaws B}.

(** What a request may change, whatever becomes of it. *)
Definition notify_frame : Frame := {|
  fr_table m := m = MNotification ∨ fr_table classifier_frame m;
  fr_job q := q = QNotification; fr_key _ := True; fr_send _ := False |}.

Lemma notify_keeps dto protocol id now :
  Keeps notify_frame (queueNotification classify devnet dto protocol id now).
Proof.
  assert (frame_le classifier_frame notify_frame) as Hle by (split; cbn; intuition).
  unfold queueNotification, queueSandboxNotification, queueProductionNotification, accept_sandbox,
    accept_production, enqueue_sandbox, delivery_contact, record_and_answer, enqueue_failed, create_row,
    claim_key, template_blocked, validateSandboxKey, getTodayCount, counter_value, incrementUsage,
    count_today, enqueueNotification.
  repeat first [ keeps_step | apply keeps_add_with_timeout
               | eapply Keeps_le; [exact Hle | apply classifyAndFlag_keeps] ]; cbn; auto.
Qed.

(** What one request of a batch did, by its answer. *)
Definition request_effect (protocol : AuthenticatedProtocol) (x : NotifyDto * string) (v v' : View)
    (resp : NotifyResponse) : Prop :=
  if bool_decide (ap_environment protocol = Sandbox)
  then sandbox_effect x.1 protocol x.2 v v' resp
  else production_effect x.1 protocol x.2 v v' resp.

Definition item_effect (protocol : AuthenticatedProtocol) (x : NotifyDto * string) (v v' : View)
    (item : batch_item) : Prop :=
  within notify_frame v v' ∧
  match item with BatchAnswer resp => request_effect protocol x v v' resp | BatchFailed => True end.

Inductive batch_run (protocol : AuthenticatedProtocol) :
    list (NotifyDto * string) → View → list batch_item → View → Prop :=
| batch_none v : batch_run protocol [] v [] v
| batch_more xs x v v1 v2 items item : batch_run protocol xs v items v1 →
    item_effect protocol x v1 v2 item → batch_run protocol (xs ++ [x]) v (items ++ [item]) v2.

Lemma batch_run_length protocol xs v items v' :
  batch_run protocol xs v items v' → length items = length xs.
Proof. induction 1; [done |]. rewrite !length_app. cbn. lia. Qed.

Lemma request_step protocol x now w :
  wp (queueNotification classify devnet x.1 protocol x.2 now)
    (λ r w', item_effect protocol x (view w) (view w') (batch_item_of r)) w.
Proof.
  assert (wp (queueNotification classify devnet x.1 protocol x.2 now)
    (λ r w', ∀ resp, r = Ok resp → request_effect protocol x (view w) (view w') resp) w) as Heff.
  { unfold queueNotification, request_effect. case_bool_decide; [apply sandbox_spec | apply queue_production_spec]; exact BL. }
  pose proof (notify_keeps x.1 protocol x.2 now w) as Hkeep. unfold wp in *.
  destruct (queueNotification _ _ _ _ _ _ w) as [[resp|e] w1]; split; cbn; auto.
Qed.

(** ** Properties *)

(** A batch.  With both a list of channels and one of excluded channels
    it is refused and nothing changes; otherwise it is answered, with an item
    for each request in their order, each the answer to its own request, of
    which it had the effect, or the failure of one that rejected; no request
    keeps a later one from being made. *)
Theorem batch_answered dto protocol ids now w :
  wp (notifyBatch dto protocol ids now) (λ r w',
    if both_lists dto then r = Err invalid_batch ∧ view w' = view w
    else ∃ items, r = Ok items ∧ length items = length (nb_notifications dto) ∧
        batch_run protocol (batch_requests dto ids) (view w) items (view w')) w.
Proof.
  unfold notifyBatch. set (xs := batch_requests dto ids).
  assert (length xs = length (nb_notifications dto)) as Hlen by apply length_imap.
  assert (wp (results ← all_settled ((λ x, queueNotification classify devnet x.1 protocol x.2 now) <$> xs);
              mret (batch_item_of <$> results)) (λ r w', ∃ items, r = Ok items ∧
    length items = length (nb_notifications dto) ∧ batch_run protocol xs (view w) items (view w')) w) as Hrun.
  { apply wp_bind, (wp_all_settled _ (λ rs ms w', ∃ done_ rest, xs = done_ ++ rest ∧
      ms = (λ x, queueNotification classify devnet x.1 protocol x.2 now) <$> rest ∧
      batch_run protocol done_ (view w) (batch_item_of <$> rs) (view w'))).
    - exists [], xs. split_and!; [done | done | constructor].
    - intros rs m ms w1 (done_ & [|x rest] & Hxs & Hms & Hb); [done |]. injection Hms as -> ->.
      eapply wp_mono; [apply request_step |]. intros r w2 Hx. exists (done_ ++ [x]), rest.
      rewrite <- app_assoc, fmap_app. split_and!; [done | done |]. by eapply batch_more.
    - intros rs w1 (done_ & [|x rest] & Hxs & Hms & Hb); [| done]. rewrite app_nil_r in Hxs. subst done_.
      apply wp_ret. exists (batch_item_of <$> rs). split_and!; [done | | done].
      by rewrite (batch_run_length _ _ _ _ _ Hb). }
  destruct (both_lists dto); [by apply wp_raise | exact Hrun].
Qed.
End batch.

(** ** The preview *)

Definition preview_icon : string → text := table_or
  [("defi", [55357; 56496]%N);
   ("governance", [55357; 56819; 65039]%N);
   ("system", [9881; 65039]%N);
   ("marketing", [55357; 56546]%N);
   ("security", [55357; 56594]%N)]
  [55357; 56596]%N.

(** Nothing is escaped. *)
Definition buildTelegramPreview (subject body category : string) : text :=
  preview_icon category ++ units " <b>Preview</b>" ++ [NL; NL] ++
  units "<b>" ++ units subject ++ units "</b>" ++ [NL; NL] ++ units body ++ [NL; NL] ++
  units "<i>via Herald " ++ [8226%N] ++ units " " ++ units category ++ units "</i>".

Definition buildSmsPreview (protocolName subject body : string) : text :=
  units "[" ++ units protocolName ++ units "] " ++ units subject ++ units ": " ++ clamp 120 (units body) ++
  units " (via Herald)".

Record Preview := { pv_renderedHtml : text; pv_telegramText : text; pv_smsText : text }.

(** [s.charAt(0).toUpperCase() + s.slice(1)] of an ASCII category. *)
Definition capital (s : string) : string :=
  match s with
  | String c s' =>
      let n := N_of_ascii c in
      String (if in_range 97 122 n then ascii_of_N (n - 32) else c) s'
  | EmptyString => ""
  end.

Section preview.
Context `{B : Backend} (en : Engine).

Definition preview_params_of (dto : NotifyDto) (protocol : AuthenticatedProtocol) : RenderParams :=
  let category := category_of dto in
  let name := default "Protocol" (ap_name protocol) in {|
  rp_template := if (category =? "defi")%string then "defi-alert" else category;
  rp_templateId := None; rp_tier := 0; rp_protocolId := "";
  rp_variables :=
    <["protocolName" := Some name]>
    (<["subject" := Some ("[" +:+ name +:+ " | " +:+ capital category +:+ " Alert] " +:+ nd_subject dto)]>
    (<["body" := Some (nd_body dto)]>
    (<["category" := Some category]>
    (<["recipientAddress" := Some (nd_wallet dto)]>
    (<["unsubscribeUrl" := Some "https://notify.useherald.xyz/unsubscribe/preview"]>
    (<["heraldLogoUrl" := Some "https://cdn.useherald.xyz/logo-email.png"]> ∅)))))) |}.

Definition preview (dto : NotifyDto) (protocol : AuthenticatedProtocol) (cache : TemplateCache) :
    M World (result Preview * TemplateCache) :=
  rendered ← render en (preview_params_of dto protocol) cache;
  mret (match rendered.1 with
        | Err e => Err e
        | Ok email => Ok {|
            pv_renderedHtml := re_html email;
            pv_telegramText := buildTelegramPreview (nd_subject dto) (nd_body dto) (category_of dto);
            pv_smsText := buildSmsPreview (default "Protocol" (ap_name protocol)) (nd_subject dto)
                            (nd_body dto) |}
        end, rendered.2).
End preview.

Lemma ok_inj {A} (x y : A) : Ok x = Ok y → x = y.
Proof. by intros [=]. Qed.

Lemma clamp_length max t : 0 < max → len (clamp max t) ≤ max.
Proof.
  intros Hm. unfold clamp, len, slice0. destruct (Z.ltb_spec max (Z.of_nat (length t))); [| done].
  rewrite length_app, length_take. cbn. lia.
Qed.

(** A preview touches nothing: it reads no row, and its message for Telegram
    holds subject and body as they were given, tags and all. *)
Theorem preview_touches_nothing `{B : Backend} `{BL : !BackendLaws B} en dto protocol cache w :
  wp (preview en dto protocol cache) (λ r w', w' = w ∧ ∀ p cache', r = Ok (Ok p, cache') →
    (∃ a z, pv_telegramText p = a ++ units (nd_subject dto) ++ units "</b>" ++ [NL; NL] ++ units (nd_body dto) ++ z) ∧
    len (pv_smsText p) ≤ 138 + len (units (default "Protocol" (ap_name protocol))) + len (units (nd_subject dto))) w.
Proof.
  assert (choose_template (preview_params_of dto protocol) w = (Ok None, w)) as Hch by reflexivity.
  unfold wp, preview, render, mbind, M_bind. rewrite Hch.
  set (src := template_source en _ None). destruct (getCompiledTemplate en src cache) as [compiled cache'].
  cbn [mret M_ret fst snd]. split; [done |]. intros p cache1 Hp%ok_inj. apply (f_equal fst) in Hp. cbn [fst] in Hp.
  destruct compiled as [d|e]; [| done].
  destruct (finish_render en _ _ _) as [email|e]; [| done]. apply ok_inj in Hp. subst p.
  cbn [pv_telegramText pv_smsText]. split.
  - exists (preview_icon (category_of dto) ++ units " <b>Preview</b>" ++ [NL; NL] ++ units "<b>"),
      ([NL; NL] ++ units "<i>via Herald " ++ [8226%N] ++ units " " ++ units (category_of dto) ++ units "</i>").
    unfold buildTelegramPreview. by rewrite <- !app_assoc.
  - unfold buildSmsPreview, len. rewrite !length_app.
    pose proof (clamp_length 120 (units (nd_body dto)) eq_refl) as H. unfold len in H. 
    change (length (units "[")) with 1%nat. change (length (units "] ")) with 2%nat.
    change (length (units ": ")) with 2%nat. change (length (units " (via Herald)")) with 13%nat. lia.
Qed.

Section witness.
#[local] Instance api_sha : Hashing := { sha256 s := s }.

Definition a_batch : NotifyBatchDto := {|
  nb_notifications := [sample_dto None; sample_dto (Some "key"); sample_dto (Some "key")];
  nb_channels := Some (Some [Email]); nb_exclude_channels := None |}.

Definition batch_ids (i : nat) : string := match i with 0%nat => "n1" | 1%nat => "n2" | _ => "n3" end.

Lemma batch_answered_witness :
  let w := mem_world no_tables ∅ in
  let run := notifyBatch None None a_batch (sample_sender "p1") batch_ids 0 w in
  ∃ items, run.1 = Ok items ∧ item_status <$> items = [Queued; Queued; Duplicate] ∧
    batch_run (sample_sender "p1") (batch_requests a_batch batch_ids) (view w) items (view run.2).
Proof.
  intros w run.
  pose proof (wp_at _ _ w _ (batch_answered None None a_batch (sample_sender "p1") batch_ids 0 w) eq_refl) as H.
  fold run in H. cbv beta iota in H. destruct H as (items & Hr & _ & Hb). exists items.
  split_and!; [exact Hr | | exact Hb].
  assert (match run.1 with Ok l => item_status <$> l | Err _ => [] end = [Queued; Queued; Duplicate]) as Hst
    by (vm_compute; reflexivity).
  by rewrite Hr in Hst.
Defined.

(** A store that fails keeps one request of the batch from being answered,
    not the others. *)
Example batch_with_fault :
  let w := (mem_world no_tables ∅) <| w_db ::= set m_faults (λ _, [true]) |> in
  let run := notifyBatch None None a_batch (sample_sender "p1") batch_ids 0 w in
  match run.1 with
  | Ok items => item_status <$> items = [Failed; Queued; Duplicate] ∧ item_id <$> items = [""; "n2"; "n2"]
  | Err _ => False
  end.
Proof. vm_compute. auto. Qed.
End witness.
