(* ===== verification/Playground.v ===== *)
(** * The playground

    [SandboxController.sendTest] of
    [src/modules/sandbox/sandbox.controller.ts]: a test notification to the
    contacts of the protocol's settings, at most 25 a day for a key. *)

From Stdlib Require Import Ascii String.
From stdpp Require Import pretty.
From S2P Require Import Prelude Schema External Memory Frame Scanner Queue Classifier Subscriptions.
From S2P Require Import Sandbox Notify.

Open Scope string_scope.
Open Scope list_scope.
Open Scope Z_scope.

Record SandboxSendDto := {
  sd_subject : string;
  sd_body : string;
  sd_category : option string;
  sd_preferred_channel : option channel;
}.

Record PlaygroundResponse := {
  pg_notification_id : string;
  pg_status : NotificationStatus;
  pg_error_code : option string;
  pg_test_contact : MaskedContact;
  pg_remaining_today : Z;
  pg_daily_limit : Z;
  pg_sandbox_notes : list string;
}.

Definition sandbox_key_required : exn := HttpError 403 "SANDBOX_ENDPOINT_REQUIRES_SANDBOX_KEY".
Definition playground_limit : exn := HttpError 429 "PLAYGROUND_LIMIT_EXCEEDED".
Definition contact_required : exn := HttpError 400 "SANDBOX_NO_TEST_CONTACT".

Definition channel_word (c : channel) : string :=
  match c with Email => "email" | Telegram => "telegram" | Sms => "sms" end.

(** The channels of the note. *)
Definition active_channels (c : TestContact) : list string :=
  (if truthy (tc_email c) then ["email"] else []) ++
  (if truthy (tc_telegramChatId c) then ["Telegram"] else []) ++
  (if truthy (tc_phone c) then ["SMS"] else []).

Section playground.
Context `{B : Backend} `{Hsh : Hashing}.

Definition playground_hash (protocol : AuthenticatedProtocol) : string :=
  sha256 ("playground:" +:+ ap_protocolId protocol).

Definition playground_row (dto : SandboxSendDto) (protocol : AuthenticatedProtocol) (id : string)
    (now : Z) : Notification :=
  new_notification id (ap_protocolId protocol) (playground_hash protocol) (sha256 (sd_subject dto))
    (default "defi" (sd_category dto)) Queued None false now.

Definition playground_job (dto : SandboxSendDto) (protocol : AuthenticatedProtocol) (id : string)
    (contact : TestContact) : NotificationJobData := {|
  j_notificationId := id; j_protocolId := ap_protocolId protocol;
  j_protocolPubkey := ap_protocolPubkey protocol;
  j_protocolName := default "Unknown Protocol" (ap_name protocol);
  j_wallet := "sandbox-playground"; j_walletHash := Some (playground_hash protocol);
  j_subject := "[HERALD TEST] " +:+ sd_subject dto; j_body := sd_body dto;
  j_category := default "defi" (sd_category dto); j_writeReceipt := false; j_digestMode := false;
  j_priority := Some Normal; j_channels := None; j_excludedChannels := None;
  j_preferredChannel := sd_preferred_channel dto; j_isSandbox := true; j_testContact := Some contact;
  j_tier := Some (ap_tier protocol); j_templateId := None; j_telegramTemplateId := None;
  j_templateVariables := ∅ |}.

(** The [try] and [catch] around the queue. *)
Definition enqueue_test (data : NotificationJobData) : M World bool :=
  catch (_ ← enqueueNotification data; mret true)
    (λ _,
      _ ← swallow () (
        _ ← update MNotification (by_id MNotification (j_notificationId data))
              (λ n, n <| n_status := Failed |> <| n_errorCode := Some "ENQUEUE_FAILED" |>);
        mret ());
      mret false).

Definition playground_response (id : string) (status : NotificationStatus) (code : option string)
    (contact : TestContact) (remaining : Z) (notes : list string) : PlaygroundResponse := {|
  pg_notification_id := id; pg_status := status; pg_error_code := code;
  pg_test_contact := masked contact; pg_remaining_today := remaining;
  pg_daily_limit := PLAYGROUND_DAILY_LIMIT; pg_sandbox_notes := notes |}.

(** Steps 4 to 7. *)
Definition deliver_test (dto : SandboxSendDto) (protocol : AuthenticatedProtocol) (id : string)
    (contact : TestContact) (remaining : Z) (now : Z) : M World PlaygroundResponse :=
  let data := playground_job dto protocol id contact in
  _ ← create_row (playground_row dto protocol id now);
  enqueued ← enqueue_test data;
  if negb (enqueued : bool) then
    mret (playground_response id Failed (Some "ENQUEUE_FAILED") contact remaining
      ["Failed to enqueue playground test for delivery.";
       "Service temporarily unavailable — retry later."])
  else
    _ ← swallow () (recordSandboxReceipt (ap_apiKeyId protocol) (playground_hash protocol) (Some id)
          (Some (j_subject data)) (Some "queued") None
          (Some (from_option channel_word "email" (sd_preferred_channel dto))) now);
    _ ← incrementPlaygroundUsage (ap_apiKeyId protocol) now;
    mret (playground_response id Queued None contact (remaining - 1)
      ["Delivering playground test to " +:+ join_rules (active_channels contact) +:+ ".";
       "This notification will NOT count against your production monthly quota.";
       "Playground daily usage: " +:+ pretty (remaining - 1) +:+ " of " +:+
         pretty PLAYGROUND_DAILY_LIMIT +:+ " remaining after this send.";
       "ZK receipt disabled in sandbox mode."]).

Definition sendTest (dto : SandboxSendDto) (protocol : AuthenticatedProtocol) (id : string) (now : Z) :
    M World PlaygroundResponse :=
  if negb (bool_decide (ap_environment protocol = Sandbox)) then raise sandbox_key_required else
  limit ← checkPlaygroundLimit (ap_apiKeyId protocol) now;
  if negb limit.1 then raise playground_limit else
  settings ← find_unique MProtocolSettings (by_id MProtocolSettings (ap_protocolId protocol));
  let contact := from_option settings_contact no_channels settings in
  if no_test_contact contact then raise contact_required
  else deliver_test dto protocol id contact limit.2 now.

(** ** Lemmas *)

Context `{BL : !BackendLaws B}.

(** What a test changes before it is counted. *)
Definition test_frame : Frame := {|
  fr_table m := m = MNotification ∨ m = MSandboxReceipt; fr_job q := q = QNotification;
  fr_key _ := False; fr_send _ := False |}.

Lemma counter_within d k c v v' : within test_frame v v' → counter_at d k c v → counter_at d k c v'.
Proof. intros [_ _ Hk _]. unfold counter_at. by rewrite Hk by (intros []). Qed.

(** The counter of the playground, read. *)
Lemma check_limit_spec apiKeyId now c Q w :
  counter_at (now / DAY_MS) (playground_key apiKeyId) c (view w) →
  (∀ w', view w' = view w →
     Q (Ok (0 <? Z.max 0 (PLAYGROUND_DAILY_LIMIT - c), Z.max 0 (PLAYGROUND_DAILY_LIMIT - c))) w') →
  (∀ e w', view w' = view w → Q (Err e) w') →
  wp (checkPlaygroundLimit apiKeyId now) Q w.
Proof.
  intros Hc Hok Herr. apply wp_bind, wp_bind, wp_redis_get; [| done].
  intros w1 Hv1. apply wp_ret, wp_ret.
  assert (match live now (re_strings (v_redis (view w)) !! playground_key apiKeyId) with
    Some (RInt z) => z | _ => 0 end = c) as ->.
  { by destruct (counter_live _ _ _ _ now Hc eq_refl) as [[-> ->] | ->]. }
  by apply Hok.
Qed.

(** What a test did, by its answer. *)
Definition test_effect (dto : SandboxSendDto) (protocol : AuthenticatedProtocol) (id : string)
    (now : Z) (v v' : View) (resp : PlaygroundResponse) : Prop :=
  ap_environment protocol = Sandbox ∧ pg_notification_id resp = id ∧
  ∃ contact n, no_test_contact contact = false ∧ row_created id n v v' ∧
    pg_test_contact resp = masked contact ∧ n_writeReceipt n = false ∧
    ((pg_status resp = Queued ∧ n = playground_row dto protocol id now ∧
      job_added (playground_job dto protocol id contact) v v') ∨
     (pg_status resp = Failed ∧ pg_error_code resp = Some "ENQUEUE_FAILED" ∧
      (n_status n = Queued ∨ n_status n = Failed))).

(** The [catch]: the row stays as it was or is marked. *)
Lemma enqueue_test_spec data n w :
  v_tables (view w) MNotification !! j_notificationId data = Some n →
  wp (enqueue_test data) (λ r w', within test_frame (view w) (view w') ∧ ∃ b, r = Ok b ∧
    if b : bool then job_added data (view w) (view w') ∧ v_tables (view w') = v_tables (view w)
    else ∃ n', marked_failed n n' ∧ v_tables (view w') MNotification =
      <[j_notificationId data := n']> (v_tables (view w) MNotification)) w.
Proof.
  intros Hn. apply wp_catch, wp_bind, (wp_add_with_timeout QNotification).
  - intros w1 Hv1. apply wp_ret. rewrite Hv1. split; [by apply within_job |]. exists true.
    split_and!; [done | | done]. unfold job_added. cbn. rewrite upd_jobs_eq. by apply add_job_append.
  - intros e w1 Hv1.
    assert (within test_frame (view w) (view w1)) as Hw1 by (destruct Hv1 as [-> | ->]; [done | by apply within_job]).
    assert (v_tables (view w1) = v_tables (view w)) as Ht1 by (by destruct Hv1 as [-> | ->]).
    apply wp_bind, wp_swallow, wp_bind, (wp_update MNotification).
    + intros k r w2 Hk ->%bool_decide_eq_true Hv2. rewrite Ht1 in Hk. pose proof (Some_agree Hk Hn) as ->.
      apply wp_ret, wp_ret. rewrite Hv2. split; [etrans; [exact Hw1 | apply within_table; by left] |].
      exists false. split; [done |]. eexists. split; [by right |]. cbn. by rewrite upd_eq, Ht1.
    + intros e' w2 Hv2. apply wp_ret. rewrite Hv2. split; [done |]. exists false. split; [done |].
      exists n. split; [by left |]. rewrite Ht1. symmetry. by apply insert_id.
Qed.

Lemma deliver_test_spec dto protocol id contact remaining now d c w :
  no_test_contact contact = false → ap_environment protocol = Sandbox → now / DAY_MS = d →
  counter_at d (playground_key (ap_apiKeyId protocol)) c (view w) →
  wp (deliver_test dto protocol id contact remaining now) (λ r w', ∀ resp, r = Ok resp →
    test_effect dto protocol id now (view w) (view w') resp ∧
    counter_at d (playground_key (ap_apiKeyId protocol))
      (if bool_decide (pg_status resp = Queued) then c + 1 else c) (view w')) w.
Proof.
  intros Hno Hsb Hd Hc. unfold deliver_test. cbn zeta. set (n := playground_row dto protocol id now).
  apply wp_bind, wp_create_row; [| done]. intros w1 [Hfresh Ht1] Hj1 Hr1.
  assert (counter_at d (playground_key (ap_apiKeyId protocol)) c (view w1)) as Hc1
    by (unfold counter_at; by rewrite Hr1).
  apply wp_bind. eapply wp_mono; [apply (enqueue_test_spec _ n); rewrite Ht1; apply lookup_insert_eq |].
  intros r w2 [Hw2 (b & -> & Hb)]. apply (counter_within _ _ _ _ _ Hw2) in Hc1. destruct b; cbn [negb].
  - destruct Hb as [Hj2 Ht2]. apply wp_bind, (wp_keeps {| fr_table m := m = MSandboxReceipt;
      fr_job _ := False; fr_key _ := False; fr_send _ := False |}).
    { apply keeps_swallow. unfold recordSandboxReceipt. by keeps. }
    intros [[]|e] w3 [Ht3 Hj3 Hk3 _]; [| done].
    assert (counter_at d (playground_key (ap_apiKeyId protocol)) c (view w3)) as Hc3.
    { unfold counter_at. by rewrite Hk3 by (intros []). }
    apply wp_bind. eapply wp_mono; [by apply count_today_spec |].
    intros [[]|e] w4 (Hc4 & Ht4 & Hj4); [| done]. apply wp_ret. intros ? [= <-].
    assert (v_tables (view w4) MNotification = <[id := n]> (v_tables (view w) MNotification)) as Htn.
    { rewrite Ht4, Ht3 by done. by rewrite Ht2. }
    split; [| by apply Hc4]. split_and!; [done | done |].
    exists contact, n. split_and!; [done | by split | done | done |]. left. split_and!; [done | done |].
    unfold job_added in *. by rewrite Hj4, Hj3, Hj2, Hj1 by (intros []).
  - destruct Hb as (n' & Hn' & Ht2). apply wp_ret. intros ? [= <-]. split; [| done].
    split_and!; [done | done |]. exists contact, n'. split_and!; [done | | done | | right].
    + split; [done |]. rewrite Ht2, Ht1. apply insert_insert_eq.
    + by destruct Hn' as [-> | ->].
    + split_and!; [done | done |]. destruct Hn' as [-> | ->]; [by left | by right].
Qed.

Lemma sendTest_spec dto protocol id now d c w :
  now / DAY_MS = d → counter_at d (playground_key (ap_apiKeyId protocol)) c (view w) →
  wp (sendTest dto protocol id now) (λ r w',
    (ap_environment protocol ≠ Sandbox ∨ PLAYGROUND_DAILY_LIMIT ≤ c → is_ok r = false ∧ view w' = view w) ∧
    ∀ resp, r = Ok resp → test_effect dto protocol id now (view w) (view w') resp ∧
      c < PLAYGROUND_DAILY_LIMIT ∧
      counter_at d (playground_key (ap_apiKeyId protocol))
        (if bool_decide (pg_status resp = Queued) then c + 1 else c) (view w')) w.
Proof.
  intros Hd Hc. unfold sendTest. case_bool_decide as Hsb; cbn [negb]; [| by apply wp_raise].
  apply wp_bind. eapply check_limit_spec; [by rewrite Hd | | by intros e w1 Hv1].
  intros w1 Hv1. cbn [fst snd].
  destruct (Z.ltb_spec 0 (Z.max 0 (PLAYGROUND_DAILY_LIMIT - c))); cbn [negb]; [| by apply wp_raise].
  assert (c < PLAYGROUND_DAILY_LIMIT) as Hlt by lia.
  apply wp_bind, (wp_find_unique MProtocolSettings).
  2:{ intros e w2 Hv2. split; [intros _; split; [done | congruence] | done]. }
  intros s w2 _ Hv2. assert (view w2 = view w) as Hv by congruence.
  destruct (no_test_contact _) eqn:Hno; [by apply wp_raise |].
  eapply wp_mono; [apply (deliver_test_spec _ _ _ _ _ _ d c); [done | done | done | by rewrite Hv] |].
  intros r w3 H1. rewrite Hv in H1. split; [by intros [? | ?]; [| lia] |]. intros resp Hr.
  destruct (H1 _ Hr). by split_and!.
Qed.

(** ** Properties *)

(** A test of the playground.  Without a sandbox key, or with the 25
    tests of the day made, it is refused and nothing changes.  An answered one
    has created one row under a fresh id, without a receipt, and masks the
    contacts it shows; if it says that it is queued then exactly its job was
    added, a sandbox job to the contacts of the settings, and it was counted;
    if it says that it failed, it was not counted. *)
Theorem playground_send dto protocol id now c w :
  counter_at (now / DAY_MS) (playground_key (ap_apiKeyId protocol)) c (view w) →
  wp (sendTest dto protocol id now) (λ r w',
    (ap_environment protocol ≠ Sandbox ∨ PLAYGROUND_DAILY_LIMIT ≤ c → is_ok r = false ∧ view w' = view w) ∧
    ∀ resp, r = Ok resp → test_effect dto protocol id now (view w) (view w') resp ∧
      c < PLAYGROUND_DAILY_LIMIT ∧
      counter_at (now / DAY_MS) (playground_key (ap_apiKeyId protocol))
        (if bool_decide (pg_status resp = Queued) then c + 1 else c) (view w')) w.
Proof. by apply sendTest_spec. Qed.

(** Tests one after the other, and how many were queued. *)
Definition playground_step (protocol : AuthenticatedProtocol) (n : nat)
    (x : SandboxSendDto * string * Z) : M World nat :=
  resp ← sendTest x.1.1 protocol x.1.2 x.2;
  mret (if bool_decide (pg_status resp = Queued) then S n else n).

(** The limit of the playground: of the tests made with a key during a day,
    one after the other and none refused, at most 25 are queued, with those
    already counted. *)
Theorem playground_limited protocol d c xs w :
  counter_at d (playground_key (ap_apiKeyId protocol)) c (view w) →
  Forall (λ x : SandboxSendDto * string * Z, x.2 / DAY_MS = d) xs →
  wp (fold_each (playground_step protocol) O xs) (λ r w', ∀ n, r = Ok n →
    Z.of_nat n ≤ Z.max 0 (PLAYGROUND_DAILY_LIMIT - c) ∧
    counter_at d (playground_key (ap_apiKeyId protocol)) (c + Z.of_nat n) (view w')) w.
Proof.
  intros Hc Hxs.
  eapply (wp_fold_each _ (λ n xs w', Forall (λ x : SandboxSendDto * string * Z, x.2 / DAY_MS = d) xs ∧
    counter_at d (playground_key (ap_apiKeyId protocol)) (c + Z.of_nat n) (view w') ∧
    Z.of_nat n ≤ Z.max 0 (PLAYGROUND_DAILY_LIMIT - c))).
  - split_and!; [done | by rewrite Z.add_0_r | lia].
  - intros n x xs' w1 ([Hx Hxs']%list.Forall_cons & Hc1 & Hn). unfold playground_step. apply wp_bind.
    eapply wp_mono; [by eapply sendTest_spec |]. intros [resp|e] w2 [_ H2]; [| done].
    destruct (H2 _ eq_refl) as (_ & Hlt & Hc2). apply wp_ret. case_bool_decide; [| by split_and!].
    split_and!; [done | | lia]. by replace (c + Z.of_nat (S n)) with (c + Z.of_nat n + 1) by lia.
  - intros n w' (_ & Hc' & Hn) n' [= <-]. done.
Qed.
End playground.

(** ** Witnesses *)

Section witness.
#[local] Instance playground_sha : Hashing := { sha256 s := s }.

Definition a_test : SandboxSendDto := {|
  sd_subject := "Hello"; sd_body := "Body"; sd_category := None; sd_preferred_channel := None |}.

Definition sandbox_sender : AuthenticatedProtocol := (sample_sender "p1") <| ap_environment := Sandbox |>.

Definition playground_world (count : Z) : World :=
  mem_world (with_rows MProtocolSettings [test_settings] no_tables)
    {[playground_key "k1" := (RInt count, None)]}.

Lemma playground_send_witness :
  let w := playground_world 24 in
  let run := sendTest a_test sandbox_sender "n1" 0 w in
  ∃ resp, run.1 = Ok resp ∧ pg_status resp = Queued ∧ pg_remaining_today resp = 0 ∧
    test_effect a_test sandbox_sender "n1" 0 (view w) (view run.2) resp ∧
    (sendTest a_test sandbox_sender "n2" 5 run.2).1 = Err playground_limit.
Proof.
  intros w run.
  pose proof (wp_at _ _ w run.1 (playground_send a_test sandbox_sender "n1" 0 24 w eq_refl) eq_refl) as [_ H].
  assert (match run.1 with Ok r => pg_status r = Queued ∧ pg_remaining_today r = 0 | Err _ => False end) as Hr
    by (vm_compute; split; reflexivity).
  fold run in H. assert ((sendTest a_test sandbox_sender "n2" 5 run.2).1 = Err playground_limit) as H2
    by (vm_compute; reflexivity).
  destruct run.1 as [resp|e]; [| destruct Hr]. exists resp. destruct Hr as [Hst Hrem].
  destruct (H resp eq_refl) as [Heff _]. split_and!; [reflexivity | exact Hst | exact Hrem | exact Heff | exact H2].
Defined.

(** The job of a test whose enqueue timed out may be added all the same: the
    answer is that it failed, and it is not counted. *)
Example timed_out_test_sent :
  let w := (playground_world 24) <| w_queue ::= set m_stalls (λ _, true) |> in
  let run := sendTest a_test sandbox_sender "n1" 0 w in
  match run.1 with
  | Ok r => pg_status r = Failed ∧ length (v_jobs (view run.2) QNotification) = 1%nat ∧
      (re_strings (v_redis (view run.2)) !! playground_key "k1") = Some (RInt 24, None)
  | Err _ => False
  end.
Proof. vm_compute. auto. Qed.
End witness.
