(* ===== verification/Auth.v ===== *)
(** * Authentication

    [AuthService] of [src/modules/auth/auth.service.ts] and the guards of
    [src/common/guards/]: [AuthGuard], [ScopeGuard], [PortalAuthGuard] and
    [InternalGuard].  The decryption of a protocol's name and the decoding of a
    token's payload are parameters; random bytes are arguments.  A guard
    returns what it attaches to the request. *)

From Stdlib Require Import Ascii String.
From stdpp Require Import pretty.
From S2P Require Import Prelude Schema External Memory Frame Unsubscribe.

Open Scope string_scope.
Open Scope list_scope.
Open Scope Z_scope.

Definition CACHE_TTL_SECONDS : Z := 300.

(** [[1-9A-HJ-NP-Za-km-z]] *)
Definition base58 (c : ascii) : bool :=
  let n := nat_of_ascii c in
  let within a b := ((nat_of_ascii a <=? n) && (n <=? nat_of_ascii b))%nat in
  within "1"%char "9"%char || within "A"%char "H"%char || within "J"%char "N"%char || within "P"%char "Z"%char || within "a"%char "k"%char ||
  within "m"%char "z"%char.

Fixpoint all_chars (p : ascii → bool) (s : string) : bool :=
  match s with
  | EmptyString => true
  | String c s' => p c && all_chars p s'
  end.

(** [s.substring(n)] *)
Definition from_index (n : nat) (s : string) : string := substring n (String.length s - n) s.

(** [/^hrld_(live|test)_[base58]{30,60}$/.test(key)] *)
Definition isValidKeyFormat (key : string) : bool :=
  let rest := from_index 10 key in
  (String.prefix "hrld_live_" key || String.prefix "hrld_test_" key) && all_chars base58 rest &&
  (30 <=? String.length rest)%nat && (String.length rest <=? 60)%nat.

(** [GeneratedApiKey] *)
Record GeneratedApiKey := {
  gk_plainText : string;
  gk_hash : string;
  gk_prefix : string;
}.

Record AuthConfig := {
  au_internalKey : option string;                 (** INTERNAL_API_KEY *)
  (** [decryptProtocolName] with the configured key, if it succeeds *)
  au_decryptName : string → option string;
}.

(** The headers the guards read, and the URL. *)
Record AuthRequest := {
  rq_url : string;
  rq_authorization : option string;
  rq_internalService : option string;
  rq_internalKey : option string;
  rq_internalSecret : option string;
  rq_protocolId : option string;
}.

Section auth.
Context `{B : Backend} `{Hsh : Hashing}.
Context (cfg : AuthConfig).

Definition hashKey (plainTextKey : string) : string := sha256 plainTextKey.

(** [suffix] is [bs58.encode(randomBytes(32))]. *)
Definition generateApiKey (env : environment) (suffix : string) : GeneratedApiKey :=
  let plainText := "hrld_" +:+ (match env with Production => "live" | Sandbox => "test" end) +:+
    "_" +:+ suffix in
  {| gk_plainText := plainText; gk_hash := hashKey plainText;
     gk_prefix := substring 0 16 plainText |}.

Definition auth_key (keyHash : string) : string := "auth:key:" +:+ keyHash.

Definition invalidateCache (keyHash : string) : M World () := redis_del (auth_key keyHash).

Definition usable_key (keyHash : string) : where_ MApiKey := λ _ k,
  bool_decide (k_keyHash k = keyHash) && negb (k_isRevoked k).

(** The principal of a key of a protocol. *)
Definition principal (k : ApiKey) (p : Protocol) (settings : option ProtocolSettings) :
    AuthenticatedProtocol := {|
  ap_protocolId := p_id p; ap_protocolPubkey := p_protocolPubkey p; ap_apiKeyId := k_id k;
  ap_tier := p_tier p; ap_scopes := k_scopes k; ap_environment := k_environment k;
  ap_isActive := p_isActive p; ap_sendsThisPeriod := Some (p_sendsThisPeriod p);
  ap_name := Some (if truthy (chain ps_customFromName settings)
                   then default "" (chain ps_customFromName settings)
                   else default "Unknown Protocol" (au_decryptName cfg (p_nameEncrypted p)));
  ap_overageEnabled := Some (p_overageEnabled p); ap_isTestKey := Some (k_isTestKey k);
  ap_testKeyType := if truthy (k_testKeyType k) then k_testKeyType k else None;
  ap_verificationStatus := Some (p_verificationStatus p) |}.

(** The checks on the key and its protocol. *)
Definition check_key (k : ApiKey) (p : Protocol) (now : Z) : result () :=
  if p_isSuspended p then Err (HttpError 401 "AUTH_ACCOUNT_SUSPENDED")
  else if negb (p_isActive p) then Err (HttpError 401 "AUTH_ACCOUNT_INACTIVE")
  else if k_isTestKey k && match k_expiresAt k with Some e => e <? now | None => false end
  then Err (HttpError 401 "SANDBOX_KEY_EXPIRED")
  else Ok ().

Definition cached_principal (keyHash : string) (now : Z) : M World (option AuthenticatedProtocol) :=
  swallow None (
    cached ← redis_get (auth_key keyHash) now;
    mret match cached with Some (RAuth p) => Some p | _ => None end).

(** A cache miss: the key's row with its protocol and settings, checked,
    put in the cache and in the usage table. *)
Definition load_principal (keyHash : string) (now : Z) : M World (option AuthenticatedProtocol) :=
  apiKey ← find_first MApiKey (usable_key keyHash) None;
  match apiKey with
  | None => mret None
  | Some k =>
      protocol ← included MProtocol (k_protocolId k);
      match protocol with
      | None => mret None
      | Some p =>
          settings ← included MProtocolSettings (p_id p);
          _ ← lift (check_key k p now);
          let res := principal k p settings in
          _ ← swallow () (redis_setex (auth_key keyHash) CACHE_TTL_SECONDS (RAuth res) now);
          _ ← swallow () (redis_hset "auth:last_used" (k_id k) (pretty now));
          mret (Some res)
      end
  end.

Definition validateApiKey (plainTextKey : string) (now : Z) :
    M World (option AuthenticatedProtocol) :=
  if negb (isValidKeyFormat plainTextKey) then mret None else
  let keyHash := hashKey plainTextKey in
  cached ← cached_principal keyHash now;
  match cached with
  | Some p => mret (Some p)
  | None => load_principal keyHash now
  end.

(** ** [AuthGuard] *)

Definition internal_path (url : string) : bool :=
  String.prefix "/v1/domains" url || String.prefix "/v1/templates" url.

Definition is_internal (rq : AuthRequest) : bool :=
  truthy (au_internalKey cfg) && bool_decide (rq_internalService rq = Some "herald-admin") &&
  bool_decide (rq_internalKey rq = au_internalKey cfg) && internal_path (rq_url rq).

Definition internal_principal (p : Protocol) : AuthenticatedProtocol := {|
  ap_protocolId := p_id p; ap_protocolPubkey := p_protocolPubkey p; ap_apiKeyId := "internal";
  ap_tier := p_tier p; ap_scopes := ["notify:write"; "notify:read"; "admin"];
  ap_environment := Production; ap_isActive := p_isActive p; ap_sendsThisPeriod := None;
  ap_name := None; ap_overageEnabled := None; ap_isTestKey := None; ap_testKeyType := None;
  ap_verificationStatus := None |}.

Definition authGuard (rq : AuthRequest) (now : Z) : M World AuthenticatedProtocol :=
  if is_internal rq then
    if negb (truthy (rq_protocolId rq)) then
      raise (HttpError 401 "Missing x-protocol-id for internal request")
    else
      protocol ← find_unique MProtocol (by_id MProtocol (default "" (rq_protocolId rq)));
      match protocol with
      | None => raise (HttpError 401 "Invalid protocolId")
      | Some p => mret (internal_principal p)
      end
  else
    match rq_authorization rq with
    | Some h =>
        if String.prefix "Bearer " h then
          protocol ← validateApiKey (from_index 7 h) now;
          match protocol with
          | Some p => mret p
          | None => raise (HttpError 401 "AUTH_INVALID_KEY")
          end
        else raise (HttpError 401 "AUTH_INVALID_KEY")
    | None => raise (HttpError 401 "AUTH_INVALID_KEY")
    end.

(** ** [ScopeGuard] *)

Definition scopeGuard (requiredScopes : list string) (protocol : option AuthenticatedProtocol) :
    result bool :=
  match requiredScopes, protocol with
  | [], _ => Ok true
  | _, None => Err (HttpError 403 "AUTH_INSUFFICIENT_SCOPE")
  | _, Some p =>
      if forallb (λ s, bool_decide (s ∈ ap_scopes p)) requiredScopes then Ok true
      else Err (HttpError 403 "AUTH_INSUFFICIENT_SCOPE")
  end.

(** ** [PortalAuthGuard] *)

Fixpoint split_space (s : string) : list string :=
  match s with
  | EmptyString => [""]
  | String c s' =>
      if Ascii.eqb " " c then "" :: split_space s'
      else match split_space s' with
           | t :: ts => String c t :: ts
           | [] => [String c ""]
           end
  end.

Definition extractBearer (rq : AuthRequest) : option string :=
  match rq_authorization rq with
  | Some h =>
      match split_space h with
      | type :: token :: _ => if (type =? "Bearer")%string then Some token else None
      | _ => None
      end
  | None => None
  end.

(** The [type] and the [jti] of a payload. *)
Record PortalPayload := {
  pl_type : option string;
  pl_jti : option string;
}.

Definition portal_jti (parse : string → result PortalPayload) (raw : string) : result string :=
  match split_dot raw with
  | _ :: payload :: _ =>
      match parse payload with
      | Ok pl =>
          if bool_decide (pl_type pl = Some "portal") && truthy (pl_jti pl)
          then Ok (default "" (pl_jti pl))
          else Err (HttpError 401 "Invalid portal token")
      | Err _ => Err (HttpError 401 "Invalid portal token")
      end
  | _ => Err (HttpError 401 "Invalid portal token")
  end.

Definition portalGuard (parse : string → result PortalPayload) (rq : AuthRequest) (now : Z) :
    M World string :=
  let raw := extractBearer rq in
  if negb (truthy raw) then raise (HttpError 401 "Missing portal token") else
  jti ← lift (portal_jti parse (default "" raw));
  session ← find_unique MPortalSession (λ _ s, bool_decide (pss_jwtJti s = jti));
  match session with
  | Some s =>
      if pss_revoked s || (pss_expiresAt s <? now)
      then raise (HttpError 401 "Portal session expired or revoked")
      else mret (pss_walletHash s)
  | None => raise (HttpError 401 "Portal session expired or revoked")
  end.

(** ** [InternalGuard]: the protocol id it attaches *)

Definition internalGuard (rq : AuthRequest) : result string :=
  if negb (truthy (au_internalKey cfg)) ||
     negb (bool_decide (au_internalKey cfg = rq_internalSecret rq)) then
    Err (HttpError 401 "INVALID_INTERNAL_REQUEST")
  else if negb (truthy (rq_protocolId rq)) then Err (HttpError 401 "MISSING_PROTOCOL_ID")
  else Ok (default "" (rq_protocolId rq)).

(** ** Properties *)

Context `{BL : !BackendLaws B}.

(** A principal the tables vouch for. *)
Definition vouched (keyHash : string) (now : Z) (v : View) (p : AuthenticatedProtocol) : Prop :=
  ∃ i k pr, v_tables v MApiKey !! i = Some k ∧ k_keyHash k = keyHash ∧ k_isRevoked k = false ∧
    v_tables v MProtocol !! k_protocolId k = Some pr ∧ p_isSuspended pr = false ∧
    p_isActive pr = true ∧
    (k_isTestKey k = true → ∀ e, k_expiresAt k = Some e → now ≤ e) ∧
    p = principal k pr (v_tables v MProtocolSettings !! p_id pr).

Definition cached (keyHash : string) (now : Z) (v : View) (p : AuthenticatedProtocol) : Prop :=
  live now (re_strings (v_redis v) !! auth_key keyHash) = Some (RAuth p).

(** The cache of a key afterwards: as before, or its principal for 300 s. *)
Definition cache_after (keyHash : string) (now : Z) (v v' : View) : Prop :=
  re_strings (v_redis v') = re_strings (v_redis v) ∨
  ∃ p, vouched keyHash now v p ∧ re_strings (v_redis v') =
    <[auth_key keyHash := (RAuth p, Some (now + 300000))]> (re_strings (v_redis v)).

Lemma check_key_ok k p now :
  check_key k p now = Ok () → p_isSuspended p = false ∧ p_isActive p = true ∧
    (k_isTestKey k = true → ∀ e, k_expiresAt k = Some e → now ≤ e).
Proof.
  unfold check_key. destruct (p_isSuspended p); [done |].
  destruct (p_isActive p); cbn [negb]; [| done]. destruct (k_isTestKey k); [| done].
  destruct (k_expiresAt k) as [e|]; [| done]. cbn. destruct (Z.ltb_spec e now); [done |].
  intros _. split_and!; [done | done |]. by intros _ ? [= <-].
Qed.

(** What a lookup of a key may do: no row changes, and the principal it finds,
    if any, is accounted for. *)
Definition accounted (keyHash : string) (now : Z) (v : View)
    (r : result (option AuthenticatedProtocol)) (v' : View) : Prop :=
  v_tables v' = v_tables v ∧ cache_after keyHash now v v' ∧
  ∀ p, r = Ok (Some p) → cached keyHash now v p ∨ vouched keyHash now v p.

Lemma accounted_none h now v r : (∀ p, r ≠ Ok (Some p)) → accounted h now v r v.
Proof. intros Hr. split_and!; [done | by left |]. intros p Hp. by destruct (Hr p). Qed.

(** The two writes after the checks: whether they succeed or not. *)
Lemma remember_spec h now k res v w :
  view w = v → vouched h now v res →
  wp (_ ← swallow () (redis_setex (auth_key h) CACHE_TTL_SECONDS (RAuth res) now);
      _ ← swallow () (redis_hset "auth:last_used" (k_id k) (pretty now));
      mret (Some res)) (λ r w', accounted h now v r (view w')) w.
Proof.
  intros <- Hres.
  assert (∀ w1, v_tables (view w1) = v_tables (view w) → cache_after h now (view w) (view w1) →
    wp (_ ← swallow () (redis_hset "auth:last_used" (k_id k) (pretty now)); mret (Some res))
      (λ r w', accounted h now (view w) r (view w')) w1) as Hend.
  { intros w1 Ht Hc.
    apply wp_bind, wp_swallow, wp_redis_hset; [intros w2 Hv2 | intros e w2 Hv2]; apply wp_ret;
      (split_and!; [by rewrite Hv2 | | intros ? [= <-]; by right]); unfold cache_after; by rewrite Hv2. }
  apply wp_bind, wp_swallow, wp_redis_setex; [intros w1 Hv1 | intros e w1 Hv1]; apply Hend; rewrite Hv1;
    [done | right; by exists res | done | by left].
Qed.

Lemma load_principal_spec h now v w :
  view w = v → wp (load_principal h now) (λ r w', accounted h now v r (view w')) w.
Proof.
  intros <-. unfold load_principal.
  apply wp_bind, (wp_find_first MApiKey); [| intros e w1 ->; by apply accounted_none].
  intros [k|] w1 Ho Hv1; [| apply wp_ret; rewrite Hv1; by apply accounted_none].
  destruct Ho as (i & Hi & Hu). unfold usable_key in Hu.
  rewrite andb_true_iff, bool_decide_eq_true, negb_true_iff in Hu. destruct Hu as [Hh Hrev].
  apply wp_bind, (wp_included MProtocol). rewrite Hv1.
  destruct (v_tables (view w) MProtocol !! k_protocolId k) as [pr|] eqn:Hpr;
    [| apply wp_ret; rewrite Hv1; by apply accounted_none].
  apply wp_bind, (wp_included MProtocolSettings). rewrite Hv1. apply wp_bind, wp_lift.
  destruct (check_key k pr now) as [[]|e] eqn:Hchk; [| rewrite Hv1; by apply accounted_none].
  apply check_key_ok in Hchk as (? & ? & ?).
  apply remember_spec; [done |]. exists i, k, pr. by split_and!.
Qed.

Lemma validateApiKey_spec key now w :
  wp (validateApiKey key now) (λ r w', accounted (hashKey key) now (view w) r (view w') ∧
    ∀ p, r = Ok (Some p) → isValidKeyFormat key = true) w.
Proof.
  unfold validateApiKey. destruct (isValidKeyFormat key); cbn [negb].
  2:{ apply wp_ret. split; [by apply accounted_none | done]. }
  apply wp_mono with (λ r w', accounted (hashKey key) now (view w) r (view w')); [| done].
  unfold cached_principal. apply wp_bind, wp_swallow, wp_bind, wp_redis_get.
  - intros w1 Hv1. apply wp_ret.
    destruct (live now _) as [[]|] eqn:Hl; try by apply load_principal_spec.
    apply wp_ret. rewrite Hv1. split_and!; [done | by left |]. intros ? [= <-]. auto.
  - intros e w1 Hv1. by apply load_principal_spec.
Qed.

(** Whom [AuthGuard] lets through: for an internal request a protocol of the
    table, else the principal of a well-formed bearer key that the cache holds
    or the tables vouch for. *)
Definition admitted (rq : AuthRequest) (now : Z) (v : View) (p : AuthenticatedProtocol) : Prop :=
  (is_internal rq = true ∧ ∃ k pr, rq_protocolId rq = Some k ∧
     v_tables v MProtocol !! k = Some pr ∧ p = internal_principal pr) ∨
  (is_internal rq = false ∧ ∃ h, rq_authorization rq = Some h ∧
     String.prefix "Bearer " h = true ∧
     let key := from_index 7 h in
     isValidKeyFormat key = true ∧
     (cached (hashKey key) now v p ∨ vouched (hashKey key) now v p)).

(** Authentication.  [AuthGuard] changes no row, and lets a request
    through only as a principal that is accounted for: a protocol of the
    table, for an internal request to a domain or template path with the
    configured internal key; else the principal of a well-formed bearer key,
    which either the cache holds, or the tables vouch for: a key that is not
    revoked (nor expired, for a test key) of an active protocol that is not
    suspended.  What it leaves in the cache is such a principal, for 300
    seconds; so a revoked key stops working at most 300 seconds later. *)
Theorem request_authenticated rq now w :
  wp (authGuard rq now) (λ r w', v_tables (view w') = v_tables (view w) ∧
    ∀ p, r = Ok p → admitted rq now (view w) p ∧
      (is_internal rq = false → ∃ h, rq_authorization rq = Some h ∧
         cache_after (hashKey (from_index 7 h)) now (view w) (view w'))) w.
Proof.
  unfold authGuard. destruct (is_internal rq) eqn:Hint.
  - destruct (truthy (rq_protocolId rq)) eqn:Hid; cbn [negb]; [| by apply wp_raise].
    apply truthy_Some in Hid as (id & Hid & _). rewrite Hid. cbn [default from_option].
    apply wp_bind, (wp_find_unique MProtocol); [| by intros e w1 ->].
    intros o w1 Ho%found_by_id Hv1. destruct o as [pr|]; [apply wp_ret | apply wp_raise];
      rewrite Hv1; (split; [done |]); [| done].
    intros ? [= <-]. split; [| done]. left. split; [done |]. by exists id, pr.
  - destruct (rq_authorization rq) as [h|] eqn:Hh; [| by apply wp_raise].
    destruct (String.prefix "Bearer " h) eqn:Hpre; [| by apply wp_raise].
    apply wp_bind. eapply wp_mono; [apply validateApiKey_spec |].
    intros [[p|]|e] w1 [(Ht & Hc & Hp) Hf]; [apply wp_ret | by apply wp_raise | done].
    split; [done |]. intros ? [= <-]. split; [| eauto]. right. split; [done |]. exists h.
    rewrite Hh. cbv zeta. split_and!; [done | done | by eapply Hf | by apply Hp].
Qed.

(** The guard writes to the cache of keys and nowhere else. *)
Definition auth_frame : Frame := {|
  fr_table _ := False; fr_job _ := False; fr_key k := ∃ h, k = auth_key h; fr_send _ := False |}.

Lemma authGuard_keeps rq now : Keeps auth_frame (authGuard rq now).
Proof.
  unfold authGuard, validateApiKey, load_principal, cached_principal. keeps.
  by eexists.
Qed.

(** The other guards let through what they should. *)
Lemma scopeGuard_spec required protocol b :
  scopeGuard required protocol = Ok b → b = true ∧
    (required = [] ∨ ∃ p, protocol = Some p ∧ ∀ s, s ∈ required → s ∈ ap_scopes p).
Proof.
  unfold scopeGuard. destruct required as [|s ss]; [intros [= <-]; auto |].
  destruct protocol as [p|]; [| done]. destruct (forallb _ _) eqn:Hall; [| done].
  intros [= <-]. split; [done |]. right. exists p. split; [done |].
  rewrite forallb_forall in Hall. intros x Hx%list_elem_of_In.
  by apply Hall, bool_decide_eq_true in Hx.
Qed.

Lemma portalGuard_spec parse rq now w :
  wp (portalGuard parse rq now) (λ r w', view w' = view w ∧ ∀ walletHash, r = Ok walletHash →
    ∃ k s, v_tables (view w) MPortalSession !! k = Some s ∧ pss_walletHash s = walletHash ∧
      pss_revoked s = false ∧ now ≤ pss_expiresAt s) w.
Proof.
  unfold portalGuard. destruct (truthy (extractBearer rq)); cbn [negb]; [| by apply wp_raise].
  apply wp_bind, wp_lift.
  destruct (portal_jti _ _) as [jti|e]; [| done].
  apply wp_bind, (wp_find_unique MPortalSession); [| by intros e w1 ->].
  intros [s|] w1 Ho Hv1; [| by apply wp_raise]. destruct Ho as (k & Hk & _).
  destruct (pss_revoked s) eqn:Hr; [by apply wp_raise |]. cbn [orb].
  destruct (Z.ltb_spec (pss_expiresAt s) now); [by apply wp_raise |].
  apply wp_ret. split; [done |]. intros ? [= <-]. by exists k, s.
Qed.
End auth.

(** ** Examples *)

Definition sample_config : AuthConfig := {|
  au_internalKey := Some "internal"; au_decryptName := λ _, Some "Proto" |}.

Definition live_key : string := "hrld_live_4xR9mKp2nQwBvTsYjL8dHcFuEa3ZiXuW".

Definition active_protocol : Protocol := {|
  p_id := "p1"; p_protocolPubkey := "pk"; p_nameEncrypted := ""; p_tier := 1; p_isActive := true;
  p_isSuspended := false; p_verificationStatus := VERIFIED; p_sendsThisPeriod := 0;
  p_overageEnabled := false; p_periodResetAt := 0; p_updatedAt := 0 |}.

Definition live_key_row (revoked : bool) : ApiKey := {|
  k_id := "k1"; k_protocolId := "p1"; k_keyHash := live_key; k_keyPrefix := "";
  k_environment := Production; k_scopes := ["notify:write"]; k_isRevoked := revoked;
  k_expiresAt := None; k_isTestKey := false; k_testDailyLimit := 0; k_testKeyType := None;
  k_testKeyIpHash := None |}.

Section examples.
#[local] Instance auth_sha : Hashing := { sha256 s := s }.

Definition bearer (key : string) : AuthRequest := {|
  rq_url := "/v1/notify"; rq_authorization := Some ("Bearer " +:+ key);
  rq_internalService := None; rq_internalKey := None; rq_internalSecret := None;
  rq_protocolId := None |}.

Lemma request_authenticated_witness :
  let w := mem_world (with_rows MApiKey [live_key_row false]
             (with_rows MProtocol [active_protocol] no_tables)) ∅ in
  let run := authGuard sample_config (bearer live_key) 0 w in
  ∃ p, run.1 = Ok p ∧ ap_protocolId p = "p1" ∧
    (cached (hashKey live_key) 0 (view w) p ∨ vouched sample_config (hashKey live_key) 0 (view w) p) ∧
    cache_after sample_config (hashKey live_key) 0 (view w) (view run.2).
Proof.
  intros w run.
  assert (match run.1 with Ok p => ap_protocolId p = "p1" | Err _ => False end) as Hp
    by (vm_compute; reflexivity).
  destruct (wp_at _ _ w _ (request_authenticated sample_config (bearer live_key) 0 w) eq_refl)
    as [_ Hauth]. fold run in Hauth. destruct run.1 as [p|e]; [| destruct Hp].
  exists p. destruct (Hauth p eq_refl) as [[[Hint _] | (_ & h & Hh & _ & _ & Hfrom)] Hc];
    [discriminate Hint |]. injection Hh as <-. destruct (Hc eq_refl) as (h' & Hh' & Hcache).
  injection Hh' as <-.
  split_and!; [reflexivity | exact Hp | exact Hfrom | exact Hcache].
Defined.

(** A key is used, revoked in the table a second later, and still accepted
    299 seconds after its use, but not one second later. *)
Lemma revoked_key_still_valid :
  let w := mem_world (with_rows MApiKey [live_key_row false]
             (with_rows MProtocol [active_protocol] no_tables)) ∅ in
  let w1 := (authGuard sample_config (bearer live_key) 0 w).2 in
  let w2 := w1 <| w_db ::= set m_tables (with_rows MApiKey [live_key_row true]) |> in
  is_ok (authGuard sample_config (bearer live_key) 299000 w2).1 = true ∧
  (authGuard sample_config (bearer live_key) 300000 w2).1 = Err (HttpError 401 "AUTH_INVALID_KEY").
Proof. vm_compute. auto. Qed.
End examples.
