(* ===== verification/Receipt.v ===== *)
(** * On-chain receipts

    [ReceiptService] of [src/modules/receipt/receipt.service.ts], which scans
    for delivered notifications that lack a receipt, and the batch loop of
    [ReceiptWorker] (receipt.worker.ts).  The parsing of a public key, the proof
    and the instruction, and the confirmation of a transaction are parameters;
    a transaction is a message of [Network]. *)

From Stdlib Require Import Ascii String.
From stdpp Require Import pretty.
From S2P Require Import Prelude Schema External Memory Frame.

Open Scope string_scope.
Open Scope list_scope.
Open Scope Z_scope.

(** ** The scan *)

Definition receipt_window (now : Z) : Z := now / 300000.

Definition lock_key (window : Z) : string := "receipt-scan-lock:" +:+ pretty window.

Definition pending_receipt : where_ MNotification := λ _ n,
  n_writeReceipt n && bool_decide (n_receiptTx n = None) &&
  bool_decide (n_receiptFailureReason n = None) && bool_decide (n_status n = Delivered).

(** [orderBy: { deliveredAt: 'asc' }]: nulls come last. *)
Definition delivered_time (n : Notification) : Z := default 8640000000000001 (n_deliveredAt n).

Definition receipt_item (n : Notification) : ReceiptNotification := {|
  rn_id := n_id n; rn_protocolId := n_protocolId n; rn_walletHash := n_walletHash n;
  rn_category := n_category n |}.

Definition receipt_job (window : Z) (batch : list ReceiptNotification) : job QReceiptBatch :=
  mkJob (q := QReceiptBatch) "flush-receipts" batch (Some ("receipt-batch-" +:+ pretty window)) 3
    (Some 5000).

(** ** The batch loop *)

(** The state of the worker: what [initClient] has loaded. *)
Record Authority := {
  au_client : bool;
  au_pubkey : bool;
  au_kmsMode : bool;
  au_keypair : bool;
}.

(** ** The authority *)

(** [getKmsClient]: the region of the one client that is kept. *)
Definition getKmsClient (region : string) (kept : option string) : string * option string :=
  match kept with
  | Some r => if (r =? region)%string then (r, kept) else (region, Some region)
  | None => (region, Some region)
  end.

(** KMS and the keys: the DER form of a public key, the plaintext of a
    ciphertext, a signature ([None] where the answer lacks the field), and the
    public key of a base58 secret. *)
Record KeyService := {
  ks_publicKey : string → string → result (option (list N));        (** key id, region *)
  ks_decrypt : string → string → string → result (option string);   (** key id, region, ciphertext *)
  ks_sign : string → string → list N → result (option (list N));
  ks_pubkey : list N → result string;                               (** [new PublicKey(raw)] *)
  ks_keypair : string → result string;       (** [Keypair.fromSecretKey(bs58.decode(s))] *)
}.

Record AuthoritySettings := {
  as_plainSecret : option string;      (** HERALD_AUTHORITY_SECRET *)
  as_kmsKeyId : option string;         (** HERALD_AUTHORITY_KMS_KEY_ID *)
  as_ciphertext : option string;       (** HERALD_AUTHORITY_SECRET_CIPHERTEXT *)
  as_region : string;                  (** AWS_REGION, or eu-north-1 *)
}.

(** A field of an answer of KMS that has to be there. *)
Definition present {A} (missing : string) (r : result (option A)) : result A :=
  match r with
  | Ok (Some a) => Ok a
  | Ok None => Err (JsError missing None)
  | Err e => Err e
  end.

(** [bytes.slice(-32)] *)
Definition last32 (b : list N) : list N := drop (length b - 32) b.

Definition kmsGetPublicKey (ks : KeyService) (keyId region : string) : result string :=
  match present "KMS did not return a public key" (ks_publicKey ks keyId region) with
  | Ok der => ks_pubkey ks (last32 der)
  | Err e => Err e
  end.

Definition kmsSign (ks : KeyService) (keyId region : string) (message : list N) : result (list N) :=
  present "KMS did not return a signature" (ks_sign ks keyId region message).

Definition no_authority : Authority :=
  {| au_client := false; au_pubkey := false; au_kmsMode := false; au_keypair := false |}.

Definition PLACEHOLDERS : list string := ["base58-encoded-secret-key"; "your-local-keypair-secret"].

(** What [initClient] leaves behind at once, and what the promise it starts,
    if any, does when it settles.  [client] is whether the client of the chain
    can be made. *)
Definition initClient (ks : KeyService) (client : result ()) (st : AuthoritySettings) :
    Authority * (Authority → Authority) :=
  match client with
  | Err _ => (no_authority, id)
  | Ok _ =>
      let a := no_authority <| au_client := true |> in
      let keyId := default "" (as_kmsKeyId st) in
      if truthy (as_kmsKeyId st) && negb (truthy (as_ciphertext st)) then
        (a <| au_kmsMode := true |>,
         λ a, if is_ok (kmsGetPublicKey ks keyId (as_region st)) then a <| au_pubkey := true |> else a)
      else if truthy (as_kmsKeyId st) && truthy (as_ciphertext st) then
        (a, λ a,
           match present "No plaintext returned from KMS"
                   (ks_decrypt ks keyId (as_region st) (default "" (as_ciphertext st))) with
           | Ok secret =>
               if is_ok (ks_keypair ks secret) then a <| au_keypair := true |> <| au_pubkey := true |> else a
           | Err _ => a
           end)
      else if truthy (as_plainSecret st) && bool_decide (default "" (as_plainSecret st) ∉ PLACEHOLDERS) then
        (if is_ok (ks_keypair ks (default "" (as_plainSecret st)))
         then a <| au_keypair := true |> <| au_pubkey := true |> else a, id)
      else (a, id)
  end.

(** The worker once everything has settled. *)
Definition settled_authority (ks : KeyService) (client : result ()) (st : AuthoritySettings) : Authority :=
  let '(a, f) := initClient ks client st in f a.

Definition category_code (category : string) : Z :=
  if (category =? "defi")%string then 0
  else if (category =? "governance")%string then 1
  else if (category =? "marketing")%string then 2
  else if (category =? "system")%string then 3
  else if (category =? "security")%string then 3
  else 0.

(** [s.includes(needle)] *)
Fixpoint includes (needle s : string) : bool :=
  String.prefix needle s ||
  match s with
  | EmptyString => false
  | String _ s' => includes needle s'
  end.

Definition failure_reason (message : string) : string :=
  if includes "AccountNotInitialized" message then
    "Protocol account not initialised on-chain. Call POST /protocols/me/sync-onchain from the dashboard to register the protocol PDA, then clear this field to retry."
  else message.

Record ReceiptConfig := {
  rcf_batchSize : nat;                                        (** RECEIPT_BATCH_SIZE *)
  rcf_validPubkey : string → bool;                            (** [new PublicKey] succeeds *)
  rcf_prepare : ReceiptNotification → string → Z → result (); (** proof, instruction, signature *)
  rcf_confirm : string → result ();
}.

Section receipts.
Context `{B : Backend}.
Context (cfg : ReceiptConfig).

Definition enqueueReceiptBatches (now : Z) : M World () :=
  let window := receipt_window now in
  acquired ← redis_set_nx (lock_key window) (RText "1") 290 now;
  if negb (acquired : bool) then mret () else
  found ← find_many MNotification pending_receipt (Some delivered_time);
  match firstn (rcf_batchSize cfg) found with
  | [] => mret ()
  | pending => queue_add QReceiptBatch (receipt_job window (receipt_item <$> pending))
  end.

(** One turn of the loop. *)
Definition write_receipt (now : Z) (n : ReceiptNotification) : M World () :=
  let row := by_id MNotification (rn_id n) in
  catch (
    protocol ← find_unique MProtocol (by_id MProtocol (rn_protocolId n));
    let owner := option_map p_protocolPubkey protocol in
    if negb (truthy owner) then mret () else
    let pubkey := default "" owner in
    if negb (rcf_validPubkey cfg pubkey) then
      _ ← update MNotification row (λ r, r <| n_writeReceipt := false |>);
      mret ()
    else
      let category := category_code (rn_category n) in
      _ ← lift (rcf_prepare cfg n pubkey category);
      tx ← send (ReceiptEnvelope (rn_id n) (rn_walletHash n) pubkey category);
      _ ← lift (rcf_confirm cfg (rc_messageId tx));
      _ ← update MNotification row (λ r, r <| n_receiptTx := Some (rc_messageId tx) |>);
      mret ())
  (λ e,
    _ ← update MNotification row (λ r,
      r <| n_receiptFailureReason := Some (failure_reason (err_message e)) |>
        <| n_lastReceiptAttemptAt := Some now |>);
    mret ()).

(** [ReceiptWorker.process] *)
Definition process (authority : Authority) (j : job QReceiptBatch) (now : Z) : M World () :=
  if negb (job_name j =? "flush-receipts")%string then mret () else
  match job_payload j with
  | [] => mret ()
  | notifications =>
      if negb (au_client authority) then raise (JsError "AuthorityClient missing" None)
      else if negb (au_pubkey authority) then raise (JsError "Authority pubkey missing" None)
      else if negb (au_kmsMode authority) && negb (au_keypair authority)
      then raise (JsError "Authority keypair missing" None)
      else for_each (write_receipt now) notifications
  end.

(** ** Properties *)

Context `{BL : !BackendLaws B}.

(** The scan for receipts runs at most once per window of five minutes:
    when the window's lock is held it does nothing; otherwise it takes the lock
    and adds at most one job, the window's, with the oldest of the delivered
    notifications that want a receipt and have neither one nor a failure, no
    more than the batch size of them.  No row changes. *)
Theorem receipt_scan now w :
  let lock := lock_key (receipt_window now) in
  wp (enqueueReceiptBatches now) (λ r w',
    v_tables (view w') = v_tables (view w) ∧
    (v_jobs (view w') QReceiptBatch = v_jobs (view w) QReceiptBatch ∨
     live now (re_strings (v_redis (view w)) !! lock) = None ∧
     live now (re_strings (v_redis (view w')) !! lock) ≠ None ∧
     ∃ l, selects MNotification pending_receipt (Some delivered_time)
            (v_tables (view w) MNotification) l ∧
       let batch := receipt_item <$> firstn (rcf_batchSize cfg) l in
       (0 < length batch ≤ rcf_batchSize cfg)%nat ∧
       v_jobs (view w') QReceiptBatch =
         add_job (receipt_job (receipt_window now) batch) (v_jobs (view w) QReceiptBatch))) w.
Proof.
  intros lock. unfold enqueueReceiptBatches. fold lock. apply wp_bind, wp_redis_set_nx.
  - intros w1 Hnone Hv1. cbn [negb]. apply wp_bind, (wp_find_many MNotification).
    2:{ intros e w2 ->. rewrite Hv1. split; [done | by left]. }
    intros l w2 Hl Hv2. rewrite Hv1 in Hl, Hv2.
    destruct (firstn (rcf_batchSize cfg) l) as [|n ns] eqn:Hpend.
    + apply wp_ret. rewrite Hv2. split; [done | by left].
    + apply (wp_queue_add QReceiptBatch); [| intros e w3 ->; rewrite Hv2; split; [done | by left]].
      intros w3 Hv3. rewrite Hv3, Hv2. split; [done |]. right. split_and!; [done | |].
      * cbn. rewrite lookup_insert_eq. unfold live. by rewrite (proj2 (Z.ltb_lt _ _)) by lia.
      * exists l. split; [done |]. rewrite Hpend. cbn zeta. split; [| cbn; by rewrite upd_jobs_eq].
        rewrite length_fmap. pose proof (firstn_le_length (rcf_batchSize cfg) l) as Hle.
        rewrite Hpend in Hle. split; [apply Nat.lt_0_succ | exact Hle].
  - intros x w1 _ Hv1. apply wp_ret. rewrite Hv1. split; [done | by left].
  - intros e w1 ->. split; [done | by left].
Qed.

(** What one turn of the loop may write in its row. *)
Definition receipt_step (now : Z) (n n' : Notification) : Prop :=
  n' = n ∨ n' = n <| n_writeReceipt := false |> ∨
  (∃ tx, n' = n <| n_receiptTx := Some tx |>) ∨
  (∃ reason, n' = n <| n_receiptFailureReason := Some reason |>
                     <| n_lastReceiptAttemptAt := Some now |>).

(** The rows after one turn for the notification [id]. *)
Definition receipt_rows (now : Z) (id : string) (v v' : View) : Prop :=
  ∀ k row, v_tables v MNotification !! k = Some row →
    ∃ row', v_tables v' MNotification !! k = Some row' ∧
      (k ≠ id → row' = row) ∧ receipt_step now row row'.

Lemma receipt_rows_same now id v v' : v_tables v' = v_tables v → receipt_rows now id v v'.
Proof. intros Ht k row Hk. exists row. rewrite Ht. split_and!; [done | done | by left]. Qed.

Lemma wp_receipt_update now id (f : Notification → Notification) (Q : result () → World → Prop) v w :
  v_tables (view w) = v_tables v → (∀ row, receipt_step now row (f row)) →
  (∀ r w', receipt_rows now id v (view w') →
    (is_ok r = false → v_tables (view w') = v_tables v) → Q r w') →
  wp (_ ← update MNotification (by_id MNotification id) f; mret ()) Q w.
Proof.
  intros Ht Hf HQ. apply wp_bind, (wp_update MNotification).
  - intros k row w2 Hk ->%bool_decide_eq_true Hv2. apply wp_ret, HQ; [| done].
    intros k' row' Hk'. rewrite Hv2. cbn. rewrite upd_eq, Ht. rewrite Ht in Hk.
    destruct (decide (k' = id)) as [-> | Hne].
    + pose proof (Some_agree Hk Hk') as ->. eexists. rewrite lookup_insert_eq. by split_and!.
    + exists row'. rewrite lookup_insert_ne by done. split_and!; [done | done | by left].
  - intros e w2 Hv2. apply HQ; [apply receipt_rows_same | intros _]; by rewrite Hv2.
Qed.

Lemma write_receipt_spec now n w :
  wp (write_receipt now n) (λ r w', receipt_rows now (rn_id n) (view w) (view w')) w.
Proof.
  unfold write_receipt. apply wp_catch.
  apply wp_mono with (λ r w1, receipt_rows now (rn_id n) (view w) (view w1) ∧
    (is_ok r = false → v_tables (view w1) = v_tables (view w))).
  - pose proof (receipt_rows_same now (rn_id n) (view w)) as Hsame.
    apply wp_bind, (wp_find_unique MProtocol); [| intros e w1 ->; by auto].
    intros p w1 _ Hv1. destruct (truthy _); cbn [negb]; [| apply wp_ret; rewrite Hv1; by auto].
    destruct (rcf_validPubkey cfg _); cbn [negb].
    2:{ apply (wp_receipt_update now _ _ _ (view w));
          [by rewrite Hv1 | intros; unfold receipt_step; auto | auto]. }
    apply wp_bind, wp_lift. destruct (rcf_prepare cfg n _ _) as [[]|e]; [| rewrite Hv1; by auto].
    apply wp_bind, wp_send.
    2:{ intros e w2 Hv2. assert (v_tables (view w2) = v_tables (view w)) as Ht2
          by (destruct Hv2 as [-> | ->]; by rewrite Hv1). auto. }
    intros tx w2 Hv2. assert (v_tables (view w2) = v_tables (view w)) as Ht2 by (by rewrite Hv2, Hv1).
    apply wp_bind, wp_lift. destruct (rcf_confirm cfg _) as [[]|e]; [| by auto].
    apply (wp_receipt_update now _ _ _ (view w)); [done | intros; unfold receipt_step; eauto | auto].
  - intros [[]|e] w1 [Hstep Hfail]; [exact Hstep |].
    apply (wp_receipt_update now _ _ _ (view w));
      [by apply Hfail | intros; unfold receipt_step; eauto 6 | auto].
Qed.
End receipts.

(** ** Which key signs *)

(** The guards of [process]: what it takes to sign. *)
Definition can_sign (a : Authority) : bool :=
  au_client a && au_pubkey a && (au_kmsMode a || au_keypair a).

(** A batch is worked on exactly when the worker can sign; otherwise it is
    rejected before anything is read or written. *)
Lemma process_needs_key `{B : Backend} cfg a (j : job QReceiptBatch) now w :
  job_name j = "flush-receipts" → job_payload j ≠ [] → can_sign a = false →
  ∃ e, process cfg a j now w = (Err e, w).
Proof.
  intros Hn Hp Ha. unfold process. rewrite Hn. cbn. destruct (job_payload j); [done |].
  unfold can_sign in Ha. destruct (au_client a), (au_pubkey a), (au_kmsMode a), (au_keypair a); cbn in *;
    try done; by eexists.
Qed.

(** A worker without a KMS key. *)
Lemma plain_key_ready ks st : truthy (as_kmsKeyId st) = false →
  (can_sign (settled_authority ks (Ok ()) st) = true ↔
   ∃ s, as_plainSecret st = Some s ∧ s ≠ "" ∧ s ∉ PLACEHOLDERS ∧ is_ok (ks_keypair ks s) = true).
Proof.
  intros Hk. unfold settled_authority, initClient. rewrite Hk. cbn.
  destruct (as_plainSecret st) as [[|c s] |]; cbn [truthy andb default from_option id].
  - split; [done |]. by intros (? & [= <-] & ? & _).
  - case_bool_decide as Hp; cbn.
    + destruct (is_ok (ks_keypair ks (String c s))) eqn:E; cbn; split; try done; [by eexists |].
      by intros (? & [= <-] & _ & _ & ?%not_false_iff_true).
    + split; [done |]. by intros (? & [= <-] & _ & ? & _).
  - split; [done |]. by intros (? & ? & _).
Qed.

(** The keys of the receipts.  Once the worker has started up it can sign
    exactly when a KMS key without a ciphertext has a public key that is one,
    or the ciphertext of a KMS key decrypts to a secret key, or, without a KMS
    key, the plain secret is a secret key and none of the two placeholders;
    with a KMS key, nothing can be signed before its answer is there. *)
Theorem authority_ready ks st :
  let a := settled_authority ks (Ok ()) st in
  let kms := truthy (as_kmsKeyId st) in
  let keyId := default "" (as_kmsKeyId st) in
  (can_sign a = true ↔
     (kms = true ∧ truthy (as_ciphertext st) = false ∧
        ∃ der, ks_publicKey ks keyId (as_region st) = Ok (Some der) ∧ is_ok (ks_pubkey ks (last32 der)) = true) ∨
     (kms = true ∧ truthy (as_ciphertext st) = true ∧
        ∃ s, ks_decrypt ks keyId (as_region st) (default "" (as_ciphertext st)) = Ok (Some s) ∧
             is_ok (ks_keypair ks s) = true) ∨
     (kms = false ∧ ∃ s, as_plainSecret st = Some s ∧ s ≠ "" ∧ s ∉ PLACEHOLDERS ∧ is_ok (ks_keypair ks s) = true)) ∧
  (kms = true → can_sign (initClient ks (Ok ()) st).1 = false).
Proof.
  cbn zeta. destruct (truthy (as_kmsKeyId st)) eqn:Ek.
  2:{ split; [| done]. rewrite plain_key_ready by done. naive_solver. }
  unfold settled_authority, initClient, kmsGetPublicKey, present. rewrite Ek.
  destruct (truthy (as_ciphertext st)); cbn; (split; [| done]).
  - destruct (ks_decrypt ks _ _ _) as [[s |] |]; cbn;
      [destruct (is_ok (ks_keypair ks s)) eqn:Es; cbn |..]; naive_solver.
  - destruct (ks_publicKey ks _ _) as [[der |] |]; cbn;
      [destruct (is_ok (ks_pubkey ks (last32 der))) eqn:Es; cbn |..]; naive_solver.
Qed.

(** ** Examples *)

Definition receipt_config : ReceiptConfig := {|
  rcf_batchSize := 1; rcf_validPubkey := λ _, true; rcf_prepare := λ _ _ _, Ok ();
  rcf_confirm := λ _, Ok () |}.

(** The oldest pending notification of a protocol that is gone is skipped by
    the worker without a trace, so every later scan batches it again, and with
    a full batch of such rows no other notification ever gets its receipt. *)
Lemma orphan_blocks_receipts :
  let orphan := (new_notification "n1" "gone" "h1" "s" "defi" Delivered None true 0)
    <| n_deliveredAt := Some 1 |> in
  let waiting := (new_notification "n2" "p2" "h2" "s" "defi" Delivered None true 0)
    <| n_deliveredAt := Some 2 |> in
  let w := mem_world (with_rows MNotification [orphan; waiting] no_tables) ∅ in
  let w1 := (enqueueReceiptBatches receipt_config 0 w).2 in
  let w2 := (write_receipt receipt_config 1000 (receipt_item orphan) w1).2 in
  let w3 := (enqueueReceiptBatches receipt_config 300000 w2).2 in
  (λ j : job QReceiptBatch, rn_id <$> (job_payload j : list ReceiptNotification)) <$>
    v_jobs (view w3) QReceiptBatch = [["n1"]; ["n1"]].
Proof. vm_compute. reflexivity. Qed.

Lemma receipt_scan_witness :
  let n := (new_notification "n1" "p1" "h1" "s" "defi" Delivered None true 0)
    <| n_deliveredAt := Some 1 |> in
  let w := mem_world (with_rows MNotification [n] no_tables) ∅ in
  let run := enqueueReceiptBatches receipt_config 0 w in
  length (v_jobs (view run.2) QReceiptBatch) = 1%nat ∧
  v_tables (view run.2) = v_tables (view w) ∧
  live 0 (re_strings (v_redis (view run.2)) !! lock_key 0) ≠ None.
Proof.
  intros n w run.
  assert (length (v_jobs (view run.2) QReceiptBatch) = 1%nat) as Hlen by (vm_compute; reflexivity).
  destruct (wp_at _ _ w _ (receipt_scan receipt_config 0 w) eq_refl)
    as [Ht [Hj | (_ & Hlock & _)]].
  - fold run in Hj. rewrite Hj in Hlen. discriminate Hlen.
  - split_and!; [exact Hlen | exact Ht | exact Hlock].
Defined.
