(* ===== verification/Scheduler.v ===== *)
(** * Scheduled notifications

    [SchedulerService] of [src/modules/notify/scheduler.service.ts]: the
    creation, listing and cancelling of schedules, the cron job that runs the
    overdue ones, and the computation of the next run from a cron expression.
    A row goes from PENDING to RUNNING, and from there to COMPLETED, to FAILED,
    or back to PENDING with a later run. *)

From Stdlib Require Import Ascii String.
From S2P Require Import Prelude Schema External Memory Frame Regex.

Open Scope string_scope.
Open Scope list_scope.
Open Scope Z_scope.

(** ** Cron expressions *)

(** [s.trim()] on the left. *)
Fixpoint trim_start (s : string) : string :=
  match s with
  | String c s' => if is_space c then trim_start s' else s
  | EmptyString => s
  end.

(** [s.trim().split(/\s+/)], for [s] already trimmed on the left: the words,
    with one empty word for an empty text. *)
Fixpoint split_spaces (s : string) (word : string) : list string :=
  match s with
  | EmptyString => [word]
  | String c s' =>
      if is_space c then
        match trim_start s' with
        | EmptyString => [word]
        | _ => match split_spaces s' "" with
               | "" :: ws => word :: ws
               | ws => word :: ws
               end
        end
      else split_spaces s' (word +:+ String c EmptyString)
  end.

Definition cron_parts (cronExpr : string) : list string :=
  split_spaces (trim_start cronExpr) "".

(** [parseInt(s, 10)]; [None] is NaN. *)
Fixpoint parse_digits (s : string) (acc : option Z) : option Z :=
  match s with
  | String c s' =>
      if is_digit c
      then parse_digits s' (Some (10 * default 0 acc + (Z.of_N (N_of_ascii c) - 48)))
      else acc
  | EmptyString => acc
  end.

Definition parseInt (s : string) : option Z :=
  match trim_start s with
  | String c s' =>
      if (c =? "-")%char then Z.opp <$> parse_digits s' None
      else if (c =? "+")%char then parse_digits s' None
      else parse_digits (String c s') None
  | EmptyString => None
  end.

(** [new Date(ms)]; [None] is an invalid date. *)
Definition date (ms : option Z) : option Z :=
  ms ≫= λ t, if Z.abs t <=? 8640000000000000 then Some t else None.

(** [s.startsWith('*/')] and what follows. *)
Definition every (field : string) : option string :=
  if String.prefix "*/" field then Some (substring 2 (String.length field) field) else None.

Definition getNextCronRun (cronExpr : string) (now : Z) : option Z :=
  match cron_parts cronExpr with
  | [minute; hour; _; _; _] =>
      match every minute with
      | Some n => date (option_map (λ i, now + i * 60000) (parseInt n))
      | None =>
          match every hour with
          | Some n => date (option_map (λ i, now + i * 3600000) (parseInt n))
          | None => date (Some (now + 86400000))
          end
      end
  | _ => date (Some (now + 3600000))
  end.

Example cron_minutes : getNextCronRun " */15 *  * * * " 0 = Some 900000.
Proof. reflexivity. Qed.
Example cron_hours : getNextCronRun "30 */2 * * *" 0 = Some 7200000.
Proof. reflexivity. Qed.
Example cron_weekly : getNextCronRun "0 9 * * 1" 0 = Some 86400000.
Proof. reflexivity. Qed.
Example cron_invalid : getNextCronRun "*/x * * * *" 0 = None.
Proof. reflexivity. Qed.
Example cron_short : getNextCronRun "0 9" 0 = Some 3600000.
Proof. reflexivity. Qed.

(** ** Schedules *)

(** [ScheduleOnceDto] and [ScheduleRecurringDto]; [sd_when] is their
    [scheduledFor] or [cronExpr]. *)
Record ScheduleDto := {
  sd_wallet : option string;
  sd_subject : string;
  sd_body : string;
  sd_category : option string;
  sd_channels : option (list string);
  sd_when : string;
  sd_timezone : option string;
  sd_templateId : option string;
}.

Definition schedule_row (id protocolId : string) (dto : ScheduleDto) (type : ScheduleType)
    (cronExpr : option string) (nextRunAt : Z) : ScheduledNotification := {|
  sn_id := id; sn_protocolId := protocolId; sn_wallet := sd_wallet dto;
  sn_subject := sd_subject dto; sn_body := sd_body dto;
  sn_category := default "defi" (sd_category dto);
  sn_channels := default ["email"] (sd_channels dto); sn_scheduleType := type;
  sn_cronExpr := cronExpr; sn_timezone := default "UTC" (sd_timezone dto);
  sn_nextRunAt := nextRunAt; sn_lastRunAt := None; sn_status := PENDING;
  sn_templateId := sd_templateId dto |}.

Definition overdue (now : Z) : where_ MScheduledNotification := λ _ s,
  bool_decide (sn_status s = PENDING) && (sn_nextRunAt s <=? now).

Definition cancellable (protocolId id : string) : where_ MScheduledNotification := λ k s,
  bool_decide (k = id) && bool_decide (sn_protocolId s = protocolId) &&
  bool_decide (sn_status s = PENDING).

Definition listed (protocolId : string) : where_ MScheduledNotification := λ _ s,
  bool_decide (sn_protocolId s = protocolId) && negb (bool_decide (sn_status s = CANCELLED)).

(** [if (job.scheduleType === 'RECURRING' && job.cronExpr)] *)
Definition recurs (s : ScheduledNotification) : bool :=
  bool_decide (sn_scheduleType s = RECURRING) && truthy (sn_cronExpr s).

Definition running (now : Z) (s : ScheduledNotification) : ScheduledNotification :=
  s <| sn_status := RUNNING |> <| sn_lastRunAt := Some now |>.

Section scheduler.
Context `{B : Backend} `{!Hashing}.

(** [new Date(text)] and [uuidv4()]: the id drawn for the run of a schedule. *)
Context (Date_parse : string → option Z) (uuid : string → string).

(** Prisma refuses an invalid date. *)
Definition valid_date (d : option Z) : M World Z :=
  match d with
  | Some t => mret t
  | None => raise (JsError "Invalid value: Provided Date object is invalid." None)
  end.

Definition scheduleOnce (protocolId : string) (dto : ScheduleDto) : M World ScheduledNotification :=
  nextRunAt ← valid_date (Date_parse (sd_when dto));
  create MScheduledNotification (λ id, schedule_row id protocolId dto ONE_TIME None nextRunAt).

Definition scheduleRecurring (protocolId : string) (dto : ScheduleDto) (now : Z) :
    M World ScheduledNotification :=
  nextRunAt ← valid_date (getNextCronRun (sd_when dto) now);
  create MScheduledNotification
    (λ id, schedule_row id protocolId dto RECURRING (Some (sd_when dto)) nextRunAt).

(** A page, its number and its limit; [None] is NaN, which Prisma refuses like
    a negative [skip]. *)
Record ScheduledPage := {
  sp_items : list ScheduledNotification;
  sp_total : Z;
  sp_page : option Z;
  sp_limit : option Z;
}.

Definition listScheduled (protocolId : string) (page limit : option Z) : M World ScheduledPage :=
  match page, limit with
  | Some n, Some l =>
      let skip := (n - 1) * l in
      if skip <? 0 then raise (JsError "Invalid value for skip argument" None) else
      items ← find_many MScheduledNotification (listed protocolId) (Some sn_nextRunAt);
      total ← count MScheduledNotification (listed protocolId);
      mret {| sp_items := take_rows l (drop (Z.to_nat skip) items); sp_total := total;
              sp_page := page; sp_limit := limit |}
  | _, _ => raise (JsError "Invalid value for take argument" None)
  end.

Definition cancelScheduled (protocolId id : string) : M World () :=
  update_many MScheduledNotification (cancellable protocolId id) (λ s, s <| sn_status := CANCELLED |>).

(** *** The run of one overdue schedule *)

Definition scheduled_notification (now : Z) (s : ScheduledNotification) (wallet : string) :
    Notification :=
  new_notification (uuid (sn_id s)) (sn_protocolId s) (sha256 wallet) (sha256 (sn_subject s))
    (sn_category s) Queued None false now.

Definition scheduled_job (s : ScheduledNotification) (wallet : string) : job QNotification :=
  mkJob (q := QNotification) "deliver" {|
    j_notificationId := uuid (sn_id s); j_protocolId := sn_protocolId s;
    j_protocolPubkey := ""; j_protocolName := ""; j_wallet := wallet;
    j_walletHash := Some (sha256 wallet); j_subject := sn_subject s; j_body := sn_body s;
    j_category := sn_category s; j_writeReceipt := false; j_digestMode := false;
    j_priority := None; j_channels := None; j_excludedChannels := None;
    j_preferredChannel := None; j_isSandbox := false; j_testContact := None; j_tier := None;
    j_templateId := sn_templateId s; j_telegramTemplateId := None; j_templateVariables := ∅ |}
    (Some ("scheduled-" +:+ sn_id s)) 3 (Some 1000).

Definition enqueue_scheduled (now : Z) (s : ScheduledNotification) (wallet : string) : M World () :=
  _ ← create MNotification (λ _, scheduled_notification now s wallet);
  queue_add QNotification (scheduled_job s wallet).

Definition update_schedule (s : ScheduledNotification)
    (f : ScheduledNotification → ScheduledNotification) : M World () :=
  _ ← update MScheduledNotification (by_id MScheduledNotification (sn_id s)) f; mret ().

Definition finish (now : Z) (s : ScheduledNotification) : M World () :=
  if recurs s then
    nextRunAt ← valid_date (getNextCronRun (default "" (sn_cronExpr s)) now);
    update_schedule s (λ r, r <| sn_status := PENDING |> <| sn_nextRunAt := nextRunAt |>)
  else update_schedule s (λ r, r <| sn_status := COMPLETED |>).

Definition run_scheduled (now : Z) (s : ScheduledNotification) : M World () :=
  catch (
    _ ← update_schedule s (running now);
    _ ← (if truthy (sn_wallet s) then enqueue_scheduled now s (default "" (sn_wallet s)) else mret ());
    finish now s)
  (λ _, swallow () (update_schedule s (λ r, r <| sn_status := FAILED |>))).

Definition reconcilePendingJobs (now : Z) : M World () :=
  rows ← find_many MScheduledNotification (overdue now) None;
  for_each (run_scheduled now) (firstn 200 rows).

(** ** What a run leaves *)

(** The row a run leaves, and whether it came to add the schedule's job. *)
Inductive outcome (now : Z) (s : ScheduledNotification) : bool → ScheduledNotification → Prop :=
| o_untouched : outcome now s false s
| o_refused : outcome now s false (s <| sn_status := FAILED |>)
| o_stuck added : outcome now s added (running now s)
| o_failed added : outcome now s added ((running now s) <| sn_status := FAILED |>)
| o_completed : recurs s = false →
    outcome now s (truthy (sn_wallet s)) ((running now s) <| sn_status := COMPLETED |>)
| o_again next : recurs s = true →
    getNextCronRun (default "" (sn_cronExpr s)) now = Some next →
    outcome now s (truthy (sn_wallet s))
      ((running now s) <| sn_status := PENDING |> <| sn_nextRunAt := next |>).

Definition wallet_of (s : ScheduledNotification) : string := default "" (sn_wallet s).

Definition add_scheduled (js : list (job QNotification)) (sa : ScheduledNotification * bool) :
    list (job QNotification) :=
  if sa.2 then add_job (scheduled_job sa.1 (wallet_of sa.1)) js else js.

(** The views a run goes through. *)
Definition put_row (id : string) (row : ScheduledNotification) (v : View) : View :=
  v <| v_tables ::= upd MScheduledNotification <[id := row]> |>.

Definition with_note (n : Notification) (v : View) : View :=
  v <| v_tables ::= upd MNotification <[n_id n := n]> |>.

Definition with_job (j : job QNotification) (v : View) : View :=
  v <| v_jobs ::= upd_jobs QNotification (add_job j) |>.

Definition marked (now : Z) (s : ScheduledNotification) (v : View) : View :=
  put_row (sn_id s) (running now s) v.

Definition noted (now : Z) (s : ScheduledNotification) (v : View) : View :=
  with_note (scheduled_notification now s (wallet_of s)) (marked now s v).

(** The schedule is marked and, where it names a wallet, queued. *)
Definition sent_off (now : Z) (s : ScheduledNotification) (v : View) : View :=
  if truthy (sn_wallet s) then with_job (scheduled_job s (wallet_of s)) (noted now s v)
  else marked now s v.

Definition fail (r : ScheduledNotification) : ScheduledNotification := r <| sn_status := FAILED |>.

(** The handler: FAILED, or the row stays when that can not be written. *)
Definition gave_up (s row : ScheduledNotification) (v v' : View) : Prop :=
  v' = put_row (sn_id s) (fail row) v ∨ v' = v ∧ ∃ e, rejects (update_schedule s fail) v e.

(** The last write. *)
Definition finishing (now : Z) (s : ScheduledNotification) (f : ScheduledNotification → ScheduledNotification) : Prop :=
  (recurs s = false ∧ f = λ r, r <| sn_status := COMPLETED |>) ∨
  ∃ next, recurs s = true ∧ getNextCronRun (default "" (sn_cronExpr s)) now = Some next ∧
    f = λ r, r <| sn_status := PENDING |> <| sn_nextRunAt := next |>.

(** One run of a schedule, with whether it came to add the job: it goes
    through, or the very operation rejected, or the next run is no date, after
    which it gives up. *)
Inductive step (now : Z) (s : ScheduledNotification) (v : View) : bool → View → Prop :=
| st_unmarked e v' : rejects (update_schedule s (running now)) v e → gave_up s s v v' → step now s v false v'
| st_no_note e v' : truthy (sn_wallet s) = true →
    rejects (create MNotification (λ _, scheduled_notification now s (wallet_of s))) (marked now s v) e →
    gave_up s (running now s) (marked now s v) v' → step now s v false v'
| st_no_job e v' : truthy (sn_wallet s) = true →
    v_tables v MNotification !! uuid (sn_id s) = None →
    rejects (queue_add QNotification (scheduled_job s (wallet_of s))) (noted now s v) e →
    gave_up s (running now s) (noted now s v) v' → step now s v false v'
| st_no_date v' : (truthy (sn_wallet s) = true → v_tables v MNotification !! uuid (sn_id s) = None) →
    recurs s = true → getNextCronRun (default "" (sn_cronExpr s)) now = None →
    gave_up s (running now s) (sent_off now s v) v' → step now s v (truthy (sn_wallet s)) v'
| st_unfinished f e v' : (truthy (sn_wallet s) = true → v_tables v MNotification !! uuid (sn_id s) = None) →
    finishing now s f → rejects (update_schedule s f) (sent_off now s v) e →
    gave_up s (running now s) (sent_off now s v) v' → step now s v (truthy (sn_wallet s)) v'
| st_done f : (truthy (sn_wallet s) = true → v_tables v MNotification !! uuid (sn_id s) = None) →
    finishing now s f →
    step now s v (truthy (sn_wallet s)) (put_row (sn_id s) (f (running now s)) (sent_off now s v)).

(** The runs one after another. *)
Inductive steps (now : Z) : list (ScheduledNotification * bool) → View → View → Prop :=
| steps_nil v : steps now [] v v
| steps_snoc runs s added v v1 v2 : steps now runs v v1 → step now s v1 added v2 →
    steps now (runs ++ [(s, added)]) v v2.

(** A job under the schedule's id. *)
Definition has_job (s : ScheduledNotification) (js : list (job QNotification)) : Prop :=
  ∃ j, j ∈ js ∧ job_jobId j = Some ("scheduled-" +:+ sn_id s).

(** The table holds each row under its id. *)
Definition keyed (t : gmap string ScheduledNotification) : Prop :=
  ∀ k s, t !! k = Some s → sn_id s = k.

(** ** Lemmas *)

Context `{BL : !BackendLaws B}.

Definition table (v : View) : gmap string ScheduledNotification := v_tables v MScheduledNotification.
Definition notes (v : View) : gmap string Notification := v_tables v MNotification.
Definition queued (v : View) : list (job QNotification) := v_jobs v QNotification.

Lemma put_views id row v : table (put_row id row v) = <[id := row]> (table v) ∧
  notes (put_row id row v) = notes v ∧ queued (put_row id row v) = queued v.
Proof. unfold table, notes, queued, put_row. cbn. by rewrite upd_eq, upd_ne. Qed.

Lemma noted_views now s v :
  table (noted now s v) = <[sn_id s := running now s]> (table v) ∧
  notes (noted now s v) = <[uuid (sn_id s) := scheduled_notification now s (wallet_of s)]> (notes v) ∧
  queued (noted now s v) = queued v.
Proof.
  destruct (put_views (sn_id s) (running now s) v) as (Ht & Hn & Hq). fold (marked now s v) in *.
  unfold noted, with_note, table, notes, queued in *. cbn. rewrite upd_eq, upd_ne by done.
  by rewrite <- Ht, <- Hn.
Qed.

Lemma sent_off_views now s v :
  table (sent_off now s v) = <[sn_id s := running now s]> (table v) ∧
  notes (sent_off now s v) = (if truthy (sn_wallet s)
    then <[uuid (sn_id s) := scheduled_notification now s (wallet_of s)]> (notes v) else notes v) ∧
  queued (sent_off now s v) = add_scheduled (queued v) (s, truthy (sn_wallet s)).
Proof.
  unfold sent_off. destruct (truthy (sn_wallet s)); [| apply put_views].
  destruct (noted_views now s v) as (Ht & Hn & Hq). split_and!; [exact Ht | exact Hn |].
  unfold queued in *. cbn. by rewrite upd_jobs_eq, <- Hq.
Qed.

Lemma update_schedule_spec s f row w (Q : result () → World → Prop) :
  table (view w) !! sn_id s = Some row →
  (∀ w', view w' = put_row (sn_id s) (f row) (view w) → Q (Ok ()) w') →
  (∀ e w', view w' = view w → rejects (update_schedule s f) (view w) e → Q (Err e) w') →
  wp (update_schedule s f) Q w.
Proof.
  intros Hrow Hok Herr. apply wp_rejects, wp_bind, (wp_update MScheduledNotification).
  - intros k r w1 Hk ->%bool_decide_eq_true Hv1. pose proof (Some_agree Hrow Hk) as <-.
    by apply wp_ret; intros _; apply Hok.
  - intros e w1 Hv1 Hrej. by apply Herr; [| apply Hrej].
Qed.

(** The failure handler. *)
Lemma handler_spec s row w : table (view w) !! sn_id s = Some row →
  wp (swallow () (update_schedule s fail)) (λ r w', r = Ok () ∧ gave_up s row (view w) (view w')) w.
Proof.
  intros Hrow. apply wp_swallow, (update_schedule_spec s fail row); [done | |].
  - intros w1 Hv1. split; [done | by left].
  - intros e w1 Hv1 Hrej. split; [done | right; eauto].
Qed.

(** [finish], and what is made of its failure. *)
Lemma finish_spec now s w : table (view w) !! sn_id s = Some (running now s) →
  wp (catch (finish now s) (λ _, swallow () (update_schedule s fail))) (λ r w', r = Ok () ∧
    ((∃ f, finishing now s f ∧ view w' = put_row (sn_id s) (f (running now s)) (view w)) ∨
     gave_up s (running now s) (view w) (view w') ∧
       ((recurs s = true ∧ getNextCronRun (default "" (sn_cronExpr s)) now = None) ∨
        ∃ f e, finishing now s f ∧ rejects (update_schedule s f) (view w) e))) w.
Proof.
  intros Hrow. apply wp_catch. unfold finish.
  assert (∀ f, finishing now s f → wp (update_schedule s f) (λ r w', match r with
    | Ok a => Ok a = Ok () ∧
      ((∃ f, finishing now s f ∧ view w' = put_row (sn_id s) (f (running now s)) (view w)) ∨
       gave_up s (running now s) (view w) (view w') ∧
         ((recurs s = true ∧ getNextCronRun (default "" (sn_cronExpr s)) now = None) ∨
          ∃ f e, finishing now s f ∧ rejects (update_schedule s f) (view w) e))
    | Err _ => wp (swallow () (update_schedule s fail)) (λ r w', r = Ok () ∧
      ((∃ f, finishing now s f ∧ view w' = put_row (sn_id s) (f (running now s)) (view w)) ∨
       gave_up s (running now s) (view w) (view w') ∧
         ((recurs s = true ∧ getNextCronRun (default "" (sn_cronExpr s)) now = None) ∨
          ∃ f e, finishing now s f ∧ rejects (update_schedule s f) (view w) e))) w' end) w) as Hupd.
  { intros f Hf. apply (update_schedule_spec s f (running now s)); [done | |].
    - intros w1 Hv1. split; [done | left; eauto].
    - intros e w1 Hv1 Hrej. eapply wp_mono; [apply handler_spec; by rewrite Hv1 |].
      intros r w2 [-> Hgu]. rewrite Hv1 in Hgu. split; [done | right]. split; [done | right; eauto]. }
  destruct (recurs s) eqn:Hrec; [| apply Hupd; left; done].
  apply wp_bind. destruct (getNextCronRun _ now) as [next|] eqn:Hnext.
  - apply wp_ret, Hupd. right. by exists next.
  - apply wp_raise. eapply wp_mono; [by apply handler_spec |]. intros r w2 [-> Hgu].
    split; [done | right]. split; [done | by left].
Qed.

Lemma run_scheduled_spec now s w : table (view w) !! sn_id s = Some s →
  wp (run_scheduled now s) (λ r w', r = Ok () ∧ ∃ added, step now s (view w) added (view w')) w.
Proof.
  intros Hs. unfold run_scheduled. fold fail. apply wp_catch, wp_bind, (update_schedule_spec s _ s); [done | |].
  2:{ intros e w1 Hv1 Hrej. eapply wp_mono; [apply handler_spec; by rewrite Hv1 |].
      rewrite Hv1. intros r w2 [-> Hgu]. split; [done |]. exists false. by eapply st_unmarked. }
  intros w1 Hv1. change (view w1 = marked now s (view w)) in Hv1.
  destruct (put_views (sn_id s) (running now s) (view w)) as (Ht & Hn & _). fold (marked now s (view w)) in Ht, Hn.
  assert (∀ w2 : World, view w2 = sent_off now s (view w) →
    (truthy (sn_wallet s) = true → v_tables (view w) MNotification !! uuid (sn_id s) = None) →
    wp (finish now s) (λ r w', match r with
      | Ok a => Ok a = Ok () ∧ ∃ added, step now s (view w) added (view w')
      | Err _ => wp (swallow () (update_schedule s fail))
          (λ r w', r = Ok () ∧ ∃ added, step now s (view w) added (view w')) w' end) w2) as Hfin.
  { intros w2 Hv2 Hfresh. apply (catch_wp (finish now s) (λ _, swallow () (update_schedule s fail))
      (λ r w', r = Ok () ∧ ∃ added, step now s (view w) added (view w'))).
    eapply wp_mono; [apply finish_spec |].
    - rewrite Hv2, (proj1 (sent_off_views now s (view w))). apply lookup_insert_eq.
    - rewrite Hv2. intros r w3 [-> Hcases]. split; [done |]. exists (truthy (sn_wallet s)).
      destruct Hcases as [(f & Hf & ->) | [Hgu [[Hr Hd] | (f & e & Hf & He)]]];
        [by apply st_done | by eapply st_no_date | by eapply st_unfinished]. }
  apply wp_bind. destruct (truthy (sn_wallet s)) eqn:Hw.
  2:{ apply wp_ret, Hfin; [| done]. unfold sent_off. by rewrite Hw. }
  fold (wallet_of s). unfold enqueue_scheduled. apply wp_bind, wp_rejects, (wp_create MNotification).
  2:{ intros e w2 Hv2 Hrej. rewrite Hv1 in Hv2, Hrej. eapply wp_mono; [apply handler_spec; rewrite Hv2, Ht; apply lookup_insert_eq |].
      rewrite Hv2. intros r w3 [-> Hgu]. split; [done |]. exists false. eapply st_no_note; [done | by apply Hrej | done]. }
  intros _ r w2 -> Hfresh _ Hv2 _. rewrite Hv1 in Hfresh, Hv2. change (view w2 = noted now s (view w)) in Hv2.
  assert (notes (view w) !! uuid (sn_id s) = None) as Hnone by (rewrite <- Hn; exact Hfresh).
  apply wp_rejects, (wp_queue_add QNotification).
  - intros w3 Hv3 _. apply Hfin; [| done]. rewrite Hv3, Hv2. unfold sent_off. by rewrite Hw.
  - intros e w3 Hv3 Hrej. rewrite Hv2 in Hv3, Hrej. eapply wp_mono; [apply handler_spec |].
    + rewrite Hv3, (proj1 (noted_views now s (view w))). apply lookup_insert_eq.
    + rewrite Hv3. intros r w4 [-> Hgu]. split; [done |]. exists false.
      eapply st_no_job; [done | done | by apply Hrej | done].
Qed.

(** ** What a step leaves *)

(** The row, the queue and the notifications after a run of [s]. *)
Record ran (now : Z) (s : ScheduledNotification) (v v' : View) (added : bool) : Prop := {
  ran_row : ∃ row', outcome now s added row' ∧ table v' = <[sn_id s := row']> (table v);
  ran_queue : queued v' = add_scheduled (queued v) (s, added);
  ran_notes : notes v ⊆ notes v';
  ran_note : added = true → notes v' !! uuid (sn_id s) = Some (scheduled_notification now s (wallet_of s));
}.

Lemma gave_up_ran now s row added v v1 v' :
  (row = s ∧ added = false ∨ row = running now s) →
  table v1 = <[sn_id s := row]> (table v) → queued v1 = add_scheduled (queued v) (s, added) →
  notes v ⊆ notes v1 →
  (added = true → notes v1 !! uuid (sn_id s) = Some (scheduled_notification now s (wallet_of s))) →
  gave_up s row v1 v' → ran now s v v' added.
Proof.
  intros Hrow Ht Hq Hn Ha Hgu. destruct (put_views (sn_id s) (fail row) v1) as (Htp & Hnp & Hqp).
  destruct Hgu as [-> | [-> _]]; split; rewrite ?Htp, ?Hnp, ?Hqp; try done; eexists; (split; [| try exact Ht]).
  - destruct Hrow as [[-> ->] | ->]; [exact (o_refused now s) | exact (o_failed now s added)].
  - by rewrite Ht, insert_insert_eq.
  - destruct Hrow as [[-> ->] | ->]; [exact (o_untouched now s) | exact (o_stuck now s added)].
Qed.

Lemma finishing_outcome now s f : finishing now s f →
  outcome now s (truthy (sn_wallet s)) (f (running now s)).
Proof. intros [[Hr ->] | (next & Hr & Hn & ->)]; [by apply o_completed | by apply o_again]. Qed.

Lemma step_ran now s v added v' : table v !! sn_id s = Some s →
  step now s v added v' → ran now s v v' added.
Proof.
  intros Hs Hst. destruct (put_views (sn_id s) (running now s) v) as (Ht1 & Hn1 & Hq1). fold (marked now s v) in *.
  destruct (noted_views now s v) as (Ht2 & Hn2 & Hq2). destruct (sent_off_views now s v) as (Ht3 & Hn3 & Hq3).
  assert ((truthy (sn_wallet s) = true → v_tables v MNotification !! uuid (sn_id s) = None) →
    notes v ⊆ notes (sent_off now s v) ∧ (truthy (sn_wallet s) = true →
      notes (sent_off now s v) !! uuid (sn_id s) = Some (scheduled_notification now s (wallet_of s)))) as Hnotes.
  { intros Hf. rewrite Hn3. destruct (truthy (sn_wallet s)); [| done]. split; [by apply insert_subseteq, Hf |].
    intros _. apply lookup_insert_eq. }
  destruct Hst as [e v' _ Hgu | e v' Hw _ Hgu | e v' Hw Hf _ Hgu | v' Hf _ _ Hgu | f e v' Hf _ _ Hgu | f Hf Hfin].
  - apply (gave_up_ran now s s false v v); [by left | by rewrite insert_id | done.. ].
  - apply (gave_up_ran now s (running now s) false v (marked now s v)); [by right | done | done | by rewrite Hn1 | done | done].
  - apply (gave_up_ran now s (running now s) false v (noted now s v)); [by right | done | done | | done | done].
    rewrite Hn2. by apply insert_subseteq.
  - destruct (Hnotes Hf). by apply (gave_up_ran now s (running now s) _ v (sent_off now s v)); [right | ..].
  - destruct (Hnotes Hf). by apply (gave_up_ran now s (running now s) _ v (sent_off now s v)); [right | ..].
  - destruct (Hnotes Hf). destruct (put_views (sn_id s) (f (running now s)) (sent_off now s v)) as (Ht & Hn & Hq).
    split; rewrite ?Ht, ?Hn, ?Hq, ?Ht3; try done. eexists. split; [by apply finishing_outcome |].
    by rewrite insert_insert_eq.
Qed.

(** ** Several runs *)

(** The invariant of the loop: the runs made so far. *)
Record progress (now : Z) (v : View) (runs : list (ScheduledNotification * bool)) (v' : View) : Prop := {
  pg_steps : steps now runs v v';
  pg_rows s a : (s, a) ∈ runs → ∃ s', outcome now s a s' ∧ table v' !! sn_id s = Some s';
  pg_others k : k ∉ sn_id <$> runs.*1 → table v' !! k = table v !! k;
  pg_jobs : queued v' = fold_left add_scheduled runs (queued v);
  pg_notes : notes v ⊆ notes v';
  pg_created s : (s, true) ∈ runs →
    notes v' !! uuid (sn_id s) = Some (scheduled_notification now s (wallet_of s));
}.

Lemma progress_start now v : progress now v [] v.
Proof. split; try done; [constructor | by intros ? ? ?%elem_of_nil | by intros ? ?%elem_of_nil]. Qed.

Lemma progress_step now v runs s added v1 v2 :
  sn_id s ∉ sn_id <$> runs.*1 → table v1 !! sn_id s = Some s →
  progress now v runs v1 → step now s v1 added v2 → progress now v (runs ++ [(s, added)]) v2.
Proof.
  intros Hs Hrow [Hsteps Hrows Hothers Hjobs Hnotes Hcreated] Hst.
  destruct (step_ran _ _ _ _ _ Hrow Hst) as [(s' & Hs' & Ht) Hq Hn Ha]. split.
  - by eapply steps_snoc.
  - intros x a [Hx | [= -> ->]%list_elem_of_singleton]%elem_of_app.
    + destruct (Hrows _ _ Hx) as (x' & ? & ?). exists x'. split; [done |].
      rewrite Ht, lookup_insert_ne; [done |]. intros Heq. apply Hs. rewrite Heq.
      apply list_elem_of_fmap. exists x. split; [done |].
      apply list_elem_of_fmap. by exists (x, a).
    + exists s'. by rewrite Ht, lookup_insert_eq.
  - intros k. rewrite !fmap_app, not_elem_of_app. cbn. intros [Hk Hne%not_elem_of_cons].
    rewrite Ht, lookup_insert_ne by (symmetry; apply Hne). by apply Hothers.
  - by rewrite Hq, Hjobs, fold_left_app.
  - by etrans.
  - intros x [Hx | [= -> <-]%list_elem_of_singleton]%elem_of_app; [| by apply Ha].
    eapply lookup_weaken; [by apply Hcreated | done].
Qed.

Lemma reconcile_loop now w rows w1 :
  view w1 = view w → NoDup (sn_id <$> rows) →
  (∀ s, s ∈ rows → table (view w) !! sn_id s = Some s) →
  wp (for_each (run_scheduled now) rows)
    (λ r w', r = Ok () ∧ ∃ runs, runs.*1 = rows ∧ progress now (view w) runs (view w')) w1.
Proof.
  intros Hv Hnd Hrows.
  apply (wp_for_each _ (λ todo w', ∃ runs, runs.*1 ++ todo = rows ∧ progress now (view w) runs (view w'))).
  - exists []. rewrite Hv. split; [done | apply progress_start].
  - intros s todo w2 (runs & Hsplit & Hpg).
    assert (sn_id s ∉ sn_id <$> runs.*1) as Hs.
    { rewrite <- Hsplit, fmap_app in Hnd. apply list.NoDup_app in Hnd as (_ & Hnd & _).
      intros Hin. apply (Hnd _ Hin). left. }
    assert (table (view w2) !! sn_id s = Some s) as Hrow.
    { rewrite (pg_others _ _ _ _ Hpg) by done. apply Hrows. rewrite <- Hsplit, elem_of_app. right. left. }
    eapply wp_mono; [by apply run_scheduled_spec |].
    intros r w3 [-> (added & Hst)]. exists (runs ++ [(s, added)]). split.
    + by rewrite fmap_app, <- app_assoc.
    + by eapply progress_step.
  - intros w2 (runs & Hsplit & Hpg). split; [done |]. exists runs. by rewrite app_nil_r in Hsplit.
Qed.

(** *** The jobs the runs leave *)

Lemma add_job_has s wallet js : has_job s (add_job (scheduled_job s wallet) js).
Proof.
  unfold has_job, add_job. cbn [job_jobId scheduled_job].
  destruct (existsb (same_id _) js) eqn:He.
  - apply existsb_exists in He as (j & Hj%list_elem_of_In & Hid%bool_decide_eq_true). eauto.
  - eexists. split; [apply elem_of_app; right; by left | done].
Qed.

Lemma add_scheduled_in js x j : j ∈ js → j ∈ add_scheduled js x.
Proof.
  unfold add_scheduled, add_job. destruct x.2; [| done]. intros Hj.
  destruct (job_jobId _); [destruct (existsb _ _); [done |] |]; apply elem_of_app; by left.
Qed.

Lemma fold_scheduled_in runs js j : j ∈ js → j ∈ fold_left add_scheduled runs js.
Proof. revert js. induction runs as [|x runs IH]; intros js Hj; [done |]. by apply IH, add_scheduled_in. Qed.

Lemma fold_scheduled_has runs js s : (s, true) ∈ runs → has_job s (fold_left add_scheduled runs js).
Proof.
  revert js. induction runs as [|x runs IH]; intros js; [by intros ?%elem_of_nil |].
  intros [<- | Hin]%elem_of_cons; [| by apply IH]. cbn.
  destruct (add_job_has s (wallet_of s) js) as (j & Hj & Hid). exists j. split; [| done].
  by apply fold_scheduled_in.
Qed.

(** Where there was none under the schedule's id, the job is the schedule's. *)
Lemma fold_scheduled_new runs js s : NoDup (sn_id <$> runs.*1) → (s, true) ∈ runs → ¬ has_job s js →
  scheduled_job s (wallet_of s) ∈ fold_left add_scheduled runs js.
Proof.
  revert js. induction runs as [|x runs IH]; intros js; [by intros _ ?%elem_of_nil |].
  cbn. intros [Hx Hnd]%list.NoDup_cons [<- | Hin]%elem_of_cons Hno.
  - apply fold_scheduled_in. unfold add_scheduled, add_job. cbn [fst snd job_jobId scheduled_job].
    destruct (existsb _ js) eqn:He; [| apply elem_of_app; right; by left]. destruct Hno.
    apply existsb_exists in He as (j & Hj%list_elem_of_In & Hid%bool_decide_eq_true). by exists j.
  - apply IH; [done | done |]. intros (j & Hj & Hid). apply Hno. unfold add_scheduled, add_job in Hj.
    destruct x as [y []]; cbn in *; [| by exists j]. destruct (existsb _ js); [by exists j |].
    apply elem_of_app in Hj as [Hj | ->%list_elem_of_singleton]; [by exists j |]. cbn in Hid.
    destruct Hx. injection Hid as Hid. change (sn_id y = sn_id s) in Hid. rewrite Hid.
    apply list_elem_of_fmap. exists s. split; [done |]. apply list_elem_of_fmap. by exists (s, true).
Qed.

(** The rows read have distinct ids. *)
Lemma selected_rows (p : where_ MScheduledNotification) o t rows :
  keyed t → selects MScheduledNotification p o t rows →
  NoDup (sn_id <$> rows) ∧ ∀ s, s ∈ rows → t !! sn_id s = Some s.
Proof.
  intros Hk (_ & (ks & Hnd & Hks) & _).
  assert (sn_id <$> rows = ks) as ->.
  { clear Hnd. induction Hks as [|k s ks rows [Hs _] _ IH]; [done |]. cbn. by rewrite IH, (Hk _ _ Hs). }
  split; [done |]. intros s Hs. clear Hnd.
  induction Hks as [|k s' ks rows [Hs' _] _ IH]; [by apply elem_of_nil in Hs |].
  apply elem_of_cons in Hs as [-> | Hs]; [| by apply IH]. by rewrite (Hk _ _ Hs').
Qed.

(** ** Properties *)


(** A page of schedules shows schedules of the protocol that are not
    cancelled, each once, the next to run first, and no more than a limit that
    is not negative; the total counts all of them.  A number that can not be
    read, or a page below the first, is refused; nothing changes. *)
Theorem listed_schedules protocolId page limit w : keyed (v_tables (view w) MScheduledNotification) →
  wp (listScheduled protocolId page limit) (λ r w', view w' = view w ∧
    ((page = None ∨ limit = None) → is_ok r = false) ∧
    ∀ s, r = Ok s →
      (∀ x, x ∈ sp_items s → sn_protocolId x = protocolId ∧ sn_status x ≠ CANCELLED ∧
         ∃ k, table (view w) !! k = Some x) ∧
      NoDup (sn_id <$> sp_items s) ∧
      StronglySorted (λ a b, sn_nextRunAt a ≤ sn_nextRunAt b) (sp_items s) ∧
      sp_total s = Z.of_nat (count_of MScheduledNotification (listed protocolId) (table (view w))) ∧
      ∀ l, limit = Some l → 0 ≤ l → Z.of_nat (length (sp_items s)) ≤ l) w.
Proof.
  intros Hkey. unfold listScheduled.
  destruct page as [n |], limit as [l |]; try (by apply wp_raise; split_and!).
  destruct ((n - 1) * l <? 0); [by apply wp_raise; split_and!; [| intros [] |] |].
  apply wp_bind, (wp_find_many MScheduledNotification); [| by intros e w1 ->; split_and!; [| intros [] |]].
  intros rows w1 Hrows Hv1. apply wp_bind, (wp_count MScheduledNotification); [by rewrite Hv1 | |].
  2:{ intros e w2 Hv2. split_and!; [congruence | by intros [] | done]. }
  intros w2 Hv2. apply wp_ret. split_and!; [congruence | by intros [] |]. intros s [= <-].
  destruct (selects_page MScheduledNotification _ _ _ _ (Z.to_nat ((n - 1) * l)) l Hkey Hrows) as (Hin & Hnd & Hs).
  cbn [sp_items sp_total]. change (tables (w_db w1)) with (v_tables (view w1)). rewrite Hv1.
  split_and!; [| exact Hnd | exact Hs | done |].
  - intros x (k & Hk & Hp)%Hin. unfold listed in Hp.
    apply andb_true_iff in Hp as [?%bool_decide_eq_true ?%negb_true_iff%bool_decide_eq_false]. eauto.
  - intros l' [= <-]. apply length_take_rows.
Qed.

(** Cancelling changes the named row of the protocol, if it is PENDING, and
    nothing else. *)
Lemma cancelScheduled_spec protocolId id w :
  wp (cancelScheduled protocolId id) (λ r w', match r with
    | Err _ => view w' = view w
    | Ok _ => ∀ k, table (view w') !! k = (λ s,
        if bool_decide (k = id) && bool_decide (sn_protocolId s = protocolId) &&
           bool_decide (sn_status s = PENDING)
        then s <| sn_status := CANCELLED |> else s) <$> table (view w) !! k
    end) w.
Proof.
  apply (wp_update_many MScheduledNotification); [| done].
  intros w1 Hv1 k. unfold table. rewrite Hv1. cbn. rewrite upd_eq.
  etrans; [apply (lookup_update_where (m := MScheduledNotification)) |]. done.
Qed.
End scheduler.

(** ** Examples *)

#[local] Instance plain_hash : Hashing := {| sha256 s := s |}.

Definition schedule (id : string) (wallet : option string) (type : ScheduleType)
    (cronExpr : option string) : ScheduledNotification := {|
  sn_id := id; sn_protocolId := "p1"; sn_wallet := wallet; sn_subject := "s"; sn_body := "b";
  sn_category := "defi"; sn_channels := ["sms"]; sn_scheduleType := type; sn_cronExpr := cronExpr;
  sn_timezone := "UTC"; sn_nextRunAt := 0; sn_lastRunAt := None; sn_status := PENDING;
  sn_templateId := None |}.

Definition scheduled_world (rows : list ScheduledNotification) : World :=
  mem_world (with_rows MScheduledNotification rows no_tables) ∅.

Definition statuses (w : World) : list ScheduledJobStatus :=
  sn_status <$> (map_to_list (v_tables (view w) MScheduledNotification)).*2.

Definition runs_of (w : World) : list (option string) :=
  (λ j : job QNotification, job_jobId j) <$> v_jobs (view w) QNotification.

(** A schedule for all the users of the protocol, one that names no wallet, is
    marked COMPLETED without anything being sent. *)
Lemma broadcast_schedule_sends_nothing :
  let w := (reconcilePendingJobs (λ i, i) 0 (scheduled_world [schedule "a" None ONE_TIME None])).2 in
  statuses w = [COMPLETED] ∧ runs_of w = [].
Proof. vm_compute. by split. Qed.

(** The second run of a recurring schedule uses the id of the first job: while
    the queue keeps that job, the second run sends nothing, although its
    notification row is there and the schedule goes on. *)
Lemma recurring_sends_once :
  let w0 := scheduled_world [schedule "a" (Some "W") RECURRING (Some "*/5 * * * *")] in
  let w1 := (reconcilePendingJobs (λ i, i) 0 w0).2 in
  let w2 := (reconcilePendingJobs (λ i, "again-" +:+ i) 300000 w1).2 in
  statuses w2 = [PENDING] ∧ runs_of w2 = [Some "scheduled-a"] ∧
  size (v_tables (view w2) MNotification) = 2%nat.
Proof. vm_compute. by split_and!. Qed.

(** The channels of a schedule do not reach its job. *)
Lemma scheduled_channels_dropped :
  let w := (reconcilePendingJobs (λ i, i) 0
    (scheduled_world [schedule "a" (Some "W") ONE_TIME None])).2 in
  (λ j : job QNotification, j_channels (job_payload j : NotificationJobData)) <$>
    v_jobs (view w) QNotification = [None].
Proof. vm_compute. reflexivity. Qed.

