(* ===== verification/Portal.v ===== *)
(** * The user portal and the settings of a protocol

    [PortalSubscriptionsController] of [src/modules/subscriptions/], the list
    of [PortalNotificationsController] of [src/modules/notify/], and the retry
    policy of [ProtocolController] with [ProtocolService] of
    [src/modules/protocol/].  The wallet hash is the one [PortalAuthGuard]
    attached to the request; a field of a body is [None] where it is left out.
    What Prisma does with a cursor is a parameter. *)

From Stdlib Require Import Ascii String.
From S2P Require Import Prelude Schema External Memory Frame Subscriptions Scheduler.

Open Scope string_scope.
Open Scope list_scope.
Open Scope Z_scope.

(** ** Preferences *)

(** A category is left out, [null] or a value. *)
Record PreferencesDto := {
  pd_optInDefi : option (option bool);
  pd_optInGovernance : option (option bool);
  pd_optInMarketing : option (option bool);
  pd_optInSystem : option (option bool);
  pd_channels : option (list string);
}.

Record Preferences := {
  pf_optInDefi : option bool;
  pf_optInGovernance : option bool;
  pf_optInMarketing : option bool;
  pf_optInSystem : option bool;
  pf_channels : list string;
}.

Definition of_wallet (walletHash protocolId : string) : where_ MUserProtocolPreference := λ _ p,
  bool_decide (upp_walletHash p = walletHash) && bool_decide (upp_protocolId p = protocolId).

Definition no_preferences : Preferences := {|
  pf_optInDefi := None; pf_optInGovernance := None; pf_optInMarketing := None; pf_optInSystem := None;
  pf_channels := [] |}.

Definition preferences_of (p : UserProtocolPreference) : Preferences := {|
  pf_optInDefi := upp_optInDefi p; pf_optInGovernance := upp_optInGovernance p;
  pf_optInMarketing := upp_optInMarketing p; pf_optInSystem := upp_optInSystem p;
  pf_channels := upp_channels p |}.

(** The [create] and the [update] of the [upsert]. *)
Definition new_preference (walletHash protocolId : string) (dto : PreferencesDto) (id : string) :
    UserProtocolPreference := {|
  upp_id := id; upp_walletHash := walletHash; upp_protocolId := protocolId;
  upp_optInDefi := default None (pd_optInDefi dto);
  upp_optInGovernance := default None (pd_optInGovernance dto);
  upp_optInMarketing := default None (pd_optInMarketing dto);
  upp_optInSystem := default None (pd_optInSystem dto);
  upp_channels := default [] (pd_channels dto) |}.

Definition updated_preference (dto : PreferencesDto) (p : UserProtocolPreference) :
    UserProtocolPreference := {|
  upp_id := upp_id p; upp_walletHash := upp_walletHash p; upp_protocolId := upp_protocolId p;
  upp_optInDefi := default (upp_optInDefi p) (pd_optInDefi dto);
  upp_optInGovernance := default (upp_optInGovernance p) (pd_optInGovernance dto);
  upp_optInMarketing := default (upp_optInMarketing p) (pd_optInMarketing dto);
  upp_optInSystem := default (upp_optInSystem p) (pd_optInSystem dto);
  upp_channels := default (upp_channels p) (pd_channels dto) |}.

(** What the preferences become: each field given, or as it was. *)
Definition merged (dto : PreferencesDto) (p : Preferences) : Preferences := {|
  pf_optInDefi := default (pf_optInDefi p) (pd_optInDefi dto);
  pf_optInGovernance := default (pf_optInGovernance p) (pd_optInGovernance dto);
  pf_optInMarketing := default (pf_optInMarketing p) (pd_optInMarketing dto);
  pf_optInSystem := default (pf_optInSystem p) (pd_optInSystem dto);
  pf_channels := default (pf_channels p) (pd_channels dto) |}.

(** ** Lists *)

(** [Math.min(parseInt(limitStr ?? '100', 10) || 100, 200)] *)
Definition page_limit (limitStr : option string) : Z :=
  Z.min (match parseInt (default "100" limitStr) with
         | Some n => if n =? 0 then 100 else n
         | None => 100
         end) 200.

Definition status_name (s : NotificationStatus) : string :=
  match s with
  | Queued => "queued" | Processing => "processing" | Delivered => "delivered" | Partial => "partial"
  | Failed => "failed" | OptedOut => "opted_out" | Duplicate => "duplicate" | Digested => "digested"
  | Blocked => "blocked"
  end.

Record NotificationFilter := {
  nf_category : option string;
  nf_protocolId : option string;
  nf_status : option string;
  nf_limit : option string;
  nf_before : option string;
}.

(** A filter that is left out or empty does not restrict. *)
Definition given (o : option string) (x : string) : bool :=
  negb (truthy o) || bool_decide (o = Some x).

Definition in_history (walletHash : string) (f : NotificationFilter) : where_ MNotification := λ _ n,
  bool_decide (n_walletHash n = walletHash) && given (nf_category f) (n_category n) &&
  given (nf_protocolId f) (n_protocolId n) && given (nf_status f) (status_name (n_status n)).

(** ** The retry policy *)

Record RetryPolicy := {
  rt_retryMaxAttempts : Z;
  rt_retryWindowHours : Z;
  rt_retryBackoff : string;
  rt_criticalCategories : list string;
  rt_trackEngagement : bool;
}.

(** The fields of a body, converted. *)
Record RetryPolicyDto := {
  rd_retryMaxAttempts : option Z;
  rd_retryWindowHours : option Z;
  rd_retryBackoff : option string;
  rd_criticalCategories : option (list string);
  rd_trackEngagement : option bool;
}.

Definition default_policy : RetryPolicy := {|
  rt_retryMaxAttempts := 3; rt_retryWindowHours := 6; rt_retryBackoff := "exponential";
  rt_criticalCategories := []; rt_trackEngagement := false |}.

Definition policy_of (s : ProtocolSettings) : RetryPolicy := {|
  rt_retryMaxAttempts := ps_retryMaxAttempts s; rt_retryWindowHours := ps_retryWindowHours s;
  rt_retryBackoff := ps_retryBackoff s; rt_criticalCategories := ps_criticalCategories s;
  rt_trackEngagement := ps_trackEngagement s |}.

Definition merged_policy (dto : RetryPolicyDto) (p : RetryPolicy) : RetryPolicy := {|
  rt_retryMaxAttempts := default (rt_retryMaxAttempts p) (rd_retryMaxAttempts dto);
  rt_retryWindowHours := default (rt_retryWindowHours p) (rd_retryWindowHours dto);
  rt_retryBackoff := default (rt_retryBackoff p) (rd_retryBackoff dto);
  rt_criticalCategories := default (rt_criticalCategories p) (rd_criticalCategories dto);
  rt_trackEngagement := default (rt_trackEngagement p) (rd_trackEngagement dto) |}.

Definition with_policy (p : RetryPolicy) (s : ProtocolSettings) : ProtocolSettings :=
  s <| ps_retryMaxAttempts := rt_retryMaxAttempts p |> <| ps_retryWindowHours := rt_retryWindowHours p |>
    <| ps_retryBackoff := rt_retryBackoff p |> <| ps_criticalCategories := rt_criticalCategories p |>
    <| ps_trackEngagement := rt_trackEngagement p |>.

Definition tier_name (tier : Z) : string :=
  if tier =? 1 then "Growth" else if tier =? 2 then "Scale" else if tier =? 3 then "Enterprise"
  else "Developer".

Record ProtocolInfo := {
  pi_id : string;
  pi_protocol_pubkey : string;
  pi_tier : Z;
  pi_tier_name : string;
  pi_is_active : bool;
  pi_is_suspended : bool;
  pi_sends_this_period : Z;
  pi_counts : Z * Z * Z;           (** keys, webhooks, notifications *)
  pi_name : option string;
}.

Section portal.
Context `{B : Backend} `{Hsh : Hashing}.
(** The page after the row of a cursor. *)
Context (after_cursor : string → Z → list Notification → list Notification).

Definition portal_subscribe (walletHash protocolId : string) (now : Z) : M World ProtocolSubscription :=
  upsert MProtocolSubscription (of_pair walletHash protocolId)
    (λ id, {| sub_id := id; sub_walletPubkey := None; sub_walletHash := walletHash;
              sub_protocolId := protocolId; sub_channels := []; sub_status := Active;
              sub_source := "join_link"; sub_subscribedAt := now; sub_updatedAt := now |})
    (λ s, s <| sub_status := Active |> <| sub_updatedAt := now |>).

Definition getPreferences (walletHash protocolId : string) : M World Preferences :=
  pref ← find_unique MUserProtocolPreference (of_wallet walletHash protocolId);
  mret (from_option preferences_of no_preferences pref).

Definition updatePreferences (walletHash protocolId : string) (dto : PreferencesDto) : M World Preferences :=
  pref ← upsert MUserProtocolPreference (of_wallet walletHash protocolId)
    (new_preference walletHash protocolId dto) (updated_preference dto);
  mret (preferences_of pref).

(** The notifications of a wallet, and the name, the logo and the website of
    their protocols, of the given settings. *)
Definition history (settings : gmap string ProtocolSettings) (walletHash : string) (f : NotificationFilter) :
    M World (list Notification * list (string * option string * option string * option string)) :=
  all ← find_many MNotification (in_history walletHash f) (Some (λ n, - n_queuedAt n));
  let limit := page_limit (nf_limit f) in
  let notifications := if truthy (nf_before f) then after_cursor (default "" (nf_before f)) limit all
                       else take_rows limit all in
  let protocolIds := remove_dups (n_protocolId <$> notifications) in
  protocols ← (match protocolIds with
    | [] => mret []
    | _ => find_many MProtocol (λ k _, bool_decide (k ∈ protocolIds)) None
    end);
  mret (notifications, (λ p : Protocol,
    let settings := settings !! p_id p in
    (p_id p, chain ps_customFromName settings, chain ps_logoUrl settings, chain ps_websiteUrl settings))
    <$> protocols).

Definition portal_notifications (walletHash : string) (f : NotificationFilter) :
    M World (list Notification * list (string * option string * option string * option string)) := λ w,
  history (tables (w_db w) MProtocolSettings) walletHash f w.

(** ** The protocol's own settings *)

Definition getProtocolInfo (protocolId : string) : M World (option ProtocolInfo) :=
  p ← find_unique MProtocol (by_id MProtocol protocolId);
  match p with
  | None => mret None
  | Some p =>
      keys ← count MApiKey (λ _ k, bool_decide (k_protocolId k = protocolId));
      webhooks ← count MWebhook (λ _ wh, bool_decide (wh_protocolId wh = protocolId));
      notifications ← count MNotification (λ _ n, bool_decide (n_protocolId n = protocolId));
      mret (Some {| pi_id := p_id p; pi_protocol_pubkey := p_protocolPubkey p; pi_tier := p_tier p;
        pi_tier_name := tier_name (p_tier p); pi_is_active := p_isActive p;
        pi_is_suspended := p_isSuspended p; pi_sends_this_period := p_sendsThisPeriod p;
        pi_counts := (keys, webhooks, notifications); pi_name := None |})
  end.

Definition getMe (protocol : AuthenticatedProtocol) : M World ProtocolInfo :=
  info ← getProtocolInfo (ap_protocolId protocol);
  match info with
  | None => raise (HttpError 404 "Protocol not found")
  | Some i => mret (i <| pi_name := ap_name protocol |>)
  end.

Definition getRetryPolicy (protocol : AuthenticatedProtocol) : M World RetryPolicy :=
  settings ← find_unique MProtocolSettings (by_id MProtocolSettings (ap_protocolId protocol));
  mret (from_option policy_of default_policy settings).

(** [empty_settings] is the row of the schema's defaults. *)
Definition empty_settings (protocolId : string) : ProtocolSettings := {|
  ps_protocolId := protocolId; ps_websiteUrl := None; ps_customFromName := None; ps_testEmail := None;
  ps_testTelegramId := None; ps_testPhone := None; ps_telegramBotTokenEncrypted := None;
  ps_telegramBotUsername := None; ps_telegramGroupChatId := None; ps_telegramThreadIds := None;
  ps_telegramAutoPinEnabled := false; ps_trackEngagement := false; ps_telegramWelcomeMessage := None;
  ps_telegramGroupMemberCount := None; ps_telegramMemberCountAt := None; ps_telegramMigrationSentAt := None;
  ps_logoUrl := None; ps_notificationCategories := ["defi"; "governance"; "system"];
  ps_retryMaxAttempts := 3; ps_retryWindowHours := 6;
  ps_retryBackoff := "exponential"; ps_criticalCategories := [] |}.

Definition updateRetryPolicy (protocol : AuthenticatedProtocol) (dto : RetryPolicyDto) : M World RetryPolicy :=
  settings ← upsert MProtocolSettings (by_id MProtocolSettings (ap_protocolId protocol))
    (λ _, with_policy (merged_policy dto default_policy) (empty_settings (ap_protocolId protocol)))
    (λ s, with_policy (merged_policy dto (policy_of s)) s);
  mret (policy_of settings).

(** ** Lemmas *)

Context `{BL : !BackendLaws B}.

Lemma of_wallet_spec h p k r : of_wallet h p k r = true ↔ upp_walletHash r = h ∧ upp_protocolId r = p.
Proof. unfold of_wallet. by rewrite andb_true_iff, !bool_decide_eq_true. Qed.

(** At most one row for a wallet and a protocol ([@@unique]). *)
Definition one_preference (t : gmap string UserProtocolPreference) : Prop := ∀ k1 k2 r1 r2,
  t !! k1 = Some r1 → t !! k2 = Some r2 → upp_walletHash r1 = upp_walletHash r2 →
  upp_protocolId r1 = upp_protocolId r2 → k1 = k2.

(** The preferences a table holds for a wallet and a protocol. *)
Definition stored (h p : string) (t : gmap string UserProtocolPreference) (prefs : Preferences) : Prop :=
  (∃ k r, t !! k = Some r ∧ of_wallet h p k r = true ∧ prefs = preferences_of r) ∨
  ((∀ k r, t !! k = Some r → of_wallet h p k r = false) ∧ prefs = no_preferences).

Lemma stored_unique h p t a b : one_preference t → stored h p t a → stored h p t b → a = b.
Proof.
  intros H1 [(k & r & Hk & Hp & ->) | [Hn ->]] [(k' & r' & Hk' & Hp' & ->) | [Hn' ->]].
  - apply of_wallet_spec in Hp as [? ?], Hp' as [? ?].
    assert (k = k') as <- by (eapply H1; eauto; congruence). by rewrite (Some_agree Hk Hk').
  - rewrite (Hn' _ _ Hk) in Hp. done.
  - rewrite (Hn _ _ Hk') in Hp'. done.
  - done.
Qed.

Lemma get_stored h p w :
  wp (getPreferences h p) (λ r w', view w' = view w ∧
    ∀ prefs, r = Ok prefs → stored h p (v_tables (view w) MUserProtocolPreference) prefs) w.
Proof.
  apply wp_bind, (wp_find_unique MUserProtocolPreference); [| by intros e w1 ->].
  intros o w1 Ho Hv1. apply wp_ret. split; [done |]. intros ? [= <-]. destruct o as [r|].
  - left. destruct Ho as (k & Hk & Hp). by exists k, r.
  - by right.
Qed.

Lemma preferences_new h p dto id : preferences_of (new_preference h p dto id) = merged dto no_preferences.
Proof. done. Qed.

Lemma preferences_updated dto r : preferences_of (updated_preference dto r) = merged dto (preferences_of r).
Proof. done. Qed.

(** ** Properties *)

(** The preferences of a user for a protocol.  An update that returns
    answers the preferences stored before with the fields it gives in place of
    theirs, [null] included; the fields it leaves out are kept, and no row of
    another wallet or protocol changes.  Reading them then gives what it
    answered. *)
Theorem preferences_roundtrip h p dto before w :
  one_preference (v_tables (view w) MUserProtocolPreference) →
  stored h p (v_tables (view w) MUserProtocolPreference) before →
  wp (updatePreferences h p dto) (λ r w1, ∀ prefs, r = Ok prefs → prefs = merged dto before ∧
    (∀ k r, v_tables (view w) MUserProtocolPreference !! k = Some r → of_wallet h p k r = false →
       v_tables (view w1) MUserProtocolPreference !! k = Some r) ∧
    wp (getPreferences h p) (λ r' w2, view w2 = view w1 ∧ ∀ got, r' = Ok got → got = prefs) w1) w.
Proof.
  intros H1 Hst. apply wp_bind, (wp_upsert MUserProtocolPreference); [| | done].
  - intros k r w1 Hk Hp Hv1. apply wp_ret. intros ? [= <-].
    assert (before = preferences_of r) as ->.
    { eapply stored_unique; [exact H1 | exact Hst |]. left. eauto. }
    assert (v_tables (view w1) MUserProtocolPreference =
      <[k := updated_preference dto r]> (v_tables (view w) MUserProtocolPreference)) as Ht
      by (rewrite Hv1; apply upd_eq).
    split; [done |]. split.
    + intros k' r' Hk' Hp'. rewrite Ht, lookup_insert_ne; [done |]. intros <-.
      pose proof (Some_agree Hk Hk') as ->. congruence.
    + eapply wp_mono; [apply get_stored |]. intros r' w2 [Hv2 Hgot]. split; [done |].
      intros got Hr. eapply stored_unique; [| by apply Hgot | left; exists k, (updated_preference dto r)].
      * rewrite Ht. intros k1 k2 r1 r2. destruct (decide (k1 = k)) as [-> |], (decide (k2 = k)) as [-> |];
          rewrite ?lookup_insert_eq, ?lookup_insert_ne by done; [done | intros [= <-] | intros ? [= <-] |];
          intros; eapply H1; eauto.
      * rewrite Ht. split_and!; [apply lookup_insert_eq | | done]. apply of_wallet_spec in Hp. by apply of_wallet_spec.
  - intros id r w1 -> Hfresh Huniq Hv1. apply wp_ret. intros ? [= <-].
    set (new := new_preference h p dto id) in *.
    assert (v_tables (view w1) MUserProtocolPreference =
      <[id := new]> (v_tables (view w) MUserProtocolPreference)) as Ht by (rewrite Hv1; apply upd_eq).
    assert (∀ k r, v_tables (view w) MUserProtocolPreference !! k = Some r → of_wallet h p k r = false) as Hno.
    { intros k r Hk. destruct (of_wallet h p k r) eqn:Hp; [| done].
      apply of_wallet_spec in Hp as [Hh Hp]. exfalso.
      apply (Huniq _ _ Hk ("walletHash_protocolId", [h; p])); cbn; [rewrite Hh, Hp |]; by left. }
    assert (∀ k r, v_tables (view w) MUserProtocolPreference !! k = Some r → k ≠ id) as Hne.
    { intros k r Hk ->. pose proof (eq_trans (eq_sym Hk) Hfresh) as [=]. }
    assert (before = no_preferences) as ->.
    { eapply stored_unique; [exact H1 | exact Hst |]. right. done. }
    split; [done |]. split.
    + intros k r Hk _. rewrite Ht, lookup_insert_ne; [done |]. intros <-. by eapply Hne.
    + eapply wp_mono; [apply get_stored |]. intros r' w2 [Hv2 Hgot]. split; [done |].
      intros got Hr. specialize (Hgot _ Hr). rewrite Ht in Hgot.
      destruct Hgot as [(k & r & Hk & Hp & ->) | [Hn _]].
      * destruct (decide (k = id)) as [-> |].
        { rewrite lookup_insert_eq in Hk. by injection Hk as <-. }
        rewrite lookup_insert_ne in Hk by done. rewrite (Hno _ _ Hk) in Hp. done.
      * specialize (Hn id new). rewrite lookup_insert_eq in Hn. specialize (Hn eq_refl).
        assert (of_wallet h p id new = true) by (by apply of_wallet_spec). congruence.
Qed.

(** The retry policy an update answers is what reading it gives. *)
Theorem retry_policy_roundtrip protocol dto w :
  wp (updateRetryPolicy protocol dto) (λ r w1, ∀ policy, r = Ok policy →
    policy = merged_policy dto (from_option policy_of default_policy
      (v_tables (view w) MProtocolSettings !! ap_protocolId protocol)) ∧
    wp (getRetryPolicy protocol) (λ r' w2, ∀ got, r' = Ok got → got = policy) w1) w.
Proof.
  assert (∀ w1 s, v_tables (view w1) MProtocolSettings !! ap_protocolId protocol = Some s →
    wp (getRetryPolicy protocol) (λ r' w2, ∀ got, r' = Ok got → got = policy_of s) w1) as Hget.
  { intros w1 s Hs. apply wp_bind, (wp_find_unique MProtocolSettings); [| done].
    intros o w2 Ho _. apply found_by_id in Ho. apply wp_ret. intros ? [= <-].
    assert (o = Some s) as -> by (rewrite Ho; exact Hs). done. }
  apply wp_bind, (wp_upsert MProtocolSettings); [| | done].
  - intros k s w1 Hs ->%bool_decide_eq_true Hv1. apply wp_ret. intros ? [= <-]. split.
    + transitivity (merged_policy dto (policy_of s)); [done |]. f_equal. symmetry.
      exact (f_equal (from_option policy_of default_policy) Hs).
    + apply Hget. rewrite Hv1. cbn. rewrite upd_eq. apply lookup_insert_eq.
  - intros i s w1 -> Hs _ Hv1. apply wp_ret. intros ? [= <-]. split.
    + transitivity (merged_policy dto default_policy); [done |]. f_equal. symmetry.
      exact (f_equal (from_option policy_of default_policy) Hs).
    + apply Hget. rewrite Hv1. cbn. rewrite upd_eq. apply lookup_insert_eq.
Qed.

(** The history of a wallet shows its own notifications, and at most 200 of
    them where the limit of the request is not negative. *)
Theorem history_own walletHash f w :
  wp (portal_notifications walletHash f) (λ r w', view w' = view w ∧ ∀ ns ps, r = Ok (ns, ps) →
    truthy (nf_before f) = false →
    (∀ n, n ∈ ns → n_walletHash n = walletHash ∧ ∃ k, v_tables (view w) MNotification !! k = Some n) ∧
    (0 ≤ page_limit (nf_limit f) → (length ns ≤ 200)%nat)) w.
Proof.
  lazymatch goal with |- wp _ ?Q w =>
    change (wp (history (tables (w_db w) MProtocolSettings) walletHash f) Q w) end.
  apply wp_bind, (wp_find_many MNotification); [| by intros e w1 ->]. intros all w1 Hall Hv1. cbn zeta.
  set (ns := if truthy (nf_before f) then _ else _).
  assert (truthy (nf_before f) = false →
    (∀ n, n ∈ ns → n_walletHash n = walletHash ∧ ∃ k, v_tables (view w) MNotification !! k = Some n) ∧
    (0 ≤ page_limit (nf_limit f) → (length ns ≤ 200)%nat)) as Hns.
  { intros Hb. unfold ns. rewrite Hb. split.
    - intros n Hn. destruct (take_rows_segment (page_limit (nf_limit f)) 0 all) as (l1 & l2 & Hrow).
      assert (n ∈ all) as [i Hi]%list_elem_of_lookup by (rewrite drop_0 in Hrow; rewrite Hrow; set_solver).
      destruct Hall as (_ & (ks & _ & Hks) & _).
      destruct (Forall2_lookup_r _ _ _ _ _ Hks Hi) as (k & _ & Hk & Hp).
      unfold in_history in Hp. rewrite !andb_true_iff, bool_decide_eq_true in Hp.
      destruct Hp as [[[? _] _] _]. eauto.
    - intros Hl. pose proof (length_take_rows _ all Hl) as Hn.
      assert (page_limit (nf_limit f) ≤ 200) by apply Z.le_min_r. cbn in *. lia. }
  apply wp_bind. destruct (remove_dups _) as [|x xs]; [by apply wp_ret, wp_ret; split; [| intros ?? [= <- _]] |].
  apply (wp_find_many MProtocol); [| intros e w2 Hv2; split; [congruence | done]].
  intros ps w2 _ Hv2. apply wp_ret. split; [congruence |]. by intros ?? [= <- _].
Qed.
End portal.

(** ** Witnesses *)

Definition a_preference : UserProtocolPreference := {|
  upp_id := "u1"; upp_walletHash := "h"; upp_protocolId := "p1"; upp_optInDefi := Some true;
  upp_optInGovernance := Some false; upp_optInMarketing := None; upp_optInSystem := None;
  upp_channels := ["email"] |}.

Definition revert_defi : PreferencesDto := {|
  pd_optInDefi := Some None; pd_optInGovernance := None; pd_optInMarketing := Some (Some false);
  pd_optInSystem := None; pd_channels := None |}.

Lemma preferences_roundtrip_witness :
  let w := mem_world (with_rows MUserProtocolPreference [a_preference] no_tables) ∅ in
  let run := updatePreferences "h" "p1" revert_defi w in
  run.1 = Ok {| pf_optInDefi := None; pf_optInGovernance := Some false; pf_optInMarketing := Some false;
                pf_optInSystem := None; pf_channels := ["email"] |} ∧
  (getPreferences "h" "p1" run.2).1 = run.1.
Proof.
  intros w run.
  assert (one_preference (v_tables (view w) MUserProtocolPreference)) as H1.
  { intros k1 k2 r1 r2 H1 H2 _ _. change (v_tables (view w) MUserProtocolPreference)
      with ({["u1" := a_preference]} : gmap string UserProtocolPreference) in *.
    apply lookup_singleton_Some in H1 as [<- _], H2 as [<- _]. reflexivity. }
  assert (stored "h" "p1" (v_tables (view w) MUserProtocolPreference) (preferences_of a_preference)) as Hst.
  { left. exists "u1", a_preference. split_and!; reflexivity. }
  pose proof (wp_at _ _ w run.1 (preferences_roundtrip "h" "p1" revert_defi _ w H1 Hst) eq_refl) as H.
  assert (run.1 = Ok (merged revert_defi (preferences_of a_preference))) as Hr by (vm_compute; reflexivity).
  destruct (H _ Hr) as (_ & _ & Hget). split; [exact Hr |].
  pose proof (wp_at _ _ run.2 (getPreferences "h" "p1" run.2).1 Hget eq_refl) as [_ Hg].
  assert (match (getPreferences "h" "p1" run.2).1 with Ok _ => True | Err _ => False end) as Hok
    by (vm_compute; exact I).
  destruct (getPreferences "h" "p1" run.2).1 as [got|e]; [| destruct Hok].
  rewrite Hr. f_equal. exact (Hg got eq_refl).
Defined.

(** A limit below zero is no limit. *)
Example negative_limit : page_limit (Some "-1000") = -1000 ∧ page_limit (Some "1000") = 200 ∧
  page_limit (Some "0") = 100 ∧ page_limit None = 100 ∧
  length (take_rows (page_limit (Some "-1000")) (replicate 900 ())) = 900%nat.
Proof. vm_compute. auto. Qed.

(** Who subscribed in the portal counts as a subscriber and is in no
    broadcast. *)
Example portal_subscriber_skipped :
  let run := (_ ← portal_subscribe "h" "p1" 0; n ← getSubscriberCount "p1"; ts ← getBroadcastTargets "p1";
              mret (n, ts)) (mem_world no_tables ∅) in
  run.1 = Ok (1, []).
Proof. vm_compute. reflexivity. Qed.
