(* ===== verification/RequestLog.v ===== *)
(** * The request log

    [RequestLogInterceptor] of
    [src/common/interceptors/request-log.interceptor.ts], which records every
    authenticated request, and the inspector that reads the log back:
    [getRequestLogs] of [src/modules/analytics/]. *)

From Stdlib Require Import Ascii String.
From S2P Require Import Prelude Text Links Schema External Memory Frame Scheduler.

Open Scope string_scope.
Open Scope list_scope.
Open Scope Z_scope.

(** ** Redaction *)

Definition SENSITIVE_KEYS : list string :=
  ["wallet"; "email"; "subject"; "body"; "authorization"; "password"; "secret"].

Definition sensitive (k : string) : bool :=
  bool_decide (toLowerCase (units k) ∈ units <$> SENSITIVE_KEYS).

Definition REDACTED : json := JString "[redacted]".

(** [result[k] = v]: a property of its own, but [__proto__], which sets the
    prototype. *)
Definition own_key (k : string) : bool := negb (k =? "__proto__")%string.

Fixpoint sanitizeBody (v : json) : json :=
  match v with
  | JArray l => JArray (List.map sanitizeBody l)
  | JObject l =>
      JObject (List.filter (λ kv, own_key kv.1)
        (List.map (λ kv, (kv.1, if sensitive kv.1 then REDACTED else sanitizeBody kv.2)) l))
  | v => v
  end.

(** ** The interceptor *)

Record HttpRequest := {
  hr_authProtocol : option AuthenticatedProtocol;
  hr_method : string;
  hr_path : string;
  hr_body : option json;
  hr_forwardedFor : option string;
  hr_remoteAddress : option string;
  hr_correlationId : option string;
}.

(** [err?.status ?? 500] *)
Definition error_status (e : exn) : Z :=
  match e with HttpError s _ => s | JsError _ _ => 500 end.

Section interceptor.
Context `{B : Backend} `{Hsh : Hashing}.

Definition ip_hash (req : HttpRequest) : option string :=
  let ip := match hr_forwardedFor req with Some ip => Some ip | None => hr_remoteAddress req end in
  if truthy ip then Some (String.substring 0 16 (sha256 (default "" ip))) else None.

Definition log_row (req : HttpRequest) (p : AuthenticatedProtocol) (response : option json)
    (status : Z) (ipHash : option string) (start now : Z) (id : string) : ApiRequestLog := {|
  arl_id := id; arl_protocolId := ap_protocolId p;
  arl_apiKeyId := if negb (ap_apiKeyId p =? "")%string && negb (ap_apiKeyId p =? "internal")%string
                  then Some (ap_apiKeyId p) else None;
  arl_isTestKey := default false (ap_isTestKey p);
  arl_method := hr_method req; arl_endpoint := hr_path req;
  arl_requestBody := sanitizeBody <$> hr_body req; arl_responseBody := sanitizeBody <$> response;
  arl_statusCode := status; arl_latencyMs := now - start;
  arl_correlationId := hr_correlationId req; arl_ipHash := ipHash; arl_createdAt := now |}.

(** The row of an answer; [statusCode] is the response's. *)
Definition answer_row (req : HttpRequest) (p : AuthenticatedProtocol) (statusCode start now : Z)
    (r : result (option json)) : string → ApiRequestLog :=
  match r with
  | Ok body => log_row req p body statusCode (ip_hash req) start now
  | Err e => log_row req p None (error_status e) None start now
  end.

Definition log_answer (req : HttpRequest) (statusCode start now : Z) (r : result (option json)) :
    M World () :=
  match hr_authProtocol req with
  | Some p =>
      if (ap_protocolId p =? "")%string then mret ()
      else swallow () (_ ← create MApiRequestLog (answer_row req p statusCode start now r); mret ())
  | None => mret ()
  end.

(** [intercept]: the handler starts at [start] and settles at [now]. *)
Definition intercept_log (req : HttpRequest) (handle : M World (option json)) (statusCode start now : Z) :
    M World (option json) := λ w,
  let '(r, w1) := handle w in
  (_ ← log_answer req statusCode start now r; lift r) w1.

(** ** The inspector *)

Record LogFilter := {
  lf_page : option Z;           (** [None] is NaN *)
  lf_limit : option Z;
  lf_statusCode : option (option Z);
  lf_endpoint : option string;
  lf_isTestKey : option bool;
}.

Record LogPage := {
  lp_items : list ApiRequestLog;
  lp_total : Z;
  lp_page : Z;
  lp_limit : Z;
  lp_hasMore : bool;
}.

(** Prisma's [skip] and [take]; a negative [take] counts from the end. *)
Definition window {A} (skip take : Z) (l : list A) : list A :=
  if 0 <=? take then firstn (Z.to_nat take) (drop (Z.to_nat skip) l)
  else rev (firstn (Z.to_nat (- take)) (drop (Z.to_nat skip) (rev l))).

(** Prisma's validation of the arguments of a query. *)
Definition invalid_query : exn := JsError "PrismaClientValidationError" None.

(** Prisma's [contains] *)
Context (contains : string → string → bool).

Definition logged_for (protocolId : string) (statusCode : option Z) (f : LogFilter) :
    where_ MApiRequestLog := λ _ r,
  bool_decide (arl_protocolId r = protocolId) &&
  (if statusCode is Some s then bool_decide (arl_statusCode r = s) else true) &&
  (if lf_endpoint f is Some e then contains (arl_endpoint r) e else true) &&
  (if lf_isTestKey f is Some t then bool_decide (arl_isTestKey r = t) else true).

(** The page of the rows a filter selects, latest first. *)
Definition log_page (where_logs : where_ MApiRequestLog) (page limit : Z) : M World LogPage :=
  let skip := (page - 1) * limit in
  if skip <? 0 then raise invalid_query else
  rows ← find_many MApiRequestLog where_logs (Some (λ r, - arl_createdAt r));
  let items := window skip limit rows in
  total ← count MApiRequestLog where_logs;
  mret {| lp_items := items; lp_total := total; lp_page := page; lp_limit := limit;
          lp_hasMore := skip + Z.of_nat (length items) <? total |}.

(** [AnalyticsService.getRequestLogs]; a query that holds NaN is refused. *)
Definition getRequestLogs (protocolId : string) (f : LogFilter) : M World LogPage :=
  match lf_page f, lf_limit f, lf_statusCode f with
  | Some page, Some limit, None => log_page (logged_for protocolId None f) page limit
  | Some page, Some limit, Some (Some s) => log_page (logged_for protocolId (Some s) f) page limit
  | _, _, _ => raise invalid_query
  end.

(** The query string: [page], [limit], [statusCode], [endpoint], [isTestKey]. *)
Definition log_filter (page limit : option string) (statusCode endpoint isTestKey : option string) :
    LogFilter := {|
  lf_page := parseInt (default "1" page);
  lf_limit := (λ n, Z.min n 100) <$> parseInt (default "50" limit);
  lf_statusCode := if truthy statusCode then Some (parseInt (default "" statusCode)) else None;
  lf_endpoint := endpoint;
  lf_isTestKey := match isTestKey with
                  | Some s => if (s =? "true")%string then Some true
                              else if (s =? "false")%string then Some false else None
                  | None => None
                  end |}.

(** [AnalyticsController.getRequestLogs] *)
Definition request_logs (protocol : AuthenticatedProtocol)
    (page limit statusCode endpoint isTestKey : option string) : M World LogPage :=
  getRequestLogs (ap_protocolId protocol) (log_filter page limit statusCode endpoint isTestKey).
End interceptor.

(** ** Paths into a value *)

Inductive step := Key (k : string) | Item (i : nat).

Definition field (k : string) (l : list (string * json)) : option json :=
  snd <$> List.find (λ kv, (kv.1 =? k)%string) l.

Definition child (s : step) (v : json) : option json :=
  match s, v with
  | Key k, JObject l => field k l
  | Item i, JArray l => l !! i
  | _, _ => None
  end.

Definition at_path (p : list step) (v : json) : option json := foldl (λ o s, o ≫= child s) (Some v) p.

(** No key of the path is redacted or dropped. *)
Definition clear_step (s : step) : bool :=
  match s with Key k => negb (sensitive k) && own_key k | Item _ => true end.

(** ** Lemmas *)

Lemma at_path_snoc p s v : at_path (p ++ [s]) v = at_path p v ≫= child s.
Proof. unfold at_path. by rewrite foldl_app. Qed.

Lemma field_sanitized k l : own_key k = true →
  field k (List.filter (λ kv, own_key kv.1)
    (List.map (λ kv, (kv.1, if sensitive kv.1 then REDACTED else sanitizeBody kv.2)) l)) =
  (if sensitive k then λ _, REDACTED else sanitizeBody) <$> field k l.
Proof.
  intros Hk. unfold field. induction l as [|[k' v] l IH]; [done |]. cbn.
  destruct (String.eqb_spec k' k) as [-> | Hne].
  - rewrite Hk. cbn. rewrite String.eqb_refl. by destruct (sensitive k).
  - destruct (own_key k'); [cbn; rewrite (proj2 (String.eqb_neq k' k) Hne) |]; exact IH.
Qed.

Lemma child_sanitized s v : clear_step s = true →
  child s (sanitizeBody v) = sanitizeBody <$> child s v.
Proof.
  destruct s as [k | i], v; try done; cbn [clear_step child sanitizeBody].
  - intros [Hs Hk]%andb_prop. rewrite field_sanitized by done. by destruct (sensitive k).
  - intros _. apply list_lookup_fmap.
Qed.

Lemma redacted_child k v : sensitive k = true → own_key k = true →
  child (Key k) (sanitizeBody v) = (λ _, REDACTED) <$> child (Key k) v.
Proof. intros Hs Hk. destruct v; try done. cbn [child sanitizeBody]. by rewrite field_sanitized, Hs. Qed.

Lemma path_sanitized p v : forallb clear_step p = true →
  at_path p (sanitizeBody v) = sanitizeBody <$> at_path p v.
Proof.
  induction p as [|s p IH] using rev_ind; [done |].
  rewrite forallb_app. intros [Hp [Hs _]%andb_prop]%andb_prop.
  rewrite !at_path_snoc, IH by done. destruct (at_path p v) as [x|]; [| done]. cbn. by apply child_sanitized.
Qed.

Lemma nothing_below (o : option json) s q :
  foldl (λ o s, o ≫= child s) (((λ _, REDACTED) <$> o) ≫= child s) q = None.
Proof. replace (_ ≫= child s) with (@None json); [by induction q |]. by destruct o, s. Qed.

(** ** Properties *)

(** C35.  What the log keeps of a body: along keys that are neither sensitive
    nor [__proto__] the value is the sanitized value of the original, so
    nothing appears or disappears; under a sensitive key, wherever it is and
    whatever its case, every value is the marker, and nothing lies below. *)
Theorem redaction_exact p k q v : forallb clear_step p = true →
  at_path p (sanitizeBody v) = sanitizeBody <$> at_path p v ∧
  (sensitive k = true →
    at_path (p ++ [Key k]) (sanitizeBody v) = (λ _, REDACTED) <$> at_path (p ++ [Key k]) v ∧
    (q ≠ [] → at_path (p ++ Key k :: q) (sanitizeBody v) = None)).
Proof.
  intros Hp. split; [by apply path_sanitized |]. intros Hs.
  assert (own_key k = true) as Hk.
  { unfold own_key. destruct (String.eqb_spec k "__proto__") as [-> |]; [| done]. vm_compute in Hs. done. }
  assert (at_path (p ++ [Key k]) (sanitizeBody v) = (λ _, REDACTED) <$> at_path (p ++ [Key k]) v) as Heq.
  { rewrite !at_path_snoc, path_sanitized by done.
    destruct (at_path p v) as [x|]; [| done]. cbn [fmap option_fmap option_map mbind option_bind].
    by apply redacted_child. }
  split; [exact Heq |]. destruct q as [|s q]; [done |]. intros _.
  assert (p ++ Key k :: s :: q = (p ++ [Key k]) ++ s :: q) as -> by (by rewrite <- app_assoc).
  unfold at_path in *. rewrite foldl_app, Heq. cbn [foldl].
  apply nothing_below.
Qed.

Section properties.
Context `{B : Backend} `{BL : !BackendLaws B} `{Hsh : Hashing} (contains : string → string → bool).

(** What a request leaves in the log after the state [v] of its handler. *)
Definition logged (req : HttpRequest) (statusCode start now : Z) (r : result (option json))
    (v v' : View) : Prop :=
  v' = v ∨ ∃ p id, let row := answer_row req p statusCode start now r id in
    hr_authProtocol req = Some p ∧ ap_protocolId p ≠ "" ∧ v_tables v MApiRequestLog !! id = None ∧
    v' = v <| v_tables ::= upd MApiRequestLog <[id := row]> |>.

(** The interceptor answers what the handler answers, value or
    rejection, whatever the log does; and the only trace it leaves beyond the
    handler's is one row of the log, that of the authenticated protocol, with
    the status of the answer, or of the error. *)
Theorem logging_transparent req handle statusCode start now w :
  wp (intercept_log req handle statusCode start now) (λ r w', r = (handle w).1 ∧
    logged req statusCode start now r (view (handle w).2) (view w')) w.
Proof.
  unfold intercept_log, wp at 1. destruct (handle w) as [r1 w1]. cbn [fst snd].
  set (Q r w' := r = r1 ∧ logged req statusCode start now r (view w1) (view w')).
  change (wp (_ ← log_answer req statusCode start now r1; lift r1) Q w1).
  assert (∀ w', logged req statusCode start now r1 (view w1) (view w') → wp (lift r1) Q w') as Hend.
  { intros w' Hw'. by apply wp_lift. }
  apply wp_bind. unfold log_answer. destruct (hr_authProtocol req) as [p|] eqn:Hp;
    [| by apply wp_ret, Hend; left].
  destruct (String.eqb_spec (ap_protocolId p) "") as [_ | Hne]; [by apply wp_ret, Hend; left |].
  apply wp_swallow, wp_bind, (wp_create MApiRequestLog).
  - intros i r w' -> Hfresh _ Hv. apply wp_ret, Hend. right. exists p, i.
    assert (arl_id (answer_row req p statusCode start now r1 i) = i) as Hid by (by destruct r1).
    cbn [row_key] in Hfresh, Hv. rewrite Hid in Hfresh, Hv. done.
  - intros e w' Hv. apply Hend. by left.
Qed.

Lemma window_more {A} page limit (l : list A) : 0 < page → 0 < limit →
  (page - 1) * limit + Z.of_nat (length (window ((page - 1) * limit) limit l)) < Z.of_nat (length l) ↔
  page * limit < Z.of_nat (length l).
Proof.
  intros Hp Hl. assert (0 ≤ (page - 1) * limit) by nia. unfold window.
  rewrite (proj2 (Z.leb_le 0 limit)), length_take, length_drop by lia. lia.
Qed.

Lemma log_page_spec where_logs page limit w :
  by_key MApiRequestLog (v_tables (view w) MApiRequestLog) → limit ≤ 100 →
  wp (log_page where_logs page limit) (λ r w', view w' = view w ∧
    ∀ pg, r = Ok pg → 0 < lp_page pg → 0 < lp_limit pg → ∃ rows,
      selects MApiRequestLog where_logs (Some (λ r, - arl_createdAt r))
        (v_tables (view w) MApiRequestLog) rows ∧
      lp_items pg = firstn (Z.to_nat (lp_limit pg)) (drop (Z.to_nat ((lp_page pg - 1) * lp_limit pg)) rows) ∧
      lp_total pg = Z.of_nat (length rows) ∧ (length (lp_items pg) ≤ 100)%nat ∧
      (lp_hasMore pg = true ↔ lp_page pg * lp_limit pg < lp_total pg)) w.
Proof.
  intros Hkey Hmax. unfold log_page. destruct (_ <? 0); [by apply wp_raise |].
  apply wp_bind, (wp_find_many MApiRequestLog); [| done]. intros rows w1 Hrows Hv1.
  apply wp_bind, wp_bind, (wp_find_many MApiRequestLog); [| intros e w2 Hv2; split; congruence].
  intros all w2 Hall Hv2. apply wp_ret, wp_ret. split; [congruence |].
  intros ? [= <-]; cbn [lp_page lp_limit lp_items lp_total lp_hasMore]. intros Hp Hl.
  rewrite Hv1 in Hall. assert (length all = length rows) as Hlen by exact (selects_length _ _ _ _ _ _ _ Hkey Hall Hrows).
  cbn [row] in *. rewrite Hlen.
  exists rows. split; [exact Hrows |]. rewrite Z.ltb_lt, window_more by done.
  unfold window. rewrite (proj2 (Z.leb_le 0 limit)) by lia. split_and!; try done.
  rewrite length_take. lia.
Qed.

(** A page of the inspector is the window of the rows of the protocol
    that pass the filter, latest first; [hasMore] tells exactly whether rows
    follow it, and a page has at most 100 rows, where the page and the limit
    of the query are positive.  Nothing is written. *)
Theorem inspector_pages protocol page limit statusCode endpoint isTestKey w :
  let f := log_filter page limit statusCode endpoint isTestKey in
  by_key MApiRequestLog (v_tables (view w) MApiRequestLog) →
  wp (request_logs contains protocol page limit statusCode endpoint isTestKey) (λ r w',
    view w' = view w ∧ ∀ pg, r = Ok pg → 0 < lp_page pg → 0 < lp_limit pg → ∃ rows,
      selects MApiRequestLog (logged_for contains (ap_protocolId protocol) (default None (lf_statusCode f)) f)
        (Some (λ r, - arl_createdAt r)) (v_tables (view w) MApiRequestLog) rows ∧
      lp_items pg = firstn (Z.to_nat (lp_limit pg)) (drop (Z.to_nat ((lp_page pg - 1) * lp_limit pg)) rows) ∧
      lp_total pg = Z.of_nat (length rows) ∧ (length (lp_items pg) ≤ 100)%nat ∧
      (lp_hasMore pg = true ↔ lp_page pg * lp_limit pg < lp_total pg)) w.
Proof.
  intros f Hkey. unfold request_logs, getRequestLogs. fold f.
  destruct (lf_page f) as [pg|], (lf_limit f) as [lim|] eqn:Hlim;
    try (by destruct (lf_statusCode f) as [[]|]; apply wp_raise).
  assert (lim ≤ 100) as Hmax.
  { unfold f, log_filter in Hlim. cbn in Hlim. destruct (parseInt _); [| done]. injection Hlim as <-. lia. }
  destruct (lf_statusCode f) as [[s|]|]; [by apply log_page_spec | by apply wp_raise | by apply log_page_spec].
Qed.
End properties.

(** ** Witnesses *)

Definition a_body : json := JObject [
  ("Wallet", JString "7xKX"); ("notifications", JArray [JObject [("subject", JString "hi"); ("category", JString "defi")]]);
  ("__proto__", JNull)].

Lemma redaction_exact_witness :
  sanitizeBody a_body = JObject [
    ("Wallet", REDACTED); ("notifications", JArray [JObject [("subject", REDACTED); ("category", JString "defi")]])] ∧
  let p := [Key "notifications"; Item 0] in
  at_path p (sanitizeBody a_body) = sanitizeBody <$> at_path p a_body ∧
  (sensitive "subject" = true →
    at_path (p ++ [Key "subject"]) (sanitizeBody a_body) = (λ _, REDACTED) <$> at_path (p ++ [Key "subject"]) a_body ∧
    (@nil step ≠ [] → at_path (p ++ Key "subject" :: []) (sanitizeBody a_body) = None)).
Proof. split; [reflexivity |]. apply (redaction_exact [Key "notifications"; Item 0] "subject" [] a_body). reflexivity. Defined.

Definition log_entry (id protocol : string) (status t : Z) : ApiRequestLog := {|
  arl_id := id; arl_protocolId := protocol; arl_apiKeyId := None; arl_isTestKey := false; arl_method := "GET";
  arl_endpoint := "/v1/usage"; arl_requestBody := None; arl_responseBody := None; arl_statusCode := status;
  arl_latencyMs := 3; arl_correlationId := None; arl_ipHash := None; arl_createdAt := t |}.

Definition log_world : World :=
  mem_world (with_rows MApiRequestLog [log_entry "r1" "p1" 200 10; log_entry "r2" "p1" 500 20;
    log_entry "r3" "p2" 200 30; log_entry "r4" "p1" 200 40] no_tables) ∅.

Definition reader : AuthenticatedProtocol := {|
  ap_protocolId := "p1"; ap_protocolPubkey := "pk"; ap_apiKeyId := "k1"; ap_tier := 0; ap_scopes := [];
  ap_environment := Production; ap_isActive := true; ap_sendsThisPeriod := None; ap_name := None;
  ap_overageEnabled := None; ap_isTestKey := None; ap_testKeyType := None; ap_verificationStatus := None |}.

Lemma inspector_pages_witness :
  let page n := (request_logs (λ _ _, true) reader (Some n) (Some "2") None None None log_world).1 in
  (page "1", page "2") = (
    Ok {| lp_items := [log_entry "r4" "p1" 200 40; log_entry "r2" "p1" 500 20]; lp_total := 3;
          lp_page := 1; lp_limit := 2; lp_hasMore := true |},
    Ok {| lp_items := [log_entry "r1" "p1" 200 10]; lp_total := 3; lp_page := 2; lp_limit := 2;
          lp_hasMore := false |}) ∧
  view (request_logs (λ _ _, true) reader (Some "1") (Some "2") None None None log_world).2 = view log_world.
Proof.
  intros page. split; [vm_compute; reflexivity |].
  refine (proj1 (wp_at _ _ _ _ (inspector_pages (λ _ _, true) reader (Some "1") (Some "2") None None None log_world _) eq_refl)).
  apply by_key_check. vm_compute. reflexivity.
Defined.

(** A negative limit reads past the cap: all of the log, from its end. *)
Example negative_log_limit :
  let r := (request_logs (λ _ _, true) reader None (Some "-1000") None None None log_world).1 in
  (λ pg, (length (lp_items pg), lp_hasMore pg)) <$> match r with Ok pg => Some pg | _ => None end = Some (3%nat, false).
Proof. vm_compute. reflexivity. Qed.

(** What the list of keys misses: a test contact's address, an API key. *)
Example unredacted_contact :
  sanitizeBody (JObject [("test_contact", JObject [("phone", JString "+1")]); ("apiKey", JString "hrld_")]) =
  JObject [("test_contact", JObject [("phone", JString "+1")]); ("apiKey", JString "hrld_")].
Proof. reflexivity. Qed.
