(* ===== verification/Analytics.v ===== *)
(** * Analytics

    [AnalyticsService] and the tracking endpoints of [AnalyticsController], of
    [src/modules/analytics/] (the request inspector is in [RequestLog]).  The
    rates are JavaScript numbers.  The day of a [DateTime] in ISO form, the
    parser of dates and base64url are parameters. *)

From Stdlib Require Import Ascii String SpecFloat.
From stdpp Require Import sorting.
From S2P Require Import Prelude Schema External Memory Frame RateLimit Billing Subscriptions Bot.

Open Scope string_scope.
Open Scope list_scope.
Open Scope Z_scope.

Inductive period := P7d | P30d | P90d.

Definition days (p : period) : Z := match p with P7d => 7 | P30d => 30 | P90d => 90 end.

Definition since (p : period) (now : Z) : Z := now - days p * 24 * 60 * 60 * 1000.

(** [total > 0 ? n / total : 0] *)
Definition rate (n total : Z) : spec_float :=
  if 0 <? total then js_div (js_number n) (js_number total) else js_number 0.

(** [+x.toFixed(d)] of a number that is not negative: the nearest decimal of
    [d] places, the larger of two. *)
Definition fixed (d : Z) (x : spec_float) : spec_float :=
  js_div (js_number (match x with
    | S754_finite false m e =>
        if 0 <=? e then Z.pos m * 2 ^ e * 10 ^ d
        else (2 * Z.pos m * 10 ^ d + 2 ^ (- e)) / (2 * 2 ^ (- e))
    | _ => 0
    end)) (js_number (10 ^ d)).

(** ** Results *)

Record Overview := {
  ov_period : period;
  ov_total_sends : Z;
  ov_delivery_rate : spec_float;
  ov_bounce_rate : spec_float;
  ov_opted_out_rate : spec_float;
  ov_failure_rate : spec_float;
  ov_delivered : Z;
  ov_failed : Z;
  ov_opted_out : Z;
  ov_bounced : Z;
}.

Record Usage := {
  us_tier : Z;
  us_tier_name : string;
  us_sends_used : Z;
  us_sends_limit : Z;
  us_sends_remaining : Z;
  us_usage_pct : spec_float;
  us_period_reset_at : option Z;
}.

Record Engagement := {
  eg_totalSends : Z;
  eg_opens : Z;
  eg_clicks : Z;
  eg_unsubscribes : Z;
  eg_openRate : spec_float;
  eg_clickRate : spec_float;
  eg_unsubscribeRate : spec_float;
  eg_from : Z;
  eg_to : Z;
}.

Record AudienceReport := {
  au_totalRegistered : Z;
  au_broadcastableSubscribers : Z;
  au_activeLastThirtyDays : Z;
  au_retentionRate : Z;
  au_email : Z;
  au_telegram : Z;
  au_sms : Z;
  au_bySource : gmap string Z;
  au_registrationTrend : list (string * Z);
}.

Record TelegramReport := {
  tr_period : period;
  tr_subscribers : Z;
  tr_sent : Z;
  tr_delivered : Z;
  tr_failed : Z;
  tr_deliveryRate : spec_float;
  tr_clicks : Z;
  tr_clickRate : spec_float;
  tr_topLinks : list (string * Z);
}.

(** ** Filters *)

Definition sent_since (protocolId : string) (t : Z) : where_ MNotification := λ _ n,
  bool_decide (n_protocolId n = protocolId) && (t <=? n_queuedAt n).

Definition with_status (s : NotificationStatus) (p : where_ MNotification) : where_ MNotification :=
  λ k n, bool_decide (n_status n = s) && p k n.

Definition with_bounce (p : where_ MNotification) : where_ MNotification := λ k n, n_bounce n && p k n.

Definition tracked (protocolId : string) (from until : Z) : where_ MNotification := λ k n,
  sent_since protocolId from k n && (n_queuedAt n <=? until) && n_trackingEnabled n.

Definition engaged (protocolId eventType : string) (from : Z) : where_ MNotificationEngagement := λ _ e,
  bool_decide (ne_protocolId e = protocolId) && bool_decide (ne_eventType e = eventType) &&
  (from <=? ne_createdAt e).

Definition engaged_within (protocolId eventType : string) (from until : Z) :
    where_ MNotificationEngagement := λ k e,
  engaged protocolId eventType from k e && (ne_createdAt e <=? until).

Definition telegram_subscriber (protocolId : string) : where_ MProtocolSubscription := λ k s,
  active_of protocolId k s && bool_decide ("telegram" ∈ sub_channels s).

(** The deliveries by Telegram of the protocol's notifications. *)
Definition telegram_delivery (notifications : gmap string Notification) (protocolId : string) (from : Z)
    (success : bool) : where_ MChannelDelivery := λ _ d,
  bool_decide (cd_channel d = Some Telegram) && Bool.eqb (cd_success d) success &&
  (if notifications !! cd_notificationId d is Some n then sent_since protocolId from "" n else false).

Definition count_le (a b : string * Z) : Prop := b.2 ≤ a.2.

#[export] Instance count_le_dec a b : Decision (count_le a b) := decide (b.2 ≤ a.2).

(** The links of the clicks by their count, the ten most frequent; the order
    of equal counts is the database's. *)
Definition top_links (clicks : list NotificationEngagement) : list (string * Z) :=
  firstn 10 (merge_sort count_le (map_to_list (fold_left tally (omap ne_linkUrl clicks) ∅))).

(** [tierLimits[tier] ?? 1000] *)
Definition tier_limits (tier : Z) : Z :=
  if tier =? 0 then 1000 else if tier =? 1 then 50000 else if tier =? 2 then 250000
  else if tier =? 3 then 1000000 else 1000.

(** ** Operations *)

Section analytics.
Context `{B : Backend} `{Hsh : Hashing}.
Context (isoDay : Z → string) (parse_date : string → option Z).
(** [Buffer.from(s, 'base64url').toString('utf8')] *)
Context (base64url : string → string).

Definition getAnalytics (protocolId : string) (p : period) (now : Z) : M World Overview :=
  let sent := sent_since protocolId (since p now) in
  total ← count MNotification sent;
  delivered ← count MNotification (with_status Delivered sent);
  failed ← count MNotification (with_status Failed sent);
  optedOut ← count MNotification (with_status OptedOut sent);
  bounced ← count MNotification (with_bounce sent);
  mret {|
    ov_period := p; ov_total_sends := total; ov_delivery_rate := rate delivered total;
    ov_bounce_rate := rate bounced total; ov_opted_out_rate := rate optedOut total;
    ov_failure_rate := rate failed total; ov_delivered := delivered; ov_failed := failed;
    ov_opted_out := optedOut; ov_bounced := bounced |}.

Definition getUsage (protocolId : string) (tier : Z) : M World Usage :=
  p ← find_unique MProtocol (by_id MProtocol protocolId);
  let limit := tier_limits tier in
  let used := from_option p_sendsThisPeriod 0 p in
  mret {|
    us_tier := tier;
    us_tier_name := if tier =? 1 then "Growth" else if tier =? 2 then "Scale"
                    else if tier =? 3 then "Enterprise" else "Developer";
    us_sends_used := used; us_sends_limit := limit; us_sends_remaining := Z.max 0 (limit - used);
    us_usage_pct := if 0 <? limit then js_mul (js_div (js_number used) (js_number limit)) (js_number 100)
                    else js_number 0;
    us_period_reset_at := option_map p_periodResetAt p |}.

(** [new Date(s)]; an invalid date makes the query fail. *)
Definition given_date (s : option string) (otherwise : Z) : M World Z :=
  if truthy s then
    match parse_date (default "" s) with
    | Some t => mret t
    | None => raise (JsError "Invalid Date" None)
    end
  else mret otherwise.

(** [+((n / totalSends) * 100).toFixed(2)] *)
Definition safeRate (totalSends n : Z) : spec_float :=
  if 0 <? totalSends then fixed 2 (js_mul (js_div (js_number n) (js_number totalSends)) (js_number 100))
  else js_number 0.

Definition getEngagementMetrics (protocolId : string) (startDate endDate : option string) (now : Z) :
    M World Engagement :=
  from ← given_date startDate (now - 30 * 24 * 60 * 60 * 1000);
  until ← given_date endDate now;
  opens ← count MNotificationEngagement (engaged_within protocolId "open" from until);
  clicks ← count MNotificationEngagement (engaged_within protocolId "click" from until);
  unsubs ← count MNotificationEngagement (engaged_within protocolId "unsubscribe" from until);
  totalSends ← count MNotification (tracked protocolId from until);
  mret {|
    eg_totalSends := totalSends; eg_opens := opens; eg_clicks := clicks; eg_unsubscribes := unsubs;
    eg_openRate := safeRate totalSends opens; eg_clickRate := safeRate totalSends clicks;
    eg_unsubscribeRate := safeRate totalSends unsubs; eg_from := from; eg_to := until |}.

Definition recordEngagement (notificationId protocolId eventType : string)
    (linkUrl userAgentHash : option string) (now : Z) : M World () :=
  _ ← create MNotificationEngagement (λ id, {|
        ne_id := id; ne_notificationId := notificationId; ne_protocolId := protocolId;
        ne_eventType := eventType; ne_linkUrl := linkUrl; ne_userAgentHash := userAgentHash;
        ne_createdAt := now |});
  mret ().

(** [Math.round((n / total) * 100)], 0 of nothing *)
Definition whole_percent (n total : Z) : Z := if 0 <? total then usage_percent n total else 0.

Definition getAudienceAnalytics (protocolId : string) (now : Z) : M World AudienceReport :=
  let thirtyDaysAgo := now - 30 * 24 * 60 * 60 * 1000 in
  let ninetyDaysAgo := now - 90 * 24 * 60 * 60 * 1000 in
  subStats ← getAudienceStats isoDay protocolId now;
  notified ← find_many MNotification (λ k n,
    bool_decide (n_status n ∈ [Delivered; Partial]) && sent_since protocolId thirtyDaysAgo k n) None;
  let recentlyNotified := remove_dups (n_walletHash <$> notified) in
  registrations ← find_many MProtocolSubscription
    (λ _ s, bool_decide (sub_protocolId s = protocolId) && (ninetyDaysAgo <=? sub_subscribedAt s))
    (Some sub_subscribedAt);
  let trend := merge_sort day_le (map_to_list
    (fold_left tally ((λ s, isoDay (sub_subscribedAt s)) <$> registrations) ∅)) in
  let total := as_totalSubscribers subStats in
  let activeCount := Z.of_nat (length recentlyNotified) in
  let coverage ch := whole_percent (default 0 (as_byChannel subStats !! ch)) total in
  mret {|
    au_totalRegistered := total; au_broadcastableSubscribers := as_broadcastableSubscribers subStats;
    au_activeLastThirtyDays := activeCount; au_retentionRate := whole_percent activeCount total;
    au_email := coverage "email"; au_telegram := coverage "telegram"; au_sms := coverage "sms";
    au_bySource := as_bySource subStats; au_registrationTrend := trend |}.

(** [getTelegramAnalytics], with the notifications that the filters join. *)
Definition telegram_report (notifications : gmap string Notification) (protocolId : string) (p : period)
    (now : Z) : M World TelegramReport :=
  let from := since p now in
  subscribers ← count MProtocolSubscription (telegram_subscriber protocolId);
  delivered ← count MChannelDelivery (telegram_delivery notifications protocolId from true);
  failed ← count MChannelDelivery (telegram_delivery notifications protocolId from false);
  clicks ← count MNotificationEngagement (engaged protocolId "tg_click" from);
  linked ← find_many MNotificationEngagement
    (λ k e, engaged protocolId "tg_click" from k e && bool_decide (is_Some (ne_linkUrl e))) None;
  let totalSent := delivered + failed in
  mret {|
    tr_period := p; tr_subscribers := subscribers; tr_sent := totalSent; tr_delivered := delivered;
    tr_failed := failed; tr_deliveryRate := fixed 4 (rate delivered totalSent); tr_clicks := clicks;
    tr_clickRate := fixed 4 (rate clicks delivered); tr_topLinks := top_links linked |}.

Definition getTelegramAnalytics (protocolId : string) (p : period) (now : Z) : M World TelegramReport := λ w,
  telegram_report (tables (w_db w) MNotification) protocolId p now w.

(** [AnalyticsController.trackOpen]: the pixel is sent whatever happens. *)
Definition trackOpen (notificationId : string) (protocolId : option string) (now : Z) : M World () :=
  if negb (notificationId =? "")%string && truthy protocolId
  then swallow () (recordEngagement notificationId (default "" protocolId) "open" None None now)
  else mret ().

(** [AnalyticsController.trackClick]: where it redirects to. *)
Definition trackLink (notificationId : string) (protocolId encodedUrl : option string) (now : Z) :
    M World string :=
  let destination := from_option base64url "https://useherald.xyz" encodedUrl in
  _ ← (if negb (notificationId =? "")%string && truthy protocolId
       then swallow () (recordEngagement notificationId (default "" protocolId) "click" (Some destination) None now)
       else mret ());
  mret destination.
End analytics.

(** ** Lemmas *)

Definition total_of (m : gmap string Z) : Z := map_fold (λ _ n s, n + s) 0 m.

Lemma total_insert k n m : total_of (<[k := n]> m) = n - default 0 (m !! k) + total_of m.
Proof.
  unfold total_of. destruct (m !! k) as [x|] eqn:Hk; cbn.
  - rewrite <- (insert_delete_id m k x Hk) at 2. rewrite <- insert_delete_eq.
    rewrite !map_fold_insert_L; try (by rewrite lookup_delete_eq); lia.
  - rewrite map_fold_insert_L; [lia | lia | done].
Qed.

Lemma total_tally ks m : total_of (fold_left tally ks m) = total_of m + Z.of_nat (length ks).
Proof.
  revert m. induction ks as [|k ks IH]; intros m; cbn [fold_left length]; [lia |].
  rewrite IH. unfold tally. rewrite total_insert. lia.
Qed.

Lemma total_list m : foldr (λ kn s, kn.2 + s) 0 (map_to_list m) = total_of m.
Proof. unfold total_of. rewrite map_fold_foldr. induction (map_to_list m) as [|[k n] l IH]; [done |]. cbn. by rewrite IH. Qed.

Lemma total_permutation (l l' : list (string * Z)) : l ≡ₚ l' →
  foldr (λ kn s, kn.2 + s) 0 l = foldr (λ kn s, kn.2 + s) 0 l'.
Proof. induction 1; cbn; lia. Qed.

#[export] Instance day_le_total : Total day_le.
Proof.
  intros a b. unfold day_le. destruct (String.leb a.1 b.1) eqn:H; [by left | right].
  destruct (String.leb_total a.1 b.1); congruence.
Qed.

Definition reading : Frame := {|
  fr_table _ := False; fr_job _ := False; fr_key _ := False; fr_send _ := False |}.

(** No click of the bot carries the link that was followed. *)
Definition no_linked_clicks (t : gmap string NotificationEngagement) : Prop :=
  ∀ k e, t !! k = Some e → ne_eventType e = "tg_click" → ne_linkUrl e = None.

Section properties.
Context `{B : Backend} `{BL : !BackendLaws B} `{Hsh : Hashing}.
(** The overview counts the protocol's notifications of the period: its
    outcomes are disjoint parts of the total, bounces included in it, and the
    rates are those of the counts.  Nothing is written. *)
Theorem overview_accounts protocolId p now w :
  let t := v_tables (view w) MNotification in
  let sent := sent_since protocolId (since p now) in
  by_key MNotification t →
  wp (getAnalytics protocolId p now) (λ r w', view w' = view w ∧ ∀ o, r = Ok o →
    ov_total_sends o = Z.of_nat (count_of MNotification sent t) ∧
    ov_delivered o = Z.of_nat (count_of MNotification (with_status Delivered sent) t) ∧
    0 ≤ ov_delivered o ∧ 0 ≤ ov_failed o ∧ 0 ≤ ov_opted_out o ∧
    ov_delivered o + ov_failed o + ov_opted_out o ≤ ov_total_sends o ∧
    0 ≤ ov_bounced o ≤ ov_total_sends o ∧
    ov_delivery_rate o = rate (ov_delivered o) (ov_total_sends o)) w.
Proof.
  intros t sent Hkey. unfold getAnalytics. fold sent.
  set (c p := count_of MNotification p t).
  assert (∀ q w1 (Q : result Z → World → Prop), view w1 = view w →
    (∀ w', view w' = view w → Q (Ok (Z.of_nat (c q))) w') →
    (∀ e w', view w' = view w → Q (Err e) w') → wp (count MNotification q) Q w1) as Hcount.
  { intros q w1 Q Hv Hok Herr. apply wp_count; [by rewrite Hv | intros w' Hw'; rewrite Hv in *; by apply Hok |].
    intros e w' Hw'. apply Herr. congruence. }
  apply wp_bind, Hcount; [done | | done]. intros w1 H1.
  apply wp_bind, Hcount; [done | | done]. intros w2 H2.
  apply wp_bind, Hcount; [done | | done]. intros w3 H3.
  apply wp_bind, Hcount; [done | | done]. intros w4 H4.
  apply wp_bind, Hcount; [done | | done]. intros w5 H5.
  apply wp_ret. split; [done |]. intros ? [= <-]; cbn.
  assert (c (with_status Delivered sent) + c (with_status Failed sent) + c (with_status OptedOut sent) ≤ c sent)%nat.
  { set (two := λ k n, with_status Delivered sent k n || with_status Failed sent k n).
    assert (c (with_status Delivered sent) + c (with_status Failed sent) ≤ c two)%nat.
    { apply count_of_disjoint; unfold with_status; [| done]. intros k n.
      rewrite andb_true_iff, bool_decide_eq_true. by intros [-> _]. }
    assert (c two + c (with_status OptedOut sent) ≤ c sent)%nat; [| lia].
    apply count_of_disjoint; unfold two, with_status; intros k n.
    - rewrite orb_true_iff, !andb_true_iff, !bool_decide_eq_true. by intros [[-> _] | [-> _]].
    - rewrite !orb_true_iff, !andb_true_iff. tauto. }
  assert (c (with_bounce sent) ≤ c sent)%nat.
  { apply count_of_le. unfold with_bounce. intros k n [_ ?]%andb_prop. done. }
  split_and!; try done; lia.
Qed.

(** The usage report and the subscription guard agree on the limit of a
    tier only where the tier is neither 1 nor 2; what the report says remains
    is what is left of its own limit, never negative. *)
Theorem usage_limits protocolId tier w :
  wp (getUsage protocolId tier) (λ r w', view w' = view w ∧ ∀ u, r = Ok u →
    (us_sends_limit u = send_limit tier ↔ tier ≠ 1 ∧ tier ≠ 2) ∧
    us_sends_used u = from_option p_sendsThisPeriod 0 (v_tables (view w) MProtocol !! protocolId) ∧
    us_sends_remaining u = Z.max 0 (us_sends_limit u - us_sends_used u)) w.
Proof.
  apply wp_bind, (wp_find_unique MProtocol); [| done]. intros o w1 Ho Hv. apply found_by_id in Ho. subst o.
  apply wp_ret. split; [done |]. intros ? [= <-]; cbn. split_and!; try done.
  unfold tier_limits, send_limit, TIER_SEND_LIMITS.
  destruct (Z.eqb_spec tier 0), (Z.eqb_spec tier 1), (Z.eqb_spec tier 2), (Z.eqb_spec tier 3);
    subst; cbn; split; intros; try done; lia.
Qed.

(** The registrations of the last 90 days, each counted on its day, the days
    in order. *)
Theorem trend_counts (isoDay : Z → string) protocolId now w :
  let recent : where_ MProtocolSubscription := λ _ s, bool_decide (sub_protocolId s = protocolId) &&
    (now - 90 * 24 * 60 * 60 * 1000 <=? sub_subscribedAt s) in
  by_key MProtocolSubscription (v_tables (view w) MProtocolSubscription) →
  wp (getAudienceAnalytics isoDay protocolId now) (λ r w', ∀ a, r = Ok a →
    Sorted day_le (au_registrationTrend a) ∧
    foldr (λ dn s, dn.2 + s) 0 (au_registrationTrend a) =
      Z.of_nat (count_of MProtocolSubscription recent (v_tables (view w) MProtocolSubscription))) w.
Proof.
  intros recent Hkey. unfold getAudienceAnalytics. apply wp_bind.
  assert (Keeps reading (getAudienceStats isoDay protocolId now)) as Hk by (unfold getAudienceStats; keeps).
  eapply wp_mono; [apply Hk |]. intros [stats | e] w1 H1; [| done].
  apply wp_bind, (wp_find_many MNotification); [| done]. intros notified w2 _ H2.
  apply wp_bind, (wp_find_many MProtocolSubscription); [| done]. intros rows w3 Hrows _.
  rewrite H2, (within_tables _ _ _ H1 MProtocolSubscription) in Hrows by auto.
  apply wp_ret. intros ? [= <-]; cbn. split; [apply (Sorted_merge_sort _) |].
  rewrite (total_permutation _ _ (merge_sort_Permutation _ _)), total_list, total_tally, length_fmap.
  cbn [row] in *. change (total_of ∅) with 0. rewrite Z.add_0_l. f_equal. exact (selects_count _ _ _ _ _ Hkey Hrows).
Qed.

Lemma wp_any_count m q (Q : result Z → World → Prop) w :
  (∀ n w', view w' = view w → Q (Ok n) w') → (∀ e w', view w' = view w → Q (Err e) w') →
  wp (count m q) Q w.
Proof. intros Hok Herr. apply wp_bind, wp_find_many; [| done]. intros l w' _ Hw. apply wp_ret. eauto. Qed.

Lemma click_unlinked cfg notifId urlB64 now w :
  no_linked_clicks (v_tables (view w) MNotificationEngagement) →
  wp (Bot.trackClick cfg notifId urlB64 now) (λ r w',
    no_linked_clicks (v_tables (view w') MNotificationEngagement)) w.
Proof.
  intros Hno. apply wp_bind, wp_swallow, wp_swallow, wp_bind, (wp_find_unique MNotification);
    [| intros e w1 Hv; apply wp_ret; by rewrite Hv].
  intros [n|] w1 _ Hv1; [| apply wp_ret, wp_ret; by rewrite Hv1].
  apply wp_bind, (wp_create MNotificationEngagement); [| intros e w2 Hv2; apply wp_ret; by rewrite Hv2, Hv1].
  intros i r w2 -> _ _ Hv2. apply wp_ret, wp_ret. rewrite Hv2, Hv1. cbn. rewrite upd_eq.
  intros k e [[_ <-] | [_ He]]%lookup_insert_Some; [done | eauto].
Qed.

(** The links of the clicks never reach the report on Telegram: the bot
    records a click without its link, and the report counts links only. *)
Theorem top_links_empty cfg notifId urlB64 at_ protocolId p now w :
  no_linked_clicks (v_tables (view w) MNotificationEngagement) →
  wp (_ ← Bot.trackClick cfg notifId urlB64 at_; getTelegramAnalytics protocolId p now) (λ r w',
    no_linked_clicks (v_tables (view w') MNotificationEngagement) ∧
    ∀ t, r = Ok t → tr_topLinks t = []) w.
Proof.
  intros Hno. apply wp_bind. eapply wp_mono; [by apply click_unlinked |]. intros [url | e] w1 H1; [| done].
  lazymatch goal with |- wp _ ?Q w1 =>
    change (wp (telegram_report (tables (w_db w1) MNotification) protocolId p now) Q w1) end.
  unfold telegram_report. set (ns := tables _ _). clearbody ns.
  do 4 (apply wp_bind, wp_any_count; [| by intros ? ? ->]; intros ? ? Hv; rewrite <- Hv in H1; clear Hv).
  apply wp_bind, (wp_find_many MNotificationEngagement); [| by intros ? ? ->].
  intros rows w2 (_ & (ks & _ & Hrows) & _) Hv2. apply wp_ret. split; [by rewrite Hv2 |].
  intros ? [= <-]; cbn. unfold top_links.
  assert (omap ne_linkUrl rows = []) as ->; [| done].
  clear Hv2. induction Hrows as [|k e ks rows [Hk Hp] _ IH]; [done |]. cbn.
  unfold engaged in Hp. rewrite !andb_true_iff, !bool_decide_eq_true in Hp.
  destruct Hp as [[[_ Ht] _] [l Hl]]. by rewrite (H1 k e Hk Ht) in Hl.
Qed.
End properties.

(** ** Witnesses *)

Definition analysed (id : string) (s : NotificationStatus) (b : bool) : Notification :=
  (new_notification id "p1" "h" "s" "defi" s None false 5) <| n_bounce := b |>.

Definition analytics_world : World :=
  mem_world (with_rows MNotification [analysed "n1" Delivered false; analysed "n2" Delivered true;
    analysed "n3" Failed false; analysed "n4" Queued false] no_tables) ∅.

Lemma overview_accounts_witness :
  let run := getAnalytics "p1" P7d 1000 analytics_world in
  match run.1 with
  | Ok o => (ov_total_sends o, ov_delivered o, ov_failed o, ov_bounced o, ov_delivery_rate o) =
            (4, 2, 1, 1, rate 1 2)
  | Err _ => False
  end ∧
  view run.2 = view analytics_world.
Proof.
  intros run. split; [vm_compute; reflexivity |].
  refine (proj1 (wp_at _ _ _ _ (overview_accounts "p1" P7d 1000 analytics_world _) eq_refl)).
  apply by_key_check. vm_compute. reflexivity.
Defined.

(** Redirects follow any URL, and count for any protocol. *)
Example open_redirect :
  let run := trackLink id "n9" (Some "p2") (Some "https://evil.example") 7 (mem_world no_tables ∅) in
  run.1 = Ok "https://evil.example" ∧
  (ne_protocolId <$> (snd <$> map_to_list (v_tables (view run.2) MNotificationEngagement))) = ["p2"].
Proof. vm_compute. by split. Qed.

(** A protocol of tier 1 at 20,000 sends: 30,000 remain, and none is let through. *)
Example usage_misreported :
  tier_limits 1 - 20000 = 30000 ∧ (send_limit 1 <=? 20000) = true.
Proof. by split. Qed.
