(* ===== verification/Config.v ===== *)
(** * The configuration, and the connections made from it

    [src/config] (the zod schema of the settings, [loadConfiguration] and the
    secrets of AWS), the client of [src/modules/redis/redis.module.ts], the
    connection of the queues in [src/app.module.ts] (and, the same,
    [src/worker.module.ts]), and the pool of
    [src/database/prisma.service.ts].  zod and Nest's [ConfigService] are
    classes with their documented laws; the secrets manager, JSON and URL
    parsing are parameters. *)

From Stdlib Require Import Ascii String.
From S2P Require Import Prelude Text Rx Markdown Template Scheduler.

Open Scope string_scope.
Open Scope list_scope.
Open Scope Z_scope.

(** ** Values *)

(** [process.env] *)
Definition env : Type := string → option string.

(** A value that zod is given: an environment variable, or what JSON holds. *)
Inductive raw := RStr (s : string) | RNum (n : Z) | RBool (b : bool) | RNull | ROther.

(** A setting.  [SNaN] does not occur: zod refuses it. *)
Inductive setting := SStr (s : string) | SNum (n : Z) | SBool (b : bool).

#[export] Instance setting_eq_dec : EqDecision setting.
Proof. solve_decision. Defined.

(** [!!x] on what [ConfigService.get] returns. *)
Definition is_true (x : option setting) : bool :=
  match x with
  | None | Some (SStr "") | Some (SNum 0) | Some (SBool false) => false
  | Some _ => true
  end.

(** [Boolean(x)], which [z.coerce.boolean()] applies. *)
Definition raw_true (x : raw) : bool :=
  match x with
  | RStr "" | RNum 0 | RBool false | RNull => false
  | _ => true
  end.

(** ** The schema *)

Inductive ztype :=
| ZString                       (** [z.string()] *)
| ZUrl                          (** [z.string().url()] *)
| ZMin (n : nat)                (** [z.string().min(n)] *)
| ZLength (n : nat)             (** [z.string().length(n)] *)
| ZEnum (vs : list string)      (** [z.enum(vs)] *)
| ZNumber                       (** [z.coerce.number()] *)
| ZBoolean.                     (** [z.coerce.boolean()] *)

Inductive presence := Required | Optional | Default (v : setting).

Record field := { f_name : string; f_type : ztype; f_presence : presence }.

Definition req name t : field := {| f_name := name; f_type := t; f_presence := Required |}.
Definition opt_ name t : field := {| f_name := name; f_type := t; f_presence := Optional |}.
Definition str name t d : field := {| f_name := name; f_type := t; f_presence := Default (SStr d) |}.
Definition num name d : field := {| f_name := name; f_type := ZNumber; f_presence := Default (SNum d) |}.
Definition flag name : field := {| f_name := name; f_type := ZBoolean; f_presence := Default (SBool false) |}.

Definition EnvironmentSchema : list field := [
  str "NODE_ENV" (ZEnum ["development"; "staging"; "production"; "test"]) "development";
  num "PORT" 3000;
  str "API_VERSION" ZString "v1";
  str "SERVICE_NAME" ZString "herald-gateway";
  req "DATABASE_URL" ZString;
  num "DATABASE_POOL_MIN" 2;
  num "DATABASE_POOL_MAX" 20;
  str "REDIS_URL" ZString "redis://localhost:6379";
  flag "REDIS_CLUSTER_MODE";
  opt_ "REDIS_TLS" ZBoolean;
  str "SOLANA_RPC_URL" ZUrl "http://localhost:8899";
  opt_ "SOLANA_FALLBACK_RPC_URL" ZUrl;
  str "HERALD_PROGRAM_ID" ZString "2pxjAf8tLCakKVDuN4vY51B5TeaEQk4koPuk9NZvWqdf";
  str "AWS_REGION" ZString "us-east-1";
  opt_ "SECRET_ID" ZString;
  opt_ "AWS_KMS_KEY_ID" ZString;
  str "NITRO_ENCLAVE_SOCKET" ZString "/run/enclave.sock";
  str "MAIL_PROVIDER" (ZEnum ["smtp"; "ses"; "resend"]) "smtp";
  str "SMTP_HOST" ZString "localhost";
  num "SMTP_PORT" 1025;
  opt_ "SMTP_USER" ZString;
  opt_ "SMTP_PASS" ZString;
  opt_ "RESEND_API_KEY" ZString;
  str "SES_FROM_ADDRESS" ZString "noreply@useherald.xyz";
  str "SES_REGION" ZString "us-east-1";
  opt_ "SES_CONFIGURATION_SET" ZString;
  flag "SES_AUTO_VERIFY_IDENTITIES";
  opt_ "SENDGRID_API_KEY" ZString;
  str "DKIM_DOMAIN" ZString "useherald.xyz";
  str "DKIM_KEY_SELECTOR" ZString "herald2026";
  str "IRYS_NODE" ZString "https://node1.irys.xyz";
  opt_ "IRYS_TOKEN" ZString;
  str "IRYS_NETWORK" (ZEnum ["mainnet"; "devnet"]) "devnet";
  opt_ "ENCRYPTION_KEY_ID" ZString;
  opt_ "HERALD_AUTHORITY_KMS_KEY_ID" ZString;
  opt_ "HERALD_AUTHORITY_SECRET_CIPHERTEXT" ZString;
  opt_ "HERALD_X25519_PRIV_HEX" ZString;
  opt_ "HERALD_X25519_PRIV_CIPHERTEXT" ZString;
  opt_ "HERALD_MERKLE_TREE_ADDRESS" ZString;
  opt_ "DEV_AUTHORITY_KEYPAIR_PATH" ZString;
  opt_ "HELIO_API_KEY" ZString;
  opt_ "HELIO_SECRET_KEY" ZString;
  opt_ "HELIO_WEBHOOK_SECRET" (ZMin 32);
  opt_ "HELIO_TEMPLATE_GROWTH" ZString;
  opt_ "HELIO_TEMPLATE_SCALE" ZString;
  opt_ "HELIO_TEMPLATE_ENTERPRISE" ZString;
  opt_ "HELIO_TEMPLATE_OVERCHARGE" ZString;
  str "HELIO_CHECKOUT_SUCCESS_URL" ZUrl "https://app.useherald.xyz/billing/success";
  str "HELIO_CHECKOUT_CANCEL_URL" ZUrl "https://app.useherald.xyz/billing";
  opt_ "LIGHT_RPC_URL" ZString;
  opt_ "LIGHT_OUTPUT_TREE" ZString;
  opt_ "HERALD_AUTHORITY_SECRET" ZString;
  num "RECEIPT_BATCH_SIZE" 20;
  str "WEBHOOK_SIGNING_SECRET" (ZMin 16) "development-webhook-secret-32chars!!";
  opt_ "WEBHOOK_ENCRYPTION_KEY" (ZLength 64);
  num "WEBHOOK_MAX_RETRIES" 3;
  num "WEBHOOK_AUTO_DISABLE_THRESHOLD" 10;
  flag "ALLOW_LOCAL_WEBHOOKS";
  str "UNSUBSCRIBE_BASE_URL" ZString "https://notify.useherald.xyz";
  str "UNSUBSCRIBE_JWT_SECRET" (ZMin 16) "development-unsub-jwt-secret-32!!";
  opt_ "INTERNAL_API_KEY" (ZMin 32);
  opt_ "SQS_SES_QUEUE_URL" ZString;
  str "PINO_LOG_LEVEL" (ZEnum ["trace"; "debug"; "info"; "warn"; "error"]) "info";
  opt_ "OTEL_EXPORTER_URL" ZString;
  opt_ "SENTRY_DSN" ZString
].

(** zod: the parser of an object schema, the coercion [Number(x)] of numbers
    ([None] is NaN; settings are read as whole numbers) and its test of a URL. *)
Class ZodChecks := { z_number : raw → option Z; z_url : string → bool }.
Class Zod := {
  #[global] zod_checks :: ZodChecks;
  (** [safeParse]: the issues (path and message), or the data. *)
  z_safeParse : list field → (string → option raw) →
    list (string * string) + (string → option setting);
}.

Section zod.
Context `{Z : ZodChecks}.

(** What zod documents of one type on a value that is there. *)
Definition parse_type (t : ztype) (x : raw) : option setting :=
  match t, x with
  | ZString, RStr s => Some (SStr s)
  | ZUrl, RStr s => if z_url s then Some (SStr s) else None
  | ZMin n, RStr s => if (n <=? String.length s)%nat then Some (SStr s) else None
  | ZLength n, RStr s => if (String.length s =? n)%nat then Some (SStr s) else None
  | ZEnum vs, RStr s => if existsb (String.eqb s) vs then Some (SStr s) else None
  | ZNumber, _ => SNum <$> z_number x
  | ZBoolean, _ => Some (SBool (raw_true x))
  | _, _ => None
  end.

(** [undefined] is taken by the wrapper, or refused. *)
Definition parse_field (f : field) (x : option raw) : option (option setting) :=
  match x with
  | Some x => Some <$> parse_type (f_type f) x
  | None =>
      match f_presence f with
      | Default v => Some (Some v)
      | Optional => Some None
      | Required => match f_type f with ZBoolean => Some (Some (SBool false)) | _ => None end
      end
  end.
End zod.

(** [safeParse] of an object: every field as documented, unknown keys
    dropped; it fails, with an issue, when a field does. *)
Class ZodLaws (Z : Zod) : Prop := {
  parse_ok sch src c : NoDup (f_name <$> sch) → z_safeParse sch src = inr c →
    (∀ f, f ∈ sch → parse_field f (src (f_name f)) = Some (c (f_name f))) ∧
    (∀ k, k ∉ f_name <$> sch → c k = None);
  parse_fails sch src issues : z_safeParse sch src = inl issues →
    issues ≠ [] ∧ ∃ f, f ∈ sch ∧ parse_field f (src (f_name f)) = None;
}.

(** Nest's [ConfigService] (version 4): what [load] returned comes before
    [process.env]. *)
Class NestConfig := {
  config_get : (string → option setting) → env → string → option setting;
}.
Class NestConfigLaws (N : NestConfig) : Prop := {
  get_loaded c e k : config_get c e k =
    match c k with Some v => Some v | None => SStr <$> e k end;
}.

(** ** Loading *)

Definition env_is (e : env) (v : string) : bool :=
  match e "NODE_ENV" with Some s => (s =? v)%string | None => false end.

(** [process.env] as the object that is parsed. *)
Definition env_source (e : env) (k : string) : option raw := RStr <$> e k.

(** The later properties of an object literal replace the earlier ones, also
    when they are [undefined]. *)
Definition put (k : string) (v : option raw) (src : string → option raw) (k' : string) : option raw :=
  if (k' =? k)%string then v else src k'.

(** What the secrets manager and [JSON.parse] (with the spread of its result)
    answer. *)
Record Secrets := {
  sm_value : string → string → result (option string);         (** region, [SecretId] *)
  sm_parse : string → result (string → option raw);
}.

Section loading.
Context `{Z : Zod} (sm : Secrets).

(** What [secretsLoader] reports for any failure of its [try]. *)
Definition secret_failure {A} (r : result A) : result A :=
  match r with Ok a => Ok a | Err e => Err (JsError ("Failed to fetch AWS secret: " +:+ err_message e) None) end.

Definition read_secret (region secretId : string) (e : env) : result (string → option raw) :=
  match sm_value sm region secretId with
  | Err x => Err x
  | Ok v =>
      match v with
      | None | Some "" => Err (JsError "Secret has empty SecretString" None)
      | Some s =>
          match sm_parse sm s with
          | Err x => Err x
          | Ok parsed =>
              Ok (put "SECRET_ID" (Some (RStr secretId)) (put "AWS_REGION" (Some (RStr region))
                   (put "NODE_ENV" (RStr <$> e "NODE_ENV") parsed)))
          end
      end
  end.

(** [isProduction] and [isStaging] are read from the environment [imported]
    there was when the module was loaded. *)
Definition secretsLoader (imported e : env) : result (string → option raw) :=
  let region := match e "AWS_REGION" with None | Some "" => "us-east-1" | Some r => r end in
  match e "SECRET_ID" with
  | None | Some "" =>
      if env_is imported "production" || env_is imported "staging"
      then Err (JsError "SECRET_ID is required in staging/production environment." None)
      else Ok (λ _, None)
  | Some secretId => secret_failure (read_secret region secretId e)
  end.

(** [hasInjectedSecrets] *)
Definition has_injected_secrets (e : env) : bool := truthy (e "DATABASE_URL").

Definition uses_secrets (e : env) : bool :=
  (env_is e "production" || env_is e "staging") && negb (has_injected_secrets e).

Definition raw_config (imported e : env) : result (string → option raw) :=
  if uses_secrets e then secretsLoader imported e else Ok (env_source e).

Definition loadConfiguration (imported e : env) : result (string → option setting) :=
  match raw_config imported e with
  | Err x => Err x
  | Ok src =>
      match z_safeParse EnvironmentSchema src with
      | inr c => Ok c
      | inl issues => Err (JsError ("Invalid configuration: " +:+
                       String.concat ", " ((λ i, i.1 +:+ ": " +:+ i.2) <$> issues)) None)
      end
  end.
End loading.

(** ** The Redis clients *)

Record RedisOptions := { ro_host : text; ro_port : Z; ro_tls : bool }.

Inductive RedisTarget :=
| FromUrl (url : text)                  (** [new Redis(url)] *)
| Standalone (o : RedisOptions)
| Cluster (o : RedisOptions).           (** of the one node [o] names *)

Definition HASH_SIGN : N := 35.
Definition COLON : N := 58.

(** [s.split('#')[0].trim()] *)
Definition strip_comment (s : text) : text := trim (hd [] (split_on HASH_SIGN s)).

Definition starts_with (p : string) (s : text) : bool := bool_decide (units p `prefix_of` s).
Definition redis_scheme (s : text) : bool := starts_with "rediss://" s || starts_with "redis://" s.
Definition managed_host (s : text) : bool :=
  includes (units "cache.amazonaws.com") s || includes (units "upstash.io") s.

(** [parseInt(p, 10) || 6379] *)
Definition port_of (p : text) : Z :=
  match parseInt (string_of_list_ascii (ascii_of_N <$> p)) with
  | None | Some 0 => 6379
  | Some n => n
  end.

(** The host and the port of a bare address. *)
Definition host_port (s : text) : text * Z :=
  if includes [COLON] s then
    match split_on COLON s with h :: p :: _ => (h, port_of p) | _ => (s, 6379) end
  else (s, 6379).

Section redis.
(** [ConfigService.get] *)
Variable get : string → option setting.

(** The client the services use.  A setting that is not text has no
    [startsWith]. *)
Definition redis_client : result RedisTarget :=
  match get "REDIS_URL" with
  | None => Err (JsError "Configuration key REDIS_URL does not exist" None)
  | Some (SStr url) =>
      let redisUrl := strip_comment (units url) in
      if redis_scheme redisUrl then Ok (FromUrl redisUrl)
      else
        let '(host, port) := host_port redisUrl in
        let isCluster := is_true (get "REDIS_CLUSTER_MODE") || includes (units "clustercfg") redisUrl in
        let enableTls :=
          match get "REDIS_TLS" with
          | Some v => bool_decide (v = SStr "true")
          | None => managed_host host
          end in
        let o := {| ro_host := host; ro_port := port; ro_tls := enableTls |} in
        Ok (if isCluster then Cluster o else Standalone o)
  | Some _ => Err (JsError "redisUrl.startsWith is not a function" None)
  end.

(** [new URL(s)] and [decodeURIComponent]. *)
Record UrlParts := { u_hostname : text; u_port : text; u_username : text; u_password : text }.
Variable parse_url : text → result UrlParts.
Variable decode_component : text → result text.

Record QueueConnection := {
  qc_host : text;
  qc_port : option Z;               (** [None] is NaN *)
  qc_username : option text;
  qc_password : option text;
  qc_tls : bool;
}.

(** [retryStrategy] *)
Definition retry_delay (times : Z) : Z := Z.min (times * 200) 10000.

(** [if (x) options.y = decodeURIComponent(x)] *)
Definition decoded (x : text) : result (option text) :=
  match x with
  | [] => Ok None
  | _ => match decode_component x with Ok d => Ok (Some d) | Err e => Err e end
  end.

Definition queue_url_connection (redisUrl : text) : result QueueConnection :=
  match parse_url redisUrl with
  | Err e => Err e
  | Ok url =>
      match decoded (u_password url), decoded (u_username url) with
      | Ok password, Ok username => Ok {|
          qc_host := u_hostname url;
          qc_port := match u_port url with
                     | [] => Some 6379
                     | p => parseInt (string_of_list_ascii (ascii_of_N <$> p))
                     end;
          qc_username := username; qc_password := password;
          qc_tls := starts_with "rediss://" redisUrl |}
      | Err e, _ | _, Err e => Err e
      end
  end.

(** The connection the queues use. *)
Definition queue_connection : result QueueConnection :=
  match default (SStr "redis://localhost:6379") (get "REDIS_URL") with
  | SStr url =>
      let redisUrl := strip_comment (units url) in
      if redis_scheme redisUrl then queue_url_connection redisUrl
      else
        let enableTls :=
          match get "REDIS_TLS" with
          | Some v => is_true (Some v)
          | None => managed_host redisUrl
          end in
        Ok {| qc_host := redisUrl; qc_port := Some 6379; qc_username := None;
              qc_password := None; qc_tls := enableTls |}
  | _ => Err (JsError "redisUrl.split is not a function" None)
  end.
End redis.

(** ** The pool of PostgreSQL *)

(** [/sslmode=(verify-full|verify-ca|require)/] *)
Definition STRICT_SSL : rx := RSeq (rlit "sslmode=")
  (RGroup 1 (ralt (rlit "verify-full") [rlit "verify-ca"; rlit "require"])).

Definition local_database (s : text) : bool :=
  includes (units "localhost") s || includes (units "127.0.0.1") s ||
  includes (units "host.docker.internal") s.

(** [`${process.env.DATABASE_URL}`], with the mode of SSL settled. *)
Definition connection_string (e : env) : text :=
  let s := match e "DATABASE_URL" with Some u => units u | None => units "undefined" end in
  if includes (units "sslmode=") s then replace_first STRICT_SSL (λ _, units "sslmode=no-verify") s
  else if local_database s then s
  else s ++ (if includes (units "?") s then units "&" else units "?") ++ units "sslmode=no-verify".

(** [ssl]: off, or on without verifying the certificate. *)
Inductive PoolSsl := SslOff | SslUnverified.

Record PoolConfig := {
  pool_connectionString : text;
  pool_max : option Z;                (** [None] is NaN *)
  pool_ssl : PoolSsl;
}.

Definition pool_config (e : env) : PoolConfig :=
  let s := connection_string e in
  {| pool_connectionString := s;
     pool_max := match e "DB_POOL_MAX" with
                 | Some n => match n with
                     | "" => if bool_decide (e "SERVICE_TYPE" = Some "worker") then Some 3 else Some 10
                     | _ => parseInt n
                     end
                 | None => if bool_decide (e "SERVICE_TYPE" = Some "worker") then Some 3 else Some 10
                 end;
     pool_ssl := if local_database s || includes (units "sslmode=disable") s
                 then SslOff else SslUnverified |}.

(** ** What is loaded *)

(** A setting of the type its field declares. *)
Definition well_typed (t : ztype) (v : setting) : Prop :=
  match t, v with
  | (ZString | ZUrl), SStr _ => True
  | ZMin n, SStr s => (n ≤ String.length s)%nat
  | ZLength n, SStr s => String.length s = n
  | ZEnum vs, SStr s => s ∈ vs
  | ZNumber, SNum _ | ZBoolean, SBool _ => True
  | _, _ => False
  end.

Definition well_typed_field (f : field) (v : option setting) : Prop :=
  match v with
  | Some v => well_typed (f_type f) v
  | None => f_presence f = Optional
  end.

Definition default_ok (f : field) : Prop :=
  match f_presence f with Default v => well_typed (f_type f) v | _ => True end.

Section parsing.
Context `{Z : Zod}.

Lemma parse_type_typed t x v : parse_type t x = Some v → well_typed t v.
Proof.
  destruct t, x; cbn; try done; try (by intros [= <-]).
  - destruct (z_url s); [by intros [= <-] | done].
  - destruct (n <=? String.length s)%nat eqn:E; [| done]. intros [= <-]. by apply Nat.leb_le.
  - destruct (String.length s =? n)%nat eqn:E; [| done]. intros [= <-]. by apply Nat.eqb_eq.
  - destruct (existsb (String.eqb s) vs) eqn:E; [| done]. intros [= <-]. cbn.
    apply existsb_exists in E as (v & Hv & ->%String.eqb_eq). by apply list_elem_of_In.
  - by intros (z & _ & ->)%fmap_Some.
  - by intros (z & _ & ->)%fmap_Some.
  - by intros (z & _ & ->)%fmap_Some.
  - by intros (z & _ & ->)%fmap_Some.
  - by intros (z & _ & ->)%fmap_Some.
Qed.

Lemma parse_field_typed f x v : default_ok f → parse_field f x = Some v → well_typed_field f v.
Proof.
  unfold default_ok, parse_field. destruct x as [x |].
  - intros _ (s & Hs & ->)%fmap_Some. by eapply parse_type_typed.
  - destruct (f_presence f) eqn:Ep; [| by intros _ [= <-] | by intros ? [= <-]].
    destruct (f_type f) eqn:Et; intros _; try done. intros [= <-]. cbn. by rewrite Et.
Qed.

Context `{!ZodLaws Z} (sm : Secrets).

Lemma loaded imported e c : loadConfiguration sm imported e = Ok c →
  ∃ src, raw_config sm imported e = Ok src ∧
    (∀ f, f ∈ EnvironmentSchema → parse_field f (src (f_name f)) = Some (c (f_name f))) ∧
    (∀ k, k ∉ f_name <$> EnvironmentSchema → c k = None).
Proof.
  unfold loadConfiguration. destruct (raw_config sm imported e) as [src | x]; [| done].
  destruct (z_safeParse EnvironmentSchema src) as [iss | c'] eqn:E; [done |]. intros [= <-].
  apply parse_ok in E as []; [| by apply (bool_decide_unpack _); vm_compute]. eauto.
Qed.

(** A field of the schema, found by evaluation. *)
Lemma loaded_field imported e c src f : loadConfiguration sm imported e = Ok c →
  raw_config sm imported e = Ok src → f ∈ EnvironmentSchema →
  parse_field f (src (f_name f)) = Some (c (f_name f)).
Proof. intros (src' & Hs & Hf & _)%loaded Hs'. rewrite Hs in Hs'. injection Hs' as ->. by apply Hf. Qed.

Lemma schema_defaults : Forall default_ok EnvironmentSchema.
Proof. repeat constructor; cbn; try lia; by rewrite !elem_of_cons; tauto. Qed.

(** The configuration has the types of its schema: when [loadConfiguration]
    returns, every setting the schema names is there unless it is optional,
    a text of the declared length or enumeration, a number or a boolean, and
    no other setting is, whatever the environment and the secrets hold. *)
Theorem configuration_typed imported e c : loadConfiguration sm imported e = Ok c →
  (∀ f, f ∈ EnvironmentSchema → well_typed_field f (c (f_name f))) ∧
  (∀ k, k ∉ f_name <$> EnvironmentSchema → c k = None).
Proof.
  intros (src & _ & Hf & Hk)%loaded. split; [| done].
  intros f Hin. eapply parse_field_typed; [| by apply Hf].
  by apply (proj1 (list.Forall_forall _ _) schema_defaults).
Qed.
End parsing.

(** ** Where the settings come from *)

(** [includes] finds what is there. *)
Lemma includes_app p a b : includes p (a ++ p ++ b) = true.
Proof.
  induction a as [|x a IH]; cbn.
  - destruct (p ++ b) eqn:E; cbn; rewrite <- E, bool_decide_eq_true_2; try done; by exists b.
  - by rewrite IH, orb_true_r.
Qed.

Lemma put_eq k v src : put k v src k = v.
Proof. unfold put. by rewrite String.eqb_refl. Qed.
Lemma put_ne k k' v src : k' ≠ k → put k v src k' = src k'.
Proof. intros H. unfold put. by apply String.eqb_neq in H as ->. Qed.

Lemma field_at i f : EnvironmentSchema !! i = Some f → f ∈ EnvironmentSchema.
Proof. apply list_elem_of_lookup_2. Qed.

Lemma uses_secrets_env e : uses_secrets e = true →
  e "NODE_ENV" = Some "production" ∨ e "NODE_ENV" = Some "staging".
Proof.
  unfold uses_secrets, env_is. intros [H _]%andb_prop. destruct (e "NODE_ENV") as [s |]; [| done].
  apply orb_prop in H as [->%String.eqb_eq | ->%String.eqb_eq]; auto.
Qed.

(** The connection string of an environment without a database. *)
Lemma no_database_string e : truthy (e "DATABASE_URL") = false →
  pool_connectionString (pool_config e) ∈
    [units "undefined?sslmode=no-verify"; units "?sslmode=no-verify"].
Proof.
  intros H. unfold pool_config, connection_string. cbn [pool_connectionString].
  destruct (e "DATABASE_URL") as [[|a u] |]; [right; left | done | left]; by vm_compute.
Qed.

Section sources.
Context `{Z : Zod} `{!ZodLaws Z} (sm : Secrets).

(** The secrets are read only when the environment has no database. *)
Lemma secrets_without_database e : uses_secrets e = true → truthy (e "DATABASE_URL") = false.
Proof. unfold uses_secrets, has_injected_secrets. by intros [_ ?%negb_true_iff]%andb_prop. Qed.

Lemma secrets_source imported e src : secretsLoader sm imported e = Ok src →
  uses_secrets e = true → imported "NODE_ENV" = e "NODE_ENV" →
  ∃ secretId s parsed, e "SECRET_ID" = Some secretId ∧ secretId ≠ "" ∧
    sm_value sm (match e "AWS_REGION" with None | Some "" => "us-east-1" | Some r => r end) secretId = Ok (Some s) ∧
    sm_parse sm s = Ok parsed ∧ src "NODE_ENV" = RStr <$> e "NODE_ENV" ∧
    src "SECRET_ID" = Some (RStr secretId) ∧
    ∀ k, k ∉ ["NODE_ENV"; "AWS_REGION"; "SECRET_ID"] → src k = parsed k.
Proof.
  intros Hl Hu Hi. unfold secretsLoader in Hl. set (region := match e "AWS_REGION" with None | Some "" => _ | Some r => r end) in *.
  assert (env_is imported "production" || env_is imported "staging" = true) as Himp.
  { unfold uses_secrets in Hu. apply andb_prop in Hu as [Hu _]. unfold env_is in *. by rewrite Hi. }
  rewrite Himp in Hl. destruct (e "SECRET_ID") as [[|a secretId] |]; [done | | done].
  set (sid := String a secretId) in *. unfold secret_failure, read_secret in Hl.
  destruct (sm_value sm region sid) as [[[|b s] |] |] eqn:Ev; try done.
  destruct (sm_parse sm (String b s)) as [parsed |] eqn:Ep; [| done]. injection Hl as <-.
  exists sid, (String b s), parsed. split_and!; try done.
  intros k Hk. rewrite !put_ne; set_solver.
Qed.

(** Where the settings come from.  In production or staging without a
    database in the environment they are those of the secret, except for
    [NODE_ENV] and [SECRET_ID], which stay the process's own; otherwise they
    are the environment's.  In the first case the gateway has a database in
    its settings and none that it uses: the pool of Prisma is made from the
    environment, so its connection string is that of the text "undefined"
    (or of the empty text), whatever the secret says. *)
Theorem secrets_never_reach_prisma imported e c : imported "NODE_ENV" = e "NODE_ENV" →
  loadConfiguration sm imported e = Ok c →
  (uses_secrets e = false → raw_config sm imported e = Ok (env_source e)) ∧
  (uses_secrets e = true →
     (∃ v, c "DATABASE_URL" = Some (SStr v)) ∧
     c "NODE_ENV" = SStr <$> e "NODE_ENV" ∧ c "SECRET_ID" = SStr <$> e "SECRET_ID" ∧
     pool_connectionString (pool_config e) ∈
       [units "undefined?sslmode=no-verify"; units "?sslmode=no-verify"]).
Proof.
  intros Hi Hc. split; intros Hu.
  { unfold raw_config. by rewrite Hu. }
  destruct (loaded sm imported e c Hc) as (src & Hs & Hf & _).
  unfold raw_config in Hs. rewrite Hu in Hs.
  destruct (secrets_source _ _ _ Hs Hu Hi) as (sid & s & parsed & Hsid & _ & _ & _ & Hne & Hsi & _).
  pose proof (Hf _ (field_at 0 _ eq_refl)) as Hnode. pose proof (Hf _ (field_at 4 _ eq_refl)) as Hdb.
  pose proof (Hf _ (field_at 14 _ eq_refl)) as Hsecret.
  cbn [f_name req str opt_] in Hnode, Hdb, Hsecret. split_and!.
  - revert Hdb. destruct (src "DATABASE_URL") as [[] |]; cbn; try done. intros [= <-]. eauto.
  - rewrite Hne in Hnode. destruct (uses_secrets_env _ Hu) as [E | E]; rewrite E in Hnode |- *;
      by injection Hnode as <-.
  - rewrite Hsi in Hsecret. injection Hsecret as <-. by rewrite Hsid.
  - by apply no_database_string, secrets_without_database.
Qed.

(** A boolean setting read from the environment is on whenever it is set to
    anything but the empty text, "false" and "0" included. *)
Theorem flags_on_when_set imported e c k : loadConfiguration sm imported e = Ok c →
  uses_secrets e = false →
  k ∈ ["REDIS_CLUSTER_MODE"; "SES_AUTO_VERIFY_IDENTITIES"; "ALLOW_LOCAL_WEBHOOKS"] →
  is_true (c k) = truthy (e k).
Proof.
  intros Hc Hu Hk. assert (c k = Some (SBool (truthy (e k)))) as ->; [| by destruct (truthy (e k))].
  assert (raw_config sm imported e = Ok (env_source e)) as Hr by (unfold raw_config; by rewrite Hu).
  assert (flag k ∈ EnvironmentSchema) as Hin.
  { rewrite !elem_of_cons, elem_of_nil in Hk. destruct Hk as [-> | [-> | [-> | []]]];
      [apply (field_at 8) | apply (field_at 26) | apply (field_at 57)]; done. }
  pose proof (loaded_field _ _ _ _ _ _ Hc Hr Hin) as Hf. cbn in Hf.
  unfold env_source in Hf. destruct (e k) as [[|a x] |]; cbn in Hf; by injection Hf as <-.
Qed.
End sources.

(** ** The two connections to Redis *)

Section connections.
Context (get : string → option setting) (parse_url : text → result UrlParts)
  (decode_component : text → result text).

Lemma host_port_host s : ∃ rest, s = (host_port s).1 ++ rest.
Proof.
  unfold host_port. destruct (includes [COLON] s); [| exists []; by rewrite app_nil_r].
  destruct (split_on COLON s) as [|h [|p ls]] eqn:E; [by exists []; rewrite app_nil_r .. |].
  cbn. revert h p ls E. induction s as [|x s IH]; intros h p ls; cbn; [done |].
  destruct (N.eqb x COLON); [by intros [= <- _]; exists (x :: s) |].
  destruct (split_on COLON s) as [|l ls']; [done |]. intros [= <- ->].
  destruct (IH l p ls eq_refl) as (rest & ->). by exists rest.
Qed.

(** The client of the services and the connection of the queues are made from
    the same settings, but for an address without a scheme they read them
    differently.  The queues take the whole address, port included, for the
    name of the host, and always the port 6379; and when [REDIS_TLS] is set
    the client never uses TLS, as it compares a boolean with a text, while
    the queues use it unless it is set to the empty text. *)
Theorem redis_connections url tls : get "REDIS_URL" = Some (SStr url) →
  redis_scheme (strip_comment (units url)) = false →
  get "REDIS_TLS" = SBool <$> tls →
  let address := strip_comment (units url) in
  ∃ o, (redis_client get = Ok (Standalone o) ∨ redis_client get = Ok (Cluster o)) ∧
    (ro_host o, ro_port o) = host_port address ∧
    ro_tls o = match tls with Some _ => false | None => managed_host (ro_host o) end ∧
    queue_connection get parse_url decode_component = Ok {|
      qc_host := address; qc_port := Some 6379; qc_username := None; qc_password := None;
      qc_tls := match tls with Some b => b | None => managed_host address end |}.
Proof.
  intros Hu Hs Ht address. unfold redis_client, queue_connection. rewrite Hu. cbn [default from_option id].
  fold address in Hs |- *. rewrite Hs, Ht. destruct (host_port address) as [host port] eqn:E.
  exists {| ro_host := host; ro_port := port;
            ro_tls := match tls with Some _ => false | None => managed_host host end |}.
  split_and!; [| done | done |].
  - destruct (is_true (get "REDIS_CLUSTER_MODE") || includes (units "clustercfg") address);
      [right | left]; by destruct tls.
  - by destruct tls as [[] |].
Qed.
End connections.

(** From the environment to the connections: [REDIS_TLS] set to any text but
    the empty one, "true" and "false" alike, makes the queues use TLS and the
    services not. *)
Theorem redis_tls_splits `{Z : Zod} `{!ZodLaws Z} `{N : NestConfig} `{!NestConfigLaws N}
    (sm : Secrets) parse_url decode imported e c url v :
  loadConfiguration sm imported e = Ok c → uses_secrets e = false →
  e "REDIS_URL" = Some url → e "REDIS_TLS" = Some v → v ≠ "" →
  redis_scheme (strip_comment (units url)) = false →
  ∃ o q, (redis_client (config_get c e) = Ok (Standalone o) ∨ redis_client (config_get c e) = Ok (Cluster o)) ∧
    queue_connection (config_get c e) parse_url decode = Ok q ∧
    ro_tls o = false ∧ qc_tls q = true.
Proof.
  intros Hc Hu Hurl Hv Hne Hs.
  assert (raw_config sm imported e = Ok (env_source e)) as Hr by (unfold raw_config; by rewrite Hu).
  pose proof (loaded_field sm _ _ _ _ _ Hc Hr (field_at 7 _ eq_refl)) as H1.
  pose proof (loaded_field sm _ _ _ _ _ Hc Hr (field_at 9 _ eq_refl)) as H2.
  cbn in H1, H2. unfold env_source in H1, H2. rewrite Hurl in H1. rewrite Hv in H2.
  injection H1 as H1. injection H2 as H2. destruct v as [|a v]; [done |].
  destruct (redis_connections (config_get c e) parse_url decode url (Some true)) as (o & Ho & _ & Ht & Hq).
  - by rewrite get_loaded, <- H1.
  - done.
  - by rewrite get_loaded, <- H2.
  - by eexists o, _.
Qed.

(** ** Retries and the pool *)

(** The queues retry for ever, at delays that grow to ten seconds. *)
Lemma retry_delay_bounds times : 1 ≤ times → 200 ≤ retry_delay times ≤ 10000.
Proof. unfold retry_delay. lia. Qed.

Lemma retry_delay_mono a b : a ≤ b → retry_delay a ≤ retry_delay b.
Proof. unfold retry_delay. lia. Qed.

(** A database that the environment names, is not local and has no SSL mode
    is connected to with encryption, and its certificate is not verified. *)
Theorem remote_database_unverified e u : e "DATABASE_URL" = Some u →
  includes (units "sslmode=") (units u) = false → local_database (units u) = false →
  ∃ sep, sep ∈ [units "?"; units "&"] ∧
    pool_connectionString (pool_config e) = units u ++ sep ++ units "sslmode=no-verify" ∧
    includes (units "sslmode=no-verify") (pool_connectionString (pool_config e)) = true.
Proof.
  intros Hu Hm Hl. unfold pool_config, connection_string. cbn [pool_connectionString].
  rewrite Hu, Hm, Hl. exists (if includes (units "?") (units u) then units "&" else units "?").
  split; [destruct (includes (units "?") (units u)); set_solver |]. split; [done |].
  rewrite <- (app_nil_r (units "sslmode=no-verify")) at 2. rewrite app_assoc. apply includes_app.
Qed.

(** ** On concrete environments *)

Definition the_number (x : raw) : option Z :=
  match x with
  | RNum n => Some n
  | RStr "" | RBool false | RNull => Some 0
  | RBool true => Some 1
  | RStr s => parseInt s
  | ROther => None
  end.

#[export] Instance the_checks : ZodChecks := {| z_number := the_number; z_url := String.prefix "http" |}.

Definition failing (sch : list field) (src : string → option raw) : list field :=
  List.filter (λ f, bool_decide (parse_field f (src (f_name f)) = None)) sch.

Definition parsed (sch : list field) (src : string → option raw) (k : string) : option setting :=
  match List.find (λ f, (f_name f =? k)%string) sch with
  | Some f => default None (parse_field f (src (f_name f)))
  | None => None
  end.

#[export] Instance the_zod : Zod := {|
  z_safeParse sch src :=
    match failing sch src with
    | [] => inr (parsed sch src)
    | fs => inl ((λ f, (f_name f, "Invalid input")) <$> fs)
    end |}.

Lemma find_by_name sch f : NoDup (f_name <$> sch) → f ∈ sch →
  List.find (λ g, (f_name g =? f_name f)%string) sch = Some f.
Proof.
  induction sch as [|g sch IH]; cbn; [by intros _ ?%elem_of_nil |].
  intros [Hg Hn]%list.NoDup_cons [-> | Hin]%elem_of_cons; [by rewrite String.eqb_refl |].
  destruct (String.eqb_spec (f_name g) (f_name f)) as [E |]; [| auto].
  exfalso. apply Hg. rewrite E. by apply list_elem_of_fmap_2.
Qed.

#[export] Instance the_zod_laws : ZodLaws the_zod.
Proof.
  split.
  - intros sch src c Hnd. cbn. destruct (failing sch src) as [|g fs] eqn:E; [| done].
    intros [= <-]. unfold parsed. split.
    + intros f Hf. rewrite (find_by_name _ f) by done.
      destruct (parse_field f (src (f_name f))) eqn:Ef; [done |].
      assert (f ∈ failing sch src) as Hin.
      { unfold failing. apply list_elem_of_In, filter_In. split; [by apply list_elem_of_In |].
        by apply bool_decide_eq_true. }
      by rewrite E, elem_of_nil in Hin.
    + intros k Hk. destruct (List.find _ sch) as [f |] eqn:Ef; [| done].
      apply find_some in Ef as [Hf Hn%String.eqb_eq]. exfalso. apply Hk.
      rewrite <- Hn. apply list_elem_of_fmap_2. by apply list_elem_of_In.
  - intros sch src is'. cbn. destruct (failing sch src) as [|g fs] eqn:E; [done |].
    intros [= <-]. split; [done |]. exists g.
    assert (g ∈ failing sch src) as Hin by (rewrite E; set_solver).
    unfold failing in Hin. apply list_elem_of_In, filter_In in Hin as [? ?%bool_decide_eq_true].
    by rewrite list_elem_of_In.
Qed.

#[export] Instance the_config : NestConfig := {|
  config_get c e k := match c k with Some v => Some v | None => SStr <$> e k end |}.
#[export] Instance the_config_laws : NestConfigLaws the_config.
Proof. by split. Qed.

Definition env_of (l : list (string * string)) (k : string) : option string :=
  snd <$> List.find (λ x, (x.1 =? k)%string) l.

(** A secrets manager with one secret, a database. *)
Definition the_secret : Secrets := {|
  sm_value _ _ := Ok (Some "{...}");
  sm_parse _ := Ok (λ k, if (k =? "DATABASE_URL")%string then Some (RStr "postgres://db") else None) |}.

Definition dev_env : env := env_of [
  ("DATABASE_URL", "postgres://db.example.com/herald"); ("REDIS_URL", "cache.internal:6380 # primary");
  ("REDIS_TLS", "false"); ("ALLOW_LOCAL_WEBHOOKS", "false")].
Definition prod_env : env := env_of [("NODE_ENV", "production"); ("SECRET_ID", "herald/prod")].

Definition config_of (e : env) : string → option setting :=
  match loadConfiguration the_secret e e with Ok c => c | Err _ => λ _, None end.

Lemma loads e : is_ok (loadConfiguration the_secret e e) = true →
  loadConfiguration the_secret e e = Ok (config_of e).
Proof. unfold config_of. by destruct (loadConfiguration the_secret e e). Qed.

Lemma dev_loads : loadConfiguration the_secret dev_env dev_env = Ok (config_of dev_env).
Proof. apply loads. by vm_compute. Qed.
Lemma prod_loads : loadConfiguration the_secret prod_env prod_env = Ok (config_of prod_env).
Proof. apply loads. by vm_compute. Qed.

Lemma configuration_typed_witness :
  well_typed (ZMin 16) (default (SNum 0) (config_of dev_env "WEBHOOK_SIGNING_SECRET")).
Proof.
  exact (proj1 (configuration_typed the_secret dev_env dev_env _ dev_loads) _ (field_at 53 _ eq_refl)).
Defined.

Lemma secrets_never_reach_prisma_witness :
  pool_connectionString (pool_config prod_env) ∈
    [units "undefined?sslmode=no-verify"; units "?sslmode=no-verify"].
Proof.
  exact (proj2 (proj2 (proj2 (proj2 (secrets_never_reach_prisma the_secret prod_env prod_env _ eq_refl prod_loads) eq_refl)))).
Defined.

(** "false" lets webhooks reach local addresses. *)
Lemma flags_on_when_set_witness : is_true (config_of dev_env "ALLOW_LOCAL_WEBHOOKS") = true.
Proof.
  refine (flags_on_when_set the_secret dev_env dev_env _ _ dev_loads eq_refl _). set_solver.
Defined.

Lemma redis_tls_splits_witness : ∃ o q,
  (redis_client (config_get (config_of dev_env) dev_env) = Ok (Standalone o) ∨
   redis_client (config_get (config_of dev_env) dev_env) = Ok (Cluster o)) ∧
  queue_connection (config_get (config_of dev_env) dev_env) (λ _, Err (JsError "" None)) (λ t, Ok t) = Ok q ∧
  ro_tls o = false ∧ qc_tls q = true.
Proof.
  refine (redis_tls_splits the_secret _ _ _ _ _ _ _ dev_loads eq_refl eq_refl eq_refl _ _); by vm_compute.
Defined.

Lemma redis_connections_witness :
  queue_connection (config_get (config_of dev_env) dev_env) (λ _, Err (JsError "" None)) (λ t, Ok t) = Ok {|
    qc_host := units "cache.internal:6380"; qc_port := Some 6379; qc_username := None;
    qc_password := None; qc_tls := true |}.
Proof.
  destruct (redis_connections (config_get (config_of dev_env) dev_env) (λ _, Err (JsError "" None)) (λ t, Ok t)
    "cache.internal:6380 # primary" (Some true)) as (o & _ & _ & _ & H); [by vm_compute .. | exact H].
Defined.

Lemma remote_database_unverified_witness :
  includes (units "sslmode=no-verify") (pool_connectionString (pool_config dev_env)) = true.
Proof.
  destruct (remote_database_unverified dev_env _ eq_refl eq_refl eq_refl) as (sep & _ & _ & H). exact H.
Defined.

(** A production environment without secrets of its own runs on the ones in
    the source. *)
Example default_secrets : let c := config_of (env_of [("NODE_ENV", "production"); ("DATABASE_URL", "x")]) in
  c "WEBHOOK_SIGNING_SECRET" = Some (SStr "development-webhook-secret-32chars!!") ∧
  c "UNSUBSCRIBE_JWT_SECRET" = Some (SStr "development-unsub-jwt-secret-32!!").
Proof. by vm_compute. Qed.

(** The word in the name of a database turns SSL off. *)
Example local_by_name :
  pool_ssl (pool_config (env_of [("DATABASE_URL", "postgres://db.example.com/localhost_copy")])) = SslOff ∧
  pool_ssl (pool_config (env_of [("DATABASE_URL", "postgres://db.example.com/herald")])) = SslUnverified.
Proof. by vm_compute. Qed.

Example strict_modes_replaced :
  connection_string (env_of [("DATABASE_URL", "postgres://db/h?sslmode=verify-full&x=1")]) =
    units "postgres://db/h?sslmode=no-verify&x=1" ∧
  connection_string (env_of [("DATABASE_URL", "postgres://db/h?sslmode=disable")]) =
    units "postgres://db/h?sslmode=disable".
Proof. by vm_compute. Qed.
