(* ===== verification/Mail.v ===== *)
(** * Mail providers

    [src/modules/mail]: [MailService], which chooses a provider by
    [MAIL_PROVIDER], and the providers SES (with the BIMI selector of the
    sender's domain), Resend and SMTP.  What [Channels] hands to the network
    as a [MailEnvelope] is the message given to [MailService.send]; here it
    becomes the payload of the provider's SDK.  nodemailer, the AWS client and
    the Resend client are the network and parameters. *)

From Stdlib Require Import Ascii String.
From S2P Require Import Prelude Schema External Memory Frame Text Rx Markdown Bot.

Open Scope string_scope.
Open Scope list_scope.
Open Scope Z_scope.

(** ** Messages *)

Record SendEmailMessage := {
  em_to : string;
  em_from : string;
  em_replyTo : option string;
  em_subject : string;
  em_html : text;
  em_text : text;
  em_headers : option (gmap string string);
  em_protocolId : option string;
}.

Record SendEmailResult := { er_messageId : string; er_provider : string }.

Inductive provider := Smtp | Ses | Resend.
#[export] Instance provider_eq_dec : EqDecision provider.
Proof. solve_decision. Defined.

Definition provider_name (p : provider) : string :=
  match p with Smtp => "smtp" | Ses => "ses" | Resend => "resend" end.

(** The [switch] of [MailService]. *)
Definition provider_of (setting : string) : provider :=
  if (setting =? "ses")%string then Ses
  else if (setting =? "resend")%string then Resend else Smtp.

Definition payload (p : provider) (m : SendEmailMessage) (headers : gmap string string) : MailPayload := {|
  mp_provider := provider_name p; mp_to := em_to m; mp_from := em_from m;
  mp_replyTo := em_replyTo m; mp_subject := em_subject m;
  mp_html := em_html m; mp_text := em_text m; mp_headers := headers |}.

(** ** The domain of the sender *)

(** [/<([^>]+)>|([^\s]+@[^\s]+)/] *)
Definition nonspaces : rx := rplus true (RChar (λ x, negb (space_unit x))).
Definition SENDER : rx := RAlt
  (rseq [rlit "<"; RGroup 1 (rplus true (RChar (none_of [62%N]))); rlit ">"])
  (RGroup 2 (rseq [nonspaces; rlit "@"; nonspaces])).

Definition AT_SIGN : N := 64.

(** [emailMatch ? emailMatch[1] || emailMatch[2] : from] *)
Definition sender_address (from : text) : text :=
  match search SENDER from with
  | Some (_, cs) =>
      match capture 1 cs with
      | Some (x :: a) => x :: a
      | _ => default [] (capture 2 cs)
      end
  | None => from
  end.

(** [email.split('@')[1]] *)
Definition sender_domain (from : string) : option string :=
  of_units <$> split_on AT_SIGN (sender_address (units from)) !! 1%nat.

Definition heraldDomains : list string := ["useherald.xyz"; "herald.xyz"; "sandbox.useherald.xyz"].

(** ** Providers *)

Record MailConfig := {
  ml_provider : string;                              (** MAIL_PROVIDER *)
  ml_configurationSet : option string;               (** SES_CONFIGURATION_SET *)
  ml_resendKey : option string;                      (** RESEND_API_KEY *)
  (** nodemailer composes the message, and gives it an id. *)
  ml_compose : MailPayload → result string;
  (** [result.MessageId] of the answer of SES; [error] and [data] of Resend's. *)
  ml_sesMessageId : receipt → option string;
  ml_resendAnswer : receipt → option string * option string;
}.

Section mail.
Context `{B : Backend} (cfg : MailConfig).

Definition verified_bimi (domain : string) (protocolId : option string) : where_ MBimiRecord := λ _ r,
  bool_decide (bm_domain r = domain) && bm_is_verified r &&
  match protocolId with
  | None | Some "" => true
  | Some p => bool_decide (bm_protocol_id r = p)
  end.

(** The selector of the sender's domain. *)
Definition lookup_bimi (from : string) (protocolId : option string) : M World (option string) :=
  match sender_domain from with
  | None | Some "" => mret None
  | Some domain =>
      bimi ← find_first MBimiRecord (verified_bimi domain protocolId) None;
      mret (match bimi with
            | Some r => Some (bm_selector r)
            | None => if bool_decide (domain ∈ heraldDomains) then Some "herald" else None
            end)
  end.

Definition getBimiConfig (from : string) (protocolId : option string) : M World (option string) :=
  swallow None (lookup_bimi from protocolId).

Definition CONFIG_SET_HEADER : string := "X-SES-CONFIGURATION-SET".
Definition BIMI_HEADER : string := "BIMI-Selector".

(** A header whose value is the default one, or empty, is not set. *)
Definition bimi_header (selector : option string) (h : gmap string string) : gmap string string :=
  match selector with
  | None | Some "" => h
  | Some s => if (s =? "default")%string then h else <[BIMI_HEADER := "v=BIMI1; s=" +:+ s +:+ ";"]> h
  end.
Definition config_header (h : gmap string string) : gmap string string :=
  match ml_configurationSet cfg with
  | None | Some "" => h
  | Some c => <[CONFIG_SET_HEADER := c]> h
  end.

Definition ses_send (m : SendEmailMessage) : M World SendEmailResult :=
  bimiConfig ← getBimiConfig (em_from m) (em_protocolId m);
  let headers := bimi_header bimiConfig (config_header (default ∅ (em_headers m))) in
  let p := payload Ses m headers in
  composed ← lift (ml_compose cfg p);
  r ← send (ProviderEnvelope p);
  mret {| er_messageId := default composed (ml_sesMessageId cfg r); er_provider := "ses" |}.

(** [if (message.replyTo)]: an empty address is left out. *)
Definition given_reply (m : SendEmailMessage) : option string :=
  match em_replyTo m with Some "" => None | r => r end.

Definition resend_send (m : SendEmailMessage) : M World SendEmailResult :=
  if truthy (ml_resendKey cfg) then
    let p := (payload Resend m (default ∅ (em_headers m))) <| mp_replyTo := given_reply m |> in
    r ← send (ProviderEnvelope p);
    match ml_resendAnswer cfg r with
    | (None, Some id) => mret {| er_messageId := id; er_provider := "resend" |}
    | (error, _) => raise (JsError ("Resend send failed: " +:+ default "unknown error" error) None)
    end
  else raise (JsError "Cannot send via Resend: RESEND_API_KEY is not configured" None).

Definition smtp_send (m : SendEmailMessage) : M World SendEmailResult :=
  r ← send (ProviderEnvelope (payload Smtp m (default ∅ (em_headers m))));
  mret {| er_messageId := rc_messageId r; er_provider := "smtp" |}.

Definition provider_send (p : provider) : SendEmailMessage → M World SendEmailResult :=
  match p with Smtp => smtp_send | Ses => ses_send | Resend => resend_send end.

(** [MailService.send] *)
Definition mail_send (m : SendEmailMessage) : M World SendEmailResult :=
  provider_send (provider_of (ml_provider cfg)) m.

(** [verifyConnection], of what the provider answers: a quota, the list of
    domains (its [error] and whether [data] is there), a greeting. *)
Definition verify_connection (answer : result (bool * bool)) : bool :=
  match provider_of (ml_provider cfg) with
  | Resend =>
      truthy (ml_resendKey cfg) &&
      match answer with Ok (error, data) => negb error && data | Err _ => false end
  | _ => is_ok answer
  end.
End mail.

(** The message [ChannelDispatchService.deliverEmail] makes of what it shows
    of a mail in [Channels]. *)
Definition dispatched (to from subject : string) (html plain : text)
    (unsubscribeUrl notificationId protocolName timestamp : string) : SendEmailMessage := {|
  em_to := to; em_from := from; em_replyTo := Some "support@useherald.xyz";
  em_subject := subject; em_html := html; em_text := plain;
  em_headers := Some (list_to_map [
    ("X-Herald-Protocol", protocolName); ("X-Herald-Notification-Id", notificationId);
    ("X-Herald-Timestamp", timestamp); ("List-Unsubscribe", "<" +:+ unsubscribeUrl +:+ ">");
    ("List-Unsubscribe-Post", "List-Unsubscribe=One-Click"); ("Precedence", "bulk");
    ("X-Auto-Response-Suppress", "OOF"); ("Auto-Submitted", "auto-generated")]);
  em_protocolId := None |}.

(** ** What is sent *)

(** The payload shows the message, with some headers. *)
Record carries (p : provider) (m : SendEmailMessage) (pl : MailPayload) : Prop := {
  ca_provider : mp_provider pl = provider_name p;
  ca_to : mp_to pl = em_to m;
  ca_from : mp_from pl = em_from m;
  ca_replyTo : truthy (em_replyTo m) = true → mp_replyTo pl = em_replyTo m;
  ca_subject : mp_subject pl = em_subject m;
  ca_html : mp_html pl = em_html m;
  ca_text : mp_text pl = em_text m;
}.

(** A selector that may be announced for a sender: that of a verified record
    for its domain (of the protocol, if the message names one), or Herald's
    own for Herald's domains. *)
Definition selector_for (t : Tables) (m : SendEmailMessage) (s : string) : Prop :=
  ∃ d, sender_domain (em_from m) = Some d ∧
    ((s = "herald" ∧ d ∈ heraldDomains) ∨
     ∃ k r, t MBimiRecord !! k = Some r ∧ bm_domain r = d ∧ bm_is_verified r = true ∧
       bm_selector r = s ∧
       ∀ p, em_protocolId m = Some p → p ≠ "" → bm_protocol_id r = p).

(** The headers of a payload: the message's own, but for the two that SES
    may be given. *)
Definition headers_for (cfg : MailConfig) (t : Tables) (p : provider) (m : SendEmailMessage)
    (h : gmap string string) : Prop :=
  let own := default ∅ (em_headers m) in
  (p ≠ Ses → h = own) ∧
  (∀ k, k ≠ BIMI_HEADER → k ≠ CONFIG_SET_HEADER → h !! k = own !! k) ∧
  (h !! CONFIG_SET_HEADER = own !! CONFIG_SET_HEADER ∨
   h !! CONFIG_SET_HEADER = ml_configurationSet cfg) ∧
  (h !! BIMI_HEADER = own !! BIMI_HEADER ∨
   ∃ s, h !! BIMI_HEADER = Some ("v=BIMI1; s=" +:+ s +:+ ";") ∧ selector_for t m s).

Section mail_proofs.
Context `{B : Backend} `{BL : !BackendLaws B} (cfg : MailConfig).

Lemma payload_carries p m h : carries p m (payload p m h).
Proof. by split. Qed.

Lemma given_reply_carries m h :
  carries Resend m ((payload Resend m h) <| mp_replyTo := given_reply m |>).
Proof. split; try done. cbn. unfold given_reply. by destruct (em_replyTo m) as [[] |]. Qed.

Lemma verified_bimi_spec d p k r : verified_bimi d p k r = true →
  bm_domain r = d ∧ bm_is_verified r = true ∧ ∀ p', p = Some p' → p' ≠ "" → bm_protocol_id r = p'.
Proof.
  unfold verified_bimi. intros [[Hd Hv]%andb_prop Hp]%andb_prop. split_and!; [by apply bool_decide_eq_true in Hd | done |].
  intros p' -> Hne. destruct p'; [done |]. by apply bool_decide_eq_true in Hp.
Qed.

(** The lookup writes nothing, and what it answers is a selector of the
    sender. *)
Lemma getBimiConfig_spec m w : wp (getBimiConfig (em_from m) (em_protocolId m))
  (λ r w', view w' = view w ∧
     ∃ o, r = Ok o ∧ ∀ s, o = Some s → selector_for (v_tables (view w)) m s) w.
Proof.
  unfold getBimiConfig, lookup_bimi. apply wp_swallow.
  destruct (sender_domain (em_from m)) as [[|x d] |] eqn:Hd; [by apply wp_ret; split; [| exists None] | | by apply wp_ret; split; [| exists None]].
  apply wp_bind. apply (wp_find_first MBimiRecord); [intros o w1 Hf Hv; apply wp_ret | by intros e w1 Hv; split; [| exists None]].
  split; [done |]. eexists; split; [done |]. destruct o as [r |]; cbn in Hf.
  - intros s [= <-]. destruct Hf as (k & Hk & (? & ? & ?)%verified_bimi_spec).
    exists (String x d). split; [done |]. right. exists k, r. by split_and!.
  - case_bool_decide; [| done]. intros s [= <-]. exists (String x d). eauto.
Qed.

Lemma config_header_spec h k : config_header cfg h !! k = h !! k ∨
  (k = CONFIG_SET_HEADER ∧ config_header cfg h !! k = ml_configurationSet cfg).
Proof.
  unfold config_header. destruct (ml_configurationSet cfg) as [[|a c] |]; [by left | | by left].
  destruct (decide (k = CONFIG_SET_HEADER)) as [-> | Hne].
  - right. by rewrite lookup_insert_eq.
  - left. by rewrite lookup_insert_ne.
Qed.

Lemma bimi_header_spec o h k : bimi_header o h !! k = h !! k ∨
  (k = BIMI_HEADER ∧ ∃ s, o = Some s ∧ bimi_header o h !! k = Some ("v=BIMI1; s=" +:+ s +:+ ";")).
Proof.
  unfold bimi_header. destruct o as [[|a s] |]; [by left | | by left].
  destruct (String a s =? "default")%string; [by left |].
  destruct (decide (k = BIMI_HEADER)) as [-> | Hne].
  - right. split; [done |]. exists (String a s). by rewrite lookup_insert_eq.
  - left. by rewrite lookup_insert_ne.
Qed.

Lemma ses_headers t m o : (∀ s, o = Some s → selector_for t m s) →
  headers_for cfg t Ses m (bimi_header o (config_header cfg (default ∅ (em_headers m)))).
Proof.
  intros Ho. set (own := default ∅ (em_headers m)).
  assert (∀ k, k ≠ BIMI_HEADER → bimi_header o (config_header cfg own) !! k = config_header cfg own !! k) as H1.
  { intros k Hk. by destruct (bimi_header_spec o (config_header cfg own) k) as [| []]. }
  split_and!; [done | | |].
  - intros k Hb Hc. rewrite H1 by done. by destruct (config_header_spec own k) as [| []].
  - rewrite H1 by done. destruct (config_header_spec own CONFIG_SET_HEADER) as [| []]; auto.
  - destruct (bimi_header_spec o (config_header cfg own) BIMI_HEADER) as [Hb | (_ & s & Hs & Hb)].
    + left. rewrite Hb. by destruct (config_header_spec own BIMI_HEADER) as [| []].
    + right. exists s. auto.
Qed.

(** One payload was sent, or none and the method rejects. *)
Ltac sent_once :=
  split;
  [first [by left | by right
         | match goal with H : _ ∨ _ |- _ => destruct H as [H | H]; [right | left]; by rewrite ?H end]
  | by intros ? [= <-]].

(** C22.  Mails.  [MailService.send] hands at most one payload to the provider the
    settings name, exactly one when it returns, and writes nothing else: when
    that provider fails no other one is tried, although the documents speak of
    a fallback from SES to SMTP.  The payload has the message's recipient, sender, subject and contents, and
    its headers, to which only SES adds: the configuration set, and a BIMI
    selector that belongs to the domain read from the sender. *)
Theorem mail_sends_one m w :
  let p := provider_of (ml_provider cfg) in
  wp (mail_send cfg m) (λ r w', ∃ pl, carries p m pl ∧
       headers_for cfg (v_tables (view w)) p m (mp_headers pl) ∧
       (view w' = (view w) <| v_sent ::= λ l, l ++ [ProviderEnvelope pl] |> ∨
        is_ok r = false ∧ view w' = view w) ∧
       ∀ a, r = Ok a → er_provider a = provider_name p) w.
Proof.
  intros p. assert (∀ m, headers_for cfg (v_tables (view w)) Smtp m (default ∅ (em_headers m)) ∧
    headers_for cfg (v_tables (view w)) Resend m (default ∅ (em_headers m))) as Hown.
  { intros m'. split; split_and!; auto. }
  unfold mail_send. fold p. destruct p; cbn [provider_send].
  - unfold smtp_send. wp_go; views; eexists; (split; [apply payload_carries |]);
      (split; [by apply Hown |]); sent_once.
  - unfold ses_send. apply wp_bind. eapply wp_mono; [apply getBimiConfig_spec |].
    intros _ w1 (Hv & o & -> & Ho). apply ses_headers in Ho. apply wp_bind, wp_lift.
    destruct (ml_compose cfg _) as [c | e]; wp_go; views; eexists; (split; [apply payload_carries |]);
      (split; [exact Ho |]); sent_once.
  - unfold resend_send. destruct (truthy (ml_resendKey cfg)).
    + wp_go; [destruct (ml_resendAnswer cfg rc) as [[er |] [i |]]; wp_pure |..]; views.
      all: eexists; (split; [apply given_reply_carries |]); (split; [by apply Hown |]); sent_once.
    + wp_go. eexists; (split; [apply given_reply_carries |]); (split; [by apply Hown |]); sent_once.
Qed.
End mail_proofs.

(** ** On concrete messages *)

Definition ses_config : MailConfig := {|
  ml_provider := "ses"; ml_configurationSet := Some "herald"; ml_resendKey := None;
  ml_compose _ := Ok "<local@herald>"; ml_sesMessageId r := Some (rc_messageId r);
  ml_resendAnswer r := (None, Some (rc_messageId r)) |}.

Definition victim_bimi : BimiRecord := {|
  bm_id := "b1"; bm_protocol_id := "p1"; bm_domain := "victim.com"; bm_selector := "brand";
  bm_logo_url := []; bm_vmc_url := None; bm_is_verified := true; bm_dmarc_verified := true;
  bm_dns_record_published := true |}.

Definition bimi_sender_world : World := mem_world (with_rows MBimiRecord [victim_bimi] no_tables) ∅.

(** What [deliverEmail] sends for a protocol of the given name. *)
Definition mail_of (protocolName : string) : SendEmailMessage :=
  dispatched "a@b.c" (protocolName +:+ " via Herald <noreply@useherald.xyz>") "s" [] [] "u" "n" protocolName "t".

Definition sent_header (m : SendEmailMessage) : option string :=
  match v_sent (view (mail_send ses_config m bimi_sender_world).2) with
  | [ProviderEnvelope p] => mp_headers p !! BIMI_HEADER
  | _ => None
  end.

(** The dispatch names no protocol, and the first address in the sender is
    the one looked up: a protocol whose name holds an address of another's
    domain sends with that domain's selector. *)
Example selector_borrowed :
  sent_header (mail_of "Acme") = Some "v=BIMI1; s=herald;" ∧
  sent_header (mail_of "Acme <x@victim.com>") = Some "v=BIMI1; s=brand;".
Proof. by vm_compute. Qed.

(** A name with an at sign hides the address behind it. *)
Example domain_of_a_name :
  sender_domain "me@acme via Herald <noreply@useherald.xyz>" = Some "acme" ∧
  sender_domain "Acme via Herald <noreply@useherald.xyz>" = Some "useherald.xyz".
Proof. by vm_compute. Qed.

Lemma mail_sends_one_witness :
  let m := mail_of "Acme" in
  let run := mail_send ses_config m bimi_sender_world in
  ∃ pl, carries Ses m pl ∧
    headers_for ses_config (v_tables (view bimi_sender_world)) Ses m (mp_headers pl) ∧
    view run.2 = (view bimi_sender_world) <| v_sent ::= λ l, l ++ [ProviderEnvelope pl] |>.
Proof.
  intros m run. assert (is_ok run.1 = true) as Hok by (vm_compute; reflexivity).
  destruct (wp_at _ _ bimi_sender_world _ (mail_sends_one ses_config m bimi_sender_world) eq_refl)
    as (pl & Hc & Hh & Hsent & _).
  fold run in Hsent. exists pl. split_and!; [exact Hc | exact Hh |].
  destruct Hsent as [Hsent | [Hbad _]]; [exact Hsent | by rewrite Hok in Hbad].
Defined.
