(* ===== verification/Http.v ===== *)
(** * What every request passes through

    The exceptions and the global filter of [src/common/exceptions], the
    interceptors that [src/main.ts] installs ([LoggingInterceptor],
    [TimeoutInterceptor], [ResponseTimeInterceptor]), the pipes, pages and the
    decryption of stored fields of [src/common], and the status pages of
    [src/modules/health] and [src/modules/status]. *)

From Stdlib Require Import Ascii String.
From S2P Require Import Prelude Schema Text Hex WebhookApi.

Open Scope string_scope.
Open Scope list_scope.
Open Scope Z_scope.

(** ** What is thrown *)

(** [getResponse()] of an [HttpException]: a text, or an object with the
    fields the filter reads. *)
Inductive message_field := NoMessage | OneMessage (s : string) | Messages (l : list string).
Inductive response_body :=
| ResText (s : string)
| ResObject (error : option string) (message : message_field).

Inductive thrown :=
| HeraldException (errorCode message : string) (status : Z)
| HttpException (status : Z) (res : response_body) (message : string)
| ErrorObject (message : string)        (** [instanceof Error] *)
| OtherValue.

Definition WalletNotRegisteredException : thrown :=
  HeraldException "WALLET_NOT_REGISTERED" "No Herald identity found for this wallet" 404.
Definition RateLimitExceededException (retryAfter : Z) : thrown :=
  HeraldException "RATE_LIMIT_EXCEEDED"
    ("Rate limit exceeded. Retry after " +:+ pretty.pretty retryAfter +:+ "s") 429.
Definition RoutingUnavailableException : thrown :=
  HeraldException "ROUTING_UNAVAILABLE" "Email routing service temporarily unavailable" 503.
Definition RegistryUnavailableException : thrown :=
  HeraldException "REGISTRY_UNAVAILABLE" "Solana registry temporarily unavailable" 503.
Definition RequestTimeout : thrown :=
  HttpException 408 (ResObject (Some "Request Timeout") (OneMessage "Request timed out")) "Request timed out".

(** ** The filter *)

Record ErrorBody := {
  eb_error : string;
  eb_message : string;
  eb_statusCode : Z;
  eb_correlationId : option string;
  eb_details : option (list string);       (** [details.validation] *)
}.

Definition http_message (res : response_body) (message : string) : string :=
  match res with
  | ResText s => s
  | ResObject _ NoMessage => message
  | ResObject _ (OneMessage s) => s
  | ResObject _ (Messages l) => String.concat ", " l
  end.

Definition http_error (res : response_body) : string :=
  match res with ResObject (Some e) _ => e | _ => "HTTP_ERROR" end.

Definition validation_details (res : response_body) : option (list string) :=
  match res with ResObject _ (Messages ((_ :: _) as l)) => Some l | _ => None end.

Definition error_message (production : bool) (e : thrown) : string :=
  match e with
  | HeraldException _ message _ => message
  | HttpException _ res message => http_message res message
  | ErrorObject message => if production then "An unexpected error occurred" else message
  | OtherValue => if production then "An unexpected error occurred" else "Unknown error"
  end.

Definition error_status (e : thrown) : Z :=
  match e with HeraldException _ _ s | HttpException s _ _ => s | _ => 500 end.

Definition error_code (e : thrown) : string :=
  match e with
  | HeraldException c _ _ => c
  | HttpException _ res _ => http_error res
  | _ => "INTERNAL_ERROR"
  end.

(** [HeraldExceptionFilter.catch]: the status and the body. *)
Definition catch_exception (production : bool) (correlationId : option string) (e : thrown) : Z * ErrorBody :=
  (error_status e, {|
     eb_error := error_code e;
     eb_message := error_message production e;
     eb_statusCode := error_status e;
     eb_correlationId := if truthy correlationId then correlationId else None;
     eb_details := match e with HttpException _ res _ => validation_details res | _ => None end |}).

(** ** The interceptors *)

Record Request := {
  rq_method : string;
  rq_url : string;
  rq_correlation : option string;        (** header [x-correlation-id] *)
  rq_userAgent : option string;
}.

(** What the handler (with its pipes) comes to, and after how long; [None]
    when it never settles. *)
Inductive settled (A : Type) := Answers (a : A) | Throws (e : thrown).
Arguments Answers {A} a.
Arguments Throws {A} e.

Definition run (A : Type) : Type := option (settled A * Z).

Record LogLine := {
  ll_correlationId : string;
  ll_method : string;
  ll_url : string;
  ll_duration : Z;
  ll_userAgent : option string;          (** cut to 100 characters *)
  ll_error : option string;
}.

Record Reply (A : Type) := {
  rp_status : Z;
  rp_body : A + ErrorBody;
  rp_correlationId : option string;      (** header [X-Correlation-Id] *)
  rp_responseTime : option Z;            (** header [X-Response-Time] *)
  rp_log : list LogLine;
}.
Arguments rp_status {A}. Arguments rp_body {A}. Arguments rp_correlationId {A}.
Arguments rp_responseTime {A}. Arguments rp_log {A}.

(** [timeout(ms)], with its error turned into 408; the handler goes on. *)
Definition with_timeout {A} (timeoutMs : Z) (h : run A) : settled A * Z :=
  match h with
  | Some (r, t) => if t <? timeoutMs then (r, t) else (Throws RequestTimeout, timeoutMs)
  | None => (Throws RequestTimeout, timeoutMs)
  end.

(** [err.message] *)
Definition thrown_message (e : thrown) : option string :=
  match e with
  | HeraldException _ m _ | HttpException _ _ m | ErrorObject m => Some m
  | OtherValue => None
  end.

Section pipeline.
Context {A : Type} (production : bool) (timeoutMs : Z).

(** [request.headers['x-correlation-id'] ?? ulid()] *)
Definition correlation (fresh : string) (rq : Request) : string := default fresh (rq_correlation rq).

Definition log_line (rq : Request) (correlationId : string) (duration : Z) (thrown : option thrown) : LogLine := {|
  ll_correlationId := correlationId; ll_method := rq_method rq; ll_url := rq_url rq;
  ll_duration := duration;
  ll_userAgent := match thrown with
                  | None => substring 0 100 <$> rq_userAgent rq
                  | Some _ => None
                  end;
  ll_error := thrown ≫= thrown_message |}.

(** A request: the guards come before the interceptors ([refused] is what
    they throw), the interceptors around the handler, the filter last. *)
Definition respond (refused : option thrown) (fresh : string) (status : Z) (rq : Request) (h : run A) : Reply A :=
  match refused with
  | Some e =>
      let '(s, b) := catch_exception production None e in
      {| rp_status := s; rp_body := inr b; rp_correlationId := None; rp_responseTime := None; rp_log := [] |}
  | None =>
      let c := correlation fresh rq in
      match with_timeout timeoutMs h with
      | (Answers a, t) =>
          {| rp_status := status; rp_body := inl a; rp_correlationId := Some c;
             rp_responseTime := Some t; rp_log := [log_line rq c t None] |}
      | (Throws e, t) =>
          let '(s, b) := catch_exception production (Some c) e in
          {| rp_status := s; rp_body := inr b; rp_correlationId := Some c; rp_responseTime := None;
             rp_log := [log_line rq c t (Some e)] |}
      end
  end.
End pipeline.

(** ** Pipes *)

Definition CROCKFORD : string := "0123456789ABCDEFGHJKMNPQRSTVWXYZ".

Definition upper (c : ascii) : ascii :=
  let x := N_of_ascii c in if (97 <=? x)%N && (x <=? 122)%N then ascii_of_N (x - 32) else c.

(** [[0-9A-HJKMNP-TV-Z]] under the [i] flag. *)
Definition ulid_char (c : ascii) : bool :=
  let x := N_of_ascii (upper c) in
  ((48 <=? x) && (x <=? 57) || (65 <=? x) && (x <=? 72) || (x =? 74) || (x =? 75) || (x =? 77) ||
   (x =? 78) || (80 <=? x) && (x <=? 84) || (86 <=? x) && (x <=? 90))%N.

(** [/^[0-9A-HJKMNP-TV-Z]{26}$/i.test(value)] *)
Definition is_ulid (value : string) : bool :=
  (String.length value =? 26)%nat && forallb ulid_char (list_ascii_of_string value).

Definition bad_value (what value : string) : thrown :=
  let quote := String (ascii_of_nat 34) EmptyString in
  let m := "Invalid " +:+ what +:+ ": " +:+ quote +:+ substring 0 10 value +:+ "..." +:+ quote in
  HttpException 400 (ResObject (Some "VALIDATION_ERROR") (OneMessage m)) m.

Definition ulid_transform (value : string) : thrown + string :=
  if is_ulid value then inr value else inl (bad_value "ULID" value).

(** [SolanaPubkeyPipe]: [new PublicKey(value)] and back to base58. *)
Definition pubkey_transform (reencode : string → result string) (value : string) : thrown + string :=
  match reencode value with
  | Ok s => if (s =? value)%string then inr value else inl (bad_value "Solana public key" value)
  | Err _ => inl (bad_value "Solana public key" value)
  end.

(** ** Pages *)

Record Pagination := { pg_page : Z; pg_limit : Z }.

(** [IsInt], [Min] and [Max] of [PaginationDto]. *)
Definition valid_page (p : Pagination) : bool :=
  (1 <=? pg_page p) && (1 <=? pg_limit p) && (pg_limit p <=? 100).

Definition offset (p : Pagination) : Z := (pg_page p - 1) * pg_limit p.

Record PaginatedResponse (A : Type) := {
  pr_data : list A; pr_total : Z; pr_page : Z; pr_limit : Z; pr_totalPages : Z }.
Arguments pr_data {A}. Arguments pr_total {A}. Arguments pr_totalPages {A}.

Definition paginated {A} (data : list A) (total : Z) (p : Pagination) : PaginatedResponse A := {|
  pr_data := data; pr_total := total; pr_page := pg_page p; pr_limit := pg_limit p;
  pr_totalPages := ceil_div total (pg_limit p) |}.

(** [OFFSET] and [LIMIT] over the rows in order. *)
Definition page_of {A} (rows : list A) (p : Pagination) : PaginatedResponse A :=
  paginated (take (Z.to_nat (pg_limit p)) (drop (Z.to_nat (offset p)) rows)) (Z.of_nat (length rows)) p.

(** ** Stored fields *)

(** [decryptAes256Gcm]: 12 bytes, a tag of 16, and the ciphertext. *)
Definition decryptAes256Gcm `{G : Gcm} (encrypted : bytes) (keyHex : string) : result string :=
  gcm_open (from_hex keyHex) (take 12 encrypted) (drop 28 encrypted) (take 16 (drop 12 encrypted)).

(** ** Status pages *)

Inductive service_state := ServiceOk | ServiceError.
#[export] Instance service_state_eq_dec : EqDecision service_state.
Proof. solve_decision. Defined.

Inductive overall := Operational | Degraded | MajorOutage.

(** [GET /health]: the services and the status it answers, with HTTP 200. *)
Definition health_services (db : result ()) (ping : result string) : list (string * service_state) := [
  ("database", if is_ok db then ServiceOk else ServiceError);
  ("redis", match ping with
            | Ok pong => if (pong =? "PONG")%string then ServiceOk else ServiceError
            | Err _ => ServiceError
            end);
  ("solana", ServiceOk);
  ("smtp", ServiceOk)].

Definition all_ok (l : list (string * service_state)) : bool := forallb (λ s, bool_decide (s.2 = ServiceOk)) l.
Definition any_error (l : list (string * service_state)) : bool := existsb (λ s, bool_decide (s.2 = ServiceError)) l.

Record Health := { he_http : Z; he_status : string; he_services : list (string * service_state) }.

Definition health_check (db : result ()) (ping : result string) : Health :=
  let services := health_services db ping in {|
  he_http := 200;
  he_status := if all_ok services then "ok" else if any_error services then "degraded" else "ok";
  he_services := services |}.

(** [GET /status] *)
Definition status_services (db : result ()) (ping : result string) : list (string * service_state) := [
  ("database", if is_ok db then ServiceOk else ServiceError);
  ("redis", if is_ok ping then ServiceOk else ServiceError);
  ("email", ServiceOk);
  ("webhooks", ServiceOk)].

Definition state_of (name : string) (l : list (string * service_state)) : option service_state :=
  snd <$> List.find (λ s, (s.1 =? name)%string) l.

Definition system_status (db : result ()) (ping : result string) : overall :=
  let services := status_services db ping in
  if bool_decide (state_of "database" services = Some ServiceError) ||
     bool_decide (state_of "redis" services = Some ServiceError) then MajorOutage
  else if any_error services then Degraded else Operational.

(** ** Errors, answered *)

(** The error answer of a request is told apart from what caused it only by
    what the filter puts in it. *)
Definition internal (e : thrown) : bool :=
  match e with ErrorObject _ | OtherValue => true | _ => false end.

(** In production every error that is not an HTTP exception is answered in
    the same way, whatever it says. *)
Theorem internal_errors_hidden c e e' : internal e = true → internal e' = true →
  catch_exception true c e = catch_exception true c e'.
Proof. by destruct e, e'. Qed.

(** A request. What a guard refuses is answered without a correlation id and
    without a line in the log; any other request is answered within the
    timeout, logged once under the correlation id of its answer, and when it
    fails its body repeats the status, and the id unless the client sent an
    empty one.  The handler's answer is passed on exactly when it comes in
    time; a handler that comes too late, or never, is answered with 408, and
    only answers that succeed carry their response time. *)
Theorem request_answered {A} production timeoutMs refused fresh status rq (h : run A) : 0 < timeoutMs →
  let r := respond production timeoutMs refused fresh status rq h in
  (∀ b, rp_body r = inr b → eb_statusCode b = rp_status r) ∧
  match refused with
  | Some e => rp_log r = [] ∧ rp_correlationId r = None ∧ rp_status r = error_status e ∧
      ∃ b, rp_body r = inr b ∧ eb_correlationId b = None ∧ eb_error b = error_code e
  | None =>
      let c := correlation fresh rq in
      rp_correlationId r = Some c ∧
      (∃ l, rp_log r = [l] ∧ ll_correlationId l = c ∧ ll_url l = rq_url rq ∧ ll_duration l ≤ timeoutMs) ∧
      (∀ b, rp_body r = inr b → c ≠ "" → eb_correlationId b = Some c) ∧
      match h with
      | Some (Answers a, t) =>
          if t <? timeoutMs then rp_body r = inl a ∧ rp_status r = status ∧ rp_responseTime r = Some t
          else rp_status r = 408 ∧ rp_responseTime r = None
      | Some (Throws e, t) =>
          rp_responseTime r = None ∧
          rp_status r = if t <? timeoutMs then error_status e else 408
      | None => rp_status r = 408 ∧ rp_responseTime r = None
      end
  end.
Proof.
  intros Ht r. subst r. unfold respond.
  assert (∀ c, c ≠ "" → (if truthy (Some c) then Some c else None) = Some c) as Hc.
  { by intros [|x c]. }
  destruct refused as [e |]; [split; [by intros b [= <-] | eauto 10] |].
  destruct h as [[[a | e] t] |]; cbn [with_timeout]; [destruct (t <? timeoutMs) eqn:Et; [apply Z.ltb_lt in Et |] .. |];
    cbn; (split; [by intros b [= <-] | split; [done |]]); (split; [eexists; split; [done | by cbn; split_and!; lia || done] |]);
    (split; [first [done | intros b [= <-]; apply Hc] |]); done.
Qed.

(** ** Pipes, pages and fields *)

Lemma ulid_char_spec c : ulid_char c = true ↔ upper c ∈ list_ascii_of_string CROCKFORD.
Proof.
  enough (ulid_char c = bool_decide (upper c ∈ list_ascii_of_string CROCKFORD)) as ->.
  { apply bool_decide_eq_true. }
  assert (Forall (λ n, ulid_char (ascii_of_nat n) =
    bool_decide (upper (ascii_of_nat n) ∈ list_ascii_of_string CROCKFORD)) (seq 0 256)) as H.
  { apply (bool_decide_unpack _). by vm_compute. }
  rewrite <- (ascii_nat_embedding c). apply (proj1 (list.Forall_forall _ _) H).
  apply list_elem_of_In, in_seq. pose proof (nat_ascii_bounded c). lia.
Qed.

(** A ULID is let through as it is: 26 characters of Crockford's alphabet, in
    either case; anything else is refused with 400. *)
Theorem ulid_exact v : match ulid_transform v with
  | inr v' => v' = v ∧ String.length v = 26%nat ∧
      Forall (λ c, upper c ∈ list_ascii_of_string CROCKFORD) (list_ascii_of_string v)
  | inl e => error_status e = 400 ∧ ¬ (String.length v = 26%nat ∧
      Forall (λ c, upper c ∈ list_ascii_of_string CROCKFORD) (list_ascii_of_string v))
  end.
Proof.
  assert (is_ulid v = true ↔ String.length v = 26%nat ∧
    Forall (λ c, upper c ∈ list_ascii_of_string CROCKFORD) (list_ascii_of_string v)) as H.
  { unfold is_ulid. rewrite andb_true_iff, Nat.eqb_eq. f_equiv.
    rewrite forallb_forall, list.Forall_forall.
    split; intros Hf c Hc; [apply ulid_char_spec, Hf | apply ulid_char_spec, Hf]; by apply list_elem_of_In. }
  unfold ulid_transform. destruct (is_ulid v); [split; [done | by apply H] |].
  split; [done |]. intros ?%H. done.
Qed.

(** A public key that is let through is the one base58 text of its bytes. *)
Lemma pubkey_canonical reencode v v' : pubkey_transform reencode v = inr v' →
  v' = v ∧ reencode v = Ok v.
Proof.
  unfold pubkey_transform. destruct (reencode v) as [s |]; [| done].
  destruct (String.eqb_spec s v) as [-> |]; [by intros [= <-] | done].
Qed.

Lemma offset_next p : offset (p <| pg_page ::= Z.succ |>) = offset p + pg_limit p.
Proof. unfold offset. cbn. lia. Qed.

Lemma pages_upto {A} (rows : list A) limit (n : nat) : 1 ≤ limit →
  concat ((λ i, pr_data (page_of rows {| pg_page := Z.of_nat i + 1; pg_limit := limit |})) <$> seq 0 n) =
  take (n * Z.to_nat limit) rows.
Proof.
  intros Hl. induction n as [|n IH]; [done |].
  rewrite seq_S, fmap_app, concat_app, IH. cbn [fmap list_fmap concat].
  rewrite app_nil_r. unfold page_of, offset. cbn.
  replace (Z.to_nat ((Z.of_nat n + 1 - 1) * limit)) with (n * Z.to_nat limit)%nat by lia.
  rewrite Nat.add_comm. rewrite <- (take_drop (n * Z.to_nat limit) rows) at 3.
  destruct (le_lt_dec (n * Z.to_nat limit) (length rows)) as [Hle | Hlt].
  - rewrite take_app, length_take, Nat.min_l by done.
    rewrite (take_ge (take _ _)) by (rewrite length_take; lia).
    f_equal. f_equal. lia.
  - rewrite drop_ge, take_nil, !app_nil_r by lia. rewrite !take_ge; rewrite ?length_take; [done | lia..].
Qed.

(** Paging: with a valid limit, the pages from the first to [totalPages], in
    order, hold every row once; no page has more rows than the limit, and the
    pages after them are empty. *)
Theorem pages_partition {A} (rows : list A) limit : 1 ≤ limit ≤ 100 →
  let page i := page_of rows {| pg_page := i; pg_limit := limit |} in
  let total := pr_totalPages (page 1) in
  concat ((λ i, pr_data (page (Z.of_nat i + 1))) <$> seq 0 (Z.to_nat total)) = rows ∧
  ∀ i, 1 ≤ i → Z.of_nat (length (pr_data (page i))) ≤ limit ∧ (total < i → pr_data (page i) = []).
Proof.
  intros Hl page total. pose proof (ceil_div_bounds (Z.of_nat (length rows)) limit ltac:(lia)) as Hb.
  change (ceil_div (Z.of_nat (length rows)) limit) with total in Hb.
  pose proof (ceil_div_nonneg (Z.of_nat (length rows)) limit ltac:(lia) ltac:(lia)) as H0.
  change (ceil_div (Z.of_nat (length rows)) limit) with total in H0. split.
  - subst page. cbn beta. rewrite pages_upto by lia. apply take_ge. nia.
  - intros i Hi. split.
    + subst page. cbn. rewrite length_take. lia.
    + intros Ht. subst page. cbn. unfold offset. cbn. rewrite drop_ge, take_nil; [done |]. nia.
Qed.

(** A field that was sealed as 12 bytes of nonce, the tag and the ciphertext
    is decrypted to what was sealed. *)
Theorem field_roundtrip `{G : Gcm} `{!GcmLaws G} key iv s : is_bytes key → length iv = 12%nat →
  decryptAes256Gcm (iv ++ (gcm_seal key iv s).2 ++ (gcm_seal key iv s).1) (to_hex key) = Ok s.
Proof.
  intros Hk Hiv. unfold decryptAes256Gcm. rewrite from_to_hex by done.
  destruct (gcm_sizes key iv s) as [_ Ht].
  assert (drop 12 (iv ++ (gcm_seal key iv s).2 ++ (gcm_seal key iv s).1) =
    (gcm_seal key iv s).2 ++ (gcm_seal key iv s).1) as -> by by apply drop_app_length'.
  rewrite !take_app_length' by done.
  rewrite app_assoc, drop_app_length' by (rewrite length_app; lia). apply gcm_opens.
Qed.

(** ** Status pages *)

(** The two pages. [GET /health] answers 200 whatever it finds, "ok" exactly
    when the database answers and Redis answers PONG, and never looks at
    Solana or SMTP; [GET /status] reports an outage when the database or Redis
    does not answer, and is never "degraded". *)
Theorem status_pages db ping :
  he_http (health_check db ping) = 200 ∧
  (he_status (health_check db ping) = "ok" ↔ is_ok db = true ∧ ping = Ok "PONG") ∧
  (he_status (health_check db ping) = "ok" ∨ he_status (health_check db ping) = "degraded") ∧
  (system_status db ping = Operational ↔ is_ok db = true ∧ is_ok ping = true) ∧
  system_status db ping ≠ Degraded.
Proof.
  destruct db as [[] |], ping as [pong |]; cbn;
    [destruct (String.eqb_spec pong "PONG") as [-> |] | | destruct (String.eqb_spec pong "PONG") as [-> |] |];
    cbn; naive_solver.
Qed.

(** ** On concrete requests *)

Definition a_request : Request := {|
  rq_method := "POST"; rq_url := "/v1/notify?key=secret"; rq_correlation := Some "abc"; rq_userAgent := None |}.

(** A guard's refusal has no correlation id, though the client sent one; the
    handler's refusal of the same request has. *)
Example correlation_of_refusals :
  let e := HeraldException "UNAUTHORIZED" "no" 401 in
  rp_correlationId (respond (A:=()) true 30000 (Some e) "u" 201 a_request None) = None ∧
  rp_correlationId (respond (A:=()) true 30000 None "u" 201 a_request (Some (Throws e, 5))) = Some "abc".
Proof. by vm_compute. Qed.

(** The log holds the whole URL, with what its query holds. *)
Example url_is_logged :
  ll_url <$> rp_log (respond (A:=()) true 30000 None "u" 201 a_request (Some (Answers (), 5))) =
    ["/v1/notify?key=secret"].
Proof. by vm_compute. Qed.

(** A handler that takes 31 seconds is answered with 408, also when it has
    done its work. *)
Lemma request_answered_witness :
  rp_status (respond (A:=()) true 30000 None "u" 201 a_request (Some (Answers (), 31000))) = 408.
Proof.
  pose proof (request_answered true 30000 None "u" 201 a_request (Some (Answers (), 31000)) ltac:(lia)) as H.
  cbn zeta in H. destruct H as (_ & _ & _ & _ & H). exact (proj1 H).
Defined.

Lemma pages_partition_witness :
  concat ((λ i, pr_data (page_of [1; 2; 3; 4; 5] {| pg_page := Z.of_nat i + 1; pg_limit := 2 |})) <$> seq 0 3) =
    [1; 2; 3; 4; 5].
Proof. exact (proj1 (pages_partition [1; 2; 3; 4; 5] 2 ltac:(lia))). Defined.
