(* ===== verification/Chain.v ===== *)
(** * The Solana registry, the clusters and Arweave

    [SolanaService] of [src/solana/solana.service.ts] on top of the circuit
    breaker of [Rpc], the cluster detection of
    [src/modules/receipt/light-client.service.ts], the settings of the devnet
    in [src/modules/routing/sandbox-routing.service.ts], the authority of
    [src/modules/billing/onchain/renewal.service.ts] and
    [src/storage/arweave-storage.service.ts].  The SDKs (Herald's, Solana's,
    Irys's) are parameters. *)

From Stdlib Require Import Ascii String.
From S2P Require Import Prelude Schema Rpc Text Template.

Open Scope string_scope.
Open Scope list_scope.
Open Scope Z_scope.

(** ** The registry *)

(** An identity as Herald's SDK reads it; what may be missing in accounts of
    older versions is an option. *)
Record SdkIdentity := {
  sdk_owner : string;
  sdk_encryptedEmail : list N;
  sdk_emailHash : list N;
  sdk_nonce : list N;
  sdk_registeredAt : Z;
  sdk_optInAll : bool;
  sdk_optInDefi : bool;
  sdk_optInGovernance : bool;
  sdk_optInMarketing : bool;
  sdk_digestMode : option bool;
  sdk_channelEmail : option bool;
  sdk_channelTelegram : option bool;
  sdk_channelSms : option bool;
  sdk_encryptedTelegramId : option (list N);
  sdk_telegramIdHash : option (list N);
  sdk_nonceTelegram : option (list N);
  sdk_encryptedPhone : option (list N);
  sdk_phoneHash : option (list N);
  sdk_nonceSms : option (list N);
  sdk_senderX25519Pubkey : option (list N);
}.

Definition identity_of (i : SdkIdentity) : IdentityAccount := {|
  ia_owner := sdk_owner i;
  ia_encryptedEmail := sdk_encryptedEmail i;
  ia_emailHash := sdk_emailHash i;
  ia_nonce := sdk_nonce i;
  ia_registeredAt := sdk_registeredAt i;
  ia_optInAll := sdk_optInAll i;
  ia_optInDefi := sdk_optInDefi i;
  ia_optInGovernance := sdk_optInGovernance i;
  ia_optInMarketing := sdk_optInMarketing i;
  ia_digestMode := default false (sdk_digestMode i);
  ia_channelEmail := default true (sdk_channelEmail i);
  ia_channelTelegram := default false (sdk_channelTelegram i);
  ia_channelSms := default false (sdk_channelSms i);
  ia_encryptedTelegramId := default [] (sdk_encryptedTelegramId i);
  ia_telegramIdHash := default [] (sdk_telegramIdHash i);
  ia_nonceTelegram := default [] (sdk_nonceTelegram i);
  ia_encryptedPhone := default [] (sdk_encryptedPhone i);
  ia_phoneHash := default [] (sdk_phoneHash i);
  ia_nonceSms := default [] (sdk_nonceSms i);
  ia_senderX25519Pubkey := Some (Bytes (default [] (sdk_senderX25519Pubkey i))) |}.

(** The service: the endpoint its [ReadClient] was made with, and the RPC
    manager it shares with the rest of the gateway. *)
Record Solana := { so_readUrl : string; so_rpc : RpcManager }.

Definition RegistryUnavailable : exn := HttpError 503 "REGISTRY_UNAVAILABLE".

(** What the libraries do: [new PublicKey], the read client of an endpoint,
    [getProgramAccounts] of an endpoint, the base58 text of a key, and
    [sendAndConfirmTransaction] with the blockhash it needs. *)
Record SolanaSdk := {
  sk_pubkey : string → result string;
  sk_read : string → string → Z → result (option SdkIdentity);
  sk_accounts : string → Z → result (list (list N));
  sk_base58 : list N → result string;
  sk_send : string → string → string → Z → result string;     (** endpoint, instruction, signer *)
  sk_findPda : string → string → result string;                (** key, program *)
}.

Section solana.
Context (cfg : RpcConfig) (sdk : SolanaSdk).

(** The constructor, with a new RPC manager. *)
Definition solana_init : Solana := {| so_readUrl := activeConnection (rpc_init cfg); so_rpc := rpc_init cfg |}.

Definition on_rpc {A} (f : RpcManager → A * RpcManager) : M Solana A := λ s,
  let '(a, m) := f (so_rpc s) in (Ok a, s <| so_rpc := m |>).

Definition connection (now : Z) : M Solana string := on_rpc (getConnection cfg now).
Definition record_success : M Solana () := on_rpc (λ m, ((), recordSuccess m)).
Definition record_failure (now : Z) : M Solana () := on_rpc (λ m, ((), recordFailure cfg now m)).

(** The read goes to the endpoint of the client. *)
Definition read_identity (key : string) (now : Z) : M Solana (option SdkIdentity) := λ s,
  (sk_read sdk (so_readUrl s) key now, s).

Definition fetchIdentityAccount (wallet : string) (now : Z) : M Solana (option IdentityAccount) :=
  catch (
    key ← lift (sk_pubkey sdk wallet);
    identity ← read_identity key now;
    _ ← record_success;
    mret (identity_of <$> identity))
  (λ _, _ ← record_failure now; raise RegistryUnavailable).

(** The owners of all accounts; the first text that fails rejects. *)
Fixpoint owners (l : list (list N)) : result (list string) :=
  match l with
  | [] => Ok []
  | d :: l' =>
      match sk_base58 sdk d, owners l' with
      | Ok o, Ok os => Ok (o :: os)
      | Err e, _ | _, Err e => Err e
      end
  end.

Definition fetchAllIdentities (now : Z) : M Solana (list string) :=
  catch (
    url ← connection now;
    accounts ← lift (sk_accounts sdk url now);
    _ ← record_success;
    lift (owners accounts))
  (λ _, _ ← record_failure now; raise RegistryUnavailable).

Definition sendAndConfirm (instruction signer : string) (now : Z) : M Solana string :=
  url ← connection now;
  lift (sk_send sdk url instruction signer now).

Definition DEFAULT_PROGRAM : string := "2pxjAf8tLCakKVDuN4vY51B5TeaEQk4koPuk9NZvWqdf".

Definition deriveIdentityPda (programId : option string) (wallet : string) : result string :=
  match sk_pubkey sdk (default DEFAULT_PROGRAM programId), sk_pubkey sdk wallet with
  | Ok p, Ok k => sk_findPda sdk k p
  | Err e, _ | _, Err e => Err e
  end.

(** *** The registry of the devnet

    [SandboxRoutingService] of [src/modules/routing/sandbox-routing.service.ts];
    what it resolves with its client is in [Sandbox]. *)

(** SOLANA_DEVNET_RPC_URL, HERALD_DEVNET_PROGRAM_ID and HERALD_PROGRAM_ID. *)
Record DevnetSettings := { dn_rpcUrl : option string; dn_devnetProgram : option string; dn_program : option string }.

Definition devnet_url (s : DevnetSettings) : string := default "https://api.devnet.solana.com" (dn_rpcUrl s).
Definition devnet_program (s : DevnetSettings) : option string :=
  match dn_devnetProgram s with Some p => Some p | None => dn_program s end.

(** The endpoint and the program of the client; [new] constructs it. *)
Definition initDevnetClient (new : string → string → result ()) (s : DevnetSettings) : option (string * string) :=
  let programId := default "" (devnet_program s) in
  if negb (truthy (devnet_program s)) then None else
  match new (devnet_url s) programId with Ok _ => Some (devnet_url s, programId) | Err _ => None end.

Record SandboxRoutingConfig := { sx_useDevnet : bool; sx_rpcUrl : string; sx_addTestPrefix : bool }.

Definition getSandboxConfig (client : option (string * string)) (s : DevnetSettings) : SandboxRoutingConfig :=
  {| sx_useDevnet := bool_decide (client ≠ None); sx_rpcUrl := devnet_url s; sx_addTestPrefix := true |}.

Definition deriveDevnetPda (s : DevnetSettings) (wallet : string) : option string :=
  if negb (truthy (devnet_program s)) then None else
  match sk_pubkey sdk wallet, sk_pubkey sdk (default "" (devnet_program s)) with
  | Ok k, Ok p => match sk_findPda sdk k p with Ok pda => Some pda | Err _ => None end
  | _, _ => None
  end.

(** A run of the service, and of the others that use the RPC manager. *)
Inductive solana_call :=
| CFetch (wallet : string) (now : Z)
| CFetchAll (now : Z)
| CSend (instruction signer : string) (now : Z)
| CRpc (c : rpc_call).

Definition solana_run1 (s : Solana) (c : solana_call) : Solana :=
  match c with
  | CFetch wallet now => (fetchIdentityAccount wallet now s).2
  | CFetchAll now => (fetchAllIdentities now s).2
  | CSend i k now => (sendAndConfirm i k now s).2
  | CRpc c => s <| so_rpc ::= λ m, rpc_run1 cfg m c |>
  end.

Definition solana_run (l : list solana_call) : Solana := foldl solana_run1 solana_init l.
End solana.

(** ** Clusters *)

Inductive cluster := Local | Devnet | Mainnet.

Definition GENESIS_LOCAL : string := "4uhcVJyU9pJkvQyS88uRDiswHXSCkY3zQawwpjk2NsNY".
Definition GENESIS_DEVNET : string := "EtWTRABZaYq6iMfeYKouRu166VU2xqa1wcg9N2iv2Dr7".
Definition GENESIS_MAINNET : string := "5eykt4UsFv8P8NJdTREpY1vzqKqZKvdpKuc147dw2N9d".

(** [a || b] *)
Definition or_else (a : option string) (b : string) : string :=
  match a with None | Some "" => b | Some s => s end.

Definition solana_url (setting : option string) : string := or_else setting "http://localhost:8899".
Definition photon_url (setting light : option string) : string := or_else light (solana_url setting).

(** [getClusterType], of what [getGenesisHash] answers. *)
Definition getClusterType (url : string) (genesis : result string) : cluster :=
  match genesis with
  | Ok g =>
      if (g =? GENESIS_LOCAL)%string then Local
      else if (g =? GENESIS_DEVNET)%string then Devnet
      else if (g =? GENESIS_MAINNET)%string then Mainnet
      else Devnet
  | Err _ =>
      if includes (units "localhost") (units url) || includes (units "127.0.0.1") (units url) then Local
      else if includes (units "devnet") (units url) then Devnet
      else Mainnet
  end.

(** ** The authority of renewals *)

Inductive authority_key := FileKey (secret : string) | RandomKey.

(** [getAuthorityKeypair]: [read] is the key in a file, if it can be read. *)
Definition getAuthorityKeypair (nodeEnv devPath kmsKeyId : option string) (read : string → result string) :
    authority_key :=
  let isDev := bool_decide (nodeEnv ≠ Some "production") in
  if isDev && truthy devPath then
    match read (default "" devPath) with Ok secret => FileKey secret | Err _ => RandomKey end
  else if truthy kmsKeyId then RandomKey else RandomKey.

Definition renewal_cluster (nodeEnv : option string) : string :=
  if bool_decide (nodeEnv = Some "production") then "mainnet-beta" else "devnet".

(** *** What the authority signs *)

Inductive authority_op := RenewSubscription | ResetProtocolSends | DeactivateProtocol.

(** Herald's [AuthorityClient], for an endpoint and a cluster: the instruction
    for an authority and the owner of a protocol; and the public key of a
    pair. *)
Record AuthoritySdk := {
  as_public : authority_key → string;
  as_instruction : authority_op → string → string → string → string → result string;
}.

Record RenewalConfig := {
  rw_nodeEnv : option string;
  rw_devPath : option string;
  rw_kmsKeyId : option string;
  rw_rpcUrl : option string;            (** [SOLANA_RPC_URL] *)
  rw_readKey : string → result string;
}.

Section renewal.
Context (cfg : RpcConfig) (sdk : SolanaSdk) (asdk : AuthoritySdk) (rc : RenewalConfig).

Definition authority : authority_key :=
  getAuthorityKeypair (rw_nodeEnv rc) (rw_devPath rc) (rw_kmsKeyId rc) (rw_readKey rc).

(** [config.getOrThrow('SOLANA_RPC_URL')] *)
Definition authority_url : result string :=
  match rw_rpcUrl rc with
  | Some url => Ok url
  | None => Err (JsError "Configuration key SOLANA_RPC_URL does not exist" None)
  end.

(** The end of all three methods. *)
Definition sign_and_send (op : authority_op) (url owner : string) (now : Z) : M Solana string :=
  ix ← lift (as_instruction asdk op url (renewal_cluster (rw_nodeEnv rc)) (as_public asdk authority) owner);
  sendAndConfirm cfg sdk ix (as_public asdk authority) now.

(** Of a key that has been read already. *)
Definition renewSubscription (protocolOwner : string) (now : Z) : M Solana string :=
  url ← lift authority_url; sign_and_send RenewSubscription url protocolOwner now.

Definition resetProtocolSends (protocolPubkey : string) (now : Z) : M Solana string :=
  url ← lift authority_url; owner ← lift (sk_pubkey sdk protocolPubkey);
  sign_and_send ResetProtocolSends url owner now.

Definition deactivateProtocol (protocolPubkey : string) (now : Z) : M Solana string :=
  url ← lift authority_url; owner ← lift (sk_pubkey sdk protocolPubkey);
  sign_and_send DeactivateProtocol url owner now.
End renewal.

(** *** Proofs for receipts *)

(** [getValidityProof]: what the SDK answers, after a warning when it
    rejects. *)
Definition getValidityProof {P : Type} (fetchProof : list N → list N → result P)
    (notificationId recipientHash : list N) : result P * bool :=
  match fetchProof notificationId recipientHash with
  | Ok p => (Ok p, false)
  | Err e => (Err e, true)
  end.

(** ** Arweave *)

Record NotificationPayload := {
  np_protocolId : string; np_recipientHash : string; np_channel : string; np_subject : string;
  np_body : string; np_timestamp : Z;
}.

Record StorageReceipt := {
  sr_arweaveId : string; sr_arweaveUrl : string; sr_timestamp : Z; sr_size : Z }.

(** Irys: the price of a size, the loaded balance, funding, and an upload,
    which has no answer within 30 seconds when it is [None]. *)
Record Irys := {
  iy_price : Z → result Z;
  iy_balance : result Z;
  iy_fund : Z → result ();
  iy_upload : text → list (string * string) → option (result string);
}.

Definition storage_tags (p : NotificationPayload) : list (string * string) := [
  ("Content-Type", "application/json"); ("App-Name", "herald-protocol");
  ("Protocol-Id", np_protocolId p); ("Channel", np_channel p);
  ("Recipient-Hash", np_recipientHash p); ("Unix-Timestamp", pretty.pretty (np_timestamp p));
  ("Version", "1")].

(** [ensureFunded]: what is funded, if anything. *)
Definition ensureFunded (irys : Irys) (dataSize : Z) : result (option Z) :=
  match iy_price irys dataSize, iy_balance irys with
  | Ok cost, Ok balance =>
      if balance <? cost then
        match iy_fund irys cost with Ok _ => Ok (Some cost) | Err e => Err e end
      else Ok None
  | Err e, _ | _, Err e => Err e
  end.

(** [Buffer.from(JSON.stringify(payload))] is a parameter. *)
Definition storeNotificationPayload (irys : option Irys) (encode : NotificationPayload → text)
    (p : NotificationPayload) : result StorageReceipt :=
  match irys with
  | None => Err (JsError "Arweave storage is not configured (ARWEAVE_PAYER_SECRET missing)." None)
  | Some irys =>
      let data := encode p in
      match ensureFunded irys (len data) with
      | Err e => Err e
      | Ok _ =>
          match iy_upload irys data (storage_tags p) with
          | None => Err (JsError "Arweave upload timed out after 30s" None)
          | Some (Err e) => Err e
          | Some (Ok id) => Ok {|
              sr_arweaveId := id; sr_arweaveUrl := "https://arweave.net/" +:+ id;
              sr_timestamp := np_timestamp p; sr_size := len data |}
          end
      end
  end.

(** The settings of the client of Irys. *)
Record IrysSettings := { is_network : string; is_token : string; is_key : list N; is_providerUrl : string }.

Section irys.
(** [bs58.decode], the client's constructor, and [ready]. *)
Context (bs58_decode : string → result (list N)) (new_irys : IrysSettings → result Irys)
  (ready : Irys → result ()).

(** [onModuleInit], of the three settings it reads. *)
Definition init_storage (secretB58 network heliusUrl : option string) : result (option Irys) :=
  if negb (truthy secretB58) then Ok None else
  match bs58_decode (default "" secretB58) with
  | Err e => Err e
  | Ok key =>
      match new_irys {| is_network := default "devnet" network; is_token := "solana"; is_key := key;
                        is_providerUrl := default "https://api.devnet.solana.com" heliusUrl |} with
      | Err e => Err e
      | Ok irys => match ready irys with Ok _ => Ok (Some irys) | Err e => Err e end
      end
  end.
End irys.

Definition isEnabled (irys : option Irys) : bool := bool_decide (is_Some irys).

(** [fromAtomic] gives the text of an amount. *)
Definition getBalance (fromAtomic : Z → string) (irys : option Irys) : result string :=
  match irys with
  | None => Ok "0"
  | Some irys => match iy_balance irys with Ok b => Ok (fromAtomic b) | Err e => Err e end
  end.

(** An answer over HTTP: whether its status is good, the text of the status,
    and its body as JSON. *)
Definition fetchNotificationBody {P : Type} (get : string → result (bool * string * result P)) (arweaveId : string) :
    result P :=
  match get ("https://arweave.net/" +:+ arweaveId) with
  | Err e => Err e
  | Ok (true, _, body) => body
  | Ok (false, statusText, _) => Err (JsError ("Arweave fetch failed: " +:+ statusText) None)
  end.

(** ** Reads and the circuit breaker *)

Section solana_proofs.
Context (cfg : RpcConfig) (sdk : SolanaSdk).

Notation fetch := (fetchIdentityAccount cfg sdk).

Lemma fetch_keeps wallet now s : so_readUrl (fetch wallet now s).2 = so_readUrl s.
Proof.
  unfold fetchIdentityAccount, catch, read_identity, record_success, record_failure, on_rpc, lift, raise, mbind,
    M_bind, mret, M_ret.
  destruct (sk_pubkey sdk wallet) as [key |]; [| done]. by destruct (sk_read sdk (so_readUrl s) key now).
Qed.

Lemma fetch_all_keeps now s : so_readUrl (fetchAllIdentities cfg sdk now s).2 = so_readUrl s.
Proof.
  unfold fetchAllIdentities, catch, connection, record_success, record_failure, on_rpc, lift, raise, mbind, M_bind.
  destruct (getConnection cfg now (so_rpc s)) as [url m]. destruct (sk_accounts sdk url now) as [l |]; [| done].
  cbn. by destruct (owners sdk l).
Qed.

Lemma send_keeps i k now s : so_readUrl (sendAndConfirm cfg sdk i k now s).2 = so_readUrl s.
Proof.
  unfold sendAndConfirm, connection, on_rpc, lift, mbind, M_bind.
  by destruct (getConnection cfg now (so_rpc s)).
Qed.

Lemma run_from l s : so_readUrl (foldl (solana_run1 cfg sdk) s l) = so_readUrl s.
Proof.
  revert s. induction l as [|c l IH]; intros s; [done |]. cbn. rewrite IH.
  destruct c; [apply fetch_keeps | apply fetch_all_keeps | apply send_keeps | done].
Qed.

Lemma run_url l : so_readUrl (solana_run cfg sdk l) = primaryUrl cfg.
Proof. unfold solana_run. by rewrite run_from. Qed.

(** One read, in full. *)
Lemma fetch_spec wallet now s : fetch wallet now s =
  match sk_pubkey sdk wallet with
  | Ok key =>
      match sk_read sdk (so_readUrl s) key now with
      | Ok i => (Ok (identity_of <$> i), s <| so_rpc ::= recordSuccess |>)
      | Err _ => (Err RegistryUnavailable, s <| so_rpc ::= recordFailure cfg now |>)
      end
  | Err _ => (Err RegistryUnavailable, s <| so_rpc ::= recordFailure cfg now |>)
  end.
Proof.
  unfold fetchIdentityAccount, catch, read_identity, record_success, record_failure, on_rpc, lift, raise, mbind,
    M_bind, mret, M_ret.
  destruct (sk_pubkey sdk wallet) as [key |]; [| done]. by destruct (sk_read sdk (so_readUrl s) key now).
Qed.

(** Reads of identities never fail over.  After any run of the service and of
    the others that share its RPC manager, an identity is what the primary
    endpoint answers, with the channels of older accounts on for email and
    off for the rest; and when the primary rejects, the answer is 503, also
    while the breaker is open and everything else uses the fallback. *)
Theorem identity_from_primary l wallet now :
  let s := solana_run cfg sdk l in
  let answer := match sk_pubkey sdk wallet with
                | Ok key => sk_read sdk (primaryUrl cfg) key now
                | Err e => Err e
                end in
  (fetch wallet now s).1 =
    match answer with Ok i => Ok (identity_of <$> i) | Err _ => Err RegistryUnavailable end ∧
  so_rpc (fetch wallet now s).2 =
    match answer with Ok _ => recordSuccess (so_rpc s) | Err _ => recordFailure cfg now (so_rpc s) end.
Proof.
  intros s answer. rewrite fetch_spec. subst s answer. rewrite run_url.
  destruct (sk_pubkey sdk wallet) as [key |]; [| done]. by destruct (sk_read sdk (primaryUrl cfg) key now).
Qed.

Lemma fetches_fail (calls : list (string * Z)) s :
  Forall (λ c, is_ok (sk_pubkey sdk c.1) = false) calls →
  so_rpc (foldl (solana_run1 cfg sdk) s ((λ c, CFetch c.1 c.2) <$> calls)) =
    failures cfg calls.*2 (so_rpc s).
Proof.
  revert s. induction calls as [|[w t] calls IH]; intros s; [done |].
  intros [Hw H]%list.Forall_cons. cbn [fmap list_fmap foldl solana_run1 fst snd] in *. rewrite IH by done.
  rewrite fetch_spec. by destruct (sk_pubkey sdk w).
Qed.

(** An address that is not a public key counts as a failure of the endpoint:
    six of them, from any callers, switch the gateway to the fallback,
    although no endpoint was asked anything. *)
Theorem bad_addresses_trip_breaker fb (calls : list (string * Z)) : fallbackUrl cfg = Some fb → fb ≠ "" →
  length calls = 6%nat → Forall (λ c, is_ok (sk_pubkey sdk c.1) = false) calls →
  let s := solana_run cfg sdk ((λ c, CFetch c.1 c.2) <$> calls) in
  circuitBreakerOpen (so_rpc s) = true ∧ activeConnection (so_rpc s) = fb.
Proof.
  intros Hfb Hne Hlen Hbad. cbn zeta. unfold solana_run. rewrite fetches_fail by done.
  assert (truthy (fallbackUrl cfg) = true) as Ht by (apply truthy_Some; eauto).
  change (so_rpc (solana_init cfg)) with (rpc_init cfg).
  destruct calls as [|c1 [|c2 [|c3 [|c4 [|c5 [|c6 [|]]]]]]]; try discriminate Hlen. clear Hlen.
  destruct (failures_below cfg [c1.2; c2.2; c3.2; c4.2; c5.2] (rpc_init cfg)) as (Hc & Ho & _); [cbn; lia |].
  change (failures cfg [c1; c2; c3; c4; c5; c6].*2 (rpc_init cfg)) with
    (recordFailure cfg c6.2 (failures cfg [c1.2; c2.2; c3.2; c4.2; c5.2] (rpc_init cfg))).
  set (five := failures cfg [c1.2; c2.2; c3.2; c4.2; c5.2] (rpc_init cfg)) in *.
  cbn in Hc. unfold recordFailure. cbn. by rewrite Ht, Hc, Hfb.
Qed.

Lemma owners_spec l : match owners sdk l with
  | Ok os => Forall2 (λ d o, sk_base58 sdk d = Ok o) l os
  | Err _ => ∃ d, d ∈ l ∧ is_ok (sk_base58 sdk d) = false
  end.
Proof.
  induction l as [|d l IH]; cbn; [constructor |].
  destruct (sk_base58 sdk d) as [o |] eqn:E; [| exists d; rewrite E; set_solver].
  destruct (owners sdk l) as [os |]; [by constructor |]. destruct IH as (d' & ? & ?). set_solver.
Qed.
End solana_proofs.

(** ** Clusters, keys and storage *)

(** The cluster is named by the genesis hash when there is an answer, an
    unknown chain being devnet, and otherwise guessed from the URL. *)
Theorem cluster_detected url genesis :
  (getClusterType url genesis = Mainnet ↔
     genesis = Ok GENESIS_MAINNET ∨
     is_ok genesis = false ∧ includes (units "localhost") (units url) = false ∧
     includes (units "127.0.0.1") (units url) = false ∧ includes (units "devnet") (units url) = false) ∧
  (∀ g, genesis = Ok g → g ∉ [GENESIS_LOCAL; GENESIS_DEVNET; GENESIS_MAINNET] →
     getClusterType url genesis = Devnet).
Proof.
  assert (∀ g, Ok g = Ok GENESIS_MAINNET ∨ is_ok (Ok g) = false ∧ includes (units "localhost") (units url) = false ∧
     includes (units "127.0.0.1") (units url) = false ∧ includes (units "devnet") (units url) = false ↔
     g = GENESIS_MAINNET) as Hg.
  { intros g. split; [by intros [[= ->] | []] | intros ->; by left]. }
  assert (∀ g, g = GENESIS_LOCAL ∨ g = GENESIS_DEVNET → g ≠ GENESIS_MAINNET) as Hne by by intros g [-> | ->].
  unfold getClusterType. destruct genesis as [g | e].
  - rewrite Hg. split; [| intros g' [= <-]; rewrite !not_elem_of_cons; intros (?%String.eqb_neq & ?%String.eqb_neq & ?%String.eqb_neq & _)].
    + destruct (String.eqb_spec g GENESIS_LOCAL); [by split; [| intros ?%Hne; auto] |].
      destruct (String.eqb_spec g GENESIS_DEVNET); [by split; [| intros ?%Hne; auto] |].
      by destruct (String.eqb_spec g GENESIS_MAINNET).
    + by repeat match goal with H : String.eqb _ _ = false |- _ => rewrite H; clear H end.
  - split; [| done]. destruct (includes (units "localhost") (units url)); [cbn; intuition congruence |].
    destruct (includes (units "127.0.0.1") (units url)); [cbn; intuition congruence |].
    destruct (includes (units "devnet") (units url)); cbn; intuition congruence.
Qed.

(** In production the authority that renews a subscription on the chain is a
    fresh random key, whatever key is configured. *)
Theorem production_key_random devPath kmsKeyId read :
  getAuthorityKeypair (Some "production") devPath kmsKeyId read = RandomKey.
Proof. unfold getAuthorityKeypair. cbn. by destruct (truthy kmsKeyId). Qed.

(** A payload is stored once storage is configured, the balance covers its
    price (or its price was funded), and the upload answers in time; the
    receipt then has the id of the upload and the payload's own time and
    size. *)
Theorem stored_exactly irys encode p r : storeNotificationPayload irys encode p = Ok r ↔
  ∃ iy cost balance id, irys = Some iy ∧ iy_price iy (len (encode p)) = Ok cost ∧ iy_balance iy = Ok balance ∧
    (cost ≤ balance ∨ iy_fund iy cost = Ok ()) ∧
    iy_upload iy (encode p) (storage_tags p) = Some (Ok id) ∧
    r = {| sr_arweaveId := id; sr_arweaveUrl := "https://arweave.net/" +:+ id;
           sr_timestamp := np_timestamp p; sr_size := len (encode p) |}.
Proof.
  unfold storeNotificationPayload, ensureFunded. split.
  - destruct irys as [iy |]; [| done].
    destruct (iy_price iy _) as [cost |] eqn:Ec; [| done].
    destruct (iy_balance iy) as [balance |] eqn:Eb; [| done].
    destruct (Z.ltb_spec balance cost); [destruct (iy_fund iy cost) as [[] |] eqn:Ef; [| done] |];
      (destruct (iy_upload iy _ _) as [[id |] |] eqn:Eu; [| done..]); intros [= <-];
      exists iy, cost, balance, id; split_and!; auto.
  - intros (iy & cost & balance & id & -> & Hc & Hb & Hf & Hu & ->). rewrite Hc, Hb.
    destruct (Z.ltb_spec balance cost); [destruct Hf as [| ->]; [lia |] |]; by rewrite Hu.
Qed.

(** Storage is enabled exactly when there is a secret; a secret that can not be
    decoded, or a node that does not answer, makes the start of the module
    reject. *)
Theorem storage_enabled decode new ready secret network helius :
  match init_storage decode new ready secret network helius with
  | Ok irys => isEnabled irys = truthy secret
  | Err _ => truthy secret = true ∧
      ∀ key irys, decode (default "" secret) = Ok key →
        new {| is_network := default "devnet" network; is_token := "solana"; is_key := key;
               is_providerUrl := default "https://api.devnet.solana.com" helius |} = Ok irys →
        is_ok (ready irys) = false
  end.
Proof.
  unfold init_storage. destruct (truthy secret); cbn; [| done].
  destruct (decode (default "" secret)) as [key|e]; [| by split].
  destruct (new _) as [irys|e] eqn:En.
  - destruct (ready irys) eqn:Er; [done |]. split; [done |].
    intros key' irys' [= <-] Hn. rewrite En in Hn. injection Hn as <-. by rewrite Er.
  - split; [done |]. intros key' irys' [= <-] Hn. by rewrite En in Hn.
Qed.

(** The address of a wallet on the devnet is the one [deriveIdentityPda] gives
    for the program of the devnet, or for the main program when none is
    configured; a bad key or program, and no program at all, give no address
    where that one rejects or takes a default.  The client exists exactly
    when there is a program and it can be constructed. *)
Theorem devnet_address sdk new s wallet :
  (deriveDevnetPda sdk s wallet = match devnet_program s with
     | Some p => if (p =? "")%string then None else
         match deriveIdentityPda sdk (Some p) wallet with Ok a => Some a | Err _ => None end
     | None => None
     end) ∧
  (sx_useDevnet (getSandboxConfig (initDevnetClient new s) s) = true ↔
     ∃ p, devnet_program s = Some p ∧ p ≠ "" ∧ is_ok (new (devnet_url s) p) = true).
Proof.
  split.
  - unfold deriveDevnetPda, deriveIdentityPda. destruct (devnet_program s) as [[| c p] |]; cbn; try done.
    destruct (sk_pubkey sdk wallet), (sk_pubkey sdk _); cbn; try done.
  - unfold getSandboxConfig, initDevnetClient. cbn. rewrite bool_decide_eq_true.
    destruct (devnet_program s) as [[| c p] |]; cbn.
    + split; [done |]. by intros (? & [= <-] & ? & _).
    + destruct (new _ _) eqn:En; split; try done; [intros _; exists (String c p); by rewrite En |].
      intros (? & [= <-] & _ & H). by rewrite En in H.
    + split; [done |]. by intros (? & ? & _).
Qed.

(** What has been stored is fetched by the address its receipt names. *)
Theorem stored_is_fetched {P} irys encode p r (get : string → result (bool * string * result P)) :
  storeNotificationPayload irys encode p = Ok r →
  fetchNotificationBody get (sr_arweaveId r) =
    match get (sr_arweaveUrl r) with
    | Ok (true, _, body) => body
    | Ok (false, t, _) => Err (JsError ("Arweave fetch failed: " +:+ t) None)
    | Err e => Err e
    end.
Proof. intros (iy & c & b & id & _ & _ & _ & _ & _ & ->)%stored_exactly. done. Qed.

(** Outside of development (and, in development, without a readable file) all
    three instructions are signed by a key that was made for the call; and
    they are sent to the endpoint that the circuit breaker has active, though
    the instruction was made for the configured one. *)
Theorem authority_signs cfg sdk asdk rc op url owner now s :
  let (endpoint, m) := getConnection cfg now (so_rpc s) in
  let cluster := renewal_cluster (rw_nodeEnv rc) in
  (sign_and_send cfg sdk asdk rc op url owner now s).1 =
    match as_instruction asdk op url cluster (as_public asdk (authority rc)) owner with
    | Ok ix => sk_send sdk endpoint ix (as_public asdk (authority rc)) now
    | Err e => Err e
    end ∧
  (authority rc = RandomKey ∨
   rw_nodeEnv rc ≠ Some "production" ∧ ∃ path secret, rw_devPath rc = Some path ∧
     rw_readKey rc path = Ok secret ∧ authority rc = FileKey secret).
Proof.
  destruct (getConnection cfg now (so_rpc s)) as [endpoint m] eqn:Ec. cbn zeta. split.
  - unfold sign_and_send, sendAndConfirm, connection, on_rpc, lift, mbind, M_bind.
    destruct (as_instruction _ _ _ _ _ _); cbn; [| done]. by rewrite Ec.
  - unfold authority, getAuthorityKeypair.
    destruct (bool_decide_reflect (rw_nodeEnv rc ≠ Some "production")) as [Hd | _], (rw_devPath rc) as [path |];
      cbn [andb default from_option truthy]; try (left; by case_match).
    destruct path as [|c path]; [left; by case_match |]. cbn [andb from_option id].
    destruct (rw_readKey rc (String c path)) as [secret|e] eqn:Er; [| by left].
    right. split; [done |]. by exists (String c path), secret.
Qed.

(** ** Witness *)

Definition test_sdk : SolanaSdk := {|
  sk_pubkey s := if (s =? "bad")%string then Err (JsError "Invalid public key input" None) else Ok s;
  sk_read url _ _ := if (url =? "https://b")%string then Ok None else Err (JsError "down" None);
  sk_accounts _ _ := Ok []; sk_base58 _ := Ok ""; sk_send _ _ _ _ := Ok "tx"; sk_findPda k _ := Ok k |}.

Lemma bad_addresses_trip_breaker_witness :
  let s := solana_run rpc_cfg test_sdk (replicate 6 (CFetch "bad" 1)) in
  circuitBreakerOpen (so_rpc s) = true ∧ activeConnection (so_rpc s) = "https://b".
Proof.
  exact (bad_addresses_trip_breaker rpc_cfg test_sdk "https://b" (replicate 6 ("bad", 1)) eq_refl
    (λ H, ltac:(discriminate H)) eq_refl ltac:(repeat constructor)).
Defined.

(** With the primary down, reads fail although the fallback would answer. *)
Example reads_stay_down :
  let s := solana_run rpc_cfg test_sdk (replicate 6 (CFetch "w" 1)) in
  activeConnection (so_rpc s) = "https://b" ∧
  (fetchIdentityAccount rpc_cfg test_sdk "w" 2 s).1 = Err RegistryUnavailable.
Proof. by vm_compute. Qed.
