(* ===== verification/Checkout.v ===== *)
(** * Checkout and the billing pages

    [BillingController] of [src/modules/billing/billing.controller.ts] with
    [HelioService] (helio/helio.service.ts) and the rest of
    [BillingService] (billing.service.ts): checkout links, the payment
    history, plans and usage.  The link itself is made by Helio's SDK, a
    parameter; getting the status, and the link a refused request is given, are
    in [Billing]. *)

From Stdlib Require Import Ascii String.
From stdpp Require Import pretty.
From S2P Require Import Prelude Schema External Memory Frame RateLimit Scheduler Portal Billing.

Open Scope string_scope.
Open Scope list_scope.
Open Scope Z_scope.

(** ** Checkout *)

Record HelioConfig := {
  hc_production : bool;
  hc_template : string → option string;       (** [HELIO_TEMPLATE_*] *)
  hc_successUrl : string;
  hc_cancelUrl : string;
}.

Record CheckoutRequest := {
  cr_tier : string;
  cr_walletAddress : string;
  cr_templateId : option string;
  cr_successUrl : string;
  cr_cancelUrl : string;
  cr_protocolId : string;          (** [metadata.protocol_id] *)
  cr_months : string;              (** [metadata.months] *)
}.

Definition helio_network (cfg : HelioConfig) : string :=
  if hc_production cfg then "mainnet" else "devnet".

(** [getTemplateId] *)
Definition template_id (cfg : HelioConfig) (tier : Z) : option string :=
  if tier =? 1 then hc_template cfg "HELIO_TEMPLATE_GROWTH"
  else if tier =? 2 then hc_template cfg "HELIO_TEMPLATE_SCALE"
  else if tier =? 3 then hc_template cfg "HELIO_TEMPLATE_ENTERPRISE"
  else None.

(** What [createCheckoutUrl] asks of Helio. *)
Definition checkout_request (cfg : HelioConfig) (protocol : Protocol) (tier months : Z) :
    result CheckoutRequest :=
  if tier =? 0 then Err (HttpError 400 "Developer tier is free")
  else
    match herald_tier tier with
    | Err e => Err e
    | Ok heraldTier => Ok {|
        cr_tier := heraldTier; cr_walletAddress := p_protocolPubkey protocol;
        cr_templateId := template_id cfg tier;
        cr_successUrl := hc_successUrl cfg +:+ "?tier=" +:+ pretty tier +:+ "&months=" +:+ pretty months;
        cr_cancelUrl := hc_cancelUrl cfg;
        cr_protocolId := p_id protocol; cr_months := pretty months |}
    end.

(** The digest of a body under the secret, in hexadecimal. *)
Definition parseAndVerifyWebhook (digest : string → string) (rawBody signature : string) : bool :=
  (digest rawBody =? signature)%string.

(** [main.ts] creates the application without [rawBody: true]: the request
    has the parsed body only. *)
Definition request_raw_body (body : string) : option string := None.

Section checkout.
Context `{B : Backend}.
Context (cfg : HelioConfig).
(** [createSubscriptionCheckout]: the URL and the id of the link. *)
Context (create_checkout : CheckoutRequest → result (string * string)).

Definition createCheckout (protocolId : string) (tier : Z) (months : option Z) : M World (string * string) :=
  protocol ← find_unique MProtocol (by_id MProtocol protocolId);
  match protocol with
  | None => raise (JsError "Protocol not found" None)
  | Some p =>
      request ← lift (checkout_request cfg p tier (default 1 months));
      lift (create_checkout request)
  end.

Definition cancelSubscription (protocolId : string) : M World string :=
  _ ← scheduleCancellation protocolId;
  mret "Subscription will cancel at end of current period.".

(** ** Pages *)

(** [page ? parseInt(page, 10) : d]; [None] is NaN. *)
Definition page_number (d : Z) (page : option string) : option Z :=
  if truthy page then parseInt (default "" page) else Some d.

Definition own_payment (protocolId : string) : where_ MPayment := λ _ r,
  bool_decide (pay_protocolId r = protocolId).

Definition newest (r : Payment) : Z := - pay_createdAt r.

Definition prisma_invalid : exn := JsError "Invalid value for argument" (Some "P2009").

(** [PaymentRepository.findByProtocolId]; Prisma takes no negative [skip] and
    no NaN. *)
Definition payments_of (protocolId : string) (skip take : option Z) : M World (list Payment * Z) :=
  match skip, take with
  | Some skip, Some take =>
      if skip <? 0 then raise prisma_invalid else
      rows ← find_many MPayment (own_payment protocolId) (Some newest);
      total ← count MPayment (own_payment protocolId);
      mret (take_rows take (drop (Z.to_nat skip) rows), total)
  | _, _ => raise prisma_invalid
  end.

Record PaymentHistory := {
  ph_payments : list Payment; ph_total : Z; ph_page : option Z; ph_limit : option Z }.

Definition getPaymentHistory (protocolId : string) (page limit : option string) : M World PaymentHistory :=
  let page := page_number 1 page in
  let limit := page_number 50 limit in
  let skip := match page, limit with Some p, Some l => Some ((p - 1) * l) | _, _ => None end in
  r ← payments_of protocolId skip limit;
  mret {| ph_payments := r.1; ph_total := r.2; ph_page := page; ph_limit := limit |}.

Record TierInfo := { ti_tier : Z; ti_name : string; ti_priceUsdc : Z; ti_limit : option Z }.

Definition getAllTierInfo : list TierInfo := [
  {| ti_tier := 0; ti_name := "Developer"; ti_priceUsdc := 0; ti_limit := TIER_SEND_LIMITS 0 |};
  {| ti_tier := 1; ti_name := "Growth"; ti_priceUsdc := 99; ti_limit := TIER_SEND_LIMITS 1 |};
  {| ti_tier := 2; ti_name := "Scale"; ti_priceUsdc := 299; ti_limit := TIER_SEND_LIMITS 2 |};
  {| ti_tier := 3; ti_name := "Enterprise"; ti_priceUsdc := 999; ti_limit := TIER_SEND_LIMITS 3 |}].

Record UsageStats := {
  us_sendsThisPeriod : Z; us_sendsLimit : Z; us_sendsRemaining : Z; us_periodResetAt : Z }.

Definition getUsageStats (protocolId : string) (now : Z) : M World UsageStats :=
  status ← getStatus protocolId now;
  mret {| us_sendsThisPeriod := bs_sendsThisPeriod status; us_sendsLimit := bs_sendsLimit status;
          us_sendsRemaining := sendsRemaining status; us_periodResetAt := bs_periodResetAt status |}.

(** ** Properties *)

Context `{BL : !BackendLaws B}.

(** A checkout changes nothing.  It is refused with 400 for the free tier and
    for tiers there are not, and otherwise asks Helio for a link for the
    tier's name that pays from the protocol's own wallet and carries its id;
    of the months, which may be any number, only the texts of the request
    speak. *)
Theorem checkout_for_own_protocol protocolId tier months w :
  wp (createCheckout protocolId tier months) (λ r w', view w' = view w ∧
    (∀ p, v_tables (view w) MProtocol !! protocolId = Some p →
       (tier ∉ [1; 2; 3] → is_ok r = false) ∧
       ∀ a, r = Ok a → ∃ request, create_checkout request = Ok a ∧
         Ok (cr_tier request) = herald_tier tier ∧ cr_walletAddress request = p_protocolPubkey p ∧
         cr_protocolId request = p_id p ∧ cr_months request = pretty (default 1 months) ∧
         cr_templateId request = template_id cfg tier)) w.
Proof.
  apply wp_bind, (wp_find_unique MProtocol); [| by intros e w1 ->; split].
  intros o w1 ->%found_by_id Hv1. destruct (v_tables (view w) MProtocol !! protocolId) as [p |] eqn:Hp.
  2:{ apply wp_raise. by split. }
  apply wp_bind, wp_lift. unfold checkout_request.
  destruct (tier =? 0) eqn:E0; [split; [done |]; by intros ? [= <-] |].
  destruct (herald_tier tier) as [name | e] eqn:Et; [| split; [done |]; by intros ? [= <-]].
  apply wp_lift. split; [done |]. intros ? [= <-]. split.
  - intros Hn. unfold herald_tier in Et. exfalso. apply Hn.
    destruct (Z.eqb_spec tier 1), (Z.eqb_spec tier 2), (Z.eqb_spec tier 3); set_solver.
  - intros a Ha. eexists. split; [exact Ha |]. by cbn.
Qed.

(** The payments a protocol is shown are its own, each once, the newest
    first, and for a page and a limit of at least one no more than the limit;
    the total counts all of them. *)
Theorem payments_own protocolId page limit w : by_key MPayment (v_tables (view w) MPayment) →
  wp (getPaymentHistory protocolId page limit) (λ r w', view w' = view w ∧
    ∀ h, r = Ok h →
      (∀ x, x ∈ ph_payments h → pay_protocolId x = protocolId ∧ ∃ k, v_tables (view w) MPayment !! k = Some x) ∧
      NoDup (pay_id <$> ph_payments h) ∧
      StronglySorted (λ a b, pay_createdAt b ≤ pay_createdAt a) (ph_payments h) ∧
      ph_total h = Z.of_nat (count_of MPayment (own_payment protocolId) (v_tables (view w) MPayment)) ∧
      ∀ l, ph_limit h = Some l → 0 ≤ l → Z.of_nat (length (ph_payments h)) ≤ l) w.
Proof.
  intros Hkey. unfold getPaymentHistory, payments_of.
  set (p := page_number 1 page). set (l := page_number 50 limit).
  apply wp_bind. destruct p as [p |], l as [l |]; try (by apply wp_raise; split).
  destruct ((p - 1) * l <? 0); [by apply wp_raise; split |].
  apply wp_bind, (wp_find_many MPayment); [| by intros e w1 ->; split]. intros rows w1 Hrows Hv1.
  apply wp_bind. apply (wp_count MPayment); [by rewrite Hv1 | | intros e w2 Hv2; split; [congruence | done]].
  intros w2 Hv2. apply wp_ret, wp_ret. split; [congruence |]. intros h [= <-]. cbn [ph_payments ph_total ph_limit fst snd].
  change (tables (w_db w1)) with (v_tables (view w1)). rewrite Hv1.
  destruct (selects_page _ _ _ _ _ (Z.to_nat ((p - 1) * l)) l Hkey Hrows) as (Hin & Hnd & Hs).
  split_and!; [| exact Hnd | | done |].
  - intros x Hx. destruct (Hin x Hx) as (k & Hk & ?%bool_decide_eq_true). eauto.
  - eapply (sorted_segment _ _ [] _ []); [| rewrite app_nil_r; exact Hs]. unfold newest. intros; lia.
  - intros n [= <-]. apply length_take_rows.
Qed.

(** Every tier there is is listed with the limit that is enforced. *)
Lemma tier_listed t : 0 ≤ t ≤ 3 →
  ∃ i, i ∈ getAllTierInfo ∧ ti_tier i = t ∧ ti_limit i = Some (send_limit t).
Proof.
  intros Ht. assert (t = 0 ∨ t = 1 ∨ t = 2 ∨ t = 3) as [-> | [-> | [-> | ->]]] by lia;
    [set (n := 0%nat) | set (n := 1%nat) | set (n := 2%nat) | set (n := 3%nat)];
    eexists; (split; [by apply (list_elem_of_lookup_2 _ n) | by split]).
Qed.

(** The remaining sends are what the limit of the protocol's tier leaves. *)
Theorem usage_consistent protocolId now w :
  wp (getUsageStats protocolId now) (λ r w', view w' = view w ∧ ∀ u, r = Ok u →
    ∃ p, v_tables (view w) MProtocol !! protocolId = Some p ∧
      us_sendsLimit u = send_limit (p_tier p) ∧ 0 ≤ us_sendsRemaining u ∧
      (us_sendsThisPeriod u ≤ us_sendsLimit u →
         us_sendsThisPeriod u + us_sendsRemaining u = us_sendsLimit u) ∧
      (0 ≤ p_tier p ≤ 3 → ∃ i, i ∈ getAllTierInfo ∧ ti_tier i = p_tier p ∧ ti_limit i = Some (us_sendsLimit u))) w.
Proof.
  apply wp_bind. unfold getStatus. apply wp_bind, (wp_find_unique MProtocol); [| by intros e w1 ->; split].
  intros o w1 ->%found_by_id Hv1. destruct (v_tables (view w) MProtocol !! protocolId) as [p |] eqn:Hp.
  2:{ apply wp_raise. by split. }
  apply wp_bind, (wp_find_unique MSubscription); [| by intros e w2 ->; split].
  intros s w2 _ Hv2. apply wp_ret, wp_ret. split; [congruence |]. intros u [= <-].
  exists p. unfold sendsRemaining. cbn [us_sendsLimit us_sendsRemaining us_sendsThisPeriod bs_sendsLimit bs_sendsThisPeriod].
  split_and!; [done | done | lia | lia | apply tier_listed].
Qed.

(** No webhook of Helio gets past its guard, whatever it is signed with: the
    guard reads the raw body, which the application does not keep. *)
Theorem helio_webhooks_refused digest signature body :
  is_ok (helio_guard digest signature (request_raw_body body)) = false.
Proof. unfold request_raw_body, helio_guard. by destruct signature as [[] |]. Qed.
End checkout.

(** ** On concrete requests *)

(** Any number of months may be asked for. *)
Example months_unchecked cfg p : cr_months <$> (match checkout_request cfg p 1 (-12) with Ok r => Some r | Err _ => None end) = Some "-12".
Proof. reflexivity. Qed.

Definition payment_world : World :=
  mem_world (with_rows MPayment [helio_payment paid_payload "p1" 5 6 "y1"; helio_payment paid_payload "p1" 9 10 "y2";
    helio_payment paid_payload "p2" 7 8 "y3"] no_tables) ∅.

Lemma payments_own_witness :
  (λ r, match r with Ok h => (pay_id <$> ph_payments h, ph_total h) | Err _ => ([], -1) end)
    (getPaymentHistory "p1" None (Some "1") payment_world).1 = (["y2"], 2) ∧
  wp (getPaymentHistory "p1" None (Some "1")) (λ r w', view w' = view payment_world) payment_world.
Proof.
  split; [by vm_compute |].
  eapply wp_mono; [apply (payments_own "p1" None (Some "1") payment_world), by_key_check; by vm_compute |].
  intros r w' [H _]. exact H.
Defined.
