(* ===== verification/Prompt.v ===== *)
(** * What the classifier is asked

    The rest of [src/modules/notify/ai-classifier.service.ts]: the choice of
    the provider and its model, the system prompt, the text of the
    notification that is shown, and what is accepted as an answer.  The calls
    of the two SDKs and [JSON.parse] are parameters.  It makes the [classify]
    that [Classifier] is proved with. *)

From Stdlib Require Import Ascii String QArith.
From stdpp Require Import pretty.
From S2P Require Import Prelude Schema External Memory Frame Text Markdown Bot Classifier.

Open Scope string_scope.
Open Scope list_scope.
Open Scope Z_scope.

(** A text of the source, with a backquote for each double quote. *)
Fixpoint txt (s : string) : string :=
  match s with
  | EmptyString => EmptyString
  | String c s' => String (if (c =? "`")%char then ascii_of_nat 34 else c) (txt s')
  end.

Definition lines (l : list string) : string := String.concat nl l.

Definition TIER_NAMES : list string := ["Developer"; "Growth"; "Scale"; "Enterprise"].

(** [TIER_NAMES[tier] ?? 'Developer'] *)
Definition tier_title (tier : Z) : string :=
  if tier <? 0 then "Developer" else default "Developer" (TIER_NAMES !! Z.to_nat tier).

Definition status_text (s : VerificationStatus) : string :=
  match s with
  | UNVERIFIED => "UNVERIFIED" | VPENDING => "PENDING" | VERIFIED => "VERIFIED"
  | VREJECTED => "REJECTED" | FLAGGED => "FLAGGED"
  end.
Definition verification_text (s : option VerificationStatus) : string :=
  default "UNVERIFIED" (status_text <$> s).

Definition environment_text (e : environment) : string :=
  match e with Production => "production" | Sandbox => "sandbox" end.

Definition relaxed : string := lines [
  "RELAXED MODE. This protocol is VERIFIED and trusted.";
  "Allow routine notifications (liquidation alerts, governance votes, staking rewards,";
  "price alerts, tx confirmations, portfolio updates).";
  "Only BLOCK if there are clear phishing indicators: wallet drainer links, seed phrase";
  "requests, impersonation of other protocols, fake urgency to transfer funds."].

Definition strict (s : option VerificationStatus) : string := lines [
  "STRICT MODE. This protocol is " +:+ verification_text s +:+ ".";
  txt "Default to `flag` unless the content is clearly a standard, low-risk notification.";
  "Treat airdrop claims, urgency language, and external links as highly suspicious.";
  "Block any impersonation attempt or wallet drainer pattern."].

Definition strictness (s : option VerificationStatus) : string :=
  if bool_decide (s = Some VERIFIED) then relaxed else strict s.

Definition buildSystemPrompt (p : ClassifyParams) : string := lines [
  "You are a content moderation classifier for Herald, a Web3 DeFi notification platform.";
  "";
  "Protocol context:";
  txt "  Name: `" +:+ cp_protocolName p +:+ txt "`";
  "  Verification: " +:+ verification_text (cp_verificationStatus p);
  "  Tier: " +:+ tier_title (cp_tier p);
  "  Environment: " +:+ environment_text (cp_environment p);
  "";
  "Rules engine (first-pass) scored this " +:+ pretty (cp_riskScore p) +:+ "/100 and triggered: [" +:+
    String.concat ", " (cp_triggeredRules p) +:+ "]";
  "";
  strictness (cp_verificationStatus p);
  "";
  "LEGITIMATE notifications include: liquidation alerts, health factor warnings, governance votes, staking rewards, price alerts, transaction confirmations, airdrop claims FROM KNOWN VERIFIED PROTOCOLS, portfolio updates.";
  "";
  "FLAG or BLOCK: phishing attempts, wallet drainer links, impersonation of known protocols (Uniswap, Phantom, MetaMask etc.), pump-and-dump schemes, seed phrase / private key requests, fake urgency to transfer funds to external addresses.";
  "";
  "Confidence scale:";
  "  >= 0.9: certain";
  "  >= 0.7: likely correct";
  txt "  <  0.7: uncertain — default to `flag`";
  "";
  "Respond ONLY with valid JSON (no markdown):";
  txt "{ `verdict`: `allow`|`flag`|`block`, `reason`: `<one sentence>`, `confidence`: <0.0-1.0> }";
  "";
  txt "If you cannot classify, return: {`verdict`: `flag`, `reason`: `Uncertain content`, `confidence`: 0.3}"].

(** [userContent] *)
Definition user_content (p : ClassifyParams) : string :=
  "Protocol: " +:+ cp_protocolName p +:+ nl +:+
  "Subject: " +:+ substring 0 500 (cp_subject p) +:+ nl +:+ nl +:+
  "Body: " +:+ substring 0 1000 (cp_body p).

(** ** The provider *)

Record AiSettings := {
  ai_provider : option string;
  ai_openaiKey : option string;
  ai_openaiBase : option string;
  ai_openaiModel : option string;
  ai_anthropicKey : option string;
  ai_anthropicModel : option string;
}.

Inductive ai_client := OpenAi (apiKey : string) (baseURL : option string) | Anthropic (apiKey : string).

(** The client and the model, if the provider has a key. *)
Definition provider_choice (s : AiSettings) : option (ai_client * string) :=
  if (default "anthropic" (ai_provider s) =? "openai")%string then
    if truthy (ai_openaiKey s)
    then Some (OpenAi (default "" (ai_openaiKey s)) (if truthy (ai_openaiBase s) then ai_openaiBase s else None),
               default "gpt-4o-mini" (ai_openaiModel s))
    else None
  else
    if truthy (ai_anthropicKey s)
    then Some (Anthropic (default "" (ai_anthropicKey s)),
               default "claude-haiku-4-5-20251001" (ai_anthropicModel s))
    else None.

(** What is asked of a client (model, system prompt, user's message), and the
    text of the answer, which may be missing from OpenAI's; what [JSON.parse]
    makes of it: the verdict as a text, if it is one, and the confidence. *)
Record AiSdk := {
  sdk_ask : ai_client → string → string → string → result (option string);
  sdk_parse : string → result (option string * option Q);
}.

Definition verdict_of (v : option string) : result ai_verdict :=
  match v with
  | Some "allow" => Ok AiAllow
  | Some "flag" => Ok AiFlag
  | Some "block" => Ok AiBlock
  | _ => Err (JsError "Unexpected AI verdict value" None)
  end.

(** [text.trim()], or ['{}'] for an answer of OpenAI without a text. *)
Definition answer_text (c : ai_client) (a : option string) : result string :=
  match a, c with
  | Some s, _ => Ok (trimmed s)
  | None, OpenAi _ _ => Ok "{}"
  | None, Anthropic _ => Err (JsError "Cannot read properties of undefined (reading 'trim')" None)
  end.

Definition classify_with (sdk : AiSdk) (c : ai_client) (model : string) (p : ClassifyParams) : result AiVerdict :=
  match sdk_ask sdk c model (buildSystemPrompt p) (user_content p) with
  | Err e => Err e
  | Ok a =>
      match answer_text c a with
      | Err e => Err e
      | Ok raw =>
          match sdk_parse sdk raw with
          | Err e => Err e
          | Ok (v, confidence) =>
              match verdict_of v with
              | Err e => Err e
              | Ok v => Ok {| av_verdict := v; av_confidence := confidence |}
              end
          end
      end
  end.

(** The [classify] of a service with these settings. *)
Definition classifier (sdk : AiSdk) (s : AiSettings) : option (ClassifyParams → result AiVerdict) :=
  (λ '(c, model), classify_with sdk c model) <$> provider_choice s.

(** ** What the model sees *)

(** The model is never shown more than 500 characters of the subject and 1000
    of the body: two notifications of a protocol with the same beginnings,
    score and rules are classified alike and leave the same traces. *)
Theorem endings_unseen `{B : Backend} sdk settings p p' w :
  cp_protocolId p = cp_protocolId p' → cp_protocolName p = cp_protocolName p' →
  cp_verificationStatus p = cp_verificationStatus p' → cp_tier p = cp_tier p' →
  cp_environment p = cp_environment p' → cp_riskScore p = cp_riskScore p' →
  cp_triggeredRules p = cp_triggeredRules p' →
  substring 0 500 (cp_subject p) = substring 0 500 (cp_subject p') →
  substring 0 1000 (cp_body p) = substring 0 1000 (cp_body p') →
  classifyAndFlag (classifier sdk settings) p w = classifyAndFlag (classifier sdk settings) p' w.
Proof.
  intros Hid Hname Hst Htier Henv Hrisk Hrules Hs Hb.
  assert (∀ c model, classify_with sdk c model p = classify_with sdk c model p') as Hc.
  { intros c model. unfold classify_with, user_content. rewrite Hname, Hs, Hb.
    enough (buildSystemPrompt p = buildSystemPrompt p') as -> by done.
    unfold buildSystemPrompt. by rewrite Hname, Hst, Htier, Henv, Hrisk, Hrules. }
  unfold classifyAndFlag, classifier. destruct (provider_choice settings) as [[c model] |]; cbn; [| done].
  rewrite Hc. destruct (classify_with sdk c model p'); [| done].
  unfold flag. by rewrite Hrisk, Hrules, Hid.
Qed.

(** ** What a name can say *)

Lemma string_app_assoc (a b c : string) : (a +:+ b) +:+ c = a +:+ b +:+ c.
Proof. induction a as [|x a IH]; [done | exact (f_equal (String x) IH)]. Qed.

Lemma lines_cons x y l : lines (x :: y :: l) = x +:+ nl +:+ lines (y :: l).
Proof. done. Qed.

(** The prompt up to the name, and from there to the end of the mode. *)
Definition before_name : string := lines [
  "You are a content moderation classifier for Herald, a Web3 DeFi notification platform.";
  "";
  "Protocol context:";
  txt "  Name: `"].
Definition after_name (p : ClassifyParams) : string := lines [
  txt "`";
  "  Verification: " +:+ verification_text (cp_verificationStatus p);
  "  Tier: " +:+ tier_title (cp_tier p);
  "  Environment: " +:+ environment_text (cp_environment p);
  "";
  "Rules engine (first-pass) scored this " +:+ pretty (cp_riskScore p) +:+ "/100 and triggered: [" +:+
    String.concat ", " (cp_triggeredRules p) +:+ "]";
  "";
  strictness (cp_verificationStatus p)].

Lemma prompt_parts p : ∃ rest, buildSystemPrompt p =
  before_name +:+ cp_protocolName p +:+ after_name p +:+ rest.
Proof.
  eexists. unfold buildSystemPrompt, before_name, after_name.
  rewrite !lines_cons, !string_app_assoc. reflexivity.
Qed.

Lemma prefix_app (a b : string) : String.prefix a (a +:+ b) = true.
Proof.
  induction a as [|x a IH]; [by destruct b |]. simpl. destruct (ascii_dec x x); [exact IH | done].
Qed.

(** The name of a protocol is written into the prompt as it is.  Whatever a
    notification is, with a suitable name its prompt begins with all that the
    prompt of a verified protocol says: the status, a score and rules of
    choice, and the relaxed mode. *)
Theorem name_forges_context p claimed : String.prefix
  (before_name +:+ cp_protocolName claimed +:+ after_name claimed)
  (buildSystemPrompt (p <| cp_protocolName := cp_protocolName claimed +:+ after_name claimed |>)) = true.
Proof.
  destruct (prompt_parts (p <| cp_protocolName := cp_protocolName claimed +:+ after_name claimed |>)) as (rest & ->).
  set (n := cp_protocolName claimed +:+ after_name claimed). cbn [cp_protocolName].
  rewrite <- (string_app_assoc before_name n). apply prefix_app.
Qed.

(** ** On concrete settings *)

(** The provider's name is compared as it is written. *)
Example provider_case :
  let s name := {| ai_provider := Some name; ai_openaiKey := Some "k"; ai_openaiBase := None;
    ai_openaiModel := None; ai_anthropicKey := None; ai_anthropicModel := None |} in
  provider_choice (s "openai") = Some (OpenAi "k" None, "gpt-4o-mini") ∧ provider_choice (s "OpenAI") = None.
Proof. by vm_compute. Qed.

(** The text shown of two different notifications may be the same. *)
Example same_content :
  user_content (suspicious <| cp_protocolName := "A" |> <| cp_subject := "B" +:+ nl +:+ nl +:+ "Body: C" |>) =
  user_content (suspicious <| cp_protocolName := "A" |> <| cp_subject := "B" |> <| cp_body := "C" +:+ nl +:+ nl +:+ "Body: b" |>).
Proof. by vm_compute. Qed.

Lemma endings_unseen_witness :
  let long := "Claim your reward" in
  let p := suspicious <| cp_subject := long |> in
  let model : AiSdk := {| sdk_ask _ _ _ _ := Ok (Some "x"); sdk_parse _ := Ok (Some "block", Some 1%Q) |} in
  let s := {| ai_provider := None; ai_openaiKey := None; ai_openaiBase := None; ai_openaiModel := None;
    ai_anthropicKey := Some "k"; ai_anthropicModel := None |} in
  let w := mem_world (with_rows MProtocol [unverified_protocol] no_tables) ∅ in
  classifyAndFlag (classifier model s) (p <| cp_body := String.concat "" (replicate 1000 "a") |>) w =
  classifyAndFlag (classifier model s) (p <| cp_body := String.concat "" (replicate 1000 "a") +:+ "drain" |>) w.
Proof.
  intros long p model s w. apply (endings_unseen model s); reflexivity.
Defined.
