(* ===== verification/Validation.v ===== *)
(** * The validation of requests

    The [ValidationPipe] that [src/main.ts] installs (with [whitelist],
    [forbidNonWhitelisted], [transform] and [enableImplicitConversion]) on the
    bodies of [src/modules/notify/dto/notify.dto.ts].  A DTO class is a list
    of properties with the type the compiler emits for them, the initializer,
    and their decorators; those of the other endpoints are in [Bodies].
    class-transformer and class-validator are classes with their documented
    laws; the tests of UUIDs, dates and public keys are parameters. *)

From Stdlib Require Import Ascii String.
From S2P Require Import Prelude Schema External Memory Frame Scanner Queue Classifier Sandbox Notify.

Open Scope string_scope.
Open Scope list_scope.
Open Scope Z_scope.

(** ** Bodies and classes *)

(** A number is its JavaScript text. *)
Inductive json :=
| JNull
| JBool (b : bool)
| JNum (text : string)
| JStr (s : string)
| JArr (l : list json)
| JObj (fields : list (string * json)).

(** The types of properties: [design:type]. *)
(** [DClass]: a class of the repository. *)
Inductive design := DString | DNumber | DBoolean | DArray | DObject | DClass.

(** [EachString] and [EachIn] are [IsString] and [IsIn] with [each: true];
    [IsEnum] is an [IsIn]. *)
Inductive rule :=
| IsString
| IsNotEmpty
| MinLength (n : nat)
| MaxLength (n : nat)
| IsIn (vs : list string)
| IsNumber
| IsBoolean
| IsUUID
| IsUrl
| IsObject
| IsArray
| ArrayMaxSize (n : nat)
| IsDateString
| EachString
| EachIn (vs : list string)
| IsBodyLengthValid
| IsSandboxBodyLengthValid
| IsSolanaPublicKey.

Record prop := {
  pr_name : string;
  pr_design : design;
  pr_default : option json;
  pr_optional : bool;                 (** [@IsOptional()] *)
  pr_when : option string;            (** [@ValidateIf]: only if this property is not [undefined] *)
  pr_rules : list rule;
}.

Definition required name d rules : prop :=
  {| pr_name := name; pr_design := d; pr_default := None; pr_optional := false; pr_when := None; pr_rules := rules |}.
Definition optional name d rules : prop :=
  {| pr_name := name; pr_design := d; pr_default := None; pr_optional := true; pr_when := None; pr_rules := rules |}.
(** With an initializer; with a condition. *)
Definition initially (v : json) (p : prop) : prop :=
  {| pr_name := pr_name p; pr_design := pr_design p; pr_default := Some v; pr_optional := pr_optional p;
     pr_when := pr_when p; pr_rules := pr_rules p |}.
Definition only_with (other : string) (p : prop) : prop :=
  {| pr_name := pr_name p; pr_design := pr_design p; pr_default := pr_default p; pr_optional := pr_optional p;
     pr_when := Some other; pr_rules := pr_rules p |}.

Definition NOTIFY_CHANNELS : list string := ["email"; "telegram"; "sms"].
Definition NOTIFY_PRIORITIES : list string := ["normal"; "important"; "critical"].
Definition CATEGORIES : list string := ["defi"; "governance"; "system"; "marketing"; "security"].

Definition NotifyDtoClass : list prop := [
  required "wallet" DString [IsString; IsSolanaPublicKey];
  required "subject" DString [IsString; MaxLength 150];
  required "body" DString [IsString; IsBodyLengthValid];
  initially (JStr "defi") (optional "category" DString [IsIn CATEGORIES]);
  optional "preferred_channel" DString [IsIn NOTIFY_CHANNELS];
  initially (JStr "normal") (optional "priority" DString [IsIn NOTIFY_PRIORITIES]);
  initially (JBool true) (optional "receipt" DBoolean [IsBoolean]);
  optional "idempotencyKey" DString [IsUUID];
  optional "templateId" DString [IsString];
  optional "telegramTemplateId" DString [IsString];
  optional "batchChannels" DArray [IsArray; EachString];
  optional "batchExcludeChannels" DArray [IsArray; EachString];
  optional "variables" DObject []].

Definition BroadcastDtoClass : list prop := [
  required "subject" DString [IsString; MaxLength 150];
  required "body" DString [IsString; MaxLength 10000];
  optional "category" DString [IsString; IsIn CATEGORIES];
  optional "templateId" DString [IsString];
  optional "receipt" DBoolean [IsBoolean]].

(** What both schedules share. *)
Definition schedule_props : list prop := [
  optional "wallet" DString [IsString];
  required "subject" DString [IsString; MaxLength 200];
  required "body" DString [IsString; MaxLength 10000];
  optional "category" DString [IsString];
  optional "channels" DArray [IsArray; EachString];
  optional "timezone" DString [IsString];
  optional "templateId" DString [IsUUID]].

Definition ScheduleOnceDtoClass : list prop :=
  schedule_props ++ [required "scheduledFor" DString [IsDateString]].
Definition ScheduleRecurringDtoClass : list prop :=
  schedule_props ++ [required "cronExpr" DString [IsString]].

(** ** The libraries *)

Class Checks := {
  ck_uuid : string → bool;
  ck_url : string → bool;
  ck_date : string → bool;
  (** [new PublicKey(value).toBase58()] *)
  ck_pubkey : string → result string;
}.

Section rules.
Context `{C : Checks}.

(** [IsBodyLengthValid] (twice: the sandbox has its own) and
    [IsSolanaPublicKey] are the repository's own. *)
Definition body_length_valid (v : json) : bool :=
  match v with JStr s => (String.length s <=? N.to_nat 10000)%nat | _ => false end.
Definition is_solana_public_key (v : json) : bool :=
  match v with
  | JStr s => match ck_pubkey s with Ok s' => (s' =? s)%string | Err _ => false end
  | _ => false
  end.


(** With the limit of the channel that the body asks for. *)
Definition sandbox_body_length_valid (preferred_channel : option json) (v : json) : bool :=
  match v with
  | JStr s =>
      let n := N.of_nat (String.length s) in
      match preferred_channel with
      | Some (JStr "sms") => (n <=? 1600)%N
      | Some (JStr "telegram") => (n <=? 4096)%N
      | _ => (n <=? 10000)%N
      end
  | _ => false
  end.

Definition is_text (v : json) : bool := match v with JStr _ => true | _ => false end.
Definition is_in (vs : list string) (v : json) : bool :=
  match v with JStr s => existsb (String.eqb s) vs | _ => false end.

(** A rule of a property of the instance [i], on the property's value.  With
    [each], a value that is no array is tested itself. *)
Definition rule_ok (i : string → option json) (r : rule) (v : json) : bool :=
  match r, v with
  | IsString, _ => is_text v
  | IsNotEmpty, JStr s => negb (s =? "")%string
  | IsNotEmpty, JNull => false
  | IsNotEmpty, _ => true
  | MinLength n, JStr s => (n <=? String.length s)%nat
  | MaxLength n, JStr s => (String.length s <=? n)%nat
  | IsIn vs, _ => is_in vs v
  | IsNumber, JNum _ => true
  | IsBoolean, JBool _ => true
  | IsUUID, JStr s => ck_uuid s
  | IsUrl, JStr s => ck_url s
  | IsObject, JObj _ => true
  | IsArray, JArr _ => true
  | ArrayMaxSize n, JArr l => (length l <=? n)%nat
  | IsDateString, JStr s => ck_date s
  | EachString, JArr l => forallb is_text l
  | EachString, _ => is_text v
  | EachIn vs, JArr l => forallb (is_in vs) l
  | EachIn vs, _ => is_in vs v
  | IsBodyLengthValid, _ => body_length_valid v
  | IsSandboxBodyLengthValid, _ => sandbox_body_length_valid (i "preferred_channel") v
  | IsSolanaPublicKey, _ => is_solana_public_key v
  | _, _ => false
  end.

(** A property that is optional may be [null] or [undefined]; a rule never
    holds of [undefined]. *)
Definition given (i : string → option json) (k : string) : bool := bool_decide (is_Some (i k)).

Definition prop_ok (i : string → option json) (p : prop) : bool :=
  negb (from_option (given i) true (pr_when p)) ||
  match i (pr_name p) with
  | None => pr_optional p || bool_decide (length (pr_rules p) = 0)%nat
  | Some JNull => pr_optional p || forallb (λ r, rule_ok i r JNull) (pr_rules p)
  | Some v => forallb (λ r, rule_ok i r v) (pr_rules p)
  end.
End rules.

Class Validator := {
  vd_checks :: Checks;
  (** class-validator: the properties that fail. *)
  vd_errors : list prop → (string → option json) → list string;
  (** class-transformer: the implicit conversion to a type. *)
  vd_convert : design → json → json;
}.

Definition js_truth (v : json) : bool :=
  match v with
  | JNull | JBool false | JNum "0" | JNum "-0" | JStr "" => false
  | _ => true
  end.

Class ValidatorLaws (V : Validator) : Prop := {
  errors_law c i : vd_errors c i = [] ↔ Forall (λ p, prop_ok i p = true) c;
  convert_null d : vd_convert d JNull = JNull;
  convert_string s : vd_convert DString (JStr s) = JStr s;
  convert_number t : vd_convert DString (JNum t) = JStr t;
  convert_bool_text b : vd_convert DString (JBool b) = JStr (if b then "true" else "false");
  convert_object_text l : vd_convert DString (JObj l) = JStr "[object Object]";
  convert_boolean v : (∀ l, v ≠ JArr l) → v ≠ JNull → vd_convert DBoolean v = JBool (js_truth v);
}.

Section pipe.
Context `{V : Validator}.

Definition field_of (k : string) (body : list (string * json)) : option json :=
  snd <$> List.find (λ f, (f.1 =? k)%string) body.

(** The instance: converted fields, initializers where a field is missing. *)
Definition instance_of (c : list prop) (body : list (string * json)) (k : string) : option json :=
  match List.find (λ p, (pr_name p =? k)%string) c with
  | Some p => match field_of k body with Some v => Some (vd_convert (pr_design p) v) | None => pr_default p end
  | None => field_of k body
  end.

Definition undeclared (c : list prop) (body : list (string * json)) : list string :=
  List.filter (λ k, bool_decide (k ∉ pr_name <$> c)) body.*1.

(** [ValidationPipe.transform] *)
Definition validate_body (c : list prop) (body : list (string * json)) : result (string → option json) :=
  match undeclared c body, vd_errors c (instance_of c body) with
  | [], [] => Ok (instance_of c body)
  | _, _ => Err (HttpError 400 "Bad Request")
  end.
End pipe.

(** ** What an accepted body is *)

Section accepted.
Context `{V : Validator} `{!ValidatorLaws V}.

Lemma accepted c body i : validate_body c body = Ok i →
  i = instance_of c body ∧ (∀ p, p ∈ c → prop_ok i p = true) ∧ ∀ k, k ∈ body.*1 → k ∈ pr_name <$> c.
Proof.
  unfold validate_body. destruct (undeclared c body) as [|k ks] eqn:Eu; [| done].
  destruct (vd_errors c (instance_of c body)) eqn:Ev; [| done]. intros [= <-].
  apply errors_law in Ev. rewrite list.Forall_forall in Ev. split_and!; [done | done |].
  intros k Hk. destruct (decide (k ∈ pr_name <$> c)) as [| Hn]; [done |].
  assert (k ∈ undeclared c body) as Hin.
  { apply list_elem_of_In, filter_In. split; [by apply list_elem_of_In | by apply bool_decide_eq_true]. }
  rewrite Eu in Hin. set_solver.
Qed.

(** A required text. *)
Lemma required_text i name rules : prop_ok i (required name DString (IsString :: rules)) = true →
  ∃ s, i name = Some (JStr s) ∧ Forall (λ r, rule_ok i r (JStr s) = true) rules.
Proof.
  unfold prop_ok. cbn. destruct (i name) as [[] |]; cbn; try done.
  intros H. eexists. split; [done |].
  apply list.Forall_forall. intros r Hr. apply (proj1 (forallb_forall _ _) H). by apply list_elem_of_In.
Qed.

(** An optional text that has to be one of several. *)
Lemma optional_choice i p vs : prop_ok i p = true → pr_rules p = [IsIn vs] → pr_when p = None →
  match i (pr_name p) with
  | Some (JStr s) => s ∈ vs
  | Some JNull | None => pr_optional p = true
  | _ => False
  end.
Proof.
  unfold prop_ok. intros H Hr Hw. rewrite Hr, Hw in H. cbn in H. destruct (i (pr_name p)) as [[] |]; cbn in H; try done;
    try (by rewrite ?andb_false_r, ?orb_false_r in H).
  rewrite andb_true_r in H. apply existsb_exists in H as (v & ? & ->%String.eqb_eq). by apply list_elem_of_In.
Qed.

(** A body that is accepted as a request: its wallet is the one base58 text of
    a public key, the subject has at most 150 characters and the text 10,000,
    the category, the channel and the priority are among those there are (or
    null), the receipt is a boolean (or null), and there are no other
    fields. *)
Theorem notify_body_accepted body i : validate_body NotifyDtoClass body = Ok i →
  (∃ wallet, i "wallet" = Some (JStr wallet) ∧ ck_pubkey wallet = Ok wallet) ∧
  (∃ subject, i "subject" = Some (JStr subject) ∧ (String.length subject ≤ 150)%nat) ∧
  (∃ text, i "body" = Some (JStr text) ∧ (String.length text ≤ N.to_nat 10000)%nat) ∧
  (∀ k vs, (k, vs) ∈ [("category", CATEGORIES); ("preferred_channel", NOTIFY_CHANNELS);
                      ("priority", NOTIFY_PRIORITIES)] →
     match i k with Some (JStr s) => s ∈ vs | Some JNull | None => True | _ => False end) ∧
  match i "receipt" with Some (JBool _) | Some JNull | None => True | _ => False end ∧
  ∀ k, k ∈ body.*1 → k ∈ pr_name <$> NotifyDtoClass.
Proof.
  intros (_ & Hp & Hk)%accepted.
  assert (∀ n p, NotifyDtoClass !! n = Some p → prop_ok i p = true) as Hat.
  { intros n p Hn. by eapply Hp, list_elem_of_lookup_2. }
  split_and!; [| | | | | done].
  - destruct (required_text i "wallet" [IsSolanaPublicKey] (Hat 0%nat _ eq_refl)) as (s & Hs & [Hr _]%list.Forall_cons).
    exists s. split; [done |]. cbn in Hr. destruct (ck_pubkey s) as [s' |]; [| done].
    by apply String.eqb_eq in Hr as ->.
  - destruct (required_text i "subject" [MaxLength 150] (Hat 1%nat _ eq_refl)) as (s & Hs & [Hr _]%list.Forall_cons).
    exists s. split; [done |]. by apply Nat.leb_le in Hr.
  - destruct (required_text i "body" [IsBodyLengthValid] (Hat 2%nat _ eq_refl)) as (s & Hs & [Hr _]%list.Forall_cons).
    exists s. split; [done |]. by apply Nat.leb_le in Hr.
  - intros k vs Hin. rewrite !elem_of_cons, elem_of_nil in Hin.
    destruct Hin as [[= -> ->] | [[= -> ->] | [[= -> ->] | []]]].
    + pose proof (optional_choice i _ _ (Hat 3%nat _ eq_refl) eq_refl eq_refl) as H. cbn in H. by destruct (i "category") as [[] |].
    + pose proof (optional_choice i _ _ (Hat 4%nat _ eq_refl) eq_refl eq_refl) as H. cbn in H. by destruct (i "preferred_channel") as [[] |].
    + pose proof (optional_choice i _ _ (Hat 5%nat _ eq_refl) eq_refl eq_refl) as H. cbn in H. by destruct (i "priority") as [[] |].
  - pose proof (Hat 6%nat _ eq_refl) as H. unfold prop_ok in H. cbn in H. by destruct (i "receipt") as [[] |].
Qed.

(** Values are converted before they are tested: a receipt given as a text or
    a number is never refused, and every text but the empty one, "false"
    included, asks for it. *)
Theorem receipt_coerced body i v : validate_body NotifyDtoClass body = Ok i →
  field_of "receipt" body = Some v → (∀ l, v ≠ JArr l) → v ≠ JNull →
  i "receipt" = Some (JBool (js_truth v)).
Proof.
  intros (-> & _)%accepted Hv Hl Hn. unfold instance_of. cbn. rewrite Hv. by rewrite convert_boolean.
Qed.
End accepted.

(** ** On concrete bodies *)

Definition test_checks : Checks := {|
  ck_uuid s := (String.length s =? 36)%nat; ck_url s := String.prefix "https://" s; ck_date s := negb (s =? "")%string; ck_pubkey s := Ok s |}.

Definition the_convert (d : design) (v : json) : json :=
  match d, v with
  | DString, JNum t => JStr t
  | DString, JBool b => JStr (if b then "true" else "false")
  | DString, JObj _ => JStr "[object Object]"
  | DBoolean, (JBool _ | JNum _ | JStr _ | JObj _) => JBool (js_truth v)
  | _, _ => v
  end.

#[local] Instance the_validator : Validator := {|
  vd_checks := test_checks;
  vd_errors c i := pr_name <$> List.filter (λ p, negb (prop_ok (C := test_checks) i p)) c;
  vd_convert := the_convert |}.

#[local] Instance the_validator_laws : ValidatorLaws the_validator.
Proof.
  split; try done.
  - intros c i. cbn. induction c as [|p c IH]; cbn; [by split |].
    rewrite list.Forall_cons. destruct (prop_ok i p); cbn; [rewrite IH; naive_solver | split; [done | by intros []]].
  - by intros [].
  - intros v Ha Hn. destruct v; cbn; try done. by edestruct Ha.
Qed.

Definition a_body (extra : list (string * json)) : list (string * json) :=
  [("wallet", JStr "w"); ("subject", JNum "42"); ("body", JObj [])] ++ extra.

Definition accepted_as (c : list prop) (body : list (string * json)) (keys : list string) : option (list (option json)) :=
  match validate_body c body with Ok i => Some (i <$> keys) | Err _ => None end.

(** Numbers and objects are accepted as texts, and a missing field has its
    initializer. *)
Example texts_made : accepted_as NotifyDtoClass (a_body []) ["subject"; "body"; "category"; "receipt"] =
  Some [Some (JStr "42"); Some (JStr "[object Object]"); Some (JStr "defi"); Some (JBool true)].
Proof. by vm_compute. Qed.

(** Schedules take any category and any channels, and subjects that no
    request may have. *)
Example schedules_unchecked :
  is_ok (validate_body ScheduleOnceDtoClass [("subject", JStr (String.concat "" (replicate 200 "s")));
    ("body", JStr "b"); ("scheduledFor", JStr "2030"); ("category", JStr "nonsense");
    ("channels", JArr [JStr "fax"])]) = true ∧
  is_ok (validate_body BroadcastDtoClass [("subject", JStr "s"); ("body", JStr "b"); ("category", JStr "nonsense")]) = false.
Proof. by vm_compute. Qed.

(** A body with a field that is not declared is refused. *)
Example undeclared_refused : is_ok (validate_body NotifyDtoClass (a_body [("admin", JBool true)])) = false.
Proof. by vm_compute. Qed.

Definition textual_receipt : list (string * json) := a_body [("receipt", JStr "false")].

Definition accepted_instance : string → option json := instance_of NotifyDtoClass textual_receipt.

Lemma textual_receipt_accepted : validate_body NotifyDtoClass textual_receipt = Ok accepted_instance.
Proof.
  unfold validate_body. assert (undeclared NotifyDtoClass textual_receipt = []) as -> by by vm_compute.
  assert (vd_errors NotifyDtoClass (instance_of NotifyDtoClass textual_receipt) = []) as -> by by vm_compute.
  done.
Qed.

Lemma receipt_coerced_witness : accepted_instance "receipt" = Some (JBool true).
Proof.
  exact (receipt_coerced textual_receipt accepted_instance (JStr "false") textual_receipt_accepted eq_refl
    (λ l H, ltac:(discriminate H)) (λ H, ltac:(discriminate H))).
Defined.

Lemma notify_body_accepted_witness : ∃ wallet, accepted_instance "wallet" = Some (JStr wallet) ∧ ck_pubkey wallet = Ok wallet.
Proof. exact (proj1 (notify_body_accepted textual_receipt accepted_instance textual_receipt_accepted)). Defined.
