(* ===== verification/Bodies.v ===== *)
(** * The bodies of the other endpoints

    The DTO classes of the controllers beside those of [Validation], as lists
    of properties: batches ([src/modules/notify/dto/notify.dto.ts]), the
    sandbox, subscriptions, the broadcast of administrators, domains, webhooks,
    the enclave, the notifications of SNS, the portal's preferences and the
    templates.  A batch has the requests of [Validation] nested in it, which
    class-validator tests one by one.  What an accepted body is, and which
    bodies that the endpoints are meant for are refused. *)

From Stdlib Require Import Ascii String.
From S2P Require Import Prelude Schema External Memory Frame Validation.

Open Scope string_scope.
Open Scope list_scope.
Open Scope Z_scope.

(** ** The classes *)

(** The channels and the excluded channels of a batch are each tested only
    when the other is given. *)
Definition NotifyBatchDtoClass : list prop := [
  required "notifications" DArray [IsArray; ArrayMaxSize 100];
  only_with "exclude_channels" (optional "channels" DArray [IsArray; EachString; EachIn NOTIFY_CHANNELS]);
  only_with "channels" (optional "exclude_channels" DArray [IsArray; EachString; EachIn NOTIFY_CHANNELS])].

Definition SandboxSendDtoClass : list prop := [
  required "subject" DString [IsString; MaxLength 150];
  required "body" DString [IsString; IsSandboxBodyLengthValid];
  initially (JStr "defi") (optional "category" DString [IsIn ["defi"; "governance"; "system"; "marketing"; "security"]]);
  optional "preferred_channel" DString [IsIn ["email"; "telegram"; "sms"]]].

Definition SUBSCRIBE_CHANNELS : list string := ["email"; "telegram"; "sms"].

Definition SubscribeDtoClass : list prop := [
  required "walletAddress" DString [IsString];
  optional "channels" DArray [IsArray; ArrayMaxSize 3; EachIn SUBSCRIBE_CHANNELS]].

Definition InternalSubscribeDtoClass : list prop := [
  required "walletPubkey" DString [IsString];
  required "protocolId" DString [IsString];
  optional "channels" DArray [IsArray];
  optional "source" DString [IsString]].

Definition AdminBroadcastDtoClass : list prop := [
  required "subject" DString [IsString; IsNotEmpty];
  required "body" DString [IsString; IsNotEmpty];
  initially (JStr "marketing") (required "category" DString [IsIn ["marketing"; "defi"; "governance"; "system"]])].

Definition CreateDomainDtoClass : list prop := [
  required "domain" DString [IsString];
  initially (JStr "herald") (required "selector" DString [IsString])].

Definition UpsertBimiDtoClass : list prop := [
  required "logo_url" DString [IsUrl];
  optional "vmc_url" DString [IsUrl];
  initially (JStr "default") (optional "selector" DString [IsString])].

Definition CreateWebhookDtoClass : list prop := [
  required "url" DString [IsUrl];
  initially (JArr [JStr "notification.delivered"]) (optional "events" DArray [IsArray]);
  optional "name" DString [IsString; MaxLength 100]].

Definition UpdateWebhookDtoClass : list prop := [
  optional "url" DString [IsUrl]; optional "events" DArray [IsArray]; optional "isActive" DBoolean []].

Definition EncryptNotificationDtoClass : list prop := [
  required "recipientWallet" DString [IsNotEmpty; IsString];
  required "subject" DString [IsNotEmpty; IsString];
  required "message" DString [IsNotEmpty; IsString];
  optional "actionUrl" DString [IsString];
  optional "metadata" DObject [IsObject]].

(** What SNS posts; the classes in it are not tested. *)
Definition SesSnsPayloadDtoClass : list prop := [
  optional "Type" DString [IsString];
  optional "notificationType" DString [IsString];
  optional "Message" DObject [];
  optional "mail" DClass [IsObject];
  optional "bounce" DClass [IsObject]].

(** A class without decorators. *)
Definition UpdateProtocolPreferencesDtoClass : list prop := [].

(** *** Templates

    Declared in [template.dto.ts]; the endpoints of templates take bodies of
    any type instead. *)

Definition MAX_TEMPLATE_SIZE : nat := N.to_nat 51200.
Definition HeraldFooterTier : list string := ["full"; "small"; "minimal"; "none"; "enterprise"].

Definition CreateTemplateDtoClass : list prop := [
  required "name" DString [IsString; MinLength 1; MaxLength 100];
  required "category" DString [IsString; IsNotEmpty];
  optional "subjectTemplate" DString [IsString; MaxLength 200];
  required "htmlSource" DString [IsString; IsNotEmpty; MaxLength MAX_TEMPLATE_SIZE];
  optional "textSource" DString [IsString; MaxLength 5000];
  optional "previewText" DString [IsString; MaxLength 200];
  optional "isDefault" DBoolean [IsBoolean];
  optional "heraldFooter" DString [IsIn HeraldFooterTier]].

Definition PreviewTemplateDtoClass : list prop := [
  optional "variables" DObject [IsObject];
  optional "previewText" DString [IsString; MaxLength 200];
  optional "subject" DString [IsString; MaxLength 200]].

Definition ValidateTemplateDtoClass : list prop := [
  required "htmlSource" DString [IsString; IsNotEmpty; MaxLength MAX_TEMPLATE_SIZE];
  optional "variables" DObject [IsObject]].

Definition UpdateTemplateDtoClass : list prop := [
  optional "name" DString [IsString; MinLength 1; MaxLength 100];
  optional "subjectTemplate" DString [IsString; MaxLength 200];
  optional "htmlSource" DString [IsString; MaxLength MAX_TEMPLATE_SIZE];
  optional "textSource" DString [IsString; MaxLength 5000];
  optional "previewText" DString [IsString; MaxLength 200];
  optional "isDefault" DBoolean [IsBoolean];
  optional "heraldFooter" DString [IsIn HeraldFooterTier]].

(** ** Nested bodies *)

(** [@ValidateNested({ each: true })] with [@Type]: whether the value of the
    property passes, for the class of the type. *)
Class NestedValidator := { vn_ok : list prop → json → bool }.

(** What is missing passes, and an array when all that is in it does. *)
Class NestedLaws (V : Validator) (N : NestedValidator) : Prop := {
  nested_null c : vn_ok c JNull = true;
  nested_object c fields : vn_ok c (JObj fields) = is_ok (validate_body c fields);
  nested_array c l : vn_ok c (JArr l) = forallb (vn_ok c) l;
  nested_other c v : (match v with JNull | JArr _ | JObj _ => False | _ => True end) → vn_ok c v = false;
}.

Section batch.
Context `{V : Validator} `{N : NestedValidator}.

(** The pipe on a batch. *)
Definition validate_batch (body : list (string * json)) : result (string → option json) :=
  match validate_body NotifyBatchDtoClass body with
  | Ok i => if from_option (vn_ok NotifyDtoClass) true (i "notifications") then Ok i
            else Err (HttpError 400 "Bad Request")
  | Err e => Err e
  end.
End batch.

(** ** What an accepted body is *)

Section bodies.
Context `{V : Validator} `{!ValidatorLaws V}.

(** The [n]-th property of a class holds of an accepted body. *)
Lemma accepted_at c body i n p : validate_body c body = Ok i → c !! n = Some p → prop_ok i p = true.
Proof. intros (_ & Hp & _)%accepted Hn. by eapply Hp, list_elem_of_lookup_2. Qed.

(** A required list of at most so many. *)
Lemma required_list i name n : prop_ok i (required name DArray [IsArray; ArrayMaxSize n]) = true →
  ∃ l, i name = Some (JArr l) ∧ (length l ≤ n)%nat.
Proof.
  unfold prop_ok. cbn. destruct (i name) as [[] |]; cbn; try done.
  intros H%andb_true_iff. destruct H as [H _]. eexists. split; [done |]. by apply Nat.leb_le in H.
Qed.

(** The texts of a list whose values are tested. *)
Lemma each_in vs l : forallb (is_in vs) l = true → ∃ ss, l = JStr <$> ss ∧ ∀ s, s ∈ ss → s ∈ vs.
Proof.
  induction l as [|v l IH]; cbn; [intros _; exists []; split; [done | by intros s ?%elem_of_nil] |].
  intros [Hv Hl]%andb_true_iff. destruct (IH Hl) as (ss & -> & Hss). destruct v; try done.
  cbn in Hv. apply existsb_exists in Hv as (u & Hu & ->%String.eqb_eq). exists (u :: ss). split; [done |].
  intros x [-> | Hx]%elem_of_cons; [by apply list_elem_of_In | by apply Hss].
Qed.

(** A body with a field that the class does not declare is refused. *)
Lemma undeclared_body c body k : k ∈ body.*1 → k ∉ pr_name <$> c → is_ok (validate_body c body) = false.
Proof.
  intros Hk Hno. destruct (validate_body c body) as [i|e] eqn:E; [| done].
  apply accepted in E as (_ & _ & Hall). destruct Hno. by apply Hall.
Qed.

(** The fields of a boolean type are converted before they are tested: texts
    and numbers become booleans, and only the empty text and zero are
    false. *)
Lemma boolean_coerced c body i k v p : validate_body c body = Ok i →
  List.find (λ p, (pr_name p =? k)%string) c = Some p → pr_design p = DBoolean →
  field_of k body = Some v → (∀ l, v ≠ JArr l) → v ≠ JNull → i k = Some (JBool (js_truth v)).
Proof.
  intros (-> & _)%accepted Hp Hd Hv Hl Hn. unfold instance_of. rewrite Hp, Hv, Hd. by rewrite convert_boolean.
Qed.

(** A body that is accepted in the sandbox has a subject of at most 150
    characters and a text that is no longer than the channel it asks for can
    take: 1,600 characters by SMS, 4,096 by Telegram, else 10,000. *)
Theorem sandbox_body_accepted body i : validate_body SandboxSendDtoClass body = Ok i →
  (∃ subject, i "subject" = Some (JStr subject) ∧ (String.length subject ≤ 150)%nat) ∧
  ∃ text, i "body" = Some (JStr text) ∧
    Z.of_nat (String.length text) ≤ 10000 ∧
    (i "preferred_channel" = Some (JStr "sms") → Z.of_nat (String.length text) ≤ 1600) ∧
    (i "preferred_channel" = Some (JStr "telegram") → Z.of_nat (String.length text) ≤ 4096).
Proof.
  intros Hv. split.
  - destruct (required_text i "subject" [MaxLength 150]) as (s & Hs & [Hr _]%list.Forall_cons).
    { by apply (accepted_at _ _ _ 0 _ Hv). }
    exists s. split; [done |]. by apply Nat.leb_le in Hr.
  - destruct (required_text i "body" [IsSandboxBodyLengthValid]) as (s & Hs & [Hr _]%list.Forall_cons).
    { by apply (accepted_at _ _ _ 1 _ Hv). }
    exists s. split; [done |]. cbn in Hr. revert Hr. generalize (String.length s) as n. intros n Hr.
    destruct (i "preferred_channel") as [[| | | c | |] |]; try (apply N.leb_le in Hr; split_and!; [lia | done..]).
    split_and!; [| intros [= ->]; apply N.leb_le in Hr; lia..].
    repeat case_match; apply N.leb_le in Hr; lia.
Qed.

(** A subscription is made for at most three channels, all of which there
    are. *)
Theorem subscribe_body_accepted body i : validate_body SubscribeDtoClass body = Ok i →
  (∃ wallet, i "walletAddress" = Some (JStr wallet)) ∧
  match i "channels" with
  | Some (JArr l) => (length l ≤ 3)%nat ∧ ∃ cs, l = JStr <$> cs ∧ ∀ c, c ∈ cs → c ∈ SUBSCRIBE_CHANNELS
  | Some JNull | None => True
  | _ => False
  end.
Proof.
  intros Hv. split.
  - destruct (required_text i "walletAddress" []) as (s & Hs & _); [by apply (accepted_at _ _ _ 0 _ Hv) | eauto].
  - pose proof (accepted_at _ _ _ 1 _ Hv eq_refl) as H. unfold prop_ok in H. cbn in H.
    destruct (i "channels") as [[] |]; cbn in H; try done.
    rewrite andb_true_r in H. apply andb_true_iff in H as [Hn He]. apply Nat.leb_le in Hn. split; [done | by apply each_in].
Qed.

(** The notifications of SNS carry a topic, a time and a signature beside the
    fields that are declared: they are refused before the endpoint sees
    them. *)
Theorem sns_notification_refused body : "TopicArn" ∈ body.*1 →
  is_ok (validate_body SesSnsPayloadDtoClass body) = false.
Proof. intros H. apply (undeclared_body _ _ _ H). cbn. rewrite !elem_of_cons, elem_of_nil. naive_solver. Qed.

(** The class of the portal's preferences declares nothing: only an empty body
    is accepted. *)
Theorem preferences_only_empty body : is_ok (validate_body UpdateProtocolPreferencesDtoClass body) = true ↔ body = [].
Proof.
  split; [| intros ->].
  - destruct body as [|[k v] body]; [done |]. intros H.
    rewrite (undeclared_body _ _ k) in H; [done | by left | by apply not_elem_of_nil].
  - unfold validate_body. cbn. destruct (vd_errors _ _) eqn:E; [done |].
    assert (vd_errors UpdateProtocolPreferencesDtoClass (instance_of UpdateProtocolPreferencesDtoClass []) = []) as E'
      by (by apply errors_law).
    by rewrite E' in E.
Qed.

(** *** Batches *)

Context `{N : NestedValidator} `{!NestedLaws V N}.

(** The bodies in a list of requests, at any depth of nested lists; [null] is
    none. *)
Fixpoint nested_bodies (v : json) : list (list (string * json)) :=
  match v with
  | JObj fields => [fields]
  | JArr l => flat_map nested_bodies l
  | _ => []
  end.

Lemma json_nested_ind (P : json → Prop) :
  (∀ l, Forall P l → P (JArr l)) → (∀ v, (∀ l, v ≠ JArr l) → P v) → ∀ v, P v.
Proof.
  intros Harr Hv. fix IH 1. intros [| | | | l |]; try by apply Hv.
  apply Harr. induction l as [|x l IHl]; [constructor | constructor; [apply IH | exact IHl]].
Qed.

(** What passes as nested has only bodies of its class in it. *)
Lemma nested_accepted c v : vn_ok c v = true → ∀ b, b ∈ nested_bodies v → is_ok (validate_body c b) = true.
Proof.
  induction v as [l IH | v Hv] using json_nested_ind.
  - rewrite nested_array, forallb_forall. cbn. intros Hl b Hb.
    apply list_elem_of_In, in_flat_map in Hb as (x & Hx & Hb). rewrite list.Forall_forall in IH.
    apply (IH x); [by apply list_elem_of_In | by apply Hl | by apply list_elem_of_In].
  - destruct v; cbn; try (by intros _ ? ?%elem_of_nil).
    + exfalso. exact (Hv _ eq_refl).
    + rewrite nested_object. by intros H b ->%list_elem_of_singleton.
Qed.

Theorem batch_body_accepted body i : validate_batch body = Ok i →
  (∃ l, i "notifications" = Some (JArr l) ∧ (length l ≤ 100)%nat ∧
     ∀ b, b ∈ nested_bodies (JArr l) → is_ok (validate_body NotifyDtoClass b) = true) ∧
  (∀ k other, (k, other) ∈ [("channels", "exclude_channels"); ("exclude_channels", "channels")] →
     is_Some (i other) → match i k with
       | Some (JArr l) => ∃ cs, l = JStr <$> cs ∧ ∀ c, c ∈ cs → c ∈ NOTIFY_CHANNELS
       | Some JNull | None => True
       | _ => False
       end).
Proof.
  unfold validate_batch. destruct (validate_body NotifyBatchDtoClass body) as [i'|e] eqn:Hv; [| done].
  destruct (from_option _ _ _) eqn:Hn; [| done]. intros [= <-]. split.
  - destruct (required_list i' "notifications" 100) as (l & Hl & Hlen); [by apply (accepted_at _ _ _ 0 _ Hv) |].
    rewrite Hl in Hn. exists l. split_and!; [done | done |]. by apply nested_accepted.
  - intros k other Hin Ho.
    assert (prop_ok i' (only_with other (optional k DArray [IsArray; EachString; EachIn NOTIFY_CHANNELS])) = true) as H.
    { rewrite !elem_of_cons, elem_of_nil in Hin. destruct Hin as [[= -> ->] | [[= -> ->] | []]];
        [by apply (accepted_at _ _ _ 1 _ Hv) | by apply (accepted_at _ _ _ 2 _ Hv)]. }
    unfold prop_ok, given in H. cbn in H. rewrite bool_decide_eq_true_2 in H by done. cbn in H.
    destruct (i' k) as [[] |]; try done. cbn in H. rewrite andb_true_r in H.
    apply andb_true_iff in H as [_ H]. by apply each_in.
Qed.
End bodies.

(** ** On concrete bodies *)

Section examples.
#[local] Existing Instance the_validator.
#[local] Existing Instance the_validator_laws.

Fixpoint the_nested (c : list prop) (v : json) : bool :=
  match v with
  | JNull => true
  | JArr l => forallb (the_nested c) l
  | JObj fields => is_ok (validate_body c fields)
  | _ => false
  end.

#[local] Instance the_nested_validator : NestedValidator := { vn_ok := the_nested }.

Lemma the_nested_laws : NestedLaws the_validator the_nested_validator.
Proof. split; try done. by intros c []. Qed.

Definition a_request : json := JObj [("wallet", JStr "w"); ("subject", JStr "s"); ("body", JStr "b")].

(** Alone, the channels of a batch are not tested; [null] passes for a request,
    and so does a list of requests. *)
Example batches_unchecked :
  is_ok (validate_batch [("notifications", JArr [a_request]); ("channels", JArr [JStr "fax"])]) = true ∧
  is_ok (validate_batch [("notifications", JArr [a_request]); ("channels", JArr [JStr "fax"]);
    ("exclude_channels", JArr [])]) = false ∧
  is_ok (validate_batch [("notifications", JArr [JNull; JArr [a_request]])]) = true ∧
  is_ok (validate_batch [("notifications", JArr [JObj [("wallet", JStr "w")]])]) = false.
Proof. by vm_compute. Qed.

(** A text is as good as [true]: a webhook that is to be switched off by the
    text "false" stays on. *)
Example webhook_stays_on :
  accepted_as UpdateWebhookDtoClass [("isActive", JStr "false")] ["isActive"] = Some [Some (JBool true)].
Proof. by vm_compute. Qed.

(** Any list is a list of events of a webhook, and any text a domain. *)
Example webhooks_and_domains_unchecked :
  is_ok (validate_body CreateWebhookDtoClass [("url", JStr "https://a"); ("events", JArr [JNum "1"])]) = true ∧
  is_ok (validate_body CreateDomainDtoClass [("domain", JStr "no domain")]) = true.
Proof. by vm_compute. Qed.

(** The envelope in which SNS delivers a notification. *)
Definition sns_envelope : list (string * json) :=
  [("Type", JStr "Notification"); ("MessageId", JStr "m"); ("TopicArn", JStr "arn:aws:sns:eu-west-1:1:bounces");
   ("Message", JStr "{}"); ("Timestamp", JStr "2030"); ("SignatureVersion", JStr "1"); ("Signature", JStr "x");
   ("SigningCertURL", JStr "https://sns"); ("UnsubscribeURL", JStr "https://sns")].

Lemma sns_notification_refused_witness : is_ok (validate_body SesSnsPayloadDtoClass sns_envelope) = false.
Proof. apply sns_notification_refused. apply (bool_decide_eq_true_1 ("TopicArn" ∈ sns_envelope.*1)). by vm_compute. Defined.
End examples.
