(* ===== verification/Gateway.v ===== *)
(** * A request on its way through the gateway

    The endpoints of [src/modules/notify/notify.controller.ts] with what Nest
    runs before them: the guards of the class ([AuthGuard], [ScopeGuard]),
    [SubscriptionGuard] where the method asks for it, the rate limiter, the
    validation of the body, and then the handler.  The parts are those of
    [Auth], [Billing], [RateLimit], [Validation], [Bodies], [Notify],
    [NotifyApi] and [Scheduler]; here they are composed in Nest's order, and what a request
    that reaches its handler has passed is proved once for all endpoints.  A
    request has one time, and the id that its notification will get. *)

From Stdlib Require Import Ascii String.
From S2P Require Import Prelude Schema External Memory Frame Text Rx Helpers Telegram Channels Template.
From S2P Require Import RateLimit Queue Classifier Subscriptions Sandbox Notify NotifyApi Playground Billing.
From S2P Require Import Auth Scheduler Validation Bodies.

Open Scope string_scope.
Open Scope list_scope.
Open Scope Z_scope.

(** ** The way to a handler *)

Definition batch_url (url : string) : bool :=
  match String.index 0 "/batch" url with Some _ => true | None => false end.

(** A request: what the guards read, Express's [request.protocol] (the scheme
    of the URL) and the length of [body.notifications]. *)
Record GatewayRequest := {
  gr_auth : AuthRequest;
  gr_scheme : string;
  gr_notifications : option Z;
}.

Definition limited (rq : GatewayRequest) (p : AuthenticatedProtocol) : RateLimitedRequest := {|
  req_protocol := gr_scheme rq; req_authProtocol := Some p;
  req_isBatch := batch_url (rq_url (gr_auth rq)); req_notifications := gr_notifications rq |}.

(** ** The body of a request as a [NotifyDto] *)

Definition priority_word (p : priority) : string :=
  match p with Normal => "normal" | Important => "important" | Critical => "critical" end.

(** An optional field that holds a text; [null] is as good as nothing. *)
Definition opt_text (v : option json) : option string :=
  match v with Some (JStr s) => Some s | _ => None end.
Definition opt_bool (v : option json) : option bool :=
  match v with Some (JBool b) => Some b | _ => None end.

(** An optional list of channels. *)
Definition reads_channels (v : option json) (cs : option (list channel)) : Prop :=
  match v with
  | Some (JArr l) => ∃ cs', cs = Some cs' ∧ l = (λ c, JStr (channel_word c)) <$> cs'
  | _ => cs = None
  end.

(** The same in the body of a batch, whose class has a rule for one list only
    where the other one is given: what is neither [null] nor a list of
    channels has no [NotifyBatchDto]. *)
Definition reads_channel_list (v : option json) (cs : channel_list) : Prop :=
  match v with
  | None => cs = None
  | Some JNull => cs = Some None
  | Some (JArr l) => ∃ cs', cs = Some (Some cs') ∧ l = (λ c, JStr (channel_word c)) <$> cs'
  | Some _ => False
  end.

(** The validated instance [i], seen at the type of its class.  (No rule makes
    the channels of a batch be channels, or the values of the variables be
    texts: instances in which they are not have no [NotifyDto].) *)
Record reads (i : string → option json) (dto : NotifyDto) : Prop := {
  reads_wallet : i "wallet" = Some (JStr (nd_wallet dto));
  reads_subject : i "subject" = Some (JStr (nd_subject dto));
  reads_body : i "body" = Some (JStr (nd_body dto));
  reads_category : opt_text (i "category") = nd_category dto;
  reads_key : opt_text (i "idempotencyKey") = nd_idempotencyKey dto;
  reads_receipt : opt_bool (i "receipt") = nd_receipt dto;
  reads_priority : opt_text (i "priority") = priority_word <$> nd_priority dto;
  reads_preferred : opt_text (i "preferred_channel") = channel_word <$> nd_preferred_channel dto;
  reads_batch : reads_channels (i "batchChannels") (nd_batchChannels dto);
  reads_exclude : reads_channels (i "batchExcludeChannels") (nd_batchExcludeChannels dto);
  reads_template : opt_text (i "templateId") = nd_templateId dto;
  reads_telegram : opt_text (i "telegramTemplateId") = nd_telegramTemplateId dto;
  reads_variables : match i "variables" with
    | Some (JObj l) => ∀ k, field_of k l = JStr <$> nd_variables dto !! k
    | _ => nd_variables dto = ∅
    end;
}.

(** What the pipe makes of a body. *)
Definition pipe_of `{V : Validator} (body : list (string * json)) (pipe : result NotifyDto) : Prop :=
  match validate_body NotifyDtoClass body with
  | Ok i => ∃ dto, pipe = Ok dto ∧ reads i dto
  | Err e => pipe = Err e
  end.

(** What the validation promises of a request. *)
Record valid_dto `{C : Checks} (dto : NotifyDto) : Prop := {
  valid_wallet : ck_pubkey (nd_wallet dto) = Ok (nd_wallet dto);
  valid_subject : (String.length (nd_subject dto) ≤ 150)%nat;
  valid_body : (String.length (nd_body dto) ≤ N.to_nat 10000)%nat;
  valid_category : category_of dto ∈ CATEGORIES;
}.

Lemma pipe_valid `{V : Validator} `{!ValidatorLaws V} body pipe dto :
  pipe_of body pipe → pipe = Ok dto → valid_dto dto.
Proof.
  unfold pipe_of. destruct (validate_body NotifyDtoClass body) as [i|e] eqn:Hv; [| by intros ->].
  intros (dto' & -> & Hr) [= ->].
  destruct (notify_body_accepted _ _ Hv) as ((wa & Hwa & Hpk) & (su & Hsu & Hsl) & (bo & Hbo & Hbl) & Hin & _).
  destruct Hr as [Rw Rs Rb Rc _ _ _ _ _ _ _ _ _].
  rewrite Hwa in Rw. rewrite Hsu in Rs. rewrite Hbo in Rb. injection Rw as ->. injection Rs as ->. injection Rb as ->.
  split; [done.. |]. specialize (Hin "category" CATEGORIES ltac:(left)).
  unfold category_of. rewrite <- Rc. destruct (i "category") as [[] |]; cbn in *; try done; by left.
Qed.

(** What the pipe makes of the body of a batch: its requests, in their order,
    are what its class makes of the elements of the list (which hold no
    [null], for which there is no [NotifyDto]). *)
Record reads_batch_body `{V : Validator} (i : string → option json) (dto : NotifyBatchDto) : Prop := {
  reads_notifications : ∃ bodies, i "notifications" = Some (JArr (JObj <$> bodies)) ∧
    Forall2 (λ b n, ∃ j, validate_body NotifyDtoClass b = Ok j ∧ reads j n) bodies (nb_notifications dto);
  reads_nb_channels : reads_channel_list (i "channels") (nb_channels dto);
  reads_nb_excluded : reads_channel_list (i "exclude_channels") (nb_exclude_channels dto);
}.

Definition batch_pipe_of `{V : Validator} `{N : NestedValidator} (body : list (string * json))
    (pipe : result NotifyBatchDto) : Prop :=
  match validate_batch body with
  | Ok i => ∃ dto, pipe = Ok dto ∧ reads_batch_body i dto
  | Err e => pipe = Err e
  end.

Lemma batch_pipe_valid `{V : Validator} `{!ValidatorLaws V} `{N : NestedValidator} `{!NestedLaws V N} body pipe dto :
  batch_pipe_of body pipe → pipe = Ok dto →
  (length (nb_notifications dto) ≤ 100)%nat ∧ Forall valid_dto (nb_notifications dto).
Proof.
  unfold batch_pipe_of. destruct (validate_batch body) as [i|e] eqn:Hv; [| by intros ->].
  intros (dto' & -> & [(bodies & Hi & Hall) _ _]) [= ->].
  destruct (batch_body_accepted _ _ Hv) as [(l & Hl & Hlen & _) _].
  rewrite Hi in Hl. injection Hl as <-. rewrite length_fmap in Hlen. split.
  - apply Forall2_length in Hall. by rewrite <- Hall.
  - eapply Forall2_Forall_r; [exact Hall |]. apply list.Forall_forall. intros b _ n (j & Hj & Hr).
    apply (pipe_valid b (Ok n)); [| done]. unfold pipe_of. rewrite Hj. by exists n.
Qed.

Section gateway.
Context `{B : Backend} `{Hsh : Hashing}.
Context (cfg : AuthConfig) (classify : option (ClassifyParams → result AiVerdict)) (devnet : option DevnetConfig).

(** Guards, then the interceptor, then the handler with its pipes. *)
Definition guarded {A} (scopes : list string) (subscription : bool) (rq : GatewayRequest) (now : Z)
    (handler : AuthenticatedProtocol → M World A) : M World A :=
  p ← authGuard cfg (gr_auth rq) now;
  _ ← lift (scopeGuard scopes (Some p));
  _ ← (if subscription then canActivate (Some p) now else mret true);
  _ ← intercept (limited rq p) now;
  handler p.

(** [pipe] is what the [ValidationPipe] makes of the body. *)
Definition post_notify (rq : GatewayRequest) (pipe : result NotifyDto) (id : string) (now : Z) :
    M World NotifyResponse :=
  guarded ["notify:write"] true rq now (λ p,
    dto ← lift pipe; queueNotification classify devnet dto p id now).

Definition post_batch (rq : GatewayRequest) (pipe : result NotifyBatchDto) (ids : nat → string) (now : Z) :
    M World (list batch_item) :=
  guarded ["notify:write"] true rq now (λ p,
    dto ← lift pipe; notifyBatch classify devnet dto p ids now).

Definition post_broadcast (rq : GatewayRequest) (pipe : result BroadcastDto) (broadcastId : string)
    (ids : nat → string) (now : Z) : M World BroadcastResponse :=
  guarded ["notify:write"] true rq now (λ p, dto ← lift pipe; queueBroadcast dto p broadcastId ids now).

Definition get_status (rq : GatewayRequest) (id : string) (now : Z) : M World StatusResponse :=
  guarded ["notify:read"] false rq now (λ p, getNotificationStatus id (ap_protocolId p)).

Definition get_notifications (rq : GatewayRequest) (pipe : result (Z * nat)) (now : Z) :
    M World (list (Notification * receipt_state) * Z * Z) :=
  guarded ["notify:read"] false rq now (λ p,
    page ← lift pipe; listNotifications (ap_protocolId p) page.1 page.2).

Definition post_preview (en : Engine) (rq : GatewayRequest) (pipe : result NotifyDto) (cache : TemplateCache)
    (now : Z) : M World (result Preview * TemplateCache) :=
  guarded ["notify:write"] false rq now (λ p, dto ← lift pipe; preview en dto p cache).

(** The schedules have no [SubscriptionGuard]; [Date_parse] reads an ISO
    date. *)
Definition post_schedule (Date_parse : string → option Z) (rq : GatewayRequest) (pipe : result ScheduleDto) (now : Z) :
    M World ScheduledNotification :=
  guarded ["notify:write"] false rq now (λ p, dto ← lift pipe; scheduleOnce Date_parse (ap_protocolId p) dto).

Definition post_schedule_cron (rq : GatewayRequest) (pipe : result ScheduleDto) (now : Z) :
    M World ScheduledNotification :=
  guarded ["notify:write"] false rq now (λ p, dto ← lift pipe; scheduleRecurring (ap_protocolId p) dto now).

(** The page and the limit of the query string. *)
Definition get_schedules (rq : GatewayRequest) (page limit : option string) (now : Z) : M World ScheduledPage :=
  guarded ["notify:read"] false rq now (λ p,
    listScheduled (ap_protocolId p) (parseInt (default "1" page)) (parseInt (default "50" limit))).

Definition delete_schedule (rq : GatewayRequest) (id : string) (now : Z) : M World bool :=
  guarded ["notify:write"] false rq now (λ p, _ ← cancelScheduled (ap_protocolId p) id; mret true).

(** ** What has been passed *)

Context `{BL : !BackendLaws B}.

(** Nothing but Redis is touched on the way to a handler. *)
Definition redis_frame : Frame := {|
  fr_table _ := False; fr_job _ := False; fr_key _ := True; fr_send _ := False |}.

(** A subscription of a protocol, in the cache or in the table. *)
Definition known_subscription (protocolId : string) (now : Z) (v : View) (s : Subscription) : Prop :=
  live now (re_strings (v_redis v) !! sub_key protocolId) = Some (RSubscription s) ∨
  ∃ k, v_tables v MSubscription !! k = Some s ∧ s_protocolId s = protocolId.

(** The principal of a request that reaches a handler, by what the gateway
    knew when it came in. *)
Record passed (scopes : list string) (subscription : bool) (rq : GatewayRequest) (now : Z) (v : View)
    (p : AuthenticatedProtocol) : Prop := {
  passed_admitted : admitted cfg (gr_auth rq) now v p;
  passed_scopes s : s ∈ scopes → s ∈ ap_scopes p;
  passed_standing : subscription = true → ap_tier p = 0 ∨
    ∃ s, known_subscription (ap_protocolId p) now v s ∧ in_good_standing (ap_tier p) now s;
}.

(** A request that is turned away.  Only Redis was touched, unless it is one
    that needs a subscription, of an admitted principal that has none in order:
    then the refusal is a 402, and one checkout may have been asked for at
    Helio, for that principal's wallet. *)
Definition turned_away {A} (subscription : bool) (rq : GatewayRequest) (now : Z) (v : View)
    (r : result A) (v' : View) : Prop :=
  is_ok r = false ∧
  (within redis_frame v v' ∨
   ∃ p v1, subscription = true ∧ admitted cfg (gr_auth rq) now v p ∧ ap_tier p ≠ 0 ∧
     within redis_frame v v1 ∧ asked_checkout p v1 r v').

Lemma turned_away_keeps {A} rq now v (r : result A) v' :
  turned_away false rq now v r v' → within redis_frame v v'.
Proof. by intros [_ [Hw | (p & v1 & ? & _)]]. Qed.

Lemma intercept_keeps rq now : Keeps redis_frame (intercept rq now).
Proof.
  unfold intercept, checkAllLimits, checkPerSecondLimit, RATE_LIMIT_LUA. keeps.
Qed.

Lemma auth_frame_le : frame_le auth_frame redis_frame.
Proof. by split. Qed.
Lemma guard_frame_le : frame_le guard_frame redis_frame.
Proof. by split. Qed.

(** A known subscription is known before the guard of keys has run. *)
Lemma known_before id now v v1 s : within auth_frame v v1 →
  known_subscription id now v1 s → known_subscription id now v s.
Proof.
  intros [Ht _ Hk _] [Hs | (k & Hs & Hid)].
  - left. rewrite <- Hk; [done |]. intros [h Heq]. discriminate Heq.
  - right. exists k. split; [| done]. by rewrite <- Ht by intros [].
Qed.

(** The guard of subscriptions, when it lets a protocol through. *)
Lemma canActivate_passes p now w : wp (canActivate (Some p) now) (λ r w',
  (∃ v, within guard_frame (view w) v ∧
    (view w' = v ∨ ap_tier p ≠ 0 ∧ asked_checkout p v r (view w'))) ∧
  ∀ b, r = Ok b → ap_tier p = 0 ∨
    ∃ s, known_subscription (ap_protocolId p) now (view w) s ∧ in_good_standing (ap_tier p) now s) w.
Proof.
  apply wp_intro. intros r w1 Hrun. pose proof (wp_run _ _ _ _ _ (canActivate_effect p now w) Hrun) as Hw.
  split; [done |]. intros b ->. destruct (decide (ap_tier p = 0)) as [| Hne]; [by left | right].
  pose proof (wp_run _ _ _ _ _ (guard_requires_standing p now w Hne) Hrun) as (_ & Hok & _).
  by destruct (Hok _ eq_refl).
Qed.

(** A request either reaches its handler, with only Redis touched, having
    passed everything; or it is turned away. *)
Lemma guarded_spec {A} scopes subscription rq now (h : AuthenticatedProtocol → M World A)
    (Q : result A → World → Prop) w :
  (∀ e w', turned_away (A := A) subscription rq now (view w) (Err e) (view w') → Q (Err e) w') →
  (∀ p w', passed scopes subscription rq now (view w) p → within redis_frame (view w) (view w') → wp (h p) Q w') →
  wp (guarded scopes subscription rq now h) Q w.
Proof.
  intros Hturned Hh. unfold guarded.
  assert (∀ e w', within redis_frame (view w) (view w') → Q (Err e) w') as Herr.
  { intros e w' Hw. apply Hturned. split; [done | by left]. } apply wp_bind, wp_intro. intros r w1 Hrun.
  pose proof (wp_run _ _ _ _ _ (request_authenticated cfg (gr_auth rq) now w) Hrun) as [_ Hadm].
  pose proof (wp_run _ _ _ _ _ (authGuard_keeps cfg (gr_auth rq) now w) Hrun) as Hw1.
  assert (within redis_frame (view w) (view w1)) as Hr1 by (eapply within_le, Hw1; apply auth_frame_le).
  destruct r as [p|e]; [| by apply Herr]. destruct (Hadm _ eq_refl) as [Hp _].
  apply wp_bind, wp_lift. destruct (scopeGuard scopes (Some p)) as [b|e] eqn:Hs; [| by apply Herr].
  apply scopeGuard_spec in Hs as [_ Hs].
  apply wp_bind, (wp_mono _ (λ r w2, match r with
    | Ok _ => within redis_frame (view w) (view w2) ∧ (subscription = true → ap_tier p = 0 ∨
        ∃ s, known_subscription (ap_protocolId p) now (view w) s ∧ in_good_standing (ap_tier p) now s)
    | Err e => turned_away (A := A) subscription rq now (view w) (Err e) (view w2)
    end)).
  { destruct subscription; [| by apply wp_ret].
    eapply wp_mono; [apply canActivate_passes |]. intros r w2 [(v & Hw2 & Hv) Hb].
    assert (within redis_frame (view w) v) as Hr2.
    { etrans; [exact Hr1 |]. eapply within_le, Hw2. apply guard_frame_le. }
    destruct r as [b'|e].
    - destruct Hv as [-> | (_ & ? & ? & _ & [=] & _)]. split; [done |]. intros _.
      destruct (Hb _ eq_refl) as [| (s & Hk & Hst)]; [by left | right].
      exists s. split; [by eapply known_before | done].
    - split; [done |]. destruct Hv as [-> | (Htier & t & code & Ht & [= ->] & Hv)]; [by left | right].
      exists p, v. split_and!; try done. by exists t, code. }
  intros [b'|e] w2; [intros [Hr2 Hst] | intros Hta; by apply Hturned].
  apply wp_bind, (wp_keeps redis_frame); [apply intercept_keeps |]. intros [o|e] w3 Hr3.
  2:{ apply Herr. by etrans. }
  apply Hh; [| by etrans]. split; [done | | by apply Hst].
  intros s Hin. destruct Hs as [-> | (p' & [= <-] & Hall)]; [by apply elem_of_nil in Hin | by apply Hall].
Qed.

(** ** Properties *)

(** C4.  A request for a notification, from its headers and body to the queue.
    Either it is refused, and nothing but Redis is touched: no row, no job, no
    message, except that the refusal of a principal without a subscription in
    order, a 402, may ask Helio for one checkout.  Or it has been passed on for a principal that is accounted for
    (a protocol of the table for an internal request, else the principal of a
    well-formed key that the cache holds, or of a key that is not revoked of
    an active protocol that is not suspended) and that may write
    notifications, and whose subscription, unless it is on the free tier, is
    active, within its period and under its limit; for a body that was
    accepted, whose wallet is the base58 text of a public key, whose texts are
    no longer than is allowed and whose category is one there is; and then
    only notifications, their jobs and what the classifier records may change,
    and an answer tells what the request has done. *)
Theorem request_through_gateway `{V : Validator} `{!ValidatorLaws V} rq body pipe id now w :
  pipe_of body pipe →
  wp (post_notify rq pipe id now) (λ r w',
    turned_away true rq now (view w) r (view w') ∨
    ∃ p dto v1, passed ["notify:write"] true rq now (view w) p ∧ pipe = Ok dto ∧ valid_dto dto ∧
      within redis_frame (view w) v1 ∧ within notify_frame v1 (view w') ∧
      ∀ resp, r = Ok resp → request_effect p (dto, id) v1 (view w') resp) w.
Proof.
  intros Hpipe. apply guarded_spec; [by left |]. intros p w1 Hp Hw1.
  apply wp_bind, wp_lift. destruct pipe as [dto|e] eqn:Ep; [| left; split; [done | by left]].
  eapply wp_mono; [apply (request_step classify devnet p (dto, id)) |].
  intros r w2 [Hf He]. right. exists p, dto, (view w1).
  split_and!; [done | done | by eapply pipe_valid | done | done |].
  intros resp ->. exact He.
Qed.

(** C32.  A batch, from its headers and body to the queue.  Either it is
    refused, and nothing but Redis is touched, except that a 402 may ask Helio
    for one checkout.  Or it has been passed on for a principal that is accounted for, that may write notifications and whose
    subscription is in order, as a single request would be; its body has at
    most 100 requests, each of which is valid, and it does not give both a list
    of channels and one of excluded channels; and it is answered with an item
    for each request in their order, each the answer to its own request, of
    which it had the effect, or the failure of one that rejected: no request
    keeps a later one from being made. *)
Theorem batch_through_gateway `{V : Validator} `{!ValidatorLaws V} `{N : NestedValidator} `{!NestedLaws V N}
    rq body pipe ids now w :
  batch_pipe_of body pipe →
  wp (post_batch rq pipe ids now) (λ r w',
    turned_away true rq now (view w) r (view w') ∨
    ∃ p dto v1 items, passed ["notify:write"] true rq now (view w) p ∧ pipe = Ok dto ∧
      (length (nb_notifications dto) ≤ 100)%nat ∧ Forall valid_dto (nb_notifications dto) ∧
      both_lists dto = false ∧
      within redis_frame (view w) v1 ∧ r = Ok items ∧ length items = length (nb_notifications dto) ∧
      batch_run p (batch_requests dto ids) v1 items (view w')) w.
Proof.
  intros Hpipe. apply guarded_spec; [by left |]. intros p w1 Hp Hw1.
  apply wp_bind, wp_lift. destruct pipe as [dto|e] eqn:Ep; [| left; split; [done | by left]].
  destruct (batch_pipe_valid _ _ dto Hpipe eq_refl) as [Hlen Hval].
  eapply wp_mono; [apply (batch_answered classify devnet dto p ids now) |]. intros r w2 H.
  destruct (both_lists dto) eqn:Hboth; [destruct H as [-> ->]; left; split; [done | by left] | right].
  destruct H as (items & Hr & Hi & Hb). by exists p, dto, (view w1), items.
Qed.

(** The status of a notification is shown to its own protocol only. *)
Theorem status_of_own rq id now w :
  wp (get_status rq id now) (λ r w', within redis_frame (view w) (view w') ∧ ∀ resp, r = Ok resp →
    ∃ p, passed ["notify:read"] false rq now (view w) p ∧
      n_protocolId (sr_notification resp) = ap_protocolId p ∧
      ∃ k, v_tables (view w) MNotification !! k = Some (sr_notification resp)) w.
Proof.
  apply guarded_spec; [by intros e w1 H%turned_away_keeps |]. intros p w1 Hp Hw1. unfold getNotificationStatus.
  apply wp_bind, (wp_find_first MNotification); [| by intros e w2 ->].
  intros [n|] w2 Ho Hv2; [| apply wp_raise; by rewrite Hv2]. destruct Ho as (k & Hk & Hown).
  apply wp_bind, (wp_find_many MChannelDelivery); [| intros e w3 ->; by rewrite Hv2].
  intros l w3 _ Hv3. apply wp_ret. rewrite Hv3, Hv2. split; [done |]. intros ? [= <-]. exists p. cbn.
  unfold own_notification in Hown. apply andb_true_iff in Hown as [_ Hown%bool_decide_eq_true].
  split_and!; [done | done |]. exists k. etrans; [| exact Hk].
  f_equal. symmetry. apply (within_tables _ _ _ Hw1 MNotification). by intros [].
Qed.

(** A protocol sees its own schedules that are not cancelled, with at most 50
    on a page unless it asks for another number. *)
Theorem schedules_of_own rq page now w : by_key MScheduledNotification (v_tables (view w) MScheduledNotification) →
  wp (get_schedules rq page None now) (λ r w', within redis_frame (view w) (view w') ∧ ∀ s, r = Ok s →
    ∃ p, passed ["notify:read"] false rq now (view w) p ∧ (length (sp_items s) ≤ 50)%nat ∧
      ∀ x, x ∈ sp_items s → sn_protocolId x = ap_protocolId p ∧ sn_status x ≠ CANCELLED) w.
Proof.
  intros Hkey. apply guarded_spec; [by intros e w1 H%turned_away_keeps |]. intros p w1 Hp Hw1.
  assert (v_tables (view w1) MScheduledNotification = v_tables (view w) MScheduledNotification) as Ht.
  { apply (within_tables _ _ _ Hw1 MScheduledNotification). by intros []. }
  eapply wp_mono; [apply listed_schedules; by rewrite Ht |]. intros r w2 (Hv & _ & Hs). rewrite Hv. split; [done |].
  intros s ->. destruct (Hs s eq_refl) as (Hin & _ & _ & _ & Hlen). exists p. split_and!; [done | |].
  - specialize (Hlen 50 eq_refl). lia.
  - intros x Hx. by destruct (Hin x Hx) as (? & ? & _).
Qed.
End gateway.

(** ** On concrete requests *)

Section examples.
#[local] Instance gateway_sha : Hashing := { sha256 s := s }.
#[local] Existing Instance the_validator.
#[local] Existing Instance the_validator_laws.

Definition notify_request : GatewayRequest := {|
  gr_auth := bearer live_key; gr_scheme := "https"; gr_notifications := None |}.

(** A protocol of the first paid tier with a key, and perhaps a subscription. *)
Definition paying_world (subscriptions : list Subscription) : World :=
  mem_world (with_rows MApiKey [live_key_row false] (with_rows MProtocol [active_protocol]
    (with_rows MSubscription subscriptions no_tables))) ∅.

Definition plain_body : list (string * json) :=
  [("wallet", JStr "w"); ("subject", JStr "Price alert"); ("body", JStr "SOL is up 5% today")].

Definition plain_dto : NotifyDto :=
  (sample_dto None) <| nd_category := Some "defi" |> <| nd_receipt := Some true |>
    <| nd_priority := Some Normal |>.

Lemma plain_pipe : pipe_of plain_body (Ok plain_dto).
Proof.
  unfold pipe_of.
  destruct (validate_body NotifyDtoClass plain_body) as [i|e] eqn:Hv.
  2:{ assert (is_ok (validate_body NotifyDtoClass plain_body) = true) as H by by vm_compute.
      by rewrite Hv in H. }
  apply accepted in Hv as (-> & _). exists plain_dto. split; [done |]. by split.
Qed.

Definition send_request (w : World) : result NotifyResponse * World :=
  post_notify sample_config None None notify_request (Ok plain_dto) "n1" 1000 w.

Lemma request_through_gateway_witness :
  let w := paying_world [paid_subscription] in
  ∃ resp p v1, (send_request w).1 = Ok resp ∧ nr_status resp = Queued ∧
    passed sample_config ["notify:write"] true notify_request 1000 (view w) p ∧
    within redis_frame (view w) v1 ∧ request_effect p (plain_dto, "n1") v1 (view (send_request w).2) resp.
Proof.
  intros w.
  assert (match (send_request w).1 with Ok resp => nr_status resp = Queued | Err _ => False end) as Hq
    by (vm_compute; reflexivity).
  pose proof (wp_at _ _ w _ (request_through_gateway sample_config None None notify_request plain_body
    (Ok plain_dto) "n1" 1000 w plain_pipe) eq_refl) as H.
  fold (send_request w) in H. destruct (send_request w).1 as [resp|e]; [| destruct Hq].
  destruct H as [[H _] | (p & dto & v1 & Hp & Hd & _ & Hr & _ & He)]; [discriminate H |].
  injection Hd as <-. exists resp, p, v1. split_and!; [reflexivity | exact Hq | exact Hp | exact Hr |].
  exact (He resp eq_refl).
Defined.

Definition batch_body : list (string * json) :=
  [("notifications", JArr [JObj plain_body; JObj plain_body]); ("channels", JArr [JStr "email"])].

Definition batch_of_two : NotifyBatchDto := {|
  nb_notifications := [plain_dto; plain_dto]; nb_channels := Some (Some [Email]); nb_exclude_channels := None |}.

#[local] Existing Instance the_nested_validator.
#[local] Existing Instance the_nested_laws.

Lemma batch_pipe : batch_pipe_of batch_body (Ok batch_of_two).
Proof.
  unfold batch_pipe_of. destruct (validate_batch batch_body) as [i|e] eqn:Hv.
  2:{ assert (is_ok (validate_batch batch_body) = true) as H by by vm_compute. by rewrite Hv in H. }
  unfold validate_batch in Hv. destruct (validate_body NotifyBatchDtoClass batch_body) as [i'|e'] eqn:Hb; [| done].
  destruct (from_option _ _ _) in Hv; [| done]. injection Hv as ->. apply accepted in Hb as (-> & _).
  exists batch_of_two. split; [done |].
  pose proof plain_pipe as Hp. unfold pipe_of in Hp.
  destruct (validate_body NotifyDtoClass plain_body) as [j|e'] eqn:Hj; [| done].
  destruct Hp as (dto & [= <-] & Hr).
  split; [| by exists [Email] | done].
  exists [plain_body; plain_body]. split; [done |].
  do 2 (constructor; [by exists j |]). constructor.
Qed.

Definition send_batch (w : World) : result (list batch_item) * World :=
  post_batch sample_config None None notify_request (Ok batch_of_two) (λ i, if Nat.eqb i 0 then "n1" else "n2") 1000 w.

Lemma batch_through_gateway_witness :
  let w := paying_world [paid_subscription] in
  ∃ items p v1, (send_batch w).1 = Ok items ∧ item_status <$> items = [Queued; Queued] ∧
    passed sample_config ["notify:write"] true notify_request 1000 (view w) p ∧
    batch_run p (batch_requests batch_of_two (λ i, if Nat.eqb i 0 then "n1" else "n2")) v1 items (view (send_batch w).2).
Proof.
  intros w.
  assert (match (send_batch w).1 with Ok l => item_status <$> l = [Queued; Queued] | Err _ => False end) as Hq
    by (vm_compute; reflexivity).
  pose proof (wp_at _ _ w _ (batch_through_gateway sample_config None None notify_request batch_body
    (Ok batch_of_two) (λ i, if Nat.eqb i 0 then "n1" else "n2") 1000 w batch_pipe) eq_refl) as H.
  fold (send_batch w) in H. destruct H as [[H _] | (p & dto & v1 & items & Hp & Hd & _ & _ & _ & _ & Hr & _ & Hb)].
  - destruct (send_batch w).1; [discriminate H | destruct Hq].
  - injection Hd as <-. rewrite Hr in Hq. exists items, p, v1. split_and!; [exact Hr | exact Hq | exact Hp | exact Hb].
Defined.

(** Without a subscription a paying protocol can not send, but it can have
    any notification sent by a schedule. *)
Definition unpaid_schedule : ScheduleDto := {|
  sd_wallet := Some "w"; sd_subject := "s"; sd_body := "b"; sd_category := None; sd_channels := None;
  sd_when := "2030"; sd_timezone := None; sd_templateId := None |}.

Example schedules_without_subscription :
  (send_request (paying_world [])).1 = Err (HttpError 402 "SUBSCRIPTION_INACTIVE") ∧
  is_ok (post_schedule sample_config (λ _, Some 5000) notify_request (Ok unpaid_schedule) 1000
    (paying_world [])).1 = true.
Proof. by vm_compute. Qed.

(** The checkout that refusal asks for names no protocol: its [protocol_id] is
    undefined, so the payment it leads to can only be told by the wallet. *)
Example refusal_checkout :
  v_sent (view (send_request (paying_world [])).2) =
    [HelioCheckoutEnvelope "growth" (p_protocolPubkey active_protocol) None 1].
Proof. by vm_compute. Qed.

(** A key that may write and not read sees no status. *)
Example scope_required :
  (get_status sample_config notify_request "n1" 1000 (send_request (paying_world [paid_subscription])).2).1 =
    Err (HttpError 403 "AUTH_INSUFFICIENT_SCOPE").
Proof. by vm_compute. Qed.
End examples.
