(* ===== verification/Endpoints.v ===== *)
(** * The smaller endpoints

    Controllers behind the guards of [Auth] that are not notifications:
    [AuthController] and [UsageController] of [src/modules/auth/],
    [WalletController] of [src/modules/routing/], [PortalProtocolsController]
    of [src/modules/protocol/], the preview of [TelegramWebhookController],
    and what [DomainController], [WebhookController], [AnalyticsController] and
    [AdminController] put in front of the services they call.  The calendar of the
    server, and two columns of a protocol that nothing else reads (when it was
    created and deleted), are parameters. *)

From Stdlib Require Import Ascii String.
From S2P Require Import Prelude Schema External Memory Frame Text Rx Links Markdown Helpers Telegram RateLimit.
From S2P Require Import Hex Billing Routing Domains Webhook WebhookApi Campaigns Notify Auth Scheduler NotifyApi Gateway.
From S2P Require Analytics.

Open Scope string_scope.
Open Scope list_scope.
Open Scope Z_scope.

(** ** Usage *)

(** [new Date()] at a time, as its year and month, and [new Date(year, month,
    day, hours, minutes, seconds, ms)], in the time zone of the server. *)
Record Calendar := {
  cl_fields : Z → Z * Z;
  cl_time : Z → Z → Z → Z → Z → Z → Z → Z;
}.

(** Day 0 of the next month is the last of this one. *)
Definition getEndOfMonthTimestamp (cl : Calendar) (now : Z) : Z :=
  let '(year, month) := cl_fields cl now in
  cl_time cl year (month + 1) 0 23 59 59 999 / 1000.

Record MonthUsage := {
  us_tier : Z;
  us_limit : Z;
  us_usage : Z;
  us_remaining : Z;
  us_overageEnabled : bool;
  us_resetAt : Z;
}.

Definition usage_of (cl : Calendar) (p : AuthenticatedProtocol) (now : Z) : MonthUsage :=
  let limit := tl_sendsPerMonth (getTierLimits (Some (ap_tier p))) in
  let usage := default 0 (ap_sendsThisPeriod p) in {|
  us_tier := ap_tier p; us_limit := limit; us_usage := usage; us_remaining := Z.max 0 (limit - usage);
  us_overageEnabled := default false (ap_overageEnabled p);
  us_resetAt := getEndOfMonthTimestamp cl now |}.

(** ** The preview of a Telegram message *)

Record TelegramPreview := {
  tv_text : text;
  tv_mediaType : option string;
  tv_buttons : list TgButton;
}.

Definition media_type (bannerUrl videoUrl : option string) : option string :=
  if truthy videoUrl then Some "video" else if truthy bannerUrl then Some "photo" else None.

(** The body of the request, its texts [None] where they are missing. *)
Record PreviewBody := {
  vb_subject : option string;
  vb_body : option string;
  vb_category : option string;
  vb_bannerUrl : option string;
  vb_videoUrl : option string;
}.

(** [TelegramService.buildMessage]; there is no notification, hence no button
    that mutes. *)
Definition buildMessage (F : Formatting) (maxButtons : Z) (protocolName subject body category : string)
    (tier : option Z) (bannerUrl videoUrl : option string) : TelegramPreview :=
  let emoji := getCategoryEmoji category in
  let '(cleanText, links) := parseMarkdownLinks F (units body) in {|
  tv_text := formatText F protocolName subject category tier cleanText emoji;
  tv_mediaType := media_type bannerUrl videoUrl;
  tv_buttons := buildInlineKeyboard maxButtons links [] "" |}.

Definition previewMessage (F : Formatting) (maxButtons : Z) (protocol : AuthenticatedProtocol) (b : PreviewBody) :
    TelegramPreview :=
  buildMessage F maxButtons (default "Your Protocol" (ap_name protocol)) (default "" (vb_subject b))
    (default "" (vb_body b)) (default "system" (vb_category b)) (Some (ap_tier protocol))
    (vb_bannerUrl b) (vb_videoUrl b).

(** ** The list of protocols in the portal *)

Record DiscoveredProtocol := {
  dp_protocolId : string;
  dp_name : string;
  dp_logoUrl : option string;
  dp_websiteUrl : option string;
  dp_categories : list string;
  dp_isSubscribed : bool;
}.

Definition discoverable (deletedAt : string → option Z) : where_ MProtocol := λ _ p,
  p_isActive p && negb (p_isSuspended p) && negb (bool_decide (is_Some (deletedAt (p_id p)))).

Definition active_member (walletHash : string) : where_ MProtocolSubscription := λ _ s,
  bool_decide (sub_walletHash s = walletHash) && bool_decide (sub_status s = Active).

(** Only protocols with a display name are shown. *)
Definition discovered (t : Tables) (subscribedIds : list string) (p : Protocol) : option DiscoveredProtocol :=
  let settings := t MProtocolSettings !! p_id p in
  match settings with
  | Some s =>
      if truthy (ps_customFromName s) then Some {|
        dp_protocolId := p_id p; dp_name := default "" (ps_customFromName s);
        dp_logoUrl := ps_logoUrl s; dp_websiteUrl := ps_websiteUrl s;
        dp_categories := ps_notificationCategories s;
        dp_isSubscribed := bool_decide (p_id p ∈ subscribedIds) |}
      else None
  | None => None
  end.

Section endpoints.
Context `{B : Backend} `{Hsh : Hashing}.
Context (cfg : AuthConfig).

(** A controller whose only guard is [AuthGuard]; one with [ScopeGuard]. *)
Definition behind_auth {A} (rq : AuthRequest) (now : Z) (handler : AuthenticatedProtocol → M World A) : M World A :=
  p ← authGuard cfg rq now; handler p.

Definition behind_scopes {A} (scopes : list string) (rq : AuthRequest) (now : Z)
    (handler : AuthenticatedProtocol → M World A) : M World A :=
  p ← authGuard cfg rq now; _ ← lift (scopeGuard scopes (Some p)); handler p.

(** [DELETE internal/auth/cache/:keyHash] *)
Definition delete_cached_key (rq : AuthRequest) (keyHash : string) : M World () :=
  _ ← lift (internalGuard cfg rq); invalidateCache keyHash.

(** [GET v1/usage] *)
Definition get_usage (cl : Calendar) (rq : AuthRequest) (now : Z) : M World MonthUsage :=
  behind_auth rq now (λ p, mret (usage_of cl p now)).

(** [GET v1/wallets/:wallet/status]: the wallet and the protocol. *)
Definition getWalletStatus (resolve : string → Z → M World (option IdentityAccount)) (rq : AuthRequest)
    (wallet : string) (now : Z) : M World (string * string) :=
  behind_auth rq now (λ p,
    pda ← resolve wallet now;
    match pda with
    | None => raise (HttpError 404 "Wallet not found or not opted into this protocol")
    | Some _ => mret (wallet, ap_protocolId p)
    end).

(** [POST v1/tg/preview] *)
Definition preview_telegram (F : Formatting) (maxButtons : Z) (rq : AuthRequest) (body : PreviewBody) (now : Z) :
    M World TelegramPreview :=
  behind_scopes ["notify:send"] rq now (λ p, mret (previewMessage F maxButtons p body)).

(** The settings are read with the protocols. *)
Definition listed_protocols (protocols : list Protocol) (subscriptions : list ProtocolSubscription) :
    M World (list DiscoveredProtocol) := λ w,
  (Ok (omap (discovered (v_tables (view w)) (sub_protocolId <$> subscriptions)) protocols), w).

(** [GET v1/portal/protocols], oldest protocols first. *)
Definition discover (createdAt : string → Z) (deletedAt : string → option Z) (walletHash : string) :
    M World (list DiscoveredProtocol) :=
  protocols ← find_many MProtocol (discoverable deletedAt) (Some (λ p, createdAt (p_id p)));
  subscriptions ← find_many MProtocolSubscription (active_member walletHash) None;
  listed_protocols protocols subscriptions.

(** *** [DomainController]: what forwards to [DkimService] *)

Definition post_domain createKey getPublicKey (rq : AuthRequest) (domain : string) (selector : option string)
    (now : Z) : M World ProvisionedKey :=
  behind_auth rq now (λ p,
    provisionDomainKey createKey getPublicKey (ap_protocolId p) domain (default "herald" selector) now).

Definition delete_domain (rq : AuthRequest) (id : string) (now : Z) : M World () :=
  behind_auth rq now (λ p, deleteDomainKey id (ap_protocolId p)).

Definition verify_domain resolve_txt (rq : AuthRequest) (id : string) (now : Z) : M World VerifiedDomain :=
  behind_auth rq now (λ p, verifyDomain resolve_txt id (ap_protocolId p)).

Definition register_domain ses_create ses_tokens resend_create resend_list (rq : AuthRequest) (id : string) (now : Z) :
    M World Registration :=
  behind_auth rq now (λ p, registerDomain ses_create ses_tokens resend_create resend_list id (ap_protocolId p)).

(** *** [WebhookController] *)

Definition post_webhook `{G : Gcm} (key : result bytes) (rq : AuthRequest) (dto : CreateWebhookDto)
    (secret : string) (iv : bytes) (now : Z) : M World WebhookResponse :=
  behind_scopes ["webhook:write"] rq now (λ p, create_webhook key dto p secret iv now).

Definition get_webhooks (rq : AuthRequest) (now : Z) : M World (list WebhookResponse) :=
  behind_scopes ["webhook:read"] rq now list_webhooks.

Definition patch_webhook (rq : AuthRequest) (id : string) (dto : UpdateWebhookDto) (now : Z) : M World bool :=
  behind_scopes ["webhook:write"] rq now (update_webhook id dto).

Definition delete_webhook (rq : AuthRequest) (id : string) (now : Z) : M World () :=
  behind_scopes ["webhook:write"] rq now (remove_webhook id).

Definition ping_webhook (rq : AuthRequest) (id uuid : string) (now : Z) : M World (option (string * string)) :=
  behind_scopes ["webhook:write"] rq now (λ p, test_webhook id p uuid now).

(** *** [AnalyticsController] *)

Definition get_analytics (rq : AuthRequest) (period : option Analytics.period) (now : Z) :
    M World Analytics.Overview :=
  behind_scopes ["analytics:read"] rq now (λ p,
    Analytics.getAnalytics (ap_protocolId p) (default Analytics.P30d period) now).

Definition get_analytics_usage (rq : AuthRequest) (now : Z) : M World Analytics.Usage :=
  behind_scopes ["analytics:read"] rq now (λ p, Analytics.getUsage (ap_protocolId p) (ap_tier p)).

Definition get_engagement (parse_date : string → option Z) (rq : AuthRequest) (startDate endDate : option string)
    (now : Z) : M World Analytics.Engagement :=
  behind_scopes ["analytics:read"] rq now (λ p,
    Analytics.getEngagementMetrics parse_date (ap_protocolId p) startDate endDate now).

Definition get_audience (isoDay : Z → string) (rq : AuthRequest) (now : Z) : M World Analytics.AudienceReport :=
  behind_scopes ["analytics:read"] rq now (λ p, Analytics.getAudienceAnalytics isoDay (ap_protocolId p) now).

Definition get_telegram_analytics (rq : AuthRequest) (period : option Analytics.period) (now : Z) :
    M World Analytics.TelegramReport :=
  behind_scopes ["analytics:read"] rq now (λ p,
    Analytics.getTelegramAnalytics (ap_protocolId p) (default Analytics.P30d period) now).

(** *** [AdminController] *)

Definition post_admin_broadcast queue fetchAllIdentities (rq : AuthRequest) (pipe : result SystemMessage)
    (ids : nat → string) (now : Z) : M World BroadcastSummary :=
  behind_scopes ["admin:broadcast"] rq now (λ p,
    dto ← lift pipe; broadcast queue fetchAllIdentities dto p ids).
End endpoints.

(** ** What they do *)

Section endpoint_proofs.
Context `{B : Backend} `{BL : !BackendLaws B} `{Hsh : Hashing}.
Context (cfg : AuthConfig).

(** A key that has been taken out of the cache is from then on accepted only
    if the tables vouch for it: what was revoked is refused at once. *)
Theorem invalidated_key_needs_row rq key w :
  wp (delete_cached_key cfg rq (hashKey key)) (λ r w1, r = Ok () →
    ∀ rq' h now, is_internal cfg rq' = false → rq_authorization rq' = Some h → from_index 7 h = key →
      wp (authGuard cfg rq' now) (λ r' _, ∀ p, r' = Ok p → vouched cfg (hashKey key) now (view w1) p) w1) w.
Proof.
  apply wp_bind, wp_lift. destruct (internalGuard cfg rq) as [id|e]; [| done].
  unfold invalidateCache. apply wp_redis_del; [intros w1 Hv1 | done]. intros _ rq' h now Hint Hh Hkey.
  eapply wp_mono; [apply (request_authenticated cfg rq' now w1) |].
  intros r w2 [_ Hadm] p ->. destruct (Hadm p eq_refl) as [[[Hint' _] | (_ & h' & Hh' & _ & _ & Hp)] _]; [congruence |].
  assert (h' = h) as -> by congruence. rewrite Hkey in Hp. destruct Hp as [Hc | Hp]; [| done].
  unfold cached in Hc. rewrite Hv1 in Hc. cbn in Hc. by rewrite lookup_delete_eq in Hc.
Qed.

(** The usage is that of the principal: for a key the tables vouch for, the
    counter in the row of its protocol; an internal request is shown none. *)
Theorem usage_reported cl rq now w :
  wp (get_usage cfg cl rq now) (λ r w', v_tables (view w') = v_tables (view w) ∧ ∀ u, r = Ok u →
    us_remaining u = Z.max 0 (us_limit u - us_usage u) ∧
    ((is_internal cfg rq = true ∧ us_usage u = 0) ∨
     ∃ h p, cached h now (view w) p ∧ us_usage u = default 0 (ap_sendsThisPeriod p) ∨
       ∃ k pr, v_tables (view w) MProtocol !! k = Some pr ∧ us_tier u = p_tier pr ∧
         us_usage u = p_sendsThisPeriod pr)) w.
Proof.
  apply wp_bind. eapply wp_mono; [apply (request_authenticated cfg rq now w) |].
  intros [p|e] w1 [Ht Hadm]; [| done]. apply wp_ret. split; [done |]. intros ? [= <-]. split; [done |].
  destruct (Hadm p eq_refl) as [[(Hint & k & pr & _ & _ & ->) | (_ & h & _ & _ & _ & Hp)] _]; [by left | right].
  destruct Hp as [Hc | (i & k & pr & _ & _ & _ & Hpr & _ & _ & _ & ->)].
  - eexists _, p. left. split; [exact Hc | done].
  - exists "", (principal cfg k pr None). right. eauto.
Qed.

(** The scopes a key has unless it is given others, and those of an internal
    request. *)
Definition granted : list string := ["notify:write"; "notify:read"; "admin"].

(** While keys have no other scopes than they are created with, an endpoint
    that requires another one answers nobody, and changes nothing but the
    cache of keys. *)
Theorem ungranted_scope_refused {A} scopes s rq (h : AuthenticatedProtocol → M World A) now w :
  s ∈ scopes → s ∉ granted →
  (∀ k r, v_tables (view w) MApiKey !! k = Some r → ∀ s, s ∈ k_scopes r → s ∈ granted) →
  (∀ hash p, cached hash now (view w) p → ∀ s, s ∈ ap_scopes p → s ∈ granted) →
  wp (behind_scopes cfg scopes rq now h) (λ r w', is_ok r = false ∧ within auth_frame (view w) (view w')) w.
Proof.
  intros Hin Hno Hkeys Hcache. apply wp_bind, wp_intro. intros r w1 Hrun.
  pose proof (wp_run _ _ _ _ _ (request_authenticated cfg rq now w) Hrun) as [_ Hadm].
  pose proof (wp_run _ _ _ _ _ (authGuard_keeps cfg rq now w) Hrun) as Hf.
  destruct r as [p|e]; [| done]. apply wp_bind, wp_lift.
  destruct (scopeGuard _ _) as [b|e] eqn:Hs; [| done]. exfalso. apply Hno.
  apply scopeGuard_spec in Hs as [_ [-> | (p' & [= <-] & Hall)]]; [by apply elem_of_nil in Hin |].
  specialize (Hall s Hin).
  destruct (Hadm p eq_refl) as [[(_ & k & pr & _ & _ & ->) | (_ & hd & _ & _ & _ & Hp)] _]; [exact Hall |].
  destruct Hp as [Hc | (i & k & pr & Hi & _ & _ & _ & _ & _ & _ & ->)]; [by eapply Hcache | by eapply Hkeys].
Qed.

(** The portal lists the active protocols that have a display name and are
    neither suspended nor deleted, each as subscribed exactly when the wallet
    has an active subscription to it. *)
Theorem discover_exact createdAt deletedAt walletHash w :
  wp (discover createdAt deletedAt walletHash) (λ r w', view w' = view w ∧ ∀ l, r = Ok l → ∀ d, d ∈ l ↔
    ∃ k p s, v_tables (view w) MProtocol !! k = Some p ∧ p_isActive p = true ∧ p_isSuspended p = false ∧
      deletedAt (p_id p) = None ∧ v_tables (view w) MProtocolSettings !! p_id p = Some s ∧
      truthy (ps_customFromName s) = true ∧
      dp_protocolId d = p_id p ∧ dp_name d = default "" (ps_customFromName s) ∧
      dp_logoUrl d = ps_logoUrl s ∧ dp_websiteUrl d = ps_websiteUrl s ∧
      dp_categories d = ps_notificationCategories s ∧
      (dp_isSubscribed d = true ↔ ∃ j sb, v_tables (view w) MProtocolSubscription !! j = Some sb ∧
         sub_walletHash sb = walletHash ∧ sub_status sb = Active ∧ sub_protocolId sb = p_id p)) w.
Proof.
  apply wp_bind, (wp_find_many MProtocol); [| by intros e w1 ->]. intros ps w1 Hps Hv1.
  apply wp_bind, (wp_find_many MProtocolSubscription); [| intros e w2 ->; by rewrite Hv1]. intros ss w2 Hss Hv2.
  rewrite Hv1 in Hss, Hv2.
  unfold wp, listed_protocols. cbn [fst snd]. rewrite Hv2. split; [done |]. intros ? [= <-] d.
  assert (∀ p, p_id p ∈ sub_protocolId <$> ss ↔ ∃ j sb, v_tables (view w) MProtocolSubscription !! j = Some sb ∧
    sub_walletHash sb = walletHash ∧ sub_status sb = Active ∧ sub_protocolId sb = p_id p) as Hsub.
  { intros p. rewrite list_elem_of_fmap. split.
    - intros (sb & -> & Hin). apply (selects_elem _ _ _ _ _ _ Hss) in Hin as (j & Hj & Hok). unfold active_member in Hok.
      apply andb_true_iff in Hok as [?%bool_decide_eq_true ?%bool_decide_eq_true]. eauto 10.
    - intros (j & sb & Hj & Hw & Hst & Hid). exists sb. split; [done |].
      apply (proj2 (proj2 Hss) j sb Hj). unfold active_member. by rewrite !bool_decide_eq_true_2. }
  change (tables (w_db w)) with (v_tables (view w)). rewrite list_elem_of_omap. split.
  - intros (p & (k & Hk & Hok)%(selects_elem _ _ _ _ _ _ Hps) & Hd). unfold discoverable in Hok.
    apply andb_true_iff in Hok as [[Ha Hs%negb_true_iff]%andb_true_iff Hdel%negb_true_iff%bool_decide_eq_false].
    unfold discovered in Hd. destruct (v_tables (view w) MProtocolSettings !! p_id p) as [s|] eqn:Hset; [| done].
    destruct (truthy (ps_customFromName s)) eqn:Hn; [| done]. injection Hd as <-. exists k, p, s. cbn.
    rewrite bool_decide_eq_true. split_and!; try done; try apply Hsub. by apply eq_None_not_Some.
  - intros (k & p & s & Hk & Ha & Hs & Hdel & Hset & Hn & Hf). exists p. split.
    + apply (proj2 (proj2 Hps) k p Hk). unfold discoverable. rewrite Ha, Hs, Hdel.
      by rewrite bool_decide_eq_false_2 by (by intros [? [=]]).
    + unfold discovered. rewrite Hset, Hn. destruct Hf as (Hi & Hna & Hl & Hw & Hc & Hb).
      destruct d as [di dn dl dw dc db]. cbn in *. subst. do 2 f_equal. apply eq_true_iff_eq.
      by rewrite bool_decide_eq_true, Hb, Hsub.
Qed.
End endpoint_proofs.

(** ** On concrete requests *)

Section examples.
#[local] Instance endpoints_sha : Hashing := { sha256 s := s }.

(** A Growth protocol that has used up what billing gives it is told that it
    has forty thousand sends left. *)
Definition busy_subscription : Subscription := paid_subscription <| s_sendsThisPeriod := 10000 |>.

Definition busy_world : World :=
  mem_world (with_rows MApiKey [live_key_row false] (with_rows MProtocol
    [active_protocol <| p_sendsThisPeriod := 10000 |>] (with_rows MSubscription [busy_subscription] no_tables))) ∅.

Definition no_calendar : Calendar := {| cl_fields _ := (2026, 0); cl_time _ _ _ _ _ _ _ := 0 |}.

Example usage_overstated :
  match (get_usage sample_config no_calendar (bearer live_key) 1000 busy_world).1 with
  | Ok u => us_limit u = 50000 ∧ us_remaining u = 40000
  | Err _ => False
  end ∧
  match (authGuard sample_config (bearer live_key) 1000 busy_world).1 with
  | Ok p => (canActivate (Some p) 1000 busy_world).1 = Err (HttpError 429 "QUOTA_EXCEEDED")
  | Err _ => False
  end.
Proof. vm_compute. auto. Qed.

Definition any_body : PreviewBody := {|
  vb_subject := Some "Alert"; vb_body := Some "Up"; vb_category := None; vb_bannerUrl := None; vb_videoUrl := None |}.

Example preview_refused :
  (preview_telegram sample_config plain_format 10 (bearer live_key) any_body 1000 busy_world).1 =
    Err (HttpError 403 "AUTH_INSUFFICIENT_SCOPE") ∧
  match (authGuard sample_config (bearer live_key) 1000 busy_world).1 with
  | Ok p => tv_mediaType (previewMessage plain_format 10 p any_body) = None
  | Err _ => False
  end.
Proof. vm_compute. auto. Qed.

(** So is every webhook, although the key may send notifications. *)
Example webhooks_refused :
  (get_webhooks sample_config (bearer live_key) 1000 busy_world).1 = Err (HttpError 403 "AUTH_INSUFFICIENT_SCOPE").
Proof. by vm_compute. Qed.
End examples.
