(* ===== verification/Journey.v ===== *)
(** * From the request to the delivery

    The gateway ([Gateway.post_notify]) and the worker ([Worker.process]),
    composed through the queue: what becomes of a request that was answered
    as queued when its job is run, whatever fails on the way. *)

From Stdlib Require Import Ascii String.
From S2P Require Import Prelude Schema External Memory Frame Unsubscribe Channels Routing Webhook Billing Dispatcher.
From S2P Require Import RateLimit Queue Classifier Sandbox Notify NotifyApi Digest Auth Worker Validation Gateway.

Open Scope string_scope.
Open Scope list_scope.
Open Scope Z_scope.

(** The states a run leaves a notification in when it returns. *)
Definition final (s : NotificationStatus) : Prop :=
  s ∈ [Delivered; Partial; Failed; OptedOut; Digested].

Section journey.
Context `{B : Backend} `{BL : !BackendLaws B} `{Hsh : Hashing}.
Context `{R : !Routing} `{D : !Dispatcher} `{Wh : !Webhooks}.
Context `{RL : !RoutingLaws R} `{DL : !DispatcherLaws D} `{WL : !WebhooksLaws Wh}.
Context (cfg : AuthConfig) (classify : option (ClassifyParams → result AiVerdict)) (devnet : option DevnetConfig).
Context (encrypt : list N → string → string → option string → result (option (string * string))).

(** What running a job comes to, for the notification [id] of a protocol. *)
Definition settles (id protocolId : string) (job : NotificationJobData) (v : View) (r : result ()) (v' : View) : Prop :=
  (r = Ok () → ∃ n, v_tables v' MNotification !! id = Some n ∧ final (n_status n) ∧
     (n_status n = OptedOut → j_isSandbox job = false → v_sent v' = v_sent v)) ∧
  counted protocolId (r = Ok () ∧ ∃ n, v_tables v' MNotification !! id = Some n ∧ reached (n_status n)) v v'.

Lemma job_settles job uuid now w :
  wp (process encrypt job uuid now)
    (λ r w', settles (j_notificationId job) (j_protocolId job) job (view w) r (view w')) w.
Proof.
  destruct (j_isSandbox job) eqn:Hsb.
  - eapply wp_mono; [by apply sandbox_run |]. intros r w' (Hf & Hset & _). split.
    + intros Hr. destruct (Hset Hr) as (n & Hn & Hst). exists n. split_and!; [done | | congruence].
      unfold final. set_solver.
    + eapply counted_within; [| | exact Hf]; cbn; intuition discriminate.
  - eapply wp_mono; [by apply run_spec |]. intros r w' [_ Hset Hc]. split; [| exact Hc].
    intros Hr. destruct (Hset Hr) as (n & Hn & Hst). exists n. split; [done |]. unfold reached, final in *.
    destruct Hst as [[-> | ->] | [[-> | [-> _]] Hsent]]; (split; [set_solver |]); try done; congruence.
Qed.

(** What a request that is answered as queued has added. *)
Record request_queued (p : AuthenticatedProtocol) (id : string) (job : NotificationJobData) (v v' : View) : Prop := {
  rq_job : v_jobs v' QNotification = v_jobs v QNotification ++ [deliver_job job];
  rq_row : ∃ n, v_tables v MNotification !! id = None ∧
    v_tables v' MNotification = <[id := n]> (v_tables v MNotification) ∧ n_status n = Queued;
  rq_id : j_notificationId job = id;
  rq_protocol : j_protocolId job = ap_protocolId p;
  rq_environment : j_isSandbox job = bool_decide (ap_environment p = Sandbox);
}.

Lemma effect_queued p dto id v v' resp :
  request_effect p (dto, id) v v' resp → nr_status resp = Queued → ∃ job, request_queued p id job v v'.
Proof.
  unfold request_effect. case_bool_decide as He; intros Heff Hq; destruct Heff; try congruence.
  - rewrite Hq in H. set_solver.
  - destruct H0 as [Hf Ht]. eexists. split; [exact H4 | eauto | done | done |]. by rewrite bool_decide_eq_true_2.
  - destruct H2 as [Hf Ht]. eexists. split; [exact H5 | eauto | done | done |]. by rewrite bool_decide_eq_false_2.
Qed.

(** C5.  From the request to its delivery.  A request that is answered as
    queued was one of a principal that passed the guards, and has added one
    row, queued, and one job for it.  When a worker runs that job, whatever
    fails, then if the run returns the notification is in one of its final
    states (an opted-out one of the production with nothing sent), and the run
    adds at most one send, to the counters of the protocol that made the
    request, and only if the notification reached its recipient. *)
Theorem queued_request_settles rq pipe id now w :
  wp (post_notify cfg classify devnet rq pipe id now) (λ r w1, ∀ resp, r = Ok resp → nr_status resp = Queued →
    ∃ p job, passed cfg ["notify:write"] true rq now (view w) p ∧
      request_queued p id job (view w) (view w1) ∧
      ∀ uuid now', wp (process encrypt job uuid now')
        (λ r' w2, settles id (ap_protocolId p) job (view w1) r' (view w2)) w1) w.
Proof.
  apply (guarded_spec cfg); [done |]. intros p w1 Hp [Ht Hj _ _].
  apply wp_bind, wp_lift. destruct pipe as [dto|e]; [| done].
  eapply wp_mono; [apply (request_step classify devnet p (dto, id)) |]. intros r w2 [_ He] resp -> Hq.
  destruct (effect_queued _ _ _ _ _ _ He Hq) as [job [Hjob (n & Hf & Hn & Hst) Hid Hpid Henv]].
  rewrite Hj in Hjob by intros []. rewrite (Ht MNotification) in Hf, Hn by intros [].
  exists p, job. split_and!; [done | by split; eauto |]. intros uuid now'. rewrite <- Hid, <- Hpid.
  apply job_settles.
Qed.
End journey.

(** ** A request and its delivery, run *)

Section witness.
#[local] Instance journey_sha : Hashing := { sha256 s := s }.
#[local] Instance journey_routing : Routing := routing_service
  (λ _ _, Ok (Some sample_identity))
  (λ _, Ok {| tc_email := Some "a@b"; tc_telegramChatId := None; tc_phone := None |}).
#[local] Instance journey_routing_laws : RoutingLaws journey_routing.
Proof. unfold journey_routing. apply _. Qed.
#[local] Instance journey_dispatcher : Dispatcher := channel_dispatcher channel_config.
#[local] Instance journey_dispatcher_laws : DispatcherLaws journey_dispatcher.
Proof. unfold journey_dispatcher. apply _. Qed.

Definition no_encryption : list N → string → string → option string → result (option (string * string)) :=
  λ _ _ _ _, Ok None.

Definition first_job (w : World) : option NotificationJobData :=
  job_payload <$> head (v_jobs (view w) QNotification).

Definition delivered_run : option (NotificationStatus * Z) :=
  let w1 := (send_request (paying_world [paid_subscription])).2 in
  job ← first_job w1;
  let w2 := (process no_encryption job "u" 2000 w1).2 in
  n ← v_tables (view w2) MNotification !! "n1";
  p ← v_tables (view w2) MProtocol !! "p1";
  Some (n_status n, p_sendsThisPeriod p).

Lemma queued_request_settles_witness :
  let w := paying_world [paid_subscription] in
  delivered_run = Some (Delivered, 1) ∧
  ∃ resp p job, (send_request w).1 = Ok resp ∧ nr_status resp = Queued ∧
    request_queued p "n1" job (view w) (view (send_request w).2) ∧
    ∀ uuid now', wp (process no_encryption job uuid now') (λ r' w2,
      settles "n1" (ap_protocolId p) job (view (send_request w).2) r' (view w2)) (send_request w).2.
Proof.
  intros w. split; [vm_compute; reflexivity |].
  assert (match (send_request w).1 with Ok resp => nr_status resp = Queued | Err _ => False end) as Hq
    by (vm_compute; reflexivity).
  pose proof (wp_at _ _ w _ (queued_request_settles sample_config None None no_encryption notify_request
    (Ok plain_dto) "n1" 1000 w) eq_refl) as H.
  change (post_notify sample_config None None notify_request (Ok plain_dto) "n1" 1000 w) with (send_request w) in H.
  destruct (send_request w) as [[resp|e] w1]; cbn [fst snd] in *; [| destruct Hq].
  destruct (H resp eq_refl Hq) as (p & job & _ & Hreq & Hrun). exists resp, p, job.
  split_and!; [reflexivity | exact Hq | exact Hreq | exact Hrun].
Defined.
End witness.
