(* ===== verification/Modules.v ===== *)
(** * The processes of the program

    What [src/main.ts] and [src/worker-main.ts] start: the Nest modules of the
    server ([src/app.module.ts]) and of the worker ([src/worker.module.ts]),
    with the constructor of every class that Nest constructs.  Whether a
    process can be constructed, and what runs in which process, are computed
    from this graph.  What the modules of libraries export, and how Nest tells
    modules apart, is a class with the laws its documentation states. *)

From Stdlib Require Import Ascii String.
From S2P Require Import Prelude.

Open Scope string_scope.
Open Scope list_scope.

(** ** Classes and modules *)

(** A class: its token, the path of a controller, the guards and interceptors
    that it or its methods use, and the tokens its constructor injects. *)
Record NestClass := {
  nc_name : string;
  nc_path : option string;
  nc_uses : list string;
  nc_deps : list string;
}.

Definition injectable (name : string) (deps : list string) : NestClass :=
  {| nc_name := name; nc_path := None; nc_uses := []; nc_deps := deps |}.
Definition controller (path name : string) (uses deps : list string) : NestClass :=
  {| nc_name := name; nc_path := Some path; nc_uses := uses; nc_deps := deps |}.

(** The token of a queue. *)
Definition queue (name : string) : string := "BullQueue_" +:+ name.

(** What a module imports: a module of the program, or one of a library. *)
Inductive import :=
| Own (name : string)
| ConfigModule
| ConfigRoot                       (** [ConfigModule.forRoot({ isGlobal: true })] *)
| ScheduleRoot                     (** [ScheduleModule.forRoot()] *)
| BullRoot                         (** [BullModule.forRootAsync] *)
| Queues (names : list string)     (** [BullModule.registerQueue] *)
| LoggerRoot                       (** [LoggerModule.forRoot] *)
| PrometheusRoot.                  (** [PrometheusModule.register] *)

#[export] Instance import_eq_dec : EqDecision import.
Proof. solve_decision. Defined.

Record NestModule := {
  nm_name : string;
  nm_global : bool;                 (** [@Global()] *)
  nm_imports : list import;
  nm_controllers : list string;
  nm_providers : list string;
  nm_exports : list string;
}.

Definition local name imports controllers providers exports : NestModule := {|
  nm_name := name; nm_global := false; nm_imports := imports; nm_controllers := controllers;
  nm_providers := providers; nm_exports := exports |}.
Definition global name imports controllers providers exports : NestModule := {|
  nm_name := name; nm_global := true; nm_imports := imports; nm_controllers := controllers;
  nm_providers := providers; nm_exports := exports |}.

(** *** The classes, by directory *)

(** The providers that are made by a factory. *)
Definition REDIS_CLIENT_factory : NestClass := injectable "REDIS_CLIENT" ["ConfigService"].
Definition LIGHT_ENV_factory : NestClass := injectable "LIGHT_ENV" ["ConfigService"].

(** *** database *)

Definition nest_PrismaService : NestClass := injectable "PrismaService" [].

(** *** solana *)

Definition nest_RpcManagerService : NestClass := injectable "RpcManagerService" ["ConfigService"].
Definition nest_SolanaService : NestClass := injectable "SolanaService" ["RpcManagerService"; "ConfigService"].

(** *** storage *)

Definition nest_ArweaveStorageService : NestClass := injectable "ArweaveStorageService" ["ConfigService"].

(** *** common *)

Definition nest_AuthGuard : NestClass := injectable "AuthGuard" ["AuthService"; "ConfigService"; "PrismaService"].
Definition nest_InternalGuard : NestClass := injectable "InternalGuard" ["ConfigService"].
Definition nest_PortalAuthGuard : NestClass := injectable "PortalAuthGuard" ["PrismaService"].
Definition nest_ScopeGuard : NestClass := injectable "ScopeGuard" ["Reflector"].
Definition nest_RateLimitInterceptor : NestClass := injectable "RateLimitInterceptor" ["RateLimitService"].
Definition nest_RequestLogInterceptor : NestClass := injectable "RequestLogInterceptor" ["PrismaService"].
Definition nest_SolanaPubkeyPipe : NestClass := injectable "SolanaPubkeyPipe" [].
Definition nest_UlidPipe : NestClass := injectable "UlidPipe" [].

(** *** auth *)

Definition nest_AuthController : NestClass :=
  controller "internal/auth" "AuthController" ["InternalGuard"]
    ["AuthService"].
Definition nest_AuthService : NestClass :=
  injectable "AuthService" ["PrismaService"; "ConfigService"; "REDIS_CLIENT"].
Definition nest_RateLimitService : NestClass := injectable "RateLimitService" ["REDIS_CLIENT"; "PrismaService"].
Definition nest_UsageController : NestClass :=
  controller "v1/usage" "UsageController" ["AuthGuard"]
    ["RateLimitService"].

(** *** routing *)

Definition nest_RoutingEnclaveService : NestClass := injectable "routing/EnclaveService" ["ConfigService"].
Definition nest_RoutingService : NestClass :=
  injectable "RoutingService" ["SolanaService"; "routing/EnclaveService"; "REDIS_CLIENT"].
Definition nest_SandboxRoutingService : NestClass :=
  injectable "SandboxRoutingService" ["ConfigService"; "SandboxService"; "routing/EnclaveService"].
Definition nest_WalletController : NestClass :=
  controller "v1/wallets" "WalletController" ["AuthGuard"]
    ["RoutingService"].

(** *** sandbox *)

Definition nest_SandboxController : NestClass :=
  controller "v1/sandbox" "SandboxController" ["AuthGuard"; "ScopeGuard"]
    ["PrismaService"; "QueueService"; "SandboxService"].
Definition nest_SandboxService : NestClass := injectable "SandboxService" ["PrismaService"; "REDIS_CLIENT"].

(** *** queue *)

Definition nest_QueueService : NestClass :=
  injectable "QueueService" [queue "notification"; queue "webhook"; queue "bounce"].
Definition nest_DigestWorker : NestClass :=
  injectable "DigestWorker" ["RoutingService"; "ChannelDispatchService"; "PrismaService"; "DigestService"].
Definition nest_MailWorker : NestClass :=
  injectable "MailWorker" ["RoutingService"; "routing/EnclaveService"; "ChannelDispatchService"; "WebhookService";
    "OverageMeteringService"; "DigestService"; "PrismaService"; "ArweaveStorageService"].

(** *** notify *)

Definition nest_AiClassifierService : NestClass :=
  injectable "AiClassifierService" ["ConfigService"; "PrismaService"].
Definition nest_ContentScannerService : NestClass := injectable "ContentScannerService" [].
Definition nest_DigestService : NestClass := injectable "DigestService" ["PrismaService"; queue "digest"].
Definition nest_NotifyController : NestClass :=
  controller "v1" "NotifyController" ["AuthGuard"; "ScopeGuard"; "RateLimitInterceptor"; "SubscriptionGuard"]
    ["NotifyService"; "TemplateService"; "SchedulerService"].
Definition nest_NotifyService : NestClass :=
  injectable "NotifyService" ["REDIS_CLIENT"; "SandboxRoutingService"; "SandboxService"; "QueueService";
    "PrismaService"; "SubscriptionsService"; "ContentScannerService"; "AiClassifierService"].
Definition nest_PortalNotificationsController : NestClass :=
  controller "v1/portal/notifications" "PortalNotificationsController" ["PortalAuthGuard"]
    ["PrismaService"].
Definition nest_PortalUnsubscribeController : NestClass :=
  controller "v1/portal/unsubscribe" "PortalUnsubscribeController" []
    ["UnsubscribeService"].
Definition nest_SchedulerService : NestClass := injectable "SchedulerService" ["PrismaService"; queue "notification"].
Definition nest_UnsubscribeController : NestClass :=
  controller "unsubscribe" "UnsubscribeController" []
    ["UnsubscribeService"].
Definition nest_UnsubscribeService : NestClass := injectable "UnsubscribeService" ["PrismaService"; "ConfigService"].

(** *** subscriptions *)

Definition nest_PortalSubscriptionsController : NestClass :=
  controller "v1/portal/subscriptions" "PortalSubscriptionsController" ["PortalAuthGuard"]
    ["SubscriptionsService"; "PrismaService"].
Definition nest_SubscriptionsController : NestClass :=
  controller "v1/subscriptions" "SubscriptionsController" ["AuthGuard"; "ScopeGuard"]
    ["SubscriptionsService"].
Definition nest_InternalSubscriptionsController : NestClass :=
  controller "internal/subscriptions" "InternalSubscriptionsController" ["InternalGuard"]
    ["SubscriptionsService"].
Definition nest_SubscriptionsService : NestClass := injectable "SubscriptionsService" ["PrismaService"].

(** *** template *)

Definition nest_MjmlCompilerService : NestClass := injectable "MjmlCompilerService" [].
Definition nest_TemplateController : NestClass :=
  controller "v1/templates" "TemplateController" ["AuthGuard"; "ScopeGuard"]
    ["PrismaService"; "TemplateService"].
Definition nest_TemplateService : NestClass := injectable "TemplateService" ["PrismaService"].
Definition nest_UrlValidator : NestClass := injectable "UrlValidator" [].
Definition nest_XssSanitizer : NestClass := injectable "XssSanitizer" [].

(** *** mail *)

Definition nest_MailService : NestClass :=
  injectable "MailService" ["SmtpProvider"; "SesProvider"; "ResendProvider"; "ConfigService"].
Definition nest_ResendProvider : NestClass := injectable "ResendProvider" ["ConfigService"].
Definition nest_SesProvider : NestClass := injectable "SesProvider" ["ConfigService"; "PrismaService"].
Definition nest_SmtpProvider : NestClass := injectable "SmtpProvider" ["ConfigService"].
Definition nest_SesIdentityService : NestClass := injectable "SesIdentityService" ["ConfigService"; "REDIS_CLIENT"].

(** *** channel *)

Definition nest_ChannelDispatchService : NestClass :=
  injectable "ChannelDispatchService" ["MailService"; "TelegramService"; "TelegramMigrationService"; "SnsService";
    "TemplateService"; "PrismaService"; "ConfigService"; "SesIdentityService"; "REDIS_CLIENT"].
Definition nest_SnsService : NestClass := injectable "SnsService" ["ConfigService"].
Definition nest_TelegramService : NestClass :=
  injectable "TelegramService" ["ConfigService"; "PrismaService"; "REDIS_CLIENT"].

(** *** telegram *)

Definition nest_TelegramMigrationService : NestClass :=
  injectable "TelegramMigrationService" ["ConfigService"; "PrismaService"; "RoutingService";
    "routing/EnclaveService"; "REDIS_CLIENT"].
Definition nest_TelegramWebhookController : NestClass :=
  controller "v1/tg" "TelegramWebhookController" ["AuthGuard"; "ScopeGuard"]
    ["TelegramWebhookService"; "TelegramMigrationService"; "TelegramService"; "ConfigService"].
Definition nest_TelegramWebhookService : NestClass :=
  injectable "TelegramWebhookService" ["ConfigService"; "PrismaService"; "REDIS_CLIENT"; "TelegramService"].

(** *** webhook *)

Definition nest_WebhookController : NestClass :=
  controller "v1/webhooks" "WebhookController" ["AuthGuard"; "ScopeGuard"]
    ["PrismaService"; "WebhookService"].
Definition nest_WebhookService : NestClass := injectable "WebhookService" ["PrismaService"; queue "webhook"].
Definition nest_WebhookWorker : NestClass := injectable "WebhookWorker" ["PrismaService"; "ConfigService"].

(** *** billing *)

Definition nest_BillingController : NestClass :=
  controller "v1/billing" "BillingController" ["AuthGuard"]
    ["BillingService"; "HelioService"; "SubscriptionService"; "ProtocolService"].
Definition nest_BillingService : NestClass :=
  injectable "BillingService" ["SubscriptionRepository"; "PaymentRepository"; "ProtocolService"; "HelioService"].
Definition nest_HelioService : NestClass := injectable "HelioService" ["ConfigService"; "PinoLogger"].
Definition nest_HelioWebhookController : NestClass :=
  controller "v1/billing/helio" "HelioWebhookController" ["HelioWebhookGuard"]
    ["PinoLogger"; "HelioEventRepository"; "ProtocolService"; queue "billing-webhooks"].
Definition nest_HelioWebhookGuard : NestClass := injectable "HelioWebhookGuard" ["HelioService"; "PinoLogger"].
Definition nest_OnChainEventListenerService : NestClass :=
  injectable "OnChainEventListenerService" ["SolanaService"; "SubscriptionService"; "PaymentRepository";
    "PrismaService"; "PinoLogger"].
Definition nest_OnChainRenewalService : NestClass :=
  injectable "OnChainRenewalService" ["SolanaService"; "ConfigService"; "PinoLogger"].
Definition nest_OverageMeteringService : NestClass := injectable "OverageMeteringService" ["PrismaService"].
Definition nest_HelioEventRepository : NestClass := injectable "HelioEventRepository" ["PrismaService"].
Definition nest_PaymentRepository : NestClass := injectable "PaymentRepository" ["PrismaService"].
Definition nest_SubscriptionRepository : NestClass :=
  injectable "SubscriptionRepository" ["PrismaService"; "REDIS_CLIENT"].
Definition nest_SubscriptionGuard : NestClass :=
  injectable "SubscriptionGuard" ["SubscriptionRepository"; "HelioService"; "REDIS_CLIENT"].
Definition nest_SubscriptionScheduler : NestClass :=
  injectable "SubscriptionScheduler" ["SubscriptionService"; "SubscriptionRepository"; "PrismaService";
    "OnChainRenewalService"; "PinoLogger"].
Definition nest_SubscriptionService : NestClass :=
  injectable "SubscriptionService" ["PrismaService"; "OnChainRenewalService"; "HelioService";
    "SubscriptionRepository"; "PaymentRepository"; "HelioEventRepository"; "MailService"; "TemplateService";
    "PinoLogger"].

(** *** bounce *)

Definition nest_BounceController : NestClass :=
  controller "internal/sns" "BounceController" []
    ["PrismaService"; queue "bounce"].
Definition nest_BounceService : NestClass := injectable "BounceService" ["PrismaService"].
Definition nest_BounceWorker : NestClass := injectable "BounceWorker" ["BounceService"].
Definition nest_ResendWebhookController : NestClass :=
  controller "internal/webhooks" "ResendWebhookController" []
    ["BounceService"; "ConfigService"].

(** *** sqs *)

Definition nest_SqsConsumerService : NestClass := injectable "SqsConsumerService" ["ConfigService"; queue "bounce"].

(** *** receipt *)

Definition nest_LightClientService : NestClass := injectable "LightClientService" ["ConfigService"].
Definition nest_ReceiptService : NestClass :=
  injectable "ReceiptService" ["PrismaService"; "ConfigService"; queue "receipt-batch"; "REDIS_CLIENT"].
Definition nest_ReceiptWorker : NestClass :=
  injectable "ReceiptWorker" ["LightClientService"; "PrismaService"; "ConfigService"].

(** *** analytics *)

Definition nest_AnalyticsController : NestClass :=
  controller "v1" "AnalyticsController" ["AuthGuard"; "ScopeGuard"]
    ["AnalyticsService"].
Definition nest_AnalyticsService : NestClass :=
  injectable "AnalyticsService" ["PrismaService"; "SubscriptionsService"].

(** *** protocol *)

Definition nest_PortalProtocolsController : NestClass :=
  controller "v1/portal/protocols" "PortalProtocolsController" ["PortalAuthGuard"]
    ["PrismaService"].
Definition nest_ProtocolController : NestClass :=
  controller "v1/protocols" "ProtocolController" ["AuthGuard"; "ScopeGuard"]
    ["ProtocolService"; "PrismaService"].
Definition nest_ProtocolService : NestClass := injectable "ProtocolService" ["PrismaService"].

(** *** domain *)

Definition nest_BimiService : NestClass := injectable "BimiService" ["PrismaService"; "DnsVerificationService"].
Definition nest_DkimService : NestClass := injectable "DkimService" ["PrismaService"; "ConfigService"].
Definition nest_DnsVerificationService : NestClass := injectable "DnsVerificationService" [].
Definition nest_DomainController : NestClass :=
  controller "v1/domains" "DomainController" ["AuthGuard"]
    ["DkimService"; "BimiService"; "PrismaService"].

(** *** admin *)

Definition nest_AdminController : NestClass :=
  controller "v1/admin" "AdminController" ["AuthGuard"; "ScopeGuard"]
    ["AdminService"].
Definition nest_AdminService : NestClass :=
  injectable "AdminService" ["SolanaService"; "NotifyService"; "QueueService"; "PrismaService"].
Definition nest_InternalCampaignController : NestClass :=
  controller "internal/campaigns" "InternalCampaignController" ["InternalGuard"]
    ["AdminService"].

(** *** campaign *)

Definition nest_CampaignController : NestClass :=
  controller "v1/campaigns" "CampaignController" ["AuthGuard"; "ScopeGuard"]
    ["PrismaService"; "AdminService"].

(** *** enclave *)

Definition nest_EnclaveController : NestClass :=
  controller "enclave" "EnclaveController" ["InternalGuard"]
    ["EnclaveService"].
Definition nest_EnclaveService : NestClass := injectable "EnclaveService" ["ConfigService"; "SolanaService"].

(** *** health *)

Definition nest_HealthController : NestClass :=
  controller "health" "HealthController" []
    ["PrismaService"; "REDIS_CLIENT"; "ConfigService"].
Definition nest_MetricsController : NestClass :=
  controller "metrics" "MetricsController" []
    [].

(** *** status *)

Definition nest_StatusController : NestClass :=
  controller "status" "StatusController" []
    ["StatusService"].
Definition nest_StatusService : NestClass := injectable "StatusService" ["PrismaService"; "REDIS_CLIENT"].

Definition classes : list NestClass := [
  REDIS_CLIENT_factory; LIGHT_ENV_factory;
  nest_PrismaService; nest_RpcManagerService; nest_SolanaService; nest_ArweaveStorageService; nest_AuthGuard;
  nest_InternalGuard; nest_PortalAuthGuard; nest_ScopeGuard; nest_RateLimitInterceptor;
  nest_RequestLogInterceptor; nest_SolanaPubkeyPipe; nest_UlidPipe; nest_AuthController; nest_AuthService;
  nest_RateLimitService; nest_UsageController; nest_RoutingEnclaveService; nest_RoutingService;
  nest_SandboxRoutingService; nest_WalletController; nest_SandboxController; nest_SandboxService;
  nest_QueueService; nest_DigestWorker; nest_MailWorker; nest_AiClassifierService; nest_ContentScannerService;
  nest_DigestService; nest_NotifyController; nest_NotifyService; nest_PortalNotificationsController;
  nest_PortalUnsubscribeController; nest_SchedulerService; nest_UnsubscribeController; nest_UnsubscribeService;
  nest_PortalSubscriptionsController; nest_SubscriptionsController; nest_InternalSubscriptionsController;
  nest_SubscriptionsService; nest_MjmlCompilerService; nest_TemplateController; nest_TemplateService;
  nest_UrlValidator; nest_XssSanitizer; nest_MailService; nest_ResendProvider; nest_SesProvider;
  nest_SmtpProvider; nest_SesIdentityService; nest_ChannelDispatchService; nest_SnsService; nest_TelegramService;
  nest_TelegramMigrationService; nest_TelegramWebhookController; nest_TelegramWebhookService;
  nest_WebhookController; nest_WebhookService; nest_WebhookWorker; nest_BillingController; nest_BillingService;
  nest_HelioService; nest_HelioWebhookController; nest_HelioWebhookGuard; nest_OnChainEventListenerService;
  nest_OnChainRenewalService; nest_OverageMeteringService; nest_HelioEventRepository; nest_PaymentRepository;
  nest_SubscriptionRepository; nest_SubscriptionGuard; nest_SubscriptionScheduler; nest_SubscriptionService;
  nest_BounceController; nest_BounceService; nest_BounceWorker; nest_ResendWebhookController;
  nest_SqsConsumerService; nest_LightClientService; nest_ReceiptService; nest_ReceiptWorker;
  nest_AnalyticsController; nest_AnalyticsService; nest_PortalProtocolsController; nest_ProtocolController;
  nest_ProtocolService; nest_BimiService; nest_DkimService; nest_DnsVerificationService; nest_DomainController;
  nest_AdminController; nest_AdminService; nest_InternalCampaignController; nest_CampaignController;
  nest_EnclaveController; nest_EnclaveService; nest_HealthController; nest_MetricsController;
  nest_StatusController; nest_StatusService].

(** ** Modules *)

Definition nest_PrismaModule : NestModule := global "PrismaModule" [] [] ["PrismaService"] ["PrismaService"].
Definition nest_RedisModule : NestModule := global "RedisModule" [] [] ["REDIS_CLIENT"] ["REDIS_CLIENT"].
Definition nest_SolanaModule : NestModule :=
  local "SolanaModule" [] [] ["SolanaService"; "RpcManagerService"] ["SolanaService"; "RpcManagerService"].
Definition nest_ArweaveStorageModule : NestModule :=
  local "ArweaveStorageModule" [ConfigModule] [] ["ArweaveStorageService"] ["ArweaveStorageService"].
Definition nest_AuthModule : NestModule :=
  local "AuthModule" [ConfigModule; Own "RedisModule"; Own "PrismaModule"] ["UsageController"; "AuthController"]
    ["AuthService"; "RateLimitService"] ["AuthService"; "RateLimitService"].
Definition nest_QueueModule : NestModule :=
  local "QueueModule" [Queues ["notification"; "webhook"; "bounce"; "digest"; "campaign"]] []
    ["QueueService"; "DigestService"] ["QueueService"; "DigestService"].
Definition nest_SandboxModule : NestModule :=
  global "SandboxModule" [ScheduleRoot; Own "QueueModule"; Own "AuthModule"] ["SandboxController"]
    ["SandboxService"] ["SandboxService"].
Definition nest_RoutingModule : NestModule :=
  local "RoutingModule" [Own "SolanaModule"; Own "AuthModule"; Own "SandboxModule"] ["WalletController"]
    ["RoutingService"; "routing/EnclaveService"; "SandboxRoutingService"]
    ["RoutingService"; "routing/EnclaveService"; "SandboxRoutingService"].
Definition nest_MailModule : NestModule :=
  local "MailModule" [] []
    ["MailService"; "SmtpProvider"; "SesProvider"; "ResendProvider"; "SesIdentityService"]
    ["MailService"; "SesIdentityService"].
Definition nest_TemplateModule : NestModule :=
  local "TemplateModule" [Own "PrismaModule"; Own "AuthModule"] ["TemplateController"]
    ["TemplateService"] ["TemplateService"].
Definition nest_ChannelModule : NestModule :=
  local "ChannelModule" [Own "MailModule"; Own "TemplateModule"; Own "PrismaModule"; Own "RoutingModule"] []
    ["ChannelDispatchService"; "TelegramService"; "TelegramMigrationService"; "SnsService"]
    ["ChannelDispatchService"; "TelegramService"; "TelegramMigrationService"; "SnsService"].
Definition nest_ProtocolModule : NestModule :=
  local "ProtocolModule" [Own "AuthModule"; Own "PrismaModule"] ["ProtocolController"; "PortalProtocolsController"]
    ["ProtocolService"; "PortalAuthGuard"] ["ProtocolService"].
Definition nest_BillingModule : NestModule :=
  local "BillingModule"
    [Own "AuthModule"; Own "PrismaModule"; Own "MailModule"; Own "ProtocolModule"; Own "TemplateModule";
     Queues ["billing-webhooks"]; ScheduleRoot; Own "SolanaModule"]
    ["BillingController"; "HelioWebhookController"]
    ["BillingService"; "OverageMeteringService"; "HelioService"; "SubscriptionService"; "OnChainRenewalService";
     "OnChainEventListenerService"; "SubscriptionScheduler"; "SubscriptionGuard"; "SubscriptionRepository";
     "PaymentRepository"; "HelioEventRepository"]
    ["BillingService"; "OverageMeteringService"; "SubscriptionService"; "SubscriptionGuard";
     "SubscriptionRepository"; "HelioService"].
Definition nest_SubscriptionsModule : NestModule :=
  local "SubscriptionsModule" [ConfigModule; Own "AuthModule"; Own "PrismaModule"]
    ["SubscriptionsController"; "InternalSubscriptionsController"; "PortalSubscriptionsController"]
    ["SubscriptionsService"; "PortalAuthGuard"] ["SubscriptionsService"].
Definition nest_NotifyModule : NestModule :=
  local "NotifyModule"
    [Own "AuthModule"; Own "PrismaModule"; Own "RoutingModule"; Own "QueueModule"; Own "BillingModule";
     Own "TemplateModule"; Own "SubscriptionsModule"; Queues ["notification"]]
    ["NotifyController"; "UnsubscribeController"; "PortalUnsubscribeController"; "PortalNotificationsController"]
    ["NotifyService"; "UnsubscribeService"; "PortalAuthGuard"; "RateLimitInterceptor"; "SchedulerService";
     "ContentScannerService"; "AiClassifierService"]
    ["NotifyService"; "UnsubscribeService"; "SchedulerService"].
Definition nest_WebhookModule : NestModule :=
  local "WebhookModule" [Queues ["webhook"]; Own "AuthModule"] ["WebhookController"]
    ["WebhookService"; "WebhookWorker"] ["WebhookService"].
Definition nest_BounceModule : NestModule :=
  local "BounceModule" [Queues ["bounce"]] ["BounceController"; "ResendWebhookController"]
    ["BounceService"; "BounceWorker"] [].
Definition nest_SqsModule : NestModule :=
  local "SqsModule" [ConfigModule; Queues ["bounce"]] [] ["SqsConsumerService"] [].
Definition nest_ReceiptModule : NestModule :=
  local "ReceiptModule"
    [ConfigModule; ScheduleRoot; Own "SolanaModule"; Own "RedisModule"; Queues ["receipt-batch"]] []
    ["ReceiptService"; "LightClientService"; "ReceiptWorker"; "LIGHT_ENV"] ["ReceiptService"].
Definition nest_AnalyticsModule : NestModule :=
  local "AnalyticsModule" [Own "AuthModule"; Own "SubscriptionsModule"] ["AnalyticsController"]
    ["AnalyticsService"] ["AnalyticsService"].
Definition nest_DomainModule : NestModule :=
  local "DomainModule" [Own "AuthModule"] ["DomainController"]
    ["DkimService"; "DnsVerificationService"; "BimiService"] ["DkimService"; "DnsVerificationService"; "BimiService"].
Definition nest_AdminModule : NestModule :=
  local "AdminModule" [Own "SolanaModule"; Own "NotifyModule"; Own "AuthModule"; Own "QueueModule"]
    ["AdminController"; "InternalCampaignController"] ["AdminService"] ["AdminService"].
Definition nest_CampaignModule : NestModule :=
  local "CampaignModule" [Own "AuthModule"; Own "AdminModule"] ["CampaignController"] [] [].
Definition nest_TelegramModule : NestModule :=
  local "TelegramModule" [Own "PrismaModule"; Own "ChannelModule"; Own "AuthModule"] ["TelegramWebhookController"]
    ["TelegramWebhookService"] ["TelegramWebhookService"].
Definition nest_EnclaveModule : NestModule :=
  local "EnclaveModule" [Own "SolanaModule"] ["EnclaveController"] ["EnclaveService"] ["EnclaveService"].
Definition nest_HealthModule : NestModule := local "HealthModule" [] ["HealthController"] [] [].
Definition nest_StatusModule : NestModule := local "StatusModule" [] ["StatusController"] ["StatusService"] [].

(** The server; the interceptor is registered as [APP_INTERCEPTOR], and
    [PrometheusModule] is given the controller of the metrics. *)
Definition nest_AppModule : NestModule :=
  local "AppModule"
    [ConfigRoot; Own "PrismaModule"; ScheduleRoot; Own "RedisModule"; BullRoot;
     Own "SandboxModule"; Own "AuthModule"; Own "HealthModule"; Own "StatusModule"; Own "NotifyModule";
     Own "SubscriptionsModule"; Own "WebhookModule"; Own "BounceModule"; Own "AnalyticsModule";
     Own "ProtocolModule"; Own "DomainModule"; Own "ReceiptModule"; Own "SolanaModule"; Own "BillingModule";
     Own "AdminModule"; Own "RoutingModule"; Own "ChannelModule"; Own "TelegramModule"; Own "EnclaveModule";
     Own "ArweaveStorageModule"; Own "TemplateModule"; Own "CampaignModule"; LoggerRoot; PrometheusRoot]
    ["MetricsController"] ["RequestLogInterceptor"] [].

Definition nest_WorkerModule : NestModule :=
  local "WorkerModule"
    [ConfigRoot; Own "PrismaModule"; Own "RedisModule"; BullRoot; ScheduleRoot; LoggerRoot;
     Own "QueueModule"; Own "RoutingModule"; Own "ChannelModule"; Own "WebhookModule"; Own "BillingModule";
     Own "ArweaveStorageModule"; Own "BounceModule"; Own "SqsModule"; Own "ReceiptModule"; Own "SandboxModule"]
    [] ["MailWorker"; "DigestWorker"] [].

Definition modules : list NestModule := [
  nest_PrismaModule; nest_RedisModule; nest_SolanaModule; nest_ArweaveStorageModule; nest_AuthModule;
  nest_QueueModule; nest_SandboxModule; nest_RoutingModule; nest_MailModule; nest_TemplateModule;
  nest_ChannelModule; nest_ProtocolModule; nest_BillingModule; nest_SubscriptionsModule; nest_NotifyModule;
  nest_WebhookModule; nest_BounceModule; nest_SqsModule; nest_ReceiptModule; nest_AnalyticsModule;
  nest_DomainModule; nest_AdminModule; nest_CampaignModule; nest_TelegramModule; nest_EnclaveModule;
  nest_HealthModule; nest_StatusModule].

(** ** A process *)

Definition class_named (name : string) : option NestClass :=
  List.find (λ c, (nc_name c =? name)%string) classes.
Definition module_named (name : string) : option NestModule :=
  List.find (λ m, (nm_name m =? name)%string) modules.

Definition own_imports (m : NestModule) : list NestModule :=
  omap (λ i, match i with Own n => module_named n | _ => None end) (nm_imports m).

Definition listed (m : NestModule) (ms : list NestModule) : bool :=
  existsb (λ m', (nm_name m' =? nm_name m)%string) ms.

(** The modules that are imported from a root, each once. *)
Fixpoint reach (fuel : nat) (todo found : list NestModule) : list NestModule :=
  match fuel, todo with
  | S fuel', m :: todo' =>
      if listed m found then reach fuel' todo' found
      else reach fuel' (own_imports m ++ todo') (found ++ [m])
  | _, _ => found
  end.

Definition process_of (root : NestModule) : list NestModule := reach 400 [root] [].

(** The guards and interceptors of a controller are constructed in its
    module. *)
Definition constructed_in (m : NestModule) : list string :=
  nm_providers m ++ nm_controllers m ++
  flat_map (λ c, from_option nc_uses [] (class_named c)) (nm_controllers m).

(** *** What libraries promise *)

Class Nest := {
  lib_exports : import → list string;
  lib_global : import → bool;
  (** What Nest itself provides everywhere. *)
  lib_core : list string;
  (** Whether two calls that make a module, such as [ScheduleModule.forRoot()],
      make two modules, also if they are called alike. *)
  lib_by_reference : bool;
}.

(** What the documentation of the libraries says is exported. *)
Definition documented (i : import) : list string :=
  match i with
  | ConfigModule | ConfigRoot => ["ConfigService"]
  | ScheduleRoot => ["SchedulerRegistry"]
  | Queues names => queue <$> names
  | LoggerRoot => ["PinoLogger"; "Logger"]
  | _ => []
  end.

Class NestLaws (N : Nest) : Prop := {
  exports_law i t : t ∈ documented i → t ∈ lib_exports i;
  global_law i : i ∈ [ConfigRoot; LoggerRoot] → lib_global i = true;
  core_law : "Reflector" ∈ lib_core;
}.

Section nest.
Context `{N : Nest}.

Definition exports_of (i : import) : list string :=
  match i with
  | Own n => from_option nm_exports [] (module_named n)
  | _ => lib_exports i
  end.

(** What is exported to every module of a process. *)
Definition global_exports (ms : list NestModule) : list string :=
  lib_core ++ flat_map (λ m, (if nm_global m then nm_exports m else []) ++
    flat_map (λ i, match i with Own _ => [] | _ => if lib_global i then lib_exports i else [] end) (nm_imports m)) ms.

Definition visible (ms : list NestModule) (m : NestModule) : list string :=
  nm_providers m ++ flat_map exports_of (nm_imports m) ++ global_exports ms.

(** Every class that is constructed in a module of the process finds what its
    constructor injects. *)
Definition resolved (ms : list NestModule) : Prop :=
  ∀ m name, m ∈ ms → name ∈ constructed_in m →
    ∃ c, class_named name = Some c ∧ ∀ d, d ∈ nc_deps c → d ∈ visible ms m.
End nest.

(** Libraries that export what is documented and nothing else. *)
Definition documented_nest (by_reference : bool) : Nest := {|
  lib_exports := documented;
  lib_global i := bool_decide (i ∈ [ConfigRoot; LoggerRoot]);
  lib_core := ["Reflector"];
  lib_by_reference := by_reference |}.

Definition resolved_b (ms : list NestModule) : bool :=
  forallb (λ m, forallb (λ name, match class_named name with
    | Some c => forallb (λ d, existsb (String.eqb d) (visible (N := documented_nest true) ms m)) (nc_deps c)
    | None => false
    end) (constructed_in m)) ms.

(** ** Scheduled jobs *)

Record Cron := { cr_class : string; cr_method : string; cr_expr : string }.

Definition cron class method expr : Cron := {| cr_class := class; cr_method := method; cr_expr := expr |}.

Definition flushDueDigests_cron : Cron := cron "DigestService" "flushDueDigests" "0 0 * * * *".
Definition enqueueReceiptBatches_cron : Cron := cron "ReceiptService" "enqueueReceiptBatches" "0 */5 * * * *".
Definition cleanupOldReceipts_cron : Cron := cron "SandboxService" "cleanupOldReceipts" "EVERY_DAY_AT_2AM".
Definition reconcilePendingJobs_cron : Cron := cron "SchedulerService" "reconcilePendingJobs" "*/5 * * * *".
Definition expireStaleSubscriptions_cron : Cron := cron "SubscriptionScheduler" "expireStaleSubscriptions" "EVERY_HOUR".
Definition resetPeriodSends_cron : Cron := cron "SubscriptionScheduler" "resetPeriodSends" "0 0 * * *".
Definition cleanExpiredPendingConnections_cron : Cron :=
  cron "TelegramWebhookService" "cleanExpiredPendingConnections" "EVERY_10_MINUTES".
Definition refreshGroupMemberCounts_cron : Cron :=
  cron "TelegramWebhookService" "refreshGroupMemberCounts" "EVERY_DAY_AT_4AM".

(** In how many modules of a process a class is a provider. *)
Definition instances (ms : list NestModule) (class : string) : nat :=
  length (List.filter (λ m, existsb (String.eqb class) (nm_providers m)) ms).

Definition schedule_imports (ms : list NestModule) : nat :=
  length (List.filter (λ i, bool_decide (i = ScheduleRoot)) (flat_map nm_imports ms)).

(** The schedulers of a process: each calls the jobs of all its classes. *)
Definition schedulers `{N : Nest} (ms : list NestModule) : nat :=
  if lib_by_reference then schedule_imports ms else Nat.min 1 (schedule_imports ms).

(** How often a job is called when its time has come. *)
Definition calls_per_tick `{N : Nest} (ms : list NestModule) (j : Cron) : nat :=
  schedulers ms * instances ms (cr_class j).

(** ** That the processes can be constructed *)

Definition server : list NestModule := process_of nest_AppModule.
Definition worker : list NestModule := process_of nest_WorkerModule.

(** The walk has ended: the root of a process is in it, and so is all that its
    modules import. *)
Lemma processes_closed root : root ∈ [nest_AppModule; nest_WorkerModule] →
  root ∈ process_of root ∧
  ∀ m i, m ∈ process_of root → i ∈ own_imports m → listed i (process_of root) = true.
Proof.
  intros Hroot. assert (head (process_of root) = Some root ∧
    forallb (λ m, forallb (λ i, listed i (process_of root)) (own_imports m)) (process_of root) = true) as [Hh Hall].
  { rewrite !elem_of_cons, elem_of_nil in Hroot. destruct Hroot as [-> | [-> | []]]; by vm_compute. }
  split; [apply head_Some_elem_of in Hh; exact Hh |].
  intros m i Hm%list_elem_of_In Hi%list_elem_of_In. rewrite forallb_forall in Hall.
  specialize (Hall m Hm). rewrite forallb_forall in Hall. by apply Hall.
Qed.

Section soundness.
Context `{N : Nest} `{!NestLaws N}.

Lemma documented_visible ms m t b : t ∈ visible (N := documented_nest b) ms m → t ∈ visible ms m.
Proof.
  unfold visible, global_exports. rewrite !elem_of_app. intros [Hp | [Hi | [Hc | Hg]]].
  - by left.
  - right; left. apply list_elem_of_In, in_flat_map in Hi as (i & Hin & Ht%list_elem_of_In).
    apply list_elem_of_In, in_flat_map. exists i. split; [done |]. apply list_elem_of_In.
    destruct i; try done; by apply exports_law.
  - right; right; left. apply list_elem_of_singleton in Hc as ->. apply core_law.
  - right; right; right. apply list_elem_of_In, in_flat_map in Hg as (m' & Hm' & Ht%list_elem_of_In).
    apply list_elem_of_In, in_flat_map. exists m'. split; [done |]. apply list_elem_of_In.
    apply elem_of_app in Ht as [Ht | Ht]; apply elem_of_app; [by left | right].
    apply list_elem_of_In, in_flat_map in Ht as (i & Hin & Hx%list_elem_of_In).
    apply list_elem_of_In, in_flat_map. exists i. split; [done |]. apply list_elem_of_In.
    cbn [lib_global lib_exports documented_nest] in Hx.
    destruct (decide (i ∈ [ConfigRoot; LoggerRoot])) as [Hi | Hi].
    + rewrite (global_law i Hi). rewrite (bool_decide_eq_true_2 _ Hi) in Hx.
      destruct i; try (apply exports_law; exact Hx). exact Hx.
    + rewrite (bool_decide_eq_false_2 _ Hi) in Hx. exfalso. apply (not_elem_of_nil t). by destruct i.
Qed.

Lemma resolved_sound ms : resolved_b ms = true → resolved ms.
Proof.
  unfold resolved_b. rewrite forallb_forall. intros H m name Hm Hname.
  specialize (H m (proj1 (list_elem_of_In _ _) Hm)). rewrite forallb_forall in H.
  specialize (H name (proj1 (list_elem_of_In _ _) Hname)).
  destruct (class_named name) as [c |]; [| done]. exists c. split; [done |]. intros d Hd.
  rewrite forallb_forall in H. specialize (H d (proj1 (list_elem_of_In _ _) Hd)).
  apply existsb_exists in H as (x & Hx & ->%String.eqb_eq). eapply documented_visible. by apply list_elem_of_In.
Qed.

(** Every class that the server and the worker construct (the providers and
    controllers of their modules, and the guards and interceptors of the
    controllers) is declared, and finds all that its constructor injects: in
    its own module, in what its module imports, or in what is exported to
    every module. *)
Theorem processes_resolve : resolved server ∧ resolved worker.
Proof. split; apply resolved_sound; by vm_compute. Qed.
End soundness.

(** What can be constructed: a token of a library, or a class all of whose
    dependencies can be. *)
Inductive constructible : string → Prop :=
| library_token t : class_named t = None → constructible t
| class_token t c : class_named t = Some c → (∀ d, d ∈ nc_deps c → constructible d) → constructible t.

Fixpoint constructs (fuel : nat) (t : string) : bool :=
  match fuel with
  | O => false
  | S fuel' => match class_named t with
               | None => true
               | Some c => forallb (constructs fuel') (nc_deps c)
               end
  end.

Lemma constructs_sound fuel t : constructs fuel t = true → constructible t.
Proof.
  revert t. induction fuel as [|fuel IH]; intros t; [done |]. cbn [constructs].
  destruct (class_named t) as [c |] eqn:Hc; [| by left]. intros H.
  right with c; [done |]. intros d Hd. apply IH. apply (proj1 (forallb_forall _ _) H). by apply list_elem_of_In.
Qed.

(** No class depends on itself, by way of whatever other classes: there is an
    order in which both processes can be constructed. *)
Theorem processes_constructible m t : m ∈ server ++ worker → t ∈ constructed_in m → constructible t.
Proof.
  intros Hm Ht. apply (constructs_sound 12).
  assert (forallb (λ m, forallb (constructs 12) (constructed_in m)) (server ++ worker) = true) as H by by vm_compute.
  rewrite forallb_forall in H. specialize (H m (proj1 (list_elem_of_In _ _) Hm)). cbn beta in H.
  exact (proj1 (forallb_forall _ _) H t (proj1 (list_elem_of_In _ _) Ht)).
Qed.

(** What a module exports it has: nothing is exported that is not a provider
    of it. *)
Lemma exports_provided m : m ∈ modules → ∀ t, t ∈ nm_exports m → t ∈ nm_providers m.
Proof.
  assert (forallb (λ m, forallb (λ t, existsb (String.eqb t) (nm_providers m)) (nm_exports m)) modules = true) as H
    by by vm_compute.
  intros Hm t Ht. rewrite forallb_forall in H. specialize (H m (proj1 (list_elem_of_In _ _) Hm)).
  pose proof (proj1 (forallb_forall _ _) H t (proj1 (list_elem_of_In _ _) Ht)) as Hex.
  apply existsb_exists in Hex as (x & Hx & ->%String.eqb_eq). by apply list_elem_of_In.
Qed.

(** ** What runs where *)

(** The consumers of the queues and of SQS, and the classes with scheduled
    jobs, by the processes that construct them: the consumers of webhooks,
    receipts and bounces run in both. *)
Theorem who_runs :
  (λ c, (c, instances server c, instances worker c)) <$>
    ["MailWorker"; "DigestWorker"; "WebhookWorker"; "ReceiptWorker"; "BounceWorker"; "SqsConsumerService";
     "DigestService"; "ReceiptService"; "SandboxService"; "SubscriptionScheduler";
     "SchedulerService"; "TelegramWebhookService"] =
  [("MailWorker", 0, 1); ("DigestWorker", 0, 1); ("WebhookWorker", 1, 1); ("ReceiptWorker", 1, 1);
   ("BounceWorker", 1, 1); ("SqsConsumerService", 0, 1);
   ("DigestService", 1, 1); ("ReceiptService", 1, 1); ("SandboxService", 1, 1); ("SubscriptionScheduler", 1, 1);
   ("SchedulerService", 1, 0); ("TelegramWebhookService", 1, 0)]%nat.
Proof. by vm_compute. Qed.

(** A job of a class that both processes construct is called by both; where
    Nest tells modules apart by reference, each of the four imports of the
    scheduler in a process calls it. *)
Theorem cron_calls `{N : Nest} j :
  j ∈ [flushDueDigests_cron; enqueueReceiptBatches_cron; cleanupOldReceipts_cron;
       expireStaleSubscriptions_cron; resetPeriodSends_cron] →
  calls_per_tick server j = (if lib_by_reference then 4 else 1)%nat ∧
  calls_per_tick worker j = (if lib_by_reference then 4 else 1)%nat.
Proof.
  intros Hj. assert (instances server (cr_class j) = 1%nat ∧ instances worker (cr_class j) = 1%nat) as [H1 H2].
  { rewrite !elem_of_cons, elem_of_nil in Hj. by destruct Hj as [-> | [-> | [-> | [-> | [-> | []]]]]]; vm_compute. }
  assert (schedule_imports server = 4%nat ∧ schedule_imports worker = 4%nat) as [H3 H4] by by vm_compute.
  unfold calls_per_tick, schedulers. rewrite H1, H2, H3, H4. by destruct lib_by_reference.
Qed.

(** The jobs of schedules and of Telegram are called by the server alone. *)
Lemma server_cron_calls `{N : Nest} j :
  j ∈ [reconcilePendingJobs_cron; cleanExpiredPendingConnections_cron; refreshGroupMemberCounts_cron] →
  calls_per_tick server j = (if lib_by_reference then 4 else 1)%nat ∧ calls_per_tick worker j = 0%nat.
Proof.
  intros Hj. assert (instances server (cr_class j) = 1%nat ∧ instances worker (cr_class j) = 0%nat) as [H1 H2].
  { rewrite !elem_of_cons, elem_of_nil in Hj. by destruct Hj as [-> | [-> | [-> | []]]]; vm_compute. }
  assert (schedule_imports server = 4%nat) as H3 by by vm_compute.
  unfold calls_per_tick, schedulers. rewrite H1, H2, H3. by destruct lib_by_reference.
Qed.

(** The classes that neither process constructs: the MJML compiler, with its
    sanitizer and its validator of URLs, and the pipes. *)
Theorem never_constructed :
  nc_name <$> List.filter (λ c, negb (existsb (λ m, existsb (String.eqb (nc_name c)) (constructed_in m)) (server ++ worker))) classes =
  ["SolanaPubkeyPipe"; "UlidPipe"; "MjmlCompilerService"; "UrlValidator"; "XssSanitizer"].
Proof. by vm_compute. Qed.

(** The controllers without any guard: the links of the unsubscription, the
    two endpoints of providers, the status pages and the metrics. *)
Theorem unguarded_controllers :
  nc_name <$> List.filter (λ c, bool_decide (is_Some (nc_path c)) && bool_decide (nc_uses c = [])) classes =
  ["PortalUnsubscribeController"; "UnsubscribeController"; "BounceController"; "ResendWebhookController";
   "HealthController"; "MetricsController"; "StatusController"].
Proof. by vm_compute. Qed.

(** ** A library as documented *)

Lemma documented_laws b : NestLaws (documented_nest b).
Proof.
  split; [done | | by left]. intros i Hi. cbn. by rewrite bool_decide_eq_true_2.
Qed.

Lemma processes_resolve_witness :
  resolved (N := documented_nest true) server ∧ class_named "MailWorker" = Some nest_MailWorker.
Proof.
  pose proof (documented_laws true) as L.
  exact (conj (proj1 (processes_resolve (N := documented_nest true))) eq_refl).
Defined.
