(* ===== verification/Startup.v ===== *)
(** * The start of the processes

    [src/main.ts] and [src/worker-main.ts] over the modules of [Modules]: what
    is set up before the server listens, the hooks that run when the modules
    are initialised and whether they stop the start, and what becomes of the
    jobs that more than one scheduler calls.  The calls into Nest and into
    the libraries are parameters. *)

From Stdlib Require Import Ascii String.
From stdpp Require Import pretty.
From S2P Require Import Prelude Schema External Memory Frame Unsubscribe Digest Config Chain.
From S2P Require Modules.

Open Scope string_scope.
Open Scope list_scope.
Open Scope Z_scope.

(** ** The server *)

Inductive origin := AnyOrigin | Origins (l : list string).

Record CorsOptions := { co_origin : origin; co_methods : list string; co_credentials : bool }.

Definition corsOptions (e : env) : CorsOptions := {|
  co_origin := if bool_decide (e "NODE_ENV" = Some "production")
               then Origins ["https://app.useherald.xyz"; "https://notify.useherald.xyz"] else AnyOrigin;
  co_methods := ["GET"; "POST"; "PATCH"; "DELETE"];
  co_credentials := true |}.

(** What [bootstrap] does to the application, in order. *)
Inductive setup :=
| UseLogger
| UseHelmet (contentSecurityPolicy : bool)
| UseCompression
| EnableCors (options : CorsOptions)
| UseValidationPipe (whitelist forbidNonWhitelisted transform implicitConversion : bool)
| UseExceptionFilter
| UseInterceptors (timeoutMs : Z)      (** logging, the timeout, the response time *)
| ServeDocs (path : string)
| Listen (port : string).

Definition server_setup (e : env) : list setup := [
  UseLogger; UseHelmet false; UseCompression; EnableCors (corsOptions e);
  UseValidationPipe true true true true; UseExceptionFilter; UseInterceptors 30000; ServeDocs "docs"].

Definition server_port (e : env) : string := default "3000" (e "PORT").

(** A process that runs, or that has ended with a code. *)
Inductive outcome := Running | Exited (code : Z).

(** [NestFactory.create] and [app.listen], which initialises the modules; a
    rejection ends the process. *)
Definition bootstrap_server (create : result ()) (listen : string → result ()) (e : env) : outcome * list setup :=
  match create with
  | Err _ => (Exited 1, [])
  | Ok _ =>
      match listen (server_port e) with
      | Ok _ => (Running, server_setup e ++ [Listen (server_port e)])
      | Err _ => (Exited 1, server_setup e)
      end
  end.

(** ** The worker *)

(** [NestFactory.createApplicationContext], which initialises the modules. *)
Definition bootstrap_worker (create : result ()) : outcome :=
  match create with Ok _ => Running | Err _ => Exited 1 end.

(** On SIGTERM the application is closed; nothing catches a rejection of
    that, which Node ends the process for, with the code 1. *)
Definition on_sigterm (close : result ()) : outcome :=
  match close with Ok _ => Exited 0 | Err _ => Exited 1 end.

(** ** Hooks *)

(** What the hooks call. *)
Record Init := {
  in_connect : result ();                       (** Prisma's [$connect] *)
  in_storage : result (option Irys);            (** [init_storage] *)
  in_telegram : string → result ();             (** [new Telegram(token)] *)
  in_sns : string → result ();                  (** [new SNSClient({ region })] *)
}.

(** [TelegramService.onModuleInit], and the same of [TelegramWebhookService]:
    whether the service is enabled. *)
Definition init_telegram (new : string → result ()) (token : option string) : bool :=
  truthy token && is_ok (new (default "" token)).

(** [SnsService.onModuleInit] *)
Definition init_sns (new : string → result ()) (region : option string) : bool :=
  is_ok (new (default "us-east-1" region)).

(** The hooks: whether the service of a class is enabled after its hook, or
    how the hook rejects.  The other hooks catch what they call. *)
Definition hook (i : Init) (e : env) (class : string) : result bool :=
  if (class =? "PrismaService")%string then
    match in_connect i with Ok _ => Ok true | Err x => Err x end
  else if (class =? "ArweaveStorageService")%string then
    match in_storage i with Ok irys => Ok (isEnabled irys) | Err x => Err x end
  else if (class =? "TelegramService")%string || (class =? "TelegramWebhookService")%string then
    Ok (init_telegram (in_telegram i) (e "TELEGRAM_BOT_TOKEN"))
  else if (class =? "SnsService")%string then Ok (init_sns (in_sns i) (e "AWS_REGION"))
  else Ok true.

(** The hooks of a process: those of the providers of its modules. *)
Definition init_modules (i : Init) (e : env) (ms : list Modules.NestModule) : result () :=
  foldr (λ class r, match hook i e class with Ok _ => r | Err x => Err x end) (Ok ())
    (flat_map Modules.nm_providers ms).

Lemma init_modules_ok i e ms : is_ok (init_modules i e ms) = true ↔
  ∀ class, class ∈ flat_map Modules.nm_providers ms → is_ok (hook i e class) = true.
Proof.
  unfold init_modules. induction (flat_map Modules.nm_providers ms) as [|c l IH]; cbn.
  { split; [by intros _ c ?%elem_of_nil | done]. }
  destruct (hook i e c) as [b|x] eqn:Hc.
  - rewrite IH. split; [intros H c' [-> | Hc']%elem_of_cons; [by rewrite Hc | by apply H] | intros H c' Hc'; apply H; by right].
  - split; [done |]. intros H. specialize (H c ltac:(left)). by rewrite Hc in H.
Qed.

Lemma hooks_of i e ms : "PrismaService" ∈ flat_map Modules.nm_providers ms →
  "ArweaveStorageService" ∈ flat_map Modules.nm_providers ms →
  is_ok (init_modules i e ms) = true ↔ is_ok (in_connect i) = true ∧ is_ok (in_storage i) = true.
Proof.
  intros Hp Ha. rewrite init_modules_ok. split.
  - intros H. pose proof (H _ Hp) as H1. pose proof (H _ Ha) as H2. unfold hook in H1, H2. cbn in H1, H2.
    by destruct (in_connect i), (in_storage i).
  - intros [Hc Hs] class _. unfold hook.
    destruct (_ =? _)%string; [by destruct (in_connect i) |]. destruct (_ =? _)%string; [by destruct (in_storage i) |].
    by repeat case_match.
Qed.

Lemma in_providers class ms : existsb (String.eqb class) (flat_map Modules.nm_providers ms) = true →
  class ∈ flat_map Modules.nm_providers ms.
Proof. intros (x & Hx & ->%String.eqb_eq)%existsb_exists. by apply list_elem_of_In. Qed.

(** The server listens exactly when Nest can create the application, the
    database answers, the storage of payloads starts (which it does without a
    secret) and the port is free; then everything is set up before it
    listens, and else the process ends with code 1.  Telegram, SMS and
    the proofs of receipts are optional. *)
Theorem server_listens create i bind e :
  let listen := λ port, match init_modules i e Modules.server with Ok _ => bind port | Err x => Err x end in
  let '(o, done_) := bootstrap_server create listen e in
  (o = Running ↔ is_ok create = true ∧ is_ok (in_connect i) = true ∧ is_ok (in_storage i) = true ∧
                 is_ok (bind (server_port e)) = true) ∧
  (o = Running → done_ = server_setup e ++ [Listen (server_port e)]) ∧
  (o ≠ Running → o = Exited 1).
Proof.
  intros listen. unfold bootstrap_server, listen.
  pose proof (hooks_of i e Modules.server (in_providers "PrismaService" Modules.server eq_refl)
    (in_providers "ArweaveStorageService" Modules.server eq_refl)) as Hh.
  destruct create as [[]|x]; [| by split_and!; [split; [| intros (? & _)] | |]].
  destruct (init_modules i e Modules.server) as [[]|x]; cbn in Hh.
  - destruct Hh as [Hh _]. destruct (Hh eq_refl) as [-> ->].
    destruct (bind (server_port e)); (split_and!; [| done | done]); split; try done. by intros (_ & _ & _ & ?).
  - split_and!; [| done | done]. split; [done |]. intros (_ & H1 & H2 & _). by destruct Hh as [_ Hh]; discriminate Hh.
Qed.

(** So does the worker. *)
Theorem worker_runs i e : bootstrap_worker (init_modules i e Modules.worker) = Running ↔
  is_ok (in_connect i) = true ∧ is_ok (in_storage i) = true.
Proof.
  rewrite <- (hooks_of i e Modules.worker (in_providers "PrismaService" Modules.worker eq_refl)
    (in_providers "ArweaveStorageService" Modules.worker eq_refl)).
  unfold bootstrap_worker. by destruct (init_modules i e Modules.worker).
Qed.

(** The requests of a browser that CORS does not let through: the methods of
    the routes that are not among those that are allowed. *)
Definition put_routes : list (string * string) :=
  [("v1/portal/subscriptions", ":protocolId/preferences"); ("v1/templates", "email/:id")].

Theorem put_not_allowed e : "PUT" ∉ co_methods (corsOptions e) ∧
  ∀ r, r ∈ put_routes → ∃ c, c ∈ Modules.classes ∧ Modules.nc_path c = Some r.1.
Proof.
  split; [cbn; rewrite !elem_of_cons, elem_of_nil; naive_solver |].
  assert (∀ name c, Modules.class_named name = Some c → c ∈ Modules.classes) as Hin.
  { intros name c [Hc _]%find_some. by apply list_elem_of_In. }
  unfold put_routes. intros r Hr. rewrite !elem_of_cons, elem_of_nil in Hr. destruct Hr as [-> | [-> | []]].
  - exists Modules.nest_PortalSubscriptionsController. split; [| done].
    by apply (Hin "PortalSubscriptionsController").
  - exists Modules.nest_TemplateController. split; [| done]. by apply (Hin "TemplateController").
Qed.

(** ** Jobs that several schedulers call *)

(** A job of the digest queue for a wallet. *)
Definition digests_for (walletHash : string) (js : list (job QDigest)) : nat :=
  length (List.filter (λ j : job QDigest, (dj_walletHash (job_payload j) =? walletHash)%string) js).

Section flushes.
Context `{B : Backend} `{BL : !BackendLaws B}.

(** The calls of the hourly flush by all schedulers of all processes, each at
    its own time; none waits for another to succeed. *)
Definition flushes (times : list Z) : M World (list (result ())) := all_settled (flushDueDigests <$> times).

Lemma append_inj_length a b s t : String.length a = String.length b → a +:+ s = b +:+ t → a = b ∧ s = t.
Proof.
  revert b. induction a as [|c a IH]; intros [|d b] Hl H; try done.
  change (String c (a +:+ s) = String d (b +:+ t)) in H. injection H as -> H. injection Hl as Hl.
  by destruct (IH b Hl H) as [-> ->].
Qed.

Lemma digest_id_inj_2 a b n m : String.length a = String.length b →
  digest_id a n = digest_id b m → a = b ∧ n = m.
Proof.
  unfold digest_id. intros Hl H. injection H as H. destruct (append_inj_length _ _ _ _ Hl H) as [-> H'].
  injection H' as H'. split; [done |]. by apply (inj pretty).
Qed.

Lemma digests_app wh js js' : digests_for wh (js ++ js') = (digests_for wh js + digests_for wh js')%nat.
Proof. unfold digests_for. by rewrite List.filter_app, length_app. Qed.

(** Jobs of groups have each wallet once. *)
Lemma digests_of_groups wh now (groups : list (string * list DigestJobEntry)) :
  NoDup groups.*1 → wh ∈ groups.*1 → digests_for wh (digest_job now <$> groups) = 1%nat.
Proof.
  intros Hnd Hin. assert (∀ gs : list (string * list DigestJobEntry), wh ∉ gs.*1 →
    digests_for wh (digest_job now <$> gs) = 0%nat) as Hnone.
  { induction gs as [|g gs IH]; [done |]. cbn. intros [Hne Hn]%not_elem_of_cons. unfold digests_for in *. cbn.
    destruct (String.eqb_spec g.1 wh) as [<- |]; [done | by apply IH]. }
  induction groups as [|g groups IH]; [by apply elem_of_nil in Hin |].
  cbn in Hnd. apply list.NoDup_cons in Hnd as [Hg Hnd]. unfold digests_for in *. cbn.
  destruct (String.eqb_spec g.1 wh) as [<- | Hne]; cbn.
  - f_equal. by apply Hnone.
  - apply IH; [done |]. cbn in Hin. by apply elem_of_cons in Hin as [-> |].
Qed.

(** Each call of the flush that succeeds adds a job for every wallet with an
    entry that is due and not sent, whatever the others have added before:
    for [n] calls before a worker marks the entry as sent, [n] jobs, and each
    of them sends a digest.  (The hashes of wallets have one length, and no
    job has one of the ids already.) *)
Theorem digests_multiply times wh n w :
  NoDup times →
  (∀ k e, v_tables (view w) MDigestQueue !! k = Some e → String.length (d_walletHash e) = n) →
  (∀ j t k e, j ∈ v_jobs (view w) QDigest → t ∈ times → v_tables (view w) MDigestQueue !! k = Some e →
     job_jobId j ≠ Some (digest_id (d_walletHash e) t)) →
  (∃ k e, v_tables (view w) MDigestQueue !! k = Some e ∧ d_walletHash e = wh ∧ d_sentAt e = None ∧
     ∀ t, t ∈ times → d_scheduledFor e ≤ t) →
  wp (flushes times) (λ r w', v_tables (view w') = v_tables (view w) ∧
    ∀ rs, r = Ok rs → length rs = length times ∧ (Forall (λ r, is_ok r = true) rs →
      digests_for wh (v_jobs (view w') QDigest) = (digests_for wh (v_jobs (view w) QDigest) + length times)%nat)) w.
Proof.
  intros Hnd Hlen Hfresh (k0 & e0 & Hk0 & Hwh & Hsent & Hdue).
  apply (wp_all_settled _ (λ rs ms w', ∃ done_ rest, times = done_ ++ rest ∧ ms = flushDueDigests <$> rest ∧
    length rs = length done_ ∧ v_tables (view w') = v_tables (view w) ∧
    (∀ j, j ∈ v_jobs (view w') QDigest → j ∈ v_jobs (view w) QDigest ∨
       ∃ g t, t ∈ done_ ∧ String.length g.1 = n ∧ j = digest_job t g) ∧
    (Forall (λ r, is_ok r = true) rs →
       digests_for wh (v_jobs (view w') QDigest) = (digests_for wh (v_jobs (view w) QDigest) + length done_)%nat))).
  - exists [], times. split_and!; [done.. | by left | by intros _; cbn; lia].
  - intros rs m ms w1 (done_ & [|t rest] & Ht & Hms & Hrs & Htab & Hjobs & Hcount); [done |]. injection Hms as -> ->.
    assert (t ∉ done_) as Hnew.
    { rewrite Ht in Hnd. apply list.NoDup_app in Hnd as (_ & Hdis & _). intros Hd. apply (Hdis t Hd). left. }
    assert (t ∈ times) as Htin by (rewrite Ht, elem_of_app; right; left).
    eapply wp_mono; [apply flush_groups |].
    { rewrite Htab. intros j k e Hj Hk. destruct (Hjobs j Hj) as [Hold | (g & t' & Ht' & Hg & ->)]; [by eapply Hfresh |].
      intros Heq%(inj Some). apply (digest_id_inj_2 g.1 (d_walletHash e)) in Heq as [_ ->]; [done |].
      by rewrite Hg, (Hlen k e Hk). }
    rewrite Htab. intros r w2 (entries & l & Hsel & Hpre & Hok & Hj & Ht2).
    pose proof (group_by_grouped d_walletHash digest_entry entries) as Hgr.
    exists (done_ ++ [t]), rest. rewrite Ht, <- app_assoc, !length_app. split_and!; [done.. | cbn; lia | congruence | |].
    + intros j. rewrite Hj, elem_of_app. intros [Hin | (g & -> & Hg)%list_elem_of_fmap].
      * destruct (Hjobs j Hin) as [| (g & t' & Ht' & Hg & ->)]; [by left | right].
        exists g, t'. split_and!; [| done..]. apply elem_of_app. by left.
      * right. exists g, t. split_and!; [apply elem_of_app; right; left | | done].
        assert (g.1 ∈ (group_by d_walletHash digest_entry entries).*1) as Hkey.
        { destruct Hpre as [l' ->]. rewrite fmap_app, elem_of_app. left. by apply list_elem_of_fmap_2. }
        apply (grouped_key _ _ _ _ _ Hgr) in Hkey as (x & Hx & <-).
        destruct Hsel as (_ & (ks & _ & Hks) & _). apply list_elem_of_lookup in Hx as [i Hi].
        destruct (Forall2_lookup_r _ _ _ _ _ Hks Hi) as (k' & _ & Hk' & _). by apply (Hlen k').
    + intros [Hrs' Hr]%list.Forall_app. rewrite list.Forall_singleton in Hr. destruct r as [[]|e]; [| done].
      rewrite Hj, (Hok eq_refl), digests_app, Hcount by done.
      rewrite digests_of_groups; [cbn; lia | by destruct Hgr |].
      apply (grouped_key _ _ _ _ _ Hgr). exists e0. split; [| done]. destruct Hsel as (_ & _ & Hall).
      apply (Hall k0); [done |]. unfold due. rewrite (bool_decide_eq_true_2 _ Hsent), andb_true_r.
      apply Z.leb_le. by apply Hdue.
  - intros rs w1 (done_ & [|t rest] & Ht & Hms & Hrs & Htab & _ & Hcount); [| done]. rewrite app_nil_r in Ht. subst done_.
    split; [done |]. intros rs' [= <-]. split; [done | exact Hcount].
Qed.

(** So with both processes running, a wallet gets eight digests where one is
    due, if Nest tells modules apart by reference, and two otherwise. *)
Theorem digests_per_hour `{N : Modules.Nest} times wh n w :
  length times = (Modules.calls_per_tick Modules.server Modules.flushDueDigests_cron +
                  Modules.calls_per_tick Modules.worker Modules.flushDueDigests_cron)%nat →
  NoDup times →
  (∀ k e, v_tables (view w) MDigestQueue !! k = Some e → String.length (d_walletHash e) = n) →
  v_jobs (view w) QDigest = [] →
  (∃ k e, v_tables (view w) MDigestQueue !! k = Some e ∧ d_walletHash e = wh ∧ d_sentAt e = None ∧
     ∀ t, t ∈ times → d_scheduledFor e ≤ t) →
  wp (flushes times) (λ r w', ∀ rs, r = Ok rs → Forall (λ r, is_ok r = true) rs →
    digests_for wh (v_jobs (view w') QDigest) = (if Modules.lib_by_reference then 8 else 2)%nat) w.
Proof.
  intros Hn Hnd Hlen Hnone He.
  destruct (Modules.cron_calls Modules.flushDueDigests_cron ltac:(left)) as [Hs Hw].
  eapply wp_mono; [apply (digests_multiply times wh n w Hnd Hlen); [| exact He] |].
  { rewrite Hnone. by intros ? ? ? ? ?%elem_of_nil. }
  intros r w' [_ H] rs Hr Hok. destruct (H rs Hr) as [_ Hd]. rewrite Hd, Hnone, Hn, Hs, Hw by done.
  by destruct Modules.lib_by_reference.
Qed.
End flushes.

(** ** On concrete processes *)

(** Two wallets have an entry that is due; both processes run. *)
Definition eight_times : list Z :=
  [3600001; 3600002; 3600003; 3600004; 3600005; 3600006; 3600007; 3600008].

Lemma digests_per_hour_witness :
  let run := flushes eight_times digest_world in
  (∃ rs, run.1 = Ok rs) ∧ digests_for "w1" (v_jobs (view run.2) QDigest) = 8%nat.
Proof.
  intros run. pose proof (Modules.documented_laws true) as L.
  assert (∃ rs, run.1 = Ok rs ∧ Forall (λ r, is_ok r = true) rs) as (rs & Hr & Hok).
  { eexists. split; [vm_compute; reflexivity | repeat constructor]. }
  split; [by exists rs |].
  assert (v_tables (view digest_world) MDigestQueue !! "e1" = Some (sample_entry "e1" "w1" "a" 10)) as He by reflexivity.
  refine (wp_at _ _ digest_world _ (digests_per_hour (N := Modules.documented_nest true) eight_times "w1" 2 digest_world
    eq_refl _ _ eq_refl _) eq_refl rs Hr Hok).
  - apply (bool_decide_eq_true_1 _). by vm_compute.
  - assert (forallb (λ kr : string * DigestEntry, (String.length (d_walletHash kr.2) =? 2)%nat)
      (map_to_list (v_tables (view digest_world) MDigestQueue)) = true) as H by (vm_compute; reflexivity).
    rewrite forallb_forall in H. intros k e Hk. apply Nat.eqb_eq. apply (H (k, e)).
    apply list_elem_of_In, elem_of_map_to_list, Hk.
  - exists "e1", (sample_entry "e1" "w1" "a" 10). split_and!; [exact He | reflexivity | reflexivity |].
    intros t Ht. unfold eight_times in Ht. rewrite !elem_of_cons, elem_of_nil in Ht. cbn.
    repeat (destruct Ht as [-> | Ht]; [lia |]). destruct Ht.
Defined.

(** A gateway with a secret for its storage does not start while the node of
    Irys is down. *)
Example storage_stops_the_server :
  let i := {| in_connect := Ok (); in_storage := Err (JsError "ready timed out" None);
              in_telegram _ := Ok (); in_sns _ := Ok () |} in
  (bootstrap_server (Ok ()) (λ _, init_modules i (λ _, None) Modules.server) (λ _, None)).1 = Exited 1 ∧
  bootstrap_worker (init_modules i (λ _, None) Modules.worker) = Exited 1.
Proof. by vm_compute. Qed.
